(* ===== verification/_CoqProject ===== *)
-Q . S2P
Prelude.v
CString.v
Compat.v
Bitarray.v
Smartlist.v
SmartlistHeap.v
SmartlistOrder.v
SmartlistText.v
DlList.v
Eloop.v
EloopSpec.v
Scan.v
Io.v
WpaCtrl.v
CliUtil.v
Common.v
CommonLists.v
CommonText.v
Edit.v
EditSpec.v
EditHistory.v
EditComplete.v
EditInput.v
EditRun.v
WpaIe.v
WpaCommon.v
WpaSpec.v
Printable.v
Printing.v
WpaText.v
Wpabuf.v
Bss.v
Blacklist.v
Network.v
CtrlScan.v
CtrlScanSpec.v
CtrlList.v
BssTable.v
BssTableSpec.v
CtrlBss.v
CtrlBssSpec.v
ConfigSsid.v
ConfigText.v
ConfigVars.v
ConfigSsidSpec.v
CtrlNetwork.v
CtrlNetworkSpec.v
CliCore.v
CliLists.v
CliCmdBasic.v
CliCmdMore.v
CliComplete.v
CliTable.v
CliEvents.v
CliApi.v
CliDispatch.v
CliSafety.v
CliDaemon.v
CliLifecycle.v
CliNetworks.v
CliActions.v
WifiOper.v
WifiSpec.v
ScanE2E.v
ListE2E.v
BssE2E.v
NetworkE2E.v
Select.v
SelectFits.v
SelectSpec.v
SelectPick.v
Connect.v
ConnectSpec.v
ConnectKeep.v
ConnectCmd.v
ConnectCtrl.v
Channels.v
ScanSort.v
Obss.v
ScanEvent.v
