(* ===== verification/Prelude.v ===== *)
(** * Verification of the wpa_cli wrapper

    The program is a library that lets an application talk to the
    wpa_supplicant daemon: [init_wpa_cli], [wpa_cli_execute] and
    [deinit_wpa_cli] of src/wpa_supplicant-2.6/wpa_supplicant/
    libwpa_cli_wrapper.c, a copy of the program wpa_cli without its [main] in
    which a table of commands got a second column of handlers that leave the
    daemon's reply in a buffer of the caller.  It links the control interface
    client (src/common/wpa_ctrl.c), the command line helpers (src/common/cli.c)
    and the utilities it shares with the daemon: text and bytes
    (src/utils/common.c), the event loop (eloop.c), linked lists (list.h) and
    the line editor (edit.c).  On top of it, src/wpa_cli_oper/ has Wi-Fi
    operations (wpa_cli_oper.c) and the containers and string helpers they
    bring along (smartlist.c, bitarray.c, compat.c).

    ** How the code is modelled

    A function of the program is a Rocq function of the same name.  Pure code
    returns an [outcome] (this file): a value, undefined behaviour with its
    reason, or [OutOfFuel].  Memory is modelled where the code manages it: an
    array is a [buf] of cells that are bytes or uninitialised (CString.v), and
    a read or write outside it, or of an uninitialised cell, is [UB].  A
    [char *] that may be NULL or outlive its storage is a [cptr] (CliCore.v).
    Strings are lists of bytes as [Z]; [cstring] says that none is NUL.
    Integers are [Z], with [u32], [u64], [to_int32] and [int_chk] where their
    width matters.  Effectful code runs in the monad [M E U] of Io.v: the state
    of the component [U], an environment [E] that answers system calls (class
    [OS]), and a trace of the calls.  The wrapper reaches the system, the event
    loop and the line editor by these calls; the loop and the editor are
    components of their own (Eloop, Edit), whose handlers and callbacks are
    parameters.  Theorems quantify over the
    environment; what they need of it is a class with laws: [Clock], [Inbox]
    (a socket with a queue), [Daemon] (a daemon that answers), [Heap] (enough
    memory), [Datagrams] (bounded replies).  [wp] states total correctness,
    [wlp] lets the fuel run out: it is used for absence of undefined behaviour,
    which is claimed for every fuel.

    ** Files

    - Prelude: outcomes, integers, characters, tactics ([ret_simpl], [zbool],
      [case_if]) and list facts.
    - CString, Scan: the C library on strings and buffers; scanning of
      buffers, what a buffer holds, argument vectors.
    - Io: system calls, the world, the monad, [wp]/[wlp] and [run_step],
      scripted systems for examples.
    - Compat, Bitarray, Smartlist, SmartlistHeap: compat.c; bitarray.c and the
      character tables; smartlist.c on pointers; its priority queue.
      SmartlistOrder, SmartlistText: its sorting, searching and counting, with
      [qsort] as a parameter; its functions on strings, splitting and joining.
    - DlList: list.h as a ring of pointers that represents a sequence.
    - Eloop: eloop.c in its select() build; EloopSpec: its invariant and
      theorems.
    - Edit: edit.c, with its static variables as the record [editor].
      EditSpec: the line as a cursor between two texts, one lemma per key;
      EditHistory: the invariant [edit_ok] and the history; EditComplete:
      completion; EditInput: escape sequences, search, the input handler;
      EditRun: the theorems.
    - WpaCtrl: wpa_ctrl.c on UNIX sockets.
    - CliUtil: cli.c and [hwaddr_aton] of common.c.
    - Common, CommonLists, CommonText: the rest of common.c: hexadecimal,
      escapes and SSIDs; frequency ranges and integer arrays; tokens and UTF-8.
    - WpaIe, WpaCommon: the WPA, RSN and fast transition elements of frames and
      the suites they announce (src/common/wpa_common.c,
      src/rsn_supp/wpa_ie.c), under the build options ([build]); WpaSpec,
      WpaText: their theorems.  A pointer into a frame is its offset.
    - Wpabuf: growing byte buffers (src/utils/wpabuf.c, wpabuf.h).
    - Bss: searches in the elements of scan results and BSS entries (scan.c,
      bss.c, ieee802_11_common.c).  BssTable: the table of BSS entries with the
      pointers to them and their memory as a heap (bss.c); BssTableSpec: its
      invariant and theorems.  Blacklist: blacklist.c.
    - Network: the networks of a configuration and their priority lists
      (config.c).  ConfigSsid: the variables of a network block with their
      parsers and writers and the table [ssid_fields] (config.c); ConfigText:
      that each kind of text is read back; ConfigVars: the members that each
      variable reads and writes, by an interface [VarOk] that every row of the
      table is an instance of; ConfigSsidSpec: theorems for all variables.
    - Select: which BSS entry and network the daemon chooses from the last scan
      (events.c, wpa_supplicant.c), with temporary disabling and roaming;
      SelectFits: the tests of an entry and a network end; SelectSpec: the
      loops against a reference; SelectPick: the theorems.
    - Connect: the state of the connection ([conn]) and what changes it up to
      the point where an association is queued (wpa_supplicant.c, events.c,
      sme.c, ctrl_iface.c); ConnectSpec: the invariant [conn_ok] and the frame
      [good]; ConnectKeep, ConnectCmd: that every operation keeps them;
      ConnectCtrl: commands and events as one type of steps ([request]), and
      the theorems.
    - Channels: channels, operating classes and frequencies
      (ieee802_11_common.c).  ScanSort: what is done to the results of a scan
      before they enter the table (scan.c), estimates and order.
      Obss: the report on overlapping networks (sme.c).  ScanEvent: the event of
      scan results (events.c), over ScanSort, Obss and Connect.
    - Printing, Printable: code that prints text piece by piece into a buffer,
      as the control interface does; texts without control characters.
    - The commands of ctrl_iface.c.  CtrlScan: SCAN_RESULTS; CtrlScanSpec: its
      theorems.  CtrlList: LIST_NETWORKS, BLACKLIST, LOG_LEVEL.  CtrlBss: BSS;
      CtrlBssSpec: its theorems.  CtrlNetwork: ADD_NETWORK, SET_NETWORK,
      GET_NETWORK, DUP_NETWORK; CtrlNetworkSpec: their theorems.
    - Compositions of daemon and client.  ScanE2E: from the BSS entries of the
      daemon to the list of the caller; ListE2E, BssE2E: the networks
      and the addresses in the completion lists; NetworkE2E: a
      network that is added, named and listed.
    - CliCore: the static variables ([cli]), the connection, requests.
      CliLists: the completion lists and [cli_event].  CliCmdBasic, CliCmdMore:
      the [wpa_cli_cmd_*] functions and the handlers with results, in the order
      of the source.  CliComplete: argument completion.  CliTable: the command
      table under its build options ([config]), help, editor callbacks, and
      the dispatch ([wpa_request], [wpa_request_with_result_buf]).  CliEvents:
      action scripts, pending messages, reconnection, the interactive loops.
      CliApi: [parse_line] and the library interface.
    - CliDispatch, CliSafety, CliDaemon, CliLifecycle, CliNetworks, CliActions:
      theorems about the wrapper.
    - WifiOper: wpa_cli_oper.c against the interface [WpaCli]; WifiSpec: its
      theorems, and the contract [WpaCliOk] that the library is shown to keep.

    ** What is shown

    - Execution: a line sent to a connected daemon makes exactly the request of
      its command and leaves the reply in the caller's buffer
      (CliDaemon: [wpa_cli_execute_delivers], against the specification [wire]);
      a scan works through the whole stack (WifiSpec: [wifi_scan_end_to_end]),
      and what the caller gets are the entries of the daemon's table (ScanE2E:
      [scan_reaches_caller]).
    - Daemon: whatever bytes a frame has, its elements are parsed within it
      ([wpa_ie_safe], [ft_ies_safe]); elements that are written are parsed back
      ([rsn_element_roundtrip]), as are lists of ciphers
      ([cipher_text_roundtrip]); searches find the first element, or collect
      all of a vendor ([get_ie_first], [vendor_multi_collects]); buffers hold
      what was appended ([wpabuf_append_all]); the blacklist refines a map, the
      priority lists partition the networks ([blacklist_refines],
      [networks_invariant]); no call on the table of BSS entries leaves a
      pointer to a freed entry, when the current entry has a configured name
      ([bss_table_safe]; without: [current_entry_freed]); a scan result is found
      in it, with its elements unless the old ones are kept for want of memory
      or for P2P ([scan_result_stored]).
    - Configuration: setting any variable to any text keeps the block well
      formed and the other variables as they are ([config_set_safe]; minima are
      not checked: [minimum_unchecked]); what a block shows can be set
      ([config_copy]); keys are shown as "*" only ([keys_not_shown]).
    - Choice and connection: the network that is picked is that of a reference
      without state ([pick_network_reference]), the best that suits
      ([best_network_chosen]); a network that failed waits for the time of a
      schedule ([failed_network_waits]); whatever sequence of the commands and
      events modelled comes, no freed network or entry is used
      ([network_commands_safe]; not while the interface is disabled:
      [removed_stays_current]); SELECT_NETWORK is exclusive
      ([select_network_exclusive]) and DISCONNECT lasts ([disconnect_stays]; an
      association that is queued survives it: [disconnect_leaves_work]). All
      this for transmit key indices within 0 to 3, which SET_NETWORK does not
      check ([wep_index_unchecked]).
    - Scan results: what the driver delivers is filtered, scored and entered
      into the table with the protected networks first, where the comparison is
      an order ([scan_results_processed]; it need not be: [comparison_cycle]);
      a better signal never lowers the estimate of the throughput
      ([throughput_grows]); the event from the driver to an association
      that is queued is safe, frees the results, each exactly once, and does not
      end a disconnection ([scan_event_safe], [scan_event_stays]); the report on overlapping
      networks names their channels ([obss_report_frame]); channels survive the
      way through frequencies ([channel_roundtrip], [frequency_back]).
    - Control interface: the replies stay in their buffers and are the tables
      ([scan_results_reply], [bss_command_safe], [bss_range_reply],
      [list_networks_pages]); SET_NETWORK keeps the priority lists and the
      pre-shared key up to date ([network_set_safe]), DUP_NETWORK copies
      ([dup_network_copies]); what the client's lists hold is what the daemon
      has ([networks_reach_caller], [bssids_reach_caller],
      [added_network_listed]).
    - Safety: no undefined behaviour for any system and daemon with short
      replies, for one call (CliSafety) and for any sequence of calls without a
      second life (CliLifecycle: [api_sequences_safe]); the limits are theorems
      too ([long_line_overflows], [parse_line_overflows],
      [update_networks_overflows], [reinit_uses_freed_name]).
    - Dispatch: the search implements [resolve]; every command is reached by
      its name in every build; unimplemented commands do nothing (CliDispatch).
    - Transport: requests are retried a bounded number of times, unsolicited
      messages are delivered in order, connecting leaks no descriptor (WpaCtrl).
    - Events: action scripts follow the automaton [link_step]; events keep the
      completion lists sets; the network list is what the daemon prints
      (CliActions, CliNetworks).
    - Text: command lines are written and split as specified and round trip,
      addresses print and parse (CliUtil, CliApi).
      So do SSIDs, escaped text, frequency ranges and UTF-8 text (Common,
      CommonLists, CommonText); an SSID sent without quotes is refused
      ([bare_text_refused]).
    - Event loop: every operation keeps [eloop_ok]; a loop whose handlers use
      only these operations has no undefined behaviour ([eloop_run_safe], as
      long as the signals can be counted: [signals_overflow]), and its timeouts fire in order, never early, and in the end
      ([eloop_timeouts_fire]).
    - Line editor: no input of up to 2^31 - 1 bytes makes it leave its buffers
      while memory lasts ([edit_run_safe]; [freed_entry_used],
      [search_skip_overflows]); keys
      do to the line what they promise ([edit_key_line]); typed lines reach the
      application and the history ([typed_lines_delivered]); browsing brings
      the line back ([history_walk]); the history survives its file
      ([history_file_roundtrip]).
    - Containers and helpers: the pointer array refines lists, the queue keeps
      heap order and pops a least element, sorting and removal of repetitions
      give the sorted set, splitting and joining round trip, the rings of
      list.h refine sequences, the bit array refines a set of bits, string
      helpers equal their reference definitions.

    ** Fuel

    Loops over data take the length of the data as fuel, so they never run
    out; the keys of a run of the editor are the list of its input.
    [retry_send] needs at most seven rounds when its pauses last their
    second, and a number in proportion when signals cut them short
    ([retry_send_terminates]).  [await_reply], [pending_loop] and [eloop_run]
    repeat as long as the daemon sends; one round per message suffices
    ([await_reply_delivers]).  The loop of Eloop.v runs for as long as there is
    something to wait for; its safety is shown for every fuel, and
    [eloop_timeouts_fire] gives the fuel that fires what is registered.
    [pick_loop] needs two rounds, as the blacklist is empty after one.  The
    counters of the daemon are bounded for 10^7 steps ([MANY_STEPS]), far below
    where an [int] overflows.

    ** Not modelled

    The rest of the daemon and of hostap (drivers, what the radio does with a
    queued association, key handshakes, the start and scheduling of scans, EAP, P2P, WPS,
    cryptography, credentials and the global variables of the configuration,
    the format of its file, the other commands of the control interface); the
    original wpa_cli.c and the test programs; the ANDROID,
    UDP and named pipe variants of the client; the poll, epoll and kqueue
    builds of the loop.  Frees are only modelled where a dangling pointer is
    used again. *)

From stdpp Require Export base tactics list list_numbers strings gmap.
From Stdlib Require Export ZArith Lia.


Declare Scope c_scope.
Delimit Scope c_scope with C.
#[global] Open Scope Z_scope.

(** [lia] decides division and remainder by a constant. *)
#[global] Ltac Zify.zify_post_hook ::= Z.to_euclidean_division_equations.

(** ** Outcomes of C code

    A translated function either returns a value, reaches a point where the C
    program has undefined behaviour (out-of-bounds access, use of a dangling
    or wild pointer, signed overflow), or has consumed the fuel of a loop the
    source does not bound. *)
Inductive outcome (A : Type) : Type :=
  | Ret (a : A)
  | UB (why : string)
  | OutOfFuel.
Arguments Ret {A} a.
Arguments UB {A} why.
Arguments OutOfFuel {A}.

#[export] Instance outcome_ret : MRet outcome := λ A a, Ret a.
#[export] Instance outcome_bind : MBind outcome := λ A B f m,
  match m with
  | Ret a => f a
  | UB w => UB w
  | OutOfFuel => OutOfFuel
  end.

Definition is_ret {A} (m : outcome A) : bool :=
  match m with Ret _ => true | _ => false end.

Definition is_ub {A} (m : outcome A) : bool :=
  match m with UB _ => true | _ => false end.

Lemma outcome_bind_ret {A B} (a : A) (f : A → outcome B) :
  (Ret a ≫= f) = f a.
Proof. reflexivity. Qed.

Lemma outcome_bind_inv {A B} (m : outcome A) (f : A → outcome B) b :
  m ≫= f = Ret b → ∃ a, m = Ret a ∧ f a = Ret b.
Proof. destruct m; simpl; try discriminate. eauto. Qed.

Lemma outcome_bind_assoc {A B D} (m : outcome A) (f : A → outcome B)
    (g : B → outcome D) :
  (m ≫= f) ≫= g = m ≫= (λ a, f a ≫= g).
Proof. by destruct m. Qed.

(** An access the C standard leaves undefined when it fails. *)
Definition need {A} (why : string) (o : option A) : outcome A :=
  match o with Some a => Ret a | None => UB why end.

Lemma need_Ret {A} why (o : option A) a : need why o = Ret a ↔ o = Some a.
Proof. destruct o; simpl; split; congruence. Qed.

(** ** Integers at the width of the C types *)
Definition INT_MAX : Z := 2147483647.
Definition INT_MIN : Z := -2147483648.
Definition u32 (x : Z) : Z := x mod 4294967296.
Definition u64 (x : Z) : Z := x mod 18446744073709551616.
Definition in_int (x : Z) : bool := (INT_MIN <=? x) && (x <=? INT_MAX).

(** A [char] read from memory as the 8-bit value [c] and promoted to [int]
    on a platform where [char] is signed. *)
Definition sext8 (c : Z) : Z := if c <? 128 then c else c - 256.

(** Signed addition: overflow is undefined behaviour. *)
Definition int_chk (x : Z) : outcome Z :=
  if in_int x then Ret x else UB "signed overflow".

Lemma int_chk_Ret x y : int_chk x = Ret y ↔ x = y ∧ INT_MIN ≤ x ≤ INT_MAX.
Proof.
  unfold int_chk, in_int. destruct (INT_MIN <=? x) eqn:E1;
    destruct (x <=? INT_MAX) eqn:E2; simpl; split; try discriminate;
    intros H; try (destruct H; lia); try (injection H as <-; lia).
  destruct H as [-> ?]. done.
Qed.

(** C booleans and comparisons as [int]. *)
Definition b2z (b : bool) : Z := if b then 1 else 0.

(** ** Characters and literals *)
Abbreviation str := (list Z) (only parsing).

Definition ch (a : Ascii.ascii) : Z := Z.of_N (Ascii.N_of_ascii a).
Definition lit (s : string) : str := map ch (String.list_ascii_of_string s).

Definition NUL : Z := 0.
Definition TAB : Z := 9.
Definition NL : Z := 10.
Definition SP : Z := 32.
Definition DQ : Z := 34.
Definition LT : Z := 60.
Definition EQ : Z := 61.
Definition GT : Z := 62.
Definition RB : Z := 93.

(** A line of output. *)
Definition line (s : string) : str := lit s ++ [NL].

(** A C string: no NUL byte, every byte at its width. *)
Definition cstring (s : str) : Prop := Forall (λ c, 0 < c < 256) s.

Lemma ch_range a : 0 ≤ ch a < 256.
Proof.
  unfold ch. pose proof (Ascii.N_ascii_bounded a). lia.
Qed.

Lemma lit_app s1 s2 : lit (s1 +:+ s2) = lit s1 ++ lit s2.
Proof.
  unfold lit. rewrite <- map_app. f_equal.
  induction s1 as [|a s1 IH]; simpl; [done|]. by f_equal.
Qed.

#[export] Instance cstring_dec s : Decision (cstring s).
Proof. unfold cstring. apply _. Defined.

Lemma cstring_app s1 s2 : cstring (s1 ++ s2) ↔ cstring s1 ∧ cstring s2.
Proof. apply Forall_app. Qed.

(** ** Tactics of the development *)

(** Open one monadic step of a hypothesis that says the code returned. *)
Ltac inv_ret H :=
  let a := fresh "a" in let Ha := fresh "Hr" in
  apply outcome_bind_inv in H as (a & Ha & H).

(** Run the monadic steps whose first part has returned. *)
Ltac ret_simpl := cbn [mbind outcome_bind mret outcome_ret need].

(** Boolean comparisons of the code to propositions. *)
Ltac zbool :=
  repeat match goal with
  | H : (_ <? _) = true |- _ => apply Z.ltb_lt in H
  | H : (_ <? _) = false |- _ => apply Z.ltb_ge in H
  | H : (_ <=? _) = true |- _ => apply Z.leb_le in H
  | H : (_ <=? _) = false |- _ => apply Z.leb_gt in H
  | H : (_ =? _) = true |- _ => apply Z.eqb_eq in H
  | H : (_ =? _) = false |- _ => apply Z.eqb_neq in H
  | H : (_ && _) = true |- _ => apply andb_true_iff in H as [? ?]
  | H : (_ || _) = false |- _ => apply orb_false_iff in H as [? ?]
  end.

(** Case analysis on the innermost test of the goal. *)
Ltac case_if :=
  match goal with
  | |- context [if ?b then _ else _] =>
      let E := fresh "E" in destruct b eqn:E; zbool
  end.

Create HintDb cstr discriminated.
#[export] Hint Resolve ch_range : cstr.
Create Rewrite HintDb outcome.
#[export] Hint Rewrite @outcome_bind_ret : outcome.

(** ** Generic list facts *)

Lemma list_lookup_total_Z {A} (l : list A) (i : Z) :
  0 ≤ i < Z.of_nat (length l) → is_Some (l !! Z.to_nat i).
Proof. intros. apply lookup_lt_is_Some. lia. Qed.

Lemma take_S_lookup {A} (l : list A) n x :
  l !! n = Some x → take (S n) l = take n l ++ [x].
Proof. apply take_S_r. Qed.

Lemma Forall_byte_range (P : Z → Prop) n :
  Forall P (map Z.of_nat (seq 0 n)) → ∀ x, 0 ≤ x < Z.of_nat n → P x.
Proof.
  intros HF x Hx. rewrite Forall_forall in HF. apply HF.
  apply list_elem_of_In, in_map_iff. exists (Z.to_nat x). split; [lia|].
  apply in_seq. lia.
Qed.

(** Decide a property of all byte values by evaluation. *)
Lemma forall_byte_reflect (p : Z → bool) :
  forallb p (map Z.of_nat (seq 0 256)) = true → ∀ x, 0 ≤ x < 256 → p x = true.
Proof.
  intros H x Hx. rewrite forallb_forall in H. apply H, in_map_iff.
  exists (Z.to_nat x). split; [lia|]. apply in_seq. lia.
Qed.

(** Rearranging a list rearranges what a filter keeps. *)
#[export] Instance bool_filter_perm {A} (p : A → bool) :
  Proper ((≡ₚ) ==> (≡ₚ)) (List.filter p).
Proof.
  intros l k H. induction H as [|x l k H IH|x y l|l1 l2 l3 H1 IH1 H2 IH2]; simpl.
  - done.
  - destruct (p x); [by f_equiv|done].
  - destruct (p x), (p y); try done. apply Permutation_swap.
  - by rewrite IH1.
Qed.

(** Reading an updated list through [nth]. *)
Lemma nth_insert (l : list Z) i j w :
  (i < length l)%nat → nth j (<[i := w]> l) 0 = if decide (i = j) then w else nth j l 0.
Proof.
  intros Hi. rewrite !nth_lookup. case_decide as E.
  - subst. by rewrite list_lookup_insert_eq.
  - by rewrite list_lookup_insert_ne.
Qed.
