(* ===== verification/CString.v ===== *)
(** * C strings, character buffers and the string functions of the C library

    A string value is the list of its bytes up to the terminator.  A buffer is
    a block of memory cells, [None] standing for a cell that was never
    written; every access is checked, and a bad one is undefined behaviour. *)

From S2P Require Import Prelude.

(** ** Strings as values *)

Definition strlen (s : str) : Z := Z.of_nat (length s).

Definition str_eqb (a b : str) : bool := bool_decide (a = b).

Fixpoint strcmp (a b : str) : Z :=
  match a, b with
  | [], [] => 0
  | [], _ => -1
  | _, [] => 1
  | x :: a', y :: b' => if x =? y then strcmp a' b' else if x <? y then -1 else 1
  end.

Definition tolower (c : Z) : Z := if (65 <=? c) && (c <=? 90) then c + 32 else c.
Definition toupper (c : Z) : Z := if (97 <=? c) && (c <=? 122) then c - 32 else c.

(** [strncmp(a, b, n)] and [strncasecmp(a, b, n)] as tests for equality. *)
Fixpoint strn_eq (f : Z → Z) (n : nat) (a b : str) : bool :=
  match n, a, b with
  | O, _, _ => true
  | _, [], [] => true
  | S n', x :: a', y :: b' => (f x =? f y) && strn_eq f n' a' b'
  | _, _, _ => false
  end.

Definition strncmp_eq (a b : str) (n : nat) : bool := strn_eq (λ c, c) n a b.
Definition strncasecmp_eq (a b : str) (n : nat) : bool := strn_eq tolower n a b.
Definition strcasecmp_eq (a b : str) : bool := str_eqb (tolower <$> a) (tolower <$> b).

(** The index [strchr] finds; the terminator is found at the end. *)
Fixpoint strchr (s : str) (c : Z) : option nat :=
  match s with
  | [] => if c =? 0 then Some O else None
  | x :: s' => if x =? c then Some O else S <$> strchr s' c
  end.

Fixpoint strrchr (s : str) (c : Z) : option nat :=
  match s with
  | [] => if c =? 0 then Some O else None
  | x :: s' =>
      match strrchr s' c with
      | Some i => Some (S i)
      | None => if x =? c then Some O else None
      end
  end.

Fixpoint is_prefix (p s : str) : bool :=
  match p, s with
  | [], _ => true
  | x :: p', y :: s' => (x =? y) && is_prefix p' s'
  | _, _ => false
  end.

Fixpoint strstr (s p : str) : option nat :=
  if is_prefix p s then Some O
  else match s with [] => None | _ :: s' => S <$> strstr s' p end.

(** [strtok_r]: the next token of the rest of the text and what follows it. *)
Fixpoint skip_delim (delim : str) (s : str) : str :=
  match s with
  | c :: s' => if bool_decide (c ∈ delim) then skip_delim delim s' else s
  | [] => []
  end.

Fixpoint take_token (delim : str) (s : str) : str * str :=
  match s with
  | [] => ([], [])
  | c :: s' =>
      if bool_decide (c ∈ delim) then ([], s')
      else let '(t, r) := take_token delim s' in (c :: t, r)
  end.

Definition strtok_r (delim : str) (s : str) : option str * str :=
  match skip_delim delim s with
  | [] => (None, [])
  | s' => let '(t, r) := take_token delim s' in (Some t, r)
  end.

(** [isspace] of the C locale and [atoi] as glibc computes it: [strtol]
    saturated at the width of [long], then truncated to [int]. *)
Definition isspace (c : Z) : bool := ((9 <=? c) && (c <=? 13)) || (c =? 32).
Definition isdigit (c : Z) : bool := (48 <=? c) && (c <=? 57).

Fixpoint skip_space (s : str) : str :=
  match s with c :: s' => if isspace c then skip_space s' else s | [] => [] end.

Fixpoint digits_val (acc : Z) (s : str) : Z :=
  match s with
  | c :: s' => if isdigit c then digits_val (10 * acc + (c - 48)) s' else acc
  | [] => acc
  end.

Definition to_int32 (x : Z) : Z := (x + 2147483648) mod 4294967296 - 2147483648.

Definition atoi (s : str) : Z :=
  let clamp x := Z.max (-9223372036854775808) (Z.min 9223372036854775807 x) in
  match skip_space s with
  | 45 :: s' => to_int32 (clamp (- digits_val 0 s'))
  | 43 :: s' => to_int32 (clamp (digits_val 0 s'))
  | s' => to_int32 (clamp (digits_val 0 s'))
  end.

(** ** Formatting *)

Definition hex_digit (n : Z) : Z := if n <? 10 then 48 + n else 87 + n.

Fixpoint fmt_base (fuel : nat) (base n : Z) (acc : str) : str :=
  match fuel with
  | O => acc
  | S fuel' =>
      let acc' := hex_digit (n mod base) :: acc in
      if n <? base then acc' else fmt_base fuel' base (n / base) acc'
  end.

(** "%u" and "%d" of values of [int] width. *)
Definition fmt_u (n : Z) : str := fmt_base 11 10 n [].
Definition fmt_d (n : Z) : str := if n <? 0 then 45 :: fmt_u (- n) else fmt_u n.

(** "%02x" of an [unsigned int]. *)
Definition fmt_02x (n : Z) : str :=
  let s := fmt_base 8 16 n [] in
  if (length s <? 2)%nat then 48 :: s else s.

(** ** Buffers *)

Abbreviation buf := (list (option Z)) (only parsing).

Definition uninit (n : Z) : buf := replicate (Z.to_nat n) None.
Definition zeros (n : Z) : buf := replicate (Z.to_nat n) (Some 0).
Definition cells (s : list Z) : buf := Some <$> s.

Definition buf_get (b : buf) (i : Z) : outcome Z :=
  if i <? 0 then UB "read below the buffer"
  else match b !! Z.to_nat i with
       | Some (Some c) => Ret c
       | Some None => UB "read of an uninitialised byte"
       | None => UB "read past the buffer"
       end.

Definition buf_write (b : buf) (i : Z) (s : list Z) : outcome buf :=
  if (0 <=? i) && (i + strlen s <=? Z.of_nat (length b)) then
    Ret (take (Z.to_nat i) b ++ cells s ++ drop (Z.to_nat i + length s) b)
  else UB "write outside the buffer".

Definition buf_set (b : buf) (i c : Z) : outcome buf := buf_write b i [c].

(** The string that starts at the front of a run of cells. *)
Fixpoint cells_str (b : buf) : outcome str :=
  match b with
  | [] => UB "string runs past the buffer"
  | None :: _ => UB "read of an uninitialised byte"
  | Some c :: b' => if c =? 0 then Ret [] else s ← cells_str b'; Ret (c :: s)
  end.

Definition buf_str (b : buf) (i : Z) : outcome str :=
  if i <? 0 then UB "read below the buffer" else cells_str (drop (Z.to_nat i) b).

(** [snprintf(b + off, size, fmt, ...)] where the conversion gives [t]. *)
Definition snprintf (b : buf) (off size : Z) (t : str) : outcome (Z * buf) :=
  if size =? 0 then Ret (strlen t, b)
  else b' ← buf_write b off (take (Z.to_nat (size - 1)) t ++ [0]);
       Ret (strlen t, b').

(** [strcpy(b + off, s)]. *)
Definition strcpy (b : buf) (off : Z) (s : str) : outcome buf :=
  buf_write b off (s ++ [0]).

(** [os_strlcpy(b, s, siz)] on the whole buffer. *)
Definition os_strlcpy (b : buf) (s : str) (siz : Z) : outcome (Z * buf) :=
  if siz =? 0 then Ret (strlen s, b)
  else b' ← buf_write b 0 (take (Z.to_nat (siz - 1)) s ++ [0]); Ret (strlen s, b').

(** [os_snprintf_error] of utils/os.h. *)
Definition os_snprintf_error (size res : Z) : bool := (res <? 0) || (size <=? u32 res).

(** ** Lemmas on buffers *)

Lemma cells_length s : length (cells s) = length s.
Proof. apply length_fmap. Qed.

Lemma strlen_nonneg s : 0 ≤ strlen s.
Proof. unfold strlen. lia. Qed.

Lemma strlen_app s t : strlen (s ++ t) = strlen s + strlen t.
Proof. unfold strlen. rewrite length_app. lia. Qed.

Lemma strlen_snoc s c : strlen (s ++ [c]) = strlen s + 1.
Proof. by rewrite strlen_app. Qed.

Lemma buf_write_Ret b i s b' :
  buf_write b i s = Ret b' ↔
  0 ≤ i ∧ i + strlen s ≤ Z.of_nat (length b) ∧
  b' = take (Z.to_nat i) b ++ cells s ++ drop (Z.to_nat i + length s) b.
Proof.
  unfold buf_write. destruct (0 <=? i) eqn:E1, (i + strlen s <=? _) eqn:E2;
    zbool; simpl; split; try discriminate; try (intros (?&?&?); lia).
  - intros [= <-]. done.
  - by intros (_ & _ & ->).
Qed.

Lemma buf_write_length b i s b' :
  buf_write b i s = Ret b' → length b' = length b.
Proof.
  intros (? & ? & ->)%buf_write_Ret. unfold strlen in *.
  rewrite !length_app, length_take, cells_length, length_drop. lia.
Qed.

Lemma buf_write_defined b i s :
  0 ≤ i → i + strlen s ≤ Z.of_nat (length b) → ∃ b', buf_write b i s = Ret b'.
Proof. intros. eexists. apply buf_write_Ret. split_and!; done. Qed.

Lemma cells_str_app s b :
  cstring s → cells_str (cells s ++ Some 0 :: b) = Ret s.
Proof.
  induction s as [|c s IH]; intros Hs; [done|].
  apply Forall_cons in Hs as [Hc Hs]. simpl.
  destruct (c =? 0) eqn:E; zbool; [lia|].
  fold (cells s). by rewrite IH.
Qed.

(** A string written with its terminator reads back. *)
Lemma buf_str_written b i s b' :
  cstring s → buf_write b i (s ++ [0]) = Ret b' → buf_str b' i = Ret s.
Proof.
  intros Hs (H0 & H1 & ->)%buf_write_Ret. unfold buf_str, strlen in *.
  rewrite length_app in *. simpl in *.
  destruct (i <? 0) eqn:E; zbool; [lia|].
  rewrite drop_app_length' by (rewrite length_take; lia).
  unfold cells. rewrite fmap_app, <- app_assoc. simpl.
  by apply cells_str_app.
Qed.

(** ** Lemmas on strings *)

Lemma is_prefix_spec p s : is_prefix p s = true ↔ ∃ t, s = p ++ t.
Proof.
  revert s. induction p as [|x p IH]; intros s; simpl.
  - split; eauto.
  - destruct s as [|y s]; [split; [done|by intros [t [=]]]|].
    rewrite andb_true_iff, IH, Z.eqb_eq. split.
    + intros [-> [t ->]]. eauto.
    + intros [t [= -> ->]]. eauto.
Qed.

Lemma str_eqb_eq a b : str_eqb a b = true ↔ a = b.
Proof. apply bool_decide_eq_true. Qed.

Lemma strcmp_eq a b : strcmp a b = 0 ↔ a = b.
Proof.
  revert b. induction a as [|x a IH]; intros [|y b]; simpl; try (split; lia || done).
  destruct (x =? y) eqn:E; zbool.
  - subst. rewrite IH. split; congruence.
  - destruct (x <? y); split; try lia; congruence.
Qed.

Lemma strn_eq_take f n a b :
  strn_eq f n a b = true ↔ (f <$> take n a) = (f <$> take n b).
Proof.
  revert a b. induction n as [|n IH]; intros [|x a] [|y b]; simpl; try (split; done).
  rewrite andb_true_iff, Z.eqb_eq, IH. split; [intros [? ?]; by f_equal|by intros [= ? ?]].
Qed.

Lemma strchr_Some s c i :
  strchr s c = Some i → c ≠ 0 →
  s !! i = Some c ∧ c ∉ take i s.
Proof.
  intros H Hc. revert i H. induction s as [|x s IH]; simpl; intros i H.
  - destruct (c =? 0) eqn:E; zbool; [lia|done].
  - destruct (x =? c) eqn:E; zbool.
    + injection H as <-. subst. split; [done|]. apply not_elem_of_nil.
    + destruct (strchr s c) as [k|]; simpl in H; [|done]. injection H as <-.
      destruct (IH k eq_refl) as [H1 H2]. split; [done|]. simpl.
      rewrite not_elem_of_cons. split; [congruence|done].
Qed.

Lemma strchr_None s c : strchr s c = None → c ∉ s.
Proof.
  induction s as [|x s IH]; simpl; intros H; [apply not_elem_of_nil|].
  destruct (x =? c) eqn:E; zbool; [done|].
  destruct (strchr s c); [done|]. apply not_elem_of_cons. split; [congruence|auto].
Qed.

Lemma strchr_end s : cstring s → strchr s 0 = Some (length s).
Proof.
  induction s as [|c s IH]; intros Hs; [done|]. apply Forall_cons in Hs as [Hc Hs].
  simpl. destruct (c =? 0) eqn:E; zbool; [lia|]. by rewrite IH.
Qed.

(** [strstr] finds the first occurrence. *)
Lemma strstr_Some s p i :
  strstr s p = Some i ↔
  is_prefix p (drop i s) = true ∧ (i ≤ length s)%nat ∧
  ∀ k, (k < i)%nat → is_prefix p (drop k s) = false.
Proof.
  revert i. induction s as [|x s IH]; intros i; cbn [strstr].
  - destruct (is_prefix p []) eqn:E; split.
    + intros [= <-]. split_and!; [done|simpl; lia|lia].
    + intros (_ & Hl & _). simpl in Hl. f_equal. lia.
    + done.
    + intros (H & Hl & _). simpl in Hl. replace i with 0%nat in H by lia.
      rewrite drop_0 in H. congruence.
  - destruct (is_prefix p (x :: s)) eqn:E; split.
    + intros [= <-]. split_and!; [done|lia|lia].
    + intros (_ & _ & H). destruct i as [|i]; [done|].
      specialize (H 0%nat ltac:(lia)). rewrite drop_0 in H. congruence.
    + destruct (strstr s p) as [k|]; [|done]. simpl. intros [= <-].
      destruct (proj1 (IH k) eq_refl) as (H1 & H2 & H3). split_and!; [done|simpl; lia|].
      intros [|m] Hm; [done|]. apply H3. lia.
    + intros (H1 & H2 & H3). destruct i as [|i].
      { rewrite drop_0 in H1. congruence. }
      assert (Hi : strstr s p = Some i); [|by rewrite Hi].
      apply IH. split_and!; [done|simpl in H2; lia|].
      intros k Hk. by apply (H3 (S k)); lia.
Qed.

Lemma strstr_None s p i :
  strstr s p = None → (i ≤ length s)%nat → is_prefix p (drop i s) = false.
Proof.
  revert i. induction s as [|x s IH]; intros i; cbn [strstr].
  - destruct (is_prefix p []) eqn:E; [done|]. intros _ Hi. simpl in Hi.
    replace i with 0%nat by lia. done.
  - destruct (is_prefix p (x :: s)) eqn:E; [done|].
    destruct (strstr s p) eqn:E'; [done|]. intros _ Hi.
    destruct i as [|i]; [done|]. apply IH; [done|simpl in Hi; lia].
Qed.

(** Writing a run of bytes in two goes. *)
Lemma buf_write_app b i s t :
  0 ≤ i →
  (b' ← buf_write b i s; buf_write b' (i + strlen s) t) = buf_write b i (s ++ t).
Proof.
  intros Hi. unfold buf_write, strlen. rewrite length_app.
  rewrite (proj2 (Z.leb_le 0 i)), (proj2 (Z.leb_le 0 (i + _))) by lia. simpl.
  destruct (i + Z.of_nat (length s) <=? Z.of_nat (length b)) eqn:E; zbool; simpl.
  - rewrite !length_app, length_take, cells_length, length_drop.
    replace (Z.to_nat i `min` length b + (length s + (length b - (Z.to_nat i + length s))))%nat
      with (length b) by lia.
    destruct (_ <=? Z.of_nat (length b)) eqn:E2; zbool; simpl;
      destruct (i + Z.of_nat (length s + length t) <=? _) eqn:E3; zbool;
      try lia; [|done].
    f_equal. unfold cells. rewrite fmap_app, <- !app_assoc.
    replace (Z.to_nat (i + Z.of_nat (length s))) with (Z.to_nat i + length s)%nat by lia.
    rewrite (app_assoc (take (Z.to_nat i) b) (Some <$> s)).
    rewrite take_app_length', drop_app_add', drop_drop
      by (rewrite length_app, length_take, length_fmap; lia).
    by rewrite <- app_assoc, Nat.add_assoc.
  - destruct (i + Z.of_nat (length s + length t) <=? _) eqn:E3; zbool; [lia|done].
Qed.

Lemma buf_get_lookup b i c :
  0 ≤ i → b !! Z.to_nat i = Some (Some c) → buf_get b i = Ret c.
Proof.
  intros Hi H. unfold buf_get. destruct (i <? 0) eqn:E; zbool; [lia|]. by rewrite H.
Qed.

Lemma str_cells_get s i c :
  s !! i = Some c → buf_get (cells (s ++ [0])) (Z.of_nat i) = Ret c.
Proof.
  intros H. apply buf_get_lookup; [lia|]. rewrite Nat2Z.id. unfold cells.
  rewrite list_lookup_fmap, lookup_app_l; [by rewrite H|by eapply lookup_lt_Some].
Qed.

Lemma str_cells_end s : buf_get (cells (s ++ [0])) (strlen s) = Ret 0.
Proof.
  apply buf_get_lookup; [unfold strlen; lia|]. unfold cells, strlen.
  by rewrite Nat2Z.id, list_lookup_fmap, list_lookup_middle.
Qed.

(** An occurrence read character by character. *)
Lemma is_prefix_lookup p s i :
  is_prefix p s = true → (i < length p)%nat → s !! i = p !! i.
Proof. intros [t ->]%is_prefix_spec Hi. by apply lookup_app_l. Qed.

Lemma is_prefix_length p s : is_prefix p s = true → (length p ≤ length s)%nat.
Proof. intros [t ->]%is_prefix_spec. rewrite length_app. lia. Qed.

Lemma is_prefix_drop_step p s i j x :
  p !! j = Some x →
  is_prefix (drop j p) (drop i s) = true ↔
  s !! i = Some x ∧ is_prefix (drop (S j) p) (drop (S i) s) = true.
Proof.
  intros Hp. rewrite (drop_S p x j Hp). destruct (s !! i) as [y|] eqn:Hs.
  - rewrite (drop_S s y i Hs). simpl. rewrite andb_true_iff, Z.eqb_eq.
    split; [intros [-> ?]; done|intros [[= ->] ?]; done].
  - rewrite (drop_ge s i) by (by apply lookup_ge_None). simpl. split; [done|by intros [? _]].
Qed.

(** ** Single cells *)

Lemma buf_set_Ret b i c b' :
  buf_set b i c = Ret b' ↔
  0 ≤ i < Z.of_nat (length b) ∧ b' = <[Z.to_nat i := Some c]> b.
Proof.
  unfold buf_set. rewrite buf_write_Ret. unfold strlen. simpl. split.
  - intros (H0 & H1 & ->). split; [lia|]. rewrite insert_take_drop by lia.
    do 3 f_equal. lia.
  - intros [Hi ->]. split_and!; [lia..|]. rewrite insert_take_drop by lia.
    do 3 f_equal. lia.
Qed.

Lemma buf_set_defined b i c : 0 ≤ i < Z.of_nat (length b) → ∃ b', buf_set b i c = Ret b'.
Proof. intros Hi. eexists. by apply buf_set_Ret. Qed.

Lemma cells_str_intro b s :
  cstring s → (∀ i c, s !! i = Some c → b !! i = Some (Some c)) →
  b !! length s = Some (Some 0) → cells_str b = Ret s.
Proof.
  intros Hs Hb He.
  assert (Hd : b = cells s ++ Some 0 :: drop (S (length s)) b).
  { rewrite <- (take_drop_middle b (length s) (Some 0) He) at 1. f_equal.
    apply list_eq_same_length with (length s); [by rewrite cells_length| |].
    - rewrite length_take. apply lookup_lt_Some in He. lia.
    - intros i x y Hi. unfold cells. rewrite lookup_take, list_lookup_fmap by done.
      destruct (s !! i) as [c|] eqn:Ei; simpl; [|done].
      rewrite (Hb _ _ Ei). case_decide; congruence. }
  rewrite Hd. by apply cells_str_app.
Qed.

Lemma cells_str_lookup b s :
  cells_str b = Ret s →
  (∀ i c, s !! i = Some c → b !! i = Some (Some c)) ∧ b !! length s = Some (Some 0).
Proof.
  revert s. induction b as [|[c|] b IH]; simpl; intros s H; [done| |done].
  destruct (c =? 0) eqn:E; zbool.
  - injection H as <-. subst. split; [done|done].
  - destruct (cells_str b) as [t|w|] eqn:Et; simpl in H; try done. injection H as <-.
    destruct (IH t eq_refl) as [H1 H2]. split; [|done].
    intros [|i] x Hx; simpl in *; [congruence|auto].
Qed.
