(* ===== verification/Compat.v ===== *)
(** * Portable string helpers (wpa_cli_oper/compat.c) *)

From S2P Require Import Prelude CString.

(** [malloc] always succeeds in this component: the source does not test its
    result. *)
Definition smp_strndup (s : str) (n : nat) : buf :=
  cells (take n s ++ replicate (n - length s) 0 ++ [0]).

Definition smp_strdup (s : str) : buf := smp_strndup s (length s).

(** The copy loop of [smp_strlcpy]: [n] is the room left, [d] the write
    position. *)
Fixpoint strlcpy_loop (dst : buf) (d n : Z) (src : str) : outcome (buf * Z) :=
  match src with
  | [] => Ret (dst, d)
  | c :: src' =>
      if negb (n =? 1) then
        dst' ← buf_set dst d c;
        strlcpy_loop dst' (d + 1) (n - 1) src'
      else strlcpy_loop dst d n src'
  end.

Definition smp_strlcpy (dst : buf) (src : str) (siz : Z) : outcome (Z * buf) :=
  if siz =? 0 then Ret (strlen src, dst)
  else
    '(dst1, d) ← strlcpy_loop dst 0 siz src;
    dst2 ← buf_set dst1 d 0;
    Ret (strlen src, dst2).

(** [smp_strstrip]: [read] and [s] are positions in the same buffer. *)
Fixpoint strstrip_loop (fuel : nat) (b : buf) (read s : Z) (strip : str)
    : outcome buf :=
  match fuel with
  | O => OutOfFuel
  | S fuel' =>
      c ← buf_get b read;
      if c =? 0 then buf_set b s 0
      else match strchr strip c with
           | Some _ => strstrip_loop fuel' b (read + 1) s strip
           | None =>
               b' ← buf_set b s c;
               strstrip_loop fuel' b' (read + 1) (s + 1) strip
           end
  end.

Definition smp_strstrip (b : buf) (strip : str) : outcome buf :=
  strstrip_loop (S (length b)) b 0 0 strip.

(** [smp_vsnprintf]: [t] is the text the conversion produces, [None] an
    encoding error of [vsnprintf]. *)
Definition SIZE_T_CEILING : Z := 4294967295 - 16.

Definition smp_vsnprintf (b : buf) (size : Z) (t : option str) : outcome (Z * buf) :=
  if size =? 0 then Ret (-1, b)
  else if SIZE_T_CEILING <? size then Ret (-1, b)
  else
    '(r, b1) ← match t with
               | Some t => snprintf b 0 size t
               | None => Ret (-1, b)
               end;
    b2 ← buf_set b1 (size - 1) 0;
    if (r <? 0) || (size <=? r) then Ret (-1, b2) else Ret (r, b2).

Definition smp_snprintf := smp_vsnprintf.

(** ** Substring search *)

(** [s[i]] with the terminator readable. *)
Definition str_at (s : str) (i : Z) : outcome Z := buf_get (cells (s ++ [0])) i.

(** The comparison loop: the number of characters of [s2] matched at [ind]. *)
Fixpoint sunday_match (fuel : nat) (s1 s2 : str) (i j nlen2 : Z) : outcome Z :=
  match fuel with
  | O => OutOfFuel
  | S fuel' =>
      if j <? nlen2 then
        a ← str_at s1 i;
        b ← str_at s2 j;
        if a =? b then sunday_match fuel' s1 s2 (i + 1) (j + 1) nlen2 else Ret j
      else Ret j
  end.

(** The last position of [c] in [s2] at or below [k], or -1. *)
Fixpoint sunday_last (fuel : nat) (s2 : str) (k c : Z) : outcome Z :=
  match fuel with
  | O => OutOfFuel
  | S fuel' =>
      if 0 <=? k then
        b ← str_at s2 k;
        if b =? c then Ret k else sunday_last fuel' s2 (k - 1) c
      else Ret k
  end.

Fixpoint sunday_loop (fuel : nat) (s1 s2 : str) (ind : Z) : outcome Z :=
  match fuel with
  | O => OutOfFuel
  | S fuel' =>
      let nlen1 := strlen s1 in
      let nlen2 := strlen s2 in
      if ind + nlen2 <=? nlen1 then
        j ← sunday_match (S (length s2)) s1 s2 ind 0 nlen2;
        if j =? nlen2 then Ret ind
        else
          c ← str_at s1 (ind + nlen2);
          k ← sunday_last (S (length s2)) s2 (nlen2 - 1) c;
          if 0 <? k then sunday_loop fuel' s1 s2 (ind + nlen2 - k)
          else sunday_loop fuel' s1 s2 (ind + nlen2 + 1)
      else Ret (-1)
  end.

Definition smp_sunday_search (s1 s2 : str) : outcome Z :=
  sunday_loop (S (S (length s1))) s1 s2 0.

Example sunday_1 : smp_sunday_search (lit "hello world") (lit "o w") = Ret 4.
Proof. reflexivity. Qed.
Example sunday_2 : smp_sunday_search (lit "xxab") (lit "ab") = Ret (-1).
Proof. reflexivity. Qed.

(** ** Correctness of the search *)

Lemma str_at_lt s i c : s !! i = Some c → str_at s (Z.of_nat i) = Ret c.
Proof. apply str_cells_get. Qed.

Lemma sunday_match_spec fuel s1 s2 i j :
  (length s2 < j + fuel)%nat → (j ≤ length s2)%nat →
  (i + (length s2 - j) ≤ length s1)%nat →
  ∃ j', sunday_match fuel s1 s2 (Z.of_nat i) (Z.of_nat j) (strlen s2) = Ret j' ∧
    (j' = strlen s2 ↔ is_prefix (drop j s2) (drop i s1) = true).
Proof.
  unfold strlen. revert i j. induction fuel as [|fuel IH]; intros i j Hf Hj Hi; [lia|].
  cbn [sunday_match]. destruct (Z.of_nat j <? _) eqn:E; zbool.
  - destruct (lookup_lt_is_Some_2 s2 j ltac:(lia)) as [b Hb].
    destruct (lookup_lt_is_Some_2 s1 i ltac:(lia)) as [a Ha].
    rewrite (str_at_lt _ _ _ Ha), (str_at_lt _ _ _ Hb); ret_simpl.
    pose proof (is_prefix_drop_step s2 s1 i j b Hb) as Hstep. rewrite Ha in Hstep.
    destruct (a =? b) eqn:Eab; zbool.
    + subst b. destruct (IH (S i) (S j)) as (j' & Hr & Hp); [lia..|].
      exists j'. replace (Z.of_nat i + 1) with (Z.of_nat (S i)) by lia.
      replace (Z.of_nat j + 1) with (Z.of_nat (S j)) by lia. split; [done|].
      rewrite Hp, Hstep. intuition.
    + exists (Z.of_nat j). split; [done|]. split; [lia|].
      intros [[= ?] _]%Hstep. done.
  - exists (Z.of_nat j). split; [done|]. split; [|lia]. intros _.
    by rewrite (drop_ge s2) by lia.
Qed.

Lemma sunday_last_spec fuel s2 k c :
  (k ≤ length s2)%nat → (k < fuel)%nat →
  ∃ k', sunday_last fuel s2 (Z.of_nat k - 1) c = Ret k' ∧ -1 ≤ k' < Z.of_nat k ∧
    (0 ≤ k' → s2 !! Z.to_nat k' = Some c) ∧
    ∀ m, k' < Z.of_nat m < Z.of_nat k → s2 !! m ≠ Some c.
Proof.
  revert k. induction fuel as [|fuel IH]; intros k Hk Hf; [lia|].
  cbn [sunday_last]. destruct (0 <=? Z.of_nat k - 1) eqn:E; zbool.
  - destruct k as [|k]; [lia|].
    replace (Z.of_nat (S k) - 1) with (Z.of_nat k) in * by lia.
    destruct (lookup_lt_is_Some_2 s2 k ltac:(lia)) as [b Hb].
    rewrite (str_at_lt _ _ _ Hb); ret_simpl.
    destruct (b =? c) eqn:Ebc; zbool.
    + exists (Z.of_nat k). split_and!; [done|lia|lia| |].
      * intros _. rewrite Nat2Z.id. congruence.
      * intros m ?. lia.
    + destruct (IH k) as (k' & -> & H1 & H2 & H3); [lia..|].
      exists k'. split_and!; [done|lia|lia|done|].
      intros m Hm. destruct (decide (m = k)) as [->|]; [congruence|apply H3; lia].
  - exists (Z.of_nat k - 1). split_and!; [done|lia..|]. intros m ?. lia.
Qed.

(** The patterns whose first character occurs again: the shift after a
    mismatch is then never one too long. *)
Definition head_recurs (s2 : str) : bool :=
  match s2 with [] => true | x :: t => bool_decide (x ∈ t) end.

Definition no_match (s1 s2 : str) (lo hi : nat) : Prop :=
  ∀ i, (lo ≤ i < hi)%nat → is_prefix s2 (drop i s1) = false.

(** A shift that moves [s2] so that its last [c] is under the character
    behind the window cannot jump over an occurrence. *)
Lemma sunday_shift_safe s1 s2 ind m c k :
  cstring s2 →
  str_at s1 (Z.of_nat (ind + length s2)) = Ret c →
  (ind < m ≤ ind + length s2)%nat →
  k < Z.of_nat (ind + length s2 - m) →
  (∀ q, k < Z.of_nat q < strlen s2 → s2 !! q ≠ Some c) →
  is_prefix s2 (drop m s1) = false.
Proof.
  intros Hs2 Hc Hm Hk Hno. destruct (is_prefix s2 (drop m s1)) eqn:E; [|done].
  set (q := (ind + length s2 - m)%nat) in *.
  assert (Hq : (q < length s2)%nat) by lia.
  pose proof (is_prefix_lookup _ _ _ E Hq) as Hl. rewrite lookup_drop in Hl.
  destruct (lookup_lt_is_Some_2 s2 q Hq) as [x Hx]. rewrite Hx in Hl.
  replace (m + q)%nat with (ind + length s2)%nat in Hl by lia.
  rewrite (str_at_lt _ _ _ Hl) in Hc. injection Hc as <-.
  destruct (Hno q); [unfold strlen; lia|done].
Qed.

Lemma sunday_loop_spec fuel s1 s2 ind :
  cstring s2 → (S (length s1) < ind + fuel)%nat → (ind ≤ S (length s1))%nat →
  ∃ r, sunday_loop fuel s1 s2 (Z.of_nat ind) = Ret r ∧
    (r = -1 ∨ Z.of_nat ind ≤ r ∧ is_prefix s2 (drop (Z.to_nat r) s1) = true) ∧
    (head_recurs s2 = true →
     no_match s1 s2 ind (if r =? -1 then S (length s1) else Z.to_nat r)).
Proof.
  intros Hs2. revert ind. induction fuel as [|fuel IH]; intros ind Hf Hi0; [lia|].
  cbn [sunday_loop]. destruct (Z.of_nat ind + strlen s2 <=? strlen s1) eqn:E;
    unfold strlen in E; zbool.
  2:{ exists (-1). split; [done|]. split; [by left|]. intros _ i Hi. simpl in Hi.
      destruct (is_prefix s2 (drop i s1)) eqn:Ep; [|done].
      apply is_prefix_length in Ep. rewrite length_drop in Ep. lia. }
  destruct (sunday_match_spec (S (length s2)) s1 s2 ind 0) as (j & Hj & Hjp); [lia..|].
  change (Z.of_nat 0) with 0 in Hj. rewrite Hj; ret_simpl. rewrite drop_0 in *.
  destruct (j =? strlen s2) eqn:Ej; zbool.
  { exists (Z.of_nat ind). split; [done|]. split.
    - right. rewrite Nat2Z.id. split; [lia|]. by apply Hjp.
    - intros _ i. destruct (Z.of_nat ind =? -1) eqn:E1; zbool; lia. }
  assert (Hnm : is_prefix s2 (drop ind s1) = false).
  { destruct (is_prefix s2 (drop ind s1)) eqn:E1; [|done]. destruct Ej. by apply Hjp. }
  assert (Hc : ∃ c, str_at s1 (Z.of_nat (ind + length s2)) = Ret c).
  { destruct (decide (ind + length s2 < length s1)%nat) as [Hlt|].
    - destruct (lookup_lt_is_Some_2 _ _ Hlt) as [c Hc]. exists c. by apply str_at_lt.
    - exists 0. replace (ind + length s2)%nat with (length s1) by lia. apply str_cells_end. }
  destruct Hc as [c Hc]. unfold strlen. rewrite <- Nat2Z.inj_add, Hc; ret_simpl.
  destruct (sunday_last_spec (S (length s2)) s2 (length s2) c) as (k & Hk & Hk1 & Hk2 & Hk3);
    [lia..|].
  rewrite Hk; ret_simpl.
  set (shift := if 0 <? k then (length s2 - Z.to_nat k)%nat else S (length s2)).
  assert (Hsh : (if 0 <? k then sunday_loop fuel s1 s2 (Z.of_nat (ind + length s2) - k)
                 else sunday_loop fuel s1 s2 (Z.of_nat (ind + length s2) + 1))
                = sunday_loop fuel s1 s2 (Z.of_nat (ind + shift))).
  { unfold shift. destruct (0 <? k) eqn:E0; zbool; f_equal; lia. }
  rewrite Hsh. assert (1 ≤ shift)%nat by (unfold shift; destruct (0 <? k) eqn:E0; zbool; lia).
  destruct (IH (ind + shift)%nat) as (r & Hr & Hr1 & Hr2);
    [lia|unfold shift; destruct (0 <? k) eqn:E0; zbool; lia|].
  exists r. split; [done|]. split; [destruct Hr1 as [?|[??]]; [by left|right; split; [lia|done]]|].
  intros Hh i Hi. destruct (decide (i = ind)) as [->|]; [done|].
  destruct (decide (ind + shift ≤ i)%nat); [apply Hr2; [done|lia]|].
  assert (Hk0 : k ≠ 0).
  { intros ->. destruct s2 as [|x t]; [simpl in *; lia|].
    specialize (Hk2 ltac:(lia)). simpl in Hk2. injection Hk2 as ->.
    apply bool_decide_eq_true, list_elem_of_lookup in Hh as [q Hq].
    apply (Hk3 (S q)); [|done]. apply lookup_lt_Some in Hq. simpl. lia. }
  unfold shift in *. destruct (0 <? k) eqn:E0; zbool;
    eapply (sunday_shift_safe s1 s2 ind i c k); eauto; unfold strlen; lia.
Qed.

(** On C strings [smp_sunday_search] terminates without reading outside
    either string, a non-negative result is an occurrence of the pattern, and
    for every pattern whose first character occurs again in it the result is
    exactly that of [strstr]. *)
Theorem sunday_search_correct s1 s2 :
  cstring s2 →
  ∃ r, smp_sunday_search s1 s2 = Ret r ∧
    (r = -1 ∨ 0 ≤ r ∧ is_prefix s2 (drop (Z.to_nat r) s1) = true) ∧
    (head_recurs s2 = true →
     r = match strstr s1 s2 with Some i => Z.of_nat i | None => -1 end).
Proof.
  intros Hs2. destruct (sunday_loop_spec (S (S (length s1))) s1 s2 0 Hs2) as (r & Hr & H1 & H2);
    [lia..|].
  exists r. split; [done|]. split; [done|]. intros Hh. specialize (H2 Hh).
  destruct (strstr s1 s2) as [i|] eqn:Es.
  - apply strstr_Some in Es as (Hp & Hl & Hfirst).
    destruct (r =? -1) eqn:E; zbool.
    + rewrite (H2 i) in Hp; [done|lia].
    + destruct H1 as [|[H0 H1]]; [done|].
      destruct (Nat.lt_trichotomy i (Z.to_nat r)) as [Hlt|[Heq|Hlt]]; [|lia|].
      * rewrite (H2 i) in Hp; [done|lia].
      * rewrite Hfirst in H1; done.
  - destruct H1 as [|[H0 H1]]; [done|].
    destruct (decide (Z.to_nat r ≤ length s1)%nat).
    + rewrite (strstr_None _ _ _ Es) in H1; done.
    + pose proof (is_prefix_length _ _ H1) as Hl. rewrite length_drop in Hl.
      destruct s2; [|simpl in Hl; lia]. destruct s1; done.
Qed.

Lemma sunday_search_correct_witness :
  ∃ r, smp_sunday_search (lit "a banana") (lit "anan") = Ret r ∧
    (r = -1 ∨ 0 ≤ r ∧ is_prefix (lit "anan") (drop (Z.to_nat r) (lit "a banana")) = true) ∧
    (head_recurs (lit "anan") = true →
     r = match strstr (lit "a banana") (lit "anan") with Some i => Z.of_nat i | None => -1 end).
Proof.
  apply (sunday_search_correct (lit "a banana") (lit "anan")).
  repeat constructor.
Defined.

(** When the character behind the window is the first character of the
    pattern and occurs nowhere else in it, the search steps one position too
    far: a pattern that stands right behind any other window of its length is
    missed, although it is there. *)
Theorem sunday_search_misses x t w :
  cstring (x :: t) → x ∉ t → length w = S (length t) → w ≠ x :: t →
  smp_sunday_search (w ++ x :: t) (x :: t) = Ret (-1) ∧
  is_prefix (x :: t) (drop (length w) (w ++ x :: t)) = true.
Proof.
  intros Hs Hx Hl Hw. set (p := x :: t). assert (Hp : length p = length w) by (simpl; lia).
  split; [|rewrite drop_app_length; apply is_prefix_spec; exists []; by rewrite app_nil_r].
  unfold smp_sunday_search. cbn [sunday_loop]. unfold strlen.
  rewrite length_app, Hp. destruct (0 + Z.of_nat (length w) <=? _) eqn:E; zbool; [|lia].
  destruct (sunday_match_spec (S (length w)) (w ++ p) p 0 0) as (j & Hj & Hjp);
    [lia..|rewrite length_app; lia|].
  unfold strlen in Hj, Hjp. rewrite Hp in Hj, Hjp. change (Z.of_nat 0) with 0 in Hj.
  rewrite Hj; ret_simpl. rewrite !drop_0 in *.
  destruct (j =? Z.of_nat (length w)) eqn:Ej; zbool.
  { apply Hjp, is_prefix_spec in Ej as [r Hr]. destruct Hw.
    by apply (app_inj_1 w p p r) in Hr as [-> _]. }
  change (0 + Z.of_nat (length w)) with (Z.of_nat (length w)).
  rewrite (str_at_lt _ _ x) by (by rewrite lookup_app_r, Nat.sub_diag by lia).
  ret_simpl.
  destruct (sunday_last_spec (S (length w)) p (length w) x) as (k & Hk & Hk1 & Hk2 & Hk3);
    [lia..|].
  rewrite Hk; ret_simpl. destruct (0 <? k) eqn:E0; zbool.
  { specialize (Hk2 ltac:(lia)). unfold p in Hk2.
    replace (Z.to_nat k) with (S (Z.to_nat (k - 1))) in Hk2 by lia.
    destruct Hx. by eapply list_elem_of_lookup_2. }
  destruct (length w + length w)%nat as [|n] eqn:En; [lia|]. cbn [sunday_loop].
  unfold strlen. rewrite length_app, Hp.
  destruct (_ <=? _) eqn:E1; zbool; [lia|done].
Qed.

Lemma sunday_search_misses_witness :
  smp_sunday_search (lit "xxab") (lit "ab") = Ret (-1) ∧
  is_prefix (lit "ab") (drop 2 (lit "xxab")) = true.
Proof.
  apply (sunday_search_misses 97 [98] [120; 120]).
  - repeat constructor.
  - apply (bool_decide_eq_false_1 _). vm_compute. reflexivity.
  - reflexivity.
  - discriminate.
Defined.

(** ** Copying and stripping *)

Lemma strlcpy_loop_spec dst d n src :
  1 ≤ n → 0 ≤ d →
  ('(b, e) ← strlcpy_loop dst d n src; buf_set b e 0)
  = buf_write dst d (take (Z.to_nat (n - 1)) src ++ [0]).
Proof.
  revert dst d n. induction src as [|c src IH]; intros dst d n Hn Hd.
  - by rewrite take_nil.
  - cbn [strlcpy_loop]. destruct (n =? 1) eqn:E; zbool; cbn [negb].
    + subst. rewrite IH by lia. by replace (1 - 1) with 0 by lia.
    + replace (Z.to_nat (n - 1)) with (S (Z.to_nat (n - 1 - 1))) by lia.
      change (take (S (Z.to_nat (n - 1 - 1))) (c :: src) ++ [0])
        with ([c] ++ (take (Z.to_nat (n - 1 - 1)) src ++ [0])).
      rewrite outcome_bind_assoc.
      rewrite <- (buf_write_app dst d [c] (take (Z.to_nat (n - 1 - 1)) src ++ [0])) by done.
      change (buf_set dst d c) with (buf_write dst d [c]).
      destruct (buf_write dst d [c]) as [b|w|]; ret_simpl; [|done..].
      change (strlen [c]) with 1. rewrite <- IH by lia. done.
Qed.

(** [smp_strlcpy] is [os_strlcpy]: same result, same buffer, and it is
    out of bounds exactly when that is; at most [siz] bytes are written and
    the copy is always terminated. *)
Theorem smp_strlcpy_equiv dst src siz :
  0 ≤ siz → smp_strlcpy dst src siz = os_strlcpy dst src siz.
Proof.
  intros Hs. unfold smp_strlcpy, os_strlcpy. destruct (siz =? 0) eqn:E; zbool; [done|].
  rewrite <- strlcpy_loop_spec by lia.
  by destruct (strlcpy_loop dst 0 siz src) as [[b e]|w|].
Qed.

Lemma smp_strlcpy_equiv_witness :
  smp_strlcpy (uninit 4) (lit "wlan0") 4 = Ret (5, cells [119; 108; 97; 0]).
Proof. rewrite (smp_strlcpy_equiv (uninit 4) (lit "wlan0") 4); [reflexivity|lia]. Defined.

(** The bytes that [smp_strstrip] keeps. *)
Definition kept (strip : str) (s : str) : str :=
  List.filter (λ c, negb (bool_decide (c ∈ strip))) s.

Lemma strchr_In s c : c ≠ 0 →
  match strchr s c with Some _ => true | None => false end = bool_decide (c ∈ s).
Proof.
  intros Hc. destruct (strchr s c) as [i|] eqn:E.
  - apply strchr_Some in E as [E _]; [|done]. symmetry. apply bool_decide_eq_true.
    by eapply list_elem_of_lookup_2.
  - symmetry. apply bool_decide_eq_false. by apply strchr_None.
Qed.

Lemma buf_set_lookup_ge b i c b' j :
  buf_set b i c = Ret b' → i < Z.of_nat j → b' !! j = b !! j.
Proof. intros [H ->]%buf_set_Ret Hj. apply list_lookup_insert_ne. lia. Qed.

Lemma strstrip_loop_spec fuel b rd wr s strip :
  cstring s → (wr ≤ rd)%nat →
  (∀ i c, s !! i = Some c → b !! (rd + i)%nat = Some (Some c)) →
  b !! (rd + length s)%nat = Some (Some 0) → (length s < fuel)%nat →
  strstrip_loop fuel b (Z.of_nat rd) (Z.of_nat wr) strip
  = buf_write b (Z.of_nat wr) (kept strip s ++ [0]).
Proof.
  revert b rd wr s. induction fuel as [|fuel IH]; intros b rd wr s Hs Hw Hb He Hf; [lia|].
  cbn [strstrip_loop]. destruct s as [|c s].
  - rewrite (buf_get_lookup b _ 0) by (first [lia|rewrite Nat2Z.id, <- He; f_equal; simpl; lia]).
    done.
  - apply Forall_cons in Hs as [Hc Hs].
    rewrite (buf_get_lookup b _ c);
      [|lia|rewrite Nat2Z.id, <- (Nat.add_0_r rd); by apply Hb].
    ret_simpl. destruct (c =? 0) eqn:E; zbool; [lia|].
    pose proof (strchr_In strip c ltac:(lia)) as Hin. unfold kept. cbn [List.filter].
    fold (kept strip s). simpl in Hf.
    destruct (strchr strip c) as [k|]; rewrite <- Hin; cbn [negb].
    + replace (Z.of_nat rd + 1) with (Z.of_nat (S rd)) by lia.
      apply IH; [done|lia| |rewrite <- He; f_equal; simpl; lia|lia].
      intros i x Hx. rewrite <- (Hb (S i) x Hx). f_equal. lia.
    + change ((c :: kept strip s) ++ [0]) with ([c] ++ (kept strip s ++ [0])).
      rewrite <- (buf_write_app b (Z.of_nat wr) [c] (kept strip s ++ [0])) by lia.
      unfold buf_set.
      destruct (buf_write_defined b (Z.of_nat wr) [c]) as [b' Hb']; [lia| |].
      { apply lookup_lt_Some in He. unfold strlen. simpl in *. lia. }
      rewrite Hb'. ret_simpl. change (strlen [c]) with 1.
      replace (Z.of_nat rd + 1) with (Z.of_nat (S rd)) by lia.
      replace (Z.of_nat wr + 1) with (Z.of_nat (S wr)) by lia.
      apply IH; [done|lia| | |lia].
      * intros i x Hx. rewrite (buf_set_lookup_ge _ _ _ _ _ Hb') by lia.
        rewrite <- (Hb (S i) x Hx). f_equal. lia.
      * rewrite (buf_set_lookup_ge _ _ _ _ _ Hb') by lia. rewrite <- He. f_equal. simpl. lia.
Qed.

Lemma kept_cstring strip s : cstring s → cstring (kept strip s).
Proof.
  unfold cstring, kept. rewrite !List.Forall_forall. intros Hs x [Hx _]%filter_In. auto.
Qed.

Lemma kept_length strip s : (length (kept strip s) ≤ length s)%nat.
Proof. apply List.filter_length_le. Qed.

(** [smp_strstrip] works in place without leaving the buffer; the string
    it leaves is the old one with every character of [strip] removed, and the
    block keeps its size. *)
Theorem smp_strstrip_filter b s strip :
  cstring s → buf_str b 0 = Ret s →
  ∃ b', smp_strstrip b strip = Ret b' ∧ buf_str b' 0 = Ret (kept strip s) ∧
    length b' = length b.
Proof.
  intros Hs Hb. unfold buf_str in Hb. simpl in Hb. rewrite drop_0 in Hb.
  destruct (cells_str_lookup _ _ Hb) as [H1 H2].
  assert (Hlen : (length s < length b)%nat) by (by eapply lookup_lt_Some).
  unfold smp_strstrip. change 0 with (Z.of_nat 0).
  rewrite (strstrip_loop_spec _ b 0 0 s strip) by (done || lia).
  pose proof (kept_length strip s).
  destruct (buf_write_defined b (Z.of_nat 0) (kept strip s ++ [0])) as [b' Hb'];
    [lia|unfold strlen; rewrite length_app; simpl; lia|].
  exists b'. split; [done|]. split.
  - eapply buf_str_written; [by apply kept_cstring|exact Hb'].
  - by eapply buf_write_length.
Qed.

Lemma smp_strstrip_filter_witness :
  ∃ b', smp_strstrip (cells (lit "a b c" ++ [0])) (lit " ") = Ret b' ∧
    buf_str b' 0 = Ret (kept (lit " ") (lit "a b c")) ∧ length b' = 6%nat.
Proof.
  apply (smp_strstrip_filter (cells (lit "a b c" ++ [0])) (lit "a b c") (lit " ")).
  - repeat constructor.
  - reflexivity.
Defined.

(** ** Bounded formatting *)

(** [smp_snprintf] terminates the buffer inside its [size] bytes whatever
    the text; it returns the length when the whole text fits and -1, with the
    text truncated, when it does not. *)
Theorem smp_snprintf_fits b size t :
  1 ≤ size ≤ SIZE_T_CEILING → size ≤ Z.of_nat (length b) → cstring t →
  ∃ b', smp_snprintf b size (Some t)
      = Ret (if strlen t <? size then strlen t else -1, b') ∧
    buf_str b' 0 = Ret (take (Z.to_nat (size - 1)) t) ∧ length b' = length b.
Proof.
  intros Hs Hl Ht. unfold smp_snprintf, smp_vsnprintf.
  destruct (size =? 0) eqn:E; zbool; [lia|].
  destruct (SIZE_T_CEILING <? size) eqn:E1; zbool; [lia|].
  unfold snprintf. rewrite (proj2 (Z.eqb_neq size 0)) by lia.
  set (w := take (Z.to_nat (size - 1)) t).
  assert (Hw : (length w ≤ Z.to_nat (size - 1))%nat) by (unfold w; rewrite length_take; lia).
  destruct (buf_write_defined b 0 (w ++ [0])) as [c Hc];
    [lia|unfold strlen; rewrite length_app; simpl; lia|].
  pose proof (buf_write_length _ _ _ _ Hc) as Hlc.
  rewrite Hc. ret_simpl.
  assert (Hb' : buf_set c (size - 1) 0 = Ret (<[Z.to_nat (size - 1) := Some 0]> c)).
  { apply buf_set_Ret. split; [lia|done]. }
  rewrite Hb'. ret_simpl. exists (<[Z.to_nat (size - 1) := Some 0]> c). split.
  { assert (0 ≤ strlen t) by (unfold strlen; lia).
    destruct (strlen t <? size) eqn:E2; zbool.
    - rewrite (proj2 (Z.leb_gt size _)), (proj2 (Z.ltb_ge _ 0)) by lia. done.
    - rewrite (proj2 (Z.leb_le size _)), orb_true_r by lia. done. }
  split; [|by rewrite length_insert].
  assert (Hcw : cstring w) by (by apply Forall_take).
  pose proof (buf_str_written _ _ _ _ Hcw Hc) as Hr. unfold buf_str in *.
  simpl in *. rewrite drop_0 in *. destruct (cells_str_lookup _ _ Hr) as [H1 H2].
  apply cells_str_intro; [done| |].
  - intros i x Hx. rewrite list_lookup_insert_ne; [auto|].
    apply lookup_lt_Some in Hx. lia.
  - destruct (decide (length w = Z.to_nat (size - 1))) as [->|].
    + apply list_lookup_insert_eq. lia.
    + by rewrite list_lookup_insert_ne.
Qed.

Lemma smp_snprintf_fits_witness :
  ∃ b', smp_snprintf (uninit 5) 5 (Some (lit "status")) = Ret (-1, b') ∧
    buf_str b' 0 = Ret (lit "stat") ∧ length b' = 5%nat.
Proof.
  apply (smp_snprintf_fits (uninit 5) 5 (lit "status")).
  - unfold SIZE_T_CEILING. lia.
  - simpl. lia.
  - repeat constructor.
Defined.
