(* ===== verification/Bitarray.v ===== *)
(** * Bit arrays and character classes (wpa_cli_oper/bitarray.c, bitarray.h)

    A bit array is a heap block of 32-bit words.  [malloc] and [realloc] hand
    out memory with arbitrary contents, given as the argument [junk]; words
    are read little-endian. *)

From S2P Require Import Prelude.

Definition BITARRAY_SHIFT : Z := 5.
Definition BITARRAY_MASK : Z := Z.shiftl 1 BITARRAY_SHIFT - 1.

(** The words that a block of bytes holds. *)
Fixpoint words_of_bytes (n : nat) (bs : list Z) : list Z :=
  match n, bs with
  | S n', b0 :: b1 :: b2 :: b3 :: bs' =>
      Z.lor b0 (Z.lor (Z.shiftl b1 8) (Z.lor (Z.shiftl b2 16) (Z.shiftl b3 24)))
        :: words_of_bytes n' bs'
  | _, _ => []
  end.

Definition bitarray_init_zero (junk : list Z) (n_bits : Z) : list Z :=
  let size := Z.to_nat (Z.shiftr (u32 (n_bits + BITARRAY_MASK)) BITARRAY_SHIFT) in
  let ret := take (size * 4) junk in
  words_of_bytes size (replicate size 0 ++ drop size ret).

Definition bitarray_expand (ba : list Z) (n_bits_old n_bits_new : Z) : list Z :=
  let sz_old := Z.to_nat (Z.shiftr (u32 (n_bits_old + BITARRAY_MASK)) BITARRAY_SHIFT) in
  let sz_new := Z.to_nat (Z.shiftr (u32 (n_bits_new + BITARRAY_MASK)) BITARRAY_SHIFT) in
  if decide (sz_new ≤ sz_old)%nat then ba
  else take sz_old ba ++ replicate (sz_new - sz_old) 0.

(** [ba[i]] with the bound of the block checked. *)
Definition word_at (ba : list Z) (i : Z) : outcome Z :=
  if i <? 0 then UB "bitarray index" else need "bitarray index" (ba !! Z.to_nat i).

Definition bitarray_set (ba : list Z) (bit : Z) : outcome (list Z) :=
  let i := Z.shiftr bit BITARRAY_SHIFT in
  w ← word_at ba i;
  Ret (<[Z.to_nat i := Z.lor w (Z.shiftl 1 (Z.land bit BITARRAY_MASK))]> ba).

Definition bitarray_clear (ba : list Z) (bit : Z) : outcome (list Z) :=
  let i := Z.shiftr bit BITARRAY_SHIFT in
  w ← word_at ba i;
  Ret (<[Z.to_nat i :=
         Z.land w (u32 (Z.lnot (Z.shiftl 1 (Z.land bit BITARRAY_MASK))))]> ba).

Definition bitarray_is_set (ba : list Z) (bit : Z) : outcome Z :=
  w ← word_at ba (Z.shiftr bit BITARRAY_SHIFT);
  Ret (Z.land w (Z.shiftl 1 (Z.land bit BITARRAY_MASK))).

(** ** Character classes *)
Definition SMP_ISALPHA_TABLE : list Z := [0; 0; 0x7fffffe; 0x7fffffe; 0; 0; 0; 0].
Definition SMP_ISALNUM_TABLE : list Z := [0; 0x3ff0000; 0x7fffffe; 0x7fffffe; 0; 0; 0; 0].
Definition SMP_ISSPACE_TABLE : list Z := [0x3e00; 0x1; 0; 0; 0; 0; 0; 0].
Definition SMP_ISXDIGIT_TABLE : list Z := [0; 0x3ff0000; 0x7e; 0x7e; 0; 0; 0; 0].
Definition SMP_ISDIGIT_TABLE : list Z := [0; 0x3ff0000; 0; 0; 0; 0; 0; 0].
Definition SMP_ISPRINT_TABLE : list Z := [0; 0xffffffff; 0xffffffff; 0x7fffffff; 0; 0; 0; 0x0].
Definition SMP_ISUPPER_TABLE : list Z := [0; 0; 0x7fffffe; 0; 0; 0; 0; 0].
Definition SMP_ISLOWER_TABLE : list Z := [0; 0; 0; 0x7fffffe; 0; 0; 0; 0].

(** [DECLARE_CTYPE_FN]: the class test the header expands for each table. *)
Definition SMP_ctype (table : list Z) (c : Z) : bool :=
  let u := c mod 256 in
  negb (Z.land (nth (Z.to_nat (Z.land (Z.shiftr u 5) 7)) table 0)
               (Z.shiftl 1 (Z.land u 31)) =? 0).

Definition SMP_ISALPHA := SMP_ctype SMP_ISALPHA_TABLE.
Definition SMP_ISALNUM := SMP_ctype SMP_ISALNUM_TABLE.
Definition SMP_ISSPACE := SMP_ctype SMP_ISSPACE_TABLE.
Definition SMP_ISDIGIT := SMP_ctype SMP_ISDIGIT_TABLE.
Definition SMP_ISXDIGIT := SMP_ctype SMP_ISXDIGIT_TABLE.
Definition SMP_ISPRINT := SMP_ctype SMP_ISPRINT_TABLE.
Definition SMP_ISLOWER := SMP_ctype SMP_ISLOWER_TABLE.
Definition SMP_ISUPPER := SMP_ctype SMP_ISUPPER_TABLE.

Definition SMP_TOUPPER_TABLE : list Z := [
  0;1;2;3;4;5;6;7;8;9;10;11;12;13;14;15;
  16;17;18;19;20;21;22;23;24;25;26;27;28;29;30;31;
  32;33;34;35;36;37;38;39;40;41;42;43;44;45;46;47;
  48;49;50;51;52;53;54;55;56;57;58;59;60;61;62;63;
  64;65;66;67;68;69;70;71;72;73;74;75;76;77;78;79;
  80;81;82;83;84;85;86;87;88;89;90;91;92;93;94;95;
  96;65;66;67;68;69;70;71;72;73;74;75;76;77;78;79;
  80;81;82;83;84;85;86;87;88;89;90;123;124;125;126;127;
  128;129;130;131;132;133;134;135;136;137;138;139;140;141;142;143;
  144;145;146;147;148;149;150;151;152;153;154;155;156;157;158;159;
  160;161;162;163;164;165;166;167;168;169;170;171;172;173;174;175;
  176;177;178;179;180;181;182;183;184;185;186;187;188;189;190;191;
  192;193;194;195;196;197;198;199;200;201;202;203;204;205;206;207;
  208;209;210;211;212;213;214;215;216;217;218;219;220;221;222;223;
  224;225;226;227;228;229;230;231;232;233;234;235;236;237;238;239;
  240;241;242;243;244;245;246;247;248;249;250;251;252;253;254;255].

Definition SMP_TOLOWER_TABLE : list Z := [
  0;1;2;3;4;5;6;7;8;9;10;11;12;13;14;15;
  16;17;18;19;20;21;22;23;24;25;26;27;28;29;30;31;
  32;33;34;35;36;37;38;39;40;41;42;43;44;45;46;47;
  48;49;50;51;52;53;54;55;56;57;58;59;60;61;62;63;
  64;97;98;99;100;101;102;103;104;105;106;107;108;109;110;111;
  112;113;114;115;116;117;118;119;120;121;122;91;92;93;94;95;
  96;97;98;99;100;101;102;103;104;105;106;107;108;109;110;111;
  112;113;114;115;116;117;118;119;120;121;122;123;124;125;126;127;
  128;129;130;131;132;133;134;135;136;137;138;139;140;141;142;143;
  144;145;146;147;148;149;150;151;152;153;154;155;156;157;158;159;
  160;161;162;163;164;165;166;167;168;169;170;171;172;173;174;175;
  176;177;178;179;180;181;182;183;184;185;186;187;188;189;190;191;
  192;193;194;195;196;197;198;199;200;201;202;203;204;205;206;207;
  208;209;210;211;212;213;214;215;216;217;218;219;220;221;222;223;
  224;225;226;227;228;229;230;231;232;233;234;235;236;237;238;239;
  240;241;242;243;244;245;246;247;248;249;250;251;252;253;254;255].

Definition SMP_TOUPPER (c : Z) : Z := nth (Z.to_nat (c mod 256)) SMP_TOUPPER_TABLE 0.
Definition SMP_TOLOWER (c : Z) : Z := nth (Z.to_nat (c mod 256)) SMP_TOLOWER_TABLE 0.

(** ** Reference classes: what the C locale calls these characters *)
Definition is_upper (c : Z) : bool := (65 <=? c) && (c <=? 90).
Definition is_lower (c : Z) : bool := (97 <=? c) && (c <=? 122).
Definition is_digit (c : Z) : bool := (48 <=? c) && (c <=? 57).
Definition is_space (c : Z) : bool := ((9 <=? c) && (c <=? 13)) || (c =? 32).
Definition is_xdigit (c : Z) : bool :=
  is_digit c || ((65 <=? c) && (c <=? 70)) || ((97 <=? c) && (c <=? 102)).

(** ** A bit array as a set of indices *)
Definition word_ok (w : Z) : Prop := 0 ≤ w < 4294967296.
Definition ba_wf (ba : list Z) : Prop := Forall word_ok ba.
Definition ba_mem (ba : list Z) (j : Z) : bool :=
  Z.testbit (nth (Z.to_nat (Z.shiftr j BITARRAY_SHIFT)) ba 0) (Z.land j BITARRAY_MASK).

Lemma shift_div j : Z.shiftr j BITARRAY_SHIFT = j / 32.
Proof. unfold BITARRAY_SHIFT. by rewrite Z.shiftr_div_pow2. Qed.

Lemma mask_mod j : Z.land j BITARRAY_MASK = j mod 32.
Proof.
  change BITARRAY_MASK with (Z.ones 5). by rewrite Z.land_ones.
Qed.

Lemma word_ok_bits w : 0 ≤ w → (∀ n, 32 ≤ n → Z.testbit w n = false) → word_ok w.
Proof.
  intros H0 Hb. split; [done|].
  destruct (Z.eq_dec w 0) as [->|Hne]; [lia|].
  destruct (Z.lt_ge_cases w 4294967296) as [|Hge]; [done|].
  assert (Hl : 32 ≤ Z.log2 w).
  { change 32 with (Z.log2 4294967296). by apply Z.log2_le_mono. }
  specialize (Hb (Z.log2 w) Hl). rewrite Z.bit_log2 in Hb by lia. done.
Qed.

Lemma word_ok_high w n : word_ok w → 32 ≤ n → Z.testbit w n = false.
Proof.
  intros [H0 H1] Hn. destruct (Z.eq_dec w 0) as [->|]; [apply Z.bits_0|].
  apply Z.bits_above_log2; [done|].
  assert (Z.log2 w < 32); [|lia]. apply Z.log2_lt_pow2; lia.
Qed.

Lemma testbit_one_shift k n : 0 ≤ k → Z.testbit (Z.shiftl 1 k) n = (k =? n).
Proof. intros Hk. rewrite Z.shiftl_1_l. by apply Z.pow2_bits_eqb. Qed.

Lemma set_word_ok w k : word_ok w → 0 ≤ k < 32 → word_ok (Z.lor w (Z.shiftl 1 k)).
Proof.
  intros Hw Hk. destruct (Hw) as [? _]. apply word_ok_bits.
  - apply Z.lor_nonneg. split; [done|]. apply Z.shiftl_nonneg. lia.
  - intros n Hn. rewrite Z.lor_spec, testbit_one_shift, (word_ok_high w) by (done || lia).
    apply Z.eqb_neq. lia.
Qed.

Lemma clear_word_bits w k n :
  0 ≤ k < 32 → 0 ≤ n < 32 →
  Z.testbit (Z.land w (u32 (Z.lnot (Z.shiftl 1 k)))) n
  = negb (k =? n) && Z.testbit w n.
Proof.
  intros Hk Hn. unfold u32. change 4294967296 with (2 ^ 32).
  rewrite Z.land_spec, Z.mod_pow2_bits_low, Z.lnot_spec, testbit_one_shift by lia.
  apply andb_comm.
Qed.

Lemma clear_word_ok w k :
  word_ok w → word_ok (Z.land w (u32 (Z.lnot (Z.shiftl 1 k)))).
Proof.
  intros Hw. destruct (Hw) as [? _]. apply word_ok_bits.
  - apply Z.land_nonneg. by left.
  - intros n Hn. by rewrite Z.land_spec, (word_ok_high w).
Qed.

Lemma word_at_Ret ba bit :
  0 ≤ bit < 32 * Z.of_nat (length ba) →
  ∃ w, ba !! Z.to_nat (bit / 32) = Some w ∧ word_at ba (bit / 32) = Ret w.
Proof.
  intros Hb. assert (0 ≤ bit / 32) by (apply Z.div_pos; lia).
  assert (bit / 32 < Z.of_nat (length ba)) by (apply Z.div_lt_upper_bound; lia).
  destruct (list_lookup_total_Z ba (bit / 32)) as [w Hw]; [lia|].
  exists w. split; [done|]. unfold word_at.
  destruct (bit / 32 <? 0) eqn:E; zbool; [lia|]. by rewrite Hw.
Qed.

Lemma nth_lookup_Z (l : list Z) i w : l !! i = Some w → nth i l 0 = w.
Proof. intros H. rewrite nth_lookup, H. done. Qed.

(** Two indices name the same bit only when word and position agree. *)
Lemma bit_index_eqb j k :
  j / 32 = k / 32 → (j mod 32 =? k mod 32) = (j =? k).
Proof.
  intros E. destruct (j =? k) eqn:Ej; zbool; [subst; apply Z.eqb_refl|].
  apply Z.eqb_neq. rewrite (Z.div_mod j 32), (Z.div_mod k 32) in Ej by lia. congruence.
Qed.

Lemma bit_word_neqb j k : j / 32 ≠ k / 32 → (j =? k) = false.
Proof. intros E. apply Z.eqb_neq. congruence. Qed.

Lemma ba_mem_insert ba bit j w :
  0 ≤ bit < 32 * Z.of_nat (length ba) → 0 ≤ j →
  ba_mem (<[Z.to_nat (bit / 32) := w]> ba) j
  = if bit / 32 =? j / 32 then Z.testbit w (j mod 32) else ba_mem ba j.
Proof.
  intros Hb Hj. unfold ba_mem. rewrite shift_div, mask_mod.
  assert (0 ≤ bit / 32) by (apply Z.div_pos; lia).
  assert (0 ≤ j / 32) by (apply Z.div_pos; lia).
  assert (bit / 32 < Z.of_nat (length ba)) by (apply Z.div_lt_upper_bound; lia).
  rewrite nth_insert by lia.
  destruct (bit / 32 =? j / 32) eqn:E; zbool; case_decide; try lia; done.
Qed.

Lemma ba_mem_word ba j w :
  ba !! Z.to_nat (j / 32) = Some w → ba_mem ba j = Z.testbit w (j mod 32).
Proof. intros H. unfold ba_mem. by rewrite shift_div, mask_mod, (nth_lookup_Z _ _ _ H). Qed.

(** On a block that holds the bit, [bitarray_set], [bitarray_clear] and
    [bitarray_is_set] never leave the block and implement insertion, removal
    and membership of a set of indices; every other index is untouched and
    words stay 32-bit. *)
Theorem bitarray_refines_set ba bit :
  ba_wf ba → 0 ≤ bit < 32 * Z.of_nat (length ba) →
  ∃ ba1 ba2 v,
    bitarray_set ba bit = Ret ba1 ∧ bitarray_clear ba bit = Ret ba2 ∧
    bitarray_is_set ba bit = Ret v ∧
    ba_wf ba1 ∧ ba_wf ba2 ∧ length ba1 = length ba ∧ length ba2 = length ba ∧
    (v ≠ 0 ↔ ba_mem ba bit = true) ∧
    ∀ j, 0 ≤ j →
      ba_mem ba1 j = (bit =? j) || ba_mem ba j ∧
      ba_mem ba2 j = negb (bit =? j) && ba_mem ba j.
Proof.
  intros Hwf Hb. destruct (word_at_Ret ba bit Hb) as (w & Hl & Hw).
  assert (Hk : 0 ≤ bit mod 32 < 32) by (apply Z.mod_pos_bound; lia).
  assert (Hok : word_ok w) by (eapply Forall_lookup_1; eauto).
  unfold bitarray_set, bitarray_clear, bitarray_is_set.
  rewrite !shift_div, !mask_mod, Hw, !outcome_bind_ret.
  do 3 eexists. do 3 (split; [reflexivity|]).
  repeat split.
  - by apply Forall_insert, set_word_ok.
  - by apply Forall_insert, clear_word_ok.
  - by rewrite length_insert.
  - by rewrite length_insert.
  - intros Hv. unfold ba_mem. rewrite shift_div, mask_mod, (nth_lookup_Z _ _ _ Hl).
    destruct (Z.testbit w (bit mod 32)) eqn:E; [done|]. destruct Hv.
    apply Z.bits_inj_0. intros n. rewrite Z.land_spec, testbit_one_shift by lia.
    destruct (bit mod 32 =? n) eqn:En; zbool; [subst; by rewrite E|apply andb_false_r].
  - unfold ba_mem. rewrite shift_div, mask_mod, (nth_lookup_Z _ _ _ Hl).
    intros Ht Hz. apply (f_equal (λ z, Z.testbit z (bit mod 32))) in Hz.
    rewrite Z.land_spec, Ht, testbit_one_shift, Z.eqb_refl, Z.bits_0 in Hz by lia. done.
  - rewrite ba_mem_insert by done. destruct (bit / 32 =? j / 32) eqn:E; zbool.
    + rewrite Z.lor_spec, testbit_one_shift, bit_index_eqb, orb_comm by (done || lia).
      by rewrite (ba_mem_word ba j w) by congruence.
    + by rewrite bit_word_neqb.
  - rewrite ba_mem_insert by done. destruct (bit / 32 =? j / 32) eqn:E; zbool.
    + rewrite clear_word_bits, bit_index_eqb by (done || apply Z.mod_pos_bound; lia).
      by rewrite (ba_mem_word ba j w) by congruence.
    + by rewrite bit_word_neqb.
Qed.

Lemma bitarray_refines_set_witness :
  ∃ ba1 ba2 v, bitarray_set [0; 8] 40 = Ret ba1 ∧ bitarray_clear [0; 8] 40 = Ret ba2 ∧
    bitarray_is_set [0; 8] 40 = Ret v ∧ ba_wf ba1 ∧ ba_wf ba2 ∧
    length ba1 = length [0; 8] ∧ length ba2 = length [0; 8] ∧
    (v ≠ 0 ↔ ba_mem [0; 8] 40 = true) ∧
    ∀ j, 0 ≤ j → ba_mem ba1 j = (40 =? j) || ba_mem [0; 8] j ∧
      ba_mem ba2 j = negb (40 =? j) && ba_mem [0; 8] j.
Proof.
  apply (bitarray_refines_set [0; 8] 40).
  - repeat constructor; unfold word_ok; lia.
  - simpl. lia.
Defined.

(** ** Allocation and growth *)

Definition byte_ok (b : Z) : Prop := 0 ≤ b < 256.

Lemma byte_bit_out b n : byte_ok b → n < 0 ∨ 8 ≤ n → Z.testbit b n = false.
Proof.
  intros [H0 H1] [Hn|Hn]; [by apply Z.testbit_neg_r|].
  destruct (Z.eq_dec b 0) as [->|]; [apply Z.bits_0|].
  apply Z.bits_above_log2; [done|].
  assert (Z.log2 b < 8); [|lia]. apply Z.log2_lt_pow2; lia.
Qed.

Lemma ba_mem_cons_low w ws j : 0 ≤ j < 32 → ba_mem (w :: ws) j = Z.testbit w j.
Proof.
  intros Hj. unfold ba_mem. rewrite shift_div, mask_mod, Z.div_small, Z.mod_small by lia.
  done.
Qed.

Lemma ba_mem_cons_high w ws j : 32 ≤ j → ba_mem (w :: ws) j = ba_mem ws (j - 32).
Proof.
  intros Hj. unfold ba_mem. rewrite !shift_div, !mask_mod.
  replace j with (j - 32 + 1 * 32) at 1 2 by lia.
  rewrite Z.div_add, Z.mod_add by lia.
  assert (0 ≤ (j - 32) / 32) by (apply Z.div_pos; lia).
  replace (Z.to_nat ((j - 32) / 32 + 1)) with (S (Z.to_nat ((j - 32) / 32))) by lia.
  done.
Qed.

Lemma word_bit b0 b1 b2 b3 j :
  byte_ok b0 → byte_ok b1 → byte_ok b2 → byte_ok b3 → 0 ≤ j < 32 →
  Z.testbit (Z.lor b0 (Z.lor (Z.shiftl b1 8) (Z.lor (Z.shiftl b2 16) (Z.shiftl b3 24)))) j
  = Z.testbit (nth (Z.to_nat (j / 8)) [b0; b1; b2; b3] 0) (j mod 8).
Proof.
  intros H0 H1 H2 H3 Hj. rewrite !Z.lor_spec, !Z.shiftl_spec by lia.
  assert (Hd : j / 8 = 0 ∨ j / 8 = 1 ∨ j / 8 = 2 ∨ j / 8 = 3) by lia.
  destruct Hd as [E|[E|[E|E]]]; rewrite E; simpl;
    try rewrite (byte_bit_out b0 j) by (done || lia);
    try rewrite (byte_bit_out b1 (j - 8)) by (done || lia);
    try rewrite (byte_bit_out b2 (j - 16)) by (done || lia);
    try rewrite (byte_bit_out b3 (j - 24)) by (done || lia);
    rewrite ?orb_false_r; simpl; f_equal; lia.
Qed.

(** The bits of a block of bytes read as words. *)
Lemma words_of_bytes_mem n bs j :
  Forall byte_ok bs → length bs = (n * 4)%nat → 0 ≤ j < 32 * Z.of_nat n →
  ba_mem (words_of_bytes n bs) j = Z.testbit (nth (Z.to_nat (j / 8)) bs 0) (j mod 8).
Proof.
  revert bs j. induction n as [|n IH]; intros bs j Hb Hl Hj; [lia|].
  destruct bs as [|b0 [|b1 [|b2 [|b3 bs]]]]; try (simpl in Hl; lia).
  apply Forall_cons in Hb as [H0 Hb]. apply Forall_cons in Hb as [H1 Hb].
  apply Forall_cons in Hb as [H2 Hb]. apply Forall_cons in Hb as [H3 Hb].
  cbn [words_of_bytes]. destruct (Z.lt_ge_cases j 32).
  - rewrite ba_mem_cons_low, word_bit by (done || lia). f_equal.
    assert (Z.to_nat (j / 8) < 4)%nat by lia.
    by destruct (Z.to_nat (j / 8)) as [|[|[|[|]]]]; [..|lia].
  - rewrite ba_mem_cons_high, IH by (done || (simpl in Hl; lia)).
    f_equal; [|lia]. replace (Z.to_nat (j / 8)) with (4 + Z.to_nat ((j - 32) / 8))%nat by lia.
    done.
Qed.

(** The number of words the allocation asks for. *)
Definition ba_words (n_bits : Z) : nat :=
  Z.to_nat (Z.shiftr (u32 (n_bits + BITARRAY_MASK)) BITARRAY_SHIFT).

(** [bitarray_init_zero] clears [size] bytes of a block of [size] words:
    only the first quarter of the bits is guaranteed to read as clear, every
    other bit is whatever [malloc] handed out. *)
Theorem bitarray_init_zero_bits junk n_bits j :
  Forall byte_ok junk → length junk = (ba_words n_bits * 4)%nat →
  0 ≤ j < 32 * Z.of_nat (ba_words n_bits) →
  ba_mem (bitarray_init_zero junk n_bits) j
  = if j <? 8 * Z.of_nat (ba_words n_bits) then false
    else Z.testbit (nth (Z.to_nat (j / 8)) junk 0) (j mod 8).
Proof.
  intros Hb Hl Hj. unfold bitarray_init_zero. fold (ba_words n_bits).
  set (n := ba_words n_bits) in *. rewrite take_ge by lia.
  rewrite words_of_bytes_mem.
  - destruct (j <? 8 * Z.of_nat n) eqn:E; zbool.
    + rewrite app_nth1 by (rewrite length_replicate; lia).
      rewrite nth_lookup, lookup_replicate_2 by lia. apply Z.bits_0.
    + rewrite app_nth2 by (rewrite length_replicate; lia).
      rewrite length_replicate, !nth_lookup, lookup_drop. f_equal. do 2 f_equal. lia.
  - apply Forall_app. split; [|by apply Forall_drop].
    apply Forall_replicate. unfold byte_ok. lia.
  - rewrite length_app, length_replicate, length_drop. lia.
  - lia.
Qed.

Lemma bitarray_init_zero_bits_witness :
  ba_mem (bitarray_init_zero (replicate 8 255) 64) 40 = true.
Proof.
  rewrite (bitarray_init_zero_bits (replicate 8 255) 64 40); [vm_compute; reflexivity| | |].
  - apply Forall_replicate. unfold byte_ok. lia.
  - vm_compute. reflexivity.
  - vm_compute. split; [discriminate|reflexivity].
Defined.

(** [bitarray_expand] keeps every bit of the old block and clears every
    bit it adds; a request that is not larger leaves the block alone. *)
Theorem bitarray_expand_bits ba n_bits_old n_bits_new j :
  length ba = ba_words n_bits_old → 0 ≤ j →
  length (bitarray_expand ba n_bits_old n_bits_new)
    = Nat.max (ba_words n_bits_old) (ba_words n_bits_new) ∧
  ba_mem (bitarray_expand ba n_bits_old n_bits_new) j
    = (j <? 32 * Z.of_nat (length ba)) && ba_mem ba j.
Proof.
  intros Hl Hj. unfold bitarray_expand. fold (ba_words n_bits_old) (ba_words n_bits_new).
  assert (Hout : 32 * Z.of_nat (length ba) ≤ j → ba_mem ba j = false).
  { intros H. unfold ba_mem. rewrite shift_div, nth_overflow, Z.bits_0; [done|].
    assert (Z.of_nat (length ba) ≤ j / 32) by (apply Z.div_le_lower_bound; lia). lia. }
  case_decide.
  - split; [lia|]. destruct (j <? _) eqn:E; zbool; [done|]. by rewrite Hout.
  - split.
    + rewrite length_app, length_take, length_replicate. lia.
    + rewrite take_ge by lia. unfold ba_mem. rewrite shift_div, mask_mod.
      destruct (j <? 32 * Z.of_nat (length ba)) eqn:E; zbool; simpl.
      * rewrite app_nth1; [done|].
        assert (j / 32 < Z.of_nat (length ba)) by (apply Z.div_lt_upper_bound; lia).
        assert (0 ≤ j / 32) by (apply Z.div_pos; lia). lia.
      * assert (Z.of_nat (length ba) ≤ j / 32) by (apply Z.div_le_lower_bound; lia).
        rewrite app_nth2 by lia. rewrite nth_lookup.
        destruct (replicate _ _ !! _) as [x|] eqn:Ex; simpl; [|apply Z.bits_0].
        apply lookup_replicate in Ex as [-> _]. apply Z.bits_0.
Qed.

Lemma bitarray_expand_bits_witness :
  length (bitarray_expand [5] 32 70) = 3%nat ∧ ba_mem (bitarray_expand [5] 32 70) 2 = true.
Proof.
  destruct (bitarray_expand_bits [5] 32 70 2) as [H1 H2]; [reflexivity|lia|].
  split; [exact H1|rewrite H2; reflexivity].
Defined.

(** The bit tables of the header decide exactly the C-locale character
    classes, and the case tables fold exactly the ASCII letters, for every
    byte. *)
Theorem ctype_tables_correct c :
  0 ≤ c < 256 →
  SMP_ISALPHA c = is_upper c || is_lower c ∧
  SMP_ISALNUM c = is_upper c || is_lower c || is_digit c ∧
  SMP_ISSPACE c = is_space c ∧
  SMP_ISDIGIT c = is_digit c ∧
  SMP_ISXDIGIT c = is_xdigit c ∧
  SMP_ISPRINT c = (32 <=? c) && (c <=? 126) ∧
  SMP_ISUPPER c = is_upper c ∧
  SMP_ISLOWER c = is_lower c ∧
  SMP_TOUPPER c = (if is_lower c then c - 32 else c) ∧
  SMP_TOLOWER c = (if is_upper c then c + 32 else c).
Proof.
  intros Hc.
  pose (p := λ c : Z,
    Bool.eqb (SMP_ISALPHA c) (is_upper c || is_lower c) &&
    (Bool.eqb (SMP_ISALNUM c) (is_upper c || is_lower c || is_digit c) &&
    (Bool.eqb (SMP_ISSPACE c) (is_space c) &&
    (Bool.eqb (SMP_ISDIGIT c) (is_digit c) &&
    (Bool.eqb (SMP_ISXDIGIT c) (is_xdigit c) &&
    (Bool.eqb (SMP_ISPRINT c) ((32 <=? c) && (c <=? 126)) &&
    (Bool.eqb (SMP_ISUPPER c) (is_upper c) &&
    (Bool.eqb (SMP_ISLOWER c) (is_lower c) &&
    ((SMP_TOUPPER c =? (if is_lower c then c - 32 else c)) &&
     (SMP_TOLOWER c =? (if is_upper c then c + 32 else c))))))))))).
  assert (Hp : p c = true) by (apply forall_byte_reflect; [vm_compute; reflexivity|done]).
  unfold p in Hp. repeat (apply andb_true_iff in Hp as [? Hp]).
  repeat split; try (by apply eqb_prop); by apply Z.eqb_eq.
Qed.

Lemma ctype_tables_correct_witness : SMP_ISSPACE 11 = true ∧ SMP_TOUPPER 122 = 90.
Proof.
  destruct (ctype_tables_correct 11) as (_ & _ & H & _); [lia|].
  destruct (ctype_tables_correct 122) as (_ & _ & _ & _ & _ & _ & _ & _ & H2 & _); [lia|].
  split; [rewrite H|rewrite H2]; reflexivity.
Defined.
