(* ===== verification/Smartlist.v ===== *)
(** * The growable pointer array (wpa_cli_oper/smartlist.c, smartlist.h)

    A [smartlist_t] is a block of [capacity] pointer cells of which the first
    [num_used] hold elements.  Pointers are addresses, [NULL] is 0; a cell
    that [realloc] added is [None] until it is written.  Functions that look
    behind the pointers take the heap of strings as an argument.  The model is
    of lists that do not alias each other, and [malloc] and [realloc] succeed:
    the source never tests their results. *)

From S2P Require Import Prelude CString.

Record smartlist := Smartlist {
  sl_list : list (option Z);
  num_used : Z;
  capacity : Z;
}.

Definition NULL : Z := 0.
Definition SMARTLIST_DEFAULT_CAPACITY : Z := 16.

(** [sl->list[i]] read and written. *)
Definition smartlist_get (sl : smartlist) (i : Z) : outcome Z := buf_get (sl_list sl) i.

Definition smartlist_set (sl : smartlist) (i v : Z) : outcome smartlist :=
  l ← buf_set (sl_list sl) i v;
  Ret (Smartlist l (num_used sl) (capacity sl)).

Definition set_num_used (sl : smartlist) (n : Z) : smartlist :=
  Smartlist (sl_list sl) n (capacity sl).

Definition smartlist_len (sl : smartlist) : Z := num_used sl.

Definition smartlist_new : smartlist :=
  Smartlist (replicate (Z.to_nat SMARTLIST_DEFAULT_CAPACITY) (Some NULL)) 0
    SMARTLIST_DEFAULT_CAPACITY.

Definition smartlist_clear (sl : smartlist) : smartlist := set_num_used sl 0.

(** The doubling loop of [smartlist_ensure_capacity]; 32 rounds exhaust the
    range of [int] from any positive capacity. *)
Fixpoint grow (fuel : nat) (size higher : Z) : outcome Z :=
  match fuel with
  | O => OutOfFuel
  | S fuel' =>
      if higher <? size then h ← int_chk (higher * 2); grow fuel' size h
      else Ret higher
  end.

Definition smartlist_ensure_capacity (sl : smartlist) (size : Z) : outcome smartlist :=
  if capacity sl <? size then
    higher ← grow 32 size (capacity sl);
    Ret (Smartlist (take (Z.to_nat higher) (sl_list sl)
                      ++ uninit (higher - Z.of_nat (length (sl_list sl))))
           (num_used sl) higher)
  else Ret sl.

Definition smartlist_add (sl : smartlist) (element : Z) : outcome smartlist :=
  n ← int_chk (num_used sl + 1);
  sl1 ← smartlist_ensure_capacity sl n;
  sl2 ← smartlist_set sl1 (num_used sl1) element;
  Ret (set_num_used sl2 (num_used sl2 + 1)).

(** [memcpy] of [n] pointer cells starting at [src]. *)
Definition cells_copy (dst : buf) (doff : Z) (src : buf) (soff n : Z) : outcome buf :=
  if (0 <=? soff) && (0 <=? doff) && (0 <=? n)
     && (soff + n <=? Z.of_nat (length src)) && (doff + n <=? Z.of_nat (length dst))
  then Ret (take (Z.to_nat doff) dst
              ++ take (Z.to_nat n) (drop (Z.to_nat soff) src)
              ++ drop (Z.to_nat (doff + n)) dst)
  else UB "memcpy out of bounds".

Definition smartlist_add_all (sl s2 : smartlist) : outcome smartlist :=
  new_size ← int_chk (num_used sl + num_used s2);
  sl1 ← smartlist_ensure_capacity sl new_size;
  l ← cells_copy (sl_list sl1) (num_used sl1) (sl_list s2) 0 (num_used s2);
  Ret (Smartlist l new_size (capacity sl1)).

(** [sl->list[i] = sl->list[--sl->num_used]]: the step shared by the
    functions that delete by swapping with the last element. *)
Definition swap_out (sl : smartlist) (i : Z) : outcome smartlist :=
  v ← smartlist_get sl (num_used sl - 1);
  smartlist_set (set_num_used sl (num_used sl - 1)) i v.

(** The removal loops visit [i] again after a swap, so every round shortens
    [num_used - i] by one. *)
Fixpoint remove_loop (fuel : nat) (p : Z → outcome bool) (sl : smartlist) (i : Z)
    : outcome smartlist :=
  match fuel with
  | O => OutOfFuel
  | S fuel' =>
      if i <? num_used sl then
        v ← smartlist_get sl i;
        hit ← p v;
        if (hit : bool) then sl' ← swap_out sl i; remove_loop fuel' p sl' i
        else remove_loop fuel' p sl (i + 1)
      else Ret sl
  end.

Definition loop_fuel (sl : smartlist) : nat := S (Z.to_nat (num_used sl)).

Definition smartlist_remove (sl : smartlist) (element : Z) : outcome smartlist :=
  if element =? NULL then Ret sl
  else remove_loop (loop_fuel sl) (λ v, Ret (v =? element)) sl 0.

Definition smartlist_pop_last (sl : smartlist) : outcome (Z * smartlist) :=
  if negb (num_used sl =? 0) then
    v ← smartlist_get sl (num_used sl - 1);
    Ret (v, set_num_used sl (num_used sl - 1))
  else Ret (NULL, sl).

Fixpoint reverse_loop (fuel : nat) (sl : smartlist) (i j : Z) : outcome smartlist :=
  match fuel with
  | O => OutOfFuel
  | S fuel' =>
      if i <? j then
        tmp ← smartlist_get sl i;
        v ← smartlist_get sl j;
        sl1 ← smartlist_set sl i v;
        sl2 ← smartlist_set sl1 j tmp;
        reverse_loop fuel' sl2 (i + 1) (j - 1)
      else Ret sl
  end.

Definition smartlist_reverse (sl : smartlist) : outcome smartlist :=
  reverse_loop (loop_fuel sl) sl 0 (num_used sl - 1).

(** The search loops: the first index whose element satisfies the test. *)
Fixpoint find_loop (fuel : nat) (p : Z → outcome bool) (sl : smartlist) (i : Z)
    : outcome (option Z) :=
  match fuel with
  | O => OutOfFuel
  | S fuel' =>
      if i <? num_used sl then
        v ← smartlist_get sl i;
        hit ← p v;
        if (hit : bool) then Ret (Some i) else find_loop fuel' p sl (i + 1)
      else Ret None
  end.

Definition found (r : option Z) : Z := match r with Some _ => 1 | None => 0 end.

Definition smartlist_contains (sl : option smartlist) (element : Z) : outcome Z :=
  match sl with
  | None => Ret 0
  | Some sl => r ← find_loop (loop_fuel sl) (λ v, Ret (v =? element)) sl 0; Ret (found r)
  end.

Fixpoint overlap_loop (fuel : nat) (sl1 : option smartlist) (sl2 : smartlist) (i : Z)
    : outcome Z :=
  match fuel with
  | O => OutOfFuel
  | S fuel' =>
      if i <? num_used sl2 then
        v ← smartlist_get sl2 i;
        c ← smartlist_contains sl1 v;
        if negb (c =? 0) then Ret 1 else overlap_loop fuel' sl1 sl2 (i + 1)
      else Ret 0
  end.

Definition smartlist_overlap (sl1 : option smartlist) (sl2 : smartlist) : outcome Z :=
  overlap_loop (loop_fuel sl2) sl1 sl2 0.

Definition smartlist_intersect (sl1 : smartlist) (sl2 : option smartlist)
    : outcome smartlist :=
  remove_loop (loop_fuel sl1) (λ v, c ← smartlist_contains sl2 v; Ret (c =? 0)) sl1 0.

Fixpoint subtract_loop (fuel : nat) (sl1 sl2 : smartlist) (i : Z) : outcome smartlist :=
  match fuel with
  | O => OutOfFuel
  | S fuel' =>
      if i <? num_used sl2 then
        v ← smartlist_get sl2 i;
        sl1' ← smartlist_remove sl1 v;
        subtract_loop fuel' sl1' sl2 (i + 1)
      else Ret sl1
  end.

Definition smartlist_subtract (sl1 sl2 : smartlist) : outcome smartlist :=
  subtract_loop (loop_fuel sl2) sl1 sl2 0.

Definition smartlist_del (sl : smartlist) (idx : Z) : outcome smartlist := swap_out sl idx.

Definition smartlist_swap (sl : smartlist) (idx1 idx2 : Z) : outcome smartlist :=
  if negb (idx1 =? idx2) then
    elt ← smartlist_get sl idx1;
    v ← smartlist_get sl idx2;
    sl1 ← smartlist_set sl idx1 v;
    smartlist_set sl1 idx2 elt
  else Ret sl.

Definition smartlist_del_keeporder (sl : smartlist) (idx : Z) : outcome smartlist :=
  let sl1 := set_num_used sl (num_used sl - 1) in
  if idx <? num_used sl1 then
    l ← cells_copy (sl_list sl1) idx (sl_list sl1) (idx + 1) (num_used sl1 - idx);
    Ret (Smartlist l (num_used sl1) (capacity sl1))
  else Ret sl1.

Definition smartlist_insert (sl : smartlist) (idx val : Z) : outcome smartlist :=
  if idx =? num_used sl then smartlist_add sl val
  else
    n ← int_chk (num_used sl + 1);
    sl1 ← smartlist_ensure_capacity sl n;
    l ← (if idx <? num_used sl1 then
           cells_copy (sl_list sl1) (idx + 1) (sl_list sl1) idx (num_used sl1 - idx)
         else Ret (sl_list sl1));
    smartlist_set (Smartlist l (num_used sl1 + 1) (capacity sl1)) idx val.

(** ** The list a smartlist stands for *)

Definition repr (sl : smartlist) (xs : list Z) : Prop :=
  ∃ rest, sl_list sl = cells xs ++ rest ∧
    num_used sl = strlen xs ∧ capacity sl = Z.of_nat (length (sl_list sl)) ∧
    16 ≤ capacity sl ≤ INT_MAX.

Lemma repr_new : repr smartlist_new [].
Proof.
  exists (replicate 16 (Some NULL)). split_and!; try reflexivity; vm_compute; discriminate.
Qed.

Lemma repr_clear sl xs : repr sl xs → repr (smartlist_clear sl) [].
Proof.
  intros (rest & Hl & _ & Hc & ? & ?). exists (cells xs ++ rest). by split_and!.
Qed.

Lemma repr_num_used sl xs : repr sl xs → num_used sl = strlen xs.
Proof. by intros (? & _ & ? & _). Qed.

Lemma repr_fits sl xs : repr sl xs → 0 ≤ num_used sl ≤ capacity sl.
Proof.
  intros (rest & Hl & Hn & Hc & _). rewrite Hl, length_app, cells_length in Hc.
  unfold strlen in Hn. lia.
Qed.

Lemma repr_get sl xs i x :
  repr sl xs → xs !! i = Some x → smartlist_get sl (Z.of_nat i) = Ret x.
Proof.
  intros (rest & Hl & _) Hx. apply buf_get_lookup; [lia|].
  rewrite Hl, Nat2Z.id. unfold cells.
  rewrite lookup_app_l by (rewrite length_fmap; by eapply lookup_lt_Some).
  by rewrite list_lookup_fmap, Hx.
Qed.

Lemma repr_set sl xs i v :
  repr sl xs → (i < length xs)%nat →
  ∃ sl', smartlist_set sl (Z.of_nat i) v = Ret sl' ∧ repr sl' (<[i := v]> xs) ∧
    capacity sl' = capacity sl.
Proof.
  intros (rest & Hl & Hn & Hc & Hr) Hi.
  assert (Hb : buf_set (sl_list sl) (Z.of_nat i) v = Ret (<[i := Some v]> (sl_list sl))).
  { apply buf_set_Ret. rewrite Nat2Z.id. split; [|done].
    rewrite Hl, length_app, cells_length. lia. }
  unfold smartlist_set. rewrite Hb. ret_simpl. eexists. split; [done|]. split; [|done].
  exists rest. simpl. rewrite Hl in *. unfold strlen in *.
  rewrite !length_insert. split_and!; [|lia..].
  rewrite insert_app_l by (rewrite cells_length; lia). unfold cells.
  by rewrite list_fmap_insert.
Qed.

(** Forgetting the last elements. *)
Lemma repr_take sl xs n :
  repr sl xs → (n ≤ length xs)%nat → repr (set_num_used sl (Z.of_nat n)) (take n xs).
Proof.
  intros (rest & Hl & Hn & Hc & Hr) Hle. exists (cells (drop n xs) ++ rest). simpl.
  rewrite Hl in *. unfold strlen, cells. rewrite app_assoc, <- fmap_app, take_drop.
  rewrite length_take. split_and!; [done|lia|done|lia..].
Qed.

(** One more element when the next cell is there. *)
Lemma repr_push sl xs v :
  repr sl xs → num_used sl < capacity sl →
  ∃ sl', smartlist_set sl (num_used sl) v = Ret sl' ∧
    repr (set_num_used sl' (num_used sl' + 1)) (xs ++ [v]) ∧
    num_used sl' = num_used sl ∧ capacity sl' = capacity sl.
Proof.
  intros (rest & Hl & Hn & Hc & Hr) Hlt. unfold strlen in *.
  assert (Hb : buf_set (sl_list sl) (num_used sl) v
               = Ret (<[length xs := Some v]> (sl_list sl))).
  { apply buf_set_Ret. split; [lia|]. f_equal. lia. }
  unfold smartlist_set. rewrite Hb. ret_simpl. eexists. split; [done|].
  split; [|done]. rewrite Hl, length_app, cells_length in Hc.
  destruct rest as [|r rest]; simpl in Hc; [lia|].
  exists rest. simpl. rewrite Hl in *. unfold strlen.
  rewrite length_insert, !length_app, cells_length. simpl.
  split_and!; [|lia..]. rewrite <- (Nat.add_0_r (length xs)), <- (cells_length xs) at 1.
  rewrite insert_app_r. simpl. unfold cells. by rewrite fmap_app, <- app_assoc.
Qed.

(** ** Growth *)

Lemma grow_S fuel size higher :
  grow (S fuel) size higher
  = if higher <? size then h ← int_chk (higher * 2); grow fuel size h else Ret higher.
Proof. done. Qed.

Lemma grow_spec fuel size higher :
  1 ≤ higher ≤ INT_MAX → size ≤ 1073741824 → size ≤ higher * 2 ^ Z.of_nat fuel →
  ∃ k h, grow (S fuel) size higher = Ret h ∧ h = higher * 2 ^ Z.of_nat k ∧ size ≤ h ≤ INT_MAX ∧
    (higher < size → h < 2 * size) ∧ (size ≤ higher → h = higher).
Proof.
  unfold INT_MAX. revert higher. induction fuel as [|fuel IH]; intros higher Hh Hs Hf.
  { exists 0%nat, higher. rewrite grow_S, (proj2 (Z.ltb_ge higher size)) by lia.
    split_and!; [done|simpl; lia..]. }
  rewrite grow_S. destruct (higher <? size) eqn:E; zbool.
  - rewrite (proj2 (int_chk_Ret _ (higher * 2))) by (unfold INT_MIN, INT_MAX; lia).
    ret_simpl. rewrite Nat2Z.inj_succ, Z.pow_succ_r in Hf by lia.
    destruct (IH (higher * 2)) as (k & h & Hg & Hk & H1 & H2 & H3); [lia..|].
    rewrite Hg.
    exists (S k), h. split_and!; [done| |lia|lia| |lia].
    + rewrite Nat2Z.inj_succ, Z.pow_succ_r by lia. lia.
    + intros _. destruct (Z.lt_ge_cases (higher * 2) size) as [|Hge]; [lia|].
      rewrite (H3 Hge). lia.
  - exists 0%nat, higher. split_and!; [done|simpl; lia|lia|lia|lia|lia].
Qed.

Lemma ensure_capacity_spec sl xs size :
  repr sl xs → size ≤ 1073741824 →
  ∃ sl', smartlist_ensure_capacity sl size = Ret sl' ∧ repr sl' xs ∧
    size ≤ capacity sl' ∧ num_used sl' = num_used sl ∧
    capacity sl ≤ capacity sl' ∧
    (capacity sl' = capacity sl ∨ capacity sl' < 2 * size).
Proof.
  intros Hrep Hs. pose proof Hrep as (rest & Hl & Hn & Hc & Hr).
  unfold smartlist_ensure_capacity. destruct (capacity sl <? size) eqn:E; zbool.
  2:{ exists sl. split_and!; [done..|lia|done|lia|by left]. }
  destruct (grow_spec 31 size (capacity sl)) as (k & h & Hg & Hk & H1 & H2 & H3);
    [lia|lia| |].
  { change (2 ^ Z.of_nat 31) with 2147483648. lia. }
  rewrite Hg. ret_simpl. eexists. split; [done|].
  split; [|split_and!; simpl; try lia; right; lia].
  specialize (H2 E). exists (rest ++ uninit (h - Z.of_nat (length (sl_list sl)))). simpl.
  rewrite take_ge by lia. unfold uninit. split_and!; [by rewrite Hl, app_assoc|done| |lia|lia].
  rewrite length_app, length_replicate. lia.
Qed.

(** Copying between cells. *)
Lemma cells_copy_Ret dst doff src soff n :
  0 ≤ soff → 0 ≤ doff → 0 ≤ n → soff + n ≤ Z.of_nat (length src) →
  doff + n ≤ Z.of_nat (length dst) →
  cells_copy dst doff src soff n
  = Ret (take (Z.to_nat doff) dst ++ take (Z.to_nat n) (drop (Z.to_nat soff) src)
           ++ drop (Z.to_nat (doff + n)) dst).
Proof.
  intros. unfold cells_copy.
  rewrite !(proj2 (Z.leb_le _ _)) by lia. done.
Qed.

(** ** Each operation on the abstract list *)

Lemma set_after_num_used sl k i v :
  smartlist_set (set_num_used sl k) i v
  = (sl' ← smartlist_set sl i v; Ret (set_num_used sl' k)).
Proof. unfold smartlist_set. simpl. by destruct (buf_set _ _ _). Qed.

(** What deleting by swapping leaves of [A ++ x :: B]. *)
Definition rot (B : list Z) : list Z :=
  match last B with Some l => l :: removelast B | None => [] end.

Lemma rot_snoc B l : rot (B ++ [l]) = l :: B.
Proof. unfold rot. by rewrite last_snoc, removelast_last. Qed.

Lemma rot_perm B : rot B ≡ₚ B.
Proof.
  destruct B as [|l B] using rev_ind; [done|].
  rewrite rot_snoc. apply Permutation_cons_append.
Qed.

Lemma repr_swap_out sl A x B :
  repr sl (A ++ x :: B) →
  ∃ sl', swap_out sl (strlen A) = Ret sl' ∧ repr sl' (A ++ rot B) ∧
    capacity sl' = capacity sl.
Proof.
  intros Hr. unfold swap_out, strlen.
  assert (Hv : ∃ v, smartlist_get sl (num_used sl - 1) = Ret v ∧
    take (length A + length B) (<[length A := v]> (A ++ x :: B)) = A ++ rot B).
  { rewrite (repr_num_used _ _ Hr). unfold strlen. rewrite length_app. simpl.
    replace (Z.of_nat (length A + S (length B)) - 1)
      with (Z.of_nat (length A + length B)) by lia.
    destruct B as [|l B _] using rev_ind.
    - exists x. split; [apply (repr_get _ _ _ _ Hr)|].
      + rewrite Nat.add_0_r. by apply list_lookup_middle.
      + simpl. rewrite Nat.add_0_r, take_insert_ge, take_app_length, app_nil_r by lia. done.
    - exists l. split; [apply (repr_get _ _ _ _ Hr)|].
      + rewrite length_app. simpl. rewrite lookup_app_r by lia.
        replace (length A + (length B + 1) - length A)%nat with (S (length B)) by lia.
        simpl. by apply list_lookup_middle.
      + rewrite rot_snoc, <- (Nat.add_0_r (length A)), insert_app_r. simpl.
        rewrite length_app. simpl. rewrite Nat.add_0_r, take_app_add.
        rewrite Nat.add_1_r. simpl. by rewrite take_app_length. }
  destruct Hv as (v & Hget & Htake). rewrite Hget. ret_simpl.
  rewrite set_after_num_used.
  destruct (repr_set sl _ (length A) v Hr) as (sl' & -> & Hr' & Hc).
  { rewrite length_app. simpl. lia. }
  ret_simpl. eexists. split; [done|]. split; [|done].
  rewrite <- Htake. rewrite (repr_num_used _ _ Hr).
  replace (strlen (A ++ x :: B) - 1) with (Z.of_nat (length A + length B))
    by (unfold strlen; rewrite length_app; simpl; lia).
  apply repr_take; [done|]. rewrite length_insert, length_app. simpl. lia.
Qed.

(** The removal loops keep, in some order, exactly what the test rejects. *)
Lemma remove_loop_spec fuel p q sl A B :
  repr sl (A ++ B) → (length B < fuel)%nat → (∀ v, v ∈ B → p v = Ret (q v)) →
  ∃ sl' C, remove_loop fuel p sl (strlen A) = Ret sl' ∧ repr sl' (A ++ C) ∧
    C ≡ₚ List.filter (λ v, negb (q v)) B.
Proof.
  revert sl A B. induction fuel as [|fuel IH]; intros sl A B Hr Hf Hp; [lia|].
  cbn [remove_loop]. rewrite (repr_num_used _ _ Hr). unfold strlen. rewrite length_app.
  destruct B as [|x B]; simpl length.
  - rewrite (proj2 (Z.ltb_ge _ _)) by lia. exists sl, []. done.
  - rewrite (proj2 (Z.ltb_lt _ _)) by lia.
    rewrite (repr_get _ _ _ x Hr) by (by apply list_lookup_middle). ret_simpl.
    rewrite Hp by (left). ret_simpl. cbn [List.filter]. simpl in Hf.
    destruct (q x) eqn:Eq; cbn [negb].
    + destruct (repr_swap_out _ _ _ _ Hr) as (sl' & Hs & Hr' & _).
      unfold strlen in Hs. rewrite Hs. ret_simpl.
      destruct (IH sl' A (rot B) Hr') as (sl2 & C & Hl & Hr2 & Hperm).
      * rewrite rot_perm. lia.
      * intros v Hv. apply Hp. right. by rewrite rot_perm in Hv.
      * exists sl2, C. split; [done|]. split; [done|].
        rewrite Hperm. by rewrite rot_perm.
    + rewrite cons_middle, app_assoc in Hr.
      destruct (IH sl (A ++ [x]) B Hr) as (sl2 & C & Hl & Hr2 & Hperm); [lia| |].
      { intros v Hv. apply Hp. by right. }
      exists sl2, (x :: C). unfold strlen in Hl. rewrite length_app in Hl. simpl in Hl.
      replace (Z.of_nat (length A) + 1) with (Z.of_nat (length A + 1)) by lia.
      split; [done|]. split; [by rewrite cons_middle, app_assoc|by f_equiv].
Qed.

Lemma repr_fuel sl xs : repr sl xs → loop_fuel sl = S (length xs).
Proof. intros H. unfold loop_fuel. rewrite (repr_num_used _ _ H). unfold strlen. lia. Qed.

Lemma find_loop_spec fuel p q sl A B :
  repr sl (A ++ B) → (length B < fuel)%nat → (∀ v, v ∈ B → p v = Ret (q v)) →
  ∃ r, find_loop fuel p sl (strlen A) = Ret r ∧
    match r with
    | Some i => strlen A ≤ i ∧ ∃ v, (A ++ B) !! Z.to_nat i = Some v ∧ q v = true ∧
        ∀ k w, strlen A ≤ Z.of_nat k < i → (A ++ B) !! k = Some w → q w = false
    | None => ∀ v, v ∈ B → q v = false
    end.
Proof.
  revert A B. induction fuel as [|fuel IH]; intros A B Hr Hf Hp; [lia|].
  cbn [find_loop]. rewrite (repr_num_used _ _ Hr). unfold strlen in *. rewrite length_app.
  destruct B as [|x B]; simpl length.
  - rewrite (proj2 (Z.ltb_ge _ _)) by lia. exists None. split; [done|].
    intros v Hv. by apply not_elem_of_nil in Hv.
  - rewrite (proj2 (Z.ltb_lt _ _)) by lia.
    rewrite (repr_get _ _ _ x Hr) by (by apply list_lookup_middle). ret_simpl.
    rewrite Hp by (left). ret_simpl. simpl in Hf. destruct (q x) eqn:Eq.
    + exists (Some (Z.of_nat (length A))). split; [done|]. split; [lia|]. exists x.
      rewrite Nat2Z.id. split; [by apply list_lookup_middle|]. split; [done|lia].
    + replace (A ++ x :: B) with ((A ++ [x]) ++ B) in * by (by rewrite <- app_assoc).
      destruct (IH (A ++ [x]) B Hr) as (r & Hl & Hres); [lia| |].
      { intros v Hv. apply Hp. by right. }
      rewrite length_app in *. simpl in *.
      replace (Z.of_nat (length A) + 1) with (Z.of_nat (length A + 1)) by lia.
      exists r. split; [done|]. destruct r as [i|].
      * destruct Hres as (H1 & v & H2 & H3 & H4). split; [lia|]. exists v.
        split_and!; [done..|]. intros k w Hk Hw.
        destruct (decide (k = length A)) as [->|]; [|eapply H4; [|done]; lia].
        rewrite <- app_assoc in Hw. simpl in Hw.
        rewrite list_lookup_middle in Hw by done. congruence.
      * intros v [->|Hv]%elem_of_cons; auto.
Qed.

Lemma repr_contains sl xs v :
  repr sl xs → smartlist_contains (Some sl) v = Ret (b2z (bool_decide (v ∈ xs))).
Proof.
  intros Hr. unfold smartlist_contains. rewrite (repr_fuel _ _ Hr).
  destruct (find_loop_spec (S (length xs)) (λ w, Ret (w =? v)) (λ w, w =? v) sl [] xs)
    as (r & Hl & Hres); [done|lia|done|].
  change (strlen []) with 0 in *. rewrite Hl. ret_simpl. f_equal. destruct r as [i|]; simpl.
  - destruct Hres as (_ & w & Hw & Heq & _). zbool. subst w.
    rewrite bool_decide_eq_true_2; [done|]. by eapply list_elem_of_lookup_2.
  - rewrite bool_decide_eq_false_2; [done|]. intros Hv%Hres. zbool. done.
Qed.

Lemma reverse_loop_spec fuel sl A M D :
  repr sl (A ++ M ++ D) → (length M < fuel)%nat →
  ∃ sl', reverse_loop fuel sl (strlen A) (strlen A + strlen M - 1) = Ret sl' ∧
    repr sl' (A ++ reverse M ++ D).
Proof.
  revert sl A M D. induction fuel as [|fuel IH]; intros sl A M D Hr Hf; [lia|].
  cbn [reverse_loop]. destruct (strlen A <? _) eqn:E; unfold strlen in *; zbool.
  2:{ exists sl. split; [done|]. destruct M as [|x [|y M]]; simpl in *; [done..|lia]. }
  destruct M as [|x M]; [simpl in *; lia|].
  destruct M as [|y M _] using rev_ind; [simpl in *; lia|].
  rewrite !length_cons, length_app in *. simpl in *.
  rewrite <- !app_assoc in Hr. simpl in Hr.
  rewrite (repr_get _ _ _ x Hr) by (by apply list_lookup_middle). ret_simpl.
  replace (Z.of_nat (length A) + Z.of_nat (S (length M + 1)) - 1)
    with (Z.of_nat (length A + S (length M))) by lia.
  assert (Hy : ∀ z : Z, (A ++ z :: M ++ y :: D) !! (length A + S (length M))%nat = Some y).
  { intros z. rewrite lookup_app_r by lia.
    replace (length A + S (length M) - length A)%nat with (S (length M)) by lia.
    simpl. by apply list_lookup_middle. }
  rewrite (repr_get _ _ _ y Hr) by done. ret_simpl.
  destruct (repr_set sl _ (length A) y Hr) as (sl1 & -> & Hr1 & _);
    [rewrite length_app; simpl; lia|]. ret_simpl.
  rewrite <- (Nat.add_0_r (length A)), insert_app_r in Hr1. simpl in Hr1.
  destruct (repr_set sl1 _ (length A + S (length M)) x Hr1) as (sl2 & -> & Hr2 & _);
    [by eapply lookup_lt_Some|]. ret_simpl.
  rewrite insert_app_r in Hr2. simpl in Hr2.
  rewrite <- (Nat.add_0_r (length M)), insert_app_r in Hr2. simpl in Hr2.
  destruct (IH sl2 (A ++ [y]) M (x :: D)) as (sl' & Hl & Hr');
    [by rewrite <- app_assoc|lia|].
  rewrite length_app in Hl. simpl in Hl. exists sl'.
  replace (Z.of_nat (length A) + 1) with (Z.of_nat (length A + 1)) by lia.
  replace (Z.of_nat (length A + S (length M)) - 1)
    with (Z.of_nat (length A + 1) + Z.of_nat (length M) - 1) by lia.
  split; [done|]. rewrite reverse_cons, reverse_app. simpl.
  by rewrite <- !app_assoc in *.
Qed.

Lemma repr_add sl xs v :
  repr sl xs → strlen xs < 1073741824 →
  ∃ sl', smartlist_add sl v = Ret sl' ∧ repr sl' (xs ++ [v]) ∧
    capacity sl ≤ capacity sl' ∧
    (capacity sl' = capacity sl ∨ capacity sl' < 2 * (strlen xs + 1)).
Proof.
  intros Hr Hs. unfold smartlist_add. pose proof (repr_num_used _ _ Hr) as Hn.
  rewrite (proj2 (int_chk_Ret _ (num_used sl + 1)))
    by (unfold INT_MIN, INT_MAX, strlen in *; lia).
  ret_simpl. destruct (ensure_capacity_spec sl xs (num_used sl + 1) Hr)
    as (sl1 & -> & Hr1 & Hc & Hn1 & Hc1 & Hc2); [lia|]. ret_simpl.
  destruct (repr_push sl1 xs v Hr1) as (sl2 & -> & Hr2 & _ & Hc3); [lia|]. ret_simpl.
  eexists. split; [done|]. split; [done|]. simpl. lia.
Qed.

Lemma repr_add_all sl xs s2 ys :
  repr sl xs → repr s2 ys → strlen xs + strlen ys ≤ 1073741824 →
  ∃ sl', smartlist_add_all sl s2 = Ret sl' ∧ repr sl' (xs ++ ys).
Proof.
  intros Hr Hr2 Hs. unfold smartlist_add_all. pose proof (repr_num_used _ _ Hr) as Hn.
  pose proof (repr_num_used _ _ Hr2) as Hn2. pose proof (repr_fits _ _ Hr2).
  unfold strlen in *.
  rewrite (proj2 (int_chk_Ret _ (num_used sl + num_used s2)))
    by (unfold INT_MIN, INT_MAX; lia).
  ret_simpl. destruct (ensure_capacity_spec sl xs (num_used sl + num_used s2) Hr)
    as (sl1 & -> & Hr1 & Hc & Hn1 & _ & _); [lia|]. ret_simpl.
  destruct Hr1 as (rest & Hl & _ & Hcap & Hrange).
  destruct Hr2 as (rest2 & Hl2 & _ & Hcap2 & _).
  rewrite cells_copy_Ret by lia. ret_simpl. eexists. split; [done|].
  exists (drop (Z.to_nat (num_used sl1 + num_used s2)) (sl_list sl1)). simpl.
  replace (Z.to_nat (num_used sl1)) with (length xs) by lia.
  replace (Z.to_nat (num_used s2)) with (length ys) by lia.
  rewrite Hl2, drop_0, take_app_length' by (by rewrite cells_length).
  replace (take (length xs) (sl_list sl1)) with (cells xs)
    by (by rewrite Hl, take_app_length' by (by rewrite cells_length)).
  assert (Hd : (length xs + length ys ≤ length (sl_list sl1))%nat) by lia.
  unfold strlen, cells. rewrite fmap_app, <- app_assoc.
  rewrite !length_app, !length_fmap, length_drop. split_and!; [done|lia..].
Qed.

Lemma repr_del_keeporder sl A x B :
  repr sl (A ++ x :: B) →
  ∃ sl', smartlist_del_keeporder sl (strlen A) = Ret sl' ∧ repr sl' (A ++ B).
Proof.
  intros Hr. unfold smartlist_del_keeporder. pose proof (repr_num_used _ _ Hr) as Hn.
  unfold strlen in *. rewrite length_app in Hn. simpl in Hn |- *.
  destruct (_ <? _) eqn:E; zbool.
  - destruct Hr as (rest & Hl & _ & Hc & Hrange).
    rewrite Hl, length_app, cells_length, length_app in Hc. simpl in Hc.
    rewrite cells_copy_Ret by (rewrite ?Hl, ?length_app, ?cells_length, ?length_app; simpl; lia).
    ret_simpl. eexists. split; [done|].
    exists (drop (length A + length B) (sl_list sl)). simpl.
    replace (Z.to_nat (Z.of_nat (length A) + (num_used sl - 1 - Z.of_nat (length A))))
      with (length A + length B)%nat by lia.
    replace (Z.to_nat (num_used sl - 1 - Z.of_nat (length A))) with (length B) by lia.
    replace (Z.to_nat (Z.of_nat (length A) + 1)) with (S (length A)) by lia.
    rewrite Nat2Z.id, Hl. unfold strlen, cells.
    rewrite !length_app, length_take, length_take, !length_drop, !length_app, !length_fmap.
    rewrite !length_app. simpl. split_and!; [|lia..].
    rewrite !fmap_app, <- !app_assoc. simpl.
    rewrite take_app_length' by (by rewrite length_fmap). f_equal.
    rewrite cons_middle, (app_assoc _ [_]), drop_app_length'
      by (rewrite length_app, length_fmap; simpl; lia).
    rewrite take_app_length' by (by rewrite length_fmap). done.
  - destruct B as [|b B]; [|simpl in *; lia]. eexists. split; [done|].
    rewrite app_nil_r. replace (num_used sl - 1) with (Z.of_nat (length A)) by (simpl in *; lia).
    pose proof (repr_take _ _ (length A) Hr) as Ht. rewrite take_app_length in Ht.
    apply Ht. rewrite length_app. lia.
Qed.

Lemma repr_insert sl A B v :
  repr sl (A ++ B) → strlen (A ++ B) < 1073741824 →
  ∃ sl', smartlist_insert sl (strlen A) v = Ret sl' ∧ repr sl' (A ++ v :: B).
Proof.
  intros Hr Hs. unfold smartlist_insert. pose proof (repr_num_used _ _ Hr) as Hn.
  destruct (strlen A =? num_used sl) eqn:E; zbool; unfold strlen in *; rewrite length_app in *.
  { destruct B as [|b B]; [|simpl in *; lia]. rewrite app_nil_r in Hr.
    destruct (repr_add sl A v Hr) as (sl' & ? & ? & _); [unfold strlen; lia|]. eauto. }
  rewrite (proj2 (int_chk_Ret _ (num_used sl + 1)))
    by (unfold INT_MIN, INT_MAX in *; lia).
  ret_simpl. destruct (ensure_capacity_spec sl _ (num_used sl + 1) Hr)
    as (sl1 & -> & Hr1 & Hc & Hn1 & _ & _); [lia|]. ret_simpl.
  rewrite (proj2 (Z.ltb_lt _ _)) by lia.
  destruct Hr1 as (rest & Hl & _ & Hcap & Hrange). rewrite Hl in Hcap.
  rewrite length_app, cells_length, length_app in Hcap.
  rewrite cells_copy_Ret by (rewrite ?Hl, ?length_app, ?cells_length, ?length_app; simpl; lia).
  ret_simpl. rewrite Hn1, Hn, Hl. unfold smartlist_set. simpl.
  set (l := take _ _ ++ _ ++ _).
  assert (Hl' : ∃ y, l = cells A ++ y :: cells B ++ drop 1 rest).
  { destruct rest as [|r rest]; [simpl in Hcap; lia|].
    assert (HAr : ∃ y, take (S (length A)) (cells A ++ cells B ++ r :: rest) = cells A ++ [y]).
    { rewrite <- Nat.add_1_r, take_app_add' by (by rewrite cells_length).
      destruct (cells B); simpl; eauto. }
    destruct HAr as [y Hy]. exists y. unfold l, cells in *. rewrite fmap_app, <- app_assoc.
    replace (Z.to_nat (Z.of_nat (length A) + 1)) with (S (length A)) by lia. rewrite Hy.
    rewrite <- app_assoc. simpl. do 2 f_equal.
    rewrite Nat2Z.id, drop_app_length' by (by rewrite length_fmap).
    replace (Z.to_nat (Z.of_nat (length A + length B) - Z.of_nat (length A)))
      with (length B) by lia.
    rewrite take_app_length' by (by rewrite length_fmap). f_equal.
    match goal with |- drop ?k _ = _ =>
      replace k with (length ((Some <$> A) ++ (Some <$> B)) + 1)%nat
        by (rewrite length_app, !length_fmap; lia)
    end.
    by rewrite app_assoc, drop_app_add. }
  destruct Hl' as [y Hl'].
  assert (Hb : buf_set l (Z.of_nat (length A)) v = Ret (cells A ++ Some v :: cells B ++ drop 1 rest)).
  { apply buf_set_Ret. rewrite Hl', length_app, cells_length. simpl. split; [lia|].
    rewrite Nat2Z.id, <- (cells_length A), <- (Nat.add_0_r (length (cells A))), insert_app_r.
    done. }
  rewrite Hb. ret_simpl. eexists. split; [done|]. exists (drop 1 rest). simpl.
  unfold strlen, cells. rewrite fmap_app. simpl.
  rewrite <- !app_assoc, !length_app. simpl. rewrite length_app, !length_fmap, length_drop.
  destruct rest as [|r rest]; [simpl in Hcap; lia|]. simpl in Hcap |- *.
  split_and!; [done|lia..].
Qed.

(** ** The interface a smartlist implements *)

Inductive sl_op : Type :=
  | OpAdd (v : Z)
  | OpPop
  | OpDel (i : nat)
  | OpDelKeeporder (i : nat)
  | OpInsert (i : nat) (v : Z)
  | OpReverse
  | OpRemove (v : Z)
  | OpContains (v : Z)
  | OpClear.

Definition no_result (m : outcome smartlist) : outcome (Z * smartlist) :=
  sl ← m; Ret (0, sl).

Definition sl_run (op : sl_op) (sl : smartlist) : outcome (Z * smartlist) :=
  match op with
  | OpAdd v => no_result (smartlist_add sl v)
  | OpPop => smartlist_pop_last sl
  | OpDel i => no_result (smartlist_del sl (Z.of_nat i))
  | OpDelKeeporder i => no_result (smartlist_del_keeporder sl (Z.of_nat i))
  | OpInsert i v => no_result (smartlist_insert sl (Z.of_nat i) v)
  | OpReverse => no_result (smartlist_reverse sl)
  | OpRemove v => no_result (smartlist_remove sl v)
  | OpContains v => r ← smartlist_contains (Some sl) v; Ret (r, sl)
  | OpClear => Ret (0, smartlist_clear sl)
  end.

(** What the caller has to respect: indices in range, room below the point
    where doubling an [int] capacity overflows. *)
Definition sl_pre (op : sl_op) (xs : list Z) : Prop :=
  match op with
  | OpAdd _ => strlen xs < 1073741824
  | OpInsert i _ => (i ≤ length xs)%nat ∧ strlen xs < 1073741824
  | OpDel i | OpDelKeeporder i => (i < length xs)%nat
  | _ => True
  end.

(** The abstract meaning: result and new list.  Deletion by swapping fixes the
    order of what stays in front, removal by value only the elements kept. *)
Inductive sl_spec : sl_op → list Z → Z → list Z → Prop :=
  | spec_add xs v : sl_spec (OpAdd v) xs 0 (xs ++ [v])
  | spec_pop_nil : sl_spec OpPop [] NULL []
  | spec_pop xs v : sl_spec OpPop (xs ++ [v]) v xs
  | spec_del A x B : sl_spec (OpDel (length A)) (A ++ x :: B) 0 (A ++ rot B)
  | spec_del_keep A x B : sl_spec (OpDelKeeporder (length A)) (A ++ x :: B) 0 (A ++ B)
  | spec_insert A B v : sl_spec (OpInsert (length A) v) (A ++ B) 0 (A ++ v :: B)
  | spec_reverse xs : sl_spec OpReverse xs 0 (reverse xs)
  | spec_remove_null xs : sl_spec (OpRemove NULL) xs 0 xs
  | spec_remove xs ys v : v ≠ NULL →
      ys ≡ₚ List.filter (λ w, negb (w =? v)) xs → sl_spec (OpRemove v) xs 0 ys
  | spec_contains xs v : sl_spec (OpContains v) xs (b2z (bool_decide (v ∈ xs))) xs
  | spec_clear xs : sl_spec OpClear xs 0 [].

Lemma repr_remove sl xs v :
  v ≠ NULL → repr sl xs →
  ∃ sl' ys, smartlist_remove sl v = Ret sl' ∧ repr sl' ys ∧
    ys ≡ₚ List.filter (λ w, negb (w =? v)) xs.
Proof.
  intros Hv Hr. unfold smartlist_remove. rewrite (proj2 (Z.eqb_neq v NULL)), (repr_fuel _ _ Hr)
    by done.
  apply (remove_loop_spec _ (λ w, Ret (w =? v)) (λ w, w =? v) sl [] xs); [done|lia|done].
Qed.

(** A list cut at an index. *)
Lemma split_at (xs : list Z) i :
  (i < length xs)%nat → ∃ A x B, xs = A ++ x :: B ∧ i = length A.
Proof.
  intros Hi. destruct (lookup_lt_is_Some_2 _ _ Hi) as [x Hx].
  exists (take i xs), x, (drop (S i) xs). rewrite take_drop_middle by done.
  split; [done|]. rewrite length_take. lia.
Qed.

(** Every smartlist operation is defined on a list that satisfies its
    precondition, stays inside the allocated cells, and simulates the abstract
    list operation: the block it leaves again represents a list. *)
Theorem smartlist_simulates op sl xs :
  repr sl xs → sl_pre op xs →
  ∃ r sl' ys, sl_run op sl = Ret (r, sl') ∧ repr sl' ys ∧ sl_spec op xs r ys.
Proof.
  intros Hr Hpre. destruct op as [v| |i|i|i v| |v|v|]; cbn [sl_run sl_pre] in *; unfold no_result.
  - destruct (repr_add sl xs v Hr Hpre) as (sl' & -> & Hr' & _). eauto 8 using sl_spec.
  - unfold smartlist_pop_last. rewrite (repr_num_used _ _ Hr). unfold strlen.
    destruct xs as [|v xs _] using rev_ind; simpl; [eauto 8 using sl_spec|].
    rewrite length_app, Nat.add_1_r. cbn [negb Z.eqb Z.of_nat].
    change (Z.pos (Pos.of_succ_nat (length xs))) with (Z.of_nat (S (length xs))).
    replace (Z.of_nat (S (length xs)) - 1) with (Z.of_nat (length xs)) by lia.
    rewrite (repr_get _ _ _ v Hr) by (by apply list_lookup_middle). ret_simpl.
    do 3 eexists. split; [done|]. split; [|constructor].
    pose proof (repr_take _ _ (length xs) Hr) as Ht. rewrite take_app_length in Ht.
    apply Ht. rewrite length_app. lia.
  - destruct (split_at xs i Hpre) as (A & x & B & -> & ->).
    destruct (repr_swap_out _ _ _ _ Hr) as (sl' & Hs & Hr' & _). unfold smartlist_del.
    unfold strlen in Hs. rewrite Hs. eauto 8 using sl_spec.
  - destruct (split_at xs i Hpre) as (A & x & B & -> & ->).
    destruct (repr_del_keeporder _ _ _ _ Hr) as (sl' & Hs & Hr').
    unfold strlen in Hs. rewrite Hs. eauto 8 using sl_spec.
  - destruct Hpre as [Hi Hs]. rewrite <- (take_drop i xs) in Hr, Hs |- *.
    assert (Hl : i = length (take i xs)) by (rewrite length_take; lia).
    destruct (repr_insert _ _ _ v Hr Hs) as (sl' & Hins & Hr'). unfold strlen in Hins.
    rewrite <- Hl in Hins. rewrite Hins. do 3 eexists. split; [done|]. split; [exact Hr'|].
    rewrite Hl at 1. constructor.
  - unfold smartlist_reverse. rewrite (repr_fuel _ _ Hr), (repr_num_used _ _ Hr).
    destruct (reverse_loop_spec (S (length xs)) sl [] xs []) as (sl' & Hl & Hr');
      [by rewrite app_nil_r|lia|].
    change (strlen []) with 0 in Hl. rewrite Z.add_0_l in Hl. rewrite Hl.
    simpl in Hr'. rewrite app_nil_r in Hr'. eauto 8 using sl_spec.
  - destruct (decide (v = NULL)) as [->|Hv].
    + unfold smartlist_remove. simpl. eauto 8 using sl_spec.
    + destruct (repr_remove sl xs v Hv Hr) as (sl' & ys & -> & Hr' & Hp).
      eauto 8 using sl_spec.
  - rewrite (repr_contains sl xs v Hr). eauto 8 using sl_spec.
  - do 3 eexists. split; [done|]. split; [by eapply repr_clear|constructor].
Qed.

Lemma smartlist_simulates_witness :
  ∃ r sl' ys, sl_run (OpInsert 0 7) smartlist_new = Ret (r, sl') ∧ repr sl' ys ∧
    sl_spec (OpInsert 0 7) [] r ys.
Proof.
  apply (smartlist_simulates (OpInsert 0 7) smartlist_new []).
  - exact repr_new.
  - split; [lia|reflexivity].
Defined.

(** Adding elements one by one to a new smartlist never fails below 2^30
    elements; the capacity stays a multiple of two within the factor two of
    the length that amortised doubling promises, and never shrinks. *)
Theorem smartlist_add_amortised xs :
  strlen xs ≤ 1073741824 →
  ∃ sl, foldr (λ v m, sl ← m; smartlist_add sl v) (Ret smartlist_new) (reverse xs) = Ret sl ∧
    repr sl xs ∧ 16 ≤ capacity sl ∧ strlen xs ≤ capacity sl ∧
    capacity sl < Z.max 17 (2 * strlen xs).
Proof.
  induction xs as [|v xs IH] using rev_ind; intros Hs.
  - exists smartlist_new. split_and!; [done|exact repr_new|vm_compute; discriminate..|done].
  - rewrite reverse_snoc. simpl. unfold strlen in *. rewrite length_app in *. simpl in *.
    destruct IH as (sl & -> & Hr & H16 & Hlo & Hhi); [lia|]. ret_simpl.
    destruct (repr_add sl xs v Hr) as (sl' & -> & Hr' & Hc1 & Hc2); [unfold strlen; lia|].
    exists sl'. split; [done|]. split; [done|].
    pose proof (repr_fits _ _ Hr') as Hf. rewrite (repr_num_used _ _ Hr') in Hf.
    unfold strlen in *. rewrite length_app in Hf. simpl in Hf. lia.
Qed.

Lemma smartlist_add_amortised_witness :
  ∃ sl, foldr (λ v m, sl ← m; smartlist_add sl v) (Ret smartlist_new) (reverse [5; 6; 7])
      = Ret sl ∧
    repr sl [5; 6; 7] ∧ 16 ≤ capacity sl ∧ strlen [5; 6; 7] ≤ capacity sl ∧
    capacity sl < Z.max 17 (2 * strlen [5; 6; 7]).
Proof. apply (smartlist_add_amortised [5; 6; 7]). vm_compute. discriminate. Defined.

(** ** Set operations *)

Lemma repr_intersect sl1 sl2 xs ys :
  repr sl1 xs → repr sl2 ys →
  ∃ sl' zs, smartlist_intersect sl1 (Some sl2) = Ret sl' ∧ repr sl' zs ∧
    zs ≡ₚ List.filter (λ v, bool_decide (v ∈ ys)) xs.
Proof.
  intros H1 H2. unfold smartlist_intersect. rewrite (repr_fuel _ _ H1).
  destruct (remove_loop_spec (S (length xs))
    (λ v, c ← smartlist_contains (Some sl2) v; Ret (c =? 0))
    (λ v, negb (bool_decide (v ∈ ys))) sl1 [] xs) as (sl' & zs & Hl & Hr & Hp);
    [done|lia| |].
  - intros v _. rewrite (repr_contains sl2 ys v H2). ret_simpl.
    by case_bool_decide.
  - exists sl', zs. split; [done|]. split; [done|]. rewrite Hp.
    erewrite List.filter_ext; [done|]. intros v. simpl. by rewrite negb_involutive.
Qed.

Lemma subtract_loop_spec fuel sl1 sl2 xs A B :
  repr sl1 xs → repr sl2 (A ++ B) → (length B < fuel)%nat → NULL ∉ B →
  ∃ sl' zs, subtract_loop fuel sl1 sl2 (strlen A) = Ret sl' ∧ repr sl' zs ∧
    zs ≡ₚ List.filter (λ v, negb (bool_decide (v ∈ B))) xs.
Proof.
  revert sl1 xs A B. induction fuel as [|fuel IH]; intros sl1 xs A B H1 H2 Hf Hnull; [lia|].
  cbn [subtract_loop]. rewrite (repr_num_used _ _ H2). unfold strlen. rewrite length_app.
  destruct B as [|y B]; simpl length.
  - rewrite (proj2 (Z.ltb_ge _ _)) by lia. exists sl1, xs. split; [done|]. split; [done|].
    clear. induction xs as [|x xs IH]; simpl; [done|]. by f_equiv.
  - rewrite (proj2 (Z.ltb_lt _ _)) by lia.
    rewrite (repr_get _ _ _ y H2) by (by apply list_lookup_middle). ret_simpl.
    apply not_elem_of_cons in Hnull as [Hy Hnull].
    destruct (repr_remove sl1 xs y ltac:(congruence) H1) as (sl1' & xs' & -> & H1' & Hp1).
    ret_simpl. rewrite cons_middle, app_assoc in H2.
    destruct (IH sl1' xs' (A ++ [y]) B H1' H2) as (sl' & zs & Hl & Hr & Hp);
      [simpl in Hf; lia|done|].
    unfold strlen in Hl. rewrite length_app in Hl. simpl in Hl.
    replace (Z.of_nat (length A) + 1) with (Z.of_nat (length A + 1)) by lia.
    exists sl', zs. split; [done|]. split; [done|]. rewrite Hp, Hp1. clear.
    induction xs as [|x xs IH]; simpl; [done|].
    destruct (x =? y) eqn:E; zbool; simpl.
    + subst. rewrite (bool_decide_eq_true_2 (y ∈ y :: B)) by left. simpl. done.
    + rewrite (bool_decide_ext (x ∈ y :: B) (x ∈ B)) by (rewrite elem_of_cons; naive_solver).
      destruct (bool_decide (x ∈ B)); simpl; [done|by f_equiv].
Qed.

Lemma overlap_loop_spec fuel sl1 sl2 xs A B :
  repr sl1 xs → repr sl2 (A ++ B) → (length B < fuel)%nat →
  ∃ o, overlap_loop fuel (Some sl1) sl2 (strlen A) = Ret o ∧
    (o = 0 ↔ ∀ v, v ∈ B → v ∉ xs).
Proof.
  intros H1. revert A B. induction fuel as [|fuel IH]; intros A B H2 Hf; [lia|].
  cbn [overlap_loop]. rewrite (repr_num_used _ _ H2). unfold strlen.
  rewrite length_app. destruct B as [|y B]; simpl length.
  - rewrite (proj2 (Z.ltb_ge _ _)) by lia. exists 0. split; [done|].
    split; [|done]. intros _ v Hv. by apply not_elem_of_nil in Hv.
  - rewrite (proj2 (Z.ltb_lt _ _)) by lia.
    rewrite (repr_get _ _ _ y H2) by (by apply list_lookup_middle). ret_simpl.
    rewrite (repr_contains sl1 xs y H1). ret_simpl. case_bool_decide as Hy; simpl.
    + exists 1. split; [done|]. split; [done|]. intros H. destruct (H y); [left|done].
    + rewrite cons_middle, app_assoc in H2.
      destruct (IH (A ++ [y]) B H2) as (o & Ho & Hiff); [simpl in Hf; lia|].
      unfold strlen in Ho. rewrite length_app in Ho. simpl in Ho.
      replace (Z.of_nat (length A) + 1) with (Z.of_nat (length A + 1)) by lia.
      exists o. split; [done|]. rewrite Hiff. clear -Hy.
      split; intros H v Hv; [apply elem_of_cons in Hv as [->|Hv]; auto|].
      apply H. by right.
Qed.

(** What a test keeps and what it rejects. *)
Lemma filter_split_perm (p : Z → bool) xs :
  List.filter p xs ++ List.filter (λ v, negb (p v)) xs ≡ₚ xs.
Proof.
  induction xs as [|x xs IH]; simpl; [done|].
  destruct (p x); simpl; [by f_equiv|]. rewrite <- Permutation_middle. by f_equiv.
Qed.

Lemma filter_nil_iff (p : Z → bool) xs :
  List.filter p xs = [] ↔ ∀ v, v ∈ xs → p v = false.
Proof.
  induction xs as [|x xs IH]; simpl.
  - split; [|done]. intros _ v Hv. by apply not_elem_of_nil in Hv.
  - destruct (p x) eqn:E.
    + split; [done|]. intros H. rewrite (H x) in E; [done|left].
    + rewrite IH. split; intros H v Hv; [apply elem_of_cons in Hv as [->|Hv]; auto|].
      apply H. by right.
Qed.

(** A small list written out, for examples. *)
Definition sl_of (xs : list Z) : smartlist :=
  Smartlist (cells xs ++ uninit (16 - strlen xs)) (strlen xs) 16.

Lemma repr_of xs : (length xs ≤ 16)%nat → repr (sl_of xs) xs.
Proof.
  intros Hl. exists (uninit (16 - strlen xs)). unfold INT_MAX. simpl. split_and!; try done.
  unfold uninit, strlen. rewrite length_app, cells_length, length_replicate. lia.
Qed.

(** On lists of non-null pointers [smartlist_intersect] keeps exactly the
    elements that occur in the second list and [smartlist_subtract] exactly
    those that do not, so together they split the first list; and
    [smartlist_overlap] tells whether the first of the two is empty. *)
Theorem smartlist_set_algebra sl1 sl2 xs ys :
  repr sl1 xs → repr sl2 ys → NULL ∉ ys →
  ∃ sli sls zi zs o,
    smartlist_intersect sl1 (Some sl2) = Ret sli ∧ repr sli zi ∧
    smartlist_subtract sl1 sl2 = Ret sls ∧ repr sls zs ∧
    smartlist_overlap (Some sl1) sl2 = Ret o ∧
    zi ++ zs ≡ₚ xs ∧ Forall (λ v, v ∈ ys) zi ∧ Forall (λ v, v ∉ ys) zs ∧
    (o = 0 ↔ zi = []).
Proof.
  intros H1 H2 Hnull.
  destruct (repr_intersect sl1 sl2 xs ys H1 H2) as (sli & zi & Hi & Hri & Hpi).
  destruct (subtract_loop_spec (S (length ys)) sl1 sl2 xs [] ys H1 H2)
    as (sls & zs & Hs & Hrs & Hps); [lia|done|].
  destruct (overlap_loop_spec (S (length ys)) sl1 sl2 xs [] ys H1 H2) as (o & Ho & Hiff);
    [lia|].
  exists sli, sls, zi, zs, o. unfold smartlist_subtract, smartlist_overlap.
  rewrite !(repr_fuel _ _ H2). split_and!; try done.
  - rewrite Hpi, Hps. apply filter_split_perm.
  - rewrite Hpi. apply List.Forall_forall. intros v [_ Hv]%filter_In.
    by apply bool_decide_eq_true in Hv.
  - rewrite Hps. apply List.Forall_forall. intros v [_ Hv]%filter_In.
    by apply negb_true_iff, bool_decide_eq_false in Hv.
  - rewrite Hiff. transitivity (List.filter (λ v, bool_decide (v ∈ ys)) xs = []).
    + rewrite filter_nil_iff. setoid_rewrite bool_decide_eq_false. naive_solver.
    + split; intros E; [apply Permutation_nil_r|apply Permutation_nil_r; symmetry].
      * by rewrite Hpi, E.
      * by rewrite <- Hpi, E.
Qed.

Lemma smartlist_set_algebra_witness :
  ∃ sli sls zi zs o,
    smartlist_intersect (sl_of [4; 5; 6]) (Some (sl_of [5; 9])) = Ret sli ∧ repr sli zi ∧
    smartlist_subtract (sl_of [4; 5; 6]) (sl_of [5; 9]) = Ret sls ∧ repr sls zs ∧
    smartlist_overlap (Some (sl_of [4; 5; 6])) (sl_of [5; 9]) = Ret o ∧
    zi ++ zs ≡ₚ [4; 5; 6] ∧ Forall (λ v, v ∈ [5; 9]) zi ∧ Forall (λ v, v ∉ [5; 9]) zs ∧
    (o = 0 ↔ zi = []).
Proof.
  apply (smartlist_set_algebra (sl_of [4; 5; 6]) (sl_of [5; 9])).
  - apply repr_of. simpl. lia.
  - apply repr_of. simpl. lia.
  - unfold NULL. rewrite !not_elem_of_cons. split_and!; [done|done|apply not_elem_of_nil].
Defined.
