(* ===== verification/SmartlistHeap.v ===== *)
(** * The priority queue on a smartlist (wpa_cli_oper/smartlist.c)

    Items are addresses of structures; the field at [idx_field_offset] of each
    item holds its position.  The memory of those fields is the map [idxs]:
    writing the field of an address that is no item is undefined. *)

From S2P Require Import Prelude CString Smartlist.

Record pqueue := PQ { pq_list : smartlist; pq_idxs : gmap Z Z }.

Definition LEFT_CHILD (i : Z) : Z := 2 * i + 1.
Definition PARENT (i : Z) : Z := (i - 1) / 2.

(** [*IDXP(p) = i] and [IDX_OF_ITEM(p)]. *)
Definition idx_write (idxs : gmap Z Z) (p i : Z) : outcome (gmap Z Z) :=
  match idxs !! p with Some _ => Ret (<[p := i]> idxs) | None => UB "IDXP of no item" end.

Definition IDX_OF_ITEM (idxs : gmap Z Z) (p : Z) : outcome Z :=
  need "IDXP of no item" (idxs !! p).

Definition UPDATE_IDX (q : pqueue) (i : Z) : outcome pqueue :=
  updated ← smartlist_get (pq_list q) i;
  idxs ← idx_write (pq_idxs q) updated i;
  Ret (PQ (pq_list q) idxs).

(** The exchange of two slots with both index updates, in the order in which
    the sift loops perform it. *)
Definition swap_update (q : pqueue) (i j : Z) : outcome pqueue :=
  tmp ← smartlist_get (pq_list q) i;
  v ← smartlist_get (pq_list q) j;
  sl1 ← smartlist_set (pq_list q) i v;
  sl2 ← smartlist_set sl1 j tmp;
  q1 ← UPDATE_IDX (PQ sl2 (pq_idxs q)) i;
  UPDATE_IDX q1 j.

Section Pqueue.
Context (compare : Z → Z → Z).

(** The child or the node itself that [smartlist_heapify] calls best. *)
Definition best_of (sl : smartlist) (idx : Z) : outcome Z :=
  let left_idx := LEFT_CHILD idx in
  a ← smartlist_get sl idx;
  b ← smartlist_get sl left_idx;
  let best_idx := if compare a b <? 0 then idx else left_idx in
  if left_idx + 1 <? num_used sl then
    r ← smartlist_get sl (left_idx + 1);
    c ← smartlist_get sl best_idx;
    Ret (if compare r c <? 0 then left_idx + 1 else best_idx)
  else Ret best_idx.

Fixpoint smartlist_heapify (fuel : nat) (q : pqueue) (idx : Z) : outcome pqueue :=
  match fuel with
  | O => OutOfFuel
  | S fuel' =>
      if num_used (pq_list q) <=? LEFT_CHILD idx then Ret q
      else
        best_idx ← best_of (pq_list q) idx;
        if best_idx =? idx then Ret q
        else
          q' ← swap_update q idx best_idx;
          smartlist_heapify fuel' q' best_idx
  end.

Fixpoint sift_up (fuel : nat) (q : pqueue) (idx : Z) : outcome pqueue :=
  match fuel with
  | O => OutOfFuel
  | S fuel' =>
      if negb (idx =? 0) then
        let parent := PARENT idx in
        a ← smartlist_get (pq_list q) idx;
        b ← smartlist_get (pq_list q) parent;
        if compare a b <? 0 then
          q' ← swap_update q parent idx;
          sift_up fuel' q' parent
        else Ret q
      else Ret q
  end.

Definition smartlist_pqueue_add (q : pqueue) (item : Z) : outcome pqueue :=
  sl ← smartlist_add (pq_list q) item;
  q1 ← UPDATE_IDX (PQ sl (pq_idxs q)) (num_used sl - 1);
  sift_up (loop_fuel sl) q1 (num_used sl - 1).

Definition smartlist_pqueue_pop (q : pqueue) : outcome (Z * pqueue) :=
  top ← smartlist_get (pq_list q) 0;
  idxs ← idx_write (pq_idxs q) top (-1);
  let sl := set_num_used (pq_list q) (num_used (pq_list q) - 1) in
  if negb (num_used sl =? 0) then
    v ← smartlist_get sl (num_used sl);
    sl1 ← smartlist_set sl 0 v;
    q1 ← UPDATE_IDX (PQ sl1 idxs) 0;
    q2 ← smartlist_heapify (loop_fuel sl1) q1 0;
    Ret (top, q2)
  else Ret (top, PQ sl idxs).

Definition smartlist_pqueue_remove (q : pqueue) (item : Z) : outcome pqueue :=
  idx ← IDX_OF_ITEM (pq_idxs q) item;
  let sl := set_num_used (pq_list q) (num_used (pq_list q) - 1) in
  idxs ← idx_write (pq_idxs q) item (-1);
  if idx =? num_used sl then Ret (PQ sl idxs)
  else
    v ← smartlist_get sl (num_used sl);
    sl1 ← smartlist_set sl idx v;
    q1 ← UPDATE_IDX (PQ sl1 idxs) idx;
    smartlist_heapify (loop_fuel sl1) q1 idx.

(** ** Representation: a heap of distinct items that know their position *)

Definition at_ (xs : list Z) (i : Z) : Z := nth (Z.to_nat i) xs 0.

(** [a] may stand above [b]. *)
Definition cmp_le (a b : Z) : Prop := compare a b ≤ 0.

Definition heap_ok (xs : list Z) : Prop :=
  ∀ i, 0 < i < strlen xs → cmp_le (at_ xs (PARENT i)) (at_ xs i).

Record pq_repr (q : pqueue) (xs : list Z) : Prop := {
  pr_repr : repr (pq_list q) xs;
  pr_nodup : NoDup xs;
  pr_idx : ∀ i x, xs !! i = Some x → pq_idxs q !! x = Some (Z.of_nat i);
}.

(** [compare] is a total preorder read as the C convention reads it. *)
Class Comparison : Prop := {
  cmp_total : ∀ a b, compare a b < 0 ∨ compare b a ≤ 0;
  cmp_asym : ∀ a b, compare a b < 0 → compare b a ≤ 0 → False;
  cmp_trans : ∀ a b c, compare a b ≤ 0 → compare b c ≤ 0 → compare a c ≤ 0;
}.

Context `{Comparison}.

Lemma cmp_lt_le a b : compare a b < 0 → cmp_le a b.
Proof. unfold cmp_le. lia. Qed.

Lemma cmp_not_lt a b : 0 ≤ compare a b → cmp_le b a.
Proof. intros Hle. destruct (cmp_total a b); unfold cmp_le in *; [lia|done]. Qed.

Definition swap_at (xs : list Z) (i j : Z) : list Z :=
  <[Z.to_nat j := at_ xs i]> (<[Z.to_nat i := at_ xs j]> xs).

Lemma at_swap xs i j k :
  0 ≤ i < strlen xs → 0 ≤ j < strlen xs → i ≠ j → 0 ≤ k →
  at_ (swap_at xs i j) k
  = if decide (k = j) then at_ xs i else if decide (k = i) then at_ xs j else at_ xs k.
Proof.
  unfold swap_at, at_, strlen. intros Hi Hj Hij Hk.
  rewrite nth_insert by (rewrite length_insert; lia). rewrite nth_insert by lia.
  repeat case_decide; try done; lia.
Qed.

Lemma swap_at_length xs i j : strlen (swap_at xs i j) = strlen xs.
Proof. unfold swap_at, strlen. by rewrite !length_insert. Qed.

Lemma at_lookup xs i : 0 ≤ i < strlen xs → xs !! Z.to_nat i = Some (at_ xs i).
Proof.
  unfold strlen, at_. intros Hi. destruct (list_lookup_total_Z xs i Hi) as [x Hx].
  by rewrite nth_lookup, Hx.
Qed.

Lemma swap_at_perm xs i j :
  0 ≤ i < strlen xs → 0 ≤ j < strlen xs → swap_at xs i j ≡ₚ xs.
Proof. intros Hi Hj. apply Permutation_insert_swap; by apply at_lookup. Qed.

Lemma pq_get q xs i :
  pq_repr q xs → 0 ≤ i < strlen xs → smartlist_get (pq_list q) i = Ret (at_ xs i).
Proof.
  intros [Hr _ _] Hi. rewrite <- (Z2Nat.id i) by lia.
  apply (repr_get _ _ _ _ Hr). rewrite Z2Nat.id by lia. by apply at_lookup.
Qed.

Lemma repr_setZ sl xs i v :
  repr sl xs → 0 ≤ i < strlen xs →
  ∃ sl', smartlist_set sl i v = Ret sl' ∧ repr sl' (<[Z.to_nat i := v]> xs).
Proof.
  intros Hr Hi. destruct (repr_set sl xs (Z.to_nat i) v Hr) as (sl' & Hs & Hr' & _);
    [unfold strlen in Hi; lia|].
  rewrite Z2Nat.id in Hs by lia. eauto.
Qed.

Lemma update_idx_Ret sl idxs xs i :
  repr sl xs → 0 ≤ i < strlen xs → is_Some (idxs !! at_ xs i) →
  UPDATE_IDX (PQ sl idxs) i = Ret (PQ sl (<[at_ xs i := i]> idxs)).
Proof.
  intros Hr Hi [z Hz]. unfold UPDATE_IDX. simpl.
  rewrite <- (Z2Nat.id i) at 1 by lia.
  rewrite (repr_get _ _ _ _ Hr (at_lookup _ _ Hi)). ret_simpl.
  unfold idx_write. by rewrite Hz.
Qed.

Lemma NoDup_at xs i j :
  NoDup xs → 0 ≤ i < strlen xs → 0 ≤ j < strlen xs → at_ xs i = at_ xs j → i = j.
Proof.
  intros Hn Hi Hj E. pose proof (at_lookup _ _ Hi) as H1. rewrite E in H1.
  pose proof (NoDup_lookup _ _ _ _ Hn H1 (at_lookup _ _ Hj)). lia.
Qed.

Lemma lookup_at xs k x : xs !! k = Some x → at_ xs (Z.of_nat k) = x ∧ Z.of_nat k < strlen xs.
Proof.
  intros Hk. unfold at_, strlen. rewrite Nat2Z.id, nth_lookup, Hk.
  split; [done|]. apply lookup_lt_Some in Hk. lia.
Qed.

Lemma swap_update_spec q xs i j :
  pq_repr q xs → 0 ≤ i < strlen xs → 0 ≤ j < strlen xs → i ≠ j →
  ∃ q', swap_update q i j = Ret q' ∧ pq_repr q' (swap_at xs i j).
Proof.
  intros Hq Hi Hj Hij. unfold swap_update.
  rewrite (pq_get _ _ _ Hq Hi), (pq_get _ _ _ Hq Hj). ret_simpl.
  destruct Hq as [Hr Hn Hx].
  destruct (repr_setZ _ _ i (at_ xs j) Hr Hi) as (sl1 & -> & Hr1). ret_simpl.
  destruct (repr_setZ sl1 _ j (at_ xs i) Hr1) as (sl2 & -> & Hr2);
    [unfold strlen in *; rewrite length_insert; lia|]. ret_simpl.
  fold (swap_at xs i j) in Hr2.
  assert (Hsi : at_ (swap_at xs i j) i = at_ xs j).
  { rewrite at_swap by lia. by repeat case_decide. }
  assert (Hsj : at_ (swap_at xs i j) j = at_ xs i).
  { rewrite at_swap by lia. by repeat case_decide. }
  rewrite (update_idx_Ret _ _ _ _ Hr2)
    by (rewrite ?swap_at_length, ?Hsi; eauto using at_lookup).
  ret_simpl. rewrite (update_idx_Ret _ _ _ _ Hr2).
  2:{ by rewrite swap_at_length. }
  2:{ rewrite Hsi, Hsj. apply lookup_insert_is_Some'. right. eauto using at_lookup. }
  eexists. split; [done|]. rewrite Hsi, Hsj. split; simpl; [done| |].
  - by rewrite swap_at_perm.
  - intros k x Hk. apply lookup_at in Hk as [Hk Hkl]. rewrite swap_at_length in Hkl.
    rewrite at_swap in Hk by lia. repeat case_decide; subst.
    + rewrite lookup_insert_eq. congruence.
    + rewrite lookup_insert_ne by (intros E; apply (NoDup_at xs _ _ Hn) in E; lia).
      rewrite lookup_insert_eq. congruence.
    + rewrite !lookup_insert_ne by (intros E; apply (NoDup_at xs _ _ Hn) in E; lia).
      rewrite (Hx k); [done|]. rewrite <- (Nat2Z.id k) at 1. apply at_lookup. lia.
Qed.

(** ** Sifting down *)

(** The heap order, except between [idx] and its children. *)
Definition heap_below (xs : list Z) (idx : Z) : Prop :=
  ∀ i, 0 < i < strlen xs →
    (PARENT i ≠ idx → cmp_le (at_ xs (PARENT i)) (at_ xs i)) ∧
    (0 < idx → PARENT i = idx → cmp_le (at_ xs (PARENT idx)) (at_ xs i)).

Lemma best_of_spec sl xs idx :
  repr sl xs → 0 ≤ idx → LEFT_CHILD idx < strlen xs →
  ∃ b, best_of sl idx = Ret b ∧
    (b = idx ∨ (PARENT b = idx ∧ 0 < b < strlen xs)) ∧
    cmp_le (at_ xs b) (at_ xs idx) ∧
    ∀ i, 0 < i < strlen xs → PARENT i = idx → cmp_le (at_ xs b) (at_ xs i).
Proof.
  intros Hr Hi Hlen. unfold best_of, LEFT_CHILD, PARENT in *.
  assert (Hget : ∀ k, 0 ≤ k < strlen xs → smartlist_get sl k = Ret (at_ xs k)).
  { intros k Hk. rewrite <- (Z2Nat.id k) at 1 by lia.
    apply (repr_get _ _ _ _ Hr). by apply at_lookup. }
  assert (Hrefl : ∀ a, cmp_le a a).
  { intros a. unfold cmp_le. destruct (cmp_total a a); lia. }
  rewrite (Hget idx), (Hget (2 * idx + 1)) by lia. ret_simpl.
  rewrite (repr_num_used _ _ Hr). set (l := 2 * idx + 1) in *.
  assert (Hfirst : ∃ b, (if compare (at_ xs idx) (at_ xs l) <? 0 then idx else l) = b ∧
    (b = idx ∨ b = l) ∧ cmp_le (at_ xs b) (at_ xs idx) ∧ cmp_le (at_ xs b) (at_ xs l)).
  { destruct (_ <? 0) eqn:E; zbool; eexists; split; [done| |done|].
    - split_and!; [by left|apply Hrefl|by apply cmp_lt_le].
    - split_and!; [by right|by apply cmp_not_lt|apply Hrefl]. }
  destruct Hfirst as (b & -> & Hb & Hbi & Hbl).
  destruct (l + 1 <? strlen xs) eqn:E; zbool.
  - rewrite !Hget by (destruct Hb; lia). ret_simpl. eexists. split; [done|].
    destruct (compare _ _ <? 0) eqn:Ec; zbool.
    + apply cmp_lt_le in Ec. split_and!; [right; lia|by eapply cmp_trans|].
      intros i Hri Hpi. assert (i = l ∨ i = l + 1) as [->| ->] by lia;
        [by eapply cmp_trans|apply Hrefl].
    + apply cmp_not_lt in Ec. split_and!; [destruct Hb; [by left|right; lia]|done|].
      intros i Hri Hpi. by assert (i = l ∨ i = l + 1) as [->| ->] by lia.
  - eexists. split; [done|]. split_and!; [destruct Hb; [by left|right; lia]|done|].
    intros i Hri Hpi. by assert (i = l) as -> by lia.
Qed.

Lemma heap_below_nil xs idx :
  heap_below xs idx → 0 ≤ idx → strlen xs ≤ LEFT_CHILD idx → heap_ok xs.
Proof.
  unfold LEFT_CHILD. intros Hb Hi Hle i Hr. apply Hb; [done|]. unfold PARENT. lia.
Qed.

Lemma heap_below_done xs idx :
  heap_below xs idx → 0 ≤ idx →
  (∀ i, 0 < i < strlen xs → PARENT i = idx → cmp_le (at_ xs idx) (at_ xs i)) → heap_ok xs.
Proof.
  intros Hb Hi Hc i Hr. destruct (decide (PARENT i = idx)) as [E|E].
  - rewrite E. by apply Hc.
  - by apply Hb.
Qed.

Lemma heap_below_swap xs idx b :
  heap_below xs idx → 0 ≤ idx → PARENT b = idx → 0 < b < strlen xs → idx < b →
  cmp_le (at_ xs b) (at_ xs idx) →
  (∀ i, 0 < i < strlen xs → PARENT i = idx → cmp_le (at_ xs b) (at_ xs i)) →
  heap_below (swap_at xs idx b) b.
Proof.
  intros Hb Hi Hpb Hrb Hlt Hle Hc i Hr. rewrite swap_at_length in Hr.
  assert (Hp : PARENT i < i ∧ 0 ≤ PARENT i) by (unfold PARENT; lia).
  rewrite !at_swap by lia. split.
  - intros Hne. case_decide; [lia|]. destruct (decide (PARENT i = idx)) as [E|E].
    + repeat case_decide; [done|lia|by apply Hc].
    + rewrite (decide_False (P := i = b)) by congruence.
      destruct (decide (i = idx)) as [->|].
      * apply Hb; [done|lia|done].
      * by apply Hb.
  - intros _ Hpi. rewrite Hpb. repeat case_decide; try lia.
    rewrite <- Hpi at 1. apply Hb; [done|lia].
Qed.

Lemma heapify_spec fuel q xs idx :
  pq_repr q xs → heap_below xs idx → 0 ≤ idx → strlen xs < idx + Z.of_nat fuel →
  (0 < fuel)%nat →
  ∃ q' ys, smartlist_heapify fuel q idx = Ret q' ∧ pq_repr q' ys ∧ heap_ok ys ∧ ys ≡ₚ xs.
Proof.
  revert q xs idx. induction fuel as [|fuel IH]; intros q xs idx Hq Hb Hi Hf Hf0; [lia|].
  cbn [smartlist_heapify]. rewrite (repr_num_used _ _ (pr_repr _ _ Hq)).
  destruct (strlen xs <=? LEFT_CHILD idx) eqn:E; zbool.
  { exists q, xs. split_and!; [done|done| |done]. by eapply heap_below_nil. }
  destruct (best_of_spec _ _ _ (pr_repr _ _ Hq) Hi E) as (b & -> & Hbest & Hbi & Hbc).
  ret_simpl. destruct (b =? idx) eqn:Ebi; zbool.
  { subst b. exists q, xs. split_and!; [done|done| |done]. by eapply heap_below_done. }
  destruct Hbest as [|[Hpb Hrb]]; [done|].
  assert (idx < b) by (unfold PARENT in Hpb; lia).
  destruct (swap_update_spec q xs idx b Hq) as (q1 & -> & Hq1); [lia..|]. ret_simpl.
  destruct (IH q1 (swap_at xs idx b) b) as (q' & ys & Hh & Hq' & Hok & Hp);
    [done|by apply heap_below_swap|lia|rewrite swap_at_length; lia|unfold LEFT_CHILD in *; lia|].
  exists q', ys. split_and!; [done..|]. rewrite Hp. apply swap_at_perm; lia.
Qed.

(** ** Sifting up *)

(** The heap order, except between [idx] and its parent. *)
Definition heap_above (xs : list Z) (idx : Z) : Prop :=
  ∀ i, 0 < i < strlen xs →
    (i ≠ idx → cmp_le (at_ xs (PARENT i)) (at_ xs i)) ∧
    (0 < idx → PARENT i = idx → cmp_le (at_ xs (PARENT idx)) (at_ xs i)).

Lemma heap_above_swap xs idx :
  heap_above xs idx → 0 < idx < strlen xs → cmp_le (at_ xs idx) (at_ xs (PARENT idx)) →
  heap_above (swap_at xs (PARENT idx) idx) (PARENT idx).
Proof.
  intros Hb Hi Hle i Hr. rewrite swap_at_length in Hr. set (p := PARENT idx) in *.
  assert (Hp : 0 ≤ p < idx) by (unfold p, PARENT; lia).
  assert (Hpi : 0 ≤ PARENT i < i) by (unfold PARENT; lia).
  assert (Hpp : 0 < p → 0 ≤ PARENT p < p) by (unfold PARENT; lia).
  rewrite !at_swap by lia. split.
  - intros Hne. destruct (decide (i = idx)) as [->|Hni].
    + fold p. rewrite decide_False, decide_True by lia. done.
    + rewrite (decide_False (P := i = p)) by done. case_decide as E1.
      * apply Hb; [done|lia|done].
      * case_decide as E2; [|by apply Hb].
        eapply cmp_trans; [exact Hle|]. rewrite <- E2. by apply Hb.
  - intros Hp0 Hpe. specialize (Hpp Hp0). rewrite !at_swap by lia.
    rewrite (decide_False (P := PARENT p = idx)), (decide_False (P := PARENT p = p)) by lia.
    assert (Hpar : cmp_le (at_ xs (PARENT p)) (at_ xs p)) by (apply Hb; lia).
    destruct (decide (i = idx)); [done|]. rewrite decide_False by lia.
    eapply cmp_trans; [exact Hpar|]. rewrite <- Hpe. by apply Hb.
Qed.

Lemma sift_up_spec fuel q xs idx :
  pq_repr q xs → heap_above xs idx → 0 ≤ idx < strlen xs → idx < Z.of_nat fuel →
  ∃ q' ys, sift_up fuel q idx = Ret q' ∧ pq_repr q' ys ∧ heap_ok ys ∧ ys ≡ₚ xs.
Proof.
  revert q xs idx. induction fuel as [|fuel IH]; intros q xs idx Hq Hb Hi Hf; [lia|].
  cbn [sift_up]. destruct (idx =? 0) eqn:E; zbool; cbn [negb].
  { exists q, xs. split_and!; [done|done| |done]. intros i Hr. apply Hb; [done|lia]. }
  assert (Hp : 0 ≤ PARENT idx < idx) by (unfold PARENT; lia).
  rewrite !(pq_get _ _ _ Hq) by lia. ret_simpl.
  destruct (_ <? 0) eqn:Ec; zbool.
  - apply cmp_lt_le in Ec.
    destruct (swap_update_spec q xs (PARENT idx) idx Hq) as (q1 & -> & Hq1); [lia..|].
    ret_simpl.
    destruct (IH q1 (swap_at xs (PARENT idx) idx) (PARENT idx))
      as (q' & ys & Hs & Hq' & Hok & Hperm);
      [done|by apply heap_above_swap; [done|lia|]|rewrite swap_at_length; lia|lia|].
    exists q', ys. split_and!; [done..|]. rewrite Hperm. apply swap_at_perm; lia.
  - apply cmp_not_lt in Ec. exists q, xs. split_and!; [done|done| |done].
    intros i Hr. destruct (decide (i = idx)) as [->|]; [done|]. by apply Hb.
Qed.

(** ** The queue operations *)

Lemma at_app_l xs ys i : 0 ≤ i < strlen xs → at_ (xs ++ ys) i = at_ xs i.
Proof. unfold at_, strlen. intros. by rewrite app_nth1 by lia. Qed.

Lemma at_snoc xs v : at_ (xs ++ [v]) (strlen xs) = v.
Proof. unfold at_, strlen. by rewrite Nat2Z.id, nth_middle. Qed.

(** Adding an item that is not in the queue to a heap below the size limit
    terminates with a heap of the old items and the new one, every item
    knowing its position. *)
Theorem pqueue_add_correct q xs item :
  pq_repr q xs → heap_ok xs → item ∉ xs → is_Some (pq_idxs q !! item) →
  strlen xs < 1073741824 →
  ∃ q' ys, smartlist_pqueue_add q item = Ret q' ∧ pq_repr q' ys ∧ heap_ok ys ∧
    ys ≡ₚ item :: xs.
Proof.
  intros [Hr Hn Hx] Hok Hitem Hmem Hs. unfold smartlist_pqueue_add.
  destruct (repr_add (pq_list q) xs item Hr Hs) as (sl & -> & Hr' & _). ret_simpl.
  rewrite (repr_num_used _ _ Hr'), strlen_snoc, Z.add_simpl_r.
  assert (Hlast : at_ (xs ++ [item]) (strlen xs) = item) by apply at_snoc.
  rewrite (update_idx_Ret sl (pq_idxs q) _ (strlen xs) Hr')
    by (rewrite ?strlen_snoc, ?Hlast; unfold strlen; first [done|lia]).
  ret_simpl. rewrite Hlast.
  destruct (sift_up_spec (loop_fuel sl) (PQ sl (<[item := strlen xs]> (pq_idxs q)))
    (xs ++ [item]) (strlen xs)) as (q' & ys & Hsift & Hq' & Hok' & Hp).
  - split; simpl; [done| |].
    + apply NoDup_app. split_and!; [done| |apply NoDup_singleton].
      intros y Hy ->%list_elem_of_singleton. done.
    + intros i x Hi. apply lookup_snoc_Some in Hi as [[Hi Hix]|[-> ->]].
      * rewrite lookup_insert_ne; [by apply Hx|].
        intros ->. destruct Hitem. by eapply list_elem_of_lookup_2.
      * by rewrite lookup_insert_eq.
  - intros i Hi. rewrite strlen_snoc in Hi. split.
    + intros Hne. assert (0 ≤ PARENT i < i) by (unfold PARENT; lia).
      rewrite !at_app_l by lia. apply Hok. lia.
    + unfold PARENT. lia.
  - rewrite strlen_snoc. unfold strlen. lia.
  - rewrite (repr_fuel _ _ Hr'), length_app. unfold strlen. simpl. lia.
  - exists q', ys. split_and!; try done. rewrite Hp. by rewrite Permutation_app_comm.
Qed.

(** Nothing in a heap is below its root. *)
Lemma heap_root_min xs i : heap_ok xs → 0 ≤ i < strlen xs → cmp_le (at_ xs 0) (at_ xs i).
Proof.
  intros Hok. remember (Z.to_nat i) as n eqn:En. revert i En.
  induction n as [n IH] using lt_wf_ind. intros i -> Hi.
  destruct (decide (i = 0)) as [->|].
  - unfold cmp_le. destruct (cmp_total (at_ xs 0) (at_ xs 0)); lia.
  - eapply cmp_trans; [|apply Hok; lia].
    apply (IH (Z.to_nat (PARENT i))); unfold PARENT; lia.
Qed.

(** The state in which [smartlist_pqueue_pop] starts to sift down: the last
    item has taken the root's place. *)
Lemma pop_moved_repr q sl1 top xs l :
  pq_repr q (top :: xs ++ [l]) → repr sl1 (l :: xs) →
  pq_repr (PQ sl1 (<[l := 0]> (<[top := -1]> (pq_idxs q)))) (l :: xs).
Proof.
  intros [_ Hn Hx] Hr1. apply NoDup_cons in Hn as [Htop Hn].
  apply NoDup_app in Hn as (Hnx & Hnl & _).
  rewrite elem_of_app, list_elem_of_singleton in Htop.
  assert (l ∉ xs) by (intros Hl; apply (Hnl l Hl); left).
  split; simpl; [done|by constructor|].
  intros [|i] x Hi; simpl in Hi.
  - injection Hi as <-. by rewrite lookup_insert_eq.
  - assert (x ∈ xs) by (by eapply list_elem_of_lookup_2).
    rewrite !lookup_insert_ne by (intros ->; naive_solver).
    apply Hx. simpl. by apply lookup_app_l_Some.
Qed.

Lemma pop_moved_heap top xs l :
  heap_ok (top :: xs ++ [l]) → heap_below (l :: xs) 0.
Proof.
  intros Hok i Hi. split; [|lia]. intros Hpi.
  assert (Hat : ∀ k, 0 < k < strlen (l :: xs) →
    at_ (l :: xs) k = at_ ((top :: xs) ++ [l]) k).
  { intros k Hk. rewrite at_app_l by (unfold strlen in *; simpl in *; lia).
    unfold at_. by replace (Z.to_nat k) with (S (Z.to_nat (k - 1))) by lia. }
  rewrite !Hat by (unfold PARENT in *; lia). apply Hok.
  unfold strlen in *. simpl in *. rewrite length_app. simpl in *. lia.
Qed.

(** The list and the index map when the last item has taken the root's place. *)
Lemma pop_move q top xs l :
  pq_repr q (top :: xs ++ [l]) →
  let sl := set_num_used (pq_list q) (strlen (xs ++ [l])) in
  let idxs := <[top := -1]> (pq_idxs q) in
  smartlist_get sl (strlen (xs ++ [l])) = Ret l ∧
  ∃ sl1, smartlist_set sl 0 l = Ret sl1 ∧ repr sl1 (l :: xs) ∧
    UPDATE_IDX (PQ sl1 idxs) 0 = Ret (PQ sl1 (<[l := 0]> idxs)).
Proof.
  intros [Hr Hn Hx] sl idxs. change (top :: xs ++ [l]) with ((top :: xs) ++ [l]) in *.
  pose proof (repr_take _ _ (S (length xs)) Hr) as Ht.
  rewrite (take_app_length (top :: xs)) in Ht.
  replace (Z.of_nat (S (length xs))) with (strlen (xs ++ [l])) in Ht
    by (rewrite strlen_snoc; unfold strlen; lia).
  fold sl in Ht. specialize (Ht ltac:(rewrite length_app; simpl; lia)). assert (Hl : ((top :: xs) ++ [l]) !! S (length xs) = Some l)
    by (by apply (list_lookup_middle (top :: xs))).
  split.
  { replace (strlen (xs ++ [l])) with (Z.of_nat (S (length xs)))
      by (rewrite strlen_snoc; unfold strlen; lia).
    by apply (repr_get (pq_list q) _ _ _ Hr). }
  destruct (repr_setZ sl _ 0 l Ht) as (sl1 & Hset & Hr1);
    [unfold strlen; simpl; lia|].
  exists sl1. split_and!; [done|done|]. apply (update_idx_Ret sl1 idxs _ 0 Hr1).
  { unfold strlen. simpl. lia. }
  change (at_ (l :: xs) 0) with l. unfold idxs. apply NoDup_app in Hn as (_ & Hn & _).
  rewrite lookup_insert_ne; [eauto|]. intros E. apply (Hn top); [left|rewrite E; left].
Qed.

(** Popping a non-empty heap returns an item no other item precedes,
    marks it as out of the queue (index -1), and leaves a heap of the others
    that know their positions. *)
Theorem pqueue_pop_correct q xs :
  pq_repr q xs → heap_ok xs → xs ≠ [] →
  ∃ top q' ys, smartlist_pqueue_pop q = Ret (top, q') ∧
    (∀ x, x ∈ xs → cmp_le top x) ∧ pq_repr q' ys ∧ heap_ok ys ∧ xs ≡ₚ top :: ys.
Proof.
  intros Hq Hok Hne. destruct xs as [|top xs]; [done|]. clear Hne.
  assert (Hmin : ∀ x, x ∈ top :: xs → cmp_le top x).
  { intros x [k Hk]%list_elem_of_lookup. apply lookup_at in Hk as [<- Hl].
    apply (heap_root_min _ _ Hok). lia. }
  unfold smartlist_pqueue_pop.
  rewrite (pq_get _ _ 0 Hq) by (unfold strlen; simpl; lia). ret_simpl.
  change (at_ (top :: xs) 0) with top. unfold idx_write at 1.
  rewrite (pr_idx _ _ Hq 0%nat top) by done. ret_simpl. simpl num_used.
  rewrite (repr_num_used _ _ (pr_repr _ _ Hq)).
  replace (strlen (top :: xs) - 1) with (strlen xs) by (unfold strlen; simpl; lia).
  destruct xs as [|l xs _] using rev_ind; simpl negb.
  { do 3 eexists. split; [done|]. split; [done|]. split; [|split; [|done]].
    - split; simpl; [|constructor|done].
      apply (repr_take _ _ 0 (pr_repr _ _ Hq)). simpl. lia.
    - intros i Hi. unfold strlen in Hi. simpl in Hi. lia. }
  rewrite (proj2 (Z.eqb_neq _ 0)) by (rewrite strlen_snoc; unfold strlen; lia). cbn [negb].
  destruct (pop_move q top xs l Hq) as (-> & sl1 & Hset & Hr1 & Hup).
  ret_simpl. rewrite Hset. ret_simpl. rewrite Hup. ret_simpl.
  destruct (heapify_spec (loop_fuel sl1)
    (PQ sl1 (<[l := 0]> (<[top := -1]> (pq_idxs q)))) (l :: xs) 0)
    as (q' & ys & Hh & Hq' & Hok' & Hp).
  - by apply pop_moved_repr.
  - by eapply pop_moved_heap.
  - lia.
  - rewrite (repr_fuel _ _ Hr1). unfold strlen. simpl. lia.
  - rewrite (repr_fuel _ _ Hr1). lia.
  - rewrite Hh. ret_simpl. exists top, q', ys. split_and!; try done.
    rewrite Hp. simpl. f_equiv. by rewrite Permutation_app_comm.
Qed.

End Pqueue.

(** ** Integers in increasing order *)

Definition sub_compare (a b : Z) : Z := a - b.

#[export] Instance sub_comparison : Comparison sub_compare.
Proof. split; unfold sub_compare; intros; lia. Qed.

(** A queue written out, for examples. *)
Definition pq_of (xs : list Z) : pqueue :=
  PQ (sl_of xs) (list_to_map (zip xs (map Z.of_nat (seq 0 (length xs))))).

Definition pq_seven : pqueue := pq_of [6; 15; 7; 16; 24; 17; 13].

Lemma pq_seven_repr : pq_repr pq_seven [6; 15; 7; 16; 24; 17; 13].
Proof.
  split; [apply repr_of; simpl; lia|by apply (bool_decide_unpack _)|].
  intros i x Hi. do 7 (destruct i as [|i]; [injection Hi as <-; reflexivity|]). done.
Qed.

Lemma pq_seven_heap : heap_ok sub_compare [6; 15; 7; 16; 24; 17; 13].
Proof.
  intros i Hi. unfold strlen in Hi. simpl in Hi.
  assert (i = 1 ∨ i = 2 ∨ i = 3 ∨ i = 4 ∨ i = 5 ∨ i = 6) as Hc by lia.
  unfold cmp_le. destruct_or! Hc; subst; vm_compute; discriminate.
Qed.

Lemma pqueue_add_correct_witness :
  ∃ q' ys, smartlist_pqueue_add sub_compare (PQ smartlist_new {[ 9 := -1 ]}) 9 = Ret q' ∧
    pq_repr q' ys ∧ heap_ok sub_compare ys ∧ ys ≡ₚ [9].
Proof.
  apply (pqueue_add_correct sub_compare (PQ smartlist_new {[ 9 := -1 ]}) [] 9).
  - split; simpl; [apply repr_new|constructor|done].
  - intros i Hi. unfold strlen in Hi. simpl in Hi. lia.
  - apply not_elem_of_nil.
  - simpl. exists (-1). reflexivity.
  - reflexivity.
Defined.

Lemma pqueue_pop_correct_witness :
  ∃ top q' ys, smartlist_pqueue_pop sub_compare pq_seven = Ret (top, q') ∧
    (∀ x, x ∈ [6; 15; 7; 16; 24; 17; 13] → cmp_le sub_compare top x) ∧
    pq_repr q' ys ∧ heap_ok sub_compare ys ∧ [6; 15; 7; 16; 24; 17; 13] ≡ₚ top :: ys.
Proof.
  apply (pqueue_pop_correct sub_compare pq_seven);
    [apply pq_seven_repr|apply pq_seven_heap|discriminate].
Defined.

(** ** Removal from the middle *)

(** Pop [n] items, oldest first. *)
Fixpoint pop_n (n : nat) (q : pqueue) : outcome (list Z) :=
  match n with
  | O => Ret []
  | S n' =>
      '(top, q') ← smartlist_pqueue_pop sub_compare q;
      tops ← pop_n n' q';
      Ret (top :: tops)
  end.

(** [smartlist_pqueue_remove] only sifts the item that replaces the
    removed one down.  When that item precedes its new parent the heap order
    is lost: from a heap of seven numbers, removing 16 makes the queue deliver
    15 before 13. *)
Theorem pqueue_remove_breaks_heap :
  pq_repr pq_seven [6; 15; 7; 16; 24; 17; 13] ∧
  heap_ok sub_compare [6; 15; 7; 16; 24; 17; 13] ∧
  (q' ← smartlist_pqueue_remove sub_compare pq_seven 16; pop_n 6 q')
  = Ret [6; 7; 15; 13; 17; 24].
Proof. split; [apply pq_seven_repr|]. split; [apply pq_seven_heap|reflexivity]. Qed.
