(* ===== verification/SmartlistOrder.v ===== *)
(** * Sorting, searching and counting in a smartlist (wpa_cli_oper/smartlist.c)

    The elements are pointers; what stands behind them is the heap of strings
    [strheap], and reading or freeing an address that holds no string is
    undefined.  [qsort] is the C library's: any function that rearranges the
    cells into an order the comparison accepts. *)

From stdpp Require Import sorting.
From S2P Require Import Prelude CString Smartlist.
From Stdlib Require Import Sorted.

(** ** Strings behind pointers *)

Abbreviation strheap := (gmap Z (list Z)) (only parsing).

Definition load_str (h : strheap) (p : Z) : outcome str := need "no string" (h !! p).

Definition free (h : strheap) (p : Z) : outcome strheap :=
  if p =? NULL then Ret h
  else match h !! p with Some _ => Ret (delete p h) | None => UB "free" end.

Definition compare_string_ptrs_ (h : strheap) (a b : Z) : outcome Z :=
  s ← load_str h a; t ← load_str h b; Ret (strcmp s t).

Definition compare_ptrs_ (a b : Z) : outcome Z :=
  Ret (if a <? b then -1 else if a =? b then 0 else 1).

(** ** Sorting *)

Class Qsort := qsort : (Z → Z → outcome Z) → list Z → outcome (list Z).

Fixpoint cells_values (b : buf) : outcome (list Z) :=
  match b with
  | [] => Ret []
  | c :: b' => x ← need "uninitialised" c; xs ← cells_values b'; Ret (x :: xs)
  end.

Definition smartlist_sort `{Qsort} (sl : smartlist) (compare : Z → Z → outcome Z)
    : outcome smartlist :=
  if num_used sl =? 0 then Ret sl
  else
    xs ← cells_values (take (Z.to_nat (num_used sl)) (sl_list sl));
    ys ← qsort compare xs;
    l ← cells_copy (sl_list sl) 0 (cells ys) 0 (num_used sl);
    Ret (Smartlist l (num_used sl) (capacity sl)).

Definition smartlist_sort_strings `{Qsort} (h : strheap) (sl : smartlist) : outcome smartlist :=
  smartlist_sort sl (compare_string_ptrs_ h).

Definition smartlist_sort_pointers `{Qsort} (sl : smartlist) : outcome smartlist :=
  smartlist_sort sl compare_ptrs_.

(** ** Counting *)

(** The loop of [smartlist_get_most_frequent_]: [cur] and [count] are the
    current run, [mf] and [mfc] the most frequent element so far. *)
Fixpoint frequent_loop (fuel : nat) (compare : Z → Z → outcome Z) (sl : smartlist)
    (i cur count mf mfc : Z) : outcome (Z * Z) :=
  match fuel with
  | O => OutOfFuel
  | S fuel' =>
      if i <? num_used sl then
        item ← smartlist_get sl i;
        same ← (if negb (cur =? NULL) then c ← compare cur item; Ret (0 =? c)
                else Ret false);
        if (same : bool) then
          frequent_loop fuel' compare sl (i + 1) cur (count + 1) mf mfc
        else if negb (cur =? NULL) && (mfc <=? count) then
          frequent_loop fuel' compare sl (i + 1) item 1 cur count
        else frequent_loop fuel' compare sl (i + 1) item 1 mf mfc
      else if negb (cur =? NULL) && (mfc <? count) then Ret (cur, count)
      else Ret (mf, mfc)
  end.

(** The element and the number stored in [*count_out]. *)
Definition smartlist_get_most_frequent_ (sl : smartlist) (compare : Z → Z → outcome Z)
    : outcome (Z * Z) :=
  if num_used sl =? 0 then Ret (NULL, 0)
  else frequent_loop (loop_fuel sl) compare sl 0 NULL 0 NULL 0.

Definition smartlist_get_most_frequent_string_ (h : strheap) (sl : smartlist)
    : outcome (Z * Z) :=
  smartlist_get_most_frequent_ sl (compare_string_ptrs_ h).

Definition smartlist_get_most_frequent_string (h : strheap) (sl : smartlist) : outcome Z :=
  '(r, _) ← smartlist_get_most_frequent_ sl (compare_string_ptrs_ h); Ret r.

(** ** Removing repetitions *)

(** [free_fn] works on the memory that [compare] reads. *)
Fixpoint uniq_loop {H} (fuel : nat) (compare : H → Z → Z → outcome Z)
    (free_fn : option (H → Z → outcome H)) (h : H) (sl : smartlist) (i : Z)
    : outcome (H * smartlist) :=
  match fuel with
  | O => OutOfFuel
  | S fuel' =>
      if i <? num_used sl then
        a ← smartlist_get sl (i - 1);
        b ← smartlist_get sl i;
        c ← compare h a b;
        if c =? 0 then
          h' ← match free_fn with Some f => f h b | None => Ret h end;
          sl' ← smartlist_del_keeporder sl i;
          uniq_loop fuel' compare free_fn h' sl' (i - 1 + 1)
        else uniq_loop fuel' compare free_fn h sl (i + 1)
      else Ret (h, sl)
  end.

Definition smartlist_uniq {H} (h : H) (sl : smartlist) (compare : H → Z → Z → outcome Z)
    (free_fn : option (H → Z → outcome H)) : outcome (H * smartlist) :=
  uniq_loop (loop_fuel sl) compare free_fn h sl 1.

Definition smartlist_uniq_strings (h : strheap) (sl : smartlist)
    : outcome (strheap * smartlist) :=
  smartlist_uniq h sl compare_string_ptrs_ (Some free).

(** ** Binary search *)

(** [compare] is applied to the key already.  Every round halves the window,
    so 33 rounds exhaust the range of [int]. *)
Fixpoint bsearch_loop (fuel : nat) (compare : Z → outcome Z) (sl : smartlist)
    (lo hi len : Z) : outcome (Z * Z) :=
  match fuel with
  | O => OutOfFuel
  | S fuel' =>
      if lo <=? hi then
        let diff := hi - lo in
        let mid := lo + diff / 2 in
        v ← smartlist_get sl mid;
        cmp ← compare v;
        if cmp =? 0 then Ret (mid, 1)
        else if 0 <? cmp then bsearch_loop fuel' compare sl (mid + 1) hi len
        else if 0 <? mid then bsearch_loop fuel' compare sl lo (mid - 1) len
        else Ret (0, 0)
      else
        v ← (if lo <? len then smartlist_get sl lo else smartlist_get sl (len - 1));
        _ ← compare v;
        Ret (lo, 0)
  end.

(** The index and the flag stored in [*found_out]. *)
Definition smartlist_bsearch_idx {K} (sl : smartlist) (key : K)
    (compare : K → Z → outcome Z) : outcome (Z * Z) :=
  let len := smartlist_len sl in
  if len =? 0 then Ret (0, 0)
  else bsearch_loop 33 (compare key) sl 0 (len - 1) len.

Definition smartlist_bsearch {K} (sl : smartlist) (key : K)
    (compare : K → Z → outcome Z) : outcome Z :=
  '(idx, found) ← smartlist_bsearch_idx sl key compare;
  if negb (found =? 0) then smartlist_get sl idx else Ret NULL.

(** ** The order of [strcmp] *)

Definition str_le (s t : str) : Prop := strcmp s t ≤ 0.

Lemma strcmp_flip s t : strcmp t s = - strcmp s t.
Proof.
  revert t. induction s as [|x s IH]; intros [|y t]; simpl; try done.
  rewrite (Z.eqb_sym y x). destruct (x =? y) eqn:E; [done|]. zbool.
  destruct (Z.ltb_spec y x), (Z.ltb_spec x y); lia.
Qed.

#[export] Instance str_le_trans : Transitive str_le.
Proof.
  unfold str_le. intros s. induction s as [|x s IH]; intros [|y t] [|z u]; simpl; try lia.
  repeat case_if; subst; try lia. intros H1 H2. by apply (IH t u).
Qed.

Lemma str_le_antisym s t : str_le s t → str_le t s → s = t.
Proof. unfold str_le. rewrite (strcmp_flip s t). intros. apply strcmp_eq. lia. Qed.

Lemma str_le_total s t : str_le s t ∨ str_le t s.
Proof. unfold str_le. rewrite (strcmp_flip s t). lia. Qed.

(** In a sorted list what differs from its right neighbour never comes back. *)
Lemma sorted_apart (key : Z → str) (x y : Z) ys :
  StronglySorted (λ a b, str_le (key a) (key b)) (x :: y :: ys) →
  key x ≠ key y → ∀ z, z ∈ y :: ys → key x ≠ key z.
Proof.
  intros Hs Hne z Hz Heq. apply StronglySorted_inv in Hs as [Hs Hx].
  apply StronglySorted_inv in Hs as [_ Hy].
  apply elem_of_cons in Hz as [->|Hz]; [done|].
  rewrite List.Forall_forall in Hx, Hy. apply Hne, str_le_antisym.
  - apply Hx. by left.
  - rewrite Heq. apply Hy. by apply list_elem_of_In.
Qed.

(** ** What [qsort] promises *)

Definition sorted_by (compare : Z → Z → outcome Z) : list Z → Prop :=
  Sorted (λ a b, ∃ c, compare a b = Ret c ∧ c ≤ 0).

(** On elements that the comparison answers for, and orders totally and
    transitively, [qsort] returns a sorted rearrangement. *)
Class QsortOk `{Qsort} : Prop :=
  qsort_sorts (compare : Z → Z → outcome Z) (f : Z → Z → Z) (xs : list Z) :
    (∀ a b, a ∈ xs → b ∈ xs → compare a b = Ret (f a b)) →
    (∀ a b, f a b ≤ 0 ∨ f b a ≤ 0) →
    (∀ a b c, f a b ≤ 0 → f b c ≤ 0 → f a c ≤ 0) →
    ∃ ys, qsort compare xs = Ret ys ∧ ys ≡ₚ xs ∧ Sorted (λ a b, f a b ≤ 0) ys.

(** A library whose [qsort] inserts each element in turn. *)
Fixpoint insert_elt (compare : Z → Z → outcome Z) (x : Z) (ys : list Z)
    : outcome (list Z) :=
  match ys with
  | [] => Ret [x]
  | y :: ys' =>
      c ← compare x y;
      if c <=? 0 then Ret (x :: ys)
      else zs ← insert_elt compare x ys'; Ret (y :: zs)
  end.

Fixpoint insertion_sort (compare : Z → Z → outcome Z) (xs : list Z) : outcome (list Z) :=
  match xs with
  | [] => Ret []
  | x :: xs' => ys ← insertion_sort compare xs'; insert_elt compare x ys
  end.

#[export] Instance insertion_qsort : Qsort | 10 := insertion_sort.

Lemma insert_elt_spec compare f x ys :
  (∀ y, y ∈ ys → compare x y = Ret (f x y)) →
  (∀ a b, f a b ≤ 0 ∨ f b a ≤ 0) →
  Sorted (λ a b, f a b ≤ 0) ys →
  ∃ zs, insert_elt compare x ys = Ret zs ∧ zs ≡ₚ x :: ys ∧ Sorted (λ a b, f a b ≤ 0) zs ∧
    (∀ a, f a x ≤ 0 → HdRel (λ a b, f a b ≤ 0) a ys → HdRel (λ a b, f a b ≤ 0) a zs).
Proof.
  intros Hc Ht. induction ys as [|y ys IH]; intros Hs; simpl.
  - exists [x]. split_and!; [done|done|repeat constructor|by constructor].
  - rewrite Hc by left. ret_simpl. apply Sorted_inv in Hs as [Hs Hy]. case_if.
    + exists (x :: y :: ys). split_and!; [done|done|by repeat constructor|by constructor].
    + destruct IH as (zs & -> & Hp & Hz & Hh); [intros; apply Hc; by right|done|].
      exists (y :: zs). split_and!; [done| | |].
      * rewrite Hp. apply Permutation_swap.
      * constructor; [done|]. apply Hh; [|done]. destruct (Ht y x); [done|lia].
      * intros a _ Ha. constructor. by apply HdRel_inv in Ha.
Qed.

#[export] Instance insertion_qsort_ok : QsortOk (H := insertion_qsort).
Proof.
  intros compare f xs Hc Ht _. unfold qsort, insertion_qsort.
  induction xs as [|x xs IH]; simpl.
  - exists []. by repeat constructor.
  - destruct IH as (ys & -> & Hp & Hs); [intros; apply Hc; by right|]. ret_simpl.
    destruct (insert_elt_spec compare f x ys) as (zs & -> & Hp' & Hs' & _); [|done..|].
    + intros y Hy. apply Hc; [left|right]. by rewrite <- Hp.
    + exists zs. split_and!; [done|by rewrite Hp', Hp|done].
Qed.

(** ** Sorting a smartlist *)

Lemma cells_values_cells xs : cells_values (cells xs) = Ret xs.
Proof. induction xs as [|x xs IH]; simpl; [done|]. by rewrite IH. Qed.

Lemma repr_sort `{QsortOk} sl xs compare f :
  repr sl xs →
  (∀ a b, a ∈ xs → b ∈ xs → compare a b = Ret (f a b)) →
  (∀ a b, f a b ≤ 0 ∨ f b a ≤ 0) →
  (∀ a b c, f a b ≤ 0 → f b c ≤ 0 → f a c ≤ 0) →
  ∃ sl' ys, smartlist_sort sl compare = Ret sl' ∧ repr sl' ys ∧ ys ≡ₚ xs ∧
    StronglySorted (λ a b, f a b ≤ 0) ys.
Proof.
  intros Hr Hc Ht Htr. unfold smartlist_sort. rewrite (repr_num_used _ _ Hr).
  destruct Hr as (rest & Hl & Hn & Hcap & Hb). unfold strlen in *. case_if.
  { exists sl, []. destruct xs; [|simpl in E; lia]. split_and!; [done| |done|constructor].
    by exists rest. }
  rewrite Hl, Nat2Z.id, take_app_length' by (by rewrite cells_length).
  rewrite cells_values_cells. ret_simpl.
  destruct (qsort_sorts compare f xs Hc Ht Htr) as (ys & -> & Hp & Hs). ret_simpl.
  assert (Hlen : length ys = length xs) by (by rewrite Hp).
  rewrite cells_copy_Ret; [|rewrite ?length_app, ?cells_length; lia..]. ret_simpl.
  do 2 eexists. split; [done|]. split; [|split; [exact Hp|]].
  - exists rest. simpl. rewrite drop_0, Nat2Z.id, take_ge by (rewrite cells_length; lia).
    rewrite drop_app_length' by (rewrite cells_length; lia). rewrite Hl in *.
    unfold strlen. rewrite !length_app, !cells_length in *. split_and!; [done|lia..].
  - apply Sorted_StronglySorted; [|done]. intros a b c. apply Htr.
Qed.

(** The strings of a list of pointers: [key] names the string of each. *)
Definition strings_at (h : strheap) (key : Z → str) (xs : list Z) : Prop :=
  ∀ p, p ∈ xs → h !! p = Some (key p).

Lemma compare_strings_at h key xs a b :
  strings_at h key xs → a ∈ xs → b ∈ xs →
  compare_string_ptrs_ h a b = Ret (strcmp (key a) (key b)).
Proof.
  intros Hh Ha Hb. unfold compare_string_ptrs_, load_str.
  by rewrite (Hh a Ha), (Hh b Hb).
Qed.

Lemma repr_sort_strings `{QsortOk} h key sl xs :
  repr sl xs → strings_at h key xs →
  ∃ sl' ys, smartlist_sort_strings h sl = Ret sl' ∧ repr sl' ys ∧ ys ≡ₚ xs ∧
    StronglySorted (λ a b, str_le (key a) (key b)) ys.
Proof.
  intros Hr Hh.
  apply (repr_sort sl xs (compare_string_ptrs_ h) (λ a b, strcmp (key a) (key b)) Hr).
  - intros. by eapply compare_strings_at.
  - intros. apply str_le_total.
  - intros a b c. apply str_le_trans.
Qed.

(** ** Binary search *)

(** [c] is the sign of the key against each element; along the list it falls. *)
Definition falling (c : Z → Z) (xs : list Z) : Prop :=
  StronglySorted (λ a b, (c a < 0 → c b < 0) ∧ (0 < c b → 0 < c a)) xs.

Lemma falling_split c A x B :
  falling c (A ++ x :: B) →
  (0 < c x → Forall (λ a, 0 < c a) A) ∧ (c x < 0 → Forall (λ b, c b < 0) B).
Proof.
  unfold falling. induction A as [|a A IH]; simpl; intros Hs; apply StronglySorted_inv in Hs as [Hs Hh].
  - split; [by constructor|]. intros Hx. eapply Forall_impl; [exact Hh|]. simpl. intuition.
  - destruct (IH Hs) as [H1 H2]. split; [|done]. intros Hx. constructor; [|auto].
    rewrite List.Forall_forall in Hh. apply (Hh x); [|done].
    apply in_or_app. right. by left.
Qed.

(** What the search answers: an element that compares equal, or the place
    where the key belongs. *)
Definition search_result (c : Z → Z) (xs : list Z) (idx found : Z) : Prop :=
  (found = 1 ∧ ∃ x, xs !! Z.to_nat idx = Some x ∧ c x = 0 ∧ 0 ≤ idx) ∨
  (found = 0 ∧ 0 ≤ idx ≤ strlen xs ∧ Forall (λ x, 0 < c x) (take (Z.to_nat idx) xs) ∧
     Forall (λ x, c x < 0) (drop (Z.to_nat idx) xs)).

Lemma bsearch_loop_spec fuel compare sl xs c lo hi :
  repr sl xs → xs ≠ [] → (∀ x, x ∈ xs → compare x = Ret (c x)) → falling c xs →
  0 ≤ lo → lo ≤ hi + 1 → hi < strlen xs → hi - lo + 1 < 2 ^ Z.of_nat fuel →
  Forall (λ x, 0 < c x) (take (Z.to_nat lo) xs) →
  Forall (λ x, c x < 0) (drop (Z.to_nat (hi + 1)) xs) →
  ∃ idx found, bsearch_loop (S fuel) compare sl lo hi (strlen xs) = Ret (idx, found) ∧
    search_result c xs idx found.
Proof.
  intros Hr Hne Hc Hf. revert lo hi.
  induction fuel as [fuel IH] using (well_founded_induction lt_wf); intros lo hi Hlo Hlh Hhi Hw HA HB.
  cbn [bsearch_loop]. unfold strlen in *. case_if.
  - set (mid := lo + (hi - lo) / 2). assert (lo ≤ mid ≤ hi) as Hm by (unfold mid; lia).
    destruct (list_lookup_total_Z xs mid) as [x Hx]; [lia|].
    rewrite <- (Z2Nat.id mid), (repr_get _ _ _ _ Hr Hx), Z2Nat.id by lia. ret_simpl.
    rewrite Hc by (by eapply list_elem_of_lookup_2). ret_simpl.
    pose proof (list_elem_of_split_length _ _ _ Hx) as (A & B & HAB & HlA).
    rewrite HAB in Hf. apply falling_split in Hf as [H1 H2].
    assert (HtA : take (Z.to_nat mid) xs = A).
    { rewrite HAB, HlA. by rewrite take_app_length. }
    assert (HdB : drop (Z.to_nat (mid + 1)) xs = B).
    { replace (Z.to_nat (mid + 1)) with (length A + 1)%nat by lia.
      rewrite HAB, cons_middle, app_assoc. apply drop_app_length'.
      rewrite length_app. simpl. lia. }
    destruct fuel as [|fuel]; [simpl in Hw; lia|].
    rewrite Nat2Z.inj_succ, Z.pow_succ_r in Hw by lia.
    case_if; [|case_if; [|case_if]].
    + do 2 eexists. split; [done|]. left. eauto with lia.
    + apply IH; [lia..| | |done]; [unfold mid; lia|].
      replace (Z.to_nat (mid + 1)) with (S (Z.to_nat mid)) by lia.
      rewrite (take_S_r _ _ x Hx), HtA. apply Forall_app. auto.
    + apply IH; [lia..| |done|]; [unfold mid; lia|].
      replace (mid - 1 + 1) with mid by lia.
      rewrite (drop_S _ x _ Hx). replace (S (Z.to_nat mid)) with (Z.to_nat (mid + 1)) by lia.
      rewrite HdB. constructor; [lia|]. apply H2. lia.
    + do 2 eexists. split; [done|]. right. split; [done|]. destruct A as [|a A]; [|simpl in HlA; lia].
      simpl in HAB. rewrite HAB. simpl. unfold strlen.
      split_and!; [lia..|constructor|]. constructor; [lia|]. apply H2. lia.
  - assert (Hv : ∃ x, x ∈ xs ∧
        (if lo <? Z.of_nat (length xs) then smartlist_get sl lo
         else smartlist_get sl (Z.of_nat (length xs) - 1)) = Ret x).
    { set (j := if lo <? Z.of_nat (length xs) then lo else Z.of_nat (length xs) - 1).
      assert (length xs ≠ 0%nat) by (by destruct xs).
      destruct (list_lookup_total_Z xs j) as [x Hx]; [unfold j; case_if; lia|].
      exists x. split; [by eapply list_elem_of_lookup_2|].
      transitivity (smartlist_get sl j); [unfold j; by case_if|].
      rewrite <- (Z2Nat.id j) by (unfold j; case_if; lia). by apply (repr_get _ _ _ _ Hr). }
    destruct Hv as (x & Hx & ->). ret_simpl. rewrite Hc by done. ret_simpl.
    do 2 eexists. split; [done|]. right. replace (hi + 1) with lo in HB by lia.
    unfold strlen. split_and!; [done|lia|lia|done..].
Qed.

(** ** Removing repetitions *)

(** What [smartlist_uniq] keeps behind [x]. *)
Fixpoint squeeze (key : Z → str) (x : Z) (l : list Z) : list Z :=
  match l with
  | [] => []
  | y :: l' => if decide (key x = key y) then squeeze key x l' else y :: squeeze key y l'
  end.

Lemma squeeze_sublist key x l : sublist (squeeze key x l) l.
Proof.
  revert x. induction l as [|y l IH]; intros x; simpl; [constructor|].
  case_decide; by constructor.
Qed.

Lemma squeeze_covers key x l y :
  y ∈ l → ∃ z, z ∈ x :: squeeze key x l ∧ key z = key y.
Proof.
  revert x. induction l as [|w l IH]; intros x Hy; [by apply not_elem_of_nil in Hy|].
  simpl. apply elem_of_cons in Hy as [->|Hy]; case_decide as E.
  - exists x. split; [left|done].
  - exists w. split; [right; left|done].
  - by apply IH.
  - destruct (IH w Hy) as (z & Hz & Hk). exists z. split; [by right|done].
Qed.

Lemma squeeze_NoDup key x l :
  StronglySorted (λ a b, str_le (key a) (key b)) (x :: l) →
  NoDup (key <$> x :: squeeze key x l).
Proof.
  revert x. induction l as [|y l IH]; intros x Hs; simpl.
  - apply NoDup_singleton.
  - case_decide as E.
    + apply IH. apply StronglySorted_inv in Hs as [Hs Hx].
      apply StronglySorted_inv in Hs as [Hs _]. constructor; [done|].
      by apply List.Forall_inv_tail in Hx.
    + pose proof (sorted_apart key x y l Hs E) as Hx.
      apply StronglySorted_inv in Hs as [Hs _]. constructor; [|by apply IH].
      intros (z & Hk & Hz)%(list_elem_of_fmap_1 key (y :: _)). apply (Hx z); [|done].
      apply elem_of_cons in Hz as [->|Hz]; [left|right].
      eapply elem_of_sublist; [exact Hz|apply squeeze_sublist].
Qed.

Lemma free_present (h : strheap) p s : h !! p = Some s → p ≠ NULL → free h p = Ret (delete p h).
Proof.
  intros Hp Hn. unfold free. by rewrite (proj2 (Z.eqb_neq p NULL) Hn), Hp.
Qed.

Lemma uniq_loop_spec key fuel h sl A x B :
  repr sl (A ++ x :: B) → NoDup (x :: B) → NULL ∉ B → strings_at h key (x :: B) →
  (length B < fuel)%nat →
  ∃ h' sl', uniq_loop fuel compare_string_ptrs_ (Some free) h sl (strlen A + 1) = Ret (h', sl') ∧
    repr sl' (A ++ x :: squeeze key x B) ∧
    ∀ p, h' !! p = if decide (p ∈ B ∧ p ∉ squeeze key x B) then None else h !! p.
Proof.
  revert fuel h sl A x.
  induction B as [|y B IH]; intros [|fuel] h sl A x Hr Hnd Hnull Hh Hf; simpl in Hf; try lia.
  - exists h, sl. cbn [uniq_loop]. rewrite (repr_num_used _ _ Hr).
    unfold strlen. rewrite length_app. simpl. rewrite (proj2 (Z.ltb_ge _ _)) by lia.
    by split_and!.
  - cbn [uniq_loop]. rewrite (repr_num_used _ _ Hr). unfold strlen.
    rewrite length_app. simpl length. rewrite (proj2 (Z.ltb_lt _ _)) by lia.
    rewrite Z.add_simpl_r, (repr_get _ _ _ x Hr) by (by apply list_lookup_middle). ret_simpl.
    pose proof Hr as Hr2. rewrite cons_middle, app_assoc in Hr2.
    assert (Hl : Z.of_nat (length A) + 1 = Z.of_nat (length (A ++ [x])))
      by (rewrite length_app; simpl; lia).
    rewrite Hl, (repr_get _ _ _ y Hr2) by (by apply list_lookup_middle). ret_simpl.
    rewrite (compare_strings_at h key (x :: y :: B)) by (done || left || (right; left)).
    ret_simpl. apply not_elem_of_cons in Hnull as [Hny Hnull].
    inversion_clear Hnd as [|? ? Hx HndB]. inversion_clear HndB as [|? ? Hy Hnd].
    simpl squeeze. destruct (Z.eqb_spec (strcmp (key x) (key y)) 0) as [E|E];
      rewrite strcmp_eq in E.
    + rewrite decide_True by done.
      rewrite (free_present h y (key y)) by (congruence || (apply Hh; right; left)).
      ret_simpl.
      destruct (repr_del_keeporder _ _ _ _ Hr2) as (sl1 & Hd & Hr1). unfold strlen in Hd.
      rewrite Hd. ret_simpl. rewrite <- app_assoc in Hr1.
      destruct (IH fuel (delete y h) sl1 A x Hr1) as (h' & sl' & Hu & Hr' & Hh'); [|done| |lia|].
      { constructor; [|done]. intros ?. apply Hx. by right. }
      { intros p Hp. rewrite lookup_delete_ne; [apply Hh|].
        - apply elem_of_cons in Hp as [->|Hp]; [left|by right; right].
        - intros ->. apply elem_of_cons in Hp as [->|Hp]; [apply Hx; left|done]. }
      exists h', sl'. unfold strlen in Hu. rewrite <- Hl. split; [done|].
      split; [done|]. intros p. rewrite Hh'. destruct (decide (p = y)) as [->|Hne].
      * rewrite lookup_delete_eq, (decide_True (P := y ∈ y :: B ∧ _)); [by case_decide|].
        split; [left|]. intros Hp. eauto using elem_of_sublist, squeeze_sublist.
      * rewrite lookup_delete_ne by done. apply decide_ext. rewrite elem_of_cons. naive_solver.
    + rewrite decide_False by done.
      destruct (IH fuel h sl (A ++ [x]) y Hr2) as (h' & sl' & Hu & Hr' & Hh'); [by constructor|done| |lia|].
      { intros p Hp. apply Hh. by right. }
      exists h', sl'. unfold strlen in Hu. split; [done|].
      rewrite cons_middle, app_assoc. split; [done|]. intros p. rewrite Hh'.
      apply decide_ext. rewrite !elem_of_cons. naive_solver.
Qed.

(** The three steps of a caller: sort the strings, drop the repetitions. *)
Lemma sort_uniq `{QsortOk} h key sl xs :
  repr sl xs → NoDup xs → NULL ∉ xs → strings_at h key xs →
  ∃ sl1 h' sl' ys,
    smartlist_sort_strings h sl = Ret sl1 ∧
    smartlist_uniq_strings h sl1 = Ret (h', sl') ∧ repr sl' ys ∧
    ys ⊆+ xs ∧ NoDup (key <$> ys) ∧ (∀ x, x ∈ xs → key x ∈ key <$> ys) ∧
    (∀ p, h' !! p = if decide (p ∈ xs ∧ p ∉ ys) then None else h !! p).
Proof.
  intros Hr Hnd Hnull Hh.
  destruct (repr_sort_strings h key sl xs Hr Hh) as (sl1 & ys & Hs & Hr1 & Hp & Hss).
  exists sl1. unfold smartlist_uniq_strings, smartlist_uniq. rewrite (repr_fuel _ _ Hr1).
  destruct ys as [|x B].
  { apply Permutation_nil in Hp as ->. exists h, sl1, []. cbn [uniq_loop].
    rewrite (repr_num_used _ _ Hr1). split_and!; try done; [constructor|].
    intros x Hx. by apply not_elem_of_nil in Hx. }
  assert (Hh1 : strings_at h key (x :: B)) by (intros p ?; apply Hh; by rewrite <- Hp).
  rewrite <- Hp in Hnd, Hnull.
  destruct (uniq_loop_spec key (S (length (x :: B))) h sl1 [] x B)
    as (h' & sl' & Hu & Hr' & Hh'); [done|done| |done|simpl; lia|].
  { intros ?. apply Hnull. by right. }
  exists h', sl', (x :: squeeze key x B). split; [done|]. split; [exact Hu|]. split; [done|].
  apply NoDup_cons in Hnd as [Hx Hnd]. split_and!.
  - rewrite <- Hp. apply submseteq_skip, sublist_submseteq, squeeze_sublist.
  - by apply squeeze_NoDup.
  - intros y Hy. rewrite <- Hp in Hy. apply list_elem_of_fmap.
    apply elem_of_cons in Hy as [->|Hy]; [exists x; split; [done|left]|].
    destruct (squeeze_covers key x B y Hy) as (z & ? & ?). eauto.
  - intros p. rewrite Hh'. apply decide_ext. rewrite <- Hp, !elem_of_cons. naive_solver.
Qed.

(** ** Counting *)

(** How often the string of [x] occurs. *)
Definition occ (key : Z → str) (x : Z) (l : list Z) : Z :=
  strlen (List.filter (λ y, bool_decide (key y = key x)) l).

Lemma occ_app key x l k : occ key x (l ++ k) = occ key x l + occ key x k.
Proof. unfold occ, strlen. rewrite List.filter_app, length_app. lia. Qed.

Lemma occ_none key x l : (∀ y, y ∈ l → key x ≠ key y) → occ key x l = 0.
Proof.
  intros Hl. unfold occ. rewrite (proj2 (filter_nil_iff _ _)); [done|].
  intros y Hy. apply bool_decide_eq_false. intros E. by apply (Hl y Hy).
Qed.

Lemma occ_all key x l : (∀ y, y ∈ l → key x = key y) → occ key x l = strlen l.
Proof.
  unfold occ, strlen. induction l as [|y l IH]; intros Hl; [done|]. simpl.
  rewrite bool_decide_eq_true_2 by (symmetry; apply Hl; left). simpl.
  rewrite Nat2Z.inj_succ, IH by (intros; apply Hl; by right). simpl. lia.
Qed.

Lemma occ_perm key x l k : l ≡ₚ k → occ key x l = occ key x k.
Proof. intros Hp. unfold occ, strlen. by rewrite Hp. Qed.

(** [m] occurs [n] times in [l], and nothing more often. *)
Definition most_frequent (key : Z → str) (l : list Z) (m n : Z) : Prop :=
  m ∈ l ∧ n = occ key m l ∧ ∀ x, x ∈ l → occ key x l ≤ n.

(** What the loop knows of the runs before the current one. *)
Definition best_so_far (key : Z → str) (l : list Z) (m n : Z) : Prop :=
  (l = [] ∧ m = NULL ∧ n = 0) ∨ most_frequent key l m n.

(** One more run, of a string that has not occurred. *)
Lemma best_run key P0 run cur m n :
  best_so_far key P0 m n → cur ∈ run →
  (∀ y, y ∈ run → key cur = key y) →
  (∀ x y, x ∈ P0 → y ∈ run → key x ≠ key y) →
  (n ≤ strlen run → most_frequent key (P0 ++ run) cur (strlen run)) ∧
  (strlen run ≤ n → most_frequent key (P0 ++ run) m n).
Proof.
  intros Hb Hc Hrun Hsep.
  assert (Hr : ∀ x, x ∈ run → occ key x (P0 ++ run) = strlen run).
  { intros x Hx. rewrite occ_app, occ_none, (occ_all key x run); [done| |].
    - intros y Hy. by rewrite <- (Hrun x Hx), <- (Hrun y Hy).
    - intros y Hy E. by apply (Hsep y x). }
  assert (H0 : ∀ x, x ∈ P0 → occ key x (P0 ++ run) = occ key x P0).
  { intros x Hx. rewrite occ_app, (occ_none key x run); [lia|]. auto. }
  assert (Hpos : 0 < strlen run) by (unfold strlen; destruct run; [inversion Hc|simpl; lia]).
  assert (Hle : ∀ x, x ∈ P0 → occ key x P0 ≤ n).
  { intros x Hx. destruct Hb as [(-> & _)|(_ & _ & Hm)]; [inversion Hx|auto]. }
  split; intros Hn.
  - split_and!; [apply elem_of_app; auto|by rewrite Hr|].
    intros x [Hx|Hx]%elem_of_app; [rewrite H0 by done; specialize (Hle x Hx); lia|].
    by rewrite Hr.
  - destruct Hb as [(_ & _ & ->)|(Hm & -> & _)]; [lia|].
    split_and!; [apply elem_of_app; auto|by rewrite H0|].
    intros x [Hx|Hx]%elem_of_app; [rewrite H0 by done; auto|]. by rewrite Hr.
Qed.

Lemma repr_get_mid sl A x B :
  repr sl (A ++ x :: B) → smartlist_get sl (strlen A) = Ret x ∧ (strlen A <? num_used sl) = true.
Proof.
  intros Hr. split.
  - apply (repr_get _ _ _ _ Hr). by apply list_lookup_middle.
  - rewrite (repr_num_used _ _ Hr). unfold strlen. rewrite length_app. simpl.
    apply Z.ltb_lt. lia.
Qed.

Lemma length_snoc_Z {A} (l : list A) (x : A) :
  Z.of_nat (length (l ++ [x])) = Z.of_nat (length l) + 1.
Proof. rewrite length_app. simpl. lia. Qed.

Lemma frequent_loop_spec h key fuel sl P0 run cur rest m n :
  repr sl ((P0 ++ run) ++ rest) → NULL ∉ (P0 ++ run) ++ rest →
  strings_at h key ((P0 ++ run) ++ rest) →
  StronglySorted (λ a b, str_le (key a) (key b)) (run ++ rest) →
  cur ∈ run → (∀ y, y ∈ run → key cur = key y) →
  (∀ x y, x ∈ P0 → y ∈ run ++ rest → key x ≠ key y) →
  best_so_far key P0 m n → (length rest < fuel)%nat →
  ∃ r c, frequent_loop fuel (compare_string_ptrs_ h) sl (strlen (P0 ++ run)) cur
           (strlen run) m n = Ret (r, c) ∧
    most_frequent key ((P0 ++ run) ++ rest) r c.
Proof.
  revert P0 run cur m n fuel.
  induction rest as [|item rest IH];
    intros P0 run cur m n [|fuel] Hr Hnull Hh Hs Hcur Hrun Hsep Hb Hf; simpl in Hf; try lia;
    cbn [frequent_loop];
    assert (cur ≠ NULL) as Hc0 by (intros ->; apply Hnull; rewrite !elem_of_app; auto);
    rewrite (proj2 (Z.eqb_neq cur NULL) Hc0);
    (destruct (best_run key P0 run cur m n Hb Hcur Hrun) as [H1 H2];
      [intros x y Hx Hy; apply Hsep; [done|apply elem_of_app; auto]|]).
  - rewrite !app_nil_r in *. rewrite (repr_num_used _ _ Hr), Z.ltb_irrefl. cbn [negb andb].
    destruct (Z.ltb_spec n (strlen run)); [eauto with lia|].
    exists m, n. split; [done|]. apply H2. lia.
  - destruct (repr_get_mid _ _ _ _ Hr) as [-> ->]. ret_simpl. cbn [negb].
    rewrite (compare_strings_at h key _ _ _ Hh) by
      (rewrite !elem_of_app, ?elem_of_cons; auto). ret_simpl. cbn [andb].
    rewrite (cons_middle item), app_assoc in Hr, Hnull, Hh, Hs, Hsep |- *.
    unfold strlen in *. rewrite <- (length_snoc_Z _ item).
    destruct (Z.eqb_spec 0 (strcmp (key cur) (key item))) as [E|E]; [symmetry in E|].
    + rewrite strcmp_eq in E. rewrite <- (length_snoc_Z run item).
      rewrite <- (app_assoc P0) in Hr, Hnull, Hh |- *.
      apply IH; try done; [apply elem_of_app; auto| |lia].
      intros y [Hy| ->%list_elem_of_singleton]%elem_of_app; auto.
    + assert (Hne : key cur ≠ key item) by (rewrite <- strcmp_eq; congruence).
      rewrite <- app_assoc in Hs, Hsep.
      assert (Hsep' : ∀ x y, x ∈ P0 ++ run → y ∈ item :: rest → key x ≠ key y).
      { intros x y [Hx|Hx]%elem_of_app Hy.
        - apply Hsep; [done|]. apply elem_of_app. auto.
        - rewrite <- (Hrun x Hx). apply sorted_apart with item rest; [|done..].
          constructor; [by eapply StronglySorted_app_1_r|]. apply List.Forall_forall.
          intros z Hz%list_elem_of_In. by apply (StronglySorted_app_1_elem_of _ _ _ _ _ Hs). }
      assert (Hgo : ∀ m' n', best_so_far key (P0 ++ run) m' n' → ∃ r c,
        frequent_loop fuel (compare_string_ptrs_ h) sl
          (Z.of_nat (length ((P0 ++ run) ++ [item]))) item 1 m' n' = Ret (r, c) ∧
        most_frequent key (((P0 ++ run) ++ [item]) ++ rest) r c).
      { intros m' n' Hb'. apply IH; try done; [by eapply StronglySorted_app_1_r|left| |lia].
        by intros y ->%list_elem_of_singleton. }
      destruct (Z.leb_spec n (Z.of_nat (length run))); apply Hgo; right; [auto|].
      apply H2. lia.
Qed.

(** Sort the strings, then ask for the most frequent one. *)
Lemma sort_frequent `{QsortOk} h key sl xs :
  repr sl xs → xs ≠ [] → NULL ∉ xs → strings_at h key xs →
  ∃ sl1 r c, smartlist_sort_strings h sl = Ret sl1 ∧
    smartlist_get_most_frequent_string_ h sl1 = Ret (r, c) ∧
    smartlist_get_most_frequent_string h sl1 = Ret r ∧ most_frequent key xs r c.
Proof.
  intros Hr Hne Hnull Hh.
  destruct (repr_sort_strings h key sl xs Hr Hh) as (sl1 & ys & Hs & Hr1 & Hp & Hss).
  exists sl1. destruct ys as [|x ys]; [by apply Permutation_nil in Hp|].
  assert (Hh1 : strings_at h key (x :: ys)) by (intros p ?; apply Hh; by rewrite <- Hp).
  assert (Hx : x ≠ NULL) by (intros ->; apply Hnull; rewrite <- Hp; left).
  destruct (frequent_loop_spec h key (S (length ys)) sl1 [] [x] x ys NULL 0)
    as (r & c & Hl & Hm); try done;
    [by rewrite Hp|left|by intros y ->%list_elem_of_singleton
    |intros ? ? Hz; by apply not_elem_of_nil in Hz|by left|lia|].
  assert (Hg : smartlist_get_most_frequent_ sl1 (compare_string_ptrs_ h) = Ret (r, c)).
  { unfold smartlist_get_most_frequent_. rewrite (repr_num_used _ _ Hr1), (repr_fuel _ _ Hr1).
    cbn [strlen length frequent_loop].
    destruct (repr_get_mid _ [] _ _ Hr1) as [Hget Hlt]. change (strlen []) with 0 in Hget, Hlt.
    rewrite Hlt, Hget. ret_simpl. exact Hl. }
  exists r, c. unfold smartlist_get_most_frequent_string_, smartlist_get_most_frequent_string.
  rewrite Hg. split_and!; try done. destruct Hm as (Hin & Hc & Hmax). simpl in Hin, Hc, Hmax.
  split_and!; [by rewrite <- Hp|by rewrite <- (occ_perm _ _ _ _ Hp)|].
  intros y Hy. rewrite <- (occ_perm _ _ _ _ Hp). apply Hmax. by rewrite Hp.
Qed.

(** ** Properties *)

(** Along a list on which the comparison with the key falls, the binary
    search returns within 33 rounds (it halves the window, so the range of [int] is
    exhausted): either the index of an element that compares equal, or, with
    [found] 0, the index at which the key belongs, everything before being
    smaller and everything from there on larger.  [smartlist_bsearch] gives
    such an element, and NULL only when there is none. *)
Theorem smartlist_bsearch_correct {K} sl xs (key : K) compare c :
  repr sl xs → (∀ x, x ∈ xs → compare key x = Ret (c x)) → falling c xs →
  ∃ idx found p,
    smartlist_bsearch_idx sl key compare = Ret (idx, found) ∧
    search_result c xs idx found ∧
    smartlist_bsearch sl key compare = Ret p ∧
    (found = 1 ∧ p ∈ xs ∧ c p = 0 ∨ found = 0 ∧ p = NULL ∧ ∀ x, x ∈ xs → c x ≠ 0).
Proof.
  intros Hr Hc Hf.
  assert (H : ∃ idx found, smartlist_bsearch_idx sl key compare = Ret (idx, found) ∧
    search_result c xs idx found).
  { unfold smartlist_bsearch_idx, smartlist_len. rewrite (repr_num_used _ _ Hr).
    destruct xs as [|x xs]; [exists 0, 0; split; [done|right]; split_and!; (done || apply Forall_nil_2)|].
    rewrite (proj2 (Z.eqb_neq _ _)) by done.
    destruct Hr as (rest & Hl & Hn & Hcap & Hb).
    assert (strlen (x :: xs) ≤ INT_MAX).
    { rewrite Hl, length_app, cells_length in Hcap. unfold strlen. lia. }
    apply (bsearch_loop_spec 32 (compare key)); try done.
    - by exists rest.
    - unfold strlen. simpl. lia.
    - lia.
    - change (2 ^ Z.of_nat 32) with 4294967296. unfold INT_MAX in *. lia.
    - rewrite drop_ge; [done|]. unfold strlen. lia. }
  destruct H as (idx & found & Hi & Hres). exists idx, found.
  unfold smartlist_bsearch. rewrite Hi. ret_simpl.
  destruct Hres as [(-> & x & Hx & Hc0 & Hi0)|(-> & Hi0 & HA & HB)].
  - exists x. split; [done|]. split; [left; eauto|]. split.
    + rewrite <- (Z2Nat.id idx) by done. by apply (repr_get _ _ _ _ Hr).
    + left. eauto using list_elem_of_lookup_2.
  - exists NULL. split; [done|]. split; [right; split_and!; (done || apply Hi0)|].
    split; [done|].
    right. split_and!; [done..|]. intros x Hx.
    rewrite <- (take_drop (Z.to_nat idx) xs), elem_of_app in Hx.
    rewrite Forall_forall in HA, HB.
    destruct Hx as [Hx|Hx]; [specialize (HA x Hx)|specialize (HB x Hx)]; lia.
Qed.

Lemma smartlist_bsearch_correct_witness :
  ∃ idx found p,
    smartlist_bsearch_idx (sl_of [10; 20; 30]) 25 (λ k v, Ret (k - v)) = Ret (idx, found) ∧
    search_result (λ v, 25 - v) [10; 20; 30] idx found ∧
    smartlist_bsearch (sl_of [10; 20; 30]) 25 (λ k v, Ret (k - v)) = Ret p ∧
    (found = 1 ∧ p ∈ [10; 20; 30] ∧ 25 - p = 0 ∨
     found = 0 ∧ p = NULL ∧ ∀ x, x ∈ [10; 20; 30] → 25 - x ≠ 0).
Proof.
  apply (smartlist_bsearch_correct (sl_of [10; 20; 30]) [10; 20; 30] 25 (λ k v, Ret (k - v))
    (λ v, 25 - v)).
  - apply repr_of. simpl. lia.
  - intros x _. reflexivity.
  - unfold falling. repeat (constructor; try lia).
Defined.

(** Sorting the strings of a list of distinct pointers and removing the
    repetitions leaves a part of the list in which every string of the original
    occurs exactly once; exactly the strings that were dropped are freed, and
    nothing freed is looked at again. *)
Theorem sort_uniq_strings `{QsortOk} h key sl xs :
  repr sl xs → NoDup xs → NULL ∉ xs → strings_at h key xs →
  ∃ sl1 h' sl' ys,
    smartlist_sort_strings h sl = Ret sl1 ∧
    smartlist_uniq_strings h sl1 = Ret (h', sl') ∧ repr sl' ys ∧
    ys ⊆+ xs ∧ NoDup (key <$> ys) ∧ (∀ x, x ∈ xs → key x ∈ key <$> ys) ∧
    (∀ p, h' !! p = if decide (p ∈ xs ∧ p ∉ ys) then None else h !! p).
Proof. apply sort_uniq. Qed.

(** After sorting, [smartlist_get_most_frequent_string_] returns a string
    of the list that occurs most often, and stores how often it does. *)
Theorem most_frequent_string_correct `{QsortOk} h key sl xs :
  repr sl xs → xs ≠ [] → NULL ∉ xs → strings_at h key xs →
  ∃ sl1 r c, smartlist_sort_strings h sl = Ret sl1 ∧
    smartlist_get_most_frequent_string_ h sl1 = Ret (r, c) ∧
    smartlist_get_most_frequent_string h sl1 = Ret r ∧ most_frequent key xs r c.
Proof. apply sort_frequent. Qed.

(** Four strings, two of them equal. *)
Definition four_strings : strheap :=
  {[1 := lit "wlan0"; 2 := lit "eth0"; 3 := lit "wlan0"; 4 := lit "lo"]}.

Definition four_keys (p : Z) : str := default [] (four_strings !! p).

Lemma four_strings_at : strings_at four_strings four_keys [1; 2; 3; 4].
Proof.
  unfold strings_at. apply (proj1 (Forall_forall (λ p, four_strings !! p = Some (four_keys p)) _)).
  repeat apply Forall_cons_2; try apply Forall_nil_2; reflexivity.
Qed.

Lemma sort_uniq_strings_witness :
  ∃ sl1 h' sl' ys,
    smartlist_sort_strings four_strings (sl_of [1; 2; 3; 4]) = Ret sl1 ∧
    smartlist_uniq_strings four_strings sl1 = Ret (h', sl') ∧ repr sl' ys ∧
    ys ⊆+ [1; 2; 3; 4] ∧ NoDup (four_keys <$> ys) ∧
    (∀ x, x ∈ [1; 2; 3; 4] → four_keys x ∈ four_keys <$> ys) ∧
    (∀ p, h' !! p = if decide (p ∈ [1; 2; 3; 4] ∧ p ∉ ys) then None else four_strings !! p).
Proof.
  apply sort_uniq_strings.
  - apply repr_of. simpl. lia.
  - apply (bool_decide_unpack _). vm_compute. exact I.
  - apply (bool_decide_unpack _). vm_compute. exact I.
  - exact four_strings_at.
Defined.

Lemma most_frequent_string_correct_witness :
  ∃ sl1 r c, smartlist_sort_strings four_strings (sl_of [1; 2; 3; 4]) = Ret sl1 ∧
    smartlist_get_most_frequent_string_ four_strings sl1 = Ret (r, c) ∧
    smartlist_get_most_frequent_string four_strings sl1 = Ret r ∧
    most_frequent four_keys [1; 2; 3; 4] r c.
Proof.
  apply most_frequent_string_correct.
  - apply repr_of. simpl. lia.
  - discriminate.
  - apply (bool_decide_unpack _). vm_compute. exact I.
  - exact four_strings_at.
Defined.

Example frequent_run :
  (sl ← smartlist_sort_strings four_strings (sl_of [1; 2; 3; 4]);
   smartlist_get_most_frequent_string_ four_strings sl) = Ret (1, 2).
Proof. vm_compute. reflexivity. Qed.
