(* ===== verification/SmartlistText.v ===== *)
(** * Smartlists of strings (wpa_cli_oper/smartlist.c)

    The functions that look at the strings behind the pointers, split a text
    into a list of new strings and join a list into one.  New strings live
    where [malloc] puts them: any address that holds nothing. *)

From stdpp Require Import fin_sets.
From S2P Require Import Prelude CString Bitarray Compat Smartlist SmartlistOrder.

Class Malloc := malloc : gset Z → Z.
Class MallocOk `{Malloc} : Prop := malloc_fresh X : malloc X ∉ X ∧ malloc X ≠ NULL.

#[export] Instance some_malloc : Malloc | 10 := λ X, fresh (X ∪ {[NULL]}).
#[export] Instance some_malloc_ok : MallocOk (H := some_malloc).
Proof.
  intros X. unfold malloc, some_malloc. pose proof (is_fresh (X ∪ {[NULL]})). set_solver.
Qed.

(** A block that holds [s] and its terminator. *)
Definition new_str `{Malloc} (h : strheap) (s : str) : Z * strheap :=
  let p := malloc (dom h) in (p, <[p := s]> h).

(** ** Looking for strings *)

Definition smartlist_contains_string (h : strheap) (sl : option smartlist) (element : str)
    : outcome Z :=
  match sl with
  | None => Ret 0
  | Some sl =>
      r ← find_loop (loop_fuel sl) (λ p, s ← load_str h p; Ret (strcmp s element =? 0)) sl 0;
      Ret (found r)
  end.

Definition smartlist_string_pos (h : strheap) (sl : option smartlist) (element : str)
    : outcome Z :=
  match sl with
  | None => Ret (-1)
  | Some sl =>
      r ← find_loop (loop_fuel sl) (λ p, s ← load_str h p; Ret (strcmp s element =? 0)) sl 0;
      Ret (match r with Some i => i | None => -1 end)
  end.

Definition smartlist_contains_string_case (h : strheap) (sl : option smartlist)
    (element : str) : outcome Z :=
  match sl with
  | None => Ret 0
  | Some sl =>
      r ← find_loop (loop_fuel sl) (λ p, s ← load_str h p; Ret (strcasecmp_eq s element)) sl 0;
      Ret (found r)
  end.

(** [memcmp] of [len] bytes of blocks of memory. *)
Definition memcmp_eq (a b : list Z) (len : Z) : outcome bool :=
  if (0 <=? len) && (len <=? strlen a) && (len <=? strlen b)
  then Ret (bool_decide (take (Z.to_nat len) a = take (Z.to_nat len) b))
  else UB "memcmp out of bounds".

Definition smartlist_contains_buf (blocks : gmap Z (list Z)) (sl : option smartlist)
    (element : list Z) (len : Z) : outcome Z :=
  match sl with
  | None => Ret 0
  | Some sl =>
      r ← find_loop (loop_fuel sl)
            (λ p, s ← load_str blocks p; memcmp_eq s element len) sl 0;
      Ret (found r)
  end.

(** The shared loop of the two comparisons of lists: the first index at which
    the elements differ ends it. *)
Fixpoint lists_eq_loop (fuel : nat) (differ : Z → Z → outcome bool) (sl1 sl2 : smartlist)
    (i len : Z) : outcome Z :=
  match fuel with
  | O => OutOfFuel
  | S fuel' =>
      if i <? len then
        cp1 ← smartlist_get sl1 i;
        cp2 ← smartlist_get sl2 i;
        d ← differ cp1 cp2;
        if (d : bool) then Ret 0 else lists_eq_loop fuel' differ sl1 sl2 (i + 1) len
      else Ret 1
  end.

Definition lists_eq (differ : Z → Z → outcome bool) (sl1 sl2 : option smartlist)
    : outcome Z :=
  match sl1, sl2 with
  | None, None => Ret 1
  | None, Some _ => Ret 0
  | Some _, None => Ret 0
  | Some sl1, Some sl2 =>
      if negb (smartlist_len sl1 =? smartlist_len sl2) then Ret 0
      else lists_eq_loop (loop_fuel sl1) differ sl1 sl2 0 (num_used sl1)
  end.

Definition smartlist_strings_eq (h : strheap) : option smartlist → option smartlist → outcome Z :=
  lists_eq (λ cp1 cp2, c ← compare_string_ptrs_ h cp1 cp2; Ret (negb (c =? 0))).

Definition smartlist_ints_eq (ints : gmap Z Z) : option smartlist → option smartlist → outcome Z :=
  lists_eq (λ cp1 cp2, a ← need "no int" (ints !! cp1); b ← need "no int" (ints !! cp2);
                       Ret (negb (a =? b))).

(** ** Removing a string *)

Fixpoint string_remove_loop (fuel : nat) (h : strheap) (sl : smartlist) (element : str)
    (i : Z) : outcome (strheap * smartlist) :=
  match fuel with
  | O => OutOfFuel
  | S fuel' =>
      if i <? num_used sl then
        p ← smartlist_get sl i;
        s ← load_str h p;
        if strcmp element s =? 0 then
          h' ← free h p;
          sl' ← swap_out sl i;
          string_remove_loop fuel' h' sl' element (i - 1 + 1)
        else string_remove_loop fuel' h sl element (i + 1)
      else Ret (h, sl)
  end.

Definition smartlist_string_remove (h : strheap) (sl : smartlist) (element : str)
    : outcome (strheap * smartlist) :=
  string_remove_loop (loop_fuel sl) h sl element 0.

(** ** Splitting *)

Definition SPLIT_SKIP_SPACE : Z := 1.
Definition SPLIT_IGNORE_BLANK : Z := 2.
Definition SPLIT_STRIP_SPACE : Z := 4.

Definition flag (flags bit : Z) : bool := negb (Z.land flags bit =? 0).

(** [while(SMP_ISSPACE( *cp)) ++cp]: the rest of the text. *)
Fixpoint skip_spaces (cp : str) : str :=
  match cp with c :: cp' => if SMP_ISSPACE c then skip_spaces cp' else cp | [] => [] end.

Definition is_tab_or_space (c : Z) : bool := (c =? TAB) || (c =? SP).

(** How far [end] is from [cp] when there is no separator string. *)
Fixpoint blank_pos (cp : str) : nat :=
  match cp with
  | [] => O
  | c :: cp' => if is_tab_or_space c then O else S (blank_pos cp')
  end.

Fixpoint skip_blanks (cp : str) : str :=
  match cp with c :: cp' => if is_tab_or_space c then skip_blanks cp' else cp | [] => [] end.

Definition piece_end (cp : str) (sep : option str) (n max : Z) : nat :=
  if (0 <? max) && (n =? max - 1) then length cp
  else match sep with
       | Some sep => match strstr cp sep with Some i => i | None => length cp end
       | None => blank_pos cp
       end.

Definition piece_next (cp : str) (sep : option str) (end_ : nat) : option str :=
  match drop end_ cp with
  | [] => None
  | _ :: after =>
      Some (match sep with
            | Some sep => drop (end_ + length sep) cp
            | None => skip_blanks after
            end)
  end.

(** [while(end > cp && SMP_ISSPACE( *(end-1))) --end] *)
Fixpoint trim_end (cp : str) (end_ : nat) : nat :=
  match end_ with
  | O => O
  | S k => match cp !! k with
           | Some c => if SMP_ISSPACE c then trim_end cp k else end_
           | None => end_
           end
  end.

Definition piece_string (cp : str) (end_ : nat) (flags : Z) : outcome str :=
  let string := smp_strndup cp end_ in
  string ← (if flag flags SPLIT_SKIP_SPACE then smp_strstrip string (lit " ")
            else Ret string);
  buf_str string 0.

Section Split.
Context `{Malloc}.

Fixpoint split_loop (fuel : nat) (h : strheap) (sl : smartlist) (cp : str)
    (sep : option str) (flags max n : Z) : outcome (Z * strheap * smartlist) :=
  match fuel with
  | O => OutOfFuel
  | S fuel' =>
      let cp := if flag flags SPLIT_SKIP_SPACE then skip_spaces cp else cp in
      let end_ := piece_end cp sep n max in
      let next := piece_next cp sep end_ in
      let end_ := if flag flags SPLIT_SKIP_SPACE then trim_end cp end_ else end_ in
      '(h, sl, n) ←
        (if negb (Nat.eqb end_ 0) || negb (flag flags SPLIT_IGNORE_BLANK) then
           s ← piece_string cp end_ flags;
           let '(string, h) := new_str h s in
           sl ← smartlist_add sl string;
           n ← int_chk (n + 1);
           Ret (h, sl, n)
         else Ret (h, sl, n));
      match next with
      | None => Ret (n, h, sl)
      | Some cp => split_loop fuel' h sl cp sep flags max n
      end
  end.

(** The number of pieces, the heap with the new strings and the list. *)
Definition smartlist_split_string (h : strheap) (sl : smartlist) (text : str)
    (sep : option str) (flags max : Z) : outcome (Z * strheap * smartlist) :=
  split_loop (S (length text)) h sl text sep flags max 0.

(** ** Joining *)

Fixpoint join_len_loop (fuel : nat) (h : strheap) (sl : smartlist) (i join_len n : Z)
    : outcome Z :=
  match fuel with
  | O => OutOfFuel
  | S fuel' =>
      if i <? num_used sl then
        p ← smartlist_get sl i;
        s ← load_str h p;
        let n := u64 (n + strlen s) in
        let n := if i + 1 <? num_used sl then u64 (n + join_len) else n in
        join_len_loop fuel' h sl (i + 1) join_len n
      else Ret n
  end.

(** [for(src=...;*src;) *dst++=*src++;] *)
Fixpoint copy_chars (r : buf) (dst : Z) (src : str) : outcome (buf * Z) :=
  match src with
  | [] => Ret (r, dst)
  | c :: src' => r' ← buf_set r dst c; copy_chars r' (dst + 1) src'
  end.

(** [memcpy(dst,join,join_len); dst+=join_len;] *)
Definition copy_join (r : buf) (dst : Z) (join : list Z) (join_len : Z) : outcome (buf * Z) :=
  if (0 <=? join_len) && (join_len <=? strlen join) then
    r' ← buf_write r dst (take (Z.to_nat join_len) join); Ret (r', dst + join_len)
  else UB "memcpy out of bounds".

Fixpoint join_copy_loop (fuel : nat) (h : strheap) (sl : smartlist) (i : Z)
    (join : list Z) (join_len : Z) (r : buf) (dst : Z) : outcome (buf * Z) :=
  match fuel with
  | O => OutOfFuel
  | S fuel' =>
      if i <? num_used sl then
        p ← smartlist_get sl i;
        s ← load_str h p;
        '(r, dst) ← copy_chars r dst s;
        '(r, dst) ← (if i + 1 <? num_used sl then copy_join r dst join join_len
                     else Ret (r, dst));
        join_copy_loop fuel' h sl (i + 1) join join_len r dst
      else Ret (r, dst)
  end.

(** The new block and the value stored in [*len_out]. *)
Definition smartlist_join_strings2 (h : strheap) (sl : smartlist) (join : list Z)
    (join_len terminate : Z) : outcome (buf * Z) :=
  n ← join_len_loop (loop_fuel sl) h sl 0 join_len
        (if negb (terminate =? 0) then join_len else 0);
  '(r, dst) ← join_copy_loop (loop_fuel sl) h sl 0 join join_len (uninit (u64 (n + 1))) 0;
  '(r, dst) ← (if negb (terminate =? 0) then copy_join r dst join join_len
               else Ret (r, dst));
  r ← buf_set r dst 0;
  Ret (r, dst).

Definition smartlist_join_strings (h : strheap) (sl : smartlist) (join : str)
    (terminate : Z) : outcome (buf * Z) :=
  smartlist_join_strings2 h sl (join ++ [0]) (strlen join) terminate.

End Split.

Example split_run :
  ('(n, h, sl) ← smartlist_split_string ∅ smartlist_new (lit "a, b,,c") (Some (lit ",")) 3 0;
   '(r, len) ← smartlist_join_strings h sl (lit "-") 1;
   t ← buf_str r 0;
   Ret (n, t, len)) = Ret (3, lit "a-b-c-", 6).
Proof. vm_compute. reflexivity. Qed.

(** ** Joining, on the strings *)

Fixpoint joined (j : list Z) (ss : list str) : list Z :=
  match ss with
  | [] => []
  | s :: [] => s
  | s :: ss' => s ++ j ++ joined j ss'
  end.

Lemma joined_cons j s t ss : joined j (s :: t :: ss) = s ++ j ++ joined j (t :: ss).
Proof. done. Qed.

(** The strings behind a list of pointers. *)
Definition strings_of (h : strheap) (xs : list Z) (ss : list str) : Prop :=
  Forall2 (λ p s, h !! p = Some s) xs ss.

Lemma buf_write_app_inv b i s t b' :
  0 ≤ i → buf_write b i (s ++ t) = Ret b' →
  ∃ b1, buf_write b i s = Ret b1 ∧ buf_write b1 (i + strlen s) t = Ret b'.
Proof. intros Hi H. rewrite <- buf_write_app in H by done. by apply outcome_bind_inv in H. Qed.

Lemma copy_chars_write r dst s r' :
  0 ≤ dst → buf_write r dst s = Ret r' → copy_chars r dst s = Ret (r', dst + strlen s).
Proof.
  revert r dst. induction s as [|c s IH]; intros r dst Hd H; simpl.
  - apply buf_write_Ret in H as (_ & _ & ->). unfold strlen. simpl.
    by rewrite Nat.add_0_r, Z.add_0_r, take_drop.
  - apply (buf_write_app_inv _ _ [c]) in H as (r1 & Hc & H); [|done].
    change (buf_set r dst c = Ret r1) in Hc. rewrite Hc. ret_simpl.
    change (strlen [c]) with 1 in H.
    rewrite (IH r1 (dst + 1)) by (lia || done). unfold strlen. simpl. do 2 f_equal. lia.
Qed.

Lemma copy_join_write r dst join jl r' :
  0 ≤ jl ≤ strlen join → buf_write r dst (take (Z.to_nat jl) join) = Ret r' →
  copy_join r dst join jl = Ret (r', dst + jl).
Proof.
  intros [H1 H2] H. unfold copy_join.
  rewrite (proj2 (Z.leb_le 0 jl)), (proj2 (Z.leb_le jl _)) by done. simpl. by rewrite H.
Qed.

(** What both loops of [smartlist_join_strings2] see at one element. *)
Lemma join_at h sl A x B s ss :
  repr sl (A ++ x :: B) → strings_of h (x :: B) (s :: ss) →
  (strlen A <? num_used sl) = true ∧ smartlist_get sl (strlen A) = Ret x ∧
  load_str h x = Ret s ∧ strlen A + 1 = strlen (A ++ [x]) ∧
  repr sl ((A ++ [x]) ++ B) ∧ strings_of h B ss ∧
  (strlen A + 1 <? num_used sl) = match ss with [] => false | _ :: _ => true end.
Proof.
  intros Hr Hss. apply Forall2_cons in Hss as [Hs Hss].
  destruct (repr_get_mid _ _ _ _ Hr) as [-> ->]. unfold load_str. rewrite Hs.
  rewrite <- app_assoc. split_and!; try done.
  - unfold strlen. by rewrite length_snoc_Z.
  - rewrite (repr_num_used _ _ Hr). unfold strlen. rewrite length_app. simpl.
    rewrite (Forall2_length _ _ _ Hss). destruct ss; simpl.
    + apply Z.ltb_ge. lia.
    + apply Z.ltb_lt. lia.
Qed.

Lemma repr_end sl A : repr sl (A ++ []) → (strlen A <? num_used sl) = false.
Proof. rewrite app_nil_r. intros Hr. rewrite (repr_num_used _ _ Hr). apply Z.ltb_irrefl. Qed.

Lemma join_len_loop_spec h sl j jl fuel A B ss n :
  repr sl (A ++ B) → strings_of h B ss → (length B < fuel)%nat → strlen j = jl →
  0 ≤ n → n + strlen (joined j ss) < 18446744073709551616 →
  join_len_loop fuel h sl (strlen A) jl n = Ret (n + strlen (joined j ss)).
Proof.
  intros Hr Hss Hf Hj Hn Hlt. revert fuel A B n Hr Hss Hf Hn Hlt.
  induction ss as [|s ss IH]; intros [|fuel] A B n Hr Hss Hf Hn Hlt; try lia; cbn [join_len_loop].
  - apply Forall2_nil_inv_r in Hss as ->. rewrite (repr_end _ _ Hr).
    unfold strlen. simpl. f_equal. lia.
  - destruct B as [|x B]; [by apply Forall2_nil_cons_inv in Hss|].
    destruct (join_at _ _ _ _ _ _ _ Hr Hss) as (-> & -> & Hs & Hl & Hr' & Hss' & Hlast).
    ret_simpl. rewrite Hs. ret_simpl. rewrite Hlast, Hl. simpl in Hf.
    pose proof (strlen_nonneg s). unfold u64.
    assert (Ht : strlen (joined j (s :: ss)) = strlen s + match ss with
                   [] => 0 | _ :: _ => strlen j + strlen (joined j ss) end).
    { destruct ss; [simpl; lia|]. by rewrite joined_cons, !strlen_app. }
    rewrite Ht in *. destruct ss as [|t ss]; cbn match.
    + rewrite Z.mod_small by lia.
      rewrite (IH fuel _ B) by (done || lia || (simpl; unfold strlen in *; simpl; lia)).
      change (strlen (joined j [])) with 0. f_equal. lia.
    + pose proof (strlen_nonneg (joined j (t :: ss))). pose proof (strlen_nonneg j).
      rewrite (Z.mod_small (n + _)), Z.mod_small by lia.
      rewrite (IH fuel _ B) by (done || lia). f_equal. lia.
Qed.

Lemma join_copy_loop_spec h sl join jl fuel A B ss r dst r' :
  repr sl (A ++ B) → strings_of h B ss → (length B < fuel)%nat → 0 ≤ jl ≤ strlen join →
  0 ≤ dst → buf_write r dst (joined (take (Z.to_nat jl) join) ss) = Ret r' →
  join_copy_loop fuel h sl (strlen A) join jl r dst
  = Ret (r', dst + strlen (joined (take (Z.to_nat jl) join) ss)).
Proof.
  set (j := take (Z.to_nat jl) join). intros Hr Hss Hf Hj Hd Hw.
  assert (Hjl : strlen j = jl) by (unfold j, strlen in *; rewrite length_take; lia).
  revert fuel A B r dst Hr Hss Hf Hd Hw.
  induction ss as [|s ss IH]; intros [|fuel] A B r dst Hr Hss Hf Hd Hw; try lia;
    cbn [join_copy_loop].
  - apply Forall2_nil_inv_r in Hss as ->. rewrite (repr_end _ _ Hr).
    apply (copy_chars_write r dst [] r' Hd Hw).
  - destruct B as [|x B]; [by apply Forall2_nil_cons_inv in Hss|].
    destruct (join_at _ _ _ _ _ _ _ Hr Hss) as (-> & -> & Hs & Hl & Hr' & Hss' & Hlast).
    ret_simpl. rewrite Hs. ret_simpl. rewrite Hlast, Hl. simpl in Hf.
    destruct ss as [|t ss].
    + simpl in Hw |- *. rewrite (copy_chars_write _ _ _ _ Hd Hw). ret_simpl. cbn match.
      destruct B; [|by apply Forall2_cons_nil_inv in Hss'].
      destruct fuel; [simpl in Hf; lia|]. cbn [join_copy_loop].
      by rewrite (repr_end _ _ Hr').
    + rewrite joined_cons in *.
      apply buf_write_app_inv in Hw as (r1 & Hw1 & Hw); [|done].
      apply buf_write_app_inv in Hw as (r2 & Hw2 & Hw); [|unfold strlen; lia].
      rewrite (copy_chars_write _ _ _ _ Hd Hw1). ret_simpl. cbn match.
      rewrite (copy_join_write _ _ _ _ _ Hj Hw2). ret_simpl. cbn match.
      rewrite Hjl in Hw. rewrite (IH fuel _ B _ _ Hr' Hss' ltac:(lia)); [|unfold strlen; lia|done].
      do 2 f_equal. unfold strlen in *. rewrite !length_app. lia.
Qed.

(** The block is exactly as long as the text and its terminator. *)
Lemma join_strings2_spec h sl join jl terminate xs ss :
  repr sl xs → strings_of h xs ss → 0 ≤ jl ≤ strlen join →
  let j := take (Z.to_nat jl) join in
  let text := joined j ss ++ (if terminate =? 0 then [] else j) in
  strlen text + 1 < 18446744073709551616 →
  smartlist_join_strings2 h sl join jl terminate = Ret (cells (text ++ [0]), strlen text).
Proof.
  intros Hr Hss Hj j text Hlt. unfold smartlist_join_strings2. rewrite (repr_fuel _ _ Hr).
  assert (Hjl : strlen j = jl) by (unfold j, strlen in *; rewrite length_take; lia).
  assert (Hlen : strlen text = (if negb (terminate =? 0) then jl else 0) + strlen (joined j ss)).
  { unfold text, strlen in *. rewrite length_app. destruct (terminate =? 0); simpl; lia. }
  rewrite (join_len_loop_spec h sl j jl (S (length xs)) [] xs ss); try done; [|lia| |].
  2:{ destruct (terminate =? 0); simpl; lia. }
  2:{ lia. }
  ret_simpl. rewrite <- Hlen. unfold u64. rewrite Z.mod_small
    by (unfold strlen in *; lia).
  set (r := uninit (strlen text + 1)).
  destruct (buf_write_defined r 0 (text ++ [0])) as [r' Hw]; [lia| |].
  { unfold r, uninit, strlen. rewrite length_replicate, length_app. simpl. lia. }
  assert (Hr' : r' = cells (text ++ [0])).
  { apply buf_write_Ret in Hw as (_ & _ & ->). simpl.
    rewrite drop_ge, app_nil_r; [done|].
    unfold r, uninit, strlen. rewrite length_replicate, length_app. simpl. lia. }
  apply buf_write_app_inv in Hw as (r2 & Hw2 & Hw3); [|lia]. rewrite Z.add_0_l in Hw3.
  unfold text in Hw2. apply buf_write_app_inv in Hw2 as (r1 & Hw1 & Hw2); [|lia].
  change 0 with (strlen []) at 3.
  rewrite (join_copy_loop_spec h sl join jl (S (length xs)) [] xs ss r 0 r1); try done; [|lia].
  ret_simpl. cbn match. fold j. rewrite Z.add_0_l in Hw2 |- *.
  assert (Hend : (if negb (terminate =? 0) then copy_join r1 (strlen (joined j ss)) join jl
                  else Ret (r1, strlen (joined j ss))) = Ret (r2, strlen text)).
  { rewrite Hlen. destruct (terminate =? 0); simpl.
    - apply (copy_chars_write _ _ []) in Hw2; [|unfold strlen; lia]. simpl in Hw2.
      injection Hw2 as <- . done.
    - rewrite (Z.add_comm jl). by apply copy_join_write. }
  rewrite Hend. ret_simpl. cbn match. unfold buf_set. rewrite Hw3. ret_simpl. by rewrite Hr'.
Qed.

(** ** Splitting, on the strings *)

Lemma is_prefix_app p s t : is_prefix p s = true → is_prefix p (s ++ t) = true.
Proof. rewrite !is_prefix_spec. intros [u ->]. exists (u ++ t). by rewrite app_assoc. Qed.

(** A text at the first occurrence of the separator: the piece before it does
    not contain the separator. *)
Lemma strstr_split cp sep i :
  sep ≠ [] → strstr cp sep = Some i →
  cp = take i cp ++ sep ++ drop (i + length sep) cp ∧ (i < length cp)%nat ∧
  strstr (take i cp) sep = None.
Proof.
  intros Hne (Hp & Hi & Hfirst)%strstr_Some. pose proof (is_prefix_length _ _ Hp) as Hl.
  rewrite length_drop in Hl. assert (0 < length sep)%nat by (destruct sep; [done|simpl; lia]).
  split_and!; [|lia|].
  - apply is_prefix_spec in Hp as [t Ht].
    rewrite <- drop_drop, Ht, drop_app_length, <- Ht. by rewrite take_drop.
  - destruct (strstr (take i cp) sep) as [k|] eqn:E; [|done].
    apply strstr_Some in E as (Hk & _ & _). pose proof (is_prefix_length _ _ Hk) as Hlk.
    rewrite length_drop, length_take in Hlk.
    exfalso. cut (is_prefix sep (drop k cp) = true); [by rewrite Hfirst by lia|].
    rewrite <- (take_drop i cp). rewrite drop_app_le by (rewrite length_take; lia).
    by apply is_prefix_app.
Qed.

Lemma piece_string_plain cp end_ flags :
  flag flags SPLIT_SKIP_SPACE = false → cstring cp → (end_ ≤ length cp)%nat →
  piece_string cp end_ flags = Ret (take end_ cp).
Proof.
  intros Hfl Hc Hle. unfold piece_string. rewrite Hfl. ret_simpl.
  unfold smp_strndup, buf_str. replace (end_ - length cp)%nat with 0%nat by lia. simpl.
  unfold cells. rewrite fmap_app. apply cells_str_app. by apply Forall_take.
Qed.

Section SplitSpec.
Context `{MallocOk}.

(** Allocating behind a list of distinct strings. *)
Lemma new_str_fresh h s :
  let '(p, h') := new_str h s in
  h !! p = None ∧ p ≠ NULL ∧ h' !! p = Some s ∧ h ⊆ h'.
Proof.
  unfold new_str. destruct (malloc_fresh (dom h)) as [Hf Hn].
  apply not_elem_of_dom in Hf. split_and!; try done.
  - by rewrite lookup_insert_eq.
  - by apply insert_subseteq.
Qed.

(** What splitting leaves: new distinct pointers to the pieces, in order. *)
Record split_result (h h' : strheap) (ptrs : list Z) (ss : list str) : Prop := {
  sr_strings : strings_of h' ptrs ss;
  sr_new : Forall (λ p, h !! p = None ∧ p ≠ NULL) ptrs;
  sr_distinct : NoDup ptrs;
  sr_keeps : h ⊆ h';
}.

Lemma split_result_cons h p s h1 h' ptrs ss :
  new_str h s = (p, h1) → split_result h1 h' ptrs ss →
  split_result h h' (p :: ptrs) (s :: ss).
Proof.
  intros Hnew [Hs Hn Hd Hk]. pose proof (new_str_fresh h s) as Hf. rewrite Hnew in Hf.
  destruct Hf as (Hp & Hp0 & Hps & Hsub). split.
  - constructor; [|done]. by eapply lookup_weaken.
  - constructor; [done|]. eapply Forall_impl; [exact Hn|]. intros q [Hq ?]. split; [|done].
    by eapply lookup_weaken_None.
  - constructor; [|done]. intros Hin. rewrite Forall_forall in Hn.
    destruct (Hn p Hin) as [? _]. congruence.
  - by transitivity h1.
Qed.

Lemma split_loop_spec fuel h sl xs cp sep flags max n :
  flag flags SPLIT_SKIP_SPACE = false → flag flags SPLIT_IGNORE_BLANK = false → max ≤ 0 →
  sep ≠ [] → cstring cp → repr sl xs → (length cp < fuel)%nat →
  strlen xs + Z.of_nat fuel ≤ 1073741824 → 0 ≤ n → n + Z.of_nat fuel ≤ INT_MAX →
  ∃ h' sl' ptrs ss,
    split_loop fuel h sl cp (Some sep) flags max n = Ret (n + strlen ptrs, h', sl') ∧
    repr sl' (xs ++ ptrs) ∧ split_result h h' ptrs ss ∧
    joined sep ss = cp ∧ ss ≠ [] ∧ Forall (λ s, strstr s sep = None) ss.
Proof.
  intros Hsk Hib Hmax Hsep. revert h sl xs cp n.
  induction fuel as [|fuel IH]; intros h sl xs cp n Hc Hr Hf Hxs Hn Hint; [lia|].
  cbn [split_loop]. rewrite Hsk, Hib, orb_true_r.
  assert (He : ∃ e, piece_end cp (Some sep) n max = e ∧ (e ≤ length cp)%nat ∧
    (strstr cp sep = Some e ∨ strstr cp sep = None ∧ e = length cp)).
  { unfold piece_end. rewrite (proj2 (Z.ltb_ge 0 max)) by done. simpl.
    destruct (strstr cp sep) as [i|] eqn:E; [exists i|exists (length cp); by auto].
    apply strstr_split in E as (_ & ? & _); [|done]. eauto with lia. }
  destruct He as (e & -> & Hle & He). rewrite piece_string_plain by done. ret_simpl.
  destruct (new_str h (take e cp)) as [p h1] eqn:Hnew. cbn match.
  destruct (repr_add sl xs p Hr) as (sl1 & -> & Hr1 & _); [lia|]. ret_simpl.
  rewrite (proj2 (int_chk_Ret _ (n + 1))) by (unfold INT_MIN, INT_MAX in *; lia).
  ret_simpl. cbn match. unfold piece_next. destruct He as [He|[He ->]].
  - apply strstr_split in He as (Hcp & Hlt & Hnone); [|done].
    destruct (drop e cp) as [|c after] eqn:Ed.
    { apply (f_equal length) in Ed. rewrite length_drop in Ed. simpl in Ed. lia. }
    assert (0 < length sep)%nat by (destruct sep; [done|simpl; lia]).
    destruct (IH h1 sl1 (xs ++ [p]) (drop (e + length sep) cp) (n + 1))
      as (h' & sl' & ptrs & ss & -> & Hr' & Hsr & Hj & Hne & Hall);
      [by apply Forall_drop|done|rewrite length_drop; lia
      |rewrite strlen_app; unfold strlen in *; simpl; lia|lia|lia|].
    exists h', sl', (p :: ptrs), (take e cp :: ss).
    split; [do 3 f_equal; unfold strlen; simpl; lia|]. rewrite <- app_assoc in Hr'.
    split_and!; [done|by eapply split_result_cons| |done|by constructor].
    destruct ss as [|s ss]; [done|]. rewrite joined_cons, Hj. by symmetry.
  - rewrite drop_ge by done. rewrite take_ge in Hnew by done.
    exists h1, sl1, [p], [cp]. split_and!; [done|done| |done|done|by repeat constructor].
    eapply split_result_cons; [exact Hnew|]. by repeat constructor.
Qed.

End SplitSpec.

(** ** Looking and removing, on the strings *)

Lemma strings_of_lookup h xs ss i p s :
  strings_of h xs ss → xs !! i = Some p → ss !! i = Some s → h !! p = Some s.
Proof. intros Hss Hp Hs. by eapply (Forall2_lookup_lr _ _ _ _ _ _ Hss). Qed.

(** The string of each pointer as a function. *)
Definition string_at (h : strheap) (p : Z) : str := default [] (h !! p).

Lemma strings_of_at h xs ss :
  strings_of h xs ss → strings_at h (string_at h) xs ∧ string_at h <$> xs = ss.
Proof.
  unfold strings_at, string_at.
  induction 1 as [|p s xs ss Hp Hss [IH1 IH2]]; simpl.
  - split; [|done]. intros p Hp. by apply not_elem_of_nil in Hp.
  - rewrite Hp. simpl. split; [|by f_equal]. intros q [->|Hq]%elem_of_cons; [by rewrite Hp|auto].
Qed.

Lemma find_string_spec h sl xs ss element :
  repr sl xs → strings_of h xs ss →
  ∃ r, find_loop (loop_fuel sl) (λ p, s ← load_str h p; Ret (strcmp s element =? 0)) sl 0
       = Ret r ∧
    match r with
    | Some i => 0 ≤ i ∧ ss !! Z.to_nat i = Some element ∧
        ∀ k, Z.of_nat k < i → ss !! k ≠ Some element
    | None => element ∉ ss
    end.
Proof.
  intros Hr Hss. pose proof (strings_of_at h xs ss Hss) as [Hat Hf].
  rewrite (repr_fuel _ _ Hr).
  destruct (find_loop_spec (S (length xs)) (λ p, s ← load_str h p; Ret (strcmp s element =? 0))
    (λ p, strcmp (string_at h p) element =? 0) sl [] xs) as (r & Hl & Hres); [done|lia| |].
  { intros p Hp. unfold load_str. by rewrite (Hat p Hp). }
  exists r. split; [exact Hl|]. simpl in Hres. subst ss. destruct r as [i|].
  - destruct Hres as (H0 & p & Hp & Hq & Hfirst). zbool. apply strcmp_eq in Hq.
    split_and!; [done|rewrite list_lookup_fmap, Hp; simpl; by rewrite Hq|].
    intros k Hk E. rewrite list_lookup_fmap in E. destruct (xs !! k) as [q|] eqn:Eq; [|done].
    simpl in E. injection E as E. specialize (Hfirst k q ltac:(unfold strlen; simpl; lia) Eq). zbool.
    rewrite strcmp_eq in Hfirst. done.
  - intros (p & -> & Hp)%list_elem_of_fmap. specialize (Hres p Hp). zbool.
    by rewrite strcmp_eq in Hres.
Qed.

Lemma lists_eq_loop_spec {V} `{EqDecision V} (f : Z → V) differ fuel sl1 sl2 A1 A2 B1 B2 :
  repr sl1 (A1 ++ B1) → repr sl2 (A2 ++ B2) → length A1 = length A2 →
  length B1 = length B2 → (length B1 < fuel)%nat →
  (∀ a b, a ∈ B1 → b ∈ B2 → differ a b = Ret (negb (bool_decide (f a = f b)))) →
  lists_eq_loop fuel differ sl1 sl2 (strlen A1) (strlen (A1 ++ B1))
  = Ret (b2z (bool_decide (f <$> B1 = f <$> B2))).
Proof.
  revert A1 A2 B1 B2.
  induction fuel as [|fuel IH]; intros A1 A2 B1 B2 Hr1 Hr2 HA HB Hf Hd; [lia|].
  cbn [lists_eq_loop]. destruct B1 as [|x B1], B2 as [|y B2]; try done.
  - by rewrite app_nil_r, Z.ltb_irrefl.
  - destruct (repr_get_mid _ _ _ _ Hr1) as [-> Hlt].
    rewrite <- (repr_num_used _ _ Hr1), Hlt, (repr_num_used _ _ Hr1).
    assert (HA' : strlen A1 = strlen A2) by (unfold strlen; by rewrite HA).
    destruct (repr_get_mid _ _ _ _ Hr2) as [Hy _]. rewrite HA', Hy, <- HA'. ret_simpl.
    rewrite Hd by left. ret_simpl. rewrite !fmap_cons. case_bool_decide as E; cbn [negb].
    + replace (strlen A1 + 1) with (strlen (A1 ++ [x])) by (unfold strlen; by rewrite length_snoc_Z).
      rewrite (cons_middle x A1 B1), app_assoc in Hr1 |- *.
      rewrite (cons_middle y), app_assoc in Hr2.
      rewrite (IH _ (A2 ++ [y]) B1 B2); try done.
      * f_equal. f_equal. apply bool_decide_ext. rewrite E. split; [by intros ->|by intros [= ?]].
      * rewrite !length_app. simpl. lia.
      * simpl in HB. lia.
      * simpl in Hf. lia.
      * intros a b Ha Hb. apply Hd; by right.
    + rewrite bool_decide_eq_false_2; [done|]. congruence.
Qed.

Lemma lists_eq_spec {V} `{EqDecision V} (f : Z → V) differ sl1 sl2 xs ys :
  repr sl1 xs → repr sl2 ys →
  (∀ a b, a ∈ xs → b ∈ ys → differ a b = Ret (negb (bool_decide (f a = f b)))) →
  lists_eq differ (Some sl1) (Some sl2) = Ret (b2z (bool_decide (f <$> xs = f <$> ys))).
Proof.
  intros Hr1 Hr2 Hd. unfold lists_eq, smartlist_len.
  rewrite (repr_num_used _ _ Hr1), (repr_num_used _ _ Hr2), (repr_fuel _ _ Hr1).
  destruct (Z.eqb_spec (strlen xs) (strlen ys)) as [E|E]; unfold strlen in E; cbn [negb].
  - by apply (lists_eq_loop_spec f differ (S (length xs)) sl1 sl2 [] [] xs ys);
      (done || lia || apply Nat2Z.inj).
  - rewrite bool_decide_eq_false_2; [done|]. intros Heq%(f_equal length).
    rewrite !length_fmap in Heq. lia.
Qed.

Lemma string_remove_loop_spec key element fuel h sl A B :
  repr sl (A ++ B) → (length B < fuel)%nat → NoDup B → NULL ∉ B → strings_at h key B →
  ∃ h' sl' C, string_remove_loop fuel h sl element (strlen A) = Ret (h', sl') ∧
    repr sl' (A ++ C) ∧ C ≡ₚ List.filter (λ p, negb (bool_decide (key p = element))) B ∧
    ∀ p, h' !! p = if decide (p ∈ B ∧ key p = element) then None else h !! p.
Proof.
  revert h sl A B. induction fuel as [|fuel IH]; intros h sl A B Hr Hf Hnd Hnull Hh; [lia|].
  cbn [string_remove_loop]. destruct B as [|x B].
  - rewrite (repr_end _ _ Hr). exists h, sl, []. by split_and!.
  - destruct (repr_get_mid _ _ _ _ Hr) as [-> ->]. ret_simpl. unfold load_str.
    rewrite (Hh x) by left. ret_simpl. simpl in Hf. cbn [List.filter].
    apply NoDup_cons in Hnd as [Hx Hnd]. apply not_elem_of_cons in Hnull as [Hx0 Hnull].
    assert (HhB : strings_at h key B) by (intros p Hp; apply Hh; by right).
    destruct (Z.eqb_spec (strcmp element (key x)) 0) as [E|E]; rewrite strcmp_eq in E.
    + rewrite bool_decide_eq_true_2 by done. cbn [negb].
      rewrite (free_present h x (key x)) by (congruence || (apply Hh; left)). ret_simpl.
      destruct (repr_swap_out _ _ _ _ Hr) as (sl1 & -> & Hr1 & _). ret_simpl.
      rewrite Z.sub_add.
      destruct (IH (delete x h) sl1 A (rot B) Hr1) as (h' & sl' & C & Hl & Hr' & Hp & Hh').
      * rewrite rot_perm. lia.
      * by rewrite rot_perm.
      * by rewrite rot_perm.
      * intros p Hp. rewrite rot_perm in Hp.
        rewrite lookup_delete_ne by (by intros ->). by apply HhB.
      * exists h', sl', C. split_and!; [done|done|by rewrite Hp, rot_perm|].
        intros p. rewrite Hh'. destruct (decide (p = x)) as [->|Hne].
        -- rewrite lookup_delete_eq, (decide_True (P := x ∈ x :: B ∧ _)); [by case_decide|].
           split; [left|done].
        -- rewrite lookup_delete_ne by done. apply decide_ext.
           rewrite rot_perm, elem_of_cons. naive_solver.
    + rewrite bool_decide_eq_false_2 by congruence. cbn [negb].
      rewrite cons_middle, app_assoc in Hr.
      destruct (IH h sl (A ++ [x]) B Hr) as (h' & sl' & C & Hl & Hr' & Hp & Hh');
        [lia|done..|].
      exists h', sl', (x :: C). rewrite <- app_assoc in Hr'.
      replace (strlen A + 1) with (strlen (A ++ [x])) by (unfold strlen; by rewrite length_snoc_Z).
      split_and!; [done|done|by f_equiv|]. intros p. rewrite Hh'. apply decide_ext.
      rewrite elem_of_cons. naive_solver.
Qed.

(** ** Properties *)

(** Splitting a text at a non-empty separator into a new list and joining
    the pieces with the same separator gives the text back, whatever [malloc]
    answers.  The pieces are new strings of their own, none contains the separator, there
    is at least one and the number returned is how many there are; the strings
    that were there are untouched. *)
Theorem split_join_roundtrip `{MallocOk} h text sep max :
  cstring text → cstring sep → sep ≠ [] → max ≤ 0 → strlen text < 1073741823 →
  ∃ n h' sl ptrs ss,
    smartlist_split_string h smartlist_new text (Some sep) 0 max = Ret (n, h', sl) ∧
    repr sl ptrs ∧ n = strlen ptrs ∧ 0 < n ∧ split_result h h' ptrs ss ∧
    Forall (λ s, strstr s sep = None) ss ∧
    smartlist_join_strings h' sl sep 0 = Ret (cells (text ++ [0]), strlen text).
Proof.
  intros Ht Hsep Hne Hmax Hlen. unfold smartlist_split_string.
  destruct (split_loop_spec (S (length text)) h smartlist_new [] text sep 0 max 0)
    as (h' & sl & ptrs & ss & Hs & Hr & Hsr & Hj & Hss & Hall); try done;
    [exact repr_new|lia|unfold strlen in *; simpl; lia
    |unfold strlen, INT_MAX in *; lia|].
  rewrite Z.add_0_l in Hs. exists (strlen ptrs), h', sl, ptrs, ss.
  pose proof (sr_strings _ _ _ _ Hsr) as Hstr.
  split_and!; try done.
  - apply Forall2_length in Hstr. unfold strlen. destruct ss; [done|]. simpl in Hstr. lia.
  - assert (Hjoin : take (Z.to_nat (strlen sep)) (sep ++ [0]) = sep).
    { unfold strlen. rewrite Nat2Z.id. apply take_app_length. }
    pose proof (join_strings2_spec h' sl (sep ++ [0]) (strlen sep) 0 ptrs ss Hr Hstr) as Hspec.
    simpl in Hspec. rewrite Hjoin, Hj, app_nil_r in Hspec. apply Hspec.
    + rewrite strlen_app. unfold strlen. simpl. lia.
    + lia.
Qed.

Lemma split_join_roundtrip_witness :
  ∃ n h' sl ptrs ss,
    smartlist_split_string ∅ smartlist_new (lit "ssid=home, psk=,x") (Some (lit ",")) 0 0
      = Ret (n, h', sl) ∧
    repr sl ptrs ∧ n = strlen ptrs ∧ 0 < n ∧ split_result ∅ h' ptrs ss ∧
    Forall (λ s, strstr s (lit ",") = None) ss ∧
    smartlist_join_strings h' sl (lit ",") 0
      = Ret (cells (lit "ssid=home, psk=,x" ++ [0]), strlen (lit "ssid=home, psk=,x")).
Proof.
  apply (split_join_roundtrip ∅ (lit "ssid=home, psk=,x") (lit ",") 0);
    first [discriminate | reflexivity | apply (bool_decide_unpack _); vm_compute; exact I].
Defined.

(** On a list of strings, [smartlist_contains_string] tells whether the
    text occurs, [smartlist_string_pos] gives its first position or -1, and
    [smartlist_strings_eq] tells whether two lists hold the same texts in the
    same order, whichever pointers they use. *)
Theorem string_queries_correct h sl sl2 xs ss ys ts element :
  repr sl xs → strings_of h xs ss → repr sl2 ys → strings_of h ys ts →
  smartlist_contains_string h (Some sl) element = Ret (b2z (bool_decide (element ∈ ss))) ∧
  (∃ i, smartlist_string_pos h (Some sl) element = Ret i ∧
     (i = -1 ∧ element ∉ ss ∨
      0 ≤ i ∧ ss !! Z.to_nat i = Some element ∧
        ∀ k, Z.of_nat k < i → ss !! k ≠ Some element)) ∧
  smartlist_strings_eq h (Some sl) (Some sl2) = Ret (b2z (bool_decide (ss = ts))).
Proof.
  intros Hr1 Hss Hr2 Hts.
  destruct (find_string_spec h sl xs ss element Hr1 Hss) as (r & Hl & Hres).
  unfold smartlist_contains_string, smartlist_string_pos, smartlist_strings_eq.
  rewrite Hl. ret_simpl. split_and!.
  - destruct r as [i|]; simpl; f_equal.
    + rewrite bool_decide_eq_true_2; [done|].
      destruct Hres as (_ & Hi & _). by eapply list_elem_of_lookup_2.
    + by rewrite bool_decide_eq_false_2.
  - destruct r as [i|]; eauto.
  - destruct (strings_of_at _ _ _ Hss) as [Hx <-], (strings_of_at _ _ _ Hts) as [Hy <-].
    apply (lists_eq_spec (string_at h)); [done|done|]. intros a b Ha Hb.
    unfold compare_string_ptrs_, load_str. rewrite (Hx a Ha), (Hy b Hb). ret_simpl.
    f_equal. f_equal. apply eq_true_iff_eq. by rewrite Z.eqb_eq, bool_decide_eq_true, strcmp_eq.
Qed.

Lemma string_queries_correct_witness :
  smartlist_contains_string four_strings (Some (sl_of [4; 3])) (lit "wlan0")
    = Ret (b2z (bool_decide (lit "wlan0" ∈ [lit "lo"; lit "wlan0"]))) ∧
  (∃ i, smartlist_string_pos four_strings (Some (sl_of [4; 3])) (lit "wlan0") = Ret i ∧
     (i = -1 ∧ lit "wlan0" ∉ [lit "lo"; lit "wlan0"] ∨
      0 ≤ i ∧ [lit "lo"; lit "wlan0"] !! Z.to_nat i = Some (lit "wlan0") ∧
        ∀ k, Z.of_nat k < i → [lit "lo"; lit "wlan0"] !! k ≠ Some (lit "wlan0"))) ∧
  smartlist_strings_eq four_strings (Some (sl_of [4; 3])) (Some (sl_of [4; 1]))
    = Ret (b2z (bool_decide ([lit "lo"; lit "wlan0"] = [lit "lo"; lit "wlan0"]))).
Proof.
  apply (string_queries_correct four_strings (sl_of [4; 3]) (sl_of [4; 1]) [4; 3]
    [lit "lo"; lit "wlan0"] [4; 1] [lit "lo"; lit "wlan0"]).
  - apply repr_of. simpl. lia.
  - repeat apply Forall2_cons_2; try apply Forall2_nil_2; reflexivity.
  - apply repr_of. simpl. lia.
  - repeat apply Forall2_cons_2; try apply Forall2_nil_2; reflexivity.
Defined.

(** [smartlist_string_remove] frees exactly the strings of the list that
    equal the text and keeps the others, in some order; on a list of distinct
    pointers it never looks at a string it has freed. *)
Theorem string_remove_correct h key sl xs element :
  repr sl xs → NoDup xs → NULL ∉ xs → strings_at h key xs →
  ∃ h' sl' ys, smartlist_string_remove h sl element = Ret (h', sl') ∧ repr sl' ys ∧
    ys ≡ₚ List.filter (λ p, negb (bool_decide (key p = element))) xs ∧
    ∀ p, h' !! p = if decide (p ∈ xs ∧ key p = element) then None else h !! p.
Proof.
  intros Hr Hnd Hnull Hh. unfold smartlist_string_remove. rewrite (repr_fuel _ _ Hr).
  apply (string_remove_loop_spec key element (S (length xs)) h sl [] xs); try done. lia.
Qed.

Lemma string_remove_correct_witness :
  ∃ h' sl' ys,
    smartlist_string_remove four_strings (sl_of [1; 2; 3; 4]) (lit "wlan0") = Ret (h', sl') ∧
    repr sl' ys ∧
    ys ≡ₚ List.filter (λ p, negb (bool_decide (four_keys p = lit "wlan0"))) [1; 2; 3; 4] ∧
    ∀ p, h' !! p = if decide (p ∈ [1; 2; 3; 4] ∧ four_keys p = lit "wlan0")
                   then None else four_strings !! p.
Proof.
  apply string_remove_correct.
  - apply repr_of. simpl. lia.
  - apply (bool_decide_unpack _). vm_compute. exact I.
  - apply (bool_decide_unpack _). vm_compute. exact I.
  - exact four_strings_at.
Defined.
