(* ===== verification/DlList.v ===== *)
(** * Doubly linked lists (src/utils/list.h)

    A list is a ring of nodes through a head that carries no data.  Nodes are
    addresses of a memory of [next] and [prev] pointers; following a pointer
    to no node is undefined.  The components that keep such lists (the text
    lists of cli.c, the timeouts of eloop.c) are modelled on plain lists; the
    theorems here say why: each operation on the ring is the operation on the
    list of its nodes. *)

From S2P Require Import Prelude CString.

Record dl_list := DlNode { next : Z; prev : Z }.

Abbreviation mem := (gmap Z dl_list) (only parsing).

Definition node (m : mem) (p : Z) : outcome dl_list := need "no list node" (m !! p).

Definition get_next (m : mem) (p : Z) : outcome Z := n ← node m p; Ret (next n).
Definition get_prev (m : mem) (p : Z) : outcome Z := n ← node m p; Ret (prev n).

Definition set_next (m : mem) (p v : Z) : outcome mem :=
  n ← node m p; Ret (<[p := DlNode v (prev n)]> m).
Definition set_prev (m : mem) (p v : Z) : outcome mem :=
  n ← node m p; Ret (<[p := DlNode (next n) v]> m).

Definition dl_list_init (m : mem) (head : Z) : outcome mem :=
  m ← set_next m head head; set_prev m head head.

Definition dl_list_add (m : mem) (head item : Z) : outcome mem :=
  n ← get_next m head;
  m ← set_next m item n;
  m ← set_prev m item head;
  n ← get_next m head;
  m ← set_prev m n item;
  set_next m head item.

Definition dl_list_add_tail (m : mem) (head item : Z) : outcome mem :=
  p ← get_prev m head; dl_list_add m p item.

Definition dl_list_del (m : mem) (item : Z) : outcome mem :=
  n ← get_next m item; p ← get_prev m item;
  m ← set_prev m n p;
  p ← get_prev m item; n ← get_next m item;
  m ← set_next m p n;
  m ← set_next m item 0;
  set_prev m item 0.

Definition dl_list_empty (m : mem) (head : Z) : outcome bool :=
  n ← get_next m head; Ret (n =? head).

Fixpoint dl_len_loop (fuel : nat) (m : mem) (head item count : Z) : outcome Z :=
  match fuel with
  | O => OutOfFuel
  | S fuel' =>
      if negb (item =? head) then
        c ← int_chk (count + 1);
        n ← get_next m item;
        dl_len_loop fuel' m head n c
      else Ret count
  end.

(** Enough fuel for a walk around any ring of the memory. *)
Definition ring_fuel (m : mem) : nat := S (size m).

Definition dl_list_len (m : mem) (head : Z) : outcome Z :=
  n ← get_next m head; dl_len_loop (ring_fuel m) m head n 0.

(** The nodes [dl_list_for_each] visits, and those visited in reverse. *)
Fixpoint dl_walk (fuel : nat) (step : mem → Z → outcome Z) (m : mem) (head item : Z)
    : outcome (list Z) :=
  match fuel with
  | O => OutOfFuel
  | S fuel' =>
      if negb (item =? head) then
        n ← step m item;
        rest ← dl_walk fuel' step m head n;
        Ret (item :: rest)
      else Ret []
  end.

Definition dl_list_for_each (m : mem) (head : Z) : outcome (list Z) :=
  n ← get_next m head; dl_walk (ring_fuel m) get_next m head n.

Definition dl_list_for_each_reverse (m : mem) (head : Z) : outcome (list Z) :=
  p ← get_prev m head; dl_walk (ring_fuel m) get_prev m head p.

(** [dl_list_first] and [dl_list_last]; NULL is 0. *)
Definition dl_list_first (m : mem) (head : Z) : outcome Z :=
  e ← dl_list_empty m head; if (e : bool) then Ret 0 else get_next m head.
Definition dl_list_last (m : mem) (head : Z) : outcome Z :=
  e ← dl_list_empty m head; if (e : bool) then Ret 0 else get_prev m head.

(** ** Rings *)

Definition nx (m : mem) (p : Z) : option Z := next <$> m !! p.
Definition pv (m : mem) (p : Z) : option Z := prev <$> m !! p.

(** [b] follows [a], seen from both ends. *)
Definition link (m : mem) (e : Z * Z) : Prop :=
  nx m (fst e) = Some (snd e) ∧ pv m (snd e) = Some (fst e).

(** The memory holds the ring of [head] and the nodes [xs], in this order. *)
Definition dl_ring (m : mem) (head : Z) (xs : list Z) : Prop :=
  NoDup (head :: xs) ∧ Forall (link m) (zip (head :: xs) (xs ++ [head])).

Lemma get_next_nx m p n : get_next m p = Ret n ↔ nx m p = Some n.
Proof. unfold get_next, node, nx. destruct (m !! p); simpl; naive_solver. Qed.

Lemma get_prev_pv m p n : get_prev m p = Ret n ↔ pv m p = Some n.
Proof. unfold get_prev, node, pv. destruct (m !! p); simpl; naive_solver. Qed.

(** What one pointer write does to both views. *)
Lemma set_next_spec m p v :
  is_Some (m !! p) →
  ∃ m', set_next m p v = Ret m' ∧ dom m' = dom m ∧
    (∀ q, nx m' q = if decide (p = q) then Some v else nx m q) ∧ (∀ q, pv m' q = pv m q).
Proof.
  intros [n Hn]. unfold set_next, node, nx, pv. rewrite Hn. eexists. split; [done|].
  split; [apply dom_insert_lookup_L; eauto|].
  split; intros q; (destruct (decide (p = q)) as [<-|Hne];
    [rewrite lookup_insert_eq, ?Hn|rewrite lookup_insert_ne by done]); done.
Qed.

Lemma set_prev_spec m p v :
  is_Some (m !! p) →
  ∃ m', set_prev m p v = Ret m' ∧ dom m' = dom m ∧
    (∀ q, pv m' q = if decide (p = q) then Some v else pv m q) ∧ (∀ q, nx m' q = nx m q).
Proof.
  intros [n Hn]. unfold set_prev, node, nx, pv. rewrite Hn. eexists. split; [done|].
  split; [apply dom_insert_lookup_L; eauto|].
  split; intros q; (destruct (decide (p = q)) as [<-|Hne];
    [rewrite lookup_insert_eq, ?Hn|rewrite lookup_insert_ne by done]); done.
Qed.

Lemma nx_is_Some m p n : nx m p = Some n → is_Some (m !! p).
Proof. unfold nx. destruct (m !! p); [eauto|done]. Qed.

Lemma dom_is_Some (m m' : mem) p : dom m' = dom m → is_Some (m !! p) → is_Some (m' !! p).
Proof. rewrite <- !elem_of_dom. by intros ->. Qed.

(** [dl_list_add] redirects the link [p -> n] through [item]. *)
Lemma dl_list_add_links m p n item :
  link m (p, n) → is_Some (m !! n) → is_Some (m !! item) → item ≠ p → item ≠ n →
  ∃ m', dl_list_add m p item = Ret m' ∧ dom m' = dom m ∧
    link m' (p, item) ∧ link m' (item, n) ∧
    ∀ a b, a ≠ p → a ≠ item → b ≠ n → b ≠ item → link m (a, b) → link m' (a, b).
Proof.
  intros [Hn Hp] Hin Hitem Hne1 Hne2. cbn [fst snd] in *. unfold dl_list_add.
  rewrite (proj2 (get_next_nx _ _ _) Hn). ret_simpl.
  destruct (set_next_spec m item n Hitem) as (m1 & -> & D1 & N1 & P1). ret_simpl.
  destruct (set_prev_spec m1 item p) as (m2 & -> & D2 & P2 & N2); [by eapply dom_is_Some|].
  ret_simpl. rewrite (proj2 (get_next_nx m2 p n)); [|by rewrite N2, N1, decide_False].
  ret_simpl.
  destruct (set_prev_spec m2 n item) as (m3 & -> & D3 & P3 & N3).
  { eapply dom_is_Some; [|exact Hin]. congruence. }
  ret_simpl. destruct (set_next_spec m3 p item) as (m4 & -> & D4 & N4 & P4).
  { eapply dom_is_Some; [|by eapply nx_is_Some]. congruence. }
  exists m4. split; [done|]. split; [congruence|].
  assert (NX : ∀ q, nx m4 q = if decide (p = q) then Some item
                             else if decide (item = q) then Some n else nx m q).
  { intros q. by rewrite N4, N3, N2, N1. }
  assert (PV : ∀ q, pv m4 q = if decide (n = q) then Some item
                             else if decide (item = q) then Some p else pv m q).
  { intros q. by rewrite P4, P3, P2, P1. }
  unfold link. cbn [fst snd]. split_and!.
  - by rewrite NX, decide_True.
  - by rewrite PV, decide_False, decide_True by congruence.
  - by rewrite NX, decide_False, decide_True by congruence.
  - by rewrite PV, decide_True.
  - intros a b ???? [Ha Hb]. rewrite NX, PV, !decide_False by congruence. done.
Qed.

(** [dl_list_del] closes the gap it leaves. *)
Lemma dl_list_del_links m p x n :
  link m (p, x) → link m (x, n) → x ≠ p → x ≠ n →
  ∃ m', dl_list_del m x = Ret m' ∧ dom m' = dom m ∧ link m' (p, n) ∧
    nx m' x = Some 0 ∧ pv m' x = Some 0 ∧
    ∀ a b, a ≠ p → a ≠ x → b ≠ n → b ≠ x → link m (a, b) → link m' (a, b).
Proof.
  intros [Hnp Hpx] [Hnx Hpn] Hne1 Hne2. cbn [fst snd] in *. unfold dl_list_del.
  rewrite (proj2 (get_next_nx _ _ _) Hnx), (proj2 (get_prev_pv _ _ _) Hpx). ret_simpl.
  destruct (set_prev_spec m n p) as (m1 & -> & D1 & P1 & N1).
  { unfold pv in Hpn. destruct (m !! n); [eauto|done]. }
  ret_simpl. rewrite (proj2 (get_prev_pv m1 x p)); [|by rewrite P1, decide_False].
  rewrite (proj2 (get_next_nx m1 x n)) by (by rewrite N1). ret_simpl.
  destruct (set_next_spec m1 p n) as (m2 & -> & D2 & N2 & P2).
  { eapply dom_is_Some; [exact D1|by eapply nx_is_Some]. }
  ret_simpl. destruct (set_next_spec m2 x 0) as (m3 & -> & D3 & N3 & P3).
  { eapply (dom_is_Some m); [congruence|by eapply nx_is_Some]. }
  ret_simpl. destruct (set_prev_spec m3 x 0) as (m4 & -> & D4 & P4 & N4).
  { eapply (dom_is_Some m); [congruence|by eapply nx_is_Some]. }
  exists m4. split; [done|]. split; [congruence|].
  assert (NX : ∀ q, nx m4 q = if decide (x = q) then Some 0
                             else if decide (p = q) then Some n else nx m q).
  { intros q. by rewrite N4, N3, N2, N1. }
  assert (PV : ∀ q, pv m4 q = if decide (x = q) then Some 0
                             else if decide (n = q) then Some p else pv m q).
  { intros q. by rewrite P4, P3, P2, P1. }
  unfold link. cbn [fst snd]. split_and!.
  - by rewrite NX, decide_False, decide_True by congruence.
  - by rewrite PV, decide_False, decide_True by congruence.
  - by rewrite NX, decide_True.
  - by rewrite PV, decide_True.
  - intros a b ???? [Ha Hb]. rewrite NX, PV, !decide_False by congruence. done.
Qed.

(** ** The operations on rings *)

(** Where the ring is cut between [A] and [B]: [p] before the cut, [n] behind. *)
Lemma ring_cut (h : Z) (A B : list Z) :
  ∃ S p n T, h :: A = S ++ [p] ∧ B ++ [h] = n :: T ∧ length S = length A ∧
    length T = length B.
Proof.
  destruct A as [|p A _] using rev_ind; destruct B as [|n T].
  - exists [], h, h, []. done.
  - exists [], h, n, (T ++ [h]). split_and!; try done. rewrite length_app. simpl. lia.
  - exists (h :: A), p, h, []. split_and!; try done. rewrite length_app. simpl. lia.
  - exists (h :: A), p, n, (T ++ [h]). split_and!; try done; rewrite length_app; simpl; lia.
Qed.

Lemma Forall_link_frame m m' (S A : list Z) p n x :
  (∀ a b, a ≠ p → a ≠ x → b ≠ n → b ≠ x → link m (a, b) → link m' (a, b)) →
  p ∉ S → x ∉ S → n ∉ A → x ∉ A →
  Forall (link m) (zip S A) → Forall (link m') (zip S A).
Proof.
  intros Hf HpS HxS HnA HxA. rewrite !Forall_forall. intros Hl [a b] Hab.
  pose proof (elem_of_zip_l _ _ _ _ Hab). pose proof (elem_of_zip_r _ _ _ _ Hab).
  apply Hf; [congruence..|auto].
Qed.

Lemma NoDup_mid {A} (l k : list A) x : NoDup (l ++ x :: k) ↔ x ∉ l ∧ x ∉ k ∧ NoDup (l ++ k).
Proof.
  rewrite <- Permutation_middle, NoDup_cons, not_elem_of_app. naive_solver.
Qed.

(** The facts about the two ends that follow from distinctness. *)
Lemma cut_distinct (h : Z) (A B S : list Z) p n T :
  h :: A = S ++ [p] → B ++ [h] = n :: T → NoDup (h :: A ++ B) →
  p ∉ S ∧ p ∉ B ∧ n ∉ A ∧ n ∉ T.
Proof.
  intros HA HB Hnd.
  assert (H1 : NoDup (S ++ p :: B)).
  { rewrite cons_middle, app_assoc, <- HA. exact Hnd. }
  assert (H2 : NoDup (A ++ n :: T)).
  { rewrite <- HB, app_assoc, <- Permutation_cons_append. exact Hnd. }
  apply NoDup_mid in H1 as (? & ? & _), H2 as (? & ? & _). done.
Qed.

Lemma ring_links (h : Z) (A B S : list Z) p n T :
  h :: A = S ++ [p] → B ++ [h] = n :: T → length S = length A →
  zip (h :: A ++ B) ((A ++ B) ++ [h]) = zip S A ++ (p, n) :: zip B T.
Proof.
  intros HA HB Hl. rewrite <- (app_assoc A), HB.
  replace (h :: A ++ B) with (S ++ p :: B).
  - by rewrite zip_with_app.
  - rewrite cons_middle, app_assoc, <- HA. done.
Qed.

Lemma ring_links_mid (h : Z) (A : list Z) x (B S : list Z) p n T :
  h :: A = S ++ [p] → B ++ [h] = n :: T → length S = length A →
  zip (h :: A ++ x :: B) ((A ++ x :: B) ++ [h]) = zip S A ++ (p, x) :: (x, n) :: zip B T.
Proof.
  intros HA HB Hl. rewrite <- (app_assoc A). simpl ((x :: B) ++ [h]). rewrite HB.
  replace (h :: A ++ x :: B) with (S ++ p :: x :: B).
  - by rewrite zip_with_app.
  - rewrite (cons_middle p S (x :: B)), app_assoc, <- HA. done.
Qed.

Lemma ring_insert m h A B S p item :
  dl_ring m h (A ++ B) → h :: A = S ++ [p] → is_Some (m !! item) → item ∉ h :: A ++ B →
  ∃ m', dl_list_add m p item = Ret m' ∧ dom m' = dom m ∧ dl_ring m' h (A ++ item :: B).
Proof.
  intros [Hnd Hl] HA Hitem Hnew.
  destruct (ring_cut h A B) as (S' & p' & n & T & HA' & HB & HlS & HlT).
  assert (S' = S ∧ p' = p) as [-> ->].
  { rewrite HA in HA'. by apply app_inj_tail in HA' as [-> ->]. }
  rewrite (ring_links h A B S p n T) in Hl by done.
  apply Forall_app in Hl as [HS HT]. apply Forall_cons in HT as [Hpn HT].
  destruct (cut_distinct h A B S p n T HA HB Hnd) as (Hd1 & Hd2 & Hd3 & Hd4).
  assert (HinS : ∀ y, y ∈ S ++ [p] ∨ y ∈ B → y ∈ h :: A ++ B).
  { intros y Hy. rewrite <- HA in Hy. rewrite elem_of_cons, elem_of_app.
    rewrite elem_of_cons in Hy. tauto. }
  assert (HinT : ∀ y, y ∈ A ∨ y ∈ n :: T → y ∈ h :: A ++ B).
  { intros y Hy. rewrite <- HB in Hy. rewrite elem_of_cons, elem_of_app.
    rewrite elem_of_app, list_elem_of_singleton in Hy. tauto. }
  destruct (dl_list_add_links m p n item Hpn) as (m' & Hm' & D & H1 & H2 & Hframe); try done.
  - destruct Hpn as [_ Hpv]. unfold pv in Hpv. simpl in Hpv. destruct (m !! n); [eauto|done].
  - intros ->. apply Hnew, HinS. left. apply elem_of_app. right. left.
  - intros ->. apply Hnew, HinT. right. left.
  - exists m'. split; [done|]. split; [done|]. split.
    + change (h :: A ++ item :: B) with ((h :: A) ++ item :: B). apply NoDup_mid.
      apply not_elem_of_cons in Hnew as [? [? ?]%not_elem_of_app].
      split_and!; [by apply not_elem_of_cons|done|done].
    + rewrite (ring_links_mid h A item B S p n T) by done.
      apply Forall_app. split; [|do 2 (constructor; [done|])];
        (eapply Forall_link_frame; [exact Hframe| | | | |done]); try done;
        intros Hin; apply Hnew; (apply HinS + apply HinT);
        rewrite ?elem_of_app, ?elem_of_cons; tauto.
Qed.

Lemma ring_remove m h A x B :
  dl_ring m h (A ++ x :: B) →
  ∃ m', dl_list_del m x = Ret m' ∧ dom m' = dom m ∧ dl_ring m' h (A ++ B) ∧
    nx m' x = Some 0 ∧ pv m' x = Some 0.
Proof.
  intros [Hnd Hl]. destruct (ring_cut h A B) as (S & p & n & T & HA & HB & HlS & HlT).
  rewrite (ring_links_mid h A x B S p n T) in Hl by done.
  apply Forall_app in Hl as [HS HT]. apply Forall_cons in HT as [Hpx HT].
  apply Forall_cons in HT as [Hxn HT].
  change (h :: A ++ x :: B) with ((h :: A) ++ x :: B) in Hnd.
  apply NoDup_mid in Hnd as (HxA & HxB & Hnd).
  destruct (cut_distinct h A B S p n T HA HB Hnd) as (Hd1 & Hd2 & Hd3 & Hd4).
  assert (Hx : x ∉ S ++ [p] ∧ x ∉ n :: T).
  { rewrite <- HA, <- HB. split; [done|]. rewrite elem_of_app, list_elem_of_singleton.
    rewrite elem_of_cons in HxA. tauto. }
  destruct Hx as [HxS HxT]. rewrite elem_of_app, list_elem_of_singleton in HxS.
  rewrite elem_of_cons in HxT, HxA.
  destruct (dl_list_del_links m p x n Hpx Hxn) as (m' & Hm' & D & H1 & H2 & H3 & Hframe);
    [tauto|tauto|].
  exists m'. split_and!; try done. split; [done|].
  rewrite (ring_links h A B S p n T) by done.
  apply Forall_app. split; [|constructor; [done|]];
    (eapply Forall_link_frame; [exact Hframe| | | | |done]); tauto.
Qed.

(** ** Walking around a ring *)

Definition first_of (h : Z) (xs : list Z) : Z := match xs with [] => h | x :: _ => x end.
Definition last_of (h : Z) (xs : list Z) : Z := List.last xs h.

Lemma first_of_cut h B n T : B ++ [h] = n :: T → first_of h B = n.
Proof. destruct B; simpl; congruence. Qed.

Lemma last_of_cut h A S p : h :: A = S ++ [p] → last_of h A = p.
Proof.
  intros H. unfold last_of. destruct A as [|a A] using rev_ind.
  - destruct S as [|? [|? ?]]; simpl in *; congruence.
  - rewrite app_comm_cons in H. apply app_inj_tail in H as [_ ->]. apply List.last_last.
Qed.

Lemma ring_at m h A x B :
  dl_ring m h (A ++ x :: B) →
  get_next m x = Ret (first_of h B) ∧ get_prev m x = Ret (last_of h A) ∧ (x =? h) = false.
Proof.
  intros [Hnd Hl]. destruct (ring_cut h A B) as (S & p & n & T & HA & HB & HlS & HlT).
  rewrite (ring_links_mid h A x B S p n T) in Hl by done.
  apply Forall_app in Hl as [_ HT]. apply Forall_cons in HT as [[_ Hp] HT].
  apply Forall_cons in HT as [[Hn _] _].
  rewrite (first_of_cut _ _ _ _ HB), (last_of_cut _ _ _ _ HA).
  split_and!; [by apply get_next_nx|by apply get_prev_pv|].
  apply Z.eqb_neq. intros ->. apply NoDup_cons in Hnd as [Hnd _]. apply Hnd.
  apply elem_of_app. right. left.
Qed.

Lemma ring_head m h xs :
  dl_ring m h xs →
  get_next m h = Ret (first_of h xs) ∧ get_prev m h = Ret (last_of h xs).
Proof.
  intros [Hnd Hl]. split.
  - destruct (ring_cut h [] xs) as (S & p & n & T & HA & HB & HlS & HlT).
    pose proof (ring_links h [] xs S p n T HA HB HlS) as E. simpl app in E.
    rewrite E in Hl. destruct S; [|done]. injection HA as <-.
    apply Forall_app in Hl as [_ HT]. apply Forall_cons in HT as [[Hn _] _].
    rewrite (first_of_cut _ _ _ _ HB). by apply get_next_nx.
  - destruct (ring_cut h xs []) as (S & p & n & T & HA & HB & HlS & HlT).
    pose proof (ring_links h xs [] S p n T HA HB HlS) as E. rewrite app_nil_r in E.
    rewrite E in Hl. injection HB as <- <-.
    apply Forall_app in Hl as [_ HT]. apply Forall_cons in HT as [[_ Hp] _].
    rewrite (last_of_cut _ _ _ _ HA). by apply get_prev_pv.
Qed.

Lemma ring_size m h xs : dl_ring m h xs → (length xs < size m)%nat.
Proof.
  intros Hr. destruct Hr as [Hnd Hl] eqn:E. clear E.
  assert (Hd : ∀ x, x ∈ h :: xs → x ∈ dom m).
  { intros x Hx. apply elem_of_dom. apply elem_of_cons in Hx as [->|Hx].
    - destruct (ring_head m h xs Hr) as [Hn _]. apply get_next_nx in Hn.
      by eapply nx_is_Some.
    - apply list_elem_of_split in Hx as (A & B & ->).
      destruct (ring_at m h A x B Hr) as (Hn & _). apply get_next_nx in Hn.
      by eapply nx_is_Some. }
  assert (Hs : list_to_set (h :: xs) ⊆@{gset Z} dom m).
  { intros x Hx%elem_of_list_to_set. by apply Hd. }
  apply subseteq_size in Hs. rewrite size_list_to_set, size_dom in Hs by done.
  simpl in Hs. lia.
Qed.

Lemma dl_walk_next m h fuel A B :
  dl_ring m h (A ++ B) → (length B < fuel)%nat →
  dl_walk fuel get_next m h (first_of h B) = Ret B.
Proof.
  revert A B. induction fuel as [|fuel IH]; intros A B Hr Hf; [lia|]. cbn [dl_walk].
  destruct B as [|x B]; cbn [first_of]; [by rewrite Z.eqb_refl|].
  destruct (ring_at m h A x B Hr) as (-> & _ & ->). ret_simpl. cbn [negb].
  rewrite cons_middle, app_assoc in Hr. simpl in Hf.
  by rewrite (IH _ B Hr) by lia.
Qed.

Lemma dl_walk_prev m h fuel A B :
  dl_ring m h (A ++ B) → (length A < fuel)%nat →
  dl_walk fuel get_prev m h (last_of h A) = Ret (reverse A).
Proof.
  revert A B. induction fuel as [|fuel IH]; intros A B Hr Hf; [lia|]. cbn [dl_walk].
  destruct A as [|x A _] using rev_ind; [cbn; by rewrite Z.eqb_refl|].
  assert (Hx : last_of h (A ++ [x]) = x) by apply List.last_last. rewrite Hx.
  rewrite <- app_assoc in Hr. simpl in Hr.
  destruct (ring_at m h A x B Hr) as (_ & -> & ->). ret_simpl. cbn [negb].
  rewrite length_app in Hf. simpl in Hf. rewrite (IH A _ Hr) by lia.
  by rewrite reverse_snoc.
Qed.

Lemma dl_len_loop_spec m h fuel A B :
  dl_ring m h (A ++ B) → (length B < fuel)%nat → strlen (A ++ B) ≤ INT_MAX →
  dl_len_loop fuel m h (first_of h B) (strlen A) = Ret (strlen (A ++ B)).
Proof.
  revert A B. induction fuel as [|fuel IH]; intros A B Hr Hf Hi; [lia|]. cbn [dl_len_loop].
  destruct B as [|x B]; cbn [first_of]; [by rewrite Z.eqb_refl, app_nil_r|].
  destruct (ring_at m h A x B Hr) as (Hn & _ & ->). cbn [negb].
  assert (Hs : strlen A + 1 = strlen (A ++ [x])) by (unfold strlen; rewrite length_app; simpl; lia).
  rewrite (proj2 (int_chk_Ret (strlen A + 1) (strlen (A ++ [x])))); [|split; [exact Hs|]].
  2:{ unfold strlen, INT_MIN in *. rewrite length_app in Hi. simpl in Hi. lia. }
  ret_simpl. rewrite Hn. ret_simpl. rewrite (cons_middle x A B), app_assoc in Hr, Hi |- *. simpl in Hf.
  apply IH; [done|lia|done].
Qed.

(** ** Sequences of operations *)

Inductive dl_op :=
  | DlAdd (item : Z)
  | DlAddTail (item : Z)
  | DlDel (item : Z).

Definition dl_step (h : Z) (m : mem) (op : dl_op) : outcome mem :=
  match op with
  | DlAdd item => dl_list_add m h item
  | DlAddTail item => dl_list_add_tail m h item
  | DlDel item => dl_list_del m item
  end.

(** The operation on the list of nodes; [None] when the caller may not: adding
    a node that is in the list, deleting one that is not. *)
Definition dl_abs (h : Z) (xs : list Z) (op : dl_op) : option (list Z) :=
  match op with
  | DlAdd item => if decide (item ∈ h :: xs) then None else Some (item :: xs)
  | DlAddTail item => if decide (item ∈ h :: xs) then None else Some (xs ++ [item])
  | DlDel item => if decide (item ∈ xs) then Some (List.remove Z.eq_dec item xs) else None
  end.

Definition op_item (op : dl_op) : Z :=
  match op with DlAdd x | DlAddTail x | DlDel x => x end.

Fixpoint dl_run (h : Z) (m : mem) (ops : list dl_op) : outcome mem :=
  match ops with [] => Ret m | op :: ops' => m' ← dl_step h m op; dl_run h m' ops' end.

Fixpoint dl_abs_run (h : Z) (xs : list Z) (ops : list dl_op) : option (list Z) :=
  match ops with [] => Some xs | op :: ops' => ys ← dl_abs h xs op; dl_abs_run h ys ops' end.

Lemma remove_mid (A B : list Z) x :
  x ∉ A ++ B → List.remove Z.eq_dec x (A ++ x :: B) = A ++ B.
Proof.
  intros [HA HB]%not_elem_of_app. rewrite list_elem_of_In in HA, HB.
  rewrite remove_app. simpl. destruct (Z.eq_dec x x); [|done].
  by rewrite !notin_remove.
Qed.

Lemma dl_step_sim h m xs op ys :
  dl_ring m h xs → is_Some (m !! op_item op) → dl_abs h xs op = Some ys →
  ∃ m', dl_step h m op = Ret m' ∧ dom m' = dom m ∧ dl_ring m' h ys.
Proof.
  intros Hr Hi Ha. destruct op as [x|x|x]; simpl in *; case_decide as Hx; try done;
    injection Ha as <-.
  - by apply (ring_insert m h [] xs []).
  - destruct (ring_cut h xs []) as (S & p & n & T & HA & _).
    unfold dl_list_add_tail. destruct (ring_head m h xs Hr) as [_ ->]. ret_simpl.
    rewrite (last_of_cut _ _ _ _ HA).
    apply (ring_insert m h xs [] S); try done; by rewrite app_nil_r.
  - apply list_elem_of_split in Hx as (A & B & ->).
    destruct (ring_remove m h A x B Hr) as (m' & ? & ? & Hr' & _).
    exists m'. split_and!; [done|done|]. rewrite remove_mid; [done|].
    destruct Hr as [Hnd _]. apply NoDup_cons in Hnd as [_ Hnd].
    apply NoDup_mid in Hnd as (? & ? & _). by apply not_elem_of_app.
Qed.

Lemma dl_run_sim h m xs ops ys :
  dl_ring m h xs → Forall (λ op, is_Some (m !! op_item op)) ops →
  dl_abs_run h xs ops = Some ys →
  ∃ m', dl_run h m ops = Ret m' ∧ dl_ring m' h ys.
Proof.
  revert m xs. induction ops as [|op ops IH]; intros m xs Hr Hi Ha; cbn [dl_run dl_abs_run] in *.
  - injection Ha as <-. eauto.
  - apply bind_Some in Ha as (zs & Hz & Ha). apply Forall_cons in Hi as [Hop Hi].
    destruct (dl_step_sim h m xs op zs Hr Hop Hz) as (m1 & -> & D & Hr1). ret_simpl.
    apply (IH m1 zs); try done. eapply Forall_impl; [exact Hi|]. intros o.
    by apply dom_is_Some.
Qed.

(** However nodes are added in front, added behind and deleted, the
    pointers always form the ring of the list that the same operations give
    on the sequence of nodes, and the readers see that list: both iterations, the length,
    emptiness, the first and the last node.  No operation follows a pointer
    to nothing. *)
Theorem dl_list_refines_sequence h m ops ys :
  dl_ring m h [] → Forall (λ op, is_Some (m !! op_item op)) ops →
  dl_abs_run h [] ops = Some ys → strlen ys ≤ INT_MAX →
  ∃ m', dl_run h m ops = Ret m' ∧ dl_ring m' h ys ∧
    dl_list_for_each m' h = Ret ys ∧ dl_list_for_each_reverse m' h = Ret (reverse ys) ∧
    dl_list_len m' h = Ret (strlen ys) ∧
    dl_list_empty m' h = Ret (bool_decide (ys = [])) ∧
    dl_list_first m' h = Ret (List.hd 0 ys) ∧ dl_list_last m' h = Ret (List.last ys 0).
Proof.
  intros Hr Hi Ha Hlen. destruct (dl_run_sim h m [] ops ys Hr Hi Ha) as (m' & Hm' & Hr').
  pose proof (ring_size m' h ys Hr') as Hsz. destruct (ring_head m' h ys Hr') as [Hn Hp].
  assert (Hempty : dl_list_empty m' h = Ret (bool_decide (ys = []))).
  { unfold dl_list_empty. rewrite Hn. ret_simpl. destruct ys as [|y ys]; simpl.
    - by rewrite Z.eqb_refl.
    - by destruct (ring_at m' h [] y ys Hr') as (_ & _ & ->). }
  exists m'. unfold dl_list_for_each, dl_list_for_each_reverse, dl_list_len, dl_list_first,
    dl_list_last, ring_fuel. rewrite Hempty, Hn, Hp. ret_simpl.
  split_and!; try done.
  - apply (dl_walk_next m' h _ [] ys); [done|lia].
  - apply (dl_walk_prev m' h _ ys []); [by rewrite app_nil_r|lia].
  - apply (dl_len_loop_spec m' h _ [] ys); [done|lia|done].
  - destruct ys; [done|]. by rewrite bool_decide_eq_false_2.
  - destruct ys as [|y ys _] using rev_ind; [done|].
    rewrite bool_decide_eq_false_2 by (by destruct ys). unfold last_of.
    by rewrite !List.last_last.
Qed.

Lemma dl_list_refines_sequence_witness :
  ∃ m', dl_run 9 {[9 := DlNode 9 9; 1 := DlNode 0 0; 2 := DlNode 0 0; 3 := DlNode 0 0]}
          [DlAddTail 1; DlAdd 2; DlAddTail 3; DlDel 1] = Ret m' ∧ dl_ring m' 9 [2; 3] ∧
    dl_list_for_each m' 9 = Ret [2; 3] ∧ dl_list_for_each_reverse m' 9 = Ret (reverse [2; 3]) ∧
    dl_list_len m' 9 = Ret (strlen [2; 3]) ∧
    dl_list_empty m' 9 = Ret (bool_decide ([2; 3] = [])) ∧
    dl_list_first m' 9 = Ret (List.hd 0 [2; 3]) ∧ dl_list_last m' 9 = Ret (List.last [2; 3] 0).
Proof.
  apply dl_list_refines_sequence.
  - split; [apply (bool_decide_unpack _); vm_compute; exact I|].
    repeat constructor.
  - repeat apply Forall_cons_2; try apply Forall_nil_2; eexists; reflexivity.
  - vm_compute. reflexivity.
  - vm_compute. discriminate.
Defined.
