(* ===== verification/Eloop.v ===== *)
(** * The event loop (src/utils/eloop.c, the select() build)

    The loop keeps three tables of sockets, the timeouts in order of time and
    the registered signals.  What it asks of the system is the class
    [EloopOS]: memory, the clock and [select], whose answer also lists the
    signals that arrived while it waited.  Handlers are code of the program's
    other parts: [handle] runs one on the state of the loop, so it can call
    any operation of the loop.  Every call of a handler is logged with what
    was known when it was made.

    Lists kept with list.h are lists here (see DlList). *)

From S2P Require Import Prelude CString.

Definition SIGHUP : Z := 1.
Definition SIGINT : Z := 2.
Definition SIGTERM : Z := 15.
Definition EINTR : Z := 4.
Definition LONG_MAX : Z := 9223372036854775807.
Definition ELOOP_ALL_CTX : Z := 18446744073709551615.

Record eloop_sock := EloopSock {
  es_sock : Z;
  es_eloop_data : Z;
  es_user_data : Z;
  es_handler : Z;
}.

(** [os_reltime] is the pair of seconds and microseconds. *)
Record eloop_timeout := EloopTimeout {
  et_time : Z * Z;
  et_eloop_data : Z;
  et_user_data : Z;
  et_handler : Z;
}.

Record eloop_signal := EloopSignal {
  sg_sig : Z;
  sg_user_data : Z;
  sg_handler : Z;
  sg_signaled : Z;
}.

(** The entries of the first [count] slots and the flag [changed]. *)
Record eloop_sock_table := SockTable { st_table : list eloop_sock; st_changed : Z }.

Inductive eloop_event_type := EVENT_TYPE_READ | EVENT_TYPE_WRITE | EVENT_TYPE_EXCEPTION.

Record eloop_data := EloopData {
  max_sock : Z;
  count : Z;
  readers : eloop_sock_table;
  writers : eloop_sock_table;
  exceptions : eloop_sock_table;
  timeout : list eloop_timeout;
  signals : list eloop_signal;
  signaled : Z;
  pending_terminate : Z;
  terminate : Z;
}.

Definition set_timeout (d : eloop_data) (t : list eloop_timeout) : eloop_data :=
  EloopData (max_sock d) (count d) (readers d) (writers d) (exceptions d) t (signals d)
    (signaled d) (pending_terminate d) (terminate d).
Definition set_signals (d : eloop_data) (s : list eloop_signal) (n p : Z) : eloop_data :=
  EloopData (max_sock d) (count d) (readers d) (writers d) (exceptions d) (timeout d) s
    n p (terminate d).
Definition set_terminate (d : eloop_data) (t : Z) : eloop_data :=
  EloopData (max_sock d) (count d) (readers d) (writers d) (exceptions d) (timeout d)
    (signals d) (signaled d) (pending_terminate d) t.
Definition set_socks (d : eloop_data) (mx n : Z) (r w e : eloop_sock_table) : eloop_data :=
  EloopData mx n r w e (timeout d) (signals d) (signaled d) (pending_terminate d)
    (terminate d).

(** [eloop_get_sock_table], and storing the table back. *)
Definition eloop_get_sock_table (d : eloop_data) (type : eloop_event_type)
    : eloop_sock_table :=
  match type with
  | EVENT_TYPE_READ => readers d
  | EVENT_TYPE_WRITE => writers d
  | EVENT_TYPE_EXCEPTION => exceptions d
  end.

Definition put_sock_table (d : eloop_data) (type : eloop_event_type) (mx n : Z)
    (t : eloop_sock_table) : eloop_data :=
  match type with
  | EVENT_TYPE_READ => set_socks d mx n t (writers d) (exceptions d)
  | EVENT_TYPE_WRITE => set_socks d mx n (readers d) t (exceptions d)
  | EVENT_TYPE_EXCEPTION => set_socks d mx n (readers d) (writers d) t
  end.

Definition eloop_init : eloop_data :=
  EloopData 0 0 (SockTable [] 0) (SockTable [] 0) (SockTable [] 0) [] [] 0 0 0.

(** ** Times *)

Definition os_reltime_before (a b : Z * Z) : bool :=
  (fst a <? fst b) || ((fst a =? fst b) && (snd a <? snd b)).

Definition os_reltime_sub (a b : Z * Z) : Z * Z :=
  let sec := fst a - fst b in
  let usec := snd a - snd b in
  if usec <? 0 then (sec - 1, usec + 1000000) else (sec, usec).

(** ** The world of the loop *)

Inductive invocation :=
  | CallTimeout (handler eloop_data user_data : Z)
  | CallSock (handler sock eloop_data user_data : Z)
  | CallSignal (handler sig user_data : Z).

(** The log: the timeout that fired, the time read and the timeouts left; the
    socket entry called, its table, what the table held and what [select] had
    reported; the signal handled. *)
Inductive event :=
  | Fired (t : eloop_timeout) (now : Z * Z) (rest : list eloop_timeout)
  | Dispatched (type : eloop_event_type) (s : eloop_sock) (table : list eloop_sock)
      (fds : list Z)
  | Signalled (s : eloop_signal).

Definition invoked (ev : event) : invocation :=
  match ev with
  | Fired t _ _ => CallTimeout (et_handler t) (et_eloop_data t) (et_user_data t)
  | Dispatched _ s _ _ => CallSock (es_handler s) (es_sock s) (es_eloop_data s) (es_user_data s)
  | Signalled s => CallSignal (sg_handler s) (sg_sig s) (sg_user_data s)
  end.

(** What [select] returns: its value, [errno], the three sets it leaves and
    the signals that were delivered meanwhile. *)
Record select_answer := SelectAnswer {
  sa_res : Z;
  sa_errno : Z;
  sa_rfds : list Z;
  sa_wfds : list Z;
  sa_efds : list Z;
  sa_signals : list Z;
}.

Class EloopOS (E : Type) := {
  os_alloc : E → bool * E;
  os_get_reltime : E → (Z * (Z * Z)) * E;
  os_select : Z → list Z → list Z → list Z → option (Z * Z) → E → select_answer * E;
}.

Section Eloop.
Context {E : Type}.

Record Loop := mkLoop {
  l_data : eloop_data;
  l_env : E;
  l_log : list event;
}.

Definition L (A : Type) : Type := Loop → outcome (A * Loop).

#[export] Instance L_ret : MRet L := λ A a w, Ret (a, w).
#[export] Instance L_bind : MBind L := λ A B f m w,
  match m w with
  | Ret (a, w') => f a w'
  | UB why => UB why
  | OutOfFuel => OutOfFuel
  end.

Definition lift {A} (o : outcome A) : L A := λ w,
  match o with Ret a => Ret (a, w) | UB why => UB why | OutOfFuel => OutOfFuel end.

Definition get : L eloop_data := λ w, Ret (l_data w, w).
Definition put (d : eloop_data) : L unit := λ w, Ret (tt, mkLoop d (l_env w) (l_log w)).

Context `{EloopOS E}.

Definition ask {A} (q : E → A * E) : L A := λ w,
  let '(a, e) := q (l_env w) in Ret (a, mkLoop (l_data w) e (l_log w)).

(** What running a handler does to the loop and to the rest of the world. *)
Context (handle : invocation → eloop_data → E → outcome (eloop_data * E)).

Definition call (ev : event) : L unit := λ w,
  match handle (invoked ev) (l_data w) (l_env w) with
  | Ret (d, e) => Ret (tt, mkLoop d e (l_log w ++ [ev]))
  | UB why => UB why
  | OutOfFuel => OutOfFuel
  end.

(** ** Sockets *)

Definition eloop_sock_table_add_sock (type : eloop_event_type)
    (sock handler eloop_data user_data : Z) : L Z :=
  d ← get;
  let new_max_sock := if max_sock d <? sock then sock else max_sock d in
  let table := eloop_get_sock_table d type in
  tmp ← ask os_alloc;
  if negb tmp then mret (-1)
  else
    n ← lift (int_chk (count d + 1));
    put (put_sock_table d type new_max_sock n
           (SockTable (st_table table ++ [EloopSock sock eloop_data user_data handler]) 1));;
    mret 0.

Fixpoint remove_sock (l : list eloop_sock) (sock : Z) : option (list eloop_sock) :=
  match l with
  | [] => None
  | s :: l' => if es_sock s =? sock then Some l' else cons s <$> remove_sock l' sock
  end.

Definition eloop_sock_table_remove_sock (type : eloop_event_type) (sock : Z) : L unit :=
  d ← get;
  match remove_sock (st_table (eloop_get_sock_table d type)) sock with
  | None => mret tt
  | Some l => put (put_sock_table d type (max_sock d) (count d - 1) (SockTable l 1))
  end.

Definition eloop_register_sock (sock : Z) (type : eloop_event_type)
    (handler eloop_data user_data : Z) : L Z :=
  if 0 <=? sock then eloop_sock_table_add_sock type sock handler eloop_data user_data
  else lift (UB "assert(sock >= 0)").

Definition eloop_unregister_sock (sock : Z) (type : eloop_event_type) : L unit :=
  eloop_sock_table_remove_sock type sock.

Definition eloop_register_read_sock (sock handler eloop_data user_data : Z) : L Z :=
  eloop_register_sock sock EVENT_TYPE_READ handler eloop_data user_data.

Definition eloop_unregister_read_sock (sock : Z) : L unit :=
  eloop_unregister_sock sock EVENT_TYPE_READ.

(** FD_SET writes behind the set from FD_SETSIZE on. *)
Definition FD_SETSIZE : Z := 1024.

Fixpoint eloop_sock_table_set_fds (l : list eloop_sock) : outcome (list Z) :=
  match l with
  | [] => Ret []
  | s :: l' =>
      if (0 <=? es_sock s) && (es_sock s <? FD_SETSIZE) then
        fds ← eloop_sock_table_set_fds l'; Ret (es_sock s :: fds)
      else UB "FD_SET"
  end.

(** The loop of [eloop_sock_table_dispatch]: the table is read again in every
    round, since a handler may change it, and then the loop ends. *)
Fixpoint dispatch_loop (fuel : nat) (type : eloop_event_type) (fds : list Z) (i : nat)
    : L unit :=
  match fuel with
  | O => lift OutOfFuel
  | S fuel' =>
      d ← get;
      match st_table (eloop_get_sock_table d type) !! i with
      | None => mret tt
      | Some s =>
          if bool_decide (es_sock s ∈ fds) then
            call (Dispatched type s (st_table (eloop_get_sock_table d type)) fds);;
            d' ← get;
            if negb (st_changed (eloop_get_sock_table d' type) =? 0) then mret tt
            else dispatch_loop fuel' type fds (S i)
          else dispatch_loop fuel' type fds (S i)
      end
  end.

Definition set_changed (d : eloop_data) (type : eloop_event_type) : eloop_data :=
  put_sock_table d type (max_sock d) (count d)
    (SockTable (st_table (eloop_get_sock_table d type)) 0).

Definition eloop_sock_table_dispatch (type : eloop_event_type) (fds : list Z) : L unit :=
  d ← get;
  put (set_changed d type);;
  dispatch_loop (S (length (st_table (eloop_get_sock_table d type)))) type fds 0.

(** ** Timeouts *)

(** [while (timeout->time.usec >= 1000000)]: one round per second. *)
Fixpoint carry_usec (fuel : nat) (t : Z * Z) : outcome (Z * Z) :=
  match fuel with
  | O => OutOfFuel
  | S fuel' =>
      if 1000000 <=? snd t then carry_usec fuel' (fst t + 1, snd t - 1000000) else Ret t
  end.

(** Before the first timeout that is later. *)
Fixpoint insert_timeout (t : eloop_timeout) (l : list eloop_timeout) : list eloop_timeout :=
  match l with
  | [] => [t]
  | tmp :: l' =>
      if os_reltime_before (et_time t) (et_time tmp) then t :: l
      else tmp :: insert_timeout t l'
  end.

Definition eloop_register_timeout (secs usecs handler eloop_data user_data : Z) : L Z :=
  ok ← ask os_alloc;
  if negb ok then mret (-1)
  else
    '(r, now) ← ask os_get_reltime;
    if r <? 0 then mret (-1)
    else
      let now_sec := fst now in
      sec ← lift (if now_sec + secs <=? LONG_MAX then Ret (now_sec + secs)
                  else UB "signed overflow");
      if sec <? now_sec then mret 0
      else
        let usec := snd now + usecs in
        t ← lift (carry_usec (S (Z.to_nat (usec / 1000000))) (sec, usec));
        d ← get;
        put (set_timeout d
               (insert_timeout (EloopTimeout t eloop_data user_data handler) (timeout d)));;
        mret 0.

Definition cancel_matches (handler eloop_data user_data : Z) (t : eloop_timeout) : bool :=
  (et_handler t =? handler)
  && ((et_eloop_data t =? eloop_data) || (eloop_data =? ELOOP_ALL_CTX))
  && ((et_user_data t =? user_data) || (user_data =? ELOOP_ALL_CTX)).

Fixpoint cancel_loop (p : eloop_timeout → bool) (l : list eloop_timeout) (removed : Z)
    : list eloop_timeout * Z :=
  match l with
  | [] => ([], removed)
  | t :: l' =>
      if p t then cancel_loop p l' (removed + 1)
      else let '(k, r) := cancel_loop p l' removed in (t :: k, r)
  end.

Definition eloop_cancel_timeout (handler eloop_data user_data : Z) : L Z :=
  d ← get;
  let '(l, removed) := cancel_loop (cancel_matches handler eloop_data user_data) (timeout d) 0 in
  put (set_timeout d l);; mret removed.

Definition same_timeout (handler eloop_data user_data : Z) (t : eloop_timeout) : bool :=
  (et_handler t =? handler) && (et_eloop_data t =? eloop_data)
  && (et_user_data t =? user_data).

(** The first matching timeout and the others. *)
Fixpoint take_one (p : eloop_timeout → bool) (l : list eloop_timeout)
    : option (eloop_timeout * list eloop_timeout) :=
  match l with
  | [] => None
  | t :: l' =>
      if p t then Some (t, l')
      else match take_one p l' with Some (x, k) => Some (x, t :: k) | None => None end
  end.

(** The result and [*remaining]. *)
Definition eloop_cancel_timeout_one (handler eloop_data user_data : Z) : L (Z * (Z * Z)) :=
  '(_, now) ← ask os_get_reltime;
  d ← get;
  match take_one (same_timeout handler eloop_data user_data) (timeout d) with
  | None => mret (0, (0, 0))
  | Some (t, l) =>
      put (set_timeout d l);;
      mret (1, if os_reltime_before now (et_time t) then os_reltime_sub (et_time t) now
               else (0, 0))
  end.

Definition eloop_is_timeout_registered (handler eloop_data user_data : Z) : L Z :=
  d ← get;
  mret (b2z (existsb (same_timeout handler eloop_data user_data) (timeout d))).

(** [eloop_deplete_timeout] and [eloop_replenish_timeout] differ in the
    comparison of the requested and the remaining time. *)
Definition adjust_timeout (longer : bool) (req_secs req_usecs handler eloop_data user_data : Z)
    : L Z :=
  d ← get;
  match take_one (same_timeout handler eloop_data user_data) (timeout d) with
  | None => mret (-1)
  | Some (tmp, _) =>
      let requested := (req_secs, req_usecs) in
      '(_, now) ← ask os_get_reltime;
      let remaining := os_reltime_sub (et_time tmp) now in
      if (if longer then os_reltime_before remaining requested
          else os_reltime_before requested remaining)
      then
        eloop_cancel_timeout handler eloop_data user_data;;
        eloop_register_timeout req_secs req_usecs handler eloop_data user_data;;
        mret 1
      else mret 0
  end.

Definition eloop_deplete_timeout : Z → Z → Z → Z → Z → L Z := adjust_timeout false.
Definition eloop_replenish_timeout : Z → Z → Z → Z → Z → L Z := adjust_timeout true.

(** ** Signals *)

Fixpoint mark_signal (sig : Z) (l : list eloop_signal) : outcome (list eloop_signal) :=
  match l with
  | [] => Ret []
  | s :: l' =>
      if sg_sig s =? sig
      then n ← int_chk (sg_signaled s + 1);
           Ret (EloopSignal (sg_sig s) (sg_user_data s) (sg_handler s) n :: l')
      else l' ← mark_signal sig l'; Ret (s :: l')
  end.

(** The alarm that ends a program which does not come back to the loop is not
    modelled. *)
Definition eloop_handle_signal (sig : Z) (d : eloop_data) : outcome eloop_data :=
  let pending := if ((sig =? SIGINT) || (sig =? SIGTERM)) && (pending_terminate d =? 0)
                 then 1 else pending_terminate d in
  n ← int_chk (signaled d + 1);
  l ← mark_signal sig (signals d);
  Ret (set_signals d l n pending).

(** The signals that arrive, one after the other. *)
Fixpoint handle_signals (sigs : list Z) (d : eloop_data) : outcome eloop_data :=
  match sigs with
  | [] => Ret d
  | sig :: sigs' => d ← eloop_handle_signal sig d; handle_signals sigs' d
  end.

Fixpoint signal_loop (fuel : nat) (i : nat) : L unit :=
  match fuel with
  | O => lift OutOfFuel
  | S fuel' =>
      d ← get;
      match signals d !! i with
      | None => mret tt
      | Some s =>
          (if negb (sg_signaled s =? 0) then
             put (set_signals d
                    (<[i := EloopSignal (sg_sig s) (sg_user_data s) (sg_handler s) 0]>
                       (signals d)) (signaled d) (pending_terminate d));;
             call (Signalled s)
           else mret tt);;
          signal_loop fuel' (S i)
      end
  end.

(** [fuel] bounds how many signals the handlers register meanwhile. *)
Definition eloop_process_pending_signals (fuel : nat) : L unit :=
  d ← get;
  if signaled d =? 0 then mret tt
  else
    put (set_signals d (signals d) 0 0);;
    signal_loop fuel 0.

Definition eloop_register_signal (sig handler user_data : Z) : L Z :=
  tmp ← ask os_alloc;
  if negb tmp then mret (-1)
  else
    d ← get;
    put (set_signals d (signals d ++ [EloopSignal sig user_data handler 0]) (signaled d)
           (pending_terminate d));;
    mret 0.

Definition eloop_register_signal_terminate (handler user_data : Z) : L Z :=
  ret ← eloop_register_signal SIGINT handler user_data;
  if ret =? 0 then eloop_register_signal SIGTERM handler user_data else mret ret.

Definition eloop_register_signal_reconfig (handler user_data : Z) : L Z :=
  eloop_register_signal SIGHUP handler user_data.

(** ** The loop *)

Definition is_empty {A} (l : list A) : bool := match l with [] => true | _ => false end.

Definition keep_running (d : eloop_data) : bool :=
  (terminate d =? 0)
  && (negb (is_empty (timeout d)) || negb (is_empty (st_table (readers d)))
      || negb (is_empty (st_table (writers d))) || negb (is_empty (st_table (exceptions d)))).

(** [_tv]: how long [select] may wait. *)
Definition wait_time : L (option (Z * Z)) :=
  d ← get;
  match timeout d with
  | [] => mret None
  | t :: _ =>
      '(_, now) ← ask os_get_reltime;
      mret (Some (if os_reltime_before now (et_time t) then os_reltime_sub (et_time t) now
                  else (0, 0)))
  end.

(** [select], with the signals that arrive while it waits. *)
Definition wait_events (tv : option (Z * Z)) : L select_answer :=
  d ← get;
  rfds ← lift (eloop_sock_table_set_fds (st_table (readers d)));
  wfds ← lift (eloop_sock_table_set_fds (st_table (writers d)));
  efds ← lift (eloop_sock_table_set_fds (st_table (exceptions d)));
  a ← ask (os_select (max_sock d + 1) rfds wfds efds tv);
  d ← lift (handle_signals (sa_signals a) d);
  put d;;
  mret a.

Definition clear_changed (d : eloop_data) : eloop_data :=
  set_socks d (max_sock d) (count d) (SockTable (st_table (readers d)) 0)
    (SockTable (st_table (writers d)) 0) (SockTable (st_table (exceptions d)) 0).

(** The first timeout, when it is due, is removed and its handler called. *)
Definition run_timeout : L unit :=
  d ← get;
  match timeout d with
  | [] => mret tt
  | t :: l =>
      '(_, now) ← ask os_get_reltime;
      if negb (os_reltime_before now (et_time t)) then
        put (set_timeout d l);;
        call (Fired t now l)
      else mret tt
  end.

Definition any_changed (d : eloop_data) : bool :=
  negb (st_changed (readers d) =? 0) || negb (st_changed (writers d) =? 0)
  || negb (st_changed (exceptions d) =? 0).

(** One round of the loop: whether it goes on. *)
Definition eloop_round (fuel : nat) : L bool :=
  d ← get;
  stop ← (if negb (pending_terminate d =? 0) then
            eloop_process_pending_signals fuel;; d ← get; mret (negb (terminate d =? 0))
          else mret false);
  if (stop : bool) then d ← get; put (set_terminate d 0);; mret false
  else
    tv ← wait_time;
    a ← wait_events tv;
    if (sa_res a <? 0) && negb (sa_errno a =? EINTR) && negb (sa_errno a =? 0) then mret false
    else
      d ← get;
      put (clear_changed d);;
      eloop_process_pending_signals fuel;;
      run_timeout;;
      d ← get;
      (if (sa_res a <=? 0) || any_changed d then mret tt
       else
         eloop_sock_table_dispatch EVENT_TYPE_READ (sa_rfds a);;
         eloop_sock_table_dispatch EVENT_TYPE_WRITE (sa_wfds a);;
         eloop_sock_table_dispatch EVENT_TYPE_EXCEPTION (sa_efds a));;
      mret true.

Fixpoint run_loop (fuel : nat) : L unit :=
  match fuel with
  | O => lift OutOfFuel
  | S fuel' =>
      d ← get;
      if keep_running d then
        go ← eloop_round fuel;
        if (go : bool) then run_loop fuel' else mret tt
      else put (set_terminate d 0)
  end.

Definition eloop_run (fuel : nat) : L unit :=
  a ← ask os_alloc; b ← ask os_alloc; c ← ask os_alloc;
  if negb a || negb b || negb c then mret tt else run_loop fuel.

Definition eloop_terminate : L unit := d ← get; put (set_terminate d 1).

Definition eloop_terminated : L Z :=
  d ← get; mret (b2z (negb (terminate d =? 0) || negb (pending_terminate d =? 0))).

(** The tables and the signals are freed too; the loop may not be used again
    before [eloop_init]. *)
Definition eloop_destroy : L unit :=
  _ ← ask os_get_reltime; d ← get; put (set_timeout d []).

End Eloop.
