(* ===== verification/EloopSpec.v ===== *)
(** * What the event loop promises

    The state invariant [eloop_ok], that every operation of the loop keeps it,
    and what follows for the loop itself when handlers only use those
    operations: no undefined behaviour, timeouts fire in order and never
    early, and they do fire. *)

From S2P Require Import Prelude CString Eloop.
From Stdlib Require Import Sorted.

(** ** Reasoning about the loop *)

Section Wp.
Context {E : Type}.

(** From [w], [m] returns and [Q] holds of what it returns; [wlp] lets the
    fuel run out. *)
Definition wp {A} (m : L (E:=E) A) (Q : A → Loop → Prop) (w : Loop) : Prop :=
  match m w with Ret (a, w') => Q a w' | _ => False end.
Definition wlp {A} (m : L (E:=E) A) (Q : A → Loop → Prop) (w : Loop) : Prop :=
  match m w with Ret (a, w') => Q a w' | UB _ => False | OutOfFuel => True end.

Lemma loop_wp_wlp {A} (m : L A) Q w : wp m Q w → wlp m Q w.
Proof. unfold wp, wlp. by destruct (m w) as [[]| |]. Qed.

Lemma loop_wp_bind {A B} (m : L A) (f : A → L B) Q w :
  wp m (λ a, wp (f a) Q) w → wp (m ≫= f) Q w.
Proof. unfold wp, mbind, L_bind. by destruct (m w) as [[]| |]. Qed.

Lemma loop_wlp_bind {A B} (m : L A) (f : A → L B) Q w :
  wlp m (λ a, wlp (f a) Q) w → wlp (m ≫= f) Q w.
Proof. unfold wlp, mbind, L_bind. by destruct (m w) as [[]| |]. Qed.

Lemma loop_wp_mono {A} (m : L A) (P Q : A → Loop → Prop) w :
  (∀ a w', P a w' → Q a w') → wp m P w → wp m Q w.
Proof. unfold wp. destruct (m w) as [[]| |]; auto. Qed.

Lemma loop_wlp_mono {A} (m : L A) (P Q : A → Loop → Prop) w :
  (∀ a w', P a w' → Q a w') → wlp m P w → wlp m Q w.
Proof. unfold wlp. destruct (m w) as [[]| |]; auto. Qed.

Lemma loop_wlp_lift {A} (o : outcome A) a (Q : A → Loop → Prop) w :
  o = Ret a → Q a w → wlp (lift o) Q w.
Proof. by intros ->. Qed.

Lemma loop_wp_lift {A} (o : outcome A) a (Q : A → Loop → Prop) w :
  o = Ret a → Q a w → wp (lift o) Q w.
Proof. by intros ->. Qed.

End Wp.

(** Look at the first step of a sequence. *)
Ltac lstep := cbn beta; first [apply loop_wp_bind | apply loop_wlp_bind].

(** ** The invariant *)

Definition us (t : Z * Z) : Z := fst t * 1000000 + snd t.
Definition valid_time (t : Z * Z) : Prop := 0 ≤ snd t < 1000000.

Lemma before_us a b :
  valid_time a → valid_time b → os_reltime_before a b = true ↔ us a < us b.
Proof.
  unfold valid_time, us, os_reltime_before. intros Ha Hb.
  rewrite orb_true_iff, andb_true_iff, Z.eqb_eq, !Z.ltb_lt. lia.
Qed.

Lemma not_before_us a b :
  valid_time a → valid_time b → os_reltime_before a b = false ↔ us b ≤ us a.
Proof.
  intros Ha Hb. rewrite <- not_true_iff_false, before_us by done. lia.
Qed.

Lemma us_sub a b : us (os_reltime_sub a b) = us a - us b.
Proof. unfold us, os_reltime_sub. case_if; simpl; lia. Qed.

Definition due_before (a b : eloop_timeout) : Prop := us (et_time a) ≤ us (et_time b).

Definition in_order (l : list eloop_timeout) : Prop :=
  StronglySorted due_before l ∧ Forall (λ t, valid_time (et_time t)) l.

Record eloop_ok (d : eloop_data) : Prop := {
  ok_order : in_order (timeout d);
  ok_count : count d = strlen (es_sock <$> st_table (readers d))
                     + strlen (es_sock <$> st_table (writers d))
                     + strlen (es_sock <$> st_table (exceptions d));
  ok_socks : ∀ type, Forall (λ s, 0 ≤ es_sock s < FD_SETSIZE ∧ es_sock s ≤ max_sock d)
                       (st_table (eloop_get_sock_table d type));
}.

Lemma eloop_init_ok : eloop_ok eloop_init.
Proof. split; [by repeat constructor|done|by intros []; constructor]. Qed.

(** ** Operations on the list of timeouts *)

(** The new timeout goes behind those that are not later and before all
    those that are later: equal times keep the order of registration. *)
Lemma insert_timeout_split t l :
  in_order l → valid_time (et_time t) →
  ∃ A B, l = A ++ B ∧ insert_timeout t l = A ++ t :: B ∧
    Forall (λ a, us (et_time a) ≤ us (et_time t)) A ∧
    Forall (λ b, us (et_time t) < us (et_time b)) B.
Proof.
  intros [Hs Hv] Ht. induction l as [|x l IH]; simpl.
  - exists [], []. by split_and!.
  - apply StronglySorted_inv in Hs as [Hs Hx]. apply Forall_cons in Hv as [Hvx Hv].
    destruct (os_reltime_before _ _) eqn:Eb.
    + apply before_us in Eb; [|done..]. exists [], (x :: l). split_and!; try done.
      constructor; [done|]. eapply Forall_impl; [exact Hx|]. unfold due_before.
      intros y Hy. simpl in Hy. lia.
    + apply not_before_us in Eb; [|done..].
      destruct (IH Hs Hv) as (A & B & -> & -> & HA & HB).
      exists (x :: A), B. split_and!; [done|done|by constructor|done].
Qed.

Lemma in_order_app A B :
  in_order (A ++ B) ↔ in_order A ∧ in_order B ∧
    ∀ a b, a ∈ A → b ∈ B → due_before a b.
Proof.
  unfold in_order. rewrite Forall_app. induction A as [|x A IH]; simpl.
  - split; [intros [? [? ?]]|intros [_ [[? ?] _]]]; split_and!; try done; try constructor.
    intros a b Ha. by apply not_elem_of_nil in Ha.
  - rewrite Forall_cons. split.
    + intros [Hs [[Hx HA] HB]]. apply StronglySorted_inv in Hs as [Hs Hf].
      rewrite Forall_app in Hf. destruct Hf as [HfA HfB].
      destruct (proj1 IH) as ([HsA _] & [HsB _] & Hab); [done|].
      split_and!; try done; [by constructor|].
      intros a b [->|Ha]%elem_of_cons Hb; [|by apply Hab].
      rewrite Forall_forall in HfB. by apply HfB.
    + intros ([Hs [Hx HA]] & [HsB HB] & Hab). apply StronglySorted_inv in Hs as [Hs Hf].
      split; [|done]. constructor.
      * apply IH. split_and!; try done. intros a b Ha. apply Hab. by right.
      * apply Forall_app. split; [done|]. rewrite Forall_forall. intros b Hb.
        apply Hab; [left|done].
Qed.

Lemma insert_timeout_order t l :
  in_order l → valid_time (et_time t) → in_order (insert_timeout t l).
Proof.
  intros Ho Ht. destruct (insert_timeout_split t l Ho Ht) as (A & B & -> & -> & HA & HB).
  apply in_order_app in Ho as (HoA & [HsB HvB] & Hab). rewrite Forall_forall in HA, HB.
  apply in_order_app. split; [done|]. split.
  - split; [|by constructor]. constructor; [done|]. apply List.Forall_forall.
    intros b Hb%list_elem_of_In. unfold due_before. specialize (HB b Hb). simpl in HB. lia.
  - intros a b Ha [->|Hb]%elem_of_cons; [|by apply Hab]. by apply HA.
Qed.

Lemma cancel_loop_filter p l n :
  cancel_loop p l n
  = (List.filter (λ t, negb (p t)) l, n + Z.of_nat (length (List.filter p l))).
Proof.
  revert n. induction l as [|t l IH]; intros n; simpl; [f_equal; lia|].
  destruct (p t); simpl; rewrite IH; [|done]. f_equal. lia.
Qed.

Lemma in_order_filter p l : in_order l → in_order (List.filter p l).
Proof.
  intros [Hs Hv]. split.
  - induction Hs as [|t l Hs IH Hf]; simpl; [constructor|].
    apply Forall_cons in Hv as [_ Hv]. specialize (IH Hv). destruct (p t); [|done].
    constructor; [done|]. rewrite List.Forall_forall in Hf |- *.
    intros x [Hx _]%filter_In. by apply Hf.
  - rewrite List.Forall_forall in Hv |- *. intros x [Hx _]%filter_In. by apply Hv.
Qed.

Lemma take_one_Some p l t k :
  take_one p l = Some (t, k) →
  ∃ A B, l = A ++ t :: B ∧ k = A ++ B ∧ p t = true ∧ Forall (λ x, p x = false) A.
Proof.
  revert k. induction l as [|x l IH]; intros k; simpl; [done|]. destruct (p x) eqn:E.
  - intros [= -> ->]. exists [], k. by split_and!.
  - destruct (take_one p l) as [[y k']|]; [|done]. intros [= -> <-].
    destruct (IH k' eq_refl) as (A & B & -> & -> & Ht & HA).
    exists (x :: A), B. split_and!; try done. by constructor.
Qed.

Lemma in_order_drop A t B : in_order (A ++ t :: B) → in_order (A ++ B).
Proof.
  rewrite !in_order_app. intros (HA & [Hs Hv] & Hab). split; [done|].
  apply StronglySorted_inv in Hs as [Hs _]. apply Forall_cons in Hv as [_ Hv].
  split; [done|]. intros a b Ha Hb. apply Hab; [done|by right].
Qed.

Lemma carry_usec_S fuel t :
  carry_usec (S fuel) t
  = if 1000000 <=? snd t then carry_usec fuel (fst t + 1, snd t - 1000000) else Ret t.
Proof. done. Qed.

Lemma carry_usec_total fuel t :
  0 ≤ snd t → snd t < 1000000 * Z.of_nat (S fuel) →
  carry_usec (S fuel) t = Ret (fst t + snd t / 1000000, snd t mod 1000000).
Proof.
  revert t. induction fuel as [|fuel IH]; intros [s u] H0 Hf; rewrite carry_usec_S;
    cbn [fst snd] in *;
    (case_if; [|rewrite Z.div_small, Z.mod_small by lia; do 2 f_equal; lia]).
  - lia.
  - rewrite IH by (cbn [fst snd]; lia). cbn [fst snd]. f_equal. f_equal; lia.
Qed.

(** ** The operations a handler may use *)

(** The clock counts from boot: microseconds in range, and seconds so few that no
    timeout of 32-bit length overflows. *)
Class ClockOk (E : Type) `{EloopOS E} : Prop :=
  clock_ok (e : E) : valid_time (snd (fst (os_get_reltime e))) ∧
    0 ≤ fst (snd (fst (os_get_reltime e))) ≤ 4611686018427387904.

Inductive api_op :=
  | ApiRegisterSock (sock : Z) (type : eloop_event_type) (handler eloop_data user_data : Z)
  | ApiUnregisterSock (sock : Z) (type : eloop_event_type)
  | ApiRegisterTimeout (secs usecs handler eloop_data user_data : Z)
  | ApiCancelTimeout (handler eloop_data user_data : Z)
  | ApiCancelTimeoutOne (handler eloop_data user_data : Z)
  | ApiAdjustTimeout (longer : bool) (secs usecs handler eloop_data user_data : Z)
  | ApiRegisterSignal (sig handler user_data : Z)
  | ApiSignal (sig : Z)
  | ApiTerminate.

(** Arguments of the width of [unsigned int]; sockets that fit an [fd_set]. *)
Definition api_legal (op : api_op) : Prop :=
  match op with
  | ApiRegisterSock sock _ _ _ _ => 0 ≤ sock < FD_SETSIZE
  | ApiRegisterTimeout secs usecs _ _ _ | ApiAdjustTimeout _ secs usecs _ _ _ =>
      0 ≤ secs < 4294967296 ∧ 0 ≤ usecs < 4294967296
  | _ => True
  end.

Section Api.
Context {E : Type} `{ClockOk E}.
Implicit Types w : (Loop (E:=E)).

Definition run_api (op : api_op) : L (E:=E) unit :=
  match op with
  | ApiRegisterSock s ty h e u => _ ← eloop_register_sock s ty h e u; mret tt
  | ApiUnregisterSock s ty => eloop_unregister_sock s ty
  | ApiRegisterTimeout s us h e u => _ ← eloop_register_timeout s us h e u; mret tt
  | ApiCancelTimeout h e u => _ ← eloop_cancel_timeout h e u; mret tt
  | ApiCancelTimeoutOne h e u => _ ← eloop_cancel_timeout_one h e u; mret tt
  | ApiAdjustTimeout b s us h e u => _ ← adjust_timeout b s us h e u; mret tt
  | ApiRegisterSignal s h u => _ ← eloop_register_signal s h u; mret tt
  | ApiSignal s => d ← get; d ← lift (eloop_handle_signal s d); put d
  | ApiTerminate => eloop_terminate
  end.

Lemma loop_wp_get Q (w : Loop (E:=E)) : Q (l_data w) w → wp get Q w.
Proof. done. Qed.

Lemma loop_wp_put d (Q : unit → Loop → Prop) w :
  Q tt (mkLoop d (l_env w) (l_log w)) → wp (put d) Q w.
Proof. done. Qed.

Lemma loop_wp_ask {A} (q : E → A * E) (Q : A → Loop → Prop) w :
  Q (fst (q (l_env w))) (mkLoop (l_data w) (snd (q (l_env w))) (l_log w)) → wp (ask q) Q w.
Proof. unfold wp, ask. by destruct (q (l_env w)). Qed.

(** ** Counting signals

    [k] more signals can be counted without an overflow of the counters. *)
Definition counted (k : Z) (d : eloop_data) : Prop :=
  0 ≤ signaled d ∧ signaled d + k ≤ INT_MAX ∧
  Forall (λ s, 0 ≤ sg_signaled s ∧ sg_signaled s + k ≤ INT_MAX) (signals d).

Lemma counted_less k k' d : k' ≤ k → counted k d → counted k' d.
Proof.
  intros Hk (H1 & H2 & H3). split_and!; [done|lia|]. eapply Forall_impl; [exact H3|]. intros s [? ?].
  simpl in *. lia.
Qed.

Definition same_signals (d d' : eloop_data) : Prop :=
  signals d' = signals d ∧ signaled d' = signaled d.

Lemma counted_same k d d' : same_signals d d' → counted k d → counted k d'.
Proof. intros [E1 E2]. unfold counted. by rewrite E1, E2. Qed.

Lemma mark_signal_ok k sig l : 1 ≤ k →
  Forall (λ s, 0 ≤ sg_signaled s ∧ sg_signaled s + k ≤ INT_MAX) l →
  ∃ l', mark_signal sig l = Ret l' ∧
    Forall (λ s, 0 ≤ sg_signaled s ∧ sg_signaled s + (k - 1) ≤ INT_MAX) l'.
Proof.
  intros Hk. induction 1 as [|s l [H1 H2] Hl IH]; cbn [mark_signal]; [by exists []|].
  assert (Hl' : Forall (λ s, 0 ≤ sg_signaled s ∧ sg_signaled s + (k - 1) ≤ INT_MAX) l).
  { eapply Forall_impl; [exact Hl|]. intros x [? ?]. simpl in *. lia. }
  destruct (sg_sig s =? sig).
  - rewrite (proj2 (int_chk_Ret _ (sg_signaled s + 1))) by (unfold INT_MIN; lia). ret_simpl.
    eexists. split; [done|]. constructor; [cbn; lia|done].
  - destruct IH as (l' & -> & Hm). ret_simpl. eexists. split; [done|]. constructor; [lia|done].
Qed.

Lemma handle_signal_ok k sig d : 1 ≤ k → counted k d →
  ∃ l n p, eloop_handle_signal sig d = Ret (set_signals d l n p) ∧ counted (k - 1) (set_signals d l n p).
Proof.
  intros Hk (H1 & H2 & H3). unfold eloop_handle_signal.
  rewrite (proj2 (int_chk_Ret _ (signaled d + 1))) by (unfold INT_MIN; lia). ret_simpl.
  destruct (mark_signal_ok k sig (signals d) Hk H3) as (l & -> & Hl). ret_simpl.
  do 3 eexists. split; [done|]. split_and!; cbn; [lia|lia|done].
Qed.

(** Nothing but the timeouts, which stay in order, and the environment. *)
Definition keeps_rest (w w' : Loop (E:=E)) : Prop :=
  l_log w' = l_log w ∧ ∃ t, l_data w' = set_timeout (l_data w) t.

Lemma set_timeout_ok d t : eloop_ok d → in_order t → eloop_ok (set_timeout d t).
Proof. intros [H1 H2 H3] Ht. split; [done|done|intros []; [apply (H3 EVENT_TYPE_READ)|apply (H3 EVENT_TYPE_WRITE)|apply (H3 EVENT_TYPE_EXCEPTION)]]. Qed.

Lemma set_signals_ok d s n p : eloop_ok d → eloop_ok (set_signals d s n p).
Proof. intros [H1 H2 H3]. split; [done|done|intros []; [apply (H3 EVENT_TYPE_READ)|apply (H3 EVENT_TYPE_WRITE)|apply (H3 EVENT_TYPE_EXCEPTION)]]. Qed.

Lemma set_terminate_ok d n : eloop_ok d → eloop_ok (set_terminate d n).
Proof. intros [H1 H2 H3]. split; [done|done|intros []; [apply (H3 EVENT_TYPE_READ)|apply (H3 EVENT_TYPE_WRITE)|apply (H3 EVENT_TYPE_EXCEPTION)]]. Qed.

(** Where a new timeout ends up, when memory and clock are there. *)
Lemma register_timeout_wp secs usecs h e u w :
  eloop_ok (l_data w) → 0 ≤ secs < 4294967296 → 0 ≤ usecs < 4294967296 →
  let m := os_alloc (l_env w) in
  let c := os_get_reltime (snd m) in
  wp (eloop_register_timeout secs usecs h e u)
     (λ r w', l_log w' = l_log w ∧
        if fst m && (0 <=? fst (fst c)) then
          r = 0 ∧ ∃ t, l_data w' = set_timeout (l_data w) (insert_timeout t (timeout (l_data w))) ∧
            valid_time (et_time t) ∧
            us (et_time t) = us (snd (fst c)) + secs * 1000000 + usecs ∧
            et_handler t = h ∧ et_eloop_data t = e ∧ et_user_data t = u
        else r = -1 ∧ l_data w' = l_data w) w.
Proof.
  intros Hok Hs Hu m c. unfold eloop_register_timeout. lstep. apply loop_wp_ask. fold m.
  destruct (fst m) eqn:Em; cbn [negb andb]; [|done].
  lstep. apply loop_wp_ask. cbn [l_env l_data l_log]. fold c.
  destruct (clock_ok (snd m)) as [Hv Hsec]. fold c in Hv, Hsec. unfold valid_time in Hv.
  destruct (fst c) as [r [sec usec]]. cbn [fst snd] in *.
  destruct (Z.ltb_spec r 0) as [Hr|Hr].
  { cbn [wp mret L_ret]. rewrite (proj2 (Z.leb_gt 0 r)) by done. done. }
  rewrite (proj2 (Z.leb_le 0 r)) by done.
  lstep. apply (loop_wp_lift _ (sec + secs)).
  { rewrite (proj2 (Z.leb_le _ _)); [done|unfold LONG_MAX; lia]. }
  rewrite (proj2 (Z.ltb_ge _ sec)) by lia.
  lstep. eapply loop_wp_lift.
  { rewrite carry_usec_total; [reflexivity|cbn [snd]; lia|cbn [snd]; lia]. }
  cbn [fst snd]. lstep. apply loop_wp_get. lstep. apply loop_wp_put.
  cbn [wp mret L_ret l_data l_log]. split; [done|]. split; [done|].
  eexists. split; [done|]. cbn [et_time et_handler et_eloop_data et_user_data].
  unfold valid_time, us. cbn [fst snd]. split_and!; try done; lia.
Qed.

Lemma register_timeout_keeps secs usecs h e u w :
  eloop_ok (l_data w) → 0 ≤ secs < 4294967296 → 0 ≤ usecs < 4294967296 →
  wp (eloop_register_timeout secs usecs h e u)
     (λ _ w', eloop_ok (l_data w') ∧ keeps_rest w w') w.
Proof.
  intros Hok Hs Hu. pose proof (register_timeout_wp secs usecs h e u w Hok Hs Hu) as Hw.
  eapply loop_wp_mono; [|exact Hw]. intros r w' [Hlog Hif]. cbn beta zeta in Hif.
  destruct (_ && _).
  - destruct Hif as (_ & t & Hd & Hv & _). split.
    + rewrite Hd. apply set_timeout_ok; [done|]. apply insert_timeout_order; [|done].
      by apply ok_order.
    + split; [done|]. eauto.
  - destruct Hif as [_ Hd]. rewrite Hd. split; [done|]. split; [done|].
    exists (timeout (l_data w)). rewrite Hd. by destruct (l_data w).
Qed.

Lemma cancel_timeout_keeps h e u w :
  eloop_ok (l_data w) →
  wp (eloop_cancel_timeout h e u)
     (λ n w', eloop_ok (l_data w') ∧ keeps_rest w w' ∧
        timeout (l_data w')
        = List.filter (λ t, negb (cancel_matches h e u t)) (timeout (l_data w)) ∧
        n = Z.of_nat (length (List.filter (cancel_matches h e u) (timeout (l_data w))))) w.
Proof.
  intros Hok. unfold eloop_cancel_timeout. lstep. apply loop_wp_get.
  rewrite cancel_loop_filter. lstep. apply loop_wp_put. cbn [wp mret L_ret l_data l_log].
  split_and!; try done.
  - apply set_timeout_ok; [done|]. by apply in_order_filter, ok_order.
  - split; [done|]. by eexists.
Qed.

Lemma cancel_one_keeps h e u w :
  eloop_ok (l_data w) →
  wp (eloop_cancel_timeout_one h e u) (λ _ w', eloop_ok (l_data w') ∧ keeps_rest w w') w.
Proof.
  intros Hok. unfold eloop_cancel_timeout_one. lstep. apply loop_wp_ask.
  destruct (fst (os_get_reltime (l_env w))) as [r now]. cbn match.
  lstep. apply loop_wp_get. cbn [l_data].
  destruct (take_one _ _) as [[t l]|] eqn:E1; cbn match.
  - apply take_one_Some in E1 as (A & B & Hl & -> & _).
    lstep. apply loop_wp_put. cbn [wp mret L_ret l_data l_log]. split.
    + apply set_timeout_ok; [done|]. apply ok_order in Hok. rewrite Hl in Hok.
      by eapply in_order_drop.
    + split; [done|]. by eexists.
  - cbn [wp mret L_ret l_data l_log]. split; [done|]. split; [done|].
    exists (timeout (l_data w)). cbn [l_data]. by destruct (l_data w).
Qed.

Lemma keeps_rest_refl w w' : l_data w' = l_data w → l_log w' = l_log w → keeps_rest w w'.
Proof.
  intros Hd Hl. split; [done|]. exists (timeout (l_data w)). rewrite Hd. by destruct (l_data w).
Qed.

Lemma keeps_rest_trans w1 w2 w3 : keeps_rest w1 w2 → keeps_rest w2 w3 → keeps_rest w1 w3.
Proof.
  intros [L1 [t1 D1]] [L2 [t2 D2]]. split; [congruence|]. exists t2. by rewrite D2, D1.
Qed.

Lemma adjust_timeout_keeps longer secs usecs h e u w :
  eloop_ok (l_data w) → 0 ≤ secs < 4294967296 → 0 ≤ usecs < 4294967296 →
  wp (adjust_timeout longer secs usecs h e u)
     (λ _ w', eloop_ok (l_data w') ∧ keeps_rest w w') w.
Proof.
  intros Hok Hs Hu. unfold adjust_timeout. lstep. apply loop_wp_get.
  destruct (take_one _ _) as [[t l]|]; cbn match; [|split; [done|by apply keeps_rest_refl]].
  lstep. apply loop_wp_ask. destruct (fst (os_get_reltime (l_env w))) as [r now]. cbn match.
  cbn zeta. destruct (if longer then _ else _).
  - lstep. eapply loop_wp_mono; [|apply cancel_timeout_keeps; exact Hok].
    intros n w1 (Hok1 & Hk1 & _). lstep.
    eapply loop_wp_mono; [|by apply register_timeout_keeps].
    intros r' w2 [Hok2 Hk2]. cbn [wp mret L_ret]. split; [done|].
    eapply keeps_rest_trans; [|exact Hk2]. eapply keeps_rest_trans; [|exact Hk1].
    by apply keeps_rest_refl.
  - cbn [wp mret L_ret l_data]. split; [done|by apply keeps_rest_refl].
Qed.
(** A table is as it was, or marked as changed. *)
Definition marked (d d' : eloop_data) : Prop :=
  ∀ type, eloop_get_sock_table d' type = eloop_get_sock_table d type ∨
    st_changed (eloop_get_sock_table d' type) ≠ 0.

Lemma marked_refl d : marked d d.
Proof. intros type. by left. Qed.

Lemma marked_trans d1 d2 d3 : marked d1 d2 → marked d2 d3 → marked d1 d3.
Proof. intros H12 H23 type. destruct (H23 type) as [->|]; auto. Qed.

Lemma marked_timeout d t : marked d (set_timeout d t).
Proof. intros []; by left. Qed.

Lemma keeps_rest_marked w w' : keeps_rest w w' → marked (l_data w) (l_data w').
Proof. intros [_ [t ->]]. apply marked_timeout. Qed.

Lemma marked_put d type mx n l :
  marked d (put_sock_table d type mx n (SockTable l 1)).
Proof. intros type'. destruct type, type'; (by left) || (by right). Qed.

Lemma add_sock_keeps type sock h e u w :
  eloop_ok (l_data w) → 0 ≤ sock < FD_SETSIZE → count (l_data w) < INT_MAX →
  wp (eloop_register_sock sock type h e u)
     (λ r w', eloop_ok (l_data w') ∧ l_log w' = l_log w ∧ marked (l_data w) (l_data w') ∧
        same_signals (l_data w) (l_data w') ∧
        st_table (eloop_get_sock_table (l_data w') type)
        = st_table (eloop_get_sock_table (l_data w) type)
          ++ (if r =? 0 then [EloopSock sock e u h] else [])) w.
Proof.
  intros Hok Hs Hc. unfold eloop_register_sock.
  rewrite (proj2 (Z.leb_le 0 sock)) by lia. unfold eloop_sock_table_add_sock.
  lstep. apply loop_wp_get. lstep. apply loop_wp_ask.
  destruct (fst (os_alloc (l_env w))); cbn [negb].
  2:{ cbn [wp mret L_ret l_data l_log]. rewrite app_nil_r. split_and!; try done.
      apply marked_refl. }
  assert (Hc0 : 0 ≤ count (l_data w)).
  { rewrite (ok_count _ Hok). unfold strlen. lia. }
  lstep. apply (loop_wp_lift _ (count (l_data w) + 1)).
  { apply int_chk_Ret. unfold INT_MIN. lia. }
  lstep. apply loop_wp_put. cbn [wp mret L_ret l_data l_log].
  set (mx := if max_sock (l_data w) <? sock then sock else max_sock (l_data w)).
  assert (Hmx : sock ≤ mx ∧ max_sock (l_data w) ≤ mx) by (unfold mx; case_if; lia).
  destruct Hok as [H1 H2 H3]. split; [|split; [done|split; [apply marked_put|split; [by destruct type|]]]].
  - assert (Hold : ∀ ty, Forall (λ s, 0 ≤ es_sock s < FD_SETSIZE ∧ es_sock s ≤ mx)
                           (st_table (eloop_get_sock_table (l_data w) ty))).
    { intros ty. eapply Forall_impl; [apply H3|]. intros s [??]. simpl in *. lia. }
    split.
    + by destruct type.
    + destruct type; cbn; rewrite H2; rewrite fmap_app; unfold strlen;
        rewrite length_app; simpl; lia.
    + intros ty. destruct type, ty; cbn;
        try (apply Forall_app; split; [|repeat constructor; cbn; lia]);
        (apply (Hold EVENT_TYPE_READ) || apply (Hold EVENT_TYPE_WRITE)
         || apply (Hold EVENT_TYPE_EXCEPTION)).
  - by destruct type.
Qed.

Lemma remove_sock_Some l sock k :
  remove_sock l sock = Some k →
  ∃ A s B, l = A ++ s :: B ∧ k = A ++ B ∧ es_sock s = sock ∧
    Forall (λ s, es_sock s ≠ sock) A.
Proof.
  revert k. induction l as [|s l IH]; intros k; simpl; [done|].
  destruct (Z.eqb_spec (es_sock s) sock) as [E1|E1].
  - intros [= ->]. by exists [], s, k.
  - destruct (remove_sock l sock) as [k'|]; [|done]. intros [= <-].
    destruct (IH k' eq_refl) as (A & s' & B & -> & -> & ? & ?).
    exists (s :: A), s', B. split_and!; try done. by constructor.
Qed.

Lemma remove_sock_keeps type sock w :
  eloop_ok (l_data w) →
  wp (eloop_unregister_sock sock type)
     (λ _ w', eloop_ok (l_data w') ∧ l_log w' = l_log w ∧ marked (l_data w) (l_data w') ∧
        same_signals (l_data w) (l_data w')) w.
Proof.
  intros Hok. unfold eloop_unregister_sock, eloop_sock_table_remove_sock. lstep. apply loop_wp_get.
  destruct (remove_sock _ _) as [k|] eqn:Er.
  2:{ cbn. split_and!; try done. apply marked_refl. }
  apply loop_wp_put. cbn [l_data l_log]. destruct Hok as [H1 H2 H3].
  split; [|split; [done|split; [apply marked_put|by destruct type]]].
  apply remove_sock_Some in Er as (A & s & B & Hl & -> & _).
  assert (Hk : Forall (λ s, 0 ≤ es_sock s < FD_SETSIZE ∧ es_sock s ≤ max_sock (l_data w))
                 (A ++ B)).
  { specialize (H3 type). rewrite Hl in H3. apply Forall_app in H3 as [HA HB].
    apply Forall_cons in HB as [_ HB]. by apply Forall_app. }
  split.
  - by destruct type.
  - destruct type; cbn in Hl |- *; rewrite H2, Hl; unfold strlen;
      rewrite !length_fmap, !length_app; simpl; lia.
  - intros ty. destruct type, ty; cbn; try exact Hk;
      (apply (H3 EVENT_TYPE_READ) || apply (H3 EVENT_TYPE_WRITE)
       || apply (H3 EVENT_TYPE_EXCEPTION)).
Qed.

(** One more socket or signal must still be countable. *)
Definition api_room (op : api_op) (d : eloop_data) : Prop :=
  match op with
  | ApiRegisterSock _ _ _ _ _ => count d < INT_MAX
  | ApiSignal _ => counted 1 d
  | _ => True
  end.

Definition signals_of (op : api_op) : Z := match op with ApiSignal _ => 1 | _ => 0 end.

(** Every operation keeps the invariant, never fails to return and marks the
    tables it changes; only a signal counts. *)
Lemma api_keeps op w :
  eloop_ok (l_data w) → api_legal op → api_room op (l_data w) →
  wp (run_api op) (λ _ w', eloop_ok (l_data w') ∧ l_log w' = l_log w ∧
                           marked (l_data w) (l_data w') ∧
                           ∀ k, 0 ≤ k → counted (k + signals_of op) (l_data w) → counted k (l_data w')) w.
Proof.
  intros Hok Hleg Hc.
  assert (Hsame : ∀ d d' k, same_signals d d' → counted (k + 0) d → counted k d').
  { intros d d' k Hs Hk. eapply counted_same; [exact Hs|]. by rewrite Z.add_0_r in Hk. }
  assert (Hrest : ∀ w w', keeps_rest w w' → same_signals (l_data w) (l_data w')).
  { intros w0 w' [_ [t ->]]. done. }
  destruct op as [s ty h e u|s ty|secs usecs h e u|h e u|h e u
    |b secs usecs h e u|sig h u|sig|]; cbn [run_api api_legal api_room signals_of] in *.
  - lstep. eapply loop_wp_mono; [|by apply add_sock_keeps]. intros r w' (?&?&?&?&_).
    split_and!; [done..|]. intros k _. by apply Hsame.
  - eapply loop_wp_mono; [|by apply remove_sock_keeps]. intros r w' (?&?&?&?).
    split_and!; [done..|]. intros k _. by apply Hsame.
  - destruct Hleg. lstep. eapply loop_wp_mono; [|by apply register_timeout_keeps].
    intros r w' (? & Hk). split_and!; [done|apply Hk|by apply keeps_rest_marked|intros k _; by apply Hsame, Hrest].
  - lstep. eapply loop_wp_mono; [|by apply cancel_timeout_keeps].
    intros r w' (? & Hk & _). split_and!; [done|apply Hk|by apply keeps_rest_marked|intros k _; by apply Hsame, Hrest].
  - lstep. eapply loop_wp_mono; [|by apply cancel_one_keeps].
    intros r w' (? & Hk). split_and!; [done|apply Hk|by apply keeps_rest_marked|intros k _; by apply Hsame, Hrest].
  - destruct Hleg. lstep. eapply loop_wp_mono; [|by apply adjust_timeout_keeps].
    intros r w' (? & Hk). split_and!; [done|apply Hk|by apply keeps_rest_marked|intros k _; by apply Hsame, Hrest].
  - lstep. unfold eloop_register_signal. lstep. apply loop_wp_ask.
    destruct (fst (os_alloc (l_env w))); cbn [negb].
    + lstep. apply loop_wp_get. lstep. apply loop_wp_put. cbn [wp mret L_ret l_data l_log].
      split_and!; [by apply set_signals_ok|done|by intros []; left|].
      intros k Hk0 (H1 & H2 & H3). rewrite Z.add_0_r in *. split_and!; [done|done|].
      cbn [signals set_signals l_data]. apply Forall_app. split; [done|]. constructor; [cbn; lia|constructor].
    + cbn. split_and!; [done..|apply marked_refl|intros k _; by apply Hsame].
  - lstep. apply loop_wp_get. lstep.
    destruct (handle_signal_ok 1 sig (l_data w) ltac:(lia) Hc) as (l & n & p & Eh & _).
    eapply loop_wp_lift; [exact Eh|]. apply loop_wp_put. cbn [l_data l_log].
    split_and!; [by apply set_signals_ok|done|by intros []; left|].
    intros k Hk0 Hk. destruct (handle_signal_ok (k + 1) sig (l_data w)) as (l' & n' & p' & Eh2 & Hk'); [lia|done|].
    rewrite Eh in Eh2. injection Eh2 as <- <- <-. by rewrite Z.add_simpl_r in Hk'.
  - unfold eloop_terminate. lstep. apply loop_wp_get. apply loop_wp_put. cbn [l_data l_log].
    split_and!; [by apply set_terminate_ok|done|by intros []; left|intros k _; by apply Hsame].
Qed.

(** What a handler can do to the loop: a sequence of successful operations,
    [n] of them signals. *)
Definition api_step (n : Z) (d d' : eloop_data) : Prop :=
  ∃ op e lg e' lg', n = signals_of op ∧ api_legal op ∧ api_room op d ∧
    run_api op (mkLoop d e lg) = Ret (tt, mkLoop d' e' lg').

Inductive api_steps : Z → eloop_data → eloop_data → Prop :=
  | steps_refl d : api_steps 0 d d
  | steps_cons n m d1 d2 d3 : api_step n d1 d2 → api_steps m d2 d3 → api_steps (n + m) d1 d3.

Lemma steps_nonneg n d d' : api_steps n d d' → 0 ≤ n.
Proof.
  induction 1 as [d|n m d1 d2 d3 (op & e & lg & e' & lg' & -> & _) _ IH]; [done|].
  assert (0 ≤ signals_of op) by by destruct op. lia.
Qed.

Lemma api_step_keeps n d d' : api_step n d d' → eloop_ok d →
  eloop_ok d' ∧ marked d d' ∧ ∀ k, 0 ≤ k → counted (k + n) d → counted k d'.
Proof.
  intros (op & e & lg & e' & lg' & -> & Hleg & Hc & Hr) Hok.
  pose proof (api_keeps op (mkLoop d e lg) Hok Hleg Hc) as Hw.
  unfold wp in Hw. rewrite Hr in Hw. cbn [l_data l_log] in Hw. naive_solver.
Qed.

Lemma api_steps_keep n d d' : api_steps n d d' → eloop_ok d →
  eloop_ok d' ∧ marked d d' ∧ ∀ k, 0 ≤ k → counted (k + n) d → counted k d'.
Proof.
  induction 1 as [d|n m d1 d2 d3 Hs Hss IH]; intros Hok.
  { split_and!; [done|apply marked_refl|]. intros k _. by rewrite Z.add_0_r. }
  pose proof (steps_nonneg _ _ _ Hss) as Hm0.
  destruct (api_step_keeps _ _ _ Hs Hok) as (Hok2 & Hm & Hk). destruct (IH Hok2) as (Hok3 & Hm' & Hk').
  split_and!; [done|by eapply marked_trans|]. intros k Hk0 Hc. apply Hk'; [done|]. apply Hk; [lia|].
  by replace (k + m + n) with (k + (n + m)) by lia.
Qed.
End Api.

(** How many signals may still arrive in a run: a bound that the system's
    calls and the handlers use up with the signals they deliver. *)
Class SignalsLeft (E : Type) `{EloopOS E} := {
  signals_left : E → Z;
  left_nonneg e : 0 ≤ signals_left e;
  left_alloc e : signals_left (snd (os_alloc e)) ≤ signals_left e;
  left_clock e : signals_left (snd (os_get_reltime e)) ≤ signals_left e;
  left_select mx r w x tv e :
    let a := os_select mx r w x tv e in
    signals_left (snd a) + Z.of_nat (length (sa_signals (fst a))) ≤ signals_left e;
}.

(** The class of programs whose handlers return and touch the loop only
    through its operations. *)
Class HandlersOk {E} `{ClockOk E} `{!SignalsLeft E}
    (handle : invocation → eloop_data → E → outcome (eloop_data * E)) : Prop :=
  handler_steps i d e : eloop_ok d → counted (signals_left e) d →
    ∃ d' e' n, handle i d e = Ret (d', e') ∧ api_steps n d d' ∧ signals_left e' + n ≤ signals_left e.

(** ** The loop *)

(** What must hold whenever a handler is called: a timeout is due and no other
    timeout is earlier; a socket entry is registered in its table at this
    moment and its descriptor was reported; a signal has arrived. *)
Definition event_ok (ev : event) : Prop :=
  match ev with
  | Fired t now rest =>
      us (et_time t) ≤ us now ∧ Forall (λ x, us (et_time t) ≤ us (et_time x)) rest
  | Dispatched _ s table fds => s ∈ table ∧ es_sock s ∈ fds
  | Signalled s => sg_signaled s ≠ 0
  end.

Section Run.
Context {E : Type} `{HandlersOk E}.
Implicit Types w : (Loop (E:=E)).

(** The invariant, with room for the signals that may still arrive. *)
Definition fine_at (d : eloop_data) (e : E) : Prop := eloop_ok d ∧ counted (signals_left e) d.
Definition fine w : Prop := fine_at (l_data w) (l_env w).

Lemma fine_later d e e' : signals_left e' ≤ signals_left e → fine_at d e → fine_at d e'.
Proof. intros He [Hok Hc]. split; [done|]. by eapply counted_less. Qed.

Lemma fine_put d d' e : fine_at d e → eloop_ok d' → same_signals d d' → fine_at d' e.
Proof. intros [_ Hc] Hok Hs. split; [done|]. by eapply counted_same. Qed.

(** From [w] to [w']: the invariant holds, tables that changed are marked and
    every call of a handler was in order. *)
Definition good w w' : Prop :=
  fine w' ∧ ∃ evs, l_log w' = l_log w ++ evs ∧ Forall event_ok evs.

Lemma good_refl w : fine w → good w w.
Proof. split; [done|]. exists []. by rewrite app_nil_r. Qed.

Lemma good_trans w1 w2 w3 : good w1 w2 → good w2 w3 → good w1 w3.
Proof.
  intros [_ (e1 & H12 & F1)] [Hok (e2 & H23 & F2)]. split; [done|]. exists (e1 ++ e2).
  rewrite H23, H12, app_assoc. split; [done|]. by apply Forall_app.
Qed.

(** A state that differs only where the log does not look. *)
Lemma good_data w d e : fine_at d e → good w (mkLoop d e (l_log w)).
Proof. split; [done|]. exists []. by rewrite app_nil_r. Qed.

Lemma good_from w w1 w2 :
  good w1 w2 → l_log w1 = l_log w → good w w2.
Proof. intros [Hok2 (ev & He & Hf)] Hl. split; [done|]. exists ev. by rewrite He, Hl. Qed.

Lemma call_good ev w :
  fine w → event_ok ev →
  wp (call handle ev) (λ _ w', good w w' ∧ marked (l_data w) (l_data w')) w.
Proof.
  intros [Hok Hc] Hev. unfold wp, call.
  destruct (handler_steps (invoked ev) (l_data w) (l_env w) Hok Hc) as (d' & e' & n & -> & Hs & Hn).
  destruct (api_steps_keep _ _ _ Hs Hok) as (Hok' & Hm & Hk). split; [|done]. split.
  - split; [done|]. apply Hk; [apply left_nonneg|]. by eapply counted_less.
  - exists [ev]. split; [done|by constructor].
Qed.

Lemma set_fds_spec l mx :
  Forall (λ s, 0 ≤ es_sock s < FD_SETSIZE ∧ es_sock s ≤ mx) l →
  eloop_sock_table_set_fds l = Ret (es_sock <$> l).
Proof.
  induction 1 as [|s l [[H1' H2'] _] Hl IH]; simpl; [done|].
  rewrite (proj2 (Z.leb_le _ _)), (proj2 (Z.ltb_lt _ _)) by done. simpl. by rewrite IH.
Qed.

Lemma clear_ok d : eloop_ok d → eloop_ok (clear_changed d).
Proof.
  intros [A1 A2 A3]. split; [done|done|].
  intros []; [apply (A3 EVENT_TYPE_READ)|apply (A3 EVENT_TYPE_WRITE)|apply (A3 EVENT_TYPE_EXCEPTION)].
Qed.

Lemma set_changed_ok d type : eloop_ok d → eloop_ok (set_changed d type).
Proof.
  intros [A1 A2 A3]. destruct type;
    (split; [done|done|intros []; [apply (A3 EVENT_TYPE_READ)|apply (A3 EVENT_TYPE_WRITE)
                                  |apply (A3 EVENT_TYPE_EXCEPTION)]]).
Qed.

(** The dispatch of one table always ends: a handler that changes the table
    ends it, and otherwise the table is walked once. *)
Lemma dispatch_loop_good fuel type fds i w :
  fine w →
  (length (st_table (eloop_get_sock_table (l_data w) type)) < fuel + i)%nat →
  (i ≤ length (st_table (eloop_get_sock_table (l_data w) type)))%nat →
  wp (dispatch_loop handle fuel type fds i) (λ _ w', good w w') w.
Proof.
  revert i w. induction fuel as [|fuel IH]; intros i w Hok Hf Hi; [lia|].
  cbn [dispatch_loop]. lstep. apply loop_wp_get.
  set (table := st_table (eloop_get_sock_table (l_data w) type)) in *.
  destruct (table !! i) as [s|] eqn:Es; [|by apply good_refl].
  assert (Hlt : (i < length table)%nat) by (by eapply lookup_lt_Some).
  case_bool_decide as Hfd.
  - lstep. eapply loop_wp_mono; [|apply call_good; [done|]].
    2:{ split; [by eapply list_elem_of_lookup_2|done]. }
    intros ? w1 [Hg Hm]. lstep. apply loop_wp_get.
    destruct (Hm type) as [Ht|Hch].
    + destruct (negb _); [done|].
      eapply loop_wp_mono; [|apply (IH (S i) w1)].
      * intros ? w2 Hg2. by eapply good_trans.
      * apply Hg.
      * rewrite Ht. fold table. lia.
      * rewrite Ht. fold table. lia.
    + apply Z.eqb_neq in Hch. rewrite Hch. done.
  - apply IH; [done|fold table; lia|fold table; lia].
Qed.

Lemma dispatch_good type fds w :
  fine w →
  wp (eloop_sock_table_dispatch handle type fds) (λ _ w', good w w') w.
Proof.
  intros Hok. unfold eloop_sock_table_dispatch. lstep. apply loop_wp_get. lstep. apply loop_wp_put.
  assert (Ht : st_table (eloop_get_sock_table (set_changed (l_data w) type) type)
               = st_table (eloop_get_sock_table (l_data w) type)) by (by destruct type).
  eapply loop_wp_mono; [|apply dispatch_loop_good].
  - intros ? w' Hg. by eapply (good_from _ _ _ Hg).
  - eapply fine_put; [exact Hok|apply set_changed_ok, Hok|by destruct type].
  - cbn [l_data]. rewrite Ht. lia.
  - lia.
Qed.

Lemma signal_loop_good fuel i w :
  fine w → wlp (signal_loop handle fuel i) (λ _ w', good w w') w.
Proof.
  revert i w. induction fuel as [|fuel IH]; intros i w Hok; [done|].
  cbn [signal_loop]. lstep. apply loop_wp_wlp, loop_wp_get.
  destruct (signals (l_data w) !! i) as [s|]; [|apply loop_wp_wlp; by apply good_refl].
  lstep. destruct (Z.eqb_spec (sg_signaled s) 0) as [E0|E0]; cbn [negb].
  - apply loop_wp_wlp. cbn. by apply IH.
  - lstep. apply loop_wp_wlp, loop_wp_put. apply loop_wp_wlp. eapply loop_wp_mono; [|apply call_good].
    + intros ? w1 [Hg _]. eapply loop_wlp_mono; [|apply IH, Hg].
      intros ? w2 Hg2. eapply good_trans; [|exact Hg2].
      by eapply (good_from _ _ _ Hg).
    + split; [apply set_signals_ok, Hok|]. destruct Hok as [_ (H1' & H2' & H3')]. split_and!; [done|done|].
      apply Forall_insert; [done|]. cbn. pose proof (left_nonneg (l_env w)). unfold INT_MAX in *. lia.
    + done.
Qed.

Lemma pending_good fuel w :
  fine w →
  wlp (eloop_process_pending_signals handle fuel) (λ _ w', good w w') w.
Proof.
  intros Hok. unfold eloop_process_pending_signals. lstep. apply loop_wp_wlp, loop_wp_get.
  destruct (_ =? 0); [apply loop_wp_wlp; by apply good_refl|].
  lstep. apply loop_wp_wlp, loop_wp_put. eapply loop_wlp_mono; [|apply signal_loop_good].
  - intros ? w' Hg. by eapply (good_from _ _ _ Hg).
  - split; [apply set_signals_ok, Hok|]. destruct Hok as [_ (H1' & H2' & H3')]. split_and!; [done| |done].
    cbn. lia.
Qed.

Lemma run_timeout_good w :
  fine w → wp (run_timeout handle) (λ _ w', good w w') w.
Proof.
  intros Hok. unfold run_timeout. lstep. apply loop_wp_get.
  destruct (timeout (l_data w)) as [|t l] eqn:Et; [by apply good_refl|].
  lstep. apply loop_wp_ask. pose proof (clock_ok (l_env w)) as [Hv _]. pose proof (left_clock (l_env w)) as Hleft.
  destruct (fst (os_get_reltime (l_env w))) as [r now]. cbn [fst snd] in Hv. cbn match.
  pose proof (ok_order _ (proj1 Hok)) as [Hs Hvt]. rewrite Et in Hs, Hvt.
  apply Forall_cons in Hvt as [Hvt _]. apply StronglySorted_inv in Hs as [Hs Hmin].
  destruct (os_reltime_before now (et_time t)) eqn:Eb; cbn [negb].
  - apply good_data. by eapply fine_later.
  - apply not_before_us in Eb; [|done..]. lstep. apply loop_wp_put.
    assert (Hok' : fine_at (set_timeout (l_data w) l) (snd (os_get_reltime (l_env w)))).
    { eapply fine_later; [exact Hleft|]. eapply fine_put; [exact Hok| |by split].
      apply set_timeout_ok; [apply Hok|]. pose proof (ok_order _ (proj1 Hok)) as Ho. rewrite Et in Ho.
      by apply (in_order_drop [] t l). }
    eapply loop_wp_mono; [|apply call_good; [exact Hok'|by split]].
    intros ? w' [Hg _]. by eapply (good_from _ _ _ Hg).
Qed.

Lemma handle_signals_ok sigs k : ∀ d, 0 ≤ k → eloop_ok d → counted (k + Z.of_nat (length sigs)) d →
  ∃ d', handle_signals sigs d = Ret d' ∧ eloop_ok d' ∧ counted k d'.
Proof.
  induction sigs as [|s sigs IH]; intros d Hk0 Hok Hc; cbn [handle_signals length] in *.
  { exists d. split_and!; [done..|]. by rewrite Z.add_0_r in Hc. }
  destruct (handle_signal_ok (k + Z.of_nat (S (length sigs))) s d) as (l & n & p & -> & Hc1); [lia|done|]. ret_simpl.
  apply IH; [done|by apply set_signals_ok|]. by replace (k + Z.of_nat (length sigs)) with (k + Z.of_nat (S (length sigs)) - 1) by lia.
Qed.

Lemma wait_time_good w :
  fine w → wp wait_time (λ _ w', good w w') w.
Proof.
  intros Hok. unfold wait_time. lstep. apply loop_wp_get.
  destruct (timeout (l_data w)); [by apply good_refl|]. lstep. apply loop_wp_ask.
  pose proof (left_clock (l_env w)) as Hleft.
  destruct (fst (os_get_reltime (l_env w))). apply good_data. by eapply fine_later.
Qed.

Lemma wait_events_good tv w :
  fine w → wp (wait_events tv) (λ _ w', good w w') w.
Proof.
  intros Hok. unfold wait_events. lstep. apply loop_wp_get. pose proof (ok_socks _ (proj1 Hok)) as Hs.
  lstep. eapply loop_wp_lift; [exact (set_fds_spec _ _ (Hs EVENT_TYPE_READ))|].
  lstep. eapply loop_wp_lift; [exact (set_fds_spec _ _ (Hs EVENT_TYPE_WRITE))|].
  lstep. eapply loop_wp_lift; [exact (set_fds_spec _ _ (Hs EVENT_TYPE_EXCEPTION))|].
  lstep. apply loop_wp_ask. lstep.
  match goal with |- context [os_select ?mx ?r ?x ?y tv (l_env w)] =>
    pose proof (left_select mx r x y tv (l_env w)) as Hleft; cbn zeta in Hleft;
    set (a := os_select mx r x y tv (l_env w)) in * end.
  destruct Hok as [Hok Hc].
  destruct (handle_signals_ok (sa_signals (fst a)) (signals_left (snd a)) (l_data w)) as (d & Ed & Hd & Hcd);
    [apply left_nonneg|done|by eapply counted_less|].
  eapply loop_wp_lift; [exact Ed|]. lstep. apply loop_wp_put.
  by apply (good_data w d (snd a)).
Qed.

Lemma eloop_round_good fuel w :
  fine w → wlp (eloop_round handle fuel) (λ _ w', good w w') w.
Proof.
  intros Hok. unfold eloop_round. lstep. apply loop_wp_wlp, loop_wp_get. lstep.
  assert (Hstop : wlp (if negb (pending_terminate (l_data w) =? 0) then
      eloop_process_pending_signals handle fuel;; d ← get; mret (negb (terminate d =? 0))
      else mret false) (λ _ w', good w w') w).
  { destruct (negb _); [|apply loop_wp_wlp; by apply good_refl].
    lstep. eapply loop_wlp_mono; [|by apply pending_good]. intros ? w1 Hg. exact Hg. }
  eapply loop_wlp_mono; [|exact Hstop]. intros stop w1 Hg1. cbn beta in Hg1. destruct stop.
  { lstep. apply loop_wp_wlp, loop_wp_get. lstep. apply loop_wp_wlp, loop_wp_put. cbn.
    eapply good_trans; [exact Hg1|]. apply good_data.
    eapply fine_put; [apply Hg1|apply set_terminate_ok, Hg1|by split]. }
  lstep. apply loop_wp_wlp. eapply loop_wp_mono; [|apply wait_time_good, Hg1].
  intros tv w2 Hg12. cbn beta in Hg12. lstep. apply loop_wp_wlp.
  pose proof (good_trans _ _ _ Hg1 Hg12) as Hg2.
  eapply loop_wp_mono; [|apply wait_events_good, Hg2]. intros a w3 Hg3. cbn beta in Hg3.
  pose proof (good_trans _ _ _ Hg2 Hg3) as Hg03.
  destruct (_ && _); [exact Hg03|].
  lstep. apply loop_wp_wlp, loop_wp_get. lstep. apply loop_wp_wlp, loop_wp_put. lstep.
  assert (Hokc : fine_at (clear_changed (l_data w3)) (l_env w3)).
  { eapply fine_put; [apply Hg03|apply clear_ok, Hg03|by split]. }
  eapply loop_wlp_mono; [|by apply pending_good]. intros ? w4 Hg4. cbn beta in Hg4.
  assert (Hg04 : good w w4).
  { eapply good_trans; [exact Hg03|]. by eapply (good_from _ _ _ Hg4). }
  lstep. apply loop_wp_wlp. eapply loop_wp_mono; [|apply run_timeout_good, Hg04].
  intros ? w5 Hg5. cbn beta in Hg5. pose proof (good_trans _ _ _ Hg04 Hg5) as Hg05.
  lstep. apply loop_wp_wlp, loop_wp_get. lstep. apply loop_wp_wlp.
  destruct (_ || _); [exact Hg05|].
  lstep. eapply loop_wp_mono; [|apply dispatch_good, Hg05]. intros ? w6 Hg6. cbn beta in Hg6.
  pose proof (good_trans _ _ _ Hg05 Hg6) as Hg06.
  lstep. eapply loop_wp_mono; [|apply dispatch_good, Hg06]. intros ? w7 Hg7. cbn beta in Hg7.
  pose proof (good_trans _ _ _ Hg06 Hg7) as Hg07.
  eapply loop_wp_mono; [|apply dispatch_good, Hg07]. intros ? w8 Hg8. cbn beta in Hg8.
  exact (good_trans _ _ _ Hg07 Hg8).
Qed.

Lemma run_loop_good fuel w :
  fine w → wlp (run_loop handle fuel) (λ _ w', good w w') w.
Proof.
  revert w. induction fuel as [|fuel IH]; intros w Hok; [done|]. cbn [run_loop].
  lstep. apply loop_wp_wlp, loop_wp_get. destruct (keep_running (l_data w)).
  - lstep. eapply loop_wlp_mono; [|by apply eloop_round_good]. intros go w1 Hg. cbn beta in Hg.
    destruct go; [|exact Hg]. eapply loop_wlp_mono; [|apply IH, Hg].
    intros ? w2 Hg2. cbn beta in Hg2. exact (good_trans _ _ _ Hg Hg2).
  - apply loop_wp_wlp, loop_wp_put. apply good_data.
    eapply fine_put; [exact Hok|apply set_terminate_ok, Hok|by split].
Qed.

Lemma run_good fuel w :
  fine w → wlp (eloop_run handle fuel) (λ _ w', good w w') w.
Proof.
  intros Hok. unfold eloop_run.
  lstep. apply loop_wp_wlp, loop_wp_ask. lstep. apply loop_wp_wlp, loop_wp_ask. lstep. apply loop_wp_wlp, loop_wp_ask.
  cbn [l_data l_env l_log].
  pose proof (left_alloc (l_env w)) as L1. set (e1 := snd (os_alloc (l_env w))) in *.
  pose proof (left_alloc e1) as L2. set (e2 := snd (os_alloc e1)) in *. pose proof (left_alloc e2) as L3.
  assert (Hfine : fine_at (l_data w) (snd (os_alloc e2))) by (eapply fine_later; [|exact Hok]; lia).
  destruct (_ || _); [by apply good_data|].
  eapply loop_wlp_mono; [|by apply run_loop_good]. intros ? w' Hg. cbn beta in Hg.
  by eapply (good_from _ _ _ Hg).
Qed.
End Run.

(** ** The timeouts do fire *)

(** A system on which [select] on no descriptors waits for as long as it was
    asked and reports nothing. *)
Class PatientOS (E : Type) `{EloopOS E} (now : E → Z * Z) : Prop := {
  po_alloc e : os_alloc e = (true, e);
  po_clock e : os_get_reltime e = ((0, now e), e);
  po_valid e : valid_time (now e);
  po_select mx tv e : ∃ a e', os_select mx [] [] [] (Some tv) e = (a, e') ∧ sa_res a = 0 ∧
    sa_signals a = [] ∧ us (now e) + us tv ≤ us (now e');
}.

Section Fire.
Context {E : Type} `{PatientOS E now}.
Context (handle : invocation → eloop_data → E → outcome (eloop_data * E)).

(** Handlers that leave the loop alone. *)
Context (Hquiet : ∀ i d e, ∃ e', handle i d e = Ret (d, e')).

Definition idle (d : eloop_data) : Prop :=
  st_table (readers d) = [] ∧ st_table (writers d) = [] ∧ st_table (exceptions d) = [] ∧
  terminate d = 0 ∧ pending_terminate d = 0 ∧ signaled d = 0.

(** One round: the first timeout fires, whatever it is. *)
Lemma round_fires fuel t l (w : Loop (E:=E)) :
  idle (l_data w) → timeout (l_data w) = t :: l → valid_time (et_time t) →
  wp (eloop_round handle fuel)
     (λ go w', go = true ∧ idle (l_data w') ∧ timeout (l_data w') = l ∧
        ∃ n, l_log w' = l_log w ++ [Fired t n l] ∧ us (et_time t) ≤ us n) w.
Proof.
  intros (Hr & Hw & He & Ht & Hp & Hs) Hto Hv. unfold eloop_round.
  lstep. apply loop_wp_get. rewrite Hp. cbn [Z.eqb negb]. lstep. cbn [wp mret L_ret].
  lstep. unfold wait_time. lstep. apply loop_wp_get. rewrite Hto.
  lstep. apply loop_wp_ask. rewrite po_clock. cbn [fst snd wp mret L_ret].
  set (tv := if os_reltime_before _ _ then _ else _).
  lstep. unfold wait_events. lstep. apply loop_wp_get. cbn [l_data]. rewrite Hr, Hw, He.
  do 3 (lstep; eapply loop_wp_lift; [reflexivity|]).
  lstep. apply loop_wp_ask. cbn [l_env l_data l_log].
  destruct (po_select (max_sock (l_data w) + 1) tv (l_env w)) as (a & e1 & -> & Ha & Hsig & Hadv).
  cbn [fst snd]. lstep. rewrite Hsig. eapply loop_wp_lift; [reflexivity|].
  lstep. apply loop_wp_put. cbn [wp mret L_ret].
  rewrite Ha. cbn [Z.ltb Z.compare andb l_data].
  lstep. apply loop_wp_get. lstep. apply loop_wp_put. cbn [l_data l_env l_log].
  lstep. unfold eloop_process_pending_signals. lstep. apply loop_wp_get. cbn [l_data clear_changed set_socks signaled].
  rewrite Hs. cbn [Z.eqb wp mret L_ret].
  lstep. unfold run_timeout. lstep. apply loop_wp_get. cbn [l_data clear_changed set_socks timeout].
  rewrite Hto. lstep. apply loop_wp_ask. cbn [l_env l_data l_log]. rewrite po_clock. cbn [fst snd].
  assert (Hdue : us (et_time t) ≤ us (now e1)).
  { unfold tv in Hadv. destruct (os_reltime_before (now (l_env w)) (et_time t)) eqn:Eb.
    - rewrite us_sub in Hadv. lia.
    - apply not_before_us in Eb; [|apply po_valid|done].
      change (us (0, 0)) with 0 in Hadv. lia. }
  rewrite (proj2 (not_before_us _ _ (po_valid e1) Hv) Hdue). cbn [negb].
  lstep. apply loop_wp_put. unfold wp at 1, call. cbn [l_data l_env l_log].
  edestruct Hquiet as [e2 ->]. cbn [l_data l_env l_log].
  lstep. apply loop_wp_get. rewrite orb_true_l. lstep. cbn [wp mret L_ret l_data l_log].
  split_and!; try done. exists (now e1). done.
Qed.

Lemma run_loop_fires ts (w : Loop (E:=E)) fuel :
  idle (l_data w) → timeout (l_data w) = ts → Forall (λ t, valid_time (et_time t)) ts →
  (length ts < fuel)%nat →
  wp (run_loop handle fuel)
     (λ _ w', timeout (l_data w') = [] ∧
        ∃ ns, l_log w' = l_log w ++ ns ∧
          Forall2 (λ ev t, ∃ n l, ev = Fired t n l ∧ us (et_time t) ≤ us n) ns ts) w.
Proof.
  revert w fuel. induction ts as [|t ts IH]; intros w [|fuel] Hid Hto Hv Hf; simpl in Hf; try lia;
    cbn [run_loop]; lstep; apply loop_wp_get; destruct Hid as (Hr & Hw & He & Ht & Hp & Hs).
  - unfold keep_running. rewrite Hto, Hr, Hw, He, Ht. cbn. split; [done|].
    exists []. rewrite app_nil_r. split; [done|constructor].
  - unfold keep_running at 1. rewrite Hto, Ht. cbn [Z.eqb is_empty negb orb andb].
    apply Forall_cons in Hv as [Hvt Hv].
    lstep. eapply loop_wp_mono; [|by apply (round_fires (S fuel) t ts)].
    intros go w1 (-> & Hid1 & Hto1 & n & Hlog & Hn). cbn beta.
    eapply loop_wp_mono; [|apply (IH w1 fuel); (done || lia)].
    intros ? w2 (Hto2 & ns & Hlog2 & Hns). cbn beta. split; [done|].
    exists (Fired t n ts :: ns). rewrite Hlog2, Hlog, <- app_assoc. split; [done|].
    constructor; [by exists n, ts|done].
Qed.
End Fire.

(** ** Properties *)

(** Whatever operation a handler uses, it returns and leaves the loop well
    formed: the timeouts in order of time with microseconds in range, [count]
    the sum of the three tables, [max_sock] at least every descriptor; and
    every table it has changed is marked as changed. *)
Theorem eloop_operations_keep_ok {E} `{ClockOk E} op (w : Loop (E:=E)) :
  eloop_ok (l_data w) → api_legal op → api_room op (l_data w) →
  wp (run_api op) (λ _ w', eloop_ok (l_data w') ∧ l_log w' = l_log w ∧
                           marked (l_data w) (l_data w')) w.
Proof.
  intros Hok Hl Hr. eapply loop_wp_mono; [|by apply api_keeps]. intros ? w' (? & ? & ? & _). done.
Qed.

(** [eloop_register_timeout] puts the new timeout behind those that are not
    later and before all that are later, at the time read plus the seconds and
    microseconds asked for, carried into range; without memory or clock it
    reports -1 and changes nothing. *)
Theorem eloop_register_timeout_inserts {E} `{ClockOk E} secs usecs h e u (w : Loop (E:=E)) :
  eloop_ok (l_data w) → 0 ≤ secs < 4294967296 → 0 ≤ usecs < 4294967296 →
  let m := os_alloc (l_env w) in
  let c := os_get_reltime (snd m) in
  wp (eloop_register_timeout secs usecs h e u)
     (λ r w', if fst m && (0 <=? fst (fst c)) then
          r = 0 ∧ ∃ A t B, timeout (l_data w) = A ++ B ∧ timeout (l_data w') = A ++ t :: B ∧
            us (et_time t) = us (snd (fst c)) + secs * 1000000 + usecs ∧
            valid_time (et_time t) ∧ same_timeout h e u t = true ∧
            Forall (λ a, us (et_time a) ≤ us (et_time t)) A ∧
            Forall (λ b, us (et_time t) < us (et_time b)) B
        else r = -1 ∧ l_data w' = l_data w) w.
Proof.
  intros Hok Hs Hu m c. eapply loop_wp_mono; [|by apply register_timeout_wp].
  intros r w' [_ Hif]. cbn beta zeta in Hif. subst m c. destruct (_ && _); [|done].
  destruct Hif as (-> & t & Hd & Hv & Ht & Hh & He & Hud). split; [done|].
  destruct (insert_timeout_split t _ (ok_order _ Hok) Hv) as (A & B & Hl & Hi & HA & HB).
  exists A, t, B. rewrite Hd. cbn [timeout set_timeout]. split_and!; try done.
  unfold same_timeout. by rewrite Hh, He, Hud, !Z.eqb_refl.
Qed.

(** C35: The loop itself, run on a well-formed state with handlers that only use
    its operations, with legal arguments, and a clock in range ([ClockOk]): it never has undefined behaviour, it leaves a well-formed
    state, and every call it makes of a handler is in order: a timeout fires
    only when it is due and no other pending timeout is earlier, a socket's
    handler is called only while that entry is registered and for a descriptor
    [select] reported, a signal's only when the signal has arrived. The signals
    that arrive in the run are so few that the counters, of type [int], can
    count them ([counted]: 2^31 - 1 from a new loop; [signals_overflow]). *)
Theorem eloop_run_safe {E} `{HandlersOk E handle} fuel (w : Loop (E:=E)) :
  eloop_ok (l_data w) → counted (signals_left (l_env w)) (l_data w) →
  wlp (eloop_run handle fuel)
      (λ _ w', eloop_ok (l_data w') ∧
         ∃ evs, l_log w' = l_log w ++ evs ∧ Forall event_ok evs) w.
Proof.
  intros Hok Hc. eapply loop_wlp_mono; [|apply run_good; by split]. intros ? w' [[Hok' _] He]. done.
Qed.

(** The counter of the signals that arrived is incremented by a signal handler
    that runs at any time, and reset in the loop alone. *)
Example signals_overflow :
  ∃ why, eloop_handle_signal 10 (set_signals eloop_init [] INT_MAX 0) = UB why.
Proof. eexists. by vm_compute. Qed.

(** C36: With nothing registered but timeouts, handlers that leave the loop alone and a
    system that has memory, waits as long as it is asked to and sends no
    signals, [eloop_run] returns after one round
    per timeout: each has fired exactly once, in order of time and not
    before its time. *)
Theorem eloop_timeouts_fire {E} `{PatientOS E now}
    (handle : invocation → eloop_data → E → outcome (eloop_data * E)) (w : Loop (E:=E)) :
  (∀ i d e, ∃ e', handle i d e = Ret (d, e')) →
  idle (l_data w) → Forall (λ t, valid_time (et_time t)) (timeout (l_data w)) →
  wp (eloop_run handle (S (length (timeout (l_data w)))))
     (λ _ w', timeout (l_data w') = [] ∧
        ∃ ns, l_log w' = l_log w ++ ns ∧
          Forall2 (λ ev t, ∃ n l, ev = Fired t n l ∧ us (et_time t) ≤ us n)
            ns (timeout (l_data w))) w.
Proof.
  destruct w as [d0 e0 lg0]. cbn [l_data l_log]. intros Hq Hid Hv. unfold eloop_run.
  do 3 (lstep; apply loop_wp_ask; rewrite po_alloc; cbn [fst snd l_data l_env l_log]).
  cbn [negb orb].
  apply (run_loop_fires handle Hq (timeout d0) (mkLoop d0 e0 lg0)); (done || lia).
Qed.

(** *** Systems for examples *)

(** A clock that stands still between calls of [select], which moves it by the
    time asked for, and a script of answers. *)
Record test_env := TestEnv { te_now : Z; te_script : list select_answer }.

Definition te_time (e : test_env) : Z * Z :=
  (te_now e / 1000000, te_now e mod 1000000).

#[export] Instance test_eloop_os : EloopOS test_env := {
  os_alloc e := (true, e);
  os_get_reltime e := ((0, te_time e), e);
  os_select _ _ _ _ tv e :=
    let later := match tv with Some t => te_now e + us t | None => te_now e end in
    match te_script e with
    | a :: s => (a, TestEnv later s)
    | [] => (SelectAnswer 0 0 [] [] [] [], TestEnv later [])
    end;
}.

(** The same without a script. *)
Record patient_env := PatientEnv { pe_now : Z }.

#[export] Instance patient_eloop_os : EloopOS patient_env := {
  os_alloc e := (true, e);
  os_get_reltime e := ((0, (pe_now e / 1000000, pe_now e mod 1000000)), e);
  os_select _ _ _ _ tv e :=
    (SelectAnswer 0 0 [] [] [] [],
     match tv with Some t => PatientEnv (pe_now e + us t) | None => e end);
}.

#[export] Instance patient_ok :
  PatientOS patient_env (λ e, (pe_now e / 1000000, pe_now e mod 1000000)).
Proof.
  split; try done; intros.
  - unfold valid_time. simpl. lia.
  - do 2 eexists. split; [reflexivity|]. cbn [pe_now]. split; [done|]. split; [done|].
    unfold us. cbn [fst snd]. lia.
Qed.

(** A clock whose seconds stay within a billion. *)
Record short_env := ShortEnv { se_now : Z }.

#[export] Instance short_eloop_os : EloopOS short_env := {
  os_alloc e := (true, e);
  os_get_reltime e :=
    ((0, ((se_now e / 1000000) mod 1000000000, se_now e mod 1000000)), e);
  os_select _ _ _ _ tv e :=
    (SelectAnswer 0 0 [] [] [] [],
     match tv with Some t => ShortEnv (se_now e + us t) | None => e end);
}.

#[export] Instance short_clock_ok : ClockOk short_env.
Proof. intros e. unfold valid_time. cbn. lia. Qed.

(** No signals arrive there. *)
#[export] Instance short_signals : SignalsLeft short_env.
Proof. by apply (Build_SignalsLeft _ _ (λ _, 0)). Defined.

(** A handler that asks to be called again a second later, and otherwise ends
    the loop. *)
Definition again_or_stop (i : invocation) (d : eloop_data) (e : short_env)
    : outcome (eloop_data * short_env) :=
  let op := match i with
            | CallTimeout 1 _ _ => ApiRegisterTimeout 1 0 1 0 0
            | _ => ApiTerminate
            end in
  '(_, w) ← run_api op (mkLoop d e []); Ret (l_data w, l_env w).

#[export] Instance again_or_stop_ok : HandlersOk again_or_stop.
Proof.
  intros i d e Hok Hc. unfold again_or_stop.
  set (op := match i with CallTimeout 1 _ _ => _ | _ => _ end).
  assert (Hop : api_legal op ∧ api_room op d ∧ signals_of op = 0).
  { unfold op. destruct i as [h ? ?| |]; try done. destruct h as [|[]|]; try done. }
  destruct Hop as (Hl & Hroom & Hn).
  pose proof (api_keeps op (mkLoop d e []) Hok Hl Hroom) as Hw. unfold wp in Hw.
  destruct (run_api op (mkLoop d e [])) as [[[] [d' e' lg']]| |] eqn:Er; try done.
  exists d', e', (0 + 0). split_and!; [done| |done]. eapply (steps_cons 0 0 d d' d'); [|constructor].
  by exists op, e, [], e', lg'.
Qed.

Definition one_timeout (h sec : Z) : eloop_timeout := EloopTimeout (sec, 0) 0 0 h.

Definition with_timeouts (ts : list eloop_timeout) : eloop_data := set_timeout eloop_init ts.

Lemma two_timeouts_ok : eloop_ok (with_timeouts [one_timeout 1 2; one_timeout 2 5]).
Proof.
  apply set_timeout_ok; [exact eloop_init_ok|]. split.
  - repeat constructor; vm_compute; discriminate.
  - repeat constructor; vm_compute; discriminate.
Qed.

Lemma eloop_operations_keep_ok_witness :
  wp (run_api (ApiRegisterSock 7 EVENT_TYPE_READ 1 2 3))
     (λ _ w', eloop_ok (l_data w') ∧ l_log w' = [] ∧
              marked (with_timeouts [one_timeout 1 2; one_timeout 2 5]) (l_data w'))
     (mkLoop (with_timeouts [one_timeout 1 2; one_timeout 2 5]) (ShortEnv 0) []).
Proof.
  apply (eloop_operations_keep_ok (ApiRegisterSock 7 EVENT_TYPE_READ 1 2 3)
    (mkLoop (with_timeouts [one_timeout 1 2; one_timeout 2 5]) (ShortEnv 0) [])).
  - exact two_timeouts_ok.
  - vm_compute. split; [discriminate|reflexivity].
  - vm_compute. reflexivity.
Defined.

Lemma eloop_register_timeout_inserts_witness :
  let w := mkLoop (with_timeouts [one_timeout 1 2; one_timeout 2 5]) (ShortEnv 0) [] in
  let m := os_alloc (l_env w) in
  let c := os_get_reltime (snd m) in
  wp (eloop_register_timeout 1 1500000 9 0 0)
     (λ r w', if fst m && (0 <=? fst (fst c)) then
          r = 0 ∧ ∃ A t B, timeout (l_data w) = A ++ B ∧ timeout (l_data w') = A ++ t :: B ∧
            us (et_time t) = us (snd (fst c)) + 1 * 1000000 + 1500000 ∧
            valid_time (et_time t) ∧ same_timeout 9 0 0 t = true ∧
            Forall (λ a, us (et_time a) ≤ us (et_time t)) A ∧
            Forall (λ b, us (et_time t) < us (et_time b)) B
        else r = -1 ∧ l_data w' = l_data w) w.
Proof.
  apply (eloop_register_timeout_inserts 1 1500000 9 0 0
    (mkLoop (with_timeouts [one_timeout 1 2; one_timeout 2 5]) (ShortEnv 0) [])).
  - exact two_timeouts_ok.
  - lia.
  - lia.
Defined.

Lemma eloop_run_safe_witness :
  wlp (eloop_run again_or_stop 20)
      (λ _ w', eloop_ok (l_data w') ∧
         ∃ evs, l_log w' = [] ++ evs ∧ Forall event_ok evs)
      (mkLoop (with_timeouts [one_timeout 1 2; one_timeout 2 5]) (ShortEnv 0) []).
Proof.
  apply (eloop_run_safe 20
    (mkLoop (with_timeouts [one_timeout 1 2; one_timeout 2 5]) (ShortEnv 0) [])).
  - exact two_timeouts_ok.
  - split_and!; [by vm_compute|by vm_compute|constructor].
Defined.

(** The run of that example: the first handler fires four times before the
    other one, registered for the fifth second, ends the loop. *)
Example again_run :
  match eloop_run again_or_stop 20
          (mkLoop (with_timeouts [one_timeout 1 2; one_timeout 2 5]) (ShortEnv 0) []) with
  | Ret (_, w') => map (λ ev, match ev with Fired t n _ => (et_handler t, n) | _ => (0, (0, 0)) end)
                     (l_log w')
                   = [(1, (2, 0)); (1, (3, 0)); (1, (4, 0)); (2, (5, 0))]
  | _ => False
  end.
Proof. vm_compute. reflexivity. Qed.

Lemma eloop_timeouts_fire_witness :
  let w := mkLoop (with_timeouts [one_timeout 1 2; one_timeout 2 5]) (PatientEnv 0) [] in
  wp (eloop_run (λ _ d e, Ret (d, e)) (S (length (timeout (l_data w)))))
     (λ _ w', timeout (l_data w') = [] ∧
        ∃ ns, l_log w' = l_log w ++ ns ∧
          Forall2 (λ ev t, ∃ n l, ev = Fired t n l ∧ us (et_time t) ≤ us n)
            ns (timeout (l_data w))) w.
Proof.
  apply (eloop_timeouts_fire (λ _ d e, Ret (d, e))
    (mkLoop (with_timeouts [one_timeout 1 2; one_timeout 2 5]) (PatientEnv 0) [])).
  - intros i d e. by exists e.
  - vm_compute. by split_and!.
  - repeat constructor; vm_compute; discriminate.
Defined.

(** *** A writer called on the strength of another registration

    The handler of a reader closes descriptor 5 and opens it again for
    another handler, as a comment in [eloop_run] says sockets may be; the loop
    skips the results of [select] only when a timeout or signal did that, so
    the new handler is called in the same round. *)
Definition reopening (i : invocation) (d : eloop_data) (e : test_env)
    : outcome (eloop_data * test_env) :=
  match i with
  | CallSock 1 _ _ _ =>
      '(_, w) ← (eloop_unregister_sock 5 EVENT_TYPE_WRITE;;
                 eloop_register_sock 5 EVENT_TYPE_WRITE 9 0 0) (mkLoop d e []);
      Ret (l_data w, l_env w)
  | _ => '(_, w) ← eloop_terminate (mkLoop d e []); Ret (l_data w, l_env w)
  end.

Definition stale_start : Loop (E:=test_env) :=
  mkLoop
    (EloopData 5 2 (SockTable [EloopSock 3 0 0 1] 0) (SockTable [EloopSock 5 0 0 2] 0)
       (SockTable [] 0) [] [] 0 0 0)
    (TestEnv 0 [SelectAnswer 2 0 [3] [5] [] []]) [].

Example stale_writer_event :
  match eloop_run reopening 3 stale_start with
  | Ret (_, w') => map invoked (l_log w') = [CallSock 1 3 0 0; CallSock 9 5 0 0]
  | _ => False
  end.
Proof. vm_compute. reflexivity. Qed.
