(* ===== verification/Scan.v ===== *)
(** * Scanning and cutting a string in its buffer

    [parse_line] of the wrapper and [tokenize_cmd] of common/cli.c run a
    pointer over a character buffer and cut words out of it by overwriting the
    separators.  A pointer is an offset; an array of pointers is a buffer of
    offsets in which -1 stands for [NULL]. *)

From S2P Require Import Prelude CString.

(** [while (p( *pos)) pos++]; one more round than the buffer has cells. *)
Fixpoint skip_while (fuel : nat) (p : Z → bool) (b : buf) (pos : Z) : outcome Z :=
  match fuel with
  | O => OutOfFuel
  | S fuel' =>
      c ← buf_get b pos;
      if p c then skip_while fuel' p b (pos + 1) else Ret pos
  end.

Definition scan (p : Z → bool) (b : buf) (pos : Z) : outcome Z :=
  skip_while (S (length b)) p b pos.

Definition NULLP : Z := -1.

(** The strings the first [n] pointers of [argv] point to. *)
Definition arg_str (argv b : buf) (i : nat) : outcome str :=
  off ← buf_get argv (Z.of_nat i); buf_str b off.

Definition args_of (argv b : buf) (n : nat) : outcome (list str) :=
  foldr (λ i acc, s ← arg_str argv b i; l ← acc; Ret (s :: l)) (Ret []) (seq 0 n).

(** [b] holds the string [s] at offset [pos]. *)
Definition holds (b : buf) (pos : Z) (s : str) : Prop :=
  0 ≤ pos ∧ ∃ rest, drop (Z.to_nat pos) b = cells (s ++ [0]) ++ rest.

Lemma holds_get b pos s i c :
  holds b pos s → (s ++ [0]) !! i = Some c → buf_get b (pos + Z.of_nat i) = Ret c.
Proof.
  intros [Hp [rest Hd]] Hi. apply buf_get_lookup; [lia|].
  replace (Z.to_nat (pos + Z.of_nat i)) with (Z.to_nat pos + i)%nat by lia.
  rewrite <- lookup_drop, Hd. unfold cells.
  rewrite lookup_app_l by (rewrite length_fmap; by eapply lookup_lt_Some).
  by rewrite list_lookup_fmap, Hi.
Qed.

Lemma holds_fits b pos s : holds b pos s → pos + strlen s < Z.of_nat (length b).
Proof.
  intros [Hp [rest Hd]]. apply (f_equal length) in Hd.
  rewrite length_drop, length_app, cells_length, length_app in Hd.
  unfold strlen. simpl in Hd. lia.
Qed.

Lemma holds_step b pos s t : holds b pos (s ++ t) → holds b (pos + strlen s) t.
Proof.
  intros [Hp [rest Hd]]. unfold strlen. split; [lia|]. exists rest.
  replace (Z.to_nat (pos + Z.of_nat (length s))) with (Z.to_nat pos + length s)%nat by lia.
  rewrite <- drop_drop, Hd. unfold cells. rewrite <- app_assoc, !fmap_app, <- !app_assoc.
  by rewrite drop_app_length' by (by rewrite length_fmap).
Qed.

Lemma holds_str b pos s : cstring s → holds b pos s → buf_str b pos = Ret s.
Proof.
  intros Hs [Hp [rest Hd]]. unfold buf_str. rewrite (proj2 (Z.ltb_ge pos 0)) by lia.
  rewrite Hd. unfold cells. rewrite fmap_app, <- app_assoc. by apply cells_str_app.
Qed.

(** Scanning stops at the first character the test rejects. *)
Lemma skip_while_spec fuel p b pos u s :
  holds b pos (u ++ s) → Forall (λ c, p c = true) u →
  (∀ c, head (s ++ [0]) = Some c → p c = false) → (length u < fuel)%nat →
  skip_while fuel p b pos = Ret (pos + strlen u).
Proof.
  intros Hh Hu Hs. revert fuel pos Hh. induction Hu as [|c u Hc Hu IH];
    intros fuel pos Hh Hf; (destruct fuel as [|fuel]; [simpl in Hf; lia|]); cbn [skip_while].
  - simpl in Hh. destruct (s ++ [0]) as [|c s'] eqn:Es; [by destruct s|].
    rewrite <- (Z.add_0_r pos) at 1. change 0 with (Z.of_nat 0) at 1.
    rewrite (holds_get _ _ s 0 c Hh) by (by rewrite Es). ret_simpl.
    rewrite (Hs c eq_refl). unfold strlen. simpl. f_equal. lia.
  - rewrite <- (Z.add_0_r pos) at 1. change 0 with (Z.of_nat 0) at 1.
    rewrite (holds_get _ _ _ 0 c Hh) by done. ret_simpl. rewrite Hc.
    rewrite IH; [|apply (holds_step _ _ [c]) in Hh; exact Hh|simpl in Hf; lia].
    unfold strlen. f_equal. cbn [length]. lia.
Qed.

Lemma scan_spec p b pos u s :
  holds b pos (u ++ s) → Forall (λ c, p c = true) u →
  (∀ c, head (s ++ [0]) = Some c → p c = false) →
  scan p b pos = Ret (pos + strlen u).
Proof.
  intros Hh Hu Hs. eapply skip_while_spec; [done..|].
  apply holds_fits in Hh as Hl. destruct Hh as [Hp _]. unfold strlen in Hl.
  rewrite length_app in Hl. lia.
Qed.

(** ** Cutting *)

(** Writing behind a string leaves it alone. *)
Lemma holds_set_behind b b' pos s i c :
  holds b pos s → buf_set b i c = Ret b' → pos + strlen s < i → holds b' pos s.
Proof.
  intros [Hp [rest Hd]] [Hi ->]%buf_set_Ret Hl. split; [done|].
  unfold strlen in Hl.
  exists (<[(Z.to_nat i - Z.to_nat pos - (length s + 1))%nat := Some c]> rest).
  rewrite drop_insert_ge by lia. rewrite Hd.
  replace (Z.to_nat i - Z.to_nat pos)%nat with
    (length (cells (s ++ [0%Z])) + (Z.to_nat i - Z.to_nat pos - (length s + 1)))%nat
    by (rewrite cells_length, length_app; simpl; lia).
  rewrite insert_app_r, cells_length, length_app. simpl. do 2 f_equal. lia.
Qed.

(** Writing the terminator again leaves the string alone too. *)
Lemma holds_set_end b b' pos s i :
  holds b pos s → buf_set b i 0 = Ret b' → pos + strlen s ≤ i → holds b' pos s.
Proof.
  intros Hh Hs Hl. destruct (decide (i = pos + strlen s)) as [->|];
    [|eapply holds_set_behind; [done..|lia]].
  pose proof Hh as [Hp [rest Hd]]. apply buf_set_Ret in Hs as [_ ->]. unfold strlen in *.
  rewrite list_insert_id; [done|].
  replace (Z.to_nat (pos + Z.of_nat (length s))) with (Z.to_nat pos + length s)%nat by lia.
  rewrite <- lookup_drop, Hd. unfold cells. rewrite fmap_app, <- app_assoc.
  apply list_lookup_middle. by rewrite length_fmap.
Qed.

(** Cutting at a separator gives the word before it and leaves the rest. *)
Lemma cut_spec b pos w c s :
  holds b pos (w ++ c :: s) →
  ∃ b', buf_set b (pos + strlen w) 0 = Ret b' ∧ holds b' pos w ∧
    holds b' (pos + strlen w + 1) s ∧ length b' = length b.
Proof.
  intros Hh. pose proof (holds_fits _ _ _ Hh) as Hl. destruct Hh as [Hp [rest Hd]].
  unfold strlen in *. rewrite length_app in Hl. cbn [length] in Hl.
  assert (Hset : buf_set b (pos + Z.of_nat (length w)) 0
    = Ret (<[Z.to_nat (pos + Z.of_nat (length w)) := Some 0]> b)).
  { apply buf_set_Ret. split; [lia|done]. }
  assert (Hd' : drop (Z.to_nat pos) (<[Z.to_nat (pos + Z.of_nat (length w)) := Some 0]> b)
    = cells (w ++ [0]) ++ cells (s ++ [0]) ++ rest).
  { rewrite drop_insert_ge by lia. rewrite Hd.
    replace (Z.to_nat (pos + Z.of_nat (length w)) - Z.to_nat pos)%nat
      with (length (cells w) + 0)%nat by (rewrite cells_length; lia).
    unfold cells. rewrite !fmap_app, <- !app_assoc. rewrite insert_app_r. done. }
  eexists. split; [exact Hset|]. split_and!.
  - split; [done|]. eauto.
  - split; [lia|]. exists rest.
    replace (Z.to_nat (pos + Z.of_nat (length w) + 1)) with (Z.to_nat pos + (length w + 1))%nat
      by lia.
    rewrite <- drop_drop, Hd'. apply drop_app_length'.
    rewrite cells_length, length_app. simpl. lia.
  - by rewrite length_insert.
Qed.

(** ** Arrays of pointers *)

Lemma args_of_S argv b n l s :
  args_of argv b n = Ret l → arg_str argv b n = Ret s → args_of argv b (S n) = Ret (l ++ [s]).
Proof.
  unfold args_of. rewrite seq_S, foldr_app. simpl. revert l.
  generalize (seq 0 n). intros ks. induction ks as [|i ks IH]; simpl; intros l.
  - intros [= <-] ->. done.
  - destruct (arg_str argv b i) as [t| |]; simpl; try done.
    destruct (foldr _ (Ret []) ks) as [l'| |]; simpl; try done. intros [= <-] Hs.
    by rewrite (IH l').
Qed.

(** The first pointers of [argv] point to the strings [ws], all of which end
    before [pos]. *)
Definition words_at (argv b : buf) (ws : list str) (pos : Z) : Prop :=
  ∀ i x, ws !! i = Some x → ∃ off, buf_get argv (Z.of_nat i) = Ret off ∧
    holds b off x ∧ cstring x ∧ off + strlen x < pos.

Lemma words_at_nil argv b pos : words_at argv b [] pos.
Proof. by intros i x Hi. Qed.

Lemma words_at_args argv b ws pos :
  words_at argv b ws pos → args_of argv b (length ws) = Ret ws.
Proof.
  induction ws as [|x ws IH] using rev_ind; intros Hw; [done|].
  rewrite length_app, Nat.add_1_r. apply args_of_S.
  - apply IH. intros i y Hi. apply (Hw i y). by apply lookup_app_l_Some.
  - destruct (Hw (length ws) x) as (off & Hg & Hh & Hc & _);
      [by apply list_lookup_middle|].
    unfold arg_str. rewrite Hg. ret_simpl. by apply holds_str.
Qed.

Lemma words_at_mono argv b ws pos pos' :
  words_at argv b ws pos → pos ≤ pos' → words_at argv b ws pos'.
Proof.
  intros Hw Hle i x Hi. destruct (Hw i x Hi) as (off & ? & ? & ? & ?).
  exists off. split_and!; [done..|lia].
Qed.

Lemma words_at_set argv b b' ws pos i c :
  words_at argv b ws pos → buf_set b i c = Ret b' → pos ≤ i → words_at argv b' ws pos.
Proof.
  intros Hw Hs Hle k x Hk. destruct (Hw k x Hk) as (off & Hg & Hh & Hc & Hl).
  exists off. split_and!; [done| |done|done]. eapply holds_set_behind; [done..|lia].
Qed.

(** Storing into a later place of the array. *)
Lemma words_at_argv_set argv argv' b ws pos k v :
  words_at argv b ws pos → buf_set argv (Z.of_nat k) v = Ret argv' → (length ws ≤ k)%nat →
  words_at argv' b ws pos.
Proof.
  intros Hw [Hk ->]%buf_set_Ret Hle i x Hi. destruct (Hw i x Hi) as (off & Hg & ? & ? & ?).
  exists off. split_and!; [|done..]. apply lookup_lt_Some in Hi. unfold buf_get in *.
  rewrite (proj2 (Z.ltb_ge _ 0)) in * by lia. rewrite Nat2Z.id in *.
  by rewrite list_lookup_insert_ne by lia.
Qed.

(** One pointer more. *)
Lemma words_at_snoc argv b ws pos off x :
  words_at argv b ws pos → holds b off x → cstring x →
  (length ws < length argv)%nat → pos ≤ off →
  ∃ argv', buf_set argv (Z.of_nat (length ws)) off = Ret argv' ∧
    length argv' = length argv ∧ words_at argv' b (ws ++ [x]) (off + strlen x + 1).
Proof.
  intros Hw Hh Hc Hl Hp.
  assert (Hs : buf_set argv (Z.of_nat (length ws)) off
    = Ret (<[length ws := Some off]> argv)).
  { apply buf_set_Ret. rewrite Nat2Z.id. split; [lia|done]. }
  eexists. split; [exact Hs|]. split; [by rewrite length_insert|].
  intros i y Hi. apply lookup_snoc_Some in Hi as [[Hi Hy]|[-> <-]].
  - destruct (Hw i y Hy) as (o & Hg & ? & ? & ?). exists o. split_and!; [|done|done|].
    + unfold buf_get in *. rewrite (proj2 (Z.ltb_ge _ 0)) in * by lia.
      rewrite Nat2Z.id in *. by rewrite list_lookup_insert_ne by lia.
    + unfold strlen in *. lia.
  - exists off. split_and!; [|done|done|lia].
    apply buf_get_lookup; [lia|]. rewrite Nat2Z.id. by apply list_lookup_insert_eq.
Qed.

(** ** Splitting at the first character a test rejects *)

Fixpoint span (p : Z → bool) (s : str) : str * str :=
  match s with
  | [] => ([], [])
  | c :: s' => if p c then let '(u, r) := span p s' in (c :: u, r) else ([], s)
  end.

Lemma span_spec p s :
  s = (span p s).1 ++ (span p s).2 ∧ Forall (λ c, p c = true) (span p s).1 ∧
  (∀ c, head (span p s).2 = Some c → p c = false).
Proof.
  induction s as [|c s (IH1 & IH2 & IH3)]; simpl; [by split_and!|].
  destruct (p c) eqn:E; [|split_and!; [done|by constructor|by intros ? [= <-]]].
  destruct (span p s) as [u r]. simpl in *. split_and!; [by f_equal|by constructor|done].
Qed.

Lemma span_app p u s :
  Forall (λ c, p c = true) u → (∀ c, head s = Some c → p c = false) →
  span p (u ++ s) = (u, s).
Proof.
  intros Hu Hs. induction Hu as [|c u Hc Hu IH]; simpl.
  - destruct s as [|c s]; [done|]. simpl. by rewrite (Hs c eq_refl).
  - by rewrite Hc, IH.
Qed.

(** A scan of a held string follows [span], for tests that reject the
    terminator. *)
Lemma scan_span p b pos s :
  holds b pos s → p 0 = false → scan p b pos = Ret (pos + strlen (span p s).1).
Proof.
  intros Hh H0. destruct (span_spec p s) as (Hs & Hu & Hr).
  apply (scan_spec p b pos (span p s).1 (span p s).2); [by rewrite <- Hs|done|].
  intros c Hc. destruct (span p s).2 as [|x r] eqn:E; simpl in Hc; [by injection Hc as <-|].
  by apply Hr.
Qed.

Lemma holds_head b pos c s : holds b pos (c :: s) → buf_get b pos = Ret c.
Proof.
  intros Hh. rewrite <- (Z.add_0_r pos). change 0 with (Z.of_nat 0).
  by apply (holds_get _ _ _ _ _ Hh).
Qed.

Lemma holds_nil b pos : holds b pos [] → buf_get b pos = Ret 0.
Proof.
  intros Hh. rewrite <- (Z.add_0_r pos). change 0 with (Z.of_nat 0) at 1.
  by apply (holds_get _ _ _ _ _ Hh).
Qed.

(** ** Buffers filled up to a terminator *)

Definition written (b : buf) (n : nat) : Prop :=
  ∀ i, (i < n)%nat → ∃ c, b !! i = Some (Some c).

(** Everything up to index [n] is initialised and a NUL stands there. *)
Definition closed_at (b : buf) (n : nat) : Prop := written b n ∧ b !! n = Some (Some 0).

Lemma cells_str_closed b n :
  closed_at b n → ∃ s, cells_str b = Ret s ∧ (length s ≤ n)%nat.
Proof.
  revert n. induction b as [|c b IH]; intros n [Hw H0].
  { destruct n; done. }
  destruct n as [|n]; simpl in H0.
  { injection H0 as ->. exists []. split; [done|simpl; lia]. }
  destruct (Hw 0%nat ltac:(lia)) as [x Hx]. injection Hx as ->. cbn [cells_str].
  destruct (x =? 0); [exists []; split; [done|simpl; lia]|].
  destruct (IH n) as (s & -> & Hs).
  { split; [|done]. intros i Hi. apply (Hw (S i)). lia. }
  exists (x :: s). split; [done|simpl; lia].
Qed.

Lemma buf_str_closed b n pos :
  closed_at b n → 0 ≤ pos ≤ Z.of_nat n →
  ∃ s, buf_str b pos = Ret s ∧ pos + strlen s ≤ Z.of_nat n.
Proof.
  intros [Hw H0] Hp. unfold buf_str. rewrite (proj2 (Z.ltb_ge pos 0)) by lia.
  destruct (cells_str_closed (drop (Z.to_nat pos) b) (n - Z.to_nat pos)) as (s & Hs & Hl).
  - split.
    + intros i Hi. rewrite lookup_drop. apply Hw. lia.
    + rewrite lookup_drop. replace (Z.to_nat pos + (n - Z.to_nat pos))%nat with n by lia. done.
  - exists s. split; [done|]. unfold strlen. lia.
Qed.

(** Cutting a closed buffer before its end leaves it closed. *)
Lemma closed_at_set b b' n i :
  closed_at b n → buf_set b i 0 = Ret b' → 0 ≤ i ≤ Z.of_nat n → closed_at b' n.
Proof.
  intros [Hw H0] [Hi ->]%buf_set_Ret Hin. split.
  - intros j Hj. destruct (decide (j = Z.to_nat i)) as [->|].
    + exists 0. apply list_lookup_insert_eq. lia.
    + rewrite list_lookup_insert_ne by done. by apply Hw.
  - destruct (decide (n = Z.to_nat i)) as [->|].
    + apply list_lookup_insert_eq. lia.
    + by rewrite list_lookup_insert_ne.
Qed.

(** Terminating what was written. *)
Lemma written_close b n :
  written b n → (n < length b)%nat →
  ∃ b', buf_set b (Z.of_nat n) 0 = Ret b' ∧ closed_at b' n ∧ length b' = length b.
Proof.
  intros Hw Hn. destruct (buf_set_defined b (Z.of_nat n) 0) as [b' Hs]; [lia|].
  exists b'. split; [done|]. apply buf_set_Ret in Hs as [_ ->]. rewrite Nat2Z.id.
  split; [|by rewrite length_insert]. split.
  - intros i Hi. rewrite list_lookup_insert_ne by lia. by apply Hw.
  - by apply list_lookup_insert_eq.
Qed.

Lemma written_bytes d b n : (n ≤ length d)%nat → written (cells d ++ b) n.
Proof.
  intros Hn i Hi. rewrite lookup_app_l by (rewrite cells_length; lia). unfold cells.
  destruct (lookup_lt_is_Some_2 d i ltac:(lia)) as [c Hc].
  exists c. by rewrite list_lookup_fmap, Hc.
Qed.

Lemma closed_get b n pos : closed_at b n → 0 ≤ pos ≤ Z.of_nat n → ∃ c, buf_get b pos = Ret c.
Proof.
  intros [Hw H0] Hp. assert (∃ c, b !! Z.to_nat pos = Some (Some c)) as [c Hc].
  { destruct (decide (Z.to_nat pos = n)) as [->|]; [eauto|]. apply Hw. lia. }
  exists c. apply buf_get_lookup; [lia|done].
Qed.
