(* ===== verification/Io.v ===== *)
(** * System calls, the world and the monad of effectful code

    The operating system, the event loop and the line editor are outside the
    model: a call into them is a [syscall], answered by an instance of the
    class [OS].  Every call and its answer are appended to the trace of the
    world, so a theorem can say what the program did in which order.  [U] is
    the state of the component that runs in the world. *)

From S2P Require Import Prelude CString.

Inductive syscall : Type :=
  | Malloc (size : Z)
  | Socket
  | Bind (fd : Z) (path : str)
  | Connect (fd : Z) (path : list Z)
  | Unlink (path : str)
  | Close (fd : Z)
  | GetFl (fd : Z)
  | SetFl (fd flags : Z)
  | Send (fd : Z) (data : list Z)
  | Select (fd sec : Z)
  | Recv (fd len : Z)
  | Getpid
  | GetReltime
  | Sleep (sec : Z)
  | Access (path : str)
  | Opendir (path : str)
  | Readdir
  | Closedir
  | Getenv (name : str)
  | Setenv (name value : str)
  | Unsetenv (name : str)
  | Execute (program : option str) (arg : str) (wait : Z)
  | Strerror (errno : Z)
  | Printf (text : str)
  | Eprintf (text : str)
  | Perror (text : str)
  | EloopTerminate
  | EloopTerminated
  | EloopNext
  | EloopRegisterTimeout (sec : Z) (handler : string)
  | EloopCancelTimeout (handler : string)
  | EloopRegisterRead (fd : Z) (handler : string)
  | EloopUnregisterRead (fd : Z)
  | EditInit (hfile ps : option str)
  | EditDeinit (hfile : option str)
  | EditClearLine
  | EditRedraw.

(** The value returned, [errno] after the call, a second number (the
    microseconds of a time) and the bytes delivered. *)
Record sysres := Sysres {
  r_ret : Z;
  r_errno : Z;
  r_aux : Z;
  r_data : list Z;
}.

Definition EINTR : Z := 4.
Definition EAGAIN : Z := 11.
Definition EBUSY : Z := 16.
Definition EWOULDBLOCK : Z := EAGAIN.
Definition EADDRINUSE : Z := 98.
Definition O_NONBLOCK : Z := 2048.

Class OS (E : Type) := os_step : syscall → E → sysres * E.

Section World.
Context {E U : Type}.

(** [counter] is the static variable of [wpa_ctrl_open2]. *)
Record World := mkWorld {
  w_env : E;
  w_trace : list (syscall * sysres);
  w_counter : Z;
  w_usr : U;
}.

Definition M (A : Type) : Type := World → outcome (A * World).

#[export] Instance M_ret : MRet M := λ A a w, Ret (a, w).
#[export] Instance M_bind : MBind M := λ A B f m w,
  match m w with
  | Ret (a, w') => f a w'
  | UB why => UB why
  | OutOfFuel => OutOfFuel
  end.

Definition lift {A} (o : outcome A) : M A := λ w,
  match o with Ret a => Ret (a, w) | UB why => UB why | OutOfFuel => OutOfFuel end.

Definition get : M U := λ w, Ret (w_usr w, w).
Definition modify (f : U → U) : M unit := λ w,
  Ret (tt, mkWorld (w_env w) (w_trace w) (w_counter w) (f (w_usr w))).
Definition next_counter : M Z := λ w,
  Ret (w_counter w + 1, mkWorld (w_env w) (w_trace w) (w_counter w + 1) (w_usr w)).

Context `{OS E}.

Definition sys (c : syscall) : M sysres := λ w,
  let '(r, e) := os_step c (w_env w) in
  Ret (r, mkWorld e (w_trace w ++ [(c, r)]) (w_counter w) (w_usr w)).

Definition sys_ (c : syscall) : M unit := sys c ≫= λ _, mret tt.

(** [malloc] and its relatives: whether the block was obtained. *)
Definition alloc (size : Z) : M bool := r ← sys (Malloc size); mret (negb (r_ret r =? 0)).

Definition printf (text : str) : M unit := sys_ (Printf text).

(** [recv] of a datagram into [b]: at most [len] bytes are stored, the rest of
    the datagram is discarded. *)
Definition recv (fd : Z) (b : buf) (len : Z) : M (Z * buf) :=
  r ← sys (Recv fd len);
  if r_ret r <? 0 then mret (r_ret r, b)
  else
    let d := take (Z.to_nat len) (r_data r) in
    b' ← lift (buf_write b 0 d);
    mret (strlen d, b').

(** ** Reasoning about runs

    [wp m Q w]: from [w], [m] returns, without undefined behaviour, and [Q]
    holds of what it returns.  [wlp] allows the fuel to run out. *)
Definition wp {A} (m : M A) (Q : A → World → Prop) (w : World) : Prop :=
  match m w with Ret (a, w') => Q a w' | _ => False end.

Definition wlp {A} (m : M A) (Q : A → World → Prop) (w : World) : Prop :=
  match m w with Ret (a, w') => Q a w' | UB _ => False | OutOfFuel => True end.

Lemma wlp_ret {A} (a : A) Q w : Q a w → wlp (mret a) Q w.
Proof. done. Qed.

Lemma wlp_bind {A B} (m : M A) (f : A → M B) Q w :
  wlp m (λ a w', wlp (f a) Q w') w → wlp (m ≫= f) Q w.
Proof. unfold wlp, mbind, M_bind. destruct (m w) as [[a w']| |]; done. Qed.

Lemma wlp_mono {A} (m : M A) (P Q : A → World → Prop) w :
  wlp m P w → (∀ a w', P a w' → Q a w') → wlp m Q w.
Proof. unfold wlp. destruct (m w) as [[a w']| |]; auto. Qed.

Lemma wlp_lift {A} (o : outcome A) Q w :
  match o with Ret a => Q a w | UB _ => False | OutOfFuel => True end →
  wlp (lift o) Q w.
Proof. unfold wlp, lift. by destruct o. Qed.

Lemma wlp_lift_Ret {A} (o : outcome A) a Q w : o = Ret a → Q a w → wlp (lift o) Q w.
Proof. intros ->. by unfold wlp. Qed.

Lemma wlp_get Q w : Q (w_usr w) w → wlp get Q w.
Proof. done. Qed.

Lemma wlp_modify f Q w :
  Q tt (mkWorld (w_env w) (w_trace w) (w_counter w) (f (w_usr w))) →
  wlp (modify f) Q w.
Proof. done. Qed.

Lemma wlp_wp {A} (m : M A) Q w : wp m Q w → wlp m Q w.
Proof. unfold wp, wlp. by destruct (m w) as [[a w']| |]. Qed.

Lemma wp_run {A} (m : M A) Q w :
  wp m Q w ↔ ∃ a w', m w = Ret (a, w') ∧ Q a w'.
Proof.
  unfold wp. destruct (m w) as [[a w']| |]; split; try done.
  - eauto.
  - by intros (? & ? & [= -> ->] & ?).
  - by intros (? & ? & ? & ?).
  - by intros (? & ? & ? & ?).
Qed.

Lemma wp_ret {A} (a : A) Q w : Q a w → wp (mret a) Q w.
Proof. done. Qed.

Lemma wp_bind {A B} (m : M A) (f : A → M B) Q w :
  wp m (λ a w', wp (f a) Q w') w → wp (m ≫= f) Q w.
Proof. unfold wp, mbind, M_bind. destruct (m w) as [[a w']| |]; done. Qed.

Lemma wp_mono {A} (m : M A) (P Q : A → World → Prop) w :
  wp m P w → (∀ a w', P a w' → Q a w') → wp m Q w.
Proof. unfold wp. destruct (m w) as [[a w']| |]; auto. Qed.

Lemma wp_get (Q : U → World → Prop) w : Q (w_usr w) w → wp get Q w.
Proof. done. Qed.

Lemma wp_modify f (Q : unit → World → Prop) w :
  Q tt (mkWorld (w_env w) (w_trace w) (w_counter w) (f (w_usr w))) → wp (modify f) Q w.
Proof. done. Qed.

Lemma wp_lift_bind {A B} (o : outcome A) a (f : A → M B) Q w :
  o = Ret a → wp (f a) Q w → wp (lift o ≫= f) Q w.
Proof. intros -> Hf. apply wp_bind. done. Qed.

(** A system call extends the trace by itself and changes nothing else of the
    world than the environment. *)
Definition after (w : World) (c : syscall) (r : sysres) (e : E) : World :=
  mkWorld e (w_trace w ++ [(c, r)]) (w_counter w) (w_usr w).

Lemma wp_sys c Q w :
  (∀ r e, os_step c (w_env w) = (r, e) → Q r (after w c r e)) → wp (sys c) Q w.
Proof.
  intros HQ. unfold wp, sys. destruct (os_step c (w_env w)) as [r e] eqn:Hs. by apply HQ.
Qed.

Lemma wlp_sys c Q w : (∀ r e, Q r (after w c r e)) → wlp (sys c) Q w.
Proof. intros HQ. apply wlp_wp, wp_sys. auto. Qed.

Lemma wlp_printf t Q w : (∀ r e, Q tt (after w (Printf t) r e)) → wlp (printf t) Q w.
Proof. intros HQ. apply wlp_bind, wlp_sys. intros r e. apply HQ. Qed.

Lemma wlp_alloc n Q w :
  (∀ b r e, Q b (after w (Malloc n) r e)) → wlp (alloc n) Q w.
Proof. intros HQ. apply wlp_bind, wlp_sys. intros r e. apply HQ. Qed.

Lemma wp_sys_ (c : syscall) (Q : unit → World → Prop) w :
  (∀ r e, Q tt (after w c r e)) → wp (sys_ c) Q w.
Proof. intros HQ. apply wp_bind, wp_sys. intros r e _. apply wp_ret, HQ. Qed.

(** What a run adds to the trace. *)
Definition adds (w w' : World) (P : list (syscall * sysres) → Prop) : Prop :=
  ∃ tr, w_trace w' = w_trace w ++ tr ∧ P tr.

Lemma adds_refl (w : World) (P : _ → Prop) : P [] → adds w w P.
Proof. exists []. by rewrite app_nil_r. Qed.

Lemma adds_from (w w1 w2 : World) tr1 (R Q : _ → Prop) :
  adds w1 w2 R → w_trace w1 = w_trace w ++ tr1 → (∀ tr2, R tr2 → Q (tr1 ++ tr2)) →
  adds w w2 Q.
Proof.
  intros (tr2 & H2 & HR) H1 HQ. exists (tr1 ++ tr2). split; [|by apply HQ].
  by rewrite H2, H1, app_assoc.
Qed.

Lemma adds_exactly (w w' : World) tr (Q : _ → Prop) :
  w_trace w' = w_trace w ++ tr → Q tr → adds w w' Q.
Proof. by exists tr. Qed.

Lemma adds_trans (w w1 w2 : World) (P Q : _ → Prop) :
  adds w w1 P → (∀ tr1, P tr1 → adds w1 w2 (λ tr2, Q (tr1 ++ tr2))) → adds w w2 Q.
Proof.
  intros (tr1 & H1 & HP) HQ. destruct (HQ tr1 HP) as (tr2 & H2 & HQ2).
  exists (tr1 ++ tr2). split; [|done]. by rewrite H2, H1, app_assoc.
Qed.

(** Running a bind on a world. *)
Lemma run_bind {A B} (m : M A) (f : A → M B) w :
  (m ≫= f) w = match m w with
               | Ret (a, w') => f a w'
               | UB why => UB why
               | OutOfFuel => OutOfFuel
               end.
Proof. done. Qed.
End World.

Arguments World : clear implicits.
Arguments M : clear implicits.

(** A machine with enough memory. *)
Class Heap (E : Type) `{OS E} :=
  heap_alloc : ∀ e n, r_ret (os_step (Malloc n) e).1 ≠ 0.

Lemma alloc_ok {E U} `{Heap E} n (Q : bool → World E U → Prop) w :
  (∀ r e, Q true (after w (Malloc n) r e)) → wp (alloc n) Q w.
Proof.
  intros HQ. apply wp_bind, wp_sys. intros r e He. pose proof (heap_alloc (w_env w) n) as Hn.
  rewrite He in Hn. apply wp_ret. cbn [fst] in Hn. rewrite (proj2 (Z.eqb_neq _ 0) Hn). apply HQ.
Qed.

Create HintDb wlp discriminated.
#[export] Hint Resolve wlp_ret wlp_get : wlp.

(** The calls between two worlds that [after] relates. *)
Ltac trace_eq := simpl; rewrite <- ?app_assoc; simpl; reflexivity.
Ltac adds_run := eapply adds_exactly; [trace_eq|simpl].

(** One step of a symbolic run: a call may give any answer, a test either
    outcome. *)
Ltac run_step :=
  match goal with
  | |- wlp (_ ≫= _) _ _ => apply wlp_bind
  | |- wlp (sys _) _ _ => apply wlp_sys; intros ? ?
  | |- wlp (sys_ _) _ _ => apply wlp_bind, wlp_sys; intros ? ?
  | |- wlp (printf _) _ _ => apply wlp_printf; intros ? ?
  | |- wlp (alloc _) _ _ => apply wlp_alloc; intros ? ? ?
  | |- wlp (mret _) _ _ => apply wlp_ret
  | |- wlp (if ?b then _ else _) _ _ => let E := fresh "E" in destruct b eqn:E; zbool
  | |- wp (_ ≫= _) _ _ => apply wp_bind
  | |- wp (sys _) _ _ => apply wp_sys; intros ? ? ?
  | |- wp (sys_ _) _ _ => apply wp_sys_; intros ? ?
  | |- wp (printf _) _ _ => apply wp_sys_; intros ? ?
  | |- wp (alloc _) _ _ => apply wp_bind, wp_sys; intros ? ? ?; apply wp_ret
  | |- wp (mret _) _ _ => apply wp_ret
  | |- wp (if ?b then _ else _) _ _ => let E := fresh "E" in destruct b eqn:E; zbool
  end; cbv beta.

(** ** A scripted operating system

    The environment is the list of answers still to be given to the calls that
    matter for a scenario; [malloc] always succeeds and output is accepted. *)
Definition ok (ret : Z) : sysres := Sysres ret 0 0 [].
Definition bytes (s : string) : sysres := Sysres (strlen (lit s)) 0 0 (lit s).
Definition fails (errno : Z) : sysres := Sysres (-1) errno 0 [].

Definition script : Type := list sysres.

Definition is_quiet (c : syscall) : bool :=
  match c with
  | Malloc _ | Printf _ | Eprintf _ | Perror _ | Unlink _ | Close _ | GetFl _ | SetFl _ _
  | Sleep _ | Closedir | Setenv _ _ | Unsetenv _ | Execute _ _ _ | EloopTerminate
  | EloopRegisterTimeout _ _ | EloopCancelTimeout _ | EloopRegisterRead _ _
  | EloopUnregisterRead _ | EditClearLine | EditRedraw => true
  | _ => false
  end.

#[export] Instance script_OS : OS script := λ c e,
  if is_quiet c then (ok 1, e)
  else match e with r :: e' => (r, e') | [] => (fails 5, []) end.

Definition start {U} (e : script) (u : U) : World script U := mkWorld e [] 0 u.
