(* ===== verification/WpaCtrl.v ===== *)
(** * The control interface client (src/common/wpa_ctrl.c, UNIX sockets)

    A connection is a datagram socket bound to a file of the client and
    connected to the socket file of wpa_supplicant.  The descriptors are below
    FD_SETSIZE.  [fuel] bounds the loops of [wpa_ctrl_request], which repeat
    while the socket is busy or delivers unsolicited messages. *)

From S2P Require Import Prelude CString Io.

Record wpa_ctrl := WpaCtrl {
  s : Z;
  local_path : str;
  dest_path : list Z;
}.

Definition CONFIG_CTRL_IFACE_CLIENT_DIR : str := lit "/tmp".
Definition CONFIG_CTRL_IFACE_CLIENT_PREFIX : str := lit "wpa_ctrl_".

(** [sizeof(sun_path)] and [sizeof(struct wpa_ctrl)]. *)
Definition SUN_PATH : Z := 108.
Definition SIZEOF_WPA_CTRL : Z := 224.

(** The bytes of a block that is initialised throughout. *)
Definition buf_bytes (b : buf) : list Z := omap id b.

(** [os_reltime_sub] and [os_reltime_expired] on (sec, usec) pairs. *)
Definition os_reltime_sub (a b : Z * Z) : Z * Z :=
  let sec := a.1 - b.1 in
  let usec := a.2 - b.2 in
  if usec <? 0 then (sec - 1, usec + 1000000) else (sec, usec).

Definition os_reltime_expired (now ts : Z * Z) (timeout_secs : Z) : bool :=
  let age := os_reltime_sub now ts in
  (timeout_secs <? age.1) || ((age.1 =? timeout_secs) && (0 <? age.2)).

Section WpaCtrl.
Context {E U : Type} `{OS E}.
Local Abbreviation M := (M E U).

(** The local socket path of the [counter]-th connection of the process. *)
Definition local_name (cli_path : option str) (pid counter : Z) : str :=
  let tail := lit "/" ++ CONFIG_CTRL_IFACE_CLIENT_PREFIX ++ fmt_d pid ++ lit "-"
              ++ fmt_d counter in
  match cli_path with
  | Some (c :: p) => if c =? 47 then (c :: p) ++ tail else CONFIG_CTRL_IFACE_CLIENT_DIR ++ tail
  | _ => CONFIG_CTRL_IFACE_CLIENT_DIR ++ tail
  end.

(** From [try_again] to the successful [bind]; [again] says that the second
    try is still to come. *)
Fixpoint bind_local (again : nat) (fd : Z) (cli_path : option str) (counter : Z)
    : M (option str) :=
  pid ← sys Getpid;
  let path := local_name cli_path (r_ret pid) counter in
  if os_snprintf_error SUN_PATH (strlen path) then
    sys_ (Close fd);; mret None
  else
    r ← sys (Bind fd path);
    if r_ret r <? 0 then
      match again with
      | S again' =>
          if r_errno r =? EADDRINUSE then
            sys_ (Unlink path);; bind_local again' fd cli_path counter
          else sys_ (Close fd);; mret None
      | O => sys_ (Close fd);; mret None
      end
    else mret (Some path).

(** The address to connect to; [None] when the path does not fit. *)
Definition dest_address (ctrl_path : str) : outcome (option buf) :=
  if strncmp_eq ctrl_path (lit "@abstract:") 10 then
    b ← buf_write (zeros SUN_PATH) 1
          (take (Z.to_nat (SUN_PATH - 1 - 1)) (drop 10 ctrl_path) ++ [0]);
    Ret (Some b)
  else
    '(res, b) ← os_strlcpy (zeros SUN_PATH) ctrl_path SUN_PATH;
    Ret (if SUN_PATH <=? res then None else Some b).

Definition wpa_ctrl_open2 (ctrl_path cli_path : option str) : M (option wpa_ctrl) :=
  match ctrl_path with
  | None => mret None
  | Some ctrl_path =>
      a ← alloc SIZEOF_WPA_CTRL;
      if negb a then mret None else
      r ← sys Socket;
      let fd := r_ret r in
      if fd <? 0 then mret None else
      counter ← next_counter;
      local ← bind_local 1 fd cli_path counter;
      match local with
      | None => mret None
      | Some path =>
          dest ← lift (dest_address ctrl_path);
          match dest with
          | None => sys_ (Close fd);; mret None
          | Some b =>
              r ← sys (Connect fd (buf_bytes b));
              if r_ret r <? 0 then
                sys_ (Close fd);; sys_ (Unlink path);; mret None
              else
                flags ← sys (GetFl fd);
                (if 0 <=? r_ret flags then
                   r ← sys (SetFl fd (Z.lor (r_ret flags) O_NONBLOCK));
                   if r_ret r <? 0 then sys_ (Perror (lit "fcntl(ctrl->s, O_NONBLOCK)"))
                   else mret tt
                 else mret tt);;
                mret (Some (WpaCtrl fd path (buf_bytes b)))
          end
      end
  end.

Definition wpa_ctrl_open (ctrl_path : option str) : M (option wpa_ctrl) :=
  wpa_ctrl_open2 ctrl_path None.

Definition wpa_ctrl_close (ctrl : option wpa_ctrl) : M unit :=
  match ctrl with
  | None => mret tt
  | Some ctrl =>
      sys_ (Unlink (local_path ctrl));;
      (if 0 <=? s ctrl then sys_ (Close (s ctrl)) else mret tt)
  end.

(** From [retry_send] to the successful [send]; [false] is [send_err]. *)
Fixpoint retry_send (fuel : nat) (fd : Z) (data : list Z) (started_at : Z * Z) : M bool :=
  match fuel with
  | O => λ _, OutOfFuel
  | S fuel' =>
      r ← sys (Send fd data);
      if r_ret r <? 0 then
        if (r_errno r =? EAGAIN) || (r_errno r =? EBUSY) || (r_errno r =? EWOULDBLOCK) then
          if started_at.1 =? 0 then
            t ← sys GetReltime;
            sys_ (Sleep 1);; retry_send fuel' fd data (r_ret t, r_aux t)
          else
            n ← sys GetReltime;
            if os_reltime_expired (r_ret n, r_aux n) started_at 5 then mret false
            else sys_ (Sleep 1);; retry_send fuel' fd data started_at
        else mret false
      else mret true
  end.

(** The [for (;;)] loop: [(res, reply, *reply_len)]. *)
Fixpoint await_reply (fuel : nat) (fd : Z) (reply : buf) (reply_len : Z)
    (msg_cb : option (buf → Z → M unit)) : M (Z * buf * Z) :=
  match fuel with
  | O => λ _, OutOfFuel
  | S fuel' =>
      r ← sys (Select fd 10);
      if (r_ret r <? 0) && (r_errno r =? EINTR) then
        await_reply fuel' fd reply reply_len msg_cb
      else if r_ret r <? 0 then mret (r_ret r, reply, reply_len)
      else if negb (r_ret r =? 0) then
        '(res, reply1) ← recv fd reply reply_len;
        if res <? 0 then mret (res, reply1, reply_len)
        else
          unsolicited ← (if 0 <? res then c ← lift (buf_get reply1 0); mret (c =? 60)
                         else mret false);
          if (unsolicited : bool) then
            match msg_cb with
            | Some cb =>
                let res := if res =? reply_len then reply_len - 1 else res in
                reply2 ← lift (buf_set reply1 res 0);
                cb reply2 res;;
                await_reply fuel' fd reply2 reply_len msg_cb
            | None => await_reply fuel' fd reply1 reply_len msg_cb
            end
          else mret (0, reply1, res)
      else mret (-2, reply, reply_len)
  end.

Context (fuel : nat).

Definition wpa_ctrl_request (ctrl : wpa_ctrl) (cmd : list Z) (cmd_len : Z) (reply : buf)
    (reply_len : Z) (msg_cb : option (buf → Z → M unit)) : M (Z * buf * Z) :=
  sent ← retry_send fuel (s ctrl) (take (Z.to_nat cmd_len) cmd) (0, 0);
  if (sent : bool) then await_reply fuel (s ctrl) reply reply_len msg_cb
  else mret (-1, reply, reply_len).

Definition wpa_ctrl_attach_helper (ctrl : wpa_ctrl) (attach : Z) : M Z :=
  '(ret, b, len) ← wpa_ctrl_request ctrl (if attach =? 0 then lit "DETACH" else lit "ATTACH")
                     6 (uninit 10) 10 None;
  if ret <? 0 then mret ret
  else if len =? 3 then
    c0 ← lift (buf_get b 0);
    c1 ← lift (buf_get b 1);
    c2 ← lift (buf_get b 2);
    mret (if bool_decide ([c0; c1; c2] = lit "OK" ++ [NL]) then 0 else -1)
  else mret (-1).

Definition wpa_ctrl_attach (ctrl : wpa_ctrl) : M Z := wpa_ctrl_attach_helper ctrl 1.
Definition wpa_ctrl_detach (ctrl : wpa_ctrl) : M Z := wpa_ctrl_attach_helper ctrl 0.

Definition wpa_ctrl_recv (ctrl : wpa_ctrl) (reply : buf) (reply_len : Z) : M (Z * buf * Z) :=
  '(res, reply1) ← recv (s ctrl) reply reply_len;
  if res <? 0 then mret (res, reply1, reply_len) else mret (0, reply1, res).

(** When [select] fails the set is left as it was, with the descriptor in it. *)
Definition wpa_ctrl_pending (ctrl : wpa_ctrl) : M Z :=
  r ← sys (Select (s ctrl) 0);
  mret (if r_ret r =? 0 then 0 else 1).

Definition wpa_ctrl_get_fd (ctrl : wpa_ctrl) : Z := s ctrl.

End WpaCtrl.

(** ** What a trace leaves behind *)

Fixpoint remove_first {A} `{EqDecision A} (x : A) (l : list A) : list A :=
  match l with [] => [] | y :: l' => if decide (x = y) then l' else y :: remove_first x l' end.

(** The descriptors a run of calls has opened and not closed, starting from
    those in [o]. *)
Definition fd_step (open : list Z) (cr : syscall * sysres) : list Z :=
  match cr.1 with
  | Socket => if 0 <=? r_ret cr.2 then r_ret cr.2 :: open else open
  | Close fd => remove_first fd open
  | _ => open
  end.

Definition open_fds (o : list Z) (tr : list (syscall * sysres)) : list Z := foldl fd_step o tr.

(** The socket files it has created and not removed. *)
Definition file_step (files : list str) (cr : syscall * sysres) : list str :=
  match cr.1 with
  | Bind _ path => if 0 <=? r_ret cr.2 then path :: files else files
  | Unlink path => remove_first path files
  | _ => files
  end.

Definition socket_files (f : list str) (tr : list (syscall * sysres)) : list str :=
  foldl file_step f tr.

(** A server path that is no abstract name and does not fit the address. *)
Definition dest_too_long (p : option str) : Prop :=
  match p with
  | Some p => strncmp_eq p (lit "@abstract:") 10 = false ∧ SUN_PATH ≤ strlen p
  | None => False
  end.

Section Proofs.
Context {E U : Type} `{OS E}.
Local Abbreviation World := (World E U).

Lemma dest_address_total p :
  ∃ o, dest_address p = Ret o ∧ (o = None → dest_too_long (Some p)).
Proof.
  assert (Hw : ∀ i t, 0 ≤ i → i + strlen t ≤ SUN_PATH →
    is_Some (match buf_write (zeros SUN_PATH) i t with Ret b => Some b | _ => None end)).
  { intros i t Hi Hl. unfold buf_write. unfold zeros. rewrite length_replicate.
    rewrite (proj2 (Z.leb_le 0 i)), (proj2 (Z.leb_le _ _)) by (unfold SUN_PATH in *; lia).
    eauto. }
  unfold dest_address. destruct (strncmp_eq _ _ _) eqn:Ea.
  - destruct (Hw 1 (take (Z.to_nat (SUN_PATH - 1 - 1)) (drop 10 p) ++ [0])) as [b Hb];
      [lia| |].
    { unfold strlen, SUN_PATH. rewrite length_app, length_take. cbn [length]. lia. }
    destruct (buf_write _ _ _); try done. ret_simpl. by eexists.
  - unfold os_strlcpy. rewrite (proj2 (Z.eqb_neq SUN_PATH 0)) by done.
    destruct (Hw 0 (take (Z.to_nat (SUN_PATH - 1)) p ++ [0])) as [b Hb]; [lia| |].
    { unfold strlen, SUN_PATH. rewrite length_app, length_take. cbn [length]. lia. }
    destruct (buf_write _ _ _); try done. ret_simpl. eexists. split; [done|].
    destruct (SUN_PATH <=? strlen p) eqn:El; zbool; [by intros _|done].
Qed.

Lemma bind_ok_file fd path r f : 0 ≤ r_ret r → file_step f (Bind fd path, r) = path :: f.
Proof. intros Hr. unfold file_step. simpl. by rewrite (proj2 (Z.leb_le _ _)). Qed.

Lemma bind_failed_file fd path r f : r_ret r < 0 → file_step f (Bind fd path, r) = f.
Proof. intros Hr. unfold file_step. simpl. by rewrite (proj2 (Z.leb_gt _ _)). Qed.

Lemma close_fd fd r o : fd_step (fd :: o) (Close fd, r) = o.
Proof. unfold fd_step. simpl. by rewrite decide_True. Qed.

Lemma bind_local_spec again fd cli_path counter (w : World) :
  wp (bind_local again fd cli_path counter) (λ r w', adds w w' (λ tr,
    match r with
    | Some p => ∀ o, open_fds o tr = o ∧ socket_files [] tr = [p]
    | None => ∀ o, open_fds (fd :: o) tr = o ∧ socket_files [] tr = []
    end)) w.
Proof.
  revert w. induction again as [|again IH]; intros w; cbn [bind_local];
    apply wp_bind, wp_sys; intros pid e1 _; (case_if;
      [apply wp_bind, wp_bind, wp_sys; intros; apply wp_ret, wp_ret;
       adds_run; intros o; split; [apply close_fd|done]|]);
    apply wp_bind, wp_sys; intros r e2 _; destruct (r_ret r <? 0) eqn:Eb; zbool.
  all: try (apply wp_ret; adds_run; intros o; split; [done|by apply bind_ok_file]).
  - apply wp_bind, wp_bind, wp_sys. intros. apply wp_ret, wp_ret. adds_run.
    intros o. split; [apply close_fd|]. unfold socket_files. simpl.
    by rewrite bind_failed_file.
  - destruct (r_errno r =? EADDRINUSE).
    + apply wp_bind, wp_bind, wp_sys. intros. apply wp_ret.
      eapply wp_mono; [apply IH|]. intros l w' Ha.
      eapply (adds_from _ _ _ _ _ _ Ha); [trace_eq|]. intros tr HP.
      destruct l; intros o; destruct (HP o) as [Ho Hf]; (split; [done|]);
        unfold socket_files in *; simpl; by rewrite bind_failed_file.
    + apply wp_bind, wp_bind, wp_sys. intros. apply wp_ret, wp_ret. adds_run.
      intros o. split; [apply close_fd|]. unfold socket_files. simpl.
      by rewrite bind_failed_file.
Qed.

Lemma open_fds_app o tr1 tr2 : open_fds o (tr1 ++ tr2) = open_fds (open_fds o tr1) tr2.
Proof. apply foldl_app. Qed.

Lemma socket_files_app f tr1 tr2 :
  socket_files f (tr1 ++ tr2) = socket_files (socket_files f tr1) tr2.
Proof. apply foldl_app. Qed.

Lemma remove_first_head {A} `{EqDecision A} (x : A) l : remove_first x (x :: l) = l.
Proof. simpl. by rewrite decide_True. Qed.

(** From the bound socket on: connecting it or giving up. *)
Lemma connect_spec (w : World) fd path ctrl_path :
  wp (dest ← lift (dest_address ctrl_path);
      match dest with
      | None => sys_ (Close fd);; mret None
      | Some b =>
          r ← sys (Connect fd (buf_bytes b));
          if r_ret r <? 0 then sys_ (Close fd);; sys_ (Unlink path);; mret None
          else
            flags ← sys (GetFl fd);
            (if 0 <=? r_ret flags then
               r ← sys (SetFl fd (Z.lor (r_ret flags) O_NONBLOCK));
               if r_ret r <? 0 then sys_ (Perror (lit "fcntl(ctrl->s, O_NONBLOCK)"))
               else mret tt
             else mret tt);;
            mret (Some (WpaCtrl fd path (buf_bytes b)))
      end)
    (λ r w', adds w w' (λ tr, ∀ o,
      match r with
      | Some ct => s ct = fd ∧ local_path ct = path ∧ open_fds (fd :: o) tr = fd :: o ∧
                   socket_files [path] tr = [path]
      | None => open_fds (fd :: o) tr = o ∧
                (socket_files [path] tr = [] ∨ dest_too_long (Some ctrl_path))
      end)) w.
Proof.
  destruct (dest_address_total ctrl_path) as (dest & Hd & Hlong). apply wp_bind.
  unfold wp at 1, lift. rewrite Hd. destruct dest as [b|].
  - apply wp_bind, wp_sys. intros r e _. destruct (r_ret r <? 0) eqn:Er; zbool.
    + apply wp_bind, wp_sys_. intros. apply wp_bind, wp_sys_. intros. apply wp_ret.
      adds_run. intros o. split; [apply remove_first_head|].
      left. apply remove_first_head.
    + apply wp_bind, wp_sys. intros fl e2 _. apply wp_bind. destruct (0 <=? r_ret fl).
      * apply wp_bind, wp_sys. intros r3 e3 _. destruct (r_ret r3 <? 0).
        -- apply wp_sys_. intros. apply wp_ret. adds_run. by intros o.
        -- apply wp_ret, wp_ret. adds_run. by intros o.
      * apply wp_ret, wp_ret. adds_run. by intros o.
  - apply wp_bind, wp_sys_. intros. apply wp_ret. adds_run. intros o.
    split; [apply remove_first_head|]. right. by apply Hlong.
Qed.

(** C10: [wpa_ctrl_open2] always returns; either it gives a connection whose
    descriptor is the only one it left open and whose local path the only
    socket file it left behind, or it gives none and leaves no descriptor
    open, and no socket file unless the server path was too long. *)
Theorem wpa_ctrl_open2_no_leak ctrl_path cli_path (w : World) :
  wp (wpa_ctrl_open2 ctrl_path cli_path) (λ r w', adds w w' (λ tr,
    match r with
    | Some ct => open_fds [] tr = [s ct] ∧ socket_files [] tr = [local_path ct]
    | None => open_fds [] tr = [] ∧ (socket_files [] tr = [] ∨ dest_too_long ctrl_path)
    end)) w.
Proof.
  unfold wpa_ctrl_open2. destruct ctrl_path as [p|];
    [|apply wp_ret, adds_refl; by split; [|left]].
  apply wp_bind, wp_bind, wp_sys. intros ra ea _. apply wp_ret.
  destruct (negb (negb _)); [by apply wp_ret; adds_run; split; [|left]|].
  apply wp_bind, wp_sys. intros rs es _. destruct (r_ret rs <? 0) eqn:Es; zbool.
  { apply wp_ret. adds_run. unfold open_fds. simpl. unfold fd_step. simpl.
    rewrite (proj2 (Z.leb_gt _ _)) by lia. by split; [|left]. }
  apply wp_bind. unfold wp at 1, next_counter. apply wp_bind.
  eapply wp_mono; [apply bind_local_spec|]. intros local w1 Hb.
  assert (Ho : open_fds [] [(Malloc SIZEOF_WPA_CTRL, ra); (Socket, rs)] = [r_ret rs]).
  { unfold open_fds. simpl. unfold fd_step. simpl. by rewrite (proj2 (Z.leb_le _ _)). }
  destruct local as [path|]; cycle 1.
  { apply wp_ret. eapply (adds_from _ _ _ _ _ _ Hb); [trace_eq|]. intros tr HP.
    rewrite open_fds_app, Ho, socket_files_app. destruct (HP []). by split; [|left]. }
  eapply wp_mono; [apply connect_spec|]. intros r w2 (tr2 & H2 & HP2).
  destruct Hb as (tr1 & H1 & HP1). simpl in HP1, HP2. destruct (HP1 [r_ret rs]) as [Ho1 Hf1].
  exists ([(Malloc SIZEOF_WPA_CTRL, ra); (Socket, rs)] ++ tr1 ++ tr2).
  split; [rewrite H2, H1; simpl; by rewrite <- !app_assoc|].
  rewrite !open_fds_app, !socket_files_app, Ho, Ho1.
  change (socket_files [] [_; _]) with (@nil (list Z)). rewrite Hf1.
  specialize (HP2 []). by destruct r as [ct|]; [destruct HP2 as (-> & -> & ? & ?)|].
Qed.

End Proofs.

(** The local socket file of a connection that fails because the server path
    is too long stays behind. *)
Example open2_leaks_socket_file :
  let long := Some (replicate 108 97) in
  match wpa_ctrl_open2 long None (start [ok 3; ok 77; ok 0] tt) with
  | Ret (r, w) => r = None ∧ socket_files [] (w_trace w) = [lit "/tmp/wpa_ctrl_77-1"]
  | _ => False
  end.
Proof. split; reflexivity. Qed.

(** ** Sending *)

(** A clock, in microseconds, that every call lets run on. A [sleep] of one
    second may be cut short by a signal, but moves it by at least [pause]. *)
Class Clock (E : Type) `{OS E} := {
  clock : E → Z;
  clock_booted : ∀ e, 1000000 ≤ clock e;
  clock_mono : ∀ c e, clock e ≤ clock (os_step c e).2;
  clock_read : ∀ e, r_ret (os_step GetReltime e).1 = clock e / 1000000 ∧
                    r_aux (os_step GetReltime e).1 = clock e mod 1000000;
  pause : Z;
  pause_pos : 0 < pause;
  clock_sleep : ∀ e, clock e + pause ≤ clock (os_step (Sleep 1) e).2;
}.

(** The attempts of a send: the first, and those of the five seconds after it. *)
Definition attempts {E} `{Clock E} : nat := Z.to_nat (5000000 / pause) + 2.

Lemma os_reltime_expired_spec n t secs :
  os_reltime_expired (n / 1000000, n mod 1000000) (t / 1000000, t mod 1000000) secs = true
  ↔ secs * 1000000 < n - t.
Proof.
  unfold os_reltime_expired, os_reltime_sub. cbn [fst snd].
  destruct (n mod 1000000 - t mod 1000000 <? 0) eqn:E; zbool; cbn [fst snd];
    rewrite orb_true_iff, andb_true_iff, !Z.ltb_lt, Z.eqb_eq; lia.
Qed.

Section Send.
Context {E U : Type} `{Clock E}.
Local Abbreviation World := (World E U).

(** The calls of a send that ended with the answer [b]: at most [n] attempts. *)
Definition send_trace (fd : Z) (data : list Z) (n : nat) (b : bool)
    (tr : list (syscall * sysres)) : Prop :=
  (length (List.filter (λ cr, match cr.1 with Send _ _ => true | _ => false end) tr) ≤ n)%nat ∧
  Forall (λ cr, match cr.1 with Send fd' d => fd' = fd ∧ d = data | _ => True end) tr ∧
  (b = true ↔ ∃ tr' r, tr = tr' ++ [(Send fd data, r)] ∧ 0 ≤ r_ret r).

Lemma send_trace_skip fd data n b tr0 r tr :
  send_trace fd data n b tr →
  r_ret r < 0 →
  Forall (λ cr, match cr.1 with Send _ _ => False | _ => True end) tr0 →
  tr ≠ [] →
  send_trace fd data (S n) b ((Send fd data, r) :: tr0 ++ tr).
Proof.
  intros (Hn & HF & Hb) Hr Hskip Hne. split_and!.
  - simpl. rewrite List.filter_app, length_app.
    assert (List.filter (λ cr : syscall * sysres,
      match cr.1 with Send _ _ => true | _ => false end) tr0 = []) as ->.
    { induction Hskip as [|[c r'] l Hc _ IH]; [done|]. simpl in *. by destruct c. }
    simpl. lia.
  - constructor; [done|]. apply Forall_app. split; [|done].
    eapply Forall_impl; [exact Hskip|]. intros [c r'] Hc. by destruct c.
  - rewrite Hb. split; intros (tr' & r' & Ht & Hr').
    + exists ((Send fd data, r) :: tr0 ++ tr'), r'. split; [|done].
      rewrite Ht. simpl. by rewrite app_assoc.
    + destruct tr as [|x tr _] using rev_ind; [done|]. exists tr, r'. split; [|done].
      rewrite app_comm_cons, app_assoc in Ht. apply app_inj_tail in Ht as [_ ->]. done.
Qed.

Lemma send_trace_one fd data r n (w : World) e :
  0 ≤ r_ret r →
  adds w (after w (Send fd data) r e) (λ tr, tr ≠ [] ∧ send_trace fd data (S n) true tr).
Proof.
  intros Hr. adds_run. split; [done|]. split_and!; [simpl; lia|by repeat constructor|].
  split; [|done]. intros _. by exists [], r.
Qed.

Lemma send_trace_fail fd data r n tr0 :
  r_ret r < 0 → Forall (λ cr, match cr.1 with Send _ _ => False | _ => True end) tr0 →
  send_trace fd data (S n) false ((Send fd data, r) :: tr0).
Proof.
  intros Hr Hskip. split_and!.
  - simpl. assert (List.filter (λ cr : syscall * sysres,
      match cr.1 with Send _ _ => true | _ => false end) tr0 = []) as ->.
    { induction Hskip as [|[c r'] l Hc _ IH]; [done|]. simpl in *. by destruct c. }
    simpl. lia.
  - constructor; [done|]. eapply Forall_impl; [exact Hskip|].
    intros [c r'] Hc. by destruct c.
  - split; [done|]. intros (tr' & r' & Ht & Hr').
    destruct tr0 as [|x tr0 _] using rev_ind.
    + destruct tr' as [|y [|z tr']]; simplify_eq/=. lia.
    + rewrite app_comm_cons in Ht. apply app_inj_tail in Ht as [_ ->].
      apply Forall_app in Hskip as [_ Hx]. by inversion Hx.
Qed.

(** One attempt. *)
Lemma retry_send_S fuel' fd data started_at :
  retry_send (U := U) (S fuel') fd data started_at = (
      r ← sys (Send fd data);
      if r_ret r <? 0 then
        if (r_errno r =? EAGAIN) || (r_errno r =? EBUSY) || (r_errno r =? EWOULDBLOCK) then
          if started_at.1 =? 0 then
            t ← sys GetReltime;
            sys_ (Sleep 1);; retry_send fuel' fd data (r_ret t, r_aux t)
          else
            n ← sys GetReltime;
            if os_reltime_expired (r_ret n, r_aux n) started_at 5 then mret false
            else sys_ (Sleep 1);; retry_send fuel' fd data started_at
        else mret false
      else mret true).
Proof. done. Qed.

(** Once the clock was read and [k] pauses have passed, [n] more pauses end
    the retrying. *)
Lemma retry_started n m k fd data t0 (w : World) :
  1000000 ≤ t0 → t0 + Z.of_nat k * pause ≤ clock (w_env w) →
  5000000 < Z.of_nat (k + n) * pause → (n ≤ m)%nat →
  wp (retry_send (S m) fd data (t0 / 1000000, t0 mod 1000000))
    (λ b w', adds w w' (λ tr, tr ≠ [] ∧ send_trace fd data (S n) b tr)) w.
Proof.
  intros Ht. revert m k w. induction n as [|n IH]; intros m k w Hclk Hk Hm;
    rewrite retry_send_S; apply wp_bind, wp_sys; intros r e He;
    (destruct (r_ret r <? 0) eqn:Er; zbool; [|by apply wp_ret, send_trace_one]);
    (destruct (_ || _ || _); [|by apply wp_ret; adds_run; split; [done|apply send_trace_fail]]);
    cbn [fst]; rewrite (proj2 (Z.eqb_neq (t0 / 1000000) 0)) by lia;
    apply wp_bind, wp_sys; intros r2 e2 He2;
    pose proof (clock_mono (Send fd data) (w_env w)) as Hm1; rewrite He in Hm1;
    pose proof (clock_mono GetReltime e) as Hm2; simpl in He2; rewrite He2 in Hm2;
    pose proof (clock_read e) as [Hs Hu]; rewrite He2 in Hs, Hu; cbn [fst snd] in *;
    rewrite Hs, Hu;
    (destruct (os_reltime_expired _ _ _) eqn:Ex;
      [by apply wp_ret; adds_run; split; [done|apply send_trace_fail; [|repeat constructor]]|]).
  - rewrite (proj2 (os_reltime_expired_spec _ _ _)) in Ex; [done|].
    rewrite Nat.add_0_r in Hk. lia.
  - apply wp_bind, wp_bind, wp_sys. intros r3 e3 He3. apply wp_ret. simpl in He3.
    pose proof (clock_sleep e2) as Hsl. rewrite He3 in Hsl. simpl in Hsl.
    destruct m as [|m]; [lia|]. rewrite Nat.add_succ_r in Hk.
    eapply wp_mono; [apply (IH m (S k)); [simpl; lia|exact Hk|lia]|].
    intros b w' Ha. eapply (adds_from _ _ _ _ _ _ Ha); [trace_eq|].
    intros tr [Hne Hst]. split; [done|].
    apply (send_trace_skip fd data (S n) b [_; _] r tr); [done|done|by repeat constructor|done].
Qed.

(** The pauses that may follow the first use up the five seconds. *)
Lemma pauses_last : 5000000 < Z.of_nat (1 + Z.to_nat (5000000 / pause)) * pause.
Proof.
  pose proof pause_pos as Hp.
  assert (0 ≤ 5000000 / pause) by (apply Z.div_pos; lia).
  pose proof (Z.mod_pos_bound 5000000 pause Hp).
  pose proof (Z_div_mod_eq_full 5000000 pause). nia.
Qed.

(** C9: However busy the socket is, [retry_send] gives up: when each of its
    one-second pauses, which a signal may cut short, moves the monotonic clock,
    which is past its first second, by at least [pause] > 0 microseconds, it makes at most 5000000 / [pause] + 2
    attempts (seven if the pauses last their second), all with the same bytes,
    and reports success exactly when the last thing it did was a [send] that
    succeeded. *)
Theorem retry_send_terminates fuel fd data (w : World) :
  (attempts ≤ fuel)%nat →
  wp (retry_send fuel fd data (0, 0)) (λ b w', adds w w' (send_trace fd data attempts b)) w.
Proof.
  intros Hf. destruct fuel as [|fuel']; [unfold attempts in Hf; lia|].
  unfold attempts in *. set (n := Z.to_nat (5000000 / pause)) in *.
  replace (n + 2)%nat with (S (S n)) in * by lia.
  rewrite retry_send_S.
  apply wp_bind, wp_sys. intros r e He. destruct (r_ret r <? 0) eqn:Er; zbool.
  - destruct (_ || _ || _).
    + change (((0, 0) : Z * Z).1 =? 0) with true. cbv iota.
      apply wp_bind, wp_sys. intros r2 e2 He2. apply wp_bind, wp_bind, wp_sys.
      intros r3 e3 He3. apply wp_ret. simpl in He2, He3.
      pose proof (clock_read e) as [Hs Hu]. rewrite He2 in Hs, Hu. simpl in Hs, Hu.
      pose proof (clock_mono GetReltime e) as Hm. rewrite He2 in Hm. simpl in Hm.
      pose proof (clock_sleep e2) as Hm2. rewrite He3 in Hm2. simpl in Hm2.
      rewrite Hs, Hu. pose proof (clock_booted e). destruct fuel' as [|fuel']; [lia|].
      eapply wp_mono; [apply (retry_started n fuel' 1);
        [done|simpl; lia|exact pauses_last|lia]|].
      intros b w' Ha. eapply (adds_from _ _ _ _ _ _ Ha); [trace_eq|].
      intros tr [Hne Hst].
      apply (send_trace_skip fd data (S n) b [_; _] r tr); [done|done|by repeat constructor|done].
    + apply wp_ret. adds_run. by apply send_trace_fail.
  - apply wp_ret. destruct (send_trace_one fd data r (S n) w e Er) as (tr & Ht & _ & HP).
    by exists tr.
Qed.

End Send.

(** A socket that stays busy, on a machine whose clock the environment is. *)
Definition busy_clock (e : Z) : Z := 1000000 + Z.abs e.

Definition busy_OS : OS Z := λ c e,
  match c with
  | Send _ _ => (fails EAGAIN, e)
  | GetReltime => (Sysres (busy_clock e / 1000000) 0 (busy_clock e mod 1000000) [], e)
  | Sleep n => (ok 0, Z.abs e + Z.max 0 n * 1000000)
  | _ => (ok 0, e)
  end.

Definition busy_Clock : @Clock Z busy_OS.
Proof.
  apply (@Build_Clock _ _ busy_clock) with (pause := 1000000); unfold busy_clock.
  - lia.
  - intros c e. destruct c; simpl; lia.
  - done.
  - done.
  - intros e. simpl. lia.
Defined.

Lemma retry_send_terminates_witness :
  wp (@retry_send Z unit busy_OS 8 3 [80] (0, 0))
    (λ b w', adds (mkWorld 0 [] 0 tt) w' (send_trace 3 [80] 7 b)) (mkWorld 0 [] 0 tt).
Proof.
  apply (@retry_send_terminates Z unit busy_OS busy_Clock 8).
  by apply Nat.leb_le.
Defined.

(** ** Requests *)

(** A socket with a queue of datagrams: [select] finds it readable while the
    queue is not empty, [recv] takes the first datagram from it. *)
Class Inbox (E : Type) `{OS E} := {
  inbox : E → list (list Z);
  inbox_select : ∀ e fd t, inbox e ≠ [] →
    0 < r_ret (os_step (Select fd t) e).1 ∧ inbox (os_step (Select fd t) e).2 = inbox e;
  inbox_recv : ∀ e fd n d ds, inbox e = d :: ds →
    0 ≤ r_ret (os_step (Recv fd n) e).1 ∧ r_data (os_step (Recv fd n) e).1 = d ∧
    inbox (os_step (Recv fd n) e).2 = ds;
}.

Section Request.
Context {E U : Type} `{Inbox E}.
Local Abbreviation World := (World E U).

(** What was sent in a run. *)
Definition sends (tr : list (syscall * sysres)) : list (list Z) :=
  omap (λ cr, match cr.1 with Send _ data => Some data | _ => None end) tr.

Lemma sends_app tr1 tr2 : sends (tr1 ++ tr2) = sends tr1 ++ sends tr2.
Proof. apply omap_app. Qed.

(** [cb] processes message after message, its effect on the state being
    [log], and leaves the socket alone. *)
Definition callback_logs (log : str → U → U) (cb : buf → Z → M E U unit) : Prop :=
  ∀ b n m (w : World), buf_str b 0 = Ret m → n = strlen m →
    wp (cb b n) (λ _ w', w_usr w' = log m (w_usr w) ∧
      inbox (w_env w') = inbox (w_env w) ∧ adds w w' (λ tr, sends tr = [])) w.

(** Taking the first datagram of the queue, cut to the size of the buffer. *)
Lemma recv_spec fd b len d0 ds (w : World) :
  inbox (w_env w) = d0 :: ds → 0 ≤ len ≤ Z.of_nat (length b) →
  let d := take (Z.to_nat len) d0 in
  wp (recv fd b len) (λ r w', r = (strlen d, cells d ++ drop (length d) b) ∧
    inbox (w_env w') = ds ∧ w_usr w' = w_usr w ∧ adds w w' (λ tr, sends tr = [])) w.
Proof.
  intros Hi Hl d. apply wp_bind, wp_sys. intros r e He.
  destruct (inbox_recv _ fd len _ _ Hi) as (Hr & Hdat & Hds). rewrite He in *. simpl in *.
  rewrite (proj2 (Z.ltb_ge _ _)) by lia. rewrite Hdat. fold d. apply wp_bind.
  assert (buf_write b 0 d = Ret (cells d ++ drop (length d) b)) as Hw.
  { apply buf_write_Ret. unfold strlen, d. rewrite length_take. split_and!; [lia|lia|done]. }
  unfold wp at 1, lift. rewrite Hw. apply wp_ret. split_and!; [done..|]. by adds_run.
Qed.

(** A terminated message at the front of the reply buffer. *)
Lemma set_end d b :
  strlen d < Z.of_nat (length b) →
  buf_set (cells d ++ drop (length d) b) (strlen d) 0
  = Ret (cells (d ++ [0]) ++ drop (S (length d)) b).
Proof.
  unfold strlen. intros Hl. apply buf_set_Ret. split.
  - rewrite length_app, cells_length, length_drop. lia.
  - rewrite Nat2Z.id. destruct (drop (length d) b) as [|c r] eqn:Ed.
    + apply (f_equal length) in Ed. rewrite length_drop in Ed. simpl in Ed. lia.
    + assert (drop (S (length d)) b = r) as ->.
      { replace (S (length d)) with (length d + 1)%nat by lia.
        rewrite <- drop_drop, Ed. done. }
      rewrite <- (Nat.add_0_r (length d)), <- (cells_length d), insert_app_r. simpl.
      unfold cells. by rewrite fmap_app, <- app_assoc.
Qed.

Lemma first_byte d c r b : d = c :: r → buf_get (cells d ++ b) 0 = Ret c.
Proof. by intros ->. Qed.

(** The wait for the next datagram. *)
Lemma await_select fuel fd b len cb Q (w : World) :
  inbox (w_env w) ≠ [] →
  (∀ w1, inbox (w_env w1) = inbox (w_env w) → w_usr w1 = w_usr w →
     adds w w1 (λ tr, sends tr = []) →
     wp ('(res, reply1) ← recv fd b len;
         if res <? 0 then mret (res, reply1, len)
         else
           unsolicited ← (if 0 <? res then c ← lift (buf_get reply1 0); mret (c =? 60)
                          else mret false);
           if (unsolicited : bool) then
             match cb with
             | Some cb =>
                 let res := if res =? len then len - 1 else res in
                 reply2 ← lift (buf_set reply1 res 0);
                 cb reply2 res;;
                 await_reply fuel fd reply2 len (Some cb)
             | None => await_reply fuel fd reply1 len None
             end
           else mret (0, reply1, res)) Q w1) →
  wp (await_reply (S fuel) fd b len cb) Q w.
Proof.
  intros Hne Hk. cbn [await_reply]. apply wp_bind, wp_sys. intros r e He.
  destruct (inbox_select (w_env w) fd 10 Hne) as [Hr Hin].
  rewrite He in *. cbn [fst snd] in *.
  rewrite (proj2 (Z.ltb_ge (r_ret r) 0)), (proj2 (Z.eqb_neq (r_ret r) 0)) by lia.
  cbn [andb negb]. destruct cb; (apply Hk; [done|done|by adds_run]).
Qed.

Lemma no_sends_trans (w w1 w2 : World) P :
  adds w w1 (λ tr, sends tr = []) → adds w1 w2 (λ tr, P (sends tr)) →
  adds w w2 (λ tr, P (sends tr)).
Proof.
  intros H1 H2. eapply adds_trans; [exact H1|]. intros tr1 Htr1.
  destruct H2 as (tr2 & H2 & HP). exists tr2. by rewrite sends_app, Htr1.
Qed.

(** One turn of the reply loop: a message from the daemon. *)
Lemma await_unsolicited fuel fd b len log cb m ds Q (w : World) :
  callback_logs log cb → inbox (w_env w) = (60 :: m) :: ds → cstring (60 :: m) →
  strlen (60 :: m) < len → len ≤ Z.of_nat (length b) →
  (∀ b' w', length b' = length b → inbox (w_env w') = ds →
     w_usr w' = log (60 :: m) (w_usr w) → adds w w' (λ tr, sends tr = []) →
     wp (await_reply fuel fd b' len (Some cb)) Q w') →
  wp (await_reply (S fuel) fd b len (Some cb)) Q w.
Proof.
  remember (60 :: m) as d eqn:Ed. intros Hcb Hi Hm Hl Hb Hk.
  assert (Hd : 0 < strlen d) by (rewrite Ed; unfold strlen; cbn [length]; lia).
  apply await_select; [by rewrite Hi|]. intros w0 Hi0 Hu0 Ha0. apply wp_bind.
  eapply wp_mono; [apply (recv_spec fd b len d ds); [congruence|lia]|].
  rewrite take_ge by (unfold strlen in *; lia).
  intros [res b1] w1 ([= -> ->] & Hds & Hu & Ha). cbn beta iota.
  rewrite (proj2 (Z.ltb_ge (strlen d) 0)), (proj2 (Z.ltb_lt 0 (strlen d))) by lia.
  apply wp_bind, (wp_lift_bind _ 60); [by eapply first_byte|]. apply wp_ret.
  change (60 =? 60) with true. cbn iota.
  rewrite (proj2 (Z.eqb_neq (strlen d) len)) by lia.
  eapply wp_lift_bind; [apply set_end; lia|]. apply wp_bind.
  eapply wp_mono; [apply (Hcb _ _ d); [|done]|].
  { unfold buf_str. simpl Z.to_nat. change (0 <? 0) with false. cbn iota. rewrite drop_0.
    unfold cells. rewrite fmap_app, <- app_assoc. by apply cells_str_app. }
  intros _ w2 (Hu2 & Hi2 & Ha2).
  apply Hk; [|congruence|congruence|].
  - rewrite length_app, cells_length, length_app, length_drop. unfold strlen in *.
    cbn [length]. lia.
  - apply (no_sends_trans w w0 w2 (λ l, l = []) Ha0).
    by apply (no_sends_trans w0 w1 w2 (λ l, l = []) Ha).
Qed.

(** The last turn: the first datagram is the reply. *)
Lemma await_first fuel fd b len cb reply rest (w : World) :
  head reply ≠ Some 60 → 0 ≤ len ≤ Z.of_nat (length b) → inbox (w_env w) = reply :: rest →
  let got := take (Z.to_nat len) reply in
  wp (await_reply (S fuel) fd b len cb) (λ '(res, b', len') w',
    res = 0 ∧ len' = strlen got ∧ (∃ t, b' = cells got ++ t) ∧ length b' = length b ∧
    w_usr w' = w_usr w ∧ inbox (w_env w') = rest ∧ adds w w' (λ tr, sends tr = [])) w.
Proof.
  intros Hr Hb Hi got.
  apply await_select; [by rewrite Hi|]. intros w0 Hi0 Hu0 Ha0. apply wp_bind.
  eapply wp_mono; [apply (recv_spec fd b len reply rest); [by rewrite Hi0|done]|]. fold got.
  intros [res b1] w1 ([= -> ->] & Hds & Hu & Ha). cbn beta iota.
  rewrite (proj2 (Z.ltb_ge (strlen got) 0)) by (unfold strlen; lia). apply wp_bind.
  assert (Hun : wp (if 0 <? strlen got then
      c ← lift (buf_get (cells got ++ drop (length got) b) 0); mret (c =? 60)
    else mret false) (λ c w2, c = false ∧ w2 = w1) w1).
  { destruct got as [|c g] eqn:Eg; [by apply wp_ret|].
    rewrite (proj2 (Z.ltb_lt _ _)) by (unfold strlen; cbn [length]; lia).
    eapply wp_lift_bind; [by eapply first_byte|]. apply wp_ret. split; [|done].
    apply Z.eqb_neq. intros ->. apply Hr. unfold got in Eg.
    destruct reply, (Z.to_nat len); simplify_eq/=; done. }
  eapply wp_mono; [exact Hun|]. intros c w2 [-> ->]. apply wp_ret.
  assert (length got ≤ length b)%nat by (unfold got; rewrite length_take; lia).
  split_and!; [done|done|by eexists| |simpl; congruence|done|].
  - rewrite length_app, cells_length, length_drop. lia.
  - by apply (no_sends_trans w w0 w1 (λ l, l = [])).
Qed.

Lemma await_reply_spec fuel fd b len log cb msgs reply rest (w : World) :
  callback_logs log cb →
  Forall (λ m, head m = Some 60 ∧ cstring m ∧ strlen m < len) msgs →
  head reply ≠ Some 60 → 0 ≤ len ≤ Z.of_nat (length b) →
  inbox (w_env w) = msgs ++ reply :: rest → (length msgs < fuel)%nat →
  let got := take (Z.to_nat len) reply in
  wp (await_reply fuel fd b len (Some cb)) (λ '(res, b', len') w',
    res = 0 ∧ len' = strlen got ∧ (∃ t, b' = cells got ++ t) ∧ length b' = length b ∧
    w_usr w' = foldl (λ u m, log m u) (w_usr w) msgs ∧ inbox (w_env w') = rest ∧
    adds w w' (λ tr, sends tr = [])) w.
Proof.
  intros Hcb Hm Hr Hb Hi Hf got. revert fuel b Hb w Hi Hf.
  induction Hm as [|m ms (Hm & Hc & Hlm) _ IH]; intros fuel b Hb w Hi Hf;
    (destruct fuel as [|fuel]; [simpl in Hf; lia|]).
  - by apply await_first.
  - destruct m as [|c m]; [done|]. injection Hm as ->.
    apply (await_unsolicited _ _ _ _ log _ m (ms ++ reply :: rest)); try done; [lia|].
    intros b' w' Hb' Hi' Hu' Ha'.
    eapply wp_mono; [apply (IH fuel b'); [by rewrite Hb'|done|simpl in Hf; lia]|].
    intros [[r b2] l] w2 (-> & -> & Ht & Hl2 & Hu2 & Hi2 & Ha2).
    split_and!; [done|done|done|congruence|by rewrite Hu2, Hu'|done|].
    by apply (no_sends_trans w w' w2 (λ l, l = [])).
Qed.

(** C7: while the reply is awaited, every unsolicited message of the queue, when
    they are shorter than the buffer and hold no NUL, goes to the callback,
    terminated and in order of arrival; the first
    datagram that is no such message is stored in the reply buffer, cut to its
    size, its length reported, and what arrives later is left in the queue. *)
Theorem await_reply_delivers fuel fd b len log cb msgs reply rest (w : World) :
  callback_logs log cb →
  Forall (λ m, head m = Some 60 ∧ cstring m ∧ strlen m < len) msgs →
  head reply ≠ Some 60 → 0 ≤ len ≤ Z.of_nat (length b) →
  inbox (w_env w) = msgs ++ reply :: rest → (length msgs < fuel)%nat →
  let got := take (Z.to_nat len) reply in
  wp (await_reply fuel fd b len (Some cb)) (λ '(res, b', len') w',
    res = 0 ∧ len' = strlen got ∧ (∃ t, b' = cells got ++ t) ∧ length b' = length b ∧
    w_usr w' = foldl (λ u m, log m u) (w_usr w) msgs ∧ inbox (w_env w') = rest ∧
    adds w w' (λ tr, sends tr = [])) w.
Proof. intros. by apply await_reply_spec. Qed.

End Request.

(** A mailbox: the environment is the queue itself. *)
Definition mailbox_OS : OS (list (list Z)) := λ c e,
  match c, e with
  | Select _ _, _ => (ok (Z.of_nat (length e)), e)
  | Recv _ _, d :: ds => (Sysres (strlen d) 0 0 d, ds)
  | _, _ => (ok 1, e)
  end.

Definition mailbox_Inbox : @Inbox _ mailbox_OS.
Proof.
  apply (@Build_Inbox _ mailbox_OS (λ e, e)).
  - intros e fd t Hne. split; [|done]. simpl. destruct e; [done|]. cbn [length]. lia.
  - intros e fd n d ds ->. simpl. split_and!; [unfold strlen; lia|done|done].
Defined.

(** A callback that keeps the messages. *)
Definition keep_cb {E} (b : buf) (n : Z) : M E (list str) unit :=
  m ← lift (buf_str b 0); modify (λ u, u ++ [m]).

Lemma keep_cb_logs :
  @callback_logs _ _ mailbox_OS mailbox_Inbox (λ m u, u ++ [m]) keep_cb.
Proof.
  intros b n m w Hb _. unfold keep_cb. eapply wp_lift_bind; [exact Hb|].
  split_and!; [done|done|]. exists []. by rewrite app_nil_r.
Qed.

Lemma await_reply_delivers_witness :
  wp (@await_reply _ (list str) mailbox_OS 2 3 (uninit 8) 8 (Some keep_cb))
    (λ '(res, b', len') w', res = 0 ∧ len' = strlen (lit "OK") ∧
      (∃ t, b' = cells (lit "OK") ++ t) ∧ length b' = length (uninit 8) ∧
      w_usr w' = [lit "<3>A"] ∧ w_env w' = [[1]] ∧
      adds (mkWorld [lit "<3>A"; lit "OK"; [1]] [] 0 []) w' (λ tr, sends tr = []))
    (mkWorld [lit "<3>A"; lit "OK"; [1]] [] 0 []).
Proof.
  apply (@await_reply_delivers _ (list str) mailbox_OS mailbox_Inbox 2 3 (uninit 8) 8
    (λ m u, u ++ [m]) keep_cb [lit "<3>A"] (lit "OK") [[1]]).
  - apply keep_cb_logs.
  - repeat constructor; by vm_compute.
  - discriminate.
  - by vm_compute.
  - done.
  - simpl. lia.
Defined.
