(* ===== verification/CliUtil.v ===== *)
(** * Command line helpers (src/common/cli.c) and MAC addresses
      (src/utils/common.c)

    A [dl_list] of text entries is the list of its strings, first entry
    first; entries are added at the front, as [dl_list_add] does.  Result
    arrays of the completion functions are lists of strings. *)

From S2P Require Import Prelude CString Scan Io.

Definition cli_license : str :=
  (line "This software may be distributed under the terms of the BSD license."
   ++ line "See README for more details.").

Definition cli_full_license : str :=
  (line "This software may be distributed under the terms of the BSD license." ++ [NL]
   ++ line "Redistribution and use in source and binary forms, with or without"
   ++ line "modification, are permitted provided that the following conditions are"
   ++ line "met:" ++ [NL]
   ++ line "1. Redistributions of source code must retain the above copyright"
   ++ line "   notice, this list of conditions and the following disclaimer." ++ [NL]
   ++ line "2. Redistributions in binary form must reproduce the above copyright"
   ++ line "   notice, this list of conditions and the following disclaimer in the"
   ++ line "   documentation and/or other materials provided with the distribution."
   ++ [NL]
   ++ line "3. Neither the name(s) of the above-listed copyright holder(s) nor the"
   ++ line "   names of its contributors may be used to endorse or promote products"
   ++ line "   derived from this software without specific prior written permission."
   ++ [NL] ++ line "THIS SOFTWARE IS PROVIDED BY THE COPYRIGHT HOLDERS AND CONTRIBUTORS"
   ++ [DQ] ++ lit "AS IS" ++ [DQ]
   ++ line " AND ANY EXPRESS OR IMPLIED WARRANTIES, INCLUDING, BUT NOT"
   ++ line "LIMITED TO, THE IMPLIED WARRANTIES OF MERCHANTABILITY AND FITNESS FOR"
   ++ line "A PARTICULAR PURPOSE ARE DISCLAIMED. IN NO EVENT SHALL THE COPYRIGHT"
   ++ line "OWNER OR CONTRIBUTORS BE LIABLE FOR ANY DIRECT, INDIRECT, INCIDENTAL,"
   ++ line "SPECIAL, EXEMPLARY, OR CONSEQUENTIAL DAMAGES (INCLUDING, BUT NOT"
   ++ line "LIMITED TO, PROCUREMENT OF SUBSTITUTE GOODS OR SERVICES; LOSS OF USE,"
   ++ line "DATA, OR PROFITS; OR BUSINESS INTERRUPTION) HOWEVER CAUSED AND ON ANY"
   ++ line "THEORY OF LIABILITY, WHETHER IN CONTRACT, STRICT LIABILITY, OR TORT"
   ++ line "(INCLUDING NEGLIGENCE OR OTHERWISE) ARISING IN ANY WAY OUT OF THE USE"
   ++ line "OF THIS SOFTWARE, EVEN IF ADVISED OF THE POSSIBILITY OF SUCH DAMAGE." ++ [NL]).

Definition ETH_ALEN : nat := 6.

(** ** MAC addresses *)

Definition hex2num (c : Z) : Z :=
  if (48 <=? c) && (c <=? 57) then c - 48
  else if (97 <=? c) && (c <=? 102) then c - 97 + 10
  else if (65 <=? c) && (c <=? 70) then c - 65 + 10
  else -1.

(** The end of the string reads as NUL, which is no digit. *)
Definition hex2byte (hex : str) : Z :=
  match hex with
  | [] => -1
  | h :: t =>
      let a := hex2num h in
      if a <? 0 then -1
      else match t with
           | [] => -1
           | l :: _ => let b := hex2num l in if b <? 0 then -1 else Z.lor (Z.shiftl a 4) b
           end
  end.

(** [n] bytes are still to be read; the bytes, or [None] for NULL. *)
Fixpoint hwaddr_parse (n : nat) (txt : str) : option (list Z) :=
  match n with
  | O => Some []
  | S n' =>
      let a := hex2byte txt in
      if a <? 0 then None
      else
        match n', drop 2 txt with
        | O, _ => Some [a]
        | S _, c :: txt' =>
            if c =? 58 then addr ← hwaddr_parse n' txt'; Some (a :: addr) else None
        | S _, [] => None
        end
  end.

Definition hwaddr_aton (txt : str) : option (list Z) := hwaddr_parse ETH_ALEN txt.

(** "%02x:%02x:..." of the bytes. *)
Fixpoint macstr (addr : list Z) : str :=
  match addr with
  | [] => []
  | [a] => fmt_02x a
  | a :: addr' => fmt_02x a ++ lit ":" ++ macstr addr'
  end.

(** ** Text lists *)

(** The part of [txt] before the separator. *)
Definition first_word (txt : str) (separator : Z) : str :=
  match strchr txt separator with Some i => take i txt | None => txt end.

Fixpoint cli_txt_list_get (l : list str) (txt : str) : option str :=
  match l with
  | [] => None
  | e :: l' => if strcmp e txt =? 0 then Some e else cli_txt_list_get l' txt
  end.

(** Unlink the entry [cli_txt_list_get] finds. *)
Fixpoint cli_txt_list_del (l : list str) (txt : str) : list str :=
  match l with
  | [] => []
  | e :: l' => if strcmp e txt =? 0 then l' else e :: cli_txt_list_del l' txt
  end.

Definition cli_txt_list_flush (l : list str) : list str := [].

Definition cli_txt_list_del_addr (l : list str) (txt : str) : list str :=
  match hwaddr_aton txt with
  | None => l
  | Some addr => cli_txt_list_del l (macstr addr)
  end.

Section Lists.
Context {E U : Type} `{OS E}.
Local Abbreviation M := (M E U).

Definition cli_txt_list_del_word (l : list str) (txt : str) (separator : Z) : M (list str) :=
  let w := first_word txt separator in
  a ← alloc (strlen w + 1);
  mret (if (a : bool) then cli_txt_list_del l w else l).

Definition cli_txt_list_add (l : list str) (txt : str) : M (Z * list str) :=
  match cli_txt_list_get l txt with
  | Some _ => mret (0, l)
  | None =>
      a ← alloc 24;
      if negb a then mret (-1, l)
      else
        a ← alloc (strlen txt + 1);
        if negb a then mret (-1, l) else mret (0, txt :: l)
  end.

Definition cli_txt_list_add_addr (l : list str) (txt : str) : M (Z * list str) :=
  match hwaddr_aton txt with
  | None => mret (-1, l)
  | Some addr => cli_txt_list_add l (macstr addr)
  end.

Definition cli_txt_list_add_word (l : list str) (txt : str) (separator : Z)
    : M (Z * list str) :=
  let w := first_word txt separator in
  a ← alloc (strlen w + 1);
  if negb a then mret (-1, l) else cli_txt_list_add l w.

(** Copy strings until an allocation fails; the array ends there. *)
Fixpoint dup_all (l : list str) : M (list str) :=
  match l with
  | [] => mret []
  | e :: l' =>
      a ← alloc (strlen e + 1);
      if negb a then mret [] else r ← dup_all l'; mret (e :: r)
  end.

Definition cli_txt_list_array (l : list str) : M (option (list str)) :=
  a ← alloc ((Z.of_nat (length l) + 1) * 8);
  if negb a then mret None else r ← dup_all l; mret (Some r).

(** ** Commands *)

(** [os_snprintf(pos, end - pos, ...)] and the advance of [pos]; [None] for
    the new position is the jump to the error exit. *)
Definition append (b : buf) (pos buflen : Z) (t : str) : outcome (option Z * buf) :=
  '(res, b') ← snprintf b pos (buflen - pos) t;
  Ret (if os_snprintf_error (buflen - pos) res then None else Some (pos + res), b').

Fixpoint append_all (b : buf) (pos buflen : Z) (ts : list str) : outcome (option Z * buf) :=
  match ts with
  | [] => Ret (Some pos, b)
  | t :: ts' =>
      '(r, b') ← append b pos buflen t;
      match r with
      | None => Ret (None, b')
      | Some pos' => append_all b' pos' buflen ts'
      end
  end.

Definition write_cmd (b : buf) (buflen : Z) (cmd : str) (argv : list str) : M (Z * buf) :=
  '(r, b') ← lift (append_all b 0 buflen (cmd :: map (λ a, lit " " ++ a) argv));
  match r with
  | None => printf (lit "Too long command" ++ [NL]);; mret (-1, b')
  | Some _ => b'' ← lift (buf_set b' (buflen - 1) 0); mret (0, b'')
  end.
End Lists.

Definition is_sp (c : Z) : bool := c =? 32.
Definition in_word (c : Z) : bool := negb (c =? 0) && negb (c =? 32).

Fixpoint skip_arg (fuel : nat) (b : buf) (i pos : Z) : outcome Z :=
  match fuel with
  | O => OutOfFuel
  | S fuel' =>
      if i <=? pos then
        c ← buf_get b i;
        if negb (c =? 32) then skip_arg fuel' b (i + 1) pos else Ret i
      else Ret i
  end.

Fixpoint arg_num_loop (fuel : nat) (b : buf) (i pos arg : Z) : outcome Z :=
  match fuel with
  | O => OutOfFuel
  | S fuel' =>
      if i <=? pos then
        c ← buf_get b i;
        if negb (c =? 32) then
          j ← skip_arg fuel' b i pos; arg_num_loop fuel' b (j + 1) pos (arg + 1)
        else arg_num_loop fuel' b (i + 1) pos arg
      else Ret arg
  end.

Definition get_cmd_arg_num (s : str) (pos : Z) : outcome Z :=
  arg ← arg_num_loop (length s + 3) (cells (s ++ [0])) 0 pos 0;
  Ret (if 0 <? arg then arg - 1 else arg).

Definition max_args : Z := 10.

(** [more] arguments are still free in [argv]. *)
Fixpoint tokenize_loop (more : nat) (b argv : buf) (argc pos : Z) : outcome (Z * buf * buf) :=
  match more with
  | O => Ret (argc, argv, b)
  | S more' =>
      pos ← scan is_sp b pos;
      c ← buf_get b pos;
      if c =? 0 then Ret (argc, argv, b)
      else
        argv' ← buf_set argv argc pos;
        let argc := argc + 1 in
        if argc =? max_args then Ret (argc, argv', b)
        else
          pos1 ← (if c =? DQ then
                    t ← buf_str b pos;
                    Ret (match strrchr t DQ with Some i => pos + Z.of_nat i + 1 | None => pos end)
                  else Ret pos);
          pos2 ← scan in_word b pos1;
          d ← buf_get b pos2;
          if d =? 32 then b' ← buf_set b pos2 0; tokenize_loop more' b' argv' argc (pos2 + 1)
          else tokenize_loop more' b argv' argc pos2
  end.

Definition tokenize_cmd (b argv : buf) : outcome (Z * buf * buf) :=
  tokenize_loop 10 b argv 0 0.

(** ** Writing a command *)

(** The text a command and its arguments are sent as. *)
Definition cmd_text (cmd : str) (argv : list str) : str :=
  cmd ++ concat (map (λ a, lit " " ++ a) argv).

Lemma append_fits b pos buflen t :
  0 ≤ pos → 0 ≤ buflen ≤ Z.of_nat (length b) → buflen ≤ INT_MAX → pos + strlen t < buflen →
  ∃ b', append b pos buflen t = Ret (Some (pos + strlen t), b') ∧
    buf_write b pos (t ++ [0]) = Ret b' ∧ length b' = length b.
Proof.
  intros Hp Hb Hmax Hl. unfold append, snprintf.
  assert (0 ≤ strlen t) by (unfold strlen; lia).
  rewrite (proj2 (Z.eqb_neq (buflen - pos) 0)) by lia.
  rewrite take_ge by (unfold strlen in *; lia).
  destruct (buf_write_defined b pos (t ++ [0])) as [b' Hw]; [done| |].
  { unfold strlen in *. rewrite length_app. simpl. lia. }
  rewrite Hw. ret_simpl. exists b'. split_and!; [|done|by eapply buf_write_length].
  unfold os_snprintf_error, u32, INT_MAX in *.
  rewrite (proj2 (Z.ltb_ge _ _)), (proj2 (Z.leb_gt _ _)) by lia. done.
Qed.

Lemma append_too_long b pos buflen t :
  0 ≤ pos < buflen → buflen ≤ Z.of_nat (length b) → buflen ≤ pos + strlen t →
  strlen t < 4294967296 →
  ∃ b', append b pos buflen t = Ret (None, b').
Proof.
  intros Hp Hb Hl Hm. unfold append, snprintf.
  rewrite (proj2 (Z.eqb_neq (buflen - pos) 0)) by lia.
  destruct (buf_write_defined b pos (take (Z.to_nat (buflen - pos - 1)) t ++ [0])) as [b' Hw];
    [lia| |].
  { unfold strlen in *. rewrite length_app, length_take. cbn [length]. lia. }
  rewrite Hw. ret_simpl. exists b'. unfold os_snprintf_error, u32. do 2 f_equal.
  assert (0 ≤ strlen t) by (unfold strlen; lia).
  rewrite Z.mod_small by lia. by rewrite (proj2 (Z.leb_le _ _)), orb_true_r by lia.
Qed.

(** A write that continues a run of bytes from the front of the buffer. *)
Lemma write_holds b pos u t b' :
  take (Z.to_nat pos) b = cells u → pos = strlen u → buf_write b pos (t ++ [0]) = Ret b' →
  holds b' 0 (u ++ t).
Proof.
  intros Hu Hp (H0 & H1 & ->)%buf_write_Ret. split; [done|]. rewrite Hu.
  eexists. simpl. unfold cells. rewrite !fmap_app, <- !app_assoc. done.
Qed.

Lemma holds_take b u : holds b 0 u → take (length u) b = cells u.
Proof.
  intros [_ [rest Hd]]. simpl in Hd. rewrite drop_0 in Hd. rewrite Hd.
  unfold cells. rewrite fmap_app, <- app_assoc. apply take_app_length'.
  by rewrite length_fmap.
Qed.

(** Appending pieces writes their concatenation, if it fits. *)
Lemma append_all_fits t ts b pos buflen u :
  take (Z.to_nat pos) b = cells u → pos = strlen u →
  buflen ≤ Z.of_nat (length b) → buflen ≤ INT_MAX →
  pos + strlen (concat (t :: ts)) < buflen →
  ∃ b' p, append_all b pos buflen (t :: ts) = Ret (Some p, b') ∧
    holds b' 0 (u ++ concat (t :: ts)) ∧ length b' = length b.
Proof.
  revert t b pos u. induction ts as [|t2 ts IH]; intros t b pos u Hu Hp Hb Hmax Hl;
    cbn [append_all].
  all: assert (0 ≤ strlen u ∧ 0 ≤ strlen t) as Hge by (unfold strlen; lia).
  - assert (strlen (concat [t]) = strlen t) as Hcat by (simpl; by rewrite app_nil_r).
    destruct (append_fits b pos buflen t) as (b1 & -> & Hw & Hlen);
      [lia..|].
    ret_simpl. exists b1. eexists. split; [done|]. simpl. rewrite app_nil_r.
    split; [by eapply write_holds|done].
  - assert (strlen (concat (t :: t2 :: ts)) = strlen t + strlen (concat (t2 :: ts))) as Hcat2
      by (unfold strlen; simpl; rewrite !length_app; lia).
    assert (0 ≤ strlen (concat (t2 :: ts))) by (unfold strlen; lia).
    destruct (append_fits b pos buflen t) as (b1 & -> & Hw & Hlen); [lia..|].
    ret_simpl. pose proof (write_holds _ _ _ _ _ Hu Hp Hw) as Hh.
    destruct (IH t2 b1 (pos + strlen t) (u ++ t)) as (b' & p & Ha & Hh' & Hl').
    + rewrite <- (holds_take _ _ Hh). f_equal. unfold strlen in *. rewrite length_app. lia.
    + unfold strlen in *. rewrite length_app. lia.
    + lia.
    + lia.
    + lia.
    + exists b', p. split; [exact Ha|]. simpl in *. rewrite <- app_assoc in Hh'.
      split; [exact Hh'|lia].
Qed.

Lemma append_all_too_long ts b pos buflen :
  0 ≤ pos < buflen → buflen ≤ Z.of_nat (length b) → buflen ≤ INT_MAX →
  buflen ≤ pos + strlen (concat ts) → Forall (λ t, strlen t < 4294967296) ts →
  ∃ b', append_all b pos buflen ts = Ret (None, b').
Proof.
  revert b pos. induction ts as [|t ts IH]; intros b pos Hp Hb Hmax Hl Hts.
  { unfold strlen in Hl. simpl in Hl. lia. }
  apply Forall_cons in Hts as [Ht Hts]. cbn [append_all].
  assert (strlen (concat (t :: ts)) = strlen t + strlen (concat ts)) as Hcat
    by (unfold strlen; simpl; rewrite length_app; lia).
  assert (0 ≤ strlen t) by (unfold strlen; lia).
  destruct (Z.lt_ge_cases (pos + strlen t) buflen) as [Hfit|Hbig].
  - destruct (append_fits b pos buflen t) as (b1 & -> & Hw & Hlen); [lia..|]. ret_simpl.
    apply IH; [lia|lia|lia|lia|done].
  - destruct (append_too_long b pos buflen t) as (b' & ->); [lia|lia|lia|lia|].
    ret_simpl. eauto.
Qed.

Lemma write_cmd_spec {E U} `{OS E} b buflen cmd argv (w : World E U) :
  buflen = Z.of_nat (length b) → 0 < buflen ≤ INT_MAX →
  Forall (λ t, strlen t < INT_MAX) (cmd :: argv) →
  wp (write_cmd b buflen cmd argv) (λ '(r, b') w',
    if strlen (cmd_text cmd argv) <? buflen then
      r = 0 ∧ holds b' 0 (cmd_text cmd argv) ∧ w' = w
    else
      r = -1 ∧ ∃ o e, w' = after w (Printf (lit "Too long command" ++ [NL])) o e) w.
Proof.
  intros -> Hmax Hts. unfold write_cmd.
  assert (concat (cmd :: map (λ a, lit " " ++ a) argv) = cmd_text cmd argv) as Hcat by done.
  destruct (_ <? _) eqn:El; zbool.
  - destruct (append_all_fits cmd (map (λ a, lit " " ++ a) argv) b 0 (Z.of_nat (length b)) [])
      as (b' & p & Ha & Hh & Hl); [done|done|lia|lia|rewrite Hcat; lia|].
    eapply wp_lift_bind; [exact Ha|]. rewrite Hcat in Hh. simpl in Hh.
    pose proof (holds_fits _ _ _ Hh) as Hfit.
    destruct (buf_set_defined b' (Z.of_nat (length b) - 1) 0) as [b2 Hs]; [lia|].
    eapply wp_lift_bind; [exact Hs|]. apply wp_ret. split_and!; [done| |done].
    eapply holds_set_end; [done|exact Hs|lia].
  - destruct (append_all_too_long (cmd :: map (λ a, lit " " ++ a) argv) b 0
      (Z.of_nat (length b))) as (b' & Ha); [lia|lia|lia|rewrite Hcat; lia| |].
    { unfold INT_MAX in Hts. apply Forall_cons in Hts as [Hc Ha]. constructor; [lia|].
      apply Forall_map. eapply Forall_impl; [exact Ha|]. intros a Hal. unfold strlen in *.
      rewrite length_app. change (length (lit " ")) with 1%nat. lia. }
    eapply wp_lift_bind; [exact Ha|]. apply wp_bind, wp_sys_. intros o e. apply wp_ret. eauto.
Qed.

(** [write_cmd] leaves in the buffer the command followed by its
    arguments, each after a space, terminated, and returns 0, exactly when
    that text and its terminator fit; otherwise it says so and returns -1. *)
Theorem write_cmd_correct {E U} `{OS E} b buflen cmd argv (w : World E U) :
  buflen = Z.of_nat (length b) → 0 < buflen ≤ INT_MAX →
  Forall (λ t, strlen t < INT_MAX) (cmd :: argv) →
  wp (write_cmd b buflen cmd argv) (λ '(r, b') w',
    if strlen (cmd_text cmd argv) <? buflen then
      r = 0 ∧ holds b' 0 (cmd_text cmd argv) ∧ w' = w
    else
      r = -1 ∧ ∃ o e, w' = after w (Printf (lit "Too long command" ++ [NL])) o e) w.
Proof. apply write_cmd_spec. Qed.

(** A system that takes every call. *)
Definition null_OS : OS unit := λ _ e, (ok 1, e).

Lemma write_cmd_correct_witness :
  wp (@write_cmd unit unit null_OS (uninit 16) 16 (lit "SET") [lit "a"; lit "b"])
    (λ '(r, b') w',
      if strlen (cmd_text (lit "SET") [lit "a"; lit "b"]) <? 16 then
        r = 0 ∧ holds b' 0 (cmd_text (lit "SET") [lit "a"; lit "b"]) ∧
        w' = mkWorld tt [] 0 tt
      else r = -1 ∧ ∃ o e, w' = after (mkWorld tt [] 0 tt)
                                 (Printf (lit "Too long command" ++ [NL])) o e)
    (mkWorld tt [] 0 tt).
Proof.
  apply (@write_cmd_correct unit unit null_OS (uninit 16) 16).
  - reflexivity.
  - by vm_compute.
  - repeat constructor.
Defined.

(** ** Splitting a command line *)

(** The word at the front of a line that starts with no space, and the line
    after the space that ends it. *)
Definition quoted_len (s : str) : nat :=
  match s with
  | c :: _ => if c =? DQ then match strrchr s DQ with Some i => S i | None => O end else O
  | [] => O
  end.

Definition next_word (s : str) : str * str :=
  let k := quoted_len s in
  let '(u, r) := span in_word (drop k s) in
  (take k s ++ u, r).

(** The words [tokenize_cmd] finds; the last free place takes the rest of the
    line. *)
Fixpoint tokens (n : nat) (s : str) : list str :=
  match n with
  | O => []
  | S n' =>
      match (span is_sp s).2 with
      | [] => []
      | s1 =>
          match n' with
          | O => [s1]
          | S _ => let '(w, r) := next_word s1 in w :: tokens n' (tail r)
          end
      end
  end.

Lemma quoted_len_le s : (quoted_len s ≤ length s)%nat.
Proof.
  destruct s as [|c s]; [done|]. unfold quoted_len. destruct (c =? DQ); [|lia].
  destruct (strrchr (c :: s) DQ) as [i|] eqn:E; [|lia].
  assert (∀ t j, strrchr t DQ = Some j → (j < length t)%nat) as Hlt; [|by apply Hlt in E].
  clear. induction t as [|x t IH]; simpl; intros j; [done|].
  destruct (strrchr t DQ) as [k|]; [intros [= <-]; specialize (IH _ eq_refl); lia|].
  destruct (x =? DQ); [intros [= <-]; lia|done].
Qed.

Lemma next_word_spec s :
  cstring s → s ≠ [] → head s ≠ Some 32 →
  s = (next_word s).1 ++ (next_word s).2 ∧ (next_word s).1 ≠ [] ∧
  ((next_word s).2 = [] ∨ ∃ r, (next_word s).2 = 32 :: r).
Proof.
  intros Hs Hne Hh. unfold next_word. pose proof (quoted_len_le s) as Hq.
  destruct (span_spec in_word (drop (quoted_len s) s)) as (H1 & H2 & H3).
  destruct (span in_word (drop (quoted_len s) s)) as [u r]. simpl in *. split_and!.
  - rewrite <- app_assoc, <- H1. by rewrite take_drop.
  - intros E. apply app_eq_nil in E as [Ht Hu]. destruct s as [|c s]; [done|].
    destruct (quoted_len (c :: s)) eqn:Eq; [|done]. subst u. simpl in H1.
    rewrite <- H1 in H3. specialize (H3 c eq_refl). unfold in_word in H3.
    apply Forall_cons in Hs as [Hc _]. destruct (c =? 0) eqn:E0, (c =? 32) eqn:E1; zbool;
      try done; [lia|lia|]. by subst.
  - destruct r as [|c r]; [by left|right]. specialize (H3 c eq_refl).
    assert (Hc : 0 < c < 256).
    { unfold cstring in Hs. rewrite List.Forall_forall in Hs. apply Hs.
      apply list_elem_of_In. rewrite <- (take_drop (quoted_len s) s), H1.
      rewrite !elem_of_app. right. right. left. }
    unfold in_word in H3. destruct (c =? 0) eqn:E0, (c =? 32) eqn:E1; zbool; try done;
      [lia|lia|]. subst. eauto.
Qed.

(** The pointer after the word. *)
Lemma word_end b pos s :
  cstring s → s ≠ [] → holds b pos s →
  (c ← buf_get b pos;
   pos1 ← (if c =? DQ then
             t ← buf_str b pos;
             Ret (match strrchr t DQ with Some i => pos + Z.of_nat i + 1 | None => pos end)
           else Ret pos);
   scan in_word b pos1) = Ret (pos + strlen (next_word s).1).
Proof.
  intros Hs Hne Hh. destruct s as [|c s]; [done|]. rewrite (holds_head _ _ _ _ Hh). ret_simpl.
  assert (Hk : (if c =? DQ then
      t ← buf_str b pos;
      Ret (match strrchr t DQ with Some i => pos + Z.of_nat i + 1 | None => pos end)
    else Ret pos) = Ret (pos + Z.of_nat (quoted_len (c :: s)))).
  { unfold quoted_len. destruct (c =? DQ); [|apply (f_equal Ret); lia].
    rewrite (holds_str _ _ _ Hs Hh). ret_simpl.
    destruct (strrchr (c :: s) DQ); apply (f_equal Ret); lia. }
  rewrite Hk. ret_simpl. pose proof (quoted_len_le (c :: s)) as Hq.
  rewrite <- (take_drop (quoted_len (c :: s)) (c :: s)) in Hh.
  apply holds_step in Hh. unfold strlen in Hh. rewrite length_take, Nat.min_l in Hh by done.
  rewrite (scan_span in_word _ _ _ Hh) by done. unfold next_word.
  destruct (span in_word (drop (quoted_len (c :: s)) (c :: s))) as [u r]. cbn [fst].
  unfold strlen. rewrite length_app, length_take, Nat.min_l by done.
  apply (f_equal Ret). lia.
Qed.

Lemma cstring_app_inv u s : cstring (u ++ s) → cstring u ∧ cstring s.
Proof. apply cstring_app. Qed.

Lemma tokenize_end more b argv argc pos :
  holds b pos [] → tokenize_loop more b argv argc pos = Ret (argc, argv, b).
Proof.
  intros Hh. destruct more as [|more]; [done|]. cbn [tokenize_loop].
  rewrite (scan_span is_sp _ _ _ Hh) by done. ret_simpl. unfold strlen. simpl.
  rewrite Z.add_0_r, (holds_nil _ _ Hh). done.
Qed.

Lemma tokenize_loop_spec more b argv ws pos s :
  cstring s → holds b pos s → words_at argv b ws pos →
  (length ws + more = 10)%nat → length argv = 10%nat →
  ∃ argv' b', tokenize_loop more b argv (Z.of_nat (length ws)) pos
      = Ret (Z.of_nat (length (ws ++ tokens more s)), argv', b') ∧
    args_of argv' b' (length (ws ++ tokens more s)) = Ret (ws ++ tokens more s).
Proof.
  revert b argv ws pos s. induction more as [|more IH]; intros b argv ws pos s Hs Hh Hw Hn Ha.
  { exists argv, b. cbn [tokens tokenize_loop]. rewrite app_nil_r.
    split; [done|by eapply words_at_args]. }
  cbn [tokenize_loop tokens]. rewrite (scan_span is_sp _ _ _ Hh) by done. ret_simpl.
  destruct (span_spec is_sp s) as (Hsp & _ & Hhd).
  destruct (span is_sp s) as [u s1]. cbn [fst snd] in *. subst s.
  apply cstring_app in Hs as [_ Hs]. apply holds_step in Hh.
  set (pos1 := pos + strlen u) in *.
  assert (Hp1 : pos ≤ pos1) by (unfold pos1, strlen; lia).
  destruct s1 as [|c s1].
  { rewrite (holds_nil _ _ Hh). ret_simpl. exists argv, b. rewrite app_nil_r.
    split; [done|by eapply words_at_args]. }
  pose proof (word_end _ _ _ Hs ltac:(done) Hh) as Hend.
  rewrite (holds_head _ _ _ _ Hh) in Hend |- *. ret_simpl. simpl mbind in Hend.
  assert (Hc : 0 < c < 256) by (by apply Forall_cons in Hs as [? _]).
  rewrite (proj2 (Z.eqb_neq c 0)) by lia.
  assert (Hc32 : c ≠ 32).
  { intros ->. by specialize (Hhd 32 eq_refl). }
  destruct (next_word_spec (c :: s1) Hs ltac:(done) ltac:(simpl; congruence)) as (Hsplit & Hwne & Hr).
  destruct (next_word (c :: s1)) as [w r] eqn:Enw. cbn [fst snd] in *.
  assert (Hargc : Z.of_nat (length ws) + 1 = Z.of_nat (S (length ws))) by lia.
  destruct more as [|more].
  - (* the last place *)
    destruct (words_at_snoc argv b ws pos pos1 (c :: s1) Hw Hh Hs) as (argv' & Hset & _ & Hw');
      [lia|done|]. rewrite Hset. ret_simpl.
    rewrite (proj2 (Z.eqb_eq _ _)) by (unfold max_args; lia).
    exists argv', b. rewrite length_app, Nat.add_1_r, Hargc. split; [done|].
    apply words_at_args in Hw'. by rewrite length_app, Nat.add_1_r in Hw'.
  - rewrite (proj2 (Z.eqb_neq (Z.of_nat (length ws) + 1) max_args)) by (unfold max_args; lia).
    apply outcome_bind_inv in Hend as (k & Hk & Hscan). cbn [fst] in Hscan.
    rewrite Hsplit in Hh, Hs. apply cstring_app in Hs as [Hcw Hcr].
    destruct Hr as [->|[r' ->]].
    + rewrite app_nil_r in Hh.
      destruct (words_at_snoc argv b ws pos pos1 w Hw Hh Hcw) as (argv' & -> & _ & Hw');
        [lia|done|]. ret_simpl. rewrite Hk. ret_simpl. rewrite Hscan. ret_simpl.
      assert (Hnil : holds b (pos1 + strlen w) [])
        by (apply (holds_step _ _ w []); by rewrite app_nil_r).
      rewrite (holds_nil _ _ Hnil). ret_simpl. change (0 =? 32) with false. cbv iota.
      rewrite (tokenize_end _ _ _ _ _ Hnil).
      exists argv', b. change (tokens (S more) (tail [])) with (@nil str).
      rewrite length_app, Nat.add_1_r, Hargc. split; [done|].
      apply words_at_args in Hw'. by rewrite length_app, Nat.add_1_r in Hw'.
    + destruct (cut_spec b pos1 w 32 r' Hh) as (b' & Hcut & Hhw & Hhr & _).
      pose proof (words_at_set _ _ _ _ _ _ _ Hw Hcut ltac:(unfold strlen; lia)) as Hwb'.
      destruct (words_at_snoc argv b' ws pos pos1 w Hwb' Hhw Hcw) as (argv' & -> & Hla & Hw');
        [lia|done|]. ret_simpl. rewrite Hk. ret_simpl. rewrite Hscan. ret_simpl.
      pose proof (holds_step _ _ _ _ Hh) as Hsep. rewrite (holds_head _ _ _ _ Hsep).
      ret_simpl. change (32 =? 32) with true. cbv iota. rewrite Hcut. ret_simpl.
      assert (cstring r') as Hcr' by (by apply Forall_cons in Hcr as [_ ?]).
      destruct (IH b' argv' (ws ++ [w]) (pos1 + strlen w + 1) r') as (a2 & b2 & Hl & Hres);
        [done|done|done|rewrite length_app; simpl; lia|lia|].
      rewrite length_app, Nat.add_1_r, <- Hargc in Hl. rewrite Hl.
      exists a2, b2. cbn [tail]. rewrite <- app_assoc in *. by split.
Qed.

(** [tokenize_cmd] terminates within the buffer and leaves, as [argc]
    terminated strings in [argv], the words of the line: separated by spaces,
    a word that starts with a double quote running to the last quote of the
    line, and the tenth taking the rest. *)
Theorem tokenize_cmd_correct b argv s :
  cstring s → holds b 0 s → length argv = 10%nat →
  ∃ argv' b', tokenize_cmd b argv = Ret (Z.of_nat (length (tokens 10 s)), argv', b') ∧
    args_of argv' b' (length (tokens 10 s)) = Ret (tokens 10 s).
Proof.
  intros Hs Hh Ha.
  apply (tokenize_loop_spec 10 b argv [] 0 s Hs Hh (words_at_nil _ _ _) eq_refl Ha).
Qed.

Definition line_buf (s : str) : buf := cells (s ++ [0]).

Lemma line_holds s : holds (line_buf s) 0 s.
Proof. split; [done|]. exists []. rewrite app_nil_r. by rewrite drop_0. Qed.

Lemma tokenize_cmd_correct_witness :
  ∃ argv' b', tokenize_cmd (line_buf (lit "set  x y")) (uninit 10)
      = Ret (Z.of_nat (length (tokens 10 (lit "set  x y"))), argv', b') ∧
    args_of argv' b' (length (tokens 10 (lit "set  x y")))
      = Ret (tokens 10 (lit "set  x y")).
Proof.
  apply tokenize_cmd_correct; [by apply (bool_decide_unpack _)|apply line_holds|reflexivity].
Defined.

(** A word that survives being sent and split again. *)
Definition plain (w : str) : Prop :=
  w ≠ [] ∧ Forall (λ c, 0 < c < 256 ∧ c ≠ 32) w ∧ head w ≠ Some DQ.

Lemma plain_in_word w : plain w → Forall (λ c, in_word c = true) w.
Proof.
  intros (_ & Hw & _). eapply Forall_impl; [exact Hw|]. intros c [Hc H32]. unfold in_word.
  by rewrite (proj2 (Z.eqb_neq c 0)), (proj2 (Z.eqb_neq c 32)) by lia.
Qed.

Lemma next_word_plain w s :
  plain w → (s = [] ∨ ∃ r, s = 32 :: r) → next_word (w ++ s) = (w, s).
Proof.
  intros Hw Hs. pose proof (plain_in_word _ Hw) as Hin. destruct Hw as (Hne & Hc & Hq).
  assert (quoted_len (w ++ s) = 0%nat) as Hk.
  { destruct w as [|c w]; [done|]. simpl. destruct (c =? DQ) eqn:E; [|done].
    zbool. by subst. }
  unfold next_word. rewrite Hk, drop_0, span_app; [done|done|].
  destruct Hs as [->|[r ->]]; [done|]. by intros c [= <-].
Qed.

Lemma tokens_cmd_text n w ws :
  Forall plain (w :: ws) → (length (w :: ws) ≤ n)%nat → tokens n (cmd_text w ws) = w :: ws.
Proof.
  revert w ws. induction n as [|n IH]; intros w ws Hw Hn; [simpl in Hn; lia|].
  apply Forall_cons in Hw as [Hp Hws]. unfold cmd_text. cbn [tokens].
  assert (Hsp : span is_sp (w ++ concat (map (λ a, lit " " ++ a) ws))
    = ([], w ++ concat (map (λ a, lit " " ++ a) ws))).
  { apply (span_app is_sp []); [constructor|]. destruct Hp as (Hne & Hc & _).
    destruct w as [|c w]; [done|]. intros ? [= <-]. apply Forall_cons in Hc as [[_ Hc] _].
    unfold is_sp. by apply Z.eqb_neq. }
  rewrite Hsp. cbn [snd]. destruct w as [|c w]; [by destruct Hp|]. cbn [app].
  destruct ws as [|w2 ws].
  - simpl. rewrite app_nil_r. destruct n as [|n]; [done|].
    rewrite <- (app_nil_r (c :: w)), (next_word_plain _ [] Hp) by (by left).
    by rewrite app_nil_r.
  - destruct n as [|n]; [simpl in Hn; lia|].
    change (c :: w ++ ?x) with ((c :: w) ++ x).
    rewrite (next_word_plain _ _ Hp) by (right; simpl; eauto).
    f_equal. apply (IH w2 ws Hws). simpl in *. lia.
Qed.

(** C11: Up to ten words without spaces or leading quotes survive being sent:
    when the command [write_cmd] makes of them, with its terminator, fits the
    buffer, [write_cmd] returns 0 and [tokenize_cmd], run on the buffer it
    leaves, splits it into the same words again; when it does not fit,
    [write_cmd] returns -1. *)
Theorem tokenize_write_cmd_roundtrip {E U} `{OS E} b buflen argv w ws (st : World E U) :
  Forall plain (w :: ws) → (length (w :: ws) ≤ 10)%nat →
  Forall (λ t, strlen t < INT_MAX) (w :: ws) →
  buflen = Z.of_nat (length b) → 0 < buflen ≤ INT_MAX → length argv = 10%nat →
  wp (write_cmd b buflen w ws) (λ '(r, b1) _,
    if strlen (cmd_text w ws) <? buflen then
      r = 0 ∧ ∃ argc argv' b', tokenize_cmd b1 argv = Ret (argc, argv', b') ∧
        args_of argv' b' (Z.to_nat argc) = Ret (w :: ws)
    else r = -1) st.
Proof.
  intros Hw Hn Hshort Hb Hmax Ha. assert (Hs : cstring (cmd_text w ws)).
  { unfold cmd_text. apply cstring_app. apply Forall_cons in Hw as [(_ & Hc & _) Hws].
    split; [eapply Forall_impl; [exact Hc|]; by intros ? [? _]|].
    apply Forall_concat, Forall_map. eapply Forall_impl; [exact Hws|].
    intros x (_ & Hx & _). constructor; [by vm_compute|].
    eapply Forall_impl; [exact Hx|]. by intros ? [? _]. }
  eapply wp_mono; [by apply (write_cmd_spec b buflen w ws st)|].
  intros [r b1] st'. destruct (_ <? _); [|by intros [-> _]]. intros (-> & Hh & _).
  split; [done|].
  destruct (tokenize_loop_spec 10 b1 argv [] 0 _ Hs Hh (words_at_nil _ _ _) eq_refl Ha)
    as (argv' & b' & Ht & Hargs). rewrite (tokens_cmd_text 10 w ws Hw Hn) in Ht, Hargs.
  do 3 eexists. split; [exact Ht|]. by rewrite Nat2Z.id.
Qed.

Lemma tokenize_write_cmd_roundtrip_witness :
  wp (@write_cmd unit unit null_OS (uninit 16) 16 (lit "scan") [lit "x"]) (λ '(r, b1) _,
    r = 0 ∧ ∃ argc argv' b', tokenize_cmd b1 (uninit 10) = Ret (argc, argv', b') ∧
      args_of argv' b' (Z.to_nat argc) = Ret [lit "scan"; lit "x"]) (mkWorld tt [] 0 tt).
Proof.
  apply (@tokenize_write_cmd_roundtrip unit unit null_OS (uninit 16) 16 (uninit 10)
    (lit "scan") [lit "x"]).
  - repeat constructor; try discriminate; by vm_compute.
  - simpl. lia.
  - repeat constructor; by vm_compute.
  - reflexivity.
  - by vm_compute.
  - reflexivity.
Defined.

(** ** MAC addresses *)

Lemma fmt_02x_byte a : 0 ≤ a < 256 →
  fmt_02x a = [hex_digit (a / 16); hex_digit (a mod 16)].
Proof.
  intros Ha. apply str_eqb_eq. revert a Ha.
  apply (forall_byte_reflect
    (λ a, str_eqb (fmt_02x a) [hex_digit (a / 16); hex_digit (a mod 16)])). reflexivity.
Qed.

Lemma hex2byte_digits a s : 0 ≤ a < 256 →
  hex2byte (hex_digit (a / 16) :: hex_digit (a mod 16) :: s) = a.
Proof.
  intros Ha. apply Z.eqb_eq. revert a Ha.
  apply (forall_byte_reflect
    (λ a, hex2byte (hex_digit (a / 16) :: hex_digit (a mod 16) :: s) =? a)). reflexivity.
Qed.

Lemma hwaddr_parse_colon n a txt :
  0 ≤ a < 256 →
  hwaddr_parse (S (S n)) (hex_digit (a / 16) :: hex_digit (a mod 16) :: 58 :: txt)
  = addr ← hwaddr_parse (S n) txt; Some (a :: addr).
Proof.
  intros Ha. change (hwaddr_parse (S (S n)) (?h :: ?l :: 58 :: txt))
    with (if hex2byte (h :: l :: 58 :: txt) <? 0 then None
          else addr ← hwaddr_parse (S n) txt; Some (hex2byte (h :: l :: 58 :: txt) :: addr)).
  rewrite hex2byte_digits by done. by rewrite (proj2 (Z.ltb_ge a 0)) by lia.
Qed.

(** [hwaddr_aton] reads back what MACSTR prints, whatever follows it. *)
Theorem hwaddr_roundtrip addr s :
  length addr = ETH_ALEN → Forall (λ a, 0 ≤ a < 256) addr →
  hwaddr_aton (macstr addr ++ s) = Some addr.
Proof.
  unfold hwaddr_aton. intros <-. induction addr as [|a addr IH]; intros Ha; [done|].
  apply Forall_cons in Ha as [Ha Hr].
  destruct addr as [|a2 addr].
  - cbn [macstr length hwaddr_parse]. rewrite fmt_02x_byte by done. cbn [app].
    rewrite hex2byte_digits by done. by rewrite (proj2 (Z.ltb_ge a 0)) by lia.
  - change (macstr (a :: a2 :: addr)) with (fmt_02x a ++ lit ":" ++ macstr (a2 :: addr)).
    rewrite fmt_02x_byte by done. change (lit ":") with [58]. rewrite <- !app_assoc.
    cbn [app length]. rewrite hwaddr_parse_colon by done. cbn [length] in IH.
    by rewrite (IH Hr).
Qed.

Lemma hwaddr_roundtrip_witness :
  hwaddr_aton (macstr [0; 17; 34; 171; 68; 255] ++ lit " x") = Some [0; 17; 34; 171; 68; 255].
Proof. apply hwaddr_roundtrip; [reflexivity|by apply (bool_decide_unpack _)]. Defined.

(** ** Text lists as sets *)

Lemma cli_txt_list_get_Some l txt e : cli_txt_list_get l txt = Some e → e = txt ∧ txt ∈ l.
Proof.
  induction l as [|x l IH]; simpl; [done|]. destruct (strcmp x txt =? 0) eqn:E; zbool.
  - intros [= <-]. apply strcmp_eq in E as ->. split; [done|left].
  - intros Hg. destruct (IH Hg) as [-> ?]. split; [done|by right].
Qed.

Lemma cli_txt_list_get_None l txt : cli_txt_list_get l txt = None → txt ∉ l.
Proof.
  induction l as [|x l IH]; simpl; intros Hg; [apply not_elem_of_nil|].
  destruct (strcmp x txt =? 0) eqn:E; zbool; [done|].
  apply not_elem_of_cons. split; [|by apply IH]. intros ->. apply E. by apply strcmp_eq.
Qed.

Lemma cli_txt_list_del_elem l txt y :
  NoDup l → (y ∈ cli_txt_list_del l txt ↔ y ∈ l ∧ y ≠ txt).
Proof.
  induction l as [|x l IH]; simpl; intros Hn.
  { split; [intros Hy; by apply not_elem_of_nil in Hy|intros [Hy _]; done]. }
  apply NoDup_cons in Hn as [Hx Hn]. destruct (strcmp x txt =? 0) eqn:E; zbool.
  - apply strcmp_eq in E as ->. rewrite elem_of_cons. split.
    + intros Hy. split; [by right|]. by intros ->.
    + intros [[->|Hy] Hne]; done.
  - rewrite !elem_of_cons, (IH Hn). split; [|naive_solver].
    intros [->|[Hy Hne]]; [|naive_solver]. split; [by left|]. intros ->. apply E.
    by apply strcmp_eq.
Qed.

Lemma cli_txt_list_del_NoDup l txt : NoDup l → NoDup (cli_txt_list_del l txt).
Proof.
  induction l as [|x l IH]; simpl; intros Hn; [done|].
  pose proof Hn as Hn'. apply NoDup_cons in Hn as [Hx Hn].
  destruct (strcmp x txt =? 0); [done|]. apply NoDup_cons. split; [|by apply IH].
  intros Hy. apply (cli_txt_list_del_elem l txt x Hn) in Hy as [Hy _]. done.
Qed.

Lemma txt_list_add_spec {E U} `{OS E} l txt (w : World E U) :
  NoDup l →
  wp (cli_txt_list_add l txt) (λ '(r, l') w', w_usr w' = w_usr w ∧ NoDup l' ∧
    ((r = 0 ∧ txt ∈ l' ∧ (l' = l ∨ l' = txt :: l)) ∨ (r = -1 ∧ l' = l ∧ txt ∉ l))) w.
Proof.
  intros Hn. unfold cli_txt_list_add. destruct (cli_txt_list_get l txt) as [e|] eqn:Eg.
  - apply cli_txt_list_get_Some in Eg as [-> Hin]. apply wp_ret. split_and!; [done|done|].
    left. eauto.
  - apply cli_txt_list_get_None in Eg. do 3 run_step.
    { run_step. split_and!; [done|done|by right]. }
    do 3 run_step; run_step; (split_and!; [done| |]).
    + done.
    + by right.
    + by apply NoDup_cons.
    + left. split_and!; [done|left|by right].
Qed.

(** A text list is a set: [cli_txt_list_add] keeps it free of
    duplicates and, when it returns 0, adds exactly the text, at the front if
    it was not there; when an allocation fails it returns -1 and changes
    nothing; [cli_txt_list_del] removes exactly the text. *)
Theorem txt_list_is_set {E U} `{OS E} l txt (w : World E U) :
  NoDup l →
  wp (cli_txt_list_add l txt) (λ '(r, l') _,
    NoDup l' ∧ ((r = 0 ∧ txt ∈ l' ∧ (l' = l ∨ l' = txt :: l)) ∨ (r = -1 ∧ l' = l ∧ txt ∉ l))) w ∧
  NoDup (cli_txt_list_del l txt) ∧
  ∀ y, y ∈ cli_txt_list_del l txt ↔ y ∈ l ∧ y ≠ txt.
Proof.
  intros Hn. split; [|split; [by apply cli_txt_list_del_NoDup|]].
  - eapply wp_mono; [by apply txt_list_add_spec|]. by intros [r l'] w' (_ & H1 & H2).
  - intros y. by apply cli_txt_list_del_elem.
Qed.

Lemma txt_list_is_set_witness :
  wp (@cli_txt_list_add unit unit null_OS [lit "a"] (lit "b")) (λ '(r, l') _,
    NoDup l' ∧ ((r = 0 ∧ lit "b" ∈ l' ∧ (l' = [lit "a"] ∨ l' = lit "b" :: [lit "a"])) ∨
                (r = -1 ∧ l' = [lit "a"] ∧ lit "b" ∉ [lit "a"]))) (mkWorld tt [] 0 tt) ∧
  NoDup (cli_txt_list_del [lit "a"] (lit "b")) ∧
  ∀ y, y ∈ cli_txt_list_del [lit "a"] (lit "b") ↔ y ∈ [lit "a"] ∧ y ≠ lit "b".
Proof.
  apply (@txt_list_is_set unit unit null_OS). by apply (bool_decide_unpack _).
Defined.
