(* ===== verification/Common.v ===== *)
(** * Text and bytes (src/utils/common.c)

    The conversions between text and binary data that the daemon and its
    clients share: hexadecimal, escaped and quoted text, byte counters and
    the formats of an SSID.  Pointers into a constant string are the rest of
    the string; output goes to checked buffers; [malloc_ok] says which sizes
    the allocator grants. *)

From S2P Require Import Prelude CString CliUtil.

(** ** Hexadecimal *)

(** [*pos++] on a string, where the terminator may be read once. *)
Definition next_char (pos : str) : Z * str :=
  match pos with [] => (0, []) | c :: pos' => (c, pos') end.

Fixpoint compact_loop (n : nat) (txt : str) : option (list Z) :=
  match n with
  | O => Some []
  | S n' =>
      let '(c, txt) := next_char txt in
      let a := hex2num c in
      if a <? 0 then None
      else
        let '(c, txt) := next_char txt in
        let b := hex2num c in
        if b <? 0 then None
        else addr ← compact_loop n' txt; Some (Z.lor (Z.shiftl a 4) b :: addr)
  end.

Definition hwaddr_compact_aton (txt : str) : option (list Z) := compact_loop 6 txt.

Definition is_addr_sep (c : Z) : bool := (c =? 58) || (c =? 46) || (c =? 45).

Fixpoint skip_seps (pos : str) : str :=
  match pos with c :: pos' => if is_addr_sep c then skip_seps pos' else pos | [] => [] end.

(** The address and the text that follows it. *)
Fixpoint aton2_loop (n : nat) (pos : str) : option (list Z * str) :=
  match n with
  | O => Some ([], pos)
  | S n' =>
      let pos := skip_seps pos in
      let '(c, pos) := next_char pos in
      let a := hex2num c in
      if a <? 0 then None
      else
        let '(c, pos) := next_char pos in
        let b := hex2num c in
        if b <? 0 then None
        else '(addr, rest) ← aton2_loop n' pos; Some (Z.lor (Z.shiftl a 4) b :: addr, rest)
  end.

(** The characters used and the address. *)
Definition hwaddr_aton2 (txt : str) : option (Z * list Z) :=
  '(addr, rest) ← aton2_loop 6 txt; Some (strlen txt - strlen rest, addr).

(** The bytes stored before an invalid digit, and the result. *)
Fixpoint hexstr2bin (hex : str) (len : nat) : list Z * Z :=
  match len with
  | O => ([], 0)
  | S len' =>
      let a := hex2byte hex in
      if a <? 0 then ([], -1)
      else let '(b, r) := hexstr2bin (drop 2 hex) len' in (a :: b, r)
  end.

Definition hwaddr_mask_txt (b : buf) (len : Z) (addr mask : list Z) : outcome (Z * buf) :=
  let print_mask := existsb (λ m, negb (m =? 255)) mask in
  '(res, b) ← snprintf b 0 len
                (if print_mask then macstr addr ++ [47] ++ macstr mask else macstr addr);
  if os_snprintf_error len res then Ret (-1, b) else Ret (res, b).

(** "%02X" *)
Definition fmt_02X (n : Z) : str := toupper <$> fmt_02x n.

(** [pos] is the number of characters written. *)
Fixpoint hex_sep_loop (b : buf) (buf_size pos : Z) (data : list Z) (sep : Z)
    : outcome (Z * buf * bool) :=
  match data with
  | [] => Ret (pos, b, false)
  | d :: data' =>
      '(ret, b) ← snprintf b pos (buf_size - pos) (fmt_02x d ++ [sep]);
      if os_snprintf_error (buf_size - pos) ret then
        b ← buf_set b (buf_size - 1) 0; Ret (pos, b, true)
      else hex_sep_loop b buf_size (pos + ret) data' sep
  end.

Definition wpa_snprintf_hex_sep (b : buf) (buf_size : Z) (data : list Z) (sep : Z)
    : outcome (Z * buf) :=
  if buf_size =? 0 then Ret (0, b)
  else
    '(pos, b, full) ← hex_sep_loop b buf_size 0 data sep;
    if (full : bool) then Ret (pos, b)
    else b ← buf_set b (pos - 1) 0; Ret (pos, b).

Fixpoint snprintf_hex_loop (b : buf) (buf_size pos : Z) (data : list Z) (fmt : Z → str)
    : outcome (Z * buf) :=
  match data with
  | [] => b ← buf_set b (buf_size - 1) 0; Ret (pos, b)
  | d :: data' =>
      '(ret, b) ← snprintf b pos (buf_size - pos) (fmt d);
      if os_snprintf_error (buf_size - pos) ret then
        b ← buf_set b (buf_size - 1) 0; Ret (pos, b)
      else snprintf_hex_loop b buf_size (pos + ret) data' fmt
  end.

Definition _wpa_snprintf_hex (b : buf) (buf_size : Z) (data : list Z) (uppercase : bool)
    : outcome (Z * buf) :=
  if buf_size =? 0 then Ret (0, b)
  else snprintf_hex_loop b buf_size 0 data (if uppercase then fmt_02X else fmt_02x).

Definition wpa_snprintf_hex (b : buf) (buf_size : Z) (data : list Z) : outcome (Z * buf) :=
  _wpa_snprintf_hex b buf_size data false.
Definition wpa_snprintf_hex_uppercase (b : buf) (buf_size : Z) (data : list Z)
    : outcome (Z * buf) :=
  _wpa_snprintf_hex b buf_size data true.

(** [vsnprintf] gave the text [t], or failed. *)
Definition wpa_scnprintf (b : buf) (size : Z) (t : option str) : outcome (Z * buf) :=
  if size =? 0 then Ret (0, b)
  else match t with
       | None => Ret (0, b)
       | Some t =>
           '(ret, b) ← snprintf b 0 size t;
           if size <=? ret then Ret (size - 1, b) else Ret (ret, b)
       end.

(** ** Counters *)

Fixpoint inc_loop (fuel : nat) (counter : list Z) (pos : Z) : outcome (list Z) :=
  match fuel with
  | O => OutOfFuel
  | S fuel' =>
      if 0 <=? pos then
        c ← need "counter" (counter !! Z.to_nat pos);
        let c := (c + 1) mod 256 in
        let counter := <[Z.to_nat pos := c]> counter in
        if negb (c =? 0) then Ret counter else inc_loop fuel' counter (pos - 1)
      else Ret counter
  end.

Definition inc_byte_array (counter : list Z) : outcome (list Z) :=
  inc_loop (S (length counter)) counter (strlen counter - 1).

(** ** Escaped text *)

Definition BACKSLASH : Z := 92.
Definition ESC : Z := 27.
Definition CR : Z := 13.

(** What one byte of the data becomes. *)
Definition encoded (d : Z) : str :=
  if d =? DQ then [BACKSLASH; DQ]
  else if d =? BACKSLASH then [BACKSLASH; BACKSLASH]
  else if d =? ESC then [BACKSLASH; 101]
  else if d =? NL then [BACKSLASH; 110]
  else if d =? CR then [BACKSLASH; 114]
  else if d =? TAB then [BACKSLASH; 116]
  else if (32 <=? d) && (d <=? 126) then [d]
  else [BACKSLASH; 120] ++ fmt_02x d.

(** Each byte is stored character by character, or by [os_snprintf], which
    also stores a terminator. *)
Definition store_encoded (b : buf) (txt maxlen d : Z) : outcome (buf * Z) :=
  if (32 <=? d) && (d <=? 126) || (d =? ESC) || (d =? NL) || (d =? CR) || (d =? TAB) then
    b ← buf_write b txt (encoded d); Ret (b, txt + strlen (encoded d))
  else
    '(n, b) ← snprintf b txt (maxlen - txt) (encoded d); Ret (b, txt + n).

Fixpoint encode_loop (b : buf) (txt maxlen : Z) (data : list Z) : outcome (buf * Z) :=
  match data with
  | [] => Ret (b, txt)
  | d :: data' =>
      if maxlen <=? txt + 4 then Ret (b, txt)
      else '(b, txt) ← store_encoded b txt maxlen d; encode_loop b txt maxlen data'
  end.

Definition printf_encode (b : buf) (maxlen : Z) (data : list Z) : outcome buf :=
  '(b, txt) ← encode_loop b 0 maxlen data;
  buf_set b txt 0.

Definition is_octal (c : Z) : bool := (48 <=? c) && (c <=? 55).

(** Up to two more octal digits behind a first one. *)
Definition octal_digit (val : Z) (pos : str) : Z * str :=
  match pos with
  | c :: pos' => if is_octal c then (val * 8 + (c - 48), pos') else (val, pos)
  | [] => (val, pos)
  end.

(** One escape: the byte it stands for, if any, and the text behind it. *)
Definition decode_escape (pos : str) : option Z * str :=
  match pos with
  | [] => (None, pos)
  | c :: pos' =>
      if c =? BACKSLASH then (Some BACKSLASH, pos')
      else if c =? DQ then (Some DQ, pos')
      else if c =? 110 then (Some NL, pos')
      else if c =? 114 then (Some CR, pos')
      else if c =? 116 then (Some TAB, pos')
      else if c =? 101 then (Some ESC, pos')
      else if c =? 120 then
        let val := hex2byte pos' in
        if val <? 0 then
          let val := hex2num (fst (next_char pos')) in
          if val <? 0 then (None, pos') else (Some val, drop 1 pos')
        else (Some val, drop 2 pos')
      else if is_octal c then
        let '(val, pos) := octal_digit (c - 48) pos' in
        let '(val, pos) := octal_digit val pos in
        (Some (val mod 256), pos)
      else (None, pos)
  end.

Fixpoint decode_loop (fuel : nat) (b : buf) (maxlen len : Z) (pos : str)
    : outcome (buf * Z) :=
  match fuel with
  | O => OutOfFuel
  | S fuel' =>
      match pos with
      | [] => Ret (b, len)
      | c :: pos' =>
          if maxlen <=? len + 1 then Ret (b, len)
          else if c =? BACKSLASH then
            let '(v, rest) := decode_escape pos' in
            match v with
            | Some v => b ← buf_set b len v; decode_loop fuel' b maxlen (len + 1) rest
            | None => decode_loop fuel' b maxlen len rest
            end
          else b ← buf_set b len c; decode_loop fuel' b maxlen (len + 1) pos'
      end
  end.

Definition printf_decode (b : buf) (maxlen : Z) (s : str) : outcome (buf * Z) :=
  '(b, len) ← decode_loop (S (length s)) b maxlen 0 s;
  if len <? maxlen then b ← buf_set b len 0; Ret (b, len) else Ret (b, len).

(** The static buffer of [wpa_ssid_txt] holds 32 bytes at four characters. *)
Definition SSID_MAX_LEN : Z := 32.

Definition wpa_ssid_txt (b : buf) (ssid : option (list Z)) : outcome buf :=
  match ssid with
  | None => buf_set b 0 0
  | Some ssid => printf_encode b (SSID_MAX_LEN * 4 + 1) ssid
  end.

(** ** Other predicates and copies *)

(** 17 characters make an address. *)
Definition hwaddr_masked_aton (txt : str) (maskable : bool) : option (list Z * list Z) :=
  addr ← hwaddr_parse ETH_ALEN txt;
  let r := drop 17 txt in
  let '(c, r') := next_char r in
  if (c =? 0) || isspace c then Some (addr, replicate ETH_ALEN 255)
  else if maskable && (c =? 47) then mask ← hwaddr_parse ETH_ALEN r'; Some (addr, mask)
  else None.

Definition is_hex (data : list Z) : bool := existsb (λ c, (c <? 32) || (127 <=? c)) data.
Definition has_ctrl_char (data : list Z) : bool := existsb (λ c, (c <? 32) || (c =? 127)) data.
Definition has_newline (s : str) : bool := existsb (λ c, (c =? NL) || (c =? CR)) s.

(** [char] is signed. *)
Definition is_ctrl_char (c : Z) : bool := (0 <? sext8 c) && (sext8 c <? 32).

Definition str_starts (s start : str) : bool := strncmp_eq s start (length start).

(** A destination of [res_len] bytes, cleared; what is copied and its length. *)
Definition merge_byte_arrays (res : buf) (res_len : Z) (src1 src2 : option (list Z))
    : outcome (buf * Z) :=
  res ← buf_write res 0 (replicate (Z.to_nat res_len) 0);
  let copy2 res len :=
    match src2 with
    | None => Ret (res, len)
    | Some s2 =>
        if res_len <=? len + strlen s2 then
          res ← buf_write res len (take (Z.to_nat (res_len - len)) s2); Ret (res, res_len)
        else res ← buf_write res len s2; Ret (res, len + strlen s2)
    end in
  match src1 with
  | None => copy2 res 0
  | Some s1 =>
      if res_len <=? strlen s1 then
        res ← buf_write res 0 (take (Z.to_nat res_len) s1); Ret (res, res_len)
      else res ← buf_write res 0 s1; copy2 res (strlen s1)
  end.

(** [rnd]: what [os_get_random] stored, unless it failed. *)
Definition local_unicast (addr : list Z) : list Z :=
  match addr with
  | a :: rest => Z.lor (Z.land a 254) 2 :: rest
  | [] => []
  end.

Definition random_mac_addr (rnd : option (list Z)) : option (list Z) :=
  addr ← rnd; Some (local_unicast addr).

Definition random_mac_addr_keep_oui (addr : list Z) (rnd : option (list Z)) : option (list Z) :=
  r ← rnd; Some (local_unicast (take 3 addr ++ r)).

(** The seconds and microseconds of [os_get_time]. *)
Definition be32 (x : Z) : list Z :=
  [Z.land (Z.shiftr x 24) 255; Z.land (Z.shiftr x 16) 255;
   Z.land (Z.shiftr x 8) 255; Z.land x 255].

Definition wpa_get_ntp_timestamp (sec usec : Z) : list Z :=
  let sec := u32 (sec + 2208988800) in
  let usec := u32 usec in
  let usec := u32 (4295 * usec - Z.shiftr usec 5 - Z.shiftr usec 9) in
  be32 sec ++ be32 usec.

(** ** Quoted, escaped and hexadecimal values *)

Section alloc.
Context (malloc_ok : Z → bool).

(** A block with the bytes and a terminator. *)
Definition dup_binstr (src : option (list Z)) : option buf :=
  match src with
  | None => None
  | Some s => if malloc_ok (strlen s + 1) then Some (cells (s ++ [0])) else None
  end.

(** [strrchr] finds the closing quote at the end of the text. *)
Definition quoted_text (value : str) : option str :=
  pos ← strrchr value DQ;
  if (S pos =? length value)%nat then Some (take pos value) else None.

(** A value in neither of the quoted forms. *)
Definition hex_value (value : str) : outcome (option (buf * Z)) :=
  let hlen := strlen value in
  if Z.land hlen 1 =? 1 then Ret None
  else
    let tlen := hlen / 2 in
    if malloc_ok (tlen + 1) then
      let '(bytes, r) := hexstr2bin value (Z.to_nat tlen) in
      if negb (r =? 0) then Ret None
      else
        str ← buf_write (uninit (tlen + 1)) 0 bytes;
        str ← buf_set str tlen 0;
        Ret (Some (str, tlen))
    else Ret None.

(** The block returned and the length stored in [*len]. *)
Definition wpa_config_parse_string (value : str) : outcome (option (buf * Z)) :=
  match value with
  | 34 :: value' =>
      match quoted_text value' with
      | None => Ret None
      | Some t => Ret (str ← dup_binstr (Some t); Some (str, strlen t))
      end
  | 80 :: 34 :: value' =>
      match quoted_text value' with
      | None => Ret None
      | Some t =>
          match dup_binstr (Some t) with
          | None => Ret None
          | Some tstr =>
              if malloc_ok (strlen t + 1) then
                s ← buf_str tstr 0;
                '(str, len) ← printf_decode (uninit (strlen t + 1)) (strlen t + 1) s;
                Ret (Some (str, len))
              else Ret None
          end
      end
  | _ => hex_value value
  end.

(** The first [len] bytes of a block. *)
Fixpoint block_bytes (b : buf) (i : Z) (len : nat) : outcome (list Z) :=
  match len with
  | O => Ret []
  | S len' => c ← buf_get b i; rest ← block_bytes b (i + 1) len'; Ret (c :: rest)
  end.

(** The text that [ssid_parse] hands on: up to the first space, or up to and
    including the second quote. *)
Definition ssid_field (tmp : str) : option str :=
  match tmp with
  | 34 :: rest =>
      end_ ← strchr rest DQ; Some (DQ :: take (S end_) rest)
  | _ => match strchr tmp SP with Some end_ => Some (take end_ tmp) | None => Some tmp end
  end.

(** The stored SSID, empty when nothing was stored, and the result. *)
Definition ssid_parse (s : str) : outcome (list Z * Z) :=
  if malloc_ok (strlen s + 1) then
    match ssid_field s with
    | None => Ret ([], -1)
    | Some tmp =>
        res ← wpa_config_parse_string tmp;
        match res with
        | None => Ret ([], -1)
        | Some (b, len) =>
            if len <=? SSID_MAX_LEN then
              ssid ← block_bytes b 0 (Z.to_nat len);
              Ret (ssid, if len =? 0 then -1 else 0)
            else Ret ([], -1)
        end
    end
  else Ret ([], -1).

End alloc.

(** ** Text built at the front of a buffer *)

Definition built (b : buf) (u : list Z) : Prop := take (length u) b = cells u.

Lemma built_nil b : built b [].
Proof. done. Qed.

Lemma built_prefix b u v : built b (u ++ v) → built b u.
Proof.
  unfold built, cells. intros H. apply (f_equal (take (length u))) in H.
  rewrite take_take, length_app, Nat.min_l, fmap_app in H by lia.
  by rewrite H, take_app_length' by (by rewrite length_fmap).
Qed.

Lemma built_write b u s b' :
  built b u → buf_write b (strlen u) s = Ret b' → built b' (u ++ s).
Proof.
  intros Hb (_ & Hl & ->)%buf_write_Ret. unfold built, strlen in *. rewrite Nat2Z.id, Hb.
  rewrite app_assoc, length_app, take_app_length'
    by (rewrite length_app, !cells_length; lia).
  unfold cells. by rewrite fmap_app.
Qed.

Lemma built_str b u : built b (u ++ [0]) → cstring u → buf_str b 0 = Ret u.
Proof.
  intros Hb Hu. unfold buf_str. cbn [Z.ltb Z.compare]. change (Z.to_nat 0) with 0%nat.
  rewrite drop_0, <- (take_drop (length (u ++ [0])) b), Hb. unfold cells.
  rewrite fmap_app, <- app_assoc. by apply cells_str_app.
Qed.

Lemma built_get b u i c : built b u → u !! i = Some c → buf_get b (Z.of_nat i) = Ret c.
Proof.
  intros Hb Hi. apply buf_get_lookup; [lia|]. rewrite Nat2Z.id.
  rewrite <- (lookup_take_lt b (length u)) by (by eapply lookup_lt_Some).
  unfold built in Hb. rewrite Hb. unfold cells. by rewrite list_lookup_fmap, Hi.
Qed.

Lemma built_bytes b u v w : built b (u ++ v ++ w) → block_bytes b (strlen u) (length v) = Ret v.
Proof.
  revert u. induction v as [|c v IH]; intros u Hb; [done|]. cbn [length block_bytes].
  assert (Hc : buf_get b (strlen u) = Ret c).
  { apply (built_get b _ (length u) _ Hb). simpl. by rewrite list_lookup_middle. }
  rewrite Hc. simpl. specialize (IH (u ++ [c])). rewrite <- app_assoc in IH.
  unfold strlen in *. rewrite length_app in IH. simpl in IH.
  replace (Z.of_nat (length u) + 1) with (Z.of_nat (length u + 1)) by lia.
  by rewrite (IH Hb).
Qed.

Lemma built_set b u c b' : built b u → buf_set b (strlen u) c = Ret b' → built b' (u ++ [c]).
Proof. apply built_write. Qed.

(** One more character behind the text [u]. *)
Lemma put_char b u c :
  built b u → strlen u < Z.of_nat (length b) →
  ∃ b', buf_set b (strlen u) c = Ret b' ∧ built b' (u ++ [c]) ∧ length b' = length b.
Proof.
  intros Hb Hl. destruct (buf_set_defined b (strlen u) c) as [b' H]; [unfold strlen in *; lia|].
  exists b'. split_and!; [done|by eapply built_set|by eapply buf_write_length].
Qed.

Lemma built_head b p c s w : built b (p ++ (c :: s) ++ w) → buf_get b (strlen p) = Ret c.
Proof. intros Hb. apply (built_get b _ (length p) _ Hb). simpl. by rewrite list_lookup_middle. Qed.

(** Text and terminator through [snprintf]. *)
Lemma snprintf_built b u s size :
  built b u → strlen s < size → strlen u + strlen s < Z.of_nat (length b) →
  ∃ b', snprintf b (strlen u) size s = Ret (strlen s, b') ∧ built b' (u ++ s ++ [0]) ∧
        length b' = length b.
Proof.
  intros Hb Hs Hl. unfold snprintf. rewrite (proj2 (Z.eqb_neq size 0)) by (unfold strlen in *; lia).
  rewrite take_ge by (unfold strlen in *; lia).
  destruct (buf_write_defined b (strlen u) (s ++ [0])) as [b' Hw];
    [unfold strlen; lia|unfold strlen in *; rewrite length_app; simpl; lia|].
  exists b'. rewrite Hw. split_and!; [done|by eapply built_write|by eapply buf_write_length].
Qed.

(** ** Escaping *)

Definition escaped (data : list Z) : str := data ≫= encoded.

Definition byte_list (data : list Z) : Prop := Forall (λ a, 0 ≤ a < 256) data.

Lemma encoded_ok d : 0 ≤ d < 256 →
  1 ≤ strlen (encoded d) ≤ 4 ∧ cstring (encoded d).
Proof.
  intros Hd. cut (bool_decide (1 ≤ strlen (encoded d) ≤ 4 ∧ cstring (encoded d)) = true).
  { apply bool_decide_eq_true. }
  revert d Hd. apply (forall_byte_reflect (λ d, bool_decide (_ ∧ cstring (encoded d)))).
  vm_compute. reflexivity.
Qed.

Lemma escaped_cons d data : escaped (d :: data) = encoded d ++ escaped data.
Proof. done. Qed.

Lemma escaped_cstring data : byte_list data → cstring (escaped data).
Proof.
  induction 1 as [|d data Hd _ IH]; [constructor|]. rewrite escaped_cons.
  apply cstring_app. split; [by apply encoded_ok|done].
Qed.

Lemma store_encoded_spec b u maxlen d :
  0 ≤ d < 256 → built b u → strlen u + 4 < maxlen ≤ Z.of_nat (length b) →
  ∃ b', store_encoded b (strlen u) maxlen d = Ret (b', strlen u + strlen (encoded d)) ∧
        built b' (u ++ encoded d) ∧ length b' = length b.
Proof.
  intros Hd Hb Hm. destruct (encoded_ok d Hd) as [Hl _]. unfold store_encoded. case_if.
  - destruct (buf_write_defined b (strlen u) (encoded d)) as [b' Hw]; [unfold strlen; lia|lia|].
    rewrite Hw. exists b'. split_and!; [done|by eapply built_write|by eapply buf_write_length].
  - destruct (snprintf_built b u (encoded d) (maxlen - strlen u)) as (b' & -> & Hb' & Hlen);
      [done|lia..|].
    exists b'. rewrite app_assoc in Hb'. split_and!; [done|by eapply built_prefix|done].
Qed.

Lemma encode_loop_spec data b u maxlen :
  byte_list data → built b u → strlen u < maxlen ≤ Z.of_nat (length b) →
  ∃ k b', (k ≤ length data)%nat ∧
    let t := u ++ escaped (take k data) in
    encode_loop b (strlen u) maxlen data = Ret (b', strlen t) ∧ built b' t ∧
    length b' = length b ∧ strlen t < maxlen ∧
    (strlen u + 4 * strlen data < maxlen → k = length data).
Proof.
  intros Hd. revert b u. induction Hd as [|d data Hd _ IH]; intros b u Hb Hm.
  { exists 0%nat, b. cbn. rewrite app_nil_r. split_and!; [lia|done..|lia|done]. }
  cbn [encode_loop]. destruct (maxlen <=? strlen u + 4) eqn:E; zbool.
  { exists 0%nat, b. cbn [take]. change (escaped []) with (@nil Z). rewrite app_nil_r.
    split_and!; [lia|done..|lia|]. unfold strlen in *. simpl. lia. }
  destruct (encoded_ok d Hd) as [Hl _].
  destruct (store_encoded_spec b u maxlen d) as (b1 & -> & Hb1 & Hl1); [done|done|lia|].
  assert (Hu : strlen (u ++ encoded d) = strlen u + strlen (encoded d)).
  { unfold strlen. rewrite length_app. lia. }
  rewrite outcome_bind_ret, <- Hu.
  destruct (IH b1 (u ++ encoded d)) as (k & b' & Hk & He & Hb' & Hl' & Ht & Hall);
    [done|lia|].
  exists (S k), b'. cbn [take]. rewrite escaped_cons, app_assoc.
  split_and!; [simpl; lia|done|done|congruence|done|].
  intros Hn. cbn [length]. f_equal. apply Hall. unfold strlen in *. simpl in Hn. lia.
Qed.

Lemma printf_encode_spec b maxlen data :
  byte_list data → 1 ≤ maxlen ≤ Z.of_nat (length b) →
  ∃ k b', (k ≤ length data)%nat ∧ printf_encode b maxlen data = Ret b' ∧
    length b' = length b ∧ buf_str b' 0 = Ret (escaped (take k data)) ∧
    (4 * strlen data < maxlen → k = length data).
Proof.
  intros Hd Hm. destruct (encode_loop_spec data b [] maxlen) as (k & b1 & Hk & He & Hb & Hl & Ht & Ha);
    [done|apply built_nil|unfold strlen; simpl length; lia|].
  simpl app in *. unfold printf_encode. change (encode_loop b 0) with (encode_loop b (strlen [])). rewrite He. ret_simpl.
  destruct (buf_set_defined b1 (strlen (escaped (take k data))) 0) as [b' Hs];
    [unfold strlen in *; lia|].
  exists k, b'. split_and!; [done|done| | |exact Ha].
  - rewrite <- Hl. by eapply buf_write_length.
  - apply built_str; [by eapply built_write|]. apply escaped_cstring. by apply Forall_take.
Qed.

(** ** Decoding *)

Lemma decode_encoded d rest : 0 ≤ d < 256 →
  (d ≠ BACKSLASH ∧ encoded d = [d]) ∨
  (∃ e, encoded d = BACKSLASH :: e ∧ decode_escape (e ++ rest) = (Some d, rest)).
Proof.
  intros Hd. unfold encoded.
  repeat (case_if; zbool; [right; eexists; split; [done|by subst]|]).
  case_if; [by left|]. right. eexists. split; [done|]. rewrite fmt_02x_byte by done.
  cbn [app decode_escape Z.eqb Pos.eqb BACKSLASH DQ]. rewrite hex2byte_digits by done.
  by rewrite (proj2 (Z.ltb_ge d 0)) by lia.
Qed.

Lemma decode_loop_spec data fuel b v maxlen :
  byte_list data → built b v → strlen v + strlen data < maxlen ≤ Z.of_nat (length b) →
  (length (escaped data) < fuel)%nat →
  ∃ b', decode_loop fuel b maxlen (strlen v) (escaped data) = Ret (b', strlen (v ++ data)) ∧
        built b' (v ++ data) ∧ length b' = length b.
Proof.
  intros Hd. revert fuel b v. induction Hd as [|d data Hd _ IH]; intros fuel b v Hb Hm Hf.
  { destruct fuel; [simpl in Hf; lia|]. exists b. rewrite app_nil_r. by split_and!. }
  destruct (encoded_ok d Hd) as [Hl _]. rewrite escaped_cons in *. rewrite length_app in Hf.
  destruct fuel as [|fuel]; [lia|].
  destruct (buf_set_defined b (strlen v) d) as [b1 Hs]; [unfold strlen in *; simpl in Hm; lia|].
  assert (Hv : strlen (v ++ [d]) = strlen v + 1) by (unfold strlen; rewrite length_app; simpl; lia).
  destruct (IH fuel b1 (v ++ [d])) as (b' & Hr & Hb' & Hlen).
  { by eapply built_write. }
  { rewrite Hv, (buf_write_length _ _ _ _ Hs). unfold strlen in *. simpl in Hm. lia. }
  { unfold strlen in Hl. lia. }
  rewrite <- app_assoc in Hr, Hb'. rewrite Hv in Hr.
  exists b'. split_and!; [|done|by rewrite Hlen; eapply buf_write_length].
  assert (Hg : (maxlen <=? strlen v + 1) = false).
  { apply Z.leb_gt. unfold strlen in *. simpl in Hm. lia. }
  destruct (decode_encoded d (escaped data) Hd) as [[Hne ->]|(e & -> & He)].
  - cbn [app decode_loop]. rewrite Hg, (proj2 (Z.eqb_neq d BACKSLASH)), Hs by done. exact Hr.
  - cbn [app decode_loop]. rewrite Hg, Z.eqb_refl, He, Hs. exact Hr.
Qed.

Lemma printf_decode_spec data b maxlen :
  byte_list data → strlen data < maxlen ≤ Z.of_nat (length b) →
  ∃ b', printf_decode b maxlen (escaped data) = Ret (b', strlen data) ∧
        built b' (data ++ [0]) ∧ length b' = length b.
Proof.
  intros Hd Hm. destruct (decode_loop_spec data (S (length (escaped data))) b [] maxlen)
    as (b1 & He & Hb & Hl); [done|apply built_nil|unfold strlen in *; simpl length in *; lia|lia|].
  simpl app in *. unfold printf_decode.
  match goal with |- context [decode_loop ?f b maxlen 0] =>
    change (decode_loop f b maxlen 0) with (decode_loop f b maxlen (strlen [])) end.
  rewrite He. ret_simpl.
  rewrite (proj2 (Z.ltb_lt _ _)) by lia.
  destruct (buf_set_defined b1 (strlen data) 0) as [b' Hs]; [unfold strlen in *; lia|].
  rewrite Hs. exists b'. split_and!; [done|by eapply built_write|].
  rewrite <- Hl. by eapply buf_write_length.
Qed.

(** ** Configuration strings *)

Lemma strrchr_snoc s c : c ≠ 0 → strrchr (s ++ [c]) c = Some (length s).
Proof.
  intros Hc. induction s as [|x s IH]; simpl; [|by rewrite IH].
  by rewrite Z.eqb_refl, (proj2 (Z.eqb_neq c 0)).
Qed.

Lemma quoted_text_snoc s : quoted_text (s ++ [DQ]) = Some s.
Proof.
  unfold quoted_text. rewrite strrchr_snoc by done. simpl. rewrite length_app, Nat.add_1_r, Nat.eqb_refl.
  f_equal. by apply take_app_length'.
Qed.

Definition hex_text (data : list Z) : str := data ≫= fmt_02x.

Lemma hex_text_cons a data : 0 ≤ a < 256 →
  hex_text (a :: data) = hex_digit (a / 16) :: hex_digit (a mod 16) :: hex_text data.
Proof. intros Ha. unfold hex_text. cbn [list_bind mbind]. by rewrite fmt_02x_byte. Qed.

Lemma hex_text_length data : byte_list data → length (hex_text data) = (2 * length data)%nat.
Proof.
  induction 1 as [|a data Ha _ IH]; [done|]. rewrite hex_text_cons by done. simpl. lia.
Qed.

Lemma hexstr2bin_text data rest :
  byte_list data → hexstr2bin (hex_text data ++ rest) (length data) = (data, 0).
Proof.
  induction 1 as [|a data Ha _ IH]; [done|]. rewrite hex_text_cons by done.
  cbn [length app hexstr2bin drop]. rewrite hex2byte_digits by done.
  rewrite (proj2 (Z.ltb_ge a 0)), drop_0 by lia. by rewrite IH.
Qed.

(** A value that takes neither of the quoted forms. *)
Definition bare (value : str) : bool :=
  match value with
  | 34 :: _ | 80 :: 34 :: _ => false
  | _ => true
  end.

Lemma bare_value malloc_ok value :
  bare value = true → wpa_config_parse_string malloc_ok value = hex_value malloc_ok value.
Proof.
  unfold bare, wpa_config_parse_string. intros H.
  repeat match goal with |- context [match ?x with _ => _ end] => is_var x; destruct x; try done end.
Qed.

Lemma bare_hex data : byte_list data → bare (hex_text data) = true.
Proof.
  intros Hd. destruct Hd as [|a data Ha _]; [done|]. rewrite hex_text_cons by done.
  assert (Hx : hex_digit (a / 16) ≠ 34 ∧ hex_digit (a / 16) ≠ 80).
  { unfold hex_digit. case_if; zbool; lia. }
  destruct Hx as [H1 H2]. revert H1 H2. generalize (hex_digit (a / 16)) as x. intros x H1 H2.
  unfold bare.
  repeat match goal with |- context [match ?y with _ => _ end] => is_var y; destruct y; try done end.
Qed.

(** The block that a parse returned holds [data] and a terminator. *)
Definition parsed (r : outcome (option (buf * Z))) (data : list Z) : Prop :=
  ∃ b, r = Ret (Some (b, strlen data)) ∧ built b (data ++ [0]).

Definition plentiful (malloc_ok : Z → bool) : Prop := ∀ n, malloc_ok n = true.

Lemma parse_quoted malloc_ok s :
  plentiful malloc_ok → parsed (wpa_config_parse_string malloc_ok (DQ :: s ++ [DQ])) s.
Proof.
  intros Hm. unfold wpa_config_parse_string, DQ at 1. rewrite quoted_text_snoc.
  unfold dup_binstr. rewrite Hm. eexists. split; [done|].
  unfold built, cells. by rewrite take_ge by (by rewrite length_fmap).
Qed.

Lemma parse_escaped malloc_ok data :
  plentiful malloc_ok → byte_list data →
  parsed (wpa_config_parse_string malloc_ok (80 :: DQ :: escaped data ++ [DQ])) data.
Proof.
  intros Hm Hd. unfold wpa_config_parse_string, DQ at 1. rewrite quoted_text_snoc.
  unfold dup_binstr. rewrite !Hm. unfold buf_str. cbn [Z.ltb Z.compare].
  change (Z.to_nat 0) with 0%nat. rewrite drop_0. unfold cells at 1. rewrite fmap_app.
  change (Some <$> [0]) with [Some 0].
  rewrite cells_str_app by (by apply escaped_cstring). ret_simpl.
  assert (strlen data ≤ strlen (escaped data)).
  { unfold strlen. induction Hd as [|d data Hd _ IH]; [done|]. rewrite escaped_cons, length_app.
    destruct (encoded_ok d Hd). unfold strlen in *. simpl. lia. }
  destruct (printf_decode_spec data (uninit (strlen (escaped data) + 1))
              (strlen (escaped data) + 1)) as (b & -> & Hb & _); [done| |by eexists].
  unfold uninit. rewrite length_replicate. unfold strlen in *. lia.
Qed.

Lemma parse_hex malloc_ok data :
  plentiful malloc_ok → byte_list data →
  parsed (wpa_config_parse_string malloc_ok (hex_text data)) data.
Proof.
  intros Hm Hd. rewrite bare_value by (by apply bare_hex). unfold hex_value.
  assert (Hl : strlen (hex_text data) = 2 * strlen data).
  { unfold strlen. rewrite hex_text_length by done. lia. }
  assert (Ho : Z.land (2 * strlen data) 1 = 0).
  { transitivity ((2 * strlen data) mod 2 ^ 1); [apply (Z.land_ones _ 1)|]; lia. }
  rewrite Hl, Ho, (Z.mul_comm 2), Z.div_mul by lia. cbn [Z.eqb]. rewrite Hm.
  replace (Z.to_nat (strlen data)) with (length data) by (unfold strlen; lia).
  rewrite <- (app_nil_r (hex_text data)), hexstr2bin_text by done.
  cbn [negb Z.eqb].
  destruct (buf_write_defined (uninit (strlen data + 1)) 0 data) as [b1 H1]; [lia| |].
  { unfold uninit. rewrite length_replicate. unfold strlen. lia. }
  rewrite H1. ret_simpl. pose proof (buf_write_length _ _ _ _ H1) as Hl1.
  destruct (buf_set_defined b1 (strlen data) 0) as [b2 H2].
  { rewrite Hl1. unfold uninit. rewrite length_replicate. unfold strlen. lia. }
  rewrite H2. exists b2. split; [done|]. eapply built_write; [|done].
  exact (built_write _ [] data b1 (built_nil _) H1).
Qed.

(** A byte string read as hexadecimal has hexadecimal digits only. *)
Definition hex_char (c : Z) : Prop := 0 ≤ hex2num c.

Lemma hexstr2bin_Forall n s bytes :
  hexstr2bin s n = (bytes, 0) → length s = (2 * n)%nat → Forall hex_char s.
Proof.
  revert s bytes. induction n as [|n IH]; intros s bytes H Hl.
  { by destruct s. }
  destruct s as [|x [|y s]]; [done|simpl in Hl; lia|]. cbn [hexstr2bin drop] in H.
  unfold hex2byte in H.
  destruct (hex2num x <? 0) eqn:E1; [done|]. destruct (hex2num y <? 0) eqn:E2; [done|].
  rewrite drop_0 in H. destruct (hexstr2bin s n) as [b r] eqn:Er.
  destruct (Z.lor _ _ <? 0); [done|]. injection H as _ ->. zbool. repeat constructor; [done|done|].
  eapply IH; [done|simpl in Hl; lia].
Qed.

(** [ssid_parse] on a line: the SSID and what follows it. *)
Lemma parsed_bytes b data : built b (data ++ [0]) → block_bytes b 0 (length data) = Ret data.
Proof. apply (built_bytes b []). Qed.

Lemma strchr_app_here s c t : c ≠ 0 → c ∉ s → strchr (s ++ c :: t) c = Some (length s).
Proof.
  intros Hc Hs. induction s as [|x s IH]; simpl; [by rewrite Z.eqb_refl|].
  apply not_elem_of_cons in Hs as [Hx Hs]. rewrite (proj2 (Z.eqb_neq x c)) by done.
  by rewrite (IH Hs).
Qed.

(** The two notations of an SSID. *)
Inductive ssid_notation (data : list Z) : str → Prop :=
  | notation_text : cstring data → DQ ∉ data → ssid_notation data (DQ :: data ++ [DQ])
  | notation_hex : ssid_notation data (hex_text data).

Lemma hex_text_no_space data : byte_list data → SP ∉ hex_text data.
Proof.
  induction 1 as [|a data Ha _ IH]; [apply not_elem_of_nil|]. rewrite hex_text_cons by done.
  rewrite !not_elem_of_cons. unfold hex_digit, SP. split_and!; [| |done]; case_if; zbool; lia.
Qed.

Lemma ssid_field_bare s :
  bare s = true →
  ssid_field s = match strchr s SP with Some e => Some (take e s) | None => Some s end.
Proof.
  unfold bare, ssid_field. intros H.
  repeat match goal with |- context [match ?x with _ => _ end] => is_var x; destruct x; try done end.
Qed.

Lemma strchr_none s c : c ≠ 0 → c ∉ s → strchr s c = None.
Proof.
  intros Hc Hs. induction s as [|x s IH]; simpl; [by rewrite (proj2 (Z.eqb_neq c 0))|].
  apply not_elem_of_cons in Hs as [Hx Hs]. rewrite (proj2 (Z.eqb_neq x c)) by done.
  by rewrite (IH Hs).
Qed.

Lemma bare_hex_app data rest :
  byte_list data → head rest ≠ Some DQ → head rest ≠ Some 80 → bare (hex_text data ++ rest) = true.
Proof.
  intros Hd H1 H2. destruct Hd as [|a data Ha Hd].
  - simpl app. unfold bare.
    repeat match goal with |- context [match ?y with _ => _ end] => is_var y; destruct y; try done end.
  - pose proof (bare_hex (a :: data) ltac:(by constructor)) as Hb.
    rewrite hex_text_cons in * by done. revert Hb. unfold bare.
    generalize (hex_digit (a / 16)), (hex_digit (a mod 16)). intros x y. cbn [app].
    repeat match goal with |- context [match ?y with _ => _ end] => is_var y; destruct y; try done end.
Qed.

Lemma ssid_field_notation data t rest :
  byte_list data → ssid_notation data t → rest = [] ∨ head rest = Some SP →
  ssid_field (t ++ rest) = Some t.
Proof.
  intros Hd [Hc Hq|] Hr.
  - simpl. rewrite <- app_assoc. cbn [app]. rewrite strchr_app_here by done. simpl. do 2 f_equal.
    rewrite cons_middle, app_assoc. apply take_app_length'. rewrite length_app. simpl. lia.
  - pose proof (hex_text_no_space data Hd) as Hs.
    rewrite ssid_field_bare by (apply bare_hex_app; [done|by destruct Hr as [->| ->]..]).
    destruct rest as [|x rest].
    + by rewrite app_nil_r, strchr_none.
    + destruct Hr as [|[= ->]]; [done|]. rewrite strchr_app_here by done.
      f_equal. by apply take_app_length.
Qed.

Lemma ssid_parse_notation malloc_ok data t rest :
  plentiful malloc_ok → byte_list data → ssid_notation data t →
  rest = [] ∨ head rest = Some SP →
  ssid_parse malloc_ok (t ++ rest) =
  Ret (if strlen data <=? SSID_MAX_LEN then data else [],
       if (1 <=? strlen data) && (strlen data <=? SSID_MAX_LEN) then 0 else -1).
Proof.
  intros Hm Hd Ht Hr. unfold ssid_parse. rewrite Hm, (ssid_field_notation data) by done.
  assert (Hp : parsed (wpa_config_parse_string malloc_ok t) data).
  { destruct Ht; [by apply parse_quoted|by apply parse_hex]. }
  destruct Hp as (b & -> & Hb). ret_simpl.
  destruct (strlen data <=? SSID_MAX_LEN) eqn:E; zbool; [|by rewrite andb_false_r].
  replace (Z.to_nat (strlen data)) with (length data) by (unfold strlen; lia).
  rewrite (parsed_bytes b data Hb). ret_simpl. rewrite andb_true_r.
  destruct data; [done|]. unfold strlen. cbn [length].
  rewrite (proj2 (Z.eqb_neq _ 0)), (proj2 (Z.leb_le 1 _)) by lia. done.
Qed.

(** ** Theorems *)

Lemma length_even_hex value : Z.land (strlen value) 1 ≠ 1 →
  length value = (2 * Z.to_nat (strlen value / 2))%nat.
Proof.
  intros H.
  assert (Z.land (strlen value) 1 = strlen value mod 2) as Ho by apply (Z.land_ones _ 1 ltac:(lia)).
  unfold strlen in *. lia.
Qed.

Lemma hexstr2bin_result s n : (hexstr2bin s n).2 = 0 ∨ (hexstr2bin s n).2 = -1.
Proof.
  revert s. induction n as [|n IH]; intros s; [by left|]. cbn [hexstr2bin].
  destruct (hex2byte s <? 0); [by right|]. specialize (IH (drop 2 s)).
  by destruct (hexstr2bin (drop 2 s) n).
Qed.

(** A value without quotes is read as hexadecimal, so one with any other
    character is refused, whatever the allocator does. *)
Theorem bare_text_refused malloc_ok value c :
  bare value = true → c ∈ value → hex2num c < 0 →
  wpa_config_parse_string malloc_ok value = Ret None.
Proof.
  intros Hb Hc Hn. rewrite bare_value by done. unfold hex_value.
  destruct (Z.land (strlen value) 1 =? 1) eqn:E; [done|].
  destruct (malloc_ok _); [|done].
  destruct (hexstr2bin value _) as [bytes r] eqn:Er. destruct (negb (r =? 0)) eqn:Ez; [done|].
  apply negb_false_iff in Ez. zbool. subst.
  pose proof (hexstr2bin_Forall _ _ _ Er (length_even_hex value E)) as Hf.
  rewrite Forall_forall in Hf. specialize (Hf c Hc). unfold hex_char in Hf. lia.
Qed.

Lemma bare_text_refused_witness :
  wpa_config_parse_string (λ _, true) (lit "home") = Ret None.
Proof.
  apply (bare_text_refused _ _ 104); [reflexivity|by apply list_elem_of_here|reflexivity].
Defined.

(** What [wpa_ssid_txt] prints for an SSID is read back by the parser of
    configuration values in the escaped form, for every SSID of up to 32 bytes
    and without overflowing the static buffer. *)
Theorem ssid_txt_roundtrip malloc_ok b data :
  plentiful malloc_ok → byte_list data → strlen data ≤ SSID_MAX_LEN →
  Z.of_nat (length b) = SSID_MAX_LEN * 4 + 1 →
  ∃ b' txt, wpa_ssid_txt b (Some data) = Ret b' ∧ buf_str b' 0 = Ret txt ∧
    parsed (wpa_config_parse_string malloc_ok (80 :: DQ :: txt ++ [DQ])) data.
Proof.
  intros Hm Hd Hs Hb. unfold wpa_ssid_txt, SSID_MAX_LEN in *.
  destruct (printf_encode_spec b (32 * 4 + 1) data) as (k & b' & _ & He & _ & Ht & Hk);
    [done|lia|].
  rewrite Hk, firstn_all in Ht by lia. exists b', (escaped data).
  split_and!; [done|done|by apply parse_escaped].
Qed.

Lemma ssid_txt_roundtrip_witness :
  ∃ b' txt, wpa_ssid_txt (zeros 129) (Some [99; 97; 102; 195; 169; 0; 34; 92; 10]) = Ret b' ∧
    buf_str b' 0 = Ret txt ∧
    parsed (wpa_config_parse_string (λ _, true) (80 :: DQ :: txt ++ [DQ]))
      [99; 97; 102; 195; 169; 0; 34; 92; 10].
Proof.
  apply ssid_txt_roundtrip; [done|by apply (bool_decide_unpack _)| |reflexivity].
  by apply (bool_decide_unpack _).
Defined.

(** [printf_encode] into any buffer stays inside it and leaves whole escapes
    of a prefix of the data, all of it when four characters a byte fit; then
    [printf_decode] gives the data back. *)
Theorem printf_roundtrip b maxlen data b2 maxlen2 :
  byte_list data → 1 ≤ maxlen ≤ Z.of_nat (length b) →
  strlen data < maxlen2 ≤ Z.of_nat (length b2) →
  ∃ k b' txt b2', (k ≤ length data)%nat ∧ (4 * strlen data < maxlen → k = length data) ∧
    printf_encode b maxlen data = Ret b' ∧ buf_str b' 0 = Ret txt ∧
    printf_decode b2 maxlen2 txt = Ret (b2', Z.of_nat k) ∧
    block_bytes b2' 0 k = Ret (take k data).
Proof.
  intros Hd Hm Hm2. destruct (printf_encode_spec b maxlen data) as (k & b' & Hk & He & _ & Ht & Ha);
    [done..|].
  assert (Hl : strlen (take k data) = Z.of_nat k) by (unfold strlen; rewrite length_take; lia).
  destruct (printf_decode_spec (take k data) b2 maxlen2) as (b2' & Hx & Hb2 & _);
    [by apply Forall_take|unfold strlen in *; lia|].
  exists k, b', (escaped (take k data)), b2'. rewrite Hl in Hx. split_and!; try done.
  pose proof (parsed_bytes _ _ Hb2) as Hp. unfold strlen in Hl.
  by replace (length (take k data)) with k in Hp by lia.
Qed.

Lemma printf_roundtrip_witness :
  ∃ k b' txt b2', (k ≤ 3)%nat ∧ (12 < 10 → k = 3%nat) ∧
    printf_encode (zeros 10) 10 [65; 200; 201] = Ret b' ∧ buf_str b' 0 = Ret txt ∧
    printf_decode (zeros 4) 4 txt = Ret (b2', Z.of_nat k) ∧
    block_bytes b2' 0 k = Ret (take k [65; 200; 201]).
Proof.
  apply (printf_roundtrip (zeros 10) 10 [65; 200; 201] (zeros 4) 4);
    by apply (bool_decide_unpack _).
Defined.

(** A line that names an SSID as quoted text or in hexadecimal gives its bytes
    if there are 1 to 32 of them, and is refused otherwise. *)
Theorem ssid_parse_correct malloc_ok data t rest :
  plentiful malloc_ok → byte_list data → ssid_notation data t →
  rest = [] ∨ head rest = Some SP →
  ssid_parse malloc_ok (t ++ rest) =
  Ret (if strlen data <=? SSID_MAX_LEN then data else [],
       if (1 <=? strlen data) && (strlen data <=? SSID_MAX_LEN) then 0 else -1).
Proof. apply ssid_parse_notation. Qed.

Lemma ssid_parse_correct_witness :
  ssid_parse (λ _, true) (DQ :: lit "my net" ++ [DQ] ++ lit " psk") = Ret (lit "my net", 0).
Proof.
  apply (ssid_parse_correct (λ _, true) (lit "my net") (DQ :: lit "my net" ++ [DQ]) (lit " psk"));
    [done|by apply (bool_decide_unpack _)| |by right].
  apply notation_text; by apply (bool_decide_unpack _).
Defined.

(** ** The byte counter *)

Definition be_value (l : list Z) : Z := foldl (λ acc a, acc * 256 + a) 0 l.

Lemma be_value_snoc l a : be_value (l ++ [a]) = be_value l * 256 + a.
Proof. unfold be_value. by rewrite foldl_app. Qed.

Lemma be_value_zeros l n : be_value (l ++ replicate n 0) = be_value l * 256 ^ Z.of_nat n.
Proof.
  induction n as [|n IH]; [simpl; rewrite app_nil_r; lia|].
  rewrite replicate_S_end, app_assoc, be_value_snoc, IH, Nat2Z.inj_succ, Z.pow_succ_r by lia. lia.
Qed.

Lemma be_value_bound l : byte_list l → 0 ≤ be_value l < 256 ^ strlen l.
Proof.
  induction l as [|a l IH] using rev_ind; intros Hl; [done|].
  apply Forall_app in Hl as [Hl Ha]. apply Forall_cons in Ha as [Ha _]. specialize (IH Hl).
  unfold strlen in *. rewrite be_value_snoc, length_app, Nat.add_1_r, Nat2Z.inj_succ, Z.pow_succ_r by lia.
  lia.
Qed.

(** The counter is [l] followed by bytes that rolled over already. *)
Lemma inc_loop_spec fuel l n :
  byte_list l → (length l < fuel)%nat →
  ∃ c, inc_loop fuel (l ++ replicate n 0) (strlen l - 1) = Ret c ∧ length c = (length l + n)%nat ∧
       be_value c = ((be_value l + 1) * 256 ^ Z.of_nat n) mod 256 ^ Z.of_nat (length l + n) ∧
       byte_list c.
Proof.
  revert l n. induction fuel as [|fuel IH]; intros l n Hl Hf; [lia|].
  destruct l as [|a l _] using rev_ind.
  { exists (replicate n 0). simpl app. cbn [inc_loop]. split_and!.
    - done.
    - by rewrite length_replicate.
    - pose proof (be_value_zeros [] n) as H. simpl in *. rewrite H. change (be_value []) with 0.
      rewrite Z.add_0_l, Z.mul_1_l, Z_mod_same_full. lia.
    - apply Forall_replicate. lia. }
  apply Forall_app in Hl as [Hl Ha]. apply Forall_cons in Ha as [Ha _].
  rewrite length_app in Hf. simpl in Hf. cbn [inc_loop].
  assert (Hp : strlen (l ++ [a]) - 1 = strlen l) by (unfold strlen; rewrite length_app; simpl; lia).
  rewrite Hp, (proj2 (Z.leb_le 0 _)) by (unfold strlen; lia).
  replace (Z.to_nat (strlen l)) with (length l) by (unfold strlen; lia).
  rewrite <- app_assoc. cbn [app]. rewrite list_lookup_middle by done. ret_simpl.
  rewrite insert_app_r_alt, Nat.sub_diag by done. cbn [insert list_insert].
  assert (Hw : 256 ^ Z.of_nat (S (length l) + n) = 256 ^ Z.of_nat (length l) * (256 * 256 ^ Z.of_nat n)).
  { rewrite Nat2Z.inj_add, Nat2Z.inj_succ, Z.pow_add_r, Z.pow_succ_r by lia. lia. }
  destruct (decide ((a + 1) mod 256 = 0)) as [Hz|Hz].
  - rewrite Hz. cbn [negb Z.eqb]. assert (a = 255) as -> by lia.
    destruct (IH l (S n) Hl ltac:(lia)) as (c & Hc & Hlen & Hv & Hb). exists c.
    replace (0 :: replicate n 0) with (replicate (S n) 0) by done.
    split_and!; [done|rewrite length_app; simpl; lia| |done].
    rewrite Hv, be_value_snoc, length_app. cbn [length].
    rewrite Nat2Z.inj_succ, Z.pow_succ_r by lia.
    replace (length l + 1 + n)%nat with (length l + S n)%nat by lia.
    f_equal. lia.
  - rewrite (proj2 (Z.eqb_neq _ 0)) by done. cbn [negb].
    exists (l ++ (a + 1) mod 256 :: replicate n 0). split_and!.
    + done.
    + rewrite !length_app. simpl. rewrite length_replicate. lia.
    + rewrite cons_middle, app_assoc, be_value_zeros, !be_value_snoc, length_app. cbn [length].
      rewrite (Z.mod_small (a + 1)) by lia.
      replace (length l + 1 + n)%nat with (S (length l) + n)%nat by lia.
      rewrite Hw, Z.mod_small; [lia|].
      pose proof (be_value_bound l Hl). unfold strlen in *.
      assert (0 < 256 ^ Z.of_nat n) by (apply Z.pow_pos_nonneg; lia).
      assert (a + 1 < 256) by lia. nia.
    + apply Forall_app; split; [done|]. constructor; [lia|]. apply Forall_replicate. lia.
Qed.

(** [inc_byte_array] adds one to a big-endian number, modulo its width; the
    loop ends and stays inside the array. *)
Theorem inc_byte_array_adds_one l :
  byte_list l →
  ∃ c, inc_byte_array l = Ret c ∧ length c = length l ∧ byte_list c ∧
       be_value c = (be_value l + 1) mod 256 ^ strlen l.
Proof.
  intros Hl. destruct (inc_loop_spec (S (length l)) l 0) as (c & Hc & Hlen & Hv & Hb); [done|lia|].
  exists c. simpl in Hc, Hv. rewrite app_nil_r in Hc.
  rewrite Z.mul_1_r, Nat.add_0_r in Hv. split_and!; [done|lia|done|done].
Qed.

Lemma inc_byte_array_adds_one_witness :
  ∃ c, inc_byte_array [1; 255; 255] = Ret c ∧ length c = 3%nat ∧ byte_list c ∧
       be_value c = (be_value [1; 255; 255] + 1) mod 256 ^ 3.
Proof. apply (inc_byte_array_adds_one [1; 255; 255]). by apply (bool_decide_unpack _). Defined.
