(* ===== verification/CommonLists.v ===== *)
(** * Lists of frequencies and integer arrays (src/utils/common.c)

    An [int] array ends with a zero; [None] is the null pointer.  Frequencies
    are [unsigned int].  [malloc_ok] says which sizes the allocator grants, and
    a block that grows keeps its cells. *)

From stdpp Require Import sorting.
From S2P Require Import Prelude CString Scan SmartlistOrder Common.
From Stdlib Require Import Sorted.

Section alloc.
Context (malloc_ok : Z → bool).

(** ** Frequency ranges *)

Record wpa_freq_range : Type := FreqRange { range_min : Z; range_max : Z }.

#[export] Instance wpa_freq_range_eq_dec : EqDecision wpa_freq_range.
Proof. solve_decision. Defined.

Definition sizeof_freq_range : Z := 8.

(** The range that starts at [pos] and the position behind its comma. *)
Definition freq_range_at (pos : str) : wpa_freq_range * option str :=
  let min := u32 (atoi pos) in
  let pos2 := strchr pos 45 in
  let pos3 := strchr pos 44 in
  let has_max := match pos2, pos3 with
                 | Some p2, Some p3 => (p2 <? p3)%nat
                 | Some _, None => true
                 | None, _ => false
                 end in
  let max := if has_max then u32 (atoi (drop (S (default O pos2)) pos)) else min in
  (FreqRange min max, p3 ← pos3; Some (drop (S p3) pos)).

(** [None]: no memory, and the list is unchanged. *)
Fixpoint freq_range_loop (fuel : nat) (freq : list wpa_freq_range) (pos : option str)
    : outcome (option (list wpa_freq_range)) :=
  match fuel with
  | O => OutOfFuel
  | S fuel' =>
      match pos with
      | None | Some [] => Ret (Some freq)
      | Some p =>
          if malloc_ok ((Z.of_nat (length freq) + 1) * sizeof_freq_range) then
            let '(r, pos) := freq_range_at p in freq_range_loop fuel' (freq ++ [r]) pos
          else Ret None
      end
  end.

Definition freq_range_list_parse (res : list wpa_freq_range) (value : option str)
    : outcome (list wpa_freq_range * Z) :=
  r ← freq_range_loop (S (length (default [] value))) [] value;
  match r with
  | Some freq => Ret (freq, 0)
  | None => Ret (res, -1)
  end.

Definition freq_range_list_includes (l : option (list wpa_freq_range)) (freq : Z) : bool :=
  match l with
  | None => false
  | Some l => existsb (λ r, (range_min r <=? freq) && (freq <=? range_max r)) l
  end.

Definition freq_range_text (first : bool) (r : wpa_freq_range) : str :=
  (if first then [] else [44]) ++
  (if range_min r =? range_max r then fmt_u (range_min r)
   else fmt_u (range_min r) ++ [45] ++ fmt_u (range_max r)).

Fixpoint freq_str_loop (b : buf) (pos maxlen : Z) (first : bool) (l : list wpa_freq_range)
    : outcome (option buf) :=
  match l with
  | [] => Ret (Some b)
  | r :: l' =>
      '(res, b) ← snprintf b pos (maxlen - pos) (freq_range_text first r);
      if os_snprintf_error (maxlen - pos) res then Ret None
      else freq_str_loop b (pos + res) maxlen false l'
  end.

Definition freq_range_list_str (l : list wpa_freq_range) : outcome (option buf) :=
  if Z.of_nat (length l) =? 0 then Ret None
  else
    let maxlen := Z.of_nat (length l) * 30 in
    if malloc_ok maxlen then freq_str_loop (uninit maxlen) 0 maxlen true l else Ret None.

(** ** Arrays of [int] that end with a zero *)

Definition int_array_len (a : option buf) : outcome Z :=
  match a with
  | None => Ret 0
  | Some a => scan (λ c, negb (c =? 0)) a 0
  end.

(** [os_realloc_array] of a block of [int]s. *)
Definition realloc_ints (a : option buf) (n : Z) : option buf :=
  if malloc_ok (n * 4) then
    let old := take (Z.to_nat n) (default [] a) in
    Some (old ++ uninit (n - Z.of_nat (length old)))
  else None.

Fixpoint copy_ints (n : buf) (at_ : Z) (a : buf) (i : Z) (count : nat) : outcome buf :=
  match count with
  | O => Ret n
  | S count' =>
      c ← buf_get a i; n ← buf_set n at_ c; copy_ints n (at_ + 1) a (i + 1) count'
  end.

Definition int_array_concat (res a : option buf) : outcome (option buf) :=
  reslen ← int_array_len res;
  alen ← int_array_len a;
  match realloc_ints res (reslen + alen + 1) with
  | None => Ret None
  | Some n =>
      match a with
      | None => UB "null pointer"
      | Some a => n ← copy_ints n reslen a 0 (Z.to_nat (alen + 1)); Ret (Some n)
      end
  end.

Definition freq_cmp (a b : Z) : outcome Z :=
  if a =? 0 then Ret 1 else if b =? 0 then Ret (-1) else int_chk (a - b).

(** The loop of [int_array_sort_unique] that drops repeated values. *)
Fixpoint unique_loop (fuel : nat) (a : buf) (i j : Z) : outcome (buf * Z) :=
  match fuel with
  | O => OutOfFuel
  | S fuel' =>
      ai ← buf_get a i;
      if ai =? 0 then Ret (a, i)
      else
        aj ← buf_get a j;
        if aj =? 0 then Ret (a, i)
        else if ai =? aj then unique_loop fuel' a i (j + 1)
        else a ← buf_set a (i + 1) aj; unique_loop fuel' a (i + 1) (j + 1)
  end.

Definition int_array_sort_unique `{Qsort} (a : option buf) : outcome (option buf) :=
  match a with
  | None => Ret None
  | Some a =>
      alen ← int_array_len (Some a);
      xs ← cells_values (take (Z.to_nat alen) a);
      ys ← qsort freq_cmp xs;
      a ← buf_write a 0 ys;
      '(a, i) ← unique_loop (S (length a)) a 0 1;
      ai ← buf_get a i;
      a ← buf_set a (if negb (ai =? 0) then i + 1 else i) 0;
      Ret (Some a)
  end.

(** [None] for the index: the value is in the array already. *)
Fixpoint find_int (fuel : nat) (a : buf) (i x : Z) : outcome (option Z) :=
  match fuel with
  | O => OutOfFuel
  | S fuel' =>
      c ← buf_get a i;
      if c =? 0 then Ret (Some i)
      else if c =? x then Ret None
      else find_int fuel' a (i + 1) x
  end.

Definition int_array_add_unique (res : option buf) (a : Z) : outcome (option buf) :=
  found ← match res with None => Ret (Some 0) | Some r => find_int (S (length r)) r 0 a end;
  match found with
  | None => Ret res
  | Some reslen =>
      match realloc_ints res (reslen + 2) with
      | None => Ret None
      | Some n =>
          n ← buf_set n reslen a;
          n ← buf_set n (reslen + 1) 0;
          Ret (Some n)
      end
  end.

End alloc.

(** ** Integer arrays *)

Definition ints (a : option buf) (xs : list Z) : Prop :=
  0 ∉ xs ∧ match a with None => xs = [] | Some b => built b (xs ++ [0]) end.

#[export] Instance ints_dec a xs : Decision (ints a xs).
Proof. destruct a; unfold ints, built; apply _. Defined.

Lemma built_holds b xs : built b (xs ++ [0]) → holds b 0 xs.
Proof.
  intros Hb. split; [done|]. change (Z.to_nat 0) with 0%nat. rewrite drop_0.
  exists (drop (length (xs ++ [0])) b). rewrite <- (take_drop (length (xs ++ [0])) b) at 1.
  by rewrite Hb.
Qed.

Lemma int_array_len_spec a xs : ints a xs → int_array_len a = Ret (strlen xs).
Proof.
  intros [H0 Ha]. destruct a as [b|]; [|by subst]. unfold int_array_len.
  apply (scan_spec _ b 0 xs []).
  - rewrite app_nil_r. by apply built_holds.
  - apply Forall_forall. intros x Hx. apply negb_true_iff, Z.eqb_neq. congruence.
  - by intros c [= <-].
Qed.

Section array_lemmas.
Context (malloc_ok : Z → bool) (Hm : plentiful malloc_ok).

(** A block that grows keeps a text and its terminator. *)
Lemma realloc_ints_spec a xs n :
  ints a xs → strlen xs < n →
  ∃ b, realloc_ints malloc_ok a n = Some b ∧ built b xs ∧ Z.of_nat (length b) = n.
Proof.
  intros [_ Ha] Hn. unfold realloc_ints. rewrite Hm. eexists. split; [done|].
  assert (Ht : take (length xs) (default [] a) = cells xs).
  { destruct a as [b|]; [|by subst]. by apply built_prefix in Ha. }
  assert (Hlen : (length xs ≤ length (default [] a))%nat).
  { apply (f_equal length) in Ht. rewrite length_take, cells_length in Ht. lia. }
  unfold strlen in *. split.
  - unfold built. rewrite take_app_le by (rewrite length_take; lia).
    by rewrite take_take, Nat.min_l by lia.
  - unfold uninit. rewrite length_app, length_replicate, length_take. lia.
Qed.

Lemma find_int_spec fuel b p xs x :
  built b (p ++ xs ++ [0]) → 0 ∉ xs → (length xs < fuel)%nat →
  find_int fuel b (strlen p) x = Ret (if bool_decide (x ∈ xs) then None else Some (strlen (p ++ xs))).
Proof.
  revert fuel p. induction xs as [|c xs IH]; intros fuel p Hb H0 Hf;
    (destruct fuel as [|fuel]; [simpl in Hf; lia|]); cbn [find_int].
  - rewrite (built_head b p 0 [] []) by done. rewrite app_nil_r. done.
  - rewrite (built_head b p c xs [0]) by done. ret_simpl.
    apply not_elem_of_cons in H0 as [Hc H0]. rewrite (proj2 (Z.eqb_neq c 0)) by done.
    destruct (decide (c = x)) as [->|Hx].
    + rewrite Z.eqb_refl. by rewrite bool_decide_eq_true_2 by left.
    + rewrite (proj2 (Z.eqb_neq c x)) by done.
      specialize (IH fuel (p ++ [c])). rewrite <- !app_assoc, strlen_snoc in IH.
      rewrite IH by (done || (simpl in Hf; lia)).
      rewrite (bool_decide_ext (x ∈ c :: xs) (x ∈ xs)); [done|].
      rewrite elem_of_cons. naive_solver.
Qed.

Lemma add_unique_spec a xs x :
  ints a xs → x ≠ 0 →
  ∃ a', int_array_add_unique malloc_ok a x = Ret a' ∧
        ints a' (if bool_decide (x ∈ xs) then xs else xs ++ [x]).
Proof.
  intros Ha Hx. destruct (realloc_ints_spec a xs (strlen xs + 2) Ha ltac:(lia)) as (b & Hr & Hb & Hl).
  pose proof Ha as [H0 Ha']. unfold int_array_add_unique.
  assert (Hf : match a with None => Ret (Some 0) | Some r => find_int (S (length r)) r 0 x end
               = Ret (if bool_decide (x ∈ xs) then None else Some (strlen xs))).
  { destruct a as [r|]; [|by subst].
    apply (find_int_spec (S (length r)) r [] xs x Ha' H0).
    apply (f_equal length) in Ha'. rewrite length_take, cells_length, length_app in Ha'.
    simpl in Ha'. lia. }
  rewrite Hf. ret_simpl. case_bool_decide as Hin; [by eexists|]. rewrite Hr.
  destruct (put_char b xs x) as (b1 & H1 & Hb1 & Hl1); [done|lia|]. rewrite H1. ret_simpl.
  destruct (put_char b1 (xs ++ [x]) 0) as (b2 & H2 & Hb2 & _);
    [done|rewrite strlen_snoc; lia|].
  rewrite strlen_snoc in H2. rewrite H2. eexists. split; [done|]. split; [|done].
  rewrite not_elem_of_app, list_elem_of_singleton. split; [done|congruence].
Qed.

Lemma copy_ints_spec b u a i ys rest :
  built b u → built a (i ++ ys ++ rest) → strlen u + strlen ys ≤ Z.of_nat (length b) →
  ∃ b', copy_ints b (strlen u) a (strlen i) (length ys) = Ret b' ∧ built b' (u ++ ys).
Proof.
  revert b u i. induction ys as [|y ys IH]; intros b u i Hb Ha Hl.
  { exists b. by rewrite app_nil_r. }
  cbn [length copy_ints]. rewrite (built_head a i y ys rest Ha). ret_simpl.
  assert (Hy : strlen (y :: ys) = 1 + strlen ys) by (unfold strlen; simpl length; lia).
  rewrite Hy in Hl.
  destruct (put_char b u y) as (b1 & H1 & Hb1 & L1); [done|unfold strlen in *; lia|].
  rewrite H1. ret_simpl. specialize (IH b1 (u ++ [y]) (i ++ [y])).
  rewrite <- !app_assoc, !strlen_snoc in IH. apply IH; [done|done|lia].
Qed.

Lemma concat_spec a xs b ys :
  ints a xs → ints (Some b) ys →
  ∃ a', int_array_concat malloc_ok a (Some b) = Ret (Some a') ∧ ints (Some a') (xs ++ ys).
Proof.
  intros Ha Hb. unfold int_array_concat.
  rewrite (int_array_len_spec _ _ Ha), (int_array_len_spec _ _ Hb). ret_simpl.
  assert (0 ≤ strlen ys) by (unfold strlen; lia).
  destruct (realloc_ints_spec a xs (strlen xs + strlen ys + 1) Ha ltac:(lia)) as (n & -> & Hn & Hl).
  destruct Ha as [Ha0 _], Hb as [Hb0 Hb].
  destruct (copy_ints_spec n xs b [] (ys ++ [0]) []) as (n' & Hc & Hb'); [done| | |].
  { by rewrite app_nil_r. } { rewrite strlen_snoc. lia. }
  replace (Z.to_nat (strlen ys + 1)) with (length (ys ++ [0]))
    by (unfold strlen; rewrite length_app; simpl; lia).
  change (copy_ints n (strlen xs) b 0) with (copy_ints n (strlen xs) b (strlen [])).
  rewrite Hc. eexists. split; [done|]. split; [|by rewrite <- app_assoc].
  rewrite not_elem_of_app. done.
Qed.

End array_lemmas.

(** ** Sorting without repetitions *)

Fixpoint uniq (x : Z) (r : list Z) : list Z :=
  match r with
  | [] => [x]
  | y :: r' => if x =? y then uniq x r' else x :: uniq y r'
  end.

Lemma uniq_elem x r z : z ∈ uniq x r ↔ z ∈ x :: r.
Proof.
  revert x. induction r as [|y r IH]; intros x; [done|]. cbn [uniq].
  destruct (x =? y) eqn:E; zbool; [subst|]; rewrite ?elem_of_cons, IH, ?elem_of_cons;
    naive_solver.
Qed.

Lemma uniq_sorted x r : StronglySorted Z.le (x :: r) → StronglySorted Z.lt (uniq x r).
Proof.
  revert x. induction r as [|y r IH]; intros x Hs; [repeat constructor|].
  apply StronglySorted_inv in Hs as [Hs Hx]. cbn [uniq]. apply Forall_cons in Hx as [Hxy Hx].
  pose proof (StronglySorted_inv Hs) as [Hs' Hy].
  destruct (x =? y) eqn:E; zbool.
  - subst. apply IH. by constructor.
  - constructor; [by apply IH|]. apply Forall_forall. intros z Hz. apply uniq_elem in Hz.
    rewrite Forall_forall in Hy. apply elem_of_cons in Hz as [->|Hz]; [lia|].
    specialize (Hy z Hz). lia.
Qed.

Lemma buf_set_cells l i c t w :
  buf_set (cells (l ++ i :: t) ++ w) (strlen l) c = Ret (cells (l ++ c :: t) ++ w).
Proof.
  apply buf_set_Ret. unfold strlen. rewrite length_app, cells_length, length_app. simpl.
  split; [lia|].
  rewrite Nat2Z.id. unfold cells. rewrite !fmap_app, <- !app_assoc. cbn.
  rewrite insert_app_r_alt by (by rewrite length_fmap). by rewrite length_fmap, Nat.sub_diag.
Qed.

Lemma buf_get_cells l c t w : buf_get (cells (l ++ c :: t) ++ w) (strlen l) = Ret c.
Proof.
  apply buf_get_lookup; [unfold strlen; lia|]. unfold strlen, cells.
  rewrite Nat2Z.id, fmap_app, <- app_assoc. cbn.
  by rewrite list_lookup_middle by (by rewrite length_fmap).
Qed.

(** Between the values kept, up to [i], and the rest, from [j], lies a gap. *)
Lemma unique_loop_spec fuel v x g r w :
  x ≠ 0 → 0 ∉ r → (length r < fuel)%nat →
  ∃ g', unique_loop fuel (cells (v ++ x :: g ++ r ++ [0]) ++ w) (strlen v) (strlen (v ++ x :: g)) =
        Ret (cells (v ++ uniq x r ++ g') ++ w, strlen (v ++ uniq x r) - 1) ∧ (1 ≤ length g')%nat.
Proof.
  revert fuel v x g. induction r as [|y r IH]; intros fuel v x g Hx H0 Hf;
    (destruct fuel as [|fuel]; [simpl in Hf; lia|]); cbn [unique_loop];
    rewrite buf_get_cells; ret_simpl; rewrite (proj2 (Z.eqb_neq x 0)) by done.
  - exists (g ++ [0]). split; [|rewrite length_app; simpl; lia].
    replace (v ++ x :: g ++ [] ++ [0]) with ((v ++ x :: g) ++ [0]) by (by rewrite <- app_assoc).
    rewrite buf_get_cells. ret_simpl. cbn [uniq Z.eqb]. rewrite strlen_snoc, <- app_assoc.
    do 2 f_equal. lia.
  - apply not_elem_of_cons in H0 as [Hy H0]. cbn [app].
    replace (v ++ x :: g ++ y :: r ++ [0]) with ((v ++ x :: g) ++ y :: r ++ [0])
      by (by rewrite <- app_assoc).
    rewrite buf_get_cells. ret_simpl. rewrite (proj2 (Z.eqb_neq y 0)) by done. cbn [uniq].
    assert (Hj : ∀ v x g, strlen (v ++ x :: g) + 1 = strlen (v ++ x :: g ++ [y])).
    { intros. unfold strlen. rewrite !length_app. simpl. rewrite length_app. simpl. lia. }
    destruct (x =? y) eqn:E.
    + rewrite Hj. destruct (IH fuel v x (g ++ [y])) as (g' & Hr & Hg); [done|done|simpl in Hf; lia|].
      exists g'. split; [|done]. rewrite <- Hr. f_equal. by rewrite <- !app_assoc.
    + assert (∃ h t, g ++ [y] = h :: t) as (h & t & Ht) by (destruct g; eexists _, _; done).
      assert (Ha : (v ++ x :: g) ++ y :: r ++ [0] = (v ++ [x]) ++ h :: t ++ r ++ [0]).
      { rewrite (app_comm_cons t), <- Ht, <- !app_assoc. done. }
      rewrite Ha, <- (strlen_snoc v x), buf_set_cells. ret_simpl.
      assert (Hl : strlen (v ++ x :: g) + 1 = strlen ((v ++ [x]) ++ y :: t)).
      { rewrite Hj, Ht. unfold strlen. rewrite !length_app. simpl. lia. }
      rewrite Hl. destruct (IH fuel (v ++ [x]) y t) as (g' & Hr & Hg);
        [done|done|simpl in Hf; lia|].
      exists g'. rewrite <- !app_assoc in *. split; done.
Qed.

(** The values that [freq_cmp] compares without overflow. *)
Definition positive_ints (xs : list Z) : Prop := Forall (λ x, 0 < x ≤ INT_MAX) xs.

Lemma uniq_snoc x r : ∃ u y, uniq x r = u ++ [y] ∧ y ∈ x :: r.
Proof.
  revert x. induction r as [|y r IH]; intros x; [exists [], x; split; [done|by left]|].
  cbn [uniq]. destruct (x =? y) eqn:E; zbool; [subst|].
  - destruct (IH y) as (u & z & -> & Hz). exists u, z. split; [done|by right].
  - destruct (IH y) as (u & z & -> & Hz). exists (x :: u), z. split; [done|by right].
Qed.

(** The end of the loop: what was kept is terminated. *)
Lemma close_unique x r g w :
  0 ∉ x :: r → (1 ≤ length g)%nat →
  ∃ a', (ai ← buf_get (cells (uniq x r ++ g) ++ w) (strlen (uniq x r) - 1);
         a ← buf_set (cells (uniq x r ++ g) ++ w)
               (if negb (ai =? 0) then strlen (uniq x r) - 1 + 1 else strlen (uniq x r) - 1) 0;
         Ret (Some a)) = Ret (Some a') ∧ ints (Some a') (uniq x r).
Proof.
  intros H0 Hg. destruct g as [|z g]; [simpl in Hg; lia|].
  destruct (uniq_snoc x r) as (u & y & Hu & Hy).
  assert (Hyz : y ≠ 0) by congruence.
  assert (Hget : buf_get (cells (uniq x r ++ z :: g) ++ w) (strlen (uniq x r) - 1) = Ret y).
  { rewrite Hu, strlen_snoc, <- app_assoc. replace (strlen u + 1 - 1) with (strlen u) by lia.
    apply buf_get_cells. }
  rewrite Hget. ret_simpl. rewrite (proj2 (Z.eqb_neq y 0)) by done. cbn [negb].
  rewrite Z.sub_add, buf_set_cells. eexists. split; [done|]. split.
  - intros Hin. by apply uniq_elem in Hin.
  - unfold built, cells. rewrite (cons_middle 0 (uniq x r) g), app_assoc, fmap_app, <- app_assoc.
    apply take_app_length'. by rewrite length_fmap.
Qed.

Lemma built_split b xs : built b (xs ++ [0]) → ∃ w, b = cells (xs ++ [0]) ++ w.
Proof.
  intros Hb. exists (drop (length (xs ++ [0])) b).
  rewrite <- (take_drop (length (xs ++ [0])) b) at 1. by rewrite Hb.
Qed.

Lemma qsort_ints `{QsortOk} xs :
  positive_ints xs →
  ∃ ys, qsort freq_cmp xs = Ret ys ∧ ys ≡ₚ xs ∧ StronglySorted Z.le ys.
Proof.
  unfold positive_ints. intros Hx. destruct (qsort_sorts freq_cmp (λ a b, a - b) xs) as (ys & Hq & Hp & Hs).
  - intros a b Ha Hb. rewrite Forall_forall in Hx. pose proof (Hx a Ha). pose proof (Hx b Hb).
    unfold freq_cmp. rewrite !(proj2 (Z.eqb_neq _ 0)) by lia.
    apply int_chk_Ret. unfold INT_MIN, INT_MAX in *. lia.
  - lia.
  - lia.
  - exists ys. split_and!; [done|done|]. apply Sorted_StronglySorted in Hs; [|intros a b c; lia].
    clear Hq Hp. induction Hs as [|y ys _ IH Hy]; constructor; [done|].
    eapply Forall_impl; [exact Hy|]. simpl. lia.
Qed.

Lemma sort_unique_spec `{QsortOk} a xs :
  ints (Some a) xs → positive_ints xs →
  ∃ a' ys, int_array_sort_unique (Some a) = Ret (Some a') ∧ ints (Some a') ys ∧
    StronglySorted Z.lt ys ∧ ∀ z, z ∈ ys ↔ z ∈ xs.
Proof.
  intros Ha Hx. unfold int_array_sort_unique. rewrite (int_array_len_spec _ _ Ha). ret_simpl.
  destruct Ha as [Hz Ha]. destruct (built_split _ _ Ha) as [w ->].
  replace (Z.to_nat (strlen xs)) with (length xs) by (unfold strlen; lia).
  replace (take (length xs) (cells (xs ++ [0]) ++ w)) with (cells xs).
  2: { unfold cells. rewrite fmap_app, <- app_assoc.
       by rewrite take_app_length' by (by rewrite length_fmap). }
  rewrite cells_values_cells. ret_simpl.
  destruct (qsort_ints xs Hx) as (ys & -> & Hp & Hs). ret_simpl.
  assert (Hlen : length ys = length xs) by (by rewrite Hp).
  assert (Hw : buf_write (cells (xs ++ [0]) ++ w) 0 ys = Ret (cells (ys ++ [0]) ++ w)).
  { apply buf_write_Ret. unfold strlen. rewrite length_app, cells_length, length_app. simpl.
    split_and!; [lia|lia|]. unfold cells. rewrite !fmap_app, <- !app_assoc.
    by rewrite drop_app_length' by (by rewrite length_fmap). }
  rewrite Hw. ret_simpl. destruct ys as [|y ys].
  { cbn. exists (Some 0 :: w), []. assert (xs = []) as -> by (by destruct xs).
    pose proof (buf_set_cells [] 0 0 [] w) as Hb. split_and!.
    - simpl. change (buf_set (Some 0 :: w) 0 0 = Ret (Some 0 :: w)) in Hb. by rewrite Hb.
    - split; [apply not_elem_of_nil|done].
    - constructor.
    - done. }
  assert (Hnz : 0 ∉ y :: ys) by (by rewrite Hp).
  destruct (unique_loop_spec (S (length (cells ((y :: ys) ++ [0]) ++ w))) [] y [] ys w)
    as (g & Hu & Hg); [set_solver|set_solver| |].
  { rewrite length_app, cells_length, length_app. simpl. lia. }
  change (strlen []) with 0 in Hu. change (strlen ([] ++ [y])) with 1 in Hu.
  cbn [app] in Hu |- *. rewrite Hu. ret_simpl.
  destruct (close_unique y ys g w Hnz Hg) as (a' & -> & Hi).
  exists a', (uniq y ys). split_and!; [done|done|by apply uniq_sorted|].
  intros z. by rewrite uniq_elem, Hp.
Qed.

(** Merging arrays of frequencies: after [int_array_concat] and
    [int_array_sort_unique] the array is the strictly increasing list of the
    elements of both, and [int_array_add_unique] then adds one element unless
    it is there. *)
Theorem int_array_union `{QsortOk} malloc_ok a xs b ys x :
  plentiful malloc_ok → ints a xs → ints (Some b) ys → positive_ints (xs ++ ys) → x ≠ 0 →
  ∃ c d e zs, int_array_concat malloc_ok a (Some b) = Ret (Some c) ∧
    int_array_sort_unique (Some c) = Ret (Some d) ∧ ints (Some d) zs ∧
    StronglySorted Z.lt zs ∧ (∀ z, z ∈ zs ↔ z ∈ xs ∨ z ∈ ys) ∧
    int_array_add_unique malloc_ok (Some d) x = Ret e ∧
    ints e (if bool_decide (x ∈ zs) then zs else zs ++ [x]).
Proof.
  intros Hm Ha Hb Hp Hx.
  destruct (concat_spec malloc_ok Hm a xs b ys Ha Hb) as (c & Hc & Hci).
  destruct (sort_unique_spec c (xs ++ ys) Hci Hp) as (d & zs & Hd & Hdi & Hs & Hz).
  destruct (add_unique_spec malloc_ok Hm (Some d) zs x Hdi Hx) as (e & He & Hei).
  exists c, d, e, zs. split_and!; try done. intros z. by rewrite Hz, elem_of_app.
Qed.

Lemma int_array_union_witness :
  ∃ c d e zs,
    int_array_concat (λ _, true) (Some (cells [5180; 2412; 0])) (Some (cells [2437; 2412; 0]))
      = Ret (Some c) ∧
    int_array_sort_unique (Some c) = Ret (Some d) ∧ ints (Some d) zs ∧
    StronglySorted Z.lt zs ∧ (∀ z, z ∈ zs ↔ z ∈ [5180; 2412] ∨ z ∈ [2437; 2412]) ∧
    int_array_add_unique (λ _, true) (Some d) 2462 = Ret e ∧
    ints e (if bool_decide (2462 ∈ zs) then zs else zs ++ [2462]).
Proof.
  apply int_array_union; [done|..]; by apply (bool_decide_unpack _).
Defined.

(** [int_array_len] accepts the null pointer as an empty array, but
    [int_array_concat] reads its terminator through it. *)
Example concat_null_array : int_array_concat (λ _, true) (Some (cells [2412; 0])) None
  = UB "null pointer".
Proof. reflexivity. Qed.

(** ** Numbers in text *)

Definition is_digit (c : Z) : Prop := 48 ≤ c ≤ 57.

Lemma fmt_base_spec k fuel n acc :
  0 ≤ n < 10 ^ (Z.of_nat k + 1) → (k < fuel)%nat →
  ∃ ds, fmt_base fuel 10 n acc = ds ++ acc ∧ (1 ≤ length ds ≤ S k)%nat ∧ Forall is_digit ds ∧
    ∀ t, digits_val 0 (ds ++ t) = digits_val n t.
Proof.
  revert fuel n acc. induction k as [|k IH]; intros fuel n acc Hn Hf;
    (destruct fuel as [|fuel]; [lia|]); cbn [fmt_base].
  all: assert (Hd : is_digit (hex_digit (n mod 10)) ∧ hex_digit (n mod 10) - 48 = n mod 10)
    by (unfold is_digit, hex_digit; case_if; zbool; lia).
  all: destruct Hd as [Hd Hv].
  all: assert (Hdig : isdigit (hex_digit (n mod 10)) = true)
    by (unfold is_digit, isdigit in *; apply andb_true_iff; split; apply Z.leb_le; lia).
  all: destruct (n <? 10) eqn:E; zbool.
  1, 3: exists [hex_digit (n mod 10)]; split_and!; [done|simpl; lia|simpl; lia|by constructor; [done|constructor]|];
    intros t; cbn [app digits_val]; rewrite Hdig, Hv; f_equal; lia.
  - simpl in Hn. lia.
  - rewrite Nat2Z.inj_succ, Z.add_succ_l, Z.pow_succ_r in Hn by lia.
    destruct (IH fuel (n / 10) (hex_digit (n mod 10) :: acc)) as (ds & Hs & Hl & Hds & Hval); [lia|lia|].
    exists (ds ++ [hex_digit (n mod 10)]). split_and!.
    + by rewrite Hs, <- app_assoc.
    + rewrite length_app. simpl. lia.
    + rewrite length_app. simpl. lia.
    + apply Forall_app. split; [done|by constructor; [done|constructor]].
    + intros t. rewrite <- app_assoc, Hval. cbn [app digits_val]. rewrite Hdig, Hv. f_equal. lia.
Qed.

Lemma fmt_u_spec n : 0 ≤ n < 4294967296 →
  (1 ≤ length (fmt_u n) ≤ 10)%nat ∧ Forall is_digit (fmt_u n) ∧
  ∀ t, digits_val 0 (fmt_u n ++ t) = digits_val n t.
Proof.
  intros Hn. destruct (fmt_base_spec 9 11 n []) as (ds & Hs & Hl & Hd & Hv); [simpl; lia|lia|].
  rewrite app_nil_r in Hs. unfold fmt_u. by rewrite Hs.
Qed.

Lemma digits_val_stop n t : (∀ c, head t = Some c → isdigit c = false) → digits_val n t = n.
Proof. intros H. destruct t as [|c t]; [done|]. simpl. by rewrite (H c eq_refl). Qed.

Lemma atoi_fmt_u n t :
  0 ≤ n < 4294967296 → (∀ c, head t = Some c → isdigit c = false) →
  u32 (atoi (fmt_u n ++ t)) = n.
Proof.
  intros Hn Ht. destruct (fmt_u_spec n Hn) as (Hl & Hd & Hv).
  assert (Hr : atoi (fmt_u n ++ t)
    = to_int32 (Z.max (-9223372036854775808) (Z.min 9223372036854775807 (digits_val 0 (fmt_u n ++ t))))).
  { destruct (fmt_u n) as [|c ds]; [simpl in Hl; lia|]. apply Forall_cons in Hd as [Hc _].
    unfold is_digit in Hc. cbn [app]. unfold atoi. cbn [skip_space].
    assert (isspace c = false) as ->.
    { unfold isspace. apply orb_false_iff. rewrite andb_false_iff, !Z.leb_gt, Z.eqb_neq. lia. }
    assert (c ≠ 45 ∧ c ≠ 43) as [H1 H2] by lia. revert H1 H2. generalize (ds ++ t).
    clear. intros s H1 H2.
    repeat match goal with |- context [match ?y with _ => _ end] => is_var y; destruct y; try done end. }
  rewrite Hr, Hv, digits_val_stop by done. unfold u32, to_int32. lia.
Qed.

Lemma strchr_skip ds t c :
  c ∉ ds → strchr (ds ++ t) c = (λ k, (length ds + k)%nat) <$> strchr t c.
Proof.
  intros Hc. induction ds as [|d ds IH].
  { cbn [app length]. destruct (strchr t c); simpl; by f_equal. }
  apply not_elem_of_cons in Hc as [Hd Hc]. simpl.
  rewrite (proj2 (Z.eqb_neq d c)), (IH Hc) by done. by destruct (strchr t c).
Qed.

(** ** Frequency ranges as text *)

Definition freq_bounds (r : wpa_freq_range) : Prop :=
  0 ≤ range_min r < 4294967296 ∧ 0 ≤ range_max r < 4294967296.

#[export] Instance freq_bounds_dec r : Decision (freq_bounds r).
Proof. unfold freq_bounds. apply _. Defined.

(** The text of the list, [first] before its first range. *)
Fixpoint freq_text (first : bool) (l : list wpa_freq_range) : str :=
  match l with
  | [] => []
  | r :: l' => freq_range_text first r ++ freq_text false l'
  end.

Lemma digit_not ds c : Forall is_digit ds → ¬ is_digit c → c ∉ ds.
Proof. intros Hd Hc Hin. rewrite Forall_forall in Hd. by apply Hc, Hd. Qed.

Lemma fmt_u_not n c : 0 ≤ n < 4294967296 → ¬ is_digit c → c ∉ fmt_u n.
Proof. intros Hn. apply digit_not. by apply fmt_u_spec. Qed.

Lemma freq_range_text_ok first r :
  freq_bounds r → (length (freq_range_text first r) ≤ 22)%nat ∧ cstring (freq_range_text first r).
Proof.
  intros [H1 H2]. destruct (fmt_u_spec _ H1) as (Hl1 & Hd1 & _), (fmt_u_spec _ H2) as (Hl2 & Hd2 & _).
  assert (Hc : ∀ ds, Forall is_digit ds → cstring ds).
  { intros ds Hd. eapply Forall_impl; [exact Hd|]. unfold is_digit. lia. }
  apply Hc in Hd1, Hd2. unfold freq_range_text.
  split; [destruct first, (range_min r =? range_max r); rewrite ?length_app; simpl;
          rewrite ?length_app; simpl; lia|].
  apply cstring_app. split; [destruct first; repeat constructor|].
  destruct (range_min r =? range_max r); [done|]. apply cstring_app. split; [done|].
  apply cstring_app. split; [repeat constructor|done].
Qed.

(** Reading one range back, up to its comma. *)
Lemma freq_range_at_text r rest :
  freq_bounds r → rest = [] ∨ head rest = Some 44 →
  freq_range_at (freq_range_text true r ++ rest) =
  (r, match rest with [] => None | _ :: rest' => Some rest' end).
Proof.
  intros [H1 H2] Hr. destruct r as [mn mx]. simpl in H1, H2.
  assert (Hnd : ∀ c, c = 44 ∨ c = 45 → ¬ is_digit c) by (unfold is_digit; lia).
  assert (Hstop : ∀ c, head rest = Some c → isdigit c = false).
  { intros c Hc. destruct Hr as [->|Hr]; [done|]. rewrite Hr in Hc. by injection Hc as <-. }
  unfold freq_range_text, freq_range_at. cbn [range_min range_max app].
  destruct (mn =? mx) eqn:E; zbool; [subst|].
  - rewrite !strchr_skip by (apply fmt_u_not; [done|apply Hnd; lia]).
    rewrite atoi_fmt_u by done. destruct rest as [|c rest]; [done|].
    destruct Hr as [|[= ->]]; [done|]. cbn [strchr fmap option_fmap option_map Z.eqb Pos.eqb].
    rewrite Nat.add_0_r.
    assert (Hb : ∀ o : option nat, match (λ k, (length (fmt_u mx) + k)%nat) <$> (S <$> o) with
      | Some p2 => (p2 <? length (fmt_u mx))%nat | None => false end = false).
    { intros [k|]; [|done]. simpl. apply Nat.ltb_ge. lia. }
    cbn [fmap option_fmap option_map] in Hb. rewrite Hb. f_equal. cbn [mbind option_bind].
    do 2 f_equal. rewrite cons_middle, app_assoc. apply drop_app_length'. rewrite length_app. simpl. lia.
  - rewrite <- !app_assoc. cbn [app].
    rewrite !strchr_skip by (apply fmt_u_not; [done|apply Hnd; lia]).
    rewrite atoi_fmt_u by (done || by intros c [= <-]).
    cbn [strchr Z.eqb Pos.eqb]. rewrite strchr_skip by (apply fmt_u_not; [done|apply Hnd; lia]).
    assert (Hd : drop (S (length (fmt_u mn) + 0)) (fmt_u mn ++ 45 :: fmt_u mx ++ rest)
                 = fmt_u mx ++ rest).
    { rewrite cons_middle, app_assoc. apply drop_app_length'. rewrite length_app. simpl. lia. }
    destruct rest as [|c rest];
      cbn [strchr fmap option_fmap option_map Z.eqb default from_option id mbind option_bind].
    + rewrite Hd. by rewrite atoi_fmt_u.
    + destruct Hr as [|[= ->]]; [done|].
      cbn [strchr fmap option_fmap option_map Z.eqb Pos.eqb default from_option id mbind option_bind].
      rewrite (proj2 (Nat.ltb_lt _ _)), Hd, atoi_fmt_u by (done || lia). do 2 f_equal.
      assert (Hs : S (length (fmt_u mn) + S (length (fmt_u mx) + 0))
                   = (S (length (fmt_u mn) + 0) + S (length (fmt_u mx)))%nat) by lia.
      rewrite Hs, <- drop_drop, Hd, cons_middle, app_assoc. apply drop_app_length'.
      rewrite length_app. simpl. lia.
Qed.

Lemma freq_text_false l : freq_text false l = [] ∨ freq_text false l = 44 :: freq_text true l.
Proof. destruct l as [|r l]; [by left|by right]. Qed.

Lemma freq_range_text_cons r : freq_bounds r → ∃ c t, freq_range_text true r = c :: t.
Proof.
  intros [H1 _]. destruct (fmt_u_spec _ H1) as (Hl & _). unfold freq_range_text. cbn [app].
  destruct (fmt_u (range_min r)) as [|c t]; [simpl in Hl; lia|].
  destruct (_ =? _); by eexists _, _.
Qed.

Lemma freq_range_loop_text malloc_ok l fuel acc :
  plentiful malloc_ok → Forall freq_bounds l → (length l < fuel)%nat →
  freq_range_loop malloc_ok fuel acc (Some (freq_text true l)) = Ret (Some (acc ++ l)).
Proof.
  intros Hm Hl. revert fuel acc. induction Hl as [|r l Hr Hl IH]; intros fuel acc Hf;
    (destruct fuel as [|fuel]; [simpl in Hf; lia|]); [by rewrite app_nil_r|].
  destruct (freq_range_text_cons r Hr) as (c & t & Ht).
  assert (Hne : freq_range_loop malloc_ok (S fuel) acc (Some (freq_text true (r :: l)))
    = let '(r, pos) := freq_range_at (freq_text true (r :: l)) in
      freq_range_loop malloc_ok fuel (acc ++ [r]) pos).
  { cbn [freq_text freq_range_loop]. rewrite Ht. cbn [app]. by rewrite Hm. }
  rewrite Hne. cbn [freq_text].
  assert (Hrest : freq_text false l = [] ∨ head (freq_text false l) = Some 44).
  { destruct (freq_text_false l) as [->|Hc]; [by left|right; by rewrite Hc]. }
  rewrite freq_range_at_text by done.
  destruct l as [|r2 l]; [destruct fuel; [simpl in Hf; lia|done]|].
  change (freq_text false (r2 :: l)) with (44 :: freq_text true (r2 :: l)).
  rewrite IH by (simpl in *; lia). by rewrite <- app_assoc.
Qed.

Lemma freq_str_loop_spec l b u maxlen first :
  Forall freq_bounds l → built b (match l with [] => u ++ [0] | _ => u end) →
  strlen u + 22 * Z.of_nat (length l) < maxlen ≤ Z.of_nat (length b) → maxlen < 4294967296 →
  ∃ b', freq_str_loop b (strlen u) maxlen first l = Ret (Some b') ∧
        built b' (u ++ freq_text first l ++ [0]).
Proof.
  intros Hl. revert b u first. induction Hl as [|r l Hr Hl IH]; intros b u first Hb Hn Hmax.
  { by exists b. }
  cbn [freq_str_loop freq_text]. destruct (freq_range_text_ok first r Hr) as [Hlen _].
  revert Hlen. generalize (freq_range_text first r) as t. intros t Hlen.
  cbn [length] in Hn.
  destruct (snprintf_built b u t (maxlen - strlen u)) as (b1 & -> & Hb1 & Hl1);
    [done|unfold strlen in *; lia|unfold strlen in *; lia|]. ret_simpl.
  unfold os_snprintf_error, u32. rewrite Z.mod_small by (unfold strlen in *; lia).
  rewrite (proj2 (Z.ltb_ge _ 0)), (proj2 (Z.leb_gt _ (strlen t))) by (unfold strlen in *; lia).
  cbn [orb]. destruct (IH b1 (u ++ t) false) as (b' & Hr' & Hb').
  - rewrite app_assoc in Hb1. destruct l; [done|by eapply built_prefix].
  - rewrite Hl1. unfold strlen in *. rewrite length_app. lia.
  - done.
  - replace (strlen (u ++ t)) with (strlen u + strlen t) in Hr' by (unfold strlen; rewrite length_app; lia).
    exists b'. rewrite <- !app_assoc in *. done.
Qed.

(** [freq_range_list_str] prints a list of ranges in the room it allocates,
    and [freq_range_list_parse] reads the list back. *)
Theorem freq_range_roundtrip malloc_ok l res :
  plentiful malloc_ok → Forall freq_bounds l → 1 ≤ Z.of_nat (length l) < 100000000 →
  ∃ b t, freq_range_list_str malloc_ok l = Ret (Some b) ∧ buf_str b 0 = Ret t ∧
    freq_range_list_parse malloc_ok res (Some t) = Ret (l, 0).
Proof.
  intros Hm Hl Hn. unfold freq_range_list_str. rewrite (proj2 (Z.eqb_neq _ 0)), Hm by lia.
  destruct (freq_str_loop_spec l (uninit (Z.of_nat (length l) * 30)) [] (Z.of_nat (length l) * 30) true)
    as (b & Hb & Hbt); [done|destruct l; [simpl in Hn; lia|done]| |lia|].
  { unfold uninit. rewrite length_replicate. change (strlen []) with 0. lia. }
  assert (Hc : cstring (freq_text true l)).
  { clear Hbt Hn Hb. generalize true as f. induction Hl as [|r l Hr Hl IH]; intros f; [constructor|].
    apply cstring_app. split; [by apply freq_range_text_ok|apply IH]. }
  exists b, (freq_text true l). split_and!; [exact Hb|by apply built_str|].
  unfold freq_range_list_parse. rewrite freq_range_loop_text; [done|done|done|].
  cbn [default from_option id]. apply Nat.lt_succ_r. clear Hbt Hn Hb Hc.
  generalize true as f. induction Hl as [|r l Hr Hl IH]; intros f; [simpl; lia|].
  cbn [freq_text length]. rewrite length_app. specialize (IH false).
  destruct (freq_range_text_cons r Hr) as (c & t & Ht).
  assert (1 ≤ length (freq_range_text f r))%nat; [|lia].
  change (freq_range_text f r) with ((if f then [] else [44]) ++ freq_range_text true r).
  rewrite length_app, Ht. simpl. lia.
Qed.

Lemma freq_range_roundtrip_witness :
  ∃ b t, freq_range_list_str (λ _, true) [FreqRange 2412 2432; FreqRange 2462 2462] = Ret (Some b) ∧
    buf_str b 0 = Ret t ∧
    freq_range_list_parse (λ _, true) [] (Some t) = Ret ([FreqRange 2412 2432; FreqRange 2462 2462], 0).
Proof.
  apply freq_range_roundtrip; [done|by apply (bool_decide_unpack _)..].
Defined.
