(* ===== verification/CommonText.v ===== *)
(** * Tokens and UTF-8 text (src/utils/common.c)

    [str_token] cuts tokens out of a text in place; [utf8_escape] and
    [utf8_unescape] write and read text in single quotes. *)

From S2P Require Import Prelude CString Scan Common.

(** ** Tokens *)

Definition in_delim (delim : str) (c : Z) : bool :=
  match strchr delim c with Some _ => true | None => false end.

(** The position of the next token and the position behind it, which is also
    what [*last] is set to. *)
Definition cstr_token (s : option buf) (delim : option str) (last : option Z)
    : outcome (option (Z * Z)) :=
  match s, delim with
  | Some b, Some delim =>
      token ← scan (λ c, negb (c =? 0) && in_delim delim c) b (default 0 last);
      c ← buf_get b token;
      if c =? 0 then Ret None
      else
        end_ ← scan (λ c, negb (c =? 0) && negb (in_delim delim c)) b (token + 1);
        Ret (Some (token, end_))
  | _, _ => Ret None
  end.

(** The text after the call, the token and the context. *)
Definition str_token (b : buf) (delim : str) (context : option Z)
    : outcome (buf * option Z * option Z) :=
  r ← cstr_token (Some b) (Some delim) context;
  match r with
  | None => Ret (b, None, context)
  | Some (token, end_) =>
      c ← buf_get b end_;
      if negb (c =? 0) then b ← buf_set b end_ 0; Ret (b, Some token, Some (end_ + 1))
      else Ret (b, Some token, Some end_)
  end.

(** ** UTF-8 text in single quotes *)

Definition QUOTE : Z := 39.

Definition utf8_size (inp : buf) (in_size : Z) : outcome Z :=
  if in_size =? 0 then s ← buf_str inp 0; Ret (strlen s) else Ret in_size.

Definition utf8_finish (outp : buf) (res_size out_size : Z) : outcome (buf * Z) :=
  if res_size <? out_size then outp ← buf_set outp res_size 0; Ret (outp, res_size)
  else Ret (outp, res_size).

(** [fuel] characters of the input remain at [i]. *)
Fixpoint unescape_loop (fuel : nat) (inp : buf) (i : Z) (outp : buf) (res_size out_size : Z)
    : outcome (buf * Z) :=
  match fuel with
  | O => utf8_finish outp res_size out_size
  | S fuel' =>
      if out_size <=? res_size then Ret (outp, 0)
      else
        c ← buf_get inp i;
        if c =? QUOTE then outp ← buf_set outp res_size 0; Ret (outp, res_size)
        else if c =? BACKSLASH then
          match fuel' with
          | O => Ret (outp, 0)
          | S fuel'' =>
              c ← buf_get inp (i + 1);
              outp ← buf_set outp res_size c;
              unescape_loop fuel'' inp (i + 2) outp (res_size + 1) out_size
          end
        else
          outp ← buf_set outp res_size c;
          unescape_loop fuel' inp (i + 1) outp (res_size + 1) out_size
  end.

Definition utf8_unescape (inp : option buf) (in_size : Z) (outp : option buf) (out_size : Z)
    : outcome (option buf * Z) :=
  match inp, outp with
  | Some inp, Some outp =>
      in_size ← utf8_size inp in_size;
      c ← buf_get inp 0;
      let '(i, in_size) := if (c =? QUOTE) && negb (in_size =? 0) then (1, in_size - 1)
                           else (0, in_size) in
      '(outp, n) ← unescape_loop (Z.to_nat in_size) inp i outp 0 out_size;
      Ret (Some outp, n)
  | _, _ => Ret (outp, 0)
  end.

(** The output pointer has moved by [res_size]. *)
Fixpoint escape_loop (fuel : nat) (inp : buf) (i : Z) (outp : buf) (res_size out_size : Z)
    : outcome (buf * Z) :=
  match fuel with
  | O => utf8_finish outp res_size out_size
  | S fuel' =>
      if out_size <=? res_size then Ret (outp, 0)
      else
        c ← buf_get inp i;
        if (c =? BACKSLASH) || (c =? QUOTE) then
          if out_size <=? res_size + 1 then Ret (outp, 0)
          else
            outp ← buf_set outp res_size BACKSLASH;
            outp ← buf_set outp (res_size + 1) c;
            escape_loop fuel' inp (i + 1) outp (res_size + 2) out_size
        else
          outp ← buf_set outp res_size c;
          escape_loop fuel' inp (i + 1) outp (res_size + 1) out_size
  end.

Definition utf8_escape (inp : option buf) (in_size : Z) (outp : option buf) (out_size : Z)
    : outcome (option buf * Z) :=
  match inp, outp with
  | Some inp, Some outp =>
      in_size ← utf8_size inp in_size;
      '(outp, n) ← escape_loop (Z.to_nat in_size) inp 0 outp 0 out_size;
      Ret (Some outp, n)
  | _, _ => Ret (outp, 0)
  end.

(** ** Tokens: lemmas *)

Lemma in_delim_elem delim c : cstring delim → c ≠ 0 → in_delim delim c = bool_decide (c ∈ delim).
Proof.
  intros Hd Hc. unfold in_delim. destruct (strchr delim c) as [i|] eqn:E; symmetry.
  - apply bool_decide_eq_true. apply strchr_Some in E as [E _]; [|done].
    by eapply list_elem_of_lookup_2.
  - apply bool_decide_eq_false. by apply strchr_None.
Qed.

Definition skips (delim : str) (c : Z) : bool := negb (c =? 0) && in_delim delim c.
Definition stays (delim : str) (c : Z) : bool := negb (c =? 0) && negb (in_delim delim c).

Lemma skip_delim_span delim s :
  cstring delim → cstring s → skip_delim delim s = (span (skips delim) s).2.
Proof.
  intros Hd. induction 1 as [|c s Hc _ IH]; [done|]. cbn [skip_delim span]. unfold skips at 1.
  rewrite (proj2 (Z.eqb_neq c 0)), in_delim_elem by (done || lia). cbn [negb andb].
  case_bool_decide; [|done]. rewrite IH. by destruct (span (skips delim) s).
Qed.

Lemma take_token_span delim s :
  cstring delim → cstring s →
  take_token delim s = ((span (stays delim) s).1, tail (span (stays delim) s).2).
Proof.
  intros Hd. induction 1 as [|c s Hc _ IH]; [done|]. cbn [take_token span]. unfold stays at 1 3.
  rewrite (proj2 (Z.eqb_neq c 0)), in_delim_elem by (done || lia). cbn [negb andb].
  case_bool_decide; [done|]. cbn [negb]. rewrite IH. by destruct (span (stays delim) s).
Qed.

Lemma cstring_span p s : cstring s → cstring (span p s).1 ∧ cstring (span p s).2.
Proof. intros Hs. destruct (span_spec p s) as (E & _). rewrite E in Hs. by apply cstring_app. Qed.

(** ** Tokens: the theorem *)

(** What a call returns, by what [strtok_r] of the C library returns for the
    rest of the text: the token is a string of its own in the buffer and the
    context is where the rest starts. *)
Definition token_result (b : buf) (pos : Z) (r : option str * str)
    (out : buf * option Z * option Z) : Prop :=
  match r with
  | (None, _) => out = (b, None, Some pos)
  | (Some t, rest) =>
      ∃ b' token next, out = (b', Some token, Some next) ∧ pos ≤ token < next ∧
        buf_str b' token = Ret t ∧ holds b' next rest ∧ length b' = length b
  end.

(** The call once the delimiters are skipped. *)
Lemma str_token_at b delim s tok pos :
  cstring delim → cstring s → holds b tok s → pos ≤ tok →
  (∀ c, head s = Some c → skips delim c = false) →
  ∃ out,
    (c ← buf_get b tok;
     if c =? 0 then Ret (b, None, Some pos)
     else
       end_ ← scan (stays delim) b (tok + 1);
       c ← buf_get b end_;
       if negb (c =? 0) then b ← buf_set b end_ 0; Ret (b, Some tok, Some (end_ + 1))
       else Ret (b, Some tok, Some end_)) = Ret out ∧
    token_result b pos
      (match s with [] => (None, []) | _ => let '(t, r) := take_token delim s in (Some t, r) end) out.
Proof.
  intros Hd Hs Hh Hp Hstop. destruct s as [|c s].
  { rewrite (holds_nil _ _ Hh). eexists. by split. }
  rewrite (holds_head _ _ _ _ Hh), take_token_span by done. ret_simpl.
  apply Forall_cons in Hs as Hs'. destruct Hs' as [Hc Hs']. specialize (Hstop c eq_refl).
  assert (Hst : stays delim c = true).
  { unfold skips, stays in *. rewrite (proj2 (Z.eqb_neq c 0)) in * by lia. simpl in *.
    by rewrite Hstop. }
  rewrite (proj2 (Z.eqb_neq c 0)) by lia. cbn [span]. rewrite Hst.
  assert (Hh' : holds b (tok + 1) s) by apply (holds_step b tok [c] s Hh).
  rewrite (scan_span _ _ _ _ Hh') by done. ret_simpl.
  destruct (span_spec (stays delim) s) as (Es & _ & _).
  destruct (cstring_span (stays delim) s Hs') as [Hw Hr].
  revert Es Hw Hr. destruct (span (stays delim) s) as [w r]. cbn [fst snd]. intros -> Hw Hr.
  assert (Hcw : cstring (c :: w)) by by constructor.
  assert (Hpos : tok + 1 + strlen w = tok + strlen (c :: w)) by (unfold strlen; simpl length; lia).
  assert (0 ≤ strlen w) by (unfold strlen; lia).
  apply holds_step in Hh' as Hend. destruct r as [|d r].
  - rewrite (holds_nil _ _ Hend). eexists. split; [done|]. exists b, tok, (tok + 1 + strlen w).
    rewrite app_nil_r in Hh. split_and!; [done|lia|lia|by apply holds_str|done|done].
  - rewrite (holds_head _ _ _ _ Hend). ret_simpl. apply Forall_cons in Hr as [Hd0 Hr].
    rewrite (proj2 (Z.eqb_neq d 0)) by lia. cbn [negb].
    destruct (cut_spec b tok (c :: w) d r Hh) as (b' & Hset & Hh1 & Hh2 & Hl).
    rewrite Hpos, Hset. eexists. split; [done|]. exists b', tok, (tok + strlen (c :: w) + 1).
    split_and!; [done|lia|lia|by apply holds_str|done|done].
Qed.

(** [str_token] splits a text at the delimiters as [strtok_r] does: it skips
    delimiters, cuts the next token out in place, and continues behind it. *)
Theorem str_token_equiv b delim s pos :
  cstring delim → cstring s → holds b pos s →
  ∃ out, str_token b delim (Some pos) = Ret out ∧
         token_result b pos (strtok_r delim s) out.
Proof.
  intros Hd Hs Hh. unfold str_token, cstr_token. change (default 0 (Some pos)) with pos.
  change (λ c, negb (c =? 0) && in_delim delim c) with (skips delim).
  change (λ c, negb (c =? 0) && negb (in_delim delim c)) with (stays delim).
  rewrite (scan_span (skips delim) b pos s Hh) by done.
  destruct (span_spec (skips delim) s) as (Es & _ & Hstop).
  destruct (cstring_span (skips delim) s Hs) as [_ Hc].
  destruct (str_token_at b delim (span (skips delim) s).2 (pos + strlen (span (skips delim) s).1) pos)
    as (out & Ho & Ht); [done|done| |unfold strlen; lia|done|].
  { rewrite Es in Hh. by apply holds_step in Hh. }
  exists out. split.
  2: { unfold strtok_r. rewrite skip_delim_span by done.
       by destruct (span (skips delim) s).2. }
  rewrite <- Ho.
  rewrite outcome_bind_ret. rewrite outcome_bind_assoc.
  destruct (buf_get b _) as [c| |]; simpl; try done.
  destruct (c =? 0); [done|]. destruct (scan _ _ _) as [e| |]; done.
Qed.

Lemma str_token_equiv_witness :
  ∃ out, str_token (cells (lit ",,key=val" ++ [0])) (lit ",=") (Some 0) = Ret out ∧
         token_result (cells (lit ",,key=val" ++ [0])) 0 (Some (lit "key"), lit "val") out.
Proof.
  apply (str_token_equiv (cells (lit ",,key=val" ++ [0])) (lit ",=") (lit ",,key=val") 0);
    [by apply (bool_decide_unpack _)..|split; [done|by exists []]].
Defined.

(** ** UTF-8 text *)

Definition quoted_char (c : Z) : str :=
  if (c =? BACKSLASH) || (c =? QUOTE) then [BACKSLASH; c] else [c].

Definition utf8_text (s : list Z) : str := s ≫= quoted_char.

Lemma utf8_text_cons c s : utf8_text (c :: s) = quoted_char c ++ utf8_text s.
Proof. done. Qed.

Lemma utf8_finish_spec outp v n :
  built outp v → strlen v < n ≤ Z.of_nat (length outp) →
  ∃ o, utf8_finish outp (strlen v) n = Ret (o, strlen v) ∧ built o (v ++ [0]) ∧
       length o = length outp.
Proof.
  intros Hb Hn. unfold utf8_finish. rewrite (proj2 (Z.ltb_lt _ _)) by lia.
  destruct (put_char outp v 0) as (o & -> & Ho); [done|lia|]. by exists o.
Qed.

Lemma escape_loop_spec s inp p w outp v n :
  built inp (p ++ s ++ w) → built outp v →
  strlen v + strlen (utf8_text s) < n ≤ Z.of_nat (length outp) →
  ∃ o, escape_loop (length s) inp (strlen p) outp (strlen v) n = Ret (o, strlen (v ++ utf8_text s)) ∧
       built o (v ++ utf8_text s ++ [0]) ∧ length o = length outp.
Proof.
  revert p outp v. induction s as [|c s IH]; intros p outp v Hi Ho Hn.
  { rewrite app_nil_r. apply utf8_finish_spec; [done|].
    unfold strlen in *. simpl in Hn. lia. }
  rewrite utf8_text_cons in *. cbn [length escape_loop].
  assert (Hl : strlen (quoted_char c ++ utf8_text s) = strlen (quoted_char c) + strlen (utf8_text s)).
  { unfold strlen. rewrite length_app. lia. }
  rewrite Hl in Hn.
  rewrite (proj2 (Z.leb_gt n _)) by (unfold strlen in *; lia).
  rewrite (built_head _ _ _ _ _ Hi). ret_simpl.
  specialize (IH (p ++ [c])). rewrite <- app_assoc, strlen_snoc in IH.
  unfold quoted_char in *. destruct ((c =? BACKSLASH) || (c =? QUOTE)) eqn:E.
  - assert (strlen [BACKSLASH; c] = 2) as H2 by done. rewrite H2 in Hn.
    rewrite (proj2 (Z.leb_gt n _)) by (unfold strlen in *; lia).
    destruct (put_char outp v BACKSLASH) as (o1 & -> & H1 & L1); [done|unfold strlen in *; lia|].
    ret_simpl.
    destruct (put_char o1 (v ++ [BACKSLASH]) c) as (o2 & Hs & Hb2 & L2);
      [done|rewrite strlen_snoc; unfold strlen in *; lia|].
    rewrite strlen_snoc in Hs. rewrite Hs. ret_simpl.
    destruct (IH o2 (v ++ [BACKSLASH; c])) as (o & He & Hb & L).
    { exact Hi. } { by rewrite <- app_assoc in Hb2. }
    { unfold strlen in *. rewrite length_app. simpl. lia. }
    assert (Hv : strlen (v ++ [BACKSLASH; c]) = strlen v + 2) by (unfold strlen; rewrite length_app; simpl; lia).
    rewrite Hv in He. rewrite He. exists o. rewrite <- !app_assoc in *. split_and!; [done|done|congruence].
  - assert (strlen [c] = 1) as H2 by done. rewrite H2 in Hn.
    destruct (put_char outp v c) as (o1 & -> & H1 & L1); [done|unfold strlen in *; lia|]. ret_simpl.
    destruct (IH o1 (v ++ [c])) as (o & He & Hb & L); [exact Hi|done|rewrite strlen_snoc; lia|].
    rewrite strlen_snoc in He. rewrite He. exists o. rewrite <- !app_assoc in *.
    split_and!; [done|done|congruence].
Qed.

Lemma unescape_loop_spec s inp p w outp v n :
  built inp (p ++ utf8_text s ++ w) → built outp v →
  strlen v + strlen s < n ≤ Z.of_nat (length outp) →
  ∃ o, unescape_loop (length (utf8_text s)) inp (strlen p) outp (strlen v) n
         = Ret (o, strlen (v ++ s)) ∧ built o (v ++ s ++ [0]).
Proof.
  revert p outp v. induction s as [|c s IH]; intros p outp v Hi Ho Hn.
  { rewrite app_nil_r. destruct (utf8_finish_spec outp v n) as (o & Hf & Hb & _); [done| |by exists o].
    unfold strlen in *. simpl in Hn. lia. }
  assert (Hl : strlen (c :: s) = 1 + strlen s) by (unfold strlen; simpl length; lia).
  rewrite Hl in Hn. rewrite utf8_text_cons, <- app_assoc in Hi. rewrite utf8_text_cons.
  destruct (put_char outp v c) as (o1 & Hs & Hb1 & L1); [done|unfold strlen in *; lia|].
  pose proof (built_head inp p) as Hhd.
  unfold quoted_char in *. destruct ((c =? BACKSLASH) || (c =? QUOTE)) eqn:E.
  - cbn [length app unescape_loop].
    rewrite (proj2 (Z.leb_gt n _)) by (unfold strlen in *; lia).
    rewrite (Hhd _ _ _ Hi). ret_simpl. cbn [Z.eqb Pos.eqb BACKSLASH QUOTE].
    assert (Hc : buf_get inp (strlen p + 1) = Ret c).
    { rewrite <- (strlen_snoc p BACKSLASH).
      apply (built_head inp (p ++ [BACKSLASH]) c (utf8_text s) w). by rewrite <- app_assoc. }
    rewrite Hc. ret_simpl. rewrite Hs. ret_simpl.
    destruct (IH (p ++ [BACKSLASH; c]) o1 (v ++ [c])) as (o & He & Hb);
      [by rewrite <- app_assoc|done|rewrite strlen_snoc; lia|].
    assert (Hp : strlen (p ++ [BACKSLASH; c]) = strlen p + 2) by (unfold strlen; rewrite length_app; simpl; lia).
    rewrite strlen_snoc, Hp in He. rewrite He. exists o. by rewrite <- !app_assoc in *.
  - apply orb_false_iff in E as [E1 E2]. cbn [length app unescape_loop].
    rewrite (proj2 (Z.leb_gt n _)) by (unfold strlen in *; lia).
    rewrite (Hhd _ _ _ Hi). ret_simpl. rewrite E1, E2, Hs. ret_simpl.
    destruct (IH (p ++ [c]) o1 (v ++ [c])) as (o & He & Hb);
      [by rewrite <- app_assoc|done|rewrite strlen_snoc; lia|].
    rewrite !strlen_snoc in He. rewrite He. exists o. by rewrite <- !app_assoc in *.
Qed.

Lemma utf8_text_no_quote s : head (utf8_text s) ≠ Some QUOTE.
Proof.
  destruct s as [|c s]; [done|]. rewrite utf8_text_cons. unfold quoted_char.
  destruct ((c =? BACKSLASH) || (c =? QUOTE)) eqn:E; [done|].
  apply orb_false_iff in E as [_ E]. apply Z.eqb_neq in E. simpl. congruence.
Qed.

(** [utf8_unescape] undoes [utf8_escape] for every text that has its length
    given or ends with a NUL, in buffers that hold the texts and a NUL. *)
Theorem utf8_roundtrip s w out1 n1 out2 n2 :
  strlen (utf8_text s) < n1 ≤ Z.of_nat (length out1) →
  strlen s < n2 ≤ Z.of_nat (length out2) →
  ∃ o1 o2 n, utf8_escape (Some (cells (s ++ 0 :: w))) (strlen s) (Some out1) n1 = Ret (Some o1, n) ∧
    built o1 (utf8_text s ++ [0]) ∧ n = strlen (utf8_text s) ∧
    utf8_unescape (Some o1) n (Some out2) n2 = Ret (Some o2, strlen s) ∧
    built o2 (s ++ [0]).
Proof.
  intros Hn1 Hn2.
  assert (Hsz : ∀ b (t : list Z), built b (t ++ [0]) → utf8_size b (strlen t) = Ret (strlen t)).
  { intros b t Hb. unfold utf8_size. case_if; [|done]. zbool.
    destruct t; [|unfold strlen in E; simpl in E; lia]. by rewrite (built_str b []) by (done || constructor). }
  assert (Hi : built (cells (s ++ 0 :: w)) (s ++ 0 :: w)).
  { unfold built. apply take_ge. by rewrite cells_length. }
  destruct (escape_loop_spec s (cells (s ++ 0 :: w)) [] (0 :: w) out1 [] n1)
    as (o1 & He & Hb1 & _); [done|apply built_nil|unfold strlen in *; simpl length; lia|].
  destruct (unescape_loop_spec s o1 [] [0] out2 [] n2) as (o2 & Hu & Hb2);
    [done|apply built_nil|unfold strlen in *; simpl length; lia|].
  exists o1, o2, (strlen (utf8_text s)). unfold utf8_escape, utf8_unescape.
  rewrite (Hsz _ s) by (apply (built_prefix _ _ w); by rewrite <- app_assoc). ret_simpl.
  replace (Z.to_nat (strlen s)) with (length s) by (unfold strlen; lia).
  change (escape_loop (length s) _ 0 out1 0 n1) with
    (escape_loop (length s) (cells (s ++ 0 :: w)) (strlen []) out1 (strlen []) n1).
  rewrite He. ret_simpl. split_and!; [done|done|done| |done].
  rewrite Hsz by done. ret_simpl.
  assert (Hq : ∃ c, buf_get o1 0 = Ret c ∧ (c =? QUOTE) = false).
  { pose proof (utf8_text_no_quote s) as Hq. simpl app in Hb1.
    destruct (utf8_text s) as [|c t]; [exists 0|exists c].
    - split; [|done]. exact (built_get o1 [0] 0 0 Hb1 eq_refl).
    - split; [exact (built_get o1 _ 0 c Hb1 eq_refl)|]. apply Z.eqb_neq. simpl in Hq. congruence. }
  destruct Hq as (c & -> & Hc). ret_simpl. rewrite Hc. cbn [andb].
  replace (Z.to_nat (strlen (utf8_text s))) with (length (utf8_text s)) by (unfold strlen; lia).
  change (unescape_loop _ o1 0 out2 0 n2) with
    (unescape_loop (length (utf8_text s)) o1 (strlen []) out2 (strlen []) n2).
  by rewrite Hu.
Qed.

Lemma utf8_roundtrip_witness :
  ∃ o1 o2 n, utf8_escape (Some (cells (lit "it's a \ test" ++ 0 :: []))) 13 (Some (uninit 30)) 20
      = Ret (Some o1, n) ∧
    built o1 (utf8_text (lit "it's a \ test") ++ [0]) ∧ n = strlen (utf8_text (lit "it's a \ test")) ∧
    utf8_unescape (Some o1) n (Some (uninit 14)) 14 = Ret (Some o2, 13) ∧
    built o2 (lit "it's a \ test" ++ [0]).
Proof.
  apply (utf8_roundtrip (lit "it's a \ test") [] (uninit 30) 20 (uninit 14) 14);
    by apply (bool_decide_unpack _).
Defined.
