(* ===== verification/Edit.v ===== *)
(** * The line editor (src/utils/edit.c)

    The static variables are the record [editor]; a function that returns
    nothing is a function on it, and undefined behaviour is [UB].  The history
    is the sequence of its entries with their addresses (DlList.v relates the
    ring of pointers to a sequence).  What is written to the terminal, the
    calls of the callbacks and the changes of its mode are the events
    [output].  [os_zalloc] gets the addresses in use and the size, and answers
    0 when there is no memory; [edit_completion_cb] is the callback of the
    application; [sort_strings] is [qsort] on strings, which only orders what
    is printed. *)

From S2P Require Import Prelude CString Scan Smartlist Common.

Inductive edit_event : Type :=
  | Shown (s : str)
  | Edit_cmd_cb (cmd : str)
  | Edit_eof_cb
  | Raw_mode
  | Saved_mode
  | Watch_stdin
  | Unwatch_stdin.

Definition CMD_BUF_LEN : Z := 4096.
Definition HISTORY_MAX : nat := 100.
Definition SEARCH_BUF_LEN : Z := 21.

Record editor : Type := Editor {
  cmdbuf : buf;
  cmdbuf_pos : Z;
  cmdbuf_len : Z;
  currbuf : buf;
  currbuf_valid : bool;
  ps2 : option str;
  history_list : list (Z * str);
  history_curr : Z;
  esc : Z;
  esc_buf : buf;
  search_buf : buf;
  search_skip : Z;
  last_tab : bool;
  search : bool;
  output : list edit_event
}.

(** Assignments to groups of variables. *)
Definition set_line (ed : editor) (b : buf) (pos : Z) (len : Z) : editor :=
  Editor b pos len (currbuf ed) (currbuf_valid ed) (ps2 ed) (history_list ed) (history_curr ed)
    (esc ed) (esc_buf ed) (search_buf ed) (search_skip ed) (last_tab ed) (search ed)
    (output ed).
Definition set_saved (ed : editor) (c : buf) (v : bool) : editor :=
  Editor (cmdbuf ed) (cmdbuf_pos ed) (cmdbuf_len ed) c v (ps2 ed) (history_list ed)
    (history_curr ed) (esc ed) (esc_buf ed) (search_buf ed) (search_skip ed) (last_tab ed)
    (search ed) (output ed).
Definition set_ps2 (ed : editor) (ps : option str) : editor :=
  Editor (cmdbuf ed) (cmdbuf_pos ed) (cmdbuf_len ed) (currbuf ed) (currbuf_valid ed) ps
    (history_list ed) (history_curr ed) (esc ed) (esc_buf ed) (search_buf ed) (search_skip ed)
    (last_tab ed) (search ed) (output ed).
Definition set_history (ed : editor) (l : list (Z * str)) (h : Z) : editor :=
  Editor (cmdbuf ed) (cmdbuf_pos ed) (cmdbuf_len ed) (currbuf ed) (currbuf_valid ed) (ps2 ed) l
    h (esc ed) (esc_buf ed) (search_buf ed) (search_skip ed) (last_tab ed) (search ed)
    (output ed).
Definition set_escape (ed : editor) (n : Z) (b : buf) : editor :=
  Editor (cmdbuf ed) (cmdbuf_pos ed) (cmdbuf_len ed) (currbuf ed) (currbuf_valid ed) (ps2 ed)
    (history_list ed) (history_curr ed) n b (search_buf ed) (search_skip ed) (last_tab ed)
    (search ed) (output ed).
Definition set_pattern (ed : editor) (b : buf) (n : Z) : editor :=
  Editor (cmdbuf ed) (cmdbuf_pos ed) (cmdbuf_len ed) (currbuf ed) (currbuf_valid ed) (ps2 ed)
    (history_list ed) (history_curr ed) (esc ed) (esc_buf ed) b n (last_tab ed) (search ed)
    (output ed).
Definition set_tab (ed : editor) (t : bool) : editor :=
  Editor (cmdbuf ed) (cmdbuf_pos ed) (cmdbuf_len ed) (currbuf ed) (currbuf_valid ed) (ps2 ed)
    (history_list ed) (history_curr ed) (esc ed) (esc_buf ed) (search_buf ed) (search_skip ed)
    t (search ed) (output ed).
Definition set_search (ed : editor) (t : bool) : editor :=
  Editor (cmdbuf ed) (cmdbuf_pos ed) (cmdbuf_len ed) (currbuf ed) (currbuf_valid ed) (ps2 ed)
    (history_list ed) (history_curr ed) (esc ed) (esc_buf ed) (search_buf ed) (search_skip ed)
    (last_tab ed) t (output ed).
Definition set_output (ed : editor) (o : list edit_event) : editor :=
  Editor (cmdbuf ed) (cmdbuf_pos ed) (cmdbuf_len ed) (currbuf ed) (currbuf_valid ed) (ps2 ed)
    (history_list ed) (history_curr ed) (esc ed) (esc_buf ed) (search_buf ed) (search_skip ed)
    (last_tab ed) (search ed) o.

(** The static variables at the start. *)
Definition editor_start : editor :=
  Editor (zeros CMD_BUF_LEN) 0 0 (zeros CMD_BUF_LEN) false None [] 0 (-1) (zeros 7)
    (zeros SEARCH_BUF_LEN) 0 false false [].

Definition emit (ed : editor) (e : edit_event) : editor := set_output ed (output ed ++ [e]).
Definition show (ed : editor) (s : str) : editor := emit ed (Shown s).

(** ** The screen *)

Definition prompt (ed : editor) : str := default [] (ps2 ed) ++ lit "> ".

Definition edit_clear_line (ed : editor) : editor :=
  show ed (13 :: replicate (Z.to_nat (cmdbuf_len ed + 2 + strlen (default [] (ps2 ed)))) SP).

Definition edit_redraw (ed : editor) : outcome editor :=
  b ← buf_set (cmdbuf ed) (cmdbuf_len ed) 0;
  s ← buf_str b 0;
  let ed := show (set_line ed b (cmdbuf_pos ed) (cmdbuf_len ed)) (13 :: prompt ed ++ s) in
  if cmdbuf_pos ed =? cmdbuf_len ed then Ret ed
  else
    tmp ← buf_get b (cmdbuf_pos ed);
    b ← buf_set b (cmdbuf_pos ed) 0;
    s ← buf_str b 0;
    let ed := show ed (13 :: prompt ed ++ s) in
    b ← buf_set b (cmdbuf_pos ed) tmp;
    Ret (set_line ed b (cmdbuf_pos ed) (cmdbuf_len ed)).

(** ** Moving the cursor *)

Definition move_start (ed : editor) : outcome editor :=
  edit_redraw (set_line ed (cmdbuf ed) 0 (cmdbuf_len ed)).
Definition move_end (ed : editor) : outcome editor :=
  edit_redraw (set_line ed (cmdbuf ed) (cmdbuf_len ed) (cmdbuf_len ed)).

Definition move_left (ed : editor) : outcome editor :=
  if 0 <? cmdbuf_pos ed then
    edit_redraw (set_line ed (cmdbuf ed) (cmdbuf_pos ed - 1) (cmdbuf_len ed))
  else Ret ed.

Definition move_right (ed : editor) : outcome editor :=
  if cmdbuf_pos ed <? cmdbuf_len ed then
    edit_redraw (set_line ed (cmdbuf ed) (cmdbuf_pos ed + 1) (cmdbuf_len ed))
  else Ret ed.

(** [while (pos > 0 && p(cmdbuf[pos - 1])) pos--;] *)
Fixpoint back_while (n : nat) (p : Z → bool) (b : buf) : outcome Z :=
  match n with
  | O => Ret 0
  | S n' => c ← buf_get b (Z.of_nat n'); if p c then back_while n' p b else Ret (Z.of_nat n)
  end.

(** [while (pos < len && p(cmdbuf[pos])) pos++;], [n] steps before [len]. *)
Fixpoint forward_while (n : nat) (p : Z → bool) (b : buf) (pos : Z) : outcome Z :=
  match n with
  | O => Ret pos
  | S n' => c ← buf_get b pos; if p c then forward_while n' p b (pos + 1) else Ret pos
  end.

Definition is_space (c : Z) : bool := c =? SP.
Definition not_space (c : Z) : bool := negb (c =? SP).

Definition word_left (b : buf) (pos : Z) : outcome Z :=
  pos ← back_while (Z.to_nat pos) is_space b;
  back_while (Z.to_nat pos) not_space b.

Definition move_word_left (ed : editor) : outcome editor :=
  pos ← word_left (cmdbuf ed) (cmdbuf_pos ed);
  edit_redraw (set_line ed (cmdbuf ed) pos (cmdbuf_len ed)).

Definition move_word_right (ed : editor) : outcome editor :=
  let b := cmdbuf ed in
  let len := cmdbuf_len ed in
  pos ← forward_while (Z.to_nat (len - cmdbuf_pos ed)) is_space b (cmdbuf_pos ed);
  pos ← forward_while (Z.to_nat (len - pos)) not_space b pos;
  edit_redraw (set_line ed (cmdbuf ed) pos (cmdbuf_len ed)).

(** ** Deleting and inserting *)

(** [os_memmove(b + dst, b + src, n)]. *)
Definition memmove (b : buf) (dst src n : Z) : outcome buf := cells_copy b dst b src n.

Definition delete_left (ed : editor) : outcome editor :=
  if cmdbuf_pos ed =? 0 then Ret ed
  else
    let ed := edit_clear_line ed in
    b ← memmove (cmdbuf ed) (cmdbuf_pos ed - 1) (cmdbuf_pos ed) (cmdbuf_len ed - cmdbuf_pos ed);
    edit_redraw (set_line ed b (cmdbuf_pos ed - 1) (cmdbuf_len ed - 1)).

Definition delete_current (ed : editor) : outcome editor :=
  if cmdbuf_pos ed =? cmdbuf_len ed then Ret ed
  else
    let ed := edit_clear_line ed in
    b ← memmove (cmdbuf ed) (cmdbuf_pos ed) (cmdbuf_pos ed + 1) (cmdbuf_len ed - cmdbuf_pos ed);
    edit_redraw (set_line ed b (cmdbuf_pos ed) (cmdbuf_len ed - 1)).

Definition delete_word (ed : editor) : outcome editor :=
  let ed := edit_clear_line ed in
  pos ← word_left (cmdbuf ed) (cmdbuf_pos ed);
  b ← memmove (cmdbuf ed) pos (cmdbuf_pos ed) (cmdbuf_len ed - cmdbuf_pos ed);
  edit_redraw (set_line ed b pos (cmdbuf_len ed - (cmdbuf_pos ed - pos))).

Definition clear_left (ed : editor) : outcome editor :=
  if cmdbuf_pos ed =? 0 then Ret ed
  else
    let ed := edit_clear_line ed in
    b ← memmove (cmdbuf ed) 0 (cmdbuf_pos ed) (cmdbuf_len ed - cmdbuf_pos ed);
    edit_redraw (set_line ed b 0 (cmdbuf_len ed - cmdbuf_pos ed)).

Definition clear_right (ed : editor) : outcome editor :=
  if cmdbuf_pos ed =? cmdbuf_len ed then Ret ed
  else
    let ed := edit_clear_line ed in
    edit_redraw (set_line ed (cmdbuf ed) (cmdbuf_pos ed) (cmdbuf_pos ed)).

Definition insert_char (ed : editor) (c : Z) : outcome editor :=
  if CMD_BUF_LEN - 1 <=? cmdbuf_len ed then Ret ed
  else if cmdbuf_len ed =? cmdbuf_pos ed then
    b ← buf_set (cmdbuf ed) (cmdbuf_pos ed) c;
    Ret (show (set_line ed b (cmdbuf_pos ed + 1) (cmdbuf_len ed + 1)) [c])
  else
    b ← memmove (cmdbuf ed) (cmdbuf_pos ed + 1) (cmdbuf_pos ed) (cmdbuf_len ed - cmdbuf_pos ed);
    b ← buf_set b (cmdbuf_pos ed) c;
    edit_redraw (set_line ed b (cmdbuf_pos ed + 1) (cmdbuf_len ed + 1)).

(** The line becomes the string [s]. *)
Definition put_line (ed : editor) (s : str) : outcome editor :=
  b ← buf_write (cmdbuf ed) 0 s;
  edit_redraw (set_line ed b (strlen s) (strlen s)).

(** ** History *)

Section edit.
Context (os_zalloc : list Z → Z → Z).
Context (edit_completion_cb : option (str → Z → option (list str))).
Context (sort_strings : list str → list str).

(** [sizeof(struct edit_history)] on a 64-bit machine. *)
Definition sizeof_edit_history : Z := 24.

Definition find_entry (l : list (Z * str)) (s : str) : option (nat * (Z * str)) :=
  list_find (λ e, snd e = s) l.

Definition history_add (ed : editor) (s : str) : editor :=
  if str_eqb s [] then ed
  else
    match find_entry (history_list ed) s with
    | Some (i, h) =>
        set_history ed (h :: delete i (history_list ed)) (fst h)
    | None =>
        let l := if (HISTORY_MAX <=? length (history_list ed))%nat
                 then take (length (history_list ed) - 1) (history_list ed)
                 else history_list ed in
        let h := os_zalloc (fst <$> l) (sizeof_edit_history + strlen s) in
        if h =? 0 then set_history ed l (history_curr ed)
        else set_history ed ((h, s) :: l) h
    end.

(** Reading the entry at an address. *)
Definition entry_at (l : list (Z * str)) (p : Z) : outcome (nat * (Z * str)) :=
  need "freed history entry" (list_find (λ e, fst e = p) l).

Definition history_use (ed : editor) : outcome editor :=
  let ed := edit_clear_line ed in
  '(_, (_, s)) ← entry_at (history_list ed) (history_curr ed);
  put_line ed s.

Definition first_entry (ed : editor) : Z := default 0 (fst <$> head (history_list ed)).
Definition last_entry (ed : editor) : Z := default 0 (fst <$> last (history_list ed)).

(** The entry [d] further on. *)
Definition neighbour (ed : editor) (d : Z) : outcome editor :=
  '(i, _) ← entry_at (history_list ed) (history_curr ed);
  h ← need "no entry" (history_list ed !! Z.to_nat (Z.of_nat i + d));
  history_use (set_history ed (history_list ed) (fst (h : Z * str))).

Definition history_prev (ed : editor) : outcome editor :=
  if history_curr ed =? 0 then Ret ed
  else if (history_curr ed =? first_entry ed) && negb (currbuf_valid ed) then
    b ← buf_set (cmdbuf ed) (cmdbuf_len ed) 0;
    c ← cells_copy (currbuf ed) 0 b 0 (cmdbuf_len ed + 1);
    history_use (set_saved (set_line ed b (cmdbuf_pos ed) (cmdbuf_len ed)) c true)
  else if history_curr ed =? last_entry ed then Ret ed
  else neighbour ed 1.

Definition history_next (ed : editor) : outcome editor :=
  if (history_curr ed =? 0) || (history_curr ed =? first_entry ed) then
    if currbuf_valid ed then
      let ed := edit_clear_line (set_saved ed (currbuf ed) false) in
      s ← buf_str (currbuf ed) 0;
      put_line ed s
    else Ret ed
  else neighbour ed (-1).

(** [fgets] into a buffer of [n] bytes: what it stores and what it leaves. *)
Fixpoint fgets (n : nat) (file : list Z) : list Z * list Z :=
  match n, file with
  | S (S n'), c :: file' =>
      if c =? NL then ([c], file')
      else let '(s, rest) := fgets (S n') file' in (c :: s, rest)
  | _, _ => ([], file)
  end.

(** A line up to its end. *)
Definition in_line (c : Z) : bool := negb (c =? 0) && negb (c =? 13) && negb (c =? NL).

Fixpoint read_lines (fuel : nat) (ed : editor) (file : list Z) : outcome editor :=
  match fuel with
  | O => OutOfFuel
  | S fuel' =>
      match file with
      | [] => Ret ed
      | _ =>
          let '(line, rest) := fgets (Z.to_nat CMD_BUF_LEN) file in
          read_lines fuel' (history_add ed (fst (span in_line line))) rest
      end
  end.

(** [None]: the file cannot be opened. *)
Definition history_read (ed : editor) (file : option (list Z)) : outcome editor :=
  match file with
  | None => Ret ed
  | Some file => read_lines (S (length file)) ed file
  end.

(** The file written. *)
Definition history_write (ed : editor) (filter_cb : option (str → bool)) : list Z :=
  let kept := match filter_cb with
              | Some f => filter (λ s, f s = false) (snd <$> history_list ed)
              | None => snd <$> history_list ed
              end in
  rev kept ≫= (λ s, s ++ [NL]).

Definition history_debug_dump (ed : editor) : outcome editor :=
  let ed := show (edit_clear_line ed) [13] in
  let ed := foldr (λ h ed, show ed ((if fst h =? history_curr ed then lit "[C]" else [])
                                     ++ snd h ++ [NL])) ed (history_list ed) in
  ed ← (if currbuf_valid ed then
          s ← buf_str (currbuf ed) 0; Ret (show ed (lit "{" ++ s ++ lit "}" ++ [NL]))
        else Ret ed);
  edit_redraw ed.

(** ** Commands *)

Definition process_cmd (ed : editor) : outcome editor :=
  let ed := set_saved ed (currbuf ed) false in
  if cmdbuf_len ed =? 0 then Ret (show ed (NL :: prompt ed))
  else
    let ed := show ed [NL] in
    b ← buf_set (cmdbuf ed) (cmdbuf_len ed) 0;
    s ← buf_str b 0;
    let ed := history_add (set_line ed b (cmdbuf_pos ed) (cmdbuf_len ed)) s in
    let ed := emit (set_line ed (cmdbuf ed) 0 0) (Edit_cmd_cb s) in
    Ret (show ed (prompt ed)).

(** ** Completion *)

(** The strings that start like [s], in [len] characters; the others are
    freed. *)
Definition filter_strings (c : list str) (s : str) (len : nat) : list str :=
  filter (λ x, strncasecmp_eq x s len = true) c.

Fixpoint common_len (a b : str) : Z :=
  match a, b with
  | x :: a', y :: b' => if x =? y then 1 + common_len a' b' else 0
  | _, _ => 0
  end.

Definition max_common_length (c0 : str) (c : list str) : Z :=
  foldl (λ len ci, Z.min len (common_len c0 ci)) (strlen c0) c.

Fixpoint shown_list (first : bool) (c : list str) : str :=
  match c with
  | [] => []
  | s :: c' => (if first then [] else [SP]) ++ s ++ shown_list false c'
  end.

(** The choice between several completions. *)
Definition show_completions (ed : editor) (c : list str) : outcome editor :=
  let ed := show (edit_clear_line ed) [13] in
  let ed := show ed (shown_list true (sort_strings c)) in
  edit_redraw (show ed [NL]).

(** [len] more characters of [c0] and perhaps a space at the cursor. *)
Definition insert_completion (ed : editor) (c0 : str) (plen len add_space : Z)
    : outcome editor :=
  b ← memmove (cmdbuf ed) (cmdbuf_pos ed + len + add_space) (cmdbuf_pos ed)
        (cmdbuf_len ed - cmdbuf_pos ed);
  b ← cells_copy b (cmdbuf_pos ed - plen) (cells (c0 ++ [0])) 0 (plen + len);
  b ← (if negb (add_space =? 0) then buf_set b (cmdbuf_pos ed + len) SP else Ret b);
  edit_redraw (set_line ed b (cmdbuf_pos ed + (len + add_space))
                 (cmdbuf_len ed + (len + add_space))).

Definition complete (ed : editor) (list : bool) : outcome editor :=
  match edit_completion_cb with
  | None => Ret ed
  | Some cb =>
      b ← buf_set (cmdbuf ed) (cmdbuf_len ed) 0;
      s ← buf_str b 0;
      let ed := set_line ed b (cmdbuf_pos ed) (cmdbuf_len ed) in
      match cb s (cmdbuf_pos ed) with
      | None => Ret ed
      | Some c =>
          let end_ := cmdbuf_pos ed in
          start ← back_while (Z.to_nat end_) not_space b;
          let plen := end_ - start in
          word ← buf_str b start;
          match filter_strings c word (Z.to_nat plen) with
          | [] => Ret ed
          | c0 :: c' =>
              let count := 1 + Z.of_nat (length c') in
              let len := max_common_length c0 c' in
              if (len <=? plen) && (1 <? count) then
                if list then show_completions ed (c0 :: c') else Ret ed
              else
                let len := len - plen in
                let room := CMD_BUF_LEN - 1 - cmdbuf_len ed in
                let len := if room <? len then room else len in
                let add_space := b2z ((count =? 1) && (len <? room)) in
                insert_completion ed c0 plen len add_space
          end
      end
  end.

(** ** Keys *)

(** [EDIT_KEY_CHAR c] is the character [c] itself. *)
Inductive edit_key_code : Type :=
  | EDIT_KEY_CHAR (c : Z)
  | EDIT_KEY_NONE | EDIT_KEY_TAB | EDIT_KEY_UP | EDIT_KEY_DOWN | EDIT_KEY_RIGHT | EDIT_KEY_LEFT
  | EDIT_KEY_ENTER | EDIT_KEY_BACKSPACE | EDIT_KEY_INSERT | EDIT_KEY_DELETE | EDIT_KEY_HOME
  | EDIT_KEY_END | EDIT_KEY_PAGE_UP | EDIT_KEY_PAGE_DOWN
  | EDIT_KEY_F1 | EDIT_KEY_F2 | EDIT_KEY_F3 | EDIT_KEY_F4 | EDIT_KEY_F5 | EDIT_KEY_F6
  | EDIT_KEY_F7 | EDIT_KEY_F8 | EDIT_KEY_F9 | EDIT_KEY_F10 | EDIT_KEY_F11 | EDIT_KEY_F12
  | EDIT_KEY_CTRL_UP | EDIT_KEY_CTRL_DOWN | EDIT_KEY_CTRL_RIGHT | EDIT_KEY_CTRL_LEFT
  | EDIT_KEY_CTRL_A | EDIT_KEY_CTRL_B | EDIT_KEY_CTRL_D | EDIT_KEY_CTRL_E | EDIT_KEY_CTRL_F
  | EDIT_KEY_CTRL_G | EDIT_KEY_CTRL_H | EDIT_KEY_CTRL_J | EDIT_KEY_CTRL_K | EDIT_KEY_CTRL_L
  | EDIT_KEY_CTRL_N | EDIT_KEY_CTRL_O | EDIT_KEY_CTRL_P | EDIT_KEY_CTRL_R | EDIT_KEY_CTRL_T
  | EDIT_KEY_CTRL_U | EDIT_KEY_CTRL_V | EDIT_KEY_CTRL_W
  | EDIT_KEY_ALT_UP | EDIT_KEY_ALT_DOWN | EDIT_KEY_ALT_RIGHT | EDIT_KEY_ALT_LEFT
  | EDIT_KEY_SHIFT_UP | EDIT_KEY_SHIFT_DOWN | EDIT_KEY_SHIFT_RIGHT | EDIT_KEY_SHIFT_LEFT
  | EDIT_KEY_ALT_SHIFT_UP | EDIT_KEY_ALT_SHIFT_DOWN | EDIT_KEY_ALT_SHIFT_RIGHT
  | EDIT_KEY_ALT_SHIFT_LEFT
  | EDIT_KEY_EOF.

Definition esc_seq_to_key1_no (last : Z) : edit_key_code :=
  match last with
  | 65 => EDIT_KEY_UP | 66 => EDIT_KEY_DOWN | 67 => EDIT_KEY_RIGHT | 68 => EDIT_KEY_LEFT
  | _ => EDIT_KEY_NONE
  end.

Definition esc_seq_to_key1_shift (last : Z) : edit_key_code :=
  match last with
  | 65 => EDIT_KEY_SHIFT_UP | 66 => EDIT_KEY_SHIFT_DOWN
  | 67 => EDIT_KEY_SHIFT_RIGHT | 68 => EDIT_KEY_SHIFT_LEFT
  | _ => EDIT_KEY_NONE
  end.

Definition esc_seq_to_key1_alt (last : Z) : edit_key_code :=
  match last with
  | 65 => EDIT_KEY_ALT_UP | 66 => EDIT_KEY_ALT_DOWN
  | 67 => EDIT_KEY_ALT_RIGHT | 68 => EDIT_KEY_ALT_LEFT
  | _ => EDIT_KEY_NONE
  end.

Definition esc_seq_to_key1_alt_shift (last : Z) : edit_key_code :=
  match last with
  | 65 => EDIT_KEY_ALT_SHIFT_UP | 66 => EDIT_KEY_ALT_SHIFT_DOWN
  | 67 => EDIT_KEY_ALT_SHIFT_RIGHT | 68 => EDIT_KEY_ALT_SHIFT_LEFT
  | _ => EDIT_KEY_NONE
  end.

Definition esc_seq_to_key1_ctrl (last : Z) : edit_key_code :=
  match last with
  | 65 => EDIT_KEY_CTRL_UP | 66 => EDIT_KEY_CTRL_DOWN
  | 67 => EDIT_KEY_CTRL_RIGHT | 68 => EDIT_KEY_CTRL_LEFT
  | _ => EDIT_KEY_NONE
  end.

Definition TILDE : Z := 126.
Definition LBRACKET : Z := 91.
Definition LETTER_O : Z := 79.
Definition SEMICOLON : Z := 59.

Definition esc_seq_to_key1 (param1 param2 last : Z) : edit_key_code :=
  if (param1 <? 0) && (param2 <? 0) then esc_seq_to_key1_no last
  else if (param1 =? 1) && (param2 =? 2) then esc_seq_to_key1_shift last
  else if (param1 =? 1) && (param2 =? 3) then esc_seq_to_key1_alt last
  else if (param1 =? 1) && (param2 =? 4) then esc_seq_to_key1_alt_shift last
  else if (param1 =? 1) && (param2 =? 5) then esc_seq_to_key1_ctrl last
  else if param2 <? 0 then
    if negb (last =? TILDE) then EDIT_KEY_NONE
    else match param1 with
         | 2 => EDIT_KEY_INSERT | 3 => EDIT_KEY_DELETE
         | 5 => EDIT_KEY_PAGE_UP | 6 => EDIT_KEY_PAGE_DOWN
         | 15 => EDIT_KEY_F5 | 17 => EDIT_KEY_F6 | 18 => EDIT_KEY_F7 | 19 => EDIT_KEY_F8
         | 20 => EDIT_KEY_F9 | 21 => EDIT_KEY_F10 | 23 => EDIT_KEY_F11 | 24 => EDIT_KEY_F12
         | _ => EDIT_KEY_NONE
         end
  else EDIT_KEY_NONE.

Definition esc_seq_to_key2 (param1 param2 last : Z) : edit_key_code :=
  if (0 <=? param1) || (0 <=? param2) then EDIT_KEY_NONE
  else match last with
       | 70 => EDIT_KEY_END | 72 => EDIT_KEY_HOME
       | 80 => EDIT_KEY_F1 | 81 => EDIT_KEY_F2 | 82 => EDIT_KEY_F3 | 83 => EDIT_KEY_F4
       | _ => EDIT_KEY_NONE
       end.

(** The key a sequence stands for; [seq] has at least two characters. *)
Definition esc_seq_key (seq : str) : edit_key_code :=
  let last := default 0 (last seq) in
  let '(param1, param2) :=
    if isdigit (seq !!! 1%nat) then
      (atoi (drop 1 seq),
       match strchr seq SEMICOLON with Some p => atoi (drop (S p) seq) | None => -1 end)
    else (-1, -1) in
  if seq !!! 0%nat =? LBRACKET then esc_seq_to_key1 param1 param2 last
  else if seq !!! 0%nat =? LETTER_O then esc_seq_to_key2 param1 param2 last
  else EDIT_KEY_NONE.

Definition is_key_none (k : edit_key_code) : bool :=
  match k with EDIT_KEY_NONE => true | _ => false end.

Definition esc_seq_to_key (ed : editor) (seq : str) : outcome (edit_key_code * editor) :=
  let ret := esc_seq_key seq in
  if negb (is_key_none ret) then Ret (ret, ed)
  else
    let ed := show (edit_clear_line ed)
                (13 :: lit "Unknown escape sequence '" ++ seq ++ lit "'" ++ [NL]) in
    ed ← edit_redraw ed; Ret (EDIT_KEY_NONE, ed).

Definition show_esc_buf (ed : editor) (c i : Z) : outcome editor :=
  s ← buf_str (esc_buf ed) 0;
  let ed := edit_clear_line ed in
  edit_redraw (show ed (13 :: lit "ESC buffer '" ++ s ++ lit "' c='" ++ [c] ++ lit "' [" ++
                        fmt_d i ++ lit "]" ++ [NL])).

(** What a byte means outside of an escape sequence. *)
Definition plain_key (c : Z) : edit_key_code :=
  match c with
  | 1 => EDIT_KEY_CTRL_A | 2 => EDIT_KEY_CTRL_B | 4 => EDIT_KEY_CTRL_D | 5 => EDIT_KEY_CTRL_E
  | 6 => EDIT_KEY_CTRL_F | 7 => EDIT_KEY_CTRL_G | 8 => EDIT_KEY_CTRL_H | 9 => EDIT_KEY_TAB
  | 10 => EDIT_KEY_CTRL_J | 13 => EDIT_KEY_ENTER | 11 => EDIT_KEY_CTRL_K
  | 12 => EDIT_KEY_CTRL_L | 14 => EDIT_KEY_CTRL_N | 15 => EDIT_KEY_CTRL_O
  | 16 => EDIT_KEY_CTRL_P | 18 => EDIT_KEY_CTRL_R | 20 => EDIT_KEY_CTRL_T
  | 21 => EDIT_KEY_CTRL_U | 22 => EDIT_KEY_CTRL_V | 23 => EDIT_KEY_CTRL_W
  | 127 => EDIT_KEY_BACKSPACE
  | _ => EDIT_KEY_CHAR c
  end.

(** The switch at the end of [edit_read_key]. *)
Definition read_plain (ed : editor) (c : Z) : outcome (edit_key_code * editor) :=
  if c =? ESC then Ret (EDIT_KEY_NONE, set_escape ed 0 (esc_buf ed)) else Ret (plain_key c, ed).

(** [c] in the escape sequence that [esc] characters of have been read, the
    last of which is [c] unless the buffer is full. *)
Definition read_escape (ed : editor) (c : Z) : outcome (edit_key_code * editor) :=
  if esc ed =? 1 then
    first ← buf_get (esc_buf ed) 0;
    if negb (first =? LBRACKET) && negb (first =? LETTER_O) then
      ed ← show_esc_buf ed c 1; Ret (EDIT_KEY_NONE, set_escape ed (-1) (esc_buf ed))
    else Ret (EDIT_KEY_NONE, ed)
  else if 1 <? esc ed then
    if isdigit c || (c =? SEMICOLON) then Ret (EDIT_KEY_NONE, ed)
    else if (c =? TILDE) || ((65 <=? c) && (c <=? 90)) then
      seq ← buf_str (esc_buf ed) 0;
      esc_seq_to_key (set_escape ed (-1) (esc_buf ed)) seq
    else
      ed ← show_esc_buf ed c 2; Ret (EDIT_KEY_NONE, set_escape ed (-1) (esc_buf ed))
  else read_plain ed c.

(** [read] gave a byte, or [None]: the end of the input or an error. *)
Definition edit_read_key (ed : editor) (res : option Z) : outcome (edit_key_code * editor) :=
  match res with
  | None => Ret (EDIT_KEY_EOF, ed)
  | Some c =>
      if 0 <=? esc ed then
        if c =? ESC then Ret (EDIT_KEY_NONE, set_escape ed 0 (esc_buf ed))
        else if esc ed =? 6 then
          ed ← show_esc_buf ed c 0;
          read_escape (set_escape ed (-1) (esc_buf ed)) c
        else
          b ← buf_set (esc_buf ed) (esc ed) c;
          b ← buf_set b (esc ed + 1) 0;
          read_escape (set_escape ed (esc ed + 1) b) c
      else read_escape ed c
  end.

(** ** Searching the history *)

Fixpoint find_match (l : list (Z * str)) (text : str) (skip : Z) : option str :=
  match l with
  | [] => None
  | (_, s) :: l' =>
      match strstr s text with
      | Some _ => if skip =? 0 then Some s else find_match l' text (skip - 1)
      | None => find_match l' text skip
      end
  end.

Definition search_find (ed : editor) : outcome (option str * editor) :=
  text ← buf_str (search_buf ed) 0;
  if strlen text =? 0 then Ret (None, ed)
  else match find_match (history_list ed) text (search_skip ed) with
       | Some s => Ret (Some s, ed)
       | None => Ret (None, set_pattern ed (search_buf ed) 0)
       end.

Definition clear_end_line : str := 27 :: lit "[K".

Definition search_redraw (ed : editor) : outcome editor :=
  '(match_, ed) ← search_find ed;
  text ← buf_str (search_buf ed) 0;
  let ed := show ed (13 :: lit "search '" ++ text ++ lit "': " ++ default [] match_
                        ++ clear_end_line) in
  Ret (show ed (13 :: lit "search '" ++ text)).

Definition search_start (ed : editor) : outcome editor :=
  let ed := edit_clear_line ed in
  b ← buf_set (search_buf ed) 0 0;
  search_redraw (set_pattern ed b 0).

Definition search_clear (ed : editor) : outcome editor :=
  ed ← search_redraw ed; Ret (show ed (13 :: clear_end_line)).

Definition search_stop (ed : editor) : outcome editor :=
  '(match_, ed) ← search_find ed;
  b ← buf_set (search_buf ed) 0 0;
  ed ← search_clear (set_pattern ed b (search_skip ed));
  match match_ with
  | None => edit_redraw ed
  | Some m =>
      '(_, b) ← os_strlcpy (cmdbuf ed) m CMD_BUF_LEN;
      s ← buf_str b 0;
      edit_redraw (set_line ed b (strlen s) (strlen s))
  end.

Definition search_cancel (ed : editor) : outcome editor :=
  b ← buf_set (search_buf ed) 0 0;
  ed ← search_clear (set_pattern ed b (search_skip ed));
  edit_redraw ed.

Definition search_backspace (ed : editor) : outcome editor :=
  text ← buf_str (search_buf ed) 0;
  if strlen text =? 0 then Ret ed
  else
    b ← buf_set (search_buf ed) (strlen text - 1) 0;
    search_redraw (set_pattern ed b 0).

Definition search_next (ed : editor) : outcome editor :=
  skip ← int_chk (search_skip ed + 1);
  let ed := set_pattern ed (search_buf ed) skip in
  '(_, ed) ← search_find ed;
  search_redraw ed.

Definition search_char (ed : editor) (c : Z) : outcome editor :=
  text ← buf_str (search_buf ed) 0;
  if strlen text =? SEARCH_BUF_LEN - 1 then Ret ed
  else
    b ← buf_set (search_buf ed) (strlen text) c;
    b ← buf_set b (strlen text + 1) 0;
    search_redraw (set_pattern ed b 0).

Definition printable (c : Z) : bool := (32 <=? c) && (c <=? 255).

Definition search_key (ed : editor) (c : edit_key_code) : outcome (edit_key_code * editor) :=
  match c with
  | EDIT_KEY_ENTER | EDIT_KEY_CTRL_J | EDIT_KEY_LEFT | EDIT_KEY_RIGHT | EDIT_KEY_HOME
  | EDIT_KEY_END | EDIT_KEY_CTRL_A | EDIT_KEY_CTRL_E => ed ← search_stop ed; Ret (c, ed)
  | EDIT_KEY_DOWN | EDIT_KEY_UP => ed ← search_cancel ed; Ret (EDIT_KEY_EOF, ed)
  | EDIT_KEY_CTRL_H | EDIT_KEY_BACKSPACE =>
      ed ← search_backspace ed; Ret (EDIT_KEY_NONE, ed)
  | EDIT_KEY_CTRL_R => ed ← search_next ed; Ret (EDIT_KEY_NONE, ed)
  | EDIT_KEY_CHAR ch =>
      ed ← (if printable ch then search_char ed ch else Ret ed); Ret (EDIT_KEY_NONE, ed)
  | _ => Ret (EDIT_KEY_NONE, ed)
  end.

(** ** The handler of the input *)

(** The switch of [edit_read_char]. *)
Definition edit_key (ed : editor) (c : edit_key_code) : outcome editor :=
  match c with
  | EDIT_KEY_NONE => Ret ed
  | EDIT_KEY_EOF => Ret (emit ed Edit_eof_cb)
  | EDIT_KEY_TAB => ed ← complete ed (last_tab ed); Ret (set_tab ed true)
  | EDIT_KEY_UP | EDIT_KEY_CTRL_P => history_prev ed
  | EDIT_KEY_DOWN | EDIT_KEY_CTRL_N => history_next ed
  | EDIT_KEY_RIGHT | EDIT_KEY_CTRL_F => move_right ed
  | EDIT_KEY_LEFT | EDIT_KEY_CTRL_B => move_left ed
  | EDIT_KEY_CTRL_RIGHT => move_word_right ed
  | EDIT_KEY_CTRL_LEFT => move_word_left ed
  | EDIT_KEY_DELETE => delete_current ed
  | EDIT_KEY_END => move_end ed
  | EDIT_KEY_HOME | EDIT_KEY_CTRL_A => move_start ed
  | EDIT_KEY_F2 => history_debug_dump ed
  | EDIT_KEY_CTRL_D =>
      if 0 <? cmdbuf_len ed then delete_current ed
      else Ret (emit (show ed [NL]) Edit_eof_cb)
  | EDIT_KEY_CTRL_E => move_end ed
  | EDIT_KEY_CTRL_H | EDIT_KEY_BACKSPACE => delete_left ed
  | EDIT_KEY_ENTER | EDIT_KEY_CTRL_J => process_cmd ed
  | EDIT_KEY_CTRL_K => clear_right ed
  | EDIT_KEY_CTRL_L => edit_redraw (edit_clear_line ed)
  | EDIT_KEY_CTRL_R => search_start (set_search ed true)
  | EDIT_KEY_CTRL_U => clear_left ed
  | EDIT_KEY_CTRL_W => delete_word ed
  | EDIT_KEY_CHAR ch => if printable ch then insert_char ed ch else Ret ed
  | _ => Ret ed
  end.

Definition is_key_tab (k : edit_key_code) : bool :=
  match k with EDIT_KEY_TAB => true | _ => false end.
Definition is_key_eof (k : edit_key_code) : bool :=
  match k with EDIT_KEY_EOF => true | _ => false end.

Definition edit_key_pressed (ed : editor) (c : edit_key_code) : outcome editor :=
  edit_key (if negb (is_key_tab c) && negb (is_key_none c) then set_tab ed false else ed) c.

Definition edit_read_char (ed : editor) (res : option Z) : outcome editor :=
  '(c, ed) ← edit_read_key ed res;
  if search ed then
    '(c, ed) ← search_key ed c;
    if is_key_none c then Ret ed
    else
      let ed := set_search ed false in
      if is_key_eof c then Ret ed else edit_key_pressed ed c
  else edit_key_pressed ed c.

(** ** Start and end *)

Definition edit_init (ed : editor) (history_file : option (option (list Z))) (ps : option str)
    : outcome editor :=
  b ← buf_set (currbuf ed) 0 0;
  let ed := set_history (set_saved ed b (currbuf_valid ed)) [] 0 in
  ed ← match history_file with Some f => history_read ed f | None => Ret ed end;
  let ed := emit (emit ed Raw_mode) Watch_stdin in
  let ed := set_ps2 ed ps in
  Ret (show ed (prompt ed)).

(** The file written, if there is to be one. *)
Definition edit_deinit (ed : editor) (history_file : bool) (filter_cb : option (str → bool))
    : editor * option (list Z) :=
  let file := if history_file then Some (history_write ed filter_cb) else None in
  let ed := set_history ed [] (history_curr ed) in
  let ed := show (edit_clear_line ed) [13] in
  (emit (emit ed Unwatch_stdin) Saved_mode, file).

(** A run of the handler over the input. *)
Fixpoint edit_run (ed : editor) (input : list (option Z)) : outcome editor :=
  match input with
  | [] => Ret ed
  | r :: input' => ed ← edit_read_char ed r; edit_run ed input'
  end.

End edit.
