(* ===== verification/EditSpec.v ===== *)
(** * The line editor: the line

    A line with the cursor between [l] and [r] is the relation [line_is]; the
    editing keys are functions on such pairs ([line_key]).  Everything else of
    the editor is its [rest]. *)

From S2P Require Import Prelude CString Scan Smartlist Common Edit.

(** ** Moving text in the buffer *)

Lemma built_shape b u : built b u ↔ ∃ w, b = cells u ++ w.
Proof.
  split.
  - intros Hb. exists (drop (length u) b). rewrite <- (take_drop (length u) b) at 1. by rewrite Hb.
  - intros [w ->]. unfold built. by apply take_app_length'; rewrite cells_length.
Qed.

Lemma cells_app u v : cells (u ++ v) = cells u ++ cells v.
Proof. apply fmap_app. Qed.

(** Moving [r] over [m], with [n] at least the length of [r]. *)
Lemma memmove_delete b l m r n :
  built b (l ++ m ++ r) → strlen r ≤ n → strlen (l ++ m) + n ≤ Z.of_nat (length b) →
  ∃ b', memmove b (strlen l) (strlen (l ++ m)) n = Ret b' ∧ built b' (l ++ r) ∧
        length b' = length b.
Proof.
  intros [w ->]%built_shape Hr Hn. pose proof (strlen_nonneg r). pose proof (strlen_nonneg m).
  pose proof (strlen_nonneg l). rewrite strlen_app in *. unfold memmove.
  rewrite cells_copy_Ret by lia. eexists. split; [done|].
  rewrite !cells_app, <- !app_assoc in *. unfold strlen in *.
  rewrite take_app_length' by (rewrite cells_length; lia).
  rewrite (app_assoc (cells l) (cells m)), drop_app_length'
    by (rewrite length_app, !cells_length; lia).
  rewrite take_app_ge by (rewrite cells_length; lia). split.
  - apply built_shape. eexists. by rewrite cells_app, <- !app_assoc.
  - rewrite !length_app, length_take, length_drop, !length_app, !cells_length in *. lia.
Qed.

(** Making room for [k] bytes before [r]. *)
Lemma memmove_insert b l r k :
  built b (l ++ r) → 0 ≤ k → strlen l + k + strlen r ≤ Z.of_nat (length b) →
  ∃ X w, memmove b (strlen l + k) (strlen l) (strlen r) = Ret (cells l ++ X ++ cells r ++ w) ∧
         Z.of_nat (length X) = k ∧ length (cells l ++ X ++ cells r ++ w) = length b.
Proof.
  intros [w ->]%built_shape Hk Hn. unfold strlen in *.
  assert (Hlen : length (cells (l ++ r) ++ w) = (length l + length r + length w)%nat)
    by (by rewrite length_app, cells_length, length_app).
  unfold memmove. rewrite cells_copy_Ret by lia.
  rewrite !cells_app, <- !app_assoc in *.
  rewrite (drop_app_length' (cells l)) by (rewrite cells_length; lia).
  rewrite (take_app_length' (cells r)) by (rewrite cells_length; lia).
  rewrite take_app, take_ge by (rewrite cells_length; lia). rewrite <- !app_assoc.
  eexists _, _. split; [done|].
  rewrite !length_app, !length_take, !length_drop, !length_app, !cells_length in *. lia.
Qed.

Lemma buf_write_gap l X m Y :
  length X = length m → buf_write (cells l ++ X ++ Y) (strlen l) m = Ret (cells l ++ cells m ++ Y).
Proof.
  intros HX. apply buf_write_Ret. unfold strlen. rewrite !length_app, cells_length.
  split_and!; [lia|lia|]. rewrite take_app_length' by (rewrite cells_length; lia).
  rewrite (app_assoc (cells l) X Y), drop_app_length' by (rewrite length_app, cells_length; lia). done.
Qed.

(** ** The line *)

Record line_is (ed : editor) (l r : str) : Prop := LineIs {
  line_buf_len : Z.of_nat (length (cmdbuf ed)) = CMD_BUF_LEN;
  line_pos : cmdbuf_pos ed = strlen l;
  line_len : cmdbuf_len ed = strlen l + strlen r;
  line_fits : strlen l + strlen r ≤ CMD_BUF_LEN - 1;
  line_text : built (cmdbuf ed) (l ++ r);
  line_chars : cstring (l ++ r)
}.

(** The events that reach the application or the terminal driver. *)
Definition is_call (e : edit_event) : bool := match e with Shown _ => false | _ => true end.
Definition calls (ed : editor) : list edit_event := filter (λ e, is_call e = true) (output ed).

(** Everything but the line and what is shown. *)
Definition rest (ed : editor) :=
  (currbuf ed, currbuf_valid ed, ps2 ed, (history_list ed, history_curr ed),
   (esc ed, esc_buf ed), (search_buf ed, search_skip ed), last_tab ed, search ed, calls ed).

Definition becomes (m : outcome editor) (ed : editor) (l r : str) : Prop :=
  ∃ ed', m = Ret ed' ∧ line_is ed' l r ∧ rest ed' = rest ed.

Lemma calls_show ed s : calls (show ed s) = calls ed.
Proof. unfold calls, show, emit. cbn [output set_output]. by rewrite filter_app, app_nil_r. Qed.

Lemma rest_show ed s : rest (show ed s) = rest ed.
Proof. unfold rest. by rewrite calls_show. Qed.

Lemma rest_clear ed : rest (edit_clear_line ed) = rest ed.
Proof. apply rest_show. Qed.

Lemma line_show ed s l r : line_is ed l r → line_is (show ed s) l r.
Proof. intros []. by split. Qed.

(** A line in its two parts, as the buffer holds it. *)
Lemma line_shape ed l r : line_is ed l r → ∃ w, cmdbuf ed = cells (l ++ r) ++ w ∧ (1 ≤ length w)%nat.
Proof.
  intros [Hb _ _ Hf Ht _]. apply built_shape in Ht as [w Hw]. exists w. split; [done|].
  rewrite Hw, length_app, cells_length, length_app in Hb. unfold strlen, CMD_BUF_LEN in *. lia.
Qed.

(** Terminating the line leaves it alone. *)
Lemma terminate_line ed l r :
  line_is ed l r →
  ∃ b, buf_set (cmdbuf ed) (cmdbuf_len ed) 0 = Ret b ∧ built b ((l ++ r) ++ [0]) ∧
       length b = length (cmdbuf ed) ∧ buf_str b 0 = Ret (l ++ r).
Proof.
  intros [Hb _ Hl Hf Ht Hc]. rewrite Hl, <- strlen_app.
  destruct (put_char (cmdbuf ed) (l ++ r) 0) as (b & Hs & Hbt & Hlen);
    [done|rewrite strlen_app; lia|].
  exists b. split_and!; [done|done|done|by apply built_str].
Qed.

Lemma redraw_line ed l r : line_is ed l r → becomes (edit_redraw ed) ed l r.
Proof.
  intros Hl. destruct (terminate_line ed l r Hl) as (b & Hs & Hb & Hlen & Hstr).
  unfold edit_redraw. rewrite Hs. ret_simpl. rewrite Hstr. ret_simpl.
  set (ed1 := show (set_line ed b (cmdbuf_pos ed) (cmdbuf_len ed)) (13 :: prompt ed ++ (l ++ r))).
  assert (Hl1 : line_is ed1 l r).
  { destruct Hl. split; try done; [by cbn; rewrite Hlen|by eapply built_prefix]. }
  assert (Hr1 : rest ed1 = rest ed) by (unfold ed1; by rewrite rest_show).
  change (cmdbuf_pos ed1) with (cmdbuf_pos ed). change (cmdbuf_len ed1) with (cmdbuf_len ed).
  destruct (cmdbuf_pos ed =? cmdbuf_len ed) eqn:E; [by exists ed1|].
  destruct Hl as [Hbl Hp Hn Hf Ht Hc]. zbool. rewrite Hp, Hn in E.
  destruct r as [|c r]; [unfold strlen in E; simpl in E; lia|].
  rewrite Hp. rewrite <- app_assoc in Hb. rewrite (built_head b l c r [0] Hb). ret_simpl.
  apply built_shape in Hb as [w ->]. apply cstring_app in Hc as [Hcl Hcr].
  assert (Hsh : cells (l ++ (c :: r) ++ [0]) ++ w = cells l ++ [Some c] ++ (cells (r ++ [0]) ++ w)).
  { by rewrite cells_app, <- app_assoc. }
  unfold buf_set. rewrite Hsh, (buf_write_gap l [Some c] [0]) by done. ret_simpl.
  assert (Hs0 : buf_str (cells l ++ cells [0] ++ cells (r ++ [0]) ++ w) 0 = Ret l).
  { unfold buf_str. cbn [Z.ltb Z.compare]. change (Z.to_nat 0) with 0%nat. rewrite drop_0.
    by apply cells_str_app. }
  rewrite Hs0. ret_simpl. change (cmdbuf_pos (show ed1 _)) with (cmdbuf_pos ed). rewrite Hp.
  rewrite (buf_write_gap l (cells [0]) [c]) by done. ret_simpl.
  eexists. split; [done|].
  assert (Hsame : cells l ++ cells [c] ++ cells (r ++ [0]) ++ w = cmdbuf ed1).
  { unfold ed1. change (cmdbuf (show ?x _)) with (cmdbuf x). symmetry. exact Hsh. }
  rewrite Hsame. split; [|by rewrite <- Hr1, <- (rest_show ed1 (13 :: prompt ed1 ++ l))].
  destruct Hl1. by split.
Qed.

Lemma becomes_from ed0 ed l r :
  line_is ed0 l r → rest ed0 = rest ed → becomes (edit_redraw ed0) ed l r.
Proof.
  intros Hl Hr. destruct (redraw_line ed0 l r Hl) as (ed' & H1 & H2 & H3).
  exists ed'. split_and!; [done|done|congruence].
Qed.

(** A new text in the line. *)
Lemma line_set ed b l r :
  Z.of_nat (length b) = CMD_BUF_LEN → built b (l ++ r) → cstring (l ++ r) →
  strlen l + strlen r ≤ CMD_BUF_LEN - 1 →
  line_is (set_line ed b (strlen l) (strlen l + strlen r)) l r.
Proof. intros. by split. Qed.

(** The cursor elsewhere in the same text. *)
Lemma line_move ed l r l' r' :
  line_is ed l r → l ++ r = l' ++ r' →
  line_is (set_line ed (cmdbuf ed) (strlen l') (cmdbuf_len ed)) l' r'.
Proof.
  intros [Hb Hp Hn Hf Ht Hc] E.
  assert (El : strlen l + strlen r = strlen l' + strlen r').
  { rewrite <- !strlen_app. by rewrite E. }
  rewrite Hn, El. apply line_set; [done| | |lia]; by rewrite <- E.
Qed.

(** ** Words *)

(** The longest end of [l] that satisfies [p], and what is before it. *)
Definition rspan (p : Z → bool) (l : str) : str * str :=
  let '(u, v) := span p (rev l) in (rev v, rev u).

Lemma rspan_app p l : l = (rspan p l).1 ++ (rspan p l).2.
Proof.
  unfold rspan. destruct (span_spec p (rev l)) as (E & _).
  destruct (span p (rev l)) as [u v]. simpl in *.
  by rewrite <- rev_app_distr, <- E, rev_involutive.
Qed.

Lemma rspan_snoc p l c :
  rspan p (l ++ [c]) = if p c then ((rspan p l).1, (rspan p l).2 ++ [c]) else (l ++ [c], []).
Proof.
  unfold rspan. rewrite rev_app_distr. simpl. destruct (p c).
  - by destruct (span p (rev l)).
  - simpl. by rewrite rev_involutive.
Qed.

Lemma back_while_spec p b l :
  built b l → back_while (length l) p b = Ret (strlen (rspan p l).1).
Proof.
  induction l as [|c l IH] using rev_ind; intros Hb; [done|].
  rewrite length_app, Nat.add_comm, rspan_snoc. cbn [Nat.add length back_while].
  assert (Hg : buf_get b (Z.of_nat (length l)) = Ret c).
  { apply (built_get b _ _ _ Hb). by rewrite list_lookup_middle. }
  rewrite Hg. ret_simpl. destruct (p c).
  - apply IH. by eapply built_prefix.
  - cbn [fst]. rewrite strlen_snoc. unfold strlen. f_equal. lia.
Qed.

Lemma forward_while_spec p b l r :
  built b (l ++ r) →
  forward_while (length r) p b (strlen l) = Ret (strlen (l ++ (span p r).1)).
Proof.
  revert l. induction r as [|c r IH]; intros l Hb; cbn [length forward_while span].
  { by rewrite app_nil_r. }
  rewrite (built_head b l c r []) by (by rewrite app_nil_r). ret_simpl. destruct (p c).
  - specialize (IH (l ++ [c])). rewrite <- app_assoc, strlen_snoc in IH. rewrite (IH Hb).
    destruct (span p r) as [u v]. by rewrite <- app_assoc.
  - by rewrite app_nil_r.
Qed.

(** The text before the word that ends at the cursor. *)
Definition before_word (l : str) : str := (rspan not_space (rspan is_space l).1).1.

(** The spaces and the word behind the cursor. *)
Definition next_word_part (r : str) : str :=
  let '(u, v) := span is_space r in u ++ (span not_space v).1.

Lemma before_word_prefix l : ∃ w, l = before_word l ++ w.
Proof.
  unfold before_word. exists ((rspan not_space (rspan is_space l).1).2 ++ (rspan is_space l).2).
  by rewrite app_assoc, <- rspan_app, <- rspan_app.
Qed.

Lemma next_word_prefix r : ∃ w, r = next_word_part r ++ w.
Proof.
  unfold next_word_part. destruct (span_spec is_space r) as (E1 & _).
  destruct (span is_space r) as [u v]. simpl in E1.
  destruct (span_spec not_space v) as (E2 & _). exists (span not_space v).2.
  by rewrite <- app_assoc, <- E2.
Qed.

Lemma strlen_to_nat s : Z.to_nat (strlen s) = length s.
Proof. unfold strlen. lia. Qed.

Lemma word_left_spec b l r :
  built b (l ++ r) → word_left b (strlen l) = Ret (strlen (before_word l)).
Proof.
  intros Hb%built_prefix. unfold word_left. rewrite strlen_to_nat, back_while_spec by done. ret_simpl.
  rewrite strlen_to_nat, back_while_spec; [done|].
  apply (built_prefix _ _ (rspan is_space l).2). by rewrite <- rspan_app.
Qed.

Lemma prefix_rest (u w s : str) : s = u ++ w → s = u ++ drop (length u) s.
Proof. intros ->. by rewrite drop_app_length. Qed.

(** ** The editing keys on a line *)

(** What an editing key makes of the line; [None] for the other keys. *)
Definition line_key (k : edit_key_code) (l r : str) : option (str * str) :=
  match k with
  | EDIT_KEY_HOME | EDIT_KEY_CTRL_A => Some ([], l ++ r)
  | EDIT_KEY_END | EDIT_KEY_CTRL_E => Some (l ++ r, [])
  | EDIT_KEY_LEFT | EDIT_KEY_CTRL_B =>
      Some (match last l with Some c => (removelast l, c :: r) | None => (l, r) end)
  | EDIT_KEY_RIGHT | EDIT_KEY_CTRL_F =>
      Some (match r with c :: r' => (l ++ [c], r') | [] => (l, r) end)
  | EDIT_KEY_CTRL_LEFT =>
      Some (before_word l, drop (length (before_word l)) l ++ r)
  | EDIT_KEY_CTRL_RIGHT =>
      Some (l ++ next_word_part r, drop (length (next_word_part r)) r)
  | EDIT_KEY_CTRL_H | EDIT_KEY_BACKSPACE => Some (removelast l, r)
  | EDIT_KEY_DELETE => Some (l, tail r)
  | EDIT_KEY_CTRL_D => if str_eqb (l ++ r) [] then None else Some (l, tail r)
  | EDIT_KEY_CTRL_W => Some (before_word l, r)
  | EDIT_KEY_CTRL_U => Some ([], r)
  | EDIT_KEY_CTRL_K => Some (l, [])
  | EDIT_KEY_CTRL_L => Some (l, r)
  | EDIT_KEY_CHAR c =>
      Some (if printable c && (strlen l + strlen r <? CMD_BUF_LEN - 1) then (l ++ [c], r)
            else (l, r))
  | _ => None
  end.

(** A change of the text: the line that is shown next. *)
Lemma becomes_set ed ed0 b l r :
  Z.of_nat (length b) = CMD_BUF_LEN → built b (l ++ r) → cstring (l ++ r) →
  strlen l + strlen r ≤ CMD_BUF_LEN - 1 → rest ed0 = rest ed →
  becomes (edit_redraw (set_line ed0 b (strlen l) (strlen l + strlen r))) ed l r.
Proof. intros. apply becomes_from; [by apply line_set|done]. Qed.

Lemma becomes_move ed l r l' r' :
  line_is ed l r → l ++ r = l' ++ r' →
  becomes (edit_redraw (set_line ed (cmdbuf ed) (strlen l') (cmdbuf_len ed))) ed l' r'.
Proof. intros Hl E. by apply becomes_from; [eapply line_move|]. Qed.

Lemma becomes_same ed l r : line_is ed l r → becomes (Ret ed) ed l r.
Proof. intros. by exists ed. Qed.

Lemma move_start_line ed l r : line_is ed l r → becomes (move_start ed) ed [] (l ++ r).
Proof. intros Hl. exact (becomes_move ed l r [] (l ++ r) Hl eq_refl). Qed.

Lemma move_end_line ed l r : line_is ed l r → becomes (move_end ed) ed (l ++ r) [].
Proof.
  intros Hl. pose proof (line_len _ _ _ Hl) as Hn. rewrite <- strlen_app in Hn.
  unfold move_end. rewrite Hn at 1. apply (becomes_move ed l r); [done|by rewrite app_nil_r].
Qed.

Lemma move_left_line ed l c r :
  line_is ed (l ++ [c]) r → becomes (move_left ed) ed l (c :: r).
Proof.
  intros Hl. unfold move_left. rewrite (line_pos _ _ _ Hl), strlen_snoc.
  pose proof (strlen_nonneg l). rewrite (proj2 (Z.ltb_lt 0 _)), Z.add_simpl_r by lia.
  apply (becomes_move ed (l ++ [c]) r); [done|by rewrite <- app_assoc].
Qed.

Lemma move_left_start ed r : line_is ed [] r → becomes (move_left ed) ed [] r.
Proof. intros Hl. unfold move_left. rewrite (line_pos _ _ _ Hl). by apply becomes_same. Qed.

Lemma strlen_cons c (s : str) : strlen (c :: s) = 1 + strlen s.
Proof. unfold strlen. cbn [length]. lia. Qed.

Lemma move_right_line ed l c r :
  line_is ed l (c :: r) → becomes (move_right ed) ed (l ++ [c]) r.
Proof.
  intros Hl. unfold move_right. rewrite (line_pos _ _ _ Hl), (line_len _ _ _ Hl), strlen_cons.
  pose proof (strlen_nonneg r). rewrite (proj2 (Z.ltb_lt _ _)) by lia.
  rewrite <- (strlen_snoc l c), <- (strlen_cons c r), <- (line_len _ _ _ Hl).
  apply (becomes_move ed l (c :: r)); [done|by rewrite <- app_assoc].
Qed.

Lemma move_right_end ed l : line_is ed l [] → becomes (move_right ed) ed l [].
Proof.
  intros Hl. unfold move_right. rewrite (line_pos _ _ _ Hl), (line_len _ _ _ Hl).
  change (strlen []) with 0. rewrite Z.add_0_r, Z.ltb_irrefl. by apply becomes_same.
Qed.

Lemma move_word_left_line ed l r :
  line_is ed l r →
  becomes (move_word_left ed) ed (before_word l) (drop (length (before_word l)) l ++ r).
Proof.
  intros Hl. unfold move_word_left. rewrite (line_pos _ _ _ Hl).
  rewrite (word_left_spec _ l r) by apply Hl. ret_simpl.
  apply (becomes_move ed l r); [done|]. destruct (before_word_prefix l) as [w Hw].
  rewrite app_assoc. f_equal. by apply (prefix_rest _ w).
Qed.

Lemma move_word_right_line ed l r :
  line_is ed l r →
  becomes (move_word_right ed) ed (l ++ next_word_part r) (drop (length (next_word_part r)) r).
Proof.
  intros Hl. pose proof (line_text _ _ _ Hl) as Ht. destruct (next_word_prefix r) as [w Hw].
  assert (Hr : r = next_word_part r ++ drop (length (next_word_part r)) r).
  { by apply (prefix_rest _ w). }
  assert (Hmove : becomes (edit_redraw (set_line ed (cmdbuf ed) (strlen (l ++ next_word_part r))
    (cmdbuf_len ed))) ed (l ++ next_word_part r) (drop (length (next_word_part r)) r)).
  { apply (becomes_move ed l r); [done|]. by rewrite <- app_assoc, <- Hr. }
  clear Hr Hw. revert Hmove. unfold move_word_right, next_word_part.
  rewrite (line_pos _ _ _ Hl), (line_len _ _ _ Hl).
  replace (Z.to_nat (strlen l + strlen r - strlen l)) with (length r) by (unfold strlen; lia).
  rewrite forward_while_spec by done. ret_simpl.
  destruct (span_spec is_space r) as (E1 & _). destruct (span is_space r) as [u v].
  cbn [fst snd] in *. intros Hmove.
  replace (Z.to_nat (strlen l + strlen r - strlen (l ++ u))) with (length v)
    by (rewrite E1, !strlen_app; unfold strlen; lia).
  rewrite E1, app_assoc in Ht. rewrite forward_while_spec by done. ret_simpl.
  rewrite <- app_assoc. exact Hmove.
Qed.

Lemma tail_fits (l r : str) c : strlen l + strlen (c :: r) ≤ CMD_BUF_LEN - 1 → strlen l + strlen r ≤ CMD_BUF_LEN - 1.
Proof. rewrite strlen_cons. lia. Qed.

Lemma cstring_mid l m r : cstring (l ++ m ++ r) → cstring (l ++ r).
Proof. rewrite !cstring_app. tauto. Qed.

(** Deleting [m] at the cursor or before it. *)
Lemma delete_line ed ed0 l m r n :
  Z.of_nat (length (cmdbuf ed)) = CMD_BUF_LEN → built (cmdbuf ed) (l ++ m ++ r) →
  cstring (l ++ m ++ r) → strlen (l ++ m) + strlen r ≤ CMD_BUF_LEN - 1 →
  strlen r ≤ n → strlen (l ++ m) + n ≤ CMD_BUF_LEN → rest ed0 = rest ed →
  becomes (b ← memmove (cmdbuf ed) (strlen l) (strlen (l ++ m)) n;
           edit_redraw (set_line ed0 b (strlen l) (strlen l + strlen r))) ed l r.
Proof.
  intros Hb Ht Hc Hf Hr Hn Hrest.
  destruct (memmove_delete (cmdbuf ed) l m r n) as (b & -> & Hb' & Hlen); [done|done|lia|].
  ret_simpl. apply becomes_set; [lia|done|by eapply cstring_mid| |done].
  rewrite strlen_app in Hf. pose proof (strlen_nonneg m). lia.
Qed.

Lemma delete_left_line ed l c r :
  line_is ed (l ++ [c]) r → becomes (delete_left ed) ed l r.
Proof.
  intros [Hb Hp Hn Hf Ht Hc]. unfold delete_left. pose proof (strlen_nonneg l).
  rewrite (proj2 (Z.eqb_neq _ 0)) by (rewrite Hp, strlen_snoc; lia).
  change (cmdbuf (edit_clear_line ed)) with (cmdbuf ed).
  change (cmdbuf_pos (edit_clear_line ed)) with (cmdbuf_pos ed).
  change (cmdbuf_len (edit_clear_line ed)) with (cmdbuf_len ed).
  rewrite <- app_assoc in Ht, Hc. rewrite Hn, Hp.
  replace (strlen (l ++ [c]) - 1) with (strlen l) by (rewrite strlen_snoc; lia).
  replace (strlen (l ++ [c]) + strlen r - 1) with (strlen l + strlen r) by (rewrite strlen_snoc; lia).
  apply delete_line; [done..|lia|lia|apply rest_clear].
Qed.

Lemma delete_left_start ed r : line_is ed [] r → becomes (delete_left ed) ed [] r.
Proof. intros Hl. unfold delete_left. rewrite (line_pos _ _ _ Hl). by apply becomes_same. Qed.

Lemma delete_current_line ed l c r :
  line_is ed l (c :: r) → becomes (delete_current ed) ed l r.
Proof.
  intros [Hb Hp Hn Hf Ht Hc]. unfold delete_current. rewrite strlen_cons in *.
  pose proof (strlen_nonneg r).
  rewrite (proj2 (Z.eqb_neq _ _)) by lia.
  change (cmdbuf (edit_clear_line ed)) with (cmdbuf ed).
  change (cmdbuf_pos (edit_clear_line ed)) with (cmdbuf_pos ed).
  change (cmdbuf_len (edit_clear_line ed)) with (cmdbuf_len ed).
  rewrite Hn, Hp, <- (strlen_snoc l c).
  replace (strlen l + (1 + strlen r) - 1) with (strlen l + strlen r) by lia.
  apply (delete_line ed _ l [c] r); [done..|rewrite strlen_snoc; lia|lia|rewrite strlen_snoc; lia|].
  apply rest_clear.
Qed.

Lemma delete_current_end ed l : line_is ed l [] → becomes (delete_current ed) ed l [].
Proof.
  intros Hl. unfold delete_current. rewrite (line_pos _ _ _ Hl), (line_len _ _ _ Hl).
  change (strlen []) with 0. rewrite Z.add_0_r, Z.eqb_refl. by apply becomes_same.
Qed.

Lemma delete_word_line ed l r : line_is ed l r → becomes (delete_word ed) ed (before_word l) r.
Proof.
  intros [Hb Hp Hn Hf Ht Hc]. unfold delete_word.
  change (cmdbuf (edit_clear_line ed)) with (cmdbuf ed).
  change (cmdbuf_pos (edit_clear_line ed)) with (cmdbuf_pos ed).
  change (cmdbuf_len (edit_clear_line ed)) with (cmdbuf_len ed).
  rewrite Hp, Hn, (word_left_spec _ l r) by done. ret_simpl.
  destruct (before_word_prefix l) as [w Hw].
  replace (strlen l + strlen r - (strlen l - strlen (before_word l)))
    with (strlen (before_word l) + strlen r) by lia.
  rewrite Hw in Ht, Hc, Hf. rewrite <- app_assoc in Ht, Hc.
  replace (strlen l) with (strlen (before_word l ++ w)) by (by rewrite <- Hw).
  replace (strlen (before_word l ++ w) + strlen r - strlen (before_word l ++ w)) with (strlen r) by lia.
  apply delete_line; [done..|lia|lia|apply rest_clear].
Qed.

Lemma clear_left_line ed l r : line_is ed l r → becomes (clear_left ed) ed [] r.
Proof.
  intros [Hb Hp Hn Hf Ht Hc]. unfold clear_left. rewrite Hp. destruct l as [|c l].
  { by apply becomes_same. }
  rewrite (proj2 (Z.eqb_neq _ 0)) by (rewrite strlen_cons; pose proof (strlen_nonneg l); lia).
  change (cmdbuf (edit_clear_line ed)) with (cmdbuf ed).
  change (cmdbuf_pos (edit_clear_line ed)) with (cmdbuf_pos ed).
  change (cmdbuf_len (edit_clear_line ed)) with (cmdbuf_len ed).
  rewrite Hp, Hn. replace (strlen (c :: l) + strlen r - strlen (c :: l)) with (strlen r) by lia.
  change 0 with (strlen []). change (strlen r) with (strlen [] + strlen r) at 1.
  apply (delete_line ed _ [] (c :: l) r); [done..|lia|cbn [app]; lia|apply rest_clear].
Qed.

Lemma clear_right_line ed l r : line_is ed l r → becomes (clear_right ed) ed l [].
Proof.
  intros [Hb Hp Hn Hf Ht Hc]. unfold clear_right. case_if; zbool.
  { rewrite Hp, Hn in E. destruct r; [by apply becomes_same|].
    rewrite strlen_cons in E. pose proof (strlen_nonneg r). lia. }
  change (cmdbuf (edit_clear_line ed)) with (cmdbuf ed).
  change (cmdbuf_pos (edit_clear_line ed)) with (cmdbuf_pos ed).
  rewrite Hp. rewrite <- (Z.add_0_r (strlen l)) at 2. change 0 with (strlen []).
  apply cstring_app in Hc as [Hc _]. pose proof (strlen_nonneg r).
  apply becomes_set; [done|rewrite app_nil_r; by eapply built_prefix|by rewrite app_nil_r|
    change (strlen []) with 0; lia|apply rest_clear].
Qed.

Lemma insert_char_line ed l r c :
  line_is ed l r → 0 < c < 256 → strlen l + strlen r < CMD_BUF_LEN - 1 →
  becomes (insert_char ed c) ed (l ++ [c]) r.
Proof.
  intros [Hb Hp Hn Hf Ht Hc] Hch Hroom. unfold insert_char. rewrite Hn, Hp.
  pose proof (strlen_nonneg l). pose proof (strlen_nonneg r).
  rewrite (proj2 (Z.leb_gt _ _)) by lia.
  assert (Hc' : cstring ((l ++ [c]) ++ r)).
  { apply cstring_app in Hc as [Hcl Hcr]. rewrite !cstring_app. split; [split; [done|]|done].
    by constructor. }
  case_if; zbool.
  - assert (r = []) as -> by (destruct r as [|d r]; [done|]; rewrite strlen_cons in *; pose proof (strlen_nonneg r); lia).
    rewrite app_nil_r in Ht. change (strlen []) with 0 in *.
    destruct (put_char (cmdbuf ed) l c) as (b & -> & Hbt & Hlen); [done|lia|]. ret_simpl.
    eexists. split; [done|]. split; [|by rewrite rest_show].
    apply line_show. replace (strlen l + 0 + 1) with (strlen (l ++ [c]) + strlen []) by (rewrite strlen_snoc; change (strlen []) with 0; lia).
    rewrite <- (strlen_snoc l c). apply line_set; [lia|by rewrite app_nil_r|done|].
    rewrite strlen_snoc. change (strlen []) with 0. lia.
  - replace (strlen l + strlen r - strlen l) with (strlen r) by lia.
    destruct (memmove_insert (cmdbuf ed) l r 1) as (X & w & Hm & HX & Hlen); [done|lia|lia|].
    rewrite Hm. ret_simpl. unfold buf_set. rewrite buf_write_gap by (simpl; lia). ret_simpl.
    replace (strlen l + strlen r + 1) with (strlen (l ++ [c]) + strlen r) by (rewrite strlen_snoc; lia).
    rewrite <- (strlen_snoc l c). apply becomes_set; [|apply built_shape|done| |done].
    + rewrite <- Hb, <- Hlen, !length_app. change (length (cells [c])) with 1%nat. lia.
    + exists w. by rewrite !cells_app, <- !app_assoc.
    + rewrite strlen_snoc. lia.
Qed.

Lemma insert_char_full ed l r c :
  line_is ed l r → strlen l + strlen r = CMD_BUF_LEN - 1 → becomes (insert_char ed c) ed l r.
Proof.
  intros Hl Hf. unfold insert_char. rewrite (line_len _ _ _ Hl), Hf, Z.leb_refl.
  by apply becomes_same.
Qed.

Section keys.
Context (os_zalloc : list Z → Z → Z).
Context (edit_completion_cb : option (str → Z → option (list str))).
Context (sort_strings : list str → list str).
Local Abbreviation edit_key := (edit_key os_zalloc edit_completion_cb sort_strings).

Lemma delete_current_any ed l r : line_is ed l r → becomes (delete_current ed) ed l (tail r).
Proof. destruct r; [apply delete_current_end|apply delete_current_line]. Qed.

Lemma removelast_snoc l (c : Z) : removelast (l ++ [c]) = l.
Proof. apply removelast_last. Qed.

Lemma edit_key_spec ed l r k l' r' :
  line_is ed l r → (∀ c, k = EDIT_KEY_CHAR c → c < 256) → line_key k l r = Some (l', r') →
  becomes (edit_key ed k) ed l' r'.
Proof.
  intros Hl Hc Hk.
  destruct k; simpl in Hk; try done; try (injection Hk as <- <-); cbn [Edit.edit_key].
  - destruct (printable c) eqn:Hp; [|injection Hk as <- <-; by apply becomes_same].
    cbn [andb] in Hk. unfold printable in Hp. apply andb_true_iff in Hp as [Hp1 Hp2]. zbool.
    pose proof (line_fits _ _ _ Hl).
    specialize (Hc c eq_refl).
    destruct (_ <? _) eqn:E in Hk; injection Hk as <- <-; zbool;
      [apply insert_char_line|apply insert_char_full]; done || lia.
  - destruct r as [|c r]; injection Hk as <- <-; [by apply move_right_end|by apply move_right_line].
  - destruct l as [|c l _] using rev_ind; [injection Hk as <- <-; by apply move_left_start|].
    rewrite last_snoc, removelast_snoc in Hk. injection Hk as <- <-. by apply move_left_line.
  - destruct l as [|c l _] using rev_ind; [by apply delete_left_start|].
    rewrite removelast_snoc. by apply (delete_left_line ed l c).
  - by apply delete_current_any.
  - by apply (move_start_line ed l r).
  - by apply (move_end_line ed l r).
  - by apply (move_word_right_line ed l r).
  - by apply (move_word_left_line ed l r).
  - by apply (move_start_line ed l r).
  - destruct l as [|c l _] using rev_ind; [injection Hk as <- <-; by apply move_left_start|].
    rewrite last_snoc, removelast_snoc in Hk. injection Hk as <- <-. by apply move_left_line.
  - destruct (str_eqb (l ++ r) []) eqn:E; [done|]. injection Hk as <- <-.
    assert (Hn : 0 < cmdbuf_len ed).
    { rewrite (line_len _ _ _ Hl), <- strlen_app. unfold str_eqb in E.
      apply bool_decide_eq_false in E. destruct (l ++ r) as [|x s]; [done|].
      rewrite strlen_cons. pose proof (strlen_nonneg s). lia. }
    rewrite (proj2 (Z.ltb_lt _ _) Hn). by apply delete_current_any.
  - by apply (move_end_line ed l r).
  - destruct r as [|c r]; injection Hk as <- <-; [by apply move_right_end|by apply move_right_line].
  - destruct l as [|c l _] using rev_ind; [by apply delete_left_start|].
    rewrite removelast_snoc. by apply (delete_left_line ed l c).
  - by apply (clear_right_line ed l r).
  - apply becomes_from; [by apply line_show|apply rest_clear].
  - by apply (clear_left_line ed l r).
  - by apply (delete_word_line ed l r).
Qed.

End keys.
