(* ===== verification/EditHistory.v ===== *)
(** * The line editor: invariant and history

    [edit_ok] is the invariant of all the static variables.  The history is a
    list of strings without repetitions, the most recent first ([remember]);
    of the allocator only that it does not give out an address in use. *)

From S2P Require Import Prelude CString Scan Smartlist Common Edit EditSpec.

(** ** The invariant *)

(** A string that fits in the line. *)
Definition line_string (s : str) : Prop := cstring s ∧ strlen s ≤ CMD_BUF_LEN - 1.

Record history_ok (l : list (Z * str)) : Prop := HistoryOk {
  entries_apart : NoDup (fst <$> l);
  entries_live : 0 ∉ fst <$> l;
  entries_differ : NoDup (snd <$> l);
  entries_fit : Forall (λ s, line_string s ∧ s ≠ []) (snd <$> l);
  entries_few : (length l ≤ HISTORY_MAX)%nat
}.

Definition holds_line (b : buf) (size : Z) (s : str) : Prop :=
  Z.of_nat (length b) = size ∧ built b (s ++ [0]) ∧ cstring s.

Definition escape_ok (n : Z) (b : buf) : Prop :=
  length b = 7%nat ∧ -1 ≤ n ≤ 6 ∧
  (1 ≤ n → ∃ seq, built b (seq ++ [0]) ∧ strlen seq = n ∧ cstring seq).

(** The variables other than the line. *)
Record rest_ok (ed : editor) : Prop := RestOk {
  ok_saved : ∃ s, holds_line (currbuf ed) CMD_BUF_LEN s;
  ok_history : history_ok (history_list ed);
  ok_curr : history_curr ed = 0 ∨ history_curr ed ∈ fst <$> history_list ed;
  ok_escape : escape_ok (esc ed) (esc_buf ed);
  ok_pattern : ∃ s, holds_line (search_buf ed) SEARCH_BUF_LEN s
}.

Record edit_ok (ed : editor) : Prop := EditOk {
  ok_line : ∃ l r, line_is ed l r;
  ok_rest : rest_ok ed
}.

Lemma rest_ok_same ed ed' : rest ed' = rest ed → rest_ok ed → rest_ok ed'.
Proof.
  unfold rest. intros [= E1 E2 E3 E4 E5 E6 E7 E8 E9 E10 E11 E12] [H1 H2 H3 H4 H5].
  split; by rewrite ?E1, ?E4, ?E5, ?E6, ?E7, ?E8.
Qed.

Lemma becomes_ok m ed l r : rest_ok ed → becomes m ed l r → ∃ ed', m = Ret ed' ∧ edit_ok ed'.
Proof.
  intros Hr (ed' & H1 & H2 & H3). exists ed'. split; [done|]. split; [by exists l, r|].
  by apply (rest_ok_same ed).
Qed.

Lemma holds_line_fits b size s : holds_line b size s → strlen s < size.
Proof.
  intros (Hl & Hb & _). apply (f_equal length) in Hb.
  rewrite length_take, cells_length, length_app in Hb. unfold strlen. simpl in Hb. lia.
Qed.

Lemma holds_line_str b size s : holds_line b size s → buf_str b 0 = Ret s.
Proof. intros (_ & Hb & Hs). by apply built_str. Qed.

Lemma holds_line_zeros n : (1 ≤ n)%nat → holds_line (zeros (Z.of_nat n)) (Z.of_nat n) [].
Proof.
  intros Hn. split_and!; [unfold zeros; rewrite length_replicate; lia| |constructor].
  unfold zeros. rewrite Nat2Z.id. by destruct n; [lia|].
Qed.

Lemma editor_start_ok : edit_ok editor_start ∧ line_is editor_start [] [].
Proof.
  assert (Hl : line_is editor_start [] []) by (split; try done; constructor).
  split; [|done]. split; [by exists [], []|]. split.
  - exists []. apply (holds_line_zeros 4096). lia.
  - split; [constructor|apply not_elem_of_nil|constructor|constructor|unfold HISTORY_MAX; simpl; lia].
  - by left.
  - split_and!; [done|done|done|]. simpl. lia.
  - exists []. apply (holds_line_zeros 21). lia.
Qed.

(** ** The history as a list of strings *)

Definition texts (ed : editor) : list str := snd <$> history_list ed.

(** The most recent command first, without repetitions, bounded. *)
Definition remember (s : str) (h : list str) : list str :=
  if str_eqb s [] then h else take HISTORY_MAX (s :: filter (λ x, x ≠ s) h).

Section history.
Context (os_zalloc : list Z → Z → Z)
  (Halloc : ∀ used n, os_zalloc used n ≠ 0 ∧ os_zalloc used n ∉ used).
Local Abbreviation history_add := (history_add os_zalloc).

Lemma find_entry_Some l s i h :
  find_entry l s = Some (i, h) → l !! i = Some h ∧ snd h = s.
Proof. intros H. apply list_find_Some in H as (H1 & H2 & _). by split. Qed.

Lemma find_entry_None l s : find_entry l s = None → s ∉ snd <$> l.
Proof.
  intros H Hin. apply list_find_None in H. apply list_elem_of_fmap in Hin as (e & -> & He).
  rewrite Forall_forall in H. by apply (H e He).
Qed.

Lemma filter_absent (h : list str) s : s ∉ h → filter (λ x, x ≠ s) h = h.
Proof.
  induction h as [|x h IH]; intros Hs; [done|]. apply not_elem_of_cons in Hs as [Hx Hs].
  rewrite filter_cons_True by congruence. by rewrite IH.
Qed.

Lemma filter_one h1 h2 (s : str) :
  NoDup (h1 ++ s :: h2) → filter (λ x, x ≠ s) (h1 ++ s :: h2) = h1 ++ h2.
Proof.
  intros Hn. apply NoDup_app in Hn as (_ & Hd & Hn). apply NoDup_cons in Hn as [H2 _].
  rewrite filter_app, filter_cons_False by (intros H; by apply H).
  rewrite !filter_absent; [done|done|]. intros H1. apply (Hd s H1). by left.
Qed.

(** The entry found goes to the front. *)
Lemma move_front l i h :
  history_ok l → l !! i = Some h →
  history_ok (h :: delete i l) ∧
  snd <$> (h :: delete i l) = snd h :: filter (λ x, x ≠ snd h) (snd <$> l).
Proof.
  intros [H1 H2 H3 H4 H5] Hi. apply list_elem_of_split_length in Hi as (l1 & l2 & -> & ->).
  rewrite delete_middle.
  assert (Hp : h :: l1 ++ l2 ≡ₚ l1 ++ h :: l2) by apply Permutation_middle.
  split.
  - split; [by rewrite Hp|by rewrite Hp|by rewrite Hp|by rewrite Hp|by rewrite Hp].
  - cbn [fmap list_fmap]. f_equal. rewrite !fmap_app in *. cbn [fmap list_fmap] in *.
    by rewrite filter_one.
Qed.

(** A new entry at the front, in the place of the last one if there are too
    many. *)
Lemma add_front l p s :
  history_ok l → (length l < HISTORY_MAX)%nat → p ≠ 0 → p ∉ fst <$> l → s ∉ snd <$> l →
  line_string s → s ≠ [] → history_ok ((p, s) :: l).
Proof.
  intros [H1 H2 H3 H4 H5] Hl Hp Hpl Hs Hfit Hne.
  split; cbn [fmap list_fmap fst snd].
  - by constructor.
  - rewrite not_elem_of_cons. done.
  - by constructor.
  - by constructor.
  - simpl. lia.
Qed.

Lemma drop_last l : history_ok l → history_ok (take (length l - 1) l).
Proof.
  intros [H1 H2 H3 H4 H5].
  assert (Hs : sublist (take (length l - 1) l) l) by apply sublist_take.
  split.
  - eapply sublist_NoDup; [done|]. by apply fmap_sublist.
  - intros Hin. apply H2. revert Hin. apply sublist_subseteq. by apply fmap_sublist.
  - eapply sublist_NoDup; [done|]. by apply fmap_sublist.
  - rewrite fmap_take. by apply Forall_take.
  - rewrite length_take. lia.
Qed.

Lemma history_add_spec ed s :
  history_ok (history_list ed) → line_string s →
  ∃ l h, history_add ed s = set_history ed l h ∧ history_ok l ∧
    snd <$> l = remember s (texts ed) ∧
    (if str_eqb s [] then l = history_list ed ∧ h = history_curr ed
     else ∃ l', l = (h, s) :: l').
Proof.
  intros Hok Hs. unfold Edit.history_add, remember, texts. pose proof Hok as [H1 H2 H3 H4 H5].
  destruct (str_eqb s []) eqn:Es.
  { exists (history_list ed), (history_curr ed). split_and!; try done. by destruct ed. }
  assert (Hne : s ≠ []) by (intros ->; done).
  destruct (find_entry (history_list ed) s) as [[i [p s']]|] eqn:Ef.
  - apply find_entry_Some in Ef as [Hi Hsnd]. simpl in Hsnd. subst s'.
    destruct (move_front _ _ _ Hok Hi) as [Hok' Htext].
    exists ((p, s) :: delete i (history_list ed)), p.
    split_and!; [done|done| |by eexists]. rewrite Htext. symmetry. apply take_ge.
    apply (f_equal length) in Htext. rewrite <- Htext, length_fmap.
    apply Hok'.
  - apply find_entry_None in Ef. rewrite filter_absent by done.
    set (l := if (HISTORY_MAX <=? length (history_list ed))%nat then _ else _).
    assert (Hl : history_ok l ∧ (length l < HISTORY_MAX)%nat ∧
                 snd <$> l = take (HISTORY_MAX - 1) (snd <$> history_list ed)).
    { unfold l. destruct (_ <=? _)%nat eqn:E.
      - apply Nat.leb_le in E. split; [by apply drop_last|]. rewrite length_take.
        unfold HISTORY_MAX in *. split; [lia|]. rewrite fmap_take. f_equal. lia.
      - apply Nat.leb_gt in E. split_and!; [done|done|].
        rewrite take_ge by (rewrite length_fmap; lia). done. }
    destruct Hl as (Hlok & Hlen & Htext).
    destruct (Halloc (fst <$> l) (sizeof_edit_history + strlen s)) as [Hp0 Hp].
    rewrite (proj2 (Z.eqb_neq _ 0)) by done.
    eexists _, _. split; [done|]. split_and!; [|by cbn; rewrite Htext|by eexists].
    apply add_front; [done|done|done|done| |done|done].
    rewrite Htext. intros Hin. apply Ef. revert Hin. apply sublist_subseteq, sublist_take.
Qed.

(** ** Browsing the history *)

Lemma put_line_spec ed0 ed s :
  Z.of_nat (length (cmdbuf ed0)) = CMD_BUF_LEN → line_string s → rest ed0 = rest ed →
  becomes (put_line ed0 s) ed s [].
Proof.
  intros Hb [Hc Hs] Hr. unfold put_line.
  destruct (buf_write_defined (cmdbuf ed0) 0 s) as [b Hw]; [lia|lia|]. rewrite Hw. ret_simpl.
  replace (set_line ed0 b (strlen s) (strlen s))
    with (set_line ed0 b (strlen s) (strlen s + strlen [])) by (f_equal; apply Z.add_0_r).
  apply becomes_set; [by rewrite (buf_write_length _ _ _ _ Hw)| |by rewrite app_nil_r| |done].
  - rewrite app_nil_r. exact (built_write _ [] s b (built_nil _) Hw).
  - change (strlen []) with 0. lia.
Qed.

Lemma entry_at_lookup l i p s :
  history_ok l → l !! i = Some (p, s) → entry_at l p = Ret (i, (p, s)).
Proof.
  intros [Hn _ _ _ _] Hi. unfold entry_at. apply need_Ret, list_find_Some.
  split_and!; [done|done|]. intros j [q t] Hj Hlt Heq. simpl in Heq. subst q.
  assert (j = i); [|lia].
  apply (NoDup_lookup (fst <$> l) j i p); [done| |]; rewrite list_lookup_fmap.
  - by rewrite Hj.
  - by rewrite Hi.
Qed.

(** The entry the user looks at. *)
Definition at_entry (ed : editor) (i : nat) (s : str) : Prop :=
  history_list ed !! i = Some (history_curr ed, s).

Lemma curr_entry ed :
  history_ok (history_list ed) → history_curr ed = 0 ∨ history_curr ed ∈ fst <$> history_list ed →
  history_curr ed = 0 ∨ ∃ i s, at_entry ed i s.
Proof.
  intros Hok [H0|Hin]; [by left|right]. apply list_elem_of_fmap in Hin as ([p s] & Hp & He).
  apply list_elem_of_lookup in He as [i Hi]. exists i, s. unfold at_entry. by rewrite Hp.
Qed.

Lemma at_entry_live ed i s : history_ok (history_list ed) → at_entry ed i s → history_curr ed ≠ 0.
Proof.
  intros [_ H0 _ _ _] Hi E. apply H0. rewrite <- E. unfold at_entry in Hi.
  apply list_elem_of_fmap. exists (history_curr ed, s). split; [done|].
  by eapply list_elem_of_lookup_2.
Qed.

Lemma entry_string l i p s : history_ok l → l !! i = Some (p, s) → line_string s.
Proof.
  intros [_ _ _ Hf _] Hi. rewrite Forall_forall in Hf. apply Hf.
  apply list_elem_of_fmap. exists (p, s). split; [done|]. by eapply list_elem_of_lookup_2.
Qed.

Lemma history_use_spec ed0 ed i s :
  Z.of_nat (length (cmdbuf ed0)) = CMD_BUF_LEN → history_ok (history_list ed0) →
  at_entry ed0 i s → rest ed0 = rest ed → becomes (history_use ed0) ed s [].
Proof.
  intros Hb Hok Hi Hr. unfold history_use.
  change (history_list (edit_clear_line ed0)) with (history_list ed0).
  change (history_curr (edit_clear_line ed0)) with (history_curr ed0).
  rewrite (entry_at_lookup _ i _ s) by done. ret_simpl.
  apply put_line_spec; [done|by eapply entry_string|by rewrite rest_clear].
Qed.

Lemma first_entry_at ed i s :
  history_ok (history_list ed) → at_entry ed i s →
  (history_curr ed =? first_entry ed) = bool_decide (i = 0%nat).
Proof.
  intros Hok Hi. pose proof (at_entry_live ed i s Hok Hi) as Hlive. unfold at_entry in Hi.
  unfold first_entry. destruct (history_list ed) as [|[p t] l] eqn:E; [done|].
  cbn. rewrite <- E in Hok, Hi. symmetry. destruct (Z.eqb_spec (history_curr ed) p) as [Hp|Hp].
  - apply bool_decide_eq_true. destruct Hok as [Hn _ _ _ _].
    apply (NoDup_lookup (fst <$> history_list ed) i 0 p); [done| |]; rewrite list_lookup_fmap.
    + by rewrite Hi, Hp.
    + by rewrite E.
  - apply bool_decide_eq_false. intros ->. rewrite E in Hi. simpl in Hi. congruence.
Qed.

(** One entry further into the past, or back. *)
Lemma neighbour_spec ed i s j p t d :
  edit_ok ed → at_entry ed i s → history_list ed !! j = Some (p, t) →
  Z.of_nat i + d = Z.of_nat j →
  ∃ ed', neighbour ed d = Ret ed' ∧ edit_ok ed' ∧ line_is ed' t [] ∧ at_entry ed' j t ∧
         rest ed' = rest (set_history ed (history_list ed) p).
Proof.
  intros [(l & r & Hl) Hr] Hi Hj Hd. pose proof (ok_history _ Hr) as Hok. unfold neighbour.
  rewrite (entry_at_lookup _ i _ s) by done. ret_simpl.
  rewrite Hd, Nat2Z.id, Hj. ret_simpl. cbn [fst].
  destruct (history_use_spec (set_history ed (history_list ed) p) (set_history ed (history_list ed) p) j t)
    as (ed' & Hu & Hl' & Hr'); [apply Hl|done|done|done|].
  exists ed'. split_and!; [done| |done| |done].
  - split; [by exists t, []|]. apply (rest_ok_same _ _ Hr'). destruct Hr. split; try done.
    right. cbn. apply list_elem_of_fmap. exists (p, t). split; [done|]. by eapply list_elem_of_lookup_2.
  - unfold rest in Hr'. injection Hr' as _ _ _ E1 E2. unfold at_entry. rewrite E1, E2. exact Hj.
Qed.

(** The line being edited is kept when the history is entered. *)
Lemma enter_history ed l r s :
  edit_ok ed → line_is ed l r → at_entry ed 0 s → currbuf_valid ed = false →
  ∃ ed' c, history_prev ed = Ret ed' ∧ edit_ok ed' ∧ line_is ed' s [] ∧ at_entry ed' 0 s ∧
    holds_line c CMD_BUF_LEN (l ++ r) ∧ rest ed' = rest (set_saved ed c true).
Proof.
  intros [_ Hr] Hl Hi Hv. pose proof (ok_history _ Hr) as Hok. unfold history_prev.
  rewrite (proj2 (Z.eqb_neq _ 0)) by (by eapply at_entry_live).
  rewrite (first_entry_at ed 0 s) by done. rewrite bool_decide_eq_true_2, Hv by done. cbn [negb andb].
  destruct (terminate_line ed l r Hl) as (b & Hs & Hbt & Hlen & _). rewrite Hs. ret_simpl.
  pose proof (ok_saved _ Hr) as (s0 & Hc0 & _). pose proof (line_buf_len _ _ _ Hl) as Hbl.
  pose proof (line_len _ _ _ Hl) as Hn. pose proof (line_fits _ _ _ Hl) as Hf.
  rewrite Hn. pose proof (strlen_nonneg l). pose proof (strlen_nonneg r).
  rewrite cells_copy_Ret by (rewrite ?Hlen; unfold CMD_BUF_LEN in *; lia). ret_simpl.
  change (take (Z.to_nat 0) (currbuf ed)) with (@nil (option Z)). cbn [app].
  change (Z.to_nat 0) with 0%nat. rewrite drop_0.
  replace (Z.to_nat (strlen l + strlen r + 1)) with (length ((l ++ r) ++ [0]))
    by (unfold strlen; rewrite !length_app; simpl; lia).
  pose proof Hbt as Htake. unfold built in Htake. rewrite Htake.
  set (c := cells _ ++ _).
  assert (Hhold : holds_line c CMD_BUF_LEN (l ++ r)).
  { split_and!; [|by apply built_shape; eexists|apply Hl]. unfold c.
    rewrite length_app, cells_length, length_drop, !length_app. simpl. unfold strlen in *.
    unfold CMD_BUF_LEN in *. lia. }
  destruct (history_use_spec (set_saved (set_line ed b (cmdbuf_pos ed) (strlen l + strlen r)) c true)
              (set_saved ed c true) 0 s) as (ed' & Hu & Hl' & Hr');
    [cbn; lia|done|done|done|].
  exists ed', c. split_and!; [done| |done| |done|done].
  - split; [by exists s, []|]. apply (rest_ok_same _ _ Hr'). destruct Hr. split; try done.
    by exists (l ++ r).
  - unfold rest in Hr'. injection Hr' as _ _ _ E1 E2. unfold at_entry. by rewrite E1, E2.
Qed.

(** The number of matches to skip did not move away from 0. *)
Definition skips_kept (ed ed' : editor) : Prop :=
  Z.min 0 (search_skip ed) ≤ search_skip ed' ≤ Z.max 0 (search_skip ed).

Lemma skips_same ed ed' : search_skip ed' = search_skip ed → skips_kept ed ed'.
Proof. unfold skips_kept. lia. Qed.

(** An operation that keeps the invariant and calls nobody. *)
Definition keeps (m : outcome editor) (ed : editor) : Prop :=
  ∃ ed', m = Ret ed' ∧ edit_ok ed' ∧ calls ed' = calls ed ∧ texts ed' = texts ed ∧
         search ed' = search ed ∧ skips_kept ed ed'.

Lemma rest_keeps m ed ed' :
  m = Ret ed' → edit_ok ed' → rest ed' = rest ed → keeps m ed.
Proof.
  intros Hm Hok Hr. exists ed'. unfold rest in Hr. injection Hr as E1 E2 E3 E4 E5 E6 E7 E8 E9 E10 E11 E12.
  split_and!; [done|done|done| |done|by apply skips_same]. unfold texts. by rewrite E4.
Qed.

Lemma becomes_keeps m ed l r : edit_ok ed → becomes m ed l r → keeps m ed.
Proof.
  intros [_ Hr] Hb. destruct (becomes_ok m ed l r Hr Hb) as (ed' & Hm & Hok).
  destruct Hb as (ed2 & Hm' & _ & Hr'). rewrite Hm in Hm'. injection Hm' as <-.
  by eapply rest_keeps.
Qed.

Lemma keeps_same ed : edit_ok ed → keeps (Ret ed) ed.
Proof. intros. exists ed. split_and!; try done. by apply skips_same. Qed.

Lemma history_prev_ok ed : edit_ok ed → keeps (history_prev ed) ed.
Proof.
  intros Hok. pose proof Hok as [(l & r & Hl) Hr]. pose proof (ok_history _ Hr) as Hh.
  destruct (curr_entry ed Hh (ok_curr _ Hr)) as [H0|(i & s & Hi)].
  { unfold history_prev. rewrite H0. by apply keeps_same. }
  destruct (decide (i = 0%nat ∧ currbuf_valid ed = false)) as [[-> Hv]|Hn].
  { destruct (enter_history ed l r s Hok Hl Hi Hv) as (ed' & c & Hp & Hok' & _ & _ & _ & Hrest).
    rewrite Hp. unfold rest in Hrest. injection Hrest as _ _ _ E4 _ _ _ _ E9 _ E11 E12.
    exists ed'. split_and!; [done|done|done|by unfold texts; rewrite E4|done|by apply skips_same]. }
  unfold history_prev. rewrite (proj2 (Z.eqb_neq _ 0)) by (by eapply at_entry_live).
  rewrite (first_entry_at ed i s) by done.
  replace (bool_decide (i = 0%nat) && negb (currbuf_valid ed)) with false.
  2: { symmetry. apply andb_false_iff. destruct (decide (i = 0%nat)) as [->|].
       - right. apply negb_false_iff. destruct (currbuf_valid ed); [done|]. by destruct Hn.
       - left. by apply bool_decide_eq_false. }
  case_if; [by apply keeps_same|]. zbool.
  destruct (history_list ed !! S i) as [[p t]|] eqn:Hj.
  - destruct (neighbour_spec ed i s (S i) p t 1 Hok Hi Hj ltac:(lia)) as (ed' & Hp & Hok' & _ & _ & Hrest).
    rewrite Hp. unfold rest in Hrest. injection Hrest as _ _ _ E4 _ _ _ _ E9 _ E11 E12.
    exists ed'. split_and!; [done|done|done|by unfold texts; rewrite E4|done|by apply skips_same].
  - exfalso. apply E. unfold last_entry. apply lookup_ge_None in Hj.
    unfold at_entry in Hi. pose proof (lookup_lt_Some _ _ _ Hi).
    rewrite last_lookup. replace (Nat.pred (length (history_list ed))) with i by lia. by rewrite Hi.
Qed.

Lemma saved_line ed0 ed c s :
  holds_line c CMD_BUF_LEN s → currbuf ed0 = c → Z.of_nat (length (cmdbuf ed0)) = CMD_BUF_LEN →
  rest (edit_clear_line ed0) = rest ed →
  becomes (s ← buf_str (currbuf (edit_clear_line ed0)) 0; put_line (edit_clear_line ed0) s) ed s [].
Proof.
  intros Hc <- Hb Hr. change (currbuf (edit_clear_line ed0)) with (currbuf ed0).
  rewrite (holds_line_str _ _ _ Hc). ret_simpl.
  apply put_line_spec; [done| |done]. pose proof (holds_line_fits _ _ _ Hc).
  split; [apply Hc|]. unfold CMD_BUF_LEN in *. lia.
Qed.

(** Leaving the history brings the line back that was being edited. *)
Lemma leave_history ed c s :
  edit_ok ed → holds_line (currbuf ed) CMD_BUF_LEN s → currbuf_valid ed = true →
  (history_curr ed = 0 ∨ ∃ t, at_entry ed 0 t) → c = currbuf ed →
  becomes (history_next ed) (set_saved ed c false) s [].
Proof.
  intros [(l & r & Hl) Hr] Hs Hv Hat ->. unfold history_next.
  assert (Hg : (history_curr ed =? 0) || (history_curr ed =? first_entry ed) = true).
  { destruct Hat as [->|[t Ht]]; [done|]. apply orb_true_iff. right.
    rewrite (first_entry_at ed 0 t) by (done || apply Hr). done. }
  rewrite Hg, Hv. eapply saved_line; [exact Hs|done|apply Hl|by rewrite rest_clear].
Qed.

Lemma set_saved_ok ed c v s :
  rest_ok ed → holds_line c CMD_BUF_LEN s → rest_ok (set_saved ed c v).
Proof. intros [] Hc. split; try done. by exists s. Qed.

Lemma history_next_first ed :
  edit_ok ed → history_curr ed = 0 ∨ (∃ t, at_entry ed 0 t) → keeps (history_next ed) ed.
Proof.
  intros Hok Hat. pose proof Hok as [(l & r & Hl) Hr].
  destruct (ok_saved _ Hr) as [s Hs]. destruct (currbuf_valid ed) eqn:Hv.
  - destruct (leave_history ed _ s Hok Hs Hv Hat eq_refl) as (ed' & Hn & Hl' & Hrest).
    exists ed'. unfold rest in Hrest. pose proof Hrest as [= _ _ _ E4 _ _ _ _ E9 _ E11 E12].
    split_and!; [done| |done|by unfold texts; rewrite E4|done|by apply skips_same].
    split; [by exists s, []|]. apply (rest_ok_same _ _ Hrest). by apply (set_saved_ok _ _ _ s).
  - unfold history_next.
    assert (Hg : (history_curr ed =? 0) || (history_curr ed =? first_entry ed) = true).
    { destruct Hat as [->|[t Ht]]; [done|]. apply orb_true_iff. right.
      rewrite (first_entry_at ed 0 t) by (done || apply Hr). done. }
    rewrite Hg, Hv. by apply keeps_same.
Qed.

Lemma history_next_ok ed : edit_ok ed → keeps (history_next ed) ed.
Proof.
  intros Hok. pose proof Hok as [_ Hr]. pose proof (ok_history _ Hr) as Hh.
  destruct (curr_entry ed Hh (ok_curr _ Hr)) as [H0|([|i] & s & Hi)];
    [apply history_next_first; by auto|apply history_next_first; by eauto|].
  unfold history_next. rewrite (proj2 (Z.eqb_neq _ 0)) by (by eapply at_entry_live).
  rewrite (first_entry_at ed (S i) s) by done. cbn [bool_decide orb].
  destruct (history_list ed !! i) as [[p t]|] eqn:Hj.
  2: { unfold at_entry in Hi. apply lookup_lt_Some in Hi. apply lookup_ge_None in Hj. lia. }
  destruct (neighbour_spec ed (S i) s i p t (-1) Hok Hi Hj ltac:(lia))
    as (ed' & Hp & Hok' & _ & _ & Hrest).
  rewrite bool_decide_eq_false_2 by done.
  rewrite Hp. unfold rest in Hrest. injection Hrest as _ _ _ E4 _ _ _ _ E9 _ E11 E12.
  exists ed'. split_and!; [done|done|done|by unfold texts; rewrite E4|done|by apply skips_same].
Qed.

(** ** A command is entered *)

Lemma calls_emit ed e : is_call e = true → calls (emit ed e) = calls ed ++ [e].
Proof.
  intros He. unfold calls, emit. cbn [output set_output]. rewrite filter_app.
  by rewrite filter_cons_True by done.
Qed.

Lemma process_cmd_skip ed ed' : process_cmd os_zalloc ed = Ret ed' → search_skip ed' = search_skip ed.
Proof.
  unfold process_cmd. case_if; [by intros [= <-]|].
  intros (b & _ & Ed)%outcome_bind_inv. apply outcome_bind_inv in Ed as (s & _ & Ed). injection Ed as <-.
  unfold history_add. by repeat case_match.
Qed.

Lemma process_cmd_spec ed l r :
  edit_ok ed → line_is ed l r →
  ∃ ed', process_cmd os_zalloc ed = Ret ed' ∧ edit_ok ed' ∧ line_is ed' [] [] ∧
    texts ed' = remember (l ++ r) (texts ed) ∧ search ed' = search ed ∧ esc ed' = esc ed ∧
    calls ed' = calls ed ++ (if str_eqb (l ++ r) [] then [] else [Edit_cmd_cb (l ++ r)]).
Proof.
  intros [_ Hr] Hl. unfold process_cmd.
  change (cmdbuf_len (set_saved ed (currbuf ed) false)) with (cmdbuf_len ed).
  destruct (str_eqb (l ++ r) []) eqn:Es.
  - apply bool_decide_eq_true in Es. apply app_nil in Es as [-> ->].
    rewrite (line_len _ _ _ Hl). cbn [Z.eqb Z.add strlen length Z.of_nat].
    eexists. split; [done|]. rewrite calls_show. change (if str_eqb ([] ++ []) [] then _ else ?x) with (@nil edit_event).
    split_and!; [|by destruct Hl|done|done|done|by rewrite app_nil_r].
    split; [exists [], []; by destruct Hl|]. by destruct Hr.
  - assert (Hne : l ++ r ≠ []) by (by apply bool_decide_eq_false in Es).
    assert (Hn : cmdbuf_len ed ≠ 0).
    { rewrite (line_len _ _ _ Hl), <- strlen_app. destruct (l ++ r) as [|c s]; [done|].
      rewrite strlen_cons. pose proof (strlen_nonneg s). lia. }
    rewrite (proj2 (Z.eqb_neq _ _)) by done.
    change (cmdbuf (show _ _)) with (cmdbuf ed). change (cmdbuf_len (show _ _)) with (cmdbuf_len ed).
    change (cmdbuf_pos (show _ _)) with (cmdbuf_pos ed).
    destruct (terminate_line ed l r Hl) as (b & -> & Hb & Hlen & Hstr). ret_simpl. rewrite Hstr.
    ret_simpl.
    set (ed1 := set_line _ b _ _). pose proof (line_fits _ _ _ Hl) as Hf.
    destruct (history_add_spec ed1 (l ++ r)) as (h & p & Hadd & Hh & Ht & Hp);
      [apply Hr|split; [apply Hl|rewrite strlen_app; lia]|].
    rewrite Hadd. rewrite Es in Hp. destruct Hp as [h' ->].
    eexists. split; [done|]. rewrite calls_show, calls_emit by done.
    split_and!.
    + split; [exists [], []; destruct Hl; split; try done; cbn; [by rewrite Hlen|constructor]|].
      destruct Hr. split; try done. right. cbn. by left.
    + destruct Hl. split; try done; cbn; [by rewrite Hlen|constructor].
    + done.
    + done.
    + done.
    + f_equal. unfold calls at 1. cbn [output set_line set_history ed1].
      change (calls (show (set_saved ed (currbuf ed) false) [NL]) = calls ed). by rewrite calls_show.
Qed.

End history.
