(* ===== verification/EditComplete.v ===== *)
(** * The line editor: completion

    What [complete] makes of the line, for any completions the application
    offers ([complete_line]). *)

From S2P Require Import Prelude CString Scan Smartlist Common Edit EditSpec EditHistory.

(** ** Completion *)

Lemma built_str_at b u v : built b (u ++ v ++ [0]) → cstring v → buf_str b (strlen u) = Ret v.
Proof.
  intros [w ->]%built_shape Hv. unfold buf_str. rewrite (proj2 (Z.ltb_ge _ 0)) by apply strlen_nonneg.
  rewrite strlen_to_nat, !cells_app, <- !app_assoc, drop_app_length' by (by rewrite cells_length).
  by apply cells_str_app.
Qed.

Lemma copy_as_write b off t s :
  0 ≤ off → off + strlen t ≤ Z.of_nat (length b) →
  cells_copy b off (cells (t ++ s)) 0 (strlen t) = buf_write b off t.
Proof.
  intros H0 H1. pose proof (strlen_nonneg t).
  rewrite cells_copy_Ret by (rewrite ?cells_length, ?length_app; unfold strlen in *; lia).
  symmetry. apply buf_write_Ret. split_and!; [done|done|].
  change (Z.to_nat 0) with 0%nat. rewrite drop_0, strlen_to_nat, cells_app.
  rewrite take_app_length' by (by rewrite cells_length). do 3 f_equal. unfold strlen. lia.
Qed.

(** [k] is before the word being completed, [w] the part of it that is typed;
    [t] takes its place and [sp] follows. *)
Lemma insert_completion_line ed k w r t s sp :
  line_is ed (k ++ w) r → cstring t → strlen w ≤ strlen t →
  sp = 0 ∨ sp = 1 → strlen k + strlen t + sp + strlen r ≤ CMD_BUF_LEN - 1 →
  becomes (insert_completion ed (t ++ s) (strlen w) (strlen t - strlen w) sp) ed
    (k ++ t ++ (if sp =? 0 then [] else [SP])) r.
Proof.
  intros [Hb Hp Hn Hf Ht Hc] Hct Hwt Hsp Hroom. unfold insert_completion.
  pose proof (strlen_nonneg k). pose proof (strlen_nonneg w). pose proof (strlen_nonneg r).
  rewrite Hp, Hn. replace (strlen (k ++ w) + strlen r - strlen (k ++ w)) with (strlen r) by lia.
  rewrite strlen_app in *.
  destruct (memmove_insert (cmdbuf ed) (k ++ w) r (strlen t - strlen w + sp)) as (X & y & Hm & HX & Hlen);
    [done|lia|rewrite strlen_app; lia|]. rewrite strlen_app in Hm.
  rewrite Z.add_assoc in Hm. rewrite Hm. ret_simpl. clear Hm.
  replace (strlen k + strlen w - strlen w) with (strlen k) by lia.
  replace (strlen w + (strlen t - strlen w)) with (strlen t) by lia. rewrite <- app_assoc.
  rewrite copy_as_write by (rewrite ?Hlen; lia).
  rewrite <- (take_drop (Z.to_nat (strlen t - strlen w)) X), cells_app.
  set (X1 := take _ X). set (X2 := drop _ X).
  assert (HX1 : length X1 = Z.to_nat (strlen t - strlen w)) by (unfold X1; rewrite length_take; lia).
  assert (HX2 : Z.of_nat (length X2) = sp) by (unfold X2; rewrite length_drop; lia).
  rewrite <- !app_assoc, (app_assoc (cells w) X1).
  rewrite (buf_write_gap k _ t) by (rewrite length_app, cells_length; unfold strlen in *; lia). ret_simpl.
  assert (Hfin : ∀ z, cells k ++ cells t ++ cells z ++ cells r ++ y = cells ((k ++ t ++ z) ++ r) ++ y).
  { intros z. by rewrite !cells_app, <- !app_assoc. }
  apply cstring_app in Hc as [Hcw Hcr]. apply cstring_app in Hcw as [Hck Hcw].
  assert (Hlen2 : (length (cells k) + length (cells t) + length X2 + length (cells r) + length y
                   = length (cmdbuf ed))%nat).
  { rewrite <- Hlen, <- (take_drop (Z.to_nat (strlen t - strlen w)) X), cells_app.
    fold X1 X2. rewrite !length_app, HX1, !cells_length. unfold strlen in *. lia. }
  destruct Hsp as [-> | ->].
  - destruct X2; [|simpl in HX2; lia]. cbn [negb Z.eqb]. ret_simpl.
    pose proof (Hfin []) as Hf0. change (cells []) with (@nil (option Z)) in Hf0. rewrite Hf0.
    replace (strlen k + strlen w + (strlen t - strlen w + 0)) with (strlen (k ++ t ++ []))
      by (rewrite app_nil_r, strlen_app; lia).
    replace (strlen k + strlen w + strlen r + (strlen t - strlen w + 0))
      with (strlen (k ++ t ++ []) + strlen r) by (rewrite app_nil_r, strlen_app; lia).
    apply becomes_set; [|by apply built_shape; eexists| | |done].
    + rewrite <- Hfin, !length_app. simpl in *. lia.
    + rewrite app_nil_r, !cstring_app. done.
    + rewrite app_nil_r, strlen_app. lia.
  - destruct X2 as [|x [|? ?]]; [simpl in HX2; lia| |simpl in HX2; lia]. cbn [negb Z.eqb Pos.eqb].
    unfold buf_set. rewrite app_assoc, <- cells_app.
    replace (strlen k + strlen w + (strlen t - strlen w)) with (strlen (k ++ t)) by (rewrite strlen_app; lia).
    rewrite (buf_write_gap (k ++ t) [x] [SP]) by done. ret_simpl.
    rewrite (cells_app k t), <- app_assoc, (Hfin [SP]).
    assert (Hs : strlen (k ++ t ++ [SP]) = strlen k + strlen t + 1).
    { rewrite app_assoc, strlen_snoc, strlen_app. lia. }
    replace (strlen k + strlen w + (strlen t - strlen w + 1)) with (strlen (k ++ t ++ [SP])) by lia.
    replace (strlen k + strlen w + strlen r + (strlen t - strlen w + 1))
      with (strlen (k ++ t ++ [SP]) + strlen r) by lia.
    apply becomes_set; [|by apply built_shape; eexists| |lia|done].
    + rewrite <- Hfin, !length_app. simpl in *. lia.
    + rewrite !cstring_app. split_and!; try done. by apply (bool_decide_unpack _).
Qed.

Lemma common_len_bound a b : 0 ≤ common_len a b ≤ strlen a.
Proof.
  revert b. induction a as [|x a IH]; intros [|y b]; cbn [common_len];
    rewrite ?strlen_cons; try (unfold strlen; simpl; lia).
  pose proof (strlen_nonneg a). specialize (IH b). destruct (x =? y); lia.
Qed.

Lemma max_common_bound c0 c n :
  0 ≤ n ≤ strlen c0 → 0 ≤ foldl (λ len ci, Z.min len (common_len c0 ci)) n c ≤ n.
Proof.
  revert n. induction c as [|ci c IH]; intros n Hn; [simpl; lia|]. cbn [foldl].
  pose proof (common_len_bound c0 ci). specialize (IH (Z.min n (common_len c0 ci)) ltac:(lia)). lia.
Qed.

Lemma match_long x s w r :
  s = w ++ r → strncasecmp_eq x s (length w) = true → strlen w ≤ strlen x.
Proof.
  intros -> H. unfold strncasecmp_eq in H. apply strn_eq_take in H.
  apply (f_equal length) in H. rewrite !length_fmap, !length_take, length_app in H.
  unfold strlen. lia.
Qed.

Section complete.
Context (cb : str → Z → option (list str)) (sort_strings : list str → list str)
  (Hcb : ∀ s p c, cb s p = Some c → Forall cstring c).
Local Abbreviation complete := (complete (Some cb) sort_strings).

(** The word at the cursor and the completions that fit it. *)
Definition word_at (l : str) : str * str := rspan not_space l.
Definition fitting (c : list str) (l r : str) : list str :=
  filter_strings c ((word_at l).2 ++ r) (length (word_at l).2).

(** How far the word can be completed: the characters that are new. *)
Definition completed (c0 : str) (c : list str) (l r : str) : Z :=
  Z.min (max_common_length c0 c - strlen (word_at l).2)
        (CMD_BUF_LEN - 1 - (strlen l + strlen r)).

Lemma fitting_long c l r x : x ∈ fitting c l r → strlen (word_at l).2 ≤ strlen x.
Proof. intros [H _]%list_elem_of_filter. by eapply match_long. Qed.

(** The line after [complete], by the completions the application offers. *)
Definition complete_line (c : list str) (l r : str) : str :=
  match fitting c l r with
  | [] => l
  | c0 :: c' =>
      let len := completed c0 c' l r in
      if bool_decide (c' ≠ []) && (max_common_length c0 c' <=? strlen (word_at l).2) then l
      else (word_at l).1 ++ take (Z.to_nat (strlen (word_at l).2 + len)) c0 ++
           (if bool_decide (c' = []) && (len <? CMD_BUF_LEN - 1 - (strlen l + strlen r))
            then [SP] else [])
  end.

Lemma count_one (c' : list str) : (1 + Z.of_nat (length c') =? 1) = bool_decide (c' = []).
Proof. destruct c'; [done|]. cbn [length]. rewrite bool_decide_eq_false_2 by done. apply Z.eqb_neq. lia. Qed.

Lemma count_more (c' : list str) : (1 <? 1 + Z.of_nat (length c')) = bool_decide (c' ≠ []).
Proof.
  destruct c' as [|x c'].
  - by rewrite bool_decide_eq_false_2 by (intros H; by apply H).
  - rewrite bool_decide_eq_true_2 by done. cbn [length]. apply Z.ltb_lt. lia.
Qed.

Lemma show_completions_line ed1 ed l r c :
  line_is ed1 l r → rest ed1 = rest ed → becomes (show_completions sort_strings ed1 c) ed l r.
Proof.
  intros Hl Hr. unfold show_completions.
  apply becomes_from; [do 4 apply line_show; exact Hl|by rewrite !rest_show, rest_clear].
Qed.

(** The insertion of as much of [c0] as there is room for. *)
Lemma insert_at_word ed1 ed k w r c0 m one :
  line_is ed1 (k ++ w) r → rest ed1 = rest ed → cstring c0 → strlen w ≤ m ≤ strlen c0 →
  let room := CMD_BUF_LEN - 1 - (strlen (k ++ w) + strlen r) in
  let len := Z.min (m - strlen w) room in
  becomes (insert_completion ed1 c0 (strlen w) (if room <? m - strlen w then room else m - strlen w)
             (b2z (one && ((if room <? m - strlen w then room else m - strlen w) <? room)))) ed
    (k ++ take (Z.to_nat (strlen w + len)) c0 ++ (if one && (len <? room) then [SP] else [])) r.
Proof.
  intros Hl Hr Hc Hm room len. pose proof (line_fits _ _ _ Hl) as Hf.
  replace (if room <? m - strlen w then room else m - strlen w) with len
    by (unfold len; case_if; zbool; lia).
  assert (0 ≤ len ≤ m - strlen w) by (unfold len, room; rewrite strlen_app in *; lia).
  set (t := take (Z.to_nat (strlen w + len)) c0). pose proof (strlen_nonneg w).
  assert (Ht : strlen t = strlen w + len).
  { unfold t, strlen in *. rewrite length_take. lia. }
  replace len with (strlen t - strlen w) at 1 by lia.
  rewrite <- (take_drop (Z.to_nat (strlen w + len)) c0) at 1. fold t.
  set (sp := one && (len <? room)).
  assert (Hsp : strlen t - strlen w + b2z sp ≤ room).
  { unfold sp. destruct one; simpl; [|unfold len in *; lia].
    destruct (len <? room) eqn:E; zbool; simpl; unfold len in *; lia. }
  destruct (insert_completion_line ed1 k w r t (drop (Z.to_nat (strlen w + len)) c0) (b2z sp))
    as (ed' & He & Hl' & Hr').
  - done.
  - by apply Forall_take.
  - lia.
  - destruct sp; simpl; auto.
  - unfold room in Hsp. rewrite strlen_app in Hsp. lia.
  - exists ed'. split_and!; [done| |congruence]. by destruct sp.
Qed.

Lemma complete_spec ed l r list :
  line_is ed l r →
  ∃ l', becomes (complete ed list) ed l' r ∧
    l' = match cb (l ++ r) (strlen l) with None => l | Some c => complete_line c l r end.
Proof.
  intros Hl. unfold Edit.complete.
  destruct (terminate_line ed l r Hl) as (b & -> & Hb & Hlen & Hstr). ret_simpl. rewrite Hstr. ret_simpl.
  change (cmdbuf_pos (set_line ed b _ _)) with (cmdbuf_pos ed).
  change (cmdbuf_len (set_line ed b _ _)) with (cmdbuf_len ed).
  rewrite (line_pos _ _ _ Hl), (line_len _ _ _ Hl).
  assert (Hl1 : line_is (set_line ed b (strlen l) (strlen l + strlen r)) l r).
  { destruct Hl. apply line_set; [by rewrite Hlen|by eapply built_prefix|done|done]. }
  set (ed1 := set_line ed b _ _) in *.
  assert (Hsame : becomes (Ret ed1) ed l r) by by exists ed1.
  destruct (cb (l ++ r) (strlen l)) as [c|] eqn:Ec; [|by exists l].
  pose proof (rspan_app not_space l) as Hw. unfold complete_line. fold (word_at l) in Hw.
  assert (Hbl : built b l) by (rewrite <- app_assoc in Hb; by eapply built_prefix).
  rewrite strlen_to_nat, back_while_spec by done. ret_simpl. fold (word_at l).
  pose proof (fitting_long c l r) as Hlong. pose proof (Hcb _ _ _ Ec) as Hcs. unfold fitting in *.
  destruct (word_at l) as [k w] eqn:Ek. cbn [fst snd] in *.
  replace (strlen l - strlen k) with (strlen w) by (rewrite Hw, strlen_app; lia).
  assert (Hword : buf_str b (strlen k) = Ret (w ++ r)).
  { apply (built_str_at b k (w ++ r)).
    - rewrite Hw in Hb. rewrite <- !app_assoc in *. exact Hb.
    - pose proof (line_chars _ _ _ Hl) as Hc. rewrite Hw, <- app_assoc in Hc.
      by apply cstring_app in Hc as [_ Hc]. }
  rewrite Hword, strlen_to_nat. ret_simpl.
  destruct (filter_strings c (w ++ r) (length w)) as [|c0 c'] eqn:Ef; [by exists l|].
  eexists. split; [|done].
  assert (Hc0 : c0 ∈ filter_strings c (w ++ r) (length w)) by (rewrite Ef; by left).
  rewrite <- Ef in Hlong. specialize (Hlong c0 Hc0).
  apply list_elem_of_filter in Hc0 as [_ Hc0]. rewrite Forall_forall in Hcs. specialize (Hcs c0 Hc0).
  rewrite (count_one c'), (count_more c').
  destruct (bool_decide (c' ≠ []) && (max_common_length c0 c' <=? strlen w)) eqn:Eshow;
    rewrite (andb_comm _ (bool_decide _)), Eshow.
  { destruct list; [|done]. by apply show_completions_line. }
  rewrite Hw in Hl1. unfold completed. rewrite Ek. cbn [snd].
  assert (Hm : strlen w ≤ max_common_length c0 c' ≤ strlen c0).
  { pose proof (max_common_bound c0 c' (strlen c0) ltac:(pose proof (strlen_nonneg c0); lia)) as Hb2.
    unfold max_common_length in *. split; [|lia]. apply andb_false_iff in Eshow as [E|E]; zbool; [|lia].
    apply bool_decide_eq_false in E. destruct c'; [done|]. by destruct E. }
  replace (strlen l) with (strlen (k ++ w)) by (by rewrite <- Hw).
  by apply (insert_at_word ed1 ed k w r c0 (max_common_length c0 c') (bool_decide (c' = []))).
Qed.

End complete.
