(* ===== verification/EditInput.v ===== *)
(** * The line editor: keys, search and the handler of the input

    Escape sequences are read into their buffer without overflowing it; every
    key keeps the invariant; what the application is called with. *)

From S2P Require Import Prelude CString Scan Smartlist Common Edit EditSpec EditHistory.
From S2P Require Import EditComplete.

(** ** Reading keys *)

Definition key_ok (k : edit_key_code) : Prop :=
  match k with EDIT_KEY_CHAR c => 0 ≤ c < 256 | _ => True end.

Definition input_byte (res : option Z) : Prop :=
  match res with Some c => 0 ≤ c < 256 | None => True end.

(** A key is read; of the variables only those of the escape sequence change. *)
Definition reads (m : outcome (edit_key_code * editor)) (ed : editor) (l r : str) : Prop :=
  ∃ k ed' n b, m = Ret (k, ed') ∧ line_is ed' l r ∧ rest ed' = rest (set_escape ed n b) ∧
    escape_ok n b ∧ key_ok k.

Lemma readable b u c :
  built b ((u ++ [c]) ++ [0]) → cstring u → 0 ≤ c < 256 → ∃ s, buf_str b 0 = Ret s.
Proof.
  intros Hb Hu Hc. destruct (decide (c = 0)) as [->|Hne].
  - exists u. apply built_str; [by eapply built_prefix|done].
  - exists (u ++ [c]). apply built_str; [done|]. apply cstring_app. split; [done|].
    constructor; [lia|constructor].
Qed.

Lemma show_esc_buf_line ed c i l r s :
  line_is ed l r → buf_str (esc_buf ed) 0 = Ret s → becomes (show_esc_buf ed c i) ed l r.
Proof.
  intros Hl Hs. unfold show_esc_buf. rewrite Hs. ret_simpl.
  apply becomes_from; [by do 2 apply line_show|by rewrite rest_show, rest_clear].
Qed.

Lemma plain_key_ok c : 0 ≤ c < 256 → key_ok (plain_key c).
Proof.
  intros Hc. cut (match plain_key c with EDIT_KEY_CHAR x => x =? c | _ => true end = true).
  { destruct (plain_key c); try done. intros ->%Z.eqb_eq. done. }
  revert c Hc. apply (forall_byte_reflect
    (λ c, match plain_key c with EDIT_KEY_CHAR x => x =? c | _ => true end)). reflexivity.
Qed.

Lemma escape_range n b : length b = 7%nat → n = -1 ∨ n = 0 → escape_ok n b.
Proof. intros Hb Hn. split_and!; [done|lia|lia|]. lia. Qed.

Lemma rest_escape ed ed' n b :
  rest ed = rest ed' → rest (set_escape ed n b) = rest (set_escape ed' n b).
Proof.
  unfold rest. intros [= E1 E2 E3 E4 E5 E6 E7 E8 E9 E10 E11 E12].
  change (calls (set_escape ed n b)) with (calls ed).
  change (calls (set_escape ed' n b)) with (calls ed'). cbn. congruence.
Qed.

(** Returning with the escape state [n]. *)
Lemma reads_esc ed ed0 l r n k :
  line_is ed0 l r → rest ed0 = rest (set_escape ed (esc ed0) (esc_buf ed0)) →
  length (esc_buf ed0) = 7%nat → n = -1 ∨ n = 0 → key_ok k →
  reads (Ret (k, set_escape ed0 n (esc_buf ed0))) ed l r.
Proof.
  intros Hl Hr Hb Hn Hk. eexists _, _, n, (esc_buf ed0). split; [done|].
  split_and!; [by destruct Hl| |by apply escape_range|done]. exact (rest_escape _ _ _ _ Hr).
Qed.

Lemma read_plain_reads ed l r c :
  line_is ed l r → escape_ok (esc ed) (esc_buf ed) → esc ed = -1 → 0 ≤ c < 256 →
  reads (read_plain ed c) ed l r.
Proof.
  intros Hl He Hn Hc. unfold read_plain. case_if.
  - apply reads_esc; [done|done|apply He|by right|done].
  - exists (plain_key c), ed, (esc ed), (esc_buf ed). split_and!; try done. by apply plain_key_ok.
Qed.

Lemma esc_key1_ok p1 p2 c : key_ok (esc_seq_to_key1 p1 p2 c).
Proof.
  unfold esc_seq_to_key1, esc_seq_to_key1_no, esc_seq_to_key1_shift, esc_seq_to_key1_alt,
    esc_seq_to_key1_alt_shift, esc_seq_to_key1_ctrl. repeat (case_match; try done).
Qed.

Lemma esc_key2_ok p1 p2 c : key_ok (esc_seq_to_key2 p1 p2 c).
Proof. unfold esc_seq_to_key2. repeat (case_match; try done). Qed.

Lemma esc_seq_key_ok seq : key_ok (esc_seq_key seq).
Proof.
  unfold esc_seq_key. destruct (isdigit _); case_if;
    try apply esc_key1_ok; case_if; try done; apply esc_key2_ok.
Qed.

Lemma esc_seq_to_key_reads ed l r seq :
  line_is ed l r → length (esc_buf ed) = 7%nat →
  reads (esc_seq_to_key (set_escape ed (-1) (esc_buf ed)) seq) ed l r.
Proof.
  intros Hl Hb. unfold esc_seq_to_key. set (ed0 := set_escape ed (-1) (esc_buf ed)).
  assert (Hl0 : line_is ed0 l r) by by destruct Hl.
  destruct (is_key_none (esc_seq_key seq)); cbn [negb].
  - set (ed1 := show _ _).
    destruct (becomes_from ed1 ed0 l r) as (ed' & -> & Hl' & Hr').
    { by do 2 apply line_show. } { unfold ed1. by rewrite rest_show, rest_clear. }
    eexists _, _, (-1), (esc_buf ed). split_and!; [done|done|done|apply escape_range; auto|done].
  - eexists _, _, (-1), (esc_buf ed). split_and!; [done|done|done|apply escape_range; auto|].
    apply esc_seq_key_ok.
Qed.

(** A message about the sequence, which ends. *)
Lemma escape_ends ed l r c i s :
  line_is ed l r → length (esc_buf ed) = 7%nat → buf_str (esc_buf ed) 0 = Ret s →
  reads (ed ← show_esc_buf ed c i; Ret (EDIT_KEY_NONE, set_escape ed (-1) (esc_buf ed))) ed l r.
Proof.
  intros Hl Hb Hs. destruct (show_esc_buf_line ed c i l r s Hl Hs) as (ed' & -> & Hl' & Hr').
  ret_simpl. assert (Hb' : esc_buf ed' = esc_buf ed).
  { unfold rest in Hr'. by injection Hr' as _ _ _ _ _ _ E _. }
  rewrite Hb'. eexists _, _, (-1), (esc_buf ed).
  split_and!; [done|by destruct Hl'| |apply escape_range; auto|done].
  exact (rest_escape _ _ _ _ Hr').
Qed.

(** A character of a sequence of [strlen seq] others. *)
Lemma read_escape_reads ed l r seq c b :
  line_is ed l r → length b = 7%nat → built b ((seq ++ [c]) ++ [0]) → cstring seq →
  strlen seq < 6 → 0 ≤ c < 256 →
  reads (read_escape (set_escape ed (strlen seq + 1) b) c) ed l r.
Proof.
  intros Hl Hlen Hb Hs Hn Hc. set (ed0 := set_escape ed (strlen seq + 1) b).
  assert (Hl0 : line_is ed0 l r) by by destruct Hl.
  destruct (readable b seq c Hb Hs Hc) as [s Hstr]. pose proof (strlen_nonneg seq).
  assert (Hon : 0 < c → reads (Ret (EDIT_KEY_NONE, ed0)) ed l r).
  { intros Hc0. eexists _, _, (strlen seq + 1), b. split_and!; [done|done|done| |done].
    split_and!; [done|lia|lia|]. intros _. exists (seq ++ [c]).
    split_and!; [done|by rewrite strlen_snoc|]. apply cstring_app. split; [done|].
    constructor; [lia|constructor]. }
  assert (Hends : ∀ i, reads (ed ← show_esc_buf ed0 c i;
                              Ret (EDIT_KEY_NONE, set_escape ed (-1) (esc_buf ed))) ed l r).
  { intros i. destruct (escape_ends ed0 l r c i s) as (k & ed' & n & b' & H1 & H2 & H3 & H4 & H5);
      [done..|]. by exists k, ed', n, b'. }
  unfold read_escape. change (esc ed0) with (strlen seq + 1). change (esc_buf ed0) with b.
  destruct (strlen seq + 1 =? 1) eqn:E1; zbool.
  - assert (seq = []) as -> by (destruct seq; [done|rewrite strlen_cons in *; pose proof (strlen_nonneg seq); lia]).
    rewrite (built_get b [c; 0] 0 c Hb eq_refl : buf_get b 0 = Ret c). ret_simpl.
    destruct (c =? LBRACKET) eqn:EL; [apply Hon; zbool; unfold LBRACKET in *; lia|].
    destruct (c =? LETTER_O) eqn:EO; [apply Hon; zbool; unfold LETTER_O in *; lia|].
    cbn [negb andb]. apply Hends.
  - rewrite (proj2 (Z.ltb_lt 1 _)) by lia.
    destruct (isdigit c || (c =? SEMICOLON)) eqn:Ed.
    { apply Hon. unfold isdigit, SEMICOLON in Ed. apply orb_true_iff in Ed as [Ed|Ed]; zbool; lia. }
    destruct ((c =? TILDE) || _).
    + rewrite Hstr. ret_simpl.
      destruct (esc_seq_to_key_reads ed0 l r s Hl0 Hlen) as (k & ed' & n & b' & H1 & H2 & H3 & H4 & H5).
      by exists k, ed', n, b'.
    + apply Hends.
Qed.

Lemma edit_read_key_reads ed l r res :
  line_is ed l r → escape_ok (esc ed) (esc_buf ed) → input_byte res →
  reads (edit_read_key ed res) ed l r.
Proof.
  intros Hl He Hres. pose proof He as (Hlen & Hrange & Hseq). unfold edit_read_key.
  destruct res as [c|]; simpl in Hres.
  2: { exists EDIT_KEY_EOF, ed, (esc ed), (esc_buf ed). by split_and!. }
  destruct (0 <=? esc ed) eqn:E0; zbool.
  2: { unfold read_escape. rewrite (proj2 (Z.eqb_neq _ 1)), (proj2 (Z.ltb_ge 1 _)) by lia.
       apply read_plain_reads; [done|done|lia|done]. }
  destruct (c =? ESC) eqn:Ec; [apply reads_esc; [done|done|done|by right|done]|].
  assert (Hs : ∃ seq, built (esc_buf ed) seq ∧ strlen seq = esc ed ∧ cstring seq ∧
                      (1 ≤ esc ed → buf_str (esc_buf ed) 0 = Ret seq)).
  { destruct (decide (1 ≤ esc ed)) as [H1|H1].
    - destruct (Hseq H1) as (seq & Hb & Hn & Hc). exists seq.
      split_and!; [by eapply built_prefix|done|done|]. intros _. by apply built_str.
    - exists []. split_and!; [done|unfold strlen; simpl; lia|constructor|lia]. }
  destruct Hs as (seq & Hb & Hn & Hc & Hstr).
  destruct (esc ed =? 6) eqn:E6; zbool.
  - destruct (show_esc_buf_line ed c 0 l r seq Hl (Hstr ltac:(lia))) as (ed' & -> & Hl' & Hr'). ret_simpl.
    assert (Hb' : esc_buf ed' = esc_buf ed).
    { unfold rest in Hr'. by injection Hr' as _ _ _ _ _ _ E _. }
    set (ed0 := set_escape ed' (-1) (esc_buf ed')).
    change (read_escape ed0 c) with (read_plain ed0 c).
    assert (Hplain : reads (read_plain ed0 c) ed0 l r).
    { apply read_plain_reads; [by destruct Hl'| |done|done]. cbn. rewrite Hb'.
      apply escape_range; auto. }
    destruct Hplain as (k & ed2 & n & b & H1 & H2 & H3 & H4 & H5). exists k, ed2, n, b.
    split_and!; try done. rewrite H3. exact (rest_escape _ _ n b Hr').
  - destruct (put_char (esc_buf ed) seq c) as (b1 & H1 & Hb1 & L1); [done|lia|].
    rewrite Hn in H1. rewrite H1. ret_simpl.
    destruct (put_char b1 (seq ++ [c]) 0) as (b2 & H2 & Hb2 & L2); [done|rewrite strlen_snoc; lia|].
    rewrite strlen_snoc, Hn in H2. rewrite H2. ret_simpl. rewrite <- Hn.
    apply read_escape_reads; [done|lia|done|done|lia|done].
Qed.

(** ** Searching *)

Lemma pattern_cut b size u v :
  holds_line b size (u ++ v) →
  ∃ b', buf_set b (strlen u) 0 = Ret b' ∧ holds_line b' size u.
Proof.
  intros Hh. pose proof (holds_line_fits _ _ _ Hh) as Hf. destruct Hh as (Hl & Hb & Hc).
  rewrite strlen_app in Hf. pose proof (strlen_nonneg v).
  destruct (put_char b u 0) as (b' & Hs & Hb' & Hlen);
    [by do 2 eapply built_prefix|lia|].
  exists b'. split; [done|]. split_and!; [lia|done|by apply cstring_app in Hc as [? _]].
Qed.

Lemma pattern_push b size s c :
  holds_line b size s → 0 < c < 256 → strlen s + 1 < size →
  ∃ b1 b2, buf_set b (strlen s) c = Ret b1 ∧ buf_set b1 (strlen s + 1) 0 = Ret b2 ∧
    holds_line b2 size (s ++ [c]).
Proof.
  intros (Hl & Hb & Hs) Hc Hroom.
  destruct (put_char b s c) as (b1 & H1 & Hb1 & L1); [by eapply built_prefix|lia|].
  destruct (put_char b1 (s ++ [c]) 0) as (b2 & H2 & Hb2 & L2); [done|rewrite strlen_snoc; lia|].
  rewrite strlen_snoc in H2. exists b1, b2. split_and!; [done|done|]. split_and!; [lia|done|].
  apply cstring_app. split; [done|]. constructor; [lia|constructor].
Qed.

Lemma find_match_elem l text n s : find_match l text n = Some s → s ∈ snd <$> l.
Proof.
  revert n. induction l as [|[p t] l IH]; intros n H; [done|]. cbn [find_match] in H.
  cbn [fmap list_fmap snd]. destruct (strstr t text); [|right; by eapply IH].
  destruct (n =? 0); [injection H as ->; by left|right; by eapply IH].
Qed.

(** [m] leaves everything but the pattern and what is shown. *)
Definition searches (m : outcome editor) (ed : editor) (s : str) : Prop :=
  ∃ ed' b n, m = Ret ed' ∧ rest ed' = rest (set_pattern ed b n) ∧
    holds_line b SEARCH_BUF_LEN s ∧ skips_kept ed (set_pattern ed b n) ∧ ∀ l r, line_is ed l r → line_is ed' l r.

Lemma rest_pattern ed ed' b n :
  rest ed = rest ed' → rest (set_pattern ed b n) = rest (set_pattern ed' b n).
Proof.
  unfold rest. intros [= E1 E2 E3 E4 E5 E6 E7 E8 E9 E10 E11 E12].
  change (calls (set_pattern ed b n)) with (calls ed).
  change (calls (set_pattern ed' b n)) with (calls ed'). cbn. congruence.
Qed.

Lemma pattern_same ed : set_pattern ed (search_buf ed) (search_skip ed) = ed.
Proof. by destruct ed. Qed.

Lemma search_find_spec ed text :
  holds_line (search_buf ed) SEARCH_BUF_LEN text →
  ∃ m n, search_find ed = Ret (m, set_pattern ed (search_buf ed) n) ∧
    (n = search_skip ed ∨ n = 0) ∧
    match m with Some s => s ∈ texts ed | None => True end.
Proof.
  intros Hp. unfold search_find. rewrite (holds_line_str _ _ _ Hp). ret_simpl. case_if.
  - exists None, (search_skip ed). rewrite pattern_same. split_and!; [done|by left|done].
  - destruct (find_match _ text _) as [s|] eqn:Ef.
    + exists (Some s), (search_skip ed). rewrite pattern_same. split_and!; [done|by left|].
      by eapply find_match_elem.
    + exists None, 0. split_and!; [done|by right|done].
Qed.

Lemma line_pattern ed b n l r : line_is ed l r → line_is (set_pattern ed b n) l r.
Proof. by intros []. Qed.

Lemma search_redraw_spec ed text :
  holds_line (search_buf ed) SEARCH_BUF_LEN text → searches (search_redraw ed) ed text.
Proof.
  intros Hp. unfold search_redraw.
  destruct (search_find_spec ed text Hp) as (m & n & -> & Hn & _). ret_simpl.
  change (search_buf (set_pattern ed ?b _)) with b. rewrite (holds_line_str _ _ _ Hp). ret_simpl.
  eexists _, (search_buf ed), n. split_and!; [done|by rewrite !rest_show|done|unfold skips_kept; cbn; lia|].
  intros l r Hl. by do 2 apply line_show; apply line_pattern.
Qed.

(** A new pattern is shown. *)
Lemma search_redraw_new ed b n text :
  holds_line b SEARCH_BUF_LEN text → skips_kept ed (set_pattern ed b n) →
  searches (search_redraw (set_pattern ed b n)) ed text.
Proof.
  intros Hp Hn. destruct (search_redraw_spec (set_pattern ed b n) text Hp)
    as (ed' & b' & n' & H1 & H2 & H3 & H5 & H4).
  exists ed', b', n'. split_and!; [done|done|done|unfold skips_kept in *; cbn in *; lia|]. intros l r Hl. apply H4. by destruct Hl.
Qed.

Lemma search_clear_new ed b n text :
  holds_line b SEARCH_BUF_LEN text → skips_kept ed (set_pattern ed b n) →
  searches (search_clear (set_pattern ed b n)) ed text.
Proof.
  intros Hp Hn. unfold search_clear.
  destruct (search_redraw_new ed b n text Hp Hn) as (ed' & b' & n' & -> & H2 & H3 & H5 & H4). ret_simpl.
  eexists _, b', n'. split_and!; [done|by rewrite rest_show|done|done|].
  intros l r Hl. apply line_show. by apply H4.
Qed.

Lemma pattern_keeps m ed ed' b n s l r :
  edit_ok ed → m = Ret ed' → rest ed' = rest (set_pattern ed b n) →
  holds_line b SEARCH_BUF_LEN s → skips_kept ed (set_pattern ed b n) → line_is ed' l r → keeps m ed.
Proof.
  intros [_ Hr] Hm Hrest Hb Hn Hline. exists ed'. pose proof Hrest as Hrest'. unfold rest in Hrest'.
  injection Hrest' as E1 E2 E3 E4 E5 E6 E7 E8 E9 E10 E11 E12.
  split_and!; [done| |done|by unfold texts; rewrite E4|done|by unfold skips_kept in *; rewrite E9].
  split; [by exists l, r|]. apply (rest_ok_same _ _ Hrest).
  destruct Hr. split; try done. by exists s.
Qed.

Lemma searches_keeps m ed s : edit_ok ed → searches m ed s → keeps m ed.
Proof.
  intros Hok (ed' & b & n & Hm & Hrest & Hb & Hn & Hline). pose proof Hok as [(l & r & Hl) _].
  by eapply (pattern_keeps m ed ed' b n s l r); [..|apply Hline].
Qed.

(** A pattern, and the line that is shown again. *)
Lemma redraw_keeps ed ed1 b n s l r :
  edit_ok ed → rest ed1 = rest (set_pattern ed b n) → holds_line b SEARCH_BUF_LEN s →
  skips_kept ed (set_pattern ed b n) → line_is ed1 l r → keeps (edit_redraw ed1) ed.
Proof.
  intros Hok Hrest Hb Hn Hl. destruct (redraw_line ed1 l r Hl) as (ed2 & H1 & H2 & H3).
  eapply (pattern_keeps _ ed ed2 b n s l r); [done|done|by rewrite H3|done|done|done].
Qed.

Lemma texts_line ed s : edit_ok ed → s ∈ texts ed → line_string s.
Proof.
  intros [_ Hr] Hs. pose proof (ok_history _ Hr) as [_ _ _ Hf _]. rewrite Forall_forall in Hf.
  by apply Hf.
Qed.

Section searching.
Context (ed : editor) (text : str) (Hok : edit_ok ed)
  (Hp : holds_line (search_buf ed) SEARCH_BUF_LEN text).

Lemma pattern_clear : ∃ b, buf_set (search_buf ed) 0 0 = Ret b ∧ holds_line b SEARCH_BUF_LEN [].
Proof. exact (pattern_cut _ _ [] text Hp). Qed.

Lemma search_start_ok : keeps (search_start ed) ed.
Proof.
  unfold search_start. destruct pattern_clear as (b & Hb & Hh).
  change (search_buf (edit_clear_line ed)) with (search_buf ed). rewrite Hb. ret_simpl.
  destruct (search_redraw_new (edit_clear_line ed) b 0 [] Hh) as (ed' & b' & n & H1 & H2 & H3 & H5 & H4);
    [unfold skips_kept; cbn; lia|].
  apply (searches_keeps _ _ []); [done|]. exists ed', b', n. split_and!; [done| |done|done|].
  - rewrite H2. apply rest_pattern, rest_clear.
  - intros l r Hl. apply H4. by apply line_show.
Qed.

Lemma search_cancel_ok : keeps (search_cancel ed) ed.
Proof.
  unfold search_cancel. destruct pattern_clear as (b & Hb & Hh). rewrite Hb. ret_simpl.
  destruct (search_clear_new ed b (search_skip ed) [] Hh) as (ed1 & b1 & n & -> & H2 & H3 & H5 & H4);
    [by apply skips_same|].
  ret_simpl. pose proof Hok as [(l & r & Hl) _].
  by apply (redraw_keeps ed ed1 b1 n [] l r); [..|apply H4].
Qed.

Lemma search_stop_ok : keeps (search_stop ed) ed.
Proof.
  unfold search_stop. destruct (search_find_spec ed text Hp) as (m & n0 & -> & Hn0 & Hm). ret_simpl.
  change (search_buf (set_pattern ed ?b _)) with b.
  destruct pattern_clear as (b & Hb & Hh). rewrite Hb. ret_simpl.
  change (set_pattern (set_pattern ed _ _) ?b ?n) with (set_pattern ed b n).
  destruct (search_clear_new ed b (search_skip (set_pattern ed (search_buf ed) n0)) [] Hh)
    as (ed1 & b1 & n & -> & H2 & H3 & H5 & H4); [unfold skips_kept; cbn; lia|].
  ret_simpl. pose proof Hok as [(l & r & Hl) _]. specialize (H4 l r Hl).
  destruct m as [s|]; [|by apply (redraw_keeps ed ed1 b1 n [] l r)].
  destruct (texts_line ed s Hok Hm) as [Hs Hfit].
  unfold os_strlcpy. change (CMD_BUF_LEN =? 0) with false. cbn [negb].
  rewrite take_ge by (unfold CMD_BUF_LEN, strlen in *; lia).
  pose proof (line_buf_len _ _ _ H4) as Hlen.
  destruct (buf_write_defined (cmdbuf ed1) 0 (s ++ [0])) as [b2 Hw];
    [lia|rewrite strlen_app; change (strlen [0]) with 1; lia|].
  rewrite Hw. ret_simpl. rewrite (buf_str_written _ _ _ _ Hs Hw). ret_simpl.
  apply (redraw_keeps ed _ b1 n [] s []); [done|done|done|done|].
  replace (strlen s) with (strlen s + strlen []) at 2 by (change (strlen []) with 0; lia).
  apply line_set; rewrite ?app_nil_r; [by rewrite (buf_write_length _ _ _ _ Hw)| |done|].
  - apply (built_prefix _ _ [0]). exact (built_write _ [] _ _ (built_nil _) Hw).
  - change (strlen []) with 0. lia.
Qed.

Lemma search_backspace_ok : keeps (search_backspace ed) ed.
Proof.
  unfold search_backspace. rewrite (holds_line_str _ _ _ Hp). ret_simpl.
  case_if; [by apply keeps_same|]. zbool.
  destruct text as [|c t _] using rev_ind; [done|]. rewrite strlen_snoc, Z.add_simpl_r.
  destruct (pattern_cut _ _ t [c] Hp) as (b & -> & Hh). ret_simpl.
  eapply searches_keeps; [done|]. apply search_redraw_new; [done|]. unfold skips_kept. cbn. lia.
Qed.

(** One more match is skipped: seen from the count after that, it is kept. *)
Lemma search_next_ok :
  INT_MIN ≤ search_skip ed < INT_MAX →
  keeps (search_next ed) (set_pattern ed (search_buf ed) (search_skip ed + 1)).
Proof.
  intros Hn. unfold search_next. rewrite (proj2 (int_chk_Ret _ (search_skip ed + 1))) by (split; [done|lia]).
  ret_simpl. set (ed1 := set_pattern ed _ _).
  assert (Hok1 : edit_ok ed1).
  { destruct Hok as [(l & r & Hl) Hr]. split; [exists l, r; by apply line_pattern|]. destruct Hr. by split. }
  destruct (search_find_spec ed1 text Hp) as (m & n & -> & Hn1 & _). ret_simpl.
  eapply searches_keeps; [done|]. apply (search_redraw_new ed1 (search_buf ed) n text); [done|].
  unfold skips_kept. cbn. cbn in Hn1. lia.
Qed.

Lemma search_char_ok c : 0 < c < 256 → keeps (search_char ed c) ed.
Proof.
  intros Hc. unfold search_char. rewrite (holds_line_str _ _ _ Hp). ret_simpl.
  case_if; [by apply keeps_same|]. zbool. pose proof (holds_line_fits _ _ _ Hp).
  destruct (pattern_push _ _ text c Hp Hc) as (b1 & b2 & -> & H2 & Hh); [lia|]. ret_simpl.
  rewrite H2. ret_simpl. eapply searches_keeps; [done|]. apply search_redraw_new; [done|].
  unfold skips_kept. cbn. lia.
Qed.

End searching.

(** ** The handler *)

Lemma ok_tab ed t : edit_ok ed → edit_ok (set_tab ed t).
Proof. intros [(l & r & Hl) []]. split; [exists l, r; by destruct Hl|by split]. Qed.

Lemma ok_search ed t : edit_ok ed → edit_ok (set_search ed t).
Proof. intros [(l & r & Hl) []]. split; [exists l, r; by destruct Hl|by split]. Qed.

Lemma ok_emit ed e : edit_ok ed → edit_ok (emit ed e).
Proof. intros [(l & r & Hl) []]. split; [exists l, r; by destruct Hl|by split]. Qed.

(** The calls of the application that a run makes: commands that fit the
    buffer and are not empty, and the end of the input. *)
Definition call_ok (e : edit_event) : Prop :=
  match e with
  | Edit_cmd_cb s => line_string s ∧ s ≠ []
  | Edit_eof_cb => True
  | _ => False
  end.

Definition runs (m : outcome editor) (ed : editor) : Prop :=
  ∃ ed' new, m = Ret ed' ∧ edit_ok ed' ∧ calls ed' = calls ed ++ new ∧ Forall call_ok new ∧
    skips_kept ed ed'.

Lemma keeps_runs m ed : keeps m ed → runs m ed.
Proof.
  intros (ed' & H1 & H2 & H3 & _ & _ & H4). exists ed', []. rewrite app_nil_r. by split_and!.
Qed.

Lemma becomes_runs m ed l r : edit_ok ed → becomes m ed l r → runs m ed.
Proof. intros. by eapply keeps_runs, becomes_keeps. Qed.

Lemma dump_line ed ed1 l r hs :
  line_is ed1 l r → rest ed1 = rest ed →
  let ed2 := foldr (λ h e, show e ((if fst h =? history_curr e then lit "[C]" else [])
                                   ++ snd h ++ [NL])) ed1 (hs : list (Z * str)) in
  line_is ed2 l r ∧ rest ed2 = rest ed.
Proof.
  intros Hl Hr. induction hs as [|h hs [IH1 IH2]]; [done|]. cbn [foldr].
  split; [by apply line_show|by rewrite rest_show].
Qed.

Lemma history_debug_dump_ok ed : edit_ok ed → keeps (history_debug_dump ed) ed.
Proof.
  intros Hok. pose proof Hok as [(l & r & Hl) Hr]. unfold history_debug_dump.
  change (history_list (show (edit_clear_line ed) [13])) with (history_list ed).
  destruct (dump_line ed (show (edit_clear_line ed) [13]) l r (history_list ed)) as [H1 H2].
  { by do 2 apply line_show. } { by rewrite rest_show, rest_clear. }
  set (ed2 := foldr _ _ _) in *. destruct (ok_saved _ Hr) as [s Hs].
  assert (Hc : currbuf ed2 = currbuf ed) by (unfold rest in H2; by injection H2).
  rewrite Hc. destruct (currbuf_valid ed2); ret_simpl.
  - rewrite (holds_line_str _ _ _ Hs). ret_simpl. apply (becomes_keeps _ _ l r); [done|].
    apply becomes_from; [by apply line_show|by rewrite rest_show].
  - apply (becomes_keeps _ _ l r); [done|]. by apply becomes_from.
Qed.

Section editor.
Context (os_zalloc : list Z → Z → Z)
  (Halloc : ∀ used n, os_zalloc used n ≠ 0 ∧ os_zalloc used n ∉ used).
Context (edit_completion_cb : option (str → Z → option (list str)))
  (Hcb : ∀ cb s p c, edit_completion_cb = Some cb → cb s p = Some c → Forall cstring c).
Context (sort_strings : list str → list str).
Local Abbreviation edit_key := (edit_key os_zalloc edit_completion_cb sort_strings).
Local Abbreviation edit_key_pressed := (edit_key_pressed os_zalloc edit_completion_cb sort_strings).
Local Abbreviation edit_read_char := (edit_read_char os_zalloc edit_completion_cb sort_strings).
Local Abbreviation edit_run := (edit_run os_zalloc edit_completion_cb sort_strings).

Lemma complete_runs ed list :
  edit_ok ed →
  runs (ed ← complete edit_completion_cb sort_strings ed list; Ret (set_tab ed true)) ed.
Proof.
  intros Hok. pose proof Hok as [(l & r & Hl) Hr].
  assert (Hk : keeps (complete edit_completion_cb sort_strings ed list) ed).
  { destruct edit_completion_cb as [cb|] eqn:Ecb; [|by apply keeps_same].
    destruct (complete_spec cb sort_strings (λ s p c, Hcb cb s p c eq_refl) ed l r list Hl)
      as (l' & Hb & _). by eapply becomes_keeps. }
  destruct Hk as (ed' & -> & H2 & H3 & _ & _ & H4). ret_simpl. exists (set_tab ed' true), [].
  rewrite app_nil_r. split_and!; [done|by apply ok_tab|done|constructor|done].
Qed.

Lemma process_cmd_runs ed : edit_ok ed → runs (process_cmd os_zalloc ed) ed.
Proof.
  intros Hok. pose proof Hok as [(l & r & Hl) Hr].
  destruct (process_cmd_spec os_zalloc Halloc ed l r Hok Hl) as (ed' & H1 & H2 & _ & _ & _ & _ & H3).
  eexists ed', _. split_and!; [done|done|done| |by eapply skips_same, process_cmd_skip].
  destruct (str_eqb (l ++ r) []) eqn:E; constructor;
    [|constructor]. apply bool_decide_eq_false in E. split; [|done].
  pose proof (line_fits _ _ _ Hl). split; [apply Hl|by rewrite strlen_app].
Qed.

Lemma eof_runs ed ed0 :
  edit_ok ed0 → calls ed0 = calls ed → skips_kept ed ed0 → runs (Ret (emit ed0 Edit_eof_cb)) ed.
Proof.
  intros Hok Hc Hn. exists (emit ed0 Edit_eof_cb), [Edit_eof_cb].
  split_and!; [done|by apply ok_emit|by rewrite calls_emit, Hc|by repeat constructor|done].
Qed.

Lemma edit_key_runs ed k : edit_ok ed → key_ok k → runs (edit_key ed k) ed.
Proof.
  intros Hok Hk. pose proof Hok as [(l & r & Hl) Hr].
  destruct (line_key k l r) as [[l' r']|] eqn:E.
  { eapply becomes_runs; [done|]. eapply edit_key_spec; [done| |done]. intros c ->. apply Hk. }
  destruct k; try done; cbn [Edit.edit_key]; try (by apply keeps_runs, keeps_same).
  - by apply complete_runs.
  - by apply keeps_runs, history_prev_ok.
  - by apply keeps_runs, history_next_ok.
  - by apply process_cmd_runs.
  - by apply keeps_runs, history_debug_dump_ok.
  - simpl in E. destruct (str_eqb (l ++ r) []) eqn:Es; [|done].
    apply bool_decide_eq_true, app_nil in Es as [-> ->].
    rewrite (line_len _ _ _ Hl). change (0 <? strlen [] + strlen []) with false. cbn [negb].
    apply eof_runs; [by apply ok_emit|by rewrite calls_show|by apply skips_same].
  - by apply process_cmd_runs.
  - by apply keeps_runs, history_next_ok.
  - by apply keeps_runs, history_prev_ok.
  - destruct (ok_pattern _ Hr) as [text Hp].
    apply (keeps_runs _ (set_search ed true)). by apply (search_start_ok _ text); [apply ok_search|].
  - apply eof_runs; [done|done|by apply skips_same].
Qed.

Lemma edit_key_pressed_runs ed k : edit_ok ed → key_ok k → runs (edit_key_pressed ed k) ed.
Proof.
  intros Hok Hk. unfold Edit.edit_key_pressed. destruct (_ && _); [|by apply edit_key_runs].
  apply (edit_key_runs (set_tab ed false)); [by apply ok_tab|done].
Qed.

(** A key in the search: the key that is left for the editor. *)
Lemma search_key_ok ed k :
  edit_ok ed → key_ok k → INT_MIN ≤ search_skip ed < INT_MAX →
  ∃ k' ed', search_key ed k = Ret (k', ed') ∧ edit_ok ed' ∧ calls ed' = calls ed ∧ key_ok k' ∧
    Z.min 0 (search_skip ed) ≤ search_skip ed' ≤ Z.max 0 (search_skip ed + 1).
Proof.
  intros Hok Hk Hskip. destruct (ok_pattern _ (ok_rest _ Hok)) as [text Hp].
  assert (Hret : ∀ m k', keeps m ed → key_ok k' →
    ∃ k2 ed', (ed ← m; Ret (k', ed)) = Ret (k2, ed') ∧ edit_ok ed' ∧ calls ed' = calls ed ∧ key_ok k2 ∧
      Z.min 0 (search_skip ed) ≤ search_skip ed' ≤ Z.max 0 (search_skip ed + 1)).
  { intros m k' (ed' & -> & H2 & H3 & _ & _ & H4) Hk'. exists k', ed'. unfold skips_kept in H4.
    split_and!; try done; lia. }
  destruct k; cbn [search_key];
    try (exists EDIT_KEY_NONE, ed; split_and!; try done; lia);
    try (apply Hret; [|done]; first [by apply (search_stop_ok _ text)|by apply (search_cancel_ok _ text)
      |by apply (search_backspace_ok _ text)]).
  2: { destruct (search_next_ok ed text Hok Hp Hskip) as (ed' & -> & H2 & H3 & _ & _ & H4). ret_simpl.
       unfold skips_kept in H4. cbn [search_skip set_pattern] in H4.
       exists EDIT_KEY_NONE, ed'. split_and!; try done; lia. }
  apply Hret; [|done]. destruct (printable c) eqn:E; [|by apply keeps_same].
  apply (search_char_ok _ text); [done|done|]. unfold printable in E. zbool. lia.
Qed.

(** A run of [n] bytes: the count of matches to skip grew by at most one with
    each. *)
Definition runs_for (n : nat) (m : outcome editor) (ed : editor) : Prop :=
  ∃ ed' new, m = Ret ed' ∧ edit_ok ed' ∧ calls ed' = calls ed ++ new ∧ Forall call_ok new ∧
    Z.min 0 (search_skip ed) ≤ search_skip ed' ≤ Z.max 0 (search_skip ed) + Z.of_nat n.

Lemma edit_read_char_runs ed res : edit_ok ed → input_byte res → INT_MIN ≤ search_skip ed < INT_MAX →
  runs_for 1 (edit_read_char ed res) ed.
Proof.
  intros Hok Hres Hskip. pose proof Hok as [(l & r & Hl) Hr]. unfold Edit.edit_read_char.
  destruct (edit_read_key_reads ed l r res Hl (ok_escape _ Hr) Hres)
    as (k & ed1 & n & b & -> & Hl1 & Hr1 & Hesc & Hk). ret_simpl.
  assert (Hok1 : edit_ok ed1).
  { split; [by exists l, r|]. apply (rest_ok_same _ _ Hr1). destruct Hr. by split. }
  assert (Hc1 : calls ed1 = calls ed ∧ search_skip ed1 = search_skip ed).
  { unfold rest in Hr1. by injection Hr1. }
  destruct Hc1 as [Hc1 Hs1]. rewrite <- Hs1 in Hskip. unfold runs_for. rewrite <- Hc1, <- Hs1.
  assert (Hend : ∀ ed0, edit_ok ed0 → calls ed0 = calls ed1 →
    Z.min 0 (search_skip ed1) ≤ search_skip ed0 ≤ Z.max 0 (search_skip ed1 + 1) → ∀ k, key_ok k →
    runs_for 1 (edit_key_pressed ed0 k) ed1).
  { intros ed0 H0 Hc0 Hs0 k0 Hk0. destruct (edit_key_pressed_runs ed0 k0 H0 Hk0)
      as (ed' & new & -> & H2 & H3 & H4 & H5). exists ed', new. unfold skips_kept in H5.
    rewrite H3, Hc0. split_and!; try done; lia. }
  destruct (search ed1); [|apply Hend; try done; lia].
  destruct (search_key_ok ed1 k Hok1 Hk Hskip) as (k2 & ed2 & -> & Hok2 & Hc2 & Hk2 & Hs2). ret_simpl.
  destruct (is_key_none k2).
  { exists ed2, []. rewrite app_nil_r. split_and!; try done; lia. }
  destruct (is_key_eof k2).
  { exists (set_search ed2 false), []. rewrite app_nil_r.
    split_and!; [done|by apply ok_search|done|done|cbn; lia|cbn; lia]. }
  by apply (Hend (set_search ed2 false)); [apply ok_search| | |].
Qed.

Lemma edit_run_runs ed input : edit_ok ed → Forall input_byte input →
  INT_MIN ≤ search_skip ed → Z.max 0 (search_skip ed) + Z.of_nat (length input) ≤ INT_MAX →
  runs_for (length input) (edit_run ed input) ed.
Proof.
  intros Hok Hin. revert ed Hok. induction Hin as [|res input Hres _ IH]; intros ed Hok Hlo Hhi.
  { exists ed, []. rewrite app_nil_r. split_and!; try done; lia. }
  cbn [Edit.edit_run length] in *.
  destruct (edit_read_char_runs ed res Hok Hres) as (ed1 & new1 & -> & H2 & H3 & H4 & H9); [lia|]. ret_simpl.
  destruct (IH ed1 H2) as (ed2 & new2 & H5 & H6 & H7 & H8 & H10); [unfold INT_MIN in *; lia|lia|].
  exists ed2, (new1 ++ new2). split_and!; [done|done|by rewrite H7, H3, app_assoc| |lia|lia].
  by apply Forall_app.
Qed.
End editor.

(** The count of the matches to skip is an [int] that Ctrl-R increments even
    while the pattern is empty, when nothing resets it. *)
Example search_skip_overflows :
  let ed := set_search (set_pattern editor_start (search_buf editor_start) INT_MAX) true in
  ∃ why, search_key ed EDIT_KEY_CTRL_R = UB why.
Proof. cbn zeta. eexists. by vm_compute. Qed.
