(* ===== verification/EditRun.v ===== *)
(** * The line editor: theorems

    Runs of the editor over any input, lines that are typed, the history and
    its file, completion. *)

From S2P Require Import Prelude CString Scan Smartlist Common Edit EditSpec EditHistory.
From S2P Require Import EditComplete EditInput.

(** ** The history file *)

Lemma fgets_line s rest n :
  Forall (λ c, in_line c = true) s → (length s < n)%nat →
  fgets (S n) (s ++ NL :: rest) = (s ++ [NL], rest).
Proof.
  revert n. induction s as [|c s IH]; intros n Hs Hn; (destruct n as [|n]; [simpl in Hn; lia|]).
  - done.
  - apply Forall_cons in Hs as [Hc Hs]. cbn [app fgets].
    unfold in_line in Hc. apply andb_true_iff in Hc as [_ Hc].
    rewrite (proj1 (negb_true_iff _) Hc). rewrite IH by (done || (simpl in Hn; lia)). done.
Qed.

Lemma fgets_full s rest :
  Forall (λ c, in_line c = true) s →
  fgets (S (length s)) (s ++ rest) = (s, rest).
Proof.
  induction s as [|c s IH]; intros Hs; [by destruct rest|].
  apply Forall_cons in Hs as [Hc Hs]. cbn [length app].
  unfold in_line in Hc. apply andb_true_iff in Hc as [_ Hc].
  change (fgets (S (S (length s))) (c :: s ++ rest))
    with (if c =? NL then ([c], s ++ rest)
          else let '(t, r) := fgets (S (length s)) (s ++ rest) in (c :: t, r)).
  by rewrite (proj1 (negb_true_iff _) Hc), IH.
Qed.

(** What [fgets] reads and what it leaves make up the file. *)
Lemma fgets_split n file :
  let '(s, rest) := fgets (S (S n)) file in
  file = s ++ rest ∧ (length s ≤ S n)%nat ∧ (file ≠ [] → s ≠ []).
Proof.
  revert n. induction file as [|c file IH]; intros n; [by split_and!; [|simpl; lia|]|].
  change (fgets (S (S n)) (c :: file))
    with (if c =? NL then ([c], file)
          else let '(t, r) := fgets (S n) file in (c :: t, r)).
  destruct (c =? NL); [split_and!; [done|simpl; lia|done]|].
  destruct n as [|n].
  - destruct file; (split_and!; [done|simpl; lia|done]).
  - specialize (IH n). destruct (fgets (S (S n)) file) as [s rest]. destruct IH as (-> & H & _).
    split_and!; [done|simpl; lia|done].
Qed.

(** Bytes that a line of the file may have. *)
Definition file_line (s : str) : Prop :=
  line_string s ∧ s ≠ [] ∧ Forall (λ c, in_line c = true) s.

Definition file_of (lines : list str) : list Z := lines ≫= (λ s, s ++ [NL]).

Section file.
Context (os_zalloc : list Z → Z → Z)
  (Halloc : ∀ used n, os_zalloc used n ≠ 0 ∧ os_zalloc used n ∉ used).
Local Abbreviation history_add := (history_add os_zalloc).
Local Abbreviation read_lines := (read_lines os_zalloc).

Lemma span_in_line s rest :
  Forall (λ c, in_line c = true) s → (∀ c, head rest = Some c → in_line c = false) →
  (span in_line (s ++ rest)).1 = s.
Proof. intros Hs Hr. by rewrite span_app. Qed.

Lemma read_lines_cons fuel ed c file :
  read_lines (S fuel) ed (c :: file) =
  let '(line, rest) := fgets (S 4095) (c :: file) in
  read_lines fuel (history_add ed (span in_line line).1) rest.
Proof. reflexivity. Qed.

Lemma read_line_step fuel ed s rest :
  file_line s →
  ∃ k, (fuel ≤ k)%nat ∧
    read_lines (S (S fuel)) ed (s ++ NL :: rest) = read_lines k (history_add ed s) rest.
Proof.
  intros ((Hc & Hlen) & Hne & Hs). unfold CMD_BUF_LEN, strlen in Hlen.
  destruct s as [|c s]; [done|]. cbn [app]. rewrite read_lines_cons.
  destruct (decide (length (c :: s) < 4095)%nat) as [Hl|Hl].
  - exists (S fuel). split; [lia|].
    change (c :: s ++ NL :: rest) with ((c :: s) ++ NL :: rest).
    rewrite fgets_line by done. by rewrite span_in_line by (done || by intros ? [= <-]).
  - assert (He : length (c :: s) = 4095%nat) by lia. exists fuel. split; [done|].
    change (c :: s ++ NL :: rest) with ((c :: s) ++ NL :: rest).
    rewrite <- He, fgets_full by done. rewrite <- (app_nil_r (c :: s)) at 1.
    rewrite span_in_line by done. rewrite read_lines_cons.
    change (fgets (S 4095) (NL :: rest)) with ([NL], rest). done.
Qed.

Lemma read_file lines fuel ed :
  Forall file_line lines → (length (file_of lines) < fuel)%nat →
  read_lines fuel ed (file_of lines) = Ret (foldl history_add ed lines).
Proof.
  intros Hl. revert fuel ed. induction Hl as [|s lines Hs Hl IH]; intros fuel ed Hf.
  { by destruct fuel; [simpl in Hf; lia|]. }
  assert (Hfile : file_of (s :: lines) = s ++ NL :: file_of lines).
  { unfold file_of. cbn. by rewrite <- app_assoc. }
  rewrite Hfile in Hf |- *. rewrite length_app in Hf. cbn [length] in Hf.
  destruct Hs as (Hs & Hne & Hin). assert (1 ≤ length s)%nat by (destruct s; [done|simpl; lia]).
  destruct fuel as [|[|fuel]]; [lia|lia|].
  destruct (read_line_step fuel ed s (file_of lines)) as (k & Hk & ->); [done|].
  apply IH. lia.
Qed.

Lemma add_all_spec lines ed :
  history_ok (history_list ed) → Forall line_string lines →
  (history_curr ed = 0 ∨ history_curr ed ∈ fst <$> history_list ed) →
  ∃ l h, foldl history_add ed lines = set_history ed l h ∧ history_ok l ∧
    (h = 0 ∨ h ∈ fst <$> l) ∧ snd <$> l = foldl (λ hs s, remember s hs) (texts ed) lines.
Proof.
  intros Hok Hl. revert ed Hok. induction Hl as [|s lines Hs Hl IH]; intros ed Hok Hc.
  { exists (history_list ed), (history_curr ed). split_and!; try done. by destruct ed. }
  cbn [foldl]. destruct (history_add_spec os_zalloc Halloc ed s Hok Hs) as (l & h & -> & H1 & H2 & H3).
  assert (Hc' : h = 0 ∨ h ∈ fst <$> l).
  { destruct (str_eqb s []); [by destruct H3 as [-> ->]|].
    destruct H3 as [l' ->]. right. by left. }
  destruct (IH (set_history ed l h) H1 Hc') as (l2 & h2 & -> & H4 & H5 & H6).
  exists l2, h2. split_and!; [done|done|done|]. rewrite H6. f_equal. exact H2.
Qed.

Lemma remember_new s hs :
  s ≠ [] → s ∉ hs → (length hs < HISTORY_MAX)%nat → remember s hs = s :: hs.
Proof.
  intros Hne Hs Hl. unfold remember.
  assert (str_eqb s [] = false) as -> by by apply bool_decide_eq_false.
  rewrite filter_absent by done. apply take_ge. simpl. lia.
Qed.

Lemma remember_all hs :
  NoDup hs → Forall (λ s, s ≠ []) hs → (length hs ≤ HISTORY_MAX)%nat →
  foldl (λ hs s, remember s hs) [] (rev hs) = hs.
Proof.
  induction 1 as [|s hs Hs Hn IH]; intros Hne Hl; [done|].
  apply Forall_cons in Hne as [Hs0 Hne]. simpl in Hl. cbn [rev]. rewrite foldl_app. cbn [foldl].
  rewrite IH by (done || lia). by apply remember_new; [..|lia].
Qed.

(** Any file of bytes can be read. *)
Lemma cut_line s :
  Forall (λ c, 0 ≤ c < 256) s → (length s ≤ 4095)%nat → line_string (span in_line s).1.
Proof.
  intros Hs Hlen. destruct (span_spec in_line s) as (E & Hin & _). split.
  - rewrite E in Hs. apply Forall_app in Hs as [Hs _].
    apply Forall_forall. intros c Hc. rewrite Forall_forall in Hs, Hin.
    specialize (Hs c Hc). specialize (Hin c Hc). unfold in_line in Hin. zbool. lia.
  - apply (f_equal length) in E. rewrite length_app in E. unfold strlen, CMD_BUF_LEN. lia.
Qed.

Lemma read_lines_ok fuel ed file :
  history_ok (history_list ed) →
  (history_curr ed = 0 ∨ history_curr ed ∈ fst <$> history_list ed) →
  Forall (λ c, 0 ≤ c < 256) file → (length file < fuel)%nat →
  ∃ l h, read_lines fuel ed file = Ret (set_history ed l h) ∧ history_ok l ∧
    (h = 0 ∨ h ∈ fst <$> l).
Proof.
  revert ed file. induction fuel as [|fuel IH]; intros ed file Hok Hc Hf Hlen; [lia|].
  destruct file as [|c file].
  { exists (history_list ed), (history_curr ed). split_and!; try done. by destruct ed. }
  rewrite read_lines_cons. pose proof (fgets_split 4094 (c :: file)) as Hs.
  change (S 4095) with (S (S 4094)). destruct (fgets (S (S 4094)) (c :: file)) as [line rest].
  destruct Hs as (E & Hl & Hne). specialize (Hne ltac:(done)).
  rewrite E in Hf, Hlen. apply Forall_app in Hf as [Hf1 Hf2]. rewrite length_app in Hlen.
  destruct (history_add_spec os_zalloc Halloc ed (span in_line line).1 Hok)
    as (l & h & -> & H1 & _ & H3); [by apply cut_line|].
  destruct (IH (set_history ed l h) rest) as (l2 & h2 & -> & H4 & H5); [done| |done| |].
  - destruct (str_eqb _ []); [by destruct H3 as [-> ->]|]. destruct H3 as [l' ->]. right. by left.
  - destruct line; [done|]. simpl in Hlen. lia.
  - by exists l2, h2.
Qed.

(** The editor after [edit_init]. *)
Record ready (ed : editor) : Prop := Ready {
  ready_ok : edit_ok ed;
  ready_line : line_is ed [] [];
  ready_key : esc ed = -1;
  ready_search : search ed = false
}.

Lemma edit_init_ready file ps :
  (∀ bytes, file = Some (Some bytes) → Forall (λ c, 0 ≤ c < 256) bytes) →
  ∃ ed, edit_init os_zalloc editor_start file ps = Ret ed ∧ ready ed ∧
    calls ed = [Raw_mode; Watch_stdin] ∧ search_skip ed = 0.
Proof.
  intros Hf. unfold edit_init. destruct editor_start_ok as [[_ Hr] Hl].
  assert (Hs : ∃ b, buf_set (currbuf editor_start) 0 0 = Ret b ∧ holds_line b CMD_BUF_LEN []).
  { eexists. split; [reflexivity|]. apply (holds_line_zeros 4096). lia. }
  destruct Hs as (b & -> & Hb). ret_simpl.
  set (ed0 := set_history _ [] 0).
  assert (H0 : ∃ l h, match file with Some f => history_read os_zalloc ed0 f | None => Ret ed0 end
                 = Ret (set_history ed0 l h) ∧ history_ok l ∧ (h = 0 ∨ h ∈ fst <$> l)).
  { pose proof (ok_history _ Hr) as Hh. destruct file as [[bytes|]|].
    - apply read_lines_ok; [done|by left|by apply Hf|lia].
    - exists [], 0. split_and!; [done|done|by left].
    - exists [], 0. split_and!; [done|done|by left]. }
  destruct H0 as (l & h & -> & H1 & H2). ret_simpl. eexists. split; [done|].
  split; [|done].
  assert (Hl2 : line_is (show (set_ps2 (emit (emit (set_history ed0 l h) Raw_mode) Watch_stdin) ps)
                  (prompt (set_ps2 (emit (emit (set_history ed0 l h) Raw_mode) Watch_stdin) ps))) [] []).
  { by destruct Hl. }
  split; [|done|done|done]. split; [by exists [], []|]. destruct Hr. split; try done. by exists [].
Qed.
End file.

(** The history written at the end of a session is the history of the next
    one: writing the entries and reading the file into an editor that starts
    gives the same list, for entries without line ends. *)
Theorem history_file_roundtrip os_zalloc ed :
  (∀ used n, os_zalloc used n ≠ 0 ∧ os_zalloc used n ∉ used) →
  history_ok (history_list ed) → Forall (Forall (λ c, in_line c = true)) (texts ed) →
  ∃ ed', history_read os_zalloc editor_start (Some (history_write ed None)) = Ret ed' ∧
    texts ed' = texts ed ∧ edit_ok ed'.
Proof.
  intros Ha Hok Hin. unfold history_read, history_write. fold (texts ed).
  pose proof Hok as [_ _ Hn Hf Hlen]. fold (texts ed) in Hn, Hf.
  assert (Hlines : Forall file_line (rev (texts ed))).
  { apply Forall_rev, Forall_forall. intros s Hs. rewrite Forall_forall in Hf, Hin.
    destruct (Hf s Hs). split_and!; [done|done|by apply Hin]. }
  change (rev (texts ed) ≫= (λ s, s ++ [NL])) with (file_of (rev (texts ed))).
  rewrite read_file by (done || lia).
  destruct (add_all_spec os_zalloc Ha (rev (texts ed)) editor_start) as (l & h & -> & H1 & H2 & H3).
  - apply (ok_history _ (ok_rest _ (proj1 editor_start_ok))).
  - apply Forall_rev. eapply Forall_impl; [exact Hf|]. by intros s [? _].
  - by left.
  - eexists. split; [done|]. split.
    + unfold texts at 1. cbn [history_list set_history]. rewrite H3. apply remember_all; [done| |].
      * eapply Forall_impl; [exact Hf|]. by intros s [_ ?].
      * unfold texts. by rewrite length_fmap.
    + destruct editor_start_ok as [[(l0 & r0 & Hl) []] _]. split; [|by split].
      exists l0, r0. by destruct Hl.
Qed.

(** ** Runs *)

(** C37: From the start of the editor, with any history file, when no allocation
    of a history entry fails (a failed one leaves a freed entry in use:
    [freed_entry_used]), whatever bytes are typed or sent by the terminal, up to
    2^31 - 1 of them (the count that Ctrl-R increments is an [int]:
    [search_skip_overflows]), and however the input ends, every key is
    handled without undefined behaviour: no access outside the line, the saved
    line, the escape and search buffers or to a history entry that is freed,
    and the application is called only with commands that are not empty and
    fit the line. The callback for completions gives strings. *)
Theorem edit_run_safe os_zalloc edit_completion_cb sort_strings file ps input :
  (∀ used n, os_zalloc used n ≠ 0 ∧ os_zalloc used n ∉ used) →
  (∀ cb s p c, edit_completion_cb = Some cb → cb s p = Some c → Forall cstring c) →
  (∀ bytes, file = Some (Some bytes) → Forall (λ c, 0 ≤ c < 256) bytes) →
  Forall input_byte input → Z.of_nat (length input) ≤ INT_MAX →
  ∃ ed0 ed new, edit_init os_zalloc editor_start file ps = Ret ed0 ∧
    edit_run os_zalloc edit_completion_cb sort_strings ed0 input = Ret ed ∧ edit_ok ed ∧
    calls ed = [Raw_mode; Watch_stdin] ++ new ∧ Forall call_ok new.
Proof.
  intros Ha Hcb Hf Hin Hlen.
  destruct (edit_init_ready os_zalloc Ha file ps Hf) as (ed0 & H1 & [H2 _ _ _] & H3 & H0).
  destruct (edit_run_runs os_zalloc Ha edit_completion_cb Hcb sort_strings ed0 input H2 Hin)
    as (ed & new & H4 & H5 & H6 & H7 & _); [by rewrite H0|rewrite H0; lia|].
  exists ed0, ed, new. by rewrite H6, H3.
Qed.

(** C38: The editing keys do to the line what they say of a cursor between two
    texts: the moves by characters and words, the deletions and the insertion,
    which a full line refuses; nothing else of the editor changes. *)
Theorem edit_key_line os_zalloc edit_completion_cb sort_strings ed l r k l' r' :
  line_is ed l r → (∀ c, k = EDIT_KEY_CHAR c → c < 256) → line_key k l r = Some (l', r') →
  ∃ ed', edit_key os_zalloc edit_completion_cb sort_strings ed k = Ret ed' ∧ line_is ed' l' r' ∧
    rest ed' = rest ed.
Proof. apply edit_key_spec. Qed.

(** Completion: without completions for the word at the cursor the line
    stays, with one it becomes the word, and a space if there is room, and
    with several the word grows by what they have in common. *)
Theorem complete_extends cb sort_strings ed l r list :
  (∀ s p c, cb s p = Some c → Forall cstring c) → line_is ed l r →
  ∃ l', becomes (complete (Some cb) sort_strings ed list) ed l' r ∧
    l' = match cb (l ++ r) (strlen l) with None => l | Some c => complete_line c l r end.
Proof. intros. by apply complete_spec. Qed.

(** *** Typing *)

(** The characters that stand for themselves. *)
Definition typed (c : Z) : Prop := 32 ≤ c < 256 ∧ c ≠ 127.

Section typing.
Context (os_zalloc : list Z → Z → Z)
  (Halloc : ∀ used n, os_zalloc used n ≠ 0 ∧ os_zalloc used n ∉ used).
Context (edit_completion_cb : option (str → Z → option (list str))).
Context (sort_strings : list str → list str).
Local Abbreviation edit_read_char := (edit_read_char os_zalloc edit_completion_cb sort_strings).
Local Abbreviation edit_run := (edit_run os_zalloc edit_completion_cb sort_strings).

Lemma edit_run_app ed a b : edit_run ed (a ++ b) = (ed ← edit_run ed a; edit_run ed b).
Proof.
  revert ed. induction a as [|x a IH]; intros ed; [done|]. cbn [app Edit.edit_run].
  destruct (edit_read_char ed x); [|done|done]. ret_simpl. apply IH.
Qed.

Lemma plain_key_typed c : typed c → plain_key c = EDIT_KEY_CHAR c.
Proof.
  intros [H1 H2].
  cut (negb ((32 <=? c) && negb (c =? 127)) ||
       match plain_key c with EDIT_KEY_CHAR x => x =? c | _ => false end = true).
  { intros [H|H]%orb_true_iff; [zbool; lia|]. destruct (plain_key c); try done. zbool. by subst. }
  revert c H1 H2. intros c H1 _.
  apply (forall_byte_reflect (λ c, negb ((32 <=? c) && negb (c =? 127)) ||
    match plain_key c with EDIT_KEY_CHAR x => x =? c | _ => false end)); [reflexivity|lia].
Qed.

(** A byte outside of escape sequences and of the search. *)
Lemma read_char_plain ed c :
  esc ed = -1 → search ed = false → c ≠ ESC →
  edit_read_char ed (Some c) =
  edit_key_pressed os_zalloc edit_completion_cb sort_strings ed (plain_key c).
Proof.
  intros He Hs Hc. unfold Edit.edit_read_char, edit_read_key, read_escape, read_plain. rewrite He.
  cbn [Z.leb Z.compare Z.eqb Z.ltb]. rewrite (proj2 (Z.eqb_neq _ _)) by done. ret_simpl. by rewrite Hs.
Qed.

Lemma type_char ed l r c :
  line_is ed l r → esc ed = -1 → search ed = false → typed c →
  strlen l + strlen r < CMD_BUF_LEN - 1 →
  becomes (edit_read_char ed (Some c)) (set_tab ed false) (l ++ [c]) r.
Proof.
  intros Hl He Hs Hc Hroom. pose proof Hc as [Hc1 _].
  rewrite read_char_plain by (done || unfold ESC; lia). rewrite plain_key_typed by done.
  unfold edit_key_pressed. cbn [is_key_tab is_key_none negb andb].
  eapply edit_key_spec; [by destruct Hl|intros ? [= <-]; lia|].
  cbn [line_key]. rewrite (proj2 (Z.ltb_lt _ _)) by done.
  replace (printable c) with true by (unfold printable; symmetry; apply andb_true_iff; split; apply Z.leb_le; lia).
  done.
Qed.

Lemma type_text ed l s :
  line_is ed l [] → esc ed = -1 → search ed = false → Forall typed s →
  strlen l + strlen s ≤ CMD_BUF_LEN - 1 →
  ∃ ed', edit_run ed (Some <$> s) = Ret ed' ∧ line_is ed' (l ++ s) [] ∧
    rest (set_tab ed' false) = rest (set_tab ed false).
Proof.
  intros Hl He Hs Ht. revert ed l Hl He Hs. induction Ht as [|c s Hc Ht IH]; intros ed l Hl He Hs Hroom.
  { exists ed. by rewrite app_nil_r. }
  rewrite strlen_cons in Hroom. pose proof (strlen_nonneg s). cbn [fmap list_fmap Edit.edit_run].
  destruct (type_char ed l [] c Hl He Hs Hc) as (ed1 & -> & Hl1 & Hr1); [change (strlen []) with 0; lia|].
  ret_simpl. pose proof Hr1 as Hr1'. unfold rest in Hr1'.
  injection Hr1' as F1 F2 F3 F4 F5 F6 F7 F8 F9 F10 F11 F12. cbn in F6, F11.
  destruct (IH ed1 (l ++ [c])) as (ed2 & H1 & H2 & H3); [done|congruence|congruence|rewrite strlen_snoc; lia|].
  exists ed2. split_and!; [done|by rewrite <- app_assoc in H2|]. rewrite H3.
  rewrite <- Hr1. unfold rest. cbn in F10. change (calls (set_tab ed1 false)) with (calls ed1).
  cbn. by rewrite F10.
Qed.

Lemma ready_same ed ed' l :
  ready ed → line_is ed' l [] → rest (set_tab ed' false) = rest (set_tab ed false) →
  edit_ok ed' ∧ esc ed' = -1 ∧ search ed' = false ∧ texts ed' = texts ed ∧ calls ed' = calls ed.
Proof.
  intros [[_ Hr] _ He Hs] Hl E. pose proof E as E'. unfold rest in E'.
  injection E' as F1 F2 F3 F4 F5 F6 F7 F8 F9 F11 F12. cbn in F6, F11.
  split_and!; [|congruence|congruence|unfold texts; by rewrite <- F4|done].
  split; [by exists l, []|]. assert (Hr' : rest_ok (set_tab ed' false)).
  { apply (rest_ok_same (set_tab ed false)); [done|]. by destruct Hr. }
  by destruct Hr'.
Qed.

(** A line and Enter. *)
Lemma type_line ed s :
  ready ed → Forall typed s → s ≠ [] → strlen s ≤ CMD_BUF_LEN - 1 →
  ∃ ed', edit_run ed ((Some <$> s) ++ [Some 13]) = Ret ed' ∧ ready ed' ∧
    texts ed' = remember s (texts ed) ∧ calls ed' = calls ed ++ [Edit_cmd_cb s].
Proof.
  intros Hready Ht Hne Hlen. pose proof Hready as [Hok Hl He Hs]. rewrite edit_run_app.
  destruct (type_text ed [] s Hl He Hs Ht) as (ed1 & -> & Hl1 & Hr1); [done|]. ret_simpl.
  destruct (ready_same ed ed1 s Hready Hl1 Hr1) as (Hok1 & He1 & Hs1 & Ht1 & Hc1).
  cbn [Edit.edit_run]. rewrite read_char_plain by done. cbn [plain_key].
  unfold edit_key_pressed. cbn [is_key_tab is_key_none negb andb edit_key].
  destruct (process_cmd_spec os_zalloc Halloc (set_tab ed1 false) s [])
    as (ed2 & -> & H2 & H3 & H4 & H5 & H6 & H7); [by apply ok_tab|by destruct Hl1|].
  rewrite app_nil_r in H4, H7.
  assert (str_eqb s [] = false) as E by by apply bool_decide_eq_false. rewrite E in H7. ret_simpl.
  exists ed2. split_and!; [done|by split; rewrite ?H5, ?H6|by rewrite H4, <- Ht1|by rewrite H7, <- Hc1].
Qed.
End typing.

(** C39: What is typed reaches the application: in an editor that is ready for a
    line, while memory lasts, for lines of printable
    characters that fit the buffer, each ended with Enter, the application
    gets exactly these commands in their order, and they are the history, the
    last one first and without repetitions. *)
Theorem typed_lines_delivered os_zalloc edit_completion_cb sort_strings ed lines :
  (∀ used n, os_zalloc used n ≠ 0 ∧ os_zalloc used n ∉ used) →
  ready ed → Forall (λ s, Forall typed s ∧ s ≠ [] ∧ strlen s ≤ CMD_BUF_LEN - 1) lines →
  ∃ ed', edit_run os_zalloc edit_completion_cb sort_strings ed
           (lines ≫= λ s, (Some <$> s) ++ [Some 13]) = Ret ed' ∧ ready ed' ∧
    calls ed' = calls ed ++ (Edit_cmd_cb <$> lines) ∧
    texts ed' = foldl (λ hs s, remember s hs) (texts ed) lines.
Proof.
  intros Ha Hr Hl. revert ed Hr. induction Hl as [|s lines (Ht & Hne & Hlen) _ IH]; intros ed Hr.
  { exists ed. by rewrite app_nil_r. }
  cbn [mbind list_bind fmap list_fmap foldl]. rewrite edit_run_app.
  destruct (type_line os_zalloc Ha edit_completion_cb sort_strings ed s Hr Ht Hne Hlen)
    as (ed1 & -> & H1 & H2 & H3). ret_simpl.
  destruct (IH ed1 H1) as (ed2 & H4 & H5 & H6 & H7).
  exists ed2. split_and!; [done|done|by rewrite H6, H3, <- app_assoc|by rewrite H7, H2].
Qed.

(** *** Browsing *)

(** Looking at entry [i] while the line [s0] is kept. *)
Record looks_at (hl : list (Z * str)) (s0 : str) (i : nat) (ed : editor) : Prop := LooksAt {
  looks_ok : edit_ok ed;
  looks_list : history_list ed = hl;
  looks_entry : ∃ s, at_entry ed i s ∧ line_is ed s [];
  looks_saved : holds_line (currbuf ed) CMD_BUF_LEN s0;
  looks_valid : currbuf_valid ed = true
}.

Lemma last_entry_at ed i s :
  history_ok (history_list ed) → at_entry ed i s → (S i < length (history_list ed))%nat →
  history_curr ed ≠ last_entry ed.
Proof.
  intros [Hn _ _ _ _] Hi Hlt E. unfold at_entry in Hi. unfold last_entry in E.
  rewrite last_lookup in E.
  destruct (lookup_lt_is_Some_2 (history_list ed) (Nat.pred (length (history_list ed)))) as [[p t] Hp]; [lia|].
  rewrite Hp in E. cbn in E.
  enough (i = Nat.pred (length (history_list ed))) by lia.
  apply (NoDup_lookup (fst <$> history_list ed) i _ p); [done| |]; rewrite list_lookup_fmap.
  - by rewrite Hi, E.
  - by rewrite Hp.
Qed.

Lemma look_further hl s0 i j d ed :
  looks_at hl s0 i ed → Z.of_nat i + d = Z.of_nat j → (j < length hl)%nat →
  ∃ ed', neighbour ed d = Ret ed' ∧ looks_at hl s0 j ed'.
Proof.
  intros [Hok Hl (s & Hi & _) Hs Hv] Hd Hj. rewrite <- Hl in Hj.
  apply lookup_lt_is_Some_2 in Hj as [[p t] Hj].
  destruct (neighbour_spec ed i s j p t d Hok Hi Hj Hd) as (ed' & H1 & H2 & H3 & H4 & Hr).
  unfold rest in Hr. injection Hr as E1 E2 E3 E4. exists ed'. split; [done|].
  split; [done|by rewrite E4|by exists t|by rewrite E1|by rewrite E2].
Qed.

Lemma look_back hl s0 i ed :
  looks_at hl s0 i ed → (S i < length hl)%nat →
  ∃ ed', history_prev ed = Ret ed' ∧ looks_at hl s0 (S i) ed'.
Proof.
  intros H Hi. pose proof H as [Hok Hl (s & Ha & _) Hs Hv]. pose proof (ok_history _ (ok_rest _ Hok)) as Hh.
  unfold history_prev. rewrite (proj2 (Z.eqb_neq _ 0)) by (by eapply at_entry_live).
  rewrite Hv, andb_false_r.
  rewrite (proj2 (Z.eqb_neq _ _)) by (eapply last_entry_at; [done|done|by rewrite Hl]).
  apply (look_further _ _ i); [done|lia|done].
Qed.

Lemma look_forward hl s0 i ed :
  looks_at hl s0 (S i) ed → ∃ ed', history_next ed = Ret ed' ∧ looks_at hl s0 i ed'.
Proof.
  intros H. pose proof H as [Hok Hl (s & Ha & _) Hs Hv]. pose proof (ok_history _ (ok_rest _ Hok)) as Hh.
  unfold history_next. rewrite (proj2 (Z.eqb_neq _ 0)) by (by eapply at_entry_live).
  rewrite (first_entry_at ed (S i) s), bool_decide_eq_false_2 by done. cbn [orb].
  apply (look_further _ _ (S i)); [done|lia|].
  unfold at_entry in Ha. rewrite Hl in Ha. apply lookup_lt_Some in Ha. lia.
Qed.

(** A key pressed [n] times. *)
Fixpoint times (n : nat) (key : editor → outcome editor) (ed : editor) : outcome editor :=
  match n with O => Ret ed | S n' => ed ← key ed; times n' key ed end.

Lemma times_back hl s0 n i ed :
  looks_at hl s0 i ed → (n + i < length hl)%nat →
  ∃ ed', times n history_prev ed = Ret ed' ∧ looks_at hl s0 (n + i) ed'.
Proof.
  revert i ed. induction n as [|n IH]; intros i ed H Hn; [by exists ed|]. cbn [times].
  destruct (look_back hl s0 i ed H) as (ed1 & -> & H1); [lia|]. ret_simpl.
  destruct (IH (S i) ed1 H1) as (ed2 & H2 & H3); [lia|]. exists ed2. split; [done|].
  by rewrite Nat.add_succ_comm.
Qed.

Lemma times_forward hl s0 n ed :
  looks_at hl s0 n ed →
  ∃ ed', times (S n) history_next ed = Ret ed' ∧ line_is ed' s0 [] ∧ history_list ed' = hl ∧ edit_ok ed'.
Proof.
  revert ed. induction n as [|n IH]; intros ed H.
  - destruct H as [Hok Hl (s & Ha & _) Hs Hv].
    destruct (leave_history ed (currbuf ed) s0 Hok Hs Hv) as (ed' & H1 & H2 & H3); [by eauto|done|].
    cbn [times]. rewrite H1. ret_simpl. exists ed'. split_and!; [done|done| |].
    + unfold rest in H3. injection H3 as _ _ _ E4. by rewrite E4.
    + destruct Hok as [_ Hr]. split; [by exists s0, []|]. apply (rest_ok_same _ _ H3).
      by apply (set_saved_ok _ _ _ s0).
  - destruct (look_forward hl s0 n ed H) as (ed1 & E1 & H1). cbn [times]. rewrite E1. ret_simpl.
    by apply IH.
Qed.

(** The history keys: [n] steps back from a line being edited show the
    [n]-th last command, and as many steps forward bring the line back as it
    was, for any [n] up to the length of the history. *)
Theorem history_walk ed l r n :
  edit_ok ed → line_is ed l r → currbuf_valid ed = false →
  (∃ s, at_entry ed 0 s) → (n < length (texts ed))%nat →
  ∃ ed1 ed2 s, times (S n) history_prev ed = Ret ed1 ∧ texts ed !! n = Some s ∧ line_is ed1 s [] ∧
    times (S n) history_next ed1 = Ret ed2 ∧ line_is ed2 (l ++ r) [] ∧ texts ed2 = texts ed ∧
    edit_ok ed2.
Proof.
  intros Hok Hl Hv [t Ht] Hn. unfold texts in Hn. rewrite length_fmap in Hn.
  destruct (enter_history ed l r t Hok Hl Ht Hv) as (ed0 & c & H1 & H2 & H3 & H4 & H5 & Hr).
  unfold rest in Hr. injection Hr as E1 E2 _ E4 _ _ _ _ _ _ _ _. cbn in E1, E2, E4.
  assert (Hlook : looks_at (history_list ed) (l ++ r) 0 ed0).
  { split; [done|done|by exists t|by rewrite E1|done]. }
  destruct (times_back _ _ n 0 ed0 Hlook) as (ed1 & H6 & H7); [lia|]. rewrite Nat.add_0_r in H7.
  destruct (times_forward _ _ n ed1 H7) as (ed2 & H8 & H9 & H10 & H11).
  destruct H7 as [_ El (s & Ha & Hs) _ _]. exists ed1, ed2, s.
  split_and!; [cbn [times]; by rewrite H1| |done|done|done|by unfold texts; rewrite H10|done].
  unfold texts. rewrite list_lookup_fmap, <- El, Ha. done.
Qed.

(** ** What the code does not handle *)

(** While the history is searched the end of the input is ignored: nobody
    is told, and a handler that is called as long as its descriptor can be
    read is called again and again. *)
Theorem search_ignores_end os_zalloc edit_completion_cb sort_strings ed n :
  search ed = true →
  edit_run os_zalloc edit_completion_cb sort_strings ed (replicate n None) = Ret ed.
Proof.
  intros Hs. induction n as [|n IH]; [done|]. cbn [replicate edit_run].
  unfold edit_read_char. cbn [edit_read_key]. ret_simpl. by rewrite Hs.
Qed.

(** When the history is full, a new command takes the place of the oldest
    entry even if there is no memory for it; if the user was looking at that
    entry, the next step back reads an entry that is freed. *)
Theorem freed_entry_used os_zalloc ed s t :
  (∀ used n, os_zalloc used n = 0) → history_ok (history_list ed) →
  length (history_list ed) = HISTORY_MAX → at_entry ed (HISTORY_MAX - 1) t →
  s ≠ [] → s ∉ texts ed →
  history_prev (history_add os_zalloc ed s) = UB "freed history entry".
Proof.
  intros Ha Hok Hlen Hi Hne Hs. unfold history_add.
  assert (str_eqb s [] = false) as -> by by apply bool_decide_eq_false.
  assert (find_entry (history_list ed) s = None) as ->.
  { apply list_find_None, Forall_forall. intros e He E. apply Hs.
    apply list_elem_of_fmap. by exists e. }
  rewrite Ha, Hlen. cbn [Nat.leb HISTORY_MAX Z.eqb].
  pose proof (at_entry_live ed _ _ Hok Hi) as Hlive. unfold at_entry, HISTORY_MAX in *.
  change (100 - 1)%nat with 99%nat in *. set (ed1 := set_history ed _ _).
  assert (Hgone : history_curr ed ∉ fst <$> take 99 (history_list ed)).
  { intros [i Hin]%list_elem_of_lookup. rewrite list_lookup_fmap in Hin.
    destruct (take 99 (history_list ed) !! i) as [[p u]|] eqn:E; [|done].
    injection Hin as Hp. apply lookup_take_Some in E as [E Hlt].
    assert (i = 99%nat); [|lia]. destruct Hok as [Hn _ _ _ _].
    apply (NoDup_lookup (fst <$> history_list ed) i 99 (history_curr ed)); [done| |];
      rewrite list_lookup_fmap; [by rewrite E; cbn; f_equal|by rewrite Hi]. }
  assert (Hmem : ∀ o : option (Z * str), o = head (history_list ed1) ∨ o = last (history_list ed1) →
    history_curr ed ≠ default 0 (fst <$> o)).
  { intros o Ho E. apply Hgone. rewrite E in *. destruct o as [[p u]|]; [|done]. cbn.
    apply list_elem_of_fmap. exists (p, u). split; [done|]. destruct Ho as [Ho|Ho]; symmetry in Ho.
    - apply head_Some_elem_of in Ho. exact Ho.
    - apply last_Some_elem_of in Ho. exact Ho. }
  unfold history_prev. change (history_curr ed1) with (history_curr ed).
  rewrite !(proj2 (Z.eqb_neq _ _)) by (try done; apply Hmem; auto). cbn [andb].
  unfold neighbour, entry_at. change (history_curr ed1) with (history_curr ed).
  assert (list_find (λ e : Z * str, fst e = history_curr ed) (history_list ed1) = None) as ->; [|done].
  apply list_find_None, Forall_forall. intros e He E. apply Hgone. rewrite <- E.
  by apply list_elem_of_fmap_2.
Qed.

(** ** Concrete runs *)

(** An allocator of an address above those in use. *)
Definition next_address (used : list Z) (n : Z) : Z := 1 + foldr Z.max 0 used.

Lemma next_address_fresh used n : next_address used n ≠ 0 ∧ next_address used n ∉ used.
Proof.
  assert (H : 0 ≤ foldr Z.max 0 used ∧ ∀ x, x ∈ used → x ≤ foldr Z.max 0 used).
  { induction used as [|y used [IH1 IH2]]; cbn [foldr]; [by split; [|intros x ?%elem_of_nil]|].
    split; [lia|]. intros x [->|Hx]%elem_of_cons; [lia|]. specialize (IH2 x Hx). lia. }
  destruct H as [H1 H2]. unfold next_address. split; [lia|]. intros Hin. specialize (H2 _ Hin). lia.
Qed.

(** An editor whose history has the given lines. *)
Definition editor_with (lines : list str) : editor :=
  set_history editor_start (imap (λ i s, (Z.of_nat i + 1, s)) lines) 1.

Definition two_lines : list str := [lit "status"; lit "scan"].

Lemma two_lines_ok : edit_ok (editor_with two_lines) ∧ line_is (editor_with two_lines) [] [].
Proof.
  destruct editor_start_ok as [[_ []] Hl].
  assert (Hl2 : line_is (editor_with two_lines) [] []) by by destruct Hl.
  split; [|done]. split; [by exists [], []|]. split; try done.
  - split; [| | | |unfold HISTORY_MAX; simpl; lia]; by apply (bool_decide_unpack _).
  - right. by left.
Qed.

Lemma start_ready : ready editor_start.
Proof. split; try done; apply editor_start_ok. Qed.

Lemma history_file_roundtrip_witness :
  ∃ ed', history_read next_address editor_start
           (Some (history_write (editor_with two_lines) None)) = Ret ed' ∧
    texts ed' = two_lines ∧ edit_ok ed'.
Proof.
  apply (history_file_roundtrip next_address (editor_with two_lines)).
  - apply next_address_fresh.
  - apply (ok_history _ (ok_rest _ (proj1 two_lines_ok))).
  - by apply (bool_decide_unpack _).
Defined.

Lemma edit_run_safe_witness :
  ∃ ed0 ed new, edit_init next_address editor_start (Some (Some (lit "scan" ++ [NL]))) None = Ret ed0 ∧
    edit_run next_address None (λ l, l) ed0 [Some ESC; Some 91; Some 65; Some 13; None] = Ret ed ∧
    edit_ok ed ∧ calls ed = [Raw_mode; Watch_stdin] ++ new ∧ Forall call_ok new.
Proof.
  apply edit_run_safe.
  - apply next_address_fresh.
  - done.
  - intros ? [= <-]. by apply (bool_decide_unpack _).
  - repeat constructor; done.
  - by vm_compute.
Defined.

Lemma edit_key_line_witness :
  ∃ ed', edit_key next_address None (λ l, l) editor_start (EDIT_KEY_CHAR 97) = Ret ed' ∧
    line_is ed' [97] [] ∧ rest ed' = rest editor_start.
Proof.
  apply (edit_key_line next_address None (λ l, l) editor_start [] [] (EDIT_KEY_CHAR 97)).
  - apply editor_start_ok.
  - by intros c [= <-].
  - reflexivity.
Defined.

Lemma complete_extends_witness :
  ∃ l', becomes (complete (Some (λ _ _, Some [lit "help"])) (λ l, l) editor_start true)
          editor_start l' [] ∧ l' = lit "help ".
Proof.
  apply (complete_extends (λ _ _, Some [lit "help"]) (λ l, l) editor_start [] [] true).
  - intros s p c [= <-]. by apply (bool_decide_unpack _).
  - apply editor_start_ok.
Defined.

Lemma typed_lines_delivered_witness :
  ∃ ed', edit_run next_address None (λ l, l) editor_start
           (two_lines ≫= λ s, (Some <$> s) ++ [Some 13]) = Ret ed' ∧ ready ed' ∧
    calls ed' = Edit_cmd_cb <$> two_lines ∧ texts ed' = [lit "scan"; lit "status"].
Proof.
  apply (typed_lines_delivered next_address None (λ l, l) editor_start two_lines).
  - apply next_address_fresh.
  - apply start_ready.
  - repeat constructor; done.
Defined.

Lemma history_walk_witness :
  ∃ ed1 ed2 s, times 2 history_prev (editor_with two_lines) = Ret ed1 ∧
    two_lines !! 1%nat = Some s ∧ line_is ed1 s [] ∧
    times 2 history_next ed1 = Ret ed2 ∧ line_is ed2 [] [] ∧ texts ed2 = two_lines ∧ edit_ok ed2.
Proof.
  apply (history_walk (editor_with two_lines) [] [] 1).
  - apply two_lines_ok.
  - apply two_lines_ok.
  - done.
  - by exists (lit "status").
  - simpl. lia.
Defined.

Lemma search_ignores_end_witness :
  edit_run next_address None (λ l, l) (set_search editor_start true) (replicate 3 None) =
  Ret (set_search editor_start true).
Proof. by apply search_ignores_end. Defined.

(** A full history of lines of different lengths, the oldest one shown. *)
Definition full_editor : editor :=
  let hl := imap (λ i s, (Z.of_nat i + 1, s)) ((λ n, replicate (S n) 97) <$> seq 0 100) in
  set_history editor_start hl 100.

Lemma full_history_ok : history_ok (history_list full_editor).
Proof. split; [| | | |vm_compute; lia]; apply (bool_decide_unpack _); vm_compute; exact I. Qed.

Lemma freed_entry_used_witness :
  history_prev (history_add (λ _ _, 0) full_editor (lit "scan")) = UB "freed history entry".
Proof.
  apply (freed_entry_used (λ _ _, 0) full_editor (lit "scan") (replicate 100 97)).
  - done.
  - apply full_history_ok.
  - reflexivity.
  - reflexivity.
  - done.
  - apply (bool_decide_unpack _). vm_compute. exact I.
Defined.
