(* ===== verification/WpaIe.v ===== *)
(** * WPA and RSN elements (src/common/wpa_common.c, src/rsn_supp/wpa_ie.c)

    Cipher and key management suites as bits of an integer, as selectors of
    four bytes and as text; parsing and writing of the elements of a frame that
    announce them.  A pointer into a frame is a memory and an offset: reading
    behind the memory is undefined.  The build options are a record. *)

From S2P Require Import Prelude CString CliUtil Common.

Record build : Type := Build {
  CONFIG_IEEE80211R : bool;
  CONFIG_IEEE80211W : bool;
  CONFIG_SAE : bool;
  CONFIG_SUITEB : bool;
  CONFIG_SUITEB192 : bool;
  CONFIG_HS20 : bool;
  CONFIG_FST : bool
}.

(** The options of the configuration file in the repository, and all. *)
Definition build_default : build := Build false false false false false false false.
Definition build_all : build := Build true true true true true true true.

Definition BIT (n : Z) : Z := Z.shiftl 1 n.

Definition WPA_CIPHER_NONE : Z := BIT 0.
Definition WPA_CIPHER_WEP40 : Z := BIT 1.
Definition WPA_CIPHER_WEP104 : Z := BIT 2.
Definition WPA_CIPHER_TKIP : Z := BIT 3.
Definition WPA_CIPHER_CCMP : Z := BIT 4.
Definition WPA_CIPHER_AES_128_CMAC : Z := BIT 5.
Definition WPA_CIPHER_GCMP : Z := BIT 6.
Definition WPA_CIPHER_GCMP_256 : Z := BIT 8.
Definition WPA_CIPHER_CCMP_256 : Z := BIT 9.
Definition WPA_CIPHER_BIP_GMAC_128 : Z := BIT 11.
Definition WPA_CIPHER_BIP_GMAC_256 : Z := BIT 12.
Definition WPA_CIPHER_BIP_CMAC_256 : Z := BIT 13.
Definition WPA_CIPHER_GTK_NOT_USED : Z := BIT 14.

Definition WPA_KEY_MGMT_IEEE8021X : Z := BIT 0.
Definition WPA_KEY_MGMT_PSK : Z := BIT 1.
Definition WPA_KEY_MGMT_NONE : Z := BIT 2.
Definition WPA_KEY_MGMT_IEEE8021X_NO_WPA : Z := BIT 3.
Definition WPA_KEY_MGMT_WPA_NONE : Z := BIT 4.
Definition WPA_KEY_MGMT_FT_IEEE8021X : Z := BIT 5.
Definition WPA_KEY_MGMT_FT_PSK : Z := BIT 6.
Definition WPA_KEY_MGMT_IEEE8021X_SHA256 : Z := BIT 7.
Definition WPA_KEY_MGMT_PSK_SHA256 : Z := BIT 8.
Definition WPA_KEY_MGMT_WPS : Z := BIT 9.
Definition WPA_KEY_MGMT_SAE : Z := BIT 10.
Definition WPA_KEY_MGMT_FT_SAE : Z := BIT 11.
Definition WPA_KEY_MGMT_CCKM : Z := BIT 14.
Definition WPA_KEY_MGMT_OSEN : Z := BIT 15.
Definition WPA_KEY_MGMT_IEEE8021X_SUITE_B : Z := BIT 16.
Definition WPA_KEY_MGMT_IEEE8021X_SUITE_B_192 : Z := BIT 17.

Definition WPA_PROTO_WPA : Z := BIT 0.
Definition WPA_PROTO_RSN : Z := BIT 1.
Definition WPA_PROTO_OSEN : Z := BIT 3.

Definition PMKID_LEN : Z := 16.
Definition WPA_SELECTOR_LEN : Z := 4.
Definition WPA_VERSION : Z := 1.
Definition RSN_SELECTOR_LEN : Z := 4.
Definition RSN_VERSION : Z := 1.
Definition WLAN_EID_RSN : Z := 48.
Definition WLAN_EID_VENDOR_SPECIFIC : Z := 221.
Definition OSEN_IE_VENDOR_TYPE : Z := 0x506f9a12.
Definition OUI_WFA : Z := 0x506f9a.
Definition HS20_OSEN_OUI_TYPE : Z := 18.
Definition WPA_CAPABILITY_PREAUTH : Z := BIT 0.
Definition WPA_CAPABILITY_MFPR : Z := BIT 6.
Definition WPA_CAPABILITY_MFPC : Z := BIT 7.

Definition RSN_SELECTOR (a b c d : Z) : Z :=
  Z.lor (Z.lor (Z.lor (Z.shiftl a 24) (Z.shiftl b 16)) (Z.shiftl c 8)) d.

Definition WPA_AUTH_KEY_MGMT_NONE : Z := RSN_SELECTOR 0x00 0x50 0xf2 0.
Definition WPA_AUTH_KEY_MGMT_UNSPEC_802_1X : Z := RSN_SELECTOR 0x00 0x50 0xf2 1.
Definition WPA_AUTH_KEY_MGMT_PSK_OVER_802_1X : Z := RSN_SELECTOR 0x00 0x50 0xf2 2.
Definition WPA_AUTH_KEY_MGMT_CCKM : Z := RSN_SELECTOR 0x00 0x40 0x96 0.
Definition WPA_CIPHER_SUITE_NONE : Z := RSN_SELECTOR 0x00 0x50 0xf2 0.
Definition WPA_CIPHER_SUITE_TKIP : Z := RSN_SELECTOR 0x00 0x50 0xf2 2.
Definition WPA_CIPHER_SUITE_CCMP : Z := RSN_SELECTOR 0x00 0x50 0xf2 4.
Definition RSN_AUTH_KEY_MGMT_UNSPEC_802_1X : Z := RSN_SELECTOR 0x00 0x0f 0xac 1.
Definition RSN_AUTH_KEY_MGMT_PSK_OVER_802_1X : Z := RSN_SELECTOR 0x00 0x0f 0xac 2.
Definition RSN_AUTH_KEY_MGMT_FT_802_1X : Z := RSN_SELECTOR 0x00 0x0f 0xac 3.
Definition RSN_AUTH_KEY_MGMT_FT_PSK : Z := RSN_SELECTOR 0x00 0x0f 0xac 4.
Definition RSN_AUTH_KEY_MGMT_802_1X_SHA256 : Z := RSN_SELECTOR 0x00 0x0f 0xac 5.
Definition RSN_AUTH_KEY_MGMT_PSK_SHA256 : Z := RSN_SELECTOR 0x00 0x0f 0xac 6.
Definition RSN_AUTH_KEY_MGMT_SAE : Z := RSN_SELECTOR 0x00 0x0f 0xac 8.
Definition RSN_AUTH_KEY_MGMT_FT_SAE : Z := RSN_SELECTOR 0x00 0x0f 0xac 9.
Definition RSN_AUTH_KEY_MGMT_802_1X_SUITE_B : Z := RSN_SELECTOR 0x00 0x0f 0xac 11.
Definition RSN_AUTH_KEY_MGMT_802_1X_SUITE_B_192 : Z := RSN_SELECTOR 0x00 0x0f 0xac 12.
Definition RSN_AUTH_KEY_MGMT_CCKM : Z := RSN_SELECTOR 0x00 0x40 0x96 0x00.
Definition RSN_AUTH_KEY_MGMT_OSEN : Z := RSN_SELECTOR 0x50 0x6f 0x9a 0x01.
Definition RSN_CIPHER_SUITE_NONE : Z := RSN_SELECTOR 0x00 0x0f 0xac 0.
Definition RSN_CIPHER_SUITE_TKIP : Z := RSN_SELECTOR 0x00 0x0f 0xac 2.
Definition RSN_CIPHER_SUITE_CCMP : Z := RSN_SELECTOR 0x00 0x0f 0xac 4.
Definition RSN_CIPHER_SUITE_AES_128_CMAC : Z := RSN_SELECTOR 0x00 0x0f 0xac 6.
Definition RSN_CIPHER_SUITE_NO_GROUP_ADDRESSED : Z := RSN_SELECTOR 0x00 0x0f 0xac 7.
Definition RSN_CIPHER_SUITE_GCMP : Z := RSN_SELECTOR 0x00 0x0f 0xac 8.
Definition RSN_CIPHER_SUITE_GCMP_256 : Z := RSN_SELECTOR 0x00 0x0f 0xac 9.
Definition RSN_CIPHER_SUITE_CCMP_256 : Z := RSN_SELECTOR 0x00 0x0f 0xac 10.
Definition RSN_CIPHER_SUITE_BIP_GMAC_128 : Z := RSN_SELECTOR 0x00 0x0f 0xac 11.
Definition RSN_CIPHER_SUITE_BIP_GMAC_256 : Z := RSN_SELECTOR 0x00 0x0f 0xac 12.
Definition RSN_CIPHER_SUITE_BIP_CMAC_256 : Z := RSN_SELECTOR 0x00 0x0f 0xac 13.
Definition WPA_OUI_TYPE : Z := RSN_SELECTOR 0x00 0x50 0xf2 1.

(** ** Reading memory *)

Definition u8_at (m : list Z) (i : Z) : outcome Z :=
  if i <? 0 then UB "read before the element" else need "read behind the element" (m !! Z.to_nat i).

Definition WPA_GET_LE16 (m : list Z) (i : Z) : outcome Z :=
  a ← u8_at m i; b ← u8_at m (i + 1); Ret (Z.lor (Z.shiftl b 8) a).

Definition WPA_GET_BE32 (m : list Z) (i : Z) : outcome Z :=
  a ← u8_at m i; b ← u8_at m (i + 1); c ← u8_at m (i + 2); d ← u8_at m (i + 3);
  Ret (Z.lor (Z.lor (Z.lor (Z.shiftl a 24) (Z.shiftl b 16)) (Z.shiftl c 8)) d).

Definition RSN_SELECTOR_GET (m : list Z) (i : Z) : outcome Z := WPA_GET_BE32 m i.

(** [x & f] as a condition. *)
Definition has (x f : Z) : bool := negb (Z.land x f =? 0).

(** ** Suites *)

Section build.
Context (cfg : build).

Definition rsn_selector_to_bitfield (s : Z) : Z :=
  if s =? RSN_CIPHER_SUITE_NONE then WPA_CIPHER_NONE
  else if s =? RSN_CIPHER_SUITE_TKIP then WPA_CIPHER_TKIP
  else if s =? RSN_CIPHER_SUITE_CCMP then WPA_CIPHER_CCMP
  else if CONFIG_IEEE80211W cfg && (s =? RSN_CIPHER_SUITE_AES_128_CMAC) then
    WPA_CIPHER_AES_128_CMAC
  else if s =? RSN_CIPHER_SUITE_GCMP then WPA_CIPHER_GCMP
  else if s =? RSN_CIPHER_SUITE_CCMP_256 then WPA_CIPHER_CCMP_256
  else if s =? RSN_CIPHER_SUITE_GCMP_256 then WPA_CIPHER_GCMP_256
  else if s =? RSN_CIPHER_SUITE_BIP_GMAC_128 then WPA_CIPHER_BIP_GMAC_128
  else if s =? RSN_CIPHER_SUITE_BIP_GMAC_256 then WPA_CIPHER_BIP_GMAC_256
  else if s =? RSN_CIPHER_SUITE_BIP_CMAC_256 then WPA_CIPHER_BIP_CMAC_256
  else if s =? RSN_CIPHER_SUITE_NO_GROUP_ADDRESSED then WPA_CIPHER_GTK_NOT_USED
  else 0.

Definition rsn_key_mgmt_to_bitfield (s : Z) : Z :=
  if s =? RSN_AUTH_KEY_MGMT_UNSPEC_802_1X then WPA_KEY_MGMT_IEEE8021X
  else if s =? RSN_AUTH_KEY_MGMT_PSK_OVER_802_1X then WPA_KEY_MGMT_PSK
  else if CONFIG_IEEE80211R cfg && (s =? RSN_AUTH_KEY_MGMT_FT_802_1X) then
    WPA_KEY_MGMT_FT_IEEE8021X
  else if CONFIG_IEEE80211R cfg && (s =? RSN_AUTH_KEY_MGMT_FT_PSK) then WPA_KEY_MGMT_FT_PSK
  else if CONFIG_IEEE80211W cfg && (s =? RSN_AUTH_KEY_MGMT_802_1X_SHA256) then
    WPA_KEY_MGMT_IEEE8021X_SHA256
  else if CONFIG_IEEE80211W cfg && (s =? RSN_AUTH_KEY_MGMT_PSK_SHA256) then
    WPA_KEY_MGMT_PSK_SHA256
  else if CONFIG_SAE cfg && (s =? RSN_AUTH_KEY_MGMT_SAE) then WPA_KEY_MGMT_SAE
  else if CONFIG_SAE cfg && (s =? RSN_AUTH_KEY_MGMT_FT_SAE) then WPA_KEY_MGMT_FT_SAE
  else if s =? RSN_AUTH_KEY_MGMT_802_1X_SUITE_B then WPA_KEY_MGMT_IEEE8021X_SUITE_B
  else if s =? RSN_AUTH_KEY_MGMT_802_1X_SUITE_B_192 then WPA_KEY_MGMT_IEEE8021X_SUITE_B_192
  else if s =? RSN_AUTH_KEY_MGMT_OSEN then WPA_KEY_MGMT_OSEN
  else 0.

Definition wpa_selector_to_bitfield (s : Z) : Z :=
  if s =? WPA_CIPHER_SUITE_NONE then WPA_CIPHER_NONE
  else if s =? WPA_CIPHER_SUITE_TKIP then WPA_CIPHER_TKIP
  else if s =? WPA_CIPHER_SUITE_CCMP then WPA_CIPHER_CCMP
  else 0.

Definition wpa_key_mgmt_to_bitfield (s : Z) : Z :=
  if s =? WPA_AUTH_KEY_MGMT_UNSPEC_802_1X then WPA_KEY_MGMT_IEEE8021X
  else if s =? WPA_AUTH_KEY_MGMT_PSK_OVER_802_1X then WPA_KEY_MGMT_PSK
  else if s =? WPA_AUTH_KEY_MGMT_NONE then WPA_KEY_MGMT_WPA_NONE
  else 0.

Definition wpa_cipher_valid_pairwise (cipher : Z) : bool :=
  (cipher =? WPA_CIPHER_CCMP_256) || (cipher =? WPA_CIPHER_GCMP_256)
  || (cipher =? WPA_CIPHER_CCMP) || (cipher =? WPA_CIPHER_GCMP) || (cipher =? WPA_CIPHER_TKIP).

Definition wpa_cipher_valid_group (cipher : Z) : bool :=
  wpa_cipher_valid_pairwise cipher || (cipher =? WPA_CIPHER_GTK_NOT_USED).

Definition wpa_cipher_valid_mgmt_group (cipher : Z) : bool :=
  (cipher =? WPA_CIPHER_AES_128_CMAC) || (cipher =? WPA_CIPHER_BIP_GMAC_128)
  || (cipher =? WPA_CIPHER_BIP_GMAC_256) || (cipher =? WPA_CIPHER_BIP_CMAC_256).

(** ** Parsing *)

Record wpa_ie_data : Type := WpaIeData {
  proto : Z;
  pairwise_cipher : Z;
  group_cipher : Z;
  key_mgmt : Z;
  capabilities : Z;
  num_pmkid : Z;
  pmkid : option Z;
  mgmt_group_cipher : Z
}.

Definition set_proto (d : wpa_ie_data) (x : Z) : wpa_ie_data :=
  WpaIeData x (pairwise_cipher d) (group_cipher d) (key_mgmt d) (capabilities d) (num_pmkid d)
    (pmkid d) (mgmt_group_cipher d).
Definition set_pairwise (d : wpa_ie_data) (x : Z) : wpa_ie_data :=
  WpaIeData (proto d) x (group_cipher d) (key_mgmt d) (capabilities d) (num_pmkid d) (pmkid d)
    (mgmt_group_cipher d).
Definition set_group (d : wpa_ie_data) (x : Z) : wpa_ie_data :=
  WpaIeData (proto d) (pairwise_cipher d) x (key_mgmt d) (capabilities d) (num_pmkid d)
    (pmkid d) (mgmt_group_cipher d).
Definition set_key_mgmt (d : wpa_ie_data) (x : Z) : wpa_ie_data :=
  WpaIeData (proto d) (pairwise_cipher d) (group_cipher d) x (capabilities d) (num_pmkid d)
    (pmkid d) (mgmt_group_cipher d).
Definition set_capabilities (d : wpa_ie_data) (x : Z) : wpa_ie_data :=
  WpaIeData (proto d) (pairwise_cipher d) (group_cipher d) (key_mgmt d) x (num_pmkid d)
    (pmkid d) (mgmt_group_cipher d).
Definition set_pmkid (d : wpa_ie_data) (n : Z) (p : option Z) : wpa_ie_data :=
  WpaIeData (proto d) (pairwise_cipher d) (group_cipher d) (key_mgmt d) (capabilities d) n p
    (mgmt_group_cipher d).
Definition set_mgmt_group (d : wpa_ie_data) (x : Z) : wpa_ie_data :=
  WpaIeData (proto d) (pairwise_cipher d) (group_cipher d) (key_mgmt d) (capabilities d)
    (num_pmkid d) (pmkid d) x.

(** A part of a parser: from [pos], with [left] bytes to go, to the value of
    an early [return] (below 0) or the position behind the part. *)
Definition parse_step : Type := Z → Z → wpa_ie_data → outcome (Z * (Z * Z * wpa_ie_data)).

Definition next_step (a b : parse_step) : parse_step := λ pos left d,
  '(r, (pos, left, d)) ← a pos left d;
  if r <? 0 then Ret (r, (pos, left, d)) else b pos left d.

Section steps.
Context (m : list Z).

(** [count] selectors. *)
Fixpoint suites_loop (count : nat) (to_bits : Z → Z) (pos acc : Z) : outcome Z :=
  match count with
  | O => Ret acc
  | S count' =>
      s ← RSN_SELECTOR_GET m pos;
      suites_loop count' to_bits (pos + RSN_SELECTOR_LEN) (Z.lor acc (to_bits s))
  end.

(** A count and that many selectors; [short] and [botch] are the errors. *)
Definition suite_list (to_bits : Z → Z) (set : wpa_ie_data → Z → wpa_ie_data) (botch short : Z)
    : parse_step := λ pos left d,
  if 2 <=? left then
    let d := set d 0 in
    count ← WPA_GET_LE16 m pos;
    let pos := pos + 2 in
    let left := left - 2 in
    if (count =? 0) || (left / RSN_SELECTOR_LEN <? count) then Ret (botch, (pos, left, d))
    else
      bits ← suites_loop (Z.to_nat count) to_bits pos 0;
      Ret (0, (pos + count * RSN_SELECTOR_LEN, left - count * RSN_SELECTOR_LEN, set d bits))
  else if left =? 1 then Ret (short, (pos, left, d))
  else Ret (0, (pos, left, d)).

Definition rsn_group_part : parse_step := λ pos left d,
  if RSN_SELECTOR_LEN <=? left then
    s ← RSN_SELECTOR_GET m pos;
    let d := set_group d (rsn_selector_to_bitfield s) in
    if negb (wpa_cipher_valid_group (group_cipher d)) then Ret (-1, (pos, left, d))
    else Ret (0, (pos + RSN_SELECTOR_LEN, left - RSN_SELECTOR_LEN, d))
  else if 0 <? left then Ret (-3, (pos, left, d))
  else Ret (0, (pos, left, d)).

Definition rsn_pairwise_part : parse_step :=
  next_step (suite_list rsn_selector_to_bitfield set_pairwise (-4) (-5)) (λ pos left d,
    if CONFIG_IEEE80211W cfg && has (pairwise_cipher d) WPA_CIPHER_AES_128_CMAC
    then Ret (-1, (pos, left, d)) else Ret (0, (pos, left, d))).

Definition capabilities_part : parse_step := λ pos left d,
  if 2 <=? left then
    c ← WPA_GET_LE16 m pos; Ret (0, (pos + 2, left - 2, set_capabilities d c))
  else Ret (0, (pos, left, d)).

Definition pmkid_part : parse_step := λ pos left d,
  if 2 <=? left then
    n ← WPA_GET_LE16 m pos;
    let pos := pos + 2 in
    let left := left - 2 in
    if left / PMKID_LEN <? n then Ret (-9, (pos, left, set_pmkid d 0 (pmkid d)))
    else Ret (0, (pos + n * PMKID_LEN, left - n * PMKID_LEN, set_pmkid d n (Some pos)))
  else Ret (0, (pos, left, d)).

Definition mgmt_group_part : parse_step := λ pos left d,
  if CONFIG_IEEE80211W cfg && (4 <=? left) then
    s ← RSN_SELECTOR_GET m pos;
    let d := set_mgmt_group d (rsn_selector_to_bitfield s) in
    if negb (wpa_cipher_valid_mgmt_group (mgmt_group_cipher d)) then Ret (-10, (pos, left, d))
    else Ret (0, (pos + RSN_SELECTOR_LEN, left - RSN_SELECTOR_LEN, d))
  else Ret (0, (pos, left, d)).

Definition rsn_parts : parse_step :=
  next_step rsn_group_part (next_step rsn_pairwise_part
  (next_step (suite_list rsn_key_mgmt_to_bitfield set_key_mgmt (-6) (-7))
  (next_step capabilities_part (next_step pmkid_part mgmt_group_part)))).

(** Like [rsn_group_part], but any group cipher will do. *)
Definition wpa_group_part : parse_step := λ pos left d,
  if WPA_SELECTOR_LEN <=? left then
    s ← RSN_SELECTOR_GET m pos;
    Ret (0, (pos + WPA_SELECTOR_LEN, left - WPA_SELECTOR_LEN,
             set_group d (wpa_selector_to_bitfield s)))
  else if 0 <? left then Ret (-3, (pos, left, d))
  else Ret (0, (pos, left, d)).

Definition wpa_parts : parse_step :=
  next_step wpa_group_part
  (next_step (suite_list wpa_selector_to_bitfield set_pairwise (-4) (-5))
  (next_step (suite_list wpa_key_mgmt_to_bitfield set_key_mgmt (-6) (-7)) capabilities_part)).

Definition rsn_defaults : wpa_ie_data :=
  WpaIeData WPA_PROTO_RSN WPA_CIPHER_CCMP WPA_CIPHER_CCMP WPA_KEY_MGMT_IEEE8021X 0 0 None
    (if CONFIG_IEEE80211W cfg then WPA_CIPHER_AES_128_CMAC else 0).

Definition wpa_defaults : wpa_ie_data :=
  WpaIeData WPA_PROTO_WPA WPA_CIPHER_TKIP WPA_CIPHER_TKIP WPA_KEY_MGMT_IEEE8021X 0 0 None 0.

(** Whether the element is the one of an OSEN network. *)
Definition is_osen (len : Z) : outcome bool :=
  if 6 <=? len then
    l ← u8_at m 1;
    if (4 <=? l) && (l =? len - 2) then
      t ← WPA_GET_BE32 m 2; Ret (t =? OSEN_IE_VENDOR_TYPE)
    else Ret false
  else Ret false.

Definition wpa_parse_wpa_ie_rsn (rsn_ie_len : Z) : outcome (Z * wpa_ie_data) :=
  let d := rsn_defaults in
  if rsn_ie_len =? 0 then Ret (-1, d)
  else if rsn_ie_len <? 4 then Ret (-1, d)
  else
    osen ← is_osen rsn_ie_len;
    if (osen : bool) then
      '(r, (_, _, d)) ← rsn_parts 6 (rsn_ie_len - 6) (set_proto d WPA_PROTO_OSEN); Ret (r, d)
    else
      id ← u8_at m 0; l ← u8_at m 1; v ← WPA_GET_LE16 m 2;
      if negb (id =? WLAN_EID_RSN) || negb (l =? rsn_ie_len - 2) || negb (v =? RSN_VERSION)
      then Ret (-2, d)
      else '(r, (_, _, d)) ← rsn_parts 4 (rsn_ie_len - 4) d; Ret (r, d).

Definition wpa_parse_wpa_ie_wpa (wpa_ie_len : Z) : outcome (Z * wpa_ie_data) :=
  let d := wpa_defaults in
  if wpa_ie_len <? 8 then Ret (-1, d)
  else
    id ← u8_at m 0; l ← u8_at m 1; o ← RSN_SELECTOR_GET m 2; v ← WPA_GET_LE16 m 6;
    if negb (id =? WLAN_EID_VENDOR_SPECIFIC) || negb (l =? wpa_ie_len - 2)
       || negb (o =? WPA_OUI_TYPE) || negb (v =? WPA_VERSION)
    then Ret (-2, d)
    else '(r, (_, _, d)) ← wpa_parts 8 (wpa_ie_len - 8) d; Ret (r, d).

(** The elements that [wpa_parse_wpa_ie_rsn] is for. *)
Definition is_rsn (len : Z) : outcome bool :=
  if 1 <=? len then id ← u8_at m 0; Ret (id =? WLAN_EID_RSN) else Ret false.

Definition is_osen_type (len : Z) : outcome bool :=
  if 6 <=? len then
    id ← u8_at m 0;
    if id =? WLAN_EID_VENDOR_SPECIFIC then
      l ← u8_at m 1;
      if 4 <=? l then t ← WPA_GET_BE32 m 2; Ret (t =? OSEN_IE_VENDOR_TYPE) else Ret false
    else Ret false
  else Ret false.

Definition wpa_parse_wpa_ie (wpa_ie_len : Z) : outcome (Z * wpa_ie_data) :=
  rsn ← is_rsn wpa_ie_len;
  if (rsn : bool) then wpa_parse_wpa_ie_rsn wpa_ie_len
  else
    osen ← is_osen_type wpa_ie_len;
    if (osen : bool) then wpa_parse_wpa_ie_rsn wpa_ie_len else wpa_parse_wpa_ie_wpa wpa_ie_len.
End steps.

(** ** Writing *)

Definition WPA_PUT_LE16 (b : buf) (i v : Z) : outcome buf :=
  b ← buf_set b (i + 1) (Z.shiftr v 8 mod 256); buf_set b i (Z.land v 255).

Definition be32_bytes (v : Z) : list Z :=
  [Z.land (Z.shiftr v 24) 255; Z.land (Z.shiftr v 16) 255; Z.land (Z.shiftr v 8) 255;
   Z.land v 255].

Definition RSN_SELECTOR_PUT (b : buf) (i v : Z) : outcome buf := buf_write b i (be32_bytes v).

Definition WPA_PUT_BE24 (b : buf) (i v : Z) : outcome buf :=
  buf_write b i [Z.land (Z.shiftr v 16) 255; Z.land (Z.shiftr v 8) 255; Z.land v 255].

Definition wpa_cipher_to_suite (proto cipher : Z) : Z :=
  if has cipher WPA_CIPHER_CCMP_256 then RSN_CIPHER_SUITE_CCMP_256
  else if has cipher WPA_CIPHER_GCMP_256 then RSN_CIPHER_SUITE_GCMP_256
  else if has cipher WPA_CIPHER_CCMP then
    (if proto =? WPA_PROTO_RSN then RSN_CIPHER_SUITE_CCMP else WPA_CIPHER_SUITE_CCMP)
  else if has cipher WPA_CIPHER_GCMP then RSN_CIPHER_SUITE_GCMP
  else if has cipher WPA_CIPHER_TKIP then
    (if proto =? WPA_PROTO_RSN then RSN_CIPHER_SUITE_TKIP else WPA_CIPHER_SUITE_TKIP)
  else if has cipher WPA_CIPHER_NONE then
    (if proto =? WPA_PROTO_RSN then RSN_CIPHER_SUITE_NONE else WPA_CIPHER_SUITE_NONE)
  else if has cipher WPA_CIPHER_GTK_NOT_USED then RSN_CIPHER_SUITE_NO_GROUP_ADDRESSED
  else if has cipher WPA_CIPHER_AES_128_CMAC then RSN_CIPHER_SUITE_AES_128_CMAC
  else if has cipher WPA_CIPHER_BIP_GMAC_128 then RSN_CIPHER_SUITE_BIP_GMAC_128
  else if has cipher WPA_CIPHER_BIP_GMAC_256 then RSN_CIPHER_SUITE_BIP_GMAC_256
  else if has cipher WPA_CIPHER_BIP_CMAC_256 then RSN_CIPHER_SUITE_BIP_CMAC_256
  else 0.

(** [*pos++ = 1; *pos++ = 0; RSN_SELECTOR_PUT(pos, suite);] *)
Definition put_one_suite (b : buf) (pos suite : Z) : outcome buf :=
  b ← buf_set b pos 1; b ← buf_set b (pos + 1) 0; RSN_SELECTOR_PUT b (pos + 2) suite.

(** The tests of the pairwise cipher. *)
Definition bad_pairwise (pairwise_cipher suite : Z) : bool :=
  (suite =? 0)
  || (negb (wpa_cipher_valid_pairwise pairwise_cipher)
      && negb (pairwise_cipher =? WPA_CIPHER_NONE)).

(** The selector of a key management; [None] for one that is invalid. *)
Definition wpa_key_mgmt_suite (key_mgmt : Z) : option Z :=
  if key_mgmt =? WPA_KEY_MGMT_IEEE8021X then Some WPA_AUTH_KEY_MGMT_UNSPEC_802_1X
  else if key_mgmt =? WPA_KEY_MGMT_PSK then Some WPA_AUTH_KEY_MGMT_PSK_OVER_802_1X
  else if key_mgmt =? WPA_KEY_MGMT_WPA_NONE then Some WPA_AUTH_KEY_MGMT_NONE
  else if key_mgmt =? WPA_KEY_MGMT_CCKM then Some WPA_AUTH_KEY_MGMT_CCKM
  else None.

Definition rsn_key_mgmt_suite (key_mgmt : Z) : option Z :=
  if key_mgmt =? WPA_KEY_MGMT_IEEE8021X then Some RSN_AUTH_KEY_MGMT_UNSPEC_802_1X
  else if key_mgmt =? WPA_KEY_MGMT_PSK then Some RSN_AUTH_KEY_MGMT_PSK_OVER_802_1X
  else if key_mgmt =? WPA_KEY_MGMT_CCKM then Some RSN_AUTH_KEY_MGMT_CCKM
  else if CONFIG_IEEE80211R cfg && (key_mgmt =? WPA_KEY_MGMT_FT_IEEE8021X) then
    Some RSN_AUTH_KEY_MGMT_FT_802_1X
  else if CONFIG_IEEE80211R cfg && (key_mgmt =? WPA_KEY_MGMT_FT_PSK) then
    Some RSN_AUTH_KEY_MGMT_FT_PSK
  else if CONFIG_IEEE80211W cfg && (key_mgmt =? WPA_KEY_MGMT_IEEE8021X_SHA256) then
    Some RSN_AUTH_KEY_MGMT_802_1X_SHA256
  else if CONFIG_IEEE80211W cfg && (key_mgmt =? WPA_KEY_MGMT_PSK_SHA256) then
    Some RSN_AUTH_KEY_MGMT_PSK_SHA256
  else if CONFIG_SAE cfg && (key_mgmt =? WPA_KEY_MGMT_SAE) then Some RSN_AUTH_KEY_MGMT_SAE
  else if CONFIG_SAE cfg && (key_mgmt =? WPA_KEY_MGMT_FT_SAE) then
    Some RSN_AUTH_KEY_MGMT_FT_SAE
  else if key_mgmt =? WPA_KEY_MGMT_IEEE8021X_SUITE_B_192 then
    Some RSN_AUTH_KEY_MGMT_802_1X_SUITE_B_192
  else if key_mgmt =? WPA_KEY_MGMT_IEEE8021X_SUITE_B then
    Some RSN_AUTH_KEY_MGMT_802_1X_SUITE_B
  else None.

Definition wpa_gen_wpa_ie_wpa (b : buf) (wpa_ie_len pairwise_cipher group_cipher key_mgmt : Z)
    : outcome (Z * buf) :=
  if wpa_ie_len <? 8 + WPA_SELECTOR_LEN + 2 + WPA_SELECTOR_LEN + 2 + WPA_SELECTOR_LEN
  then Ret (-1, b)
  else
    b ← buf_set b 0 WLAN_EID_VENDOR_SPECIFIC;
    b ← RSN_SELECTOR_PUT b 2 WPA_OUI_TYPE;
    b ← WPA_PUT_LE16 b 6 WPA_VERSION;
    let pos := 8 in
    let suite := wpa_cipher_to_suite WPA_PROTO_WPA group_cipher in
    if suite =? 0 then Ret (-1, b)
    else
      b ← RSN_SELECTOR_PUT b pos suite;
      let pos := pos + WPA_SELECTOR_LEN in
      let suite := wpa_cipher_to_suite WPA_PROTO_WPA pairwise_cipher in
      if bad_pairwise pairwise_cipher suite then
        b ← buf_set b pos 1; b ← buf_set b (pos + 1) 0; Ret (-1, b)
      else
        b ← put_one_suite b pos suite;
        let pos := pos + 2 + WPA_SELECTOR_LEN in
        match wpa_key_mgmt_suite key_mgmt with
        | None => b ← buf_set b pos 1; b ← buf_set b (pos + 1) 0; Ret (-1, b)
        | Some suite =>
            b ← put_one_suite b pos suite;
            let pos := pos + 2 + WPA_SELECTOR_LEN in
            b ← buf_set b 1 ((pos - 2) mod 256);
            Ret (pos, b)
        end.

(** What the element is made of. *)
Record wpa_sm : Type := WpaSm {
  sm_proto : Z;
  sm_pairwise_cipher : Z;
  sm_group_cipher : Z;
  sm_key_mgmt : Z;
  sm_mgmt_group_cipher : Z;
  mfp : Z;
  cur_pmksa : option (list Z)
}.

Definition rsn_capabilities (sm : wpa_sm) : Z :=
  let capab := if CONFIG_IEEE80211W cfg && negb (mfp sm =? 0) then WPA_CAPABILITY_MFPC else 0 in
  if CONFIG_IEEE80211W cfg && (mfp sm =? 2) then Z.lor capab WPA_CAPABILITY_MFPR else capab.

(** The PMKID and the management group cipher behind the capabilities. *)
Definition put_pmkid (b : buf) (pos : Z) (sm : wpa_sm) : outcome (buf * Z) :=
  match cur_pmksa sm with
  | Some id =>
      b ← buf_set b pos 1; b ← buf_set b (pos + 1) 0;
      b ← buf_write b (pos + 2) id;
      Ret (b, pos + 2 + PMKID_LEN)
  | None => Ret (b, pos)
  end.

Definition put_mgmt_group (b : buf) (pos mgmt_group_cipher : Z) (sm : wpa_sm)
    : outcome (buf * Z) :=
  if CONFIG_IEEE80211W cfg && wpa_cipher_valid_mgmt_group mgmt_group_cipher then
    '(b, pos) ← (match cur_pmksa sm with
                 | None => b ← WPA_PUT_LE16 b pos 0; Ret (b, pos + 2)
                 | Some _ => Ret (b, pos)
                 end);
    b ← RSN_SELECTOR_PUT b pos (wpa_cipher_to_suite WPA_PROTO_RSN mgmt_group_cipher);
    Ret (b, pos + RSN_SELECTOR_LEN)
  else Ret (b, pos).

Definition wpa_gen_wpa_ie_rsn (b : buf)
    (rsn_ie_len pairwise_cipher group_cipher key_mgmt mgmt_group_cipher : Z) (sm : wpa_sm)
    : outcome (Z * buf) :=
  if rsn_ie_len <? 4 + RSN_SELECTOR_LEN + 2 + RSN_SELECTOR_LEN + 2 + RSN_SELECTOR_LEN + 2
                   + (match cur_pmksa sm with Some _ => 2 + PMKID_LEN | None => 0 end)
  then Ret (-1, b)
  else
    b ← buf_set b 0 WLAN_EID_RSN;
    b ← WPA_PUT_LE16 b 2 RSN_VERSION;
    let pos := 4 in
    let suite := wpa_cipher_to_suite WPA_PROTO_RSN group_cipher in
    if suite =? 0 then Ret (-1, b)
    else
      b ← RSN_SELECTOR_PUT b pos suite;
      let pos := pos + RSN_SELECTOR_LEN in
      let suite := wpa_cipher_to_suite WPA_PROTO_RSN pairwise_cipher in
      if bad_pairwise pairwise_cipher suite then
        b ← buf_set b pos 1; b ← buf_set b (pos + 1) 0; Ret (-1, b)
      else
        b ← put_one_suite b pos suite;
        let pos := pos + 2 + RSN_SELECTOR_LEN in
        match rsn_key_mgmt_suite key_mgmt with
        | None => b ← buf_set b pos 1; b ← buf_set b (pos + 1) 0; Ret (-1, b)
        | Some suite =>
            b ← put_one_suite b pos suite;
            let pos := pos + 2 + RSN_SELECTOR_LEN in
            b ← WPA_PUT_LE16 b pos (rsn_capabilities sm);
            '(b, pos) ← put_pmkid b (pos + 2) sm;
            '(b, pos) ← put_mgmt_group b pos mgmt_group_cipher sm;
            b ← buf_set b 1 ((pos - 2) mod 256);
            Ret (pos, b)
        end.

Definition wpa_gen_wpa_ie_osen (b : buf) (wpa_ie_len pairwise_cipher group_cipher key_mgmt : Z)
    : outcome (Z * buf) :=
  if wpa_ie_len <? 2 + 4 + RSN_SELECTOR_LEN + 2 + RSN_SELECTOR_LEN + 2 + RSN_SELECTOR_LEN
  then Ret (-1, b)
  else
    b ← buf_set b 0 WLAN_EID_VENDOR_SPECIFIC;
    b ← WPA_PUT_BE24 b 2 OUI_WFA;
    b ← buf_set b 5 HS20_OSEN_OUI_TYPE;
    let pos := 6 in
    let suite := wpa_cipher_to_suite WPA_PROTO_RSN group_cipher in
    if suite =? 0 then Ret (-1, b)
    else
      b ← RSN_SELECTOR_PUT b pos suite;
      let pos := pos + RSN_SELECTOR_LEN in
      let suite := wpa_cipher_to_suite WPA_PROTO_RSN pairwise_cipher in
      if bad_pairwise pairwise_cipher suite then b ← WPA_PUT_LE16 b pos 1; Ret (-1, b)
      else
        b ← WPA_PUT_LE16 b pos 1;
        b ← RSN_SELECTOR_PUT b (pos + 2) suite;
        let pos := pos + 2 + RSN_SELECTOR_LEN in
        b ← WPA_PUT_LE16 b pos 1;
        b ← RSN_SELECTOR_PUT b (pos + 2) RSN_AUTH_KEY_MGMT_OSEN;
        let pos := pos + 2 + RSN_SELECTOR_LEN in
        b ← buf_set b 1 ((pos - 2) mod 256);
        Ret (pos, b).

Definition wpa_gen_wpa_ie (sm : wpa_sm) (b : buf) (wpa_ie_len : Z) : outcome (Z * buf) :=
  if sm_proto sm =? WPA_PROTO_RSN then
    wpa_gen_wpa_ie_rsn b wpa_ie_len (sm_pairwise_cipher sm) (sm_group_cipher sm) (sm_key_mgmt sm)
      (sm_mgmt_group_cipher sm) sm
  else if CONFIG_HS20 cfg && (sm_proto sm =? WPA_PROTO_OSEN) then
    wpa_gen_wpa_ie_osen b wpa_ie_len (sm_pairwise_cipher sm) (sm_group_cipher sm) (sm_key_mgmt sm)
  else
    wpa_gen_wpa_ie_wpa b wpa_ie_len (sm_pairwise_cipher sm) (sm_group_cipher sm) (sm_key_mgmt sm).

End build.
