(* ===== verification/WpaCommon.v ===== *)
(** * Names, choices and lists of suites (src/common/wpa_common.c)

    The rest of wpa_common.c that needs no cryptography: names of suites and
    lists of them as text, the choice of a cipher, key lengths, the fast
    transition elements of a frame, and the insertion of a PMKID into one. *)

From S2P Require Import Prelude CString Scan Smartlist CliUtil Common WpaIe.

(** ** Names *)

Definition wpa_cipher_txt (cipher : Z) : str :=
  if cipher =? WPA_CIPHER_NONE then lit "NONE"
  else if cipher =? WPA_CIPHER_WEP40 then lit "WEP-40"
  else if cipher =? WPA_CIPHER_WEP104 then lit "WEP-104"
  else if cipher =? WPA_CIPHER_TKIP then lit "TKIP"
  else if cipher =? WPA_CIPHER_CCMP then lit "CCMP"
  else if cipher =? Z.lor WPA_CIPHER_CCMP WPA_CIPHER_TKIP then lit "CCMP+TKIP"
  else if cipher =? WPA_CIPHER_GCMP then lit "GCMP"
  else if cipher =? WPA_CIPHER_GCMP_256 then lit "GCMP-256"
  else if cipher =? WPA_CIPHER_CCMP_256 then lit "CCMP-256"
  else if cipher =? WPA_CIPHER_GTK_NOT_USED then lit "GTK_NOT_USED"
  else lit "UNKNOWN".

Section build.
Context (cfg : build).

Definition wpa_key_mgmt_txt (key_mgmt proto : Z) : str :=
  let both := proto =? Z.lor WPA_PROTO_RSN WPA_PROTO_WPA in
  if key_mgmt =? WPA_KEY_MGMT_IEEE8021X then
    if both then lit "WPA2+WPA/IEEE 802.1X/EAP"
    else if proto =? WPA_PROTO_RSN then lit "WPA2/IEEE 802.1X/EAP" else lit "WPA/IEEE 802.1X/EAP"
  else if key_mgmt =? WPA_KEY_MGMT_PSK then
    if both then lit "WPA2-PSK+WPA-PSK"
    else if proto =? WPA_PROTO_RSN then lit "WPA2-PSK" else lit "WPA-PSK"
  else if key_mgmt =? WPA_KEY_MGMT_NONE then lit "NONE"
  else if key_mgmt =? WPA_KEY_MGMT_WPA_NONE then lit "WPA-NONE"
  else if key_mgmt =? WPA_KEY_MGMT_IEEE8021X_NO_WPA then lit "IEEE 802.1X (no WPA)"
  else if CONFIG_IEEE80211R cfg && (key_mgmt =? WPA_KEY_MGMT_FT_IEEE8021X) then lit "FT-EAP"
  else if CONFIG_IEEE80211R cfg && (key_mgmt =? WPA_KEY_MGMT_FT_PSK) then lit "FT-PSK"
  else if CONFIG_IEEE80211W cfg && (key_mgmt =? WPA_KEY_MGMT_IEEE8021X_SHA256) then
    lit "WPA2-EAP-SHA256"
  else if CONFIG_IEEE80211W cfg && (key_mgmt =? WPA_KEY_MGMT_PSK_SHA256) then
    lit "WPA2-PSK-SHA256"
  else if key_mgmt =? WPA_KEY_MGMT_WPS then lit "WPS"
  else if key_mgmt =? WPA_KEY_MGMT_SAE then lit "SAE"
  else if key_mgmt =? WPA_KEY_MGMT_FT_SAE then lit "FT-SAE"
  else if key_mgmt =? WPA_KEY_MGMT_OSEN then lit "OSEN"
  else if key_mgmt =? WPA_KEY_MGMT_IEEE8021X_SUITE_B then lit "WPA2-EAP-SUITE-B"
  else if key_mgmt =? WPA_KEY_MGMT_IEEE8021X_SUITE_B_192 then lit "WPA2-EAP-SUITE-B-192"
  else lit "UNKNOWN".

Definition WLAN_AKM_SUITE_8021X : Z := 0x000FAC01.
Definition WLAN_AKM_SUITE_PSK : Z := 0x000FAC02.
Definition WLAN_AKM_SUITE_FT_8021X : Z := 0x000FAC03.
Definition WLAN_AKM_SUITE_FT_PSK : Z := 0x000FAC04.
Definition WLAN_AKM_SUITE_8021X_SHA256 : Z := 0x000FAC05.
Definition WLAN_AKM_SUITE_PSK_SHA256 : Z := 0x000FAC06.
Definition WLAN_AKM_SUITE_8021X_SUITE_B : Z := 0x000FAC11.
Definition WLAN_AKM_SUITE_8021X_SUITE_B_192 : Z := 0x000FAC12.
Definition WLAN_AKM_SUITE_CCKM : Z := 0x00409600.
Definition WLAN_AKM_SUITE_OSEN : Z := 0x506f9a01.

Definition wpa_akm_to_suite (akm : Z) : Z :=
  if has akm WPA_KEY_MGMT_FT_IEEE8021X then WLAN_AKM_SUITE_FT_8021X
  else if has akm WPA_KEY_MGMT_FT_PSK then WLAN_AKM_SUITE_FT_PSK
  else if has akm WPA_KEY_MGMT_IEEE8021X then WLAN_AKM_SUITE_8021X
  else if has akm WPA_KEY_MGMT_IEEE8021X_SHA256 then WLAN_AKM_SUITE_8021X_SHA256
  else if has akm WPA_KEY_MGMT_IEEE8021X then WLAN_AKM_SUITE_8021X
  else if has akm WPA_KEY_MGMT_PSK_SHA256 then WLAN_AKM_SUITE_PSK_SHA256
  else if has akm WPA_KEY_MGMT_PSK then WLAN_AKM_SUITE_PSK
  else if has akm WPA_KEY_MGMT_CCKM then WLAN_AKM_SUITE_CCKM
  else if has akm WPA_KEY_MGMT_OSEN then WLAN_AKM_SUITE_OSEN
  else if has akm WPA_KEY_MGMT_IEEE8021X_SUITE_B then WLAN_AKM_SUITE_8021X_SUITE_B
  else if has akm WPA_KEY_MGMT_IEEE8021X_SUITE_B_192 then WLAN_AKM_SUITE_8021X_SUITE_B_192
  else 0.

(** ** Ciphers *)

Definition wpa_kck_len (akmp : Z) : Z :=
  if akmp =? WPA_KEY_MGMT_IEEE8021X_SUITE_B_192 then 24 else 16.
Definition wpa_kek_len (akmp : Z) : Z :=
  if akmp =? WPA_KEY_MGMT_IEEE8021X_SUITE_B_192 then 32 else 16.
Definition wpa_mic_len (akmp : Z) : Z :=
  if akmp =? WPA_KEY_MGMT_IEEE8021X_SUITE_B_192 then 24 else 16.

Definition wpa_cipher_key_len (cipher : Z) : Z :=
  if (cipher =? WPA_CIPHER_CCMP_256) || (cipher =? WPA_CIPHER_GCMP_256)
     || (cipher =? WPA_CIPHER_BIP_GMAC_256) || (cipher =? WPA_CIPHER_BIP_CMAC_256) then 32
  else if (cipher =? WPA_CIPHER_CCMP) || (cipher =? WPA_CIPHER_GCMP)
     || (cipher =? WPA_CIPHER_AES_128_CMAC) || (cipher =? WPA_CIPHER_BIP_GMAC_128) then 16
  else if cipher =? WPA_CIPHER_TKIP then 32
  else 0.

Definition wpa_cipher_rsc_len (cipher : Z) : Z :=
  if (cipher =? WPA_CIPHER_CCMP_256) || (cipher =? WPA_CIPHER_GCMP_256)
     || (cipher =? WPA_CIPHER_CCMP) || (cipher =? WPA_CIPHER_GCMP) || (cipher =? WPA_CIPHER_TKIP)
  then 6 else 0.

Inductive wpa_alg : Type :=
  | WPA_ALG_NONE | WPA_ALG_WEP | WPA_ALG_TKIP | WPA_ALG_CCMP | WPA_ALG_IGTK | WPA_ALG_PMK
  | WPA_ALG_GCMP | WPA_ALG_SMS4 | WPA_ALG_KRK | WPA_ALG_GCMP_256 | WPA_ALG_CCMP_256
  | WPA_ALG_BIP_GMAC_128 | WPA_ALG_BIP_GMAC_256 | WPA_ALG_BIP_CMAC_256.

Definition wpa_cipher_to_alg (cipher : Z) : wpa_alg :=
  if cipher =? WPA_CIPHER_CCMP_256 then WPA_ALG_CCMP_256
  else if cipher =? WPA_CIPHER_GCMP_256 then WPA_ALG_GCMP_256
  else if cipher =? WPA_CIPHER_CCMP then WPA_ALG_CCMP
  else if cipher =? WPA_CIPHER_GCMP then WPA_ALG_GCMP
  else if cipher =? WPA_CIPHER_TKIP then WPA_ALG_TKIP
  else if cipher =? WPA_CIPHER_AES_128_CMAC then WPA_ALG_IGTK
  else if cipher =? WPA_CIPHER_BIP_GMAC_128 then WPA_ALG_BIP_GMAC_128
  else if cipher =? WPA_CIPHER_BIP_GMAC_256 then WPA_ALG_BIP_GMAC_256
  else if cipher =? WPA_CIPHER_BIP_CMAC_256 then WPA_ALG_BIP_CMAC_256
  else WPA_ALG_NONE.

(** The ciphers of a list that are in the set, in its order. *)
Fixpoint put_suites (b : buf) (pos ciphers : Z) (l : list (Z * Z)) : outcome (buf * Z) :=
  match l with
  | [] => Ret (b, pos)
  | (c, suite) :: l' =>
      if has ciphers c then
        b ← RSN_SELECTOR_PUT b pos suite; put_suites b (pos + RSN_SELECTOR_LEN) ciphers l'
      else put_suites b pos ciphers l'
  end.

Definition rsn_suites : list (Z * Z) :=
  [(WPA_CIPHER_CCMP_256, RSN_CIPHER_SUITE_CCMP_256); (WPA_CIPHER_GCMP_256, RSN_CIPHER_SUITE_GCMP_256);
   (WPA_CIPHER_CCMP, RSN_CIPHER_SUITE_CCMP); (WPA_CIPHER_GCMP, RSN_CIPHER_SUITE_GCMP);
   (WPA_CIPHER_TKIP, RSN_CIPHER_SUITE_TKIP); (WPA_CIPHER_NONE, RSN_CIPHER_SUITE_NONE)].

Definition wpa_suites : list (Z * Z) :=
  [(WPA_CIPHER_CCMP, WPA_CIPHER_SUITE_CCMP); (WPA_CIPHER_TKIP, WPA_CIPHER_SUITE_TKIP);
   (WPA_CIPHER_NONE, WPA_CIPHER_SUITE_NONE)].

Definition rsn_cipher_put_suites (b : buf) (start ciphers : Z) : outcome (Z * buf) :=
  '(b, pos) ← put_suites b start ciphers rsn_suites;
  Ret ((pos - start) / RSN_SELECTOR_LEN, b).

Definition wpa_cipher_put_suites (b : buf) (start ciphers : Z) : outcome (Z * buf) :=
  '(b, pos) ← put_suites b start ciphers wpa_suites;
  Ret ((pos - start) / RSN_SELECTOR_LEN, b).

Definition wpa_pick_pairwise_cipher (ciphers : Z) (none_allowed : bool) : Z :=
  if has ciphers WPA_CIPHER_CCMP_256 then WPA_CIPHER_CCMP_256
  else if has ciphers WPA_CIPHER_GCMP_256 then WPA_CIPHER_GCMP_256
  else if has ciphers WPA_CIPHER_CCMP then WPA_CIPHER_CCMP
  else if has ciphers WPA_CIPHER_GCMP then WPA_CIPHER_GCMP
  else if has ciphers WPA_CIPHER_TKIP then WPA_CIPHER_TKIP
  else if none_allowed && has ciphers WPA_CIPHER_NONE then WPA_CIPHER_NONE
  else -1.

Definition wpa_pick_group_cipher (ciphers : Z) : Z :=
  if has ciphers WPA_CIPHER_CCMP_256 then WPA_CIPHER_CCMP_256
  else if has ciphers WPA_CIPHER_GCMP_256 then WPA_CIPHER_GCMP_256
  else if has ciphers WPA_CIPHER_CCMP then WPA_CIPHER_CCMP
  else if has ciphers WPA_CIPHER_GCMP then WPA_CIPHER_GCMP
  else if has ciphers WPA_CIPHER_GTK_NOT_USED then WPA_CIPHER_GTK_NOT_USED
  else if has ciphers WPA_CIPHER_TKIP then WPA_CIPHER_TKIP
  else -1.

(** [(x & mask) == f]. *)
Definition only (x mask f : Z) : bool := Z.land x mask =? f.

Definition wpa_select_ap_group_cipher (wpa wpa_pairwise rsn_pairwise : Z) : Z :=
  let pairwise := if has wpa 1 then Z.lor 0 wpa_pairwise else 0 in
  let pairwise := if has wpa 2 then Z.lor pairwise rsn_pairwise else pairwise in
  if has pairwise WPA_CIPHER_TKIP then WPA_CIPHER_TKIP
  else if only pairwise (Z.lor WPA_CIPHER_CCMP WPA_CIPHER_GCMP) WPA_CIPHER_GCMP
  then WPA_CIPHER_GCMP
  else if only pairwise (Z.lor (Z.lor WPA_CIPHER_GCMP_256 WPA_CIPHER_CCMP) WPA_CIPHER_GCMP)
            WPA_CIPHER_GCMP_256 then WPA_CIPHER_GCMP_256
  else if only pairwise (Z.lor (Z.lor WPA_CIPHER_CCMP_256 WPA_CIPHER_CCMP) WPA_CIPHER_GCMP)
            WPA_CIPHER_CCMP_256 then WPA_CIPHER_CCMP_256
  else WPA_CIPHER_CCMP.

(** ** Lists of ciphers as text *)

Definition is_blank (c : Z) : bool := (c =? SP) || (c =? TAB).

(** The ciphers a configuration can name. *)
Definition cipher_names : list (str * Z) :=
  [(lit "CCMP-256", WPA_CIPHER_CCMP_256); (lit "GCMP-256", WPA_CIPHER_GCMP_256);
   (lit "CCMP", WPA_CIPHER_CCMP); (lit "GCMP", WPA_CIPHER_GCMP); (lit "TKIP", WPA_CIPHER_TKIP);
   (lit "WEP104", WPA_CIPHER_WEP104); (lit "WEP40", WPA_CIPHER_WEP40);
   (lit "NONE", WPA_CIPHER_NONE); (lit "GTK_NOT_USED", WPA_CIPHER_GTK_NOT_USED)].

Fixpoint named {A} (l : list (str * A)) (s : str) : option A :=
  match l with
  | [] => None
  | (n, x) :: l' => if str_eqb s n then Some x else named l' s
  end.

Fixpoint cipher_loop (fuel : nat) (start : str) (val : Z) : outcome Z :=
  match fuel with
  | O => OutOfFuel
  | S fuel' =>
      let start := snd (span is_blank start) in
      match start with
      | [] => Ret val
      | _ =>
          let '(name, rest) := span (λ c, negb (is_blank c)) start in
          match named cipher_names name with
          | None => Ret (-1)
          | Some bit =>
              let val := Z.lor val bit in
              match rest with
              | [] => Ret val
              | _ :: rest' => cipher_loop fuel' rest' val
              end
          end
      end
  end.

Definition wpa_parse_cipher (malloc_ok : Z → bool) (value : str) : outcome Z :=
  if negb (malloc_ok (strlen value + 1)) then Ret (-1)
  else cipher_loop (S (length value)) value 0.

(** The ciphers that are written, in their order. *)
Definition written_ciphers : list (Z * str) :=
  [(WPA_CIPHER_CCMP_256, lit "CCMP-256"); (WPA_CIPHER_GCMP_256, lit "GCMP-256");
   (WPA_CIPHER_CCMP, lit "CCMP"); (WPA_CIPHER_GCMP, lit "GCMP"); (WPA_CIPHER_TKIP, lit "TKIP");
   (WPA_CIPHER_NONE, lit "NONE")].

Fixpoint write_names (b : buf) (start pos end_ ciphers : Z) (delim : str) (l : list (Z * str))
    : outcome (option Z * buf) :=
  match l with
  | [] => Ret (Some pos, b)
  | (c, name) :: l' =>
      if has ciphers c then
        '(r, b) ← append b pos end_ ((if pos =? start then [] else delim) ++ name);
        match r with
        | None => Ret (None, b)
        | Some pos => write_names b start pos end_ ciphers delim l'
        end
      else write_names b start pos end_ ciphers delim l'
  end.

Definition wpa_write_ciphers (b : buf) (start end_ ciphers : Z) (delim : str)
    : outcome (Z * buf) :=
  '(r, b) ← write_names b start start end_ ciphers delim written_ciphers;
  Ret (match r with None => -1 | Some pos => pos - start end, b).

(** ** Comparing elements *)

(** [None] is a null pointer. *)
Definition wpa_compare_rsn_ie (ft_initial_assoc : bool) (ie1 ie2 : option (list Z)) : outcome Z :=
  match ie1, ie2 with
  | Some i1, Some i2 =>
      if str_eqb i1 i2 then Ret 0
      else if CONFIG_IEEE80211R cfg && ft_initial_assoc then
        '(r1, d1) ← wpa_parse_wpa_ie_rsn cfg i1 (strlen i1);
        if r1 <? 0 then Ret (-1)
        else
          '(r2, d2) ← wpa_parse_wpa_ie_rsn cfg i2 (strlen i2);
          if r2 <? 0 then Ret (-1)
          else if (proto d1 =? proto d2) && (pairwise_cipher d1 =? pairwise_cipher d2)
                  && (group_cipher d1 =? group_cipher d2) && (key_mgmt d1 =? key_mgmt d2)
                  && (capabilities d1 =? capabilities d2)
                  && (mgmt_group_cipher d1 =? mgmt_group_cipher d2)
          then Ret 0 else Ret (-1)
      else Ret (-1)
  | _, _ => Ret (-1)
  end.

(** ** Inserting a PMKID *)

Definition get_le16 (b : buf) (i : Z) : outcome Z :=
  x ← buf_get b i; y ← buf_get b (i + 1); Ret (Z.lor (Z.shiftl y 8) x).

(** The RSN element among the elements up to [end_]. *)
Fixpoint find_rsn (fuel : nat) (b : buf) (start end_ : Z) : outcome Z :=
  match fuel with
  | O => OutOfFuel
  | S fuel' =>
      if end_ <=? start then Ret start
      else
        id ← buf_get b start;
        if id =? WLAN_EID_RSN then Ret start
        else len ← buf_get b (start + 1); find_rsn fuel' b (start + 2 + len) end_
  end.

(** [start[1] += n]. *)
Definition grow_element (b : buf) (start n : Z) : outcome buf :=
  l ← buf_get b (start + 1); buf_set b (start + 1) ((l + n) mod 256).

(** The PMKID where there is no count of them yet. *)
Definition add_pmkid_list (b : buf) (start rpos end_ added : Z) (pmkid : list Z)
    : outcome (Z * (buf * Z)) :=
  b ← cells_copy b (rpos + 2 + PMKID_LEN) b rpos (end_ + added - rpos);
  b ← WPA_PUT_LE16 b rpos 1;
  b ← buf_write b (rpos + 2) pmkid;
  b ← grow_element b start (2 + PMKID_LEN);
  Ret (0, (b, added + 2 + PMKID_LEN)).

(** The PMKID in the place of those that are there. *)
Definition replace_pmkids (b : buf) (start rpos rend end_ added : Z) (pmkid : list Z)
    : outcome (Z * (buf * Z)) :=
  if rend - rpos <? 2 then Ret (-1, (b, added))
  else
    num_pmkid ← get_le16 b rpos;
    if negb (num_pmkid =? 0) && (rend - rpos - 2 <? num_pmkid * PMKID_LEN)
    then Ret (-1, (b, added))
    else
      '(b, added) ← (if negb (num_pmkid =? 0) then
                       let after := rpos + 2 + num_pmkid * PMKID_LEN in
                       b ← cells_copy b (rpos + 2) b after (rend - after);
                       b ← grow_element b start (- (num_pmkid * PMKID_LEN));
                       Ret (b, added - num_pmkid * PMKID_LEN)
                     else Ret (b, added));
      b ← WPA_PUT_LE16 b rpos 1;
      let rpos := rpos + 2 in
      b ← cells_copy b (rpos + PMKID_LEN) b rpos (end_ + added - rpos);
      b ← buf_write b rpos pmkid;
      b ← grow_element b start PMKID_LEN;
      Ret (0, (b, added + PMKID_LEN)).

Definition wpa_insert_pmkid (ies : buf) (ies_len : Z) (pmkid : list Z)
    : outcome (Z * (buf * Z)) :=
  let end_ := ies_len in
  start ← find_rsn (S (length ies)) ies 0 end_;
  if end_ <=? start then Ret (-1, (ies, ies_len))
  else
    let rpos := start + 2 in
    l ← buf_get ies (start + 1);
    let rend := rpos + l in
    let rpos := rpos + (2 + 4) in
    n ← get_le16 ies rpos;
    let rpos := rpos + (2 + n * RSN_SELECTOR_LEN) in
    n ← get_le16 ies rpos;
    let rpos := rpos + (2 + n * RSN_SELECTOR_LEN) in
    '(b, (rpos, rend, added)) ←
      (if rpos =? rend then
         b ← cells_copy ies (rpos + 2) ies rpos (end_ - rpos);
         b ← buf_set b rpos 0; b ← buf_set b (rpos + 1) 0;
         b ← grow_element b start 2;
         Ret (b, (rpos + 2, rpos + 2, 2))
       else Ret (ies, (rpos + 2, rend, 0)));
    if rend <? rpos then Ret (-1, (b, ies_len))
    else
      '(r, (b, added)) ← (if rpos =? rend then add_pmkid_list b start rpos end_ added pmkid
                          else replace_pmkids b start rpos rend end_ added pmkid);
      if r <? 0 then Ret (-1, (b, ies_len)) else Ret (0, (b, ies_len + added)).

(** ** Fast transition elements *)

(** Offsets into the frame; [None] is a null pointer. *)
Record wpa_ft_ies : Type := FtIes {
  mdie : option Z; mdie_len : Z;
  ftie : option Z; ftie_len : Z;
  r1kh_id : option Z;
  gtk : option Z; gtk_len : Z;
  r0kh_id : option Z; r0kh_id_len : Z;
  rsn : option Z; rsn_len : Z;
  rsn_pmkid : option Z;
  tie : option Z; tie_len : Z;
  igtk : option Z; igtk_len : Z;
  ric : option Z; ric_len : Z
}.

Definition ft_none : wpa_ft_ies :=
  FtIes None 0 None 0 None None 0 None 0 None 0 None None 0 None 0 None 0.

Definition set_mdie (p : wpa_ft_ies) (x n : Z) : wpa_ft_ies :=
  FtIes (Some x) n (ftie p) (ftie_len p) (r1kh_id p) (gtk p) (gtk_len p) (r0kh_id p)
    (r0kh_id_len p) (rsn p) (rsn_len p) (rsn_pmkid p) (tie p) (tie_len p) (igtk p) (igtk_len p)
    (ric p) (ric_len p).
Definition set_ftie (p : wpa_ft_ies) (x n : Z) : wpa_ft_ies :=
  FtIes (mdie p) (mdie_len p) (Some x) n (r1kh_id p) (gtk p) (gtk_len p) (r0kh_id p)
    (r0kh_id_len p) (rsn p) (rsn_len p) (rsn_pmkid p) (tie p) (tie_len p) (igtk p) (igtk_len p)
    (ric p) (ric_len p).
Definition set_r1kh_id (p : wpa_ft_ies) (x : Z) : wpa_ft_ies :=
  FtIes (mdie p) (mdie_len p) (ftie p) (ftie_len p) (Some x) (gtk p) (gtk_len p) (r0kh_id p)
    (r0kh_id_len p) (rsn p) (rsn_len p) (rsn_pmkid p) (tie p) (tie_len p) (igtk p) (igtk_len p)
    (ric p) (ric_len p).
Definition set_gtk (p : wpa_ft_ies) (x n : Z) : wpa_ft_ies :=
  FtIes (mdie p) (mdie_len p) (ftie p) (ftie_len p) (r1kh_id p) (Some x) n (r0kh_id p)
    (r0kh_id_len p) (rsn p) (rsn_len p) (rsn_pmkid p) (tie p) (tie_len p) (igtk p) (igtk_len p)
    (ric p) (ric_len p).
Definition set_r0kh_id (p : wpa_ft_ies) (x n : Z) : wpa_ft_ies :=
  FtIes (mdie p) (mdie_len p) (ftie p) (ftie_len p) (r1kh_id p) (gtk p) (gtk_len p) (Some x) n
    (rsn p) (rsn_len p) (rsn_pmkid p) (tie p) (tie_len p) (igtk p) (igtk_len p) (ric p)
    (ric_len p).
Definition set_rsn (p : wpa_ft_ies) (x n : Z) : wpa_ft_ies :=
  FtIes (mdie p) (mdie_len p) (ftie p) (ftie_len p) (r1kh_id p) (gtk p) (gtk_len p) (r0kh_id p)
    (r0kh_id_len p) (Some x) n (rsn_pmkid p) (tie p) (tie_len p) (igtk p) (igtk_len p) (ric p)
    (ric_len p).
Definition set_rsn_pmkid (p : wpa_ft_ies) (x : option Z) : wpa_ft_ies :=
  FtIes (mdie p) (mdie_len p) (ftie p) (ftie_len p) (r1kh_id p) (gtk p) (gtk_len p) (r0kh_id p)
    (r0kh_id_len p) (rsn p) (rsn_len p) x (tie p) (tie_len p) (igtk p) (igtk_len p) (ric p)
    (ric_len p).
Definition set_tie (p : wpa_ft_ies) (x n : Z) : wpa_ft_ies :=
  FtIes (mdie p) (mdie_len p) (ftie p) (ftie_len p) (r1kh_id p) (gtk p) (gtk_len p) (r0kh_id p)
    (r0kh_id_len p) (rsn p) (rsn_len p) (rsn_pmkid p) (Some x) n (igtk p) (igtk_len p) (ric p)
    (ric_len p).
Definition set_igtk (p : wpa_ft_ies) (x n : Z) : wpa_ft_ies :=
  FtIes (mdie p) (mdie_len p) (ftie p) (ftie_len p) (r1kh_id p) (gtk p) (gtk_len p) (r0kh_id p)
    (r0kh_id_len p) (rsn p) (rsn_len p) (rsn_pmkid p) (tie p) (tie_len p) (Some x) n (ric p)
    (ric_len p).
Definition set_ric (p : wpa_ft_ies) (x : option Z) (n : Z) : wpa_ft_ies :=
  FtIes (mdie p) (mdie_len p) (ftie p) (ftie_len p) (r1kh_id p) (gtk p) (gtk_len p) (r0kh_id p)
    (r0kh_id_len p) (rsn p) (rsn_len p) (rsn_pmkid p) (tie p) (tie_len p) (igtk p) (igtk_len p)
    x n.

Section ft.
Context (m : list Z).

Definition SIZEOF_RSN_FTIE : Z := 2 + 16 + 32 + 32.
Definition FT_R1KH_ID_LEN : Z := 6.
Definition FT_R0KH_ID_MAX_LEN : Z := 48.

(** One subelement of [len] bytes at [pos]. *)
Definition ft_subelem (id pos len : Z) (parse : wpa_ft_ies) : Z * wpa_ft_ies :=
  if id =? 1 then
    if negb (len =? FT_R1KH_ID_LEN) then (-1, parse) else (0, set_r1kh_id parse pos)
  else if id =? 2 then (0, set_gtk parse pos len)
  else if id =? 3 then
    if (len <? 1) || (FT_R0KH_ID_MAX_LEN <? len) then (-1, parse)
    else (0, set_r0kh_id parse pos len)
  else if CONFIG_IEEE80211W cfg && (id =? 4) then (0, set_igtk parse pos len)
  else (0, parse).

Fixpoint ftie_loop (fuel : nat) (pos end_ : Z) (parse : wpa_ft_ies)
    : outcome (Z * wpa_ft_ies) :=
  match fuel with
  | O => OutOfFuel
  | S fuel' =>
      if end_ - pos <? 2 then Ret (0, parse)
      else
        id ← u8_at m pos; len ← u8_at m (pos + 1);
        let pos := pos + 2 in
        if end_ - pos <? len then Ret (0, parse)
        else
          let '(r, parse) := ft_subelem id pos len parse in
          if r <? 0 then Ret (r, parse) else ftie_loop fuel' (pos + len) end_ parse
  end.

Definition wpa_ft_parse_ftie (ie ie_len : Z) (parse : wpa_ft_ies) : outcome (Z * wpa_ft_ies) :=
  let parse := set_ftie parse ie ie_len in
  ftie_loop (S (Z.to_nat ie_len)) (ie + SIZEOF_RSN_FTIE) (ie + ie_len) parse.

(** One element of [len] bytes at [pos], and the count of protected elements. *)
Definition ft_element (id pos len prot : Z) (parse : wpa_ft_ies)
    : outcome (Z * (wpa_ft_ies * Z)) :=
  if id =? WLAN_EID_RSN then
    let parse := set_rsn parse pos len in
    '(ret, data) ← wpa_parse_wpa_ie_rsn cfg (drop (Z.to_nat (pos - 2)) m) (len + 2);
    if ret <? 0 then Ret (-1, (parse, prot))
    else
      Ret (0, (match pmkid data with
               | Some p => if num_pmkid data =? 1 then set_rsn_pmkid parse (Some (pos - 2 + p))
                           else parse
               | None => parse
               end, prot))
  else if id =? 54 then
    if len <? 3 then Ret (-1, (parse, prot)) else Ret (0, (set_mdie parse pos len, prot))
  else if id =? 55 then
    if len <? SIZEOF_RSN_FTIE then Ret (-1, (parse, prot))
    else
      prot ← u8_at m (pos + 1);
      '(r, parse) ← wpa_ft_parse_ftie pos len parse;
      if r <? 0 then Ret (-1, (parse, prot)) else Ret (0, (parse, prot))
  else if id =? 56 then
    if negb (len =? 5) then Ret (0, (parse, prot)) else Ret (0, (set_tie parse pos len, prot))
  else if id =? 57 then
    Ret (0, (match ric parse with None => set_ric parse (Some (pos - 2)) 0 | Some _ => parse end,
             prot))
  else Ret (0, (parse, prot)).

Fixpoint ft_loop (fuel : nat) (pos end_ prot : Z) (parse : wpa_ft_ies)
    : outcome (Z * (wpa_ft_ies * Z)) :=
  match fuel with
  | O => OutOfFuel
  | S fuel' =>
      if end_ - pos <? 2 then Ret (0, (parse, prot))
      else
        id ← u8_at m pos; len ← u8_at m (pos + 1);
        let pos := pos + 2 in
        if end_ - pos <? len then Ret (0, (parse, prot))
        else
          '(r, (parse, prot)) ← ft_element id pos len prot parse;
          if r <? 0 then Ret (-1, (parse, prot)) else ft_loop fuel' (pos + len) end_ prot parse
  end.

(** The end of the RIC elements, of which [prot] are protected. *)
Fixpoint ric_loop (fuel : nat) (pos end_ prot : Z) : outcome (Z * Z) :=
  match fuel with
  | O => OutOfFuel
  | S fuel' =>
      if end_ - pos <? 2 then Ret (pos, prot)
      else
        len ← u8_at m (pos + 1);
        if (end_ - pos <? 2 + len) || (prot =? 0) then Ret (pos, prot)
        else ric_loop fuel' (pos + 2 + len) end_ (prot - 1)
  end.

(** The count of protected elements without those found. *)
Definition prot_left (prot : Z) (parse : wpa_ft_ies) : Z :=
  prot - (match rsn parse with Some _ => 1 | None => 0 end)
       - (match mdie parse with Some _ => 1 | None => 0 end)
       - (match ftie parse with Some _ => 1 | None => 0 end).

Definition wpa_ft_parse_ies (ies_len : Z) : outcome (Z * wpa_ft_ies) :=
  let end_ := ies_len in
  '(r, (parse, prot)) ← ft_loop (S (Z.to_nat ies_len)) 0 end_ 0 ft_none;
  if r <? 0 then Ret (-1, parse)
  else if prot =? 0 then Ret (0, parse)
  else
    let prot := prot_left prot parse in
    if prot <? 0 then Ret (-1, parse)
    else
      match ric parse with
      | Some p =>
          if prot =? 0 then Ret (-1, parse)
          else
            '(pos, prot) ← ric_loop (S (Z.to_nat ies_len)) p end_ prot;
            let parse := set_ric parse (Some p) (pos - p) in
            if negb (prot =? 0) then Ret (-1, parse) else Ret (0, parse)
      | None => if negb (prot =? 0) then Ret (-1, parse) else Ret (0, parse)
      end.
End ft.

End build.
