(* ===== verification/WpaSpec.v ===== *)
(** * Elements of frames: theorems

    Any bytes can be parsed; what is written is what is parsed; lists of
    ciphers as text; what goes wrong when a PMKID is replaced. *)

From S2P Require Import Prelude CString Scan Smartlist CliUtil Common WpaIe WpaCommon.

(** ** Reading *)

Lemma u8_at_Ret m i : 0 ≤ i < Z.of_nat (length m) → ∃ a, u8_at m i = Ret a ∧ a ∈ m.
Proof.
  intros Hi. unfold u8_at. rewrite (proj2 (Z.ltb_ge _ _)) by lia.
  destruct (lookup_lt_is_Some_2 m (Z.to_nat i)) as [a Ha]; [lia|]. rewrite Ha.
  exists a. split; [done|]. by eapply list_elem_of_lookup_2.
Qed.

Lemma shiftl_nonneg a n : 0 ≤ a → 0 ≤ Z.shiftl a n.
Proof. apply Z.shiftl_nonneg. Qed.

Lemma get_le16_Ret m i : byte_list m → 0 ≤ i → i + 2 ≤ Z.of_nat (length m) →
  ∃ a, WPA_GET_LE16 m i = Ret a ∧ 0 ≤ a.
Proof.
  intros Hm Hi Hl. unfold WPA_GET_LE16.
  destruct (u8_at_Ret m i) as (a & -> & Ha); [lia|].
  destruct (u8_at_Ret m (i + 1)) as (b & -> & Hb); [lia|]. ret_simpl.
  unfold byte_list in Hm. rewrite Forall_forall in Hm. pose proof (Hm a Ha). pose proof (Hm b Hb).
  eexists. split; [done|]. apply Z.lor_nonneg. split; [apply Z.shiftl_nonneg|]; lia.
Qed.

Lemma get_be32_Ret m i : 0 ≤ i → i + 4 ≤ Z.of_nat (length m) → ∃ a, WPA_GET_BE32 m i = Ret a.
Proof.
  intros Hi Hl. unfold WPA_GET_BE32.
  destruct (u8_at_Ret m i) as (a & -> & _); [lia|].
  destruct (u8_at_Ret m (i + 1)) as (b & -> & _); [lia|].
  destruct (u8_at_Ret m (i + 2)) as (c & -> & _); [lia|].
  destruct (u8_at_Ret m (i + 3)) as (d & -> & _); [lia|]. by eexists.
Qed.

(** A part of a parser that stays in memory. *)
Section parts.
Context (m : list Z) (Hm : byte_list m).

Definition in_memory (pos left : Z) : Prop :=
  0 ≤ pos ∧ 0 ≤ left ∧ pos + left ≤ Z.of_nat (length m).

(** The PMKIDs that were found are in memory. *)
Definition pmkid_in (d : wpa_ie_data) : Prop :=
  match pmkid d with
  | Some p => 0 ≤ p ∧ 0 ≤ num_pmkid d ∧ p + num_pmkid d * PMKID_LEN ≤ Z.of_nat (length m)
  | None => True
  end.

Definition part_ok (s : parse_step) : Prop := ∀ pos left d,
  in_memory pos left → pmkid_in d →
  ∃ r pos' left' d', s pos left d = Ret (r, (pos', left', d')) ∧ in_memory pos' left' ∧ pmkid_in d'.

Lemma next_step_ok a b : part_ok a → part_ok b → part_ok (next_step a b).
Proof.
  intros Ha Hb pos left d Hp Hd. unfold next_step.
  destruct (Ha pos left d Hp Hd) as (r & pos1 & left1 & d1 & -> & Hp1 & Hd1). ret_simpl.
  destruct (r <? 0); [by exists r, pos1, left1, d1|]. by apply Hb.
Qed.

Lemma suites_loop_ok count to_bits pos acc :
  0 ≤ pos → pos + Z.of_nat count * 4 ≤ Z.of_nat (length m) →
  ∃ v, suites_loop m count to_bits pos acc = Ret v.
Proof.
  revert pos acc. induction count as [|count IH]; intros pos acc Hp Hl; [by eexists|].
  cbn [suites_loop]. unfold RSN_SELECTOR_GET.
  destruct (get_be32_Ret m pos) as [s ->]; [lia|lia|]. ret_simpl.
  apply IH; unfold RSN_SELECTOR_LEN; lia.
Qed.

Lemma suite_list_ok to_bits set botch short :
  (∀ d x, pmkid_in d → pmkid_in (set d x)) → part_ok (suite_list m to_bits set botch short).
Proof.
  intros Hset pos left d Hp Hd. unfold suite_list, in_memory in *.
  case_if; zbool.
  - destruct (get_le16_Ret m pos) as (n & -> & Hn); [done|lia|lia|]. ret_simpl.
    case_if; zbool; [by do 4 eexists; split_and!; [done|lia..|by apply Hset]|].
    unfold RSN_SELECTOR_LEN in *.
    destruct (suites_loop_ok (Z.to_nat n) to_bits (pos + 2) 0) as [v ->]; [lia|lia|]. ret_simpl.
    do 4 eexists. split_and!; [done|lia..|by do 2 apply Hset].
  - case_if; by do 4 eexists.
Qed.

Lemma capabilities_part_ok : part_ok (capabilities_part m).
Proof.
  intros pos left d Hp Hd. unfold capabilities_part, in_memory in *.
  case_if; zbool; [|by do 4 eexists].
  destruct (get_le16_Ret m pos) as (n & -> & _); [done|lia|lia|]. ret_simpl.
  do 4 eexists. split_and!; [done|lia..|exact Hd].
Qed.

Lemma pmkid_part_ok : part_ok (pmkid_part m).
Proof.
  intros pos left d Hp Hd. unfold pmkid_part, in_memory in *.
  case_if; zbool; [|by do 4 eexists].
  destruct (get_le16_Ret m pos) as (n & -> & Hn); [done|lia|lia|]. ret_simpl. unfold PMKID_LEN.
  case_if; zbool; do 4 eexists; (split_and!; [done|lia..|]).
  - unfold pmkid_in in *. cbn. destruct (pmkid d); [|done]. unfold PMKID_LEN in *. lia.
  - unfold pmkid_in. cbn. unfold PMKID_LEN. lia.
Qed.

Lemma one_selector_ok (P : Z → bool) (set : wpa_ie_data → Z → wpa_ie_data) bits n pos left d :
  (∀ d x, pmkid_in d → pmkid_in (set d x)) → in_memory pos left → pmkid_in d → 4 ≤ left →
  ∃ r pos' left' d',
    (s ← RSN_SELECTOR_GET m pos;
     if negb (P (bits s)) then Ret (n, (pos, left, set d (bits s)))
     else Ret (0, (pos + 4, left - 4, set d (bits s)))) = Ret (r, (pos', left', d')) ∧
    in_memory pos' left' ∧ pmkid_in d'.
Proof.
  intros Hset Hp Hd Hl. unfold RSN_SELECTOR_GET, in_memory in *.
  destruct (get_be32_Ret m pos) as [s ->]; [lia|lia|]. ret_simpl.
  destruct (negb _); do 4 eexists; (split_and!; [done|lia..|by apply Hset]).
Qed.

Lemma rsn_parts_ok cfg : part_ok (rsn_parts cfg m).
Proof.
  unfold rsn_parts. repeat apply next_step_ok.
  - intros pos left d Hp Hd. unfold rsn_group_part, RSN_SELECTOR_LEN. case_if; zbool.
    + by apply (one_selector_ok wpa_cipher_valid_group set_group).
    + case_if; by do 4 eexists.
  - by apply suite_list_ok.
  - intros pos left d Hp Hd. case_if; by do 4 eexists.
  - by apply suite_list_ok.
  - apply capabilities_part_ok.
  - apply pmkid_part_ok.
  - intros pos left d Hp Hd. unfold mgmt_group_part, RSN_SELECTOR_LEN.
    destruct (CONFIG_IEEE80211W cfg && (4 <=? left)) eqn:E; [|by do 4 eexists]. zbool.
    by apply (one_selector_ok wpa_cipher_valid_mgmt_group set_mgmt_group).
Qed.

Lemma wpa_parts_ok : part_ok (wpa_parts m).
Proof.
  unfold wpa_parts. repeat apply next_step_ok.
  - intros pos left d Hp Hd. unfold wpa_group_part, WPA_SELECTOR_LEN. case_if; zbool.
    + by apply (one_selector_ok (λ _, true) set_group wpa_selector_to_bitfield 0).
    + case_if; by do 4 eexists.
  - by apply suite_list_ok.
  - by apply suite_list_ok.
  - apply capabilities_part_ok.
Qed.

(** The parser returns, and its PMKIDs are in memory. *)
Definition parses (r : outcome (Z * wpa_ie_data)) : Prop :=
  ∃ ret d, r = Ret (ret, d) ∧ pmkid_in d.

Lemma run_parts s pos left d :
  part_ok s → in_memory pos left → pmkid_in d →
  parses ('(r, (_, _, d)) ← s pos left d; Ret (r, d)).
Proof.
  intros Hs Hp Hd. destruct (Hs pos left d Hp Hd) as (r & p & l & d' & -> & _ & Hd').
  by exists r, d'.
Qed.

Lemma is_osen_ok len : 0 ≤ len ≤ Z.of_nat (length m) → ∃ b, is_osen m len = Ret b.
Proof.
  intros Hl. unfold is_osen. case_if; zbool; [|by eexists].
  destruct (u8_at_Ret m 1) as (l & -> & _); [lia|]. ret_simpl. case_if; [|by eexists].
  destruct (get_be32_Ret m 2) as [t ->]; [lia|lia|]. by eexists.
Qed.

Lemma parse_rsn_ok cfg len : 0 ≤ len ≤ Z.of_nat (length m) → parses (wpa_parse_wpa_ie_rsn cfg m len).
Proof.
  intros Hl. unfold wpa_parse_wpa_ie_rsn.
  case_if; [by do 2 eexists|]. case_if; [by do 2 eexists|]. zbool.
  destruct (is_osen_ok len) as [o Ho]; [done|]. pose proof Ho as Ho2. unfold is_osen in Ho2.
  rewrite Ho. ret_simpl. destruct o.
  { destruct (6 <=? len) eqn:E6; [|done]. zbool.
    apply run_parts; [apply rsn_parts_ok|unfold in_memory; lia|done]. }
  destruct (u8_at_Ret m 0) as (id & -> & _); [lia|]. destruct (u8_at_Ret m 1) as (l & -> & _); [lia|].
  destruct (get_le16_Ret m 2) as (v & -> & _); [done|lia|lia|]. ret_simpl.
  case_if; [by do 2 eexists|].
  apply run_parts; [apply rsn_parts_ok|unfold in_memory; lia|done].
Qed.

Lemma parse_wpa_ok len : 0 ≤ len ≤ Z.of_nat (length m) → parses (wpa_parse_wpa_ie_wpa m len).
Proof.
  intros Hl. unfold wpa_parse_wpa_ie_wpa. case_if; [by do 2 eexists|]. zbool.
  destruct (u8_at_Ret m 0) as (id & -> & _); [lia|]. destruct (u8_at_Ret m 1) as (l & -> & _); [lia|].
  unfold RSN_SELECTOR_GET. destruct (get_be32_Ret m 2) as [o ->]; [lia|lia|].
  destruct (get_le16_Ret m 6) as (v & -> & _); [done|lia|lia|]. ret_simpl.
  case_if; [by do 2 eexists|].
  apply run_parts; [apply wpa_parts_ok|unfold in_memory; lia|done].
Qed.

Lemma parse_ok cfg len : 0 ≤ len ≤ Z.of_nat (length m) → parses (wpa_parse_wpa_ie cfg m len).
Proof.
  intros Hl. unfold wpa_parse_wpa_ie.
  assert (Hr : ∃ b, is_rsn m len = Ret b).
  { unfold is_rsn. case_if; zbool; [|by eexists].
    destruct (u8_at_Ret m 0) as (id & -> & _); [lia|]. by eexists. }
  destruct Hr as [r ->]. ret_simpl. destruct r; [by apply parse_rsn_ok|].
  assert (Ho : ∃ b, is_osen_type m len = Ret b).
  { unfold is_osen_type. case_if; zbool; [|by eexists].
    destruct (u8_at_Ret m 0) as (id & -> & _); [lia|]. ret_simpl. case_if; [|by eexists].
    destruct (u8_at_Ret m 1) as (l & -> & _); [lia|]. ret_simpl. case_if; [|by eexists].
    destruct (get_be32_Ret m 2) as [t ->]; [lia|lia|]. by eexists. }
  destruct Ho as [o ->]. ret_simpl. destruct o; [by apply parse_rsn_ok|by apply parse_wpa_ok].
Qed.
End parts.

(** ** Writing an element and parsing it *)

Lemma buf_write_mid (p X q : buf) s :
  length X = length s → buf_write (p ++ X ++ q) (Z.of_nat (length p)) s = Ret (p ++ cells s ++ q).
Proof.
  intros HX. apply buf_write_Ret. unfold strlen. rewrite !length_app.
  split_and!; [lia|lia|]. rewrite Nat2Z.id, take_app_length. f_equal. f_equal.
  rewrite drop_app_ge by lia.
  replace (length p + length s - length p)%nat with (length X) by lia. by rewrite drop_app_length.
Qed.

(** An element that is being written: its bytes [u] behind the length. *)
Definition element (b : buf) (id : Z) (u : list Z) (room : nat) : Prop :=
  ∃ x w, b = Some id :: x :: cells u ++ w ∧ length w = room.

Lemma element_put b id u room s pos :
  element b id u room → (length s ≤ room)%nat → pos = 2 + strlen u →
  ∃ b', buf_write b pos s = Ret b' ∧ element b' id (u ++ s) (room - length s).
Proof.
  intros (x & w & -> & Hw) Hs ->.
  change (Some id :: x :: cells u ++ w) with ((Some id :: x :: cells u) ++ w).
  rewrite <- (take_drop (length s) w).
  replace (2 + strlen u) with (Z.of_nat (length (Some id :: x :: cells u)))
    by (unfold strlen; cbn [length]; rewrite cells_length; lia).
  rewrite buf_write_mid by (rewrite length_take; lia).
  eexists. split; [done|]. exists x, (drop (length s) w). split; [|by rewrite length_drop, Hw].
  cbn. do 2 f_equal. unfold cells. by rewrite fmap_app, <- app_assoc.
Qed.

Definition le16_bytes (v : Z) : list Z := [Z.land v 255; Z.shiftr v 8 mod 256].

Lemma element_put_le16 b id u room v pos :
  element b id u room → (2 ≤ room)%nat → pos = 2 + strlen u →
  ∃ b', WPA_PUT_LE16 b pos v = Ret b' ∧ element b' id (u ++ le16_bytes v) (room - 2).
Proof.
  intros (x & w & -> & Hw) Hr ->. destruct w as [|w0 [|w1 w]]; simpl in Hw; [lia|lia|].
  unfold WPA_PUT_LE16, buf_set.
  replace (Some id :: x :: cells u ++ w0 :: w1 :: w)
    with ((Some id :: x :: cells u ++ [w0]) ++ [w1] ++ w) by (cbn; by rewrite <- app_assoc).
  replace (2 + strlen u + 1) with (Z.of_nat (length (Some id :: x :: cells u ++ [w0])))
    by (unfold strlen; cbn [length]; rewrite length_app, cells_length; simpl; lia).
  rewrite buf_write_mid by done. ret_simpl.
  replace ((Some id :: x :: cells u ++ [w0]) ++ cells [Z.shiftr v 8 mod 256] ++ w)
    with ((Some id :: x :: cells u) ++ [w0] ++ (cells [Z.shiftr v 8 mod 256] ++ w))
    by (cbn; by rewrite <- app_assoc).
  replace (2 + strlen u) with (Z.of_nat (length (Some id :: x :: cells u)))
    by (unfold strlen; cbn [length]; rewrite cells_length; lia).
  rewrite buf_write_mid by done. eexists. split; [done|]. exists x, w. split; [|lia].
  cbn. do 2 f_equal. unfold cells. rewrite fmap_app, <- app_assoc. done.
Qed.

Lemma element_put_suite b id u room s pos :
  element b id u room → (6 ≤ room)%nat → pos = 2 + strlen u →
  ∃ b', put_one_suite b pos s = Ret b' ∧ element b' id (u ++ [1; 0] ++ be32_bytes s) (room - 6).
Proof.
  intros He Hr ->. unfold put_one_suite, buf_set, RSN_SELECTOR_PUT.
  destruct (element_put b id u room [1] (2 + strlen u) He) as (b1 & -> & H1); [simpl; lia|done|].
  ret_simpl. destruct (element_put b1 id _ _ [0] (2 + strlen u + 1) H1) as (b2 & -> & H2);
    [simpl; lia|rewrite strlen_snoc; lia|]. ret_simpl.
  destruct (element_put b2 id _ _ (be32_bytes s) (2 + strlen u + 2) H2) as (b3 & -> & H3);
    [simpl; lia|rewrite !strlen_snoc; lia|].
  exists b3. split; [done|]. rewrite <- !app_assoc in H3. cbn [length be32_bytes] in H3.
  by replace (room - 6)%nat with (room - 1 - 1 - 4)%nat by lia.
Qed.

(** The length is written last. *)
Lemma element_close b id u room n :
  element b id u room → ∃ b', buf_set b 1 n = Ret b' ∧ built b' (id :: n :: u).
Proof.
  intros (x & w & -> & _). unfold buf_set.
  change (Some id :: x :: cells u ++ w) with ([Some id] ++ [x] ++ (cells u ++ w)).
  change 1 with (Z.of_nat (length [Some id])). rewrite buf_write_mid by done.
  eexists. split; [done|]. unfold built. cbn [length app take cells fmap list_fmap].
  do 2 f_equal. by rewrite take_app_length' by by rewrite cells_length.
Qed.

Lemma element_start b id :
  (2 ≤ length b)%nat → ∃ b', buf_set b 0 id = Ret b' ∧ element b' id [] (length b - 2).
Proof.
  destruct b as [|c [|d b]]; cbn [length]; intros H; [lia|lia|].
  unfold buf_set. change (c :: d :: b) with ([] ++ [c] ++ (d :: b)).
  change 0 with (Z.of_nat (length (@nil (option Z)))). rewrite buf_write_mid by done.
  eexists. split; [done|]. exists d, b. split; [done|]. cbn. lia.
Qed.

(** Reading back. *)
Lemma u8_at_in p s q i c : s !! Z.to_nat i = Some c → 0 ≤ i → u8_at (p ++ s ++ q) (strlen p + i) = Ret c.
Proof.
  intros Hs Hi. unfold u8_at. pose proof (strlen_nonneg p). rewrite (proj2 (Z.ltb_ge _ _)) by lia.
  replace (Z.to_nat (strlen p + i)) with (length p + Z.to_nat i)%nat by (unfold strlen; lia).
  rewrite lookup_app_r by lia. replace (length p + Z.to_nat i - length p)%nat with (Z.to_nat i) by lia.
  rewrite lookup_app_l by by eapply lookup_lt_Some. by rewrite Hs.
Qed.

Lemma land_255 v : Z.land v 255 = v mod 256.
Proof. change 255 with (Z.ones 8). by rewrite Z.land_ones. Qed.

(** A number from its low bytes. *)
Lemma lor_byte x y : 0 ≤ y < 256 → Z.lor (Z.shiftl x 8) y = x * 256 + y.
Proof.
  intros Hy. rewrite Z.shiftl_mul_pow2 by lia. change (2 ^ 8) with 256.
  rewrite <- Z.add_nocarry_lor; [done|]. apply Z.bits_inj'. intros n Hn.
  rewrite Z.land_spec, Z.bits_0. destruct (Z.ltb_spec n 8).
  - change (x * 256) with (x * 2 ^ 8). rewrite Z.mul_pow2_bits_low by lia. done.
  - rewrite <- (Z.mod_small y (2 ^ 8)) by (change (2 ^ 8) with 256; lia).
    rewrite Z.mod_pow2_bits_high by lia. apply andb_false_r.
Qed.

Lemma be32_value v : 0 ≤ v < 4294967296 →
  Z.lor (Z.lor (Z.lor (Z.shiftl (Z.land (Z.shiftr v 24) 255) 24)
                      (Z.shiftl (Z.land (Z.shiftr v 16) 255) 16))
               (Z.shiftl (Z.land (Z.shiftr v 8) 255) 8)) (Z.land v 255) = v.
Proof.
  intros Hv. rewrite !land_255, !Z.shiftr_div_pow2 by lia.
  change (2 ^ 24) with 16777216. change (2 ^ 16) with 65536. change (2 ^ 8) with 256.
  set (a := v / 16777216 mod 256). set (b := v / 65536 mod 256). set (c := v / 256 mod 256).
  replace (Z.lor (Z.lor (Z.shiftl a 24) (Z.shiftl b 16)) (Z.shiftl c 8))
    with (Z.shiftl (Z.lor (Z.shiftl (Z.lor (Z.shiftl a 8) b) 8) c) 8).
  - rewrite !lor_byte by lia. lia.
  - rewrite !Z.shiftl_lor, !Z.shiftl_shiftl by lia. reflexivity.
Qed.

Lemma get_be32_at p v q : 0 ≤ v < 4294967296 →
  WPA_GET_BE32 (p ++ be32_bytes v ++ q) (strlen p) = Ret v.
Proof.
  intros Hv. unfold WPA_GET_BE32. rewrite <- (Z.add_0_r (strlen p)) at 1.
  rewrite (u8_at_in p (be32_bytes v) q 0 _ eq_refl) by done. ret_simpl.
  rewrite (u8_at_in p (be32_bytes v) q 1 _ eq_refl) by done. ret_simpl.
  rewrite (u8_at_in p (be32_bytes v) q 2 _ eq_refl) by done. ret_simpl.
  rewrite (u8_at_in p (be32_bytes v) q 3 _ eq_refl) by done. ret_simpl. by rewrite be32_value.
Qed.

Lemma get_le16_at p v q : 0 ≤ v < 65536 →
  WPA_GET_LE16 (p ++ le16_bytes v ++ q) (strlen p) = Ret v.
Proof.
  intros Hv. unfold WPA_GET_LE16. rewrite <- (Z.add_0_r (strlen p)) at 1.
  rewrite (u8_at_in p (le16_bytes v) q 0 _ eq_refl) by done. ret_simpl.
  rewrite (u8_at_in p (le16_bytes v) q 1 _ eq_refl) by done. ret_simpl.
  rewrite land_255, lor_byte, Z.shiftr_div_pow2 by lia. change (2 ^ 8) with 256. f_equal. lia.
Qed.

Lemma strlen_be32 v : strlen (be32_bytes v) = 4.
Proof. done. Qed.
Lemma strlen_le16 v : strlen (le16_bytes v) = 2.
Proof. done. Qed.

(** *** The parts of a parsed element *)

Lemma group_part_at cfg m pos left p v q d :
  m = p ++ be32_bytes v ++ q → pos = strlen p → left = 4 + strlen q →
  0 ≤ v < 4294967296 → wpa_cipher_valid_group (rsn_selector_to_bitfield cfg v) = true →
  rsn_group_part cfg m pos left d =
  Ret (0, (strlen p + 4, strlen q, set_group d (rsn_selector_to_bitfield cfg v))).
Proof.
  intros -> -> -> Hv Hg. unfold rsn_group_part, RSN_SELECTOR_LEN, RSN_SELECTOR_GET.
  pose proof (strlen_nonneg q). rewrite (proj2 (Z.leb_le _ _)) by lia.
  rewrite get_be32_at by done. ret_simpl. cbn [group_cipher set_group]. rewrite Hg. cbn [negb].
  by replace (4 + strlen q - 4) with (strlen q) by lia.
Qed.

Lemma suite_list_at m pos left p v q d to_bits set botch short :
  m = p ++ ([1; 0] ++ be32_bytes v) ++ q → pos = strlen p → left = 6 + strlen q →
  0 ≤ v < 4294967296 →
  suite_list m to_bits set botch short pos left d =
  Ret (0, (strlen p + 6, strlen q, set (set d 0) (to_bits v))).
Proof.
  intros -> -> -> Hv. unfold suite_list, RSN_SELECTOR_LEN. pose proof (strlen_nonneg q).
  rewrite (proj2 (Z.leb_le _ _)) by lia. rewrite <- app_assoc.
  change ([1; 0] ++ be32_bytes v ++ q) with (le16_bytes 1 ++ be32_bytes v ++ q).
  rewrite get_le16_at by lia. ret_simpl.
  cbn [Z.eqb orb]. rewrite (proj2 (Z.ltb_ge _ _)) by lia.
  change (Z.to_nat 1) with 1%nat. cbn [suites_loop]. unfold RSN_SELECTOR_GET.
  replace (strlen p + 2) with (strlen (p ++ le16_bytes 1)) by (by rewrite strlen_app).
  rewrite (app_assoc p), get_be32_at by done. ret_simpl. rewrite Z.lor_0_l, strlen_app, strlen_le16.
  do 2 f_equal. f_equal. f_equal; lia.
Qed.

Lemma capabilities_at m pos left p v q d :
  m = p ++ le16_bytes v ++ q → pos = strlen p → left = 2 + strlen q → 0 ≤ v < 65536 →
  capabilities_part m pos left d = Ret (0, (strlen p + 2, strlen q, set_capabilities d v)).
Proof.
  intros -> -> -> Hv. unfold capabilities_part. pose proof (strlen_nonneg q).
  rewrite (proj2 (Z.leb_le _ _)) by lia. rewrite get_le16_at by done. ret_simpl.
  by replace (2 + strlen q - 2) with (strlen q) by lia.
Qed.

Lemma pmkid_at m pos left p n ids q d :
  m = p ++ (le16_bytes n ++ ids) ++ q → pos = strlen p → left = 2 + strlen ids + strlen q →
  0 ≤ n < 65536 → strlen ids = n * 16 →
  pmkid_part m pos left d =
  Ret (0, (strlen p + 2 + strlen ids, strlen q, set_pmkid d n (Some (strlen p + 2)))).
Proof.
  intros -> -> -> Hn Hids. unfold pmkid_part, PMKID_LEN. pose proof (strlen_nonneg q).
  rewrite (proj2 (Z.leb_le _ _)) by lia. rewrite <- app_assoc, get_le16_at by done. ret_simpl.
  rewrite (proj2 (Z.ltb_ge _ _)) by lia. rewrite Hids. do 2 f_equal. f_equal. f_equal; lia.
Qed.

Lemma mgmt_group_at cfg m pos left p v d :
  m = p ++ be32_bytes v → pos = strlen p → left = 4 →
  CONFIG_IEEE80211W cfg = true → 0 ≤ v < 4294967296 →
  wpa_cipher_valid_mgmt_group (rsn_selector_to_bitfield cfg v) = true →
  mgmt_group_part cfg m pos left d =
  Ret (0, (strlen p + 4, 0, set_mgmt_group d (rsn_selector_to_bitfield cfg v))).
Proof.
  intros -> -> -> Hw Hv Hg. unfold mgmt_group_part, RSN_SELECTOR_LEN, RSN_SELECTOR_GET. rewrite Hw.
  cbn [andb Z.leb Z.compare Pos.compare Pos.compare_cont].
  rewrite <- (app_nil_r (be32_bytes v)), get_be32_at by done. ret_simpl.
  cbn [mgmt_group_cipher set_mgmt_group]. rewrite Hg. done.
Qed.

(** *** The whole element *)

Definition selector (v : Z) : Prop := 0 ≤ v < 4294967296.

Lemma group_suite cfg c :
  wpa_cipher_valid_group c = true →
  let v := wpa_cipher_to_suite WPA_PROTO_RSN c in
  selector v ∧ (v =? 0) = false ∧ rsn_selector_to_bitfield cfg v = c.
Proof.
  unfold wpa_cipher_valid_group, wpa_cipher_valid_pairwise. intros H.
  repeat (apply orb_true_iff in H as [H|H]); apply Z.eqb_eq in H as ->;
    destruct cfg as [? [] ? ? ? ? ?]; by vm_compute.
Qed.

Lemma pairwise_suite cfg c :
  wpa_cipher_valid_pairwise c || (c =? WPA_CIPHER_NONE) = true →
  let v := wpa_cipher_to_suite WPA_PROTO_RSN c in
  selector v ∧ bad_pairwise c v = false ∧ rsn_selector_to_bitfield cfg v = c ∧
  has c WPA_CIPHER_AES_128_CMAC = false.
Proof.
  unfold wpa_cipher_valid_pairwise. intros H.
  repeat (apply orb_true_iff in H as [H|H]); apply Z.eqb_eq in H as ->;
    destruct cfg as [? [] ? ? ? ? ?]; by vm_compute.
Qed.

Lemma mgmt_group_suite cfg c :
  CONFIG_IEEE80211W cfg = true → wpa_cipher_valid_mgmt_group c = true →
  let v := wpa_cipher_to_suite WPA_PROTO_RSN c in
  selector v ∧ rsn_selector_to_bitfield cfg v = c.
Proof.
  unfold wpa_cipher_valid_mgmt_group. intros Hw H.
  repeat (apply orb_true_iff in H as [H|H]); apply Z.eqb_eq in H as ->;
    destruct cfg as [? [] ? ? ? ? ?]; by vm_compute.
Qed.

(** What the parser makes of a key management; that of CCKM, which is
    written, is not among those that it knows. *)
Definition parsed_key_mgmt (k : Z) : Z := if k =? WPA_KEY_MGMT_CCKM then 0 else k.

Lemma key_mgmt_suite cfg k v :
  rsn_key_mgmt_suite cfg k = Some v → selector v ∧ rsn_key_mgmt_to_bitfield cfg v = parsed_key_mgmt k.
Proof.
  unfold rsn_key_mgmt_suite. intros H.
  repeat case_match; simplify_eq; zbool; subst; destruct cfg as [[] [] [] ? ? ? ?]; by vm_compute.
Qed.

Definition pmkid_bytes (cfg : build) (sm : wpa_sm) : list Z :=
  match cur_pmksa sm with
  | Some id => le16_bytes 1 ++ id
  | None => if CONFIG_IEEE80211W cfg && wpa_cipher_valid_mgmt_group (sm_mgmt_group_cipher sm)
            then le16_bytes 0 ++ [] else []
  end.

Definition mgmt_bytes (cfg : build) (sm : wpa_sm) : list Z :=
  if CONFIG_IEEE80211W cfg && wpa_cipher_valid_mgmt_group (sm_mgmt_group_cipher sm)
  then be32_bytes (wpa_cipher_to_suite WPA_PROTO_RSN (sm_mgmt_group_cipher sm)) else [].

(** The security policies that an element can hold. *)
Record sm_ok (cfg : build) (sm : wpa_sm) (km : Z) : Prop := SmOk {
  ok_proto : sm_proto sm = WPA_PROTO_RSN;
  ok_group : wpa_cipher_valid_group (sm_group_cipher sm) = true;
  ok_pairwise : wpa_cipher_valid_pairwise (sm_pairwise_cipher sm)
                || (sm_pairwise_cipher sm =? WPA_CIPHER_NONE) = true;
  ok_key_mgmt : rsn_key_mgmt_suite cfg (sm_key_mgmt sm) = Some km;
  ok_pmkid : ∀ id, cur_pmksa sm = Some id → length id = 16%nat ∧ byte_list id
}.

Definition rsn_body (cfg : build) (sm : wpa_sm) (km : Z) : list Z :=
  le16_bytes RSN_VERSION ++ be32_bytes (wpa_cipher_to_suite WPA_PROTO_RSN (sm_group_cipher sm)) ++
  ([1; 0] ++ be32_bytes (wpa_cipher_to_suite WPA_PROTO_RSN (sm_pairwise_cipher sm))) ++
  ([1; 0] ++ be32_bytes km) ++ le16_bytes (rsn_capabilities cfg sm) ++
  pmkid_bytes cfg sm ++ mgmt_bytes cfg sm.

Lemma capabilities_range cfg sm : 0 ≤ rsn_capabilities cfg sm < 65536.
Proof. unfold rsn_capabilities. repeat case_match; by vm_compute. Qed.

Lemma put_pmkid_at cfg sm km b id u room pos :
  sm_ok cfg sm km → element b id u room → (22 ≤ room)%nat → pos = 2 + strlen u →
  ∃ b' pos' u' room', put_pmkid b pos sm = Ret (b', pos') ∧ element b' id (u ++ u') room' ∧
    pos' = 2 + strlen (u ++ u') ∧ (room' = room - length u')%nat ∧ (length u' ≤ 18)%nat ∧
    u' = match cur_pmksa sm with Some i => le16_bytes 1 ++ i | None => [] end.
Proof.
  intros [_ _ _ _ Hid] He Hr ->. unfold put_pmkid.
  destruct (cur_pmksa sm) as [i|]; [|exists b, (2 + strlen u), [], room; rewrite app_nil_r; split_and!;
    [done|done|done|simpl; lia|simpl; lia|done]].
  destruct (Hid i eq_refl) as [Hi _]. unfold buf_set.
  destruct (element_put b id u room [1] (2 + strlen u) He) as (b1 & -> & H1); [simpl; lia|done|].
  ret_simpl. destruct (element_put b1 id _ _ [0] (2 + strlen u + 1) H1) as (b2 & -> & H2);
    [simpl; lia|rewrite strlen_snoc; lia|]. ret_simpl.
  destruct (element_put b2 id _ _ i (2 + strlen u + 2) H2) as (b3 & -> & H3);
    [simpl; lia|rewrite !strlen_snoc; lia|]. ret_simpl.
  exists b3, (2 + strlen u + 2 + PMKID_LEN), (le16_bytes 1 ++ i), (room - 1 - 1 - length i)%nat.
  rewrite <- !app_assoc in H3. split_and!; [done|exact H3| | |rewrite length_app; simpl; lia|done].
  - rewrite !strlen_app, strlen_le16. unfold strlen, PMKID_LEN. rewrite Hi. lia.
  - rewrite length_app. simpl. lia.
Qed.

Lemma put_mgmt_at cfg sm b id u room pos :
  element b id u room → (6 ≤ room)%nat → pos = 2 + strlen u →
  ∃ b' u', put_mgmt_group cfg b pos (sm_mgmt_group_cipher sm) sm = Ret (b', 2 + strlen (u ++ u')) ∧
    element b' id (u ++ u') (room - length u') ∧
    match cur_pmksa sm with Some i => le16_bytes 1 ++ i | None => [] end ++ u' =
      pmkid_bytes cfg sm ++ mgmt_bytes cfg sm.
Proof.
  intros He Hr ->. unfold put_mgmt_group, pmkid_bytes, mgmt_bytes, RSN_SELECTOR_PUT.
  destruct (_ && _).
  2: { exists b, []. rewrite app_nil_r, Nat.sub_0_r. split_and!; [done|done|].
       destruct (cur_pmksa sm); by rewrite ?app_nil_r. }
  set (v := wpa_cipher_to_suite _ _). destruct (cur_pmksa sm) as [i|]; ret_simpl.
  - destruct (element_put b id u room (be32_bytes v) (2 + strlen u) He) as (b1 & -> & H1);
      [simpl; lia|done|]. ret_simpl. exists b1, (be32_bytes v). split_and!; [|done|done].
    rewrite strlen_app, strlen_be32. unfold RSN_SELECTOR_LEN. do 2 f_equal. lia.
  - destruct (element_put_le16 b id u room 0 (2 + strlen u) He) as (b1 & -> & H1); [lia|done|].
    ret_simpl. destruct (element_put b1 id _ _ (be32_bytes v) (2 + strlen u + 2) H1) as (b2 & -> & H2);
      [simpl; lia|rewrite strlen_app, strlen_le16; lia|]. ret_simpl.
    exists b2, (le16_bytes 0 ++ be32_bytes v). rewrite <- app_assoc in H2. split_and!.
    + rewrite !strlen_app, strlen_be32, strlen_le16. unfold RSN_SELECTOR_LEN. do 2 f_equal. lia.
    + rewrite length_app. cbn [length le16_bytes be32_bytes] in *.
      by replace (room - (2 + 4))%nat with (room - 2 - 4)%nat by lia.
    + by rewrite app_nil_r.
Qed.

Lemma gen_rsn_spec cfg sm km b :
  sm_ok cfg sm km → (50 ≤ length b)%nat →
  let u := rsn_body cfg sm km in
  ∃ b', wpa_gen_wpa_ie cfg sm b (Z.of_nat (length b)) = Ret (2 + strlen u, b') ∧
    built b' (WLAN_EID_RSN :: strlen u mod 256 :: u).
Proof.
  intros Hok Hl u. pose proof Hok as [Hp Hg Hpw Hk Hid].
  unfold wpa_gen_wpa_ie, wpa_gen_wpa_ie_rsn. rewrite Hp, Z.eqb_refl, Hk.
  destruct (group_suite cfg _ Hg) as (_ & -> & _). destruct (pairwise_suite cfg _ Hpw) as (_ & -> & _).
  rewrite (proj2 (Z.ltb_ge _ _)).
  2: { unfold RSN_SELECTOR_LEN, PMKID_LEN. destruct (cur_pmksa sm); lia. }
  destruct (element_start b WLAN_EID_RSN) as (b0 & -> & H0); [lia|]. ret_simpl.
  destruct (element_put_le16 b0 _ _ _ RSN_VERSION 2 H0) as (b1 & -> & H1); [lia|done|]. ret_simpl.
  unfold RSN_SELECTOR_PUT at 1.
  destruct (element_put b1 _ _ _ (be32_bytes (wpa_cipher_to_suite WPA_PROTO_RSN (sm_group_cipher sm))) 4 H1)
    as (b2 & -> & H2); [simpl; lia|done|]. ret_simpl.
  destruct (element_put_suite b2 _ _ _ (wpa_cipher_to_suite WPA_PROTO_RSN (sm_pairwise_cipher sm))
              (4 + RSN_SELECTOR_LEN) H2) as (b3 & -> & H3); [simpl; lia|done|]. ret_simpl.
  destruct (element_put_suite b3 _ _ _ km (4 + RSN_SELECTOR_LEN + 2 + RSN_SELECTOR_LEN) H3)
    as (b4 & -> & H4); [simpl; lia|done|]. ret_simpl.
  destruct (element_put_le16 b4 _ _ _ (rsn_capabilities cfg sm)
    (4 + RSN_SELECTOR_LEN + 2 + RSN_SELECTOR_LEN + 2 + RSN_SELECTOR_LEN) H4) as (b5 & -> & H5);
    [simpl; lia|done|]. ret_simpl.
  match goal with |- context [put_pmkid b5 ?p sm] =>
    destruct (put_pmkid_at cfg sm km b5 _ _ _ p Hok H5) as (b6 & p6 & u6 & r6 & -> & H6 & -> & Hr6 & Hu6 & Eu6);
      [simpl; lia|done|] end.
  ret_simpl.
  match goal with |- context [put_mgmt_group cfg b6 ?p _ sm] =>
    destruct (put_mgmt_at cfg sm b6 _ _ _ p H6) as (b7 & u7 & -> & H7 & E7);
      [simpl in *; lia|done|] end.
  ret_simpl. rewrite Eu6, <- !app_assoc, E7 in H7.
  destruct (element_close b7 _ _ _ ((2 + strlen u - 2) mod 256) H7) as (b8 & H8 & H9).
  rewrite <- !app_assoc. rewrite Eu6, E7. change ([] ++ ?x) with x in *.
  change (le16_bytes RSN_VERSION ++ _) with u in H9 |- *. rewrite H8. ret_simpl.
  exists b8. split; [done|]. by replace (2 + strlen u - 2) with (strlen u) in H9 by lia.
Qed.

(** What the parser finds in the element. *)
Definition rsn_data (cfg : build) (sm : wpa_sm) : wpa_ie_data :=
  WpaIeData WPA_PROTO_RSN (sm_pairwise_cipher sm) (sm_group_cipher sm) (parsed_key_mgmt (sm_key_mgmt sm))
    (rsn_capabilities cfg sm)
    (match cur_pmksa sm with Some _ => 1 | None => 0 end)
    (if str_eqb (pmkid_bytes cfg sm) [] then None else Some 24)
    (if CONFIG_IEEE80211W cfg then
       if wpa_cipher_valid_mgmt_group (sm_mgmt_group_cipher sm) then sm_mgmt_group_cipher sm
       else WPA_CIPHER_AES_128_CMAC
     else 0).

Lemma next_step_Ret a b pos left d pos' left' d' :
  a pos left d = Ret (0, (pos', left', d')) → next_step a b pos left d = b pos' left' d'.
Proof. intros H. unfold next_step. by rewrite H. Qed.

Lemma set_mgmt_same d x : mgmt_group_cipher d = x → set_mgmt_group d x = d.
Proof. intros <-. by destruct d. Qed.

Lemma tail_parts cfg sm m p d :
  m = p ++ pmkid_bytes cfg sm ++ mgmt_bytes cfg sm → 
  (∀ id, cur_pmksa sm = Some id → length id = 16%nat ∧ byte_list id) →
  pmkid d = None → num_pmkid d = 0 → strlen p = 22 →
  mgmt_group_cipher d = (if CONFIG_IEEE80211W cfg then WPA_CIPHER_AES_128_CMAC else 0) →
  ∃ pos left, next_step (pmkid_part m) (mgmt_group_part cfg m) (strlen p)
    (strlen (pmkid_bytes cfg sm ++ mgmt_bytes cfg sm)) d =
    Ret (0, (pos, left, set_mgmt_group (set_pmkid d (num_pmkid (rsn_data cfg sm)) (pmkid (rsn_data cfg sm)))
      (mgmt_group_cipher (rsn_data cfg sm)))).
Proof.
  intros Hm Hid Hd Hn Hp Hg. unfold rsn_data. cbn [num_pmkid pmkid mgmt_group_cipher].
  (* The PMKID list. *)
  assert (H1 : ∃ q, pmkid_part m (strlen p) (strlen (pmkid_bytes cfg sm ++ mgmt_bytes cfg sm)) d =
    Ret (0, (strlen q, strlen (mgmt_bytes cfg sm),
             set_pmkid d (match cur_pmksa sm with Some _ => 1 | None => 0 end)
               (if str_eqb (pmkid_bytes cfg sm) [] then None else Some 24))) ∧
    m = q ++ mgmt_bytes cfg sm).
  { exists (p ++ pmkid_bytes cfg sm). rewrite <- app_assoc. split; [|done].
    unfold pmkid_bytes in *. destruct (cur_pmksa sm) as [id|] eqn:Eid.
    - destruct (Hid id eq_refl) as [Hl _].
      rewrite (pmkid_at m _ _ p 1 id (mgmt_bytes cfg sm)) by
        (done || (rewrite ?strlen_app, ?strlen_le16; unfold strlen in *; simpl; lia)).
      rewrite !strlen_app, strlen_le16, Hp. by replace (22 + 2 + strlen id) with (22 + (2 + strlen id)) by lia.
    - destruct (_ && _) eqn:E; [|unfold mgmt_bytes; rewrite E].
      + rewrite (pmkid_at m _ _ p 0 [] (mgmt_bytes cfg sm)) by
          (done || (rewrite ?strlen_app, ?strlen_le16; unfold strlen in *; simpl; lia)).
        rewrite !strlen_app, strlen_le16, Hp. done.
      + assert (Hsame : set_pmkid d 0 None = d) by (destruct d; cbn in *; by subst).
        cbn [app strlen length Z.of_nat str_eqb]. rewrite app_nil_r.
        change (str_eqb [] []) with true. cbv iota. by rewrite Hsame. }
  destruct H1 as (q & H1 & Hq). rewrite (next_step_Ret _ _ _ _ _ _ _ _ H1).
  unfold mgmt_bytes in *. destruct (CONFIG_IEEE80211W cfg) eqn:Ew; cbn [andb] in *;
    [destruct (wpa_cipher_valid_mgmt_group (sm_mgmt_group_cipher sm)) eqn:Ev; cbn [andb] in *|].
  - destruct (mgmt_group_suite cfg _ Ew Ev) as [Hs Hb].
    rewrite (mgmt_group_at cfg m _ _ q (wpa_cipher_to_suite WPA_PROTO_RSN (sm_mgmt_group_cipher sm))), Hb
      by (done || by rewrite Hb). by do 2 eexists.
  - rewrite set_mgmt_same by done. do 2 eexists. unfold mgmt_group_part. by rewrite Ew.
  - rewrite set_mgmt_same by done. do 2 eexists. unfold mgmt_group_part. by rewrite Ew.
Qed.

Lemma rsn_body_short cfg sm km : sm_ok cfg sm km → 20 ≤ strlen (rsn_body cfg sm km) ≤ 46.
Proof.
  intros [_ _ _ _ Hid]. unfold rsn_body, pmkid_bytes, mgmt_bytes, strlen. rewrite !length_app.
  destruct (cur_pmksa sm) as [id|]; [destruct (Hid id eq_refl) as [Hl _]|];
    destruct (_ && _); rewrite ?length_app, ?Hl; simpl; lia.
Qed.

Lemma parse_rsn_body cfg sm km :
  sm_ok cfg sm km →
  let u := rsn_body cfg sm km in
  wpa_parse_wpa_ie cfg (WLAN_EID_RSN :: strlen u mod 256 :: u) (2 + strlen u) =
  Ret (0, rsn_data cfg sm).
Proof.
  intros Hok u. pose proof (rsn_body_short cfg sm km Hok) as Hshort. fold u in Hshort.
  destruct Hok as [Hp Hg Hpw Hk Hid].
  set (g := wpa_cipher_to_suite WPA_PROTO_RSN (sm_group_cipher sm)) in *.
  set (pw := wpa_cipher_to_suite WPA_PROTO_RSN (sm_pairwise_cipher sm)) in *.
  destruct (group_suite cfg _ Hg) as (Hg1 & _ & Hg2). fold g in Hg1, Hg2.
  destruct (pairwise_suite cfg _ Hpw) as (Hp1 & _ & Hp2 & Hp3). fold pw in Hp1, Hp2.
  destruct (key_mgmt_suite cfg _ _ Hk) as [Hk1 Hk2].
  rewrite Z.mod_small by lia. set (m := WLAN_EID_RSN :: strlen u :: u).
  unfold wpa_parse_wpa_ie, is_rsn. rewrite (proj2 (Z.leb_le _ _)) by lia.
  change (u8_at m 0) with (Ret WLAN_EID_RSN). ret_simpl.
  change (WLAN_EID_RSN =? WLAN_EID_RSN) with true. cbv iota. unfold wpa_parse_wpa_ie_rsn. rewrite (proj2 (Z.eqb_neq _ _)), (proj2 (Z.ltb_ge _ _)) by lia.
  assert (Hosen : is_osen m (2 + strlen u) = Ret false).
  { unfold is_osen. rewrite (proj2 (Z.leb_le _ _)) by lia. change (u8_at m 1) with (Ret (strlen u)).
    ret_simpl. rewrite (proj2 (Z.leb_le _ _)) by lia.
    replace (strlen u =? 2 + strlen u - 2) with true by (symmetry; apply Z.eqb_eq; lia). cbn [andb].
    change (WPA_GET_BE32 m 2) with
      (WPA_GET_BE32 ([WLAN_EID_RSN; strlen u] ++ le16_bytes RSN_VERSION ++ be32_bytes g ++
         drop 6 u) 2).
    unfold WPA_GET_BE32.
    change (u8_at _ 2) with (Ret 1). change (u8_at _ (2 + 1)) with (Ret 0).
    change (u8_at _ (2 + 2)) with (Ret (Z.land (Z.shiftr g 24) 255)).
    change (u8_at _ (2 + 3)) with (Ret (Z.land (Z.shiftr g 16) 255)). ret_simpl. f_equal.
    apply Z.eqb_neq. unfold wpa_cipher_valid_group, wpa_cipher_valid_pairwise in Hg.
    revert Hg. unfold g. clear. intros H.
    repeat (apply orb_true_iff in H as [H|H]); apply Z.eqb_eq in H as ->; by vm_compute. }
  rewrite Hosen. ret_simpl. change (u8_at m 0) with (Ret WLAN_EID_RSN).
  change (u8_at m 1) with (Ret (strlen u)). change (WPA_GET_LE16 m 2) with (Ret RSN_VERSION). ret_simpl.
  rewrite Z.eqb_refl. replace (strlen u =? 2 + strlen u - 2) with true by (symmetry; apply Z.eqb_eq; lia).
  cbn [negb orb Z.eqb RSN_VERSION Pos.eqb].
  set (q4 := pmkid_bytes cfg sm ++ mgmt_bytes cfg sm).
  set (q3 := le16_bytes (rsn_capabilities cfg sm) ++ q4).
  set (q2 := ([1; 0] ++ be32_bytes km) ++ q3).
  set (q1 := ([1; 0] ++ be32_bytes pw) ++ q2).
  set (h := [WLAN_EID_RSN; strlen u; 1; 0]).
  assert (Hm : m = h ++ be32_bytes g ++ q1) by done.
  assert (Hu : strlen u = 2 + strlen (be32_bytes g ++ q1)) by (unfold u, rsn_body; by rewrite strlen_app).
  assert (Hq1 : strlen q1 = 6 + strlen q2) by (unfold q1; by rewrite strlen_app).
  assert (Hq2 : strlen q2 = 6 + strlen q3) by (unfold q2; by rewrite strlen_app).
  assert (Hq3 : strlen q3 = 2 + strlen q4) by (unfold q3; by rewrite strlen_app).
  rewrite strlen_app, strlen_be32 in Hu.
  unfold rsn_parts. erewrite next_step_Ret.
  2: { apply (group_part_at cfg m _ _ h g q1); [done|done|lia|done|by rewrite Hg2]. }
  erewrite next_step_Ret.
  2: { unfold rsn_pairwise_part. erewrite next_step_Ret.
       2: { apply (suite_list_at m _ _ (h ++ be32_bytes g) pw q2); [|by rewrite strlen_app|done|done].
            rewrite Hm. unfold q1. by rewrite <- !app_assoc. }
       cbn [pairwise_cipher set_pairwise]. rewrite Hp2, Hp3, andb_false_r. done. }
  erewrite next_step_Ret.
  2: { apply (suite_list_at m _ _ ((h ++ be32_bytes g) ++ ([1; 0] ++ be32_bytes pw)) km q3);
         [|by rewrite !strlen_app|done|done].
       rewrite Hm. unfold q1, q2. by rewrite <- !app_assoc. }
  erewrite next_step_Ret.
  2: { apply (capabilities_at m _ _ (((h ++ be32_bytes g) ++ ([1; 0] ++ be32_bytes pw))
                ++ ([1; 0] ++ be32_bytes km)) (rsn_capabilities cfg sm) q4);
         [|by rewrite !strlen_app|done|apply capabilities_range].
       rewrite Hm. unfold q1, q2, q3. by rewrite <- !app_assoc. }
  set (d := set_capabilities _ _).
  set (p := ((((h ++ be32_bytes g) ++ ([1; 0] ++ be32_bytes pw)) ++ ([1; 0] ++ be32_bytes km))
             ++ le16_bytes (rsn_capabilities cfg sm))).
  destruct (tail_parts cfg sm m p d) as (pos & left & Htail); [|done|done|done|done|done|].
  { rewrite Hm. unfold p, q1, q2, q3, q4. by rewrite <- !app_assoc. }
  change (strlen p) with 22 in Htail. change (strlen _ + 2) with 22. fold q4 in Htail. rewrite Htail.
  ret_simpl. do 2 f_equal. unfold d, rsn_data. rewrite Hg2, Hk2. done.
Qed.

(** C30: The RSN element that is written into a buffer of 50 bytes or more, for
    a security policy with a valid group cipher, a valid or no pairwise cipher
    and a key management that the build can write, is the one that is parsed,
    in every build: the protocol, the group and pairwise cipher, the key
    management - except that CCKM, which is written, is read as none -, the
    capabilities, the PMKID, and the management group cipher, where none reads
    as the default, AES-128-CMAC, in a build with 802.11w. *)
Theorem rsn_element_roundtrip cfg sm km b :
  sm_ok cfg sm km → (50 ≤ length b)%nat →
  ∃ n b' ie, wpa_gen_wpa_ie cfg sm b (Z.of_nat (length b)) = Ret (n, b') ∧
    built b' ie ∧ strlen ie = n ∧ wpa_parse_wpa_ie cfg ie n = Ret (0, rsn_data cfg sm) ∧
    ∀ id, cur_pmksa sm = Some id → pmkid (rsn_data cfg sm) = Some 24 ∧ take 16 (drop 24 ie) = id.
Proof.
  intros Hok Hb. destruct (gen_rsn_spec cfg sm km b Hok Hb) as (b' & Hgen & Hbuilt).
  do 3 eexists. split_and!; [exact Hgen|exact Hbuilt| |by apply parse_rsn_body|].
  - unfold strlen. cbn [length]. lia.
  - intros id Hid. unfold rsn_data, rsn_body, pmkid_bytes. rewrite Hid. split; [done|].
    destruct Hok as [_ _ _ _ Hl]. destruct (Hl id Hid) as [Hlen _].
    change (take 16 (id ++ mgmt_bytes cfg sm) = id). by rewrite take_app_length' by lia.
Qed.

Definition wpa2_sm : wpa_sm :=
  WpaSm WPA_PROTO_RSN WPA_CIPHER_CCMP WPA_CIPHER_TKIP WPA_KEY_MGMT_PSK 0 0 (Some (replicate 16 7)).

Lemma rsn_element_roundtrip_witness :
  ∃ n b' ie, wpa_gen_wpa_ie build_default wpa2_sm (zeros 50) 50 = Ret (n, b') ∧
    built b' ie ∧ strlen ie = n ∧
    wpa_parse_wpa_ie build_default ie n = Ret (0, rsn_data build_default wpa2_sm) ∧
    ∀ id, cur_pmksa wpa2_sm = Some id →
      pmkid (rsn_data build_default wpa2_sm) = Some 24 ∧ take 16 (drop 24 ie) = id.
Proof.
  apply (rsn_element_roundtrip build_default wpa2_sm RSN_AUTH_KEY_MGMT_PSK_OVER_802_1X (zeros 50)).
  - split; [done|done|done|done|]. intros id [= <-]. split; [done|].
    by apply (bool_decide_unpack _).
  - vm_compute. lia.
Defined.

(** C29: Any bytes from the air can be parsed: within an element of any length
    nothing is read outside of it, and the PMKIDs that are found are inside. *)
Theorem wpa_ie_safe cfg m len :
  byte_list m → 0 ≤ len ≤ Z.of_nat (length m) →
  ∃ ret d, wpa_parse_wpa_ie cfg m len = Ret (ret, d) ∧
    match pmkid d with
    | Some p => 0 ≤ p ∧ 0 ≤ num_pmkid d ∧ p + num_pmkid d * PMKID_LEN ≤ Z.of_nat (length m)
    | None => True
    end.
Proof. intros Hm Hl. by apply parse_ok. Qed.

Lemma wpa_ie_safe_witness :
  ∃ ret d, wpa_parse_wpa_ie build_all [48; 20; 1; 0; 0; 15; 172; 4; 9] 9 = Ret (ret, d) ∧
    match pmkid d with
    | Some p => 0 ≤ p ∧ 0 ≤ num_pmkid d ∧ p + num_pmkid d * PMKID_LEN ≤ 9
    | None => True
    end.
Proof.
  apply (wpa_ie_safe build_all [48; 20; 1; 0; 0; 15; 172; 4; 9]).
  - by apply (bool_decide_unpack _).
  - simpl. lia.
Defined.
