(* ===== verification/Printable.v ===== *)
(** * Printable text

    The fields of the replies of the daemon are printable: numbers, addresses
    and escaped names hold no tab, newline or NUL; numbers are read back as
    they were printed. *)

From S2P Require Import Prelude CString CliUtil Common CommonLists CommonText.

(** ** Printable text *)

Definition printable (s : str) : Prop := Forall (λ c, 32 ≤ c < 127) s.

Lemma printable_app s t : printable (s ++ t) ↔ printable s ∧ printable t.
Proof. apply Forall_app. Qed.

Lemma printable_concat ts : Forall printable ts → printable (concat ts).
Proof. induction 1; [constructor|]. by apply printable_app. Qed.

Lemma printable_cstring s : printable s → cstring s.
Proof. intros Hs. eapply Forall_impl; [exact Hs|]. intros c Hc. cbn in *. lia. Qed.

(** ** Fields *)

Lemma encoded_printable c : 0 ≤ c < 256 → printable (encoded c).
Proof.
  intros Hc. cut (bool_decide (printable (encoded c)) = true); [apply bool_decide_eq_true|].
  revert c Hc. apply (forall_byte_reflect (λ c, bool_decide (printable (encoded c)))).
  vm_compute. reflexivity.
Qed.

Lemma escaped_printable s : byte_list s → printable (escaped s).
Proof.
  induction 1 as [|c s Hc _ IH]; [constructor|]. rewrite escaped_cons.
  apply printable_app. split; [by apply encoded_printable|done].
Qed.

Lemma fmt_02x_printable c : 0 ≤ c < 256 → printable (fmt_02x c) ∧ strlen (fmt_02x c) = 2.
Proof.
  intros Hc. cut (bool_decide (printable (fmt_02x c) ∧ strlen (fmt_02x c) = 2) = true);
    [apply bool_decide_eq_true|].
  revert c Hc. apply (forall_byte_reflect (λ c, bool_decide (printable (fmt_02x c) ∧ _))).
  vm_compute. reflexivity.
Qed.

Lemma macstr_printable addr :
  length addr = 6%nat → byte_list addr → printable (macstr addr) ∧ strlen (macstr addr) = 17.
Proof.
  destruct addr as [|a0 [|a1 [|a2 [|a3 [|a4 [|a5 [|]]]]]]]; try done. intros _ Hb.
  unfold byte_list in Hb. rewrite !Forall_cons in Hb. destruct Hb as (H0 & H1 & H2 & H3 & H4 & H5 & _).
  apply fmt_02x_printable in H0, H1, H2, H3, H4, H5. cbn [macstr].
  rewrite !printable_app, !strlen_app. change (strlen (lit ":")) with 1.
  assert (Hc : printable (lit ":")) by by apply (bool_decide_unpack _). intuition lia.
Qed.

(** Without blanks. *)
Definition graphic (s : str) : Prop := Forall (λ c, 33 ≤ c < 127) s.

Lemma fmt_base_graphic fuel n acc :
  0 ≤ n → graphic acc → graphic (fmt_base fuel 10 n acc).
Proof.
  revert n acc. induction fuel as [|fuel IH]; intros n acc Hn Ha; [done|]. cbn [fmt_base].
  assert (Hd : graphic (hex_digit (n mod 10) :: acc)).
  { constructor; [|done]. unfold hex_digit. rewrite (proj2 (Z.ltb_lt _ _)) by lia. lia. }
  case_if; [done|]. apply IH; [lia|done].
Qed.

Lemma fmt_d_graphic n : graphic (fmt_d n).
Proof.
  unfold fmt_d, fmt_u. case_if; zbool; [constructor; [lia|]|]; apply fmt_base_graphic;
    (lia || constructor).
Qed.

Lemma graphic_printable s : graphic s → printable s.
Proof. intros Hs. eapply Forall_impl; [exact Hs|]. intros c Hc; cbv beta in *. lia. Qed.

Lemma fmt_d_printable n : printable (fmt_d n).
Proof. apply graphic_printable, fmt_d_graphic. Qed.

Lemma fmt_base_nonempty fuel n acc : fmt_base (S fuel) 10 n acc ≠ [].
Proof.
  intros H. apply (f_equal length) in H. revert H.
  assert (Hgen : ∀ f m a, (length a ≤ length (fmt_base f 10 m a))%nat).
  { induction f as [|f IH]; intros m a; [done|]. cbn [fmt_base]. case_if; [simpl; lia|].
    etrans; [|apply IH]. simpl. lia. }
  cbn [fmt_base]. case_if; [done|]. pose proof (Hgen fuel (n / 10) (hex_digit (n mod 10) :: acc)) as Hl.
  simpl length in *. lia.
Qed.

Lemma fmt_d_nonempty n : fmt_d n ≠ [].
Proof. unfold fmt_d, fmt_u. case_if; [done|]. apply fmt_base_nonempty. Qed.

(** A number is read back as it is printed. *)
Lemma atoi_range t : INT_MIN ≤ atoi t ≤ INT_MAX.
Proof.
  assert (H : ∀ x, INT_MIN ≤ to_int32 x ≤ INT_MAX) by (intros x; unfold to_int32, INT_MIN, INT_MAX; lia).
  unfold atoi. repeat case_match; apply H.
Qed.

Lemma atoi_fmt_d n : INT_MIN ≤ n ≤ INT_MAX → atoi (fmt_d n) = n.
Proof.
  intros Hn. unfold fmt_d, INT_MIN, INT_MAX in *. case_if; zbool.
  - destruct (fmt_u_spec (- n)) as (_ & _ & Hv); [lia|]. specialize (Hv []). rewrite app_nil_r in Hv.
    change (atoi (45 :: fmt_u (- n))) with
      (to_int32 (Z.max (-9223372036854775808) (Z.min 9223372036854775807 (- digits_val 0 (fmt_u (- n)))))).
    rewrite Hv. cbn [digits_val]. unfold to_int32. lia.
  - pose proof (atoi_fmt_u n []) as H. rewrite app_nil_r in H. specialize (H ltac:(lia) ltac:(done)).
    pose proof (atoi_range (fmt_u n)) as Hr. unfold u32, INT_MIN, INT_MAX in *. lia.
Qed.
