(* ===== verification/Printing.v ===== *)
(** * Text printed piece by piece into a buffer

    The replies of the control interface are printed with one [os_snprintf]
    per field into what is left of a buffer.  The lemmas of this file say what
    one such step does, whether the field fits or not, in terms of the text
    that is built at the front of the buffer. *)

From S2P Require Import Prelude CString Scan CliUtil Common.

(** Room for at most [buflen] bytes of text and terminator. *)
Definition room (b : buf) (buflen : Z) : Prop :=
  0 ≤ buflen ≤ Z.of_nat (length b) ∧ buflen ≤ INT_MAX.

Lemma room_length b b' buflen : length b' = length b → room b buflen → room b' buflen.
Proof. unfold room. by intros ->. Qed.

Lemma append_prints b buflen u t :
  room b buflen → built b u → strlen u + strlen t < buflen →
  ∃ b', append b (strlen u) buflen t = Ret (Some (strlen (u ++ t)), b') ∧
    built b' (u ++ t) ∧ length b' = length b.
Proof.
  intros [Hb Hm] Hu Hl. pose proof (strlen_nonneg u).
  destruct (append_fits b (strlen u) buflen t) as (b' & -> & Hw & Hlen); [lia..|].
  exists b'. rewrite strlen_app. split_and!; [done| |done].
  apply (built_prefix _ _ [0]). rewrite <- app_assoc. by eapply built_write.
Qed.

(** What does not fit leaves the text before it as it was. *)
Lemma append_cut b buflen u t :
  room b buflen → built b u → strlen u ≤ buflen ≤ strlen u + strlen t →
  strlen t < 4294967296 →
  ∃ b', append b (strlen u) buflen t = Ret (None, b') ∧ built b' u ∧ length b' = length b.
Proof.
  intros [Hb Hm] Hu Hl Ht. pose proof (strlen_nonneg u). unfold append, snprintf.
  assert (He : os_snprintf_error (buflen - strlen u) (strlen t) = true).
  { unfold os_snprintf_error, u32. rewrite Z.mod_small by (unfold strlen in *; lia).
    by rewrite (proj2 (Z.leb_le _ _)), orb_true_r by lia. }
  case_if; zbool; ret_simpl; rewrite ?He.
  - by exists b.
  - destruct (buf_write_defined b (strlen u) (take (Z.to_nat (buflen - strlen u - 1)) t ++ [0]))
      as [b' Hw]; [lia| |].
    { unfold strlen in *. rewrite length_app, length_take. cbn [length]. lia. }
    rewrite Hw. ret_simpl. rewrite He. exists b'. split_and!; [done| |by eapply buf_write_length].
    eapply built_prefix. by eapply built_write.
Qed.

(** Both cases at once. *)
Lemma append_step b buflen u t :
  room b buflen → built b u → strlen u ≤ buflen → strlen t < 4294967296 →
  ∃ b', length b' = length b ∧
    if strlen u + strlen t <? buflen
    then append b (strlen u) buflen t = Ret (Some (strlen (u ++ t)), b') ∧ built b' (u ++ t)
    else append b (strlen u) buflen t = Ret (None, b') ∧ built b' u.
Proof.
  intros Hr Hu Hl Ht. case_if; zbool.
  - destruct (append_prints b buflen u t) as (b' & ? & ? & ?); eauto.
  - destruct (append_cut b buflen u t) as (b' & ? & ? & ?); eauto.
Qed.

(** ** Several fields *)

(** Each [os_snprintf] either advances or ends the function: whether all the
    fields were printed, and the end of the text. *)
Fixpoint print_seq (b : buf) (pos buflen : Z) (ts : list str) : outcome (bool * Z * buf) :=
  match ts with
  | [] => Ret (true, pos, b)
  | t :: ts' =>
      '(r, b) ← append b pos buflen t;
      match r with
      | Some pos => print_seq b pos buflen ts'
      | None => Ret (false, pos, b)
      end
  end.

(** The fields that fit in [n] bytes with the terminator. *)
Fixpoint fitting (n : Z) (ts : list str) : list str :=
  match ts with
  | [] => []
  | t :: ts' => if strlen t <? n then t :: fitting (n - strlen t) ts' else []
  end.

Fixpoint fits (n : Z) (ts : list str) : bool :=
  match ts with
  | [] => true
  | t :: ts' => (strlen t <? n) && fits (n - strlen t) ts'
  end.

Definition short_strings (ts : list str) : Prop := Forall (λ t, strlen t < 4294967296) ts.

Lemma fits_fitting n ts : fits n ts = true → fitting n ts = ts.
Proof.
  revert n. induction ts as [|t ts IH]; intros n; cbn [fits fitting]; [done|].
  intros [H1 H2]%andb_true_iff. rewrite H1. f_equal. by apply IH.
Qed.

Lemma concat_cons_len (t : str) ts : strlen (concat (t :: ts)) = strlen t + strlen (concat ts).
Proof. cbn [concat]. apply strlen_app. Qed.

Lemma fits_concat n t ts : fits n (t :: ts) = (strlen (concat (t :: ts)) <? n).
Proof.
  revert n t. induction ts as [|t2 ts IH]; intros n t.
  - cbn. by rewrite app_nil_r, andb_true_r.
  - rewrite concat_cons_len. change (fits n (t :: t2 :: ts)) with ((strlen t <? n) && fits (n - strlen t) (t2 :: ts)).
    rewrite IH. pose proof (strlen_nonneg (concat (t2 :: ts))).
    destruct (Z.ltb_spec (strlen t) n), (Z.ltb_spec (strlen (concat (t2 :: ts))) (n - strlen t)),
      (Z.ltb_spec (strlen t + strlen (concat (t2 :: ts))) n); simpl; lia || done.
Qed.

Lemma fits_short n ts : strlen (concat ts) < n → fits n ts = true.
Proof. destruct ts as [|t ts]; [done|]. rewrite fits_concat. apply Z.ltb_lt. Qed.

(** The text grows by the fields that fit. *)
Lemma print_seq_spec ts b buflen u :
  room b buflen → built b u → strlen u ≤ buflen → short_strings ts →
  let v := u ++ concat (fitting (buflen - strlen u) ts) in
  ∃ b', print_seq b (strlen u) buflen ts = Ret (fits (buflen - strlen u) ts, strlen v, b') ∧
    built b' v ∧ length b' = length b ∧ strlen v ≤ buflen.
Proof.
  revert b u. induction ts as [|t ts IH]; intros b u Hr Hu Hl Hs; cbn [print_seq fitting fits].
  { exists b. by rewrite app_nil_r. }
  apply Forall_cons in Hs as [Ht Hs].
  destruct (append_step b buflen u t Hr Hu Hl Ht) as (b1 & Hlen & H).
  replace (strlen t <? buflen - strlen u) with (strlen u + strlen t <? buflen).
  2: { destruct (Z.ltb_spec (strlen u + strlen t) buflen), (Z.ltb_spec (strlen t) (buflen - strlen u)); lia || done. }
  destruct (strlen u + strlen t <? buflen) eqn:E; zbool; destruct H as [-> Hb1]; ret_simpl.
  - destruct (IH b1 (u ++ t)) as (b' & H1 & H2 & H3 & H4);
      [by eapply room_length|done|rewrite strlen_app; lia|done|].
    replace (buflen - strlen u - strlen t) with (buflen - strlen (u ++ t)) by (rewrite strlen_app; lia).
    cbn [concat andb]. rewrite app_assoc. exists b'. by rewrite <- Hlen.
  - exists b1. by rewrite app_nil_r.
Qed.

(** Everything is printed when there is room. *)
Lemma print_seq_all ts b buflen u :
  room b buflen → built b u → strlen u + strlen (concat ts) < buflen → short_strings ts →
  ∃ b', print_seq b (strlen u) buflen ts = Ret (true, strlen (u ++ concat ts), b') ∧
    built b' (u ++ concat ts) ∧ length b' = length b.
Proof.
  intros Hr Hu Hl Hs. pose proof (strlen_nonneg (concat ts)).
  destruct (print_seq_spec ts b buflen u Hr Hu ltac:(lia) Hs) as (b' & H1 & H2 & H3 & _).
  assert (Hf : fits (buflen - strlen u) ts = true) by (apply fits_short; lia).
  rewrite (fits_fitting _ _ Hf), Hf in H1. rewrite (fits_fitting _ _ Hf) in H2. eauto.
Qed.

(** Items with a separator between them. *)
Definition separated (sep : str) (ts : list str) : list str :=
  match ts with [] => [] | t :: ts' => t :: ((λ s, sep ++ s) <$> ts') end.

(** ** Printers *)

(** [f], started behind any text, adds some text within the buffer; it adds
    [full] when there is room for it. *)
Definition prints (buflen : Z) (f : buf → Z → outcome (Z * buf)) (full : str) : Prop :=
  ∀ b u, room b buflen → built b u → strlen u ≤ buflen →
  ∃ v b', f b (strlen u) = Ret (strlen (u ++ v), b') ∧ built b' (u ++ v) ∧
    length b' = length b ∧ strlen (u ++ v) ≤ buflen ∧
    (strlen u + strlen full < buflen → v = full).

Lemma prints_nothing buflen : prints buflen (λ b pos, Ret (pos, b)) [].
Proof. intros b u Hr Hu Hl. exists [], b. by rewrite app_nil_r. Qed.

(** One printer after the other. *)
Lemma prints_seq buflen f g s t :
  prints buflen f s → prints buflen g t →
  prints buflen (λ b pos, '(pos, b) ← f b pos; g b pos) (s ++ t).
Proof.
  intros Hf Hg b u Hr Hu Hl.
  destruct (Hf b u Hr Hu Hl) as (v & b1 & H1 & Hb1 & Hl1 & He1 & Hs).
  destruct (Hg b1 (u ++ v)) as (w & b2 & H2 & Hb2 & Hl2 & He2 & Ht);
    [by eapply room_length|done|done|].
  exists (v ++ w), b2. rewrite H1. ret_simpl. rewrite app_assoc. split_and!; try done; [congruence|].
  intros Hfit. rewrite strlen_app in Hfit. pose proof (strlen_nonneg t).
  rewrite Hs in * by lia. rewrite strlen_app in Ht. by rewrite Ht by lia.
Qed.

(** Fields, and another printer if all of them fit. *)
Lemma prints_fields buflen ts g t :
  short_strings ts → prints buflen g t →
  prints buflen (λ b pos, '(ok, pos, b) ← print_seq b pos buflen ts;
                          if negb ok then Ret (pos, b) else g b pos) (concat ts ++ t).
Proof.
  intros Hs Hg b u Hr Hu Hl.
  destruct (print_seq_spec ts b buflen u Hr Hu Hl Hs) as (b1 & -> & Hb1 & Hl1 & He1). ret_simpl.
  pose proof (strlen_nonneg t). destruct (fits (buflen - strlen u) ts) eqn:Ef; cbn [negb].
  - rewrite (fits_fitting _ _ Ef) in *.
    destruct (Hg b1 (u ++ concat ts)) as (w & b2 & H2 & Hb2 & Hl2 & He2 & Ht);
      [by eapply room_length|done|done|].
    exists (concat ts ++ w), b2. rewrite H2, app_assoc. split_and!; try done; [congruence|].
    intros Hfit. rewrite !strlen_app in *. by rewrite Ht by lia.
  - eexists _, b1. split_and!; try done. intros Hfit. rewrite strlen_app in Hfit.
    rewrite fits_short in Ef by lia. done.
Qed.

Lemma prints_last buflen ts :
  short_strings ts →
  prints buflen (λ b pos, '(_, pos, b) ← print_seq b pos buflen ts; Ret (pos, b)) (concat ts).
Proof.
  intros Hs b u Hr Hu Hl.
  destruct (print_seq_spec ts b buflen u Hr Hu Hl Hs) as (b1 & -> & Hb1 & Hl1 & He1). ret_simpl.
  eexists _, b1. split_and!; try done. intros Hfit. by rewrite fits_fitting by (apply fits_short; lia).
Qed.

(** The same printer, written differently. *)
Lemma prints_ext buflen f g s : (∀ b pos, f b pos = g b pos) → prints buflen f s → prints buflen g s.
Proof. intros H Hf b u Hr Hu Hl. rewrite <- H. by apply Hf. Qed.

(** ** Rows *)

Lemma concat_cons {A} (x : list A) l : concat (x :: l) = x ++ concat l.
Proof. reflexivity. Qed.

(** A row is printed field by field; one that does not fit is not kept. *)
Fixpoint print_rows (b : buf) (pos buflen : Z) (rows : list (list str)) : outcome (Z * buf) :=
  match rows with
  | [] => Ret (pos, b)
  | r :: rows' =>
      '(ok, p, b) ← print_seq b pos buflen r;
      if negb ok then Ret (pos, b) else print_rows b p buflen rows'
  end.

Lemma fits_row n t ts : fits n (t :: ts) = fits n [concat (t :: ts)].
Proof. rewrite !fits_concat. cbn [concat]. by rewrite app_nil_r. Qed.

(** The rows that fit, one after the other, are the reply. *)
Lemma print_rows_spec rows b buflen u :
  room b buflen → built b u → strlen u ≤ buflen →
  Forall (λ r, short_strings r ∧ r ≠ []) rows →
  let v := u ++ concat (fitting (buflen - strlen u) (@concat Z <$> rows)) in
  ∃ b', print_rows b (strlen u) buflen rows = Ret (strlen v, b') ∧
    built b' v ∧ length b' = length b ∧ strlen v ≤ buflen.
Proof.
  intros Hr Hu Hl Hs. revert b u Hr Hu Hl. induction Hs as [|r rows [Hr1 Hr2] _ IH]; intros b u Hr Hu Hl.
  { exists b. cbn. by rewrite app_nil_r. }
  cbn [print_rows fmap list_fmap fitting].
  destruct (print_seq_spec r b buflen u Hr Hu Hl Hr1) as (b1 & -> & Hb1 & Hl1 & He1). ret_simpl.
  destruct r as [|t ts]; [done|]. rewrite fits_row. cbn [fits]. rewrite andb_true_r.
  destruct (strlen (concat (t :: ts)) <? buflen - strlen u) eqn:E; cbn [negb].
  - assert (Hf : fits (buflen - strlen u) (t :: ts) = true)
      by (rewrite fits_row; cbn [fits]; by rewrite E).
    rewrite (fits_fitting _ _ Hf) in *.
    destruct (IH b1 (u ++ concat (t :: ts))) as (b2 & H2 & Hb2 & Hl2 & He2);
      [by eapply room_length|done|done|].
    replace (buflen - strlen u - strlen (concat (t :: ts)))
      with (buflen - strlen (u ++ concat (t :: ts))) by (rewrite strlen_app; lia).
    exists b2. rewrite (concat_cons (concat (t :: ts))), app_assoc, H2. split_and!; [done|done|congruence|done].
  - exists b1. cbn [concat]. rewrite app_nil_r. split_and!; [done| |done|done]. by eapply built_prefix.
Qed.

(** Everything is printed when there is room. *)
Lemma fitting_all n ts : strlen (concat ts) < n → fitting n ts = ts.
Proof. intros H. by apply fits_fitting, fits_short. Qed.

Lemma fitting_prefix n ts : fitting n ts `prefix_of` ts.
Proof.
  revert n. induction ts as [|t ts IH]; intros n; cbn [fitting]; [done|].
  case_if; [by apply prefix_cons|apply prefix_nil].
Qed.

(** What is sent is read from the buffer. *)
Lemma mapM_cells (s : str) : mapM id (cells s) = Some s.
Proof. induction s as [|c s IH]; [done|]. unfold cells in *. cbn. by rewrite IH. Qed.
