(* ===== verification/WpaText.v ===== *)
(** * Lists of ciphers as text, fast transition elements: theorems

    The text that is written for a set of ciphers is parsed to the same set;
    the elements of a fast transition frame are found within the frame; what
    goes wrong when a PMKID is replaced or the group management cipher does not
    fit. *)

From S2P Require Import Prelude CString Scan Smartlist CliUtil Common Printing.
From S2P Require Import WpaIe WpaCommon WpaSpec.

(** ** Ciphers as text *)

(** The names of the ciphers of a set, behind the text [u]. *)
Fixpoint names_text (u : str) (ciphers : Z) (delim : str) (l : list (Z * str)) : str :=
  match l with
  | [] => u
  | (c, name) :: l' =>
      if has ciphers c
      then names_text (u ++ (if str_eqb u [] then [] else delim) ++ name) ciphers delim l'
      else names_text u ciphers delim l'
  end.

Lemma behind_start (p u : str) : (strlen (p ++ u) =? strlen p) = str_eqb u [].
Proof.
  rewrite strlen_app. pose proof (strlen_nonneg u). destruct u as [|c u].
  - change (strlen []) with 0. rewrite Z.add_0_r. by rewrite Z.eqb_refl.
  - change (str_eqb (c :: u) []) with false. apply Z.eqb_neq. unfold strlen. simpl. lia.
Qed.

Lemma names_text_grows l u ciphers delim : strlen u ≤ strlen (names_text u ciphers delim l).
Proof.
  revert u. induction l as [|[c name] l IH]; intros u; cbn [names_text]; [lia|].
  case_if; [|apply IH].
  match goal with |- context [names_text ?v ciphers delim l] => pose proof (IH v) as H end.
  rewrite strlen_app in H. pose proof (strlen_nonneg ((if str_eqb u [] then [] else delim) ++ name)).
  lia.
Qed.

(** Behind the text [p]: all the names when they fit. *)
Lemma write_names_spec l b end_ p u ciphers delim :
  room b end_ → built b (p ++ u) → strlen (p ++ names_text u ciphers delim l) < end_ →
  ∃ b', write_names b (strlen p) (strlen (p ++ u)) end_ ciphers delim l =
          Ret (Some (strlen (p ++ names_text u ciphers delim l)), b') ∧
        built b' (p ++ names_text u ciphers delim l) ∧ length b' = length b.
Proof.
  revert b u. induction l as [|[c name] l IH]; intros b u Hr Hu Hl; cbn [write_names names_text] in *;
    [by exists b|].
  destruct (has ciphers c); [|by apply IH]. rewrite behind_start.
  set (t := (if str_eqb u [] then [] else delim) ++ name) in *.
  destruct (append_prints b end_ (p ++ u) t Hr Hu) as (b1 & -> & Hb1 & Hl1).
  { pose proof (names_text_grows l (u ++ t) ciphers delim). rewrite !strlen_app in *. lia. }
  ret_simpl. rewrite <- Hl1, <- app_assoc in *. apply IH; [by eapply room_length|done|done].
Qed.

(** In any case what was there stays, and the end is inside. *)
Lemma write_names_safe l b end_ p u ciphers delim :
  room b end_ → built b (p ++ u) → strlen (p ++ u) ≤ end_ → strlen delim < 100 →
  Forall (λ e : Z * str, strlen (snd e) < 100) l →
  ∃ r b', write_names b (strlen p) (strlen (p ++ u)) end_ ciphers delim l = Ret (r, b') ∧
    built b' (p ++ u) ∧ length b' = length b ∧
    match r with
    | Some q => ∃ v, q = strlen (p ++ u ++ v) ∧ built b' (p ++ u ++ v) ∧ q ≤ end_
    | None => True
    end.
Proof.
  intros Hr Hu Hl Hd Hs. revert b u Hr Hu Hl. induction Hs as [|[c name] l Hn _ IH]; intros b u Hr Hu Hl;
    cbn [write_names].
  { exists (Some (strlen (p ++ u))), b. split_and!; [done|done|done|]. exists []. by rewrite app_nil_r. }
  destruct (has ciphers c); [|by apply IH]. cbn [snd] in Hn. rewrite behind_start.
  set (t := (if str_eqb u [] then [] else delim) ++ name) in *.
  assert (Ht : strlen t < 4294967296).
  { unfold t. rewrite strlen_app. destruct (str_eqb u []); [change (strlen []) with 0|]; lia. }
  destruct (append_step b end_ (p ++ u) t Hr Hu Hl Ht) as (b1 & Hl1 & H).
  destruct (_ <? _) eqn:E; zbool; destruct H as [-> Hb1]; ret_simpl.
  - rewrite <- app_assoc in *. destruct (IH b1 (u ++ t)) as (r & b' & Hw & Hb' & Hl' & Hm);
      [by eapply room_length|done|rewrite !strlen_app in *; lia|].
    exists r, b'. rewrite Hw. split_and!; [done| |congruence|].
    + apply (built_prefix _ _ t). by rewrite <- app_assoc.
    + destruct r as [q|]; [|done]. destruct Hm as (v & Hq & Hv & He). exists (t ++ v).
      by rewrite <- !app_assoc in *.
  - by exists None, b1.
Qed.

(** The bits that the text can hold. *)
Definition writable_ciphers : Z :=
  Z.lor WPA_CIPHER_CCMP_256 (Z.lor WPA_CIPHER_GCMP_256 (Z.lor WPA_CIPHER_CCMP
    (Z.lor WPA_CIPHER_GCMP (Z.lor WPA_CIPHER_TKIP WPA_CIPHER_NONE)))).

Lemma land_bit x n : 0 ≤ n → Z.land x (BIT n) = if has x (BIT n) then BIT n else 0.
Proof.
  intros Hn. unfold has, BIT.
  assert (H : Z.land x (Z.shiftl 1 n) = if Z.testbit x n then Z.shiftl 1 n else 0).
  { apply Z.bits_inj'. intros i Hi. rewrite Z.land_spec, Z.shiftl_1_l.
    destruct (decide (i = n)) as [->|Hne].
    - rewrite Z.pow2_bits_true by done. destruct (Z.testbit x n);
        by rewrite ?Z.pow2_bits_true, ?Z.bits_0.
    - rewrite Z.pow2_bits_false, andb_false_r by done.
      destruct (Z.testbit x n); by rewrite ?Z.pow2_bits_false, ?Z.bits_0. }
  rewrite H. rewrite Z.shiftl_1_l. pose proof (Z.pow_pos_nonneg 2 n).
  destruct (Z.testbit x n); [|done]. rewrite (proj2 (Z.eqb_neq _ _)) by lia. done.
Qed.

(** A statement about the text of a set is one about its six bits. *)
Lemma written_cases (P : Z → str → Prop) ciphers delim :
  (∀ c, c ∈ (l ← [0; WPA_CIPHER_CCMP_256]; r ← [0; WPA_CIPHER_GCMP_256]; x ← [0; WPA_CIPHER_CCMP];
             y ← [0; WPA_CIPHER_GCMP]; z ← [0; WPA_CIPHER_TKIP]; w ← [0; WPA_CIPHER_NONE];
             [Z.lor l (Z.lor r (Z.lor x (Z.lor y (Z.lor z w))))]) →
        P c (names_text [] c delim written_ciphers)) →
  P (Z.land ciphers writable_ciphers) (names_text [] ciphers delim written_ciphers).
Proof.
  intros H.
  assert (Hsame : names_text [] ciphers delim written_ciphers =
                  names_text [] (Z.land ciphers writable_ciphers) delim written_ciphers).
  { assert (Hh : ∀ f, Z.land writable_ciphers f = f → has (Z.land ciphers writable_ciphers) f = has ciphers f).
    { intros f Hf. unfold has. by rewrite <- Z.land_assoc, Hf. }
    cbn [written_ciphers names_text]. by rewrite !Hh by reflexivity. }
  rewrite Hsame. apply H. unfold writable_ciphers. rewrite !Z.land_lor_distr_r.
  unfold WPA_CIPHER_CCMP_256, WPA_CIPHER_GCMP_256, WPA_CIPHER_CCMP, WPA_CIPHER_GCMP,
    WPA_CIPHER_TKIP, WPA_CIPHER_NONE. rewrite !land_bit by done.
  assert (Hb : ∀ f, (if has ciphers f then f else 0) ∈ [0; f]) by (intros f; destruct (has _ _); set_solver).
  repeat (apply list_elem_of_bind; eexists; split; [|apply Hb]). by apply list_elem_of_singleton.
Qed.

(** A text that is short and is parsed to [c]. *)
Definition parses_to (c : Z) (t : str) : bool :=
  (strlen t <=? 38) &&
  match cipher_loop (S (length t)) t 0 with Ret v => v =? c | _ => false end.

(** The text that is written for a set of ciphers is parsed to the ciphers
    of the set that can be written; a set without any gives the empty text. *)
Theorem cipher_text_roundtrip malloc_ok b end_ ciphers :
  room b end_ → 39 ≤ end_ → (∀ n, malloc_ok n = true) →
  ∃ t b', wpa_write_ciphers b 0 end_ ciphers (lit " ") = Ret (strlen t, b') ∧ built b' t ∧
    wpa_parse_cipher malloc_ok t = Ret (Z.land ciphers writable_ciphers).
Proof.
  intros Hr He Hm. set (t := names_text [] ciphers (lit " ") written_ciphers).
  assert (Ht : parses_to (Z.land ciphers writable_ciphers) t = true).
  { apply (written_cases (λ c t, parses_to c t = true)). apply Forall_forall.
    by apply (bool_decide_unpack _). }
  unfold parses_to in Ht. apply andb_true_iff in Ht as [Hl Hp]. zbool.
  destruct (cipher_loop _ t 0) as [v| |] eqn:Ep; [|done|done]. apply Z.eqb_eq in Hp as ->.
  destruct (write_names_spec written_ciphers b end_ [] [] ciphers (lit " ")) as (b' & Hw & Hb & _);
    [done|apply built_nil|cbn [app]; fold t; lia|].
  exists t, b'. unfold wpa_write_ciphers. change (strlen ([] ++ [])) with 0 in Hw. change (strlen []) with 0 in Hw. rewrite Hw. ret_simpl.
  fold t in Hb |- *. rewrite Z.sub_0_r. split_and!; [done|done|].
  unfold wpa_parse_cipher. by rewrite Hm, Ep.
Qed.

Lemma cipher_text_roundtrip_witness :
  ∃ t b', wpa_write_ciphers (zeros 50) 0 50 (Z.lor WPA_CIPHER_CCMP WPA_CIPHER_TKIP) (lit " ") =
            Ret (strlen t, b') ∧ built b' t ∧
    wpa_parse_cipher (λ _, true) t =
      Ret (Z.land (Z.lor WPA_CIPHER_CCMP WPA_CIPHER_TKIP) writable_ciphers).
Proof.
  apply (cipher_text_roundtrip (λ _, true) (zeros 50) 50); [|lia|done].
  unfold room, zeros, INT_MAX. rewrite length_replicate. lia.
Defined.

(** ** Fast transition elements *)

Section ft.
Context (cfg : build) (m : list Z) (Hm : byte_list m).

(** A pointer and a length within the frame. *)
Definition within (p : option Z) (n : Z) : Prop :=
  match p with Some x => 0 ≤ x ∧ 0 ≤ n ∧ x + n ≤ Z.of_nat (length m) | None => True end.

(** Everything that was found is within the frame. *)
Record ft_in (f : wpa_ft_ies) : Prop := FtIn {
  in_mdie : within (mdie f) (mdie_len f);
  in_ftie : within (ftie f) (ftie_len f);
  in_r1kh : within (r1kh_id f) FT_R1KH_ID_LEN;
  in_gtk : within (gtk f) (gtk_len f);
  in_r0kh : within (r0kh_id f) (r0kh_id_len f);
  in_rsn : within (rsn f) (rsn_len f);
  in_pmkid : within (rsn_pmkid f) PMKID_LEN;
  in_tie : within (tie f) (tie_len f);
  in_igtk : within (igtk f) (igtk_len f);
  in_ric : within (ric f) (ric_len f)
}.

Definition ft_result (r : outcome (Z * wpa_ft_ies)) : Prop := ∃ ret f, r = Ret (ret, f) ∧ ft_in f.

Lemma u8_at_byte i : 0 ≤ i < Z.of_nat (length m) → ∃ a, u8_at m i = Ret a ∧ 0 ≤ a < 256.
Proof.
  intros Hi. destruct (u8_at_Ret m i Hi) as (a & Ha & Hin). exists a. split; [done|].
  unfold byte_list in Hm. rewrite Forall_forall in Hm. by apply Hm.
Qed.

Ltac ft_solve H := destruct H; split; cbn; unfold within, FT_R1KH_ID_LEN in *; first [assumption | lia].

Lemma ft_subelem_in id pos len f :
  ft_in f → 0 ≤ pos → 0 ≤ len → pos + len ≤ Z.of_nat (length m) →
  ft_in (snd (ft_subelem cfg id pos len f)).
Proof.
  intros H Hp Hl Hn. unfold ft_subelem, FT_R1KH_ID_LEN.
  repeat (case_if; [|]); zbool; try exact H; subst; ft_solve H.
Qed.

Lemma ftie_loop_in fuel pos end_ f :
  ft_in f → 0 ≤ pos → end_ ≤ Z.of_nat (length m) → end_ - pos < Z.of_nat fuel → 0 < Z.of_nat fuel →
  ft_result (ftie_loop cfg m fuel pos end_ f).
Proof.
  revert pos f. induction fuel as [|fuel IH]; intros pos f Hf Hp He Hfuel H0; [lia|].
  cbn [ftie_loop]. case_if; zbool; [by do 2 eexists|].
  destruct (u8_at_byte pos) as (id & -> & _); [lia|].
  destruct (u8_at_byte (pos + 1)) as (len & -> & Hlen); [lia|]. ret_simpl.
  case_if; zbool; [by do 2 eexists|].
  pose proof (ft_subelem_in id (pos + 2) len f Hf) as Hin.
  destruct (ft_subelem cfg id (pos + 2) len f) as [r f1]. cbn [snd] in Hin.
  case_if; [do 2 eexists; split; [done|apply Hin; lia]|].
  apply IH; [apply Hin|..]; lia.
Qed.

Lemma parse_ftie_in ie len f :
  ft_in f → 0 ≤ ie → 0 ≤ len → ie + len ≤ Z.of_nat (length m) →
  ft_result (wpa_ft_parse_ftie cfg m ie len f).
Proof.
  intros Hf Hi Hl Hn. unfold wpa_ft_parse_ftie, SIZEOF_RSN_FTIE.
  apply ftie_loop_in; [ft_solve Hf|lia..].
Qed.

Lemma ft_element_in id pos len prot f :
  ft_in f → 2 ≤ pos → 0 ≤ len → pos + len ≤ Z.of_nat (length m) →
  ∃ ret f' prot', ft_element cfg m id pos len prot f = Ret (ret, (f', prot')) ∧ ft_in f'.
Proof.
  intros Hf Hp Hl Hn. unfold ft_element. case_if.
  { assert (Hd : byte_list (drop (Z.to_nat (pos - 2)) m)) by by apply Forall_drop.
    destruct (parse_rsn_ok _ Hd cfg (len + 2)) as (ret & d & -> & Hid); [rewrite length_drop; lia|].
    ret_simpl. assert (Hs : ft_in (set_rsn f pos len)) by ft_solve Hf.
    case_if; [by do 3 eexists|]. do 3 eexists. split; [done|].
    unfold pmkid_in in Hid. destruct (pmkid d) as [p|]; [|done].
    destruct (num_pmkid d =? 1) eqn:E1; [|done]. zbool. rewrite E1, length_drop in Hid.
    unfold PMKID_LEN in *. split; cbn; try apply Hf; unfold within, PMKID_LEN; lia. }
  case_if. { case_if; do 3 eexists; split; try done. ft_solve Hf. }
  case_if.
  { case_if; [by do 3 eexists|]. zbool. unfold SIZEOF_RSN_FTIE in *.
    destruct (u8_at_byte (pos + 1)) as (x & -> & _); [lia|]. ret_simpl.
    destruct (parse_ftie_in pos len f) as (r & f1 & -> & H1); [done|lia..|]. ret_simpl.
    case_if; by do 3 eexists. }
  case_if. { case_if; do 3 eexists; split; try done. ft_solve Hf. }
  case_if; [|by do 3 eexists].
  do 3 eexists. split; [done|]. destruct (ric f); [done|]. ft_solve Hf.
Qed.

Lemma ft_loop_in fuel pos end_ prot f :
  ft_in f → 0 ≤ pos → end_ ≤ Z.of_nat (length m) → end_ - pos < Z.of_nat fuel → 0 < Z.of_nat fuel →
  ∃ ret f' prot', ft_loop cfg m fuel pos end_ prot f = Ret (ret, (f', prot')) ∧ ft_in f'.
Proof.
  revert pos prot f. induction fuel as [|fuel IH]; intros pos prot f Hf Hp He Hfuel H0; [lia|].
  cbn [ft_loop]. case_if; zbool; [by do 3 eexists|].
  destruct (u8_at_byte pos) as (id & -> & _); [lia|].
  destruct (u8_at_byte (pos + 1)) as (len & -> & Hlen); [lia|]. ret_simpl.
  case_if; zbool; [by do 3 eexists|].
  destruct (ft_element_in id (pos + 2) len prot f) as (r & f1 & prot1 & -> & H1); [done|lia..|].
  ret_simpl. case_if; [by do 3 eexists|]. apply IH; [done|lia..].
Qed.

Lemma ric_loop_in fuel pos end_ prot :
  0 ≤ pos ≤ Z.of_nat (length m) → end_ ≤ Z.of_nat (length m) → end_ - pos < Z.of_nat fuel →
  0 < Z.of_nat fuel →
  ∃ pos' prot', ric_loop m fuel pos end_ prot = Ret (pos', prot') ∧
    pos ≤ pos' ≤ Z.of_nat (length m).
Proof.
  revert pos prot. induction fuel as [|fuel IH]; intros pos prot Hp He Hfuel H0; [lia|].
  cbn [ric_loop]. case_if; zbool; [do 2 eexists; split; [done|lia]|].
  destruct (u8_at_byte (pos + 1)) as (len & -> & Hlen); [lia|]. ret_simpl.
  case_if; zbool; [do 2 eexists; split; [done|lia]|].
  destruct (IH (pos + 2 + len) (prot - 1)) as (p' & n' & Hr & Hb); [lia..|]. rewrite Hr.
  do 2 eexists. split; [done|lia].
Qed.

Lemma ft_none_in : ft_in ft_none.
Proof. by split. Qed.

Lemma ft_parse_in ies_len :
  0 ≤ ies_len ≤ Z.of_nat (length m) → ft_result (wpa_ft_parse_ies cfg m ies_len).
Proof.
  intros Hl. unfold wpa_ft_parse_ies.
  destruct (ft_loop_in (S (Z.to_nat ies_len)) 0 ies_len 0 ft_none) as (r & f & prot & -> & Hf);
    [apply ft_none_in|lia..|]. ret_simpl.
  case_if; [by do 2 eexists|]. case_if; [by do 2 eexists|]. case_if; [by do 2 eexists|].
  pose proof (in_ric f Hf) as Hric. unfold within in Hric.
  destruct (ric f) as [p|]; [|case_if; by do 2 eexists]. case_if; [by do 2 eexists|].
  destruct (ric_loop_in (S (Z.to_nat ies_len)) p ies_len (prot_left prot f)) as (p' & n' & -> & Hp');
    [lia..|]. ret_simpl.
  assert (Hset : ft_in (set_ric f (Some p) (p' - p))) by ft_solve Hf.
  case_if; by do 2 eexists.
Qed.
End ft.

(** Whatever a frame of the fast transition holds, parsing it returns, reads
    nothing behind it, and every element, key and PMKID it finds is inside. *)
Theorem ft_ies_safe cfg m ies_len :
  byte_list m → 0 ≤ ies_len ≤ Z.of_nat (length m) →
  ∃ ret f, wpa_ft_parse_ies cfg m ies_len = Ret (ret, f) ∧ ft_in m f.
Proof. intros Hm. apply ft_parse_in, Hm. Qed.

Lemma ft_ies_safe_witness :
  ∃ ret f, wpa_ft_parse_ies build_all [54; 3; 1; 2; 1; 48; 0] 7 = Ret (ret, f) ∧
    ft_in [54; 3; 1; 2; 1; 48; 0] f.
Proof.
  apply (ft_ies_safe build_all [54; 3; 1; 2; 1; 48; 0] 7).
  - by apply (bool_decide_unpack _).
  - simpl. lia.
Defined.

(** ** What goes wrong *)

(** An RSN element with one PMKID (all 1), and an element behind it. *)
Definition frame_with_pmkid : list Z :=
  [48; 38; 1; 0; 0; 15; 172; 4; 1; 0; 0; 15; 172; 4; 1; 0; 0; 15; 172; 2; 0; 0; 1; 0]
    ++ replicate 16 1 ++ [54; 3; 7; 8; 1].

(** The PMKID is replaced, but the element behind is overwritten: it should
    still be [54; 3; 7; 8; 1], and the bytes there are of the old PMKID. *)
Lemma insert_pmkid_overwrites :
  ∃ b, wpa_insert_pmkid (cells frame_with_pmkid ++ zeros 40) (strlen frame_with_pmkid)
         (replicate 16 2) = Ret (0, (b, strlen frame_with_pmkid)) ∧
    take 16 (drop 24 b) = cells (replicate 16 2) ∧
    take 5 (drop 40 b) = cells (replicate 5 1).
Proof. eexists. split; [vm_compute; reflexivity|]. by split; vm_compute. Qed.

(** Room for the element without the group management cipher is enough for the
    check, not for what is written. *)
Lemma gen_rsn_overflows :
  ∃ why, wpa_gen_wpa_ie build_all
    (WpaSm WPA_PROTO_RSN WPA_CIPHER_CCMP WPA_CIPHER_CCMP WPA_KEY_MGMT_PSK
       WPA_CIPHER_AES_128_CMAC 2 None) (uninit 22) 22 = UB why.
Proof. eexists. vm_compute. reflexivity. Qed.

(** The suites of the drivers and of the frames for Suite B differ. *)
Lemma akm_suite_b_differs :
  wpa_akm_to_suite WPA_KEY_MGMT_IEEE8021X_SUITE_B ≠ RSN_AUTH_KEY_MGMT_802_1X_SUITE_B ∧
  wpa_akm_to_suite WPA_KEY_MGMT_IEEE8021X_SUITE_B_192 ≠ RSN_AUTH_KEY_MGMT_802_1X_SUITE_B_192.
Proof. by vm_compute. Qed.
