(* ===== verification/Wpabuf.v ===== *)
(** * Byte buffers (src/utils/wpabuf.c, wpabuf.h)

    A [wpabuf] is its memory of [size] bytes, of which [used] hold data, and a
    flag for memory that was allocated elsewhere.  The memory is zeroed when
    it is allocated and when it grows, so its bytes always have a value.
    Putting more than fits calls [abort], which ends the program: nothing
    happens afterwards, as after undefined behaviour.  Sizes are small enough
    not to wrap around. *)

From S2P Require Import Prelude CString Common.

Record wpabuf : Type := Wpabuf { size : Z; used : Z; mem : list Z; ext_data : bool }.

(** ** Memory *)

Definition os_memcpy (m : list Z) (pos : Z) (s : list Z) : outcome (list Z) :=
  if (0 <=? pos) && (pos + strlen s <=? Z.of_nat (length m)) then
    Ret (take (Z.to_nat pos) m ++ s ++ drop (Z.to_nat pos + length s) m)
  else UB "write outside the buffer".

Definition zero_bytes (n : Z) : list Z := replicate (Z.to_nat n) 0.

(** [realloc] keeps what fits, [memset] clears the rest. *)
Definition realloc_zero (m : list Z) (used add_len : Z) : list Z :=
  take (Z.to_nat used) m ++ zero_bytes add_len.

(** ** Observers *)

Definition wpabuf_size (b : wpabuf) : Z := size b.
Definition wpabuf_len (b : wpabuf) : Z := used b.
Definition wpabuf_tailroom (b : wpabuf) : Z := size b - used b.

(** The data from [wpabuf_head], [wpabuf_len] bytes of it. *)
Definition wpabuf_head (b : wpabuf) : list Z := take (Z.to_nat (used b)) (mem b).

Section alloc.
Context (malloc_ok : Z → bool).

Definition SIZEOF_WPABUF : Z := 32.

Definition wpabuf_alloc (len : Z) : option wpabuf :=
  if malloc_ok (SIZEOF_WPABUF + len) then Some (Wpabuf len 0 (zero_bytes len) false) else None.

Definition wpabuf_alloc_ext_data (data : list Z) : option wpabuf :=
  if malloc_ok SIZEOF_WPABUF then Some (Wpabuf (strlen data) (strlen data) data true) else None.

Definition wpabuf_resize (buf : option wpabuf) (add_len : Z) : Z * option wpabuf :=
  match buf with
  | None => match wpabuf_alloc add_len with None => (-1, None) | b => (0, b) end
  | Some b =>
      if size b <? used b + add_len then
        if malloc_ok ((if ext_data b then 0 else SIZEOF_WPABUF) + (used b + add_len)) then
          (0, Some (Wpabuf (used b + add_len) (used b) (realloc_zero (mem b) (used b) add_len)
                      (ext_data b)))
        else (-1, Some b)
      else (0, Some b)
  end.

(** The position of the new bytes. *)
Definition wpabuf_put (b : wpabuf) (len : Z) : outcome (Z * wpabuf) :=
  let tmp := used b in
  let b := Wpabuf (size b) (used b + len) (mem b) (ext_data b) in
  if size b <? used b then UB "wpabuf overflow: abort" else Ret (tmp, b).

(** Bytes stored at a position. *)
Definition store (b : wpabuf) (pos : Z) (s : list Z) : outcome wpabuf :=
  m ← os_memcpy (mem b) pos s; Ret (Wpabuf (size b) (used b) m (ext_data b)).

Definition put_bytes (b : wpabuf) (s : list Z) : outcome wpabuf :=
  '(pos, b) ← wpabuf_put b (strlen s); store b pos s.

(** [data] of [len] bytes, or NULL. *)
Definition wpabuf_put_data (b : wpabuf) (data : option (list Z)) : outcome wpabuf :=
  match data with Some s => put_bytes b s | None => Ret b end.

Definition byte (v : Z) : Z := v mod 256.

Definition wpabuf_put_u8 (b : wpabuf) (v : Z) : outcome wpabuf := put_bytes b [byte v].
Definition wpabuf_put_le16 (b : wpabuf) (v : Z) : outcome wpabuf :=
  put_bytes b [byte v; byte (Z.shiftr v 8)].
Definition wpabuf_put_le32 (b : wpabuf) (v : Z) : outcome wpabuf :=
  put_bytes b [byte v; byte (Z.shiftr v 8); byte (Z.shiftr v 16); byte (Z.shiftr v 24)].
Definition wpabuf_put_be16 (b : wpabuf) (v : Z) : outcome wpabuf :=
  put_bytes b [byte (Z.shiftr v 8); byte v].
Definition wpabuf_put_be24 (b : wpabuf) (v : Z) : outcome wpabuf :=
  put_bytes b [byte (Z.shiftr v 16); byte (Z.shiftr v 8); byte v].
Definition wpabuf_put_be32 (b : wpabuf) (v : Z) : outcome wpabuf :=
  put_bytes b [byte (Z.shiftr v 24); byte (Z.shiftr v 16); byte (Z.shiftr v 8); byte v].

Definition wpabuf_put_buf (dst src : wpabuf) : outcome wpabuf :=
  wpabuf_put_data dst (Some (wpabuf_head src)).

Definition wpabuf_put_str (dst : wpabuf) (s : str) : outcome wpabuf :=
  wpabuf_put_data dst (Some s).

Definition wpabuf_set (data : list Z) : wpabuf := Wpabuf (strlen data) (strlen data) data true.

Definition wpabuf_alloc_copy (data : list Z) : outcome (option wpabuf) :=
  match wpabuf_alloc (strlen data) with
  | Some b => b ← wpabuf_put_data b (Some data); Ret (Some b)
  | None => Ret None
  end.

Definition wpabuf_dup (src : wpabuf) : outcome (option wpabuf) :=
  match wpabuf_alloc (wpabuf_len src) with
  | Some b => b ← wpabuf_put_data b (Some (wpabuf_head src)); Ret (Some b)
  | None => Ret None
  end.

(** The memory that is given back is cleared first: what is left of it. *)
Definition wpabuf_clear_free (buf : option wpabuf) : outcome (option (list Z)) :=
  match buf with
  | Some b => m ← os_memcpy (mem b) 0 (zero_bytes (used b)); Ret (Some m)
  | None => Ret None
  end.

Definition put_opt (n : wpabuf) (a : option wpabuf) : outcome wpabuf :=
  match a with Some a => wpabuf_put_buf n a | None => Ret n end.

Definition wpabuf_concat (a b : option wpabuf) : outcome (option wpabuf) :=
  match b with
  | None => Ret a
  | Some b =>
      let len := (match a with Some a => wpabuf_len a | None => 0 end) + wpabuf_len b in
      match wpabuf_alloc len with
      | Some n => n ← put_opt n a; n ← put_opt n (Some b); Ret (Some n)
      | None => Ret None
      end
  end.

Definition wpabuf_zeropad (buf : option wpabuf) (len : Z) : outcome (option wpabuf) :=
  match buf with
  | None => Ret None
  | Some buf =>
      let blen := wpabuf_len buf in
      if len <=? blen then Ret (Some buf)
      else
        match wpabuf_alloc len with
        | Some ret =>
            '(pos, ret) ← wpabuf_put ret (len - blen);
            ret ← store ret pos (zero_bytes (len - blen));
            ret ← wpabuf_put_buf ret buf; Ret (Some ret)
        | None => Ret None
        end
  end.

(** [vsnprintf] of the text [t] into the room behind the data. *)
Definition wpabuf_printf (b : wpabuf) (t : str) : outcome wpabuf :=
  let n := wpabuf_tailroom b in
  b ← (if n =? 0 then Ret b else store b (used b) (take (Z.to_nat (n - 1)) t ++ [0]));
  if n <=? strlen t then UB "wpabuf overflow: abort"
  else Ret (Wpabuf (size b) (used b + strlen t) (mem b) (ext_data b)).

Definition wpabuf_parse_bin (buf : str) : outcome (option wpabuf) :=
  let len := strlen buf in
  if negb (Z.land len 1 =? 0) then Ret None
  else
    let len := len / 2 in
    match wpabuf_alloc len with
    | None => Ret None
    | Some ret =>
        '(pos, ret) ← wpabuf_put ret len;
        let '(bytes, r) := hexstr2bin buf (Z.to_nat len) in
        ret ← store ret pos bytes;
        if negb (r =? 0) then Ret None else Ret (Some ret)
    end.

End alloc.

(** ** Theorems *)

Record wf (b : wpabuf) : Prop := Wf {
  wf_mem : Z.of_nat (length (mem b)) = size b;
  wf_used : 0 ≤ used b ≤ size b
}.

(** A buffer that holds the bytes [l] and has room for [n] more. *)
Definition holds_bytes (b : wpabuf) (l : list Z) (n : Z) : Prop :=
  wf b ∧ wpabuf_head b = l ∧ wpabuf_tailroom b = n.

Lemma zero_bytes_length n : 0 ≤ n → Z.of_nat (length (zero_bytes n)) = n.
Proof. intros. unfold zero_bytes. rewrite length_replicate. lia. Qed.

Lemma holds_used b l n : holds_bytes b l n → used b = strlen l ∧ size b = strlen l + n ∧ 0 ≤ n.
Proof.
  intros ([Hm Hu] & <- & <-). unfold wpabuf_head, wpabuf_tailroom, strlen.
  rewrite length_take. lia.
Qed.

(** What is put is behind what was there. *)
Lemma put_bytes_holds b l n s :
  holds_bytes b l n → strlen s ≤ n →
  ∃ b', put_bytes b s = Ret b' ∧ holds_bytes b' (l ++ s) (n - strlen s) ∧ size b' = size b.
Proof.
  intros Hb Hs. destruct (holds_used _ _ _ Hb) as (Hu & Hsz & Hn).
  destruct Hb as ([Hm Hu'] & Hl & Ht). unfold put_bytes, wpabuf_put, store, os_memcpy.
  pose proof (strlen_nonneg s). pose proof (strlen_nonneg l). cbn [size used].
  rewrite (proj2 (Z.ltb_ge _ _)) by lia. ret_simpl. cbn [mem].
  rewrite (proj2 (Z.leb_le 0 _)), (proj2 (Z.leb_le _ (Z.of_nat _))) by lia. ret_simpl.
  eexists. split; [done|]. split; [|done].
  assert (Hlen : length (take (Z.to_nat (used b)) (mem b)) = length l) by (by rewrite <- Hl).
  split_and!; [split| |].
  - cbn. rewrite !length_app, Hlen, length_drop. unfold strlen in *. lia.
  - cbn. lia.
  - unfold wpabuf_head in *. cbn [used mem]. rewrite app_assoc, take_app_length', Hl; [done|].
    rewrite length_app, Hlen. unfold strlen in *. lia.
  - unfold wpabuf_tailroom. cbn. lia.
Qed.

(** What does not fit aborts. *)
Lemma put_bytes_aborts b l n s :
  holds_bytes b l n → n < strlen s → put_bytes b s = UB "wpabuf overflow: abort".
Proof.
  intros Hb Hs. destruct (holds_used _ _ _ Hb) as (Hu & Hsz & Hn).
  unfold put_bytes, wpabuf_put. cbn [size used]. by rewrite (proj2 (Z.ltb_lt _ _)) by lia.
Qed.

Lemma put_buf_holds b l n c s k :
  holds_bytes b l n → holds_bytes c s k → strlen s ≤ n →
  ∃ b', wpabuf_put_buf b c = Ret b' ∧ holds_bytes b' (l ++ s) (n - strlen s).
Proof.
  intros Hb (_ & Hs & _) Hn. unfold wpabuf_put_buf, wpabuf_put_data. rewrite Hs.
  destruct (put_bytes_holds b l n s) as (b' & H & H' & _); eauto.
Qed.

Section theorems.
Context (malloc_ok : Z → bool).

Lemma alloc_holds len b : 0 ≤ len → wpabuf_alloc malloc_ok len = Some b → holds_bytes b [] len.
Proof.
  intros Hl. unfold wpabuf_alloc. destruct (malloc_ok _); [|done]. intros [= <-].
  split_and!; [split; simpl; [by apply zero_bytes_length|lia]|done|].
  unfold wpabuf_tailroom. simpl. lia.
Qed.

(** Growing makes the room and keeps the data. *)
Lemma resize_holds b l n k r b' :
  holds_bytes b l n → 0 ≤ k → wpabuf_resize malloc_ok (Some b) k = (r, b') →
  ∃ c, b' = Some c ∧
    ((r = 0 ∧ holds_bytes c l (Z.max n k)) ∨ (r = -1 ∧ c = b ∧ n < k)).
Proof.
  intros Hb Hk. destruct (holds_used _ _ _ Hb) as (Hu & Hsz & Hn). unfold wpabuf_resize.
  case_if; zbool.
  2: { intros [= <- <-]. exists b. split; [done|]. left. by rewrite Z.max_l by lia. }
  destruct (malloc_ok _); intros [= <- <-]; eexists; (split; [done|]); [left|right; split_and!; [done|done|lia]].
  split; [done|]. rewrite Z.max_r by lia. destruct Hb as ([Hm Hu'] & Hl & _).
  assert (Hlen : length (take (Z.to_nat (used b)) (mem b)) = length l) by (by rewrite <- Hl).
  split_and!; [split| |].
  - cbn. unfold realloc_zero. rewrite length_app, Hlen, Nat2Z.inj_add, zero_bytes_length by done.
    unfold strlen in *. lia.
  - cbn. pose proof (strlen_nonneg l). lia.
  - unfold wpabuf_head in *. cbn [used mem]. unfold realloc_zero.
    rewrite take_app_length' by (rewrite Hlen; unfold strlen in *; lia). done.
  - unfold wpabuf_tailroom. cbn. lia.
Qed.

Lemma resize_new k r b :
  0 ≤ k → wpabuf_resize malloc_ok None k = (r, b) →
  (r = 0 ∧ ∃ c, b = Some c ∧ holds_bytes c [] k) ∨ (r = -1 ∧ b = None).
Proof.
  intros Hk. unfold wpabuf_resize. destruct (wpabuf_alloc malloc_ok k) as [c|] eqn:E; intros [= <- <-];
    [left|by right]. split; [done|]. exists c. split; [done|]. by eapply alloc_holds.
Qed.

Lemma dup_holds c s k :
  holds_bytes c s k → wpabuf_dup malloc_ok c = Ret None ∨ ∃ b, wpabuf_dup malloc_ok c = Ret (Some b) ∧ holds_bytes b s 0.
Proof.
  intros Hc. destruct (holds_used _ _ _ Hc) as (Hu & _ & _). destruct Hc as (_ & Hs & _).
  unfold wpabuf_dup, wpabuf_len. rewrite Hu. pose proof (strlen_nonneg s).
  destruct (wpabuf_alloc malloc_ok (strlen s)) as [b|] eqn:E; [right|by left].
  unfold wpabuf_put_data. rewrite Hs.
  destruct (put_bytes_holds b [] (strlen s) s) as (b' & -> & Hb' & _); [by eapply alloc_holds|lia|].
  exists b'. split; [done|]. by rewrite Z.sub_diag in Hb'.
Qed.

(** The bytes of a buffer that may be NULL. *)
Definition opt_holds (b : option wpabuf) (l : list Z) : Prop :=
  match b with Some b => ∃ n, holds_bytes b l n | None => l = [] end.

Lemma concat_holds a b l s :
  opt_holds a l → opt_holds b s →
  wpabuf_concat malloc_ok a b = Ret None ∨ ∃ c, wpabuf_concat malloc_ok a b = Ret c ∧ opt_holds c (l ++ s).
Proof.
  intros Ha Hb. unfold wpabuf_concat. destruct b as [b|]; cbn [opt_holds] in Hb.
  2: { rewrite Hb. right. exists a. by rewrite app_nil_r. }
  destruct Hb as [k Hb]. destruct (holds_used _ _ _ Hb) as (Hub & _ & _).
  pose proof (strlen_nonneg s). pose proof (strlen_nonneg l). unfold wpabuf_len. rewrite Hub.
  assert (Hul : (match a with Some a => used a | None => 0 end) = strlen l).
  { destruct a as [a|]; [|by cbn in Ha; rewrite Ha]. destruct Ha as [n Ha].
    by destruct (holds_used _ _ _ Ha) as (-> & _). }
  rewrite Hul. destruct (wpabuf_alloc malloc_ok _) as [n|] eqn:E; [right|by left].
  apply alloc_holds in E; [|lia].
  assert (Hput : ∃ n1, put_opt n a = Ret n1 ∧ holds_bytes n1 l (strlen s)).
  { destruct a as [a|]; cbn [put_opt opt_holds] in *.
    - destruct Ha as [m Ha]. destruct (put_buf_holds n [] _ a l m E Ha) as (n1 & H1 & H2); [lia|].
      exists n1. split; [done|]. by replace (strlen s) with (strlen l + strlen s - strlen l) by lia.
    - cbn in Ha. rewrite Ha in *. exists n. by rewrite Z.add_0_l in E. }
  destruct Hput as (n1 & -> & H1). ret_simpl. cbn [put_opt].
  destruct (put_buf_holds n1 l _ b s k H1 Hb) as (n2 & -> & H2); [lia|]. ret_simpl.
  exists (Some n2). split; [done|]. by eexists.
Qed.
End theorems.

Lemma zeropad_holds malloc_ok b l n len c :
  holds_bytes b l n → wpabuf_zeropad malloc_ok (Some b) len = Ret (Some c) →
  ∃ k, holds_bytes c (zero_bytes (len - strlen l) ++ l) k.
Proof.
  intros Hb. destruct (holds_used _ _ _ Hb) as (Hu & Hsz & Hn). unfold wpabuf_zeropad, wpabuf_len.
  rewrite Hu. destruct (len <=? strlen l) eqn:El; zbool.
  { intros [= <-]. exists n. unfold zero_bytes. by replace (Z.to_nat (len - strlen l)) with 0%nat by lia. }
  pose proof (strlen_nonneg l). destruct (wpabuf_alloc malloc_ok len) as [r|] eqn:E; [|done].
  apply alloc_holds in E; [|lia].
  assert (Hz : strlen (zero_bytes (len - strlen l)) = len - strlen l).
  { apply zero_bytes_length. lia. }
  destruct (put_bytes_holds r [] len (zero_bytes (len - strlen l)) E) as (r1 & H1 & Hr1 & _); [lia|].
  unfold put_bytes in H1. rewrite Hz in H1.
  destruct (wpabuf_put r (len - strlen l)) as [[pos r0]| |]; [|done|done]. revert H1. ret_simpl.
  intros ->. ret_simpl. destruct (put_buf_holds r1 _ _ b l n Hr1 Hb) as (r2 & -> & Hr2); [lia|].
  ret_simpl. intros [= <-]. by eexists.
Qed.

(** The binary form of printed data. *)
Lemma parse_bin_text malloc_ok data :
  (∀ n, malloc_ok n = true) → byte_list data →
  ∃ b, wpabuf_parse_bin malloc_ok (hex_text data) = Ret (Some b) ∧ holds_bytes b data 0.
Proof.
  intros Hm Hd. unfold wpabuf_parse_bin.
  assert (Hl : strlen (hex_text data) = 2 * strlen data) by (unfold strlen; rewrite hex_text_length by done; lia).
  rewrite Hl. pose proof (strlen_nonneg data).
  assert (Hev : Z.land (2 * strlen data) 1 = 0).
  { change 1 with (Z.ones 1). rewrite Z.land_ones by done. change (2 ^ 1) with 2. lia. }
  rewrite Hev. cbn [negb Z.eqb]. replace (2 * strlen data / 2) with (strlen data) by lia.
  unfold wpabuf_alloc. rewrite Hm.
  assert (Ha : holds_bytes (Wpabuf (strlen data) 0 (zero_bytes (strlen data)) false) [] (strlen data)).
  { apply (alloc_holds malloc_ok); [done|]. unfold wpabuf_alloc. by rewrite Hm. }
  destruct (put_bytes_holds _ [] _ data Ha) as (b & Hb & Hh & _); [lia|].
  unfold put_bytes in Hb. destruct (wpabuf_put _ _) as [[pos r0]| |]; [|done|done].
  revert Hb. ret_simpl. intros Hb. replace (Z.to_nat (strlen data)) with (length data) by (unfold strlen; lia).
  rewrite <- (app_nil_r (hex_text data)), hexstr2bin_text, Hb by done. ret_simpl.
  exists b. split; [done|]. by rewrite Z.sub_diag in Hh.
Qed.

(** Data that is put after growing the buffer by as much never aborts: with
    every resize granted, the buffer ends with all the pieces in order. *)
Theorem wpabuf_append_all malloc_ok pieces :
  (∀ n, malloc_ok n = true) →
  ∃ b, foldl (λ (r : outcome (option wpabuf)) s,
         b ← r;
         let '(ret, b) := wpabuf_resize malloc_ok b (strlen s) in
         if ret <? 0 then Ret b
         else match b with
              | Some b => b ← wpabuf_put_data b (Some s); Ret (Some b)
              | None => Ret None
              end) (Ret None) pieces = Ret b ∧
    opt_holds b (concat pieces).
Proof.
  intros Hm. induction pieces as [|s pieces IH] using rev_ind; [by exists None|].
  destruct IH as (b & Hb & Hh). rewrite foldl_app, Hb, concat_app. cbn [foldl concat].
  rewrite app_nil_r. ret_simpl. pose proof (strlen_nonneg s).
  destruct (wpabuf_resize malloc_ok b (strlen s)) as [ret b'] eqn:E.
  assert (Hr : ret = 0 ∧ ∃ c n, b' = Some c ∧ holds_bytes c (concat pieces) n ∧ strlen s ≤ n).
  { destruct b as [b|].
    - destruct Hh as [n Hn]. destruct (resize_holds _ _ _ _ _ _ _ Hn (strlen_nonneg s) E) as (c & -> & Hc).
      unfold wpabuf_resize in E. rewrite Hm in E.
      destruct Hc as [[-> Hc]|(-> & _ & _)]; [|by destruct (_ <? _)].
      split; [done|]. do 2 eexists. split_and!; [done|exact Hc|lia].
    - cbn in Hh. rewrite Hh. destruct (resize_new _ _ _ _ (strlen_nonneg s) E) as [(-> & c & -> & Hc)|[-> ->]].
      + split; [done|]. do 2 eexists. split_and!; [done|exact Hc|lia].
      + unfold wpabuf_resize, wpabuf_alloc in E. by rewrite Hm in E. }
  destruct Hr as (-> & c & n & -> & Hc & Hn). cbn [Z.ltb Z.compare].
  destruct (put_bytes_holds c _ n s Hc Hn) as (b2 & Hput & Hb2 & _).
  unfold wpabuf_put_data. rewrite Hput. ret_simpl. eexists. split; [done|]. by eexists.
Qed.

Lemma wpabuf_append_all_witness :
  ∃ b, foldl (λ (r : outcome (option wpabuf)) s,
         b ← r;
         let '(ret, b) := wpabuf_resize (λ _, true) b (strlen s) in
         if ret <? 0 then Ret b
         else match b with
              | Some b => b ← wpabuf_put_data b (Some s); Ret (Some b)
              | None => Ret None
              end) (Ret None) [[1; 2]; []; [3]] = Ret b ∧
    opt_holds b (concat [[1; 2]; []; [3]]).
Proof. by apply (wpabuf_append_all (λ _, true)). Defined.
