(* ===== verification/Bss.v ===== *)
(** * Scan results, BSS entries and their elements
      (wpa_supplicant/bss.c, bss.h, scan.c, src/common/ieee802_11_common.c)

    The elements of a frame follow a struct in its memory: those of the Probe
    Response first, then those of the Beacon.  A pointer to an element is its
    offset in that memory; NULL is [None].  The theorems compare the searches
    with the list of the elements that the bytes hold. *)

From S2P Require Import Prelude CString Common WpaIe WpaSpec Wpabuf.

Definition WLAN_EID_SSID : Z := 0.
Definition WLAN_EID_SUPP_RATES : Z := 1.
Definition WLAN_EID_EXT_SUPP_RATES : Z := 50.
Definition WLAN_EID_MESH_ID : Z := 114.
Definition WLAN_EID_MULTI_BAND : Z := 158.
Definition WPA_IE_VENDOR_TYPE : Z := 0x0050f201.
Definition WPS_IE_VENDOR_TYPE : Z := 0x0050f204.
Definition P2P_IE_VENDOR_TYPE : Z := 0x506f9a09.
Definition HS20_IE_VENDOR_TYPE : Z := 0x506f9a10.

(** ** Searching *)

Section search.
Context (m : list Z).

(** The loop over the elements up to [end_] that all searches share: [test]
    looks at the element at [pos]. *)
Fixpoint find_ie (fuel : nat) (test : Z → outcome bool) (pos end_ : Z) : outcome (option Z) :=
  match fuel with
  | O => OutOfFuel
  | S fuel' =>
      if 1 <? end_ - pos then
        l ← u8_at m (pos + 1);
        if end_ - pos <? 2 + l then Ret None
        else
          t ← test pos;
          if (t : bool) then Ret (Some pos)
          else l ← u8_at m (pos + 1); find_ie fuel' test (pos + (2 + l)) end_
      else Ret None
  end.

Definition search (test : Z → outcome bool) (pos len : Z) : outcome (option Z) :=
  find_ie (S (Z.to_nat len)) test pos (pos + len).

Definition get_ie (ies len eid : Z) : outcome (option Z) :=
  search (λ pos, id ← u8_at m pos; Ret (id =? eid)) ies len.

Definition is_vendor (vendor_type pos : Z) : outcome bool :=
  id ← u8_at m pos;
  if id =? WLAN_EID_VENDOR_SPECIFIC then
    l ← u8_at m (pos + 1);
    if 4 <=? l then t ← WPA_GET_BE32 m (pos + 2); Ret (vendor_type =? t) else Ret false
  else Ret false.

(** What [memcpy] reads. *)
Definition bytes_at (pos n : Z) : outcome (list Z) :=
  if (0 <=? pos) && (0 <=? n) && (pos + n <=? strlen m)
  then Ret (take (Z.to_nat n) (drop (Z.to_nat pos) m))
  else UB "read behind the element".

(** The loop that collects what follows the vendor type. *)
Fixpoint collect_vendor (fuel : nat) (vendor_type pos end_ : Z) (b : wpabuf) : outcome wpabuf :=
  match fuel with
  | O => OutOfFuel
  | S fuel' =>
      if 1 <? end_ - pos then
        l ← u8_at m (pos + 1);
        if end_ - pos <? 2 + l then Ret b
        else
          t ← is_vendor vendor_type pos;
          b ← (if (t : bool) then
                 l ← u8_at m (pos + 1);
                 s ← bytes_at (pos + 2 + 4) (l - 4);
                 wpabuf_put_data b (Some s)
               else Ret b);
          l ← u8_at m (pos + 1);
          collect_vendor fuel' vendor_type (pos + (2 + l)) end_ b
      else Ret b
  end.

Definition vendor_multi (malloc_ok : Z → bool) (vendor_type pos len : Z)
    : outcome (option wpabuf) :=
  match wpabuf_alloc malloc_ok len with
  | None => Ret None
  | Some b =>
      b ← collect_vendor (S (Z.to_nat len)) vendor_type pos (pos + len) b;
      if wpabuf_len b =? 0 then Ret None else Ret (Some b)
  end.

(** The largest rate of the element at [ie], from the [i]-th byte on. *)
Fixpoint max_rate_loop (n : nat) (ie i rate : Z) : outcome Z :=
  match n with
  | O => Ret rate
  | S n' =>
      x ← u8_at m (ie + (i + 2));
      max_rate_loop n' ie (i + 1) (if rate <? Z.land x 0x7f then Z.land x 0x7f else rate)
  end.

Definition ie_max_rate (ie : option Z) (rate : Z) : outcome Z :=
  match ie with
  | Some ie => l ← u8_at m (ie + 1); max_rate_loop (Z.to_nat l) ie 0 rate
  | None => Ret rate
  end.

Fixpoint copy_rates (n : nat) (ie i : Z) (r : buf) (off : Z) : outcome buf :=
  match n with
  | O => Ret r
  | S n' =>
      x ← u8_at m (ie + (i + 2));
      r ← buf_set r (off + i) (Z.land x 0x7f);
      copy_rates n' ie (i + 1) r off
  end.

Definition ie_len_at (ie : option Z) : outcome Z :=
  match ie with Some ie => u8_at m (ie + 1) | None => Ret 0 end.
End search.

(** ** Scan results of a driver *)

Record wpa_scan_res : Type := ScanRes {
  res_flags : Z;
  res_bssid : list Z;
  res_freq : Z;
  res_beacon_int : Z;
  res_caps : Z;
  res_qual : Z;
  res_noise : Z;
  res_level : Z;
  res_tsf : Z;
  res_age : Z;
  res_est_throughput : Z;
  res_snr : Z;
  res_ie_len : Z;
  res_beacon_ie_len : Z;
  res_ies : list Z
}.

Definition wpa_scan_get_ie (res : wpa_scan_res) (ie : Z) : outcome (option Z) :=
  get_ie (res_ies res) 0 (res_ie_len res) ie.

Definition wpa_scan_get_vendor_ie (res : wpa_scan_res) (vendor_type : Z) : outcome (option Z) :=
  search (res_ies res) (is_vendor (res_ies res) vendor_type) 0 (res_ie_len res).

Definition wpa_scan_get_vendor_ie_beacon (res : wpa_scan_res) (vendor_type : Z)
    : outcome (option Z) :=
  if res_beacon_ie_len res =? 0 then Ret None
  else search (res_ies res) (is_vendor (res_ies res) vendor_type) (res_ie_len res)
         (res_beacon_ie_len res).

Definition wpa_scan_get_vendor_ie_multi (malloc_ok : Z → bool) (res : wpa_scan_res)
    (vendor_type : Z) : outcome (option wpabuf) :=
  vendor_multi (res_ies res) malloc_ok vendor_type 0 (res_ie_len res).

Definition wpa_scan_get_max_rate (res : wpa_scan_res) : outcome Z :=
  ie ← wpa_scan_get_ie res WLAN_EID_SUPP_RATES;
  rate ← ie_max_rate (res_ies res) ie 0;
  ie ← wpa_scan_get_ie res WLAN_EID_EXT_SUPP_RATES;
  ie_max_rate (res_ies res) ie rate.

(** ** BSS entries *)

Record wpa_bss : Type := Bss {
  bss_id : Z;
  scan_miss_count : Z;
  last_update_idx : Z;
  bss_flags : Z;
  bss_bssid : list Z;
  bss_ssid : list Z;
  bss_freq : Z;
  bss_beacon_int : Z;
  bss_caps : Z;
  bss_qual : Z;
  bss_noise : Z;
  bss_level : Z;
  bss_tsf : Z;
  last_update : Z * Z;
  bss_est_throughput : Z;
  bss_snr : Z;
  ie_len : Z;
  beacon_ie_len : Z;
  bss_ies : list Z
}.

Definition wpa_bss_get_ie (bss : wpa_bss) (ie : Z) : outcome (option Z) :=
  get_ie (bss_ies bss) 0 (ie_len bss) ie.

Definition wpa_bss_get_vendor_ie (bss : wpa_bss) (vendor_type : Z) : outcome (option Z) :=
  search (bss_ies bss) (is_vendor (bss_ies bss) vendor_type) 0 (ie_len bss).

Definition wpa_bss_get_vendor_ie_beacon (bss : wpa_bss) (vendor_type : Z) : outcome (option Z) :=
  if beacon_ie_len bss =? 0 then Ret None
  else search (bss_ies bss) (is_vendor (bss_ies bss) vendor_type) (ie_len bss)
         (beacon_ie_len bss).

Section alloc.
Context (malloc_ok : Z → bool).

Definition wpa_bss_get_vendor_ie_multi (bss : wpa_bss) (vendor_type : Z)
    : outcome (option wpabuf) :=
  vendor_multi (bss_ies bss) malloc_ok vendor_type 0 (ie_len bss).

Definition wpa_bss_get_vendor_ie_multi_beacon (bss : wpa_bss) (vendor_type : Z)
    : outcome (option wpabuf) :=
  vendor_multi (bss_ies bss) malloc_ok vendor_type (ie_len bss) (beacon_ie_len bss).

(** The number of rates and the memory that holds them. *)
Definition wpa_bss_get_bit_rates (bss : wpa_bss) : outcome (Z * option buf) :=
  let m := bss_ies bss in
  ie ← wpa_bss_get_ie bss WLAN_EID_SUPP_RATES;
  ie2 ← wpa_bss_get_ie bss WLAN_EID_EXT_SUPP_RATES;
  l1 ← ie_len_at m ie; l2 ← ie_len_at m ie2;
  let len := l1 + l2 in
  if negb (malloc_ok len) then Ret (-1, None)
  else
    r ← match ie with
        | Some p => copy_rates m (Z.to_nat l1) p 0 (uninit len) 0
        | None => Ret (uninit len)
        end;
    r ← match ie2 with Some p => copy_rates m (Z.to_nat l2) p 0 r l1 | None => Ret r end;
    Ret (len, Some r).
End alloc.

Definition wpa_bss_get_max_rate (bss : wpa_bss) : outcome Z :=
  ie ← wpa_bss_get_ie bss WLAN_EID_SUPP_RATES;
  rate ← ie_max_rate (bss_ies bss) ie 0;
  ie ← wpa_bss_get_ie bss WLAN_EID_EXT_SUPP_RATES;
  ie_max_rate (bss_ies bss) ie rate.

Definition bss_is_dmg (bss : wpa_bss) : bool := 45000 <? bss_freq bss.

Definition IEEE80211_CAP_DMG_MASK : Z := 3.
Definition IEEE80211_CAP_DMG_IBSS : Z := 1.
Definition IEEE80211_CAP_DMG_PBSS : Z := 2.
Definition IEEE80211_CAP_DMG_AP : Z := 3.
Definition IEEE80211_CAP_ESS : Z := 0x0001.
Definition IEEE80211_CAP_IBSS : Z := 0x0002.
Definition IEEE80211_CAP_PRIVACY : Z := 0x0010.

Definition bss_is_pbss (bss : wpa_bss) : bool :=
  bss_is_dmg bss && (Z.land (bss_caps bss) IEEE80211_CAP_DMG_MASK =? IEEE80211_CAP_DMG_PBSS).

(** ** The elements that bytes hold *)

Fixpoint elements (fuel : nat) (l : list Z) : list (Z * list Z) :=
  match fuel, l with
  | S fuel', id :: len :: l' =>
      if len <=? strlen l'
      then (id, take (Z.to_nat len) l') :: elements fuel' (drop (Z.to_nat len) l')
      else []
  | _, _ => []
  end.

Definition elements_of (l : list Z) : list (Z * list Z) := elements (length l) l.

(** The position of the first element with a property. *)
Fixpoint locate (P : Z * list Z → bool) (pos : Z) (es : list (Z * list Z)) : option Z :=
  match es with
  | [] => None
  | e :: es' => if P e then Some pos else locate P (pos + (2 + strlen (snd e))) es'
  end.

Definition vendor_elem (vendor_type : Z) (e : Z * list Z) : bool :=
  match e with
  | (id, a :: b :: c :: d :: _) =>
      (id =? WLAN_EID_VENDOR_SPECIFIC) &&
      (vendor_type =? Z.lor (Z.lor (Z.lor (Z.shiftl a 24) (Z.shiftl b 16)) (Z.shiftl c 8)) d)
  | _ => false
  end.

(** What [elements] finds does not depend on spare fuel. *)
Lemma elements_fuel f g l : (length l ≤ f)%nat → (length l ≤ g)%nat → elements f l = elements g l.
Proof.
  revert g l. induction f as [|f IH]; intros g l Hf Hg; [by destruct l, g; simpl in *; try lia|].
  destruct l as [|id [|len l]]; [by destruct g..|].
  destruct g as [|g]; [simpl in *; lia|]. cbn [elements]. case_if; [|done].
  f_equal. apply IH; rewrite length_drop; simpl in *; lia.
Qed.

Lemma elements_cons id n l :
  elements_of (id :: n :: l) =
  if n <=? strlen l then (id, take (Z.to_nat n) l) :: elements_of (drop (Z.to_nat n) l) else [].
Proof.
  unfold elements_of. change (length (id :: n :: l)) with (S (S (length l))).
  change (elements (S (S (length l))) (id :: n :: l)) with
    (if n <=? strlen l then (id, take (Z.to_nat n) l) :: elements (S (length l)) (drop (Z.to_nat n) l)
     else []).
  case_if; [|done]. f_equal. apply elements_fuel; rewrite ?length_drop; lia.
Qed.

Section spec.
Context (m : list Z) (Hm : byte_list m).

(** The bytes from [pos] up to [end_]. *)
Definition between (pos end_ : Z) : list Z := take (Z.to_nat (end_ - pos)) (drop (Z.to_nat pos) m).

Lemma between_length pos end_ :
  0 ≤ pos ≤ end_ → end_ ≤ strlen m → strlen (between pos end_) = end_ - pos.
Proof. unfold between, strlen. intros. rewrite length_take, length_drop. lia. Qed.

Lemma between_cons pos end_ a :
  u8_at m pos = Ret a → 0 ≤ pos < end_ → between pos end_ = a :: between (pos + 1) end_.
Proof.
  unfold u8_at, between. intros Ha Hp. rewrite (proj2 (Z.ltb_ge _ _)) in Ha by lia.
  destruct (m !! Z.to_nat pos) as [x|] eqn:E; [|done]. injection Ha as ->.
  rewrite (drop_S _ _ _ E). replace (Z.to_nat (end_ - pos)) with (S (Z.to_nat (end_ - (pos + 1)))) by lia.
  cbn [take]. by replace (Z.to_nat (pos + 1)) with (S (Z.to_nat pos)) by lia.
Qed.

Lemma between_drop pos end_ n : 0 ≤ pos → 0 ≤ n →
  drop (Z.to_nat n) (between pos end_) = between (pos + n) end_.
Proof.
  unfold between. intros Hp Hn. rewrite skipn_firstn_comm, drop_drop. f_equal; [lia|]. f_equal. lia.
Qed.

Lemma between_take pos end_ n : 0 ≤ pos → 0 ≤ n → pos + n ≤ end_ →
  take (Z.to_nat n) (between pos end_) = between pos (pos + n).
Proof. unfold between. intros Hp Hn Hl. rewrite take_take. f_equal. lia. Qed.

Lemma byte_at pos : 0 ≤ pos < strlen m → ∃ a, u8_at m pos = Ret a ∧ 0 ≤ a < 256.
Proof.
  intros Hp. destruct (u8_at_Ret m pos Hp) as (a & Ha & Hin). exists a. split; [done|].
  unfold byte_list in Hm. rewrite Forall_forall in Hm. by apply Hm.
Qed.

(** What a pointer to an element points to. *)
Definition elem_at (pos : Z) (e : Z * list Z) : Prop :=
  0 ≤ pos ∧ pos + 2 + strlen (snd e) ≤ strlen m ∧ u8_at m pos = Ret (fst e) ∧
  u8_at m (pos + 1) = Ret (strlen (snd e)) ∧ between (pos + 2) (pos + 2 + strlen (snd e)) = snd e.

(** The elements behind a position that has two bytes. *)
Lemma elements_step pos end_ id l :
  0 ≤ pos → 1 < end_ - pos → end_ ≤ strlen m →
  u8_at m pos = Ret id → u8_at m (pos + 1) = Ret l → 0 ≤ l →
  if end_ - pos <? 2 + l then elements_of (between pos end_) = []
  else ∃ s, elem_at pos (id, s) ∧ strlen s = l ∧
    elements_of (between pos end_) = (id, s) :: elements_of (between (pos + (2 + l)) end_).
Proof.
  intros Hp Hl He Hid Hlen Hl0.
  assert (Hb : between pos end_ = id :: l :: between (pos + 2) end_).
  { rewrite (between_cons pos end_ id), (between_cons (pos + 1) end_ l) by (done || lia).
    by replace (pos + 1 + 1) with (pos + 2) by lia. }
  assert (Hrest : strlen (between (pos + 2) end_) = end_ - (pos + 2)) by (apply between_length; lia).
  rewrite Hb, elements_cons, Hrest.
  destruct (end_ - pos <? 2 + l) eqn:E; zbool.
  { by rewrite (proj2 (Z.leb_gt _ _)) by lia. }
  rewrite (proj2 (Z.leb_le _ _)) by lia. rewrite between_take, between_drop by lia.
  assert (Hs : strlen (between (pos + 2) (pos + 2 + l)) = l) by (rewrite between_length; lia).
  exists (between (pos + 2) (pos + 2 + l)). split_and!; [|done|].
  - unfold elem_at. cbn [fst snd]. rewrite Hs. split_and!; [done|lia|done|done|done].
  - by replace (pos + 2 + l) with (pos + (2 + l)) by lia.
Qed.

(** A search finds the first element that passes its test. *)
Lemma find_ie_spec test P fuel pos end_ :
  (∀ p e, elem_at p e → test p = Ret (P e)) →
  0 ≤ pos ≤ end_ → end_ ≤ strlen m → end_ - pos < Z.of_nat fuel →
  find_ie m fuel test pos end_ = Ret (locate P pos (elements_of (between pos end_))).
Proof.
  intros Ht. revert pos. induction fuel as [|fuel IH]; intros pos Hp He Hf; [lia|].
  cbn [find_ie]. destruct (1 <? end_ - pos) eqn:E1; zbool.
  2: { assert (Hl : strlen (between pos end_) = end_ - pos) by (apply between_length; lia).
       destruct (between pos end_) as [|a [|b l]]; [done|done|unfold strlen in Hl; simpl in Hl; lia]. }
  destruct (byte_at pos) as (id & Hid & Hidr); [lia|].
  destruct (byte_at (pos + 1)) as (l & Hlen & Hlr); [lia|]. rewrite Hlen. ret_simpl.
  pose proof (elements_step pos end_ id l) as Hstep.
  destruct (end_ - pos <? 2 + l) eqn:E2; zbool; [rewrite Hstep by (done || lia); done|].
  destruct Hstep as (s & Hat & Hs & ->); [done || lia..|].
  rewrite (Ht pos (id, s) Hat). ret_simpl. cbn [locate snd].
  destruct (P (id, s)); [done|]. rewrite Hs. apply IH; lia.
Qed.

Lemma vendor_test vt p e : elem_at p e → is_vendor m vt p = Ret (vendor_elem vt e).
Proof.
  destruct e as [id s]. intros (Hp & Hl & Hid & Hlen & Hs). cbn [fst snd] in *.
  unfold is_vendor, vendor_elem. rewrite Hid. ret_simpl.
  assert (Hat : ∀ i c, s !! i = Some c → u8_at m (p + 2 + Z.of_nat i) = Ret c).
  { intros i c Hc. unfold u8_at. rewrite (proj2 (Z.ltb_ge _ _)) by lia.
    replace (Z.to_nat (p + 2 + Z.of_nat i)) with (Z.to_nat (p + 2) + i)%nat by lia.
    rewrite <- lookup_drop. rewrite <- Hs in Hc. unfold between in Hc.
    apply lookup_take_Some in Hc as [Hc _]. by rewrite Hc. }
  assert (Hlt : strlen s <? 4 = (length s <? 4)%nat).
  { unfold strlen. destruct (Nat.ltb_spec (length s) 4), (Z.ltb_spec (Z.of_nat (length s)) 4); lia || done. }
  destruct (id =? WLAN_EID_VENDOR_SPECIFIC) eqn:E; cbn [andb].
  2: { by destruct s as [|? [|? [|? [|? ?]]]]. }
  rewrite Hlen. ret_simpl. destruct s as [|a [|b [|c [|d s]]]]; try done.
  rewrite (proj2 (Z.leb_le _ _)) by (unfold strlen; simpl; lia). unfold WPA_GET_BE32.
  pose proof (Hat 0%nat a eq_refl) as H0. pose proof (Hat 1%nat b eq_refl) as H1.
  pose proof (Hat 2%nat c eq_refl) as H2. pose proof (Hat 3%nat d eq_refl) as H3.
  change (Z.of_nat 0) with 0 in H0. change (Z.of_nat 1) with 1 in H1.
  change (Z.of_nat 2) with 2 in H2. change (Z.of_nat 3) with 3 in H3.
  rewrite Z.add_0_r in H0. by rewrite H0, H1, H2, H3.
Qed.

Lemma locate_None P pos es : locate P pos es = None → Forall (λ e, P e = false) es.
Proof.
  revert pos. induction es as [|e es IH]; intros pos; cbn [locate]; [constructor|].
  destruct (P e) eqn:E; [done|]. intros H. constructor; eauto.
Qed.

(** Where a search points to. *)
Lemma located P pos end_ p :
  0 ≤ pos ≤ end_ → end_ ≤ strlen m →
  locate P pos (elements_of (between pos end_)) = Some p →
  ∃ e, elem_at p e ∧ P e = true ∧ pos ≤ p ∧ p + 2 + strlen (snd e) ≤ end_ ∧
    ∃ pre post, elements_of (between pos end_) = pre ++ e :: post ∧
      Forall (λ e, P e = false) pre.
Proof.
  intros Hp. remember (Z.to_nat (end_ - pos)) as n eqn:En. revert pos Hp En.
  induction (lt_wf n) as [n _ IH]. intros pos Hp En He Hloc.
  destruct (1 <? end_ - pos) eqn:E1; zbool.
  2: { assert (Hl : strlen (between pos end_) = end_ - pos) by (apply between_length; lia).
       destruct (between pos end_) as [|a [|b l]]; [done|done|unfold strlen in Hl; simpl in Hl; lia]. }
  destruct (byte_at pos) as (id & Hid & Hidr); [lia|].
  destruct (byte_at (pos + 1)) as (l & Hlen & Hlr); [lia|].
  pose proof (elements_step pos end_ id l) as Hstep.
  destruct (end_ - pos <? 2 + l) eqn:E2; zbool; [by rewrite Hstep in Hloc by (done || lia)|].
  destruct Hstep as (s & Hat & Hs & Hel); [done || lia..|]. rewrite Hel in Hloc |- *. cbn [locate] in Hloc.
  destruct (P (id, s)) eqn:EP.
  - injection Hloc as <-. exists (id, s). cbn [snd]. split_and!; [done|done|lia|lia|].
    by exists [], (elements_of (between (pos + (2 + l)) end_)).
  - cbn [snd] in Hloc. rewrite Hs in Hloc.
    destruct (IH (Z.to_nat (end_ - (pos + (2 + l)))) ltac:(lia) (pos + (2 + l)) ltac:(lia) eq_refl He Hloc)
      as (e & Hae & HPe & Hle & Hend & pre & post & -> & Hpre).
    exists e. split_and!; [done|done|lia|done|]. exists ((id, s) :: pre), post. by repeat constructor.
Qed.

(** ** Collected vendor elements *)

Definition vendor_payload (vt : Z) (es : list (Z * list Z)) : list Z :=
  es ≫= λ e, if vendor_elem vt e then drop 4 (snd e) else [].

Lemma bytes_at_between pos n : 0 ≤ pos → 0 ≤ n → pos + n ≤ strlen m →
  bytes_at m pos n = Ret (between pos (pos + n)).
Proof.
  intros Hp Hn Hl. unfold bytes_at, between.
  rewrite (proj2 (Z.leb_le 0 pos)), (proj2 (Z.leb_le 0 n)), (proj2 (Z.leb_le (pos + n) _)) by lia.
  cbn [andb]. by replace (pos + n - pos) with n by lia.
Qed.

Lemma collect_spec vt fuel pos end_ b l room :
  0 ≤ pos ≤ end_ → end_ ≤ strlen m → end_ - pos < Z.of_nat fuel →
  holds_bytes b l room → end_ - pos ≤ room →
  ∃ b' n, collect_vendor m fuel vt pos end_ b = Ret b' ∧
    holds_bytes b' (l ++ vendor_payload vt (elements_of (between pos end_))) n.
Proof.
  revert pos b l room. induction fuel as [|fuel IH]; intros pos b l room Hp He Hf Hb Hr; [lia|].
  cbn [collect_vendor]. destruct (1 <? end_ - pos) eqn:E1; zbool.
  2: { assert (Hl : strlen (between pos end_) = end_ - pos) by (apply between_length; lia).
       exists b, room. split; [done|].
       destruct (between pos end_) as [|x [|y z]]; [by rewrite app_nil_r..|].
       unfold strlen in Hl; simpl in Hl; lia. }
  destruct (byte_at pos) as (id & Hid & Hidr); [lia|].
  destruct (byte_at (pos + 1)) as (n & Hlen & Hlr); [lia|]. rewrite Hlen. ret_simpl.
  pose proof (elements_step pos end_ id n) as Hstep.
  destruct (end_ - pos <? 2 + n) eqn:E2; zbool.
  { rewrite Hstep by (done || lia). exists b, room. by rewrite app_nil_r. }
  destruct Hstep as (s & Hat & Hs & ->); [done || lia..|].
  rewrite (vendor_test vt pos (id, s) Hat). ret_simpl.
  unfold vendor_payload. cbn [mbind list_bind]. fold (vendor_payload vt).
  destruct (vendor_elem vt (id, s)) eqn:Ev; cbn [snd].
  - assert (H4 : 4 <= strlen s).
    { unfold vendor_elem in Ev. destruct s as [|? [|? [|? [|? ?]]]]; try done.
      unfold strlen. simpl. lia. }
    ret_simpl. rewrite bytes_at_between by lia. ret_simpl.
    destruct Hat as (_ & _ & _ & _ & Hs'). cbn [fst snd] in Hs'.
    assert (Hd : between (pos + 2 + 4) (pos + 2 + 4 + (n - 4)) = drop 4 s).
    { rewrite <- Hs' at 1. change 4%nat with (Z.to_nat 4). rewrite between_drop by lia.
      f_equal. lia. }
    rewrite Hd. assert (Hdl : strlen (drop 4 s) = n - 4) by (unfold strlen in *; rewrite length_drop; lia).
    destruct (put_bytes_holds b l room (drop 4 s) Hb) as (b1 & Hput & Hb1 & _); [lia|].
    unfold wpabuf_put_data. rewrite Hput. ret_simpl.
    rewrite app_assoc. eapply IH; [lia|done|lia|exact Hb1|lia].
  - ret_simpl. cbn [app]. eapply IH; [lia|done|lia|exact Hb|lia].
Qed.

(** ** Rates *)

Definition rates_of (s : list Z) : list Z := (λ x, Z.land x 0x7f) <$> s.

Lemma max_rate_at n p i rate s :
  0 ≤ p → 0 ≤ i → between (p + (i + 2)) (p + (i + 2) + Z.of_nat n) = s → length s = n →
  max_rate_loop m n p i rate = Ret (foldl Z.max rate (rates_of s)).
Proof.
  revert i rate s. induction n as [|n IH]; intros i rate s Hp Hi Hs Hl; [by destruct s|].
  destruct s as [|x s]; [done|]. cbn [max_rate_loop].
  assert (Hx : u8_at m (p + (i + 2)) = Ret x).
  { unfold between in Hs. apply (f_equal (.!! 0%nat)) in Hs. rewrite lookup_take_lt, lookup_drop in Hs by lia.
    unfold u8_at. rewrite (proj2 (Z.ltb_ge _ _)) by lia. rewrite Nat.add_0_r in Hs. by rewrite Hs. }
  rewrite Hx. ret_simpl. cbn [rates_of fmap list_fmap foldl].
  rewrite (between_cons _ _ x Hx) in Hs by lia. injection Hs as Hs.
  rewrite (IH (i + 1) _ s).
  - unfold rates_of. do 2 f_equal. case_if; zbool; lia.
  - done.
  - lia.
  - rewrite <- Hs. f_equal; lia.
  - by injection Hl.
Qed.
End spec.

(** ** Entries *)

(** What the memory of an entry holds. *)
Record bss_ok (bss : wpa_bss) : Prop := BssOk {
  ok_ies : byte_list (bss_ies bss);
  ok_lens : 0 ≤ ie_len bss ∧ 0 ≤ beacon_ie_len bss ∧
            ie_len bss + beacon_ie_len bss = strlen (bss_ies bss);
  ok_bssid : length (bss_bssid bss) = 6%nat ∧ byte_list (bss_bssid bss);
  ok_ssid : strlen (bss_ssid bss) ≤ SSID_MAX_LEN ∧ byte_list (bss_ssid bss)
}.

(** The elements of the Probe Response and those of the Beacon. *)
Definition probe_elements (bss : wpa_bss) : list (Z * list Z) :=
  elements_of (between (bss_ies bss) 0 (0 + ie_len bss)).
Definition beacon_elements (bss : wpa_bss) : list (Z * list Z) :=
  elements_of (between (bss_ies bss) (ie_len bss) (ie_len bss + beacon_ie_len bss)).

Lemma search_spec m test P pos len :
  byte_list m → (∀ p e, elem_at m p e → test p = Ret (P e)) →
  0 ≤ pos → 0 ≤ len → pos + len ≤ strlen m →
  search m test pos len = Ret (locate P pos (elements_of (between m pos (pos + len)))).
Proof. intros. unfold search. apply find_ie_spec; [done|done|lia..]. Qed.

Lemma get_ie_spec m pos len eid :
  byte_list m → 0 ≤ pos → 0 ≤ len → pos + len ≤ strlen m →
  get_ie m pos len eid =
    Ret (locate (λ e, fst e =? eid) pos (elements_of (between m pos (pos + len)))).
Proof.
  intros. unfold get_ie. apply search_spec; try done.
  intros p e (_ & _ & -> & _). done.
Qed.

Lemma bss_get_ie bss eid : bss_ok bss →
  wpa_bss_get_ie bss eid = Ret (locate (λ e, fst e =? eid) 0 (probe_elements bss)).
Proof. intros [Hm Hl _ _]. unfold wpa_bss_get_ie. apply get_ie_spec; [done|lia..]. Qed.

Lemma bss_get_vendor_ie bss vt : bss_ok bss →
  wpa_bss_get_vendor_ie bss vt = Ret (locate (vendor_elem vt) 0 (probe_elements bss)).
Proof.
  intros [Hm Hl _ _]. unfold wpa_bss_get_vendor_ie.
  apply search_spec; [done|intros; by apply vendor_test|lia..].
Qed.

Lemma bss_get_vendor_ie_beacon bss vt : bss_ok bss →
  wpa_bss_get_vendor_ie_beacon bss vt =
    Ret (locate (vendor_elem vt) (ie_len bss) (beacon_elements bss)).
Proof.
  intros [Hm Hl _ _]. unfold wpa_bss_get_vendor_ie_beacon. destruct (beacon_ie_len bss =? 0) eqn:E; zbool.
  - unfold beacon_elements, between. rewrite E. by replace (ie_len bss + 0 - ie_len bss) with 0 by lia.
  - apply search_spec; [done|intros; by apply vendor_test|lia..].
Qed.

(** In any bytes the search for an element ends, and finds the first element
    with the identifier, whole and within the bytes; it finds none only where
    there is none. *)
Theorem get_ie_first m pos len eid :
  byte_list m → 0 ≤ pos → 0 ≤ len → pos + len ≤ strlen m →
  match get_ie m pos len eid with
  | Ret (Some p) => ∃ pre s post,
      elements_of (between m pos (pos + len)) = pre ++ (eid, s) :: post ∧
      Forall (λ e, fst e ≠ eid) pre ∧
      elem_at m p (eid, s) ∧ pos ≤ p ∧ p + 2 + strlen s ≤ pos + len
  | Ret None => Forall (λ e, fst e ≠ eid) (elements_of (between m pos (pos + len)))
  | _ => False
  end.
Proof.
  intros Hm Hp Hl Hle. rewrite get_ie_spec by done.
  assert (Hne : ∀ es, Forall (λ e : Z * list Z, (fst e =? eid) = false) es → Forall (λ e, fst e ≠ eid) es).
  { intros es H. eapply Forall_impl; [exact H|]. intros e. apply Z.eqb_neq. }
  destruct (locate _ pos _) as [p|] eqn:E; [|by apply Hne; apply locate_None in E].
  destruct (located m Hm _ pos (pos + len) p ltac:(lia) Hle E) as ([id s] & Hat & HP & H1 & H2 & pre & post & -> & Hpre).
  cbn [fst snd] in *. zbool. subst id. exists pre, s, post. split_and!; try done. by apply Hne.
Qed.

Lemma get_ie_first_witness :
  match get_ie [0; 1; 97; 48; 2; 7; 7; 48; 9] 0 9 48 with
  | Ret (Some p) => ∃ pre s post,
      elements_of (between [0; 1; 97; 48; 2; 7; 7; 48; 9] 0 (0 + 9)) = pre ++ (48, s) :: post ∧
      Forall (λ e, fst e ≠ 48) pre ∧
      elem_at [0; 1; 97; 48; 2; 7; 7; 48; 9] p (48, s) ∧ 0 ≤ p ∧ p + 2 + strlen s ≤ 0 + 9
  | Ret None => Forall (λ e, fst e ≠ 48) (elements_of (between [0; 1; 97; 48; 2; 7; 7; 48; 9] 0 (0 + 9)))
  | _ => False
  end.
Proof.
  apply (get_ie_first [0; 1; 97; 48; 2; 7; 7; 48; 9] 0 9 48); [|by vm_compute..].
  by apply (bool_decide_unpack _).
Defined.

(** What is put together from the vendor elements of an entry fits the
    buffer that is allocated for it, and is what they hold, in order. *)
Theorem vendor_multi_collects malloc_ok bss vt :
  bss_ok bss → (∀ n, malloc_ok n = true) →
  ∃ b, wpa_bss_get_vendor_ie_multi malloc_ok bss vt = Ret b ∧
    opt_holds b (vendor_payload vt (probe_elements bss)).
Proof.
  intros [Hm Hl _ _] Ha. unfold wpa_bss_get_vendor_ie_multi, vendor_multi.
  destruct (wpabuf_alloc malloc_ok (ie_len bss)) as [b|] eqn:E.
  2: { unfold wpabuf_alloc in E. by rewrite Ha in E. }
  apply alloc_holds in E; [|lia].
  destruct (collect_spec (bss_ies bss) Hm vt (S (Z.to_nat (ie_len bss))) 0 (0 + ie_len bss) b [] (ie_len bss))
    as (b' & n & -> & Hb'); [lia|lia|lia|done|lia|].
  ret_simpl. destruct (holds_used _ _ _ Hb') as (Hu & _). unfold wpabuf_len. rewrite Hu.
  change ([] ++ ?x) with x in *. case_if; zbool.
  - exists None. split; [done|]. cbn [opt_holds]. apply length_zero_iff_nil. fold (probe_elements bss) in *. unfold strlen in *. lia.
  - exists (Some b'). split; [done|]. by exists n.
Qed.

(** An entry with an SSID, two WPS elements and a WPA element. *)
Definition demo_bss : wpa_bss :=
  let ies := [0; 1; 97; 221; 5; 0; 80; 242; 4; 16; 221; 4; 0; 80; 242; 1; 221; 6; 0; 80; 242; 4; 17; 18] in
  Bss 1 0 1 0 [2; 0; 0; 0; 0; 1] [97] 2412 100 17 0 0 (-50) 0 (0, 0) 0 0 24 0 ies.

Lemma demo_bss_ok : bss_ok demo_bss.
Proof. split; [by apply (bool_decide_unpack _)|vm_compute; done| |];
  (split; [vm_compute; done|by apply (bool_decide_unpack _)]). Qed.

Lemma vendor_multi_collects_witness :
  ∃ b, wpa_bss_get_vendor_ie_multi (λ _, true) demo_bss WPS_IE_VENDOR_TYPE = Ret b ∧
    opt_holds b (vendor_payload WPS_IE_VENDOR_TYPE (probe_elements demo_bss)).
Proof. apply (vendor_multi_collects (λ _, true) demo_bss); [apply demo_bss_ok|done]. Defined.

Example demo_payload : vendor_payload WPS_IE_VENDOR_TYPE (probe_elements demo_bss) = [16; 17; 18].
Proof. reflexivity. Qed.

(** The largest rate is that of the two rate elements. *)
Definition elem_rates (eid : Z) (bss : wpa_bss) : list Z :=
  match filter (λ e : Z * list Z, fst e = eid) (probe_elements bss) with
  | e :: _ => rates_of (snd e)
  | [] => []
  end.

Lemma filter_first (eid : Z) (pre : list (Z * list Z)) e post :
  Forall (λ e, (fst e =? eid) = false) pre → (fst e =? eid) = true →
  filter (λ e : Z * list Z, fst e = eid) (pre ++ e :: post) =
  e :: filter (λ e : Z * list Z, fst e = eid) post.
Proof.
  intros Hpre He. rewrite filter_app, filter_cons_True by (by apply Z.eqb_eq).
  replace (filter _ pre) with (@nil (Z * list Z)); [done|]. symmetry.
  induction Hpre as [|x l Hx _ IH]; [done|]. rewrite filter_cons_False; [done|]. by apply Z.eqb_neq.
Qed.

Lemma ie_max_rate_spec bss eid rate : bss_ok bss →
  (ie ← wpa_bss_get_ie bss eid; ie_max_rate (bss_ies bss) ie rate) =
  Ret (foldl Z.max rate (elem_rates eid bss)).
Proof.
  intros Hok. rewrite bss_get_ie by done. ret_simpl. destruct Hok as [Hm Hl _ _].
  unfold elem_rates. destruct (locate _ 0 _) as [p|] eqn:E.
  - unfold probe_elements in *.
    destruct (located _ Hm _ 0 (0 + ie_len bss) p ltac:(lia) ltac:(lia) E)
      as (e & Hat & HP & H1 & H2 & pre & post & -> & Hpre).
    rewrite filter_first by done. destruct Hat as (Hp & Hle & _ & Hn & Hs).
    cbn [ie_max_rate]. rewrite Hn. ret_simpl.
    apply max_rate_at; [done|lia| |unfold strlen; lia]. etrans; [|exact Hs]. f_equal; unfold strlen; lia.
  - apply locate_None in E. cbn [ie_max_rate].
    replace (filter _ _) with (@nil (Z * list Z)); [done|]. symmetry.
    induction E as [|x l Hx _ IH]; [done|]. rewrite filter_cons_False; [done|]. by apply Z.eqb_neq.
Qed.

Lemma max_rate_spec bss : bss_ok bss →
  wpa_bss_get_max_rate bss =
  Ret (foldl Z.max 0 (elem_rates WLAN_EID_SUPP_RATES bss ++ elem_rates WLAN_EID_EXT_SUPP_RATES bss)).
Proof.
  intros Hok. unfold wpa_bss_get_max_rate.
  pose proof (ie_max_rate_spec bss WLAN_EID_SUPP_RATES 0 Hok) as H1.
  destruct (wpa_bss_get_ie bss WLAN_EID_SUPP_RATES) as [ie| |]; [|done|done]. revert H1. ret_simpl.
  intros ->. ret_simpl. rewrite ie_max_rate_spec by done. by rewrite foldl_app.
Qed.
