(* ===== verification/Blacklist.v ===== *)
(** * Temporary blacklist (wpa_supplicant/blacklist.c)

    A list of BSSIDs with counts, newest first.  The counts are [int]s;
    [malloc_ok] says whether an entry can be allocated.  The theorems compare
    the list with a finite map from BSSIDs to counts. *)

From S2P Require Import Prelude CString Common.

Record wpa_blacklist : Type := Entry { e_bssid : list Z; e_count : Z }.

(** The parts of [struct wpa_supplicant] that are used. *)
Record blacklist_state : Type := BlState {
  blacklist : list wpa_blacklist;
  extra_blacklist_count : Z
}.

Definition bssid_eqb (a b : list Z) : bool := str_eqb a b.

Fixpoint find_entry (l : list wpa_blacklist) (bssid : list Z) : option wpa_blacklist :=
  match l with
  | [] => None
  | e :: l' => if bssid_eqb (e_bssid e) bssid then Some e else find_entry l' bssid
  end.

Definition wpa_blacklist_get (s : blacklist_state) (bssid : option (list Z)) : option wpa_blacklist :=
  bssid ← bssid; find_entry (blacklist s) bssid.

(** [e->count++] on the entry that was found. *)
Fixpoint count_up (l : list wpa_blacklist) (bssid : list Z) : outcome (Z * list wpa_blacklist) :=
  match l with
  | [] => Ret (-1, [])
  | e :: l' =>
      if bssid_eqb (e_bssid e) bssid then
        c ← int_chk (e_count e + 1); Ret (c, Entry (e_bssid e) c :: l')
      else '(c, l') ← count_up l' bssid; Ret (c, e :: l')
  end.

Definition wpa_blacklist_add (malloc_ok : bool) (s : blacklist_state) (bssid : option (list Z))
    : outcome (Z * blacklist_state) :=
  match bssid with
  | None => Ret (-1, s)
  | Some b =>
      match wpa_blacklist_get s (Some b) with
      | Some _ =>
          '(c, l) ← count_up (blacklist s) b; Ret (c, BlState l (extra_blacklist_count s))
      | None =>
          if malloc_ok then
            Ret (1, BlState (Entry b 1 :: blacklist s) (extra_blacklist_count s))
          else Ret (-1, s)
      end
  end.

(** What is left without the first entry of the BSSID. *)
Fixpoint unlink (l : list wpa_blacklist) (bssid : list Z) : option (list wpa_blacklist) :=
  match l with
  | [] => None
  | e :: l' =>
      if bssid_eqb (e_bssid e) bssid then Some l' else l' ← unlink l' bssid; Some (e :: l')
  end.

Definition wpa_blacklist_del (s : blacklist_state) (bssid : option (list Z)) : Z * blacklist_state :=
  match bssid with
  | None => (-1, s)
  | Some b =>
      match unlink (blacklist s) b with
      | Some l => (0, BlState l (extra_blacklist_count s))
      | None => (-1, s)
      end
  end.

Definition max_count (l : list wpa_blacklist) : Z :=
  foldl (λ m e, if m <? e_count e then e_count e else m) 0 l.

Definition wpa_blacklist_clear (s : blacklist_state) : outcome blacklist_state :=
  x ← int_chk (extra_blacklist_count s + max_count (blacklist s)); Ret (BlState [] x).

(** ** The counts as a map *)

Definition counts (l : list wpa_blacklist) : gmap (list Z) Z :=
  list_to_map ((λ e, (e_bssid e, e_count e)) <$> l).

(** No BSSID is listed twice, and every count is positive. *)
Definition bl_ok (s : blacklist_state) : Prop :=
  NoDup (e_bssid <$> blacklist s) ∧ Forall (λ e, 1 ≤ e_count e) (blacklist s).

Lemma bssid_eqb_eq a b : bssid_eqb a b = true ↔ a = b.
Proof. apply str_eqb_eq. Qed.

Lemma bssid_eqb_neq a b : bssid_eqb a b = false ↔ a ≠ b.
Proof. rewrite <- bssid_eqb_eq. by destruct (bssid_eqb a b). Qed.

Lemma find_entry_counts l b : e_count <$> find_entry l b = counts l !! b.
Proof.
  induction l as [|e l IH]; [done|]. unfold counts. cbn [find_entry fmap list_fmap list_to_map foldr].
  destruct (bssid_eqb (e_bssid e) b) eqn:E.
  - apply bssid_eqb_eq in E as <-. cbn. by rewrite lookup_insert_eq.
  - apply bssid_eqb_neq in E. cbn. by rewrite lookup_insert_ne.
Qed.

Lemma count_up_spec l b n :
  counts l !! b = Some n → n < INT_MAX → NoDup (e_bssid <$> l) → Forall (λ e, 1 ≤ e_count e) l →
  ∃ l', count_up l b = Ret (n + 1, l') ∧ counts l' = <[b := n + 1]> (counts l) ∧
    e_bssid <$> l' = e_bssid <$> l ∧ Forall (λ e, 1 ≤ e_count e) l'.
Proof.
  intros Hb Hn. induction l as [|e l IH]; [done|]. intros Hd Hp.
  apply NoDup_cons in Hd as [_ Hd]. apply Forall_cons in Hp as [He Hp].
  unfold counts in Hb. cbn [fmap list_fmap] in Hb. cbn [count_up].
  destruct (bssid_eqb (e_bssid e) b) eqn:E.
  - apply bssid_eqb_eq in E as <-. cbn in Hb. rewrite lookup_insert_eq in Hb. injection Hb as <-.
    rewrite (proj2 (int_chk_Ret (e_count e + 1) _)) by (split; [done|unfold INT_MAX, INT_MIN in *; lia]).
    ret_simpl. eexists. split_and!; [done| |done|constructor; [simpl; lia|done]].
    unfold counts. cbn. by rewrite insert_insert_eq.
  - apply bssid_eqb_neq in E. cbn in Hb. rewrite lookup_insert_ne in Hb by done.
    destruct (IH Hb Hd Hp) as (l' & -> & Hc & Hm & Hp'). ret_simpl.
    eexists. split_and!; [done| |cbn; by f_equal|by constructor].
    unfold counts in *. cbn. rewrite Hc. by rewrite insert_insert_ne.
Qed.

Lemma unlink_spec l b :
  NoDup (e_bssid <$> l) →
  match unlink l b with
  | Some l' => is_Some (counts l !! b) ∧ counts l' = delete b (counts l) ∧
               sublist l' l
  | None => counts l !! b = None
  end.
Proof.
  induction l as [|e l IH]; intros Hd; [done|]. apply NoDup_cons in Hd as [Hni Hd].
  cbn [unlink]. unfold counts in *. cbn [fmap list_fmap list_to_map foldr].
  destruct (bssid_eqb (e_bssid e) b) eqn:E.
  - apply bssid_eqb_eq in E as <-. cbn. rewrite lookup_insert_eq. split_and!; [done| |by constructor].
    rewrite delete_insert_id; [done|]. apply not_elem_of_list_to_map_1.
    by rewrite <- list_fmap_compose.
  - apply bssid_eqb_neq in E. specialize (IH Hd). destruct (unlink l b) as [l'|]; cbn in *.
    + destruct IH as (Hs & Hc & Hsub). rewrite lookup_insert_ne by done.
      split_and!; [done| |by constructor]. rewrite Hc. by rewrite delete_insert_ne.
    + by rewrite lookup_insert_ne.
Qed.

(** A BSSID is counted from one on. *)
Lemma blacklist_add_spec s b :
  bl_ok s →
  let n := default 0 (counts (blacklist s) !! b) in
  n < INT_MAX →
  ∃ s', wpa_blacklist_add true s (Some b) = Ret (n + 1, s') ∧ bl_ok s' ∧
    counts (blacklist s') = <[b := n + 1]> (counts (blacklist s)).
Proof.
  intros [Hd Hp] n Hn. unfold wpa_blacklist_add. pose proof (find_entry_counts (blacklist s) b) as Hf.
  unfold wpa_blacklist_get. cbn [mbind option_bind].
  destruct (find_entry (blacklist s) b) as [e|] eqn:E; cbn in Hf.
  - subst n. rewrite <- Hf in Hn |- *. cbn [default from_option] in *.
    destruct (count_up_spec (blacklist s) b (e_count e)) as (l' & -> & Hc & Hm & Hp'); [done..|].
    ret_simpl. eexists. split_and!; [done| |done]. split; [|done]. cbn. by rewrite Hm.
  - subst n. rewrite <- Hf. eexists. split_and!; [done| |done]. split; cbn.
    + apply NoDup_cons. split; [|done]. intros Hin. symmetry in Hf.
      apply not_elem_of_list_to_map_2 in Hf. by rewrite <- list_fmap_compose in Hf.
    + by constructor.
Qed.

(** C31: The blacklist is a map from BSSIDs to counts: [add], with memory for an
    entry and a count that fits an [int], counts a BSSID from one on and
    reports its count, [del] removes it or reports that it is not
    there, [get] looks it up, and no BSSID is ever listed twice. *)
Theorem blacklist_refines s b :
  bl_ok s →
  e_count <$> wpa_blacklist_get s (Some b) = counts (blacklist s) !! b ∧
  (let n := default 0 (counts (blacklist s) !! b) in
   n < INT_MAX →
   ∃ s', wpa_blacklist_add true s (Some b) = Ret (n + 1, s') ∧ bl_ok s' ∧
     counts (blacklist s') = <[b := n + 1]> (counts (blacklist s))) ∧
  (let '(r, s') := wpa_blacklist_del s (Some b) in
   bl_ok s' ∧ counts (blacklist s') = delete b (counts (blacklist s)) ∧
   (r = 0 ↔ is_Some (counts (blacklist s) !! b))).
Proof.
  intros Hok. pose proof Hok as [Hd Hp]. split_and!; [apply find_entry_counts|by apply blacklist_add_spec|].
  - unfold wpa_blacklist_del. pose proof (unlink_spec (blacklist s) b Hd) as Hu.
    destruct (unlink (blacklist s) b) as [l'|]; cbn.
    + destruct Hu as (Hs & Hc & Hsub). split_and!; [split; cbn| |].
      * eapply sublist_NoDup; [exact Hd|]. by apply fmap_sublist.
      * rewrite Forall_forall in *. intros e He. apply Hp. eapply elem_of_submseteq; [exact He|].
        by apply sublist_submseteq.
      * exact Hc.
      * done.
    + split_and!; [done|by rewrite delete_id|]. rewrite Hu. split; [done|by intros []].
Qed.

Lemma blacklist_refines_witness :
  let s := BlState [Entry [2; 0; 0; 0; 0; 9] 2] 0 in
  let b := [2; 0; 0; 0; 0; 9] in
  e_count <$> wpa_blacklist_get s (Some b) = counts (blacklist s) !! b ∧
  (let n := default 0 (counts (blacklist s) !! b) in
   n < INT_MAX →
   ∃ s', wpa_blacklist_add true s (Some b) = Ret (n + 1, s') ∧ bl_ok s' ∧
     counts (blacklist s') = <[b := n + 1]> (counts (blacklist s))) ∧
  (let '(r, s') := wpa_blacklist_del s (Some b) in
   bl_ok s' ∧ counts (blacklist s') = delete b (counts (blacklist s)) ∧
   (r = 0 ↔ is_Some (counts (blacklist s) !! b))).
Proof.
  apply (blacklist_refines (BlState [Entry [2; 0; 0; 0; 0; 9] 2] 0) [2; 0; 0; 0; 0; 9]).
  split; by apply (bool_decide_unpack _).
Defined.

(** [clear] forgets every entry and keeps the largest count. *)
Lemma max_count_spec l : Forall (λ e, 1 ≤ e_count e) l →
  (∀ e, e ∈ l → e_count e ≤ max_count l) ∧ (l = [] ∧ max_count l = 0 ∨ ∃ e, e ∈ l ∧ max_count l = e_count e).
Proof.
  induction l as [|e l IH] using rev_ind; [split; [set_solver|by left]|].
  intros Hp. apply Forall_app in Hp as [Hp He]. apply (proj1 (Forall_singleton _ _)) in He. destruct (IH Hp) as [Hm Hw].
  unfold max_count in *. rewrite foldl_app. cbn [foldl].
  set (m := foldl _ 0 l) in *. destruct (m <? e_count e) eqn:E; zbool.
  - split.
    + intros x [Hx|Hx]%elem_of_app; [specialize (Hm x Hx); lia|]. apply list_elem_of_singleton in Hx as ->. lia.
    + right. exists e. split; [|done]. apply elem_of_app. right. by left.
  - split.
    + intros x [Hx|Hx]%elem_of_app; [by apply Hm|]. apply list_elem_of_singleton in Hx as ->. lia.
    + right. destruct Hw as [[Hl Hz]|(x & Hx & Hmx)]; [exfalso; lia|].
      exists x. split; [apply elem_of_app; by left|done].
Qed.
