(* ===== verification/Network.v ===== *)
(** * Networks of a configuration (wpa_supplicant/config.c, config_ssid.h)

    The list of the configured networks and the lists of networks of the same
    priority.  A pointer to a network is the identifier of the network, which
    is unique ([networks_ok]); following a pointer to no network is undefined.
    Only the fields that the modelled code uses are kept. *)

From Stdlib Require Import Sorted.
From S2P Require Import Prelude CString Common.

Record wpa_ssid : Type := Ssid {
  ssid_id : Z;
  priority : Z;
  ssid : option (list Z);
  bssid : list Z;
  bssid_set : bool;
  disabled : Z;
  disabled_until : Z
}.

Record wpa_config : Type := Config {
  networks : list wpa_ssid;
  (** Heads of the lists of one priority, each with what follows it. *)
  pssid : list (list Z)
}.

Definition num_prio (c : wpa_config) : Z := Z.of_nat (length (pssid c)).

(** [os_zalloc] of a network. *)
Definition zalloc_ssid : wpa_ssid := Ssid 0 0 None (replicate 6 0) false 0 0.

Definition set_id (s : wpa_ssid) (id : Z) : wpa_ssid :=
  Ssid id (priority s) (ssid s) (bssid s) (bssid_set s) (disabled s) (disabled_until s).

Fixpoint find_network (l : list wpa_ssid) (id : Z) : option wpa_ssid :=
  match l with
  | [] => None
  | s :: l' => if id =? ssid_id s then Some s else find_network l' id
  end.

Definition wpa_config_get_network (c : wpa_config) (id : Z) : option wpa_ssid :=
  find_network (networks c) id.

(** [p->priority] *)
Definition prio_of (nets : list wpa_ssid) (p : Z) : outcome Z :=
  s ← need "no network" (find_network nets p); Ret (priority s).

(** The first list of the priority, with the network at its end. *)
Fixpoint append_prio (nets : list wpa_ssid) (groups : list (list Z)) (s : wpa_ssid)
    : outcome (option (list (list Z))) :=
  match groups with
  | [] => Ret None
  | g :: gs =>
      prev ← need "empty list" (head g);
      p ← prio_of nets prev;
      if p =? priority s then Ret (Some ((g ++ [ssid_id s]) :: gs))
      else r ← append_prio nets gs s;
           match r with Some gs => Ret (Some (g :: gs)) | None => Ret None end
  end.

(** A new list in front of the first one of a lower priority. *)
Fixpoint insert_prio (nets : list wpa_ssid) (groups : list (list Z)) (s : wpa_ssid)
    : outcome (list (list Z)) :=
  match groups with
  | [] => Ret [[ssid_id s]]
  | g :: gs =>
      prev ← need "empty list" (head g);
      p ← prio_of nets prev;
      if p <? priority s then Ret ([ssid_id s] :: g :: gs)
      else gs ← insert_prio nets gs s; Ret (g :: gs)
  end.

Section alloc.
Context (malloc_ok : Z → bool).

Definition wpa_config_add_prio_network (c : wpa_config) (s : wpa_ssid) : outcome (Z * wpa_config) :=
  r ← append_prio (networks c) (pssid c) s;
  match r with
  | Some gs => Ret (0, Config (networks c) gs)
  | None =>
      if malloc_ok ((num_prio c + 1) * 8) then
        gs ← insert_prio (networks c) (pssid c) s; Ret (0, Config (networks c) gs)
      else Ret (-1, c)
  end.

Fixpoint add_prio_all (c : wpa_config) (l : list wpa_ssid) (ret : Z) : outcome (Z * wpa_config) :=
  match l with
  | [] => Ret (ret, c)
  | s :: l' =>
      '(r, c) ← wpa_config_add_prio_network c s;
      add_prio_all c l' (if r <? 0 then -1 else ret)
  end.

Definition wpa_config_update_prio_list (c : wpa_config) : outcome (Z * wpa_config) :=
  add_prio_all (Config (networks c) []) (networks c) 0.

Definition max_id (l : list wpa_ssid) : Z :=
  foldl (λ id s, if id <? ssid_id s then ssid_id s else id) (-1) l.

(** The new network, or NULL. *)
Definition wpa_config_add_network (alloc_ok : bool) (c : wpa_config)
    : outcome (option wpa_ssid * wpa_config) :=
  id ← int_chk (max_id (networks c) + 1);
  if alloc_ok then
    let s := set_id zalloc_ssid id in
    '(_, c) ← wpa_config_update_prio_list (Config (networks c ++ [s]) (pssid c));
    Ret (Some s, c)
  else Ret (None, c).

(** The list without the first network of the identifier. *)
Fixpoint unlink_network (l : list wpa_ssid) (id : Z) : option (list wpa_ssid) :=
  match l with
  | [] => None
  | s :: l' => if id =? ssid_id s then Some l' else l' ← unlink_network l' id; Some (s :: l')
  end.

Definition wpa_config_remove_network (c : wpa_config) (id : Z) : outcome (Z * wpa_config) :=
  match unlink_network (networks c) id with
  | None => Ret (-1, c)
  | Some l =>
      '(_, c) ← wpa_config_update_prio_list (Config l (pssid c)); Ret (0, c)
  end.
End alloc.

(** ** Invariant *)

(** Identifiers are unique. *)
Definition networks_ok (l : list wpa_ssid) : Prop := NoDup (ssid_id <$> l).

(** The networks of a priority, in the order of the configuration. *)
Definition with_prio (l : list wpa_ssid) (p : Z) : list Z :=
  ssid_id <$> filter (λ s, priority s = p) l.

(** The lists of the priorities [ps]. *)
Definition groups_of (l : list wpa_ssid) (ps : list Z) : list (list Z) := with_prio l <$> ps.

(** The priorities in use, from high to low. *)
Definition prios_of (l : list wpa_ssid) (ps : list Z) : Prop :=
  StronglySorted (λ a b, b < a) ps ∧ ∀ p, p ∈ ps ↔ ∃ s, s ∈ l ∧ priority s = p.

(** [pssid] is what the networks say. *)
Definition prio_lists_ok (c : wpa_config) : Prop :=
  ∃ ps, prios_of (networks c) ps ∧ pssid c = groups_of (networks c) ps.

Lemma find_network_lookup l s : networks_ok l → s ∈ l → find_network l (ssid_id s) = Some s.
Proof.
  induction l as [|x l IH]; intros Hd Hs; [by apply not_elem_of_nil in Hs|].
  apply NoDup_cons in Hd as [Hx Hd]. cbn [find_network].
  apply elem_of_cons in Hs as [->|Hs]; [by rewrite Z.eqb_refl|].
  rewrite (proj2 (Z.eqb_neq _ _)); [by apply IH|]. intros E. apply Hx. rewrite <- E.
  apply list_elem_of_fmap. eauto.
Qed.

Lemma find_network_Some l id s : find_network l id = Some s → s ∈ l ∧ ssid_id s = id.
Proof.
  induction l as [|x l IH]; cbn [find_network]; [done|]. case_if; zbool.
  - intros [= <-]. split; [by left|done].
  - intros H. destruct (IH H). split; [by right|done].
Qed.

Lemma prio_of_elem l s : networks_ok l → s ∈ l → prio_of l (ssid_id s) = Ret (priority s).
Proof. intros Hd Hs. unfold prio_of. by rewrite (find_network_lookup l s). Qed.

(** The head of the list of a priority in use. *)
Lemma with_prio_head done_ nets p :
  networks_ok nets → done_ ⊆ nets → (∃ s, s ∈ done_ ∧ priority s = p) →
  ∃ h, head (with_prio done_ p) = Some h ∧ prio_of nets h = Ret p.
Proof.
  intros Hd Hsub (s & Hs & Hp). unfold with_prio.
  destruct (filter (λ s, priority s = p) done_) as [|x l] eqn:E.
  - assert (Hin : s ∈ filter (λ s, priority s = p) done_) by (by apply list_elem_of_filter).
    rewrite E in Hin. by apply not_elem_of_nil in Hin.
  - exists (ssid_id x). split; [done|].
    assert (Hx : x ∈ filter (λ s, priority s = p) done_) by (rewrite E; by left).
    apply list_elem_of_filter in Hx as [<- Hx]. apply prio_of_elem; [done|by apply Hsub].
Qed.

Lemma with_prio_snoc l s p :
  with_prio (l ++ [s]) p = with_prio l p ++ (if decide (priority s = p) then [ssid_id s] else []).
Proof.
  unfold with_prio. rewrite filter_app, fmap_app. f_equal.
  destruct (decide (priority s = p)); [by rewrite filter_cons_True|by rewrite filter_cons_False].
Qed.

Lemma groups_cons l p ps : groups_of l (p :: ps) = with_prio l p :: groups_of l ps.
Proof. done. Qed.

Section add.
Context (nets done_ : list wpa_ssid) (s : wpa_ssid).
Context (Hd : networks_ok nets) (Hsub : done_ ⊆ nets).

Lemma append_prio_spec ps :
  NoDup ps → (∀ p, p ∈ ps → ∃ x, x ∈ done_ ∧ priority x = p) →
  append_prio nets (groups_of done_ ps) s =
  Ret (if decide (priority s ∈ ps) then Some (groups_of (done_ ++ [s]) ps) else None).
Proof.
  induction ps as [|p ps IH]; intros Hnd Hps.
  { cbn. rewrite decide_False; [done|]. by apply not_elem_of_nil. }
  apply NoDup_cons in Hnd as [Hni Hnd]. rewrite groups_cons. cbn [append_prio].
  destruct (with_prio_head done_ nets p Hd Hsub) as (h & -> & Hh); [apply Hps; by left|].
  cbn [need]. ret_simpl. rewrite Hh. ret_simpl. case_if; zbool.
  - subst p. rewrite !decide_True by (done || by left). rewrite groups_cons, with_prio_snoc, decide_True by done.
    do 3 f_equal. apply list_fmap_ext. intros i q Hq%list_elem_of_lookup_2. rewrite with_prio_snoc.
    rewrite decide_False by congruence. by rewrite app_nil_r.
  - rewrite IH by (done || (intros q Hq; apply Hps; by right)). ret_simpl.
    assert (Hp : with_prio (done_ ++ [s]) p = with_prio done_ p).
    { rewrite with_prio_snoc, decide_False by congruence. by rewrite app_nil_r. }
    destruct (decide (priority s ∈ ps)) as [Hin|Hni2].
    + rewrite decide_True by (by right). by rewrite groups_cons, Hp.
    + rewrite decide_False; [done|]. intros [E'|E']%elem_of_cons; congruence.
Qed.

Fixpoint insert_desc (ps : list Z) (p : Z) : list Z :=
  match ps with
  | [] => [p]
  | q :: qs => if q <? p then p :: q :: qs else q :: insert_desc qs p
  end.

Lemma insert_prio_spec ps :
  (∀ p, p ∈ ps → ∃ x, x ∈ done_ ∧ priority x = p) → priority s ∉ ps →
  with_prio done_ (priority s) = [] →
  insert_prio nets (groups_of done_ ps) s = Ret (groups_of (done_ ++ [s]) (insert_desc ps (priority s))).
Proof.
  intros Hps Hni Hempty.
  assert (Hsame : ∀ qs, priority s ∉ qs → groups_of (done_ ++ [s]) qs = groups_of done_ qs).
  { intros qs Hqs. apply list_fmap_ext. intros i q Hq%list_elem_of_lookup_2. rewrite with_prio_snoc.
    rewrite decide_False by congruence. by rewrite app_nil_r. }
  assert (Hnew : with_prio (done_ ++ [s]) (priority s) = [ssid_id s]).
  { rewrite with_prio_snoc, decide_True, Hempty by done. done. }
  induction ps as [|p ps IH]; cbn [insert_desc].
  { cbn. by rewrite Hnew. }
  rewrite groups_cons. cbn [insert_prio].
  destruct (with_prio_head done_ nets p Hd Hsub) as (h & -> & Hh); [apply Hps; by left|].
  cbn [need]. ret_simpl. rewrite Hh. ret_simpl.
  assert (Hp : with_prio (done_ ++ [s]) p = with_prio done_ p).
  { rewrite with_prio_snoc, decide_False; [by rewrite app_nil_r|]. intros E. apply Hni. rewrite E. by left. }
  assert (Hni' : priority s ∉ ps) by (intros E; apply Hni; by right).
  case_if.
  - rewrite !groups_cons, Hnew, Hp. by rewrite Hsame.
  - rewrite IH by (done || (intros q Hq; apply Hps; by right)). ret_simpl.
    by rewrite groups_cons, Hp.
Qed.
End add.

Lemma insert_desc_elem ps p q : q ∈ insert_desc ps p ↔ q = p ∨ q ∈ ps.
Proof. induction ps as [|x ps IH]; cbn [insert_desc]; [set_solver|]. case_if; set_solver. Qed.

Lemma insert_desc_sorted ps p :
  StronglySorted (λ a b, b < a) ps → p ∉ ps → StronglySorted (λ a b, b < a) (insert_desc ps p).
Proof.
  induction 1 as [|x ps Hs IH Hx]; intros Hp; cbn [insert_desc]; [by repeat constructor|].
  case_if; zbool.
  - constructor; [by constructor|]. constructor; [done|].
    eapply Forall_impl; [exact Hx|]. cbn. lia.
  - constructor; [apply IH; set_solver|]. rewrite Forall_forall. intros q [->|Hq]%insert_desc_elem.
    + assert (p ≠ x) by set_solver. lia.
    + rewrite Forall_forall in Hx. by apply Hx.
Qed.

Lemma sorted_NoDup ps : StronglySorted (λ a b, b < a) ps → NoDup ps.
Proof.
  induction 1 as [|x ps _ IH Hx]; constructor; [|done].
  intros Hin. rewrite Forall_forall in Hx. specialize (Hx x Hin). cbn in Hx. lia.
Qed.

Lemma prios_of_nil : prios_of [] [].
Proof. split; [constructor|]. set_solver. Qed.

Lemma max_id_spec l : -1 ≤ max_id l ∧ (∀ s, s ∈ l → ssid_id s ≤ max_id l) ∧
  (max_id l = -1 ∨ ∃ s, s ∈ l ∧ max_id l = ssid_id s).
Proof.
  unfold max_id. induction l as [|s l IH] using rev_ind; [cbn; split_and!; [lia|set_solver|by left]|].
  rewrite foldl_app. cbn [foldl]. set (m := foldl _ (-1) l) in *. destruct IH as (H1 & H2 & H3).
  assert (Hin : ∀ x, x ∈ l ++ [s] → x ∈ l ∨ x = s).
  { intros x [Hx|Hx]%elem_of_app; [by left|]. right. by apply list_elem_of_singleton. }
  destruct (m <? ssid_id s) eqn:E; zbool; split_and!; [lia| | |lia| |].
  - intros x [Hx| ->]%Hin; [specialize (H2 x Hx)|]; lia.
  - right. exists s. set_solver.
  - intros x [Hx| ->]%Hin; [by apply H2|lia].
  - destruct H3 as [H3|(x & Hx & Hxm)]; [by left|right; exists x; set_solver].
Qed.

Lemma unlink_network_spec l id :
  match unlink_network l id with
  | Some l' => ∃ pre s post, l = pre ++ s :: post ∧ l' = pre ++ post ∧ ssid_id s = id ∧
                 Forall (λ x, ssid_id x ≠ id) pre
  | None => Forall (λ x, ssid_id x ≠ id) l
  end.
Proof.
  induction l as [|s l IH]; cbn [unlink_network]; [constructor|]. case_if; zbool.
  - by exists [], s, l.
  - destruct (unlink_network l id) as [l'|]; cbn.
    + destruct IH as (pre & x & post & -> & -> & Hx & Hpre). exists (s :: pre), x, post.
      split_and!; [done|done|done|]. constructor; [by intros <-|done].
    + constructor; [by intros <-|done].
Qed.

Section update.
Context (malloc_ok : Z → bool) (Hm : ∀ n, malloc_ok n = true).

Lemma add_prio_spec nets done_ s gs ps :
  networks_ok nets → done_ ⊆ nets → prios_of done_ ps → gs = groups_of done_ ps →
  ∃ ps', wpa_config_add_prio_network malloc_ok (Config nets gs) s =
    Ret (0, Config nets (groups_of (done_ ++ [s]) ps')) ∧ prios_of (done_ ++ [s]) ps'.
Proof.
  intros Hd Hsub [Hs Hps] ->. unfold wpa_config_add_prio_network. cbn [networks pssid].
  rewrite (append_prio_spec nets done_ s Hd Hsub) by (by apply sorted_NoDup || (intros; by apply Hps)).
  ret_simpl. destruct (decide (priority s ∈ ps)) as [Hin|Hni].
  - exists ps. split; [done|]. split; [done|]. intros p. rewrite Hps. split.
    + intros (x & Hx & Hp). exists x. split; [set_solver|done].
    + intros (x & [Hx|Hx]%elem_of_app & Hp); [by exists x|].
      apply list_elem_of_singleton in Hx as ->. subst p. by apply Hps.
  - rewrite Hm. rewrite (insert_prio_spec nets done_ s Hd Hsub) by
      (done || (intros; by apply Hps) ||
       (unfold with_prio; destruct (filter (λ x, priority x = priority s) done_) as [|x l] eqn:E; [done|];
        exfalso; apply Hni, Hps; exists x;
        assert (Hx : x ∈ filter (λ x, priority x = priority s) done_) by (rewrite E; by left);
        apply list_elem_of_filter in Hx; tauto)).
    ret_simpl. exists (insert_desc ps (priority s)). split; [done|].
    split; [by apply insert_desc_sorted|]. intros p. rewrite insert_desc_elem, Hps. split.
    + intros [->|(x & Hx & Hp)]; [exists s|exists x]; set_solver.
    + intros (x & [Hx|Hx]%elem_of_app & Hp); [right; by exists x|].
      apply list_elem_of_singleton in Hx as ->. by left.
Qed.

Lemma add_prio_all_spec nets done_ l gs ps ret :
  networks_ok nets → done_ ++ l = nets → prios_of done_ ps → gs = groups_of done_ ps →
  ∃ c, add_prio_all malloc_ok (Config nets gs) l ret = Ret (ret, c) ∧
    networks c = nets ∧ prio_lists_ok c.
Proof.
  intros Hd. revert done_ gs ps. induction l as [|s l IH]; intros done_ gs ps Hl Hps Hgs.
  { rewrite app_nil_r in Hl. subst done_. exists (Config nets gs). split; [done|]. split; [done|]. by exists ps. }
  cbn [add_prio_all].
  destruct (add_prio_spec nets done_ s gs ps Hd) as (ps' & -> & Hps'); [|done|done|].
  { subst nets. intros x Hx. apply elem_of_app. by left. }
  ret_simpl. cbn [Z.ltb Z.compare]. apply (IH (done_ ++ [s]) _ ps'); [by rewrite <- app_assoc|done|done].
Qed.

Lemma update_prio_list_spec c :
  networks_ok (networks c) →
  ∃ c', wpa_config_update_prio_list malloc_ok c = Ret (0, c') ∧
    networks c' = networks c ∧ prio_lists_ok c'.
Proof.
  intros Hd. unfold wpa_config_update_prio_list.
  apply (add_prio_all_spec (networks c) [] (networks c) [] []); [done|done|apply prios_of_nil|done].
Qed.

Lemma filter_other (l : list Z) i : i ∉ l → filter (λ j, j ≠ i) l = l.
Proof.
  induction l as [|x l IH]; intros Hi; [done|]. rewrite filter_cons_True by set_solver.
  f_equal. apply IH. set_solver.
Qed.

(** The networks keep unique identifiers and the lists of one priority stay
    in order: [add] appends a network with an identifier that is above all
    others, [remove] removes the network of an identifier or reports that there
    is none, and afterwards the lists hold, from the highest priority to the
    lowest, the networks of each priority in the order of the configuration. *)
Theorem networks_invariant c id :
  networks_ok (networks c) → max_id (networks c) < INT_MAX →
  (∃ s c', wpa_config_add_network malloc_ok true c = Ret (Some s, c') ∧
     networks c' = networks c ++ [s] ∧ ssid_id s = max_id (networks c) + 1 ∧
     networks_ok (networks c') ∧ prio_lists_ok c') ∧
  (∃ r c', wpa_config_remove_network malloc_ok c id = Ret (r, c') ∧ networks_ok (networks c') ∧
     if decide (id ∈ ssid_id <$> networks c)
     then r = 0 ∧ prio_lists_ok c' ∧ ssid_id <$> networks c' = filter (λ i, i ≠ id) (ssid_id <$> networks c)
     else r = -1 ∧ c' = c).
Proof.
  intros Hd Hmax. destruct (max_id_spec (networks c)) as (Hge & Hle & _). split.
  - unfold wpa_config_add_network. assert (Hint : int_chk (max_id (networks c) + 1) = Ret (max_id (networks c) + 1)).
    { apply int_chk_Ret. split; [done|]. unfold INT_MIN, INT_MAX in *. lia. }
    rewrite Hint. ret_simpl. set (s := set_id zalloc_ssid _).
    assert (Hd' : networks_ok (networks c ++ [s])).
    { unfold networks_ok. rewrite fmap_app. apply NoDup_app. split_and!; [done| |apply NoDup_singleton].
      intros i (x & -> & Hx)%list_elem_of_fmap Hi. apply list_elem_of_singleton in Hi.
      specialize (Hle x Hx). cbn in Hi. lia. }
    destruct (update_prio_list_spec (Config (networks c ++ [s]) (pssid c)) Hd') as (c' & -> & Hn & Hp).
    ret_simpl. exists s, c'. cbn [networks] in Hn. rewrite Hn. done.
  - unfold wpa_config_remove_network. pose proof (unlink_network_spec (networks c) id) as Hu.
    destruct (unlink_network (networks c) id) as [l|].
    + destruct Hu as (pre & s & post & Hc & -> & <- & Hpre).
      unfold networks_ok in Hd. rewrite Hc, fmap_app, fmap_cons in Hd.
      rewrite <- Permutation_middle, NoDup_cons, not_elem_of_app in Hd. destruct Hd as [[Hn1 Hn2] Hd].
      assert (Hd' : networks_ok (pre ++ post)) by (unfold networks_ok; by rewrite fmap_app).
      destruct (update_prio_list_spec (Config (pre ++ post) (pssid c)) Hd') as (c' & -> & Hn & Hp).
      ret_simpl. exists 0, c'. cbn [networks] in Hn. rewrite Hn, Hc. split_and!; [done|done|].
      rewrite decide_True by (rewrite fmap_app; set_solver). split_and!; [done|done|].
      rewrite !fmap_app, fmap_cons, filter_app, filter_cons_False by naive_solver. by rewrite !filter_other.
    + exists (-1), c. split_and!; [done|done|]. rewrite decide_False; [done|].
      intros (x & -> & Hx)%list_elem_of_fmap. rewrite Forall_forall in Hu. by apply (Hu x).
Qed.
End update.

Lemma networks_invariant_witness :
  let c := Config [set_id zalloc_ssid 0; set_id zalloc_ssid 3] [] in
  (∃ s c', wpa_config_add_network (λ _, true) true c = Ret (Some s, c') ∧
     networks c' = networks c ++ [s] ∧ ssid_id s = max_id (networks c) + 1 ∧
     networks_ok (networks c') ∧ prio_lists_ok c') ∧
  (∃ r c', wpa_config_remove_network (λ _, true) c 3 = Ret (r, c') ∧ networks_ok (networks c') ∧
     if decide (3 ∈ ssid_id <$> networks c)
     then r = 0 ∧ prio_lists_ok c' ∧ ssid_id <$> networks c' = filter (λ i, i ≠ 3) (ssid_id <$> networks c)
     else r = -1 ∧ c' = c).
Proof.
  apply (networks_invariant (λ _, true) (λ _, eq_refl)
           (Config [set_id zalloc_ssid 0; set_id zalloc_ssid 3] []) 3).
  - by apply (bool_decide_unpack _).
  - by vm_compute.
Defined.

(** Identifiers grow along the list. *)
Definition ascending (l : list wpa_ssid) : Prop := StronglySorted (λ a b, ssid_id a < ssid_id b) l.

Lemma ascending_networks_ok l : ascending l → networks_ok l.
Proof.
  induction 1 as [|s l _ IH Hx]; [constructor|]. apply NoDup_cons. split; [|exact IH].
  intros (x & Hid & Hin)%list_elem_of_fmap. rewrite Forall_forall in Hx. specialize (Hx x Hin). lia.
Qed.

Lemma add_prio_network_networks m c s r c' :
  wpa_config_add_prio_network m c s = Ret (r, c') → networks c' = networks c.
Proof.
  unfold wpa_config_add_prio_network. intros H. apply outcome_bind_inv in H as (a & _ & H).
  destruct a; [by injection H as _ <-|]. destruct (m _); [|by injection H as _ <-].
  apply outcome_bind_inv in H as (gs & _ & H). by injection H as _ <-.
Qed.

Lemma update_prio_list_networks m c r c' :
  wpa_config_update_prio_list m c = Ret (r, c') → networks c' = networks c.
Proof.
  unfold wpa_config_update_prio_list.
  assert (Hg : ∀ l c0 ret, add_prio_all m c0 l ret = Ret (r, c') → networks c' = networks c0).
  { induction l as [|s l IH]; intros c0 ret; cbn [add_prio_all]; [by intros [= _ <-]|].
    intros H. apply outcome_bind_inv in H as ([r1 c1] & H1 & H).
    apply add_prio_network_networks in H1. rewrite <- H1. by eapply IH. }
  intros H. by apply Hg in H.
Qed.

(** Whatever is added or removed, and whether or not the lists of the
    priorities could be allocated, identifiers keep growing along the list. *)
Lemma ascending_kept m c :
  ascending (networks c) →
  (∀ ok s c', wpa_config_add_network m ok c = Ret (s, c') → ascending (networks c')) ∧
  (∀ id r c', wpa_config_remove_network m c id = Ret (r, c') → ascending (networks c')).
Proof.
  intros Ha. split.
  - intros ok s c' H. unfold wpa_config_add_network in H.
    apply outcome_bind_inv in H as (id & Hid & H). apply int_chk_Ret in Hid as [<- _].
    destruct ok; [|by injection H as _ <-]. apply outcome_bind_inv in H as ([r c1] & H1 & H).
    injection H as _ <-. apply update_prio_list_networks in H1. rewrite H1. cbn [networks].
    destruct (max_id_spec (networks c)) as (_ & Hle & _).
    clear -Ha Hle. set (n := max_id (networks c)) in *. clearbody n. revert Ha Hle. generalize (networks c).
    intros l Ha Hle. unfold ascending in *.
    induction Ha as [|x l Ha IH Hx]; cbn [app]; [by repeat constructor|].
    constructor; [apply IH; intros y Hy; apply Hle; by right|]. apply Forall_app. split; [done|].
    constructor; [|constructor]. assert (Hxn : ssid_id x ≤ n) by (apply Hle; by left). cbn. lia.
  - intros id r c' H. unfold wpa_config_remove_network in H.
    pose proof (unlink_network_spec (networks c) id) as Hu.
    destruct (unlink_network (networks c) id) as [l|]; [|by injection H as _ <-].
    apply outcome_bind_inv in H as ([r1 c1] & H1 & H). injection H as _ <-.
    apply update_prio_list_networks in H1. rewrite H1. cbn [networks].
    destruct Hu as (pre & s & post & Hc & -> & _). rewrite Hc in Ha. clear -Ha. unfold ascending in *.
    induction pre as [|x pre IH]; cbn [app] in *; apply StronglySorted_inv in Ha as [Ha Hx]; [done|].
    constructor; [by apply IH|]. apply Forall_app in Hx as [Hx1 [_ Hx2]%Forall_cons]. by apply Forall_app.
Qed.
