(* ===== verification/CtrlScan.v ===== *)
(** * Scan results as text (wpa_supplicant/ctrl_iface.c)

    One line per BSS entry: address, frequency, level, flags and SSID.  [buf]
    and [end] of the source are offsets in a buffer; a field that does not fit
    ends the function that prints it.  The build has no CONFIG_WPS, as the
    configuration file in the repository; the other options are those of
    [build]. *)

From S2P Require Import Prelude CString CliUtil Common Printing WpaIe WpaCommon Bss.

Definition P2P_WILDCARD_SSID : str := lit "DIRECT-".
Definition WPA_CAPABILITY_PREAUTH : Z := BIT 0.

(** The text of an SSID, through the static buffer of [wpa_ssid_txt]. *)
Definition ssid_text (ssid : option (list Z)) : outcome str :=
  b ← wpa_ssid_txt (zeros (SSID_MAX_LEN * 4 + 1)) ssid; buf_str b 0.

Section build.
Context (cfg : build).

Definition wpa_supplicant_cipher_txt (b : buf) (pos end_ cipher : Z) : outcome (Z * buf) :=
  '(r, b) ← append b pos end_ (lit "-");
  match r with
  | None => Ret (pos, b)
  | Some pos =>
      '(ret, b) ← wpa_write_ciphers b pos end_ cipher (lit "+");
      if ret <? 0 then Ret (pos, b) else Ret (pos + ret, b)
  end.

(** The key management suites that have a name, in the order of the source. *)
Definition key_mgmt_names : list (Z * str) :=
  [(WPA_KEY_MGMT_IEEE8021X, lit "EAP"); (WPA_KEY_MGMT_PSK, lit "PSK");
   (WPA_KEY_MGMT_WPA_NONE, lit "None"); (WPA_KEY_MGMT_SAE, lit "SAE")]
  ++ (if CONFIG_IEEE80211R cfg then
        [(WPA_KEY_MGMT_FT_IEEE8021X, lit "FT/EAP"); (WPA_KEY_MGMT_FT_PSK, lit "FT/PSK");
         (WPA_KEY_MGMT_FT_SAE, lit "FT/SAE")] else [])
  ++ (if CONFIG_IEEE80211W cfg then
        [(WPA_KEY_MGMT_IEEE8021X_SHA256, lit "EAP-SHA256");
         (WPA_KEY_MGMT_PSK_SHA256, lit "PSK-SHA256")] else [])
  ++ (if CONFIG_SUITEB cfg then [(WPA_KEY_MGMT_IEEE8021X_SUITE_B, lit "EAP-SUITE-B")] else [])
  ++ (if CONFIG_SUITEB192 cfg
      then [(WPA_KEY_MGMT_IEEE8021X_SUITE_B_192, lit "EAP-SUITE-B-192")] else [])
  ++ [(WPA_KEY_MGMT_OSEN, lit "OSEN")].

(** The names of the suites in a set. *)
Definition names_in (l : list (Z * str)) (x : Z) : list str :=
  snd <$> filter (λ e : Z * str, has x (fst e) = true) l.

Definition wpa_supplicant_ie_txt (b : buf) (pos end_ : Z) (proto : str) (ie : list Z) (ie_len : Z)
    : outcome (Z * buf) :=
  '(ok, pos, b) ← print_seq b pos end_ [lit "[" ++ proto ++ lit "-"];
  if negb ok then Ret (pos, b)
  else
    '(r, data) ← wpa_parse_wpa_ie cfg ie ie_len;
    if r <? 0 then '(_, pos, b) ← print_seq b pos end_ [lit "?]"]; Ret (pos, b)
    else
      '(ok, pos, b) ← print_seq b pos end_
                        (separated (lit "+") (names_in key_mgmt_names (key_mgmt data)));
      if negb ok then Ret (pos, b)
      else
        '(pos, b) ← wpa_supplicant_cipher_txt b pos end_ (pairwise_cipher data);
        '(_, pos, b) ← print_seq b pos end_
          ((if has (capabilities data) WPA_CAPABILITY_PREAUTH then [lit "-preauth"] else [])
           ++ [lit "]"]);
        Ret (pos, b).

(** The element at a position of the entry, if there is one. *)
Definition elem_txt (bss : wpa_bss) (b : buf) (pos end_ : Z) (proto : str) (ie : option Z)
    : outcome (Z * buf) :=
  match ie with
  | None => Ret (pos, b)
  | Some p =>
      l ← u8_at (bss_ies bss) (p + 1);
      wpa_supplicant_ie_txt b pos end_ proto (drop (Z.to_nat p) (bss_ies bss)) (2 + l)
  end.

Definition wpa_supplicant_wps_ie_txt (b : buf) (pos end_ : Z) (bss : wpa_bss)
    : outcome (Z * buf) := Ret (pos, b).

Definition dmg_name (caps : Z) : str :=
  let c := Z.land caps IEEE80211_CAP_DMG_MASK in
  if c =? IEEE80211_CAP_DMG_IBSS then lit "[IBSS]"
  else if c =? IEEE80211_CAP_DMG_AP then lit "[ESS]"
  else if c =? IEEE80211_CAP_DMG_PBSS then lit "[PBSS]"
  else [].

(** The flags behind those of the elements, each printed on its own. *)
Definition flag_texts (bss : wpa_bss) (wep mesh p2p hs20 fst : bool) : list str :=
  (if wep then [lit "[WEP]"] else [])
  ++ (if mesh then [lit "[MESH]"] else [])
  ++ (if bss_is_dmg bss then [lit "[DMG]"; dmg_name (bss_caps bss)]
      else (if has (bss_caps bss) IEEE80211_CAP_IBSS then [lit "[IBSS]"] else [])
           ++ (if has (bss_caps bss) IEEE80211_CAP_ESS then [lit "[ESS]"] else []))
  ++ (if p2p then [lit "[P2P]"] else [])
  ++ (if hs20 then [lit "[HS20]"] else [])
  ++ (if fst then [lit "[FST]"] else []).

Definition found {A} (p : option A) : bool := match p with Some _ => true | None => false end.

Definition TAB_STR : str := [TAB].

(** From [pos] to [end_]: the length of the line, or -1. *)
Definition wpa_supplicant_ctrl_iface_scan_result (bss : wpa_bss) (b : buf) (start end_ : Z)
    : outcome (Z * buf) :=
  mesh ← wpa_bss_get_ie bss WLAN_EID_MESH_ID;
  p2p ← wpa_bss_get_vendor_ie bss P2P_IE_VENDOR_TYPE;
  p2p ← (match p2p with
         | None => wpa_bss_get_vendor_ie_beacon bss P2P_IE_VENDOR_TYPE
         | Some _ => Ret p2p
         end);
  if found p2p && str_eqb (bss_ssid bss) P2P_WILDCARD_SSID then Ret (0, b)
  else
    '(ok, pos, b) ← print_seq b start end_
      [macstr (bss_bssid bss) ++ TAB_STR ++ fmt_d (bss_freq bss) ++ TAB_STR
         ++ fmt_d (bss_level bss) ++ TAB_STR];
    if negb ok then Ret (-1, b)
    else
      ie ← wpa_bss_get_vendor_ie bss WPA_IE_VENDOR_TYPE;
      '(pos, b) ← elem_txt bss b pos end_ (lit "WPA") ie;
      ie2 ← wpa_bss_get_ie bss WLAN_EID_RSN;
      '(pos, b) ← elem_txt bss b pos end_ (if found mesh then lit "RSN" else lit "WPA2") ie2;
      osen_ie ← wpa_bss_get_vendor_ie bss OSEN_IE_VENDOR_TYPE;
      '(pos, b) ← elem_txt bss b pos end_ (lit "OSEN") osen_ie;
      '(pos, b) ← wpa_supplicant_wps_ie_txt b pos end_ bss;
      let wep := negb (found ie) && negb (found ie2) && negb (found osen_ie)
                 && has (bss_caps bss) IEEE80211_CAP_PRIVACY in
      hs20 ← (if CONFIG_HS20 cfg then
                h ← wpa_bss_get_vendor_ie bss HS20_IE_VENDOR_TYPE; Ret (found h && found ie2)
              else Ret false);
      fst ← (if CONFIG_FST cfg then
               f ← wpa_bss_get_ie bss WLAN_EID_MULTI_BAND; Ret (found f)
             else Ret false);
      txt ← ssid_text (Some (bss_ssid bss));
      '(ok, pos, b) ← print_seq b pos end_
        (flag_texts bss wep (found mesh) (found p2p) hs20 fst ++ [TAB_STR ++ txt; [NL]]);
      if negb ok then Ret (-1, b) else Ret (pos - start, b).

Fixpoint scan_results_loop (l : list wpa_bss) (b : buf) (pos end_ : Z) : outcome (Z * buf) :=
  match l with
  | [] => Ret (pos, b)
  | bss :: l' =>
      '(ret, b) ← wpa_supplicant_ctrl_iface_scan_result bss b pos end_;
      if (ret <? 0) || (end_ - pos <=? ret) then Ret (pos, b)
      else scan_results_loop l' b (pos + ret) end_
  end.

(** [bss_list] is the table in the order of the identifiers. *)
Definition wpa_supplicant_ctrl_iface_scan_results (bss_list : list wpa_bss) (b : buf) (buflen : Z)
    : outcome (Z * buf) :=
  '(ok, pos, b) ← print_seq b 0 buflen
    [lit "bssid / frequency / signal level / flags / ssid" ++ [NL]];
  if negb ok then Ret (pos, b) else scan_results_loop bss_list b pos buflen.
End build.
