(* ===== verification/CtrlScanSpec.v ===== *)
(** * Scan results as text: theorems

    Whatever the driver heard, the reply stays inside its buffer and holds one
    line for each entry that fits; with room for all of them it is the whole
    table. *)

From S2P Require Import Prelude CString CliUtil Common Printing WpaIe WpaCommon WpaSpec WpaText.
From S2P Require Import Bss CtrlScan.

Section build.
Context (cfg : build).

(** ** What is printed *)

Definition ciphers_text (c : Z) : str := names_text [] c (lit "+") written_ciphers.

Definition ie_text (proto : str) (ie : list Z) (len : Z) : str :=
  lit "[" ++ proto ++ lit "-" ++
  match wpa_parse_wpa_ie cfg ie len with
  | Ret (r, data) =>
      if r <? 0 then lit "?]"
      else concat (separated (lit "+") (names_in (key_mgmt_names cfg) (key_mgmt data)))
           ++ (lit "-" ++ ciphers_text (pairwise_cipher data))
           ++ (if has (capabilities data) WPA_CAPABILITY_PREAUTH then lit "-preauth" else [])
           ++ lit "]"
  | _ => []
  end.

Lemma written_short : Forall (λ e : Z * str, strlen (snd e) < 100) written_ciphers.
Proof. by apply (bool_decide_unpack _). Qed.

Lemma cipher_txt_prints buflen c :
  prints buflen (λ b pos, wpa_supplicant_cipher_txt b pos buflen c) (lit "-" ++ ciphers_text c).
Proof.
  intros b u Hr Hu Hl. unfold wpa_supplicant_cipher_txt.
  assert (Hnn : ∀ t, 0 ≤ strlen t) by apply strlen_nonneg.
  destruct (append_step b buflen u (lit "-") Hr Hu Hl) as (b1 & Hl1 & H); [by vm_compute|].
  destruct (_ <? _) eqn:E; zbool; destruct H as [-> Hb1]; ret_simpl.
  2: { exists [], b1. rewrite app_nil_r. split_and!; try done. intros Hfit. rewrite strlen_app in Hfit.
       pose proof (Hnn (ciphers_text c)). lia. }
  unfold wpa_write_ciphers. set (p := u ++ lit "-") in *.
  assert (Hr1 : room b1 buflen) by (by eapply room_length).
  assert (Hp : strlen p ≤ buflen) by (unfold p; rewrite strlen_app; lia).
  destruct (Z.lt_ge_cases (strlen (p ++ ciphers_text c)) buflen) as [Hfit|Hno].
  - destruct (write_names_spec written_ciphers b1 buflen p [] c (lit "+")) as (b2 & Hw & Hb2 & Hl2);
      [done|by rewrite app_nil_r|done|].
    rewrite app_nil_r in Hw. rewrite Hw. ret_simpl. fold (ciphers_text c) in *.
    assert (Hge : 0 ≤ strlen (p ++ ciphers_text c) - strlen p) by (rewrite strlen_app; pose proof (Hnn (ciphers_text c)); lia).
    rewrite (proj2 (Z.ltb_ge _ _)) by done. exists (lit "-" ++ ciphers_text c), b2.
    rewrite app_assoc. fold p. split_and!; [|done|congruence|lia|done]. do 2 f_equal. lia.
  - destruct (write_names_safe written_ciphers b1 buflen p [] c (lit "+")) as (r & b2 & Hw & Hb2 & Hl2 & Hm);
      [done|by rewrite app_nil_r|by rewrite app_nil_r|by vm_compute|apply written_short|].
    rewrite app_nil_r in *. rewrite Hw. ret_simpl.
    assert (Hbig : strlen u + strlen (lit "-" ++ ciphers_text c) < buflen → False).
    { unfold p in Hno. rewrite !strlen_app in *. lia. }
    destruct r as [q|].
    + destruct Hm as (v & -> & Hv & He). cbn [app] in *.
      rewrite (proj2 (Z.ltb_ge _ _)) by (rewrite strlen_app; pose proof (Hnn v); lia).
      exists (lit "-" ++ v), b2. rewrite app_assoc. fold p. split_and!; [|done|congruence|done|by intros ?%Hbig].
      do 2 f_equal. lia.
    + cbn [Z.ltb Z.compare]. exists (lit "-"), b2. fold p. split_and!; [done|done|congruence|done|by intros ?%Hbig].
Qed.

Lemma names_in_short x : short_strings (separated (lit "+") (names_in (key_mgmt_names cfg) x)).
Proof.
  assert (Hn : Forall (λ t, strlen t < 100) (names_in (key_mgmt_names cfg) x)).
  { assert (Hall : Forall (λ e : Z * str, strlen (snd e) < 100) (key_mgmt_names cfg)).
    { unfold key_mgmt_names. destruct cfg as [[] [] ? [] [] ? ?]; by apply (bool_decide_unpack _). }
    apply Forall_fmap, Forall_forall. intros e [_ He]%list_elem_of_filter.
    rewrite Forall_forall in Hall. by apply Hall. }
  unfold separated, short_strings. destruct Hn as [|t l Ht Hn]; [constructor|]. constructor; [lia|].
  apply Forall_fmap. eapply Forall_impl; [exact Hn|]. intros s Hs. cbn beta in *. unfold compose. rewrite strlen_app.
  change (strlen (lit "+")) with 1. lia.
Qed.

Lemma ie_txt_prints buflen proto ie len :
  byte_list ie → 0 ≤ len ≤ Z.of_nat (length ie) → strlen proto < 100 →
  prints buflen (λ b pos, wpa_supplicant_ie_txt cfg b pos buflen proto ie len) (ie_text proto ie len).
Proof.
  intros Hm Hl Hp. unfold ie_text.
  destruct (parse_ok ie Hm cfg len Hl) as (r & d & Hparse & _). rewrite Hparse.
  rewrite (app_assoc (lit "[")), (app_assoc (lit "[" ++ proto)).
  set (h := (lit "[" ++ proto) ++ lit "-").
  assert (Hh : short_strings [h]).
  { constructor; [|constructor]. unfold h. rewrite !strlen_app.
    change (strlen (lit "[")) with 1. change (strlen (lit "-")) with 1. lia. }
  replace h with (concat [h]) at 1 by (cbn; by rewrite app_nil_r).
  eapply prints_ext; [|apply (prints_fields buflen [h] (λ b pos,
     if r <? 0 then '(_, pos, b) ← print_seq b pos buflen [lit "?]"]; Ret (pos, b)
     else '(ok, pos, b) ← print_seq b pos buflen
            (separated (lit "+") (names_in (key_mgmt_names cfg) (key_mgmt d)));
          if negb ok then Ret (pos, b)
          else '(pos, b) ← wpa_supplicant_cipher_txt b pos buflen (pairwise_cipher d);
               '(_, pos, b) ← print_seq b pos buflen
                 ((if has (capabilities d) WPA_CAPABILITY_PREAUTH then [lit "-preauth"] else [])
                  ++ [lit "]"]);
               Ret (pos, b))); [exact Hh|]].
  - intros b pos. unfold wpa_supplicant_ie_txt, h. rewrite Hparse, <- app_assoc. done.
  - destruct (r <? 0).
    + apply (prints_last buflen [lit "?]"]). by apply (bool_decide_unpack _).
    + apply prints_fields; [apply names_in_short|].
      apply prints_seq; [apply cipher_txt_prints|].
      replace ((if has (capabilities d) WPA_CAPABILITY_PREAUTH then lit "-preauth" else []) ++ lit "]")
        with (concat ((if has (capabilities d) WPA_CAPABILITY_PREAUTH then [lit "-preauth"] else []) ++ [lit "]"]))
        by (by destruct (has _ _)).
      apply prints_last. destruct (has _ _); by apply (bool_decide_unpack _).
Qed.

(** ** Lengths of the fields *)

Lemma fmt_base_length fuel base n acc :
  (length (fmt_base fuel base n acc) ≤ fuel + length acc)%nat.
Proof.
  revert n acc. induction fuel as [|fuel IH]; intros n acc; cbn [fmt_base]; [lia|].
  case_if; [simpl; lia|]. etrans; [apply IH|]. simpl. lia.
Qed.

Lemma fmt_d_short n : strlen (fmt_d n) ≤ 12.
Proof.
  unfold fmt_d, fmt_u, strlen. case_if; cbn [length];
    match goal with |- context [fmt_base 11 10 ?x []] => pose proof (fmt_base_length 11 10 x []) as H end;
    cbn [length] in H; lia.
Qed.

Lemma macstr_short addr : length addr = 6%nat → strlen (macstr addr) ≤ 54.
Proof.
  assert (Hx : ∀ a, (length (fmt_02x a) ≤ 8)%nat).
  { intros a. unfold fmt_02x. pose proof (fmt_base_length 8 16 a []) as H. cbn [length] in H.
    destruct (_ <? _)%nat eqn:E; [apply Nat.ltb_lt in E; simpl in *; lia|lia]. }
  destruct addr as [|a0 [|a1 [|a2 [|a3 [|a4 [|a5 [|]]]]]]]; try done. intros _.
  unfold strlen. cbn [macstr]. rewrite !length_app. cbn [length].
  pose proof (Hx a0). pose proof (Hx a1). pose proof (Hx a2). pose proof (Hx a3). pose proof (Hx a4).
  pose proof (Hx a5). change (length (lit ":")) with 1%nat. lia.
Qed.

Lemma ssid_text_spec s :
  byte_list s → strlen s ≤ SSID_MAX_LEN → ssid_text (Some s) = Ret (escaped s).
Proof.
  intros Hb Hl. unfold ssid_text, wpa_ssid_txt.
  destruct (printf_encode_spec (zeros (SSID_MAX_LEN * 4 + 1)) (SSID_MAX_LEN * 4 + 1) s Hb)
    as (k & b' & _ & -> & _ & Hs & Hk); [unfold zeros, SSID_MAX_LEN; rewrite length_replicate; lia|].
  ret_simpl. rewrite Hs. rewrite Hk by (unfold SSID_MAX_LEN in *; lia). by rewrite take_ge.
Qed.

Lemma escaped_short s : byte_list s → strlen (escaped s) ≤ 4 * strlen s.
Proof.
  induction 1 as [|c s Hc _ IH]; [done|]. rewrite escaped_cons, strlen_app.
  destruct (encoded_ok c Hc) as [[_ H] _]. unfold strlen in *. simpl. lia.
Qed.

(** ** A line *)

Definition ie_of (bss : wpa_bss) (eid : Z) : option Z :=
  locate (λ e, fst e =? eid) 0 (probe_elements bss).
Definition vendor_of (bss : wpa_bss) (vt : Z) : option Z :=
  locate (vendor_elem vt) 0 (probe_elements bss).
Definition p2p_of (bss : wpa_bss) : option Z :=
  match vendor_of bss P2P_IE_VENDOR_TYPE with
  | None => locate (vendor_elem P2P_IE_VENDOR_TYPE) (ie_len bss) (beacon_elements bss)
  | p => p
  end.

Definition elem_text (bss : wpa_bss) (proto : str) (ie : option Z) : str :=
  match ie with
  | None => []
  | Some p =>
      match u8_at (bss_ies bss) (p + 1) with
      | Ret l => ie_text proto (drop (Z.to_nat p) (bss_ies bss)) (2 + l)
      | _ => []
      end
  end.

Definition line_head (bss : wpa_bss) : str :=
  macstr (bss_bssid bss) ++ TAB_STR ++ fmt_d (bss_freq bss) ++ TAB_STR
    ++ fmt_d (bss_level bss) ++ TAB_STR.

Definition line_flags (bss : wpa_bss) : list str :=
  let ie := vendor_of bss WPA_IE_VENDOR_TYPE in
  let ie2 := ie_of bss WLAN_EID_RSN in
  let osen := vendor_of bss OSEN_IE_VENDOR_TYPE in
  flag_texts bss (negb (found ie) && negb (found ie2) && negb (found osen)
                  && has (bss_caps bss) IEEE80211_CAP_PRIVACY)
    (found (ie_of bss WLAN_EID_MESH_ID)) (found (p2p_of bss))
    (CONFIG_HS20 cfg && (found (vendor_of bss HS20_IE_VENDOR_TYPE) && found ie2))
    (CONFIG_FST cfg && found (ie_of bss WLAN_EID_MULTI_BAND)).

Definition line_elems (bss : wpa_bss) : str :=
  elem_text bss (lit "WPA") (vendor_of bss WPA_IE_VENDOR_TYPE)
  ++ elem_text bss (if found (ie_of bss WLAN_EID_MESH_ID) then lit "RSN" else lit "WPA2")
       (ie_of bss WLAN_EID_RSN)
  ++ elem_text bss (lit "OSEN") (vendor_of bss OSEN_IE_VENDOR_TYPE).

(** Entries of P2P listen discovery are not shown. *)
Definition hidden (bss : wpa_bss) : bool :=
  found (p2p_of bss) && str_eqb (bss_ssid bss) P2P_WILDCARD_SSID.

Definition line_text (bss : wpa_bss) : str :=
  if hidden bss then []
  else line_head bss ++ line_elems bss
       ++ concat (line_flags bss ++ [TAB_STR ++ escaped (bss_ssid bss); [NL]]).

Lemma elem_prints buflen bss proto P pos end_ p :
  bss_ok bss → 0 ≤ pos ≤ end_ → end_ ≤ strlen (bss_ies bss) → strlen proto < 100 →
  p = locate P pos (elements_of (between (bss_ies bss) pos end_)) →
  prints buflen (λ b q, elem_txt cfg bss b q buflen proto p) (elem_text bss proto p).
Proof.
  intros [Hm _ _ _] Hpos He Hp ->. destruct (locate _ _ _) as [q|] eqn:E; [|apply prints_nothing].
  destruct (located _ Hm P pos end_ q Hpos He E) as ([id s] & (Hq & Hle & _ & Hn & _) & _ & _).
  cbn [snd] in *. unfold elem_txt, elem_text. rewrite Hn. ret_simpl.
  apply ie_txt_prints; [by apply Forall_drop| |done]. rewrite length_drop. unfold strlen in *. lia.
Qed.

Lemma flags_short bss a b c d e : short_strings (flag_texts bss a b c d e).
Proof.
  unfold flag_texts, dmg_name. destruct (bss_is_dmg bss), a, b, c, d, e;
    repeat (case_if; [|]); repeat case_match; by apply (bool_decide_unpack _).
Qed.

Lemma line_tail_short bss : bss_ok bss →
  short_strings (line_flags bss ++ [TAB_STR ++ escaped (bss_ssid bss); [NL]]).
Proof.
  intros [_ _ _ [Hs Hb]]. apply Forall_app. split; [apply flags_short|].
  constructor; [|by apply (bool_decide_unpack _)]. rewrite strlen_app.
  pose proof (escaped_short _ Hb). change (strlen TAB_STR) with 1. unfold SSID_MAX_LEN in *. lia.
Qed.

Definition line_tail (bss : wpa_bss) : list str :=
  line_flags bss ++ [TAB_STR ++ escaped (bss_ssid bss); [NL]].

Definition print_elems (bss : wpa_bss) (buflen : Z) (b : buf) (pos : Z) : outcome (Z * buf) :=
  '(pos, b) ← elem_txt cfg bss b pos buflen (lit "WPA") (vendor_of bss WPA_IE_VENDOR_TYPE);
  '(pos, b) ← elem_txt cfg bss b pos buflen
    (if found (ie_of bss WLAN_EID_MESH_ID) then lit "RSN" else lit "WPA2") (ie_of bss WLAN_EID_RSN);
  elem_txt cfg bss b pos buflen (lit "OSEN") (vendor_of bss OSEN_IE_VENDOR_TYPE).

Lemma print_elems_prints bss buflen :
  bss_ok bss → prints buflen (print_elems bss buflen) (line_elems bss).
Proof.
  intros Hok. pose proof Hok as [_ Hlen _ _]. unfold line_elems, print_elems.
  apply prints_seq; [|apply prints_seq];
    (eapply (elem_prints buflen bss _ _ 0 (0 + ie_len bss)); [done|lia|lia| |reflexivity]);
    try (destruct (found _)); by vm_compute.
Qed.

(** The entry in three steps. *)
Lemma scan_result_steps bss b start end_ : bss_ok bss →
  wpa_supplicant_ctrl_iface_scan_result cfg bss b start end_ =
  if hidden bss then Ret (0, b)
  else
    '(ok, pos, b) ← print_seq b start end_ [line_head bss];
    if negb ok then Ret (-1, b)
    else
      '(pos, b) ← print_elems bss end_ b pos;
      '(ok, pos, b) ← print_seq b pos end_ (line_tail bss);
      if negb ok then Ret (-1, b) else Ret (pos - start, b).
Proof.
  intros Hok. pose proof Hok as [_ _ _ [Hssid Hsb]].
  unfold wpa_supplicant_ctrl_iface_scan_result.
  rewrite (bss_get_vendor_ie bss P2P_IE_VENDOR_TYPE Hok), (bss_get_vendor_ie_beacon bss _ Hok),
    (bss_get_vendor_ie bss WPA_IE_VENDOR_TYPE Hok), (bss_get_vendor_ie bss OSEN_IE_VENDOR_TYPE Hok),
    (bss_get_vendor_ie bss HS20_IE_VENDOR_TYPE Hok), !(bss_get_ie bss _ Hok), (ssid_text_spec _ Hsb Hssid).
  ret_simpl.
  assert (Hp2p : match locate (vendor_elem P2P_IE_VENDOR_TYPE) 0 (probe_elements bss) with
                 | Some _ => Ret (locate (vendor_elem P2P_IE_VENDOR_TYPE) 0 (probe_elements bss))
                 | None => Ret (locate (vendor_elem P2P_IE_VENDOR_TYPE) (ie_len bss) (beacon_elements bss))
                 end = Ret (p2p_of bss)).
  { unfold p2p_of, vendor_of. by destruct (locate _ 0 _). }
  rewrite Hp2p. ret_simpl. fold (hidden bss) (line_head bss). destruct (hidden bss); [done|].
  destruct (print_seq b start end_ [line_head bss]) as [[[[] p0] c0]| |]; try done. ret_simpl. cbn [negb].
  unfold print_elems. fold (vendor_of bss WPA_IE_VENDOR_TYPE) (ie_of bss WLAN_EID_MESH_ID)
    (ie_of bss WLAN_EID_RSN) (vendor_of bss OSEN_IE_VENDOR_TYPE) (vendor_of bss HS20_IE_VENDOR_TYPE)
    (ie_of bss WLAN_EID_MULTI_BAND).
  destruct (elem_txt cfg bss c0 p0 _ _ _) as [[p1 c1]| |]; ret_simpl; [|done..].
  destruct (elem_txt cfg bss c1 p1 _ _ _) as [[p2 c2]| |]; ret_simpl; [|done..].
  destruct (elem_txt cfg bss c2 p2 _ _ _) as [[p3 c3]| |]; ret_simpl; [|done..].
  unfold wpa_supplicant_wps_ie_txt, line_tail, line_flags. ret_simpl.
  by destruct (CONFIG_HS20 cfg), (CONFIG_FST cfg).
Qed.

(** One entry: nothing counts that did not fit, and the line is whole when
    there is room. *)
Lemma scan_result_spec bss b u buflen :
  bss_ok bss → room b buflen → built b u → strlen u ≤ buflen →
  ∃ r b', wpa_supplicant_ctrl_iface_scan_result cfg bss b (strlen u) buflen = Ret (r, b') ∧
    length b' = length b ∧
    ((r = -1 ∧ built b' u ∧ buflen ≤ strlen u + strlen (line_text bss)) ∨
     ∃ v, r = strlen v ∧ built b' (u ++ v) ∧ strlen (u ++ v) ≤ buflen ∧
       (strlen u + strlen (line_text bss) < buflen → v = line_text bss)).
Proof.
  intros Hok Hr Hu Hl. rewrite scan_result_steps by done. unfold line_text. fold (line_tail bss).
  destruct (hidden bss).
  { exists 0, b. split_and!; [done|done|]. right. exists []. by rewrite app_nil_r. }
  assert (Hh : short_strings [line_head bss]).
  { pose proof Hok as [_ _ [Hmac _] _]. constructor; [|constructor]. unfold line_head.
    rewrite !strlen_app. change (strlen TAB_STR) with 1. pose proof (macstr_short _ Hmac).
    pose proof (fmt_d_short (bss_freq bss)). pose proof (fmt_d_short (bss_level bss)). lia. }
  pose proof (strlen_nonneg (line_elems bss)). pose proof (strlen_nonneg (concat (line_tail bss))).
  destruct (print_seq_spec [line_head bss] b buflen u Hr Hu Hl Hh) as (b1 & -> & Hb1 & Hl1 & He1).
  ret_simpl. destruct (fits (buflen - strlen u) [line_head bss]) eqn:Ef; cbn [negb].
  2: { exists (-1), b1. split_and!; [done|done|]. left. split_and!; [done|by eapply built_prefix|].
       rewrite fits_concat in Ef. zbool. cbn [concat] in Ef. rewrite app_nil_r in Ef.
       rewrite strlen_app, strlen_app. lia. }
  rewrite (fits_fitting _ _ Ef) in *. cbn [concat] in *. rewrite app_nil_r in *.
  destruct (print_elems_prints bss buflen Hok b1 (u ++ line_head bss)) as (v & b2 & -> & Hb2 & Hl2 & He2 & Hfull);
    [by eapply room_length|done|done|]. ret_simpl.
  set (w := (u ++ line_head bss) ++ v) in *.
  destruct (print_seq_spec (line_tail bss) b2 buflen w) as (b3 & -> & Hb3 & Hl3 & He3);
    [by eapply room_length; [|exact Hr]; congruence|done|done|by apply line_tail_short|]. ret_simpl.
  assert (Hv : strlen u + strlen (line_head bss ++ line_elems bss ++ concat (line_tail bss)) < buflen →
               v = line_elems bss).
  { rewrite !strlen_app in *. intros. apply Hfull. lia. }
  destruct (fits (buflen - strlen w) (line_tail bss)) eqn:Eft; cbn [negb].
  - rewrite (fits_fitting _ _ Eft) in *.
    exists (strlen (w ++ concat (line_tail bss)) - strlen u), b3. split_and!; [done|congruence|]. right.
    exists ((line_head bss ++ v) ++ concat (line_tail bss)). unfold w in *.
    rewrite !strlen_app, <- !app_assoc in *. split_and!; [lia|done|lia|]. intros Hfit. by rewrite Hv by lia.
  - exists (-1), b3. split_and!; [done|congruence|]. left. split_and!; [done| |].
    + unfold w in Hb3. rewrite <- !app_assoc in Hb3. by eapply built_prefix.
    + destruct (Z.lt_ge_cases (strlen u + strlen (line_head bss ++ line_elems bss ++ concat (line_tail bss)))
        buflen) as [Hfit|]; [|lia].
      rewrite fits_short in Eft; [done|]. unfold w. rewrite Hv by done. rewrite !strlen_app in *. lia.
Qed.

(** ** The table *)

Definition scan_header : str := lit "bssid / frequency / signal level / flags / ssid" ++ [NL].

Lemma scan_loop_spec l b u buflen :
  Forall bss_ok l → room b buflen → built b u → strlen u ≤ buflen →
  ∃ v b', scan_results_loop cfg l b (strlen u) buflen = Ret (strlen (u ++ v), b') ∧
    built b' (u ++ v) ∧ strlen (u ++ v) ≤ buflen ∧
    (strlen u + strlen (concat (line_text <$> l)) < buflen → v = concat (line_text <$> l)).
Proof.
  intros Hl. revert b u. induction Hl as [|bss l Hok _ IH]; intros b u Hr Hu Hle; cbn [scan_results_loop].
  { exists [], b. by rewrite app_nil_r. }
  destruct (scan_result_spec bss b u buflen Hok Hr Hu Hle) as (r & b1 & -> & Hl1 & Hc). ret_simpl.
  cbn [fmap list_fmap concat]. pose proof (strlen_nonneg (concat (line_text <$> l))) as Hge.
  destruct Hc as [(-> & Hb1 & Hno)|(v & -> & Hb1 & Hv & Hfull)].
  { cbn [Z.ltb Z.compare orb]. exists [], b1. rewrite app_nil_r, strlen_app. split_and!; [done|done|done|].
    intros. change (list_fmap _ _ line_text l) with (line_text <$> l) in *. lia. }
  rewrite (proj2 (Z.ltb_ge (strlen v) 0)) by apply strlen_nonneg. cbn [orb].
  rewrite strlen_app in Hv. case_if; zbool.
  - exists [], b1. rewrite app_nil_r, strlen_app. split_and!; [done|by eapply built_prefix|done|].
    intros Hfit. change (list_fmap _ _ line_text l) with (line_text <$> l) in *.
    rewrite Hfull in * by lia. lia.
  - rewrite <- strlen_app. destruct (IH b1 (u ++ v)) as (w & b2 & -> & Hb2 & Hw & Hall);
      [by eapply room_length|done|rewrite strlen_app; lia|].
    exists (v ++ w), b2. rewrite app_assoc. split_and!; [done|done|done|].
    rewrite strlen_app. intros Hfit. change (list_fmap _ _ line_text l) with (line_text <$> l) in *.
    rewrite Hfull in * by lia. rewrite Hall; [done|]. rewrite strlen_app. lia.
Qed.

Definition scan_table (l : list wpa_bss) : str := scan_header ++ concat (line_text <$> l).

Lemma scan_results_spec l b buflen :
  Forall bss_ok l → room b buflen →
  ∃ v b', wpa_supplicant_ctrl_iface_scan_results cfg l b buflen = Ret (strlen v, b') ∧
    built b' v ∧ strlen v ≤ buflen ∧ (strlen (scan_table l) < buflen → v = scan_table l).
Proof.
  intros Hl Hr. unfold wpa_supplicant_ctrl_iface_scan_results. fold scan_header.
  pose proof (strlen_nonneg (concat (line_text <$> l))). unfold scan_table. rewrite strlen_app.
  destruct (print_seq_spec [scan_header] b buflen [] Hr (built_nil b)) as (b1 & H1 & Hb1 & Hl1 & He1);
    [unfold room in Hr; change (strlen []) with 0; lia|by apply (bool_decide_unpack _)|].
  change (strlen []) with 0 in *. rewrite H1. ret_simpl. rewrite Z.sub_0_r in *.
  destruct (fits buflen [scan_header]) eqn:Ef; cbn [negb].
  - rewrite (fits_fitting _ _ Ef) in *. cbn [concat app] in *. rewrite app_nil_r in *.
    destruct (scan_loop_spec l b1 scan_header buflen Hl) as (v & b2 & -> & Hb2 & Hv & Hall);
      [by eapply room_length|done|done|].
    exists (scan_header ++ v), b2. split_and!; [done|done|done|]. intros Hfit. by rewrite Hall.
  - exists ([] ++ concat (fitting buflen [scan_header])), b1. split_and!; [done|done|done|].
    intros Hfit. rewrite fits_short in Ef; [done|]. cbn [concat]. rewrite app_nil_r. lia.
Qed.
End build.

(** C13: Whatever was heard on the air, the reply to SCAN_RESULTS is text inside
    the buffer of the reply; it is the whole table when there is room for it. *)
Theorem scan_results_reply cfg l b buflen :
  Forall bss_ok l → room b buflen →
  ∃ v b', wpa_supplicant_ctrl_iface_scan_results cfg l b buflen = Ret (strlen v, b') ∧
    built b' v ∧ strlen v ≤ buflen ∧ (strlen (scan_table cfg l) < buflen → v = scan_table cfg l).
Proof. apply scan_results_spec. Qed.

Lemma scan_results_reply_witness :
  ∃ v b', wpa_supplicant_ctrl_iface_scan_results build_default [demo_bss; demo_bss] (zeros 4096) 4096 =
      Ret (strlen v, b') ∧
    built b' v ∧ strlen v ≤ 4096 ∧
    (strlen (scan_table build_default [demo_bss; demo_bss]) < 4096 →
     v = scan_table build_default [demo_bss; demo_bss]).
Proof.
  apply (scan_results_reply build_default [demo_bss; demo_bss] (zeros 4096) 4096).
  - repeat constructor; apply demo_bss_ok.
  - split; [vm_compute; split; discriminate|by vm_compute].
Defined.

Example demo_line : line_text build_default demo_bss =
  lit "02:00:00:00:00:01" ++ [TAB] ++ lit "2412" ++ [TAB] ++ lit "-50" ++ [TAB] ++ lit "[WPA-?][ESS]"
    ++ [TAB] ++ lit "a" ++ [NL].
Proof. vm_compute. reflexivity. Qed.
