(* ===== verification/CtrlList.v ===== *)
(** * Lists and settings of the control interface (wpa_supplicant/ctrl_iface.c)

    The commands LIST_NETWORKS, BLACKLIST and LOG_LEVEL, and the names of the
    debug levels (src/utils/wpa_debug.c).  A reply is printed into a buffer;
    the functions return its length and the buffer. *)

From Stdlib Require Import Sorted.
From S2P Require Import Prelude CString Scan CliUtil Common Printable Printing Network Blacklist CtrlScan CtrlScanSpec.

(** ** LIST_NETWORKS *)

Definition list_header : str := lit "network id / ssid / bssid / flags" ++ [NL].

(** Networks up to the one last seen are skipped. *)
Fixpoint skip_seen (last_id : Z) (l : list wpa_ssid) : list wpa_ssid :=
  match l with
  | s :: l' => if ssid_id s <=? last_id then skip_seen last_id l' else l
  | [] => []
  end.

Definition network_bssid (s : wpa_ssid) : str :=
  if bssid_set s then [TAB] ++ macstr (bssid s) else [TAB] ++ lit "any".

Definition network_flags (current_ssid : option Z) (s : wpa_ssid) : str :=
  [TAB] ++ (if bool_decide (current_ssid = Some (ssid_id s)) then lit "[CURRENT]" else [])
  ++ (if negb (disabled s =? 0) then lit "[DISABLED]" else [])
  ++ (if negb (disabled_until s =? 0) then lit "[TEMP-DISABLED]" else [])
  ++ (if disabled s =? 2 then lit "[P2P-PERSISTENT]" else []).

Fixpoint list_networks_loop (current_ssid : option Z) (l : list wpa_ssid) (b : buf) (pos end_ : Z)
    : outcome (Z * buf) :=
  match l with
  | [] => Ret (pos, b)
  | s :: l' =>
      t ← ssid_text (ssid s);
      '(ok, p, b) ← print_seq b pos end_
        [fmt_d (ssid_id s) ++ [TAB] ++ t; network_bssid s; network_flags current_ssid s; [NL]];
      if negb ok then Ret (pos, b) else list_networks_loop current_ssid l' b p end_
  end.

Definition wpa_supplicant_ctrl_iface_list_networks (conf : wpa_config) (current_ssid : option Z)
    (cmd : option str) (b : buf) (buflen : Z) : outcome (Z * buf) :=
  '(ok, pos, b) ← print_seq b 0 buflen [list_header];
  if negb ok then Ret (pos, b)
  else
    let l := match cmd with
             | Some cmd =>
                 if strncmp_eq cmd (lit "LAST_ID=") 8 then
                   let last_id := atoi (drop 8 cmd) in
                   if negb (last_id =? -1) then skip_seen last_id (networks conf) else networks conf
                 else networks conf
             | None => networks conf
             end in
    list_networks_loop current_ssid l b pos buflen.

(** ** BLACKLIST *)

Fixpoint blacklist_loop (l : list wpa_blacklist) (b : buf) (pos end_ : Z) : outcome (Z * buf) :=
  match l with
  | [] => Ret (pos, b)
  | e :: l' =>
      '(ok, p, b) ← print_seq b pos end_ [macstr (e_bssid e) ++ [NL]];
      if negb ok then Ret (pos, b) else blacklist_loop l' b p end_
  end.

Definition wpa_supplicant_ctrl_iface_blacklist (malloc_ok : bool) (s : blacklist_state) (cmd : str)
    (b : buf) (buflen : Z) : outcome (Z * buf * blacklist_state) :=
  match cmd with
  | [] => '(n, b) ← blacklist_loop (blacklist s) b 0 buflen; Ret (n, b, s)
  | _ :: cmd =>
      if strncmp_eq cmd (lit "clear") 5 then
        s ← wpa_blacklist_clear s;
        b ← buf_write b 0 (lit "OK" ++ [NL]);
        Ret (3, b, s)
      else
        match hwaddr_aton cmd with
        | None => Ret (-1, b, s)
        | Some bssid =>
            '(ret, s) ← wpa_blacklist_add malloc_ok s (Some bssid);
            if ret <? 0 then Ret (-1, b, s)
            else
              '(ret, s) ← wpa_blacklist_add malloc_ok s (Some bssid);
              if ret <? 0 then Ret (-1, b, s)
              else b ← buf_write b 0 (lit "OK" ++ [NL]); Ret (3, b, s)
        end
  end.

(** ** LOG_LEVEL *)

Definition MSG_EXCESSIVE : Z := 0.
Definition MSG_MSGDUMP : Z := 1.
Definition MSG_DEBUG : Z := 2.
Definition MSG_INFO : Z := 3.
Definition MSG_WARNING : Z := 4.
Definition MSG_ERROR : Z := 5.

Definition debug_level_str (level : Z) : str :=
  if level =? MSG_EXCESSIVE then lit "EXCESSIVE"
  else if level =? MSG_MSGDUMP then lit "MSGDUMP"
  else if level =? MSG_DEBUG then lit "DEBUG"
  else if level =? MSG_INFO then lit "INFO"
  else if level =? MSG_WARNING then lit "WARNING"
  else if level =? MSG_ERROR then lit "ERROR"
  else lit "?".

Definition str_to_debug_level (s : str) : Z :=
  if strcasecmp_eq s (lit "EXCESSIVE") then MSG_EXCESSIVE
  else if strcasecmp_eq s (lit "MSGDUMP") then MSG_MSGDUMP
  else if strcasecmp_eq s (lit "DEBUG") then MSG_DEBUG
  else if strcasecmp_eq s (lit "INFO") then MSG_INFO
  else if strcasecmp_eq s (lit "WARNING") then MSG_WARNING
  else if strcasecmp_eq s (lit "ERROR") then MSG_ERROR
  else -1.

(** The variables of wpa_debug.c. *)
Record debug_state : Type := DebugState { wpa_debug_level : Z; wpa_debug_timestamp : Z }.

Fixpoint skip_sp (s : str) : str :=
  match s with c :: s' => if c =? SP then skip_sp s' else s | [] => [] end.

Definition wpa_supplicant_ctrl_iface_log_level (d : debug_state) (cmd : str) (b : buf) (buflen : Z)
    : outcome (Z * buf * debug_state) :=
  match cmd with
  | [] =>
      '(ret, b) ← snprintf b 0 buflen (lit "Current level: " ++ debug_level_str (wpa_debug_level d)
        ++ [NL] ++ lit "Timestamp: " ++ fmt_d (wpa_debug_timestamp d) ++ [NL]);
      Ret (if os_snprintf_error buflen ret then 0 else ret, b, d)
  | _ =>
      let cmd := skip_sp cmd in
      let '(cmd, stamp) :=
        match strchr cmd SP with
        | Some i => (take i cmd, Some (skip_sp (drop (i + 1) cmd)))
        | None => (cmd, None)
        end in
      let level := str_to_debug_level cmd in
      if negb (strlen cmd =? 0) && (level <? 0) then Ret (-1, b, d)
      else
        let d := if negb (strlen cmd =? 0) then DebugState level (wpa_debug_timestamp d) else d in
        let d := match stamp with
                 | Some t => if negb (strlen t =? 0) then DebugState (wpa_debug_level d) (atoi t) else d
                 | None => d
                 end in
        b ← buf_write b 0 (lit "OK" ++ [NL]);
        Ret (3, b, d)
  end.

(** ** LIST_NETWORKS: the reply *)

(** SSIDs of at most 32 bytes and addresses of six, as the fields are. *)
Definition net_ok (s : wpa_ssid) : Prop :=
  (∀ t, ssid s = Some t → byte_list t ∧ strlen t ≤ SSID_MAX_LEN) ∧ length (bssid s) = 6%nat ∧ byte_list (bssid s).

Definition ssid_escaped (s : wpa_ssid) : str :=
  match ssid s with Some t => escaped t | None => [] end.

Definition network_row (current_ssid : option Z) (s : wpa_ssid) : list str :=
  [fmt_d (ssid_id s) ++ [TAB] ++ ssid_escaped s; network_bssid s; network_flags current_ssid s; [NL]].

Definition network_line (current_ssid : option Z) (s : wpa_ssid) : str :=
  concat (network_row current_ssid s).

Lemma ssid_text_net s : net_ok s → ssid_text (ssid s) = Ret (ssid_escaped s).
Proof.
  intros [Hs _]. unfold ssid_escaped. destruct (ssid s) as [t|]; [|by vm_compute].
  destruct (Hs t eq_refl). by apply ssid_text_spec.
Qed.

Lemma network_flags_short cur s : strlen (network_flags cur s) < 100.
Proof.
  unfold network_flags. repeat case_bool_decide; repeat case_match; by apply (bool_decide_unpack _).
Qed.

Lemma network_row_short cur s : net_ok s → short_strings (network_row cur s) ∧ network_row cur s ≠ [].
Proof.
  intros (Hs & Hb & _). split; [|done]. unfold network_row. repeat apply Forall_cons_2; [..|by constructor].
  - rewrite !strlen_app. pose proof (fmt_d_short (ssid_id s)). change (strlen [TAB]) with 1.
    assert (strlen (ssid_escaped s) ≤ 128).
    { unfold ssid_escaped. destruct (ssid s) as [t|]; [|by vm_compute]. destruct (Hs t eq_refl) as [Ht Hl].
      pose proof (escaped_short _ Ht). unfold SSID_MAX_LEN in Hl. lia. }
    lia.
  - unfold network_bssid. pose proof (macstr_short _ Hb). case_if; rewrite strlen_app; [|by vm_compute].
    change (strlen [TAB]) with 1. lia.
  - pose proof (network_flags_short cur s). lia.
  - by vm_compute.
Qed.

Lemma list_networks_rows cur l b pos end_ :
  Forall net_ok l →
  list_networks_loop cur l b pos end_ = print_rows b pos end_ (network_row cur <$> l).
Proof.
  intros Hl. revert b pos. induction Hl as [|s l Hs _ IH]; intros b pos; [done|].
  cbn [list_networks_loop fmap list_fmap print_rows]. rewrite (ssid_text_net s Hs). ret_simpl.
  unfold network_row at 1. destruct (print_seq _ _ _ _) as [[[ok p] b1]| |]; ret_simpl; [|done..].
  destruct ok; cbn [negb]; [apply IH|done].
Qed.

(** The networks a request is about: those behind the one last seen. *)
Definition requested (cmd : option str) (l : list wpa_ssid) : list wpa_ssid :=
  match cmd with
  | Some cmd =>
      if strncmp_eq cmd (lit "LAST_ID=") 8 && negb (atoi (drop 8 cmd) =? -1)
      then skip_seen (atoi (drop 8 cmd)) l else l
  | None => l
  end.

Lemma requested_sublist cmd l : requested cmd l `sublist_of` l.
Proof.
  assert (Hs : ∀ n, skip_seen n l `sublist_of` l).
  { intros n. induction l as [|s l IH]; cbn [skip_seen]; [done|]. case_if; [by constructor|done]. }
  unfold requested. destruct cmd as [cmd|]; [|done]. case_if; [apply Hs|done].
Qed.

Lemma requested_all P cmd l : Forall P l → Forall P (requested cmd l).
Proof.
  rewrite !Forall_forall. intros Hl s Hs. apply Hl. eapply elem_of_submseteq; [exact Hs|].
  apply sublist_submseteq, requested_sublist.
Qed.

(** The rows that fit are the reply. *)
Lemma list_networks_spec conf cur cmd b buflen :
  Forall net_ok (networks conf) → room b buflen →
  let v := concat (fitting buflen (list_header :: (network_line cur <$> requested cmd (networks conf)))) in
  ∃ b', wpa_supplicant_ctrl_iface_list_networks conf cur cmd b buflen = Ret (strlen v, b') ∧
    built b' v ∧ strlen v ≤ buflen.
Proof.
  intros Hn Hr. set (l := requested cmd (networks conf)).
  assert (Hl : Forall net_ok l) by (by apply requested_all).
  unfold wpa_supplicant_ctrl_iface_list_networks.
  destruct (print_seq_spec [list_header] b buflen [] Hr (built_nil b)) as (b1 & H1 & Hb1 & Hl1 & He1);
    [unfold room in Hr; change (strlen []) with 0; lia|by apply (bool_decide_unpack _)|].
  change (strlen []) with 0 in *. rewrite H1. ret_simpl. rewrite Z.sub_0_r in *. cbn [fits fitting] in *.
  rewrite andb_true_r. destruct (strlen list_header <? buflen) eqn:E; cbn [negb]; [|by exists b1].
  replace (match cmd with Some _ => _ | None => _ end) with l.
  2: { unfold l, requested. destruct cmd as [cmd|]; [|done]. by destruct (strncmp_eq _ _ _), (negb _). }
  rewrite list_networks_rows by done. cbn [concat app] in *. rewrite app_nil_r in *.
  destruct (print_rows_spec (network_row cur <$> l) b1 buflen list_header) as (b2 & -> & Hb2 & _ & He2);
    [by eapply room_length|done|done| |].
  { apply Forall_fmap. eapply Forall_impl; [exact Hl|]. intros s Hs. by apply network_row_short. }
  rewrite <- list_fmap_compose in *. by exists b2.
Qed.

Lemma skip_seen_split l1 s l2 :
  ascending (l1 ++ s :: l2) → skip_seen (ssid_id s) (l1 ++ s :: l2) = l2.
Proof.
  induction l1 as [|x l1 IH]; cbn [app]; intros [Hs Hx]%StronglySorted_inv; cbn [skip_seen].
  - rewrite (proj2 (Z.leb_le _ _)) by lia. destruct l2 as [|y l2]; [done|]. cbn [skip_seen].
    apply Forall_cons in Hx as [Hx _]. by rewrite (proj2 (Z.leb_gt _ _)).
  - apply Forall_app in Hx as [_ Hx]. apply Forall_cons in Hx as [Hx _].
    rewrite (proj2 (Z.leb_le _ _)) by lia. by apply IH.
Qed.

(** LIST_NETWORKS prints one line for each network, as many as fit; asked
    again with the identifier of the last one seen it goes on with the next, so
    that a configuration that does not fit one reply is read in pages. *)
Theorem list_networks_pages conf cur b buflen pre s post :
  Forall net_ok (networks conf) → ascending (networks conf) → room b buflen →
  networks conf = pre ++ s :: post → 0 ≤ ssid_id s ≤ INT_MAX →
  let page l := concat (fitting buflen (list_header :: (network_line cur <$> l))) in
  (∃ b', wpa_supplicant_ctrl_iface_list_networks conf cur None b buflen
     = Ret (strlen (page (networks conf)), b') ∧ built b' (page (networks conf))) ∧
  (∃ b', wpa_supplicant_ctrl_iface_list_networks conf cur (Some (lit "LAST_ID=" ++ fmt_d (ssid_id s))) b buflen
     = Ret (strlen (page post), b') ∧ built b' (page post)).
Proof.
  intros Hn Ha Hr Hc Hid page. split.
  - destruct (list_networks_spec conf cur None b buflen Hn Hr) as (b' & H1 & H2 & _). by exists b'.
  - destruct (list_networks_spec conf cur (Some (lit "LAST_ID=" ++ fmt_d (ssid_id s))) b buflen Hn Hr)
      as (b' & H1 & H2 & _).
    assert (Hreq : requested (Some (lit "LAST_ID=" ++ fmt_d (ssid_id s))) (networks conf) = post).
    { unfold requested. change (drop 8 (lit "LAST_ID=" ++ fmt_d (ssid_id s))) with (fmt_d (ssid_id s)).
      change (strncmp_eq (lit "LAST_ID=" ++ fmt_d (ssid_id s)) (lit "LAST_ID=") 8) with true.
      rewrite atoi_fmt_d by (unfold INT_MIN, INT_MAX in *; lia).
      rewrite (proj2 (Z.eqb_neq _ _)) by lia. cbn [negb andb].
      rewrite Hc in *. by apply skip_seen_split. }
    rewrite Hreq in *. by exists b'.
Qed.

(** ** BLACKLIST: the reply and the list *)

Definition blacklist_line (e : wpa_blacklist) : str := macstr (e_bssid e) ++ [NL].

Lemma blacklist_rows l b pos end_ :
  blacklist_loop l b pos end_ = print_rows b pos end_ ((λ e, [blacklist_line e]) <$> l).
Proof.
  revert b pos. induction l as [|e l IH]; intros b pos; [done|].
  cbn [blacklist_loop fmap list_fmap print_rows]. fold (blacklist_line e).
  destruct (print_seq _ _ _ _) as [[[ok p] b1]| |]; ret_simpl; [|done..]. by destruct ok; [apply IH|].
Qed.

Lemma blacklist_printed m s b buflen :
  Forall (λ e, length (e_bssid e) = 6%nat) (blacklist s) → room b buflen →
  let v := concat (fitting buflen (blacklist_line <$> blacklist s)) in
  ∃ b', wpa_supplicant_ctrl_iface_blacklist m s [] b buflen = Ret (strlen v, b', s) ∧
    built b' v ∧ strlen v ≤ buflen.
Proof.
  intros Hs Hr. unfold wpa_supplicant_ctrl_iface_blacklist. rewrite blacklist_rows.
  destruct (print_rows_spec ((λ e, [blacklist_line e]) <$> blacklist s) b buflen [] Hr (built_nil b))
    as (b' & H1 & H2 & _ & H3).
  - unfold room in Hr. change (strlen []) with 0. lia.
  - apply Forall_fmap. eapply Forall_impl; [exact Hs|]. intros e He; cbv beta in *. split; [|done].
    constructor; [|constructor]. unfold blacklist_line. rewrite strlen_app. pose proof (macstr_short _ He).
    change (strlen [NL]) with 1. lia.
  - change (strlen []) with 0 in *. rewrite Z.sub_0_r in *. cbn [app] in *.
    rewrite <- list_fmap_compose in *.
    assert (Hc : (@concat Z ∘ λ e, [blacklist_line e]) <$> blacklist s = blacklist_line <$> blacklist s).
    { apply list_fmap_ext. intros i e _. cbn. by rewrite app_nil_r. }
    rewrite Hc in *. rewrite H1. ret_simpl. by exists b'.
Qed.

(** No address starts like the word for clearing. *)
Lemma macstr_not_clear a :
  length a = ETH_ALEN → byte_list a → strncmp_eq (macstr a) (lit "clear") 5 = false.
Proof.
  destruct a as [|a0 [|a1 a]]; try done. intros _ [Ha _]%Forall_cons.
  change (macstr (a0 :: a1 :: a)) with (fmt_02x a0 ++ lit ":" ++ macstr (a1 :: a)).
  rewrite fmt_02x_byte by done. cbn [app].
  assert (Hl : (hex_digit (a0 mod 16) =? 108) = false)
    by (apply Z.eqb_neq; unfold hex_digit; case_if; zbool; lia).
  unfold strncmp_eq. change (lit "clear") with [99; 108; 101; 97; 114]. cbn [strn_eq].
  by rewrite Hl, andb_false_r.
Qed.

Lemma counts_nonneg s addr : bl_ok s → 0 ≤ default 0 (counts (blacklist s) !! addr).
Proof.
  intros [_ Hp]. rewrite <- find_entry_counts.
  induction Hp as [|e l He _ IH]; cbn [find_entry]; [done|].
  destruct (bssid_eqb _ _); [cbn; lia|exact IH].
Qed.

(** An address is counted twice, so that it is skipped from then on. *)
Lemma blacklist_command_adds s addr b buflen sep :
  bl_ok s → length addr = ETH_ALEN → byte_list addr → 3 ≤ Z.of_nat (length b) →
  let n := default 0 (counts (blacklist s) !! addr) in
  n + 1 < INT_MAX →
  ∃ b' s', wpa_supplicant_ctrl_iface_blacklist true s (sep :: macstr addr) b buflen = Ret (3, b', s') ∧
    built b' (lit "OK" ++ [NL]) ∧ bl_ok s' ∧
    counts (blacklist s') = <[addr := n + 2]> (counts (blacklist s)).
Proof.
  intros Hs Hl Hb Hroom n Hn. unfold wpa_supplicant_ctrl_iface_blacklist.
  rewrite macstr_not_clear by done. rewrite <- (app_nil_r (macstr addr)), hwaddr_roundtrip by done.
  destruct (blacklist_add_spec s addr Hs) as (s1 & -> & Hs1 & Hc1); [fold n; lia|]. fold n in Hc1 |- *.
  ret_simpl. assert (Hn0 : 0 ≤ n).
  { by apply counts_nonneg. }
  rewrite (proj2 (Z.ltb_ge _ _)) by lia.
  pose proof (blacklist_add_spec s1 addr Hs1) as H2. cbv zeta in H2.
  rewrite Hc1, lookup_insert_eq in H2. cbn [default from_option id] in H2.
  destruct (H2 Hn) as (s2 & -> & Hs2 & Hc2).
  ret_simpl. rewrite (proj2 (Z.ltb_ge _ _)) by lia.
  destruct (buf_write_defined b 0 (lit "OK" ++ [NL])) as [b' Hw]; [lia|by change (strlen (lit "OK" ++ [NL])) with 3|].
  rewrite Hw. ret_simpl. exists b', s2. split_and!; [done| |done|].
  - exact (built_write b [] _ b' (built_nil b) Hw).
  - rewrite Hc2, insert_insert_eq. by replace (n + 1 + 1) with (n + 2) by lia.
Qed.

(** Any other text is refused and changes nothing. *)
Lemma blacklist_command_refuses m s cmd b buflen sep :
  strncmp_eq cmd (lit "clear") 5 = false → hwaddr_aton cmd = None →
  wpa_supplicant_ctrl_iface_blacklist m s (sep :: cmd) b buflen = Ret (-1, b, s).
Proof. intros H1 H2. unfold wpa_supplicant_ctrl_iface_blacklist. by rewrite H1, H2. Qed.

(** ** LOG_LEVEL *)

Lemma debug_level_names level :
  0 ≤ level ≤ MSG_ERROR → str_to_debug_level (debug_level_str level) = level.
Proof.
  intros H. assert (Hc : level ∈ [0; 1; 2; 3; 4; 5]) by (unfold MSG_ERROR in H; set_unfold; lia).
  repeat (apply elem_of_cons in Hc as [->|Hc]; [by vm_compute|]). by apply not_elem_of_nil in Hc.
Qed.

Lemma debug_level_plain level :
  strchr (debug_level_str level) SP = None ∧ skip_sp (debug_level_str level) = debug_level_str level ∧
  0 < strlen (debug_level_str level).
Proof. unfold debug_level_str. repeat case_if; split_and!; done. Qed.

Lemma skip_sp_graphic s : graphic s → skip_sp s = s.
Proof. destruct 1 as [|c s Hc _]; [done|]. cbn [skip_sp]. rewrite (proj2 (Z.eqb_neq c SP)); [done|]. unfold SP. lia. Qed.

(** The level and the time stamps that are set are those that are shown. *)
Lemma log_level_roundtrip d level stamp b buflen :
  0 ≤ level ≤ MSG_ERROR → INT_MIN ≤ stamp ≤ INT_MAX → room b buflen → 100 ≤ buflen →
  let shown := lit "Current level: " ++ debug_level_str level ++ [NL]
               ++ lit "Timestamp: " ++ fmt_d stamp ++ [NL] in
  ∃ b' d', wpa_supplicant_ctrl_iface_log_level d (SP :: debug_level_str level ++ SP :: fmt_d stamp) b buflen
    = Ret (3, b', d') ∧ d' = DebugState level stamp ∧
  ∃ b'', wpa_supplicant_ctrl_iface_log_level d' [] b' buflen = Ret (strlen shown, b'', d') ∧ built b'' shown.
Proof.
  intros Hl Hs [Hr1 Hr2] Hb shown.
  destruct (debug_level_plain level) as (H1 & H2 & H3).
  pose proof (fmt_d_nonempty stamp) as Hne. pose proof (fmt_d_short stamp) as Hsh.
  assert (Hsp : skip_sp (fmt_d stamp) = fmt_d stamp).
  { apply skip_sp_graphic, fmt_d_graphic. }
  assert (Hlen : strlen shown ≤ 60).
  { unfold shown. rewrite !strlen_app. change (strlen (lit "Current level: ")) with 15.
    change (strlen [NL]) with 1. change (strlen (lit "Timestamp: ")) with 11.
    assert (strlen (debug_level_str level) ≤ 9) by (unfold debug_level_str; repeat case_if; by vm_compute).
    lia. }
  destruct (buf_write_defined b 0 (lit "OK" ++ [NL])) as [b' Hw];
    [lia|change (strlen (lit "OK" ++ [NL])) with 3; lia|].
  exists b', (DebugState level stamp). split_and!; [|done|].
  - unfold wpa_supplicant_ctrl_iface_log_level.
    change (skip_sp (SP :: ?t)) with (skip_sp t).
    assert (Hk : skip_sp (debug_level_str level ++ SP :: fmt_d stamp) = debug_level_str level ++ SP :: fmt_d stamp).
    { destruct (debug_level_str level) as [|c t]; [done|]. cbn [app skip_sp] in *.
      destruct (c =? SP) eqn:Ec; [|done]. zbool. subst c. cbn in H1. done. }
    rewrite Hk, strchr_app_here by (done || by apply strchr_None). cbv iota zeta.
    rewrite take_app_length, drop_app_ge by lia. replace (_ - length _)%nat with 1%nat by lia.
    change (drop 1 (SP :: fmt_d stamp)) with (fmt_d stamp). rewrite Hsp, debug_level_names by done.
    assert (Hst : 0 < strlen (fmt_d stamp)) by (destruct (fmt_d stamp); [done|unfold strlen; simpl; lia]).
    rewrite (proj2 (Z.eqb_neq (strlen (debug_level_str level)) 0)), (proj2 (Z.ltb_ge level 0)),
      (proj2 (Z.eqb_neq (strlen (fmt_d stamp)) 0)) by lia.
    cbn [negb andb wpa_debug_level wpa_debug_timestamp]. rewrite Hw, atoi_fmt_d by done. by ret_simpl.
  - pose proof (buf_write_length _ _ _ _ Hw) as Hlb. unfold wpa_supplicant_ctrl_iface_log_level.
    destruct (snprintf_built b' [] shown buflen (built_nil _)) as (b'' & H4 & H5 & _);
      [lia|change (strlen []) with 0; lia|].
    change (strlen []) with 0 in H4. cbn [wpa_debug_level wpa_debug_timestamp]. fold shown. rewrite H4. ret_simpl.
    assert (He : os_snprintf_error buflen (strlen shown) = false).
    { unfold os_snprintf_error. pose proof (strlen_nonneg shown). unfold u32.
      rewrite Z.mod_small by lia. rewrite (proj2 (Z.ltb_ge _ _)), (proj2 (Z.leb_gt _ _)) by lia. done. }
    rewrite He. exists b''. split; [done|]. by eapply built_prefix.
Qed.

(** Two networks, the second the current one. *)
Definition demo_conf : wpa_config :=
  Config [Ssid 0 0 (Some (lit "home")) (replicate 6 0) false 0 0;
          Ssid 4 0 (Some [9; 255]) [2; 0; 0; 0; 0; 1] true 2 0] [].

Lemma demo_conf_ok : Forall net_ok (networks demo_conf).
Proof.
  unfold demo_conf; cbn [networks].
  repeat apply Forall_cons_2; [| |apply Forall_nil_2]; split_and!; cbn [ssid bssid]; try done;
    try (intros t [= <-]; split); by apply (bool_decide_unpack _).
Qed.

Lemma list_networks_pages_witness :
  let page l := concat (fitting 80 (list_header :: (network_line (Some 4) <$> l))) in
  (∃ b', wpa_supplicant_ctrl_iface_list_networks demo_conf (Some 4) None (zeros 80) 80
     = Ret (strlen (page (networks demo_conf)), b') ∧ built b' (page (networks demo_conf))) ∧
  (∃ b', wpa_supplicant_ctrl_iface_list_networks demo_conf (Some 4) (Some (lit "LAST_ID=" ++ fmt_d 0))
       (zeros 80) 80
     = Ret (strlen (page (tail (networks demo_conf))), b') ∧ built b' (page (tail (networks demo_conf)))).
Proof.
  apply (list_networks_pages demo_conf (Some 4) (zeros 80) 80 []
    (Ssid 0 0 (Some (lit "home")) (replicate 6 0) false 0 0) (tail (networks demo_conf))).
  - exact demo_conf_ok.
  - repeat constructor.
  - split; [vm_compute; split; discriminate|by vm_compute].
  - done.
  - by vm_compute.
Defined.

Example demo_lines : concat (network_line (Some 4) <$> networks demo_conf) =
  lit "0" ++ [TAB] ++ lit "home" ++ [TAB] ++ lit "any" ++ [TAB; NL]
  ++ lit "4" ++ [TAB] ++ lit "\t\xff" ++ [TAB] ++ lit "02:00:00:00:00:01" ++ [TAB]
  ++ lit "[CURRENT][DISABLED][P2P-PERSISTENT]" ++ [NL].
Proof. vm_compute. reflexivity. Qed.
