(* ===== verification/BssTable.v ===== *)
(** * The table of BSS entries (wpa_supplicant/bss.c)

    An entry is an object in a heap; the table links it into two lists, one in
    the order of the last update and one in the order of the identifiers, and
    other parts of the daemon keep pointers to it: the results of the last
    scan, the current BSS, a pending connection.  Pointers are addresses, so
    following one that was freed, or left behind by [os_realloc], is undefined.

    A build without CONFIG_WPS and CONFIG_INTERWORKING, as that of the
    repository; ANQP data is left out.  [size_t] and [unsigned int] counters
    that only grow are kept as unbounded integers, except for the identifiers
    and the index of the update, which wrap around.  Notifications are events
    in a trace. *)

From stdpp Require Import gmap.
From S2P Require Import Prelude CString Common WpaIe Wpabuf Bss Network.
From S2P Require CtrlScan.

Definition WPA_BSS_FREQ_CHANGED_FLAG : Z := BIT 0.
Definition WPA_BSS_SIGNAL_CHANGED_FLAG : Z := BIT 1.
Definition WPA_BSS_PRIVACY_CHANGED_FLAG : Z := BIT 2.
Definition WPA_BSS_MODE_CHANGED_FLAG : Z := BIT 3.
Definition WPA_BSS_WPAIE_CHANGED_FLAG : Z := BIT 4.
Definition WPA_BSS_RSNIE_CHANGED_FLAG : Z := BIT 5.
Definition WPA_BSS_WPS_CHANGED_FLAG : Z := BIT 6.
Definition WPA_BSS_RATES_CHANGED_FLAG : Z := BIT 7.
Definition WPA_BSS_IES_CHANGED_FLAG : Z := BIT 8.

(** What the rest of the daemon is told about the entry of an identifier. *)
Inductive note : Type :=
  | BssAdded (id : Z)
  | BssRemoved (id : Z)
  | BssChanged (flag id : Z)
  | BssSeen (id : Z).

(** The fields of [struct wpa_supplicant] that the table uses. *)
Record bss_table : Type := BssTable {
  heap : gmap Z wpa_bss;
  bss_lru : list Z;               (* wpa_s->bss *)
  bss_ids : list Z;               (* wpa_s->bss_id *)
  num_bss : Z;
  bss_next_id : Z;
  bss_update_idx : Z;
  last_scan_res : list Z;         (* the used part of the array *)
  last_scan_res_size : Z;         (* 0 for no array *)
  current_bss : option Z;
  connect_work : option (option Z * bool);  (* cwork->bss, cwork->bss_removed *)
  own_bssid : list Z;             (* wpa_s->bssid *)
  pending_bssid : list Z;
  bssid_filter : option (list (list Z));
  p2p_group : bool;               (* p2p_group_interface *)
  scan_trigger_time : Z * Z;
  last_scan : Z * Z;
  clear_driver_scan_cache : bool;
  conf_networks : list wpa_ssid;
  bss_max_count : Z;
  bss_expiration_scan_count : Z;
  ignore_old_scan_res : bool;
  notes : list note
}.

Definition with_lists (t : bss_table) h lru ids num : bss_table :=
  BssTable h lru ids num (bss_next_id t) (bss_update_idx t) (last_scan_res t) (last_scan_res_size t)
    (current_bss t) (connect_work t) (own_bssid t) (pending_bssid t) (bssid_filter t) (p2p_group t)
    (scan_trigger_time t) (last_scan t) (clear_driver_scan_cache t) (conf_networks t)
    (bss_max_count t) (bss_expiration_scan_count t) (ignore_old_scan_res t) (notes t).

Definition with_counters (t : bss_table) next idx max : bss_table :=
  BssTable (heap t) (bss_lru t) (bss_ids t) (num_bss t) next idx (last_scan_res t) (last_scan_res_size t)
    (current_bss t) (connect_work t) (own_bssid t) (pending_bssid t) (bssid_filter t) (p2p_group t)
    (scan_trigger_time t) (last_scan t) (clear_driver_scan_cache t) (conf_networks t)
    max (bss_expiration_scan_count t) (ignore_old_scan_res t) (notes t).

Definition with_pointers (t : bss_table) last size cur work : bss_table :=
  BssTable (heap t) (bss_lru t) (bss_ids t) (num_bss t) (bss_next_id t) (bss_update_idx t) last size
    cur work (own_bssid t) (pending_bssid t) (bssid_filter t) (p2p_group t)
    (scan_trigger_time t) (last_scan t) (clear_driver_scan_cache t) (conf_networks t)
    (bss_max_count t) (bss_expiration_scan_count t) (ignore_old_scan_res t) (notes t).

Definition with_scan (t : bss_table) now clear : bss_table :=
  BssTable (heap t) (bss_lru t) (bss_ids t) (num_bss t) (bss_next_id t) (bss_update_idx t)
    (last_scan_res t) (last_scan_res_size t)
    (current_bss t) (connect_work t) (own_bssid t) (pending_bssid t) (bssid_filter t) (p2p_group t)
    (scan_trigger_time t) now clear (conf_networks t)
    (bss_max_count t) (bss_expiration_scan_count t) (ignore_old_scan_res t) (notes t).

Definition notify (t : bss_table) (l : list note) : bss_table :=
  BssTable (heap t) (bss_lru t) (bss_ids t) (num_bss t) (bss_next_id t) (bss_update_idx t)
    (last_scan_res t) (last_scan_res_size t)
    (current_bss t) (connect_work t) (own_bssid t) (pending_bssid t) (bssid_filter t) (p2p_group t)
    (scan_trigger_time t) (last_scan t) (clear_driver_scan_cache t) (conf_networks t)
    (bss_max_count t) (bss_expiration_scan_count t) (ignore_old_scan_res t) (notes t ++ l).

(** Following a pointer to an entry. *)
Definition deref (t : bss_table) (p : Z) : outcome wpa_bss := need "freed BSS entry" (heap t !! p).

Definition store_entry (t : bss_table) (p : Z) (b : wpa_bss) : bss_table :=
  with_lists t (<[p := b]> (heap t)) (bss_lru t) (bss_ids t) (num_bss t).

(** [dl_list_del] of a member of a list. *)
Fixpoint unlink_ptr (l : list Z) (p : Z) : list Z :=
  match l with
  | [] => []
  | q :: l' => if q =? p then l' else q :: unlink_ptr l' p
  end.

(** The first entry of the list that passes the test. *)
Fixpoint find_bss (t : bss_table) (test : wpa_bss → bool) (l : list Z) : outcome (option Z) :=
  match l with
  | [] => Ret None
  | p :: l' => b ← deref t p; if test b then Ret (Some p) else find_bss t test l'
  end.

Definition wpa_supplicant_filter_bssid_match (t : bss_table) (bssid : list Z) : bool :=
  match bssid_filter t with
  | None => true
  | Some l => existsb (str_eqb bssid) l
  end.

(** ** Removal *)

Definition wpa_bss_update_pending_connect (t : bss_table) (old_bss : Z) (new_bss : option Z) : bss_table :=
  match connect_work t with
  | Some (bss, removed) =>
      if bool_decide (bss = Some old_bss) then
        with_pointers t (last_scan_res t) (last_scan_res_size t) (current_bss t)
          (Some (new_bss, match new_bss with None => true | Some _ => removed end))
      else t
  | None => t
  end.

Definition wpa_bss_remove (t : bss_table) (p : Z) : outcome bss_table :=
  b ← deref t p;
  let t := with_pointers t (unlink_ptr (last_scan_res t) p) (last_scan_res_size t) (current_bss t)
             (connect_work t) in
  let t := wpa_bss_update_pending_connect t p None in
  let t := with_lists t (delete p (heap t)) (unlink_ptr (bss_lru t) p) (unlink_ptr (bss_ids t) p)
             (num_bss t - 1) in
  Ret (notify t [BssRemoved (bss_id b)]).

(** ** Lookup *)

Definition wpa_bss_get (t : bss_table) (bssid ssid : list Z) : outcome (option Z) :=
  if negb (wpa_supplicant_filter_bssid_match t bssid) then Ret None
  else find_bss t (λ b, str_eqb (bss_bssid b) bssid && str_eqb (bss_ssid b) ssid) (bss_lru t).

Definition wpa_bss_get_bssid (t : bss_table) (bssid : list Z) : outcome (option Z) :=
  if negb (wpa_supplicant_filter_bssid_match t bssid) then Ret None
  else find_bss t (λ b, str_eqb (bss_bssid b) bssid) (rev (bss_lru t)).

Definition os_reltime_before (a b : Z * Z) : bool :=
  (a.1 <? b.1) || ((a.1 =? b.1) && (a.2 <? b.2)).

Fixpoint latest_loop (t : bss_table) (bssid : list Z) (l : list Z) (found : option (Z * wpa_bss))
    : outcome (option (Z * wpa_bss)) :=
  match l with
  | [] => Ret found
  | p :: l' =>
      b ← deref t p;
      if negb (str_eqb (bss_bssid b) bssid) then latest_loop t bssid l' found
      else
        latest_loop t bssid l'
          match found with
          | Some (_, f) => if os_reltime_before (last_update f) (last_update b) then Some (p, b) else found
          | None => Some (p, b)
          end
  end.

Definition wpa_bss_get_bssid_latest (t : bss_table) (bssid : list Z) : outcome (option Z) :=
  if negb (wpa_supplicant_filter_bssid_match t bssid) then Ret None
  else found ← latest_loop t bssid (rev (bss_lru t)) None;
       Ret match found with Some (p, _) => Some p | None => None end.

Definition wpa_bss_get_id (t : bss_table) (id : Z) : outcome (option Z) :=
  find_bss t (λ b, bss_id b =? id) (bss_lru t).

Definition wpa_bss_get_id_range (t : bss_table) (idf idl : Z) : outcome (option Z) :=
  find_bss t (λ b, (idf <=? bss_id b) && (bss_id b <=? idl)) (bss_ids t).

(** ** Which entries may go *)

Definition wpa_bss_known (t : bss_table) (b : wpa_bss) : bool :=
  existsb (λ s, match ssid s with
                | Some n => negb (strlen n =? 0) && str_eqb n (bss_ssid b)
                | None => false
                end) (conf_networks t).

(** Without CONFIG_WPS. *)
Definition wpa_bss_is_wps_candidate (t : bss_table) (b : wpa_bss) : bool := false.

Definition is_zero_ether_addr (a : list Z) : bool := forallb (λ c, c =? 0) a.

Definition wpa_bss_in_use (t : bss_table) (p : Z) : outcome bool :=
  if bool_decide (current_bss t = Some p) then Ret true
  else
    b ← deref t p;
    same ← match current_bss t with
           | Some c => cb ← deref t c; Ret (str_eqb (bss_ssid b) (bss_ssid cb))
           | None => Ret true
           end;
    Ret (same && negb (is_zero_ether_addr (bss_bssid b))
         && (str_eqb (bss_bssid b) (own_bssid t) || str_eqb (bss_bssid b) (pending_bssid t))).

Definition wpa_bss_remove_oldest_unknown (t : bss_table) : outcome (Z * bss_table) :=
  p ← find_bss t (λ b, negb (wpa_bss_known t b) && negb (wpa_bss_is_wps_candidate t b)) (bss_lru t);
  match p with
  | Some p => t ← wpa_bss_remove t p; Ret (0, t)
  | None => Ret (-1, t)
  end.

Fixpoint find_unused (t : bss_table) (l : list Z) : outcome (option Z) :=
  match l with
  | [] => Ret None
  | p :: l' => u ← wpa_bss_in_use t p; if negb u then Ret (Some p) else find_unused t l'
  end.

Definition wpa_bss_remove_oldest (t : bss_table) : outcome (Z * bss_table) :=
  '(r, t) ← wpa_bss_remove_oldest_unknown t;
  if r =? 0 then Ret (0, t)
  else
    p ← find_unused t (bss_lru t);
    match p with
    | Some p => t ← wpa_bss_remove t p; Ret (0, t)
    | None => Ret (-1, t)
    end.

(** ** Scan results *)

Definition calculate_update_time (fetch_time : Z * Z) (age_ms : Z) : Z * Z :=
  let sec := fetch_time.1 - age_ms / 1000 in
  let usec := age_ms mod 1000 * 1000 in
  if fetch_time.2 <? usec then (sec - 1, fetch_time.2 + 1000000 - usec) else (sec, fetch_time.2 - usec).

(** The fields that [wpa_bss_copy_res] sets. *)
Definition wpa_bss_copy_res (dst : wpa_bss) (src : wpa_scan_res) (fetch_time : Z * Z) : wpa_bss :=
  Bss (bss_id dst) (scan_miss_count dst) (last_update_idx dst) (res_flags src) (res_bssid src)
    (bss_ssid dst) (res_freq src) (res_beacon_int src) (res_caps src) (res_qual src) (res_noise src)
    (res_level src) (res_tsf src) (calculate_update_time fetch_time (res_age src))
    (res_est_throughput src) (res_snr src) (ie_len dst) (beacon_ie_len dst) (bss_ies dst).

Definition with_ies (b : wpa_bss) (ielen blen : Z) (ies : list Z) : wpa_bss :=
  Bss (bss_id b) (scan_miss_count b) (last_update_idx b) (bss_flags b) (bss_bssid b) (bss_ssid b)
    (bss_freq b) (bss_beacon_int b) (bss_caps b) (bss_qual b) (bss_noise b) (bss_level b) (bss_tsf b)
    (last_update b) (bss_est_throughput b) (bss_snr b) ielen blen ies.

Definition with_seen (b : wpa_bss) (miss idx : Z) : wpa_bss :=
  Bss (bss_id b) miss idx (bss_flags b) (bss_bssid b) (bss_ssid b)
    (bss_freq b) (bss_beacon_int b) (bss_caps b) (bss_qual b) (bss_noise b) (bss_level b) (bss_tsf b)
    (last_update b) (bss_est_throughput b) (bss_snr b) (ie_len b) (beacon_ie_len b) (bss_ies b).

(** The elements behind the scan result. *)
Definition res_bytes (res : wpa_scan_res) : outcome (list Z) :=
  bytes_at (res_ies res) 0 (res_ie_len res + res_beacon_ie_len res).

(** [alloc] is what [os_zalloc] returns. *)
Definition wpa_bss_add (t : bss_table) (ssid : list Z) (res : wpa_scan_res) (fetch_time : Z * Z)
    (alloc : option Z) : outcome (option Z * bss_table) :=
  match alloc with
  | None => Ret (None, t)
  | Some p =>
      ies ← res_bytes res;
      let b0 := Bss (bss_next_id t) 0 (bss_update_idx t) 0 [] ssid 0 0 0 0 0 0 0 (0, 0) 0 0
                  (res_ie_len res) (res_beacon_ie_len res) ies in
      let b := wpa_bss_copy_res b0 res fetch_time in
      let t := with_counters t (u32 (bss_next_id t + 1)) (bss_update_idx t) (bss_max_count t) in
      t ← (if bss_max_count t <? num_bss t + 1 then
             '(r, t) ← wpa_bss_remove_oldest t;
             Ret (if negb (r =? 0)
                  then with_counters t (bss_next_id t) (bss_update_idx t) (num_bss t + 1) else t)
           else Ret t);
      let t := with_lists t (<[p := b]> (heap t)) (bss_lru t ++ [p]) (bss_ids t ++ [p]) (num_bss t + 1) in
      Ret (Some p, notify t [BssAdded (bss_id b)])
  end.

Section alloc.
Context (CONFIG_P2P : bool) (malloc_ok : Z → bool).

(** The bytes that are compared: an element, or the payload of several. *)
Definition ie_bytes (m : list Z) (ie : option Z) : outcome (option (list Z)) :=
  match ie with
  | Some p => l ← u8_at m (p + 1); s ← bytes_at m p (l + 2); Ret (Some s)
  | None => Ret None
  end.

Definition same_bytes (a b : option (list Z)) : bool :=
  match a, b with
  | Some a, Some b => str_eqb a b
  | None, None => true
  | _, _ => false
  end.

Definition are_ies_equal (old : wpa_bss) (new_res : wpa_scan_res) (ie : Z) : outcome bool :=
  if ie =? WPA_IE_VENDOR_TYPE then
    o ← wpa_bss_get_vendor_ie old ie; n ← wpa_scan_get_vendor_ie new_res ie;
    o ← ie_bytes (bss_ies old) o; n ← ie_bytes (res_ies new_res) n;
    Ret (same_bytes o n)
  else if ie =? WPS_IE_VENDOR_TYPE then
    o ← wpa_bss_get_vendor_ie_multi malloc_ok old ie;
    n ← wpa_scan_get_vendor_ie_multi malloc_ok new_res ie;
    Ret (same_bytes (wpabuf_head <$> o) (wpabuf_head <$> n))
  else if (ie =? WLAN_EID_RSN) || (ie =? WLAN_EID_SUPP_RATES) || (ie =? WLAN_EID_EXT_SUPP_RATES) then
    o ← wpa_bss_get_ie old ie; n ← wpa_scan_get_ie new_res ie;
    o ← ie_bytes (bss_ies old) o; n ← ie_bytes (res_ies new_res) n;
    Ret (same_bytes o n)
  else Ret false.

(** [changes |= flag] under a condition. *)
Definition flag_if (c : bool) (flag changes : Z) : Z := if c then Z.lor changes flag else changes.

Definition wpa_bss_compare_res (old : wpa_bss) (new_res : wpa_scan_res) : outcome Z :=
  let caps_diff := Z.lxor (bss_caps old) (res_caps new_res) in
  let changes := flag_if (negb (bss_freq old =? res_freq new_res)) WPA_BSS_FREQ_CHANGED_FLAG 0 in
  let changes := flag_if (negb (bss_level old =? res_level new_res)) WPA_BSS_SIGNAL_CHANGED_FLAG changes in
  let changes := flag_if (has caps_diff IEEE80211_CAP_PRIVACY) WPA_BSS_PRIVACY_CHANGED_FLAG changes in
  let changes := flag_if (has caps_diff IEEE80211_CAP_IBSS) WPA_BSS_MODE_CHANGED_FLAG changes in
  same ← (if ie_len old =? res_ie_len new_res then
            a ← bytes_at (bss_ies old) 0 (ie_len old);
            b ← bytes_at (res_ies new_res) 0 (ie_len old);
            Ret (str_eqb a b)
          else Ret false);
  if (same : bool) then Ret changes
  else
    let changes := Z.lor changes WPA_BSS_IES_CHANGED_FLAG in
    wpa ← are_ies_equal old new_res WPA_IE_VENDOR_TYPE;
    rsn ← are_ies_equal old new_res WLAN_EID_RSN;
    wps ← are_ies_equal old new_res WPS_IE_VENDOR_TYPE;
    r1 ← are_ies_equal old new_res WLAN_EID_SUPP_RATES;
    r2 ← (if (r1 : bool) then are_ies_equal old new_res WLAN_EID_EXT_SUPP_RATES else Ret false);
    let changes := flag_if (negb wpa) WPA_BSS_WPAIE_CHANGED_FLAG changes in
    let changes := flag_if (negb rsn) WPA_BSS_RSNIE_CHANGED_FLAG changes in
    let changes := flag_if (negb wps) WPA_BSS_WPS_CHANGED_FLAG changes in
    Ret (flag_if (negb (r1 && r2)) WPA_BSS_RATES_CHANGED_FLAG changes).

Definition notify_bss_changes (t : bss_table) (changes id : Z) : bss_table :=
  let one f := if has changes f then [BssChanged f id] else [] in
  notify t (one WPA_BSS_FREQ_CHANGED_FLAG ++ one WPA_BSS_SIGNAL_CHANGED_FLAG
    ++ one WPA_BSS_PRIVACY_CHANGED_FLAG ++ one WPA_BSS_MODE_CHANGED_FLAG
    ++ one WPA_BSS_WPAIE_CHANGED_FLAG ++ one WPA_BSS_RSNIE_CHANGED_FLAG
    ++ one WPA_BSS_WPS_CHANGED_FLAG ++ one WPA_BSS_IES_CHANGED_FLAG
    ++ one WPA_BSS_RATES_CHANGED_FLAG ++ [BssSeen id]).

(** The first pointer [p] of the array becomes [q]. *)
Fixpoint replace_ptr (p q : Z) (l : list Z) : list Z :=
  match l with
  | [] => []
  | x :: l' => if x =? p then q :: l' else x :: replace_ptr p q l'
  end.

(** The entry moves to [q], which is where [os_realloc] put it. *)
Definition move_entry (t : bss_table) (p q : Z) (b : wpa_bss) : bss_table :=
  let t := with_lists t (<[q := b]> (delete p (heap t))) (bss_lru t) (replace_ptr p q (bss_ids t))
             (num_bss t) in
  let t := with_pointers t (replace_ptr p q (last_scan_res t)) (last_scan_res_size t)
             (if bool_decide (current_bss t = Some p) then Some q else current_bss t) (connect_work t) in
  wpa_bss_update_pending_connect t p (Some q).

(** The IEs of an entry are replaced; [realloc] is what [os_realloc] returns. *)
Definition update_ies (t : bss_table) (p : Z) (b : wpa_bss) (res : wpa_scan_res) (realloc : option Z)
    : outcome (Z * bss_table) :=
  keep ← (if CONFIG_P2P then
            o ← wpa_bss_get_vendor_ie b P2P_IE_VENDOR_TYPE;
            if CtrlScan.found o then
              n ← wpa_scan_get_vendor_ie res P2P_IE_VENDOR_TYPE; Ret (negb (CtrlScan.found n))
            else Ret false
          else Ret false);
  if (keep : bool) then Ret (p, store_entry t p b)
  else
    ies ← res_bytes res;
    let b' := with_ies b (res_ie_len res) (res_beacon_ie_len res) ies in
    if res_ie_len res + res_beacon_ie_len res <=? ie_len b + beacon_ie_len b
    then Ret (p, store_entry t p b')
    else
      match realloc with
      | Some q => Ret (q, move_entry t p q b')
      | None => Ret (p, store_entry t p b)
      end.

Definition wpa_bss_update (t : bss_table) (p : Z) (res : wpa_scan_res) (fetch_time : Z * Z)
    (realloc : option Z) : outcome (Z * bss_table) :=
  b ← deref t p;
  changes ← wpa_bss_compare_res b res;
  let b := wpa_bss_copy_res (with_seen b 0 (bss_update_idx t)) res fetch_time in
  let t := with_lists t (heap t) (unlink_ptr (bss_lru t) p) (bss_ids t) (num_bss t) in
  '(q, t) ← update_ies t p b res realloc;
  let t := with_lists t (heap t) (bss_lru t ++ [q]) (bss_ids t) (num_bss t) in
  Ret (q, notify_bss_changes t changes (bss_id b)).

Definition wpa_bss_update_start (t : bss_table) : bss_table :=
  let t := with_counters t (bss_next_id t) (u32 (bss_update_idx t + 1)) (bss_max_count t) in
  with_pointers t [] (last_scan_res_size t) (current_bss t) (connect_work t).

(** Room for one more result; [array_ok] says whether the array can grow. *)
Definition push_scan_res (t : bss_table) (p : Z) (array_ok : bool) : bss_table :=
  let used := Z.of_nat (length (last_scan_res t)) in
  let push t := with_pointers t (last_scan_res t ++ [p]) (last_scan_res_size t) (current_bss t)
                  (connect_work t) in
  if last_scan_res_size t <=? used then
    if negb array_ok then t
    else
      let siz := if last_scan_res_size t =? 0 then 32 else last_scan_res_size t * 2 in
      push (with_pointers t (last_scan_res t) siz (current_bss t) (connect_work t))
  else push t.

(** The SSID of a scan result, if the result is one for the table. *)
Definition res_ssid (t : bss_table) (res : wpa_scan_res) : outcome (option (list Z)) :=
  let m := res_ies res in
  ssid ← wpa_scan_get_ie res WLAN_EID_SSID;
  match ssid with
  | None => Ret None
  | Some s =>
      n ← u8_at m (s + 1);
      if SSID_MAX_LEN <? n then Ret None
      else
        p2p ← wpa_scan_get_vendor_ie res P2P_IE_VENDOR_TYPE;
        if CONFIG_P2P && negb (CtrlScan.found p2p) && p2p_group t then Ret None
        else
          name ← bytes_at m (s + 2) n;
          if CtrlScan.found p2p && str_eqb name CtrlScan.P2P_WILDCARD_SSID then Ret None
          else
            mesh ← wpa_scan_get_ie res WLAN_EID_MESH_ID;
            match mesh with
            | Some q =>
                k ← u8_at m (q + 1);
                if k <=? SSID_MAX_LEN then mid ← bytes_at m (q + 2) k; Ret (Some mid)
                else Ret (Some name)
            | None => Ret (Some name)
            end
  end.

(** What the allocator answers during a call. *)
Record oracle : Type := Oracle { o_zalloc : option Z; o_realloc : option Z; o_array : bool }.

Definition wpa_bss_update_scan_res (t : bss_table) (res : wpa_scan_res) (fetch_time : Z * Z) (o : oracle)
    : outcome bss_table :=
  let update := calculate_update_time fetch_time (res_age res) in
  if ignore_old_scan_res t && os_reltime_before update (scan_trigger_time t) then Ret t
  else
    ssid ← res_ssid t res;
    match ssid with
    | None => Ret t
    | Some ssid =>
        p ← wpa_bss_get t (res_bssid res) ssid;
        match p with
        | None =>
            '(q, t) ← wpa_bss_add t ssid res fetch_time (o_zalloc o);
            Ret match q with Some q => push_scan_res t q (o_array o) | None => t end
        | Some p =>
            '(q, t) ← wpa_bss_update t p res fetch_time (o_realloc o);
            Ret (if bool_decide (q ∈ last_scan_res t) then t else push_scan_res t q (o_array o))
        end
    end.

(** ** The end of a scan and expiration *)

(** [struct scan_info]: whether it was aborted, what was scanned. *)
Record scan_info : Type := ScanInfo {
  si_aborted : bool; si_freqs : list Z; si_ssids : list (option (list Z)) }.

Definition wpa_bss_included_in_scan (b : wpa_bss) (info : option scan_info) : bool :=
  match info with
  | None => true
  | Some i =>
      (bool_decide (si_freqs i = []) || existsb (Z.eqb (bss_freq b)) (si_freqs i))
      && (bool_decide (si_ssids i = [])
          || existsb (λ s, match s with
                           | Some n => (strlen n =? 0) || str_eqb n (bss_ssid b)
                           | None => true
                           end) (si_ssids i))
  end.

(** The entries in the order of the list when the loop began; each step removes
    at most its own. *)
Fixpoint expire_loop (info : option scan_info) (t : bss_table) (l : list Z) : outcome bss_table :=
  match l with
  | [] => Ret t
  | p :: l' =>
      u ← wpa_bss_in_use t p;
      if (u : bool) then expire_loop info t l'
      else
        b ← deref t p;
        if negb (wpa_bss_included_in_scan b info) then expire_loop info t l'
        else
          let miss := if last_update_idx b <? bss_update_idx t then scan_miss_count b + 1
                      else scan_miss_count b in
          let t := store_entry t p (with_seen b miss (last_update_idx b)) in
          t ← (if bss_expiration_scan_count t <=? miss then wpa_bss_remove t p else Ret t);
          expire_loop info t l'
  end.

Definition wpa_bss_update_end (t : bss_table) (info : option scan_info) (new_scan : bool) (now : Z * Z)
    : outcome bss_table :=
  let t := with_scan t now (clear_driver_scan_cache t) in
  if match info with Some i => si_aborted i | None => false end || negb new_scan then Ret t
  else expire_loop info t (bss_lru t).

Fixpoint age_loop (limit : Z * Z) (t : bss_table) (l : list Z) : outcome bss_table :=
  match l with
  | [] => Ret t
  | p :: l' =>
      u ← wpa_bss_in_use t p;
      if (u : bool) then age_loop limit t l'
      else
        b ← deref t p;
        if os_reltime_before (last_update b) limit then t ← wpa_bss_remove t p; age_loop limit t l'
        else Ret t
  end.

Definition wpa_bss_flush_by_age (t : bss_table) (age : Z) (now : Z * Z) : outcome bss_table :=
  if bool_decide (bss_lru t = []) then Ret t
  else age_loop (now.1 - age, now.2) t (bss_lru t).

Fixpoint flush_loop (t : bss_table) (l : list Z) : outcome bss_table :=
  match l with
  | [] => Ret t
  | p :: l' =>
      u ← wpa_bss_in_use t p;
      if (u : bool) then flush_loop t l' else t ← wpa_bss_remove t p; flush_loop t l'
  end.

Definition wpa_bss_flush (t : bss_table) : outcome bss_table :=
  flush_loop (with_scan t (last_scan t) true) (bss_lru t).

Definition wpa_bss_deinit (t : bss_table) : outcome bss_table := wpa_bss_flush t.

(** One call of the table. *)
Inductive bss_call : Type :=
  | UpdateStart
  | UpdateScanRes (res : wpa_scan_res) (fetch_time : Z * Z) (o : oracle)
  | UpdateEnd (info : option scan_info) (new_scan : bool) (now : Z * Z)
  | FlushByAge (age : Z) (now : Z * Z)
  | Flush.

Definition bss_call_run (t : bss_table) (c : bss_call) : outcome bss_table :=
  match c with
  | UpdateStart => Ret (wpa_bss_update_start t)
  | UpdateScanRes res fetch_time o => wpa_bss_update_scan_res t res fetch_time o
  | UpdateEnd info new_scan now => wpa_bss_update_end t info new_scan now
  | FlushByAge age now => wpa_bss_flush_by_age t age now
  | Flush => wpa_bss_flush t
  end.

Fixpoint bss_run (t : bss_table) (cs : list bss_call) : outcome bss_table :=
  match cs with
  | [] => Ret t
  | c :: cs' => t ← bss_call_run t c; bss_run t cs'
  end.
End alloc.
