(* ===== verification/BssTableSpec.v ===== *)
(** * The table of BSS entries: theorems

    No call of the table follows a dangling pointer, and every call keeps the
    invariant [table_ok]: both lists hold exactly the live entries, in the order
    of their last update and of their identifiers, and the pointers kept
    elsewhere point into them.  What goes wrong when the current BSS belongs to
    no configured network is shown by an example. *)

From stdpp Require Import gmap sorting.
From Stdlib Require Import Sorted.
From S2P Require Import Prelude CString Common WpaIe WpaSpec Wpabuf Bss Network BssTable.

(** ** Lists of pointers *)

Lemma unlink_perm l p : p ∈ l → p :: unlink_ptr l p ≡ₚ l.
Proof.
  induction l as [|q l IH]; [by intros ?%not_elem_of_nil|]. intros Hp. cbn [unlink_ptr]. case_if; zbool.
  - by subst q.
  - apply elem_of_cons in Hp as [->|Hp]; [done|].
    etrans; [apply perm_swap|]. constructor. by apply IH.
Qed.

Lemma unlink_sublist l p : unlink_ptr l p `sublist_of` l.
Proof. induction l as [|q l IH]; cbn [unlink_ptr]; [done|]. case_if; by constructor. Qed.

Lemma unlink_absent l p : p ∉ l → unlink_ptr l p = l.
Proof.
  induction l as [|q l IH]; [done|]. intros Hp. cbn [unlink_ptr]. apply not_elem_of_cons in Hp as [Hq Hp].
  rewrite (proj2 (Z.eqb_neq _ _)) by done. by rewrite IH.
Qed.

Lemma elem_unlink l p q : NoDup l → q ∈ unlink_ptr l p ↔ q ∈ l ∧ q ≠ p.
Proof.
  intros Hd. destruct (decide (p ∈ l)) as [Hp|Hp].
  - pose proof (unlink_perm l p Hp) as Hm.
    assert (Hd' : NoDup (p :: unlink_ptr l p)) by (by rewrite Hm). apply NoDup_cons in Hd' as [Hn _].
    assert (Hq : q ∈ l ↔ q ∈ p :: unlink_ptr l p) by (by rewrite Hm). set_solver.
  - rewrite unlink_absent by done. set_solver.
Qed.

Lemma unlink_NoDup l p : NoDup l → NoDup (unlink_ptr l p).
Proof. intros Hd. eapply sublist_NoDup; [exact Hd|apply unlink_sublist]. Qed.

Lemma unlink_length l p : p ∈ l → length l = S (length (unlink_ptr l p)).
Proof. intros Hp. by rewrite <- (Permutation_length (unlink_perm l p Hp)). Qed.

Lemma replace_spec p q l : NoDup l → replace_ptr p q l = (λ x, if decide (x = p) then q else x) <$> l.
Proof.
  induction l as [|x l IH]; [done|]. intros [Hx Hd]%NoDup_cons. cbn [replace_ptr]. rewrite fmap_cons.
  case_if; zbool.
  - subst x. rewrite decide_True by done. f_equal. clear -Hx. induction l as [|y l IH]; [done|].
    apply not_elem_of_cons in Hx as [Hy Hx]. rewrite fmap_cons, decide_False by done. by f_equal; apply IH.
  - rewrite decide_False by done. by rewrite IH.
Qed.

(** ** Entries in order *)

Definition ordered (R : Z → Z → Prop) (k : wpa_bss → Z) (h : gmap Z wpa_bss) (l : list Z) : Prop :=
  StronglySorted (λ p q, ∀ b c, h !! p = Some b → h !! q = Some c → R (k b) (k c)) l.

Lemma ordered_sublist R k h h' l l' :
  l' `sublist_of` l →
  (∀ p b', p ∈ l' → h' !! p = Some b' → ∃ b, h !! p = Some b ∧ k b' = k b) →
  ordered R k h l → ordered R k h' l'.
Proof.
  intros Hs Hk Ho. unfold ordered in *. induction Hs as [|x l1 l2 Hs IH|x l1 l2 Hs IH]; [constructor| |].
  - apply StronglySorted_inv in Ho as [Ho Hx]. constructor; [apply IH; [|done]; intros y b' Hy; apply Hk; by right|].
    rewrite Forall_forall in *. intros q Hq b c Hb Hc.
    destruct (Hk x b) as (b0 & Hb0 & ->); [by left|done|]. destruct (Hk q c) as (c0 & Hc0 & ->); [by right|done|].
    eapply Hx; [|done..]. eapply elem_of_submseteq; [exact Hq|by apply sublist_submseteq].
  - apply StronglySorted_inv in Ho as [Ho _]. by apply IH.
Qed.

Lemma ordered_snoc R k h l q :
  ordered R k h l → (∀ p b c, p ∈ l → h !! p = Some b → h !! q = Some c → R (k b) (k c)) →
  ordered R k h (l ++ [q]).
Proof.
  unfold ordered. induction 1 as [|x l Ho IH Hx]; intros Hq; cbn [app]; [by repeat constructor|].
  constructor; [apply IH; intros y b c Hy; apply Hq; by right|]. apply Forall_app. split; [done|].
  constructor; [|constructor]. intros b c. apply Hq. by left.
Qed.

Lemma ordered_fmap R k h h' l (f : Z → Z) :
  (∀ p b', p ∈ l → h' !! f p = Some b' → ∃ b, h !! p = Some b ∧ k b' = k b) →
  ordered R k h l → ordered R k h' (f <$> l).
Proof.
  unfold ordered. intros Hk Ho. induction Ho as [|x l Ho IH Hx]; [constructor|]. rewrite fmap_cons.
  constructor; [apply IH; intros y b' Hy; apply Hk; by right|]. apply Forall_fmap. rewrite Forall_forall in *.
  intros q Hq b c Hb Hc. destruct (Hk x b) as (b0 & Hb0 & ->); [by left|done|].
  destruct (Hk q c) as (c0 & Hc0 & ->); [by right|done|]. by eapply Hx.
Qed.

(** ** Scan results *)

Record res_ok (res : wpa_scan_res) : Prop := ResOk {
  ro_ies : byte_list (res_ies res);
  ro_lens : 0 ≤ res_ie_len res ∧ 0 ≤ res_beacon_ie_len res ∧
            res_ie_len res + res_beacon_ie_len res = strlen (res_ies res);
  ro_bssid : length (res_bssid res) = 6%nat ∧ byte_list (res_bssid res)
}.

Definition res_elements (res : wpa_scan_res) : list (Z * list Z) :=
  elements_of (between (res_ies res) 0 (0 + res_ie_len res)).

Lemma scan_get_ie res eid : res_ok res →
  wpa_scan_get_ie res eid = Ret (locate (λ e, fst e =? eid) 0 (res_elements res)).
Proof. intros [Hm Hl _]. unfold wpa_scan_get_ie. apply get_ie_spec; [done|lia..]. Qed.

Lemma scan_get_vendor_ie res vt : res_ok res →
  wpa_scan_get_vendor_ie res vt = Ret (locate (vendor_elem vt) 0 (res_elements res)).
Proof.
  intros [Hm Hl _]. unfold wpa_scan_get_vendor_ie.
  apply search_spec; [done|intros; by apply vendor_test|lia..].
Qed.

Lemma vendor_multi_total m malloc_ok vt len :
  byte_list m → 0 ≤ len ≤ strlen m → ∃ b, vendor_multi m malloc_ok vt 0 len = Ret b.
Proof.
  intros Hm Hl. unfold vendor_multi. destruct (wpabuf_alloc malloc_ok len) as [b|] eqn:E; [|by exists None].
  apply alloc_holds in E; [|lia].
  destruct (collect_spec m Hm vt (S (Z.to_nat len)) 0 (0 + len) b [] len) as (b' & n & -> & _);
    [lia|lia|lia|done|lia|].
  ret_simpl. case_if; eauto.
Qed.

(** What is found can be read. *)
Lemma ie_bytes_total m P pos end_ ie :
  byte_list m → 0 ≤ pos ≤ end_ → end_ ≤ strlen m →
  ie = locate P pos (elements_of (between m pos end_)) → ∃ s, ie_bytes m ie = Ret s.
Proof.
  intros Hm Hp He ->. destruct (locate _ _ _) as [p|] eqn:E; [|by exists None].
  destruct (located m Hm P pos end_ p Hp He E) as ([id s] & (H0 & Hle & _ & Hn & _) & _).
  cbn [snd] in *. unfold ie_bytes. rewrite Hn. ret_simpl.
  rewrite bytes_at_between by (pose proof (strlen_nonneg s); lia). ret_simpl. eauto.
Qed.

Lemma are_ies_equal_total malloc_ok old res ie :
  bss_ok old → res_ok res → ∃ r, are_ies_equal malloc_ok old res ie = Ret r.
Proof.
  intros Hb Hr. pose proof Hb as [Hm Hl _ _]. pose proof Hr as [Hm' Hl' _]. unfold are_ies_equal.
  assert (Ho : ∀ P, ∃ s, ie_bytes (bss_ies old) (locate P 0 (probe_elements old)) = Ret s).
  { intros P. eapply (ie_bytes_total _ P 0 (0 + ie_len old)); [done|lia|lia|done]. }
  assert (Hn : ∀ P, ∃ s, ie_bytes (res_ies res) (locate P 0 (res_elements res)) = Ret s).
  { intros P. eapply (ie_bytes_total _ P 0 (0 + res_ie_len res)); [done|lia|lia|done]. }
  case_if.
  { rewrite bss_get_vendor_ie, scan_get_vendor_ie by done. ret_simpl.
    destruct (Ho (vendor_elem ie)) as [s ->], (Hn (vendor_elem ie)) as [s' ->]. ret_simpl. eauto. }
  case_if.
  { unfold wpa_bss_get_vendor_ie_multi, wpa_scan_get_vendor_ie_multi.
    destruct (vendor_multi_total (bss_ies old) malloc_ok ie (ie_len old) Hm) as [o ->]; [lia|].
    destruct (vendor_multi_total (res_ies res) malloc_ok ie (res_ie_len res) Hm') as [n ->]; [lia|].
    ret_simpl. eauto. }
  case_if; [|eauto]. rewrite bss_get_ie, scan_get_ie by done. ret_simpl.
  destruct (Ho (λ e, fst e =? ie)) as [s ->], (Hn (λ e, fst e =? ie)) as [s' ->]. ret_simpl. eauto.
Qed.

Lemma compare_total malloc_ok old res :
  bss_ok old → res_ok res → ∃ c, wpa_bss_compare_res malloc_ok old res = Ret c.
Proof.
  intros Hb Hr. pose proof Hb as [Hm Hl _ _]. pose proof Hr as [Hm' Hl' _]. unfold wpa_bss_compare_res.
  assert (Hs : ∃ same, (if ie_len old =? res_ie_len res then
            a ← bytes_at (bss_ies old) 0 (ie_len old);
            b ← bytes_at (res_ies res) 0 (ie_len old);
            Ret (str_eqb a b) else Ret false) = Ret same).
  { case_if; zbool; [|eauto]. rewrite !bytes_at_between by lia. ret_simpl. eauto. }
  destruct Hs as [same ->]. ret_simpl. destruct same; [eauto|].
  pose proof (λ ie, are_ies_equal_total malloc_ok old res ie Hb Hr) as He.
  destruct (He WPA_IE_VENDOR_TYPE) as [a ->], (He WLAN_EID_RSN) as [b ->], (He WPS_IE_VENDOR_TYPE) as [c ->],
    (He WLAN_EID_SUPP_RATES) as [d ->]. ret_simpl.
  destruct d; [|ret_simpl; eauto]. destruct (He WLAN_EID_EXT_SUPP_RATES) as [d2 ->]. ret_simpl. eauto.
Qed.

Lemma res_bytes_spec res : res_ok res → res_bytes res = Ret (res_ies res).
Proof.
  intros [Hm (H1 & H2 & H3) _]. unfold res_bytes. rewrite bytes_at_between by lia. rewrite H3.
  unfold between. f_equal. cbn [Z.to_nat drop]. rewrite Z.sub_0_r. apply take_ge. unfold strlen. lia.
Qed.

Local Ltac by_none := exists None; split; [done|by intros ? [=]].

(** A name for the table is at most 32 bytes. *)
Lemma res_ssid_spec p2p t res : res_ok res →
  ∃ r, res_ssid p2p t res = Ret r ∧ ∀ n, r = Some n → strlen n ≤ SSID_MAX_LEN ∧ byte_list n.
Proof.
  intros Hr. pose proof Hr as [Hm Hl _]. unfold res_ssid.
  rewrite (scan_get_ie _ WLAN_EID_SSID) by done. ret_simpl.
  destruct (locate _ 0 (res_elements res)) as [s|] eqn:E; [|by_none].
  destruct (located _ Hm _ 0 (0 + res_ie_len res) s ltac:(lia) ltac:(lia) E)
    as ([id name] & (H0 & Hle & _ & Hn & Hbt) & _). cbn [snd] in *.
  rewrite Hn. ret_simpl. case_if; zbool; [by_none|]. rewrite scan_get_vendor_ie by done. ret_simpl.
  set (v := locate (vendor_elem P2P_IE_VENDOR_TYPE) 0 (res_elements res)).
  case_if; [by_none|]. pose proof (strlen_nonneg name).
  rewrite bytes_at_between, Hbt by lia. ret_simpl. case_if; [by_none|].
  assert (Hb : ∀ a b, byte_list (between (res_ies res) a b)).
  { intros a b. unfold between. by apply Forall_take, Forall_drop. }
  rewrite scan_get_ie by done. ret_simpl.
  destruct (locate (λ e, fst e =? WLAN_EID_MESH_ID) 0 (res_elements res)) as [q|] eqn:Eq.
  2: { exists (Some name). split; [done|]. intros n [= <-]. split; [done|]. rewrite <- Hbt. apply Hb. }
  destruct (located _ Hm _ 0 (0 + res_ie_len res) q ltac:(lia) ltac:(lia) Eq)
    as ([id2 mid] & (H0' & Hle' & _ & Hn' & Hbt') & _). cbn [snd] in *.
  rewrite Hn'. ret_simpl. pose proof (strlen_nonneg mid). case_if; zbool.
  - rewrite bytes_at_between, Hbt' by lia. ret_simpl. exists (Some mid). split; [done|].
    intros n [= <-]. split; [done|]. rewrite <- Hbt'. apply Hb.
  - exists (Some name). split; [done|]. intros n [= <-]. split; [done|]. rewrite <- Hbt. apply Hb.
Qed.

(** ** The invariant *)

(** Entries are told apart by address and name. *)
Definition same_key (b c : wpa_bss) : Prop := bss_bssid b = bss_bssid c ∧ bss_ssid b = bss_ssid c.

Record table_ok (t : bss_table) : Prop := TableOk {
  tk_lru : NoDup (bss_lru t);
  tk_ids : bss_ids t ≡ₚ bss_lru t;
  tk_heap : ∀ p, p ∈ bss_lru t ↔ is_Some (heap t !! p);
  tk_num : num_bss t = Z.of_nat (length (bss_lru t)) ∧ num_bss t ≤ bss_max_count t;
  tk_entries : ∀ p b, heap t !! p = Some b →
    bss_ok b ∧ bss_id b < bss_next_id t ∧ last_update_idx b ≤ bss_update_idx t;
  tk_unique : ∀ p q b c, heap t !! p = Some b → heap t !! q = Some c → same_key b c → p = q;
  tk_id_order : ordered Z.lt bss_id (heap t) (bss_ids t);
  tk_age_order : ordered Z.le last_update_idx (heap t) (bss_lru t);
  tk_last : NoDup (last_scan_res t) ∧ (∀ p, p ∈ last_scan_res t → p ∈ bss_lru t) ∧
            Z.of_nat (length (last_scan_res t)) ≤ last_scan_res_size t;
  tk_current : ∀ c, current_bss t = Some c →
    ∃ b, heap t !! c = Some b ∧ wpa_bss_known t b = true;
  tk_work : ∀ c r, connect_work t = Some (Some c, r) → c ∈ bss_lru t
}.

Lemma deref_ok t p : table_ok t → p ∈ bss_lru t → ∃ b, heap t !! p = Some b ∧ deref t p = Ret b ∧ bss_ok b.
Proof.
  intros Ht [b Hb]%(tk_heap t Ht). exists b. unfold deref. rewrite Hb.
  split_and!; [done|done|]. by apply (tk_entries t Ht) in Hb as (? & _).
Qed.

(** What a search finds. *)
Definition first_in (t : bss_table) (test : wpa_bss → bool) (l : list Z) (r : option Z) : Prop :=
  match r with
  | Some p => ∃ l1 l2 b, l = l1 ++ p :: l2 ∧ heap t !! p = Some b ∧ test b = true ∧
      Forall (λ q, ∀ b, heap t !! q = Some b → test b = false) l1
  | None => Forall (λ q, ∀ b, heap t !! q = Some b → test b = false) l
  end.

Lemma find_bss_spec t test l :
  (∀ p, p ∈ l → is_Some (heap t !! p)) → ∃ r, find_bss t test l = Ret r ∧ first_in t test l r.
Proof.
  induction l as [|p l IH]; intros Hl; [exists None; split; [done|by constructor]|]. cbn [find_bss].
  destruct (Hl p) as [b Hb]; [by left|]. unfold deref. rewrite Hb. ret_simpl.
  destruct (test b) eqn:E; [exists (Some p); split; [done|]; by exists [], l, b|].
  destruct IH as (r & -> & Hr); [intros q Hq; apply Hl; by right|]. exists r. split; [done|].
  assert (Hp : ∀ b0, heap t !! p = Some b0 → test b0 = false) by (intros b0; by rewrite Hb; intros [= <-]).
  destruct r as [q|]; [|by constructor]. destruct Hr as (l1 & l2 & c & -> & Hc & Ht & Hf).
  exists (p :: l1), l2, c. split_and!; try done. by constructor.
Qed.

Lemma first_in_elem t test l p : first_in t test l (Some p) →
  p ∈ l ∧ ∃ b, heap t !! p = Some b ∧ test b = true.
Proof. intros (l1 & l2 & b & -> & Hb & Ht & _). split; [set_solver|eauto]. Qed.

Lemma in_use_ok t p : table_ok t → p ∈ bss_lru t →
  ∃ u, wpa_bss_in_use t p = Ret u ∧ (current_bss t = Some p → u = true).
Proof.
  intros Ht Hp. unfold wpa_bss_in_use. case_bool_decide as Hc; [by exists true|].
  destruct (deref_ok t p Ht Hp) as (b & _ & -> & _). ret_simpl.
  destruct (current_bss t) as [c|] eqn:E; ret_simpl; [|eexists; split; [done|by intros ?]].
  destruct (tk_current t Ht c E) as (cb & Hcb & _). unfold deref. rewrite Hcb. ret_simpl.
  eexists. split; [done|]. intros [= ->]. done.
Qed.

(** The parts of the table that only the configuration and the counters know. *)
Record same_config (t t' : bss_table) : Prop := SameConfig {
  sc_next : bss_next_id t' = bss_next_id t;
  sc_idx : bss_update_idx t' = bss_update_idx t;
  sc_max : bss_max_count t' = bss_max_count t;
  sc_networks : conf_networks t' = conf_networks t;
  sc_current : current_bss t' = current_bss t;
  sc_filter : bssid_filter t' = bssid_filter t;
  sc_own : own_bssid t' = own_bssid t;
  sc_pending : pending_bssid t' = pending_bssid t;
  sc_count : bss_expiration_scan_count t' = bss_expiration_scan_count t
}.

Lemma same_config_refl t : same_config t t.
Proof. by split. Qed.

Lemma same_config_trans t1 t2 t3 : same_config t1 t2 → same_config t2 t3 → same_config t1 t3.
Proof. intros [] []. split; congruence. Qed.

Lemma pending_fields t p q :
  let t' := wpa_bss_update_pending_connect t p q in
  heap t' = heap t ∧ bss_lru t' = bss_lru t ∧ bss_ids t' = bss_ids t ∧ num_bss t' = num_bss t ∧
  last_scan_res t' = last_scan_res t ∧ last_scan_res_size t' = last_scan_res_size t ∧
  same_config t t' ∧ (∀ c r, connect_work t' = Some (Some c, r) →
    ∃ c0 r0, connect_work t = Some (Some c0, r0) ∧ if decide (c0 = p) then Some c = q else c = c0).
Proof.
  unfold wpa_bss_update_pending_connect. destruct (connect_work t) as [[w removed]|] eqn:E;
    [|split_and!; try done; intros c r; by rewrite E].
  case_bool_decide as Hw; cbn; split_and!; try done.
  - subst w. intros c r [= Hc _]. exists p, removed. by rewrite decide_True.
  - intros c r Hc. rewrite Hc in E. injection E as <- <-. exists c, r. split; [done|].
    rewrite decide_False; [done|]. intros ->. done.
Qed.

Lemma known_same t t' b b' :
  conf_networks t' = conf_networks t → bss_ssid b' = bss_ssid b → wpa_bss_known t' b' = wpa_bss_known t b.
Proof. unfold wpa_bss_known. by intros -> ->. Qed.

(** An entry that is not the current one can be removed. *)
Lemma remove_ok t p :
  table_ok t → p ∈ bss_lru t → current_bss t ≠ Some p →
  ∃ t', wpa_bss_remove t p = Ret t' ∧ table_ok t' ∧ same_config t t' ∧
    bss_lru t' = unlink_ptr (bss_lru t) p ∧ heap t' = delete p (heap t) ∧ num_bss t' = num_bss t - 1.
Proof.
  intros Ht Hp Hcur. destruct (deref_ok t p Ht Hp) as (b & _ & Hb & _).
  unfold wpa_bss_remove. rewrite Hb. ret_simpl. eexists. split; [reflexivity|].
  set (t1 := with_pointers t _ _ _ _). destruct (pending_fields t1 p None) as (F1 & F2 & F3 & F4 & F5 & F6 & F7 & F8).
  set (t2 := wpa_bss_update_pending_connect t1 p None) in *.
  destruct F7 as [G1 G2 G3 G4 G5 G6 G7 G8 G9]. destruct Ht as [T1 T2 T3 [T4 T4'] T5 TU T6 T7 (T8 & T9 & T10) T11 T12].
  cbn in F1, F2, F3, F4, F5, F6, F8, G1, G2, G3, G4, G5, G6, G7, G8, G9. split_and!.
  2: { by split. }
  2: cbn; by rewrite F2. 2: cbn; by rewrite F1. 2: cbn; by rewrite F4.
  assert (Hdel : ∀ q b', delete p (heap t) !! q = Some b' → q ≠ p ∧ heap t !! q = Some b').
  { intros q b' H. by apply lookup_delete_Some in H as [Hq H]. }
  split; cbn; rewrite ?F1, ?F2, ?F3, ?F4, ?F5, ?F6, ?G1, ?G2, ?G3, ?G5.
  - by apply unlink_NoDup.
  - assert (Hm : p :: unlink_ptr (bss_ids t) p ≡ₚ p :: unlink_ptr (bss_lru t) p).
    { rewrite (unlink_perm (bss_lru t) p Hp), (unlink_perm (bss_ids t) p); [done|by rewrite T2]. }
    by apply (Permutation_cons_inv Hm).
  - intros q. rewrite elem_unlink by done. rewrite T3. split.
    + intros [[b' Hq] Hn]. exists b'. by rewrite lookup_delete_ne by congruence.
    + intros [b' [Hn Hq]%Hdel]. split; [by exists b'|done].
  - pose proof (unlink_length _ _ Hp). lia.
  - intros q b' [_ Hq]%Hdel. by apply (T5 q).
  - intros q x b' c [_ Hq]%Hdel [_ Hx]%Hdel. by eapply TU.
  - eapply ordered_sublist; [apply unlink_sublist| |exact T6]. intros q b' _ [_ Hq]%Hdel. eauto.
  - eapply ordered_sublist; [apply unlink_sublist| |exact T7]. intros q b' _ [_ Hq]%Hdel. eauto.
  - split_and!; [by apply unlink_NoDup| |].
    + intros q [Hq Hn]%elem_unlink; [|done]. apply elem_unlink; [done|]. split; [by apply T9|done].
    + pose proof (sublist_length _ _ (unlink_sublist (last_scan_res t) p)). lia.
  - intros c Hc. destruct (T11 c Hc) as (b' & Hb' & Hk). exists b'. split.
    + rewrite lookup_delete_ne; [done|]. intros ->. done.
    + rewrite <- Hk. by apply known_same.
  - intros c r Hw. destruct (F8 c r Hw) as (c0 & r0 & Hc0 & Hd). destruct (decide (c0 = p)); [done|subst c0].
    apply elem_unlink; [done|]. split; [by eapply T12|done].
Qed.

(** The counters may be raised. *)
Lemma counters_ok t next idx max :
  table_ok t → bss_next_id t ≤ next → bss_update_idx t ≤ idx → num_bss t ≤ max →
  table_ok (with_counters t next idx max).
Proof.
  intros [T1 T2 T3 [T4 T4'] T5 TU T6 T7 T8 T11 T12] Hn Hi Hm. split; cbn; try done.
  intros p b Hb. destruct (T5 p b Hb) as (? & ? & ?). split_and!; [done|lia|lia].
Qed.

Lemma notify_ok t l : table_ok t → table_ok (notify t l).
Proof. intros [T1 T2 T3 T4 T5 TU T6 T7 T8 T11 T12]. by split. Qed.

Lemma with_scan_ok t now c : table_ok t → table_ok (with_scan t now c).
Proof. intros [T1 T2 T3 T4 T5 TU T6 T7 T8 T11 T12]. by split. Qed.

(** A new entry goes to the end of both lists. *)
Lemma insert_ok t p b :
  table_ok t → heap t !! p = None → bss_ok b → bss_id b < bss_next_id t →
  (∀ q c, heap t !! q = Some c → bss_id c < bss_id b) → last_update_idx b = bss_update_idx t →
  (∀ q c, heap t !! q = Some c → same_key c b → False) → num_bss t < bss_max_count t →
  table_ok (with_lists t (<[p := b]> (heap t)) (bss_lru t ++ [p]) (bss_ids t ++ [p]) (num_bss t + 1)).
Proof.
  intros [T1 T2 T3 [T4 T4'] T5 TU T6 T7 (T8 & T9 & T10) T11 T12] Hp Hb Hid Hids Hidx Hkey Hmax.
  assert (Hni : p ∉ bss_lru t) by (rewrite T3, Hp; by intros [? ?]).
  assert (Hsame : ∀ l : list Z, (∀ q, q ∈ l → q ∈ bss_lru t) →
            ∀ q c, q ∈ l → <[p := b]> (heap t) !! q = Some c → heap t !! q = Some c).
  { intros l Hl q c Hq. rewrite lookup_insert_ne; [done|]. intros <-. by apply Hni, Hl. }
  assert (Hin : ∀ q, q ∈ bss_ids t → q ∈ bss_lru t) by (intros q; by rewrite T2).
  split; cbn.
  - apply NoDup_app. split_and!; [done| |apply NoDup_singleton]. intros q Hq ->%list_elem_of_singleton. done.
  - by rewrite T2.
  - intros q. rewrite elem_of_app, list_elem_of_singleton, T3. destruct (decide (q = p)) as [->|Hq].
    + rewrite lookup_insert_eq. split; [eauto|by right].
    + rewrite lookup_insert_ne by done. naive_solver.
  - rewrite length_app. cbn. lia.
  - intros q c. destruct (decide (q = p)) as [->|Hq].
    + rewrite lookup_insert_eq. intros [= <-]. split_and!; [done|lia|lia].
    + rewrite lookup_insert_ne by done. apply T5.
  - intros q x c d [[-> <-]|[Hq Hc]]%lookup_insert_Some [[-> <-]|[Hx Hd]]%lookup_insert_Some [Hk1 Hk2]; [done| | |].
    + exfalso. by apply (Hkey x d).
    + exfalso. by apply (Hkey q c).
    + by eapply TU.
  - apply ordered_snoc.
    + eapply ordered_sublist; [done| |exact T6]. intros q c Hq Hc. exists c. split; [|done].
      by eapply (Hsame (bss_ids t)).
    + intros q c d Hq Hc. rewrite lookup_insert_eq. intros [= <-]. eapply Hids.
      by eapply (Hsame (bss_ids t)).
  - apply ordered_snoc.
    + eapply ordered_sublist; [done| |exact T7]. intros q c Hq Hc. exists c. split; [|done].
      by eapply (Hsame (bss_lru t)).
    + intros q c d Hq Hc. rewrite lookup_insert_eq. intros [= <-]. rewrite Hidx. eapply T5.
      by eapply (Hsame (bss_lru t)).
  - split_and!; [done| |done]. intros q Hq. apply elem_of_app. left. by apply T9.
  - intros c Hc. destruct (T11 c Hc) as (b' & Hb' & Hk). exists b'. split; [|done].
    rewrite lookup_insert_ne; [done|]. intros <-. congruence.
  - intros c r Hw. apply elem_of_app. left. by eapply T12.
Qed.

(** An entry is updated, perhaps elsewhere, and goes to the end of the list of
    the last updates. *)
Lemma moved_ok t t' p q b b' :
  table_ok t → heap t !! p = Some b → heap t !! q = None ∨ q = p →
  bss_ok b' → bss_id b' = bss_id b → same_key b' b → last_update_idx b' = bss_update_idx t →
  heap t' = <[q := b']> (delete p (heap t)) → bss_lru t' = unlink_ptr (bss_lru t) p ++ [q] →
  bss_ids t' = replace_ptr p q (bss_ids t) → last_scan_res t' = replace_ptr p q (last_scan_res t) →
  num_bss t' = num_bss t → last_scan_res_size t' = last_scan_res_size t →
  bss_next_id t' = bss_next_id t → bss_update_idx t' = bss_update_idx t →
  bss_max_count t' = bss_max_count t → conf_networks t' = conf_networks t →
  current_bss t' = (if decide (current_bss t = Some p) then Some q else current_bss t) →
  (∀ c r, connect_work t' = Some (Some c, r) →
    ∃ c0 r0, connect_work t = Some (Some c0, r0) ∧ c = if decide (c0 = p) then q else c0) →
  table_ok t'.
Proof.
  intros [T1 T2 T3 [T4 T4'] T5 TU T6 T7 (T8 & T9 & T10) T11 T12] Hb Hq Hok Hid [Hbssid Hssid] Hidx
    E1 E2 E3 E4 E5 E6 E7 E8 E9 E10 E11 E12.
  assert (Hp : p ∈ bss_lru t) by (apply T3; eauto).
  assert (Hni : q ∉ bss_lru t ∨ q = p).
  { destruct Hq as [Hq|Hq]; [left; rewrite T3, Hq; by intros [? ?]|by right]. }
  assert (Hids : NoDup (bss_ids t)) by (by rewrite T2).
  assert (Hl : ∀ x c, <[q := b']> (delete p (heap t)) !! x = Some c →
            x = q ∧ c = b' ∨ x ≠ q ∧ x ≠ p ∧ heap t !! x = Some c).
  { intros x c [[-> <-]|[Hx [Hxp H]%lookup_delete_Some]]%lookup_insert_Some; [by left|right; by split_and!]. }
  assert (Hmem : ∀ x, x ∈ bss_lru t' ↔ x = q ∨ x ∈ bss_lru t ∧ x ≠ p).
  { intros x. rewrite E2, elem_of_app, list_elem_of_singleton, elem_unlink by done. tauto. }
  assert (Hkeep : ∀ x, x ∈ bss_lru t → (if decide (x = p) then q else x) ∈ bss_lru t').
  { intros x Hx. rewrite Hmem. destruct (decide (x = p)); [by left|by right]. }
  assert (Hmap : ∀ l : list Z, NoDup l → (∀ x, x ∈ l → x ∈ bss_lru t) → NoDup (replace_ptr p q l)).
  { intros l Hd Hl'. rewrite replace_spec by done. apply NoDup_fmap_2_strong; [|done].
    intros x y Hx Hy. repeat case_decide; subst; try done; intros ->; destruct Hni as [Hni|Hni]; try done;
      exfalso; apply Hni; by apply Hl'. }
  split.
  - rewrite E2. apply NoDup_app. split_and!; [by apply unlink_NoDup| |apply NoDup_singleton].
    intros x [Hx Hxp]%elem_unlink Hxq%list_elem_of_singleton; [|done]. subst x. by destruct Hni.
  - apply NoDup_Permutation.
    + rewrite E3. apply Hmap; [done|]. intros x. by rewrite T2.
    + rewrite E2. apply NoDup_app. split_and!; [by apply unlink_NoDup| |apply NoDup_singleton].
      intros x [Hx Hxp]%elem_unlink Hxq%list_elem_of_singleton; [|done]. subst x. by destruct Hni.
    + intros x. rewrite Hmem, E3, replace_spec, list_elem_of_fmap by done. split.
      * intros (y & -> & Hy). rewrite T2 in Hy. destruct (decide (y = p)); [by left|by right].
      * intros [->|[Hx Hxp]]; [exists p; rewrite decide_True by done; by rewrite T2|].
        exists x. rewrite decide_False by done. by rewrite T2.
  - intros x. rewrite Hmem, E1. split.
    + intros [->|[Hx Hxp]]; [rewrite lookup_insert_eq; eauto|].
      apply T3 in Hx as [c Hc]. destruct (decide (x = q)) as [->|Hxq]; [rewrite lookup_insert_eq; eauto|].
      exists c. by rewrite lookup_insert_ne, lookup_delete_ne by congruence.
    + intros [c [[-> _]|(Hxq & Hxp & Hx)]%Hl]; [by left|]. right. split; [apply T3; eauto|done].
  - rewrite E5, E9, E2, length_app. pose proof (unlink_length _ _ Hp). cbn. lia.
  - intros x c. rewrite E1, E7, E8. intros [[-> ->]|(_ & _ & Hx)]%Hl; [|by eapply T5].
    destruct (T5 p b Hb) as (_ & ? & _). split_and!; [done|lia|lia].
  - intros x y c d. rewrite E1. unfold same_key.
    intros [[-> ->]|(Hxq & Hxp & Hx)]%Hl [[-> ->]|(Hyq & Hyp & Hy)]%Hl; [done|..|by eapply TU];
      rewrite Hbssid, Hssid; intros Hk; exfalso; [apply Hyp; symmetry|apply Hxp]; by eapply TU.
  - rewrite E3, E1, replace_spec by done. eapply ordered_fmap; [|exact T6]. intros x c Hx.
    destruct (decide (x = p)) as [Hxp|Hxp]; intros [[Hxq ->]|(Hxq & _ & Hc)]%Hl; try (subst; by eauto); try done.
    subst x. destruct Hni as [Hni|Hni]; [|congruence]. exfalso. apply Hni. by rewrite <- T2.
  - rewrite E2, E1. apply ordered_snoc.
    + eapply ordered_sublist; [apply unlink_sublist| |exact T7]. intros x c [Hx Hxp]%elem_unlink Hc; [|done].
      apply Hl in Hc as [[-> ->]|(_ & _ & Hc)]; [|eauto]. exfalso. by destruct Hni.
    + intros x c d [Hx Hxp]%elem_unlink Hc; [|done]. rewrite lookup_insert_eq. intros [= <-].
      apply Hl in Hc as [[-> ->]|(_ & _ & Hc)]; [exfalso; by destruct Hni|]. rewrite Hidx. by eapply T5.
  - rewrite E4, E6. split_and!.
    + by apply Hmap.
    + intros x. rewrite replace_spec by done. intros (y & -> & Hy)%list_elem_of_fmap. by apply Hkeep, T9.
    + rewrite replace_spec, length_fmap by done. done.
  - intros c. rewrite E11, E1. destruct (decide (current_bss t = Some p)) as [Hc|Hc].
    + intros [= <-]. exists b'. rewrite lookup_insert_eq. split; [done|].
      destruct (T11 p Hc) as (b0 & Hb0 & Hk). rewrite Hb in Hb0. injection Hb0 as <-. rewrite <- Hk.
      by apply known_same.
    + intros Hcur. destruct (T11 c Hcur) as (b0 & Hb0 & Hk). exists b0. split; [|rewrite <- Hk; by apply known_same].
      rewrite lookup_insert_ne, lookup_delete_ne; [done|congruence|].
      intros <-. destruct Hq as [Hq|Hq]; [congruence|subst; done].
  - intros c r Hw. destruct (E12 c r Hw) as (c0 & r0 & Hc0 & ->). apply Hkeep. by eapply T12.
Qed.

(** ** The calls *)

(** What a call on a scan result keeps. *)
Definition step (t t' : bss_table) : Prop :=
  bssid_filter t' = bssid_filter t ∧ bss_update_idx t' = bss_update_idx t ∧
  bss_next_id t ≤ bss_next_id t' ≤ bss_next_id t + 1.

Lemma step_refl t : step t t.
Proof. split_and!; [done..|lia|lia]. Qed.

Lemma remove_oldest_ok t :
  table_ok t → ∃ r t', wpa_bss_remove_oldest t = Ret (r, t') ∧ table_ok t' ∧ same_config t t' ∧
    (r = 0 ∧ num_bss t' = num_bss t - 1 ∧ heap t' ⊆ heap t ∨ r = -1 ∧ t' = t).
Proof.
  intros Ht. unfold wpa_bss_remove_oldest, wpa_bss_remove_oldest_unknown.
  destruct (find_bss_spec t (λ b, negb (wpa_bss_known t b) && negb (wpa_bss_is_wps_candidate t b)) (bss_lru t))
    as (o & -> & Ho); [intros p; apply (tk_heap t Ht)|]. ret_simpl.
  destruct o as [p|]; ret_simpl.
  { apply first_in_elem in Ho as (Hp & b & Hb & Hk).
    destruct (remove_ok t p Ht Hp) as (t' & -> & Ht' & Hc & _ & Hh & Hn).
    { intros Hc. destruct (tk_current t Ht p Hc) as (b' & Hb' & Hk'). simplify_eq. by rewrite Hk' in Hk. }
    ret_simpl. exists 0, t'. split_and!; try done. left. split_and!; [done..|]. rewrite Hh. apply delete_subseteq. }
  assert (Hf : ∀ l, (∀ p, p ∈ l → p ∈ bss_lru t) → ∃ u, find_unused t l = Ret u ∧
            ∀ p, u = Some p → p ∈ bss_lru t ∧ current_bss t ≠ Some p).
  { induction l as [|p l IH]; intros Hl; [by exists None|]. cbn [find_unused].
    destruct (in_use_ok t p Ht) as (u & -> & Hu); [apply Hl; by left|]. ret_simpl. destruct u; cbn [negb].
    - apply IH. intros q Hq. apply Hl. by right.
    - exists (Some p). split; [done|]. intros q [= <-]. split; [apply Hl; by left|]. intros Hc. by apply Hu in Hc. }
  destruct (Hf (bss_lru t)) as (u & -> & Hu); [done|]. ret_simpl. destruct u as [p|]; ret_simpl.
  - destruct (Hu p) as [Hp Hc]; [done|]. destruct (remove_ok t p Ht Hp Hc) as (t' & -> & Ht' & Hs & _ & Hh & Hn).
    ret_simpl. exists 0, t'. split_and!; try done. left. split_and!; [done..|]. rewrite Hh. apply delete_subseteq.
  - exists (-1), t. split_and!; try done. by right.
Qed.

(** ** The elements of an entry *)

Definition p2p_heard (es : list (Z * list Z)) : bool := existsb (vendor_elem P2P_IE_VENDOR_TYPE) es.

Definition entry_elements (b : wpa_bss) : Z * Z * list Z := (ie_len b, beacon_ie_len b, bss_ies b).

(** The elements that an entry has after a result was stored: those of the
    result, but for the ones of the entry that was there before, [old], when
    they hold P2P elements and the result does not, or when those of the
    result take more room and the allocator has none ([grown] is false). *)
Definition elements_stored (p2p : bool) (old : option wpa_bss) (grown : bool) (res : wpa_scan_res)
    : Z * Z * list Z :=
  let heard := (res_ie_len res, res_beacon_ie_len res, res_ies res) in
  match old with
  | None => heard
  | Some b =>
      if p2p && p2p_heard (probe_elements b) && negb (p2p_heard (res_elements res)) then entry_elements b
      else if (strlen (res_ies res) <=? strlen (bss_ies b)) || grown then heard
      else entry_elements b
  end.

Definition is_given (p : option Z) : bool := match p with Some _ => true | None => false end.

Lemma locate_found P es : ∀ pos, CtrlScan.found (locate P pos es) = existsb P es.
Proof. induction es as [|e es IH]; intros pos; [done|]. cbn [locate existsb]. by destruct (P e). Qed.

(** The entry carries what the scan result says, and the elements [es]. *)
Record shows (idx : Z) (ssid : list Z) (res : wpa_scan_res) (fetch : Z * Z) (es : Z * Z * list Z)
    (b : wpa_bss) : Prop := Shows {
  sh_key : bss_bssid b = res_bssid res ∧ bss_ssid b = ssid;
  sh_radio : bss_freq b = res_freq res ∧ bss_level b = res_level res ∧ bss_qual b = res_qual res ∧
             bss_noise b = res_noise res ∧ bss_flags b = res_flags res ∧ bss_caps b = res_caps res ∧
             bss_beacon_int b = res_beacon_int res ∧ bss_tsf b = res_tsf res ∧
             bss_snr b = res_snr res ∧ bss_est_throughput b = res_est_throughput res;
  sh_time : last_update b = calculate_update_time fetch (res_age res);
  sh_seen : scan_miss_count b = 0 ∧ last_update_idx b = idx;
  sh_elements : entry_elements b = es
}.

Lemma add_ok t ssid res fetch alloc :
  table_ok t → res_ok res → strlen ssid ≤ SSID_MAX_LEN → byte_list ssid →
  (∀ q c, heap t !! q = Some c → bss_bssid c = res_bssid res ∧ bss_ssid c = ssid → False) →
  0 ≤ bss_next_id t < 2 ^ 32 - 1 → (∀ p, alloc = Some p → heap t !! p = None) →
  ∃ t', wpa_bss_add t ssid res fetch alloc = Ret (alloc, t') ∧ table_ok t' ∧ step t t' ∧
   
    ∀ p, alloc = Some p → p ∈ bss_lru t' ∧ p ∉ last_scan_res t' ∧
      ∃ b, heap t' !! p = Some b ∧
        shows (bss_update_idx t) ssid res fetch (elements_stored false None false res) b.
Proof.
  intros Ht Hr Hs Hsb Hkey Hid Ha. unfold wpa_bss_add. destruct alloc as [p|]; [|exists t; split_and!; by auto using step_refl].
  rewrite res_bytes_spec by done. ret_simpl. specialize (Ha p eq_refl).
  unfold u32. rewrite (Z.mod_small (_ + 1)) by lia. set (t1 := with_counters t _ _ _).
  assert (H1 : table_ok t1) by (apply counters_ok; [done|lia|lia|apply (tk_num t Ht)]).
  set (b := wpa_bss_copy_res _ _ _).
  assert (Hx : ∃ t2, (if bss_max_count t1 <? num_bss t1 + 1 then
             '(r, t) ← wpa_bss_remove_oldest t1;
             Ret (if negb (r =? 0)
                  then with_counters t (bss_next_id t) (bss_update_idx t) (num_bss t + 1) else t)
           else Ret t1) = Ret t2 ∧ table_ok t2 ∧ heap t2 ⊆ heap t ∧ num_bss t2 < bss_max_count t2 ∧
           bss_next_id t2 = bss_next_id t + 1 ∧ bss_update_idx t2 = bss_update_idx t ∧
           bssid_filter t2 = bssid_filter t).
  { case_if; zbool.
    - destruct (remove_oldest_ok t1 H1) as (r & t2 & -> & H2 & [C1 C2 C3 _ _ C6 _ _ _] & Hx). ret_simpl.
      pose proof (tk_num t1 H1) as [_ Hm].
      destruct Hx as [(-> & Hn & Hh)|(-> & ->)]; cbn [Z.eqb negb].
      + exists t2. split_and!; [done|done|done|lia|by rewrite C1|by rewrite C2|by rewrite C6].
      + eexists. split; [reflexivity|]. split; [apply counters_ok; try done; lia|]. cbn. split_and!; try done. lia.
    - exists t1. split_and!; try done. lia. }
  destruct Hx as (t2 & -> & H2 & Hh & Hn & Hnid & Hidx & Hflt). ret_simpl. cbn [fst snd].
  assert (Hp : heap t2 !! p = None) by (by eapply lookup_weaken_None).
  eexists. split; [reflexivity|]. split; [apply notify_ok, insert_ok; try done|split].
  - destruct Hr as [Hi Hl [Hb Hb']]. by split.
  - cbn. lia.
  - intros q c Hc. cbn. destruct (tk_entries t Ht q c) as (_ & ? & _); [by eapply lookup_weaken|done].
  - intros q c Hc. by eapply Hkey, lookup_weaken.
  - unfold step. cbn. rewrite Hflt, Hidx, Hnid. split_and!; try done; lia.
  - intros q [= <-]. cbn. split_and!; [set_solver| |].
    + intros Hin. apply (tk_last t2 H2) in Hin. apply (tk_heap t2 H2) in Hin. rewrite Hp in Hin. by destruct Hin.
    + exists b. rewrite lookup_insert_eq. split; [done|]. by split.
Qed.

Lemma move_fields t p q b :
  let t' := move_entry t p q b in
  heap t' = <[q := b]> (delete p (heap t)) ∧ bss_lru t' = bss_lru t ∧
  bss_ids t' = replace_ptr p q (bss_ids t) ∧ num_bss t' = num_bss t ∧
  last_scan_res t' = replace_ptr p q (last_scan_res t) ∧ last_scan_res_size t' = last_scan_res_size t ∧
  bss_next_id t' = bss_next_id t ∧ bss_update_idx t' = bss_update_idx t ∧
  bss_max_count t' = bss_max_count t ∧ conf_networks t' = conf_networks t ∧
  current_bss t' = (if decide (current_bss t = Some p) then Some q else current_bss t) ∧
  (∀ c r, connect_work t' = Some (Some c, r) →
    ∃ c0 r0, connect_work t = Some (Some c0, r0) ∧ c = if decide (c0 = p) then q else c0) ∧
  bssid_filter t' = bssid_filter t.
Proof.
  unfold move_entry. set (t1 := with_pointers _ _ _ _ _). destruct (pending_fields t1 p (Some q)) as
    (F1 & F2 & F3 & F4 & F5 & F6 & [G1 G2 G3 G4 G5 G6 _ _ _] & F8).
  cbn zeta. rewrite F1, F2, F3, F4, F5, F6, G1, G2, G3, G4, G5, G6. split_and!; try done.
  - cbn. case_bool_decide; [by rewrite decide_True|by rewrite decide_False].
  - intros c r Hw. destruct (F8 c r Hw) as (c0 & r0 & Hc0 & Hd). exists c0, r0. split; [done|].
    destruct (decide (c0 = p)); [by injection Hd as ->|done].
Qed.

(** Updating the IEs stores the entry, in place or where the allocator put it. *)
Lemma update_ies_cases p2p t p b res realloc :
  bss_ok b → res_ok res →
  ∃ q t' l m s, let b' := with_ies b l m s in
    update_ies p2p t p b res realloc = Ret (q, t') ∧ bss_ok b' ∧
    entry_elements b' = elements_stored p2p (Some b) (is_given realloc) res ∧
    (q = p ∧ t' = store_entry t p b' ∨ realloc = Some q ∧ t' = move_entry t p q b').
Proof.
  intros Hb Hr. pose proof Hb as [Hm Hl Hk Hs]. pose proof Hr as [Hm' Hl' Hk']. unfold update_ies.
  assert (Hkeep : (if p2p then
            o ← wpa_bss_get_vendor_ie b P2P_IE_VENDOR_TYPE;
            if CtrlScan.found o then
              n ← wpa_scan_get_vendor_ie res P2P_IE_VENDOR_TYPE; Ret (negb (CtrlScan.found n))
            else Ret false
          else Ret false) = Ret (p2p && p2p_heard (probe_elements b) && negb (p2p_heard (res_elements res)))).
  { destruct p2p; [|done]. rewrite bss_get_vendor_ie by done. ret_simpl. rewrite locate_found.
    unfold p2p_heard. cbn [andb]. case_if; [|done].
    rewrite scan_get_vendor_ie by done. ret_simpl. by rewrite locate_found. }
  assert (Hself : b = with_ies b (ie_len b) (beacon_ie_len b) (bss_ies b)) by (by destruct b).
  unfold elements_stored. rewrite Hkeep. ret_simpl. destruct (p2p && _ && _).
  { exists p, (store_entry t p b), (ie_len b), (beacon_ie_len b), (bss_ies b). cbn zeta. rewrite <- Hself.
    split_and!; [done..|by left]. }
  rewrite res_bytes_spec by done. ret_simpl.
  assert (Hok : bss_ok (with_ies b (res_ie_len res) (res_beacon_ie_len res) (res_ies res))) by (by split).
  replace (res_ie_len res + res_beacon_ie_len res) with (strlen (res_ies res)) by lia.
  replace (ie_len b + beacon_ie_len b) with (strlen (bss_ies b)) by lia.
  destruct (strlen (res_ies res) <=? strlen (bss_ies b)); cbn [orb]; [|destruct realloc as [q|]].
  - do 5 eexists. cbn zeta. split_and!; [reflexivity|done|done|by left].
  - do 5 eexists. cbn zeta. split_and!; [reflexivity|done|done|by right].
  - exists p, (store_entry t p b), (ie_len b), (beacon_ie_len b), (bss_ies b). cbn zeta. rewrite <- Hself.
    split_and!; [done..|by left].
Qed.

Lemma store_fields t p b b' :
  heap t !! p = Some b → NoDup (bss_ids t) → NoDup (last_scan_res t) →
  let t' := store_entry t p b' in
  heap t' = <[p := b']> (delete p (heap t)) ∧ bss_ids t' = replace_ptr p p (bss_ids t) ∧
  last_scan_res t' = replace_ptr p p (last_scan_res t) ∧
  current_bss t' = (if decide (current_bss t = Some p) then Some p else current_bss t) ∧
  (∀ c r, connect_work t' = Some (Some c, r) →
    ∃ c0 r0, connect_work t = Some (Some c0, r0) ∧ c = if decide (c0 = p) then p else c0).
Proof.
  intros Hb Hd Hd'. cbn.
  assert (Hid : ∀ l, NoDup l → replace_ptr p p l = l).
  { intros l Hl. rewrite replace_spec by done. etrans; [|apply list_fmap_id]. apply list_fmap_ext.
    intros _ x _. by destruct (decide (x = p)) as [->|]. }
  rewrite !Hid, insert_delete_eq by done. split_and!; try done.
  - by destruct (decide _).
  - intros c r Hw. exists c, r. split; [done|]. by destruct (decide (c = p)) as [->|].
Qed.

Lemma update_ok p2p malloc_ok t p b res fetch realloc :
  table_ok t → heap t !! p = Some b → res_ok res → bss_bssid b = res_bssid res →
  (∀ q, realloc = Some q → heap t !! q = None ∨ q = p) →
  ∃ q t', wpa_bss_update p2p malloc_ok t p res fetch realloc = Ret (q, t') ∧ table_ok t' ∧ step t t' ∧
    q ∈ bss_lru t' ∧ ∃ b', heap t' !! q = Some b' ∧
      shows (bss_update_idx t) (bss_ssid b) res fetch (elements_stored p2p (Some b) (is_given realloc) res) b'.
Proof.
  intros Ht Hb Hr Hkey Ha. destruct (tk_entries t Ht p b Hb) as (Hok & Hid & Hidx).
  unfold wpa_bss_update, deref. rewrite Hb. ret_simpl.
  destruct (compare_total malloc_ok b res) as [c ->]; [done..|]. ret_simpl.
  set (b1 := wpa_bss_copy_res _ _ _). set (t1 := with_lists t _ _ _ _).
  assert (H1 : bss_ok b1) by (destruct Hok, Hr; by split).
  destruct (update_ies_cases p2p t1 p b1 res realloc H1 Hr) as (q & t2 & l & m & s & -> & Hok' & Hels & Hcase).
  ret_simpl. exists q. eexists. split; [reflexivity|]. split; [|split; [|split]].
  - apply notify_ok.
    assert (Hd : NoDup (bss_ids t)) by (rewrite (tk_ids t Ht); apply (tk_lru t Ht)).
    destruct Hcase as [[-> ->]|[Hq ->]].
    + destruct (store_fields t p b (with_ies b1 l m s)) as (F1 & F2 & F3 & F4 & F5);
        [done|done|apply (tk_last t Ht)|].
      eapply (moved_ok t _ p p b (with_ies b1 l m s)); try done; by right.
    + destruct (move_fields t1 p q (with_ies b1 l m s)) as
        (F1 & F2 & F3 & F4 & F5 & F6 & F7 & F8 & F9 & F10 & F11 & F12 & _).
      eapply (moved_ok t _ p q b (with_ies b1 l m s)); try done; [by apply Ha|]. cbn. by rewrite F2.
  - unfold step. destruct Hcase as [[-> ->]|[Hq ->]]; cbn -[move_entry].
    + split_and!; try done; lia.
    + destruct (move_fields t1 p q (with_ies b1 l m s)) as (_ & _ & _ & _ & _ & _ & -> & -> & _ & _ & _ & _ & ->).
      split_and!; try done; cbn; lia.
  - cbn. set_solver.
  - exists (with_ies b1 l m s). split; [|by split]. cbn. destruct Hcase as [[-> ->]|[Hq ->]].
    + cbn. by rewrite lookup_insert_eq.
    + destruct (move_fields t1 p q (with_ies b1 l m s)) as (F1 & _). rewrite F1. apply lookup_insert_eq.
Qed.

Lemma push_ok t p array_ok :
  table_ok t → p ∈ bss_lru t → p ∉ last_scan_res t → table_ok (push_scan_res t p array_ok).
Proof.
  intros Ht Hp Hn. pose proof Ht as [T1 T2 T3 T4 T5 TU T6 T7 (T8 & T9 & T10) T11 T12].
  assert (Hpush : ∀ siz, Z.of_nat (S (length (last_scan_res t))) ≤ siz →
            table_ok (with_pointers t (last_scan_res t ++ [p]) siz (current_bss t) (connect_work t))).
  { intros siz Hs. split; cbn; try done. split_and!.
    - apply NoDup_app. split_and!; [done| |apply NoDup_singleton]. by intros x Hx ->%list_elem_of_singleton.
    - intros x [Hx| ->%list_elem_of_singleton]%elem_of_app; [by apply T9|done].
    - rewrite length_app. cbn. lia. }
  unfold push_scan_res. case_if; zbool; [|apply Hpush; lia]. case_if; [done|]. apply Hpush. case_if; zbool; cbn; lia.
Qed.

(** The push touches nothing but the results of the scan. *)
Lemma push_fields t p array_ok :
  let t' := push_scan_res t p array_ok in
  heap t' = heap t ∧ (∀ t0, step t0 t → step t0 t').
Proof. unfold push_scan_res. by repeat case_if. Qed.

(** The search for an address and a name finds the only such entry. *)
Lemma get_spec t bssid ssid :
  table_ok t → wpa_supplicant_filter_bssid_match t bssid = true →
  ∃ r, wpa_bss_get t bssid ssid = Ret r ∧
    ∀ p, r = Some p ↔ ∃ b, heap t !! p = Some b ∧ bss_bssid b = bssid ∧ bss_ssid b = ssid.
Proof.
  intros Ht Hf. unfold wpa_bss_get. rewrite Hf. cbn [negb].
  destruct (find_bss_spec t (λ b, str_eqb (bss_bssid b) bssid && str_eqb (bss_ssid b) ssid) (bss_lru t))
    as (r & -> & Hr); [intros p; apply (tk_heap t Ht)|]. exists r. split; [done|]. intros p.
  assert (Htest : ∀ b, str_eqb (bss_bssid b) bssid && str_eqb (bss_ssid b) ssid = true ↔
            bss_bssid b = bssid ∧ bss_ssid b = ssid) by (intros b; by rewrite andb_true_iff, !str_eqb_eq).
  split.
  - intros ->. apply first_in_elem in Hr as (_ & b & Hb & Hk%Htest). eauto.
  - intros (b & Hb & Hk). destruct r as [q|].
    + apply first_in_elem in Hr as (_ & c & Hc & Hk'%Htest). f_equal. eapply (tk_unique t Ht); [done..|].
      destruct Hk, Hk'. split; congruence.
    + cbn in Hr. rewrite Forall_forall in Hr. assert (Hp : p ∈ bss_lru t) by (apply (tk_heap t Ht); eauto).
      apply Htest in Hk. by rewrite (Hr p Hp b Hb) in Hk.
Qed.

(** The result is one for the table, under the name [ssid]. *)
Definition accepted (p2p : bool) (t : bss_table) (res : wpa_scan_res) (fetch : Z * Z) (ssid : list Z) : Prop :=
  ignore_old_scan_res t && os_reltime_before (calculate_update_time fetch (res_age res)) (scan_trigger_time t)
    = false ∧
  res_ssid p2p t res = Ret (Some ssid).

(** Results come from a driver that passes the filter on addresses, and the
    allocator answers with free addresses, or leaves a block where it is. *)
Record scan_ok (p2p : bool) (t : bss_table) (res : wpa_scan_res) (o : oracle) : Prop := ScanOk {
  so_res : res_ok res;
  so_filter : wpa_supplicant_filter_bssid_match t (res_bssid res) = true;
  so_zalloc : ∀ p, o_zalloc o = Some p → heap t !! p = None;
  so_realloc : ∀ q, o_realloc o = Some q → heap t !! q = None ∨
    ∃ ssid, res_ssid p2p t res = Ret (Some ssid) ∧ wpa_bss_get t (res_bssid res) ssid = Ret (Some q)
}.

Lemma update_scan_res_ok p2p malloc_ok t res fetch o :
  table_ok t → scan_ok p2p t res o → 0 ≤ bss_next_id t < 2 ^ 32 - 1 →
  ∃ t', wpa_bss_update_scan_res p2p malloc_ok t res fetch o = Ret t' ∧ table_ok t' ∧ step t t' ∧
    ∀ ssid, accepted p2p t res fetch ssid → is_Some (o_zalloc o) →
      ∃ old q b, wpa_bss_get t (res_bssid res) ssid = Ret old ∧
        wpa_bss_get t' (res_bssid res) ssid = Ret (Some q) ∧ heap t' !! q = Some b ∧
        shows (bss_update_idx t) ssid res fetch
          (elements_stored p2p (old ≫= λ p, heap t !! p) (is_given (o_realloc o)) res) b.
Proof.
  intros Ht [Hr Hf Hz Hre] Hid. unfold wpa_bss_update_scan_res, accepted. case_if.
  { exists t. split_and!; auto using step_refl. by intros ssid []. }
  destruct (res_ssid_spec p2p t res Hr) as (r & Hres & Hn). rewrite Hres. ret_simpl.
  destruct r as [ssid|]; ret_simpl.
  2: { exists t. split_and!; auto using step_refl. by intros ssid []. }
  destruct (Hn ssid eq_refl) as [Hlen Hbytes].
  destruct (get_spec t (res_bssid res) ssid Ht Hf) as (p & Hp & Hget). rewrite Hp. ret_simpl.
  set (es := elements_stored p2p (p ≫= λ p, heap t !! p) (is_given (o_realloc o)) res).
  assert (Hdone : ∀ (P : Prop) t' q b, table_ok t' → step t t' → heap t' !! q = Some b →
            shows (bss_update_idx t) ssid res fetch es b →
            ∃ t1, Ret t' = Ret t1 ∧ table_ok t1 ∧ step t t1 ∧
              ∀ s, false = false ∧ Ret (Some ssid) = Ret (Some s) → P →
              ∃ old q b, wpa_bss_get t (res_bssid res) s = Ret old ∧
                wpa_bss_get t1 (res_bssid res) s = Ret (Some q) ∧ heap t1 !! q = Some b ∧
                shows (bss_update_idx t) s res fetch
                  (elements_stored p2p (old ≫= λ p, heap t !! p) (is_given (o_realloc o)) res) b).
  { intros P t' q b Ht' Hst Hb Hs. exists t'. split_and!; [done..|]. destruct Hst as (Hflt & _).
    intros s [_ [= <-]] _. exists p, q, b. split; [done|]. split; [|done].
    destruct (get_spec t' (res_bssid res) ssid Ht') as (r & -> & Hr').
    - unfold wpa_supplicant_filter_bssid_match. by rewrite Hflt.
    - f_equal. apply Hr'. exists b. by destruct Hs. }
  destruct p as [p|].
  - destruct (proj1 (Hget p) eq_refl) as (b & Hb & Hk1 & Hk2).
    destruct (update_ok p2p malloc_ok t p b res fetch (o_realloc o)) as (q & t' & -> & Ht' & Hst & Hq & b' & Hb' & Hs');
      [done..| |].
    { intros q [Hq|(s & Hq & Hg)]%Hre; [by left|right].
      rewrite Hres in Hq. injection Hq as <-. rewrite Hp in Hg. by injection Hg. }
    ret_simpl. rewrite Hk2 in Hs'.
    assert (Hes : es = elements_stored p2p (Some b) (is_given (o_realloc o)) res)
      by (unfold es; cbn [mbind option_bind]; by rewrite Hb).
    rewrite <- Hes in Hs'. case_bool_decide as Hin; [by eapply Hdone|].
    destruct (push_fields t' q (o_array o)) as (F1 & F2). rewrite <- F1 in Hb'. specialize (F2 t Hst).
    assert (Hok : table_ok (push_scan_res t' q (o_array o))) by (by apply push_ok). by eapply Hdone.
  - destruct (add_ok t ssid res fetch (o_zalloc o)) as (t' & -> & Ht' & Hst & Hq); [done..| |done|done|].
    { intros q c Hc Hk. assert (None = Some q) by (apply Hget; eauto). done. }
    ret_simpl. destruct (o_zalloc o) as [q|]; [|exists t'; split_and!; try done; by intros ? ? []].
    destruct (Hq q eq_refl) as (Hin & Hni & b & Hb & Hs').
    destruct (push_fields t' q (o_array o)) as (F1 & F2). rewrite <- F1 in Hb. specialize (F2 t Hst).
    assert (Hok : table_ok (push_scan_res t' q (o_array o))) by (by apply push_ok). by eapply Hdone.
Qed.

(** ** The end of a scan and expiration *)

(** A pass over some of the entries keeps the invariant when each of its steps
    does, and leaves the entries still to come. *)
Lemma seen_ok t p b miss idx :
  table_ok t → heap t !! p = Some b → last_update_idx b = idx → table_ok (store_entry t p (with_seen b miss idx)).
Proof.
  intros [T1 T2 T3 T4 T5 TU T6 T7 T8 T11 T12] Hb <-.
  assert (Hl : ∀ q c, <[p := with_seen b miss (last_update_idx b)]> (heap t) !! q = Some c →
            ∃ c0, heap t !! q = Some c0 ∧ bss_id c = bss_id c0 ∧ same_key c c0 ∧
              last_update_idx c = last_update_idx c0 ∧ (bss_ok c0 → bss_ok c)).
  { intros q c [[-> <-]|[Hq Hc]]%lookup_insert_Some; [exists b|exists c]; split_and!; try done.
    intros []. by split. }
  split; cbn; try done.
  - intros q. rewrite T3, lookup_insert_is_Some. split; [|naive_solver].
    destruct (decide (p = q)); [by left|by right].
  - intros q c (c0 & Hc0 & -> & _ & -> & Hok)%Hl. destruct (T5 q c0 Hc0) as (? & ? & ?). eauto.
  - intros q x c d (c0 & Hc0 & _ & [K1 K2] & _)%Hl (d0 & Hd0 & _ & [K3 K4] & _)%Hl [K5 K6].
    eapply TU; [done..|]. split; congruence.
  - eapply ordered_sublist; [done| |exact T6]. intros q c _ (c0 & Hc0 & -> & _)%Hl. eauto.
  - eapply ordered_sublist; [done| |exact T7]. intros q c _ (c0 & Hc0 & _ & _ & -> & _)%Hl. eauto.
  - intros c Hc. destruct (T11 c Hc) as (b0 & Hb0 & Hk). destruct (decide (c = p)) as [->|Hcp].
    + rewrite lookup_insert_eq. eexists. split; [done|]. rewrite Hb in Hb0. injection Hb0 as <-.
      rewrite <- Hk. by apply known_same.
    + rewrite lookup_insert_ne by done. eauto.
Qed.

(** What a pass over the entries [l] keeps: the counters, the pointers kept
    elsewhere, the entries in use and those it does not visit. *)
Definition used (t : bss_table) (p : Z) : Prop := wpa_bss_in_use t p = Ret true.

Record kept (l : list Z) (t t' : bss_table) : Prop := Kept {
  kp_config : same_config t t';
  kp_list : bss_lru t' `sublist_of` bss_lru t;
  kp_used : ∀ p b, heap t !! p = Some b → p ∉ l ∨ used t p → heap t' !! p = Some b;
  kp_entries : ∀ p b', heap t' !! p = Some b' →
    ∃ b m, heap t !! p = Some b ∧ b' = with_seen b m (last_update_idx b)
}.

Lemma with_seen_self b : b = with_seen b (scan_miss_count b) (last_update_idx b).
Proof. by destruct b. Qed.

Lemma kept_refl l t : kept l t t.
Proof.
  split; [apply same_config_refl|done|done|]. intros p b Hb. exists b, (scan_miss_count b).
  split; [done|]. apply with_seen_self.
Qed.

(** Whether an entry is in use does not change. *)
Lemma in_use_kept l t t' p :
  table_ok t → kept l t t' → is_Some (heap t' !! p) → wpa_bss_in_use t' p = wpa_bss_in_use t p.
Proof.
  intros Ht [[] _ Hu He] [b' Hb']. destruct (He p b' Hb') as (b & m & Hb & ->).
  unfold wpa_bss_in_use. rewrite sc_current0, sc_own0, sc_pending0. case_bool_decide; [done|].
  unfold deref. rewrite Hb, Hb'. ret_simpl. destruct (current_bss t) as [c|] eqn:E; [|done].
  destruct (tk_current t Ht c E) as (cb & Hcb & _). rewrite (Hu c cb Hcb), Hcb; [done|]. right.
  unfold used, wpa_bss_in_use. by rewrite E, bool_decide_eq_true_2.
Qed.

Lemma kept_trans l1 l2 t1 t2 t3 :
  table_ok t1 → kept l1 t1 t2 → kept l2 t2 t3 → kept (l1 ++ l2) t1 t3.
Proof.
  intros Ht K1 K2. pose proof K1 as [C1 L1 U1 E1]. pose proof K2 as [C2 L2 U2 E2]. split.
  - by eapply same_config_trans.
  - by etrans.
  - intros p b Hb Hp. rewrite elem_of_app in Hp. assert (H2 : heap t2 !! p = Some b) by (apply U1; [done|tauto]).
    apply U2; [done|]. destruct Hp as [Hp|Hp]; [tauto|right]. unfold used. rewrite <- Hp.
    eapply in_use_kept; eauto.
  - intros p b3 H3. destruct (E2 p b3 H3) as (b2 & m2 & H2 & ->). destruct (E1 p b2 H2) as (b1 & m1 & H1 & ->).
    by exists b1, m2.
Qed.

(** The two things a step does to an entry that is not in use. *)
Lemma remove_step t p b :
  table_ok t → heap t !! p = Some b → wpa_bss_in_use t p = Ret false →
  ∃ t', wpa_bss_remove t p = Ret t' ∧ table_ok t' ∧ kept [p] t t' ∧ heap t' = delete p (heap t) ∧
    bss_lru t' = unlink_ptr (bss_lru t) p.
Proof.
  intros Ht Hb Hu. assert (Hp : p ∈ bss_lru t) by (apply (tk_heap t Ht); eauto).
  destruct (remove_ok t p Ht Hp) as (t' & -> & Ht' & Hc & Hl & Hh & _).
  { intros Hc. destruct (in_use_ok t p Ht Hp) as (u & Hu' & Hcu). rewrite Hu in Hu'. injection Hu' as <-.
    by apply Hcu in Hc. }
  exists t'. split_and!; try done. split; [done|rewrite Hl; apply unlink_sublist| |]; rewrite Hh.
  - intros q c Hq Hor. rewrite lookup_delete_ne; [done|]. intros <-. destruct Hor as [Hn|Hn]; [set_solver|].
    unfold used in Hn. by rewrite Hu in Hn.
  - intros q c [_ Hq]%lookup_delete_Some. exists c, (scan_miss_count c). split; [done|]. apply with_seen_self.
Qed.

Lemma seen_step t p b m :
  table_ok t → heap t !! p = Some b → wpa_bss_in_use t p = Ret false →
  let t' := store_entry t p (with_seen b m (last_update_idx b)) in table_ok t' ∧ kept [p] t t'.
Proof.
  intros Ht Hb Hu. split; [by eapply seen_ok|]. split; cbn; [by split|done| |].
  - intros q c Hq Hor. rewrite lookup_insert_ne; [done|]. intros <-. destruct Hor as [Hn|Hn]; [set_solver|].
    unfold used in Hn. by rewrite Hu in Hn.
  - intros q c [[-> <-]|[_ Hq]]%lookup_insert_Some; [by exists b, m|]. exists c, (scan_miss_count c).
    split; [done|]. apply with_seen_self.
Qed.

(** A pass whose steps turn an entry into [f], or drop it. *)
Section pass.
Context (stp : bss_table → Z → outcome bss_table) (f : bss_table → Z → wpa_bss → option wpa_bss).
Hypothesis stp_ok : ∀ t p b, table_ok t → heap t !! p = Some b →
  ∃ t1, stp t p = Ret t1 ∧ table_ok t1 ∧ kept [p] t t1 ∧ heap t1 = partial_alter (λ _, f t p b) p (heap t).
Hypothesis f_kept : ∀ l t t' p b, table_ok t → kept l t t' → heap t' !! p = Some b → f t' p b = f t p b.

Fixpoint pass (t : bss_table) (l : list Z) : outcome bss_table :=
  match l with [] => Ret t | p :: l' => t ← stp t p; pass t l' end.

Lemma pass_ok l : ∀ t, table_ok t → NoDup l → (∀ p, p ∈ l → is_Some (heap t !! p)) →
  ∃ t', pass t l = Ret t' ∧ table_ok t' ∧ kept l t t' ∧
    ∀ p, heap t' !! p = if decide (p ∈ l) then heap t !! p ≫= f t p else heap t !! p.
Proof.
  induction l as [|p l IH]; intros t Ht Hd Hl.
  { exists t. split_and!; [done..|apply kept_refl|]. intros p. by rewrite decide_False by apply not_elem_of_nil. }
  apply NoDup_cons in Hd as [Hp Hd]. cbn [pass]. destruct (Hl p) as [b Hb]; [by left|].
  destruct (stp_ok t p b Ht Hb) as (t1 & -> & H1 & K1 & Hh). ret_simpl.
  assert (Hne : ∀ q, q ≠ p → heap t1 !! q = heap t !! q).
  { intros q Hq. rewrite Hh. by apply lookup_partial_alter_ne. }
  destruct (IH t1 H1 Hd) as (t' & -> & Ht' & K2 & Hh').
  { intros q Hq. rewrite Hne; [apply Hl; by right|]. by intros ->. }
  exists t'. split_and!; [done..|by apply (kept_trans [p] l t t1 t')|]. intros q. rewrite Hh'.
  destruct (decide (q = p)) as [->|Hq].
  - rewrite decide_False, decide_True by (done || by left). rewrite Hh, lookup_partial_alter_eq. by rewrite Hb.
  - rewrite Hne by done. destruct (decide (q ∈ l)) as [Hql|Hql].
    + rewrite decide_True by (by right). destruct (heap t !! q) as [c|] eqn:E; [|done]. cbn.
      apply (f_kept [p]); [done..|]. by rewrite Hne.
    + rewrite decide_False; [done|]. by intros [?|?]%elem_of_cons.
Qed.
End pass.

(** The end of a scan: an entry that should have been seen and was not is
    counted, and dropped when it was missed too often. *)
Definition missed (t : bss_table) (b : wpa_bss) : Z :=
  if last_update_idx b <? bss_update_idx t then scan_miss_count b + 1 else scan_miss_count b.

Definition expire_entry (info : option scan_info) (t : bss_table) (p : Z) (b : wpa_bss) : option wpa_bss :=
  match wpa_bss_in_use t p with
  | Ret false =>
      if negb (wpa_bss_included_in_scan b info) then Some b
      else if bss_expiration_scan_count t <=? missed t b then None
      else Some (with_seen b (missed t b) (last_update_idx b))
  | _ => Some b
  end.

Definition expire_step (info : option scan_info) (t : bss_table) (p : Z) : outcome bss_table :=
  u ← wpa_bss_in_use t p;
  if (u : bool) then Ret t
  else
    b ← deref t p;
    if negb (wpa_bss_included_in_scan b info) then Ret t
    else
      let miss := missed t b in
      let t := store_entry t p (with_seen b miss (last_update_idx b)) in
      if bss_expiration_scan_count t <=? miss then wpa_bss_remove t p else Ret t.

Lemma expire_loop_pass info l : ∀ t, expire_loop info t l = pass (expire_step info) t l.
Proof.
  induction l as [|p l IH]; intros t; [done|]. cbn [expire_loop pass]. unfold expire_step.
  destruct (wpa_bss_in_use t p) as [[]| |]; ret_simpl; try done. destruct (deref t p) as [b| |]; ret_simpl; try done.
  case_if; [by rewrite IH|]. cbn zeta. fold (missed t b). case_if; [|ret_simpl; by rewrite IH].
  destruct (wpa_bss_remove _ _) as [t'| |]; ret_simpl; try done.
Qed.

Lemma entry_in_use t p b : table_ok t → heap t !! p = Some b → ∃ u, wpa_bss_in_use t p = Ret u.
Proof.
  intros Ht Hb. destruct (in_use_ok t p Ht) as (u & Hu & _); [apply (tk_heap t Ht); eauto|eauto].
Qed.

(** A step that leaves the table as it is. *)
Lemma stay_step t p b : table_ok t → heap t !! p = Some b →
  ∃ t1, Ret t = Ret t1 ∧ table_ok t1 ∧ kept [p] t t1 ∧ heap t1 = partial_alter (λ _, Some b) p (heap t).
Proof.
  intros Ht Hb. exists t. split_and!; [done..|apply kept_refl|]. symmetry. change (<[p := b]> (heap t) = heap t). by apply insert_id.
Qed.

Lemma expire_step_ok info t p b : table_ok t → heap t !! p = Some b →
  ∃ t1, expire_step info t p = Ret t1 ∧ table_ok t1 ∧ kept [p] t t1 ∧
    heap t1 = partial_alter (λ _, expire_entry info t p b) p (heap t).
Proof.
  intros Ht Hb. unfold expire_step, expire_entry. destruct (entry_in_use t p b Ht Hb) as [u Hu]. rewrite Hu.
  ret_simpl. destruct u; [by apply stay_step|]. unfold deref. rewrite Hb. ret_simpl.
  case_if; [by apply stay_step|]. destruct (seen_step t p b (missed t b) Ht Hb Hu) as [H1 K1].
  set (t1 := store_entry t p _) in *. change (bss_expiration_scan_count t1) with (bss_expiration_scan_count t).
  assert (Hb1 : heap t1 !! p = Some (with_seen b (missed t b) (last_update_idx b))) by apply lookup_insert_eq.
  case_if; [|by exists t1].
  destruct (remove_step t1 p _ H1 Hb1) as (t2 & -> & H2 & K2 & Hh & _); [by rewrite (in_use_kept [p] t)|].
  exists t2. split_and!; [done..| |].
  - pose proof (kept_trans _ _ _ _ _ Ht K1 K2) as [C L U E']. split; try done.
    intros q c Hc Hor. apply U; [done|]. destruct Hor as [Hn|]; [left; set_solver|by right].
  - rewrite Hh. cbn. rewrite delete_insert_eq. done.
Qed.

Lemma kept_same l t t' p : table_ok t → kept l t t' → is_Some (heap t' !! p) →
  wpa_bss_in_use t' p = wpa_bss_in_use t p ∧ bss_update_idx t' = bss_update_idx t ∧
  bss_expiration_scan_count t' = bss_expiration_scan_count t.
Proof. intros Ht K Hp. split; [by eapply in_use_kept|]. by destruct K as [[] _ _ _]. Qed.

Lemma update_end_ok t info new_scan now :
  table_ok t →
  ∃ t', wpa_bss_update_end t info new_scan now = Ret t' ∧ table_ok t' ∧ same_config t t' ∧
    ∀ p, heap t' !! p =
      if match info with Some i => si_aborted i | None => false end || negb new_scan then heap t !! p
      else heap t !! p ≫= expire_entry info t p.
Proof.
  intros Ht. unfold wpa_bss_update_end. set (t0 := with_scan t now _).
  assert (H0 : table_ok t0) by (by apply with_scan_ok). case_if; [exists t0; split_and!; try done; by split|].
  rewrite expire_loop_pass. destruct (pass_ok (expire_step info) (expire_entry info)
    (expire_step_ok info)) with (l := bss_lru t0) (t := t0) as (t' & -> & Ht' & K & Hh).
  - intros l t1 t2 p b Hok K Hb. destruct (kept_same l t1 t2 p Hok K) as (E1 & E2 & E3); [eauto|].
    unfold expire_entry, missed. by rewrite E1, E2, E3.
  - done.
  - apply (tk_lru t0 H0).
  - intros p. apply (tk_heap t0 H0).
  - exists t'. split_and!; [done..|destruct K as [[] _ _ _]; by split|]. intros p. rewrite Hh.
    destruct (decide _) as [|Hn]; [done|]. change (heap t0) with (heap t).
    destruct (heap t !! p) as [b|] eqn:Hb; [|done]. exfalso. apply Hn, (tk_heap t0 H0). cbn. eauto.
Qed.

(** A flush leaves the entries in use. *)
Definition flush_entry (t : bss_table) (p : Z) (b : wpa_bss) : option wpa_bss :=
  match wpa_bss_in_use t p with Ret false => None | _ => Some b end.

Definition flush_step (t : bss_table) (p : Z) : outcome bss_table :=
  u ← wpa_bss_in_use t p; if (u : bool) then Ret t else wpa_bss_remove t p.

Lemma flush_loop_pass l : ∀ t, flush_loop t l = pass flush_step t l.
Proof.
  induction l as [|p l IH]; intros t; [done|]. cbn [flush_loop pass]. unfold flush_step.
  destruct (wpa_bss_in_use t p) as [[]| |]; ret_simpl; try done.
  destruct (wpa_bss_remove _ _) as [t'| |]; ret_simpl; done.
Qed.

Lemma flush_ok t :
  table_ok t →
  ∃ t', wpa_bss_flush t = Ret t' ∧ table_ok t' ∧ same_config t t' ∧
    ∀ p, heap t' !! p = heap t !! p ≫= flush_entry t p.
Proof.
  intros Ht. unfold wpa_bss_flush. set (t0 := with_scan t _ true).
  assert (H0 : table_ok t0) by (by apply with_scan_ok). rewrite flush_loop_pass.
  destruct (pass_ok flush_step flush_entry) with (l := bss_lru t) (t := t0) as (t' & -> & Ht' & K & Hh).
  - intros t1 p b H1 Hb. unfold flush_step, flush_entry. destruct (entry_in_use t1 p b H1 Hb) as [u Hu].
    rewrite Hu. ret_simpl. destruct u; [by apply stay_step|].
    destruct (remove_step t1 p b H1 Hb Hu) as (t2 & -> & H2 & K2 & Hh & _). by exists t2.
  - intros l t1 t2 p b Hok K Hb. destruct (kept_same l t1 t2 p Hok K) as (E1 & _); [eauto|].
    unfold flush_entry. by rewrite E1.
  - done.
  - apply (tk_lru t0 H0).
  - intros p. apply (tk_heap t0 H0).
  - exists t'. split_and!; [done..|destruct K as [[] _ _ _]; by split|]. intros p. rewrite Hh.
    destruct (decide _) as [|Hn]; [done|]. change (heap t0) with (heap t).
    destruct (heap t !! p) as [b|] eqn:Hb; [|done]. exfalso. apply Hn, (tk_heap t0 H0). cbn. eauto.
Qed.

Lemma age_loop_ok limit l : ∀ t, table_ok t → NoDup l → (∀ p, p ∈ l → is_Some (heap t !! p)) →
  ∃ t', age_loop limit t l = Ret t' ∧ table_ok t' ∧ kept l t t' ∧
    ∀ p b, heap t !! p = Some b → heap t' !! p = None → os_reltime_before (last_update b) limit = true.
Proof.
  induction l as [|p l IH]; intros t Ht Hd Hl.
  { exists t. split_and!; [done..|apply kept_refl|]. intros p b Hb. by rewrite Hb. }
  apply NoDup_cons in Hd as [Hp Hd]. cbn [age_loop]. destruct (Hl p) as [b Hb]; [by left|].
  destruct (entry_in_use t p b Ht Hb) as [u Hu]. rewrite Hu. ret_simpl. destruct u.
  - destruct (IH t Ht Hd) as (t' & -> & Ht' & K & Hold); [intros q Hq; apply Hl; by right|].
    exists t'. split_and!; [done..|by apply (kept_trans [p] l t t t'); [|apply kept_refl|]|done].
  - unfold deref. rewrite Hb. ret_simpl. destruct (os_reltime_before (last_update b) limit) eqn:E.
    2: { exists t. split_and!; [done..|apply kept_refl|]. intros q c Hc. by rewrite Hc. }
    destruct (remove_step t p b Ht Hb Hu) as (t1 & -> & H1 & K1 & Hh & _). ret_simpl.
    destruct (IH t1 H1 Hd) as (t' & -> & Ht' & K & Hold).
    { intros q Hq. rewrite Hh, lookup_delete_ne; [apply Hl; by right|]. by intros ->. }
    exists t'. split_and!; [done..|by apply (kept_trans [p] l t t1 t')|]. intros q c Hc Hn.
    destruct (decide (q = p)) as [->|Hq]; [congruence|]. apply (Hold q); [|done].
    rewrite Hh. by rewrite lookup_delete_ne.
Qed.

Lemma flush_by_age_ok t age now :
  table_ok t → ∃ t', wpa_bss_flush_by_age t age now = Ret t' ∧ table_ok t' ∧ same_config t t' ∧
    ∀ p b, heap t !! p = Some b → heap t' !! p = None →
      os_reltime_before (last_update b) (now.1 - age, now.2) = true.
Proof.
  intros Ht. unfold wpa_bss_flush_by_age. case_bool_decide.
  { exists t. split_and!; [done..|apply same_config_refl|]. intros p b Hb. by rewrite Hb. }
  destruct (age_loop_ok (now.1 - age, now.2) (bss_lru t) t Ht) as (t' & -> & Ht' & [C _ _ _] & Hold).
  - apply (tk_lru t Ht).
  - intros p. apply (tk_heap t Ht).
  - by exists t'.
Qed.

(** ** Sequences of calls *)

Lemma update_start_ok t : table_ok t → bss_update_idx t < 2 ^ 32 - 1 → 0 ≤ bss_update_idx t →
  table_ok (wpa_bss_update_start t).
Proof.
  intros Ht Hi H0. unfold wpa_bss_update_start, u32. rewrite (Z.mod_small (_ + 1)) by lia.
  destruct (counters_ok t (bss_next_id t) (bss_update_idx t + 1) (bss_max_count t) Ht) as
    [T1 T2 T3 T4 T5 TU T6 T7 (T8 & T9 & T10) T11 T12]; [lia|lia|apply (tk_num t Ht)|].
  split; cbn; try done. split_and!; [apply NoDup_nil_2|by intros p ?%not_elem_of_nil|]. cbn in *. lia.
Qed.

(** The counters do not wrap around in this call. *)
Definition call_ok (p2p : bool) (t : bss_table) (c : bss_call) : Prop :=
  match c with
  | UpdateStart => 0 ≤ bss_update_idx t < 2 ^ 32 - 1
  | UpdateScanRes res _ o => scan_ok p2p t res o ∧ 0 ≤ bss_next_id t < 2 ^ 32 - 1
  | _ => True
  end.

Fixpoint calls_ok (p2p : bool) (malloc_ok : Z → bool) (t : bss_table) (cs : list bss_call) : Prop :=
  match cs with
  | [] => True
  | c :: cs' => call_ok p2p t c ∧
      ∀ t', bss_call_run p2p malloc_ok t c = Ret t' → calls_ok p2p malloc_ok t' cs'
  end.

Lemma call_run_ok p2p malloc_ok t c :
  table_ok t → call_ok p2p t c → ∃ t', bss_call_run p2p malloc_ok t c = Ret t' ∧ table_ok t'.
Proof.
  intros Ht Hc. destruct c as [|res fetch o|info new_scan now|age now|]; cbn [bss_call_run call_ok] in *.
  - eexists. split; [done|]. apply update_start_ok; [done|lia|lia].
  - destruct Hc as [Hs Hn]. destruct (update_scan_res_ok p2p malloc_ok t res fetch o) as (t' & ? & ? & _); eauto.
  - destruct (update_end_ok t info new_scan now) as (t' & ? & ? & _); eauto.
  - destruct (flush_by_age_ok t age now) as (t' & ? & ? & _); eauto.
  - destruct (flush_ok t) as (t' & ? & ? & _); eauto.
Qed.

(** The conditions can be evaluated. *)
Definition res_okb (res : wpa_scan_res) : bool :=
  bool_decide (byte_list (res_ies res)) && (0 <=? res_ie_len res) && (0 <=? res_beacon_ie_len res)
  && (res_ie_len res + res_beacon_ie_len res =? strlen (res_ies res))
  && bool_decide (length (res_bssid res) = 6%nat) && bool_decide (byte_list (res_bssid res)).

Definition freeb (t : bss_table) (p : Z) : bool := match heap t !! p with None => true | Some _ => false end.

Definition scan_okb (p2p : bool) (t : bss_table) (res : wpa_scan_res) (o : oracle) : bool :=
  res_okb res && wpa_supplicant_filter_bssid_match t (res_bssid res)
  && match o_zalloc o with Some p => freeb t p | None => true end
  && match o_realloc o with
     | Some q => freeb t q ||
         match res_ssid p2p t res with
         | Ret (Some ssid) =>
             match wpa_bss_get t (res_bssid res) ssid with Ret (Some p) => p =? q | _ => false end
         | _ => false
         end
     | None => true
     end.

Definition call_okb (p2p : bool) (t : bss_table) (c : bss_call) : bool :=
  match c with
  | UpdateStart => (0 <=? bss_update_idx t) && (bss_update_idx t <? 4294967295)
  | UpdateScanRes res _ o => scan_okb p2p t res o && (0 <=? bss_next_id t) && (bss_next_id t <? 4294967295)
  | _ => true
  end.

Fixpoint calls_okb (p2p : bool) (malloc_ok : Z → bool) (t : bss_table) (cs : list bss_call) : bool :=
  match cs with
  | [] => true
  | c :: cs' => call_okb p2p t c &&
      match bss_call_run p2p malloc_ok t c with Ret t' => calls_okb p2p malloc_ok t' cs' | _ => true end
  end.

Lemma freeb_sound t p : freeb t p = true → heap t !! p = None.
Proof. unfold freeb. by destruct (heap t !! p). Qed.

Lemma res_okb_sound res : res_okb res = true → res_ok res.
Proof.
  unfold res_okb. intros H. zbool.
  repeat match goal with B : bool_decide _ = true |- _ => apply bool_decide_eq_true in B end. by split.
Qed.

Lemma scan_okb_sound p2p t res o : scan_okb p2p t res o = true → scan_ok p2p t res o.
Proof.
  unfold scan_okb. intros [[[Hr%res_okb_sound Hf]%andb_true_iff Hz]%andb_true_iff Hq]%andb_true_iff.
  split; [done|done| |].
  - intros p Hp. rewrite Hp in Hz. by apply freeb_sound.
  - intros q Hp. rewrite Hp in Hq. apply orb_true_iff in Hq as [Hq|Hq]; [left; by apply freeb_sound|right].
    destruct (res_ssid p2p t res) as [[ssid|]| |]; try done. exists ssid. split; [done|].
    destruct (wpa_bss_get t _ ssid) as [[p|]| |]; try done. by apply Z.eqb_eq in Hq as ->.
Qed.

Lemma calls_okb_sound p2p malloc_ok cs : ∀ t, calls_okb p2p malloc_ok t cs = true → calls_ok p2p malloc_ok t cs.
Proof.
  induction cs as [|c cs IH]; intros t; [done|]. cbn [calls_okb calls_ok]. intros [Hc Hcs]%andb_true_iff. split.
  - destruct c; cbn [call_okb call_ok] in *; try done.
    + apply andb_true_iff in Hc as [? ?]. zbool. lia.
    + apply andb_true_iff in Hc as [[Hs%scan_okb_sound ?]%andb_true_iff ?]. zbool. split; [done|lia].
  - intros t' E. rewrite E in Hcs. by apply IH.
Qed.

Lemma calls_run_ok p2p malloc_ok t cs :
  table_ok t → calls_ok p2p malloc_ok t cs → ∃ t', bss_run p2p malloc_ok t cs = Ret t' ∧ table_ok t'.
Proof.
  revert t. induction cs as [|c cs IH]; intros t Ht Hcs; [by exists t|]. destruct Hcs as [Hc Hcs].
  destruct (call_run_ok p2p malloc_ok t c Ht Hc) as (t1 & E & H1). cbn [bss_run]. rewrite E. ret_simpl.
  apply IH; [done|]. by apply Hcs.
Qed.

(** A table without entries. *)
Definition empty_table (max : Z) (networks : list wpa_ssid) : bss_table :=
  BssTable ∅ [] [] 0 0 0 [] 0 None None [2; 0; 0; 0; 0; 1] [0; 0; 0; 0; 0; 0] None false (0, 0) (0, 0) false
    networks max 2 false [].

Lemma empty_ok max networks : 0 ≤ max → table_ok (empty_table max networks).
Proof.
  intros Hm. split; cbn; try done; try (by constructor); try (intros; by rewrite ?lookup_empty in * ).
  - intros p. rewrite lookup_empty. split; [by intros ?%not_elem_of_nil|by intros []].
  - split_and!; [constructor|by intros p ?%not_elem_of_nil|done].
Qed.

(** An access point with the name of [n] letters. *)
Definition ap (last : Z) (n : nat) : wpa_scan_res :=
  let ies := 0 :: Z.of_nat n :: replicate n 97 in
  ScanRes 0 [2; 0; 0; 0; 0; last] 2412 100 17 0 0 (-40) 7 10 0 20 (strlen ies) 0 ies.

(** Its elements have become longer. *)
Definition ap_more (last : Z) (n : nat) : wpa_scan_res :=
  let ies := 0 :: Z.of_nat n :: replicate n 97 ++ [1; 2; 130; 132] in
  ScanRes 0 [2; 0; 0; 0; 0; last] 2412 100 17 0 0 (-50) 7 10 0 20 (strlen ies) 0 ies.

(** An entry is added, moves, is not seen twice and goes. *)
Definition life_of_entry : list bss_call :=
  [UpdateStart; UpdateScanRes (ap 1 3) (10, 0) (Oracle (Some 1000) None true); UpdateEnd None true (10, 0);
   UpdateStart; UpdateScanRes (ap_more 1 3) (20, 0) (Oracle (Some 1001) (Some 2000) true);
     UpdateScanRes (ap 2 4) (20, 0) (Oracle (Some 1000) None true); UpdateEnd None true (20, 0);
   UpdateStart; UpdateEnd None true (30, 0); UpdateStart; UpdateEnd None true (40, 0)].

(** C33: From a well-formed table any sequence of calls on scan results, ends of
    scans and flushes runs without following a pointer to a freed entry and
    without reading outside the elements, and leaves a well-formed table: two
    lists of exactly the live entries, in the order of their updates and of
    their identifiers, every kept pointer into them, and one entry for each
    address and name.  The current BSS, if any, has a configured name; that it
    must is shown by [current_entry_freed].  The allocator answers as it may, the counters do not
    wrap around and the results pass the filter. *)
Theorem bss_table_safe p2p malloc_ok t cs :
  table_ok t → calls_ok p2p malloc_ok t cs →
  ∃ t', bss_run p2p malloc_ok t cs = Ret t' ∧ table_ok t'.
Proof. apply calls_run_ok. Qed.

Lemma bss_table_safe_witness :
  ∃ t', bss_run true (λ _, true) (empty_table 200 []) life_of_entry = Ret t' ∧ table_ok t'.
Proof. apply (bss_table_safe _ _ _ _); [by apply empty_ok|]. apply calls_okb_sound. by vm_compute. Defined.


(** C34: A scan result for the table is found there afterwards under its address
    and name, and its entry shows what the result says, whether it was added,
    updated in place or moved by the allocator, and whatever entry had to make
    room: the radio values, the times, and the lengths and bytes of its
    information elements. The elements alone stay those of the entry that was
    there before in two cases: when P2P is built in, these hold P2P elements
    and those of the result do not, or when those of the result are longer and
    the allocator has no room for them ([elements_stored]). The result is one
    for the table ([accepted]) and passes the filter on addresses, the allocator
    has room for an entry and answers with free addresses, and the identifiers
    do not wrap around. *)
Theorem scan_result_stored p2p malloc_ok t res fetch o ssid :
  table_ok t → scan_ok p2p t res o → 0 ≤ bss_next_id t < 2 ^ 32 - 1 →
  accepted p2p t res fetch ssid → is_Some (o_zalloc o) →
  ∃ old t' q b, wpa_bss_get t (res_bssid res) ssid = Ret old ∧
    wpa_bss_update_scan_res p2p malloc_ok t res fetch o = Ret t' ∧
    wpa_bss_get t' (res_bssid res) ssid = Ret (Some q) ∧ heap t' !! q = Some b ∧
    shows (bss_update_idx t) ssid res fetch
      (elements_stored p2p (old ≫= λ p, heap t !! p) (is_given (o_realloc o)) res) b.
Proof.
  intros Ht Hs Hn Ha Hz. destruct (update_scan_res_ok p2p malloc_ok t res fetch o Ht Hs Hn)
    as (t' & -> & _ & _ & H). destruct (H ssid Ha Hz) as (old & q & b & H1 & H2). by exists old, t', q, b.
Qed.

(** The table with one access point; heard with longer elements, its entry is
    moved by the allocator. *)
Definition table_of_one : bss_table := Eval vm_compute in
  match wpa_bss_update_scan_res true (λ _, true) (empty_table 200 []) (ap 1 3) (10, 0) (Oracle (Some 1000) None true) with
  | Ret t => t | _ => empty_table 200 [] end.

Lemma table_of_one_ok : table_ok table_of_one.
Proof.
  destruct (update_scan_res_ok true (λ _, true) (empty_table 200 []) (ap 1 3) (10, 0) (Oracle (Some 1000) None true))
    as (t' & E & Ht & _); [by apply empty_ok|apply scan_okb_sound; by vm_compute|by vm_compute|].
  assert (Hd : table_of_one = match wpa_bss_update_scan_res true (λ _, true) (empty_table 200 []) (ap 1 3) (10, 0)
    (Oracle (Some 1000) None true) with Ret t => t | _ => empty_table 200 [] end) by by vm_compute.
  by rewrite Hd, E.
Qed.

Lemma scan_result_stored_witness :
  ∃ old t' q b, wpa_bss_get table_of_one [2; 0; 0; 0; 0; 1] [97; 97; 97] = Ret old ∧
    wpa_bss_update_scan_res true (λ _, true) table_of_one (ap_more 1 3) (10, 0) (Oracle (Some 2000) (Some 3000) true) = Ret t' ∧
    wpa_bss_get t' [2; 0; 0; 0; 0; 1] [97; 97; 97] = Ret (Some q) ∧ heap t' !! q = Some b ∧
    shows 0 [97; 97; 97] (ap_more 1 3) (10, 0)
      (elements_stored true (old ≫= λ p, heap table_of_one !! p) true (ap_more 1 3)) b.
Proof.
  refine (scan_result_stored true _ table_of_one (ap_more 1 3) _ _ _ _ _ _ _ _).
  - apply table_of_one_ok.
  - apply scan_okb_sound. by vm_compute.
  - by vm_compute.
  - by vm_compute.
  - by exists 2000.
Defined.

(** Whether the end of a scan says what is gone. *)
Definition scan_counts (info : option scan_info) (new_scan : bool) : bool :=
  negb (match info with Some i => si_aborted i | None => false end) && new_scan.

(** The end of a scan that counts leaves exactly the entries it should: those
    in use or not included in the scan as they were, the others with the scans
    that missed them counted, unless they were missed too often. *)
Theorem scan_end_expires t info new_scan now :
  table_ok t →
  ∃ t', wpa_bss_update_end t info new_scan now = Ret t' ∧ table_ok t' ∧
    ∀ p, heap t' !! p =
      if scan_counts info new_scan then heap t !! p ≫= expire_entry info t p else heap t !! p.
Proof.
  intros Ht. destruct (update_end_ok t info new_scan now Ht) as (t' & ? & ? & _ & Hh). exists t'.
  split_and!; [done..|]. intros p. rewrite Hh. unfold scan_counts.
  by destruct (match info with Some _ => _ | None => _ end), new_scan.
Qed.

(** The table of the example when the entries were last seen two scans ago. *)
Definition stale_table : bss_table :=
  match bss_run true (λ _, true) (empty_table 200 []) (take 10 life_of_entry) with
  | Ret t => t
  | _ => empty_table 200 []
  end.

Lemma stale_ok : table_ok stale_table.
Proof.
  destruct (calls_run_ok true (λ _, true) (empty_table 200 []) (take 10 life_of_entry)) as (t & E & Ht).
  - by apply empty_ok.
  - apply calls_okb_sound. by vm_compute.
  - unfold stale_table. by rewrite E.
Qed.

Lemma scan_end_expires_witness :
  ∃ t', wpa_bss_update_end stale_table None true (40, 0) = Ret t' ∧ table_ok t' ∧
    ∀ p, heap t' !! p =
      if scan_counts None true then heap stale_table !! p ≫= expire_entry None stale_table p
      else heap stale_table !! p.
Proof. exact (scan_end_expires stale_table None true (40, 0) stale_ok). Defined.

(** In the example one of the two entries that went unseen stays: it is the one
    the daemon is connected to. *)
Example entry_expires :
  match bss_run true (λ _, true) (empty_table 200 []) life_of_entry with
  | Ret t => (num_bss stale_table, num_bss t, bss_lru t)
  | _ => (0, 0, [])
  end = (2, 1, [2000]).
Proof. by vm_compute. Qed.

(** *** The entry of the current BSS

    An entry that matches no configured name goes first when the table is full,
    even when it is the current BSS: a network block without a name accepts any
    access point, but makes none known.  The pointer stays behind, and the next
    question whether an entry is in use follows it. *)
Definition full_table : bss_table :=
  match bss_run true (λ _, true) (empty_table 1 [zalloc_ssid])
          [UpdateStart; UpdateScanRes (ap 1 3) (10, 0) (Oracle (Some 1000) None true)] with
  | Ret t => with_pointers t (last_scan_res t) (last_scan_res_size t) (Some 1000) (connect_work t)
  | _ => empty_table 1 []
  end.

Lemma current_entry_freed :
  (t ← wpa_bss_update_scan_res true (λ _, true) full_table (ap 2 4) (20, 0) (Oracle (Some 2000) None true);
   Ret (heap t !! 1000, current_bss t)) = Ret (None, Some 1000) ∧
  bss_run true (λ _, true) full_table
    [UpdateScanRes (ap 2 4) (20, 0) (Oracle (Some 2000) None true); UpdateEnd None true (20, 0)]
    = UB "freed BSS entry".
Proof. split; vm_compute; done. Qed.

(** *** The first identifier of a range *)
Lemma get_id_range_first t idf idl :
  table_ok t →
  ∃ r, wpa_bss_get_id_range t idf idl = Ret r ∧
    match r with
    | Some p => ∃ b, heap t !! p = Some b ∧ idf ≤ bss_id b ≤ idl ∧
        ∀ q c, heap t !! q = Some c → idf ≤ bss_id c → bss_id b ≤ bss_id c
    | None => ∀ q c, heap t !! q = Some c → ¬ idf ≤ bss_id c ≤ idl
    end.
Proof.
  intros Ht. unfold wpa_bss_get_id_range.
  assert (Hin : ∀ p, p ∈ bss_ids t ↔ is_Some (heap t !! p)) by (intros p; by rewrite (tk_ids t Ht), (tk_heap t Ht)).
  destruct (find_bss_spec t (λ b, (idf <=? bss_id b) && (bss_id b <=? idl)) (bss_ids t)) as (r & -> & Hr);
    [by intros p ?%Hin|]. exists r. split; [done|]. destruct r as [p|].
  - destruct Hr as (l1 & l2 & b & El & Hb & Htest & Hf). zbool. exists b. split_and!; [done|lia|lia|].
    intros q c Hc Hlo. assert (Hq : q ∈ bss_ids t) by (apply Hin; eauto).
    pose proof (tk_id_order t Ht) as Ho. rewrite El in Hq, Ho. apply elem_of_app in Hq as [Hq|Hq].
    + rewrite Forall_forall in Hf. specialize (Hf q Hq c Hc). apply andb_false_iff in Hf as [?|?]; zbool; lia.
    + apply elem_of_cons in Hq as [->|Hq]; [by simplify_eq|]. unfold ordered in Ho.
      apply StronglySorted_app_1_r in Ho. apply StronglySorted_inv in Ho as [_ Ho].
      rewrite Forall_forall in Ho. specialize (Ho q Hq b c Hb Hc). lia.
  - cbn in Hr. intros q c Hc [? ?]. rewrite Forall_forall in Hr.
    assert (Hq : q ∈ bss_ids t) by (apply Hin; eauto). specialize (Hr q Hq c Hc).
    apply andb_false_iff in Hr as [?|?]; zbool; lia.
Qed.
