(* ===== verification/CtrlBss.v ===== *)
(** * The BSS command (wpa_supplicant/ctrl_iface.c)

    One field per line for each entry that the command selects: a range of
    identifiers, the first or last entry, the one behind another, an address or
    a position.  A mask selects the fields.  The build is that of the
    repository, without CONFIG_WPS, CONFIG_P2P, CONFIG_MESH, CONFIG_FST,
    CONFIG_INTERWORKING and CONFIG_WIFI_DISPLAY, which add fields; the options
    for elements are those of [build].  [now] is the time when an entry is
    printed. *)

From stdpp Require Import gmap.
From S2P Require Import Prelude CString CliUtil Common Printing WpaIe WpaCommon Bss CtrlScan Network BssTable.

Definition WPA_BSS_MASK_ALL : Z := 0xFFFDFFFF.
Definition WPA_BSS_MASK_ID : Z := BIT 0.
Definition WPA_BSS_MASK_BSSID : Z := BIT 1.
Definition WPA_BSS_MASK_FREQ : Z := BIT 2.
Definition WPA_BSS_MASK_BEACON_INT : Z := BIT 3.
Definition WPA_BSS_MASK_CAPABILITIES : Z := BIT 4.
Definition WPA_BSS_MASK_QUAL : Z := BIT 5.
Definition WPA_BSS_MASK_NOISE : Z := BIT 6.
Definition WPA_BSS_MASK_LEVEL : Z := BIT 7.
Definition WPA_BSS_MASK_TSF : Z := BIT 8.
Definition WPA_BSS_MASK_AGE : Z := BIT 9.
Definition WPA_BSS_MASK_IE : Z := BIT 10.
Definition WPA_BSS_MASK_FLAGS : Z := BIT 11.
Definition WPA_BSS_MASK_SSID : Z := BIT 12.
Definition WPA_BSS_MASK_DELIM : Z := BIT 17.
Definition WPA_BSS_MASK_SNR : Z := BIT 19.
Definition WPA_BSS_MASK_EST_THROUGHPUT : Z := BIT 20.

(** ** The C library *)

(** At least [n] characters, with zeros in front. *)
Definition zero_padded (n : nat) (s : str) : str := replicate (n - length s) 48 ++ s.

(** "%04x" and "%016llu". *)
Definition fmt_04x (n : Z) : str := zero_padded 4 (fmt_base 8 16 n []).
Definition fmt_016llu (n : Z) : str := zero_padded 16 (fmt_base 20 10 n []).

Definition hex_value (c : Z) : option Z :=
  if isdigit c then Some (c - 48)
  else if (97 <=? tolower c) && (tolower c <=? 102) then Some (tolower c - 87)
  else None.

Fixpoint hex_digits (acc : Z) (s : str) : Z :=
  match s with
  | c :: s' => match hex_value c with Some v => hex_digits (acc * 16 + v) s' | None => acc end
  | [] => acc
  end.

(** "0x" counts as a prefix when a digit follows; otherwise its zero is the
    number. *)
Definition skip_0x (s : str) : str :=
  match s with
  | 48 :: x :: c :: s' => if (tolower x =? 120) && found (hex_value c) then c :: s' else s
  | _ => s
  end.

(** [strtoul] to the base 16, with 64 bits. *)
Definition strtoul16 (s : str) : Z :=
  let value s := Z.min 18446744073709551615 (hex_digits 0 (skip_0x s)) in
  match skip_space s with
  | 45 :: s' => if 18446744073709551615 <? hex_digits 0 (skip_0x s') then 18446744073709551615
                else u64 (- value s')
  | 43 :: s' => value s'
  | s' => value s'
  end.

(** ** The fields of an entry *)

Section build.
Context (cfg : build).

Definition row (mask flag : Z) (t : str) : list str := if has mask flag then [t ++ [NL]] else [].

(** The fields before the flags, as they are printed one by one. *)
Definition info_head (mask now : Z) (bss : wpa_bss) (ies : list Z) : list str :=
  row mask WPA_BSS_MASK_ID (lit "id=" ++ fmt_u (bss_id bss))
  ++ row mask WPA_BSS_MASK_BSSID (lit "bssid=" ++ macstr (bss_bssid bss))
  ++ row mask WPA_BSS_MASK_FREQ (lit "freq=" ++ fmt_d (bss_freq bss))
  ++ row mask WPA_BSS_MASK_BEACON_INT (lit "beacon_int=" ++ fmt_d (bss_beacon_int bss))
  ++ row mask WPA_BSS_MASK_CAPABILITIES (lit "capabilities=0x" ++ fmt_04x (bss_caps bss))
  ++ row mask WPA_BSS_MASK_QUAL (lit "qual=" ++ fmt_d (bss_qual bss))
  ++ row mask WPA_BSS_MASK_NOISE (lit "noise=" ++ fmt_d (bss_noise bss))
  ++ row mask WPA_BSS_MASK_LEVEL (lit "level=" ++ fmt_d (bss_level bss))
  ++ row mask WPA_BSS_MASK_TSF (lit "tsf=" ++ fmt_016llu (bss_tsf bss))
  ++ row mask WPA_BSS_MASK_AGE (lit "age=" ++ fmt_d (to_int32 (now - (last_update bss).1)))
  ++ (if has mask WPA_BSS_MASK_IE then lit "ie=" :: (fmt_02x <$> ies) ++ [[NL]] else []).

(** The flags behind those of the elements. *)
Definition info_flags (bss : wpa_bss) (ie ie2 osen_ie p2p hs20 : bool) : list str :=
  flag_texts bss (negb ie && negb ie2 && negb osen_ie && has (bss_caps bss) IEEE80211_CAP_PRIVACY)
    false p2p hs20 false ++ [[NL]].

(** The fields behind the flags. *)
Definition info_tail (mask : Z) (bss : wpa_bss) (txt : str) : list str :=
  row mask WPA_BSS_MASK_SSID (lit "ssid=" ++ txt)
  ++ row mask WPA_BSS_MASK_SNR (lit "snr=" ++ fmt_d (bss_snr bss))
  ++ row mask WPA_BSS_MASK_EST_THROUGHPUT (lit "est_throughput=" ++ fmt_d (bss_est_throughput bss))
  ++ row mask WPA_BSS_MASK_DELIM (lit "====").

(** The line of the flags: whether it fits. *)
Definition print_flags (bss : wpa_bss) (b : buf) (pos end_ : Z) : outcome (bool * Z * buf) :=
  '(ok, pos, b) ← print_seq b pos end_ [lit "flags="];
  if negb ok then Ret (false, pos, b)
  else
    ie ← wpa_bss_get_vendor_ie bss WPA_IE_VENDOR_TYPE;
    '(pos, b) ← elem_txt cfg bss b pos end_ (lit "WPA") ie;
    ie2 ← wpa_bss_get_ie bss WLAN_EID_RSN;
    '(pos, b) ← elem_txt cfg bss b pos end_ (lit "WPA2") ie2;
    osen_ie ← wpa_bss_get_vendor_ie bss OSEN_IE_VENDOR_TYPE;
    '(pos, b) ← elem_txt cfg bss b pos end_ (lit "OSEN") osen_ie;
    '(pos, b) ← wpa_supplicant_wps_ie_txt b pos end_ bss;
    p2p ← wpa_bss_get_vendor_ie bss P2P_IE_VENDOR_TYPE;
    p2p ← match p2p with
          | None => wpa_bss_get_vendor_ie_beacon bss P2P_IE_VENDOR_TYPE
          | Some _ => Ret p2p
          end;
    hs20 ← (if CONFIG_HS20 cfg then
              h ← wpa_bss_get_vendor_ie bss HS20_IE_VENDOR_TYPE; Ret (found h)
            else Ret false);
    print_seq b pos end_ (info_flags bss (found ie) (found ie2) (found osen_ie) (found p2p) hs20).

(** The length of the text, or 0 when some of it does not fit. *)
Definition print_bss_info (bss : wpa_bss) (mask now : Z) (b : buf) (start end_ : Z) : outcome (Z * buf) :=
  ies ← (if has mask WPA_BSS_MASK_IE then bytes_at (bss_ies bss) 0 (ie_len bss) else Ret []);
  '(ok, pos, b) ← print_seq b start end_ (info_head mask now bss ies);
  if negb ok then Ret (0, b)
  else
    '(ok, pos, b) ← (if has mask WPA_BSS_MASK_FLAGS then print_flags bss b pos end_ else Ret (true, pos, b));
    if negb ok then Ret (0, b)
    else
      txt ← (if has mask WPA_BSS_MASK_SSID then ssid_text (Some (bss_ssid bss)) else Ret []);
      '(ok, pos, b) ← print_seq b pos end_ (info_tail mask bss txt);
      if negb ok then Ret (0, b) else Ret (pos - start, b).

(** ** The selection *)

(** The entry behind [p] in the order of the identifiers. *)
Fixpoint next_ptr (l : list Z) (p : Z) : option Z :=
  match l with
  | [] => None
  | q :: l' => if q =? p then head l' else next_ptr l' p
  end.

Fixpoint from_ptr (l : list Z) (p : Z) : list Z :=
  match l with
  | [] => []
  | q :: l' => if q =? p then l else from_ptr l' p
  end.

(** The last entry behind [tmp] up to the identifier [id2]. *)
Fixpoint last_upto (t : bss_table) (id2 : Z) (l : list Z) (bsslast : option Z) : outcome (option Z) :=
  match l with
  | [] => Ret bsslast
  | q :: l' => b ← deref t q; if id2 <? bss_id b then Ret bsslast else last_upto t id2 l' (Some q)
  end.

(** The first and the last entry of RANGE=; [None] for a wrong format. *)
Definition bss_range (t : bss_table) (arg : str) : outcome (option (option Z * option Z)) :=
  if strncmp_eq arg (lit "ALL") 3 then Ret (Some (head (bss_ids t), last (bss_ids t)))
  else
    match strchr arg 45 with
    | None => Ret None
    | Some i =>
        let id1 := if bool_decide (i = 0%nat) then 0 else u32 (atoi arg) in
        let ctmp := drop (S i) arg in
        let id2 := match ctmp with
                   | c :: _ => if isdigit c then u32 (atoi ctmp) else 4294967295
                   | [] => 4294967295
                   end in
        bss ← wpa_bss_get_id_range t id1 id2;
        bsslast ← (if id2 =? 4294967295 then Ret (last (bss_ids t))
                   else
                     bsslast ← wpa_bss_get_id t id2;
                     match bsslast, bss with
                     | None, Some p =>
                         if id1 <? id2 then last_upto t id2 (drop 1 (from_ptr (bss_ids t) p)) None
                         else Ret None
                     | _, _ => Ret bsslast
                     end);
        Ret (Some (bss, bsslast))
    end.

Definition select_bss (t : bss_table) (cmd : str) : outcome (option (option Z * option Z)) :=
  let one p := Ret (Some (p, None)) in
  if strncmp_eq cmd (lit "RANGE=") 6 then bss_range t (drop 6 cmd)
  else if strncmp_eq cmd (lit "FIRST") 5 then one (head (bss_ids t))
  else if strncmp_eq cmd (lit "LAST") 4 then one (last (bss_ids t))
  else if strncmp_eq cmd (lit "ID-") 3 then p ← wpa_bss_get_id t (u32 (atoi (drop 3 cmd))); one p
  else if strncmp_eq cmd (lit "NEXT-") 5 then
    p ← wpa_bss_get_id t (u32 (atoi (drop 5 cmd)));
    one match p with Some p => next_ptr (bss_ids t) p | None => None end
  else
    match hwaddr_aton cmd with
    | Some bssid => p ← wpa_bss_get_bssid t bssid; one p
    | None =>
        let i := u64 (atoi cmd) in
        one (if i <? Z.of_nat (length (bss_ids t)) then bss_ids t !! Z.to_nat i else None)
    end.

Definition bss_mask (cmd : str) : Z :=
  match strstr cmd (lit "MASK=") with
  | Some i => let mask := strtoul16 (drop (i + 5) cmd) in if mask =? 0 then WPA_BSS_MASK_ALL else mask
  | None => WPA_BSS_MASK_ALL
  end.

(** ** The reply *)

(** [l] is what remains of the list of identifiers, from the next entry on. *)
Fixpoint bss_loop (t : bss_table) (mask : Z) (now : Z → Z) (bsslast : Z) (l : list Z) (b : buf) (pos end_ : Z)
    : outcome (Z * buf) :=
  match l with
  | [] => Ret (pos, b)
  | p :: l' =>
      bss ← deref t p;
      '(len, b) ← print_bss_info bss mask (now p) b pos end_;
      let pos := pos + len in
      if p =? bsslast then
        if has mask WPA_BSS_MASK_DELIM && negb (len =? 0) && bool_decide (last (bss_ids t) = Some p) then
          '(_, b) ← append b (pos - 5) end_ (lit "####" ++ [NL]); Ret (pos, b)
        else Ret (pos, b)
      else if len =? 0 then Ret (pos, b)
      else bss_loop t mask now bsslast l' b pos end_
  end.

Definition wpa_supplicant_ctrl_iface_bss (t : bss_table) (now : Z → Z) (cmd : str) (b : buf) (buflen : Z)
    : outcome (Z * buf) :=
  sel ← select_bss t cmd;
  match sel with
  | None | Some (None, _) => Ret (0, b)
  | Some (Some bss, bsslast) =>
      bss_loop t (bss_mask cmd) now (default bss bsslast) (from_ptr (bss_ids t) bss) b 0 buflen
  end.
End build.
