(* ===== verification/CtrlBssSpec.v ===== *)
(** * The BSS command: theorems

    Whatever the table and the command, the reply is text inside the buffer of
    the reply.  A range of identifiers selects the entries in that range, in
    the order of the identifiers, and all their fields are printed when there is
    room for them. *)

From stdpp Require Import gmap sorting.
From S2P Require Import Prelude CString CliUtil Common CommonLists Printing WpaIe WpaCommon WpaSpec Bss.
From S2P Require Import CtrlScan CtrlScanSpec.
From S2P Require Import Network BssTable BssTableSpec CtrlBss.

Section build.
Context (cfg : build).

(** ** One entry *)

Definition info_elems (bss : wpa_bss) : str :=
  elem_text cfg bss (lit "WPA") (vendor_of bss WPA_IE_VENDOR_TYPE)
  ++ elem_text cfg bss (lit "WPA2") (ie_of bss WLAN_EID_RSN)
  ++ elem_text cfg bss (lit "OSEN") (vendor_of bss OSEN_IE_VENDOR_TYPE).

Definition flags_shown (bss : wpa_bss) : list str :=
  info_flags bss (found (vendor_of bss WPA_IE_VENDOR_TYPE)) (found (ie_of bss WLAN_EID_RSN))
    (found (vendor_of bss OSEN_IE_VENDOR_TYPE)) (found (p2p_of bss))
    (CONFIG_HS20 cfg && found (vendor_of bss HS20_IE_VENDOR_TYPE)).

Definition flags_text (bss : wpa_bss) : str := lit "flags=" ++ info_elems bss ++ concat (flags_shown bss).

Definition head_rows (mask now : Z) (bss : wpa_bss) : list str :=
  info_head mask now bss (if has mask WPA_BSS_MASK_IE then between (bss_ies bss) 0 (ie_len bss) else []).

Definition tail_rows (mask : Z) (bss : wpa_bss) : list str :=
  info_tail mask bss (if has mask WPA_BSS_MASK_SSID then escaped (bss_ssid bss) else []).

Definition info_text (mask now : Z) (bss : wpa_bss) : str :=
  concat (head_rows mask now bss)
  ++ (if has mask WPA_BSS_MASK_FLAGS then flags_text bss else [])
  ++ concat (tail_rows mask bss).

Definition print_info_elems (bss : wpa_bss) (buflen : Z) (b : buf) (pos : Z) : outcome (Z * buf) :=
  '(pos, b) ← elem_txt cfg bss b pos buflen (lit "WPA") (vendor_of bss WPA_IE_VENDOR_TYPE);
  '(pos, b) ← elem_txt cfg bss b pos buflen (lit "WPA2") (ie_of bss WLAN_EID_RSN);
  elem_txt cfg bss b pos buflen (lit "OSEN") (vendor_of bss OSEN_IE_VENDOR_TYPE).

Lemma print_info_elems_prints bss buflen :
  bss_ok bss → prints buflen (print_info_elems bss buflen) (info_elems bss).
Proof.
  intros Hok. pose proof Hok as [_ Hlen _ _]. unfold info_elems, print_info_elems.
  apply prints_seq; [|apply prints_seq];
    (eapply (elem_prints cfg buflen bss _ _ 0 (0 + ie_len bss)); [done|lia|lia|by vm_compute|reflexivity]).
Qed.

Lemma print_flags_steps bss b start end_ : bss_ok bss →
  print_flags cfg bss b start end_ =
  ('(ok, pos, b) ← print_seq b start end_ [lit "flags="];
   if negb ok then Ret (false, pos, b)
   else '(pos, b) ← print_info_elems bss end_ b pos; print_seq b pos end_ (flags_shown bss)).
Proof.
  intros Hok. unfold print_flags.
  rewrite (bss_get_vendor_ie bss P2P_IE_VENDOR_TYPE Hok), (bss_get_vendor_ie_beacon bss _ Hok),
    (bss_get_vendor_ie bss WPA_IE_VENDOR_TYPE Hok), (bss_get_vendor_ie bss OSEN_IE_VENDOR_TYPE Hok),
    (bss_get_vendor_ie bss HS20_IE_VENDOR_TYPE Hok), !(bss_get_ie bss _ Hok).
  destruct (print_seq b start end_ _) as [[[[] p0] c0]| |]; try done. ret_simpl. cbn [negb].
  unfold print_info_elems. fold (vendor_of bss WPA_IE_VENDOR_TYPE) (ie_of bss WLAN_EID_RSN)
    (vendor_of bss OSEN_IE_VENDOR_TYPE) (vendor_of bss HS20_IE_VENDOR_TYPE).
  destruct (elem_txt cfg bss c0 p0 _ _ _) as [[p1 c1]| |]; ret_simpl; [|done..].
  destruct (elem_txt cfg bss c1 p1 _ _ _) as [[p2 c2]| |]; ret_simpl; [|done..].
  destruct (elem_txt cfg bss c2 p2 _ _ _) as [[p3 c3]| |]; ret_simpl; [|done..].
  unfold wpa_supplicant_wps_ie_txt, flags_shown. ret_simpl.
  assert (Hp2p : match locate (vendor_elem P2P_IE_VENDOR_TYPE) 0 (probe_elements bss) with
                 | Some _ => Ret (locate (vendor_elem P2P_IE_VENDOR_TYPE) 0 (probe_elements bss))
                 | None => Ret (locate (vendor_elem P2P_IE_VENDOR_TYPE) (ie_len bss) (beacon_elements bss))
                 end = Ret (p2p_of bss)).
  { unfold p2p_of, vendor_of. by destruct (locate _ 0 _). }
  rewrite Hp2p. ret_simpl. by destruct (CONFIG_HS20 cfg).
Qed.

(** [f] adds text within the buffer or gives up; it adds [full] when there is
    room for it.  [P] is known of what it adds and of the end of the text. *)
Definition tries (buflen : Z) (f : buf → Z → outcome (bool * Z * buf)) (full : str) (P : str → Z → Prop) : Prop :=
  ∀ b u, room b buflen → built b u → strlen u ≤ buflen →
  ∃ ok p b', f b (strlen u) = Ret (ok, p, b') ∧ length b' = length b ∧ built b' u ∧
    (ok = true → ∃ v, p = strlen (u ++ v) ∧ built b' (u ++ v) ∧ strlen (u ++ v) ≤ buflen ∧ P v p ∧
      (strlen u + strlen full < buflen → v = full)) ∧
    (strlen u + strlen full < buflen → ok = true).

Definition printed (buflen : Z) (ts : list str) (v : str) (p : Z) : Prop :=
  v = concat ts ∧ (ts ≠ [] → p < buflen).

(** What is known of the end of the text is known of more text. *)
Definition ends (P : str → Z → Prop) (v : str) (p : Z) : Prop := ∃ w1 w2, v = w1 ++ w2 ∧ P w2 p.

Lemma tries_seq buflen ts : short_strings ts →
  tries buflen (λ b pos, print_seq b pos buflen ts) (concat ts) (printed buflen ts).
Proof.
  intros Hs b u Hr Hu Hl. destruct (print_seq_spec ts b buflen u Hr Hu Hl Hs) as (b' & H1 & H2 & H3 & H4).
  rewrite H1. do 3 eexists. split_and!; [done|done|by eapply built_prefix| |].
  - intros Hf. rewrite (fits_fitting _ _ Hf) in *. exists (concat ts). split_and!; try done. split; [done|].
    intros Hne. destruct ts as [|t ts]; [done|]. rewrite fits_concat in Hf. zbool. rewrite strlen_app. lia.
  - intros Hfit. apply fits_short. lia.
Qed.

(** A printer that always goes on, and one that may give up. *)
Lemma tries_after buflen f g s t P :
  prints buflen f s → tries buflen g t P →
  tries buflen (λ b pos, '(pos, b) ← f b pos; g b pos) (s ++ t) (ends P).
Proof.
  intros Hf Hg b u Hr Hu Hl. pose proof (strlen_nonneg t).
  destruct (Hf b u Hr Hu Hl) as (v & b1 & -> & Hb1 & Hl1 & He1 & Hs). ret_simpl.
  destruct (Hg b1 (u ++ v)) as (ok & p & b2 & -> & Hl2 & Hb2 & Hok & Ht); [by eapply room_length|done|done|].
  exists ok, p, b2. split_and!; [done|congruence|by eapply built_prefix| |].
  - intros E. destruct (Hok E) as (w & -> & Hw & He2 & HP & Hfull). exists (v ++ w). rewrite app_assoc.
    split_and!; [done..|by exists v, w|]. rewrite strlen_app. intros Hfit. rewrite Hs in * by lia.
    rewrite strlen_app in Hfull. by rewrite Hfull by lia.
  - rewrite strlen_app. intros Hfit. rewrite Hs in * by lia. rewrite strlen_app in Ht. apply Ht. lia.
Qed.

(** One that may give up before another. *)
Lemma tries_then buflen f g s t P Q :
  tries buflen f s P → tries buflen g t Q →
  tries buflen (λ b pos, '(ok, pos, b) ← f b pos; if negb ok then Ret (false, pos, b) else g b pos) (s ++ t) (ends Q).
Proof.
  intros Hf Hg b u Hr Hu Hl. pose proof (strlen_nonneg t).
  destruct (Hf b u Hr Hu Hl) as (ok1 & p1 & b1 & -> & Hl1 & Hb1 & Hok1 & Ht1). ret_simpl. destruct ok1; cbn [negb].
  - destruct (Hok1 eq_refl) as (v & -> & Hv & Hlv & _ & Hs).
    destruct (Hg b1 (u ++ v)) as (ok & p & b2 & -> & Hl2 & Hb2 & Hok & Ht); [by eapply room_length|done|done|].
    exists ok, p, b2. split_and!; [done|congruence|by eapply built_prefix| |].
    + intros E. destruct (Hok E) as (w & -> & Hw & He2 & HP & Hfull). exists (v ++ w). rewrite app_assoc.
      split_and!; [done..|by exists v, w|]. rewrite strlen_app. intros Hfit. rewrite Hs in * by lia.
      rewrite strlen_app in Hfull. by rewrite Hfull by lia.
    + rewrite strlen_app. intros Hfit. rewrite Hs in * by lia. rewrite strlen_app in Ht. apply Ht. lia.
  - exists false, p1, b1. split_and!; [done..|]. rewrite strlen_app. intros Hfit. apply Ht1. lia.
Qed.

Lemma tries_nothing buflen P : (∀ p, P [] p) → tries buflen (λ b pos, Ret (true, pos, b)) [] P.
Proof.
  intros HP b u Hr Hu Hl. exists true, (strlen u), b. split_and!; try done. intros _. exists []. by rewrite app_nil_r.
Qed.

(** Lines are short. *)
Lemma row_short mask flag t : strlen t < 1000 → short_strings (row mask flag t).
Proof.
  intros Ht. unfold row. case_if; [|constructor]. constructor; [|constructor]. rewrite strlen_app.
  change (strlen [NL]) with 1. lia.
Qed.

Lemma zero_padded_length n s : strlen (zero_padded n s) ≤ Z.of_nat n + strlen s.
Proof. unfold zero_padded, strlen. rewrite length_app, length_replicate. lia. Qed.

Lemma fmt_base_short fuel base n : strlen (fmt_base fuel base n []) ≤ Z.of_nat fuel.
Proof. unfold strlen. pose proof (fmt_base_length fuel base n []). cbn in *. lia. Qed.

Lemma fmt_02x_short n : strlen (fmt_02x n) ≤ 9.
Proof.
  unfold fmt_02x. pose proof (fmt_base_short 8 16 n). destruct (_ <? 2)%nat; [|lia].
  unfold strlen in *. cbn [length]. lia.
Qed.

Lemma head_rows_short mask now bss : bss_ok bss → short_strings (head_rows mask now bss).
Proof.
  intros [_ _ [Hmac _] _]. unfold head_rows, info_head, short_strings.
  pose proof (macstr_short _ Hmac).
  assert (Hu : strlen (fmt_u (bss_id bss)) ≤ 11) by apply (fmt_base_short 11 10).
  assert (H4 : strlen (fmt_04x (bss_caps bss)) ≤ 12).
  { etrans; [apply zero_padded_length|]. pose proof (fmt_base_short 8 16 (bss_caps bss)). lia. }
  assert (H16 : strlen (fmt_016llu (bss_tsf bss)) ≤ 36).
  { etrans; [apply zero_padded_length|]. pose proof (fmt_base_short 20 10 (bss_tsf bss)). lia. }
  pose proof (fmt_d_short (bss_freq bss)). pose proof (fmt_d_short (bss_beacon_int bss)).
  pose proof (fmt_d_short (bss_qual bss)). pose proof (fmt_d_short (bss_noise bss)).
  pose proof (fmt_d_short (bss_level bss)). pose proof (fmt_d_short (to_int32 (now - (last_update bss).1))).
  repeat (apply Forall_app; split); try (apply row_short; rewrite strlen_app;
    match goal with |- context [strlen (lit ?x)] => let n := eval vm_compute in (strlen (lit x)) in
      change (strlen (lit x)) with n end; lia).
  destruct (has mask WPA_BSS_MASK_IE); [|constructor]. constructor; [done|]. apply Forall_app. split.
  - apply Forall_fmap, Forall_true. intros c. cbn. pose proof (fmt_02x_short c). lia.
  - by apply (bool_decide_unpack _).
Qed.

Lemma flags_shown_short bss : short_strings (flags_shown bss).
Proof. apply Forall_app. split; [apply flags_short|by apply (bool_decide_unpack _)]. Qed.

Lemma tail_rows_short mask bss : bss_ok bss → short_strings (tail_rows mask bss).
Proof.
  intros [_ _ _ [Hs Hb]]. unfold tail_rows, info_tail, short_strings.
  pose proof (fmt_d_short (bss_snr bss)). pose proof (fmt_d_short (bss_est_throughput bss)).
  pose proof (escaped_short _ Hb). unfold SSID_MAX_LEN in Hs.
  assert (He : strlen (if has mask WPA_BSS_MASK_SSID then escaped (bss_ssid bss) else []) ≤ 128).
  { case_if; [lia|]. by vm_compute. }
  repeat (apply Forall_app; split); try (apply row_short; rewrite ?strlen_app;
    repeat match goal with |- context [strlen (lit ?x)] => let n := eval vm_compute in (strlen (lit x)) in
      change (strlen (lit x)) with n end; lia).
Qed.

Lemma print_flags_tries bss buflen :
  bss_ok bss → tries buflen (λ b pos, print_flags cfg bss b pos buflen) (flags_text bss) (λ _ _, True).
Proof.
  intros Hok b u Hr Hu Hl. unfold flags_text.
  destruct (tries_then buflen (λ b pos, print_seq b pos buflen [lit "flags="])
    (λ b pos, '(pos, b) ← print_info_elems bss buflen b pos; print_seq b pos buflen (flags_shown bss))
    (concat [lit "flags="]) (info_elems bss ++ concat (flags_shown bss))
    (printed buflen [lit "flags="]) (ends (printed buflen (flags_shown bss)))) with (b := b) (u := u)
    as (ok & p & b' & E & H1 & H2 & H3 & H4); [apply tries_seq; by apply (bool_decide_unpack _)| |done..|].
  - apply tries_after; [by apply print_info_elems_prints|apply tries_seq, flags_shown_short].
  - exists ok, p, b'. rewrite print_flags_steps by done. cbn [concat] in *. rewrite app_nil_r in *.
    split_and!; [exact E|done|done| |done]. intros Hok'. destruct (H3 Hok') as (v & ? & ? & ? & _ & ?). by exists v.
Qed.

(** All the fields, as one attempt. *)
Lemma info_steps bss mask now b start end_ : bss_ok bss →
  print_bss_info cfg bss mask now b start end_ =
  ('(ok, pos, b) ←
     ('(ok, pos, b) ← print_seq b start end_ (head_rows mask now bss);
      if negb ok then Ret (false, pos, b)
      else
        '(ok, pos, b) ← (if has mask WPA_BSS_MASK_FLAGS then print_flags cfg bss b pos end_
                         else Ret (true, pos, b));
        if negb ok then Ret (false, pos, b) else print_seq b pos end_ (tail_rows mask bss));
   if negb ok then Ret (0, b) else Ret (pos - start, b)).
Proof.
  intros Hok. pose proof Hok as [Hm Hlen _ [Hs Hsb]]. unfold print_bss_info, head_rows, tail_rows.
  assert (Hi : (if has mask WPA_BSS_MASK_IE then bytes_at (bss_ies bss) 0 (ie_len bss) else Ret [])
    = Ret (if has mask WPA_BSS_MASK_IE then between (bss_ies bss) 0 (ie_len bss) else [])).
  { case_if; [|done]. rewrite bytes_at_between by lia. by rewrite Z.add_0_l. }
  rewrite Hi. ret_simpl.
  assert (Ht : (if has mask WPA_BSS_MASK_SSID then ssid_text (Some (bss_ssid bss)) else Ret [])
    = Ret (if has mask WPA_BSS_MASK_SSID then escaped (bss_ssid bss) else [])).
  { case_if; [|done]. by apply ssid_text_spec. }
  rewrite Ht. destruct (print_seq b start end_ _) as [[[ok p] c]| |]; ret_simpl; try done.
  destruct ok; cbn [negb]; ret_simpl; [|done].
  destruct (if has mask WPA_BSS_MASK_FLAGS then _ else _) as [[[ok p2] c2]| |]; ret_simpl; try done.
  by destruct ok.
Qed.

Definition delim : str := lit "====" ++ [NL].

Lemma tail_delim mask bss : has mask WPA_BSS_MASK_DELIM = true → ∃ ts, tail_rows mask bss = ts ++ [delim].
Proof. intros Hd. unfold tail_rows, info_tail. eexists. rewrite !app_assoc. f_equal. unfold row. by rewrite Hd. Qed.

Lemma info_spec bss mask now b u buflen :
  bss_ok bss → room b buflen → built b u → strlen u ≤ buflen →
  ∃ v b', print_bss_info cfg bss mask now b (strlen u) buflen = Ret (strlen v, b') ∧
    built b' (u ++ v) ∧ length b' = length b ∧ strlen (u ++ v) ≤ buflen ∧
    (strlen u + strlen (info_text mask now bss) < buflen → v = info_text mask now bss) ∧
    (has mask WPA_BSS_MASK_DELIM = true → v = [] ∨ ∃ w, v = w ++ delim ∧ strlen (u ++ v) < buflen).
Proof.
  intros Hok Hr Hu Hl. rewrite info_steps by done. unfold info_text.
  set (full := concat (head_rows mask now bss) ++ _).
  assert (Ht : tries buflen (λ b pos,
     '(ok, pos, b) ← print_seq b pos buflen (head_rows mask now bss);
      if negb ok then Ret (false, pos, b)
      else
        '(ok, pos, b) ← (if has mask WPA_BSS_MASK_FLAGS then print_flags cfg bss b pos buflen
                         else Ret (true, pos, b));
        if negb ok then Ret (false, pos, b) else print_seq b pos buflen (tail_rows mask bss)) full
     (ends (ends (printed buflen (tail_rows mask bss))))).
  { apply (tries_then buflen (λ b pos, print_seq b pos buflen (head_rows mask now bss)) _ _ _
      (printed buflen (head_rows mask now bss))); [by apply tries_seq, head_rows_short|].
    apply (tries_then buflen (λ b pos, if has mask WPA_BSS_MASK_FLAGS then print_flags cfg bss b pos buflen
      else Ret (true, pos, b)) _ _ _ (λ _ _, True)); [|by apply tries_seq, tail_rows_short].
    case_if; [by apply print_flags_tries|by apply tries_nothing]. }
  destruct (Ht b u Hr Hu Hl) as (ok & p & b' & -> & Hl' & Hb' & Hok' & Hfit). ret_simpl. destruct ok; cbn [negb].
  - destruct (Hok' eq_refl) as (v & -> & Hv & Hle & (w1 & w23 & -> & w2 & w3 & -> & -> & Hlt) & Hfull).
    eexists _, b'. split_and!; try done; [do 2 f_equal; rewrite strlen_app; lia|].
    intros Hd. right. destruct (tail_delim mask bss Hd) as [ts Hts]. rewrite Hts, concat_app in *.
    exists (w1 ++ w2 ++ concat ts). cbn [concat] in *. rewrite app_nil_r in *. rewrite <- !app_assoc.
    split; [done|]. apply Hlt. by destruct ts.
  - exists [], b'. rewrite app_nil_r. split_and!; try done; [intros H; by apply Hfit in H|]. by left.
Qed.

(** ** The reply *)

Definition end_delim : str := lit "####" ++ [NL].

(** The text of the last entry of the table ends in another delimiter. *)
Definition closed (t : bss_table) (mask p : Z) (s : str) : str :=
  if has mask WPA_BSS_MASK_DELIM && negb (strlen s =? 0) && bool_decide (last (bss_ids t) = Some p)
  then take (length s - 5) s ++ end_delim else s.

Definition entry_text (t : bss_table) (mask : Z) (now : Z → Z) (p : Z) : str :=
  match heap t !! p with Some b => info_text mask (now p) b | None => [] end.

(** From the next entry on, up to [bsslast]. *)
Fixpoint reply_text (t : bss_table) (mask : Z) (now : Z → Z) (bsslast : Z) (l : list Z) : str :=
  match l with
  | [] => []
  | p :: l' =>
      let s := entry_text t mask now p in
      if p =? bsslast then closed t mask p s
      else s ++ (if strlen s =? 0 then [] else reply_text t mask now bsslast l')
  end.

Lemma closed_length t mask p s : strlen s ≤ strlen (closed t mask p s).
Proof.
  unfold closed. case_if; [|done]. rewrite strlen_app. unfold strlen. rewrite length_take.
  change (length end_delim) with 5%nat. lia.
Qed.

(** The delimiter is overwritten in place. *)
Lemma close_entry b u v buflen p t mask :
  room b buflen → built b (u ++ v) → strlen (u ++ v) ≤ buflen →
  (has mask WPA_BSS_MASK_DELIM = true → v = [] ∨ ∃ w, v = w ++ delim ∧ strlen (u ++ v) < buflen) →
  ∃ b', (if has mask WPA_BSS_MASK_DELIM && negb (strlen v =? 0) && bool_decide (last (bss_ids t) = Some p) then
           '(_, b) ← append b (strlen u + strlen v - 5) buflen (lit "####" ++ [NL]); Ret (strlen u + strlen v, b)
         else Ret (strlen u + strlen v, b)) = Ret (strlen (u ++ closed t mask p v), b') ∧
    built b' (u ++ closed t mask p v) ∧ length b' = length b ∧ strlen (closed t mask p v) = strlen v.
Proof.
  intros Hr Hb Hl Hd. unfold closed.
  destruct (has mask WPA_BSS_MASK_DELIM && negb (strlen v =? 0) && bool_decide (last (bss_ids t) = Some p)) eqn:E.
  2: { exists b. rewrite strlen_app. by split_and!. }
  apply andb_true_iff in E as [[Hm Hv]%andb_true_iff _]. destruct (Hd Hm) as [->|(w & -> & Hlt)]; [done|].
  rewrite length_app. change (length delim) with 5%nat. rewrite Nat.add_sub, take_app_length.
  rewrite !(app_assoc u w) in *. rewrite strlen_app in Hlt, Hl. change (strlen delim) with 5 in *.
  rewrite (strlen_app w delim). change (strlen delim) with 5.
  replace (strlen u + (strlen w + 5) - 5) with (strlen (u ++ w)) by (rewrite strlen_app; lia).
  destruct (append_prints b buflen (u ++ w) end_delim) as (b' & E & Hb' & Hl');
    [done|by eapply built_prefix|change (strlen end_delim) with 5; lia|].
  unfold end_delim in E at 1. rewrite E. ret_simpl. exists b'. rewrite !strlen_app.
  change (strlen end_delim) with 5. split_and!; [do 2 f_equal; lia|done|done|lia].
Qed.

Lemma bss_loop_spec t mask now bsslast l b u buflen :
  table_ok t → (∀ p, p ∈ l → p ∈ bss_lru t) → room b buflen → built b u → strlen u ≤ buflen →
  ∃ v b', bss_loop cfg t mask now bsslast l b (strlen u) buflen = Ret (strlen (u ++ v), b') ∧
    built b' (u ++ v) ∧ strlen (u ++ v) ≤ buflen ∧
    (strlen u + strlen (reply_text t mask now bsslast l) < buflen → v = reply_text t mask now bsslast l).
Proof.
  intros Ht Hl Hr. revert b u Hl Hr. induction l as [|p l IH]; intros b u Hl Hr Hu Hle; cbn [bss_loop reply_text].
  { exists [], b. by rewrite app_nil_r. }
  destruct (deref_ok t p Ht) as (bss & Hb & -> & Hok); [apply Hl; by left|]. ret_simpl.
  destruct (info_spec bss mask (now p) b u buflen Hok Hr Hu Hle) as (v & b1 & -> & Hb1 & Hl1 & He1 & Hfull & Hd).
  ret_simpl. unfold entry_text. rewrite Hb. set (s := info_text mask (now p) bss) in *.
  destruct (p =? bsslast) eqn:Ep.
  - destruct (close_entry b1 u v buflen p t mask) as (b2 & -> & Hb2 & Hl2 & Hlen);
      [by eapply room_length|done..|]. exists (closed t mask p v), b2. split_and!; [done|done| |].
    + rewrite strlen_app in *. lia.
    + intros Hfit. pose proof (closed_length t mask p s). rewrite Hfull; [done|lia].
  - pose proof (strlen_nonneg s). pose proof (strlen_nonneg (reply_text t mask now bsslast l)).
    rewrite strlen_app in He1. case_if; zbool.
    + assert (v = []) as -> by (destruct v; [done|unfold strlen in E; cbn in E; lia]).
      rewrite app_nil_r, Z.add_0_r in *. exists [], b1. rewrite app_nil_r.
      split_and!; [done|done|lia|]. rewrite strlen_app. intros Hfit. rewrite <- Hfull; [done|].
      pose proof (strlen_nonneg (if strlen s =? 0 then [] else reply_text t mask now bsslast l)). lia.
    + rewrite <- strlen_app. destruct (IH b1 (u ++ v)) as (w & b2 & -> & Hb2 & Hw & Hall);
        [intros q Hq; apply Hl; by right|by eapply room_length|done|by rewrite strlen_app|].
      exists (v ++ w), b2. rewrite app_assoc. split_and!; [done..|]. rewrite strlen_app. intros Hfit.
      assert (Hv : v = s) by (apply Hfull; pose proof (strlen_nonneg (if strlen s =? 0 then [] else reply_text t mask now bsslast l)); lia). subst v.
      rewrite (proj2 (Z.eqb_neq _ _) E) in *. f_equal. apply Hall. rewrite strlen_app. lia.
Qed.

(** ** Masks that select nothing *)

Lemma row_empty mask flag t : concat (row mask flag t) = [] ↔ has mask flag = false.
Proof. unfold row. case_if; cbn; [|done]. rewrite app_nil_r. split; [by destruct t|done]. Qed.

Lemma info_empty mask now bss :
  info_text mask now bss = [] ↔
  Forall (λ f, has mask f = false)
    [WPA_BSS_MASK_ID; WPA_BSS_MASK_BSSID; WPA_BSS_MASK_FREQ; WPA_BSS_MASK_BEACON_INT;
     WPA_BSS_MASK_CAPABILITIES; WPA_BSS_MASK_QUAL; WPA_BSS_MASK_NOISE; WPA_BSS_MASK_LEVEL; WPA_BSS_MASK_TSF;
     WPA_BSS_MASK_AGE; WPA_BSS_MASK_IE; WPA_BSS_MASK_FLAGS; WPA_BSS_MASK_SSID; WPA_BSS_MASK_SNR;
     WPA_BSS_MASK_EST_THROUGHPUT; WPA_BSS_MASK_DELIM].
Proof.
  unfold info_text, head_rows, tail_rows, info_head, info_tail.
  rewrite !concat_app, !app_nil, !row_empty, !Forall_cons, Forall_nil.
  assert (H1 : ∀ l, concat (if has mask WPA_BSS_MASK_IE then lit "ie=" :: l else []) = [] ↔
            has mask WPA_BSS_MASK_IE = false) by (intros l; case_if; by split).
  assert (H2 : (if has mask WPA_BSS_MASK_FLAGS then flags_text bss else []) = [] ↔
            has mask WPA_BSS_MASK_FLAGS = false) by (case_if; by split).
  rewrite H1, H2. tauto.
Qed.

Lemma entry_empty t mask now p q :
  is_Some (heap t !! p) → entry_text t mask now p = [] → entry_text t mask now q = [].
Proof.
  intros [b Hb]. unfold entry_text. rewrite Hb. intros H%info_empty.
  destruct (heap t !! q); [|done]. by apply info_empty.
Qed.

(** ** The reply to a selection *)

(** All the entries of a list, the last one closed. *)
Fixpoint entries_reply (t : bss_table) (mask : Z) (now : Z → Z) (l : list Z) : str :=
  match l with
  | [] => []
  | [p] => closed t mask p (entry_text t mask now p)
  | p :: l' => entry_text t mask now p ++ entries_reply t mask now l'
  end.

Lemma closed_nil t mask p : closed t mask p [] = [].
Proof. unfold closed. by rewrite andb_false_r. Qed.

Lemma entries_reply_empty t mask now l :
  (∀ p, entry_text t mask now p = []) → entries_reply t mask now l = [].
Proof.
  intros He. induction l as [|p l IH]; [done|]. cbn [entries_reply]. rewrite He, closed_nil. by destruct l.
Qed.

Lemma reply_text_entries t mask now bsslast l post :
  last l = Some bsslast → NoDup l → (∀ p, p ∈ l → is_Some (heap t !! p)) →
  reply_text t mask now bsslast (l ++ post) = entries_reply t mask now l.
Proof.
  induction l as [|p l IH]; [done|]. intros Hl [Hp Hd]%NoDup_cons Hin. cbn [app reply_text entries_reply].
  destruct l as [|q l]; [injection Hl as ->; by rewrite Z.eqb_refl|].
  assert (Hl' : last (q :: l) = Some bsslast) by exact Hl.
  assert (Hne : p ≠ bsslast) by (intros ->; by apply Hp, last_Some_elem_of).
  rewrite (proj2 (Z.eqb_neq _ _) Hne).
  destruct (strlen (entry_text t mask now p) =? 0) eqn:E; zbool.
  - assert (Hnil : entry_text t mask now p = []) by (destruct (entry_text t mask now p); [done|unfold strlen in E; cbn in E; lia]).
    rewrite Hnil. cbn [app]. symmetry. apply entries_reply_empty. intros x.
    eapply entry_empty; [|exact Hnil]. apply Hin. by left.
  - f_equal. apply IH; [done|done|]. intros x Hx. apply Hin. by right.
Qed.

(** ** The entries of a range *)

Definition id_at (t : bss_table) (p : Z) : Z := match heap t !! p with Some b => bss_id b | None => 0 end.

Lemma find_by_id t f l : (∀ p, p ∈ l → is_Some (heap t !! p)) →
  find_bss t (λ b, f (bss_id b)) l = Ret (head (filter (λ p, f (id_at t p) = true) l)).
Proof.
  induction l as [|p l IH]; intros Hl; [done|]. cbn [find_bss]. destruct (Hl p) as [b Hb]; [by left|].
  unfold deref. rewrite Hb. ret_simpl. rewrite filter_cons.
  assert (Hid : id_at t p = bss_id b) by (unfold id_at; by rewrite Hb). rewrite <- Hid.
  destruct (f (id_at t p)) eqn:E; [by rewrite decide_True|]. rewrite decide_False by congruence.
  apply IH. intros q Hq. apply Hl. by right.
Qed.

Lemma ids_sorted t : table_ok t → StronglySorted (λ p q, id_at t p < id_at t q) (bss_ids t).
Proof.
  intros Ht. pose proof (tk_id_order t Ht) as Ho. unfold ordered in Ho.
  assert (Hin : ∀ p, p ∈ bss_ids t → is_Some (heap t !! p)).
  { intros p. rewrite (tk_ids t Ht). by rewrite (tk_heap t Ht). }
  induction Ho as [|p l Ho IH Hp]; [constructor|]. constructor; [apply IH; intros q Hq; apply Hin; by right|].
  rewrite Forall_forall in *. intros q Hq. unfold id_at. destruct (Hin p) as [b Hb]; [by left|].
  destruct (Hin q) as [c Hc]; [by right|]. rewrite Hb, Hc. by apply (Hp q Hq).
Qed.

Definition in_range (t : bss_table) (a c : Z) (p : Z) : Prop := (a <=? id_at t p) && (id_at t p <=? c) = true.
#[export] Instance in_range_dec t a c p : Decision (in_range t a c p) := decide (_ = true).

Lemma filter_none {A} (P : A → Prop) `{∀ x, Decision (P x)} l : Forall (λ x, ¬ P x) l → filter P l = [].
Proof. induction 1 as [|x l Hx _ IH]; [done|]. rewrite filter_cons, decide_False by done. done. Qed.

Lemma range_split (t : bss_table) a c l :
  StronglySorted (λ p q, id_at t p < id_at t q) l →
  ∃ pre post, l = pre ++ filter (in_range t a c) l ++ post ∧
    Forall (λ p, id_at t p < a) pre ∧ Forall (λ p, c < id_at t p) post.
Proof.
  induction 1 as [|p l Hs IH Hp]; [by exists [], []|]. rewrite filter_cons.
  destruct IH as (pre & post & El & Hpre & Hpost). destruct (decide (in_range t a c p)) as [Hr|Hr].
  - unfold in_range in Hr. zbool. assert (pre = []) as ->.
    { destruct pre as [|q pre]; [done|]. rewrite El in Hp. apply Forall_cons in Hp as [Hq _].
      apply Forall_cons in Hpre as [? _]. lia. }
    exists [], post. cbn [app]. split_and!; [by f_equal|done|done].
  - destruct (Z.lt_ge_cases (id_at t p) a) as [Hlt|Hge].
    + exists (p :: pre), post. cbn [app]. split_and!; [by f_equal|by constructor|done].
    + assert (Hc : c < id_at t p).
      { unfold in_range in Hr. destruct (Z.leb_spec a (id_at t p)), (Z.leb_spec (id_at t p) c); try done; lia. }
      assert (Hall : Forall (λ q, c < id_at t q) l).
      { eapply Forall_impl; [exact Hp|]. cbv beta. intros q Hq. lia. }
      exists [], (p :: l). cbn [app]. rewrite filter_none; [split_and!; [done|constructor|by constructor]|].
      eapply Forall_impl; [exact Hall|]. cbv beta. intros q Hq Hq'. unfold in_range in Hq'. zbool. lia.
Qed.

Lemma from_ptr_app l1 p l2 : p ∉ l1 → from_ptr (l1 ++ p :: l2) p = p :: l2.
Proof.
  induction l1 as [|q l1 IH]; cbn [app from_ptr]; [by rewrite Z.eqb_refl|]. intros [Hq Hp]%not_elem_of_cons.
  rewrite (proj2 (Z.eqb_neq _ _)) by done. by apply IH.
Qed.

Lemma last_upto_spec t c l post acc :
  (∀ p, p ∈ l ++ post → is_Some (heap t !! p)) →
  Forall (λ p, id_at t p ≤ c) l → Forall (λ p, c < id_at t p) post →
  last_upto t c (l ++ post) acc = Ret (match last l with Some q => Some q | None => acc end).
Proof.
  intros Hin Hl Hpost. revert acc Hin. induction Hl as [|p l Hp Hl IH]; intros acc Hin; cbn [app].
  - destruct post as [|q post]; [done|]. cbn [last_upto]. apply Forall_cons in Hpost as [Hq _].
    destruct (Hin q) as [b Hb]; [by left|]. unfold deref, id_at in *. rewrite Hb in *. ret_simpl.
    by rewrite (proj2 (Z.ltb_lt _ _)).
  - cbn [last_upto]. destruct (Hin p) as [b Hb]; [by left|]. unfold deref. rewrite Hb. ret_simpl.
    unfold id_at in Hp. rewrite Hb in Hp. rewrite (proj2 (Z.ltb_ge _ _)) by done.
    rewrite IH by (intros q Hq; apply Hin; cbn; by right).
    destruct l as [|x l]; [done|]. change (last (p :: x :: l)) with (last (x :: l)).
    destruct (last (x :: l)) eqn:El; [done|]. by apply last_None in El.
Qed.

Lemma sorted_last (t : bss_table) l x q :
  StronglySorted (λ p q, id_at t p < id_at t q) l → last l = Some x → q ∈ l → q = x ∨ id_at t q < id_at t x.
Proof.
  induction 1 as [|p l Hs IH Hp]; [done|]. destruct l as [|y l].
  - intros [= ->] ->%list_elem_of_singleton. by left.
  - intros Hl [->|Hq]%elem_of_cons; [|by apply IH]. right. rewrite Forall_forall in Hp. apply Hp.
    by apply last_Some_elem_of.
Qed.

(** What RANGE= with two identifiers selects: the first and the last entry of
    the range. *)
Lemma range_selects t arg i c :
  table_ok t → strncmp_eq arg (lit "ALL") 3 = false → strchr arg 45 = Some i →
  (∃ d s, drop (S i) arg = d :: s ∧ isdigit d = true) → u32 (atoi (drop (S i) arg)) = c → c < 4294967295 →
  let a := if bool_decide (i = 0%nat) then 0 else u32 (atoi arg) in
  let seg := filter (in_range t a c) (bss_ids t) in
  ∃ r, bss_range t arg = Ret (Some (head seg, r)) ∧ ∀ p, head seg = Some p → default p r = default p (last seg).
Proof.
  intros Ht Hall Hi (d & s & Hd & Hdig) Hc Hmax. cbn zeta. set (a := if bool_decide _ then _ else _).
  assert (Hin : ∀ p, p ∈ bss_ids t → is_Some (heap t !! p)).
  { intros p. rewrite (tk_ids t Ht). by rewrite (tk_heap t Ht). }
  unfold bss_range. rewrite Hall, Hi. fold a. rewrite Hd, Hdig, <- Hd, Hc, (proj2 (Z.eqb_neq c _)) by lia.
  unfold wpa_bss_get_id_range, wpa_bss_get_id.
  rewrite (find_by_id t (λ i, (a <=? i) && (i <=? c))), (find_by_id t (λ i, i =? c)) by
    (intros p; try apply Hin; by rewrite (tk_heap t Ht)). ret_simpl.
  pose proof (ids_sorted t Ht) as Hs. destruct (range_split t a c _ Hs) as (pre & post & El & _ & Hpost).
  set (seg := filter (in_range t a c) (bss_ids t)) in *.
  change (filter (λ p, (a <=? id_at t p) && (id_at t p <=? c) = true) (bss_ids t)) with seg.
  set (same := filter (λ p, (id_at t p =? c) = true) (bss_lru t)).
  assert (Hseg : ∀ p, p ∈ seg → a ≤ id_at t p ≤ c ∧ p ∈ bss_ids t).
  { intros p [Hp Hpi]%list_elem_of_filter. unfold in_range in Hp. zbool. split; [lia|done]. }
  destruct seg as [|p seg'] eqn:Es.
  { cbn [head hd_error]. destruct (head same); ret_simpl; (eexists; split; [reflexivity|done]). }
  destruct (Hseg p) as [Hp Hpi]; [by left|]. cbn [head hd_error].
  assert (Hend : head same = None ∨ head same = last (p :: seg')).
  { destruct (head same) as [q|] eqn:E; [right|by left]. apply head_Some_elem_of in E.
    apply list_elem_of_filter in E as [Hq Hql]. zbool. symmetry.
    destruct (last (p :: seg')) as [x|] eqn:Ex; [|by apply last_None in Ex].
    assert (Hqs : q ∈ p :: seg').
    { rewrite <- Es. apply list_elem_of_filter. split; [unfold in_range; rewrite andb_true_iff, !Z.leb_le; lia|].
      by rewrite (tk_ids t Ht). }
    assert (Hss : StronglySorted (λ p q, id_at t p < id_at t q) (p :: seg')).
    { rewrite El in Hs. by apply StronglySorted_app_1_r, StronglySorted_app_1_l in Hs. }
    destruct (sorted_last t _ x q Hss Ex Hqs) as [->|Hlt]; [done|].
    apply last_Some_elem_of in Ex. destruct (Hseg x Ex). lia. }
  destruct (head same) as [q|] eqn:E; ret_simpl.
  { destruct Hend as [|Hend]; [done|]. eexists. split; [done|]. intros x [= <-]. by rewrite <- Hend. }
  assert (Hac : a < c).
  { assert (id_at t p ≠ c); [|lia]. intros Hpc. assert (Hps : p ∈ same).
    { apply list_elem_of_filter. split; [by apply Z.eqb_eq|]. by rewrite <- (tk_ids t Ht). }
    destruct same; [by apply not_elem_of_nil in Hps|done]. }
  rewrite (proj2 (Z.ltb_lt _ _) Hac).
  assert (Hnd : NoDup (bss_ids t)) by (rewrite (tk_ids t Ht); apply (tk_lru t Ht)).
  assert (Hfrom : from_ptr (bss_ids t) p = (p :: seg') ++ post).
  { rewrite El. cbn [app]. apply from_ptr_app. rewrite El in Hnd. apply NoDup_app in Hnd as (_ & Hd' & _).
    intros Hpp. apply (Hd' p Hpp). by left. }
  rewrite Hfrom. change (drop 1 ((p :: seg') ++ post)) with (seg' ++ post). rewrite last_upto_spec; [|intros x Hx; apply Hin|..|done].
  - ret_simpl. eexists. split; [done|]. intros x [= <-]. destruct seg' as [|y seg']; [done|].
    change (last (p :: y :: seg')) with (last (y :: seg')). by destruct (last (y :: seg')).
  - rewrite El. apply elem_of_app. right. by right.
  - rewrite Forall_forall. intros x Hx. apply Hseg. by right.
Qed.

(** A command that selects the entries [seg] prints them. *)
Lemma bss_reply t now cmd b buflen pre seg post r :
  table_ok t → room b buflen → select_bss t cmd = Ret (Some (head seg, r)) → bss_ids t = pre ++ seg ++ post →
  (∀ p, head seg = Some p → default p r = default p (last seg)) →
  ∃ v b', wpa_supplicant_ctrl_iface_bss cfg t now cmd b buflen = Ret (strlen v, b') ∧
    built b' v ∧ strlen v ≤ buflen ∧
    (strlen (entries_reply t (bss_mask cmd) now seg) < buflen → v = entries_reply t (bss_mask cmd) now seg).
Proof.
  intros Ht Hr Hsel El Hlast. unfold wpa_supplicant_ctrl_iface_bss. rewrite Hsel. ret_simpl.
  destruct seg as [|p seg]; cbn [head hd_error].
  { exists [], b. split_and!; [done|apply built_nil| |done]. unfold room in Hr. change (strlen []) with 0. lia. }
  specialize (Hlast p eq_refl). rewrite Hlast.
  assert (Hnd : NoDup (bss_ids t)) by (rewrite (tk_ids t Ht); apply (tk_lru t Ht)).
  assert (Hfrom : from_ptr (bss_ids t) p = (p :: seg) ++ post).
  { rewrite El. cbn [app]. apply from_ptr_app. rewrite El in Hnd. apply NoDup_app in Hnd as (_ & Hd' & _).
    intros Hpp. apply (Hd' p Hpp). by left. }
  assert (Hmem : ∀ x, x ∈ (p :: seg) ++ post → x ∈ bss_lru t).
  { intros x Hx. rewrite <- (tk_ids t Ht), El. apply elem_of_app. by right. }
  rewrite Hfrom. destruct (last (p :: seg)) as [x|] eqn:Ex; [|by apply last_None in Ex]. cbn [default].
  destruct (bss_loop_spec t (bss_mask cmd) now x ((p :: seg) ++ post) b [] buflen Ht Hmem Hr (built_nil b))
    as (v & b' & E & Hb & Hle & Hfull); [unfold room in Hr; change (strlen []) with 0; lia|].
  change (strlen []) with 0 in *. cbn [app] in E, Hb, Hle. exists v, b'. split_and!; try done.
  rewrite reply_text_entries in Hfull; [by apply Hfull|done| |].
  - rewrite El in Hnd. apply NoDup_app in Hnd as (_ & _ & Hnd). by apply NoDup_app in Hnd as (? & _).
  - intros y Hy. apply (tk_heap t Ht), Hmem, elem_of_app. by left.
Qed.

(** ** Commands *)

Lemma head_elem {A} (l : list A) x : head l = Some x → x ∈ l.
Proof. destruct l; [done|]. intros [= ->]. by left. Qed.

Lemma next_ptr_elem l p q : next_ptr l p = Some q → q ∈ l.
Proof.
  induction l as [|x l IH]; [done|]. cbn [next_ptr]. case_if; intros Hq; right; [by apply head_elem|by apply IH].
Qed.

Lemma found_elem t test l : table_ok t → (∀ p, p ∈ l → p ∈ bss_lru t) →
  ∃ r, find_bss t test l = Ret r ∧ ∀ p, r = Some p → p ∈ bss_ids t.
Proof.
  intros Ht Hl. destruct (find_bss_spec t test l) as (r & -> & Hr); [intros p Hp; by apply (tk_heap t Ht), Hl|].
  exists r. split; [done|]. intros p ->. apply first_in_elem in Hr as [Hp _]. rewrite (tk_ids t Ht). by apply Hl.
Qed.

Lemma drop_elem {A} n (l : list A) x : x ∈ drop n l → x ∈ l.
Proof. intros Hx. rewrite <- (take_drop n l). apply elem_of_app. by right. Qed.

Lemma from_ptr_elem l p x : x ∈ from_ptr l p → x ∈ l.
Proof. induction l as [|y l IH]; [done|]. cbn [from_ptr]. case_if; [done|]. intros Hx. right. by apply IH. Qed.

Lemma last_upto_total t c l : (∀ p, p ∈ l → is_Some (heap t !! p)) → ∀ acc, ∃ r, last_upto t c l acc = Ret r.
Proof.
  induction l as [|p l IH]; intros Hl acc; [by exists acc|]. cbn [last_upto].
  destruct (Hl p) as [b Hb]; [by left|]. unfold deref. rewrite Hb. ret_simpl. case_if; [eauto|].
  apply IH. intros q Hq. apply Hl. by right.
Qed.

(** Any command selects an entry of the table, or none. *)
Definition selection_ok (t : bss_table) (sel : option (option Z * option Z)) : Prop :=
  ∀ p r, sel = Some (Some p, r) → p ∈ bss_ids t.

Lemma select_total t cmd : table_ok t → ∃ sel, select_bss t cmd = Ret sel ∧ selection_ok t sel.
Proof.
  intros Ht. assert (Hids : ∀ p, p ∈ bss_ids t → p ∈ bss_lru t) by (intros p; by rewrite (tk_ids t Ht)).
  assert (Hone : ∀ p, (∀ q, p = Some q → q ∈ bss_ids t) → ∃ sel, Ret (Some (p, None)) = Ret sel ∧ selection_ok t sel).
  { intros p Hp. eexists. split; [done|]. intros q r [= -> _]. by apply Hp. }
  assert (Hhead : ∀ q, head (bss_ids t) = Some q → q ∈ bss_ids t) by (intros q; apply head_elem).
  assert (Hlast : ∀ q, last (bss_ids t) = Some q → q ∈ bss_ids t) by (intros q; apply last_Some_elem_of).
  unfold select_bss. case_if.
  { unfold bss_range. case_if; [eexists; split; [done|]; intros p r [= Hp _]; by apply Hhead|].
    destruct (strchr _ _) as [i|]; [|by exists None]. unfold wpa_bss_get_id_range, wpa_bss_get_id.
    set (id1 := if bool_decide _ then _ else _). set (id2 := match drop _ _ with [] => _ | c :: _ => _ end).
    destruct (found_elem t (λ b, (id1 <=? bss_id b) && (bss_id b <=? id2)) (bss_ids t) Ht) as (p & -> & Hp); [done|].
    ret_simpl.
    assert (Hr : ∃ r, (if id2 =? 4294967295 then Ret (last (bss_ids t))
                   else
                     bsslast ← find_bss t (λ b, bss_id b =? id2) (bss_lru t);
                     match bsslast, p with
                     | None, Some p =>
                         if id1 <? id2 then last_upto t id2 (drop 1 (from_ptr (bss_ids t) p)) None
                         else Ret None
                     | _, _ => Ret bsslast
                     end) = Ret r).
    { case_if; [eauto|]. destruct (found_elem t (λ b, bss_id b =? id2) (bss_lru t) Ht) as (q & -> & _); [done|].
      ret_simpl. destruct q; [eauto|]. destruct p as [p|]; [|eauto]. case_if; [|eauto].
      apply last_upto_total. intros x Hx. apply (tk_heap t Ht), Hids. by eapply from_ptr_elem, drop_elem. }
    destruct Hr as [r ->]. ret_simpl. eexists. split; [done|]. intros q r' [= -> _]. by apply Hp. }
  case_if; [by apply Hone|]. case_if; [by apply Hone|]. unfold wpa_bss_get_id.
  case_if; [destruct (found_elem t (λ b, bss_id b =? u32 (atoi (drop 3 cmd))) (bss_lru t) Ht) as (p & -> & Hp); [done|];
    ret_simpl; by apply Hone|].
  case_if.
  { destruct (found_elem t (λ b, bss_id b =? u32 (atoi (drop 5 cmd))) (bss_lru t) Ht) as (p & -> & Hp); [done|].
    ret_simpl. apply Hone. intros q. destruct p; [apply next_ptr_elem|done]. }
  destruct (hwaddr_aton cmd) as [addr|].
  - unfold wpa_bss_get_bssid. case_if; ret_simpl; [by apply Hone|].
    destruct (found_elem t (λ b, str_eqb (bss_bssid b) addr) (rev (bss_lru t)) Ht) as (p & -> & Hp);
      [intros p; rewrite !list_elem_of_In; apply in_rev|]. ret_simpl. by apply Hone.
  - apply Hone. intros q. case_if; [|done]. apply list_elem_of_lookup_2.
Qed.

Lemma bss_total t now cmd b buflen :
  table_ok t → room b buflen →
  ∃ v b', wpa_supplicant_ctrl_iface_bss cfg t now cmd b buflen = Ret (strlen v, b') ∧
    built b' v ∧ strlen v ≤ buflen.
Proof.
  intros Ht Hr. unfold wpa_supplicant_ctrl_iface_bss.
  destruct (select_total t cmd Ht) as (sel & -> & Hsel). ret_simpl.
  assert (Hnone : ∃ v b', Ret (0, b) = Ret (strlen v, b') ∧ built b' v ∧ strlen v ≤ buflen).
  { exists [], b. split_and!; [done|apply built_nil|]. unfold room in Hr. change (strlen []) with 0. lia. }
  destruct sel as [[[p|] r]|]; [|done..].
  destruct (bss_loop_spec t (bss_mask cmd) now (default p r) (from_ptr (bss_ids t) p) b [] buflen Ht)
    as (v & b' & E & Hb & Hle & _); [|done|apply built_nil| |].
  - intros x Hx%from_ptr_elem. by rewrite <- (tk_ids t Ht).
  - unfold room in Hr. change (strlen []) with 0. lia.
  - by exists v, b'.
Qed.

(** The text of a range. *)
Definition range_cmd (a c : Z) (rest : str) : str := lit "RANGE=" ++ fmt_u a ++ 45 :: fmt_u c ++ rest.

Lemma digit_head n t : 0 ≤ n < 4294967296 → ∃ d s, fmt_u n ++ t = d :: s ∧ is_digit d.
Proof.
  intros Hn. destruct (fmt_u_spec n Hn) as (Hl & Hd & _). destruct (fmt_u n) as [|d s]; [cbn in Hl; lia|].
  apply Forall_cons in Hd as [? _]. by exists d, (s ++ t).
Qed.

Lemma is_digit_isdigit d : is_digit d → isdigit d = true.
Proof. unfold is_digit, isdigit. intros. apply andb_true_iff. rewrite !Z.leb_le. lia. Qed.

Lemma range_cmd_selects t a c rest :
  table_ok t → 0 ≤ a < 4294967296 → 0 ≤ c < 4294967295 → (∀ d, head rest = Some d → isdigit d = false) →
  let seg := filter (in_range t a c) (bss_ids t) in
  ∃ r, select_bss t (range_cmd a c rest) = Ret (Some (head seg, r)) ∧
    ∀ p, head seg = Some p → default p r = default p (last seg).
Proof.
  intros Ht Ha Hc Hrest seg. set (arg := fmt_u a ++ 45 :: fmt_u c ++ rest).
  assert (Hsel : select_bss t (range_cmd a c rest) = bss_range t arg) by reflexivity. rewrite Hsel.
  destruct (fmt_u_spec a Ha) as (Hla & _ & _).
  assert (Hi : strchr arg 45 = Some (length (fmt_u a))).
  { apply strchr_app_here; [done|]. apply fmt_u_not; [done|]. unfold is_digit. lia. }
  assert (Hdrop : drop (S (length (fmt_u a))) arg = fmt_u c ++ rest).
  { unfold arg. rewrite cons_middle, app_assoc. apply drop_app_length'. rewrite length_app. cbn. lia. }
  assert (Hall : strncmp_eq arg (lit "ALL") 3 = false).
  { destruct (digit_head a (45 :: fmt_u c ++ rest) Ha) as (d & s & Hd & Hdd). unfold arg. rewrite Hd.
    unfold strncmp_eq. change (lit "ALL") with [65; 76; 76]. cbn [strn_eq].
    rewrite (proj2 (Z.eqb_neq d 65)); [done|]. unfold is_digit in Hdd. lia. }
  destruct (range_selects t arg (length (fmt_u a)) c Ht Hall Hi) as (r & Hr & Hlast).
  - rewrite Hdrop. destruct (digit_head c rest) as (d & s & Hd & Hdd); [lia|]. exists d, s.
    split; [done|by apply is_digit_isdigit].
  - rewrite Hdrop. apply atoi_fmt_u; [lia|done].
  - lia.
  - assert (Hid : (if bool_decide (length (fmt_u a) = 0%nat) then 0 else u32 (atoi arg)) = a).
    { rewrite bool_decide_eq_false_2 by lia. apply atoi_fmt_u; [done|]. by intros d [= <-]. }
    rewrite Hid in Hr, Hlast. by exists r.
Qed.

Lemma all_cmd_selects t rest :
  select_bss t (lit "RANGE=ALL" ++ rest) = Ret (Some (head (bss_ids t), last (bss_ids t))).
Proof. reflexivity. Qed.
End build.

(** C32: Whatever the table holds and whatever the command says, BSS follows no
    stale pointer, reads inside the elements and replies with text inside the
    buffer. *)
Theorem bss_command_safe cfg t now cmd b buflen :
  table_ok t → room b buflen →
  ∃ v b', wpa_supplicant_ctrl_iface_bss cfg t now cmd b buflen = Ret (strlen v, b') ∧
    built b' v ∧ strlen v ≤ buflen.
Proof. apply bss_total. Qed.

Lemma bss_command_safe_witness :
  ∃ v b', wpa_supplicant_ctrl_iface_bss build_default stale_table (λ _, 50) (lit "NEXT-0") (uninit 100) 100
    = Ret (strlen v, b') ∧ built b' v ∧ strlen v ≤ 100.
Proof. apply (bss_command_safe _ _ _ _ _ _ stale_ok). by apply (bool_decide_unpack _). Defined.

(** The command RANGE= with two identifiers prints the entries of the table
    whose identifiers lie between them, each with the fields of the mask, in
    the order of the identifiers, when there is room for all of them; the text
    of the last entry of the table ends in its own delimiter. *)
Theorem bss_range_reply cfg t now a c rest b buflen :
  table_ok t → room b buflen → 0 ≤ a < 4294967296 → 0 ≤ c < 4294967295 →
  (∀ d, head rest = Some d → isdigit d = false) →
  let reply := entries_reply cfg t (bss_mask (range_cmd a c rest)) now (filter (in_range t a c) (bss_ids t)) in
  strlen reply < buflen →
  ∃ b', wpa_supplicant_ctrl_iface_bss cfg t now (range_cmd a c rest) b buflen = Ret (strlen reply, b') ∧
    built b' reply.
Proof.
  intros Ht Hr Ha Hc Hrest reply Hlen. destruct (range_cmd_selects t a c rest Ht Ha Hc Hrest) as (r & Hsel & Hl).
  destruct (range_split t a c _ (ids_sorted t Ht)) as (pre & post & El & _).
  destruct (bss_reply cfg t now _ b buflen pre _ post r Ht Hr Hsel El Hl) as (v & b' & E & Hb & _ & Hv).
  specialize (Hv Hlen) as ->. by exists b'.
Qed.

Lemma bss_range_reply_witness :
  let reply := entries_reply build_default stale_table (bss_mask (range_cmd 0 5 (lit " MASK=0x21003"))) (λ _, 50)
                 (filter (in_range stale_table 0 5) (bss_ids stale_table)) in
  ∃ b', wpa_supplicant_ctrl_iface_bss build_default stale_table (λ _, 50) (range_cmd 0 5 (lit " MASK=0x21003"))
    (uninit 4096) 4096 = Ret (strlen reply, b') ∧ built b' reply.
Proof.
  apply (bss_range_reply build_default stale_table _ 0 5); [exact stale_ok|..].
  - by apply (bool_decide_unpack _).
  - done.
  - done.
  - by intros d [= <-].
  - by vm_compute.
Defined.

(** What that reply is. *)
Example bss_range_text :
  entries_reply build_default stale_table (bss_mask (lit "RANGE=0-5 MASK=0x21003")) (λ _, 50)
    (filter (in_range stale_table 0 5) (bss_ids stale_table))
  = line "id=0" ++ line "bssid=02:00:00:00:00:01" ++ line "ssid=aaa" ++ line "===="
    ++ line "id=1" ++ line "bssid=02:00:00:00:00:02" ++ line "ssid=aaaa" ++ line "####".
Proof. by vm_compute. Qed.
