(* ===== verification/ConfigSsid.v ===== *)
(** * The variables of a network block (wpa_supplicant/config.c)

    Each variable has a parser for the text that a configuration file or the
    control interface gives and a writer for the text that is saved or shown;
    a table says which.  [wpa_config_set] and [wpa_config_get] look the variable
    up.  The build is that of the repository: IEEE8021X_EAPOL, but none of
    CONFIG_EXT_PASSWORD, CONFIG_P2P, CONFIG_MESH, CONFIG_WPS, CONFIG_SAE,
    CONFIG_IEEE80211R, CONFIG_IEEE80211W, CONFIG_HS20, CONFIG_SUITEB,
    CONFIG_MACSEC, CONFIG_ACS and the overrides of HT and VHT.  Allocations
    succeed.

    The members of [struct wpa_ssid] that are integers or pointers to bytes are
    kept by name in maps: an absent integer is 0, as [os_zalloc] leaves it, an
    absent pointer is NULL. *)

From stdpp Require Import gmap.
From S2P Require Import Prelude CString Scan CliUtil Common CommonText Printing WpaIe WpaCommon.

Definition ETH_BYTES : Type := list Z.

Record net : Type := Net {
  n_ints : gmap str Z;
  n_strs : gmap str (list Z);                       (* the bytes, without the terminator *)
  n_bssid : ETH_BYTES;
  n_addrs : gmap str (list (ETH_BYTES * ETH_BYTES)); (* address and mask *)
  n_psk : list Z;
  n_freqs : gmap str (list Z);                      (* without the terminating 0 *)
  n_methods : option (list (Z * Z));                (* vendor and method *)
  n_wep_key : list (list Z);
  n_wep_key_len : list Z
}.

Definition get_int (n : net) (f : str) : Z := default 0 (n_ints n !! f).
Definition get_str (n : net) (f : str) : option (list Z) := n_strs n !! f.

Definition set_int (n : net) (f : str) (v : Z) : net :=
  Net (<[f := v]> (n_ints n)) (n_strs n) (n_bssid n) (n_addrs n) (n_psk n) (n_freqs n) (n_methods n)
    (n_wep_key n) (n_wep_key_len n).
Definition set_str (n : net) (f : str) (v : option (list Z)) : net :=
  Net (n_ints n) (partial_alter (λ _, v) f (n_strs n)) (n_bssid n) (n_addrs n) (n_psk n) (n_freqs n)
    (n_methods n) (n_wep_key n) (n_wep_key_len n).
Definition set_bssid (n : net) (v : list Z) : net :=
  Net (n_ints n) (n_strs n) v (n_addrs n) (n_psk n) (n_freqs n) (n_methods n) (n_wep_key n) (n_wep_key_len n).
Definition set_addrs (n : net) (f : str) (v : option (list (ETH_BYTES * ETH_BYTES))) : net :=
  Net (n_ints n) (n_strs n) (n_bssid n) (partial_alter (λ _, v) f (n_addrs n)) (n_psk n) (n_freqs n)
    (n_methods n) (n_wep_key n) (n_wep_key_len n).
Definition set_psk (n : net) (v : list Z) : net :=
  Net (n_ints n) (n_strs n) (n_bssid n) (n_addrs n) v (n_freqs n) (n_methods n) (n_wep_key n) (n_wep_key_len n).
Definition set_freqs (n : net) (f : str) (v : option (list Z)) : net :=
  Net (n_ints n) (n_strs n) (n_bssid n) (n_addrs n) (n_psk n) (partial_alter (λ _, v) f (n_freqs n))
    (n_methods n) (n_wep_key n) (n_wep_key_len n).
Definition set_methods (n : net) (v : option (list (Z * Z))) : net :=
  Net (n_ints n) (n_strs n) (n_bssid n) (n_addrs n) (n_psk n) (n_freqs n) v (n_wep_key n) (n_wep_key_len n).
Definition set_wep (n : net) (keys : list (list Z)) (lens : list Z) : net :=
  Net (n_ints n) (n_strs n) (n_bssid n) (n_addrs n) (n_psk n) (n_freqs n) (n_methods n) keys lens.

(** ** The C library *)

(** The digits of [strtol] to a base. *)
Definition digit_value (base c : Z) : option Z :=
  let v := if isdigit c then c - 48
           else if (97 <=? tolower c) && (tolower c <=? 122) then tolower c - 87 else base in
  if v <? base then Some v else None.

Fixpoint digits (base acc : Z) (s : str) : Z * str :=
  match s with
  | c :: s' => match digit_value base c with Some v => digits base (acc * base + v) s' | None => (acc, s) end
  | [] => (acc, [])
  end.

(** The number and what follows it; the text itself when there is no digit. *)
Definition strtol0 (s : str) : Z * str :=
  let clamp x := Z.max (-9223372036854775808) (Z.min 9223372036854775807 x) in
  let '(neg, t) := match skip_space s with
                   | 45 :: t => (true, t)
                   | 43 :: t => (false, t)
                   | t => (false, t)
                   end in
  let '(base, t) := match t with
                    | 48 :: x :: c :: t' =>
                        if (tolower x =? 120) && bool_decide (is_Some (digit_value 16 c)) then (16, c :: t')
                        else (8, t)
                    | 48 :: _ => (8, t)
                    | _ => (10, t)
                    end in
  let '(v, rest) := digits base 0 t in
  if bool_decide (rest = t) then (0, s) else (clamp (if neg : bool then - v else v), rest).

(** The characters of a block up to its first NUL. *)
Definition c_str (s : list Z) : str := (span (λ c, negb (c =? 0)) s).1.

(** ** Strings and integers *)

(** [wpa_config_parse_string], with the bytes of the block it returns. *)
Definition parse_bytes (value : str) : outcome (option (list Z)) :=
  r ← wpa_config_parse_string (λ _, true) value;
  match r with
  | Some (b, len) => s ← block_bytes b 0 (Z.to_nat len); Ret (Some s)
  | None => Ret None
  end.

(** [has_len]: the length is stored beside the pointer; 0 for no bound. *)
Definition wpa_config_parse_str (f : str) (has_len : bool) (mn mx : Z) (n : net) (value : str)
    : outcome (Z * net) :=
  tmp ← (if str_eqb value (lit "NULL") then Ret (Some None)
         else
           r ← parse_bytes value;
           Ret match r with
               | None => None
               | Some s =>
                   if negb (mn =? 0) && (strlen s <? mn) then None
                   else if negb (mx =? 0) && (mx <? strlen s) then None
                   else Some (Some s)
               end);
  match tmp with
  | None => Ret (-1, n)
  | Some tmp =>
      let same :=
        match get_str n f, tmp with
        | None, None => true
        | Some old, Some s =>
            let prev := if has_len then old else c_str old in
            (strlen prev =? strlen s) && str_eqb (take (length s) old) s
        | _, _ => false
        end in
      if same then Ret (1, n) else Ret (0, set_str n f tmp)
  end.

Definition wpa_config_write_string_ascii (s : list Z) : str := DQ :: s ++ [DQ].

Definition wpa_config_write_string_hex (s : list Z) : outcome str :=
  '(_, b) ← wpa_snprintf_hex (zeros (2 * strlen s + 1)) (2 * strlen s + 1) s; buf_str b 0.

(** The text as C reads it. *)
Definition wpa_config_write_string (s : list Z) : outcome str :=
  if is_hex s then wpa_config_write_string_hex s else Ret (c_str (wpa_config_write_string_ascii s)).

Definition wpa_config_write_str (f : str) (has_len : bool) (n : net) : outcome (option str) :=
  match get_str n f with
  | None => Ret None
  | Some s => t ← wpa_config_write_string (if has_len then s else c_str s); Ret (Some t)
  end.

Definition wpa_config_parse_int (f : str) (mn mx : Z) (n : net) (value : str) : outcome (Z * net) :=
  let '(v, end_) := strtol0 value in
  let val := to_int32 v in
  if bool_decide (end_ ≠ []) then Ret (-1, n)
  else if get_int n f =? val then Ret (1, n)
  else if negb (mn =? 0) && (val <? mn) then Ret (-1, set_int n f mn)
  else if negb (mx =? 0) && (mx <? val) then Ret (-1, set_int n f mx)
  else Ret (0, set_int n f val).

Definition wpa_config_write_int (f : str) (n : net) : outcome (option str) :=
  '(res, b) ← snprintf (uninit 20) 0 20 (fmt_d (get_int n f));
  if os_snprintf_error 20 res then Ret None
  else b ← buf_set b 19 0; s ← buf_str b 0; Ret (Some s).

(** ** Addresses *)

(** The bytes that [hwaddr_aton] stores and whether it succeeds. *)
Fixpoint hwaddr_bytes (k : nat) (txt : str) : list Z * bool :=
  match k with
  | O => ([], true)
  | S k' =>
      let a := hex2byte txt in
      if a <? 0 then ([], false)
      else
        let t := drop 2 txt in
        match k', t with
        | O, _ => ([a], true)
        | S _, c :: t => if c =? 58 then let '(l, r) := hwaddr_bytes k' t in (a :: l, r) else ([a], false)
        | S _, [] => ([a], false)
        end
  end.

Definition wpa_config_parse_bssid (n : net) (value : str) : outcome (Z * net) :=
  if str_eqb value [] || str_eqb value [DQ; DQ] || str_eqb value (lit "any")
  then Ret (0, set_int n (lit "bssid_set") 0)
  else
    let '(l, ok) := hwaddr_bytes 6 value in
    let n := set_bssid n (l ++ drop (length l) (n_bssid n)) in
    if negb ok then Ret (-1, n) else Ret (0, set_int n (lit "bssid_set") 1).

Definition wpa_config_write_bssid (n : net) : outcome (option str) :=
  if get_int n (lit "bssid_set") =? 0 then Ret None
  else
    '(res, b) ← snprintf (uninit 20) 0 20 (macstr (n_bssid n));
    if os_snprintf_error 20 res then Ret None
    else b ← buf_set b 19 0; s ← buf_str b 0; Ret (Some s).

Definition skip_sp (s : str) : str := (span (λ c, c =? SP) s).2.

Definition after_sp (s : str) : option str := (λ i, drop i s) <$> strchr s SP.

(** The list is kept in reverse; [None] for an error. *)
Fixpoint addr_list_loop (fuel : nat) (abort_on_error masked : bool) (pos : option str)
    (buf : list (ETH_BYTES * ETH_BYTES)) : outcome (option (list (ETH_BYTES * ETH_BYTES))) :=
  match fuel with
  | O => OutOfFuel
  | S fuel' =>
      match pos with
      | None | Some [] => Ret (Some buf)
      | Some s =>
          let s := skip_sp s in
          match hwaddr_masked_aton s masked with
          | None =>
              if abort_on_error || bool_decide (buf = []) then Ret None
              else addr_list_loop fuel' abort_on_error masked (after_sp s) buf
          | Some am => addr_list_loop fuel' abort_on_error masked (after_sp s) (am :: buf)
          end
      end
  end.

Definition wpa_config_parse_addr_list (f : str) (abort_on_error masked : bool) (n : net) (value : str)
    : outcome (Z * net) :=
  r ← addr_list_loop (S (length value)) abort_on_error masked (Some value) [];
  Ret match r with
      | None => (-1, n)
      | Some [] => (0, set_addrs n f None)
      | Some l => (0, set_addrs n f (Some l))
      end.

Definition addr_mask_text (am : ETH_BYTES * ETH_BYTES) : str :=
  if existsb (λ m, negb (m =? 255)) am.2 then macstr am.1 ++ [47] ++ macstr am.2 else macstr am.1.

(** [first] says that no address was written yet. *)
Fixpoint addr_text_loop (b : buf) (pos end_ : Z) (first : bool) (l : list (ETH_BYTES * ETH_BYTES))
    : outcome (option buf) :=
  match l with
  | [] => Ret (Some b)
  | am :: l' =>
      '(b, pos) ← (if first then Ret (b, pos) else b ← buf_set b pos SP; Ret (b, pos + 1));
      '(r, b) ← append b pos end_ (addr_mask_text am);
      match r with
      | None => Ret None
      | Some pos => addr_text_loop b pos end_ false l'
      end
  end.

Definition wpa_config_write_addr_list (f : str) (n : net) : outcome (option str) :=
  match n_addrs n !! f with
  | None | Some [] => Ret None
  | Some l =>
      let size := 40 * Z.of_nat (length l) in
      r ← addr_text_loop (uninit size) 0 size true (rev l);
      match r with
      | None => Ret None
      | Some b => s ← buf_str b 0; Ret (Some s)
      end
  end.

(** ** The key *)

Definition PMK_LEN : Z := 32.

Definition wpa_config_parse_psk (n : net) (value : str) : outcome (Z * net) :=
  match value with
  | 34 :: value =>
      let pass := match strrchr value DQ with Some pos => take pos value | None => value end in
      if (strlen pass <? 8) || (63 <? strlen pass) then Ret (-1, n)
      else if has_ctrl_char pass then Ret (-1, n)
      else if bool_decide (get_str n (lit "passphrase") = Some pass) then Ret (1, n)
      else Ret (0, set_str (set_int n (lit "psk_set") 0) (lit "passphrase") (Some pass))
  | _ =>
      let '(bytes, r) := hexstr2bin value (Z.to_nat PMK_LEN) in
      let n := set_psk n (bytes ++ drop (length bytes) (n_psk n)) in
      if negb (r =? 0) || bool_decide (drop (Z.to_nat PMK_LEN * 2) value ≠ []) then Ret (-1, n)
      else Ret (0, set_int (set_str n (lit "passphrase") None) (lit "psk_set") 1)
  end.

Definition wpa_config_write_psk (n : net) : outcome (option str) :=
  match get_str n (lit "passphrase") with
  | Some p => Ret (Some (c_str (wpa_config_write_string_ascii p)))
  | None =>
      if get_int n (lit "psk_set") =? 0 then Ret None
      else t ← wpa_config_write_string_hex (n_psk n); Ret (Some t)
  end.

(** ** Lists of names *)

(** The words between spaces and tabs, one after the other. *)
Fixpoint word_loop {A} (fuel : nat) (step : str → A → outcome A) (start : str) (a : A) : outcome A :=
  match fuel with
  | O => OutOfFuel
  | S fuel' =>
      match snd (span is_blank start) with
      | [] => Ret a
      | start =>
          let '(word, rest) := span (λ c, negb (is_blank c)) start in
          a ← step word a;
          match rest with
          | [] => Ret a
          | _ :: rest => word_loop fuel' step rest a
          end
      end
  end.

(** A word of [proto], [key_mgmt] and [auth_alg]: the value and the errors. *)
Definition flag_word (names : list (str * Z)) (word : str) (a : Z * Z) : outcome (Z * Z) :=
  let '(val, errors) := a in
  Ret match named names word with
      | Some bit => (Z.lor val bit, errors)
      | None => (val, errors + 1)
      end.

Definition parse_flags (f : str) (names : list (str * Z)) (n : net) (value : str) : outcome (Z * net) :=
  '(val, errors) ← word_loop (S (length value)) (flag_word names) value (0, 0);
  let errors := if val =? 0 then errors + 1 else errors in
  if (errors =? 0) && (get_int n f =? val) then Ret (1, n)
  else Ret (if errors =? 0 then 0 else -1, set_int n f val).

Definition write_flags (size : Z) (f : str) (names : list (Z * str)) (n : net) : outcome (option str) :=
  '(r, b) ← write_names (zeros size) 0 0 size (get_int n f) (lit " ") names;
  match r with
  | None => b ← buf_set b (size - 1) 0; s ← buf_str b 0; Ret (Some s)
  | Some pos => if pos =? 0 then Ret None else s ← buf_str b 0; Ret (Some s)
  end.

Definition proto_names : list (str * Z) :=
  [(lit "WPA", BIT 0); (lit "RSN", BIT 1); (lit "WPA2", BIT 1); (lit "OSEN", BIT 3)].
Definition key_mgmt_names : list (str * Z) :=
  [(lit "WPA-PSK", BIT 1); (lit "WPA-EAP", BIT 0); (lit "IEEE8021X", BIT 3); (lit "NONE", BIT 2);
   (lit "WPA-NONE", BIT 4)].
Definition auth_alg_names : list (str * Z) :=
  [(lit "OPEN", BIT 0); (lit "SHARED", BIT 1); (lit "LEAP", BIT 2)].

Definition proto_texts : list (Z * str) := [(BIT 0, lit "WPA"); (BIT 1, lit "RSN"); (BIT 3, lit "OSEN")].
Definition key_mgmt_texts : list (Z * str) :=
  [(BIT 1, lit "WPA-PSK"); (BIT 0, lit "WPA-EAP"); (BIT 3, lit "IEEE8021X"); (BIT 2, lit "NONE");
   (BIT 4, lit "WPA-NONE")].
Definition auth_alg_texts : list (Z * str) :=
  [(BIT 0, lit "OPEN"); (BIT 1, lit "SHARED"); (BIT 2, lit "LEAP")].

Definition wpa_config_parse_proto : net → str → outcome (Z * net) := parse_flags (lit "proto") proto_names.
Definition wpa_config_write_proto : net → outcome (option str) := write_flags 20 (lit "proto") proto_texts.
Definition wpa_config_parse_key_mgmt : net → str → outcome (Z * net) :=
  parse_flags (lit "key_mgmt") key_mgmt_names.
Definition wpa_config_write_key_mgmt : net → outcome (option str) :=
  write_flags 100 (lit "key_mgmt") key_mgmt_texts.
Definition wpa_config_parse_auth_alg : net → str → outcome (Z * net) :=
  parse_flags (lit "auth_alg") auth_alg_names.
Definition wpa_config_write_auth_alg : net → outcome (option str) :=
  write_flags 30 (lit "auth_alg") auth_alg_texts.

(** ** Ciphers *)

Definition wpa_config_parse_cipher (value : str) : outcome Z :=
  val ← wpa_parse_cipher (λ _, true) value;
  Ret (if val <? 0 then -1 else if val =? 0 then -1 else val).

Definition wpa_config_write_cipher (cipher : Z) : outcome (option str) :=
  '(r, b) ← wpa_write_ciphers (zeros 50) 0 50 cipher (lit " ");
  if r <? 0 then Ret None else s ← buf_str b 0; Ret (Some s).

Definition WPA_ALLOWED_PAIRWISE_CIPHERS : Z :=
  Z.lor WPA_CIPHER_CCMP (Z.lor WPA_CIPHER_GCMP (Z.lor WPA_CIPHER_TKIP (Z.lor WPA_CIPHER_NONE
    (Z.lor WPA_CIPHER_GCMP_256 WPA_CIPHER_CCMP_256)))).
Definition WPA_ALLOWED_GROUP_CIPHERS : Z :=
  Z.lor WPA_CIPHER_CCMP (Z.lor WPA_CIPHER_GCMP (Z.lor WPA_CIPHER_TKIP
    (Z.lor WPA_CIPHER_GCMP_256 (Z.lor WPA_CIPHER_CCMP_256 WPA_CIPHER_GTK_NOT_USED)))).

Definition wpa_config_parse_pairwise (n : net) (value : str) : outcome (Z * net) :=
  val ← wpa_config_parse_cipher value;
  if val =? -1 then Ret (-1, n)
  else if negb (Z.ldiff val WPA_ALLOWED_PAIRWISE_CIPHERS =? 0) then Ret (-1, n)
  else if get_int n (lit "pairwise_cipher") =? val then Ret (1, n)
  else Ret (0, set_int n (lit "pairwise_cipher") val).

Definition wpa_config_write_pairwise (n : net) : outcome (option str) :=
  wpa_config_write_cipher (get_int n (lit "pairwise_cipher")).

Definition wpa_config_parse_group (n : net) (value : str) : outcome (Z * net) :=
  val ← wpa_config_parse_cipher value;
  if val =? -1 then Ret (-1, n)
  else
    let val := Z.ldiff val (Z.lor WPA_CIPHER_WEP104 WPA_CIPHER_WEP40) in
    if negb (Z.ldiff val WPA_ALLOWED_GROUP_CIPHERS =? 0) then Ret (-1, n)
    else if get_int n (lit "group_cipher") =? val then Ret (1, n)
    else Ret (0, set_int n (lit "group_cipher") val).

Definition wpa_config_write_group (n : net) : outcome (option str) :=
  wpa_config_write_cipher (get_int n (lit "group_cipher")).

(** ** Lists of frequencies *)

(** The numbers in front of the first 0. *)
Fixpoint int_array_loop (fuel : nat) (pos : str) : outcome (list Z) :=
  match fuel with
  | O => OutOfFuel
  | S fuel' =>
      let pos := skip_sp pos in
      let v := atoi pos in
      if v =? 0 then Ret []
      else
        match strchr (drop 1 pos) SP with
        | None => Ret [v]
        | Some i => l ← int_array_loop fuel' (drop (S i) pos); Ret (v :: l)
        end
  end.

Definition wpa_config_parse_int_array (value : str) : outcome (list Z) :=
  int_array_loop (S (length value)) value.

Definition parse_freqs (f : str) (n : net) (value : str) : outcome (Z * net) :=
  freqs ← wpa_config_parse_int_array value;
  Ret (0, set_freqs n f (match freqs with [] => None | _ => Some freqs end)).

Definition wpa_config_parse_scan_freq : net → str → outcome (Z * net) := parse_freqs (lit "scan_freq").
Definition wpa_config_parse_freq_list : net → str → outcome (Z * net) := parse_freqs (lit "freq_list").

Definition wpa_config_write_freqs (freqs : option (list Z)) : outcome (option str) :=
  match freqs with
  | None => Ret None
  | Some l =>
      let size := 10 * Z.of_nat (length l) + 1 in
      '(ok, _, b) ← print_seq (zeros size) 0 size (separated [SP] ((λ f, fmt_u (u32 f)) <$> l));
      b ← (if ok : bool then Ret b else buf_set b (size - 1) 0);
      s ← buf_str b 0;
      Ret (Some s)
  end.

Definition wpa_config_write_scan_freq (n : net) : outcome (option str) :=
  wpa_config_write_freqs (n_freqs n !! lit "scan_freq").
Definition wpa_config_write_freq_list (n : net) : outcome (option str) :=
  wpa_config_write_freqs (n_freqs n !! lit "freq_list").

(** ** EAP methods and password *)

Definition EAP_VENDOR_IETF : Z := 0.
Definition EAP_TYPE_NONE : Z := 0.
Definition EAP_TYPE_LEAP : Z := 17.
Definition EAP_TYPE_EXPANDED : Z := 254.
Definition NTHASH : Z := BIT 0.       (* EAP_CONFIG_FLAGS_PASSWORD_NTHASH *)
Definition EXT_PASSWORD : Z := BIT 1. (* EAP_CONFIG_FLAGS_EXT_PASSWORD *)

(** In front of the terminator, which an unknown method ends too. *)
Definition is_method (m : Z * Z) : bool :=
  negb (m.1 =? EAP_VENDOR_IETF) || negb (m.2 =? EAP_TYPE_NONE).
Fixpoint until_none (l : list (Z * Z)) : list (Z * Z) :=
  match l with m :: l' => if is_method m then m :: until_none l' else [] | [] => [] end.

Section eap.
(** The registered methods: name, vendor and type. *)
Context (eap_methods : list (str * Z * Z)).

Fixpoint find_method (l : list (str * Z * Z)) (name : str) : Z * Z :=
  match l with
  | [] => (EAP_VENDOR_IETF, EAP_TYPE_NONE)
  | (m, vendor, method) :: l' => if str_eqb m name then (vendor, method) else find_method l' name
  end.

(** The vendor and the type. *)
Definition eap_peer_get_type (name : str) : Z * Z := find_method eap_methods name.

Fixpoint find_name (l : list (str * Z * Z)) (vendor type : Z) : option str :=
  match l with
  | [] => None
  | (m, v, t) :: l' => if (v =? vendor) && (t =? type) then Some m else find_name l' vendor type
  end.

Definition eap_get_name (vendor type : Z) : option str :=
  if (vendor =? EAP_VENDOR_IETF) && (type =? EAP_TYPE_EXPANDED) then Some (lit "expanded")
  else find_name eap_methods vendor type.

Definition eap_word (word : str) (a : net * list (Z * Z) * Z) : outcome (net * list (Z * Z) * Z) :=
  let '(n, methods, errors) := a in
  let m := eap_peer_get_type word in
  if (m.1 =? EAP_VENDOR_IETF) && (m.2 =? EAP_TYPE_NONE) then Ret (n, methods ++ [m], errors + 1)
  else
    let f := if (m.1 =? EAP_VENDOR_IETF) && (m.2 =? EAP_TYPE_LEAP) then lit "leap" else lit "non_leap" in
    v ← int_chk (get_int n f + 1);
    Ret (set_int n f v, methods ++ [m], errors).

(** The methods of [prev] that are among [methods]. *)
Definition matches (prev methods : list (Z * Z)) : Z :=
  Z.of_nat (length (filter (λ m, m ∈ methods) prev)).

Definition wpa_config_parse_eap (n : net) (value : str) : outcome (Z * net) :=
  '(n, methods, errors) ← word_loop (S (length value)) eap_word value (n, [], 0);
  let terminated l := l ++ [(EAP_VENDOR_IETF, EAP_TYPE_NONE)] in
  let same :=
    match n_methods n with
    | Some prev =>
        (errors =? 0) && (length (until_none prev) =? length methods)%nat &&
        (matches (terminated (until_none prev)) (terminated methods) =? Z.of_nat (length methods) + 1)
    | None => false
    end in
  if same then Ret (1, n)
  else Ret (if errors =? 0 then 0 else -1, set_methods n (Some methods)).

(** The methods that have a name, up to the first that does not fit. *)
Fixpoint eap_text_loop (b : buf) (pos end_ : Z) (l : list (Z * Z)) : outcome buf :=
  match l with
  | [] => Ret b
  | m :: l' =>
      match eap_get_name m.1 m.2 with
      | None => eap_text_loop b pos end_ l'
      | Some name =>
          '(r, b) ← append b pos end_ ((if pos =? 0 then [] else [SP]) ++ name);
          match r with
          | None => Ret b
          | Some pos => eap_text_loop b pos end_ l'
          end
      end
  end.

Definition wpa_config_write_eap (n : net) : outcome (option str) :=
  match n_methods n with
  | None => Ret None
  | Some l =>
      b ← eap_text_loop (zeros 100) 0 100 (until_none l);
      b ← buf_set b 99 0;
      s ← buf_str b 0;
      Ret (Some s)
  end.
End eap.

(** [and_not] is [flags &= ~f]. *)
Definition and_not (n : net) (f : Z) : net := set_int n (lit "flags") (Z.ldiff (get_int n (lit "flags")) f).
Definition or_flag (n : net) (f : Z) : net := set_int n (lit "flags") (Z.lor (get_int n (lit "flags")) f).

Definition wpa_config_parse_password (n : net) (value : str) : outcome (Z * net) :=
  let old := get_str n (lit "password") in
  if str_eqb value (lit "NULL") then
    match old with
    | None => Ret (1, n)
    | Some _ => Ret (0, set_str n (lit "password") None)
    end
  else if negb (str_starts value (lit "hash:")) then
    r ← parse_bytes value;
    Ret match r with
        | None => (-1, n)
        | Some s => (0, and_not (and_not (set_str n (lit "password") (Some s)) NTHASH) EXT_PASSWORD)
        end
  else if negb (strlen (drop 5 value) =? 2 * 16) then Ret (-1, n)
  else
    let '(hash, r) := hexstr2bin (drop 5 value) 16 in
    if negb (r =? 0) then Ret (-1, n)
    else if bool_decide (old = Some hash) && has (get_int n (lit "flags")) NTHASH then Ret (1, n)
    else Ret (0, and_not (or_flag (set_str n (lit "password") (Some hash)) NTHASH) EXT_PASSWORD).

Definition wpa_config_write_password (n : net) : outcome (option str) :=
  match get_str n (lit "password") with
  | None => Ret None
  | Some p =>
      if negb (has (get_int n (lit "flags")) NTHASH) then
        t ← wpa_config_write_string p; Ret (Some t)
      else
        hash ← block_bytes (cells p) 0 16;
        b ← buf_write (uninit 38) 0 (lit "hash:");
        '(_, h) ← wpa_snprintf_hex (drop 5 b) 33 hash;
        s ← buf_str (take 5 b ++ h) 0;
        Ret (Some s)
  end.

(** ** WEP keys *)

Definition MAX_WEP_KEY_LEN : Z := 16.

Definition wpa_config_parse_wep_key (idx : nat) (n : net) (value : str) : outcome (Z * net) :=
  r ← parse_bytes value;
  match r with
  | None => Ret (-1, n)
  | Some s =>
      let lens := <[idx := strlen s]> (n_wep_key_len n) in
      if MAX_WEP_KEY_LEN <? strlen s then Ret (-1, set_wep n (n_wep_key n) lens)
      else
        key ← need "no such key" (n_wep_key n !! idx);
        Ret (0, set_wep n (<[idx := s ++ drop (length s) key]> (n_wep_key n)) lens)
  end.

(** A length beyond the 16 bytes of the key reads what follows it. *)
Definition wpa_config_write_wep_key (idx : nat) (n : net) : outcome (option str) :=
  key ← need "no such key" (n_wep_key n !! idx);
  len ← need "no such key" (n_wep_key_len n !! idx);
  if len =? 0 then Ret None
  else s ← block_bytes (cells key) 0 (Z.to_nat len); t ← wpa_config_write_string s; Ret (Some t).

(** ** The table *)

(** [struct parse_data], the parameters of a parser and a writer applied. *)
Record parse_data : Type := Field {
  f_name : str;
  parser : net → str → outcome (Z * net);
  writer : net → outcome (option str);
  key_data : bool
}.

Definition STR_of (f : str) (has_len : bool) (mn mx : Z) (key : bool) : parse_data :=
  Field f (wpa_config_parse_str f has_len mn mx) (wpa_config_write_str f has_len) key.
Definition STR (f : str) : parse_data := STR_of f false 0 0 false.
Definition STR_KEY (f : str) : parse_data := STR_of f false 0 0 true.
Definition STR_LEN (f : str) : parse_data := STR_of f true 0 0 false.
Definition STR_RANGE (f : str) (mn mx : Z) : parse_data := STR_of f true mn mx false.
Definition INT_RANGE (f : str) (mn mx : Z) : parse_data :=
  Field f (wpa_config_parse_int f mn mx) (wpa_config_write_int f) false.
Definition INT (f : str) : parse_data := INT_RANGE f 0 0.
Definition FUNC (f : str) (p : net → str → outcome (Z * net)) (w : net → outcome (option str)) : parse_data :=
  Field f p w false.
Definition FUNC_KEY (f : str) (p : net → str → outcome (Z * net)) (w : net → outcome (option str)) : parse_data :=
  Field f p w true.
Definition FUNC_addrs (f : str) : parse_data :=
  FUNC f (wpa_config_parse_addr_list f true true) (wpa_config_write_addr_list f).
Definition FUNC_wep (f : str) (idx : nat) : parse_data :=
  FUNC_KEY f (wpa_config_parse_wep_key idx) (wpa_config_write_wep_key idx).

Section fields.
Context (eap_methods : list (str * Z * Z)).

Definition ssid_fields : list parse_data :=
  [STR_RANGE (lit "ssid") 0 SSID_MAX_LEN; INT_RANGE (lit "scan_ssid") 0 1;
   FUNC (lit "bssid") wpa_config_parse_bssid wpa_config_write_bssid;
   FUNC_addrs (lit "bssid_blacklist"); FUNC_addrs (lit "bssid_whitelist");
   FUNC_KEY (lit "psk") wpa_config_parse_psk wpa_config_write_psk; INT (lit "mem_only_psk");
   FUNC (lit "proto") wpa_config_parse_proto wpa_config_write_proto;
   FUNC (lit "key_mgmt") wpa_config_parse_key_mgmt wpa_config_write_key_mgmt;
   INT (lit "bg_scan_period");
   FUNC (lit "pairwise") wpa_config_parse_pairwise wpa_config_write_pairwise;
   FUNC (lit "group") wpa_config_parse_group wpa_config_write_group;
   FUNC (lit "auth_alg") wpa_config_parse_auth_alg wpa_config_write_auth_alg;
   FUNC (lit "scan_freq") wpa_config_parse_scan_freq wpa_config_write_scan_freq;
   FUNC (lit "freq_list") wpa_config_parse_freq_list wpa_config_write_freq_list;
   INT_RANGE (lit "max_oper_chwidth") 0 3;
   FUNC (lit "eap") (wpa_config_parse_eap eap_methods) (wpa_config_write_eap eap_methods);
   STR_LEN (lit "identity"); STR_LEN (lit "anonymous_identity");
   FUNC_KEY (lit "password") wpa_config_parse_password wpa_config_write_password] ++
  (STR <$> [lit "ca_cert"; lit "ca_path"; lit "client_cert"; lit "private_key"]) ++
  [STR_KEY (lit "private_key_passwd")] ++
  (STR <$> [lit "dh_file"; lit "subject_match"; lit "altsubject_match"; lit "domain_suffix_match";
            lit "domain_match"; lit "ca_cert2"; lit "ca_path2"; lit "client_cert2"; lit "private_key2"]) ++
  [STR_KEY (lit "private_key2_passwd")] ++
  (STR <$> [lit "dh_file2"; lit "subject_match2"; lit "altsubject_match2"; lit "domain_suffix_match2";
            lit "domain_match2"; lit "phase1"; lit "phase2"; lit "pcsc"]) ++
  [STR_KEY (lit "pin")] ++
  (STR <$> [lit "engine_id"; lit "key_id"; lit "cert_id"; lit "ca_cert_id"]) ++
  [STR_KEY (lit "pin2")] ++
  (STR <$> [lit "engine2_id"; lit "key2_id"; lit "cert2_id"; lit "ca_cert2_id"]) ++
  [INT (lit "engine"); INT (lit "engine2"); INT (lit "eapol_flags"); INT (lit "sim_num");
   STR (lit "openssl_ciphers"); INT (lit "erp");
   FUNC_wep (lit "wep_key0") 0; FUNC_wep (lit "wep_key1") 1; FUNC_wep (lit "wep_key2") 2;
   FUNC_wep (lit "wep_key3") 3; INT (lit "wep_tx_keyidx"); INT (lit "priority");
   INT (lit "eap_workaround"); STR (lit "pac_file"); INT (lit "fragment_size"); INT (lit "ocsp");
   INT_RANGE (lit "mode") 0 4; INT_RANGE (lit "proactive_key_caching") 0 1;
   INT_RANGE (lit "disabled") 0 2; STR (lit "id_str"); INT_RANGE (lit "peerkey") 0 1;
   INT_RANGE (lit "mixed_cell") 0 1; INT_RANGE (lit "frequency") 0 65000;
   INT_RANGE (lit "fixed_freq") 0 1; INT (lit "wpa_ptk_rekey"); INT (lit "group_rekey");
   STR (lit "bgscan"); INT_RANGE (lit "ignore_broadcast_ssid") 0 2; INT (lit "ap_max_inactivity");
   INT (lit "dtim_period"); INT (lit "beacon_int"); INT_RANGE (lit "mac_addr") 0 2;
   INT_RANGE (lit "pbss") 0 2; INT_RANGE (lit "wps_disabled") 0 1].

Fixpoint find_field (l : list parse_data) (var : str) : option parse_data :=
  match l with
  | [] => None
  | f :: l' => if str_eqb var (f_name f) then Some f else find_field l' var
  end.

Definition wpa_config_set (n : net) (var value : str) : outcome (Z * net) :=
  match find_field ssid_fields var with
  | None => Ret (-1, n)
  | Some f => '(ret, n) ← parser f n value; Ret (if ret <? 0 then -1 else ret, n)
  end.

Definition wpa_config_set_quoted (n : net) (var value : str) : outcome (Z * net) :=
  wpa_config_set n var (DQ :: value ++ [DQ]).

(** The variables that are set, with their values. *)
Fixpoint get_all_loop (l : list parse_data) (n : net) (get_keys : bool) : outcome (list (str * str)) :=
  match l with
  | [] => Ret []
  | f :: l' =>
      if key_data f && negb get_keys then get_all_loop l' n get_keys
      else
        value ← writer f n;
        match value with
        | None | Some [] => get_all_loop l' n get_keys
        | Some v => props ← get_all_loop l' n get_keys; Ret ((f_name f, v) :: props)
        end
  end.

Definition wpa_config_get_all (n : net) (get_keys : bool) : outcome (list (str * str)) :=
  get_all_loop ssid_fields n (get_keys && negb (get_int n (lit "export_keys") =? 0)).

Definition wpa_config_get (n : net) (var : str) : outcome (option str) :=
  match find_field ssid_fields var with
  | None => Ret None
  | Some f =>
      ret ← writer f n;
      Ret match ret with
          | Some t => if has_newline t then None else Some t
          | None => None
          end
  end.

Definition wpa_config_get_no_key (n : net) (var : str) : outcome (option str) :=
  match find_field ssid_fields var with
  | None => Ret None
  | Some f =>
      res ← writer f n;
      Ret (if key_data f then match res with Some (_ :: _) => Some (lit "*") | _ => None end else res)
  end.
End fields.

(** ** A new network block *)

(** [os_zalloc] of [struct wpa_ssid]. *)
Definition zalloc_net : net :=
  Net ∅ ∅ (replicate 6 0) ∅ (replicate 32 0) ∅ None (replicate 4 (replicate 16 0)) (replicate 4 0).

Definition network_defaults : list (str * Z) :=
  [(lit "proto", Z.lor (BIT 0) (BIT 1)); (lit "pairwise_cipher", Z.lor WPA_CIPHER_CCMP WPA_CIPHER_TKIP);
   (lit "group_cipher", Z.lor WPA_CIPHER_CCMP WPA_CIPHER_TKIP); (lit "key_mgmt", Z.lor (BIT 1) (BIT 0));
   (lit "bg_scan_period", -1); (lit "eapol_flags", Z.lor (BIT 0) (BIT 1)); (lit "eap_workaround", -1);
   (lit "fragment_size", 1398); (lit "sim_num", 1); (lit "proactive_key_caching", -1); (lit "mac_addr", -1)].

Definition wpa_config_set_network_defaults (n : net) : net :=
  foldl (λ n d, set_int n d.1 d.2) n network_defaults.

(** [pbkdf2_sha1] of the passphrase and the SSID. *)
Definition wpa_config_update_psk (pbkdf2_sha1 : str → list Z → list Z) (n : net) : outcome net :=
  passphrase ← need "no passphrase" (get_str n (lit "passphrase"));
  Ret (set_int (set_psk n (pbkdf2_sha1 passphrase (default [] (get_str n (lit "ssid")))))
         (lit "psk_set") 1).
