(* ===== verification/ConfigText.v ===== *)
(** * Values of configuration variables as text: lemmas

    What the parsers of [ConfigSsid] read and the writers print, for the kinds
    of values that variables share: byte strings in the three notations,
    integers, addresses, lists of names. *)

From stdpp Require Import gmap.
From S2P Require Import Prelude CString Scan Smartlist CliUtil Common CommonLists CommonText Printable Printing.
From S2P Require Import WpaIe WpaCommon WpaSpec WpaText ConfigSsid.

(** ** Byte strings *)

Lemma cstring_bytes s : cstring s → byte_list s.
Proof. intros Hs. eapply Forall_impl; [exact Hs|]. intros c Hc; cbv beta in *. lia. Qed.

Lemma cstring_drop n s : cstring s → cstring (drop n s).
Proof. apply Forall_drop. Qed.

Lemma hex2num_range c : -1 ≤ hex2num c < 16.
Proof. unfold hex2num. repeat case_if; zbool; lia. Qed.

Lemma hex2byte_range s : -1 ≤ hex2byte s < 256.
Proof.
  unfold hex2byte. destruct s as [|h s]; [lia|]. pose proof (hex2num_range h).
  case_if; [lia|]. destruct s as [|l s]; [lia|]. pose proof (hex2num_range l). case_if; [lia|]. zbool.
  assert (H4 : Z.lor (Z.shiftl (hex2num h) 4) (hex2num l) = 16 * hex2num h + hex2num l).
  { rewrite Z.shiftl_mul_pow2 by lia. change (2 ^ 4) with 16.
    assert (Hz : Z.land (hex2num h * 16) (hex2num l) = 0).
    { change 16 with (2 ^ 4). apply Z.bits_inj'. intros i Hi. rewrite Z.land_spec, Z.bits_0.
      destruct (Z.ltb_spec i 4); [by rewrite Z.mul_pow2_bits_low by lia|].
      destruct (decide (hex2num l = 0)) as [->|Hn]; [by rewrite Z.bits_0, andb_false_r|].
      rewrite (Z.bits_above_log2 (hex2num l)), andb_false_r; [done|lia|].
      assert (Z.log2 (hex2num l) < 4) by (apply Z.log2_lt_pow2; lia). lia. }
    pose proof (Z.add_lor_land (hex2num h * 16) (hex2num l)). lia. }
  lia.
Qed.

Lemma hexstr2bin_bytes n s : byte_list (hexstr2bin s n).1 ∧
  ((hexstr2bin s n).2 = 0 → length (hexstr2bin s n).1 = n) ∧ (length (hexstr2bin s n).1 ≤ n)%nat.
Proof.
  revert s. induction n as [|n IH]; intros s; [split_and!; [constructor|done|done]|]. cbn [hexstr2bin].
  pose proof (hex2byte_range s). case_if; zbool; [split_and!; [constructor|done|cbn; lia]|].
  specialize (IH (drop 2 s)). destruct (hexstr2bin (drop 2 s) n) as [b r]. cbn in *.
  destruct IH as (Hb & Hl & Hm). split_and!; [constructor; [lia|done]|intros Hr; by rewrite Hl|lia].
Qed.

(** Whatever [printf_decode] is given. *)
Lemma decode_escape_shorter s :
  byte_list s → (length (decode_escape s).2 ≤ length s)%nat ∧ byte_list (decode_escape s).2 ∧
  ∀ v, (decode_escape s).1 = Some v → 0 ≤ v < 256.
Proof.
  intros Hs. unfold decode_escape. destruct Hs as [|c s Hc Hs]; [split_and!; [done|constructor|done]|].
  repeat (case_if; [split_and!; [simpl; lia|done|intros v [= <-]; unfold BACKSLASH, DQ, NL, CR, TAB, ESC; lia]|]).
  case_if.
  { pose proof (hex2byte_range s). case_if; zbool.
    - pose proof (hex2num_range (next_char s).1). case_if; zbool; (split_and!; [simpl; rewrite ?length_drop; lia| |]);
        try done; [by apply Forall_drop|]. intros v [= <-]. lia.
    - split_and!; [simpl; rewrite ?length_drop; lia|by apply Forall_drop|]. intros v [= <-]. lia. }
  case_if; [|split_and!; [simpl; lia|by constructor|done]].
  assert (Ho : ∀ val (p : str), byte_list p → (length (octal_digit val p).2 ≤ length p)%nat ∧ byte_list (octal_digit val p).2).
  { intros val p Hp. unfold octal_digit. destruct Hp as [|x p Hx Hp]; [by split; [|constructor]|]. case_if; [|by split; [|constructor]].
    split; [simpl; lia|done]. }
  destruct (Ho (c - 48) s Hs) as [H1 H2]. destruct (octal_digit (c - 48) s) as [v1 p1]. cbn [snd] in *.
  destruct (Ho v1 p1 H2) as [H3 H4]. destruct (octal_digit v1 p1) as [v2 p2]. cbn [fst snd] in *.
  split_and!; [simpl; lia|done|]. intros v [= <-]. apply Z.mod_pos_bound. lia.
Qed.

Lemma decode_loop_total fuel s b u maxlen :
  byte_list s → (length s < fuel)%nat → built b u → byte_list u → strlen u < maxlen ≤ Z.of_nat (length b) →
  ∃ v b', decode_loop fuel b maxlen (strlen u) s = Ret (b', strlen v) ∧ built b' v ∧ byte_list v ∧
    length b' = length b ∧ strlen v < maxlen.
Proof.
  revert s b u. induction fuel as [|fuel IH]; intros s b u Hs Hf Hb Hu Hm; [lia|]. cbn [decode_loop].
  destruct Hs as [|c s Hc Hs]; [exists u, b; split_and!; (done || lia)|].
  case_if; zbool; [exists u, b; split_and!; (done || lia)|].
  assert (Hput : ∀ v rest, 0 ≤ v < 256 → byte_list rest → (length rest ≤ length s)%nat →
    ∃ w b', (b ← buf_set b (strlen u) v; decode_loop fuel b maxlen (strlen u + 1) rest) = Ret (b', strlen w) ∧
      built b' w ∧ byte_list w ∧ length b' = length b ∧ strlen w < maxlen).
  { intros v rest Hv Hr Hl. destruct (put_char b u v Hb) as (b1 & -> & Hb1 & Hl1); [lia|]. ret_simpl.
    assert (Hlen : strlen (u ++ [v]) = strlen u + 1) by by rewrite strlen_app. rewrite <- Hlen.
    destruct (IH rest b1 (u ++ [v])) as (w & b' & ? & ? & ? & ? & ?); [done|simpl in Hf; lia|done| |lia|].
    { apply Forall_app. split; [done|by constructor]. }
    exists w, b'. split_and!; [done..|congruence|done]. }
  destruct (c =? BACKSLASH); [|by apply Hput].
  destruct (decode_escape_shorter s Hs) as (Hl & Hr & Hv). destruct (decode_escape s) as [[v|] rest]; cbn [fst snd] in *.
  - apply Hput; [by apply Hv|done|done].
  - apply IH; [done|simpl in Hf; lia|done|done|done].
Qed.

Lemma quoted_text_take s t : quoted_text s = Some t → s = t ++ [DQ].
Proof.
  unfold quoted_text. destruct (strrchr s DQ) as [pos|] eqn:E; [|done].
  cbn [mbind option_bind]. destruct (S pos =? length s)%nat eqn:El; [|done]. intros [= <-]. apply Nat.eqb_eq in El.
  assert (Hp : s !! pos = Some DQ).
  { clear El. revert pos E. induction s as [|x s IH]; intros pos; cbn [strrchr]; [done|].
    destruct (strrchr s DQ) as [i|]; [intros [= <-]; by apply IH|]. case_if; [|done].
    intros [= <-]. zbool. by subst. }
  rewrite <- (take_S_r _ _ _ Hp). by rewrite take_ge by lia.
Qed.

(** The bytes that a value stands for, if it stands for any. *)
Lemma parse_bytes_total value :
  cstring value → ∃ r, parse_bytes value = Ret r ∧
    match r with Some s => byte_list s ∧ strlen s ≤ strlen value | None => True end.
Proof.
  intros Hv. unfold parse_bytes.
  assert (Hblock : ∀ b s, built b s → block_bytes b 0 (length s) = Ret s).
  { intros b s Hb. apply (built_bytes b [] s []). by rewrite app_nil_r. }
  assert (Hget : ∀ b s, built b s → byte_list s → strlen s ≤ strlen value → ∃ r,
    (s ← block_bytes b 0 (Z.to_nat (strlen s)); Ret (Some s)) = Ret r ∧
    match r with Some s => byte_list s ∧ strlen s ≤ strlen value | None => True end).
  { intros b s Hb Hs Hl. unfold strlen at 1. rewrite Nat2Z.id, Hblock by done. by exists (Some s). }
  assert (Hquoted : ∀ v t, cstring v → quoted_text v = Some t → byte_list t ∧ cstring t ∧ strlen t < strlen v).
  { intros v t Hc Ht%quoted_text_take. subst v. apply cstring_app in Hc as [Hc _].
    split_and!; [by apply cstring_bytes|done|]. rewrite strlen_app. unfold strlen at 3. simpl. lia. }
  destruct (bare value) eqn:E.
  - rewrite bare_value by done. unfold hex_value.
    destruct (Z.land (strlen value) 1 =? 1) eqn:Eo; [by exists None|]. cbn [plentiful]. zbool.
    pose proof (hexstr2bin_bytes (Z.to_nat (strlen value / 2)) value) as (Hb & Hl & _).
    destruct (hexstr2bin value _) as [bytes r]. cbn [fst snd] in *.
    destruct (r =? 0) eqn:Er; cbn [negb]; [|by exists None]. zbool. specialize (Hl Er).
    pose proof (strlen_nonneg value).
    assert (Hlen : strlen bytes = strlen value / 2) by (unfold strlen in *; lia).
    destruct (buf_write_defined (uninit (strlen value / 2 + 1)) 0 bytes) as [b1 H1]; [lia| |].
    { unfold uninit. rewrite length_replicate. unfold strlen in *. lia. }
    rewrite H1. ret_simpl. pose proof (buf_write_length _ _ _ _ H1) as Hl1.
    pose proof (built_write _ [] bytes b1 (built_nil _) H1) as Hb1. cbn [app] in Hb1. rewrite <- Hlen.
    destruct (put_char b1 bytes 0 Hb1) as (b2 & -> & Hb2 & _).
    { rewrite Hl1. unfold uninit. rewrite length_replicate. unfold strlen in *. lia. }
    ret_simpl. apply Hget; [by eapply built_prefix|done|lia].
  - unfold bare in E. destruct Hv as [|c v Hc Hv]; [done|].
    assert (Hq : c = 34 ∨ ∃ v', c = 80 ∧ v = 34 :: v').
    { repeat match type of E with context [match ?y with _ => _ end] => is_var y; destruct y; try done end;
        [by left|right; by eexists]. }
    destruct Hq as [->|(v' & -> & ->)]; unfold wpa_config_parse_string; ret_simpl.
    + destruct (quoted_text v) as [t|] eqn:Et; ret_simpl; [|by exists None].
      destruct (Hquoted v t Hv Et) as (Hb & Hct & Hl). cbn [dup_binstr]. cbv beta iota. simpl.
      apply Hget; [|done|unfold strlen in *; simpl in *; lia].
      apply (built_prefix _ t [0]). unfold built. by rewrite take_ge by (unfold cells; by rewrite length_fmap).
    + apply Forall_cons in Hv as [_ Hv].
      destruct (quoted_text v') as [t|] eqn:Et; ret_simpl; [|by exists None].
      destruct (Hquoted v' t Hv Et) as (Hb & Hct & Hl). cbn [dup_binstr]. cbv beta iota. simpl.
      rewrite (built_str (cells (t ++ [0])) t); [|unfold built; by rewrite take_ge by (unfold cells; by rewrite length_fmap)|done].
      ret_simpl. unfold printf_decode.
      destruct (decode_loop_total (S (length t)) t (uninit (strlen t + 1)) [] (strlen t + 1))
        as (w & b' & Hd & Hw & Hwb & Hwl & Hwm); [done|lia|apply built_nil|constructor| |].
      { unfold uninit. rewrite length_replicate. unfold strlen. simpl. lia. }
      change (strlen []) with 0 in Hd. rewrite Hd. ret_simpl. rewrite (proj2 (Z.ltb_lt _ _)) by lia.
      destruct (put_char b' w 0 Hw) as (b2 & -> & Hb2 & _).
      { rewrite Hwl. unfold uninit. rewrite length_replicate. unfold strlen in *. lia. }
      ret_simpl. apply Hget; [by eapply built_prefix|done|unfold strlen in *; simpl in *; lia].
Qed.

(** The text of a byte string. *)
Lemma snprintf_hex_loop_spec data b u size :
  byte_list data → built b u → strlen u + 2 * strlen data < size → size ≤ Z.of_nat (length b) →
  ∃ b', snprintf_hex_loop b size (strlen u) data fmt_02x =
    (b2 ← buf_set b' (size - 1) 0; Ret (strlen (u ++ hex_text data), b2)) ∧
    built b' (u ++ hex_text data) ∧ length b' = length b.
Proof.
  intros Hd. revert b u. induction Hd as [|a data Ha _ IH]; intros b u Hb Hs Hl; cbn [snprintf_hex_loop].
  { exists b. by rewrite app_nil_r. }
  destruct (fmt_02x_printable a Ha) as [_ H2].
  assert (Hc : strlen (a :: data) = strlen data + 1) by (unfold strlen; simpl; lia).
  pose proof (strlen_nonneg data).
  destruct (snprintf_built b u (fmt_02x a) (size - strlen u) Hb) as (b1 & -> & Hb1 & Hl1); [lia|lia|].
  ret_simpl. rewrite H2. unfold os_snprintf_error. change (u32 2) with 2. change (2 <? 0) with false.
  rewrite (proj2 (Z.leb_gt _ _)) by lia. cbn [orb].
  assert (Hu : strlen (u ++ fmt_02x a) = strlen u + 2) by (rewrite strlen_app; lia). rewrite <- Hu.
  destruct (IH b1 (u ++ fmt_02x a)) as (b' & H1 & H3 & H4);
    [apply (built_prefix _ _ [0]); by rewrite <- app_assoc|lia|lia|].
  exists b'. unfold hex_text in *. cbn [list_bind mbind]. rewrite H1, <- app_assoc. split_and!; [done| |lia].
  by rewrite app_assoc.
Qed.

Lemma snprintf_hex_spec b size data :
  byte_list data → 2 * strlen data + 1 = size → size ≤ Z.of_nat (length b) →
  ∃ b', wpa_snprintf_hex b size data = Ret (strlen (hex_text data), b') ∧
    built b' (hex_text data ++ [0]) ∧ length b' = length b.
Proof.
  intros Hd <- Hl. pose proof (strlen_nonneg data). unfold wpa_snprintf_hex, _wpa_snprintf_hex.
  rewrite (proj2 (Z.eqb_neq _ _)) by lia.
  destruct (snprintf_hex_loop_spec data b [] (2 * strlen data + 1) Hd (built_nil _)) as (b1 & H1 & Hb & Hlb);
    [change (strlen []) with 0; lia|done|].
  change (strlen []) with 0 in H1. rewrite H1. cbn [app] in *.
  assert (Hh : strlen (hex_text data) = 2 * strlen data) by (unfold strlen; rewrite hex_text_length by done; lia).
  replace (2 * strlen data + 1 - 1) with (strlen (hex_text data)) by lia.
  destruct (put_char b1 (hex_text data) 0 Hb) as (b2 & -> & Hb2 & Hl2); [lia|]. ret_simpl.
  exists b2. split_and!; [done|done|congruence].
Qed.

Lemma hex_text_graphic data : byte_list data → Forall (λ c, 0 ≤ hex2num c ∧ 33 ≤ c < 127) (hex_text data).
Proof.
  induction 1 as [|a data Ha _ IH]; [constructor|]. rewrite hex_text_cons by done.
  assert (Hh : ∀ x, 0 ≤ x < 16 → 0 ≤ hex2num (hex_digit x) ∧ 33 ≤ hex_digit x < 127).
  { intros x Hx. cut (Forall (λ x, 0 ≤ hex2num (hex_digit x) ∧ 33 ≤ hex_digit x < 127) (Z.of_nat <$> seq 0 16)).
    { rewrite Forall_forall. intros H. apply H. apply list_elem_of_fmap. exists (Z.to_nat x).
      split; [lia|]. apply elem_of_seq. lia. }
    by apply (bool_decide_unpack _). }
  repeat constructor; try apply Hh; try done; lia.
Qed.

Lemma hex_text_cstring data : byte_list data → cstring (hex_text data).
Proof. intros Hd. eapply Forall_impl; [by apply hex_text_graphic|]. intros c (_ & Hc); cbv beta in *. lia. Qed.

Lemma write_hex_spec s : byte_list s → wpa_config_write_string_hex s = Ret (hex_text s).
Proof.
  intros Hs. unfold wpa_config_write_string_hex.
  destruct (snprintf_hex_spec (zeros (2 * strlen s + 1)) (2 * strlen s + 1) s Hs) as (b & -> & Hb & _); [done| |].
  { unfold zeros. rewrite length_replicate. pose proof (strlen_nonneg s). lia. }
  ret_simpl. apply built_str; [done|by apply hex_text_cstring].
Qed.

Lemma c_str_cstring s : cstring s → c_str s = s.
Proof.
  intros Hs. unfold c_str. rewrite <- (app_nil_r s), span_app; [by rewrite app_nil_r| |done].
  eapply Forall_impl; [exact Hs|]. intros c Hc; cbv beta in *. by rewrite (proj2 (Z.eqb_neq _ _)) by lia.
Qed.

Lemma c_str_ok s : byte_list s → cstring (c_str s).
Proof.
  intros Hs. unfold c_str. destruct (span_spec (λ c, negb (c =? 0)) s) as (E & H1 & _).
  assert (Hb : byte_list (span (λ c, negb (c =? 0)) s).1) by (rewrite E in Hs; by apply Forall_app in Hs as [? _]).
  apply Forall_forall. intros c Hc. rewrite Forall_forall in H1. specialize (H1 c Hc).
  unfold byte_list in Hb. rewrite Forall_forall in Hb. specialize (Hb c Hc). cbv beta in *.
  apply negb_true_iff, Z.eqb_neq in H1. lia.
Qed.

(** A notation of a byte string in a value. *)
Lemma parse_bytes_parsed value data :
  parsed (wpa_config_parse_string (λ _, true) value) data → parse_bytes value = Ret (Some data).
Proof.
  intros (b & E & Hb). unfold parse_bytes. rewrite E. ret_simpl. unfold strlen.
  rewrite Nat2Z.id, (parsed_bytes b data Hb). done.
Qed.

Lemma parse_bytes_hex data : byte_list data → parse_bytes (hex_text data) = Ret (Some data).
Proof. intros Hd. by apply parse_bytes_parsed, parse_hex. Qed.

Lemma parse_bytes_quoted s : parse_bytes (DQ :: s ++ [DQ]) = Ret (Some s).
Proof. by apply parse_bytes_parsed, parse_quoted. Qed.

(** What the printers of byte strings promise: the text is parsed to the
    bytes and is none of the special values. *)
Definition text_of (s : list Z) (t : str) : Prop :=
  cstring t ∧ parse_bytes t = Ret (Some s) ∧ t ≠ [] ∧ t ≠ lit "NULL" ∧ str_starts t (lit "hash:") = false.

Lemma write_string_spec s : byte_list s → ∃ t, wpa_config_write_string s = Ret t ∧ text_of s t.
Proof.
  intros Hs. unfold wpa_config_write_string. destruct (is_hex s) eqn:E.
  - rewrite write_hex_spec by done. eexists. split; [done|].
    pose proof (hex_text_graphic s Hs) as Hg. split_and!; [by apply hex_text_cstring|by apply parse_bytes_hex|..].
    + destruct s as [|a s]; [done|]. apply Forall_cons in Hs as [Ha _]. by rewrite hex_text_cons.
    + intros Hn. rewrite Hn in Hg. apply Forall_cons in Hg as [[Hg _] _]. by vm_compute in Hg.
    + destruct (hex_text s) as [|c t]; [done|]. apply Forall_cons in Hg as [[Hg _] _].
      unfold str_starts, strncmp_eq. cbn [length lit]. destruct (decide (c = 104)) as [->|Hc]; [by vm_compute in Hg|].
      change ((c =? 104) && strn_eq (λ c, c) 4 t (lit "ash:") = false).
      by rewrite (proj2 (Z.eqb_neq c 104)).
  - assert (Hp : printable s).
    { apply Forall_forall. intros c Hc. unfold is_hex in E.
      destruct (decide (32 ≤ c < 127)) as [|Hn]; [done|]. exfalso.
      assert (Ht : existsb (λ c, (c <? 32) || (127 <=? c)) s = true); [|congruence].
      apply existsb_exists. exists c. split; [by apply list_elem_of_In|].
      apply orb_true_iff. rewrite Z.ltb_lt, Z.leb_le. lia. }
    assert (Hc : cstring (DQ :: s ++ [DQ])).
    { constructor; [done|]. apply cstring_app. split; [by apply printable_cstring|by constructor; [|constructor]]. }
    unfold wpa_config_write_string_ascii. rewrite c_str_cstring by done. eexists. split; [done|].
    split_and!; [done|apply parse_bytes_quoted|done|done|done].
Qed.

(** ** Integers *)

Lemma digit_value_10 c : isdigit c = true → digit_value 10 c = Some (c - 48).
Proof.
  intros Hc. unfold digit_value. rewrite Hc. unfold isdigit in Hc. apply andb_true_iff in Hc as [H1 H2].
  by rewrite (proj2 (Z.ltb_lt _ _)) by lia.
Qed.

Lemma digits_10 s acc : Forall is_digit s → digits 10 acc s = (digits_val acc s, []).
Proof.
  intros Hs. revert acc. induction Hs as [|c s Hc _ IH]; intros acc; [done|]. cbn [digits digits_val].
  assert (Hd : isdigit c = true) by (unfold is_digit, isdigit in *; apply andb_true_iff; split; apply Z.leb_le; lia).
  rewrite digit_value_10, Hd by done. rewrite IH. do 2 f_equal. lia.
Qed.

(** A decimal number without leading zeros. *)
Lemma fmt_base_head fuel n acc :
  0 ≤ n < 10 ^ Z.of_nat fuel → (1 ≤ fuel)%nat →
  fmt_base fuel 10 n acc = 48 :: acc ∧ n = 0 ∨ ∃ c s, fmt_base fuel 10 n acc = c :: s ∧ 49 ≤ c ≤ 57.
Proof.
  revert n acc. induction fuel as [|fuel IH]; intros n acc Hn Hf; [lia|]. cbn [fmt_base].
  rewrite Nat2Z.inj_succ, Z.pow_succ_r in Hn by lia. destruct (n <? 10) eqn:E; zbool.
  - unfold hex_digit. rewrite Z.mod_small, (proj2 (Z.ltb_lt _ _)) by lia.
    destruct (decide (n = 0)) as [->|]; [by left|]. right. eexists _, _. split; [done|]. lia.
  - destruct fuel as [|fuel]; [simpl in Hn; lia|].
    destruct (IH (n / 10) (hex_digit (n mod 10) :: acc)) as [[_ Hz]|?]; [lia|lia|lia|by right].
Qed.

Lemma fmt_u_head n : 0 ≤ n < 4294967296 → fmt_u n = [48] ∨ ∃ c s, fmt_u n = c :: s ∧ 49 ≤ c ≤ 57.
Proof.
  intros Hn. destruct (fmt_base_head 11 n []) as [[H _]|H]; [|lia|by left|by right]. simpl. lia.
Qed.

Lemma strtol0_fmt_d n : INT_MIN ≤ n ≤ INT_MAX → strtol0 (fmt_d n) = (n, []).
Proof.
  intros Hn. unfold INT_MIN, INT_MAX in Hn.
  assert (Hu : ∀ m, 0 ≤ m < 4294967296 → digits_val 0 (fmt_u m) = m).
  { intros m Hm. destruct (fmt_u_spec m Hm) as (_ & _ & Hv). specialize (Hv []).
    by rewrite app_nil_r in Hv. }
  assert (Hplain : ∀ m neg, 0 ≤ m < 2147483649 →
    (let '(base, t) := match fmt_u m with
                       | 48 :: x :: c :: t' =>
                           if (tolower x =? 120) && bool_decide (is_Some (digit_value 16 c)) then (16, c :: t')
                           else (8, fmt_u m)
                       | 48 :: _ => (8, fmt_u m)
                       | _ => (10, fmt_u m)
                       end in
     let '(v, rest) := digits base 0 t in
     if bool_decide (rest = t) then (0, fmt_d n)
     else (Z.max (-9223372036854775808) (Z.min 9223372036854775807 (if neg : bool then - v else v)), rest))
    = (if neg then - m else m, [])).
  { intros m neg Hm. destruct (fmt_u_spec m ltac:(lia)) as (Hl & Hd & _).
    destruct (fmt_u_head m ltac:(lia)) as [E|(c & s & E & Hc)].
    - pose proof (Hu m ltac:(lia)) as Hv. rewrite E in *. vm_compute in Hv. subst m. by destruct neg.
    - assert (Hm2 : match fmt_u m with
                    | 48 :: x :: c :: t' =>
                        if (tolower x =? 120) && bool_decide (is_Some (digit_value 16 c)) then (16, c :: t')
                        else (8, fmt_u m)
                    | 48 :: _ => (8, fmt_u m)
                    | _ => (10, fmt_u m)
                    end = (10, fmt_u m)).
      { rewrite E. assert (c ≠ 48) as H by lia. clear -H.
        repeat match goal with |- context [match ?y with _ => _ end] => is_var y; destruct y; try done end. }
      rewrite Hm2. rewrite digits_10 by done. rewrite Hu by lia.
      rewrite bool_decide_eq_false_2 by (rewrite E; done). f_equal. destruct neg; lia. }
  unfold strtol0, fmt_d in *. destruct (n <? 0) eqn:En; zbool.
  - change (skip_space (45 :: fmt_u (- n))) with (45 :: fmt_u (- n)). cbv beta iota.
    rewrite (Hplain (- n) true) by lia. f_equal. lia.
  - assert (Hs : skip_space (fmt_u n) = fmt_u n ∧
      match skip_space (fmt_u n) with 45 :: t => (true, t) | 43 :: t => (false, t) | t => (false, t) end
      = (false, fmt_u n)).
    { destruct (fmt_u_spec n ltac:(lia)) as (Hl & Hd & _). destruct (fmt_u n) as [|c s]; [simpl in Hl; lia|].
      apply Forall_cons in Hd as [Hc _]. unfold is_digit in Hc. cbn [skip_space].
      assert (isspace c = false) as ->.
      { unfold isspace. apply orb_false_iff. rewrite andb_false_iff, !Z.leb_gt, Z.eqb_neq. lia. }
      split; [done|]. assert (c ≠ 45 ∧ c ≠ 43) as [H1 H2] by lia. clear -H1 H2.
      repeat match goal with |- context [match ?y with _ => _ end] => is_var y; destruct y; try done end. }
    destruct Hs as [_ ->]. by rewrite (Hplain n false) by lia.
Qed.

(** ** Addresses *)

Lemma hwaddr_bytes_ok k s : byte_list (hwaddr_bytes k s).1 ∧ (length (hwaddr_bytes k s).1 ≤ k)%nat ∧
  ((hwaddr_bytes k s).2 = true → length (hwaddr_bytes k s).1 = k).
Proof.
  revert s. induction k as [|k IH]; intros s; [split_and!; [constructor|done|done]|]. cbn [hwaddr_bytes].
  pose proof (hex2byte_range s). case_if; zbool; [split_and!; [constructor|simpl; lia|done]|].
  assert (H1 : byte_list [hex2byte s] ∧ (length [hex2byte s] ≤ S k)%nat).
  { split; [by constructor; [lia|constructor]|simpl; lia]. }
  assert (Hno : byte_list [hex2byte s] ∧ (length [hex2byte s] ≤ S k)%nat ∧
    (false = true → length [hex2byte s] = S k)) by (destruct H1; by split_and!).
  destruct k as [|k]; [split_and!; [apply H1|apply H1|done]|].
  destruct (drop 2 s) as [|x t]; [exact Hno|]. case_if; [|exact Hno].
  specialize (IH t). destruct (hwaddr_bytes (S k) t) as [l r]. cbn [fst snd] in *.
  destruct IH as (Hb & Hl & Hr). split_and!; [constructor; [lia|done]|simpl; lia|intros Ht; simpl; by rewrite Hr].
Qed.

Lemma macstr_cons2 a b l : macstr (a :: b :: l) = fmt_02x a ++ lit ":" ++ macstr (b :: l).
Proof. done. Qed.

Lemma hwaddr_bytes_macstr addr s : byte_list addr → addr ≠ [] → hwaddr_bytes (length addr) (macstr addr ++ s) = (addr, true).
Proof.
  intros Ha. induction Ha as [|a addr Ha Hr IH]; [done|]. intros _.
  destruct addr as [|b addr].
  - cbn [macstr length hwaddr_bytes]. rewrite fmt_02x_byte by done. cbn [app]. rewrite hex2byte_digits by done.
    by rewrite (proj2 (Z.ltb_ge a 0)) by lia.
  - rewrite macstr_cons2, fmt_02x_byte by done. change (lit ":") with [58]. rewrite <- !app_assoc.
    cbn [app]. cbn [length]. specialize (IH ltac:(done)). cbn [length] in IH.
    set (k := S (length addr)) in *.
    cbn [hwaddr_bytes drop]. rewrite hex2byte_digits by done. rewrite (proj2 (Z.ltb_ge a 0)) by lia.
    change (58 =? 58) with true. rewrite ?drop_0. unfold k at 1. cbv iota. by rewrite IH.
Qed.

Lemma hwaddr_parse_macstr addr s : byte_list addr → length addr = 6%nat →
  hwaddr_parse ETH_ALEN (macstr addr ++ s) = Some addr.
Proof.
  intros Ha Hl. unfold ETH_ALEN. rewrite <- Hl. clear Hl.
  induction Ha as [|a addr Ha Hr IH]; [done|]. destruct addr as [|b addr].
  - cbn [macstr length hwaddr_parse]. rewrite fmt_02x_byte by done. cbn [app]. rewrite hex2byte_digits by done.
    by rewrite (proj2 (Z.ltb_ge a 0)) by lia.
  - rewrite macstr_cons2, fmt_02x_byte by done. change (lit ":") with [58]. rewrite <- !app_assoc.
    cbn [app length]. rewrite hwaddr_parse_colon by done. cbn [length] in IH. by rewrite IH.
Qed.

Lemma hwaddr_parse_ok k s a : hwaddr_parse k s = Some a → length a = k ∧ byte_list a.
Proof.
  revert s a. induction k as [|k IH]; intros s a; [intros [= <-]; split; [done|constructor]|].
  pose proof (hex2byte_range s). cbn [hwaddr_parse].
  destruct (hex2byte s <? 0) eqn:E; [done|]. zbool.
  assert (Hone : byte_list [hex2byte s]) by (constructor; [lia|constructor]).
  assert (Hcons : ∀ t, (addr ← hwaddr_parse k t; Some (hex2byte s :: addr)) = Some a →
    length a = S k ∧ byte_list a).
  { intros t. destruct (hwaddr_parse k t) as [l|] eqn:El; [|done]. intros [= <-].
    destruct (IH t l El). split; [simpl; by f_equal|constructor; [lia|done]]. }
  destruct k as [|k]; [intros [= <-]; by split|].
  destruct (drop 2 s) as [|c t]; [done|]. case_if; [apply Hcons|done].
Qed.

Definition addr_ok (am : ETH_BYTES * ETH_BYTES) : Prop :=
  (length am.1 = 6%nat ∧ byte_list am.1) ∧ (length am.2 = 6%nat ∧ byte_list am.2).

Lemma masked_aton_ok s m am : hwaddr_masked_aton s m = Some am → addr_ok am.
Proof.
  unfold hwaddr_masked_aton. destruct (hwaddr_parse ETH_ALEN s) as [a|] eqn:Ea; [|done].
  cbn [mbind option_bind]. apply hwaddr_parse_ok in Ea. destruct (next_char _) as [c r].
  case_if; [intros [= <-]; split; [done|split; [done|by apply (bool_decide_unpack _)]]|].
  case_if; [|done]. destruct (hwaddr_parse ETH_ALEN r) as [k|] eqn:Ek; [|done].
  intros [= <-]. split; [done|by eapply hwaddr_parse_ok].
Qed.

Lemma full_mask m : length m = 6%nat → existsb (λ m, negb (m =? 255)) m = false → m = replicate ETH_ALEN 255.
Proof.
  intros Hl He. symmetry. apply replicate_as_Forall. split; [done|]. apply Forall_forall. intros x Hx.
  destruct (decide (255 = x)) as [|Hn]; [done|]. exfalso.
  assert (Ht : existsb (λ m, negb (m =? 255)) m = true); [|congruence].
  apply existsb_exists. exists x. split; [by apply list_elem_of_In|]. by apply negb_true_iff, Z.eqb_neq.
Qed.

Lemma masked_aton_text am rest :
  addr_ok am → rest = [] ∨ head rest = Some SP → hwaddr_masked_aton (addr_mask_text am ++ rest) true = Some am.
Proof.
  destruct am as [a m]. intros [[Hla Ha] [Hlm Hm]] Hr. cbn [fst snd] in *.
  assert (H17 : ∀ t, drop 17 (macstr a ++ t) = t).
  { intros t. apply drop_app_length'. pose proof (macstr_printable a Hla Ha) as [_ H]. unfold strlen in H. lia. }
  assert (Hend : hwaddr_masked_aton (macstr a ++ rest) true = Some (a, replicate ETH_ALEN 255)).
  { unfold hwaddr_masked_aton. rewrite hwaddr_parse_macstr by done. cbn [mbind option_bind]. rewrite H17.
    destruct Hr as [->|Hr]; [done|]. destruct rest as [|c rest]; [done|]. injection Hr as ->. done. }
  unfold addr_mask_text. cbn [fst snd]. case_if; [|by rewrite Hend, (full_mask m)].
  unfold hwaddr_masked_aton. rewrite <- !app_assoc, hwaddr_parse_macstr by done. cbn [mbind option_bind].
  rewrite H17. cbn [next_char app]. change ((47 =? 0) || isspace 47) with false.
  change (true && (47 =? 47)) with true. cbv iota. by rewrite hwaddr_parse_macstr.
Qed.

Lemma addr_mask_text_graphic am : addr_ok am →
  Forall (λ c, 33 ≤ c < 127) (addr_mask_text am) ∧ 17 ≤ strlen (addr_mask_text am) ≤ 35.
Proof.
  intros [[Hla Ha] [Hlm Hm]]. destruct am as [a m]. cbn [fst snd] in *. unfold addr_mask_text. cbn [fst snd].
  assert (Hg : ∀ x, length x = 6%nat → byte_list x → Forall (λ c, 33 ≤ c < 127) (macstr x) ∧ strlen (macstr x) = 17).
  { intros x Hl Hx. split; [|by apply macstr_printable]. clear Hl.
    assert (H2 : ∀ b, 0 ≤ b < 256 → Forall (λ c, 33 ≤ c < 127) (fmt_02x b)).
    { intros b Hb. pose proof (hex_text_graphic [b] ltac:(by constructor)) as H.
      unfold hex_text in H. cbn [list_bind mbind] in H. rewrite app_nil_r in H.
      eapply Forall_impl; [exact H|]. tauto. }
    induction Hx as [|b x Hb Hx IH]; [constructor|]. destruct x as [|b2 x]; [by apply H2|].
    rewrite macstr_cons2. change (lit ":") with [58]. apply Forall_app. split; [by apply H2|]. constructor; [lia|done]. }
  destruct (Hg a Hla Ha), (Hg m Hlm Hm). case_if; [|split; [done|lia]].
  split; [|rewrite !strlen_app; change (strlen [47]) with 1; lia].
  apply Forall_app. split; [done|]. constructor; [lia|done].
Qed.

Lemma graphic_no_space (s : str) : Forall (λ c, 33 ≤ c < 127) s → SP ∉ s.
Proof. intros Hs Hin. rewrite Forall_forall in Hs. specialize (Hs SP Hin). cbv beta in Hs. unfold SP in Hs. lia. Qed.

Lemma skip_sp_char c s : 33 ≤ c → skip_sp (c :: s) = c :: s.
Proof.
  intros Hc. assert (Hn : c ≠ 32) by lia. unfold skip_sp. cbn [span]. unfold SP. by rewrite (proj2 (Z.eqb_neq c 32)).
Qed.

(** The list of addresses is read from the text of its fields. *)
Definition addr_fields (l : list (ETH_BYTES * ETH_BYTES)) : list str := separated [SP] (addr_mask_text <$> l).

Definition addr_tail (l : list (ETH_BYTES * ETH_BYTES)) : str := concat ((λ am, SP :: addr_mask_text am) <$> l).

Lemma addr_fields_cons am l : concat (addr_fields (am :: l)) = addr_mask_text am ++ addr_tail l.
Proof. unfold addr_fields, addr_tail. cbn [fmap list_fmap separated concat]. by rewrite <- list_fmap_compose. Qed.

Lemma addr_list_loop_spec l am fuel abort acc pre :
  Forall addr_ok l → addr_ok am → pre = [] ∨ pre = [SP] → (length l + 1 < fuel)%nat →
  addr_list_loop fuel abort true (Some (pre ++ addr_mask_text am ++ addr_tail l)) acc
  = Ret (Some (rev l ++ am :: acc)).
Proof.
  intros Hl. revert am fuel acc pre. induction Hl as [|b l Hb Hl IH]; intros am fuel acc pre Ham Hpre Hf;
    (destruct fuel as [|fuel]; [lia|]).
  all: destruct (addr_mask_text_graphic am Ham) as [Hg Hlen].
  all: assert (Hskip : ∀ rest, skip_sp (pre ++ addr_mask_text am ++ rest) = addr_mask_text am ++ rest)
    by (intros rest; destruct (addr_mask_text am) as [|c t]; [unfold strlen in Hlen; simpl in Hlen; lia|];
        apply Forall_cons in Hg as [Hc _]; unfold skip_sp; destruct Hpre as [->| ->]; cbn [app span];
        unfold SP; rewrite ?Z.eqb_refl, (proj2 (Z.eqb_neq c 32)) by lia; done).
  all: assert (Hne : ∀ rest (A : Type) (x y : A),
      match pre ++ addr_mask_text am ++ rest with [] => x | _ :: _ => y end = y)
    by (intros rest A x y; destruct Hpre as [->| ->]; [|done];
        destruct (addr_mask_text am); [unfold strlen in Hlen; simpl in Hlen; lia|done]).
  all: cbn [addr_list_loop]; rewrite Hne, Hskip; rewrite masked_aton_text by (done || (by left) || (by right)).
  - destruct fuel as [|fuel]; [simpl in Hf; lia|]. cbn [addr_tail fmap list_fmap concat]. rewrite app_nil_r.
    unfold after_sp. by rewrite strchr_none by (done || by apply graphic_no_space).
  - change (addr_tail (b :: l)) with (SP :: addr_mask_text b ++ addr_tail l).
    unfold after_sp. rewrite strchr_app_here by (done || by apply graphic_no_space). cbn [fmap option_fmap option_map].
    rewrite drop_app_length. change (SP :: ?t) with ([SP] ++ t).
    rewrite IH by (done || (by right) || (simpl in Hf; lia)). cbn [rev]. by rewrite <- app_assoc.
Qed.

Lemma addr_tail_length l : Forall addr_ok l → 18 * Z.of_nat (length l) ≤ strlen (addr_tail l) ≤ 36 * Z.of_nat (length l) ∧
  cstring (addr_tail l).
Proof.
  induction 1 as [|am l Ham _ IH]; [split; [done|constructor]|].
  change (addr_tail (am :: l)) with ([SP] ++ addr_mask_text am ++ addr_tail l).
  destruct (addr_mask_text_graphic am Ham) as [Hg Hlen]. destruct IH as [IH Hc].
  rewrite !strlen_app. change (strlen [SP]) with 1. cbn [length]. split; [lia|].
  apply Forall_app. split; [by constructor; [unfold SP; lia|constructor]|]. apply cstring_app. split; [|done].
  eapply Forall_impl; [exact Hg|]. intros c Hc2; cbv beta in *. lia.
Qed.

(** A field with its terminator. *)
Lemma append_text b u end_ t :
  built b u → strlen u + strlen t < end_ ≤ Z.of_nat (length b) → end_ < 4294967296 →
  ∃ b', append b (strlen u) end_ t = Ret (Some (strlen (u ++ t)), b') ∧ built b' (u ++ t ++ [0]) ∧ length b' = length b.
Proof.
  intros Hb He Hm. pose proof (strlen_nonneg t). pose proof (strlen_nonneg u). unfold append.
  destruct (snprintf_built b u t (end_ - strlen u) Hb) as (b' & -> & Hb' & Hl); [lia|lia|]. ret_simpl.
  exists b'. unfold os_snprintf_error, u32. rewrite Z.mod_small by lia.
  rewrite (proj2 (Z.ltb_ge _ _)), (proj2 (Z.leb_gt _ _)) by lia. cbn [orb]. by rewrite strlen_app.
Qed.

Lemma addr_text_loop_spec l am b u end_ first :
  Forall addr_ok l → addr_ok am → built b u → strlen u + 36 * Z.of_nat (S (length l)) < end_ →
  end_ ≤ Z.of_nat (length b) → end_ < 4294967296 →
  ∃ b', addr_text_loop b (strlen u) end_ first (am :: l) = Ret (Some b') ∧
    built b' (u ++ (if first then [] else [SP]) ++ addr_mask_text am ++ addr_tail l ++ [0]).
Proof.
  intros Hl. revert am b u first. induction Hl as [|am2 l Ham2 Hl IH]; intros am b u first Ham Hb Hs He Hm.
  all: cbn [addr_text_loop length] in *; destruct (addr_mask_text_graphic am Ham) as [_ Hlen];
    set (sep := if first then [] else [SP]).
  all: assert (Hsep : ∃ b1, (if first then Ret (b, strlen u) else b ← buf_set b (strlen u) SP; Ret (b, strlen u + 1))
    = Ret (b1, strlen (u ++ sep)) ∧ built b1 (u ++ sep) ∧ length b1 = length b)
    by (unfold sep; destruct first; [exists b; by rewrite app_nil_r|];
        destruct (put_char b u SP Hb) as (b1 & -> & Hb1 & Hl1); [lia|]; ret_simpl; exists b1;
        rewrite strlen_app; by split_and!).
  all: destruct Hsep as (b1 & -> & Hb1 & Hl1); ret_simpl.
  all: assert (Hsl : strlen (u ++ sep) ≤ strlen u + 1) by (rewrite strlen_app; unfold sep; destruct first; unfold strlen; simpl; lia).
  all: destruct (append_text b1 (u ++ sep) end_ (addr_mask_text am)) as (b2 & -> & Hb2 & Hl2); [done|lia|done|]; ret_simpl.
  - exists b2. split; [done|]. by rewrite <- !app_assoc in Hb2.
  - destruct (IH am2 b2 ((u ++ sep) ++ addr_mask_text am) false) as (b' & H1 & H2); [done| | |lia|done|].
    { apply (built_prefix _ _ [0]). by rewrite <- app_assoc. }
    { rewrite strlen_app. lia. }
    cbn [addr_text_loop] in H1. rewrite H1. exists b'. split; [done|].
    rewrite <- !app_assoc in H2. change (addr_tail (am2 :: l)) with ([SP] ++ addr_mask_text am2 ++ addr_tail l).
    by rewrite <- !app_assoc.
Qed.

Lemma write_addr_list_spec n f l :
  n_addrs n !! f = Some l → l ≠ [] → Forall addr_ok l → Z.of_nat (length l) < 100000000 →
  ∃ am l', rev l = am :: l' ∧ wpa_config_write_addr_list f n = Ret (Some (addr_mask_text am ++ addr_tail l')).
Proof.
  intros Hf Hne Hl Hm. unfold wpa_config_write_addr_list. rewrite Hf.
  destruct (rev l) as [|am l'] eqn:Er.
  { apply (f_equal length) in Er. rewrite length_rev in Er. by destruct l. }
  assert (Hr : Forall addr_ok (am :: l')).
  { rewrite <- Er. apply Forall_forall. intros x Hx. rewrite Forall_forall in Hl. apply Hl.
    by apply list_elem_of_In, in_rev, list_elem_of_In. }
  assert (Hlen : length l = S (length l')).
  { apply (f_equal length) in Er. by rewrite length_rev in Er. }
  apply Forall_cons in Hr as [Ham Hl']. exists am, l'. split; [done|].
  destruct (addr_text_loop_spec l' am (uninit (40 * Z.of_nat (length l))) [] (40 * Z.of_nat (length l)) true)
    as (b & H1 & H2); [done|done|apply built_nil|change (strlen []) with 0; lia| |lia|].
  { unfold uninit. rewrite length_replicate. lia. }
  change (strlen []) with 0 in H1. destruct l as [|x l0]; [done|]. rewrite H1. ret_simpl.
  cbn [app] in H2. rewrite app_assoc in H2. rewrite (built_str _ _ H2); [done|].
  destruct (addr_mask_text_graphic am Ham) as [Hg _]. apply cstring_app. split; [|by apply addr_tail_length].
  eapply Forall_impl; [exact Hg|]. intros c Hc; cbv beta in *. lia.
Qed.

(** ** Sets of names *)

(** The unions of some of the bits. *)
Fixpoint subsets (bits : list Z) : list Z :=
  match bits with
  | [] => [0]
  | b :: bits' => x ← subsets bits'; [x; Z.lor b x]
  end.

Definition union_of (bits : list Z) : Z := foldr Z.lor 0 bits.

Lemma land_subsets v ks : Forall (λ k, 0 ≤ k) ks → Z.land v (union_of (BIT <$> ks)) ∈ subsets (BIT <$> ks).
Proof.
  induction 1 as [|k ks Hk _ IH]; [rewrite Z.land_0_r; by apply list_elem_of_here|].
  cbn [fmap list_fmap union_of foldr subsets]. rewrite Z.land_lor_distr_r, land_bit by done.
  apply list_elem_of_bind. eexists. split; [|exact IH]. fold (union_of (BIT <$> ks)).
  case_if; [by right; left|]. rewrite Z.lor_0_l. by left.
Qed.

(** A predicate of a set of bits is checked on all the sets. *)
Lemma by_subsets (P : Z → bool) ks v :
  Forall (λ k, 0 ≤ k) ks → forallb P (subsets (BIT <$> ks)) = true →
  Z.land v (union_of (BIT <$> ks)) = v → P v = true.
Proof.
  intros Hk HP Hv. rewrite forallb_forall in HP. apply HP, list_elem_of_In. rewrite <- Hv. by apply land_subsets.
Qed.

Lemma word_loop_total {A} (P : A → Prop) fuel step s (a : A) :
  (∀ w a, P a → ∃ a', step w a = Ret a' ∧ P a') → P a → (length s < fuel)%nat →
  ∃ a', word_loop fuel step s a = Ret a' ∧ P a'.
Proof.
  intros Hstep. revert s a. induction fuel as [|fuel IH]; intros s a Ha Hf; [lia|]. cbn [word_loop].
  destruct (span_spec is_blank s) as (E & _ & _). remember (snd (span is_blank s)) as t.
  assert (Hl : (length t ≤ length s)%nat) by (rewrite E, length_app; lia).
  clear Heqt E. destruct t as [|c t]; [by exists a|].
  destruct (span_spec (λ c, negb (is_blank c)) (c :: t)) as (E & _ & _).
  destruct (span (λ c, negb (is_blank c)) (c :: t)) as [word rest]. cbn [fst snd] in E.
  destruct (Hstep word a Ha) as (a' & -> & Ha'). ret_simpl. destruct rest as [|x rest]; [by exists a'|].
  apply IH; [done|]. apply (f_equal length) in E. rewrite length_app in E. simpl in *. lia.
Qed.

(** What [parse_flags] makes of a text. *)
Definition flags_of (names : list (str * Z)) (value : str) : option (Z * Z) :=
  match word_loop (S (length value)) (flag_word names) value (0, 0) with Ret a => Some a | _ => None end.

Lemma lor_land a b m : Z.land a m = a → Z.land b m = b → Z.land (Z.lor a b) m = Z.lor a b.
Proof. intros Ha Hb. by rewrite Z.land_lor_distr_l, Ha, Hb. Qed.

Lemma named_bit m (names : list (str * Z)) w b :
  Forall (λ e : str * Z, Z.land e.2 m = e.2) names → named names w = Some b → Z.land b m = b.
Proof.
  induction 1 as [|[x y] names Hx _ IH]; cbn [named]; [done|]. case_if; [by intros [= <-]|done].
Qed.

Lemma parse_flags_total f names m n value :
  Forall (λ e : str * Z, Z.land e.2 m = e.2) names → 0 ≤ m →
  ∃ val r, parse_flags f names n value = Ret (r, n) ∨
           parse_flags f names n value = Ret (r, set_int n f val) ∧ Z.land val m = val.
Proof.
  intros Hn Hm. unfold parse_flags.
  destruct (word_loop_total (λ a, Z.land a.1 m = a.1) (S (length value)) (flag_word names) value (0, 0))
    as ([val errors] & -> & Hv); [|done|lia|].
  { intros w [val errors] Hv. unfold flag_word. eexists. split; [done|].
    destruct (named names w) as [b|] eqn:E; [|done]. cbn [fst] in *. apply lor_land; [done|by eapply named_bit]. }
  ret_simpl. exists val. destruct (_ && _).
  - exists 1. by left.
  - eexists. right. split; [done|exact Hv].
Qed.

(** A text for which [write_flags] and [parse_flags] agree on the set. *)
Definition flags_agree (size : Z) (texts : list (Z * str)) (names : list (str * Z)) (v : Z) : bool :=
  match write_flags size [] texts (set_int zalloc_net [] v) with
  | Ret None => v =? 0
  | Ret (Some t) =>
      negb (v =? 0) && bool_decide (cstring t) &&
      match word_loop (S (length t)) (flag_word names) t (0, 0) with
      | Ret a => bool_decide (a = (v, 0))
      | _ => false
      end
  | _ => false
  end.

Lemma write_flags_get size f g texts n n' :
  get_int n f = get_int n' g → write_flags size f texts n = write_flags size g texts n'.
Proof. intros E. unfold write_flags. by rewrite E. Qed.

Lemma get_set_int n f v : get_int (set_int n f v) f = v.
Proof. unfold get_int, set_int. cbn. by rewrite lookup_insert_eq. Qed.

Lemma get_set_int_ne n f g v : f ≠ g → get_int (set_int n f v) g = get_int n g.
Proof. intros H. unfold get_int, set_int. cbn. by rewrite lookup_insert_ne. Qed.

Lemma flags_copy size f texts names n n2 t :
  flags_agree size texts names (get_int n f) = true → write_flags size f texts n = Ret (Some t) →
  cstring t ∧ ∃ r n2', parse_flags f names n2 t = Ret (r, n2') ∧ 0 ≤ r ∧
    (n2' = n2 ∨ n2' = set_int n2 f (get_int n f)) ∧ get_int n2' f = get_int n f.
Proof.
  intros Hok Hw. unfold flags_agree in Hok.
  rewrite (write_flags_get _ [] f _ _ n) in Hok by apply get_set_int. rewrite Hw in Hok.
  apply andb_true_iff in Hok as [Hok Hp]. apply andb_true_iff in Hok as [H0 Hc].
  apply bool_decide_eq_true in Hc. split; [done|]. apply negb_true_iff in H0.
  unfold parse_flags. destruct (word_loop _ _ t _) as [a| |] eqn:E; try done.
  apply bool_decide_eq_true in Hp as ->. ret_simpl. rewrite H0. cbn [Z.eqb andb].
  destruct (get_int n2 f =? get_int n f) eqn:Es; zbool.
  - exists 1, n2. split_and!; [done|done|by left|done].
  - exists 0, (set_int n2 f (get_int n f)). split_and!; [done|done|by right|apply get_set_int].
Qed.

Definition proto_bits : list Z := [0; 1; 3].
Definition key_mgmt_bits : list Z := [0; 1; 2; 3; 4].
Definition auth_alg_bits : list Z := [0; 1; 2].

Lemma proto_agree v : Z.land v (union_of (BIT <$> proto_bits)) = v → flags_agree 20 proto_texts proto_names v = true.
Proof. apply (by_subsets (flags_agree _ _ _)); [by apply (bool_decide_unpack _)|by vm_compute]. Qed.
Lemma key_mgmt_agree v :
  Z.land v (union_of (BIT <$> key_mgmt_bits)) = v → flags_agree 100 key_mgmt_texts key_mgmt_names v = true.
Proof. apply (by_subsets (flags_agree _ _ _)); [by apply (bool_decide_unpack _)|by vm_compute]. Qed.
Lemma auth_alg_agree v :
  Z.land v (union_of (BIT <$> auth_alg_bits)) = v → flags_agree 30 auth_alg_texts auth_alg_names v = true.
Proof. apply (by_subsets (flags_agree _ _ _)); [by apply (bool_decide_unpack _)|by vm_compute]. Qed.

(** ** Ciphers *)

Definition cipher_bits : list Z := [0; 3; 4; 6; 8; 9].
Definition group_bits : list Z := [3; 4; 6; 8; 9; 14].

(** A set of ciphers whose text, if it has one, is parsed to the set. *)
Definition cipher_agree (v : Z) : bool :=
  match wpa_config_write_cipher v with
  | Ret (Some []) => v =? 0
  | Ret (Some t) =>
      bool_decide (cstring t) &&
      match wpa_config_parse_cipher t with Ret w => (w =? v) && negb (v =? 0) | _ => false end
  | _ => false
  end.

Lemma ciphers_agree v : Z.land v (union_of (BIT <$> cipher_bits)) = v → cipher_agree v = true.
Proof. apply by_subsets; [by apply (bool_decide_unpack _)|by vm_compute]. Qed.

Lemma cipher_writes v :
  Z.land v (union_of (BIT <$> cipher_bits)) = v ∨ Z.land v (union_of (BIT <$> group_bits)) = v →
  ∃ t, wpa_config_write_cipher v = Ret (Some t).
Proof.
  set (ok v := match wpa_config_write_cipher v with Ret (Some _) => true | _ => false end).
  intros Hv. assert (Hok : ok v = true).
  { destruct Hv as [Hv|Hv]; revert Hv; apply by_subsets; try (by apply (bool_decide_unpack _)); by vm_compute. }
  unfold ok in Hok. destruct (wpa_config_write_cipher v) as [[t|]| |]; try done. by exists t.
Qed.

Lemma cipher_loop_total fuel s val : 0 ≤ val → (length s < fuel)%nat →
  ∃ v, cipher_loop fuel s val = Ret v ∧ (v = -1 ∨ 0 ≤ v).
Proof.
  revert s val. induction fuel as [|fuel IH]; intros s val Hv Hf; [lia|]. cbn [cipher_loop].
  destruct (span_spec is_blank s) as (E & _ & _). remember (snd (span is_blank s)) as t.
  assert (Hl : (length t ≤ length s)%nat) by (rewrite E, length_app; lia). clear Heqt E.
  destruct t as [|c t]; [exists val; split; [done|by right]|].
  destruct (span_spec (λ c, negb (is_blank c)) (c :: t)) as (E & _ & _).
  destruct (span (λ c, negb (is_blank c)) (c :: t)) as [word rest]. cbn [fst snd] in E.
  destruct (named cipher_names word) as [b|] eqn:Eb; [|exists (-1); split; [done|by left]].
  assert (Hb : 0 ≤ b).
  { assert (Hn : Forall (λ e : str * Z, 0 ≤ e.2) cipher_names) by by apply (bool_decide_unpack _).
    revert Eb. generalize cipher_names as names, Hn. clear. induction 1 as [|[x y] names Hx _ IH]; cbn [named]; [done|].
    case_if; [by intros [= <-]|done]. }
  assert (Hv2 : 0 ≤ Z.lor val b) by (by apply Z.lor_nonneg).
  destruct rest as [|x rest]; [exists (Z.lor val b); split; [done|by right]|].
  apply IH; [done|]. apply (f_equal length) in E. rewrite length_app in E. simpl in *. lia.
Qed.

Lemma parse_cipher_total value : ∃ v, wpa_config_parse_cipher value = Ret v ∧ (v = -1 ∨ 0 < v).
Proof.
  unfold wpa_config_parse_cipher, wpa_parse_cipher. cbn [negb].
  destruct (cipher_loop_total (S (length value)) value 0) as (v & -> & Hv); [lia|lia|]. ret_simpl.
  eexists. split; [done|]. destruct (v <? 0) eqn:E1; [by left|]. destruct (v =? 0) eqn:E2; [by left|]. zbool. lia.
Qed.

Lemma ldiff_zero a b : Z.ldiff a b = 0 → Z.land a b = a.
Proof. intros H. pose proof (Z.lor_ldiff_and a b) as E. by rewrite H, Z.lor_0_l in E. Qed.

Lemma cipher_copy v t :
  cipher_agree v = true → wpa_config_write_cipher v = Ret (Some t) → t ≠ [] →
  cstring t ∧ wpa_config_parse_cipher t = Ret v ∧ v ≠ 0.
Proof.
  unfold cipher_agree. intros Hok Hw Ht. rewrite Hw in Hok. destruct t as [|c t]; [done|].
  apply andb_true_iff in Hok as [Hc Hok]. apply bool_decide_eq_true in Hc.
  destruct (wpa_config_parse_cipher _) as [w| |]; try done. apply andb_true_iff in Hok as [E Hn].
  apply negb_true_iff in Hn. zbool. by subst w.
Qed.

(** ** Buffers that end with a NUL *)

Definition buf_ok (b : buf) : Prop := Forall is_Some b ∧ last b = Some (Some 0).

Lemma buf_ok_str b : buf_ok b → ∃ s, buf_str b 0 = Ret s.
Proof.
  intros [Hs Hl]. unfold buf_str. cbn [Z.ltb Z.compare]. change (Z.to_nat 0) with 0%nat. rewrite drop_0.
  apply last_Some in Hl as [l ->]. apply Forall_app in Hs as [Hs _]. induction Hs as [|c l [x ->] _ IH]; [by exists []|].
  cbn [app cells_str]. destruct x; try (destruct IH as [s ->]; by eexists); by exists [].
Qed.

Lemma zeros_ok n : 0 < n → buf_ok (zeros n).
Proof.
  intros Hn. unfold zeros. destruct (Z.to_nat n) as [|k] eqn:E; [lia|]. split.
  - apply Forall_replicate. by eexists.
  - rewrite replicate_S_end. apply last_snoc.
Qed.

Lemma buf_write_ok b i s b' :
  buf_ok b → buf_write b i s = Ret b' → last s = Some 0 ∨ i + strlen s < Z.of_nat (length b) → buf_ok b'.
Proof.
  intros [Hs Hl] (Hi & Hlen & ->)%buf_write_Ret Hw. split.
  - apply Forall_app. split; [by apply Forall_take|]. apply Forall_app. split; [|by apply Forall_drop].
    apply Forall_fmap, Forall_true. intros x. by eexists.
  - apply last_Some in Hl as [l ->]. rewrite length_app in *. simpl length in *.
    destruct (decide (Z.to_nat i + length s ≤ length l)%nat) as [Hle|Hgt].
    + by rewrite (drop_app_le l), !app_assoc, last_snoc by done.
    + rewrite (drop_ge (l ++ _)) by (rewrite length_app; simpl; lia). rewrite app_nil_r.
      destruct Hw as [Hw|Hw]; [|unfold strlen in *; lia]. apply last_Some in Hw as [s' ->].
      unfold cells. rewrite fmap_app, app_assoc. change (Some <$> [0]) with [Some 0]. apply last_snoc.
Qed.

(** One more field: either it is printed, and the end stays inside, or not. *)
Lemma append_ok b pos t :
  buf_ok b → 0 ≤ pos < Z.of_nat (length b) → strlen t < 4294967296 → Z.of_nat (length b) < 4294967296 →
  ∃ r b', append b pos (Z.of_nat (length b)) t = Ret (r, b') ∧ buf_ok b' ∧ length b' = length b ∧
    match r with Some q => pos ≤ q < Z.of_nat (length b) | None => True end.
Proof.
  intros Hb Hp Ht Hm. unfold append, snprintf. pose proof (strlen_nonneg t). rewrite (proj2 (Z.eqb_neq _ _)) by lia.
  set (s := take (Z.to_nat (Z.of_nat (length b) - pos - 1)) t ++ [0]).
  assert (Hs : pos + strlen s ≤ Z.of_nat (length b)).
  { unfold s, strlen. rewrite length_app, length_take. simpl. lia. }
  destruct (buf_write_defined b pos s) as [b' Hw]; [lia|lia|]. rewrite Hw. ret_simpl.
  eexists _, b'. split; [done|]. split_and!.
  - eapply buf_write_ok; [done|done|]. left. apply last_snoc.
  - by eapply buf_write_length.
  - unfold os_snprintf_error, u32. rewrite Z.mod_small by lia. rewrite (proj2 (Z.ltb_ge _ _)) by lia. cbn [orb].
    case_if; zbool; [done|lia].
Qed.

Lemma print_seq_ok ts b pos :
  buf_ok b → 0 ≤ pos < Z.of_nat (length b) → short_strings ts → Z.of_nat (length b) < 4294967296 →
  ∃ ok q b', print_seq b pos (Z.of_nat (length b)) ts = Ret (ok, q, b') ∧ buf_ok b' ∧ length b' = length b.
Proof.
  intros Hb Hp Ht Hm. revert b pos Hb Hp Hm. induction Ht as [|t ts Ht _ IH]; intros b pos Hb Hp Hm; cbn [print_seq].
  { by exists true, pos, b. }
  destruct (append_ok b pos t Hb Hp Ht Hm) as (r & b1 & -> & Hb1 & Hl1 & Hr). ret_simpl.
  destruct r as [q|]; [|by exists false, pos, b1]. rewrite <- Hl1 in *.
  destruct (IH b1 q) as (ok & q' & b' & H1 & H2 & H3); [done|lia|done|]. by exists ok, q', b'.
Qed.

(** ** Frequencies *)

Lemma int_array_total fuel s : (length s < fuel)%nat →
  ∃ l, int_array_loop fuel s = Ret l ∧ Forall (λ f, f ≠ 0 ∧ INT_MIN ≤ f ≤ INT_MAX) l ∧ (length l ≤ length s)%nat.
Proof.
  revert s. induction fuel as [|fuel IH]; intros s Hf; [lia|]. cbn [int_array_loop].
  assert (Hl : (length (skip_sp s) ≤ length s)%nat).
  { unfold skip_sp. destruct (span_spec (λ c, c =? SP) s) as (E & _). rewrite E at 2. rewrite length_app. lia. }
  destruct (atoi (skip_sp s) =? 0) eqn:E0; [exists []; split_and!; [done|constructor|simpl; lia]|]. zbool.
  assert (Hone : atoi (skip_sp s) ≠ 0 ∧ INT_MIN ≤ atoi (skip_sp s) ≤ INT_MAX) by (split; [done|apply atoi_range]).
  assert (Hpos : (1 ≤ length (skip_sp s))%nat) by (destruct (skip_sp s); [done|simpl; lia]).
  destruct (strchr (drop 1 (skip_sp s)) SP) as [i|].
  - destruct (IH (drop (S i) (skip_sp s))) as (l & -> & H1 & H2); [rewrite length_drop; lia|]. ret_simpl.
    eexists. split_and!; [done|by constructor|]. rewrite length_drop in H2. simpl. lia.
  - eexists. split_and!; [done|by constructor; [|constructor]|simpl; lia].
Qed.

Lemma fmt_u_short n : strlen (fmt_u n) ≤ 11.
Proof.
  unfold fmt_u. assert (H : ∀ f n acc, (length (fmt_base f 10 n acc) ≤ f + length acc)%nat); [|specialize (H 11%nat n []); unfold strlen; cbn [length] in H; lia].
  induction f as [|f IH]; intros m acc; cbn [fmt_base]; [lia|]. case_if; [simpl; lia|].
  etrans; [apply IH|]. simpl. lia.
Qed.

Lemma write_freqs_total l : Z.of_nat (length l) < 100000000 → ∃ t, wpa_config_write_freqs (Some l) = Ret (Some t).
Proof.
  intros Hl. unfold wpa_config_write_freqs. set (size := 10 * Z.of_nat (length l) + 1).
  assert (Hz : Z.of_nat (length (zeros size)) = size) by (unfold zeros; rewrite length_replicate; lia).
  destruct (print_seq_ok (separated [SP] ((λ f, fmt_u (u32 f)) <$> l)) (zeros size) 0) as (ok & q & b & H1 & H2 & H3).
  - apply zeros_ok. lia.
  - lia.
  - apply Forall_forall. intros t Ht. assert (strlen t ≤ 12); [|lia].
    destruct l as [|x l]; [by apply not_elem_of_nil in Ht|]. cbn [fmap list_fmap separated] in Ht.
    apply elem_of_cons in Ht as [->|Ht]; [pose proof (fmt_u_short (u32 x)); lia|].
    apply list_elem_of_fmap in Ht as (y & -> & Hy). apply list_elem_of_fmap in Hy as (z & -> & _).
    pose proof (fmt_u_short (u32 z)). rewrite strlen_app. change (strlen [SP]) with 1. lia.
  - lia.
  - rewrite Hz in H1. rewrite H1. ret_simpl. destruct ok.
    + ret_simpl. destruct (buf_ok_str b H2) as [t ->]. ret_simpl. by eexists.
    + destruct (buf_set_defined b (size - 1) 0) as [b' Hb']; [lia|]. rewrite Hb'. ret_simpl.
      destruct (buf_ok_str b') as [t ->]; [|ret_simpl; by eexists].
      eapply buf_write_ok; [exact H2|exact Hb'|by left].
Qed.

(** A list of frequencies below 1 GHz in kHz, as they are in MHz. *)
Definition freq_tail (l : list Z) : str := concat ((λ f, SP :: fmt_u f) <$> l).

Lemma fmt_u_freq f : 0 < f < 1000000000 → Forall (λ c, 33 ≤ c < 127) (fmt_u f) ∧ 1 ≤ strlen (fmt_u f) ≤ 9.
Proof.
  intros Hf. destruct (fmt_base_spec 8 11 f []) as (ds & Hs & Hl & Hd & _); [simpl; lia|lia|].
  rewrite app_nil_r in Hs. unfold fmt_u. rewrite Hs. unfold strlen. split; [|lia].
  eapply Forall_impl; [exact Hd|]. intros c Hc. unfold is_digit in Hc. lia.
Qed.

Lemma freq_tail_ok l : Forall (λ f, 0 < f < 1000000000) l →
  2 * Z.of_nat (length l) ≤ strlen (freq_tail l) ≤ 10 * Z.of_nat (length l) ∧ cstring (freq_tail l).
Proof.
  induction 1 as [|f l Hf _ [IH Hc]]; [by split; [|constructor]|].
  change (freq_tail (f :: l)) with ([SP] ++ fmt_u f ++ freq_tail l). destruct (fmt_u_freq f Hf) as [Hg Hl].
  rewrite !strlen_app. change (strlen [SP]) with 1. cbn [length]. split; [lia|].
  apply Forall_app. split; [by constructor; [unfold SP; lia|constructor]|]. apply cstring_app. split; [|done].
  eapply Forall_impl; [exact Hg|]. intros c Hc2; cbv beta in *. lia.
Qed.

Lemma print_freqs l b u end_ :
  Forall (λ f, 0 < f < 1000000000) l → built b (u ++ [0]) → strlen u + strlen (freq_tail l) < end_ →
  end_ ≤ Z.of_nat (length b) → end_ < 4294967296 →
  ∃ b', print_seq b (strlen u) end_ ((λ s, [SP] ++ s) <$> ((λ f, fmt_u (u32 f)) <$> l)) =
    Ret (true, strlen (u ++ freq_tail l), b') ∧ built b' (u ++ freq_tail l ++ [0]).
Proof.
  intros Hl. revert b u. induction Hl as [|f l Hf Hl IH]; intros b u Hb Hs He Hm.
  { exists b. by rewrite app_nil_r. }
  cbn [fmap list_fmap print_seq]. unfold u32. rewrite Z.mod_small by lia.
  change (freq_tail (f :: l)) with (([SP] ++ fmt_u f) ++ freq_tail l) in *.
  destruct (freq_tail_ok l Hl) as [Hfl _]. rewrite strlen_app in Hs.
  destruct (append_text b u end_ ([SP] ++ fmt_u f)) as (b1 & -> & Hb1 & Hl1);
    [by eapply built_prefix|lia|done|]. ret_simpl.
  destruct (IH b1 (u ++ [SP] ++ fmt_u f)) as (b' & H1 & H2);
    [by rewrite <- app_assoc|rewrite strlen_app; lia|lia|done|].
  exists b'. unfold u32 in H1. rewrite H1. rewrite <- !app_assoc in *. by split.
Qed.

Lemma write_freqs_spec f l :
  Forall (λ f, 0 < f < 1000000000) (f :: l) → Z.of_nat (length (f :: l)) < 100000000 →
  wpa_config_write_freqs (Some (f :: l)) = Ret (Some (fmt_u f ++ freq_tail l)).
Proof.
  intros Hf Hm. apply Forall_cons in Hf as [Hf Hl]. unfold wpa_config_write_freqs.
  set (size := 10 * Z.of_nat (length (f :: l)) + 1). destruct (freq_tail_ok l Hl) as [Hlen Hc].
  destruct (fmt_u_freq f Hf) as [Hg Hfl]. cbn [fmap list_fmap separated print_seq].
  assert (Hz : Z.of_nat (length (zeros size)) = size) by (unfold zeros; rewrite length_replicate; lia).
  replace (u32 f) with f by (unfold u32; rewrite Z.mod_small; lia).
  destruct (append_text (zeros size) [] size (fmt_u f) (built_nil _)) as (b1 & H1 & Hb1 & Hl1);
    [change (strlen []) with 0; cbn [length] in *; lia|cbn [length] in *; lia|].
  change (strlen []) with 0 in H1. rewrite H1. ret_simpl.
  destruct (print_freqs l b1 (fmt_u f) size Hl Hb1) as (b2 & H2 & Hb2); [cbn [length] in *; lia|lia|cbn [length] in *; lia|].
  cbn [app] in H2 |- *. cbn [app] in *. rewrite H2. ret_simpl. rewrite app_assoc in Hb2. rewrite (built_str _ _ Hb2); [done|].
  apply cstring_app. split; [|done]. eapply Forall_impl; [exact Hg|]. intros c Hc2; cbv beta in *. lia.
Qed.

Lemma int_array_text l f fuel pre :
  Forall (λ f, 0 < f < 1000000000) l → 0 < f < 1000000000 → pre = [] ∨ pre = [SP] → (length l < fuel)%nat →
  int_array_loop fuel (pre ++ fmt_u f ++ freq_tail l) = Ret (f :: l).
Proof.
  intros Hl. revert f fuel pre. induction Hl as [|g l Hg Hl IH]; intros f fuel pre Hf Hpre Hfu;
    (destruct fuel as [|fuel]; [simpl in Hfu; lia|]); cbn [int_array_loop].
  all: destruct (fmt_u_freq f Hf) as [Hgr Hlen].
  all: assert (Hskip : ∀ rest, skip_sp (pre ++ fmt_u f ++ rest) = fmt_u f ++ rest)
    by (intros rest; destruct (fmt_u f) as [|c t]; [unfold strlen in Hlen; simpl in Hlen; lia|];
        apply Forall_cons in Hgr as [Hc _]; unfold skip_sp; destruct Hpre as [->| ->]; cbn [app span];
        assert (c ≠ SP) by (unfold SP; lia); rewrite ?Z.eqb_refl, (proj2 (Z.eqb_neq c SP)) by done; done).
  all: rewrite Hskip.
  all: assert (Ha : ∀ rest, (∀ c, head rest = Some c → isdigit c = false) → atoi (fmt_u f ++ rest) = f)
    by (intros rest Hr; pose proof (atoi_fmt_u f rest ltac:(lia) Hr) as Hu; pose proof (atoi_range (fmt_u f ++ rest));
        unfold u32, INT_MIN, INT_MAX in *; lia).
  - rewrite Ha by done. rewrite (proj2 (Z.eqb_neq _ _)) by lia. cbn [freq_tail fmap list_fmap concat].
    rewrite app_nil_r. rewrite strchr_none; [done|done|]. apply graphic_no_space. by apply Forall_drop.
  - change (freq_tail (g :: l)) with (SP :: fmt_u g ++ freq_tail l).
    rewrite Ha by (by intros c [= <-]). rewrite (proj2 (Z.eqb_neq _ _)) by lia.
    destruct (fmt_u f) as [|c t] eqn:Ef; [unfold strlen in Hlen; simpl in Hlen; lia|].
    cbn [app drop]. rewrite drop_0. apply Forall_cons in Hgr as [_ Hgr].
    rewrite strchr_app_here by (done || by apply graphic_no_space).
    change (drop (S (length t)) (c :: t ++ SP :: fmt_u g ++ freq_tail l))
      with (drop (length t) (t ++ SP :: fmt_u g ++ freq_tail l)).
    rewrite drop_app_length. change (SP :: ?t) with ([SP] ++ t).
    rewrite IH by (done || (by right) || (simpl in Hfu; lia)). done.
Qed.
