(* ===== verification/ConfigVars.v ===== *)
(** * The variables of a network block: what each of them promises

    [VarOk] states what the table of variables relies on: a parser never goes
    wrong, keeps the block well formed and changes no member but the ones of
    the variable; a writer depends on these members only; a text that is
    written can be set in another block, which then shows the same text.  An
    instance is proved for each kind of variable. *)

From stdpp Require Import gmap.
From S2P Require Import Prelude CString Scan Smartlist CliUtil Common CommonLists CommonText Printable Printing.
From S2P Require Import WpaIe WpaCommon WpaSpec WpaText ConfigSsid ConfigText.

(** ** Members *)

Inductive member : Type :=
  | MInt (f : str) | MStr (f : str) | MBssid | MAddrs (f : str) | MPsk | MFreqs (f : str) | MMethods
  | MWep (i : nat).

#[export] Instance member_eq_dec : EqDecision member.
Proof. solve_decision. Defined.

Definition same_member (n n' : net) (m : member) : Prop :=
  match m with
  | MInt f => get_int n f = get_int n' f
  | MStr f => get_str n f = get_str n' f
  | MBssid => n_bssid n = n_bssid n'
  | MAddrs f => n_addrs n !! f = n_addrs n' !! f
  | MPsk => n_psk n = n_psk n'
  | MFreqs f => n_freqs n !! f = n_freqs n' !! f
  | MMethods => n_methods n = n_methods n'
  | MWep i => n_wep_key n !! i = n_wep_key n' !! i ∧ n_wep_key_len n !! i = n_wep_key_len n' !! i
  end.

Lemma same_refl n m : same_member n n m.
Proof. by destruct m. Qed.

Lemma same_trans n1 n2 n3 m : same_member n1 n2 m → same_member n2 n3 m → same_member n1 n3 m.
Proof. destruct m; cbn; try congruence. intros [] []. split; congruence. Qed.

Lemma get_str_set n f v : get_str (set_str n f v) f = v.
Proof. unfold get_str, set_str. cbn. by rewrite lookup_partial_alter_eq. Qed.

Lemma get_str_set_ne n f g v : f ≠ g → get_str (set_str n f v) g = get_str n g.
Proof. intros H. unfold get_str, set_str. cbn. by rewrite lookup_partial_alter_ne. Qed.

Lemma same_set_int n f v m : m ≠ MInt f → same_member n (set_int n f v) m.
Proof. destruct m; try done. intros H. cbn. rewrite get_set_int_ne; [done|congruence]. Qed.

Lemma same_set_str n f v m : m ≠ MStr f → same_member n (set_str n f v) m.
Proof. destruct m; try done. intros H. cbn [same_member]. rewrite get_str_set_ne; [done|congruence]. Qed.

Lemma same_set_bssid n v m : m ≠ MBssid → same_member n (set_bssid n v) m.
Proof. by destruct m. Qed.

Lemma same_set_addrs n f v m : m ≠ MAddrs f → same_member n (set_addrs n f v) m.
Proof. destruct m; try done. intros H. cbn. rewrite lookup_partial_alter_ne; [done|congruence]. Qed.

Lemma same_set_psk n v m : m ≠ MPsk → same_member n (set_psk n v) m.
Proof. by destruct m. Qed.

Lemma same_set_freqs n f v m : m ≠ MFreqs f → same_member n (set_freqs n f v) m.
Proof. destruct m; try done. intros H. cbn. rewrite lookup_partial_alter_ne; [done|congruence]. Qed.

Lemma same_set_methods n v m : m ≠ MMethods → same_member n (set_methods n v) m.
Proof. by destruct m. Qed.

Create HintDb members.
#[export] Hint Resolve same_refl same_set_int same_set_str same_set_bssid same_set_addrs same_set_psk
  same_set_freqs same_set_methods : members.

(** ** Well-formed blocks *)

Definition int_ranges : list (str * Z) :=
  [(lit "scan_ssid", 1); (lit "max_oper_chwidth", 3); (lit "mode", 4); (lit "proactive_key_caching", 1);
   (lit "disabled", 2); (lit "peerkey", 1); (lit "mixed_cell", 1); (lit "frequency", 65000);
   (lit "fixed_freq", 1); (lit "ignore_broadcast_ssid", 2); (lit "mac_addr", 2); (lit "pbss", 2);
   (lit "wps_disabled", 1)].

Definition flag_masks : list (str * Z) :=
  [(lit "proto", union_of (BIT <$> proto_bits)); (lit "key_mgmt", union_of (BIT <$> key_mgmt_bits));
   (lit "auth_alg", union_of (BIT <$> auth_alg_bits)); (lit "pairwise_cipher", union_of (BIT <$> cipher_bits));
   (lit "group_cipher", union_of (BIT <$> group_bits)); (lit "flags", union_of (BIT <$> [0; 1]))].

Definition int_ok (f : str) (v : Z) : Prop :=
  INT_MIN ≤ v ≤ INT_MAX ∧
  (∀ mx, named int_ranges f = Some mx → v ≤ mx) ∧ (∀ m, named flag_masks f = Some m → Z.land v m = v).

Definition pass_ok (p : list Z) : Prop := cstring p ∧ 8 ≤ strlen p ≤ 63 ∧ has_ctrl_char p = false.

Definition str_ok (f : str) (s : list Z) : Prop :=
  byte_list s ∧ (f = lit "ssid" → strlen s ≤ SSID_MAX_LEN) ∧ (f = lit "passphrase" → pass_ok s).

(** Lists that a value of a sensible size can give. *)
Definition MANY : Z := 100000000.

Record net_ok (n : net) : Prop := NetOk {
  ok_ints : ∀ f, int_ok f (get_int n f);
  ok_strs : ∀ f s, get_str n f = Some s → str_ok f s;
  ok_bssid : length (n_bssid n) = 6%nat ∧ byte_list (n_bssid n);
  ok_addrs : ∀ f l, n_addrs n !! f = Some l → Forall addr_ok l ∧ l ≠ [] ∧ Z.of_nat (length l) < MANY;
  ok_psk : length (n_psk n) = 32%nat ∧ byte_list (n_psk n);
  ok_freqs : ∀ f l, n_freqs n !! f = Some l →
    Forall (λ f, f ≠ 0 ∧ INT_MIN ≤ f ≤ INT_MAX) l ∧ l ≠ [] ∧ Z.of_nat (length l) < MANY;
  ok_wep_keys : length (n_wep_key n) = 4%nat ∧ Forall (λ k, length k = 16%nat ∧ byte_list k) (n_wep_key n);
  ok_wep_lens : length (n_wep_key_len n) = 4%nat ∧ Forall (λ l, 0 ≤ l) (n_wep_key_len n);
  ok_hash : has (get_int n (lit "flags")) NTHASH = true →
    ∀ p, get_str n (lit "password") = Some p → length p = 16%nat
}.

(** The lengths of the WEP keys are those of the bytes there are. *)
Definition wep_fit (n : net) : Prop := Forall (λ l, l ≤ MAX_WEP_KEY_LEN) (n_wep_key_len n).

Lemma set_int_ok n f v : net_ok n → int_ok f v → f ≠ lit "flags" → net_ok (set_int n f v).
Proof.
  intros [] Hv Hf. split; try done.
  - intros g. destruct (decide (f = g)) as [<-|Hn]; [by rewrite get_set_int|by rewrite get_set_int_ne].
  - rewrite get_set_int_ne by done. done.
Qed.

Lemma set_str_ok n f v : net_ok n → (∀ s, v = Some s → str_ok f s) → f ≠ lit "password" → net_ok (set_str n f v).
Proof.
  intros [] Hv Hf. split; try done.
  - intros g s. destruct (decide (f = g)) as [<-|Hn].
    + rewrite get_str_set. apply Hv.
    + rewrite get_str_set_ne by done. apply ok_strs0.
  - intros Hh p. rewrite get_str_set_ne by done. by apply ok_hash0.
Qed.

Lemma set_bssid_ok n v : net_ok n → length v = 6%nat → byte_list v → net_ok (set_bssid n v).
Proof. intros [] H1 H2. by split. Qed.

Lemma set_psk_ok n v : net_ok n → length v = 32%nat → byte_list v → net_ok (set_psk n v).
Proof. intros [] H1 H2. by split. Qed.

Lemma set_methods_ok n v : net_ok n → net_ok (set_methods n v).
Proof. intros []. by split. Qed.

Lemma set_addrs_ok n f v :
  net_ok n → (∀ l, v = Some l → Forall addr_ok l ∧ l ≠ [] ∧ Z.of_nat (length l) < MANY) → net_ok (set_addrs n f v).
Proof.
  intros [] Hv. split; try done. intros g l. cbn. destruct (decide (f = g)) as [<-|Hn].
  - rewrite lookup_partial_alter_eq. apply Hv.
  - rewrite lookup_partial_alter_ne by done. apply ok_addrs0.
Qed.

Lemma set_freqs_ok n f v :
  net_ok n → (∀ l, v = Some l → Forall (λ f, f ≠ 0 ∧ INT_MIN ≤ f ≤ INT_MAX) l ∧ l ≠ [] ∧ Z.of_nat (length l) < MANY) →
  net_ok (set_freqs n f v).
Proof.
  intros [] Hv. split; try done. intros g l. cbn. destruct (decide (f = g)) as [<-|Hn].
  - rewrite lookup_partial_alter_eq. apply Hv.
  - rewrite lookup_partial_alter_ne by done. apply ok_freqs0.
Qed.

(** ** Variables *)

(** A value that a parser is given; the counters of EAP methods are [int]. *)
Definition value_ok (n : net) (value : str) : Prop :=
  cstring value ∧ strlen value < MANY ∧
  get_int n (lit "leap") + strlen value ≤ INT_MAX ∧ get_int n (lit "non_leap") + strlen value ≤ INT_MAX.

(** Nothing but the members [ms] changes. *)
Definition only_changes (ms : list member) (n n' : net) : Prop := ∀ m, m ∉ ms → same_member n n' m.

Lemma only_refl ms n : only_changes ms n n.
Proof. intros m _. apply same_refl. Qed.

Class VarOk (f : parse_data) (ms : list member) (shown : net → Prop) : Prop := {
  var_parse n value : net_ok n → value_ok n value → ∃ r n', parser f n value = Ret (r, n') ∧
    net_ok n' ∧ only_changes ms n n' ∧ (0 ≤ r → wep_fit n → wep_fit n');
  var_write n : net_ok n → wep_fit n → ∃ t, writer f n = Ret t;
  var_frame n n' : (∀ m, m ∈ ms → same_member n n' m) → writer f n = writer f n';
  var_copy n n2 t : net_ok n → net_ok n2 → wep_fit n → shown n → writer f n = Ret (Some t) → t ≠ [] →
    ∃ r n2', parser f n2 t = Ret (r, n2') ∧ 0 ≤ r ∧ writer f n2' = Ret (Some t)
}.

Definition always (n : net) : Prop := True.

Lemma fit_kept ms n n' :
  only_changes ms n n' → (∀ i, MWep i ∉ ms) → wep_fit n → wep_fit n'.
Proof.
  unfold wep_fit. rewrite !Forall_lookup. intros Ho Hm Hf i l Hl. apply (Hf i).
  destruct (Ho (MWep i) (Hm i)) as [_ ->]. done.
Qed.

(** What is left to prove of a parser of a variable without WEP keys. *)
Lemma parse_kept ms n (r : Z) n' :
  net_ok n' → only_changes ms n n' → (∀ i, MWep i ∉ ms) →
  ∃ r2 n2, Ret (r, n') = Ret (r2, n2) ∧ net_ok n2 ∧ only_changes ms n n2 ∧ (0 ≤ r2 → wep_fit n → wep_fit n2).
Proof. intros H1 H2 H3. exists r, n'. split_and!; [done|done|done|]. intros _. by eapply fit_kept. Qed.

Lemma only_int ms n f v : MInt f ∈ ms → only_changes ms n (set_int n f v).
Proof. intros Hf m Hm. apply same_set_int. by intros ->. Qed.

Lemma only_str ms n f v : MStr f ∈ ms → only_changes ms n (set_str n f v).
Proof. intros Hf m Hm. apply same_set_str. by intros ->. Qed.

Lemma only_trans ms n1 n2 n3 : only_changes ms n1 n2 → only_changes ms n2 n3 → only_changes ms n1 n3.
Proof. intros H1 H2 m Hm. eapply same_trans; [by apply H1|by apply H2]. Qed.

(** *** Strings *)

Definition str_limit (f : str) : Z := if bool_decide (f = lit "ssid") then SSID_MAX_LEN else 0.

Lemma same_c_str (old s rest : list Z) :
  cstring s → old = s ++ rest → strlen (c_str old) = strlen s → c_str old = s.
Proof.
  intros Hs -> Hl. unfold c_str in *.
  assert (E : (span (λ c, negb (c =? 0)) (s ++ rest)).1 = s ++ (span (λ c, negb (c =? 0)) rest).1).
  { clear Hl. induction Hs as [|c s Hc _ IH]; [done|]. cbn [app span].
    rewrite (proj2 (Z.eqb_neq c 0)) by lia. cbn [negb].
    destruct (span _ (s ++ rest)) as [u v]. cbn [fst] in *. by rewrite IH. }
  rewrite E in *. rewrite strlen_app in Hl. destruct (span _ rest).1 as [|x u]; [by rewrite app_nil_r|].
  unfold strlen in Hl. simpl in Hl. lia.
Qed.

Lemma c_str_shorter s : strlen (c_str s) ≤ strlen s.
Proof.
  unfold c_str. destruct (span_spec (λ c, negb (c =? 0)) s) as (E & _). rewrite E at 2.
  rewrite strlen_app. pose proof (strlen_nonneg (span (λ c, negb (c =? 0)) s).2). lia.
Qed.

Section str.
Context (f : str) (has_len : bool) (key : bool) (ms : list member).
Context (Hin : MStr f ∈ ms) (Hw : ∀ i, MWep i ∉ ms).
Context (Hp : f ≠ lit "passphrase") (Hpw : f ≠ lit "password").

Lemma str_parse n value : net_ok n → cstring value → ∃ r n',
  wpa_config_parse_str f has_len 0 (str_limit f) n value = Ret (r, n') ∧
  (n' = n ∨ ∃ v, n' = set_str n f v ∧ ∀ s, v = Some s → str_ok f s).
Proof.
  intros Hn Hv. unfold wpa_config_parse_str.
  assert (Hset : ∀ v, (∀ s, v = Some s → str_ok f s) → ∀ b : bool, ∃ r n',
    (if b then Ret (1, n) else Ret (0, set_str n f v)) = Ret (r, n') ∧
    (n' = n ∨ ∃ v, n' = set_str n f v ∧ ∀ s, v = Some s → str_ok f s)).
  { intros v Hok [|]; [exists 1, n|exists 0, (set_str n f v)]; (split; [done|]); [by left|right; by exists v]. }
  destruct (str_eqb value (lit "NULL")); [ret_simpl; by apply Hset|].
  destruct (parse_bytes_total value Hv) as (r & -> & Hr). ret_simpl.
  destruct r as [s|]; [|exists (-1), n; by split; [|left]]. cbn [negb Z.eqb andb].
  destruct (negb (str_limit f =? 0) && (str_limit f <? strlen s)) eqn:E; [exists (-1), n; by split; [|left]|].
  apply Hset. intros x [= <-]. split_and!; [by apply Hr| |done].
  intros ->. unfold str_limit in E. rewrite bool_decide_eq_true_2 in E by done. cbn in E. zbool. done.
Qed.

#[export] Instance STR_ok : VarOk (STR_of f has_len 0 (str_limit f) key) ms always.
Proof.
  split; cbn [parser writer STR_of].
  - intros n value Hn (Hv & _). destruct (str_parse n value Hn Hv) as (r & n' & -> & [->|(v & -> & Hok)]).
    + by apply parse_kept; [|apply only_refl|].
    + apply parse_kept; [by apply set_str_ok|by apply only_str|done].
  - intros n Hn _. unfold wpa_config_write_str. destruct (get_str n f) as [s|] eqn:E; [|by eexists].
    destruct (ok_strs n Hn f s E) as (Hb & _).
    destruct (write_string_spec (if has_len then s else c_str s)) as (t & -> & _);
      [destruct has_len; [done|]; by apply cstring_bytes, c_str_ok|]. ret_simpl. by eexists.
  - intros n n' Hs. unfold wpa_config_write_str. specialize (Hs _ Hin). cbn [same_member] in Hs. by rewrite Hs.
  - intros n n2 t Hn Hn2 _ _. unfold wpa_config_write_str. destruct (get_str n f) as [s0|] eqn:E; [|done].
    destruct (ok_strs n Hn f s0 E) as (Hb0 & Hlim & _). set (s := if has_len then s0 else c_str s0).
    assert (Hb : byte_list s) by (unfold s; destruct has_len; [done|]; by apply cstring_bytes, c_str_ok).
    destruct (write_string_spec s Hb) as (t' & Ht & (Hc & Hparse & Hne & Hnull & Hhash)). rewrite Ht. ret_simpl.
    intros [= <-] _. unfold wpa_config_parse_str.
    assert (str_eqb t' (lit "NULL") = false) as -> by (by apply bool_decide_eq_false_2).
    rewrite Hparse. ret_simpl. cbn [negb Z.eqb andb].
    assert (Hl : negb (str_limit f =? 0) && (str_limit f <? strlen s) = false).
    { unfold str_limit. case_bool_decide; [|done]. cbn. apply Z.ltb_ge. specialize (Hlim H).
      unfold s. destruct has_len; [done|]. pose proof (c_str_shorter s0). lia. }
    rewrite Hl. set (same := match get_str n2 f with Some old => _ | None => _ end).
    assert (Hs2 : has_len = false → cstring s) by (intros ->; by apply c_str_ok).
    destruct same eqn:Es; unfold same in Es.
    + exists 1, n2. split_and!; [done|done|]. destruct (get_str n2 f) as [old|]; [|done].
      apply andb_true_iff in Es as [El Et]. apply Z.eqb_eq in El. unfold str_eqb in Et. apply bool_decide_eq_true in Et.
      assert (Ho : (if has_len then old else c_str old) = s); [|by rewrite Ho, Ht].
      rewrite <- (take_drop (length s) old), Et in El |- *. destruct has_len.
      * rewrite strlen_app in El. destruct (drop (length s) old); [by rewrite app_nil_r|].
        unfold strlen in El. simpl in El. lia.
      * by eapply same_c_str; [apply Hs2| |].
    + exists 0, (set_str n2 f (Some s)). split_and!; [done|done|]. rewrite get_str_set.
      assert (Ho : (if has_len then s else c_str s) = s).
      { destruct has_len; [done|]. by apply c_str_cstring, Hs2. }
      by rewrite Ho, Ht.
Qed.
End str.

(** *** Integers *)

Lemma to_int32_range x : INT_MIN ≤ to_int32 x ≤ INT_MAX.
Proof. unfold to_int32, INT_MIN, INT_MAX. lia. Qed.

Lemma to_int32_id x : INT_MIN ≤ x ≤ INT_MAX → to_int32 x = x.
Proof. unfold to_int32, INT_MIN, INT_MAX. lia. Qed.

(** A short text in a buffer of 20 bytes. *)
Lemma write20 t : cstring t → strlen t < 20 →
  ('(res, b) ← snprintf (uninit 20) 0 20 t;
   if os_snprintf_error 20 res then Ret None
   else b ← buf_set b 19 0; s ← buf_str b 0; Ret (Some s)) = Ret (Some t).
Proof.
  intros Hc Hl. pose proof (strlen_nonneg t).
  destruct (snprintf_built (uninit 20) [] t 20 (built_nil _)) as (b & H1 & Hb & Hlb);
    [done|change (strlen []) with 0; change (Z.of_nat (length (uninit 20))) with 20; lia|].
  change (strlen []) with 0 in H1. rewrite H1. ret_simpl. cbn [app] in Hb.
  unfold os_snprintf_error, u32. rewrite Z.mod_small by lia.
  rewrite (proj2 (Z.ltb_ge _ _)), (proj2 (Z.leb_gt _ _)) by lia. cbn [orb].
  destruct (buf_set_defined b 19 0) as [b2 H2]; [rewrite Hlb; done|]. rewrite H2. ret_simpl.
  assert (Hb2 : built b2 (t ++ [0])).
  { apply buf_write_Ret in H2 as (_ & _ & ->). unfold built in *. rewrite length_app in *. simpl length in *.
    change (Z.to_nat 19) with 19%nat. destruct (decide (length t + 1 ≤ 19)%nat) as [Hle|Hgt].
    - rewrite take_app_le by (rewrite length_take; unfold strlen in *; change (length (uninit 20)) with 20%nat in Hlb; lia).
      rewrite take_take, Nat.min_l by lia. done.
    - assert (Ht : length t = 19%nat) by (unfold strlen in Hl; lia).
      assert (Hlast : b !! 19%nat = Some (Some 0)).
      { rewrite <- (lookup_take_lt b (length t + 1)) by lia. rewrite Hb. unfold cells. rewrite fmap_app.
        rewrite lookup_app_r by (rewrite length_fmap; lia). by rewrite length_fmap, Ht. }
      change (19 + length [0])%nat with 20%nat. change (cells [0]) with [Some 0]. cbn [app].
      rewrite <- Hb at 1. f_equal. apply (take_drop_middle b 19 (Some 0) Hlast). }
  by rewrite (built_str _ _ Hb2).
Qed.

Section int.
Context (f : str) (ms : list member).
Context (Hin : MInt f ∈ ms) (Hw : ∀ i, MWep i ∉ ms) (Hf : named flag_masks f = None).

Lemma not_flags : f ≠ lit "flags".
Proof. intros ->. by vm_compute in Hf. Qed.

Definition int_limit (g : str) : Z := default 0 (named int_ranges g).

Lemma limits_positive : Forall (λ e : str * Z, 0 < e.2 ≤ INT_MAX) int_ranges.
Proof. by apply (bool_decide_unpack _). Qed.

Lemma limit_range g mx : named int_ranges g = Some mx → 0 < mx ≤ INT_MAX.
Proof.
  generalize limits_positive. generalize int_ranges as l. induction 1 as [|[x y] l Hx _ IH]; cbn [named]; [done|].
  case_if; [by intros [= <-]|done].
Qed.

Lemma int_parse n value : net_ok n → ∃ r v n',
  wpa_config_parse_int f 0 (int_limit f) n value = Ret (r, n') ∧
  (n' = n ∨ n' = set_int n f v ∧ int_ok f v).
Proof.
  intros Hn. unfold wpa_config_parse_int. destruct (strtol0 value) as [v end_].
  assert (Hi : ∀ v, INT_MIN ≤ v ≤ INT_MAX → (∀ mx, named int_ranges f = Some mx → v ≤ mx) → int_ok f v).
  { intros x Hx Hm. split; [done|split; [done|]]. intros m Hfm. congruence. }
  pose proof (to_int32_range v) as Hr.
  case_bool_decide; [exists (-1), 0, n; split; [done|by left]|].
  case_if; [exists 1, 0, n; split; [done|by left]|]. cbn [negb Z.eqb andb]. unfold int_limit.
  destruct (named int_ranges f) as [mx|] eqn:Em; cbn [default from_option id negb Z.eqb andb].
  - pose proof (limit_range f mx Em). rewrite (proj2 (Z.eqb_neq mx 0)) by lia. cbn [negb andb]. case_if; zbool.
    + exists (-1), mx. eexists. split; [done|]. right. split; [done|]. apply Hi; [unfold INT_MIN, INT_MAX in *; lia|].
      by intros ? [= <-].
    + eexists 0, _, _. split; [done|]. right. split; [done|]. apply Hi; [done|]. intros ? [= <-]. lia.
  - eexists 0, _, _. split; [done|]. right. split; [done|]. by apply Hi.
Qed.

Lemma write_int_spec n : net_ok n → wpa_config_write_int f n = Ret (Some (fmt_d (get_int n f))).
Proof.
  intros Hn. apply write20; [apply printable_cstring, fmt_d_printable|].
  destruct (ok_ints n Hn f) as [Hr _]. unfold INT_MIN, INT_MAX in Hr. unfold fmt_d.
  assert (Hu : ∀ x, 0 ≤ x < 4294967296 → strlen (fmt_u x) ≤ 10).
  { intros x Hx. destruct (fmt_u_spec x Hx) as [Hl _]. unfold strlen. lia. }
  case_if; zbool; [|specialize (Hu (get_int n f)); lia].
  change (45 :: fmt_u (- get_int n f)) with ([45] ++ fmt_u (- get_int n f)). rewrite strlen_app.
  specialize (Hu (- get_int n f)). change (strlen [45]) with 1. lia.
Qed.

#[export] Instance INT_ok : VarOk (INT_RANGE f 0 (int_limit f)) ms always.
Proof.
  split; cbn [parser writer INT_RANGE].
  - intros n value Hn _. destruct (int_parse n value Hn) as (r & v & n' & -> & [->|[-> Hv]]).
    + by apply parse_kept; [|apply only_refl|].
    + apply parse_kept; [apply set_int_ok; [done|done|apply not_flags]|by apply only_int|done].
  - intros n Hn _. rewrite write_int_spec by done. by eexists.
  - intros n n' Hs. unfold wpa_config_write_int. specialize (Hs _ Hin). cbn [same_member] in Hs. by rewrite Hs.
  - intros n n2 t Hn Hn2 _ _. rewrite write_int_spec by done. intros [= <-] _.
    destruct (ok_ints n Hn f) as (Hr & Hm & _). unfold wpa_config_parse_int.
    rewrite strtol0_fmt_d by done. rewrite to_int32_id by done. rewrite bool_decide_eq_false_2 by tauto.
    destruct (get_int n2 f =? get_int n f) eqn:E; zbool.
    { exists 1, n2. split_and!; [done|done|]. rewrite write_int_spec by done. by rewrite E. }
    cbn [negb Z.eqb andb].
    assert (Hl : negb (int_limit f =? 0) && (int_limit f <? get_int n f) = false).
    { unfold int_limit. destruct (named int_ranges f) as [mx|]; [|done]. cbn [default from_option id].
      rewrite (proj2 (Z.ltb_ge _ _)) by (by apply Hm). apply andb_false_r. }
    rewrite Hl. exists 0, (set_int n2 f (get_int n f)). split_and!; [done|done|].
    rewrite write_int_spec by (apply set_int_ok; [done|by apply (ok_ints n)|apply not_flags]).
    by rewrite get_set_int.
Qed.
End int.

(** *** Addresses *)

Ltac small_member := by apply (bool_decide_unpack _).
Definition without_wep (ms : list member) : bool := forallb (λ m, match m with MWep _ => false | _ => true end) ms.

Lemma without_wep_spec ms i : without_wep ms = true → MWep i ∉ ms.
Proof. unfold without_wep. rewrite forallb_forall. intros H Hin. by specialize (H _ (proj1 (list_elem_of_In _ _) Hin)). Qed.

Ltac no_wep := by intros i; apply without_wep_spec.

(** An integer that no table restricts. *)
Lemma free_int f v :
  named int_ranges f = None → named flag_masks f = None → INT_MIN ≤ v ≤ INT_MAX → int_ok f v.
Proof. intros H1 H2 Hv. split; [done|]. split; intros ?; congruence. Qed.

Lemma overwrite_bytes (l old : list Z) (k : nat) :
  length old = k → byte_list old → byte_list l → (length l ≤ k)%nat →
  length (l ++ drop (length l) old) = k ∧ byte_list (l ++ drop (length l) old).
Proof.
  intros Ho Hb Hl Hk. rewrite length_app, length_drop. split; [lia|].
  apply Forall_app. split; [done|by apply Forall_drop].
Qed.

Definition bssid_members : list member := [MBssid; MInt (lit "bssid_set")].

Lemma bssid_set_ok n v : net_ok n → v = 0 ∨ v = 1 → net_ok (set_int n (lit "bssid_set") v).
Proof.
  intros Hn Hv. apply set_int_ok; [done| |done].
  apply free_int; [done|done|]. unfold INT_MIN, INT_MAX. lia.
Qed.

Lemma macstr_special addr : length addr = 6%nat → byte_list addr →
  str_eqb (macstr addr) [] || str_eqb (macstr addr) [DQ; DQ] || str_eqb (macstr addr) (lit "any") = false.
Proof.
  intros Hl Hb. destruct (macstr_printable addr Hl Hb) as [_ H17]. unfold str_eqb.
  rewrite !bool_decide_eq_false_2; [done|..]; intros E; rewrite E in H17; by vm_compute in H17.
Qed.

#[export] Instance bssid_ok : VarOk (FUNC (lit "bssid") wpa_config_parse_bssid wpa_config_write_bssid) bssid_members always.
Proof.
  split; cbn [parser writer FUNC].
  - intros n value Hn _. unfold wpa_config_parse_bssid. case_if.
    { apply parse_kept; [apply bssid_set_ok; [done|by left]|apply only_int; small_member|no_wep]. }
    pose proof (hwaddr_bytes_ok 6 value) as (Hb & Hl & _). destruct (hwaddr_bytes 6 value) as [l ok]. cbn [fst snd] in *.
    destruct (ok_bssid n Hn) as [H6 Hob]. destruct (overwrite_bytes l (n_bssid n) 6 H6 Hob Hb Hl) as [Hv6 Hvb].
    assert (Hc : only_changes bssid_members n (set_bssid n (l ++ drop (length l) (n_bssid n)))).
    { intros m Hm. apply same_set_bssid. intros ->. apply Hm. small_member. }
    destruct ok; cbn [negb].
    + apply parse_kept; [apply bssid_set_ok; [by apply set_bssid_ok|by right]| |no_wep].
      eapply only_trans; [exact Hc|]. apply only_int. small_member.
    + apply parse_kept; [by apply set_bssid_ok|done|no_wep].
  - intros n Hn _. unfold wpa_config_write_bssid. case_if; [by eexists|].
    destruct (ok_bssid n Hn) as [H6 Hob]. destruct (macstr_printable _ H6 Hob) as [Hp H17].
    rewrite write20 by (by apply printable_cstring || lia). by eexists.
  - intros n n' Hs. unfold wpa_config_write_bssid.
    assert (H1 : same_member n n' MBssid) by (apply Hs; small_member).
    assert (H2 : same_member n n' (MInt (lit "bssid_set"))) by (apply Hs; small_member).
    cbn [same_member] in H1, H2. by rewrite H1, H2.
  - intros n n2 t Hn Hn2 _ _. unfold wpa_config_write_bssid at 1. case_if; [done|].
    destruct (ok_bssid n Hn) as [H6 Hob]. destruct (macstr_printable _ H6 Hob) as [Hp H17].
    rewrite write20 by (by apply printable_cstring || lia). intros [= <-] _.
    unfold wpa_config_parse_bssid. rewrite macstr_special by done.
    pose proof (hwaddr_bytes_macstr (n_bssid n) [] Hob ltac:(by intros Enil; rewrite Enil in H6)) as Hm.
    rewrite app_nil_r, H6 in Hm. rewrite Hm. cbn [negb]. eexists 0, _. split_and!; [done|done|].
    unfold wpa_config_write_bssid. rewrite get_set_int. change (1 =? 0) with false. cbv iota.
    cbn [n_bssid set_int set_bssid]. destruct (ok_bssid n2 Hn2) as [H62 _].
    rewrite drop_ge by lia. rewrite app_nil_r. apply write20; [by apply printable_cstring|lia].
Qed.

Lemma after_sp_shorter u w : after_sp (skip_sp u) = Some w → (length w < length u)%nat.
Proof.
  unfold skip_sp, after_sp. destruct (span_spec (λ c, c =? SP) u) as (E & _ & Hh).
  apply (f_equal length) in E. rewrite length_app in E. destruct (span (λ c, c =? SP) u).2 as [|c s]; [done|].
  specialize (Hh c eq_refl). cbn [strchr]. rewrite Hh. destruct (strchr s SP) as [i|] eqn:Ei; [|done].
  intros [= <-]. rewrite length_drop. simpl in *. lia.
Qed.

Lemma addr_list_total fuel abort masked pos acc :
  (default 0 (length <$> pos) < fuel)%nat → Forall addr_ok acc →
  ∃ r, addr_list_loop fuel abort masked pos acc = Ret r ∧
    match r with
    | Some l => Forall addr_ok l ∧ (length l ≤ length acc + default 0 (length <$> pos))%nat
    | None => True
    end.
Proof.
  revert pos acc. induction fuel as [|fuel IH]; intros pos acc Hf Ha; [lia|]. cbn [addr_list_loop].
  destruct pos as [[|c s]|]; [eexists; split; [done|split; [done|simpl; lia]]| |eexists; split; [done|split; [done|simpl; lia]]].
  assert (Hp : (default 0 (length <$> after_sp (skip_sp (c :: s))) ≤ length s)%nat).
  { destruct (after_sp _) as [w|] eqn:E; [|simpl; lia]. apply after_sp_shorter in E. simpl in *. lia. }
  change (default 0 (length <$> Some (c :: s)))%nat with (S (length s)) in *.
  assert (Hnext : ∀ l : list (ETH_BYTES * ETH_BYTES), Forall addr_ok l → (length l ≤ S (length acc))%nat →
    ∃ r, addr_list_loop fuel abort masked (after_sp (skip_sp (c :: s))) l = Ret r ∧
      match r with Some l' => Forall addr_ok l' ∧ (length l' ≤ length acc + S (length s))%nat | None => True end).
  { intros l Hl2 Hlen. destruct (IH (after_sp (skip_sp (c :: s))) l ltac:(lia) Hl2) as (r & -> & Hr).
    exists r. split; [done|]. destruct r as [l'|]; [|done]. destruct Hr. split; [done|lia]. }
  destruct (hwaddr_masked_aton _ _) as [am|] eqn:Eam.
  - apply Hnext; [|simpl; lia]. constructor; [by eapply masked_aton_ok|done].
  - case_if; [by exists None|]. apply Hnext; [done|lia].
Qed.

Section addrs.
Context (f : str).

#[export] Instance addrs_ok : VarOk (FUNC_addrs f) [MAddrs f] always.
Proof.
  split; cbn [parser writer FUNC FUNC_addrs].
  - intros n value Hn (Hv & Hm & _). unfold wpa_config_parse_addr_list.
    destruct (addr_list_total (S (length value)) true true (Some value) []) as (r & -> & Hr);
      [simpl; lia|constructor|]. ret_simpl.
    assert (Hset : ∀ v, only_changes [MAddrs f] n (set_addrs n f v)).
    { intros v m Hmem. apply same_set_addrs. intros ->. apply Hmem. by left. }
    destruct r as [[|am l]|].
    + apply parse_kept; [by apply set_addrs_ok|apply Hset|no_wep].
    + apply parse_kept; [|apply Hset|no_wep]. apply set_addrs_ok; [done|]. intros x [= <-].
      destruct Hr as [Hr Hl]. split_and!; [done|done|]. unfold strlen in Hm. simpl in *. lia.
    + apply parse_kept; [done|apply only_refl|no_wep].
  - intros n Hn _. unfold wpa_config_write_addr_list. destruct (n_addrs n !! f) as [l|] eqn:E; [|by eexists].
    destruct (ok_addrs n Hn f l E) as (Hl & Hne & Hm).
    destruct (write_addr_list_spec n f l E Hne Hl Hm) as (am & l' & _ & H).
    unfold wpa_config_write_addr_list in H. rewrite E in H. rewrite H. by eexists.
  - intros n n' Hs. unfold wpa_config_write_addr_list. specialize (Hs (MAddrs f) ltac:(by left)). cbn [same_member] in Hs. by rewrite Hs.
  - intros n n2 t Hn Hn2 _ _ Hw Hne. destruct (n_addrs n !! f) as [l|] eqn:E.
    2: { unfold wpa_config_write_addr_list in Hw. by rewrite E in Hw. }
    destruct (ok_addrs n Hn f l E) as (Hl & Hnil & Hm).
    destruct (write_addr_list_spec n f l E Hnil Hl Hm) as (am & l' & Hrev & H).
    rewrite H in Hw. injection Hw as <-. unfold wpa_config_parse_addr_list.
    assert (Hr : Forall addr_ok (am :: l')).
    { rewrite <- Hrev. apply Forall_forall. intros x Hx. rewrite Forall_forall in Hl. apply Hl.
      by apply list_elem_of_In, in_rev, list_elem_of_In. }
    apply Forall_cons in Hr as [Ham Hl']. destruct (addr_tail_length l' Hl') as [Ht _].
    destruct (addr_mask_text_graphic am Ham) as [_ Hlen].
    pose proof (addr_list_loop_spec l' am (S (length (addr_mask_text am ++ addr_tail l'))) true [] [] Hl' Ham
      ltac:(by left)) as Hp. rewrite length_app in Hp. unfold strlen in *. specialize (Hp ltac:(lia)).
    rewrite length_app. cbn [app] in Hp. rewrite Hp. ret_simpl.
    assert (Heq : rev l' ++ [am] = l) by (change (rev (am :: l') = l); rewrite <- Hrev; apply rev_involutive).
    rewrite Heq. destruct l as [|x l]; [done|]. eexists 0, _. split_and!; [done|done|].
    assert (E2 : n_addrs (set_addrs n2 f (Some (x :: l))) !! f = Some (x :: l))
      by (cbn; by rewrite lookup_partial_alter_eq).
    destruct (write_addr_list_spec _ f _ E2 Hnil Hl Hm) as (am2 & l2 & Hrev2 & ->).
    rewrite Hrev in Hrev2. by injection Hrev2 as <- <-.
Qed.
End addrs.

(** *** The key *)

Definition psk_members : list member := [MPsk; MStr (lit "passphrase"); MInt (lit "psk_set")].

Lemma psk_set_ok n v : net_ok n → v = 0 ∨ v = 1 → net_ok (set_int n (lit "psk_set") v).
Proof.
  intros Hn Hv. apply set_int_ok; [done| |done].
  apply free_int; [done|done|]. unfold INT_MIN, INT_MAX. lia.
Qed.

Lemma passphrase_ok n v : net_ok n → (∀ p, v = Some p → byte_list p ∧ pass_ok p) → net_ok (set_str n (lit "passphrase") v).
Proof.
  intros Hn Hv. apply set_str_ok; [done| |done]. intros s Hs. destruct (Hv s Hs). by split_and!.
Qed.

(** The value of a passphrase in quotes. *)
Definition quoted_pass (value : str) : str :=
  match strrchr value DQ with Some pos => take pos value | None => value end.

Lemma quoted_pass_cstring value : cstring value → cstring (quoted_pass value).
Proof. intros Hv. unfold quoted_pass. destruct (strrchr value DQ); [by apply Forall_take|done]. Qed.

Lemma psk_quoted n value : wpa_config_parse_psk n (DQ :: value) =
  let pass := quoted_pass value in
  if (strlen pass <? 8) || (63 <? strlen pass) then Ret (-1, n)
  else if has_ctrl_char pass then Ret (-1, n)
  else if bool_decide (get_str n (lit "passphrase") = Some pass) then Ret (1, n)
  else Ret (0, set_str (set_int n (lit "psk_set") 0) (lit "passphrase") (Some pass)).
Proof. done. Qed.

Lemma psk_unquoted n value : head value ≠ Some DQ → wpa_config_parse_psk n value =
  let '(bytes, r) := hexstr2bin value (Z.to_nat PMK_LEN) in
  let n := set_psk n (bytes ++ drop (length bytes) (n_psk n)) in
  if negb (r =? 0) || bool_decide (drop (Z.to_nat PMK_LEN * 2) value ≠ []) then Ret (-1, n)
  else Ret (0, set_int (set_str n (lit "passphrase") None) (lit "psk_set") 1).
Proof.
  intros Hh. unfold wpa_config_parse_psk. destruct value as [|c value]; [done|].
  destruct (decide (c = 34)) as [->|Hc]; [done|].
  repeat match goal with |- context [match ?y with _ => _ end] => is_var y; destruct y; try done end.
Qed.

Lemma hex_text_head s : byte_list s → head (hex_text s) ≠ Some DQ.
Proof.
  intros Hs. pose proof (hex_text_graphic s Hs) as Hg. destruct (hex_text s) as [|c t]; [done|].
  apply Forall_cons in Hg as [[Hg _] _]. intros [= ->]. by vm_compute in Hg.
Qed.

#[export] Instance psk_ok : VarOk (FUNC_KEY (lit "psk") wpa_config_parse_psk wpa_config_write_psk) psk_members always.
Proof.
  split; cbn [parser writer FUNC_KEY].
  - intros n value Hn (Hv & _). destruct (decide (head value = Some DQ)) as [Hq|Hq].
    + destruct value as [|c value]; [done|]. injection Hq as ->. apply Forall_cons in Hv as [_ Hv].
      rewrite psk_quoted. cbv zeta. pose proof (quoted_pass_cstring value Hv) as Hc.
      destruct (_ || _) eqn:El; [by apply parse_kept; [|apply only_refl|no_wep]|].
      destruct (has_ctrl_char _) eqn:Ec; [by apply parse_kept; [|apply only_refl|no_wep]|].
      case_bool_decide; [by apply parse_kept; [|apply only_refl|no_wep]|].
      apply parse_kept; [|eapply only_trans; [apply only_int|apply only_str]; small_member|no_wep].
      apply passphrase_ok; [apply psk_set_ok; [done|by left]|]. intros p [= <-].
      apply orb_false_iff in El as [E1 E2]. zbool. split; [by apply cstring_bytes|]. by split_and!.
    + rewrite psk_unquoted by done.
      pose proof (hexstr2bin_bytes (Z.to_nat PMK_LEN) value) as (Hb & _ & Hl).
      destruct (hexstr2bin value _) as [bytes r]. cbn [fst snd] in *. cbv zeta.
      destruct (ok_psk n Hn) as [H32 Hob]. destruct (overwrite_bytes bytes (n_psk n) 32 H32 Hob Hb Hl) as [Hv6 Hvb].
      assert (Hc : only_changes psk_members n (set_psk n (bytes ++ drop (length bytes) (n_psk n)))).
      { intros m Hm. apply same_set_psk. intros ->. apply Hm. small_member. }
      destruct (_ || _); [apply parse_kept; [by apply set_psk_ok|done|no_wep]|].
      apply parse_kept; [apply psk_set_ok; [|by right]; by apply passphrase_ok; [apply set_psk_ok|]| |no_wep].
      eapply only_trans; [exact Hc|]. eapply only_trans; [apply only_str|apply only_int]; small_member.
  - intros n Hn _. unfold wpa_config_write_psk. destruct (get_str n (lit "passphrase")); [by eexists|].
    case_if; [by eexists|]. destruct (ok_psk n Hn). rewrite write_hex_spec by done. by eexists.
  - intros n n' Hs. unfold wpa_config_write_psk.
    assert (H1 : same_member n n' MPsk) by (apply Hs; small_member).
    assert (H2 : same_member n n' (MStr (lit "passphrase"))) by (apply Hs; small_member).
    assert (H3 : same_member n n' (MInt (lit "psk_set"))) by (apply Hs; small_member).
    cbn [same_member] in H1, H2, H3. by rewrite H1, H2, H3.
  - intros n n2 t Hn Hn2 _ _. unfold wpa_config_write_psk at 1.
    destruct (get_str n (lit "passphrase")) as [p|] eqn:Ep.
    + destruct (ok_strs n Hn _ p Ep) as (Hb & _ & Hp). destruct (Hp eq_refl) as (Hc & Hl & Hctrl).
      assert (Ht : c_str (wpa_config_write_string_ascii p) = DQ :: p ++ [DQ]).
      { apply c_str_cstring. constructor; [done|]. apply cstring_app. split; [done|by constructor; [|constructor]]. }
      rewrite Ht. intros [= <-] _. rewrite psk_quoted. cbv zeta.
      assert (Hq : quoted_pass (p ++ [DQ]) = p).
      { unfold quoted_pass. rewrite strrchr_snoc by done. by apply take_app_length'. }
      rewrite Hq, (proj2 (Z.ltb_ge _ _)), (proj2 (Z.ltb_ge _ _)), Hctrl by lia. cbn [orb].
      case_bool_decide as Hsame.
      * exists 1, n2. split_and!; [done|done|]. unfold wpa_config_write_psk. by rewrite Hsame, Ht.
      * eexists 0, _. split_and!; [done|done|]. unfold wpa_config_write_psk. by rewrite get_str_set, Ht.
    + case_if; [done|]. destruct (ok_psk n Hn) as [H32 Hb]. rewrite write_hex_spec by done. ret_simpl.
      intros [= <-] _. rewrite psk_unquoted by (by apply hex_text_head).
      pose proof (hexstr2bin_text (n_psk n) [] Hb) as Hx. rewrite app_nil_r, H32 in Hx.
      change (Z.to_nat PMK_LEN) with 32%nat. rewrite Hx. cbv zeta. cbn [negb orb].
      rewrite drop_ge by (rewrite hex_text_length by done; lia). rewrite bool_decide_eq_false_2 by tauto.
      destruct (ok_psk n2 Hn2) as [H322 _]. rewrite drop_ge, app_nil_r by lia.
      eexists 0, _. split_and!; [done|done|]. unfold wpa_config_write_psk.
      assert (Hno : get_str (set_int (set_str (set_psk n2 (n_psk n)) (lit "passphrase") None) (lit "psk_set") 1)
        (lit "passphrase") = None) by apply get_str_set.
      rewrite Hno, get_set_int. change (1 =? 0) with false. cbv iota.
      change (n_psk (set_int _ _ _)) with (n_psk n). by rewrite write_hex_spec.
Qed.

(** *** Sets of names *)

Section flags.
Context (f : str) (ks : list Z) (size : Z) (texts : list (Z * str)) (names : list (str * Z)).
Context (Hmask : named flag_masks f = Some (union_of (BIT <$> ks))) (Hrange : named int_ranges f = None).
Context (Hnf : f ≠ lit "flags") (Hpos : 0 ≤ union_of (BIT <$> ks) ≤ INT_MAX).
Context (Hnames : Forall (λ e : str * Z, Z.land e.2 (union_of (BIT <$> ks)) = e.2) names).
Context (Hagree : ∀ v, Z.land v (union_of (BIT <$> ks)) = v → flags_agree size texts names v = true).

Lemma masked_range v : Z.land v (union_of (BIT <$> ks)) = v → 0 ≤ v ≤ INT_MAX.
Proof.
  intros Hv. assert (H0 : 0 ≤ v) by (rewrite <- Hv; apply Z.land_nonneg; lia). split; [done|].
  assert (Hle : v ≤ union_of (BIT <$> ks)); [|lia].
  pose proof (Z.lor_ldiff_and (union_of (BIT <$> ks)) v) as E. rewrite (Z.land_comm _ v), Hv in E.
  assert (0 ≤ Z.ldiff (union_of (BIT <$> ks)) v) by (apply Z.ldiff_nonneg; lia).
  pose proof (Z.add_lor_land (Z.ldiff (union_of (BIT <$> ks)) v) v) as Ea.
  assert (Hz : Z.land (Z.ldiff (union_of (BIT <$> ks)) v) v = 0).
  { apply Z.bits_inj'. intros i Hi. rewrite Z.land_spec, Z.ldiff_spec, Z.bits_0.
    by destruct (Z.testbit v i); rewrite ?andb_false_r. }
  lia.
Qed.

Lemma flag_int_ok v : Z.land v (union_of (BIT <$> ks)) = v → int_ok f v.
Proof.
  intros Hv. pose proof (masked_range v Hv). unfold int_ok, INT_MIN, INT_MAX in *. split; [lia|]. split; [intros; congruence|].
  intros m Hm. rewrite Hmask in Hm. by injection Hm as <-.
Qed.

Lemma flag_value n : net_ok n → Z.land (get_int n f) (union_of (BIT <$> ks)) = get_int n f.
Proof. intros Hn. destruct (ok_ints n Hn f) as (_ & _ & Hm). by apply Hm. Qed.

Lemma flags_ok (g : str) : VarOk (FUNC g (parse_flags f names) (write_flags size f texts)) [MInt f] always.
Proof.
  split; cbn [parser writer FUNC].
  - intros n value Hn _. destruct (parse_flags_total f names _ n value Hnames (proj1 Hpos)) as (v & r & [->|[-> Hv]]).
    + apply parse_kept; [done|apply only_refl|no_wep].
    + apply parse_kept; [apply set_int_ok; [done|by apply flag_int_ok|done]|apply only_int; by left|no_wep].
  - intros n Hn _. pose proof (Hagree _ (flag_value n Hn)) as Ha. unfold flags_agree in Ha.
    rewrite (write_flags_get _ [] f _ _ n) in Ha by apply get_set_int.
    destruct (write_flags size f texts n) as [t| |]; [by eexists|done|done].
  - intros n n' Hs. apply write_flags_get. apply (Hs (MInt f)). by left.
  - intros n n2 t Hn Hn2 _ _ Hw _. destruct (flags_copy size f texts names n n2 t) as (_ & r & n2' & H1 & H2 & _ & H3);
      [by apply Hagree, flag_value|done|]. exists r, n2'. split_and!; [done|done|].
    by rewrite (write_flags_get _ f f _ _ n).
Qed.
End flags.

(** *** Ciphers *)

Lemma cipher_int_ok f ks v :
  named flag_masks f = Some (union_of (BIT <$> ks)) → named int_ranges f = None →
  0 ≤ union_of (BIT <$> ks) ≤ INT_MAX → Z.land v (union_of (BIT <$> ks)) = v → int_ok f v.
Proof. intros Hm Hr Hp Hv. by apply (flag_int_ok f ks). Qed.

Lemma pairwise_allowed v : Z.ldiff v WPA_ALLOWED_PAIRWISE_CIPHERS = 0 → Z.land v (union_of (BIT <$> cipher_bits)) = v.
Proof. intros H%ldiff_zero. exact H. Qed.

Lemma group_allowed v : Z.ldiff v WPA_ALLOWED_GROUP_CIPHERS = 0 → Z.land v (union_of (BIT <$> group_bits)) = v.
Proof. intros H%ldiff_zero. exact H. Qed.

Lemma allowed_ldiff v m : Z.land v m = v → Z.ldiff v m = 0.
Proof.
  intros <-. apply Z.bits_inj'. intros i Hi. rewrite Z.ldiff_spec, Z.land_spec, Z.bits_0.
  by destruct (Z.testbit m i); rewrite ?andb_false_r.
Qed.

#[export] Instance pairwise_ok :
  VarOk (FUNC (lit "pairwise") wpa_config_parse_pairwise wpa_config_write_pairwise) [MInt (lit "pairwise_cipher")] always.
Proof.
  split; cbn [parser writer FUNC].
  - intros n value Hn _. unfold wpa_config_parse_pairwise.
    destruct (parse_cipher_total value) as (v & -> & Hv). ret_simpl.
    assert (Hno : ∀ r, ∃ r2 n', Ret (r, n) = Ret (r2, n') ∧ net_ok n' ∧
      only_changes [MInt (lit "pairwise_cipher")] n n' ∧ (0 ≤ r2 → wep_fit n → wep_fit n'))
      by (intros r; apply parse_kept; [done|apply only_refl|no_wep]).
    case_if; [apply Hno|]. destruct (Z.ldiff v _ =? 0) eqn:Ea; cbn [negb]; [|apply Hno]. zbool.
    case_if; [apply Hno|]. apply parse_kept; [|apply only_int; by left|no_wep].
    apply set_int_ok; [done| |done]. apply (cipher_int_ok _ cipher_bits); [done|done|done|by apply pairwise_allowed].
  - intros n Hn _. unfold wpa_config_write_pairwise.
    destruct (cipher_writes (get_int n (lit "pairwise_cipher"))) as [t ->]; [|by eexists].
    left. destruct (ok_ints n Hn (lit "pairwise_cipher")) as (_ & _ & Hm). by apply Hm.
  - intros n n' Hs. unfold wpa_config_write_pairwise. specialize (Hs _ ltac:(by left)). cbn [same_member] in Hs. by rewrite Hs.
  - intros n n2 t Hn Hn2 _ _. unfold wpa_config_write_pairwise. intros Hw Ht.
    destruct (ok_ints n Hn (lit "pairwise_cipher")) as (_ & _ & Hm). specialize (Hm _ eq_refl).
    set (v := get_int n (lit "pairwise_cipher")) in *.
    destruct (cipher_copy v t (ciphers_agree v Hm) Hw Ht) as (_ & Hp & Hnz).
    destruct (parse_cipher_total t) as (w & Hpw & Hneg). rewrite Hp in Hpw. injection Hpw as <-.
    assert (H0 : 0 ≤ v) by (rewrite <- Hm; by apply Z.land_nonneg; right).
    unfold wpa_config_parse_pairwise. rewrite Hp. ret_simpl. rewrite (proj2 (Z.eqb_neq v (-1))) by lia.
    rewrite (allowed_ldiff v WPA_ALLOWED_PAIRWISE_CIPHERS) by exact Hm. cbn [negb Z.eqb].
    destruct (get_int n2 (lit "pairwise_cipher") =? v) eqn:E; zbool.
    + exists 1, n2. split_and!; [done|done|]. by rewrite E.
    + eexists 0, _. split_and!; [done|done|]. by rewrite get_set_int.
Qed.

(** [GTK_NOT_USED] is not written. *)
Definition group_shown (n : net) : Prop := has (get_int n (lit "group_cipher")) WPA_CIPHER_GTK_NOT_USED = false.

Lemma ldiff_land a b m : Z.land a m = a → Z.land (Z.ldiff a b) m = Z.ldiff a b.
Proof.
  intros Ha. apply Z.bits_inj'. intros i Hi. rewrite Z.land_spec, Z.ldiff_spec. rewrite <- Ha, Z.land_spec.
  by destruct (Z.testbit a i), (Z.testbit m i), (Z.testbit b i).
Qed.

(** Without that bit, the set is one of the ciphers with a text. *)
Lemma group_plain v :
  Z.land v (union_of (BIT <$> group_bits)) = v → has v WPA_CIPHER_GTK_NOT_USED = false →
  Z.land v (union_of (BIT <$> cipher_bits)) = v ∧
  Z.ldiff v (Z.lor WPA_CIPHER_WEP104 WPA_CIPHER_WEP40) = v ∧ Z.ldiff v WPA_ALLOWED_GROUP_CIPHERS = 0.
Proof.
  intros Hv Hg. split_and!; [| |by apply allowed_ldiff].
  - unfold has in Hg. apply negb_false_iff in Hg. zbool.
    rewrite <- Hv at 2. rewrite <- Hv at 1. rewrite <- Z.land_assoc.
    replace (union_of (BIT <$> group_bits))
      with (Z.lor (Z.land (union_of (BIT <$> group_bits)) (union_of (BIT <$> cipher_bits))) WPA_CIPHER_GTK_NOT_USED)
      at 2 by reflexivity.
    rewrite Z.land_lor_distr_r, Hg. by rewrite Z.lor_0_r.
  - rewrite <- Hv at 1. apply Z.bits_inj'. intros i Hi. rewrite Z.ldiff_spec, Z.land_spec.
    rewrite <- Hv at 2. rewrite Z.land_spec.
    assert (Hd : Z.land (union_of (BIT <$> group_bits)) (Z.lor WPA_CIPHER_WEP104 WPA_CIPHER_WEP40) = 0) by reflexivity.
    apply (f_equal (λ x, Z.testbit x i)) in Hd. rewrite Z.land_spec, Z.bits_0 in Hd.
    by destruct (Z.testbit v i), (Z.testbit (union_of _) i), (Z.testbit (Z.lor _ _) i).
Qed.

#[export] Instance group_ok :
  VarOk (FUNC (lit "group") wpa_config_parse_group wpa_config_write_group) [MInt (lit "group_cipher")] group_shown.
Proof.
  split; cbn [parser writer FUNC].
  - intros n value Hn _. unfold wpa_config_parse_group.
    destruct (parse_cipher_total value) as (v & -> & Hv). ret_simpl.
    assert (Hno : ∀ r, ∃ r2 n', Ret (r, n) = Ret (r2, n') ∧ net_ok n' ∧
      only_changes [MInt (lit "group_cipher")] n n' ∧ (0 ≤ r2 → wep_fit n → wep_fit n'))
      by (intros r; apply parse_kept; [done|apply only_refl|no_wep]).
    case_if; [apply Hno|]. cbv zeta. destruct (Z.ldiff _ WPA_ALLOWED_GROUP_CIPHERS =? 0) eqn:Ea; cbn [negb]; [|apply Hno].
    zbool. case_if; [apply Hno|]. apply parse_kept; [|apply only_int; by left|no_wep].
    apply set_int_ok; [done| |done]. apply (cipher_int_ok _ group_bits); [done|done|done|by apply group_allowed].
  - intros n Hn _. unfold wpa_config_write_group.
    destruct (cipher_writes (get_int n (lit "group_cipher"))) as [t ->]; [|by eexists].
    right. destruct (ok_ints n Hn (lit "group_cipher")) as (_ & _ & Hm). by apply Hm.
  - intros n n' Hs. unfold wpa_config_write_group. specialize (Hs _ ltac:(by left)). cbn [same_member] in Hs. by rewrite Hs.
  - intros n n2 t Hn Hn2 _ Hsh. unfold wpa_config_write_group, group_shown in *. intros Hw Ht.
    destruct (ok_ints n Hn (lit "group_cipher")) as (_ & _ & Hm). specialize (Hm _ eq_refl).
    set (v := get_int n (lit "group_cipher")) in *. destruct (group_plain v Hm Hsh) as (Hc & Hd & Ha).
    destruct (cipher_copy v t (ciphers_agree v Hc) Hw Ht) as (_ & Hp & Hnz).
    assert (H0 : 0 ≤ v) by (rewrite <- Hm; by apply Z.land_nonneg; right).
    unfold wpa_config_parse_group. rewrite Hp. ret_simpl. rewrite (proj2 (Z.eqb_neq v (-1))) by lia.
    rewrite Hd, Ha. cbn [negb Z.eqb].
    destruct (get_int n2 (lit "group_cipher") =? v) eqn:E; zbool.
    + exists 1, n2. split_and!; [done|done|]. by rewrite E.
    + eexists 0, _. split_and!; [done|done|]. by rewrite get_set_int.
Qed.

(** *** Frequencies *)

(** Frequencies of more than nine digits are cut off. *)
Definition freqs_shown (f : str) (n : net) : Prop :=
  ∀ l, n_freqs n !! f = Some l → Forall (λ f, 0 < f < 1000000000) l.

Lemma freqs_ok f g :
  VarOk (FUNC g (parse_freqs f) (λ n, wpa_config_write_freqs (n_freqs n !! f))) [MFreqs f] (freqs_shown f).
Proof.
  split; cbn [parser writer FUNC].
  - intros n value Hn (_ & Hm & _). unfold parse_freqs, wpa_config_parse_int_array.
    destruct (int_array_total (S (length value)) value) as (l & -> & Hl & Hlen); [lia|]. ret_simpl.
    apply parse_kept; [|intros m Hm2; apply same_set_freqs; intros ->; apply Hm2; by left|no_wep].
    apply set_freqs_ok; [done|]. destruct l as [|x l]; [done|]. intros y [= <-]. split_and!; [done|done|].
    unfold strlen in Hm. lia.
  - intros n Hn _. destruct (n_freqs n !! f) as [l|] eqn:E; [|by eexists].
    destruct (ok_freqs n Hn f l E) as (_ & _ & Hm). destruct (write_freqs_total l Hm) as [t ->]. by eexists.
  - intros n n' Hs. specialize (Hs (MFreqs f) ltac:(by left)). cbn [same_member] in Hs. by rewrite Hs.
  - intros n n2 t Hn Hn2 _ Hsh Hw _. destruct (n_freqs n !! f) as [l|] eqn:E; [|done].
    destruct (ok_freqs n Hn f l E) as (_ & Hne & Hm). specialize (Hsh l E). destruct l as [|x l]; [done|].
    rewrite write_freqs_spec in Hw by done. injection Hw as <-. apply Forall_cons in Hsh as [Hx Hl].
    unfold parse_freqs, wpa_config_parse_int_array.
    pose proof (int_array_text l x (S (length (fmt_u x ++ freq_tail l))) [] Hl Hx ltac:(by left)) as Hp.
    destruct (freq_tail_ok l Hl) as [Hlen _]. rewrite length_app in Hp. unfold strlen in Hlen. specialize (Hp ltac:(lia)).
    rewrite length_app. cbn [app] in Hp. rewrite Hp. ret_simpl. eexists 0, _. split_and!; [done|done|].
    cbn. rewrite lookup_partial_alter_eq. apply write_freqs_spec; [by constructor|done].
Qed.

(** *** EAP methods *)

(** A step for each word: [P k a] leaves room for [k] more of them. *)
Lemma word_loop_count {A} (P : Z → A → Prop) fuel step s (a : A) :
  (∀ w a k, 0 ≤ k → P (k + 1) a → ∃ a', step w a = Ret a' ∧ P k a') →
  (∀ j k a, j ≤ k → P k a → P j a) → P (strlen s) a → (length s < fuel)%nat →
  ∃ a', word_loop fuel step s a = Ret a' ∧ P 0 a'.
Proof.
  intros Hstep Hmono. revert s a. induction fuel as [|fuel IH]; intros s a Ha Hf; [lia|]. cbn [word_loop].
  destruct (span_spec is_blank s) as (E & _ & _). remember (snd (span is_blank s)) as t.
  assert (Hl : (length t ≤ length s)%nat) by (rewrite E, length_app; lia). clear Heqt E.
  destruct t as [|c t]; [exists a; split; [done|]; eapply Hmono; [|exact Ha]; apply strlen_nonneg|].
  destruct (span_spec (λ c, negb (is_blank c)) (c :: t)) as (E & _ & _).
  destruct (span (λ c, negb (is_blank c)) (c :: t)) as [word rest]. cbn [fst snd] in E.
  apply (f_equal length) in E. rewrite length_app in E. simpl length in E, Hl.
  destruct (Hstep word a (strlen t)) as (a' & -> & Ha'); [apply strlen_nonneg| |].
  { eapply Hmono; [|exact Ha]. unfold strlen. lia. }
  ret_simpl. destruct rest as [|x rest]; [exists a'; split; [done|]; eapply Hmono; [|exact Ha']; apply strlen_nonneg|].
  simpl length in E. apply IH; [|lia]. eapply Hmono; [|exact Ha']. unfold strlen. lia.
Qed.

Definition eap_members : list member := [MMethods; MInt (lit "leap"); MInt (lit "non_leap")].

(** Nothing is said of the text: methods without a name are left out, and a
    list that has the methods of the new one is kept ([eap_list_kept]). *)
Definition never (n : net) : Prop := False.

Lemma find_name_short (l : list (str * Z * Z)) vendor type name :
  Forall (λ m : str * Z * Z, strlen m.1.1 < 1000) l → find_name l vendor type = Some name → strlen name < 1000.
Proof.
  induction 1 as [|[[m v] t] l Hm _ IH]; cbn [find_name]; [done|]. case_if; [by intros [= <-]|done].
Qed.

Section eap_var.
Context (eap_methods : list (str * Z * Z)).
Context (Hnames : Forall (λ m : str * Z * Z, strlen m.1.1 < 1000) eap_methods).

Lemma eap_name_short vendor type name : eap_get_name eap_methods vendor type = Some name → strlen name < 1000.
Proof.
  unfold eap_get_name. case_if; [intros [= <-]; by vm_compute|].
  by apply find_name_short.
Qed.

Lemma eap_text_total l b pos :
  buf_ok b → length b = 100%nat → 0 ≤ pos < 100 →
  ∃ b', eap_text_loop eap_methods b pos 100 l = Ret b' ∧ buf_ok b' ∧ length b' = 100%nat.
Proof.
  revert b pos. induction l as [|m l IH]; intros b pos Hb Hl Hp; cbn [eap_text_loop]; [by exists b|].
  destruct (eap_get_name eap_methods m.1 m.2) as [name|] eqn:En; [|by apply IH].
  apply eap_name_short in En. set (t := (if pos =? 0 then [] else [SP]) ++ name).
  assert (Ht : strlen t < 4294967296).
  { unfold t. rewrite strlen_app. destruct (pos =? 0); unfold strlen at 1; simpl; lia. }
  destruct (append_ok b pos t Hb) as (r & b1 & Hr & Hb1 & Hl1 & Hq); [lia|done|lia|].
  rewrite Hl in Hr, Hl1, Hq. change (Z.of_nat 100) with 100 in Hr, Hq. rewrite Hr. ret_simpl.
  destruct r as [q|]; [apply IH; [done|done|lia]|by exists b1].
Qed.

Definition eap_room (n : net) (k : Z) : Prop :=
  get_int n (lit "leap") + k ≤ INT_MAX ∧ get_int n (lit "non_leap") + k ≤ INT_MAX.

Lemma eap_word_ok n word n1 methods errors k :
  0 ≤ k → net_ok n1 → only_changes eap_members n n1 → eap_room n1 (k + 1) →
  ∃ n2 methods' errors', eap_word eap_methods word (n1, methods, errors) = Ret (n2, methods', errors') ∧
    net_ok n2 ∧ only_changes eap_members n n2 ∧ eap_room n2 k.
Proof.
  intros Hk Hn Ho [H1 H2]. unfold eap_word. cbv zeta.
  assert (Hroom : eap_room n1 k) by (unfold eap_room; lia).
  destruct (_ && _); [by eexists _, _, _|].
  assert (Hstep : ∀ f, f = lit "leap" ∨ f = lit "non_leap" → ∃ n2 methods' errors',
    (v ← int_chk (get_int n1 f + 1); Ret (set_int n1 f v, methods ++ [eap_peer_get_type eap_methods word], errors))
    = Ret (n2, methods', errors') ∧ net_ok n2 ∧ only_changes eap_members n n2 ∧ eap_room n2 k).
  { intros f Hf. destruct (ok_ints n1 Hn f) as [Hr _].
    assert (Hmax : get_int n1 f + 1 ≤ INT_MAX) by (destruct Hf as [->| ->]; lia).
    assert (Hc : int_chk (get_int n1 f + 1) = Ret (get_int n1 f + 1)).
    { apply int_chk_Ret. split; [done|lia]. }
    rewrite Hc. ret_simpl. eexists _, _, _. split; [done|]. split_and!.
    - apply set_int_ok; [done| |by destruct Hf as [->| ->]].
      apply free_int; [by destruct Hf as [->| ->]|by destruct Hf as [->| ->]|lia].
    - eapply only_trans; [exact Ho|]. apply only_int. destruct Hf as [->| ->]; small_member.
    - destruct Hf as [->| ->]; unfold eap_room; rewrite get_set_int, get_set_int_ne by done; lia. }
  apply Hstep. case_if; [by left|by right].
Qed.

#[export] Instance eap_ok : VarOk (FUNC (lit "eap") (wpa_config_parse_eap eap_methods) (wpa_config_write_eap eap_methods))
  eap_members never.
Proof.
  split; cbn [parser writer FUNC].
  - intros n value Hn (_ & _ & Hl1 & Hl2). unfold wpa_config_parse_eap.
    destruct (word_loop_count (λ k (a : net * list (Z * Z) * Z), net_ok a.1.1 ∧ only_changes eap_members n a.1.1 ∧ eap_room a.1.1 k)
      (S (length value)) (eap_word eap_methods) value (n, [], 0)) as ([[n1 methods] errors] & -> & H1 & H2 & _); cbn [fst snd].
    + intros w [[n1 ms] er] k Hk (Hn1 & Ho & Hr). cbn [fst snd] in *.
      destruct (eap_word_ok n w n1 ms er k Hk Hn1 Ho Hr) as (n2 & ms2 & er2 & H & ?). exists (n2, ms2, er2). done.
    + intros j k [[n1 ms] er] Hjk (? & ? & Hr). split_and!; [done|done|]. unfold eap_room in *. lia.
    + split_and!; [done|apply only_refl|done].
    + lia.
    + ret_simpl. cbn [fst snd] in *.
      match goal with |- context [if ?b then Ret (1, n1) else _] => destruct b end.
      * by apply parse_kept; [| |no_wep].
      * apply parse_kept; [by apply set_methods_ok| |no_wep]. eapply only_trans; [exact H2|].
        intros m Hm. apply same_set_methods. intros ->. apply Hm. small_member.
  - intros n Hn _. unfold wpa_config_write_eap. destruct (n_methods n) as [l|]; [|by eexists].
    destruct (eap_text_total (until_none l) (zeros 100) 0) as (b & -> & Hb & Hl); [by apply zeros_ok|done|done|].
    ret_simpl. destruct (buf_set_defined b 99 0) as [b2 H2]; [lia|]. rewrite H2. ret_simpl.
    destruct (buf_ok_str b2) as [s ->]; [by eapply buf_write_ok; [exact Hb|exact H2|left]|]. ret_simpl. by eexists.
  - intros n n' Hs. unfold wpa_config_write_eap. specialize (Hs MMethods ltac:(small_member)).
    cbn [same_member] in Hs. by rewrite Hs.
  - intros n n2 t _ _ _ [].
Qed.
End eap_var.

(** *** Password *)

Definition password_members : list member := [MStr (lit "password"); MInt (lit "flags")].
Definition flag_bits : Z := union_of (BIT <$> [0; 1]).

Lemma password_set_ok n v fl :
  net_ok n → Z.land fl flag_bits = fl → (∀ p, v = Some p → byte_list p) →
  (has fl NTHASH = true → ∀ p, v = Some p → length p = 16%nat) →
  net_ok (set_int (set_str n (lit "password") v) (lit "flags") fl).
Proof.
  intros [] Hfl Hv Hh. split; try done.
  - intros g. destruct (decide (lit "flags" = g)) as [<-|Hne].
    + rewrite get_set_int. by apply (flag_int_ok (lit "flags") [0; 1]).
    + rewrite get_set_int_ne by done. apply ok_ints0.
  - intros g s. change (get_str (set_int ?x _ _) g) with (get_str x g). destruct (decide (lit "password" = g)) as [<-|Hne].
    + rewrite get_str_set. intros Hs. by split; [apply Hv|].
    + rewrite get_str_set_ne by done. apply ok_strs0.
  - rewrite get_set_int. intros H p. change (get_str (set_int ?x _ _) ?g) with (get_str x g). rewrite get_str_set.
    by apply Hh.
Qed.

Lemma flags_land n : net_ok n → Z.land (get_int n (lit "flags")) flag_bits = get_int n (lit "flags").
Proof. intros Hn. destruct (ok_ints n Hn (lit "flags")) as (_ & _ & Hm). by apply Hm. Qed.

(** The two updates of the flags as one. *)
Lemma clear_flags n : and_not (and_not n NTHASH) EXT_PASSWORD =
  set_int (set_int n (lit "flags") (Z.ldiff (get_int n (lit "flags")) NTHASH)) (lit "flags")
    (Z.ldiff (Z.ldiff (get_int n (lit "flags")) NTHASH) EXT_PASSWORD).
Proof. unfold and_not. by rewrite get_set_int. Qed.

Lemma set_int_twice n f v w : set_int (set_int n f v) f w = set_int n f w.
Proof. unfold set_int. cbn. by rewrite insert_insert_eq. Qed.

Lemma cleared_flags n : and_not (and_not n NTHASH) EXT_PASSWORD =
  set_int n (lit "flags") (Z.ldiff (Z.ldiff (get_int n (lit "flags")) NTHASH) EXT_PASSWORD).
Proof. by rewrite clear_flags, set_int_twice. Qed.

Lemma hashed_flags n : and_not (or_flag n NTHASH) EXT_PASSWORD =
  set_int n (lit "flags") (Z.ldiff (Z.lor (get_int n (lit "flags")) NTHASH) EXT_PASSWORD).
Proof. unfold and_not, or_flag. by rewrite get_set_int, set_int_twice. Qed.

Lemma cleared_no_hash fl : has (Z.ldiff (Z.ldiff fl NTHASH) EXT_PASSWORD) NTHASH = false.
Proof.
  unfold has. apply negb_false_iff, Z.eqb_eq. apply Z.bits_inj'. intros i Hi.
  rewrite Z.land_spec, !Z.ldiff_spec, Z.bits_0. by destruct (Z.testbit fl i), (Z.testbit NTHASH i), (Z.testbit EXT_PASSWORD i).
Qed.

Lemma hashed_has_hash fl : has (Z.ldiff (Z.lor fl NTHASH) EXT_PASSWORD) NTHASH = true.
Proof.
  unfold has. apply negb_true_iff, Z.eqb_neq. intros H. apply (f_equal (λ x, Z.testbit x 0)) in H.
  rewrite Z.land_spec, Z.ldiff_spec, Z.lor_spec in H. change (Z.testbit NTHASH 0) with true in H.
  change (Z.testbit EXT_PASSWORD 0) with false in H. by rewrite orb_true_r in H.
Qed.

Lemma write_password_plain n p t :
  get_str n (lit "password") = Some p → has (get_int n (lit "flags")) NTHASH = false →
  wpa_config_write_string p = Ret t → wpa_config_write_password n = Ret (Some t).
Proof. intros H1 H2 H3. unfold wpa_config_write_password. rewrite H1, H2. cbn [negb]. by rewrite H3. Qed.

Lemma write_password_hash n p :
  get_str n (lit "password") = Some p → has (get_int n (lit "flags")) NTHASH = true →
  length p = 16%nat → byte_list p → wpa_config_write_password n = Ret (Some (lit "hash:" ++ hex_text p)).
Proof.
  intros H1 H2 Hl Hp. unfold wpa_config_write_password. rewrite H1, H2. cbn [negb].
  pose proof (built_bytes (cells p) [] p []) as Hblk. rewrite app_nil_r, Hl in Hblk. cbn [app] in Hblk.
  change (strlen []) with 0 in Hblk. rewrite Hblk by (unfold built; by rewrite take_ge by (unfold cells; by rewrite length_fmap)).
  ret_simpl. change (buf_write (uninit 38) 0 (lit "hash:")) with (Ret (cells (lit "hash:") ++ uninit 33)). ret_simpl.
  change (drop 5 (cells (lit "hash:") ++ uninit 33)) with (uninit 33).
  change (take 5 (cells (lit "hash:") ++ uninit 33)) with (cells (lit "hash:")).
  destruct (snprintf_hex_spec (uninit 33) 33 p Hp) as (h & -> & Hh & Hlen); [unfold strlen; lia|done|]. ret_simpl.
  assert (Hlh : length h = 33%nat) by by rewrite Hlen.
  assert (Hx : length (hex_text p) = 32%nat) by (rewrite hex_text_length by done; lia).
  assert (E : h = cells (hex_text p ++ [0])).
  { rewrite <- Hh. rewrite take_ge; [done|]. rewrite length_app, Hx. simpl. lia. }
  rewrite (built_str _ (lit "hash:" ++ hex_text p)); [done| |].
  - unfold built. rewrite E. unfold cells. rewrite <- fmap_app, <- app_assoc. rewrite take_ge; [done|]. by rewrite length_fmap.
  - apply cstring_app. split; [by apply (bool_decide_unpack _)|by apply hex_text_cstring].
Qed.

#[export] Instance password_ok :
  VarOk (FUNC_KEY (lit "password") wpa_config_parse_password wpa_config_write_password) password_members always.
Proof.
  split; cbn [parser writer FUNC_KEY].
  - intros n value Hn (Hv & _).
    assert (Hno : ∀ r, ∃ r2 n', Ret (r, n) = Ret (r2, n') ∧ net_ok n' ∧ only_changes password_members n n' ∧
      (0 ≤ r2 → wep_fit n → wep_fit n')) by (intros r; apply parse_kept; [done|apply only_refl|no_wep]).
    assert (Hset : ∀ v fl, only_changes password_members n (set_int (set_str n (lit "password") v) (lit "flags") fl))
      by (intros v fl; eapply only_trans; [apply only_str|apply only_int]; small_member).
    pose proof (flags_land n Hn) as Hfl.
    unfold wpa_config_parse_password. destruct (str_eqb value _).
    { destruct (get_str n (lit "password")); [|apply Hno].
      apply parse_kept; [|apply only_str; small_member|no_wep].
      destruct Hn. split; try done.
      - intros g s. destruct (decide (lit "password" = g)) as [<-|Hne]; [by rewrite get_str_set|].
        rewrite get_str_set_ne by done. apply ok_strs0.
      - intros _ p. by rewrite get_str_set. }
    destruct (str_starts value _); cbn [negb].
    + destruct (strlen (drop 5 value) =? 2 * 16); cbn [negb]; [|apply Hno].
      pose proof (hexstr2bin_bytes 16 (drop 5 value)) as (Hb & Hl & _).
      destruct (hexstr2bin (drop 5 value) 16) as [hash r]. cbn [fst snd] in *.
      destruct (r =? 0) eqn:Er; cbn [negb]; [|apply Hno]. zbool. specialize (Hl Er). case_if; [apply Hno|].
      rewrite hashed_flags. change (get_int (set_str n _ _) ?f) with (get_int n f).
      apply parse_kept; [|apply Hset|no_wep]. apply password_set_ok; [done| |by intros p [= <-]|by intros _ p [= <-]].
      apply ldiff_land, lor_land; [done|reflexivity].
    + destruct (parse_bytes_total value Hv) as (r & -> & Hr). ret_simpl. destruct r as [s|]; [|apply Hno].
      rewrite cleared_flags. change (get_int (set_str n _ _) ?f) with (get_int n f).
      apply parse_kept; [|apply Hset|no_wep]. apply password_set_ok; [done| |by intros p [= <-]; apply Hr|].
      * by apply ldiff_land, ldiff_land.
      * by rewrite cleared_no_hash.
  - intros n Hn _. destruct (get_str n (lit "password")) as [p|] eqn:Ep.
    2: { unfold wpa_config_write_password. rewrite Ep. by eexists. }
    destruct (ok_strs n Hn _ p Ep) as [Hb _]. destruct (has (get_int n (lit "flags")) NTHASH) eqn:Ef.
    + rewrite (write_password_hash n p) by (done || by apply (ok_hash n)). by eexists.
    + destruct (write_string_spec p Hb) as (t & Ht & _). rewrite (write_password_plain n p t) by done. by eexists.
  - intros n n' Hs. unfold wpa_config_write_password.
    assert (H1 : same_member n n' (MStr (lit "password"))) by (apply Hs; small_member).
    assert (H2 : same_member n n' (MInt (lit "flags"))) by (apply Hs; small_member).
    cbn [same_member] in H1, H2. by rewrite H1, H2.
  - intros n n2 t Hn Hn2 _ _ Hw _. destruct (get_str n (lit "password")) as [p|] eqn:Ep.
    2: { unfold wpa_config_write_password in Hw. by rewrite Ep in Hw. }
    destruct (ok_strs n Hn _ p Ep) as [Hb _]. destruct (has (get_int n (lit "flags")) NTHASH) eqn:Ef.
    + assert (Hl : length p = 16%nat) by by apply (ok_hash n).
      rewrite (write_password_hash n p) in Hw by done.
      assert (t = lit "hash:" ++ hex_text p) as -> by congruence.
      unfold wpa_config_parse_password.
      assert (str_eqb (lit "hash:" ++ hex_text p) (lit "NULL") = false) as -> by (by apply bool_decide_eq_false_2).
      change (str_starts (lit "hash:" ++ hex_text p) (lit "hash:")) with true. cbn [negb].
      change (drop 5 (lit "hash:" ++ hex_text p)) with (hex_text p).
      assert (Hx : strlen (hex_text p) = 2 * 16) by (unfold strlen; rewrite hex_text_length by done; lia).
      rewrite Hx. change (2 * 16 =? 2 * 16) with true. cbn [negb].
      pose proof (hexstr2bin_text p [] Hb) as Hh. rewrite app_nil_r, Hl in Hh. rewrite Hh.
      change (negb (0 =? 0)) with false. cbv iota.
      destruct (bool_decide _ && _) eqn:Es.
      * apply andb_true_iff in Es as [Es1 Es2]. apply bool_decide_eq_true in Es1. exists 1, n2.
        split_and!; [done|done|]. by apply write_password_hash.
      * eexists 0, _. split_and!; [done|done|]. rewrite hashed_flags.
        apply write_password_hash; [apply get_str_set| |done|done]. rewrite get_set_int. apply hashed_has_hash.
    + destruct (write_string_spec p Hb) as (t' & Ht & (Hc & Hparse & Hne & Hnull & Hhash)).
      rewrite (write_password_plain n p t') in Hw by done. injection Hw as <-.
      unfold wpa_config_parse_password.
      assert (str_eqb t' (lit "NULL") = false) as -> by (by apply bool_decide_eq_false_2).
      rewrite Hhash, Hparse. cbn [negb]. ret_simpl. eexists 0, _. split_and!; [done|done|].
      rewrite cleared_flags. apply (write_password_plain _ p); [apply get_str_set| |done].
      rewrite get_set_int. apply cleared_no_hash.
Qed.

(** *** WEP keys *)

Section wep.
Context (g : str) (i : nat) (Hi : (i < 4)%nat).

Lemma wep_key_there n : net_ok n → ∃ k l, n_wep_key n !! i = Some k ∧ n_wep_key_len n !! i = Some l ∧
  length k = 16%nat ∧ byte_list k ∧ 0 ≤ l.
Proof.
  intros Hn. destruct (ok_wep_keys n Hn) as [Hk Hkeys]. destruct (ok_wep_lens n Hn) as [Hl Hlens].
  destruct (lookup_lt_is_Some_2 (n_wep_key n) i) as [k Ek]; [lia|].
  destruct (lookup_lt_is_Some_2 (n_wep_key_len n) i) as [l El]; [lia|].
  rewrite Forall_lookup in Hkeys.
  rewrite Forall_lookup in Hlens. destruct (Hkeys i k Ek). exists k, l. split_and!; try done. by apply (Hlens i l).
Qed.

Lemma wep_only n keys lens :
  (∀ j, j ≠ i → n_wep_key n !! j = keys !! j ∧ n_wep_key_len n !! j = lens !! j) →
  only_changes [MWep i] n (set_wep n keys lens).
Proof.
  intros H m Hm. destruct m as [| | | | | | |j]; try exact eq_refl. cbn. apply H.
  intros ->. apply Hm. by left.
Qed.

Lemma write_wep_spec n k l :
  n_wep_key n !! i = Some k → n_wep_key_len n !! i = Some l → length k = 16%nat → byte_list k → 0 < l ≤ MAX_WEP_KEY_LEN →
  wpa_config_write_wep_key i n = (t ← wpa_config_write_string (take (Z.to_nat l) k); Ret (Some t)).
Proof.
  intros Hk Hl H16 Hb Hr. unfold wpa_config_write_wep_key. rewrite Hk, Hl. ret_simpl.
  rewrite (proj2 (Z.eqb_neq l 0)) by lia. unfold MAX_WEP_KEY_LEN in Hr.
  pose proof (built_bytes (cells k) [] (take (Z.to_nat l) k) (drop (Z.to_nat l) k)) as Hblk.
  cbn [app] in Hblk. rewrite take_drop in Hblk. rewrite length_take, Nat.min_l in Hblk by lia.
  change (strlen []) with 0 in Hblk. rewrite Hblk; [done|].
  unfold built. rewrite take_ge; [done|]. unfold cells. by rewrite length_fmap.
Qed.

#[export] Instance wep_ok : VarOk (FUNC_wep g i) [MWep i] always.
Proof.
  split; cbn [parser writer FUNC_KEY FUNC_wep].
  - intros n value Hn (Hv & _). destruct (wep_key_there n Hn) as (k & l & Hk & Hl & H16 & Hb & H0).
    unfold wpa_config_parse_wep_key. destruct (parse_bytes_total value Hv) as (r & -> & Hr). ret_simpl.
    destruct r as [s|]; [|exists (-1), n; split_and!; [done|done|apply only_refl|done]].
    destruct Hr as [Hsb _]. pose proof (strlen_nonneg s) as Hs0.
    assert (Hlens : length (<[i := strlen s]> (n_wep_key_len n)) = 4%nat ∧
      Forall (λ l, 0 ≤ l) (<[i := strlen s]> (n_wep_key_len n))).
    { destruct (ok_wep_lens n Hn) as [H4 Hf]. rewrite length_insert. split; [done|]. by apply Forall_insert. }
    destruct (MAX_WEP_KEY_LEN <? strlen s) eqn:E; zbool.
    + eexists (-1), _. split_and!; [done| | |done].
      * destruct Hn. split; try done.
      * apply wep_only. intros j Hj. split; [done|]. by rewrite list_lookup_insert_ne.
    + rewrite Hk. ret_simpl. eexists 0, _. split_and!; [done| | |].
      * destruct (ok_wep_keys n Hn) as [H4 Hf].
        assert (Hkeys : length (<[i := s ++ drop (length s) k]> (n_wep_key n)) = 4%nat ∧
          Forall (λ k, length k = 16%nat ∧ byte_list k) (<[i := s ++ drop (length s) k]> (n_wep_key n))).
        { rewrite length_insert. split; [done|]. apply Forall_insert; [done|].
          apply overwrite_bytes; [done|done|done|]. unfold MAX_WEP_KEY_LEN, strlen in E. lia. }
        destruct Hn. split; try done.
      * apply wep_only. intros j Hj. by rewrite !list_lookup_insert_ne.
      * intros _ Hfit. unfold wep_fit in *. by apply Forall_insert.
  - intros n Hn Hfit. destruct (wep_key_there n Hn) as (k & l & Hk & Hl & H16 & Hb & H0).
    assert (Hle : l ≤ MAX_WEP_KEY_LEN) by (unfold wep_fit in Hfit; rewrite Forall_lookup in Hfit; by apply (Hfit i)).
    destruct (decide (l = 0)) as [->|Hne].
    { unfold wpa_config_write_wep_key. rewrite Hk, Hl. by eexists. }
    rewrite (write_wep_spec n k l) by (done || lia).
    destruct (write_string_spec (take (Z.to_nat l) k)) as (t & -> & _); [by apply Forall_take|]. by eexists.
  - intros n n' Hs. unfold wpa_config_write_wep_key. destruct (Hs (MWep i) ltac:(by left)) as [H1 H2]. by rewrite H1, H2.
  - intros n n2 t Hn Hn2 Hfit _ Hw _. destruct (wep_key_there n Hn) as (k & l & Hk & Hl & H16 & Hb & H0).
    assert (Hle : l ≤ MAX_WEP_KEY_LEN) by (unfold wep_fit in Hfit; rewrite Forall_lookup in Hfit; by apply (Hfit i)).
    destruct (decide (l = 0)) as [->|Hne].
    { unfold wpa_config_write_wep_key in Hw. by rewrite Hk, Hl in Hw. }
    rewrite (write_wep_spec n k l) in Hw by (done || lia). set (s := take (Z.to_nat l) k) in *.
    assert (Hsb : byte_list s) by by apply Forall_take.
    destruct (write_string_spec s Hsb) as (t' & Ht & (Hc & Hparse & _)). rewrite Ht in Hw. injection Hw as <-.
    unfold MAX_WEP_KEY_LEN in Hle.
    assert (Hsl : strlen s = l) by (unfold s, strlen; rewrite length_take; lia).
    destruct (wep_key_there n2 Hn2) as (k2 & l2 & Hk2 & Hl2 & H162 & Hb2 & H02).
    unfold wpa_config_parse_wep_key. rewrite Hparse. ret_simpl. rewrite Hsl.
    rewrite (proj2 (Z.ltb_ge _ _)) by done. rewrite Hk2. ret_simpl. eexists 0, _. split_and!; [done|done|].
    destruct (overwrite_bytes s k2 16 H162 Hb2 Hsb) as [Hv6 Hvb]; [unfold strlen in Hsl; lia|].
    rewrite (write_wep_spec _ (s ++ drop (length s) k2) l).
    + rewrite take_app_le by (unfold strlen in Hsl; lia). rewrite take_ge by (unfold strlen in Hsl; lia). by rewrite Ht.
    + cbn. apply list_lookup_insert_eq. by eapply lookup_lt_Some.
    + cbn. apply list_lookup_insert_eq. by eapply lookup_lt_Some.
    + done.
    + done.
    + unfold MAX_WEP_KEY_LEN. lia.
Qed.
End wep.
