(* ===== verification/ConfigSsidSpec.v ===== *)
(** * The variables of a network block: theorems

    The table of variables as a whole: setting a variable never goes wrong and
    changes nothing else; a text that a block shows can be set in another
    block; what is shown without keys does not depend on the keys; and the
    cases where the parsers do not do what their messages say. *)

From stdpp Require Import gmap.
From S2P Require Import Prelude CString Scan Smartlist CliUtil Common CommonLists CommonText Printable Printing.
From S2P Require Import WpaIe WpaCommon WpaSpec WpaText ConfigSsid ConfigText ConfigVars.

(** ** The members of a variable *)

Definition special_members : list (str * list member) :=
  [(lit "bssid", bssid_members); (lit "bssid_blacklist", [MAddrs (lit "bssid_blacklist")]);
   (lit "bssid_whitelist", [MAddrs (lit "bssid_whitelist")]); (lit "psk", psk_members);
   (lit "pairwise", [MInt (lit "pairwise_cipher")]); (lit "group", [MInt (lit "group_cipher")]);
   (lit "proto", [MInt (lit "proto")]); (lit "key_mgmt", [MInt (lit "key_mgmt")]);
   (lit "auth_alg", [MInt (lit "auth_alg")]);
   (lit "scan_freq", [MFreqs (lit "scan_freq")]); (lit "freq_list", [MFreqs (lit "freq_list")]);
   (lit "eap", eap_members); (lit "password", password_members);
   (lit "wep_key0", [MWep 0]); (lit "wep_key1", [MWep 1]); (lit "wep_key2", [MWep 2]); (lit "wep_key3", [MWep 3])].

Definition members_of (var : str) : list member := default [MInt var; MStr var] (named special_members var).

(** When the text of a variable says all of its value. *)
Definition partly_shown : list (str * (net → Prop)) :=
  [(lit "group", group_shown); (lit "scan_freq", freqs_shown (lit "scan_freq"));
   (lit "freq_list", freqs_shown (lit "freq_list")); (lit "eap", never)].

Definition var_shown (var : str) : net → Prop := default always (named partly_shown var).

Section table.
Context (eap_methods : list (str * Z * Z)).
Context (Hnames : Forall (λ m : str * Z * Z, strlen m.1.1 < 1000) eap_methods).

(** Every row of the table keeps its promises. *)
Ltac row := lazymatch goal with
  | |- VarOk (STR_of ?f ?l 0 _ ?k) ?ms _ => apply (STR_ok f l k ms); [small_member|no_wep|done|done]
  | |- VarOk (STR ?f) ?ms _ => apply (STR_ok f false false ms); [small_member|no_wep|done|done]
  | |- VarOk (STR_KEY ?f) ?ms _ => apply (STR_ok f false true ms); [small_member|no_wep|done|done]
  | |- VarOk (STR_LEN ?f) ?ms _ => apply (STR_ok f true false ms); [small_member|no_wep|done|done]
  | |- VarOk (STR_RANGE ?f 0 _) ?ms _ => apply (STR_ok f true false ms); [small_member|no_wep|done|done]
  | |- VarOk (INT ?f) ?ms _ => apply (INT_ok f ms); [small_member|no_wep|reflexivity]
  | |- VarOk (INT_RANGE ?f 0 _) ?ms _ => apply (INT_ok f ms); [small_member|no_wep|reflexivity]
  | |- VarOk (FUNC_addrs ?f) _ _ => apply (addrs_ok f)
  | |- VarOk (FUNC_wep ?f ?i) _ _ => apply (wep_ok f i); lia
  end.

Lemma fields_ok :
  Forall (λ f, VarOk f (members_of (f_name f)) (var_shown (f_name f))) (ssid_fields eap_methods).
Proof.
  unfold ssid_fields. cbn [app fmap list_fmap].
  repeat (apply Forall_cons; split; [try row|]); [..|by apply Forall_nil].
  - exact bssid_ok.
  - exact psk_ok.
  - apply (flags_ok _ proto_bits); try done; [by apply (bool_decide_unpack _)|apply proto_agree].
  - apply (flags_ok _ key_mgmt_bits); try done; [by apply (bool_decide_unpack _)|apply key_mgmt_agree].
  - exact pairwise_ok.
  - exact group_ok.
  - apply (flags_ok _ auth_alg_bits); try done; [by apply (bool_decide_unpack _)|apply auth_alg_agree].
  - apply freqs_ok.
  - apply freqs_ok.
  - by apply eap_ok.
  - exact password_ok.
Qed.

Lemma find_field_Some l var f : find_field l var = Some f → f ∈ l ∧ f_name f = var.
Proof.
  induction l as [|g l IH]; cbn [find_field]; [done|]. destruct (str_eqb var (f_name g)) eqn:E.
  - intros [= <-]. unfold str_eqb in E. apply bool_decide_eq_true in E. by split; [left|].
  - intros H. destruct (IH H). by split; [right|].
Qed.

(** The promises of the variable that is found. *)
Lemma field_ok var f :
  find_field (ssid_fields eap_methods) var = Some f → f_name f = var ∧ VarOk f (members_of var) (var_shown var).
Proof.
  intros [Hin <-]%find_field_Some. split; [done|]. pose proof fields_ok as H. rewrite Forall_forall in H. by apply H.
Qed.

(** ** Different variables have different members *)

Definition var_names : list str := f_name <$> ssid_fields eap_methods.

Definition disjoint_members (u v : str) : bool :=
  str_eqb u v || forallb (λ m, bool_decide (m ∉ members_of v)) (members_of u).

Lemma members_disjoint u v m :
  u ∈ var_names → v ∈ var_names → u ≠ v → m ∈ members_of u → m ∉ members_of v.
Proof.
  intros Hu Hv Hn Hm.
  assert (Hall : forallb (λ u, forallb (disjoint_members u) var_names) var_names = true) by by vm_compute.
  rewrite forallb_forall in Hall. specialize (Hall u (proj1 (list_elem_of_In _ _) Hu)).
  rewrite forallb_forall in Hall. specialize (Hall v (proj1 (list_elem_of_In _ _) Hv)).
  unfold disjoint_members in Hall. apply orb_true_iff in Hall as [E|Hall].
  - unfold str_eqb in E. by apply bool_decide_eq_true in E.
  - rewrite forallb_forall in Hall. specialize (Hall m (proj1 (list_elem_of_In _ _) Hm)).
    by apply bool_decide_eq_true in Hall.
Qed.

Lemma found_name var f : find_field (ssid_fields eap_methods) var = Some f → var ∈ var_names.
Proof. intros [Hin <-]%find_field_Some. apply list_elem_of_fmap. eauto. Qed.

(** What another variable shows stays. *)
Lemma other_writer u v f n n' :
  u ≠ v → v ∈ var_names → find_field (ssid_fields eap_methods) u = Some f →
  only_changes (members_of v) n n' → writer f n = writer f n'.
Proof.
  intros Hne Hv Hf Ho. destruct (field_ok u f Hf) as [_ Hok]. apply (var_frame (VarOk := Hok)).
  intros m Hm. apply Ho. by apply (members_disjoint u v); [eapply found_name| | |].
Qed.

Lemma set_parse n var value : net_ok n → value_ok n value →
  ∃ r n', wpa_config_set eap_methods n var value = Ret (r, n') ∧ net_ok n' ∧
    (0 ≤ r → wep_fit n → wep_fit n') ∧ only_changes (members_of var) n n' ∧ (n' = n ∨ var ∈ var_names).
Proof.
  intros Hn Hv. unfold wpa_config_set. destruct (find_field _ var) as [f|] eqn:Ef.
  2: { exists (-1), n. split_and!; [done|done|done|apply only_refl|by left]. }
  destruct (field_ok var f Ef) as [Hname Hok].
  destruct (var_parse n value Hn Hv) as (r & n' & -> & H1 & H2 & H3). ret_simpl.
  eexists _, n'. split; [done|]. split_and!; [done| |done|right; by eapply found_name].
  case_if; zbool; [lia|]. by apply H3.
Qed.

Lemma set_ok n var value : net_ok n → value_ok n value →
  ∃ r n', wpa_config_set eap_methods n var value = Ret (r, n') ∧ net_ok n' ∧
    (0 ≤ r → wep_fit n → wep_fit n') ∧
    ∀ u f, u ≠ var → find_field (ssid_fields eap_methods) u = Some f → writer f n = writer f n'.
Proof.
  intros Hn Hv. destruct (set_parse n var value Hn Hv) as (r & n' & H1 & H2 & H3 & H4 & H5).
  exists r, n'. split_and!; [done|done|done|]. intros u f Hne Hf. destruct H5 as [->|H5]; [done|].
  by eapply other_writer.
Qed.

(** A member of another variable stays. *)
Lemma set_other_member n var value r n' u m :
  net_ok n → value_ok n value → wpa_config_set eap_methods n var value = Ret (r, n') →
  u ∈ var_names → u ≠ var → m ∈ members_of u → same_member n n' m.
Proof.
  intros Hn Hv Hset Hu Hne Hm. destruct (set_parse n var value Hn Hv) as (r2 & n2 & H1 & _ & _ & Ho & Hor).
  rewrite Hset in H1. injection H1 as <- <-. destruct Hor as [->|Hin]; [apply same_refl|].
  apply Ho. by apply (members_disjoint u var).
Qed.
End table.

(** ** Theorems *)

(** Names of EAP methods are short. *)
Definition short_names (eap_methods : list (str * Z * Z)) : Prop :=
  Forall (λ m : str * Z * Z, strlen m.1.1 < 1000) eap_methods.

(** C24: Setting a variable of a well-formed network block never goes wrong,
    whatever the name and the value, a string of sensible length ([value_ok]):
    the block stays well formed (integers not above the table's maxima - the
    minima are not part of it, as a minimum of 0 is not checked:
    [minimum_unchecked] -, sets of known names, a passphrase of 8 to 63
    characters, an SSID of at most 32 bytes, 16 bytes of a password hash), no
    other variable shows another value than before, and unless the call fails
    the lengths of the WEP keys still fit. *)
Theorem config_set_safe eap_methods n var value :
  short_names eap_methods → net_ok n → value_ok n value →
  ∃ r n', wpa_config_set eap_methods n var value = Ret (r, n') ∧ net_ok n' ∧
    (0 ≤ r → wep_fit n → wep_fit n') ∧
    ∀ u, u ≠ var → wpa_config_get eap_methods n' u = wpa_config_get eap_methods n u ∧
      wpa_config_get_no_key eap_methods n' u = wpa_config_get_no_key eap_methods n u.
Proof.
  intros Hs Hn Hv. destruct (set_ok eap_methods Hs n var value Hn Hv) as (r & n' & H1 & H2 & H3 & H4).
  exists r, n'. split_and!; [done|done|done|]. intros u Hne. unfold wpa_config_get, wpa_config_get_no_key.
  destruct (find_field _ u) as [f|] eqn:Ef; [|done]. by rewrite (H4 u f Hne Ef).
Qed.

(** A block as [wpa_supplicant_add_network] makes it. *)
Definition new_net : net := wpa_config_set_network_defaults zalloc_net.

Definition some_methods : list (str * Z * Z) := [(lit "PEAP", 0, 25); (lit "TLS", 0, 13); (lit "LEAP", 0, 17)].

Definition net_okb (n : net) : bool :=
  forallb (λ e : str * Z, bool_decide (INT_MIN ≤ e.2 ≤ INT_MAX) &&
             match named int_ranges e.1 with Some mx => e.2 <=? mx | None => true end &&
             match named flag_masks e.1 with Some m => Z.land e.2 m =? e.2 | None => true end)
    (map_to_list (n_ints n)) &&
  bool_decide (n_strs n = ∅) && bool_decide (n_addrs n = ∅) && bool_decide (n_freqs n = ∅) &&
  bool_decide (length (n_bssid n) = 6%nat ∧ byte_list (n_bssid n)) &&
  bool_decide (length (n_psk n) = 32%nat ∧ byte_list (n_psk n)) &&
  bool_decide (length (n_wep_key n) = 4%nat ∧ Forall (λ k, length k = 16%nat ∧ byte_list k) (n_wep_key n)) &&
  bool_decide (length (n_wep_key_len n) = 4%nat ∧ Forall (λ l, 0 ≤ l) (n_wep_key_len n)).

Lemma net_okb_ok n : net_okb n = true → net_ok n.
Proof.
  unfold net_okb. rewrite !andb_true_iff, !bool_decide_eq_true, forallb_forall.
  intros (((((((Hi & Hs) & Ha) & Hf) & Hb) & Hp) & Hk) & Hl). split; try done.
  - intros f. unfold get_int. destruct (n_ints n !! f) as [v|] eqn:E; cbn [default from_option id].
    + specialize (Hi (f, v)). rewrite !andb_true_iff, bool_decide_eq_true in Hi. cbn [fst snd] in Hi.
      destruct Hi as [[H1 H2] H3]; [by apply list_elem_of_In, elem_of_map_to_list|].
      split; [done|]. split; intros x Hx; rewrite Hx in *; zbool; done.
    + split; [by apply (bool_decide_unpack _)|]. split; [|done]. intros mx Hmx.
      pose proof (limit_range f mx Hmx). lia.
  - intros f s. unfold get_str. rewrite Hs. by rewrite lookup_empty.
  - intros f l. rewrite Ha. by rewrite lookup_empty.
  - intros f l. rewrite Hf. by rewrite lookup_empty.
  - intros _ p. unfold get_str. rewrite Hs. by rewrite lookup_empty.
Qed.

Lemma new_net_ok : net_ok new_net.
Proof. apply net_okb_ok. by vm_compute. Qed.

Lemma config_set_safe_witness :
  ∃ r n', wpa_config_set some_methods new_net (lit "disabled") (lit "7") = Ret (r, n') ∧ net_ok n' ∧
    (0 ≤ r → wep_fit new_net → wep_fit n') ∧
    ∀ u, u ≠ lit "disabled" → wpa_config_get some_methods n' u = wpa_config_get some_methods new_net u ∧
      wpa_config_get_no_key some_methods n' u = wpa_config_get_no_key some_methods new_net u.
Proof.
  apply (config_set_safe some_methods new_net (lit "disabled") (lit "7"));
    [by apply (bool_decide_unpack _)|apply new_net_ok|].
  split_and!; [by apply (bool_decide_unpack _)|by vm_compute|by vm_compute|by vm_compute].
Defined.

Lemma config_copy_lemma eap_methods n n2 var t :
  short_names eap_methods → net_ok n → net_ok n2 → wep_fit n → var_shown var n →
  wpa_config_get eap_methods n var = Ret (Some t) → t ≠ [] →
  ∃ r n2', wpa_config_set eap_methods n2 var t = Ret (r, n2') ∧ 0 ≤ r ∧
    wpa_config_get eap_methods n2' var = Ret (Some t).
Proof.
  intros Hs Hn Hn2 Hfit Hsh. unfold wpa_config_get, wpa_config_set.
  destruct (find_field _ var) as [f|] eqn:Ef; [|done]. destruct (field_ok eap_methods Hs var f Ef) as [_ Hok].
  destruct (var_write (VarOk := Hok) n Hn Hfit) as [r Hr]. rewrite Hr. ret_simpl.
  destruct r as [t'|]; [|done]. destruct (has_newline t') eqn:Enl; [done|]. intros [= ->] Hne.
  destruct (var_copy (VarOk := Hok) n n2 t Hn Hn2 Hfit Hsh Hr Hne) as (r & n2' & -> & H0 & Hw). ret_simpl.
  eexists _, n2'. split; [done|]. rewrite Hw. ret_simpl. rewrite Enl. split; [|done]. case_if; zbool; lia.
Qed.

(** C23: What a block shows of a variable can be set in any other well-formed
    block, which then shows the same: the text is accepted (0 or 1 is
    returned).  The lengths of the WEP keys of the block fit the keys
    ([wep_fit]; without: [long_wep_key_read]), and the variable must be one
    whose text says all of its value: a group cipher of GTK_NOT_USED, frequencies of ten digits and EAP methods
    are excepted. *)
Theorem config_copy eap_methods n n2 var t :
  short_names eap_methods → net_ok n → net_ok n2 → wep_fit n → var_shown var n →
  wpa_config_get eap_methods n var = Ret (Some t) → t ≠ [] →
  ∃ r n2', wpa_config_set eap_methods n2 var t = Ret (r, n2') ∧ 0 ≤ r ∧
    wpa_config_get eap_methods n2' var = Ret (Some t).
Proof. apply config_copy_lemma. Qed.

Definition with_pass : net := set_str new_net (lit "passphrase") (Some (lit "secret 123")).

Lemma with_pass_ok : net_ok with_pass.
Proof.
  apply set_str_ok; [apply new_net_ok| |done]. intros s [= <-].
  split_and!; [by apply (bool_decide_unpack _)|done|]. intros _.
  split_and!; [by apply (bool_decide_unpack _)|by vm_compute|by vm_compute|done].
Qed.

Lemma config_copy_witness :
  ∃ r n2', wpa_config_set some_methods new_net (lit "psk") (DQ :: lit "secret 123" ++ [DQ]) = Ret (r, n2') ∧ 0 ≤ r ∧
    wpa_config_get some_methods n2' (lit "psk") = Ret (Some (DQ :: lit "secret 123" ++ [DQ])).
Proof.
  apply (config_copy some_methods with_pass new_net (lit "psk") (DQ :: lit "secret 123" ++ [DQ]));
    [by apply (bool_decide_unpack _)|apply with_pass_ok|apply new_net_ok|by apply (bool_decide_unpack _)|done| |done].
  by vm_compute.
Defined.

(** The members of the variables that are keys. *)
Definition key_members : list member :=
  psk_members ++ password_members ++ [MWep 0; MWep 1; MWep 2; MWep 3] ++
  [MStr (lit "private_key_passwd"); MInt (lit "private_key_passwd");
   MStr (lit "private_key2_passwd"); MInt (lit "private_key2_passwd");
   MStr (lit "pin"); MInt (lit "pin"); MStr (lit "pin2"); MInt (lit "pin2")].

(** Whether a variable is set, which is shown. *)
Definition is_set (eap_methods : list (str * Z * Z)) (n : net) (var : str) : bool :=
  match find_field (ssid_fields eap_methods) var with
  | Some f => match writer f n with Ret (Some (_ :: _)) => true | _ => false end
  | None => false
  end.

(** The variables that are keys. *)
Definition key_names : list str :=
  [lit "psk"; lit "password"; lit "private_key_passwd"; lit "private_key2_passwd"; lit "pin"; lit "pin2";
   lit "wep_key0"; lit "wep_key1"; lit "wep_key2"; lit "wep_key3"].

Lemma key_data_names eap_methods :
  Forall (λ f, key_data f = bool_decide (f_name f ∈ key_names)) (ssid_fields eap_methods).
Proof.
  unfold ssid_fields. cbn [app fmap list_fmap].
  repeat (apply Forall_cons; split; [by vm_compute|]). by apply Forall_nil.
Qed.

Lemma key_data_members eap_methods :
  Forall (λ f, if key_data f then True else Forall (λ m, m ∉ key_members) (members_of (f_name f)))
    (ssid_fields eap_methods).
Proof.
  unfold ssid_fields. cbn [app fmap list_fmap].
  repeat (apply Forall_cons; split; [by apply (bool_decide_unpack _) || exact I|]). by apply Forall_nil.
Qed.

(** A key is shown as "*" when it is set. *)
Lemma key_star eap_methods n var :
  short_names eap_methods → net_ok n → wep_fit n → var ∈ key_names →
  wpa_config_get_no_key eap_methods n var = Ret (if is_set eap_methods n var then Some (lit "*") else None).
Proof.
  intros Hs Hn Hw Hv. unfold wpa_config_get_no_key, is_set.
  destruct (find_field _ var) as [f|] eqn:Ef; [|done].
  destruct (field_ok eap_methods Hs var f Ef) as [_ Hok].
  destruct (var_write (VarOk := Hok) n Hn Hw) as [r ->]. ret_simpl.
  apply find_field_Some in Ef as [Hf <-].
  pose proof (key_data_names eap_methods) as Hk. rewrite Forall_forall in Hk. rewrite (Hk f Hf).
  rewrite bool_decide_true by done. by destruct r as [[|]|].
Qed.

(** No key is among all variables that are shown without the keys. *)
Lemma no_key_listed l n props : Forall (λ f, key_data f = bool_decide (f_name f ∈ key_names)) l →
  get_all_loop l n false = Ret props → ∀ var v, (var, v) ∈ props → var ∉ key_names.
Proof.
  revert props. induction l as [|f l IH]; intros props Hl; cbn [get_all_loop].
  { intros [= <-] var v Hin. by apply not_elem_of_nil in Hin. }
  apply Forall_cons in Hl as [Hf Hl]. destruct (key_data f) eqn:Ek; cbn [negb andb]; [by apply IH|].
  intros (r & _ & E)%outcome_bind_inv. destruct r as [[|c t]|]; [by apply IH| |by apply IH].
  apply outcome_bind_inv in E as (ps & Eps & E). injection E as <-. intros var v.
  rewrite elem_of_cons. intros [[= -> _]|Hin]; [|by eapply IH].
  symmetry in Hf. by apply bool_decide_eq_false in Hf.
Qed.

(** C25: What a block shows to a client without the keys does not depend on
    them: two well-formed blocks whose lengths of WEP keys fit the keys
    ([wep_fit]) and that differ in keys only, the same ones being set, show the
    same value of every variable and the same list of all variables. A key that
    is set is shown as "*", one that is not as nothing, and no key is in the
    list. *)
Theorem keys_not_shown eap_methods n n' :
  short_names eap_methods → net_ok n → net_ok n' → wep_fit n → wep_fit n' →
  only_changes key_members n n' → (∀ var, is_set eap_methods n var = is_set eap_methods n' var) →
  (∀ var, wpa_config_get_no_key eap_methods n var = wpa_config_get_no_key eap_methods n' var) ∧
  (∀ var, var ∈ key_names →
     wpa_config_get_no_key eap_methods n var = Ret (if is_set eap_methods n var then Some (lit "*") else None)) ∧
  wpa_config_get_all eap_methods n false = wpa_config_get_all eap_methods n' false ∧
  ∀ props var v, wpa_config_get_all eap_methods n false = Ret props → (var, v) ∈ props → var ∉ key_names.
Proof.
  intros Hs Hn Hn' Hw Hw' Ho Hset.
  assert (Hplain : ∀ f, f ∈ ssid_fields eap_methods → key_data f = false → writer f n = writer f n').
  { intros f Hf Hk. pose proof (fields_ok eap_methods Hs) as Hok. rewrite Forall_forall in Hok.
    pose proof (key_data_members eap_methods) as Hm. rewrite Forall_forall in Hm. specialize (Hm f Hf).
    rewrite Hk in Hm. rewrite Forall_forall in Hm. apply (var_frame (VarOk := Hok f Hf)).
    intros m Hmem. by apply Ho, Hm. }
  split_and!.
  - intros var. unfold wpa_config_get_no_key. specialize (Hset var). unfold is_set in Hset.
    destruct (find_field _ var) as [f|] eqn:Ef; [|done]. destruct (key_data f) eqn:Ek.
    + destruct (field_ok eap_methods Hs var f Ef) as [_ Hok].
      destruct (var_write (VarOk := Hok) n Hn Hw) as [r Hr]. destruct (var_write (VarOk := Hok) n' Hn' Hw') as [r' Hr'].
      rewrite Hr, Hr' in *. ret_simpl. by destruct r as [[|]|], r' as [[|]|].
    + by rewrite (Hplain f) by (by apply find_field_Some in Ef as []).
  - intros var. by apply key_star.
  - unfold wpa_config_get_all. cbn [andb].
    assert (Hl : ∀ l, (∀ f, f ∈ l → key_data f = false → writer f n = writer f n') →
      get_all_loop l n false = get_all_loop l n' false).
    { induction l as [|f l IH]; intros Hl; [done|]. cbn [get_all_loop]. rewrite IH by (intros; apply Hl; [by right|done]).
      destruct (key_data f) eqn:Ek; [done|]. cbn [negb andb]. by rewrite (Hl f) by (done || by left). }
    by apply Hl.
  - unfold wpa_config_get_all. cbn [andb]. intros props var v Hall.
    exact (no_key_listed _ n props (key_data_names eap_methods) Hall var v).
Qed.

Lemma same_set_everywhere eap_methods n n' :
  forallb (λ v, eqb (is_set eap_methods n v) (is_set eap_methods n' v)) (var_names eap_methods) = true →
  ∀ var, is_set eap_methods n var = is_set eap_methods n' var.
Proof.
  intros H var. rewrite forallb_forall in H.
  destruct (find_field (ssid_fields eap_methods) var) as [f|] eqn:Ef.
  - apply eqb_prop, H, list_elem_of_In. by eapply found_name.
  - unfold is_set. by rewrite Ef.
Qed.

Definition with_pass2 : net := set_str new_net (lit "passphrase") (Some (lit "another one")).

Lemma with_pass2_ok : net_ok with_pass2.
Proof.
  apply set_str_ok; [apply new_net_ok| |done]. intros s [= <-].
  split_and!; [by apply (bool_decide_unpack _)|done|]. intros _.
  split_and!; [by apply (bool_decide_unpack _)|by vm_compute|by vm_compute|done].
Qed.

Lemma pass_only n p q : only_changes key_members (set_str n (lit "passphrase") p) (set_str n (lit "passphrase") q).
Proof.
  intros m Hm. destruct (decide (m = MStr (lit "passphrase"))) as [->|Hne].
  - exfalso. apply Hm. by apply (bool_decide_unpack _).
  - destruct m; try done. cbn [same_member]. rewrite !get_str_set_ne; [done|congruence..].
Qed.

Lemma keys_not_shown_witness :
  (∀ var, wpa_config_get_no_key some_methods with_pass var = wpa_config_get_no_key some_methods with_pass2 var) ∧
  (∀ var, var ∈ key_names → wpa_config_get_no_key some_methods with_pass var =
     Ret (if is_set some_methods with_pass var then Some (lit "*") else None)) ∧
  wpa_config_get_all some_methods with_pass false = wpa_config_get_all some_methods with_pass2 false ∧
  ∀ props var v, wpa_config_get_all some_methods with_pass false = Ret props → (var, v) ∈ props → var ∉ key_names.
Proof.
  apply (keys_not_shown some_methods with_pass with_pass2);
    [by apply (bool_decide_unpack _)|apply with_pass_ok|apply with_pass2_ok|by apply (bool_decide_unpack _)..
    |apply pass_only|].
  apply same_set_everywhere. by vm_compute.
Defined.

Lemma quoted_ssid eap_methods n s :
  wpa_config_set_quoted eap_methods n (lit "ssid") s =
    Ret (if SSID_MAX_LEN <? strlen s then (-1, n)
         else if bool_decide (get_str n (lit "ssid") = Some s) then (1, n)
         else (0, set_str n (lit "ssid") (Some s))).
Proof.
  unfold wpa_config_set_quoted, wpa_config_set.
  change (find_field (ssid_fields eap_methods) (lit "ssid")) with (Some (STR_RANGE (lit "ssid") 0 SSID_MAX_LEN)).
  cbn [parser STR_RANGE STR_of]. unfold wpa_config_parse_str.
  assert (str_eqb (DQ :: s ++ [DQ]) (lit "NULL") = false) as -> by (by apply bool_decide_eq_false_2).
  rewrite parse_bytes_quoted. ret_simpl. change (negb (0 =? 0)) with false.
  change (negb (SSID_MAX_LEN =? 0)) with true. cbn [andb].
  destruct (SSID_MAX_LEN <? strlen s); [done|]. set (same := match get_str n _ with Some old => _ | None => _ end).
  assert (Hs : same = bool_decide (get_str n (lit "ssid") = Some s)).
  { unfold same. destruct (get_str n (lit "ssid")) as [old|]; [|done]. case_bool_decide as H.
    - injection H as ->. rewrite Z.eqb_refl, take_ge by done. by apply str_eqb_eq.
    - apply not_true_is_false. intros [E1 E2]%andb_true_iff. apply H. f_equal. zbool.
      apply str_eqb_eq in E2. rewrite <- (take_drop (length s) old), E2 in E1 |- *. rewrite strlen_app in E1.
      destruct (drop (length s) old); [by rewrite app_nil_r|]. unfold strlen in E1. simpl in E1. lia. }
  rewrite Hs. by case_bool_decide.
Qed.

(** [wpa_config_set_quoted] takes the text as it is: an SSID of up to 32
    characters, whatever they are, quotes among them, is stored as the bytes
    of the text; a longer one is refused and nothing changes. *)
Theorem quoted_ssid_stored eap_methods n s :
  wpa_config_set_quoted eap_methods n (lit "ssid") s =
    Ret (if SSID_MAX_LEN <? strlen s then (-1, n)
         else if bool_decide (get_str n (lit "ssid") = Some s) then (1, n)
         else (0, set_str n (lit "ssid") (Some s))).
Proof. apply quoted_ssid. Qed.

(** ** Where a variable is left in another state than the reply says *)

(** The variables set one after the other in a new block, what was returned,
    and something of the block. *)
Definition in_turn {A} (l : list (str * str)) (f : net → outcome A) : outcome (list Z * A) :=
  '(rs, n) ← foldl (λ (r : outcome (list Z * net)) (e : str * str),
      '(rs, n) ← r; '(z, n) ← wpa_config_set some_methods n e.1 e.2; Ret (rs ++ [z], n)) (Ret ([], new_net)) l;
  a ← f n; Ret (rs, a).

Definition shows (var : str) (n : net) : outcome (option str) := wpa_config_get_no_key some_methods n var.

(** An integer out of its range: the call fails, and the bound is stored. *)
Example range_error_stores :
  in_turn [(lit "disabled", lit "5")] (shows (lit "disabled")) = Ret ([-1], Some (lit "2")).
Proof. by vm_compute. Qed.

(** A minimum of 0 is not checked. *)
Example minimum_unchecked :
  in_turn [(lit "scan_ssid", lit "-1")] (shows (lit "scan_ssid")) = Ret ([0], Some (lit "-1")).
Proof. by vm_compute. Qed.

Definition hex64 : str := concat (replicate 32 (lit "5a")).

(** A key that is refused has replaced a part of the key in use. *)
Example refused_key_stored :
  in_turn [(lit "psk", hex64); (lit "psk", lit "0102zz")] (λ n, Ret (get_int n (lit "psk_set"), take 3 (n_psk n)))
  = Ret ([0; -1], (1, [1; 2; 90])).
Proof. by vm_compute. Qed.

Example refused_bssid_stored :
  in_turn [(lit "bssid", lit "00:11:22:33:44:55"); (lit "bssid", lit "02:03:zz")] (shows (lit "bssid"))
  = Ret ([0; -1], Some (lit "02:03:22:33:44:55")).
Proof. by vm_compute. Qed.

(** The length of a WEP key that is too long is kept; showing the key then
    reads behind it. *)
Example long_wep_key_read :
  in_turn [(lit "wep_key3", DQ :: lit "12345678901234567" ++ [DQ])] (λ n, Ret (nth 3 (n_wep_key_len n) 0)) = Ret ([-1], 17) ∧
  ∃ why, in_turn [(lit "wep_key3", DQ :: lit "12345678901234567" ++ [DQ])] (shows (lit "wep_key3")) = UB why.
Proof. split; [by vm_compute|]. eexists. by vm_compute. Qed.

(** A list of EAP methods is not replaced by one of the same length that has
    all of its methods, and the counters of a list that was replaced stay. *)
Example eap_list_kept :
  in_turn [(lit "eap", lit "TLS TLS"); (lit "eap", lit "TLS PEAP")] (shows (lit "eap")) = Ret ([0; 1], Some (lit "TLS TLS")).
Proof. by vm_compute. Qed.

Example leap_still_counted :
  in_turn [(lit "eap", lit "LEAP"); (lit "eap", lit "TLS")] (λ n, Ret (n_methods n, get_int n (lit "leap")))
  = Ret ([0; 0], (Some [(0, 13)], 1)).
Proof. by vm_compute. Qed.

(** Exceptions of [config_copy]. *)
Example gtk_not_used_not_shown :
  in_turn [(lit "group", lit "GTK_NOT_USED")] (shows (lit "group")) = Ret ([0], Some []).
Proof. by vm_compute. Qed.

Example long_frequencies_cut :
  in_turn [(lit "scan_freq", lit "-1 -1")] (shows (lit "scan_freq")) = Ret ([0], Some (lit "4294967295 429496729")).
Proof. by vm_compute. Qed.
