(* ===== verification/CtrlNetwork.v ===== *)
(** * Networks through the control interface (wpa_supplicant/ctrl_iface.c)

    The commands ADD_NETWORK, SET_NETWORK, GET_NETWORK and DUP_NETWORK on the
    network blocks of a configuration ([ConfigSsid]) and its lists of networks of
    one priority ([Network]).  What the commands tell other parts of the daemon
    (the PMKSA cache, the EAPOL state machine, the driver, D-Bus) is collected in
    a list of effects.  The key derivation is a parameter.  The build has no
    CONFIG_P2P, so a change of the type of a network has no effect. *)

From stdpp Require Import gmap.
From S2P Require Import Prelude CString Scan CliUtil Common Network ConfigSsid.

Inductive effect : Type :=
  | PmksaFlush (id : Z)                                (* wpa_sm_pmksa_cache_flush *)
  | EapolInvalidate                                    (* eapol_sm_invalidate_cached_session *)
  | DriverRoaming (allowed : bool) (bssid : option (list Z)) (* wpa_drv_roaming *)
  | NetworkRegistered (id : Z).                        (* wpas_dbus_register_network *)

(** The parts of [struct wpa_supplicant] that the commands use. *)
Record wpa_supplicant : Type := WpaS {
  conf_nets : list (Z * net);       (* conf->ssid: identifier and variables *)
  conf_pssid : list (list Z);       (* conf->pssid *)
  current_ssid : option Z
}.

(** What the lists of priorities and LIST_NETWORKS read of a block. *)
Definition as_ssid (e : Z * net) : wpa_ssid :=
  Ssid e.1 (get_int e.2 (lit "priority")) (get_str e.2 (lit "ssid")) (n_bssid e.2)
    (negb (get_int e.2 (lit "bssid_set") =? 0)) (get_int e.2 (lit "disabled")) (get_int e.2 (lit "disabled_until")).

Definition conf_of (w : wpa_supplicant) : wpa_config := Config (as_ssid <$> conf_nets w) (conf_pssid w).

Fixpoint find_net (l : list (Z * net)) (id : Z) : option net :=
  match l with
  | [] => None
  | e :: l' => if id =? e.1 then Some e.2 else find_net l' id
  end.

(** The change of a block that a pointer refers to. *)
Fixpoint put_net (l : list (Z * net)) (id : Z) (n : net) : list (Z * net) :=
  match l with
  | [] => []
  | e :: l' => if id =? e.1 then (e.1, n) :: l' else e :: put_net l' id n
  end.

Definition with_net (w : wpa_supplicant) (id : Z) (n : net) : wpa_supplicant :=
  WpaS (put_net (conf_nets w) id n) (conf_pssid w) (current_ssid w).

(** The text up to the first space and the one behind it. *)
Definition split_space (s : str) : option (str * str) :=
  i ← strchr s SP; Some (take i s, drop (S i) s).

Definition ssid_len (n : net) : Z := match get_str n (lit "ssid") with Some s => strlen s | None => 0 end.

Section commands.
Context (eap_methods : list (str * Z * Z)).
Context (pbkdf2_sha1 : str → list Z → list Z).

Definition update_prio (w : wpa_supplicant) : outcome wpa_supplicant :=
  '(_, c) ← wpa_config_update_prio_list (λ _, true) (conf_of w);
  Ret (WpaS (conf_nets w) (pssid c) (current_ssid w)).

(** [n] is the block of the identifier [id]. *)
Definition wpa_supplicant_ctrl_iface_update_network (w : wpa_supplicant) (id : Z) (n : net) (name value : str)
    : outcome (Z * wpa_supplicant * list effect) :=
  '(ret, n) ← wpa_config_set eap_methods n name value;
  let w := with_net w id n in
  if ret <? 0 then Ret (-1, w, [])
  else if ret =? 1 then Ret (0, w, [])
  else
    let effects :=
      if negb (str_eqb name (lit "bssid")) && negb (str_eqb name (lit "priority")) then
        PmksaFlush id ::
        (if bool_decide (current_ssid w = Some id) || bool_decide (current_ssid w = None)
         then [EapolInvalidate] else [])
      else [] in
    if (str_eqb name (lit "psk") && bool_decide (head value = Some DQ) && negb (ssid_len n =? 0))
       || (str_eqb name (lit "ssid") && bool_decide (is_Some (get_str n (lit "passphrase"))))
    then n ← wpa_config_update_psk pbkdf2_sha1 n; Ret (0, with_net w id n, effects)
    else if str_eqb name (lit "priority") then w ← update_prio w; Ret (0, w, effects)
    else Ret (0, w, effects).

(** [wpas_notify_network_bssid_set_changed] *)
Definition bssid_set_changed (w : wpa_supplicant) (id : Z) (n : net) : list effect :=
  if bool_decide (current_ssid w = Some id) then
    let set := negb (get_int n (lit "bssid_set") =? 0) in
    [DriverRoaming (negb set) (if set then Some (n_bssid n) else None)]
  else [].

Definition wpa_supplicant_ctrl_iface_set_network (w : wpa_supplicant) (cmd : str)
    : outcome (Z * wpa_supplicant * list effect) :=
  match split_space cmd with
  | None => Ret (-1, w, [])
  | Some (id, rest) =>
      match split_space rest with
      | None => Ret (-1, w, [])
      | Some (name, value) =>
          let id := atoi id in
          match find_net (conf_nets w) id with
          | None => Ret (-1, w, [])
          | Some old =>
              '(ret, w, effects) ← wpa_supplicant_ctrl_iface_update_network w id old name value;
              n ← need "no network" (find_net (conf_nets w) id);
              Ret (ret, w, effects ++
                if (ret =? 0) &&
                   (negb (get_int n (lit "bssid_set") =? get_int old (lit "bssid_set"))
                    || bool_decide (n_bssid n ≠ n_bssid old))
                then bssid_set_changed w id n else [])
          end
      end
  end.

(** The result and the buffer; -1 leaves what was copied in it. *)
Definition wpa_supplicant_ctrl_iface_get_network (w : wpa_supplicant) (cmd : str) (b : buf) (buflen : Z)
    : outcome (Z * buf) :=
  match split_space cmd with
  | None => Ret (-1, b)
  | Some (id, name) =>
      if buflen =? 0 then Ret (-1, b)
      else
        match find_net (conf_nets w) (atoi id) with
        | None => Ret (-1, b)
        | Some n =>
            value ← wpa_config_get_no_key eap_methods n name;
            match value with
            | None => Ret (-1, b)
            | Some value =>
                '(res, b) ← os_strlcpy b value buflen;
                Ret (if buflen <=? res then -1 else res, b)
            end
        end
  end.

(** The configuration of the destination may be that of another interface. *)
Definition wpa_supplicant_ctrl_iface_dup_network (w : wpa_supplicant) (cmd : str) (dst : wpa_supplicant)
    : outcome (Z * wpa_supplicant * list effect) :=
  match split_space cmd with
  | None => Ret (-1, dst, [])
  | Some (id_s, rest) =>
      match split_space rest with
      | None => Ret (-1, dst, [])
      | Some (id_d, name) =>
          match find_net (conf_nets w) (atoi id_s), find_net (conf_nets dst) (atoi id_d) with
          | Some ssid_s, Some ssid_d =>
              value ← wpa_config_get eap_methods ssid_s name;
              match value with
              | None => Ret (-1, dst, [])
              | Some value => wpa_supplicant_ctrl_iface_update_network dst (atoi id_d) ssid_d name value
              end
          | _, _ => Ret (-1, dst, [])
          end
      end
  end.

(** The identifier of the new network; the allocations succeed. *)
Definition wpa_supplicant_add_network (w : wpa_supplicant) : outcome (option Z * wpa_supplicant * list effect) :=
  '(s, c) ← wpa_config_add_network (λ _, true) true (conf_of w);
  match s with
  | None => Ret (None, w, [])
  | Some s =>
      let n := wpa_config_set_network_defaults (set_int zalloc_net (lit "disabled") 1) in
      Ret (Some (ssid_id s), WpaS (conf_nets w ++ [(ssid_id s, n)]) (pssid c) (current_ssid w),
           [NetworkRegistered (ssid_id s)])
  end.

Definition wpa_supplicant_ctrl_iface_add_network (w : wpa_supplicant) (b : buf) (buflen : Z)
    : outcome (Z * buf * wpa_supplicant * list effect) :=
  '(id, w, effects) ← wpa_supplicant_add_network w;
  match id with
  | None => Ret (-1, b, w, effects)
  | Some id =>
      '(ret, b) ← snprintf b 0 buflen (fmt_d id ++ [NL]);
      Ret (if os_snprintf_error buflen ret then -1 else ret, b, w, effects)
  end.
End commands.
