(* ===== verification/CtrlNetworkSpec.v ===== *)
(** * Networks through the control interface: theorems

    SET_NETWORK keeps the configuration well formed, changes one network only
    and keeps the pre-shared key that of the passphrase and the SSID;
    DUP_NETWORK copies a variable; a network that is added and named is
    listed. *)

From stdpp Require Import gmap sorting.
From S2P Require Import Prelude CString Scan CliUtil Common CommonLists Printable Printing Network.
From S2P Require Import WpaIe WpaCommon ConfigSsid ConfigText ConfigVars ConfigSsidSpec CtrlNetwork.

(** ** Blocks by identifier *)

Lemma find_put l id n j : is_Some (find_net l id) →
  find_net (put_net l id n) j = if decide (j = id) then Some n else find_net l j.
Proof.
  induction l as [|e l IH]; cbn [find_net put_net]; [by intros [? [=]]|].
  destruct (id =? e.1) eqn:E; zbool; intros Hs; cbn [find_net fst snd].
  - destruct (decide (j = id)) as [->|Hn].
    + by rewrite (proj2 (Z.eqb_eq _ _)) by done.
    + by rewrite (proj2 (Z.eqb_neq _ _)) by congruence.
  - rewrite IH by done. destruct (decide (j = id)) as [->|Hn]; [by rewrite (proj2 (Z.eqb_neq _ _))|done].
Qed.

Lemma put_ids l id n : fst <$> put_net l id n = fst <$> l.
Proof.
  induction l as [|e l IH]; cbn [put_net]; [done|]. case_if; rewrite !fmap_cons; [done|]. by rewrite IH.
Qed.

Lemma put_Forall (P : Z * net → Prop) l id n : Forall P l → P (id, n) → Forall P (put_net l id n).
Proof.
  intros Hl Hn. induction Hl as [|e l He Hl IH]; cbn [put_net]; [constructor|]. case_if; zbool; [subst id|]; by constructor.
Qed.

Lemma find_net_elem l id n : find_net l id = Some n → (id, n) ∈ l.
Proof.
  induction l as [|[i m] l IH]; cbn [find_net fst snd]; [done|]. case_if; zbool.
  - intros [= ->]. subst. by left.
  - intros H. right. by apply IH.
Qed.

(** ** Lists of priorities *)

Definition id_prio (s : wpa_ssid) : Z * Z := (ssid_id s, priority s).

Lemma with_prio_ext l l' p : id_prio <$> l = id_prio <$> l' → with_prio l p = with_prio l' p.
Proof.
  revert l'. induction l as [|s l IH]; intros [|s' l'] H; try done.
  rewrite !fmap_cons in H. injection H as H1 H2 H3. specialize (IH l' H3). unfold with_prio in *.
  destruct (decide (priority s = p)) as [Hp|Hp].
  - rewrite !filter_cons_True by congruence. rewrite !fmap_cons. by rewrite H1, IH.
  - by rewrite !filter_cons_False by congruence.
Qed.

Lemma prio_lists_ext l l' g : id_prio <$> l = id_prio <$> l' → prio_lists_ok (Config l g) → prio_lists_ok (Config l' g).
Proof.
  intros E (ps & [Hs Hp] & Hg). exists ps. cbn [networks pssid] in *. split.
  - split; [done|]. intros p. rewrite Hp.
    assert (Hx : ∀ l1 l2 : list wpa_ssid, id_prio <$> l1 = id_prio <$> l2 →
      (∃ s, s ∈ l1 ∧ priority s = p) → ∃ s, s ∈ l2 ∧ priority s = p).
    { intros l1 l2 E2 (s & Hin & <-). assert (Hin2 : id_prio s ∈ id_prio <$> l2).
      { rewrite <- E2. apply list_elem_of_fmap. eauto. }
      apply list_elem_of_fmap in Hin2 as (s2 & [= _ H] & Hs2). exists s2. by split. }
    split; apply Hx; [done|by symmetry].
  - rewrite Hg. unfold groups_of. apply list_fmap_ext. intros i p _. by apply with_prio_ext.
Qed.

(** ** Well-formed configurations *)

Record conf_ok (w : wpa_supplicant) : Prop := ConfOk {
  conf_unique : NoDup (fst <$> conf_nets w);
  conf_ids : Forall (λ e : Z * net, INT_MIN ≤ e.1 ≤ INT_MAX) (conf_nets w);
  conf_vars : Forall (λ e : Z * net, net_ok e.2) (conf_nets w);
  conf_prio : prio_lists_ok (conf_of w)
}.

Lemma ids_of w : ssid_id <$> networks (conf_of w) = fst <$> conf_nets w.
Proof. unfold conf_of. cbn [networks]. by rewrite <- list_fmap_compose. Qed.

Lemma conf_networks_ok w : conf_ok w → networks_ok (networks (conf_of w)).
Proof. intros Hw. unfold networks_ok. rewrite ids_of. by apply conf_unique. Qed.

(** A block that is changed without its priority. *)
Lemma with_net_ok w id n n' :
  conf_ok w → find_net (conf_nets w) id = Some n → net_ok n' →
  get_int n' (lit "priority") = get_int n (lit "priority") → conf_ok (with_net w id n').
Proof.
  intros [H1 H2 H3 H4] Hf Hn Hp. split; cbn [conf_nets with_net].
  - by rewrite put_ids.
  - apply put_Forall; [done|]. cbn [fst]. apply find_net_elem in Hf. rewrite Forall_forall in H2. by apply (H2 (id, n)).
  - by apply put_Forall.
  - eapply prio_lists_ext; [|exact H4]. unfold conf_of, with_net. cbn [conf_nets networks].
    clear -Hf Hp. induction (conf_nets w) as [|[i m] l IH]; cbn [put_net]; [done|]. cbn [find_net fst snd] in *.
    case_if; zbool.
    + subst i. injection Hf as ->. rewrite !fmap_cons. f_equal. unfold id_prio, as_ssid. cbn [ssid_id priority fst snd]. by rewrite Hp.
    + rewrite !fmap_cons. f_equal. by apply IH.
Qed.

Lemma update_prio_ok w :
  NoDup (fst <$> conf_nets w) → Forall (λ e : Z * net, INT_MIN ≤ e.1 ≤ INT_MAX) (conf_nets w) →
  Forall (λ e : Z * net, net_ok e.2) (conf_nets w) →
  ∃ w', update_prio w = Ret w' ∧ conf_ok w' ∧ conf_nets w' = conf_nets w ∧ current_ssid w' = current_ssid w.
Proof.
  intros H1 H2 H3. unfold update_prio.
  destruct (update_prio_list_spec (λ _, true) (λ _, eq_refl) (conf_of w)) as (c & -> & Hn & Hp);
    [unfold networks_ok; by rewrite ids_of|]. ret_simpl. eexists. split; [done|]. split_and!; [|done|done].
  split; cbn [conf_nets]; [done|done|done|]. unfold conf_of. cbn [conf_nets conf_pssid].
  destruct c as [cn cp]. cbn [networks pssid] in *. subst cn. exact Hp.
Qed.

(** ** Setting a variable *)

Section set.
Context (eap_methods : list (str * Z * Z)) (Hnames : short_names eap_methods).
Context (pbkdf2_sha1 : str → list Z → list Z).
Context (Hkey : ∀ p s, length (pbkdf2_sha1 p s) = 32%nat ∧ byte_list (pbkdf2_sha1 p s)).

(** The key in use is that of the passphrase and the SSID. *)
Definition psk_current (n : net) : Prop :=
  ∀ p s, get_str n (lit "passphrase") = Some p → get_str n (lit "ssid") = Some s → s ≠ [] →
    get_int n (lit "psk_set") = 1 ∧ n_psk n = pbkdf2_sha1 p s.

Lemma update_psk_spec n p : net_ok n → get_str n (lit "passphrase") = Some p →
  ∃ n', wpa_config_update_psk pbkdf2_sha1 n = Ret n' ∧ net_ok n' ∧ psk_current n' ∧
    (∀ m, m ≠ MPsk → m ≠ MInt (lit "psk_set") → same_member n n' m).
Proof.
  intros Hn Hp. unfold wpa_config_update_psk. rewrite Hp. ret_simpl. eexists. split; [done|].
  destruct (Hkey p (default [] (get_str n (lit "ssid")))) as [H32 Hb]. split_and!.
  - apply psk_set_ok; [by apply set_psk_ok|by right].
  - intros p' s' Hp' Hs' _. change (get_str (set_int (set_psk n ?k) _ _) ?f) with (get_str n f) in Hp', Hs'.
    rewrite Hp in Hp'. injection Hp' as <-. rewrite get_set_int. rewrite Hs'. by split.
  - intros m H1 H2. eapply same_trans; [by apply same_set_psk|by apply same_set_int].
Qed.

Lemma psk_current_same n n' :
  (∀ m, m ∈ MStr (lit "ssid") :: psk_members → same_member n n' m) → psk_current n → psk_current n'.
Proof.
  intros Hs Hc p s Hp Hss Hne.
  assert (H1 : same_member n n' (MStr (lit "ssid"))) by (apply Hs; small_member).
  assert (H2 : same_member n n' (MStr (lit "passphrase"))) by (apply Hs; small_member).
  assert (H3 : same_member n n' MPsk) by (apply Hs; small_member).
  assert (H4 : same_member n n' (MInt (lit "psk_set"))) by (apply Hs; small_member).
  cbn [same_member] in *. rewrite <- H3, <- H4. apply Hc; congruence.
Qed.

Lemma var_in var : forallb (λ v, negb (str_eqb v var)) (var_names eap_methods) = false → var ∈ var_names eap_methods.
Proof.
  intros H. destruct (decide (var ∈ var_names eap_methods)) as [|Hn]; [done|]. exfalso.
  assert (Ht : forallb (λ v, negb (str_eqb v var)) (var_names eap_methods) = true); [|congruence].
  apply forallb_forall. intros v Hv. apply negb_true_iff, bool_decide_eq_false_2. intros ->. apply Hn. by apply list_elem_of_In.
Qed.

Ltac known_var := apply var_in; by vm_compute.

(** The two variables that decide about the key. *)
Lemma set_psk_result n value r n' :
  wpa_config_set eap_methods n (lit "psk") value = Ret (r, n') → r ≠ -1 →
  n' = n ∧ r = 1 ∨
  r = 0 ∧ (head value = Some DQ ∧ is_Some (get_str n' (lit "passphrase")) ∨
           head value ≠ Some DQ ∧ get_str n' (lit "passphrase") = None).
Proof.
  unfold wpa_config_set.
  change (find_field (ssid_fields eap_methods) (lit "psk")) with (Some (FUNC_KEY (lit "psk") wpa_config_parse_psk wpa_config_write_psk)).
  cbn [parser FUNC_KEY]. destruct (decide (head value = Some DQ)) as [Hq|Hq].
  - destruct value as [|c value]; [done|]. injection Hq as ->. rewrite psk_quoted. cbv zeta.
    repeat case_if; ret_simpl; intros [= <- <-] Hr; try done; [by left|]. right. split; [done|]. left. split; [done|].
    rewrite get_str_set. by eexists.
  - rewrite psk_unquoted by done. destruct (hexstr2bin _ _) as [bytes r0]. cbv zeta.
    case_if; ret_simpl; intros [= <- <-] Hr; [done|]. right. split; [done|]. right. split; [done|].
    change (get_str (set_int ?x _ _) ?f) with (get_str x f). apply get_str_set.
Qed.

Lemma set_ssid_result n value r n' :
  wpa_config_set eap_methods n (lit "ssid") value = Ret (r, n') → r ≠ -1 → n' = n ∧ r = 1 ∨ r = 0.
Proof.
  unfold wpa_config_set.
  change (find_field (ssid_fields eap_methods) (lit "ssid")) with (Some (STR_RANGE (lit "ssid") 0 SSID_MAX_LEN)).
  cbn [parser STR_RANGE STR_of]. unfold wpa_config_parse_str. intros H Hr.
  apply outcome_bind_inv in H as ([r1 n1] & H1 & H). injection H as <- <-.
  apply outcome_bind_inv in H1 as (tmp & _ & H1). destruct tmp as [tmp|]; [|by injection H1 as <- <-].
  match type of H1 with context [if ?b then _ else _] => destruct b end; injection H1 as <- <-; [by left|by right].
Qed.

Lemma set_priority_result n value r n' :
  wpa_config_set eap_methods n (lit "priority") value = Ret (r, n') → n' = n ∨ r = 0.
Proof.
  unfold wpa_config_set. change (find_field (ssid_fields eap_methods) (lit "priority")) with (Some (INT (lit "priority"))).
  cbn [parser INT INT_RANGE]. unfold wpa_config_parse_int. destruct (strtol0 value) as [v end_].
  cbn [negb Z.eqb andb]. repeat case_if; ret_simpl; intros [= <- <-]; by auto.
Qed.
(** What the call leaves of the block, before the key is derived. *)
Lemma set_keeps n name value r n' :
  net_ok n → value_ok n value → wpa_config_set eap_methods n name value = Ret (r, n') →
  (name ≠ lit "priority" ∨ r ≠ 0 → get_int n' (lit "priority") = get_int n (lit "priority")) ∧
  (name ≠ lit "psk" → name ≠ lit "ssid" → psk_current n → psk_current n').
Proof.
  intros Hn Hv Hset. split.
  - intros Hor. destruct (decide (name = lit "priority")) as [->|Hne].
    + apply set_priority_result in Hset as [->|Hr]; [done|]. by destruct Hor.
    + pose proof (set_other_member eap_methods Hnames n name value r n' (lit "priority") (MInt (lit "priority")) Hn Hv Hset
        ltac:(known_var) ltac:(congruence) ltac:(small_member)) as H. symmetry. exact H.
  - intros H1 H2. apply psk_current_same. intros m Hm. apply elem_of_cons in Hm as [->|Hm].
    + apply (set_other_member eap_methods Hnames n name value r n' (lit "ssid") _ Hn Hv Hset ltac:(known_var));
        [congruence|small_member].
    + apply (set_other_member eap_methods Hnames n name value r n' (lit "psk") _ Hn Hv Hset ltac:(known_var));
        [congruence|exact Hm].
Qed.

Lemma same_fit n n' : (∀ m, m ≠ MPsk → m ≠ MInt (lit "psk_set") → same_member n n' m) → wep_fit n → wep_fit n'.
Proof.
  unfold wep_fit. rewrite !Forall_lookup. intros Hs Hf i l Hl. apply (Hf i).
  destruct (Hs (MWep i)) as [_ ->]; done.
Qed.

(** The outcome for the block [n] of [id]. *)
Definition updated (w : wpa_supplicant) (id : Z) (n : net) (r : Z) (w' : wpa_supplicant) (n' : net) : Prop :=
  conf_ok w' ∧ (r = 0 ∨ r = -1) ∧ find_net (conf_nets w') id = Some n' ∧
  (∀ j, j ≠ id → find_net (conf_nets w') j = find_net (conf_nets w) j) ∧
  (r = 0 → psk_current n → psk_current n') ∧ (r = 0 → wep_fit n → wep_fit n').

Lemma found_put w id n n' : find_net (conf_nets w) id = Some n →
  find_net (conf_nets (with_net w id n')) id = Some n' ∧
  ∀ j, j ≠ id → find_net (conf_nets (with_net w id n')) j = find_net (conf_nets w) j.
Proof.
  intros Hf. cbn [conf_nets with_net]. split; [|intros j Hj]; rewrite find_put by (rewrite Hf; by eexists).
  - by rewrite decide_True.
  - by rewrite decide_False.
Qed.

Lemma update_network_ok w id n name value :
  conf_ok w → find_net (conf_nets w) id = Some n → value_ok n value →
  ∃ r w' eff n1 n' ret, wpa_supplicant_ctrl_iface_update_network eap_methods pbkdf2_sha1 w id n name value = Ret (r, w', eff) ∧
    updated w id n r w' n' ∧ wpa_config_set eap_methods n name value = Ret (ret, n1) ∧ (0 ≤ ret → r = 0) ∧
    (∀ m, m ≠ MPsk → m ≠ MInt (lit "psk_set") → same_member n1 n' m) ∧
    (name ≠ lit "ssid" → is_Some (get_str n1 (lit "passphrase")) ∨ n' = n1).
Proof.
  intros Hw Hf Hv. assert (Hn : net_ok n).
  { pose proof (conf_vars w Hw) as H. rewrite Forall_forall in H. by apply (H (id, n)), find_net_elem. }
  unfold wpa_supplicant_ctrl_iface_update_network.
  destruct (set_parse eap_methods Hnames n name value Hn Hv) as (ret & n1 & Hset & Hn1 & Hfit & _ & _).
  rewrite Hset. ret_simpl. destruct (set_keeps n name value ret n1 Hn Hv Hset) as [Hprio Hpsk].
  destruct (found_put w id n n1 Hf) as [Hf1 Ho1].
  assert (Hplain : ∀ (r : Z) (eff : list effect), (r = 0 ∨ r = -1) → (name ≠ lit "priority" ∨ ret ≠ 0) → (0 ≤ ret → r = 0) →
    (r = 0 → psk_current n → psk_current n1) → (r = 0 → 0 ≤ ret) →
    ∃ (r' : Z) (w' : wpa_supplicant) (eff' : list effect) (n1' n' : net) (ret' : Z),
      Ret (r, with_net w id n1, eff) = Ret (r', w', eff') ∧ updated w id n r' w' n' ∧
      Ret (ret, n1) = Ret (ret', n1') ∧ (0 ≤ ret' → r' = 0) ∧
      (∀ m, m ≠ MPsk → m ≠ MInt (lit "psk_set") → same_member n1' n' m) ∧
      (name ≠ lit "ssid" → is_Some (get_str n1' (lit "passphrase")) ∨ n' = n1')).
  { intros r eff Hr Hor Hret Hp Hr0. exists r, (with_net w id n1), eff, n1, n1, ret.
    split_and!; [done| |done|done|intros; apply same_refl|by right].
    split_and!; [apply (with_net_ok w id n); auto|done|done|done|done|]. intros E. by apply Hfit, Hr0. }
  destruct (ret <? 0) eqn:E1; zbool; [apply Hplain; (lia || by auto)|].
  destruct (ret =? 1) eqn:E2; zbool.
  { apply Hplain; [by left|right; lia|done| |lia]. intros _. destruct (decide (name = lit "psk")) as [->|H1].
    - apply set_psk_result in Hset as [[-> _]|[-> _]]; [done|done|lia].
    - destruct (decide (name = lit "ssid")) as [->|H2]; [|by apply Hpsk].
      apply set_ssid_result in Hset as [[-> _]| ->]; [done|done|lia]. }
  match goal with |- context [if negb ?a && negb ?b then ?x else []] => set (eff := if negb a && negb b then x else []) end.
  match goal with |- context [if ?b then n ← wpa_config_update_psk _ _; _ else _] => destruct b eqn:Eb end.
  - assert (Hpass : is_Some (get_str n1 (lit "passphrase")) ∧ name ≠ lit "priority").
    { apply orb_true_iff in Eb as [Eb|Eb].
      - rewrite !andb_true_iff in Eb. destruct Eb as [[En Eq] _]. apply str_eqb_eq in En. subst name.
        apply bool_decide_eq_true in Eq. split; [|done].
        apply set_psk_result in Hset as [[_ ->]|[_ [[_ H]|[H _]]]]; [done|done|done|lia].
      - apply andb_true_iff in Eb as [En Eq]. apply str_eqb_eq in En. subst name. split; [|done].
        by apply bool_decide_eq_true in Eq. }
    destruct Hpass as [[p Hp] Hnp]. destruct (update_psk_spec n1 p Hn1 Hp) as (n2 & -> & Hn2 & Hc & Hs). ret_simpl.
    destruct (found_put (with_net w id n1) id n1 n2 Hf1) as [Hf2 Ho2].
    eexists 0, _, eff, n1, n2, ret. split_and!; [done| |done|done|done|intros _; left; by eexists].
    assert (Hw1 : conf_ok (with_net w id n1)) by (apply (with_net_ok w id n); auto).
    split_and!.
    + apply (with_net_ok _ id n1); [done|done|done|]. specialize (Hs (MInt (lit "priority"))). symmetry. by apply Hs.
    + by left.
    + done.
    + intros j Hj. by rewrite Ho2, Ho1.
    + done.
    + intros _ H. eapply same_fit; [exact Hs|]. apply Hfit; [lia|done].
  - assert (Hcur : psk_current n → psk_current n1).
    { destruct (decide (name = lit "psk")) as [->|H1].
      - change (str_eqb (lit "psk") (lit "psk")) with true in Eb. change (str_eqb (lit "psk") (lit "ssid")) with false in Eb.
        cbn [andb] in Eb. rewrite orb_false_r in Eb.
        apply set_psk_result in Hset as [[-> _]|[_ [[Hq _]|[_ Hno]]]]; [done| | |lia].
        + rewrite bool_decide_eq_true_2 in Eb by done. cbn [andb] in Eb. apply negb_false_iff in Eb. zbool.
          intros _ p' s' _ Hs' Hne'. unfold ssid_len in Eb. rewrite Hs' in Eb. destruct s' as [|c s']; [done|].
          unfold strlen in Eb. simpl in Eb. lia.
        + intros _ p' s' Hp'. congruence.
      - destruct (decide (name = lit "ssid")) as [->|H2]; [|by apply Hpsk].
        change (str_eqb (lit "ssid") (lit "ssid")) with true in Eb. change (str_eqb (lit "ssid") (lit "psk")) with false in Eb.
        cbn [andb orb] in Eb. apply bool_decide_eq_false in Eb. intros _ p' s' Hp'. exfalso. apply Eb. by eexists. }
    destruct (str_eqb name (lit "priority")) eqn:En.
    + destruct Hw as [H1 H2 H3 H4].
      destruct (update_prio_ok (with_net w id n1)) as (w' & -> & Hw' & Hnets & _).
      * cbn [conf_nets with_net]. by rewrite put_ids.
      * cbn [conf_nets with_net]. apply put_Forall; [done|]. cbn [fst]. apply find_net_elem in Hf.
        rewrite Forall_forall in H2. by apply (H2 (id, n)).
      * cbn [conf_nets with_net]. by apply put_Forall.
      * ret_simpl. eexists 0, w', eff, n1, n1, ret. split_and!; [done| |done|done|intros; apply same_refl|by right].
        rewrite <- Hnets in Hf1. split_and!; [done|by left|done| |done|intros _ H; apply Hfit; [lia|done]].
        intros j Hj. rewrite Hnets. by apply Ho1.
    + apply Hplain; [by left|left|done|done|lia]. intros ->. by vm_compute in En.
Qed.
End set.

(** ** Commands *)

Lemma split_space_app a b : SP ∉ a → split_space (a ++ SP :: b) = Some (a, b).
Proof.
  intros Ha. unfold split_space. rewrite strchr_app_here by done. cbn [mbind option_bind].
  rewrite take_app_length. do 2 f_equal. rewrite cons_middle, app_assoc. apply drop_app_length'.
  rewrite length_app. simpl. lia.
Qed.

Lemma split_space_parts s a b : cstring s → split_space s = Some (a, b) → cstring a ∧ cstring b ∧ strlen b ≤ strlen s.
Proof.
  intros Hs. unfold split_space. destruct (strchr s SP) as [i|]; [|done]. intros [= <- <-].
  split_and!; [by apply Forall_take|by apply Forall_drop|]. unfold strlen. rewrite length_drop. lia.
Qed.

(** Room in the counters of EAP methods for a command. *)
Definition room_for (w : wpa_supplicant) (cmd : str) : Prop :=
  cstring cmd ∧ strlen cmd < MANY ∧
  Forall (λ e : Z * net, get_int e.2 (lit "leap") + strlen cmd ≤ INT_MAX ∧
                         get_int e.2 (lit "non_leap") + strlen cmd ≤ INT_MAX) (conf_nets w).

(** C14: SET_NETWORK, with a command of less than 10^8 characters, never goes
    wrong and keeps the configuration well formed -
    unique identifiers, well-formed variables and the lists of priorities that
    the priorities of the networks say; it changes one network at most, and
    when it replies OK, the pre-shared key of this network stays the one that
    its passphrase and its SSID give, in whatever order these are set. *)
Theorem network_set_safe eap_methods pbkdf2_sha1 w cmd :
  short_names eap_methods → (∀ p s, length (pbkdf2_sha1 p s) = 32%nat ∧ byte_list (pbkdf2_sha1 p s)) →
  conf_ok w → room_for w cmd →
  ∃ r w' eff, wpa_supplicant_ctrl_iface_set_network eap_methods pbkdf2_sha1 w cmd = Ret (r, w', eff) ∧
    conf_ok w' ∧ (r = 0 ∨ r = -1) ∧
    ∃ id, (∀ j, j ≠ id → find_net (conf_nets w') j = find_net (conf_nets w) j) ∧
      ∀ n, r = 0 → find_net (conf_nets w) id = Some n → ∃ n', find_net (conf_nets w') id = Some n' ∧
        (psk_current pbkdf2_sha1 n → psk_current pbkdf2_sha1 n') ∧ (wep_fit n → wep_fit n').
Proof.
  intros Hs Hk Hw (Hc & Hl & Hr). unfold wpa_supplicant_ctrl_iface_set_network.
  assert (Hno : ∃ (r : Z) (w' : wpa_supplicant) (eff : list effect), Ret (-1, w, []) = Ret (r, w', eff) ∧
    conf_ok w' ∧ (r = 0 ∨ r = -1) ∧
    ∃ id, (∀ j, j ≠ id → find_net (conf_nets w') j = find_net (conf_nets w) j) ∧
      ∀ n, r = 0 → find_net (conf_nets w) id = Some n → ∃ n', find_net (conf_nets w') id = Some n' ∧
        (psk_current pbkdf2_sha1 n → psk_current pbkdf2_sha1 n') ∧ (wep_fit n → wep_fit n')).
  { exists (-1), w, []. split_and!; [done|done|by right|]. exists 0. by split. }
  destruct (split_space cmd) as [[ids rest]|] eqn:E1; [|exact Hno].
  destruct (split_space rest) as [[name value]|] eqn:E2; [|exact Hno].
  destruct (split_space_parts _ _ _ Hc E1) as (_ & Hc1 & Hl1).
  destruct (split_space_parts _ _ _ Hc1 E2) as (_ & Hc2 & Hl2).
  destruct (find_net (conf_nets w) (atoi ids)) as [n|] eqn:Ef; [|exact Hno].
  rewrite Forall_forall in Hr. destruct (Hr _ (find_net_elem _ _ _ Ef)) as [Hr1 Hr2]. cbn [snd] in *.
  assert (Hv : value_ok n value) by (split_and!; (done || lia)).
  destruct (update_network_ok eap_methods Hs pbkdf2_sha1 Hk w (atoi ids) n name value Hw Ef Hv)
    as (r & w' & eff & n1 & n' & ret & -> & (H1 & H2 & H3 & H4 & H5 & H6) & _). ret_simpl.
  rewrite H3. ret_simpl. eexists r, w', _. split; [done|]. split_and!; [done|done|].
  exists (atoi ids). split; [exact H4|]. intros m Hr0 Hm. rewrite Ef in Hm. injection Hm as <-.
  exists n'. split; [done|]. by auto.
Qed.

(** A configuration of two networks. *)
Definition demo_key (p : str) (s : list Z) : list Z := replicate 32 (strlen p mod 256).

Lemma demo_key_ok p s : length (demo_key p s) = 32%nat ∧ byte_list (demo_key p s).
Proof.
  split; [done|]. apply Forall_replicate. pose proof (Z.mod_pos_bound (strlen p) 256 ltac:(lia)). lia.
Qed.

Definition demo_w : wpa_supplicant := WpaS [(0, with_pass); (2, new_net)] [[0; 2]] None.

Lemma demo_w_ok : conf_ok demo_w.
Proof.
  split.
  - by apply (bool_decide_unpack _).
  - by apply (bool_decide_unpack _).
  - constructor; [apply with_pass_ok|]. constructor; [apply new_net_ok|constructor].
  - exists [0]. split; [split|by vm_compute]; [by repeat constructor|]. intros p.
    assert (Hp : ∀ s, s ∈ networks (conf_of demo_w) → priority s = 0).
    { intros s Hs. assert (HF : Forall (λ s, priority s = 0) (networks (conf_of demo_w))) by by apply (bool_decide_unpack _).
      rewrite Forall_forall in HF. by apply HF. }
    split.
    + intros ->%list_elem_of_singleton. exists (as_ssid (0, with_pass)). split; [by left|by vm_compute].
    + intros (s & Hs & <-). rewrite (Hp s Hs). by left.
Qed.

Lemma network_set_safe_witness :
  ∃ r w' eff, wpa_supplicant_ctrl_iface_set_network some_methods demo_key demo_w (lit "0 ssid " ++ [DQ] ++ lit "home" ++ [DQ])
      = Ret (r, w', eff) ∧
    conf_ok w' ∧ (r = 0 ∨ r = -1) ∧
    ∃ id, (∀ j, j ≠ id → find_net (conf_nets w') j = find_net (conf_nets demo_w) j) ∧
      ∀ n, r = 0 → find_net (conf_nets demo_w) id = Some n → ∃ n', find_net (conf_nets w') id = Some n' ∧
        (psk_current demo_key n → psk_current demo_key n') ∧ (wep_fit n → wep_fit n').
Proof.
  apply (network_set_safe some_methods demo_key demo_w (lit "0 ssid " ++ [DQ] ++ lit "home" ++ [DQ]));
    [by apply (bool_decide_unpack _)|exact demo_key_ok|exact demo_w_ok|].
  split_and!; [by apply (bool_decide_unpack _)|by vm_compute|by apply (bool_decide_unpack _)].
Defined.

(** DUP_NETWORK copies a variable, keys included: when the source shows a
    text that says all of the value, the reply is OK and the destination then
    shows this text.  This holds for two interfaces and for one. *)
Theorem dup_network_copies eap_methods pbkdf2_sha1 w dst id_s id_d name n n2 t :
  short_names eap_methods → (∀ p s, length (pbkdf2_sha1 p s) = 32%nat ∧ byte_list (pbkdf2_sha1 p s)) →
  conf_ok w → conf_ok dst → find_net (conf_nets w) id_s = Some n → find_net (conf_nets dst) id_d = Some n2 →
  wep_fit n → var_shown name n → wpa_config_get eap_methods n name = Ret (Some t) → t ≠ [] → value_ok n2 t →
  ∃ dst' eff n', wpa_supplicant_ctrl_iface_dup_network eap_methods pbkdf2_sha1 w
      (fmt_d id_s ++ SP :: fmt_d id_d ++ SP :: name) dst = Ret (0, dst', eff) ∧
    conf_ok dst' ∧ find_net (conf_nets dst') id_d = Some n' ∧ wpa_config_get eap_methods n' name = Ret (Some t).
Proof.
  intros Hs Hk Hw Hd Hn Hn2 Hfit Hsh Hget Hne Hv.
  assert (Hid : ∀ u i m, conf_ok u → find_net (conf_nets u) i = Some m → net_ok m ∧ atoi (fmt_d i) = i).
  { intros u i m Hu Hf. apply find_net_elem in Hf. destruct Hu as [_ Hi Hm _]. rewrite Forall_forall in Hi, Hm.
    split; [by apply (Hm (i, m))|]. apply atoi_fmt_d. by apply (Hi (i, m)). }
  destruct (Hid w id_s n Hw Hn) as [Hok Hi1]. destruct (Hid dst id_d n2 Hd Hn2) as [Hok2 Hi2].
  assert (Hnosp : ∀ i, SP ∉ fmt_d i) by (intros i; apply graphic_no_space, fmt_d_graphic).
  unfold wpa_supplicant_ctrl_iface_dup_network. rewrite !split_space_app by done. rewrite Hi1, Hi2, Hn, Hn2, Hget. ret_simpl.
  destruct (update_network_ok eap_methods Hs pbkdf2_sha1 Hk dst id_d n2 name t Hd Hn2 Hv)
    as (r & w' & eff & n1 & n' & ret & -> & (H1 & H2 & H3 & _) & Hset & Hret & Hsame & Hpass).
  destruct (config_copy_lemma eap_methods n n2 name t Hs Hok Hok2 Hfit Hsh Hget Hne) as (r2 & n3 & Hset2 & Hr2 & Hget2).
  rewrite Hset in Hset2. injection Hset2 as <- <-. specialize (Hret Hr2). subst r.
  exists w', eff, n'. split_and!; [done|done|done|]. rewrite <- Hget2. symmetry.
  unfold wpa_config_get. destruct (find_field _ name) as [f|] eqn:Ef; [|done].
  assert (Hwr : writer f n1 = writer f n'); [|by rewrite Hwr].
  destruct (field_ok eap_methods Hs name f Ef) as [_ Hokf].
  destruct (decide (name = lit "psk")) as [->|Hnp].
  - destruct (Hpass ltac:(discriminate)) as [[p Hp]| ->]; [|done].
    change (find_field (ssid_fields eap_methods) (lit "psk"))
      with (Some (FUNC_KEY (lit "psk") wpa_config_parse_psk wpa_config_write_psk)) in Ef. injection Ef as <-.
    cbn [writer FUNC_KEY]. unfold wpa_config_write_psk.
    pose proof (Hsame (MStr (lit "passphrase")) ltac:(done) ltac:(done)) as Hsp. cbn [same_member] in Hsp.
    by rewrite <- Hsp, Hp.
  - apply (var_frame (VarOk := Hokf)). intros m Hm.
    assert (Hin : lit "psk" ∈ var_names eap_methods) by (apply var_in; by vm_compute).
    assert (Hd2 : ∀ m, m ∈ psk_members → m ∉ members_of name).
    { intros x Hx. apply (members_disjoint eap_methods (lit "psk") name); [done|by eapply found_name|congruence|exact Hx]. }
    apply Hsame; intros ->; [apply (Hd2 MPsk)|apply (Hd2 (MInt (lit "psk_set")))]; (done || small_member).
Qed.

Lemma dup_network_copies_witness :
  ∃ dst' eff n', wpa_supplicant_ctrl_iface_dup_network some_methods demo_key demo_w
      (fmt_d 0 ++ SP :: fmt_d 2 ++ SP :: lit "psk") demo_w = Ret (0, dst', eff) ∧
    conf_ok dst' ∧ find_net (conf_nets dst') 2 = Some n' ∧
    wpa_config_get some_methods n' (lit "psk") = Ret (Some (DQ :: lit "secret 123" ++ [DQ])).
Proof.
  apply (dup_network_copies some_methods demo_key demo_w demo_w 0 2 (lit "psk") with_pass new_net
           (DQ :: lit "secret 123" ++ [DQ]));
    [by apply (bool_decide_unpack _)|exact demo_key_ok|exact demo_w_ok|exact demo_w_ok|reflexivity|reflexivity
    |by apply (bool_decide_unpack _)|exact I|by vm_compute|done|].
  split_and!; [by apply (bool_decide_unpack _)|by vm_compute|by vm_compute|by vm_compute].
Defined.

(** ** Adding a network *)

(** The block of a new network. *)
Definition added_net : net := wpa_config_set_network_defaults (set_int zalloc_net (lit "disabled") 1).

Lemma added_net_ok : net_ok added_net.
Proof. apply net_okb_ok. by vm_compute. Qed.

Lemma snoc_ids l id : NoDup (fst <$> l) → (∀ e : Z * net, e ∈ l → e.1 < id) → ∀ n, NoDup (fst <$> l ++ [(id, n)]).
Proof.
  intros Hd Hlt n. rewrite fmap_app. apply NoDup_app. split_and!; [done| |apply NoDup_singleton].
  intros i (e & -> & He)%list_elem_of_fmap Hi. apply list_elem_of_singleton in Hi. specialize (Hlt e He). cbn in Hi. lia.
Qed.

Lemma find_net_snoc l id n j : (∀ e : Z * net, e ∈ l → e.1 < id) →
  find_net (l ++ [(id, n)]) j = if decide (j = id) then Some n else find_net l j.
Proof.
  induction l as [|e l IH]; intros Hlt; cbn [app find_net fst snd].
  - destruct (decide (j = id)) as [->|Hn]; [by rewrite Z.eqb_refl|by rewrite (proj2 (Z.eqb_neq _ _))].
  - rewrite IH by (intros x Hx; apply Hlt; by right). specialize (Hlt e ltac:(by left)).
    destruct (j =? e.1) eqn:E; [|done]. zbool. rewrite decide_False; [done|lia].
Qed.

Lemma add_network_spec w :
  conf_ok w → max_id (networks (conf_of w)) < INT_MAX →
  let id := max_id (networks (conf_of w)) + 1 in
  ∃ w', wpa_supplicant_add_network w = Ret (Some id, w', [NetworkRegistered id]) ∧ conf_ok w' ∧
    conf_nets w' = conf_nets w ++ [(id, added_net)] ∧ current_ssid w' = current_ssid w ∧
    (∀ e, e ∈ conf_nets w → e.1 < id) ∧ 0 ≤ id.
Proof.
  intros Hw Hm id. destruct (max_id_spec (networks (conf_of w))) as (Hge & Hle & _).
  assert (Hlt : ∀ e, e ∈ conf_nets w → e.1 < id).
  { intros e He. specialize (Hle (as_ssid e)). cbn [as_ssid ssid_id] in Hle. unfold id.
    assert (e.1 ≤ max_id (networks (conf_of w))); [|lia]. apply Hle. apply list_elem_of_fmap. by exists e. }
  pose proof (conf_unique w Hw) as Hu.
  unfold wpa_supplicant_add_network, wpa_config_add_network. fold id.
  assert (Hint : int_chk id = Ret id) by (apply int_chk_Ret; split; [done|unfold id, INT_MIN, INT_MAX in *; lia]).
  rewrite Hint. ret_simpl. set (s := set_id zalloc_ssid id).
  assert (Hd : networks_ok (networks (conf_of w) ++ [s])).
  { unfold networks_ok. rewrite fmap_app, ids_of. pose proof (snoc_ids (conf_nets w) id Hu Hlt added_net) as H.
    by rewrite fmap_app in H. }
  destruct (update_prio_list_spec (λ _, true) (λ _, eq_refl) (Config (networks (conf_of w) ++ [s]) (pssid (conf_of w))) Hd)
    as (c & -> & Hn & Hp). ret_simpl.
  eexists. split; [done|]. split_and!; [|done|done|exact Hlt|unfold id; lia].
  split; cbn [conf_nets].
  - by apply snoc_ids.
  - apply Forall_app. split; [by apply conf_ids|]. constructor; [|constructor]. cbn. unfold id, INT_MIN, INT_MAX in *. lia.
  - apply Forall_app. split; [by apply conf_vars|]. constructor; [exact added_net_ok|constructor].
  - destruct c as [cn cp]. cbn [networks pssid] in *. subst cn. unfold conf_of. cbn [conf_nets conf_pssid].
    eapply prio_lists_ext; [|exact Hp]. rewrite !fmap_app. f_equal.
Qed.

(** ADD_NETWORK adds a network with an identifier that is above all others
    and replies with it; the new network is disabled and has the default
    values, the other networks stay as they are. *)
Theorem network_add_safe w b buflen :
  conf_ok w → max_id (networks (conf_of w)) < INT_MAX → 12 ≤ buflen ≤ Z.of_nat (length b) →
  let id := max_id (networks (conf_of w)) + 1 in
  ∃ b' w', wpa_supplicant_ctrl_iface_add_network w b buflen =
      Ret (strlen (fmt_d id ++ [NL]), b', w', [NetworkRegistered id]) ∧
    buf_str b' 0 = Ret (fmt_d id ++ [NL]) ∧ conf_ok w' ∧
    (∀ e, e ∈ conf_nets w → e.1 < id) ∧
    (∀ j, find_net (conf_nets w') j = if decide (j = id) then Some added_net else find_net (conf_nets w) j) ∧
    get_int added_net (lit "disabled") = 1.
Proof.
  intros Hw Hm Hb id. destruct (add_network_spec w Hw Hm) as (w' & Hadd & Hw' & Hn & _ & Hlt & H0). fold id in Hadd, Hn, Hlt, H0.
  unfold wpa_supplicant_ctrl_iface_add_network. rewrite Hadd. ret_simpl.
  assert (Hlen : strlen (fmt_d id ++ [NL]) ≤ 11).
  { rewrite strlen_app. change (strlen [NL]) with 1. unfold fmt_d. rewrite (proj2 (Z.ltb_ge _ _)) by done.
    destruct (fmt_u_spec id) as [Hl _]; [unfold id, INT_MAX in *; lia|]. unfold strlen. lia. }
  pose proof (strlen_nonneg (fmt_d id ++ [NL])).
  destruct (snprintf_built b [] (fmt_d id ++ [NL]) buflen (built_nil _)) as (b' & H1 & Hb' & _);
    [lia|change (strlen []) with 0; lia|]. change (strlen []) with 0 in H1. rewrite H1. ret_simpl.
  assert (He : os_snprintf_error buflen (strlen (fmt_d id ++ [NL])) = false).
  { unfold os_snprintf_error, u32. rewrite Z.mod_small by lia.
    by rewrite (proj2 (Z.ltb_ge _ _)), (proj2 (Z.leb_gt _ _)) by lia. }
  rewrite He. exists b', w'. split_and!; [done| |done|done| |by vm_compute].
  - apply built_str; [exact Hb'|]. apply cstring_app. split; [apply printable_cstring, fmt_d_printable|].
    by constructor; [|constructor].
  - intros j. rewrite Hn. by apply find_net_snoc.
Qed.

Lemma network_add_safe_witness :
  ∃ b' w', wpa_supplicant_ctrl_iface_add_network demo_w (uninit 4096) 4096 =
      Ret (strlen (fmt_d 3 ++ [NL]), b', w', [NetworkRegistered 3]) ∧
    buf_str b' 0 = Ret (fmt_d 3 ++ [NL]) ∧ conf_ok w' ∧
    (∀ e, e ∈ conf_nets demo_w → e.1 < 3) ∧
    (∀ j, find_net (conf_nets w') j = if decide (j = 3) then Some added_net else find_net (conf_nets demo_w) j) ∧
    get_int added_net (lit "disabled") = 1.
Proof.
  apply (network_add_safe demo_w (uninit 4096) 4096); [exact demo_w_ok|by vm_compute|].
  split; [done|by vm_compute].
Defined.
