(* ===== verification/CliCore.v ===== *)
(** * The state of the wrapper and its connection
      (wpa_supplicant/libwpa_cli_wrapper.c)

    The static variables of the file are the record [cli].  The daemon's
    socket directory is the compiled-in one; the file has no [main], so
    nothing ever sets [interactive], [action_file] or [pid_file], but the code
    that reads them is modelled.  The build is the non-ANDROID one with UNIX
    sockets. *)

From S2P Require Import Prelude CString Scan Io WpaCtrl CliUtil.
From coqutil Require Export Datatypes.RecordSetters.
Export DoubleBraceUpdate.

(** A [char *] that may be [NULL] or point to storage that is gone. *)
Inductive cptr : Type :=
  | Null
  | Live (s : str)
  | Dangling.

Definition deref (p : cptr) : outcome str :=
  match p with
  | Live s => Ret s
  | Null => UB "NULL dereferenced"
  | Dangling => UB "dangling pointer dereferenced"
  end.

Record cli := Cli {
  ctrl_conn : option wpa_ctrl;
  mon_conn : option wpa_ctrl;
  wpa_cli_quit : Z;
  wpa_cli_attached : Z;
  wpa_cli_connected : Z;
  wpa_cli_last_id : Z;
  ctrl_iface_dir : str;
  client_socket_dir : option str;
  ctrl_ifname : cptr;
  pid_file : option str;
  action_file : option str;
  ping_interval : Z;
  interactive : Z;
  ifname_prefix : cptr;
  bsses : list str;
  p2p_peers : list str;
  p2p_groups : list str;
  ifnames : list str;
  networks : list str;
  warning_displayed : Z;
  hfile : option str;
  edit_started : Z;
  g_wpa__cli_initialized : Z;
}.

Definition CONFIG_CTRL_IFACE_DIR : str := lit "/var/run/wpa_supplicant".

(** The state before anything ran. *)
Definition cli_init : cli :=
  Cli None None 0 0 (-1) 0 CONFIG_CTRL_IFACE_DIR None Null None None 5 0 Null
    [] [] [] [] [] 0 None 0 0.

(** Events of common/wpa_ctrl.h. *)
Definition WPA_EVENT_CONNECTED : str := lit "CTRL-EVENT-CONNECTED ".
Definition WPA_EVENT_DISCONNECTED : str := lit "CTRL-EVENT-DISCONNECTED ".
Definition WPA_EVENT_TERMINATING : str := lit "CTRL-EVENT-TERMINATING ".
Definition WPA_EVENT_BSS_ADDED : str := lit "CTRL-EVENT-BSS-ADDED ".
Definition WPA_EVENT_BSS_REMOVED : str := lit "CTRL-EVENT-BSS-REMOVED ".

(** [str_starts] of utils/common.c. *)
Definition str_starts (s start : str) : bool := strncmp_eq s start (length start).

(** [argv[i]] of an argument vector. *)
Definition arg (argv : list str) (i : nat) : outcome str :=
  need "argv read past its end" (argv !! i).

Definition wpa_cli_show_event (event : str) : Z :=
  match strchr event GT with
  | None => 1
  | Some i =>
      let start := drop (S i) event in
      if str_starts start WPA_EVENT_BSS_ADDED || str_starts start WPA_EVENT_BSS_REMOVED
      then 0 else 1
  end.

Section Core.
Context {E : Type} `{OS E} (fuel : nat).
Local Abbreviation M := (M E cli).

Definition gets {A} (f : cli → A) : M A := c ← get; mret (f c).
Definition put (f : cli → cli) : M unit := modify f.

(** Declared before [wpa_cli_open_connection] in the source, too. *)
Definition wpa_cli_close_connection : M unit :=
  conn ← gets ctrl_conn;
  match conn with
  | None => mret tt
  | Some ctrl =>
      attached ← gets wpa_cli_attached;
      (if negb (attached =? 0) then
         i ← gets interactive;
         mon ← gets mon_conn;
         target ← lift (need "NULL connection" (if negb (i =? 0) then mon else Some ctrl));
         wpa_ctrl_detach fuel target;;
         put (λ c, c {{ wpa_cli_attached := 0 }})
       else mret tt);;
      wpa_ctrl_close (Some ctrl);;
      put (λ c, c {{ ctrl_conn := None }});;
      mon ← gets mon_conn;
      match mon with
      | None => mret tt
      | Some m =>
          sys_ (EloopUnregisterRead (wpa_ctrl_get_fd m));;
          wpa_ctrl_close (Some m);;
          put (λ c, c {{ mon_conn := None }})
      end
  end.

(** Whether the directory for the client sockets is missing. *)
Definition client_dir_missing : M bool :=
  dir ← gets client_socket_dir;
  match dir with
  | Some (c :: d) =>
      r ← sys (Access (c :: d));
      if r_ret r <? 0 then sys_ (Perror (c :: d));; mret true else mret false
  | _ => mret false
  end.

(** The path of the control socket; [None] when there is no memory for it. *)
Definition socket_path (ifname : str) : M (option str) :=
  dir ← gets ctrl_iface_dir;
  let flen := strlen dir + strlen ifname + 2 in
  a ← alloc flen;
  if negb a then mret None
  else
    '(res, cfile) ← lift (snprintf (uninit flen) 0 flen (dir ++ lit "/" ++ ifname));
    if os_snprintf_error flen res then mret None
    else path ← lift (buf_str cfile 0); mret (Some path).

Definition wpa_cli_open_connection (ifname : cptr) (attach : Z) : M Z :=
  if match ifname with Null => true | _ => false end then mret (-1)
  else
    missing ← client_dir_missing;
    if (missing : bool) then mret (-1)
    else
      name ← lift (deref ifname);
      cfile ← socket_path name;
      match cfile with
      | None => mret (-1)
      | Some cfile =>
          cdir ← gets client_socket_dir;
          conn ← wpa_ctrl_open2 (Some cfile) cdir;
          put (λ c, c {{ ctrl_conn := conn }});;
          match conn with
          | None => mret (-1)
          | Some _ =>
              i ← gets interactive;
              mon ← (if negb (attach =? 0) && negb (i =? 0)
                     then wpa_ctrl_open2 (Some cfile) cdir else mret None);
              put (λ c, c {{ mon_conn := mon }});;
              match mon with
              | None => mret 0
              | Some m =>
                  r ← wpa_ctrl_attach fuel m;
                  if r =? 0 then
                    put (λ c, c {{ wpa_cli_attached := 1 }});;
                    (if negb (i =? 0) then
                       sys_ (EloopRegisterRead (wpa_ctrl_get_fd m) "wpa_cli_mon_receive")
                     else mret tt);;
                    mret 0
                  else
                    printf (line "Warning: Failed to attach to wpa_supplicant.");;
                    wpa_cli_close_connection;;
                    mret (-1)
              end
          end
      end.

Definition wpa_cli_msg_cb (msg : buf) (len : Z) : M unit :=
  s ← lift (buf_str msg 0); printf (s ++ [NL]).

(** [cmd] behind the prefix, formatted into the buffer [b] of [size] bytes
    which the reply will overwrite, if a prefix is set: the text to send, and
    whether [cmd] now points to the buffer. *)
Definition prefixed_cmd (cmd : str) (b : buf) (size : Z) : M (bool * str * buf) :=
  prefix ← gets ifname_prefix;
  match prefix with
  | Null => mret (false, cmd, b)
  | p =>
      name ← lift (deref p);
      '(_, b1) ← lift (snprintf b 0 size (lit "IFNAME=" ++ name ++ lit " " ++ cmd));
      b2 ← lift (buf_set b1 (size - 1) 0);
      cmd' ← lift (buf_str b2 0);
      mret (true, cmd', b2)
  end.

(** The request and its diagnostics, shared by the functions below: [cmd] is
    printed from where it points when that is the reply buffer. *)
Definition request_cmd (ctrl : option wpa_ctrl) (cmd : str) (b : buf) (size : Z)
    : M (Z * buf * Z) :=
  '(aliased, cmd', b1) ← prefixed_cmd cmd b (u64 size);
  ct ← lift (need "NULL connection" ctrl);
  '(ret, b2, len) ← wpa_ctrl_request fuel ct cmd' (strlen cmd') b1 (u64 (size - 1))
                      (Some wpa_cli_msg_cb);
  if ret <? 0 then
    shown ← (if (aliased : bool) then lift (buf_str b2 0) else mret cmd');
    if ret =? -2 then
      printf (lit "'" ++ shown ++ line "' command timed out.");; mret (-2, b2, len)
    else printf (lit "'" ++ shown ++ line "' command failed.");; mret (-1, b2, len)
  else mret (0, b2, len).

(** [printf("%s", buf)] and the newline an interactive session gets. *)
Definition print_reply (b : buf) (len : Z) : M unit :=
  s ← lift (buf_str b 0);
  printf s;;
  i ← gets interactive;
  if negb (i =? 0) && (0 <? len) then
    c ← lift (buf_get b (len - 1));
    if negb (c =? NL) then printf [NL] else mret tt
  else mret tt.

Definition not_connected : M Z :=
  printf (line "Not connected to wpa_supplicant - command dropped.");; mret (-1).

Definition _wpa_ctrl_command (ctrl : option wpa_ctrl) (cmd : str) (print : Z) : M Z :=
  conn ← gets ctrl_conn;
  match conn with
  | None => not_connected
  | Some _ =>
      '(ret, b, len) ← request_cmd ctrl cmd (uninit 4096) 4096;
      if ret <? 0 then mret ret
      else if negb (print =? 0) then
        b' ← lift (buf_set b len 0); print_reply b' len;; mret 0
      else mret 0
  end.

Definition wpa_ctrl_command (ctrl : option wpa_ctrl) (cmd : str) : M Z :=
  _wpa_ctrl_command ctrl cmd 1.

Definition too_few_args (cmd : str) (min_args : Z) : M unit :=
  printf (lit "Invalid " ++ cmd ++ lit " command - at least " ++ fmt_d min_args
            ++ lit " argument" ++ (if 1 <? min_args then lit "s are" else lit " is")
            ++ line " required.").

Definition wpa_cli_cmd (ctrl : option wpa_ctrl) (cmd : str) (min_args : Z) (argv : list str)
    : M Z :=
  if Z.of_nat (length argv) <? min_args then too_few_args cmd min_args;; mret (-1)
  else
    '(r, b) ← write_cmd (uninit 4096) 4096 cmd argv;
    if r <? 0 then mret (-1)
    else cmd' ← lift (buf_str b 0); wpa_ctrl_command ctrl cmd'.

(** ** The variants that fill the buffer of the caller *)

Definition _wpa_ctrl_command_with_results (ctrl : option wpa_ctrl) (cmd : str) (print : Z)
    (b : buf) (buf_len : Z) : M (Z * buf) :=
  conn ← gets ctrl_conn;
  match conn with
  | None => r ← not_connected; mret (r, b)
  | Some _ =>
      '(ret, b1, len) ← request_cmd ctrl cmd b buf_len;
      if ret <? 0 then mret (ret, b1)
      else
        b2 ← lift (buf_set b1 len 0);
        (if negb (print =? 0) then print_reply b2 len else mret tt);;
        mret (0, b2)
  end.

Definition wpa_ctrl_command_with_results (ctrl : option wpa_ctrl) (cmd : str)
    (b : buf) (buf_len : Z) : M (Z * buf) :=
  _wpa_ctrl_command_with_results ctrl cmd 0 b buf_len.

Definition wpa_cli_cmd_with_results (ctrl : option wpa_ctrl) (cmd : str) (min_args : Z)
    (argv : list str) (b : buf) (buf_len : Z) : M (Z * buf) :=
  if Z.of_nat (length argv) <? min_args then too_few_args cmd min_args;; mret (-1, b)
  else
    '(r, tm_cmd) ← write_cmd (uninit 4096) 4096 cmd argv;
    if r <? 0 then mret (-1, b)
    else cmd' ← lift (buf_str tm_cmd 0); wpa_ctrl_command_with_results ctrl cmd' b buf_len.

End Core.

(** Symbolic runs that touch the state of the wrapper. *)
Ltac cli_step :=
  first
    [ run_step
    | match goal with
      | |- wlp (gets _) _ _ => apply wlp_bind, wlp_get, wlp_ret
      | |- wlp (put _) _ _ => apply wlp_modify
      | |- wp (gets _) _ _ => apply wp_bind, wp_get, wp_ret
      | |- wp (put _) _ _ => apply wp_modify
      end; cbv beta ].
