(* ===== verification/CliLists.v ===== *)
(** * The lists behind command completion (libwpa_cli_wrapper.c)

    [update_bssid_list], [update_ifnames] and [update_networks] refill the
    lists from replies of the daemon, [cli_event] keeps them current.  The
    reply loops advance through the buffer, so its length is fuel enough. *)

From S2P Require Import Prelude CString Scan Io WpaCtrl CliUtil CliCore.

Definition P2P_EVENT_DEVICE_FOUND : str := lit "P2P-DEVICE-FOUND ".
Definition P2P_EVENT_DEVICE_LOST : str := lit "P2P-DEVICE-LOST ".
Definition P2P_EVENT_GROUP_STARTED : str := lit "P2P-GROUP-STARTED ".
Definition P2P_EVENT_GROUP_REMOVED : str := lit "P2P-GROUP-REMOVED ".

(** The build options the file tests. *)
Record config := Config {
  CONFIG_CTRL_IFACE : bool;
  CONFIG_NO_CONFIG_WRITE : bool;
  IEEE8021X_EAPOL : bool;
  CONFIG_IEEE80211W : bool;
  CONFIG_HT_OVERRIDES : bool;
  CONFIG_VHT_OVERRIDES : bool;
  CONFIG_MACSEC : bool;
  CONFIG_TDLS : bool;
  CONFIG_ERP : bool;
  CONFIG_FIPS : bool;
  CONFIG_ACS : bool;
  CONFIG_WPS : bool;
  CONFIG_WPS_NFC : bool;
  CONFIG_AP : bool;
  CONFIG_MESH : bool;
  CONFIG_P2P : bool;
  CONFIG_WIFI_DISPLAY : bool;
  CONFIG_INTERWORKING : bool;
  CONFIG_HS20 : bool;
  CONFIG_AUTOSCAN : bool;
  CONFIG_WNM : bool;
  CONFIG_TESTING_OPTIONS : bool;
}.

(** [#ifdef] around the elements of an initialiser. *)
Definition ifdef {A} (option : bool) (l : list A) : list A := if option then l else [].

Section Lists.
Context {E : Type} `{OS E} (fuel : nat).
Local Abbreviation M := (M E cli).

(** A request without callback and the terminator behind its reply; [None]
    when it failed. *)
Definition list_request (ctrl : wpa_ctrl) (cmd : str) : M (option buf) :=
  '(ret, b, len) ← wpa_ctrl_request fuel ctrl cmd (strlen cmd) (uninit 4096) 4096 None;
  if ret <? 0 then mret None else b' ← lift (buf_set b len 0); mret (Some b').

Fixpoint bssid_loop (n : nat) (b : buf) (pos : Z) : M unit :=
  match n with
  | O => λ _, OutOfFuel
  | S n' =>
      s ← lift (buf_str b pos);
      match strstr s (lit "bssid=") with
      | None => mret tt
      | Some i =>
          let pos := pos + Z.of_nat i + 6 in
          s ← lift (buf_str b pos);
          match strchr s NL with
          | None => mret tt
          | Some j =>
              b' ← lift (buf_set b (pos + Z.of_nat j) 0);
              txt ← lift (buf_str b' pos);
              l ← gets bsses;
              '(_, l') ← cli_txt_list_add l txt;
              put (λ c, c {{ bsses := l' }});;
              bssid_loop n' b' (pos + Z.of_nat j + 1)
          end
      end
  end.

Definition update_bssid_list (ctrl : option wpa_ctrl) : M unit :=
  match ctrl with
  | None => mret tt
  | Some ct =>
      r ← list_request ct (lit "BSS RANGE=ALL MASK=0x2");
      match r with None => mret tt | Some b => bssid_loop (S (length b)) b 0 end
  end.

Fixpoint ifnames_loop (n : nat) (b : buf) (pos : Z) : M unit :=
  match n with
  | O => λ _, OutOfFuel
  | S n' =>
      s ← lift (buf_str b pos);
      match strchr s NL with
      | None => mret tt
      | Some j =>
          b' ← lift (buf_set b (pos + Z.of_nat j) 0);
          name ← lift (buf_str b' pos);
          '(ret, txt) ← lift (snprintf (uninit 200) 0 200 (lit "ifname=" ++ name));
          (if negb (os_snprintf_error 200 ret) then
             t ← lift (buf_str txt 0);
             l ← gets ifnames;
             '(_, l') ← cli_txt_list_add l t;
             put (λ c, c {{ ifnames := l' }})
           else mret tt);;
          ifnames_loop n' b' (pos + Z.of_nat j + 1)
      end
  end.

Definition update_ifnames (ctrl : option wpa_ctrl) : M unit :=
  put (λ c, c {{ ifnames := cli_txt_list_flush (ifnames c) }});;
  match ctrl with
  | None => mret tt
  | Some ct =>
      r ← list_request ct (lit "INTERFACES");
      match r with None => mret tt | Some b => ifnames_loop (S (length b)) b 0 end
  end.

Fixpoint networks_loop (n : nat) (b : buf) (pos : Z) (header : Z) : M unit :=
  match n with
  | O => λ _, OutOfFuel
  | S n' =>
      s ← lift (buf_str b pos);
      match strchr s NL with
      | None => mret tt
      | Some j =>
          b' ← lift (buf_set b (pos + Z.of_nat j) 0);
          (if header =? 0 then
             txt ← lift (buf_str b' pos);
             l ← gets networks;
             '(_, l') ← cli_txt_list_add_word l txt TAB;
             put (λ c, c {{ networks := l' }})
           else mret tt);;
          networks_loop n' b' (pos + Z.of_nat j + 1) 0
      end
  end.

Definition update_networks (ctrl : option wpa_ctrl) : M unit :=
  put (λ c, c {{ networks := cli_txt_list_flush (networks c) }});;
  match ctrl with
  | None => mret tt
  | Some ct =>
      r ← list_request ct (lit "LIST_NETWORKS");
      match r with None => mret tt | Some b => networks_loop (S (length b)) b 0 1 end
  end.

(** The text after the second space from [start]. *)
Definition after_two_spaces (start : str) : option str :=
  i ← strchr start SP;
  let s := drop (S i) start in
  j ← strchr s SP;
  Some (drop (S j) s).

Definition after_dev_addr (start : str) : option str :=
  i ← strstr start (lit " p2p_dev_addr="); Some (drop (i + 14) start).

Definition cli_event (cfg : config) (event : str) : M unit :=
  match strchr event GT with
  | None => mret tt
  | Some i =>
      let start := drop (S i) event in
      if str_starts start WPA_EVENT_BSS_ADDED then
        match after_two_spaces start with
        | None => mret tt
        | Some s =>
            l ← gets bsses; '(_, l') ← cli_txt_list_add l s; put (λ c, c {{ bsses := l' }})
        end
      else if str_starts start WPA_EVENT_BSS_REMOVED then
        match after_two_spaces start with
        | None => mret tt
        | Some s => put (λ c, c {{ bsses := cli_txt_list_del_addr (bsses c) s }})
        end
      else if negb (CONFIG_P2P cfg) then mret tt
      else if str_starts start P2P_EVENT_DEVICE_FOUND then
        match after_dev_addr start with
        | None => mret tt
        | Some s =>
            l ← gets p2p_peers; '(_, l') ← cli_txt_list_add_addr l s;
            put (λ c, c {{ p2p_peers := l' }})
        end
      else if str_starts start P2P_EVENT_DEVICE_LOST then
        match after_dev_addr start with
        | None => mret tt
        | Some s => put (λ c, c {{ p2p_peers := cli_txt_list_del_addr (p2p_peers c) s }})
        end
      else if str_starts start P2P_EVENT_GROUP_STARTED then
        match strchr start SP with
        | None => mret tt
        | Some j =>
            l ← gets p2p_groups; '(_, l') ← cli_txt_list_add_word l (drop (S j) start) SP;
            put (λ c, c {{ p2p_groups := l' }})
        end
      else if str_starts start P2P_EVENT_GROUP_REMOVED then
        match strchr start SP with
        | None => mret tt
        | Some j =>
            l ← gets p2p_groups; l' ← cli_txt_list_del_word l (drop (S j) start) SP;
            put (λ c, c {{ p2p_groups := l' }})
        end
      else mret tt
  end.

End Lists.
