(* ===== verification/CliCmdBasic.v ===== *)
(** * The commands of the wrapper, first part (libwpa_cli_wrapper.c)

    One definition per [wpa_cli_cmd_*] function up to the mesh commands, in
    the order of the source; [argc] is the length of [argv].  [help] is with
    the command table. *)

From S2P Require Import Prelude CString Scan Io WpaCtrl CliUtil CliCore CliLists.

Definition WPA_CTRL_RSP : str := lit "CTRL-RSP-".
Definition SSID_MAX_LEN : nat := 32.

Section Commands.
Context {E : Type} `{OS E} (fuel : nat).
Local Abbreviation M := (M E cli).

Definition wpa_cli_version : str :=
  line "wpa_cli v2.6"
  ++ lit "Copyright (c) 2004-2016, Jouni Malinen <j@w1.fi> and contributors".

(** [os_snprintf] of a command into a local buffer of [size] bytes and the
    command sent; [too_long] is printed when it does not fit. *)
Definition fixed_cmd (size : Z) (txt too_long : str) (ctrl : option wpa_ctrl) : M Z :=
  '(res, cmd) ← lift (snprintf (uninit size) 0 size txt);
  if os_snprintf_error size res then
    (if bool_decide (too_long = []) then mret tt else printf too_long);; mret (-1)
  else cmd' ← lift (buf_str cmd 0); wpa_ctrl_command fuel ctrl cmd'.

(** The body the [CTRL-RSP] commands share: the field and its network on the
    first, the remaining arguments after spaces. *)
Definition rsp_command (field usage : str) (ctrl : option wpa_ctrl) (argv : list str) : M Z :=
  if Z.of_nat (length argv) <? 2 then printf usage;; mret (-1)
  else
    a0 ← lift (arg argv 0);
    a1 ← lift (arg argv 1);
    '(r, cmd) ← lift (append_all (uninit 256) 0 256
       ((WPA_CTRL_RSP ++ field ++ lit "-" ++ a0 ++ lit ":" ++ a1)
          :: map (λ a, lit " " ++ a) (drop 2 argv)));
    match r with
    | None => printf (lit "Too long " ++ field ++ line " command.");; mret (-1)
    | Some _ => cmd' ← lift (buf_str cmd 0); wpa_ctrl_command fuel ctrl cmd'
    end.

(** "%02x" of the (signed) characters of [t], two digits each, into a buffer
    of hexadecimal digits; at most [n] characters. *)
Fixpoint hex_loop (n : nat) (i : Z) (t : str) (hex : buf) : outcome buf :=
  match n, t with
  | S n', c :: t' =>
      '(_, hex') ← snprintf hex (i * 2) 3 (fmt_02x (u32 (sext8 c)));
      hex_loop n' (i + 1) t' hex'
  | _, _ => Ret hex
  end.

Definition hex_text (n : nat) (t : str) : outcome str :=
  hex ← buf_set (uninit (2 * Z.of_nat n + 1)) 0 0;
  hex' ← hex_loop n 0 t hex;
  buf_str hex' 0.

Definition wpa_cli_show_network_variables : M unit :=
  printf (line "set_network variables:"
    ++ line "  ssid (network name, SSID)"
    ++ line "  psk (WPA passphrase or pre-shared key)"
    ++ line "  key_mgmt (key management protocol)"
    ++ line "  identity (EAP identity)"
    ++ line "  password (EAP password)"
    ++ line "  ..."
    ++ [NL]
    ++ line "Note: Values are entered in the same format as the configuration file is using,"
    ++ line "i.e., strings values need to be inside double quotation marks."
    ++ lit "For example: set_network 1 ssid " ++ [DQ] ++ lit "network name" ++ [DQ] ++ [NL]
    ++ [NL]
    ++ line "Please see wpa_supplicant.conf documentation for full list of"
    ++ line "available variables.").

Definition wpa_cli_cmd_ifname (ctrl : option wpa_ctrl) (argv : list str) : M Z :=
  wpa_ctrl_command fuel ctrl (lit "IFNAME").

Definition wpa_cli_cmd_status (ctrl : option wpa_ctrl) (argv : list str) : M Z :=
  match argv with
  | [] => wpa_ctrl_command fuel ctrl (lit "STATUS")
  | a :: _ =>
      if strcmp a (lit "verbose") =? 0 then wpa_ctrl_command fuel ctrl (lit "STATUS-VERBOSE")
      else if strcmp a (lit "wps") =? 0 then wpa_ctrl_command fuel ctrl (lit "STATUS-WPS")
      else if strcmp a (lit "driver") =? 0 then wpa_ctrl_command fuel ctrl (lit "STATUS-DRIVER")
      else wpa_ctrl_command fuel ctrl (lit "STATUS")
  end.

Definition wpa_cli_cmd_ping (ctrl : option wpa_ctrl) (argv : list str) : M Z :=
  wpa_ctrl_command fuel ctrl (lit "PING").

Definition wpa_cli_cmd_relog (ctrl : option wpa_ctrl) (argv : list str) : M Z :=
  wpa_ctrl_command fuel ctrl (lit "RELOG").

Definition wpa_cli_cmd_note (ctrl : option wpa_ctrl) (argv : list str) : M Z :=
  wpa_cli_cmd fuel ctrl (lit "NOTE") 1 argv.

Definition wpa_cli_cmd_mib (ctrl : option wpa_ctrl) (argv : list str) : M Z :=
  wpa_ctrl_command fuel ctrl (lit "MIB").

Definition wpa_cli_cmd_pmksa (ctrl : option wpa_ctrl) (argv : list str) : M Z :=
  wpa_ctrl_command fuel ctrl (lit "PMKSA").

Definition wpa_cli_cmd_pmksa_flush (ctrl : option wpa_ctrl) (argv : list str) : M Z :=
  wpa_ctrl_command fuel ctrl (lit "PMKSA_FLUSH").



Definition wpa_cli_cmd_license (ctrl : option wpa_ctrl) (argv : list str) : M Z :=
  printf (wpa_cli_version ++ [NL; NL] ++ cli_full_license ++ [NL]);;
  mret 0.

Definition wpa_cli_cmd_quit (ctrl : option wpa_ctrl) (argv : list str) : M Z :=
  put (λ c, c {{ wpa_cli_quit := 1 }});;
  i ← gets interactive;
  (if negb (i =? 0) then sys_ EloopTerminate else mret tt);;
  mret 0.

Definition wpa_cli_cmd_set (ctrl : option wpa_ctrl) (argv : list str) : M Z :=
  match argv with
  | [a] => fixed_cmd 256 (lit "SET " ++ a ++ lit " ") (line "Too long SET command.") ctrl
  | _ => wpa_cli_cmd fuel ctrl (lit "SET") 2 argv
  end.

Definition wpa_cli_cmd_dump (ctrl : option wpa_ctrl) (argv : list str) : M Z :=
  wpa_ctrl_command fuel ctrl (lit "DUMP").

Definition wpa_cli_cmd_driver_flags (ctrl : option wpa_ctrl) (argv : list str) : M Z :=
  wpa_ctrl_command fuel ctrl (lit "DRIVER_FLAGS").

Definition wpa_cli_cmd_get (ctrl : option wpa_ctrl) (argv : list str) : M Z :=
  wpa_cli_cmd fuel ctrl (lit "GET") 1 argv.

Definition wpa_cli_cmd_logoff (ctrl : option wpa_ctrl) (argv : list str) : M Z :=
  wpa_ctrl_command fuel ctrl (lit "LOGOFF").

Definition wpa_cli_cmd_logon (ctrl : option wpa_ctrl) (argv : list str) : M Z :=
  wpa_ctrl_command fuel ctrl (lit "LOGON").

Definition wpa_cli_cmd_reassociate (ctrl : option wpa_ctrl) (argv : list str) : M Z :=
  wpa_ctrl_command fuel ctrl (lit "REASSOCIATE").

Definition wpa_cli_cmd_reattach (ctrl : option wpa_ctrl) (argv : list str) : M Z :=
  wpa_ctrl_command fuel ctrl (lit "REATTACH").

Definition wpa_cli_cmd_preauthenticate (ctrl : option wpa_ctrl) (argv : list str) : M Z :=
  wpa_cli_cmd fuel ctrl (lit "PREAUTH") 1 argv.

Definition wpa_cli_cmd_ap_scan (ctrl : option wpa_ctrl) (argv : list str) : M Z :=
  wpa_cli_cmd fuel ctrl (lit "AP_SCAN") 1 argv.

Definition wpa_cli_cmd_scan_interval (ctrl : option wpa_ctrl) (argv : list str) : M Z :=
  wpa_cli_cmd fuel ctrl (lit "SCAN_INTERVAL") 1 argv.

Definition wpa_cli_cmd_bss_expire_age (ctrl : option wpa_ctrl) (argv : list str) : M Z :=
  wpa_cli_cmd fuel ctrl (lit "BSS_EXPIRE_AGE") 1 argv.

Definition wpa_cli_cmd_bss_expire_count (ctrl : option wpa_ctrl) (argv : list str) : M Z :=
  wpa_cli_cmd fuel ctrl (lit "BSS_EXPIRE_COUNT") 1 argv.

Definition wpa_cli_cmd_bss_flush (ctrl : option wpa_ctrl) (argv : list str) : M Z :=
  fixed_cmd 256 (match argv with [] => lit "BSS_FLUSH 0" | a :: _ => lit "BSS_FLUSH " ++ a end)
    (line "Too long BSS_FLUSH command.") ctrl.

Definition wpa_cli_cmd_stkstart (ctrl : option wpa_ctrl) (argv : list str) : M Z :=
  wpa_cli_cmd fuel ctrl (lit "STKSTART") 1 argv.

Definition wpa_cli_cmd_ft_ds (ctrl : option wpa_ctrl) (argv : list str) : M Z :=
  wpa_cli_cmd fuel ctrl (lit "FT_DS") 1 argv.

Definition wpa_cli_cmd_wps_pbc (ctrl : option wpa_ctrl) (argv : list str) : M Z :=
  wpa_cli_cmd fuel ctrl (lit "WPS_PBC") 0 argv.

Definition wpa_cli_cmd_wps_pin (ctrl : option wpa_ctrl) (argv : list str) : M Z :=
  let argc := Z.of_nat (length argv) in
  if argc =? 0 then
    printf (line "Invalid WPS_PIN command: need one or two arguments:"
            ++ line "- BSSID: use 'any' to select any"
            ++ line "- PIN: optional, used only with devices that have no display");; mret (-1)
  else wpa_cli_cmd fuel ctrl (lit "WPS_PIN") 1 argv.

Definition wpa_cli_cmd_wps_check_pin (ctrl : option wpa_ctrl) (argv : list str) : M Z :=
  wpa_cli_cmd fuel ctrl (lit "WPS_CHECK_PIN") 1 argv.

Definition wpa_cli_cmd_wps_cancel (ctrl : option wpa_ctrl) (argv : list str) : M Z :=
  wpa_ctrl_command fuel ctrl (lit "WPS_CANCEL").

Definition wpa_cli_cmd_wps_nfc (ctrl : option wpa_ctrl) (argv : list str) : M Z :=
  wpa_cli_cmd fuel ctrl (lit "WPS_NFC") 0 argv.

Definition wpa_cli_cmd_wps_nfc_config_token (ctrl : option wpa_ctrl) (argv : list str) : M Z :=
  wpa_cli_cmd fuel ctrl (lit "WPS_NFC_CONFIG_TOKEN") 1 argv.

Definition wpa_cli_cmd_wps_nfc_token (ctrl : option wpa_ctrl) (argv : list str) : M Z :=
  wpa_cli_cmd fuel ctrl (lit "WPS_NFC_TOKEN") 1 argv.

Definition wpa_cli_cmd_wps_nfc_tag_read (ctrl : option wpa_ctrl) (argv : list str) : M Z :=
  match argv with
  | [a] =>
      let buflen := 18 + strlen a in
      ok ← alloc buflen;
      if negb ok then mret (-1)
      else
        '(_, b) ← lift (snprintf (uninit buflen) 0 buflen (lit "WPS_NFC_TAG_READ " ++ a));
        cmd ← lift (buf_str b 0);
        wpa_ctrl_command fuel ctrl cmd
  | _ => printf (line "Invalid 'wps_nfc_tag_read' command - one argument is required.");;
         mret (-1)
  end.

Definition wpa_cli_cmd_nfc_get_handover_req (ctrl : option wpa_ctrl) (argv : list str) : M Z :=
  wpa_cli_cmd fuel ctrl (lit "NFC_GET_HANDOVER_REQ") 2 argv.

Definition wpa_cli_cmd_nfc_get_handover_sel (ctrl : option wpa_ctrl) (argv : list str) : M Z :=
  wpa_cli_cmd fuel ctrl (lit "NFC_GET_HANDOVER_SEL") 2 argv.

Definition wpa_cli_cmd_nfc_report_handover (ctrl : option wpa_ctrl) (argv : list str) : M Z :=
  wpa_cli_cmd fuel ctrl (lit "NFC_REPORT_HANDOVER") 4 argv.

(** The reconfiguration commands with SSID and key in hexadecimal; [argv] has
    five or six elements. *)
Definition hex_config_cmd (name : str) (ctrl : option wpa_ctrl) (argv : list str) : M Z :=
  a0 ← lift (arg argv 0);
  a1 ← lift (arg argv 1);
  a2 ← lift (arg argv 2);
  a3 ← lift (arg argv 3);
  a4 ← lift (arg argv 4);
  ssid_hex ← lift (hex_text SSID_MAX_LEN a2);
  key_hex ← lift (if (length argv =? 6)%nat then a5 ← arg argv 5; hex_text 64 a5
                  else hex_text 64 []);
  fixed_cmd 256 (name ++ lit " " ++ a0 ++ lit " " ++ a1 ++ lit " " ++ ssid_hex ++ lit " "
                   ++ a3 ++ lit " " ++ a4 ++ lit " " ++ key_hex)
    (lit "Too long " ++ name ++ line " command.") ctrl.

Definition wpa_cli_cmd_wps_reg (ctrl : option wpa_ctrl) (argv : list str) : M Z :=
  let argc := Z.of_nat (length argv) in
  if argc =? 2 then
    a0 ← lift (arg argv 0);
    a1 ← lift (arg argv 1);
    fixed_cmd 256 (lit "WPS_REG " ++ a0 ++ lit " " ++ a1) (line "Too long WPS_REG command.") ctrl
  else if (argc =? 5) || (argc =? 6) then hex_config_cmd (lit "WPS_REG") ctrl argv
  else
    printf (line "Invalid WPS_REG command: need two arguments:"
              ++ line "- BSSID of the target AP" ++ line "- AP PIN");;
    printf (line "Alternatively, six arguments can be used to reconfigure the AP:"
              ++ line "- BSSID of the target AP" ++ line "- AP PIN" ++ line "- new SSID"
              ++ line "- new auth (OPEN, WPAPSK, WPA2PSK)"
              ++ line "- new encr (NONE, WEP, TKIP, CCMP)" ++ line "- new key");;
    mret (-1).

Definition wpa_cli_cmd_wps_ap_pin (ctrl : option wpa_ctrl) (argv : list str) : M Z :=
  wpa_cli_cmd fuel ctrl (lit "WPS_AP_PIN") 1 argv.

Definition wpa_cli_cmd_wps_er_start (ctrl : option wpa_ctrl) (argv : list str) : M Z :=
  wpa_cli_cmd fuel ctrl (lit "WPS_ER_START") 0 argv.

Definition wpa_cli_cmd_wps_er_stop (ctrl : option wpa_ctrl) (argv : list str) : M Z :=
  wpa_ctrl_command fuel ctrl (lit "WPS_ER_STOP").

Definition wpa_cli_cmd_wps_er_pin (ctrl : option wpa_ctrl) (argv : list str) : M Z :=
  let argc := Z.of_nat (length argv) in
  if argc <? 2 then
    printf (line "Invalid WPS_ER_PIN command: need at least two arguments:"
            ++ line "- UUID: use 'any' to select any"
            ++ line "- PIN: Enrollee PIN"
            ++ line "optional: - Enrollee MAC address");; mret (-1)
  else wpa_cli_cmd fuel ctrl (lit "WPS_ER_PIN") 2 argv.

Definition wpa_cli_cmd_wps_er_pbc (ctrl : option wpa_ctrl) (argv : list str) : M Z :=
  wpa_cli_cmd fuel ctrl (lit "WPS_ER_PBC") 1 argv.

Definition wpa_cli_cmd_wps_er_learn (ctrl : option wpa_ctrl) (argv : list str) : M Z :=
  let argc := Z.of_nat (length argv) in
  if negb (argc =? 2) then
    printf (line "Invalid WPS_ER_LEARN command: need two arguments:"
            ++ line "- UUID: specify which AP to use" ++ line "- PIN: AP PIN");; mret (-1)
  else wpa_cli_cmd fuel ctrl (lit "WPS_ER_LEARN") 2 argv.

Definition wpa_cli_cmd_wps_er_set_config (ctrl : option wpa_ctrl) (argv : list str) : M Z :=
  let argc := Z.of_nat (length argv) in
  if negb (argc =? 2) then
    printf (line "Invalid WPS_ER_SET_CONFIG command: need two arguments:"
            ++ line "- UUID: specify which AP to use"
            ++ line "- Network configuration id");; mret (-1)
  else wpa_cli_cmd fuel ctrl (lit "WPS_ER_SET_CONFIG") 2 argv.

Definition wpa_cli_cmd_wps_er_config (ctrl : option wpa_ctrl) (argv : list str) : M Z :=
  let argc := Z.of_nat (length argv) in
  if (argc =? 5) || (argc =? 6) then hex_config_cmd (lit "WPS_ER_CONFIG") ctrl argv
  else
    printf (line "Invalid WPS_ER_CONFIG command: need six arguments:"
              ++ line "- AP UUID" ++ line "- AP PIN" ++ line "- new SSID"
              ++ line "- new auth (OPEN, WPAPSK, WPA2PSK)"
              ++ line "- new encr (NONE, WEP, TKIP, CCMP)" ++ line "- new key");;
    mret (-1).

Definition wpa_cli_cmd_wps_er_nfc_config_token (ctrl : option wpa_ctrl) (argv : list str) : M Z :=
  let argc := Z.of_nat (length argv) in
  if negb (argc =? 2) then
    printf (line "Invalid WPS_ER_NFC_CONFIG_TOKEN command: need two arguments:"
            ++ line "- WPS/NDEF: token format"
            ++ line "- UUID: specify which AP to use");; mret (-1)
  else wpa_cli_cmd fuel ctrl (lit "WPS_ER_NFC_CONFIG_TOKEN") 2 argv.

Definition wpa_cli_cmd_ibss_rsn (ctrl : option wpa_ctrl) (argv : list str) : M Z :=
  wpa_cli_cmd fuel ctrl (lit "IBSS_RSN") 1 argv.

Definition wpa_cli_cmd_level (ctrl : option wpa_ctrl) (argv : list str) : M Z :=
  wpa_cli_cmd fuel ctrl (lit "LEVEL") 1 argv.

Definition wpa_cli_cmd_identity (ctrl : option wpa_ctrl) (argv : list str) : M Z :=
  rsp_command (lit "IDENTITY")
    (line "Invalid IDENTITY command: needs two arguments (network id and identity)") ctrl argv.

Definition wpa_cli_cmd_password (ctrl : option wpa_ctrl) (argv : list str) : M Z :=
  rsp_command (lit "PASSWORD")
    (line "Invalid PASSWORD command: needs two arguments (network id and password)") ctrl argv.

Definition wpa_cli_cmd_new_password (ctrl : option wpa_ctrl) (argv : list str) : M Z :=
  rsp_command (lit "NEW_PASSWORD")
    (lit "Invalid NEW_PASSWORD command: needs two arguments (network id and "
     ++ line "password)") ctrl argv.

Definition wpa_cli_cmd_pin (ctrl : option wpa_ctrl) (argv : list str) : M Z :=
  rsp_command (lit "PIN")
    (line "Invalid PIN command: needs two arguments (network id and pin)") ctrl argv.

Definition wpa_cli_cmd_otp (ctrl : option wpa_ctrl) (argv : list str) : M Z :=
  rsp_command (lit "OTP")
    (line "Invalid OTP command: needs two arguments (network id and password)") ctrl argv.

Definition wpa_cli_cmd_sim (ctrl : option wpa_ctrl) (argv : list str) : M Z :=
  rsp_command (lit "SIM")
    (lit "Invalid SIM command: needs two arguments (network id and SIM operation "
     ++ line "response)") ctrl argv.

Definition wpa_cli_cmd_passphrase (ctrl : option wpa_ctrl) (argv : list str) : M Z :=
  rsp_command (lit "PASSPHRASE")
    (lit "Invalid PASSPHRASE command: needs two arguments (network id and "
     ++ line "passphrase)") ctrl argv.

Definition wpa_cli_cmd_bssid (ctrl : option wpa_ctrl) (argv : list str) : M Z :=
  let argc := Z.of_nat (length argv) in
  if argc <? 2 then
    printf (line "Invalid BSSID command: needs two arguments (network id and BSSID)");; mret (-1)
  else wpa_cli_cmd fuel ctrl (lit "BSSID") 2 argv.

Definition wpa_cli_cmd_blacklist (ctrl : option wpa_ctrl) (argv : list str) : M Z :=
  wpa_cli_cmd fuel ctrl (lit "BLACKLIST") 0 argv.

Definition wpa_cli_cmd_log_level (ctrl : option wpa_ctrl) (argv : list str) : M Z :=
  wpa_cli_cmd fuel ctrl (lit "LOG_LEVEL") 0 argv.

Definition wpa_cli_cmd_list_networks (ctrl : option wpa_ctrl) (argv : list str) : M Z :=
  wpa_ctrl_command fuel ctrl (lit "LIST_NETWORKS").

Definition wpa_cli_cmd_select_network (ctrl : option wpa_ctrl) (argv : list str) : M Z :=
  wpa_cli_cmd fuel ctrl (lit "SELECT_NETWORK") 1 argv.

Definition wpa_cli_cmd_enable_network (ctrl : option wpa_ctrl) (argv : list str) : M Z :=
  wpa_cli_cmd fuel ctrl (lit "ENABLE_NETWORK") 1 argv.

Definition wpa_cli_cmd_disable_network (ctrl : option wpa_ctrl) (argv : list str) : M Z :=
  wpa_cli_cmd fuel ctrl (lit "DISABLE_NETWORK") 1 argv.

Definition wpa_cli_cmd_add_network (ctrl : option wpa_ctrl) (argv : list str) : M Z :=
  res ← wpa_ctrl_command fuel ctrl (lit "ADD_NETWORK");
  i ← gets interactive;
  (if negb (i =? 0) then update_networks fuel ctrl else mret tt);;
  mret res.

Definition wpa_cli_cmd_remove_network (ctrl : option wpa_ctrl) (argv : list str) : M Z :=
  res ← wpa_cli_cmd fuel ctrl (lit "REMOVE_NETWORK") 1 argv;
  i ← gets interactive;
  (if negb (i =? 0) then update_networks fuel ctrl else mret tt);;
  mret res.



Definition wpa_cli_cmd_set_network (ctrl : option wpa_ctrl) (argv : list str) : M Z :=
  let argc := Z.of_nat (length argv) in
  if argc =? 0 then wpa_cli_show_network_variables;; mret 0
  else if argc <? 3 then
    printf (line "Invalid SET_NETWORK command: needs three arguments"
            ++ line "(network id, variable name, and value)");; mret (-1)
  else wpa_cli_cmd fuel ctrl (lit "SET_NETWORK") 3 argv.

Definition wpa_cli_cmd_get_network (ctrl : option wpa_ctrl) (argv : list str) : M Z :=
  let argc := Z.of_nat (length argv) in
  if argc =? 0 then wpa_cli_show_network_variables;; mret 0
  else if negb (argc =? 2) then
    printf (line "Invalid GET_NETWORK command: needs two arguments"
            ++ line "(network id and variable name)");; mret (-1)
  else wpa_cli_cmd fuel ctrl (lit "GET_NETWORK") 2 argv.

Definition wpa_cli_cmd_dup_network (ctrl : option wpa_ctrl) (argv : list str) : M Z :=
  let argc := Z.of_nat (length argv) in
  if argc =? 0 then wpa_cli_show_network_variables;; mret 0
  else if argc <? 3 then
    printf (line "Invalid DUP_NETWORK command: needs three arguments"
            ++ line "(src netid, dest netid, and variable name)");; mret (-1)
  else wpa_cli_cmd fuel ctrl (lit "DUP_NETWORK") 3 argv.

Definition wpa_cli_cmd_list_creds (ctrl : option wpa_ctrl) (argv : list str) : M Z :=
  wpa_ctrl_command fuel ctrl (lit "LIST_CREDS").

Definition wpa_cli_cmd_add_cred (ctrl : option wpa_ctrl) (argv : list str) : M Z :=
  wpa_ctrl_command fuel ctrl (lit "ADD_CRED").

Definition wpa_cli_cmd_remove_cred (ctrl : option wpa_ctrl) (argv : list str) : M Z :=
  wpa_cli_cmd fuel ctrl (lit "REMOVE_CRED") 1 argv.

Definition wpa_cli_cmd_set_cred (ctrl : option wpa_ctrl) (argv : list str) : M Z :=
  let argc := Z.of_nat (length argv) in
  if negb (argc =? 3) then
    printf (line "Invalid SET_CRED command: needs three arguments"
            ++ line "(cred id, variable name, and value)");; mret (-1)
  else wpa_cli_cmd fuel ctrl (lit "SET_CRED") 3 argv.

Definition wpa_cli_cmd_get_cred (ctrl : option wpa_ctrl) (argv : list str) : M Z :=
  let argc := Z.of_nat (length argv) in
  if negb (argc =? 2) then
    printf (line "Invalid GET_CRED command: needs two arguments"
            ++ line "(cred id, variable name)");; mret (-1)
  else wpa_cli_cmd fuel ctrl (lit "GET_CRED") 2 argv.

Definition wpa_cli_cmd_disconnect (ctrl : option wpa_ctrl) (argv : list str) : M Z :=
  wpa_ctrl_command fuel ctrl (lit "DISCONNECT").

Definition wpa_cli_cmd_reconnect (ctrl : option wpa_ctrl) (argv : list str) : M Z :=
  wpa_ctrl_command fuel ctrl (lit "RECONNECT").

Definition wpa_cli_cmd_save_config (ctrl : option wpa_ctrl) (argv : list str) : M Z :=
  wpa_ctrl_command fuel ctrl (lit "SAVE_CONFIG").

Definition wpa_cli_cmd_scan (ctrl : option wpa_ctrl) (argv : list str) : M Z :=
  wpa_cli_cmd fuel ctrl (lit "SCAN") 0 argv.

Definition wpa_cli_cmd_scan_results (ctrl : option wpa_ctrl) (argv : list str) : M Z :=
  wpa_ctrl_command fuel ctrl (lit "SCAN_RESULTS").

Definition wpa_cli_cmd_abort_scan (ctrl : option wpa_ctrl) (argv : list str) : M Z :=
  wpa_ctrl_command fuel ctrl (lit "ABORT_SCAN").

Definition wpa_cli_cmd_bss (ctrl : option wpa_ctrl) (argv : list str) : M Z :=
  wpa_cli_cmd fuel ctrl (lit "BSS") 1 argv.

Definition wpa_cli_cmd_get_capability (ctrl : option wpa_ctrl) (argv : list str) : M Z :=
  let argc := Z.of_nat (length argv) in
  if (argc <? 1) || (2 <? argc) then
    printf (line "Invalid GET_CAPABILITY command: need either one or two arguments");;
    mret (-1)
  else
    a1 ← lift (if argc =? 2 then arg argv 1 else Ret []);
    if (argc =? 2) && negb (strcmp a1 (lit "strict") =? 0) then
      printf (lit "Invalid GET_CAPABILITY command: second argument, "
                ++ line "if any, must be 'strict'");;
      mret (-1)
    else wpa_cli_cmd fuel ctrl (lit "GET_CAPABILITY") 1 argv.

Definition wpa_cli_list_interfaces (ctrl : option wpa_ctrl) : M Z :=
  printf (line "Available interfaces:");;
  wpa_ctrl_command fuel ctrl (lit "INTERFACES").

Definition wpa_cli_cmd_interface (ctrl : option wpa_ctrl) (argv : list str) : M Z :=
  match argv with
  | [] => wpa_cli_list_interfaces ctrl;; mret 0
  | a :: _ =>
      wpa_cli_close_connection fuel;;
      put (λ c, c {{ ctrl_ifname := Dangling }});;
      ok ← alloc (strlen a + 1);
      put (λ c, c {{ ctrl_ifname := if ok : bool then Live a else Null }});;
      if negb ok then printf (line "Failed to allocate memory");; mret 0
      else
        r ← wpa_cli_open_connection fuel (Live a) 1;
        (if r =? 0 then printf (lit "Connected to interface '" ++ a ++ line ".")
         else printf (lit "Could not connect to interface '" ++ a ++ line "' - re-trying"));;
        mret 0
  end.

Definition wpa_cli_cmd_reconfigure (ctrl : option wpa_ctrl) (argv : list str) : M Z :=
  wpa_ctrl_command fuel ctrl (lit "RECONFIGURE").

Definition wpa_cli_cmd_terminate (ctrl : option wpa_ctrl) (argv : list str) : M Z :=
  wpa_ctrl_command fuel ctrl (lit "TERMINATE").

Definition wpa_cli_cmd_interface_add (ctrl : option wpa_ctrl) (argv : list str) : M Z :=
  match argv with
  | [] =>
      printf (line "Invalid INTERFACE_ADD command: needs at least one argument (interface name)"
                ++ lit "All arguments: ifname confname driver ctrl_interface "
                ++ line "driver_param bridge_name [create]");;
      mret (-1)
  | a0 :: _ =>
      let opt i := default [] (argv !! i) in
      fixed_cmd 256 (lit "INTERFACE_ADD " ++ a0 ++ [TAB] ++ opt 1%nat ++ [TAB] ++ opt 2%nat
                       ++ [TAB] ++ opt 3%nat ++ [TAB] ++ opt 4%nat ++ [TAB] ++ opt 5%nat
                       ++ [TAB] ++ opt 6%nat ++ [TAB] ++ opt 7%nat) [] ctrl
  end.

Definition wpa_cli_cmd_interface_remove (ctrl : option wpa_ctrl) (argv : list str) : M Z :=
  wpa_cli_cmd fuel ctrl (lit "INTERFACE_REMOVE") 1 argv.

Definition wpa_cli_cmd_interface_list (ctrl : option wpa_ctrl) (argv : list str) : M Z :=
  wpa_ctrl_command fuel ctrl (lit "INTERFACE_LIST").

Definition wpa_cli_cmd_sta (ctrl : option wpa_ctrl) (argv : list str) : M Z :=
  wpa_cli_cmd fuel ctrl (lit "STA") 1 argv.

(** The first line of the reply is left in [addr], a buffer of [addr_len]
    bytes, and returned as a string. *)
Definition wpa_ctrl_command_sta (ctrl : option wpa_ctrl) (cmd : str) (addr_len : Z)
    : M (Z * str) :=
  conn ← gets ctrl_conn;
  match conn with
  | None => printf (line "Not connected to hostapd - command dropped.");; mret (-1, [])
  | Some _ =>
      '(ret, b, len) ← request_cmd fuel ctrl cmd (uninit 4096) 4096;
      if ret <? 0 then mret (ret, [])
      else
        b1 ← lift (buf_set b len 0);
        reply ← lift (buf_str b1 0);
        if is_prefix (lit "FAIL") reply then mret (-1, [])
        else
          printf reply;;
          pos ← lift (scan (λ c, negb (c =? 0) && negb (c =? NL)) b1 0);
          b2 ← lift (buf_set b1 pos 0);
          first ← lift (buf_str b2 0);
          '(_, addr) ← lift (os_strlcpy (uninit addr_len) first addr_len);
          a ← lift (buf_str addr 0);
          mret (0, a)
  end.

(** The [do] loop: [false] once the daemon has no more station. *)
Fixpoint all_sta_loop (n : nat) (ctrl : option wpa_ctrl) (addr : str) : M unit :=
  match n with
  | O => λ _, OutOfFuel
  | S n' =>
      '(_, cmd) ← lift (snprintf (uninit 64) 0 64 (lit "STA-NEXT " ++ addr));
      cmd' ← lift (buf_str cmd 0);
      '(r, addr') ← wpa_ctrl_command_sta ctrl cmd' 32;
      if r =? 0 then all_sta_loop n' ctrl addr' else mret tt
  end.

Definition wpa_cli_cmd_all_sta (ctrl : option wpa_ctrl) (argv : list str) : M Z :=
  '(r, addr) ← wpa_ctrl_command_sta ctrl (lit "STA-FIRST") 32;
  if negb (r =? 0) then mret 0
  else all_sta_loop fuel ctrl addr;; mret (-1).

Definition wpa_cli_cmd_deauthenticate (ctrl : option wpa_ctrl) (argv : list str) : M Z :=
  wpa_cli_cmd fuel ctrl (lit "DEAUTHENTICATE") 1 argv.

Definition wpa_cli_cmd_disassociate (ctrl : option wpa_ctrl) (argv : list str) : M Z :=
  wpa_cli_cmd fuel ctrl (lit "DISASSOCIATE") 1 argv.

Definition wpa_cli_cmd_chanswitch (ctrl : option wpa_ctrl) (argv : list str) : M Z :=
  wpa_cli_cmd fuel ctrl (lit "CHAN_SWITCH") 2 argv.

Definition wpa_cli_cmd_suspend (ctrl : option wpa_ctrl) (argv : list str) : M Z :=
  wpa_ctrl_command fuel ctrl (lit "SUSPEND").

Definition wpa_cli_cmd_resume (ctrl : option wpa_ctrl) (argv : list str) : M Z :=
  wpa_ctrl_command fuel ctrl (lit "RESUME").

Definition wpa_cli_cmd_drop_sa (ctrl : option wpa_ctrl) (argv : list str) : M Z :=
  wpa_ctrl_command fuel ctrl (lit "DROP_SA").

Definition wpa_cli_cmd_roam (ctrl : option wpa_ctrl) (argv : list str) : M Z :=
  wpa_cli_cmd fuel ctrl (lit "ROAM") 1 argv.

Definition wpa_cli_cmd_mesh_interface_add (ctrl : option wpa_ctrl) (argv : list str) : M Z :=
  wpa_cli_cmd fuel ctrl (lit "MESH_INTERFACE_ADD") 0 argv.

Definition wpa_cli_cmd_mesh_group_add (ctrl : option wpa_ctrl) (argv : list str) : M Z :=
  wpa_cli_cmd fuel ctrl (lit "MESH_GROUP_ADD") 1 argv.

Definition wpa_cli_cmd_mesh_group_remove (ctrl : option wpa_ctrl) (argv : list str) : M Z :=
  wpa_cli_cmd fuel ctrl (lit "MESH_GROUP_REMOVE") 1 argv.

Definition wpa_cli_cmd_mesh_peer_remove (ctrl : option wpa_ctrl) (argv : list str) : M Z :=
  wpa_cli_cmd fuel ctrl (lit "MESH_PEER_REMOVE") 1 argv.

Definition wpa_cli_cmd_mesh_peer_add (ctrl : option wpa_ctrl) (argv : list str) : M Z :=
  wpa_cli_cmd fuel ctrl (lit "MESH_PEER_ADD") 1 argv.

End Commands.
