(* ===== verification/CliCmdMore.v ===== *)
(** * The commands of the wrapper, second part (libwpa_cli_wrapper.c)

    The P2P, Wi-Fi Display, Interworking and Hotspot 2.0 commands and the ones
    after them, and the variants that fill a buffer of the caller. *)

From S2P Require Import Prelude CString Scan Io WpaCtrl CliUtil CliCore CliLists.
From S2P Require Import CliCmdBasic.

Section Commands.
Context {E : Type} `{OS E} (fuel : nat).
Local Abbreviation M := (M E cli).

Definition wpa_cli_cmd_p2p_find (ctrl : option wpa_ctrl) (argv : list str) : M Z :=
  wpa_cli_cmd fuel ctrl (lit "P2P_FIND") 0 argv.

Definition wpa_cli_cmd_p2p_stop_find (ctrl : option wpa_ctrl) (argv : list str) : M Z :=
  wpa_ctrl_command fuel ctrl (lit "P2P_STOP_FIND").

Definition wpa_cli_cmd_p2p_asp_provision (ctrl : option wpa_ctrl) (argv : list str) : M Z :=
  wpa_cli_cmd fuel ctrl (lit "P2P_ASP_PROVISION") 3 argv.

Definition wpa_cli_cmd_p2p_asp_provision_resp (ctrl : option wpa_ctrl) (argv : list str) : M Z :=
  wpa_cli_cmd fuel ctrl (lit "P2P_ASP_PROVISION_RESP") 2 argv.

Definition wpa_cli_cmd_p2p_connect (ctrl : option wpa_ctrl) (argv : list str) : M Z :=
  wpa_cli_cmd fuel ctrl (lit "P2P_CONNECT") 2 argv.

Definition wpa_cli_cmd_p2p_listen (ctrl : option wpa_ctrl) (argv : list str) : M Z :=
  wpa_cli_cmd fuel ctrl (lit "P2P_LISTEN") 0 argv.

Definition wpa_cli_cmd_p2p_group_remove (ctrl : option wpa_ctrl) (argv : list str) : M Z :=
  wpa_cli_cmd fuel ctrl (lit "P2P_GROUP_REMOVE") 1 argv.

Definition wpa_cli_cmd_p2p_group_add (ctrl : option wpa_ctrl) (argv : list str) : M Z :=
  wpa_cli_cmd fuel ctrl (lit "P2P_GROUP_ADD") 0 argv.

Definition wpa_cli_cmd_p2p_group_member (ctrl : option wpa_ctrl) (argv : list str) : M Z :=
  wpa_cli_cmd fuel ctrl (lit "P2P_GROUP_MEMBER") 1 argv.

Definition wpa_cli_cmd_p2p_prov_disc (ctrl : option wpa_ctrl) (argv : list str) : M Z :=
  let argc := Z.of_nat (length argv) in
  if negb (argc =? 2) && negb (argc =? 3) then
    printf (lit "Invalid P2P_PROV_DISC command: needs at least two arguments, "
            ++ line "address and config method"
            ++ line "(display, keypad, or pbc) and an optional join");; mret (-1)
  else wpa_cli_cmd fuel ctrl (lit "P2P_PROV_DISC") 2 argv.

Definition wpa_cli_cmd_p2p_get_passphrase (ctrl : option wpa_ctrl) (argv : list str) : M Z :=
  wpa_ctrl_command fuel ctrl (lit "P2P_GET_PASSPHRASE").

Definition wpa_cli_cmd_p2p_serv_disc_req (ctrl : option wpa_ctrl) (argv : list str) : M Z :=
  if Z.of_nat (length argv) <? 2 then
    printf (lit "Invalid P2P_SERV_DISC_REQ command: needs two "
              ++ line "or more arguments (address and TLVs)");;
    mret (-1)
  else
    '(r, cmd) ← write_cmd (uninit 4096) 4096 (lit "P2P_SERV_DISC_REQ") argv;
    if r <? 0 then mret (-1)
    else cmd' ← lift (buf_str cmd 0); wpa_ctrl_command fuel ctrl cmd'.

Definition wpa_cli_cmd_p2p_serv_disc_cancel_req (ctrl : option wpa_ctrl) (argv : list str) : M Z :=
  wpa_cli_cmd fuel ctrl (lit "P2P_SERV_DISC_CANCEL_REQ") 1 argv.

Definition wpa_cli_cmd_p2p_serv_disc_resp (ctrl : option wpa_ctrl) (argv : list str) : M Z :=
  match argv with
  | [a0; a1; a2; a3] =>
      fixed_cmd fuel 4096 (lit "P2P_SERV_DISC_RESP " ++ a0 ++ lit " " ++ a1 ++ lit " " ++ a2
                             ++ lit " " ++ a3) [] ctrl
  | _ =>
      printf (lit "Invalid P2P_SERV_DISC_RESP command: needs four "
                ++ line "arguments (freq, address, dialog token, and TLVs)");;
      mret (-1)
  end.

Definition wpa_cli_cmd_p2p_service_update (ctrl : option wpa_ctrl) (argv : list str) : M Z :=
  wpa_ctrl_command fuel ctrl (lit "P2P_SERVICE_UPDATE").

Definition wpa_cli_cmd_p2p_serv_disc_external (ctrl : option wpa_ctrl) (argv : list str) : M Z :=
  wpa_cli_cmd fuel ctrl (lit "P2P_SERV_DISC_EXTERNAL") 1 argv.

Definition wpa_cli_cmd_p2p_service_flush (ctrl : option wpa_ctrl) (argv : list str) : M Z :=
  wpa_ctrl_command fuel ctrl (lit "P2P_SERVICE_FLUSH").

Definition wpa_cli_cmd_p2p_service_add (ctrl : option wpa_ctrl) (argv : list str) : M Z :=
  let argc := Z.of_nat (length argv) in
  if argc <? 3 then
    printf (line "Invalid P2P_SERVICE_ADD command: needs 3-6 arguments");; mret (-1)
  else wpa_cli_cmd fuel ctrl (lit "P2P_SERVICE_ADD") 3 argv.

Definition wpa_cli_cmd_p2p_service_rep (ctrl : option wpa_ctrl) (argv : list str) : M Z :=
  let argc := Z.of_nat (length argv) in
  if (argc <? 5) || (6 <? argc) then
    printf (line "Invalid P2P_SERVICE_REP command: needs 5-6 arguments");; mret (-1)
  else wpa_cli_cmd fuel ctrl (lit "P2P_SERVICE_REP") 5 argv.

Definition wpa_cli_cmd_p2p_service_del (ctrl : option wpa_ctrl) (argv : list str) : M Z :=
  match argv with
  | [a0; a1; a2] =>
      fixed_cmd fuel 4096 (lit "P2P_SERVICE_DEL " ++ a0 ++ lit " " ++ a1 ++ lit " " ++ a2) [] ctrl
  | [a0; a1] => fixed_cmd fuel 4096 (lit "P2P_SERVICE_DEL " ++ a0 ++ lit " " ++ a1) [] ctrl
  | _ =>
      printf (line "Invalid P2P_SERVICE_DEL command: needs two or three arguments");; mret (-1)
  end.

Definition wpa_cli_cmd_p2p_reject (ctrl : option wpa_ctrl) (argv : list str) : M Z :=
  wpa_cli_cmd fuel ctrl (lit "P2P_REJECT") 1 argv.

Definition wpa_cli_cmd_p2p_invite (ctrl : option wpa_ctrl) (argv : list str) : M Z :=
  wpa_cli_cmd fuel ctrl (lit "P2P_INVITE") 1 argv.

Definition wpa_cli_cmd_p2p_peer (ctrl : option wpa_ctrl) (argv : list str) : M Z :=
  wpa_cli_cmd fuel ctrl (lit "P2P_PEER") 1 argv.

(** As [wpa_ctrl_command_sta], without the prefix: [pos] is left one past the
    end of the first line, terminator or newline. *)
Definition wpa_ctrl_command_p2p_peer (ctrl : option wpa_ctrl) (cmd : str) (addr_len : Z)
    (discovered : bool) : M (Z * str) :=
  conn ← gets ctrl_conn;
  match conn with
  | None => mret (-1, [])
  | Some _ =>
      ct ← lift (need "NULL connection" ctrl);
      '(ret, b, len) ← wpa_ctrl_request fuel ct cmd (strlen cmd) (uninit 4096) (4096 - 1)
                         (Some wpa_cli_msg_cb);
      if ret =? -2 then
        printf (lit "'" ++ cmd ++ line "' command timed out.");; mret (-2, [])
      else if ret <? 0 then
        printf (lit "'" ++ cmd ++ line "' command failed.");; mret (-1, [])
      else
        b1 ← lift (buf_set b len 0);
        reply ← lift (buf_str b1 0);
        if is_prefix (lit "FAIL") reply then mret (-1, [])
        else
          pos ← lift (scan (λ c, negb (c =? 0) && negb (c =? NL)) b1 0);
          b2 ← lift (buf_set b1 pos 0);
          first ← lift (buf_str b2 0);
          '(_, addr) ← lift (os_strlcpy (uninit addr_len) first addr_len);
          a ← lift (buf_str addr 0);
          shown ← (if discovered then
                     rest ← lift (buf_str b2 (pos + 1));
                     mret (match strstr rest (lit "[PROBE_REQ_ONLY]") with
                           | None => true | Some _ => false end)
                   else mret true);
          (if (shown : bool) then printf (a ++ [NL]) else mret tt);;
          mret (0, a)
  end.

Fixpoint p2p_peers_loop (n : nat) (ctrl : option wpa_ctrl) (addr : str) (discovered : bool)
    : M unit :=
  match n with
  | O => λ _, OutOfFuel
  | S n' =>
      '(_, cmd) ← lift (snprintf (uninit 64) 0 64 (lit "P2P_PEER NEXT-" ++ addr));
      cmd' ← lift (buf_str cmd 0);
      '(r, addr') ← wpa_ctrl_command_p2p_peer ctrl cmd' 32 discovered;
      if r =? 0 then p2p_peers_loop n' ctrl addr' discovered else mret tt
  end.

Definition wpa_cli_cmd_p2p_peers (ctrl : option wpa_ctrl) (argv : list str) : M Z :=
  let discovered :=
    match argv with a :: _ => strcmp a (lit "discovered") =? 0 | [] => false end in
  '(r, addr) ← wpa_ctrl_command_p2p_peer ctrl (lit "P2P_PEER FIRST") 32 discovered;
  if negb (r =? 0) then mret (-1)
  else p2p_peers_loop fuel ctrl addr discovered;; mret 0.

Definition wpa_cli_cmd_p2p_set (ctrl : option wpa_ctrl) (argv : list str) : M Z :=
  wpa_cli_cmd fuel ctrl (lit "P2P_SET") 2 argv.

Definition wpa_cli_cmd_p2p_flush (ctrl : option wpa_ctrl) (argv : list str) : M Z :=
  wpa_ctrl_command fuel ctrl (lit "P2P_FLUSH").

Definition wpa_cli_cmd_p2p_cancel (ctrl : option wpa_ctrl) (argv : list str) : M Z :=
  wpa_ctrl_command fuel ctrl (lit "P2P_CANCEL").

Definition wpa_cli_cmd_p2p_unauthorize (ctrl : option wpa_ctrl) (argv : list str) : M Z :=
  wpa_cli_cmd fuel ctrl (lit "P2P_UNAUTHORIZE") 1 argv.

Definition wpa_cli_cmd_p2p_presence_req (ctrl : option wpa_ctrl) (argv : list str) : M Z :=
  let argc := Z.of_nat (length argv) in
  if negb (argc =? 0) && negb (argc =? 2) && negb (argc =? 4) then
    printf (lit "Invalid P2P_PRESENCE_REQ command: needs two arguments (preferred "
            ++ line "duration, interval; in microsecods)."
            ++ line "Optional second pair can be used to provide acceptable values.");; mret (-1)
  else wpa_cli_cmd fuel ctrl (lit "P2P_PRESENCE_REQ") 0 argv.

Definition wpa_cli_cmd_p2p_ext_listen (ctrl : option wpa_ctrl) (argv : list str) : M Z :=
  let argc := Z.of_nat (length argv) in
  if negb (argc =? 0) && negb (argc =? 2) then
    printf (lit "Invalid P2P_EXT_LISTEN command: needs two arguments (availability "
            ++ line "period, availability interval; in millisecods)."
            ++ lit "Extended Listen Timing can be cancelled with this command when "
            ++ line "used without parameters.");; mret (-1)
  else wpa_cli_cmd fuel ctrl (lit "P2P_EXT_LISTEN") 0 argv.

Definition wpa_cli_cmd_p2p_remove_client (ctrl : option wpa_ctrl) (argv : list str) : M Z :=
  wpa_cli_cmd fuel ctrl (lit "P2P_REMOVE_CLIENT") 1 argv.

Definition wpa_cli_cmd_vendor_elem_add (ctrl : option wpa_ctrl) (argv : list str) : M Z :=
  wpa_cli_cmd fuel ctrl (lit "VENDOR_ELEM_ADD") 2 argv.

Definition wpa_cli_cmd_vendor_elem_get (ctrl : option wpa_ctrl) (argv : list str) : M Z :=
  wpa_cli_cmd fuel ctrl (lit "VENDOR_ELEM_GET") 1 argv.

Definition wpa_cli_cmd_vendor_elem_remove (ctrl : option wpa_ctrl) (argv : list str) : M Z :=
  wpa_cli_cmd fuel ctrl (lit "VENDOR_ELEM_REMOVE") 2 argv.

Definition wpa_cli_cmd_wfd_subelem_set (ctrl : option wpa_ctrl) (argv : list str) : M Z :=
  match argv with
  | [a0] => fixed_cmd fuel 100 (lit "WFD_SUBELEM_SET " ++ a0 ++ lit " ") [] ctrl
  | [a0; a1] => fixed_cmd fuel 100 (lit "WFD_SUBELEM_SET " ++ a0 ++ lit " " ++ a1) [] ctrl
  | _ =>
      printf (lit "Invalid WFD_SUBELEM_SET command: needs one or two "
                ++ line "arguments (subelem, hexdump)");;
      mret (-1)
  end.

Definition wpa_cli_cmd_wfd_subelem_get (ctrl : option wpa_ctrl) (argv : list str) : M Z :=
  match argv with
  | [a0] => fixed_cmd fuel 100 (lit "WFD_SUBELEM_GET " ++ a0) [] ctrl
  | _ =>
      printf (line "Invalid WFD_SUBELEM_GET command: needs one argument (subelem)");; mret (-1)
  end.

Definition wpa_cli_cmd_fetch_anqp (ctrl : option wpa_ctrl) (argv : list str) : M Z :=
  wpa_ctrl_command fuel ctrl (lit "FETCH_ANQP").

Definition wpa_cli_cmd_stop_fetch_anqp (ctrl : option wpa_ctrl) (argv : list str) : M Z :=
  wpa_ctrl_command fuel ctrl (lit "STOP_FETCH_ANQP").

Definition wpa_cli_cmd_interworking_select (ctrl : option wpa_ctrl) (argv : list str) : M Z :=
  wpa_cli_cmd fuel ctrl (lit "INTERWORKING_SELECT") 0 argv.

Definition wpa_cli_cmd_interworking_connect (ctrl : option wpa_ctrl) (argv : list str) : M Z :=
  wpa_cli_cmd fuel ctrl (lit "INTERWORKING_CONNECT") 1 argv.

Definition wpa_cli_cmd_interworking_add_network (ctrl : option wpa_ctrl) (argv : list str) : M Z :=
  wpa_cli_cmd fuel ctrl (lit "INTERWORKING_ADD_NETWORK") 1 argv.

Definition wpa_cli_cmd_anqp_get (ctrl : option wpa_ctrl) (argv : list str) : M Z :=
  wpa_cli_cmd fuel ctrl (lit "ANQP_GET") 2 argv.

Definition wpa_cli_cmd_gas_request (ctrl : option wpa_ctrl) (argv : list str) : M Z :=
  wpa_cli_cmd fuel ctrl (lit "GAS_REQUEST") 2 argv.

Definition wpa_cli_cmd_gas_response_get (ctrl : option wpa_ctrl) (argv : list str) : M Z :=
  wpa_cli_cmd fuel ctrl (lit "GAS_RESPONSE_GET") 2 argv.

Definition wpa_cli_cmd_hs20_anqp_get (ctrl : option wpa_ctrl) (argv : list str) : M Z :=
  wpa_cli_cmd fuel ctrl (lit "HS20_ANQP_GET") 2 argv.

Definition wpa_cli_cmd_get_nai_home_realm_list (ctrl : option wpa_ctrl) (argv : list str)
    : M Z :=
  if (length argv =? 0)%nat then
    printf (lit "Command needs one or two arguments (dst mac addr and "
              ++ line "optional home realm)");;
    mret (-1)
  else
    '(r, cmd) ← write_cmd (uninit 512) 512 (lit "HS20_GET_NAI_HOME_REALM_LIST") argv;
    if r <? 0 then mret (-1)
    else cmd' ← lift (buf_str cmd 0); wpa_ctrl_command fuel ctrl cmd'.

Definition wpa_cli_cmd_hs20_icon_request (ctrl : option wpa_ctrl) (argv : list str) : M Z :=
  if Z.of_nat (length argv) <? 2 then
    printf (line "Command needs two arguments (dst mac addr and icon name)");; mret (-1)
  else
    '(r, cmd) ← write_cmd (uninit 512) 512 (lit "HS20_ICON_REQUEST") argv;
    if r <? 0 then mret (-1)
    else cmd' ← lift (buf_str cmd 0); wpa_ctrl_command fuel ctrl cmd'.

Definition wpa_cli_cmd_fetch_osu (ctrl : option wpa_ctrl) (argv : list str) : M Z :=
  wpa_ctrl_command fuel ctrl (lit "FETCH_OSU").

Definition wpa_cli_cmd_cancel_fetch_osu (ctrl : option wpa_ctrl) (argv : list str) : M Z :=
  wpa_ctrl_command fuel ctrl (lit "CANCEL_FETCH_OSU").

Definition wpa_cli_cmd_sta_autoconnect (ctrl : option wpa_ctrl) (argv : list str) : M Z :=
  wpa_cli_cmd fuel ctrl (lit "STA_AUTOCONNECT") 1 argv.

Definition wpa_cli_cmd_tdls_discover (ctrl : option wpa_ctrl) (argv : list str) : M Z :=
  wpa_cli_cmd fuel ctrl (lit "TDLS_DISCOVER") 1 argv.

Definition wpa_cli_cmd_tdls_setup (ctrl : option wpa_ctrl) (argv : list str) : M Z :=
  wpa_cli_cmd fuel ctrl (lit "TDLS_SETUP") 1 argv.

Definition wpa_cli_cmd_tdls_teardown (ctrl : option wpa_ctrl) (argv : list str) : M Z :=
  wpa_cli_cmd fuel ctrl (lit "TDLS_TEARDOWN") 1 argv.

Definition wpa_cli_cmd_tdls_link_status (ctrl : option wpa_ctrl) (argv : list str) : M Z :=
  wpa_cli_cmd fuel ctrl (lit "TDLS_LINK_STATUS") 1 argv.

Definition wpa_cli_cmd_wmm_ac_addts (ctrl : option wpa_ctrl) (argv : list str) : M Z :=
  wpa_cli_cmd fuel ctrl (lit "WMM_AC_ADDTS") 3 argv.

Definition wpa_cli_cmd_wmm_ac_delts (ctrl : option wpa_ctrl) (argv : list str) : M Z :=
  wpa_cli_cmd fuel ctrl (lit "WMM_AC_DELTS") 1 argv.

Definition wpa_cli_cmd_wmm_ac_status (ctrl : option wpa_ctrl) (argv : list str) : M Z :=
  wpa_ctrl_command fuel ctrl (lit "WMM_AC_STATUS").

Definition wpa_cli_cmd_tdls_chan_switch (ctrl : option wpa_ctrl) (argv : list str) : M Z :=
  wpa_cli_cmd fuel ctrl (lit "TDLS_CHAN_SWITCH") 2 argv.

Definition wpa_cli_cmd_tdls_cancel_chan_switch (ctrl : option wpa_ctrl) (argv : list str) : M Z :=
  wpa_cli_cmd fuel ctrl (lit "TDLS_CANCEL_CHAN_SWITCH") 1 argv.

Definition wpa_cli_cmd_signal_poll (ctrl : option wpa_ctrl) (argv : list str) : M Z :=
  wpa_ctrl_command fuel ctrl (lit "SIGNAL_POLL").

Definition wpa_cli_cmd_signal_monitor (ctrl : option wpa_ctrl) (argv : list str) : M Z :=
  wpa_cli_cmd fuel ctrl (lit "SIGNAL_MONITOR") 0 argv.

Definition wpa_cli_cmd_pktcnt_poll (ctrl : option wpa_ctrl) (argv : list str) : M Z :=
  wpa_ctrl_command fuel ctrl (lit "PKTCNT_POLL").

Definition wpa_cli_cmd_reauthenticate (ctrl : option wpa_ctrl) (argv : list str) : M Z :=
  wpa_ctrl_command fuel ctrl (lit "REAUTHENTICATE").

Definition wpa_cli_cmd_autoscan (ctrl : option wpa_ctrl) (argv : list str) : M Z :=
  match argv with
  | [] => wpa_ctrl_command fuel ctrl (lit "AUTOSCAN ")
  | _ => wpa_cli_cmd fuel ctrl (lit "AUTOSCAN") 0 argv
  end.

Definition wpa_cli_cmd_wnm_sleep (ctrl : option wpa_ctrl) (argv : list str) : M Z :=
  wpa_cli_cmd fuel ctrl (lit "WNM_SLEEP") 0 argv.

Definition wpa_cli_cmd_wnm_bss_query (ctrl : option wpa_ctrl) (argv : list str) : M Z :=
  wpa_cli_cmd fuel ctrl (lit "WNM_BSS_QUERY") 1 argv.

Definition wpa_cli_cmd_raw (ctrl : option wpa_ctrl) (argv : list str) : M Z :=
  match argv with
  | [] => mret (-1)
  | a :: rest => wpa_cli_cmd fuel ctrl a 0 rest
  end.



Definition wpa_cli_cmd_vendor (ctrl : option wpa_ctrl) (argv : list str) : M Z :=
  wpa_cli_cmd fuel ctrl (lit "VENDOR") 1 argv.

Definition wpa_cli_cmd_flush (ctrl : option wpa_ctrl) (argv : list str) : M Z :=
  wpa_ctrl_command fuel ctrl (lit "FLUSH").

Definition wpa_cli_cmd_radio_work (ctrl : option wpa_ctrl) (argv : list str) : M Z :=
  wpa_cli_cmd fuel ctrl (lit "RADIO_WORK") 1 argv.

Definition wpa_cli_cmd_neighbor_rep_request (ctrl : option wpa_ctrl) (argv : list str) : M Z :=
  wpa_cli_cmd fuel ctrl (lit "NEIGHBOR_REP_REQUEST") 0 argv.

Definition wpa_cli_cmd_erp_flush (ctrl : option wpa_ctrl) (argv : list str) : M Z :=
  wpa_ctrl_command fuel ctrl (lit "ERP_FLUSH").

Definition wpa_cli_cmd_mac_rand_scan (ctrl : option wpa_ctrl) (argv : list str) : M Z :=
  wpa_cli_cmd fuel ctrl (lit "MAC_RAND_SCAN") 1 argv.

Definition wpa_cli_cmd_get_pref_freq_list (ctrl : option wpa_ctrl) (argv : list str) : M Z :=
  wpa_cli_cmd fuel ctrl (lit "GET_PREF_FREQ_LIST") 1 argv.

Definition wpa_cli_cmd_p2p_lo_start (ctrl : option wpa_ctrl) (argv : list str) : M Z :=
  wpa_cli_cmd fuel ctrl (lit "P2P_LO_START") 4 argv.

Definition wpa_cli_cmd_p2p_lo_stop (ctrl : option wpa_ctrl) (argv : list str) : M Z :=
  wpa_cli_cmd fuel ctrl (lit "P2P_LO_STOP") 0 argv.

(** ** The variants that fill the buffer [b] of the caller *)

Definition WPA_CLI_EXEC_RES_UNIMPLEMENTED : Z := -100.

Definition handler_with_results_default_func (ctrl : option wpa_ctrl) (argv : list str)
    (b : buf) (buf_len : Z) : M (Z * buf) :=
  printf (line "handler_with_results_default_func not implemented!");;
  mret (WPA_CLI_EXEC_RES_UNIMPLEMENTED, b).

(** With an argument the result is printed and the buffer left alone. *)
Definition wpa_cli_cmd_status_with_results (ctrl : option wpa_ctrl) (argv : list str)
    (b : buf) (buf_len : Z) : M (Z * buf) :=
  let printed cmd := r ← wpa_ctrl_command fuel ctrl cmd; mret (r, b) in
  match argv with
  | [] => wpa_ctrl_command_with_results fuel ctrl (lit "STATUS") b buf_len
  | a :: _ =>
      if strcmp a (lit "verbose") =? 0 then printed (lit "STATUS-VERBOSE")
      else if strcmp a (lit "wps") =? 0 then printed (lit "STATUS-WPS")
      else if strcmp a (lit "driver") =? 0 then printed (lit "STATUS-DRIVER")
      else wpa_ctrl_command_with_results fuel ctrl (lit "STATUS") b buf_len
  end.

Definition wpa_cli_cmd_ifname_with_results (ctrl : option wpa_ctrl) (argv : list str)
    (b : buf) (buf_len : Z) : M (Z * buf) :=
  wpa_ctrl_command_with_results fuel ctrl (lit "IFNAME") b buf_len.

Definition wpa_cli_cmd_scan_with_results (ctrl : option wpa_ctrl) (argv : list str)
    (b : buf) (buf_len : Z) : M (Z * buf) :=
  wpa_cli_cmd_with_results fuel ctrl (lit "SCAN") 0 argv b buf_len.

Definition wpa_cli_cmd_scan_results_with_results (ctrl : option wpa_ctrl) (argv : list str)
    (b : buf) (buf_len : Z) : M (Z * buf) :=
  wpa_ctrl_command_with_results fuel ctrl (lit "SCAN_RESULTS") b buf_len.

Definition wpa_cli_cmd_select_network_with_results (ctrl : option wpa_ctrl) (argv : list str)
    (b : buf) (buf_len : Z) : M (Z * buf) :=
  wpa_cli_cmd_with_results fuel ctrl (lit "SELECT_NETWORK") 1 argv b buf_len.

Definition wpa_cli_cmd_add_network_with_results (ctrl : option wpa_ctrl) (argv : list str)
    (b : buf) (buf_len : Z) : M (Z * buf) :=
  res ← wpa_ctrl_command_with_results fuel ctrl (lit "ADD_NETWORK") b buf_len;
  update_networks fuel ctrl;;
  mret res.

Definition wpa_cli_cmd_list_networks_with_results (ctrl : option wpa_ctrl) (argv : list str)
    (b : buf) (buf_len : Z) : M (Z * buf) :=
  wpa_ctrl_command_with_results fuel ctrl (lit "LIST_NETWORKS") b buf_len.

Definition wpa_cli_cmd_set_network_with_results (ctrl : option wpa_ctrl) (argv : list str)
    (b : buf) (buf_len : Z) : M (Z * buf) :=
  let argc := Z.of_nat (length argv) in
  if argc =? 0 then wpa_cli_show_network_variables;; mret (0, b)
  else if argc <? 3 then
    printf (line "Invalid SET_NETWORK command: needs three arguments"
              ++ line "(network id, variable name, and value)");;
    mret (-1, b)
  else wpa_cli_cmd_with_results fuel ctrl (lit "SET_NETWORK") 3 argv b buf_len.

Definition wpa_cli_cmd_remove_network_with_results (ctrl : option wpa_ctrl) (argv : list str)
    (b : buf) (buf_len : Z) : M (Z * buf) :=
  res ← wpa_cli_cmd_with_results fuel ctrl (lit "REMOVE_NETWORK") 1 argv b buf_len;
  update_networks fuel ctrl;;
  mret res.

Definition wpa_cli_cmd_enable_network_with_results (ctrl : option wpa_ctrl) (argv : list str)
    (b : buf) (buf_len : Z) : M (Z * buf) :=
  wpa_cli_cmd_with_results fuel ctrl (lit "ENABLE_NETWORK") 1 argv b buf_len.

Definition wpa_cli_cmd_disable_network_with_results (ctrl : option wpa_ctrl) (argv : list str)
    (b : buf) (buf_len : Z) : M (Z * buf) :=
  wpa_cli_cmd_with_results fuel ctrl (lit "DISABLE_NETWORK") 1 argv b buf_len.

Definition wpa_cli_cmd_save_config_with_results (ctrl : option wpa_ctrl) (argv : list str)
    (b : buf) (buf_len : Z) : M (Z * buf) :=
  wpa_ctrl_command_with_results fuel ctrl (lit "SAVE_CONFIG") b buf_len.

End Commands.
