(* ===== verification/CliComplete.v ===== *)
(** * Command completion (libwpa_cli_wrapper.c)

    The completion functions return an array of newly allocated strings, here
    a list, or [NULL]; when an allocation fails the array ends early.  [pos] is
    the cursor in the line [s]. *)

From S2P Require Import Prelude CString Scan Io WpaCtrl CliUtil CliCore CliLists.

Definition set_fields (cfg : config) : list str := lit <$>
  (["EAPOL::heldPeriod"; "EAPOL::authPeriod"; "EAPOL::startPeriod"; "EAPOL::maxStart";
     "dot11RSNAConfigPMKLifetime"; "dot11RSNAConfigPMKReauthThreshold";
     "dot11RSNAConfigSATimeout"; "wps_fragment_size"; "wps_version_number"; "ampdu";
     "tdls_testing"; "tdls_disabled"; "pno"; "radio_disabled"; "uapsd"; "ps";
     "wifi_display"; "bssid_filter"; "disallow_aps"; "no_keep_alive"] ++
   ifdef (CONFIG_CTRL_IFACE cfg)
    ["ctrl_interface"; "no_ctrl_interface"; "ctrl_interface_group"] ++
   ["eapol_version"; "ap_scan"; "bgscan"] ++
   ifdef (CONFIG_MESH cfg)
    ["user_mpm"; "max_peer_links"; "mesh_max_inactivity"; "dot11RSNASAERetransPeriod"] ++
   ["disable_scan_offload"; "fast_reauth"; "opensc_engine_path"; "pkcs11_engine_path";
     "pkcs11_module_path"; "openssl_ciphers"; "pcsc_reader"; "pcsc_pin";
     "external_sim"; "driver_param"; "dot11RSNAConfigPMKLifetime";
     "dot11RSNAConfigPMKReauthThreshold"; "dot11RSNAConfigSATimeout"] ++
   ifdef (negb (CONFIG_NO_CONFIG_WRITE cfg))
    ["update_config"] ++
   ["load_dynamic_eap"] ++
   ifdef (CONFIG_WPS cfg)
    ["uuid"; "device_name"; "manufacturer"; "model_name"; "model_number";
     "serial_number"; "device_type"; "os_version"; "config_methods";
     "wps_cred_processing"; "wps_vendor_ext_m1"] ++
   ifdef (CONFIG_P2P cfg)
    ["sec_device_type"; "p2p_listen_reg_class"; "p2p_listen_channel";
     "p2p_oper_reg_class"; "p2p_oper_channel"; "p2p_go_intent"; "p2p_ssid_postfix";
     "persistent_reconnect"; "p2p_intra_bss"; "p2p_group_idle";
     "p2p_passphrase_len"; "p2p_pref_chan"; "p2p_no_go_freq"; "p2p_add_cli_chan";
     "p2p_optimize_listen_chan"; "p2p_go_ht40"; "p2p_go_vht"; "p2p_disabled";
     "p2p_go_ctwindow"; "p2p_no_group_iface"; "p2p_ignore_shared_freq";
     "ip_addr_go"; "ip_addr_mask"; "ip_addr_start"; "ip_addr_end"] ++
   ["country"; "bss_max_count"; "bss_expiration_age"; "bss_expiration_scan_count";
     "filter_ssids"; "filter_rssi"; "max_num_sta"; "disassoc_low_ack"] ++
   ifdef (CONFIG_HS20 cfg)
    ["hs20"] ++
   ["interworking"; "hessid"; "access_network_type"; "pbc_in_m1"; "autoscan";
     "wps_nfc_dev_pw_id"; "wps_nfc_dh_pubkey"; "wps_nfc_dh_privkey";
     "wps_nfc_dev_pw"; "ext_password_backend"; "p2p_go_max_inactivity";
     "auto_interworking"; "okc"; "pmf"; "sae_groups"; "dtim_period"; "beacon_int";
     "ap_vendor_elements"; "ignore_old_scan_res"; "freq_list"; "scan_cur_freq";
     "sched_scan_interval"; "tdls_external_control"; "osu_dir"; "wowlan_triggers";
     "p2p_search_delay"; "mac_addr"; "rand_addr_lifetime"; "preassoc_mac_addr";
     "key_mgmt_offload"; "passive_scan"; "reassoc_same_bss_optim"; "wps_priority"] ++
   ifdef (CONFIG_TESTING_OPTIONS cfg)
    ["ignore_auth_resp"]).

Definition get_fields (cfg : config) : list str := lit <$>
  (ifdef (CONFIG_CTRL_IFACE cfg)
    ["ctrl_interface"; "ctrl_interface_group"] ++
   ["eapol_version"; "ap_scan"] ++
   ifdef (CONFIG_MESH cfg)
    ["user_mpm"; "max_peer_links"; "mesh_max_inactivity"] ++
   ["disable_scan_offload"; "fast_reauth"; "opensc_engine_path"; "pkcs11_engine_path";
     "pkcs11_module_path"; "openssl_ciphers"; "pcsc_reader"; "pcsc_pin";
     "external_sim"; "driver_param"; "dot11RSNAConfigPMKLifetime";
     "dot11RSNAConfigPMKReauthThreshold"; "dot11RSNAConfigSATimeout"] ++
   ifdef (negb (CONFIG_NO_CONFIG_WRITE cfg))
    ["update_config"] ++
   ifdef (CONFIG_WPS cfg)
    ["device_name"; "manufacturer"; "model_name"; "model_number"; "serial_number";
     "config_methods"; "wps_cred_processing"] ++
   ifdef (CONFIG_P2P cfg)
    ["p2p_listen_reg_class"; "p2p_listen_channel"; "p2p_oper_reg_class";
     "p2p_oper_channel"; "p2p_go_intent"; "p2p_ssid_postfix";
     "persistent_reconnect"; "p2p_intra_bss"; "p2p_group_idle";
     "p2p_passphrase_len"; "p2p_add_cli_chan"; "p2p_optimize_listen_chan";
     "p2p_go_ht40"; "p2p_go_vht"; "p2p_disabled"; "p2p_go_ctwindow";
     "p2p_no_group_iface"; "p2p_ignore_shared_freq"; "ip_addr_go"; "ip_addr_mask";
     "ip_addr_start"; "ip_addr_end"] ++
   ["bss_max_count"; "bss_expiration_age"; "bss_expiration_scan_count"; "filter_ssids";
     "filter_rssi"; "max_num_sta"; "disassoc_low_ack"] ++
   ifdef (CONFIG_HS20 cfg)
    ["hs20"] ++
   ["interworking"; "access_network_type"; "pbc_in_m1"; "autoscan";
     "wps_nfc_dev_pw_id"; "ext_password_backend"; "p2p_go_max_inactivity";
     "auto_interworking"; "okc"; "pmf"; "dtim_period"; "beacon_int";
     "ignore_old_scan_res"; "scan_cur_freq"; "sched_scan_interval";
     "tdls_external_control"; "osu_dir"; "wowlan_triggers"; "p2p_search_delay";
     "mac_addr"; "rand_addr_lifetime"; "preassoc_mac_addr"; "key_mgmt_offload";
     "passive_scan"; "reassoc_same_bss_optim"]).

Definition network_fields (cfg : config) : list str := lit <$>
  (["ssid"; "scan_ssid"; "bssid"; "bssid_blacklist"; "bssid_whitelist"; "psk"; "proto";
     "key_mgmt"; "bg_scan_period"; "pairwise"; "group"; "auth_alg"; "scan_freq";
     "freq_list"; "max_oper_chwidth"] ++
   ifdef (IEEE8021X_EAPOL cfg)
    ["eap"; "identity"; "anonymous_identity"; "password"; "ca_cert"; "ca_path";
     "client_cert"; "private_key"; "private_key_passwd"; "dh_file"; "subject_match";
     "altsubject_match"; "domain_suffix_match"; "domain_match"; "ca_cert2";
     "ca_path2"; "client_cert2"; "private_key2"; "private_key2_passwd"; "dh_file2";
     "subject_match2"; "altsubject_match2"; "domain_suffix_match2"; "domain_match2";
     "phase1"; "phase2"; "pcsc"; "pin"; "engine_id"; "key_id"; "cert_id";
     "ca_cert_id"; "pin2"; "engine2_id"; "key2_id"; "cert2_id"; "ca_cert2_id";
     "engine"; "engine2"; "eapol_flags"; "sim_num"; "openssl_ciphers"; "erp"] ++
   ["wep_key0"; "wep_key1"; "wep_key2"; "wep_key3"; "wep_tx_keyidx"; "priority"] ++
   ifdef (IEEE8021X_EAPOL cfg)
    ["eap_workaround"; "pac_file"; "fragment_size"; "ocsp"] ++
   ifdef (CONFIG_MESH cfg)
    ["mode"; "no_auto_peer"] ++
   ifdef (negb (CONFIG_MESH cfg))
    ["mode"] ++
   ["proactive_key_caching"; "disabled"; "id_str"] ++
   ifdef (CONFIG_IEEE80211W cfg)
    ["ieee80211w"] ++
   ["peerkey"; "mixed_cell"; "frequency"; "fixed_freq"] ++
   ifdef (CONFIG_MESH cfg)
    ["mesh_basic_rates"; "dot11MeshMaxRetries"; "dot11MeshRetryTimeout";
     "dot11MeshConfirmTimeout"; "dot11MeshHoldingTimeout"] ++
   ["wpa_ptk_rekey"; "bgscan"; "ignore_broadcast_ssid"] ++
   ifdef (CONFIG_P2P cfg)
    ["go_p2p_dev_addr"; "p2p_client_list"; "psk_list"] ++
   ifdef (CONFIG_HT_OVERRIDES cfg)
    ["disable_ht"; "disable_ht40"; "disable_sgi"; "disable_ldpc"; "ht40_intolerant";
     "disable_max_amsdu"; "ampdu_factor"; "ampdu_density"; "ht_mcs"] ++
   ifdef (CONFIG_VHT_OVERRIDES cfg)
    ["disable_vht"; "vht_capa"; "vht_capa_mask"; "vht_rx_mcs_nss_1"; "vht_rx_mcs_nss_2";
     "vht_rx_mcs_nss_3"; "vht_rx_mcs_nss_4"; "vht_rx_mcs_nss_5"; "vht_rx_mcs_nss_6";
     "vht_rx_mcs_nss_7"; "vht_rx_mcs_nss_8"; "vht_tx_mcs_nss_1"; "vht_tx_mcs_nss_2";
     "vht_tx_mcs_nss_3"; "vht_tx_mcs_nss_4"; "vht_tx_mcs_nss_5"; "vht_tx_mcs_nss_6";
     "vht_tx_mcs_nss_7"; "vht_tx_mcs_nss_8"] ++
   ["ap_max_inactivity"; "dtim_period"; "beacon_int"] ++
   ifdef (CONFIG_MACSEC cfg)
    ["macsec_policy"] ++
   ifdef (CONFIG_HS20 cfg)
    ["update_identifier"] ++
   ["mac_addr"; "pbss"; "wps_disabled"]).

Definition capability_fields (cfg : config) : list str := lit <$>
  (["eap"; "pairwise"; "group"; "group_mgmt"; "key_mgmt"; "proto"; "auth_alg"; "modes";
     "channels"; "freq"] ++
   ifdef (CONFIG_TDLS cfg)
    ["tdls"] ++
   ifdef (CONFIG_ERP cfg)
    ["erp"] ++
   ifdef (CONFIG_FIPS cfg)
    ["fips"] ++
   ifdef (CONFIG_ACS cfg)
    ["acs"]).

Definition p2p_set_fields : list str := lit <$>
  (["discoverability"; "managed"; "listen_channel"; "ssid_postfix"; "noa"; "ps";
     "oppps"; "ctwindow"; "disabled"; "conc_pref"; "force_long_sd"; "peer_filter";
     "cross_connect"; "go_apsd"; "client_apsd"; "disallow_freq"; "disc_int";
     "per_sta_psk"]).

Section Complete.
Context {E : Type} `{OS E}.
Local Abbreviation M := (M E cli).

(** [os_calloc] of the array and [os_strdup] of the fields. *)
Definition dup_fields (fields : list str) : M (option (list str)) :=
  a ← alloc ((Z.of_nat (length fields) + 1) * 8);
  if negb a then mret None else r ← dup_all fields; mret (Some r).

Definition list_array (f : cli → list str) : M (option (list str)) :=
  l ← gets f; cli_txt_list_array l.

Definition wpa_cli_complete_set (cfg : config) (s : str) (pos : Z) : M (option (list str)) :=
  n ← lift (get_cmd_arg_num s pos);
  if n =? 1 then dup_fields (set_fields cfg)
  else if (1 <? n) && strncasecmp_eq s (lit "set bssid_filter ") 17 then list_array bsses
  else mret None.

Definition wpa_cli_complete_get (cfg : config) (s : str) (pos : Z) : M (option (list str)) :=
  n ← lift (get_cmd_arg_num s pos);
  if n =? 1 then dup_fields (get_fields cfg) else mret None.

Definition wpa_cli_complete_network (cfg : config) (s : str) (pos : Z)
    : M (option (list str)) :=
  n ← lift (get_cmd_arg_num s pos);
  if n =? 1 then list_array networks
  else if n =? 2 then dup_fields (network_fields cfg)
  else mret None.

Definition wpa_cli_complete_network_id (s : str) (pos : Z) : M (option (list str)) :=
  n ← lift (get_cmd_arg_num s pos);
  if n =? 1 then list_array networks else mret None.

Definition wpa_cli_complete_dup_network (cfg : config) (s : str) (pos : Z)
    : M (option (list str)) :=
  n ← lift (get_cmd_arg_num s pos);
  if (n =? 1) || (n =? 2) then list_array networks
  else if n =? 3 then dup_fields (network_fields cfg)
  else mret None.

Definition wpa_cli_complete_bss (s : str) (pos : Z) : M (option (list str)) :=
  n ← lift (get_cmd_arg_num s pos);
  if n =? 1 then list_array bsses else mret None.

Definition wpa_cli_complete_get_capability (cfg : config) (s : str) (pos : Z)
    : M (option (list str)) :=
  n ← lift (get_cmd_arg_num s pos);
  if n =? 1 then dup_fields (capability_fields cfg)
  else if n =? 2 then
    a ← alloc 16;
    if negb a then mret None else r ← dup_all [lit "strict"]; mret (Some r)
  else mret None.

Definition wpa_cli_complete_p2p_find (s : str) (pos : Z) : M (option (list str)) :=
  n ← lift (get_cmd_arg_num s pos);
  a ← alloc 48;
  if negb a then mret None
  else
    r ← dup_all ([lit "type=social"; lit "type=progressive"; lit "delay="; lit "dev_id="]
                   ++ (if n =? 1 then [lit "[timeout]"] else []));
    mret (if bool_decide (r = []) then None else Some r).

Definition wpa_cli_complete_p2p_connect (s : str) (pos : Z) : M (option (list str)) :=
  n ← lift (get_cmd_arg_num s pos);
  if n =? 1 then list_array p2p_peers else mret None.

Definition wpa_cli_complete_p2p_group_remove (s : str) (pos : Z) : M (option (list str)) :=
  n ← lift (get_cmd_arg_num s pos);
  if n =? 1 then list_array p2p_groups else mret None.

Definition wpa_cli_complete_p2p_peer (s : str) (pos : Z) : M (option (list str)) :=
  n ← lift (get_cmd_arg_num s pos);
  if n =? 1 then list_array p2p_peers else mret None.

Definition wpa_cli_complete_p2p_set (s : str) (pos : Z) : M (option (list str)) :=
  n ← lift (get_cmd_arg_num s pos);
  if n =? 1 then dup_fields p2p_set_fields
  else if (n =? 2) && strncasecmp_eq s (lit "p2p_set peer_filter ") 20 then list_array p2p_peers
  else mret None.

End Complete.
