(* ===== verification/CliTable.v ===== *)
(** * The command table and its users (libwpa_cli_wrapper.c)

    [wpa_cli_commands] is split into pieces in the order of the source; the
    terminating entry is the end of the list.  The handlers of [help] need the
    table they stand in: the pieces take them as parameters and
    [wpa_cli_commands] supplies them, built over the names and usages, which
    do not depend on them. *)

From S2P Require Import Prelude CString Scan Io WpaCtrl CliUtil CliCore CliLists.
From S2P Require Import CliCmdBasic CliCmdMore CliComplete.

Definition cli_cmd_flag_none : Z := 0.
Definition cli_cmd_flag_sensitive : Z := 1.

Section Table.
Context {E : Type} `{OS E} (fuel : nat) (cfg : config).
Local Abbreviation M := (M E cli).

Definition handler : Type := option wpa_ctrl → list str → M Z.
Definition results_handler : Type := option wpa_ctrl → list str → buf → Z → M (Z * buf).
Definition completion : Type := str → Z → M (option (list str)).

(** [struct wpa_cli_cmd]. *)
Record cmd_entry := Cmd {
  e_cmd : str;
  e_handler : handler;
  e_results : results_handler;
  e_completion : option completion;
  e_flags : Z;
  e_usage : str;
}.

Definition default_results : results_handler := handler_with_results_default_func.

Section Pieces.
Context (help : handler) (complete_help : completion).

Definition wpa_cli_commands_1 : list cmd_entry :=
   [ Cmd (lit "status") (wpa_cli_cmd_status fuel) (wpa_cli_cmd_status_with_results fuel)
       None cli_cmd_flag_none
       (lit "[verbose] = get current WPA/EAPOL/EAP status")
   ; Cmd (lit "ifname") (wpa_cli_cmd_ifname fuel) (wpa_cli_cmd_ifname_with_results fuel)
       None cli_cmd_flag_none
       (lit "= get current interface name")
   ; Cmd (lit "ping") (wpa_cli_cmd_ping fuel) default_results
       None cli_cmd_flag_none
       (lit "= pings wpa_supplicant")
   ; Cmd (lit "relog") (wpa_cli_cmd_relog fuel) default_results
       None cli_cmd_flag_none
       (lit "= re-open log-file (allow rolling logs)")
   ; Cmd (lit "note") (wpa_cli_cmd_note fuel) default_results
       None cli_cmd_flag_none
       (lit "<text> = add a note to wpa_supplicant debug log")
   ; Cmd (lit "mib") (wpa_cli_cmd_mib fuel) default_results
       None cli_cmd_flag_none
       (lit "= get MIB variables (dot1x, dot11)")
   ; Cmd (lit "help") help default_results
       (Some complete_help) cli_cmd_flag_none
       (lit "[command] = show usage help")
   ; Cmd (lit "interface") (wpa_cli_cmd_interface fuel) default_results
       None cli_cmd_flag_none
       (lit "[ifname] = show interfaces/select interface")
   ; Cmd (lit "level") (wpa_cli_cmd_level fuel) default_results
       None cli_cmd_flag_none
       (lit "<debug level> = change debug level")
   ; Cmd (lit "license") wpa_cli_cmd_license default_results
       None cli_cmd_flag_none
       (lit "= show full wpa_cli license")
   ; Cmd (lit "quit") wpa_cli_cmd_quit default_results
       None cli_cmd_flag_none
       (lit "= exit wpa_cli")
   ; Cmd (lit "set") (wpa_cli_cmd_set fuel) default_results
       (Some (wpa_cli_complete_set cfg)) cli_cmd_flag_none
       (lit "= set variables (shows list of variables when run without arguments)")
   ; Cmd (lit "dump") (wpa_cli_cmd_dump fuel) default_results
       None cli_cmd_flag_none
       (lit "= dump config variables")
   ; Cmd (lit "get") (wpa_cli_cmd_get fuel) default_results
       (Some (wpa_cli_complete_get cfg)) cli_cmd_flag_none
       (lit "<name> = get information")
   ; Cmd (lit "driver_flags") (wpa_cli_cmd_driver_flags fuel) default_results
       None cli_cmd_flag_none
       (lit "= list driver flags")
   ; Cmd (lit "logon") (wpa_cli_cmd_logon fuel) default_results
       None cli_cmd_flag_none
       (lit "= IEEE 802.1X EAPOL state machine logon")
   ; Cmd (lit "logoff") (wpa_cli_cmd_logoff fuel) default_results
       None cli_cmd_flag_none
       (lit "= IEEE 802.1X EAPOL state machine logoff")
   ; Cmd (lit "pmksa") (wpa_cli_cmd_pmksa fuel) default_results
       None cli_cmd_flag_none
       (lit "= show PMKSA cache")
   ; Cmd (lit "pmksa_flush") (wpa_cli_cmd_pmksa_flush fuel) default_results
       None cli_cmd_flag_none
       (lit "= flush PMKSA cache entries")
   ; Cmd (lit "reassociate") (wpa_cli_cmd_reassociate fuel) default_results
       None cli_cmd_flag_none
       (lit "= force reassociation")
   ; Cmd (lit "reattach") (wpa_cli_cmd_reattach fuel) default_results
       None cli_cmd_flag_none
       (lit "= force reassociation back to the same BSS")
   ; Cmd (lit "preauthenticate") (wpa_cli_cmd_preauthenticate fuel) default_results
       (Some wpa_cli_complete_bss) cli_cmd_flag_none
       (lit "<BSSID> = force preauthentication")
   ; Cmd (lit "identity") (wpa_cli_cmd_identity fuel) default_results
       None cli_cmd_flag_none
       (lit "<network id> <identity> = configure identity for an SSID")
   ; Cmd (lit "password") (wpa_cli_cmd_password fuel) default_results
       None cli_cmd_flag_sensitive
       (lit "<network id> <password> = configure password for an SSID")
   ; Cmd (lit "new_password") (wpa_cli_cmd_new_password fuel) default_results
       None cli_cmd_flag_sensitive
       (lit "<network id> <password> = change password for an SSID")
   ; Cmd (lit "pin") (wpa_cli_cmd_pin fuel) default_results
       None cli_cmd_flag_sensitive
       (lit "<network id> <pin> = configure pin for an SSID")
   ; Cmd (lit "otp") (wpa_cli_cmd_otp fuel) default_results
       None cli_cmd_flag_sensitive
       (lit "<network id> <password> = configure one-time-password for an SSID")
   ; Cmd (lit "passphrase") (wpa_cli_cmd_passphrase fuel) default_results
       None cli_cmd_flag_sensitive
       (line "<network id> <passphrase> = configure private key passphrase"
          ++ lit "  for an SSID")
   ; Cmd (lit "sim") (wpa_cli_cmd_sim fuel) default_results
       None cli_cmd_flag_sensitive
       (lit "<network id> <pin> = report SIM operation result")
   ; Cmd (lit "bssid") (wpa_cli_cmd_bssid fuel) default_results
       None cli_cmd_flag_none
       (lit "<network id> <BSSID> = set preferred BSSID for an SSID")
   ; Cmd (lit "blacklist") (wpa_cli_cmd_blacklist fuel) default_results
       (Some wpa_cli_complete_bss) cli_cmd_flag_none
       (line "<BSSID> = add a BSSID to the blacklist"
          ++ line "blacklist clear = clear the blacklist"
          ++ lit "blacklist = display the blacklist")
   ; Cmd (lit "log_level") (wpa_cli_cmd_log_level fuel) default_results
       None cli_cmd_flag_none
       (line "<level> [<timestamp>] = update the log level/timestamp"
          ++ lit "log_level = display the current log level and log options")
   ; Cmd (lit "list_networks") (wpa_cli_cmd_list_networks fuel) (wpa_cli_cmd_list_networks_with_results fuel)
       None cli_cmd_flag_none
       (lit "= list configured networks")
   ; Cmd (lit "select_network") (wpa_cli_cmd_select_network fuel) (wpa_cli_cmd_select_network_with_results fuel)
       (Some wpa_cli_complete_network_id) cli_cmd_flag_none
       (lit "<network id> = select a network (disable others)")
   ; Cmd (lit "enable_network") (wpa_cli_cmd_enable_network fuel) (wpa_cli_cmd_enable_network_with_results fuel)
       (Some wpa_cli_complete_network_id) cli_cmd_flag_none
       (lit "<network id> = enable a network")
   ; Cmd (lit "disable_network") (wpa_cli_cmd_disable_network fuel) (wpa_cli_cmd_disable_network_with_results fuel)
       (Some wpa_cli_complete_network_id) cli_cmd_flag_none
       (lit "<network id> = disable a network")
   ; Cmd (lit "add_network") (wpa_cli_cmd_add_network fuel) (wpa_cli_cmd_add_network_with_results fuel)
       None cli_cmd_flag_none
       (lit "= add a network")
   ; Cmd (lit "remove_network") (wpa_cli_cmd_remove_network fuel) (wpa_cli_cmd_remove_network_with_results fuel)
       (Some wpa_cli_complete_network_id) cli_cmd_flag_none
       (lit "<network id> = remove a network")
   ; Cmd (lit "set_network") (wpa_cli_cmd_set_network fuel) (wpa_cli_cmd_set_network_with_results fuel)
       (Some (wpa_cli_complete_network cfg)) cli_cmd_flag_sensitive
       (line "<network id> <variable> <value> = set network variables (shows"
          ++ lit "  list of variables when run without arguments)")
   ; Cmd (lit "get_network") (wpa_cli_cmd_get_network fuel) default_results
       (Some (wpa_cli_complete_network cfg)) cli_cmd_flag_none
       (lit "<network id> <variable> = get network variables")
   ; Cmd (lit "dup_network") (wpa_cli_cmd_dup_network fuel) default_results
       (Some (wpa_cli_complete_dup_network cfg)) cli_cmd_flag_none
       (lit "<src network id> <dst network id> <variable> = duplicate network "
          ++ lit "variables") ].

Definition wpa_cli_commands_2 : list cmd_entry :=
   [ Cmd (lit "list_creds") (wpa_cli_cmd_list_creds fuel) default_results
       None cli_cmd_flag_none
       (lit "= list configured credentials")
   ; Cmd (lit "add_cred") (wpa_cli_cmd_add_cred fuel) default_results
       None cli_cmd_flag_none
       (lit "= add a credential")
   ; Cmd (lit "remove_cred") (wpa_cli_cmd_remove_cred fuel) default_results
       None cli_cmd_flag_none
       (lit "<cred id> = remove a credential")
   ; Cmd (lit "set_cred") (wpa_cli_cmd_set_cred fuel) default_results
       None cli_cmd_flag_sensitive
       (lit "<cred id> <variable> <value> = set credential variables")
   ; Cmd (lit "get_cred") (wpa_cli_cmd_get_cred fuel) default_results
       None cli_cmd_flag_none
       (lit "<cred id> <variable> = get credential variables")
   ; Cmd (lit "save_config") (wpa_cli_cmd_save_config fuel) (wpa_cli_cmd_save_config_with_results fuel)
       None cli_cmd_flag_none
       (lit "= save the current configuration")
   ; Cmd (lit "disconnect") (wpa_cli_cmd_disconnect fuel) default_results
       None cli_cmd_flag_none
       (line "= disconnect and wait for reassociate/reconnect command before"
          ++ lit "  connecting")
   ; Cmd (lit "reconnect") (wpa_cli_cmd_reconnect fuel) default_results
       None cli_cmd_flag_none
       (lit "= like reassociate, but only takes effect if already disconnected")
   ; Cmd (lit "scan") (wpa_cli_cmd_scan fuel) (wpa_cli_cmd_scan_with_results fuel)
       None cli_cmd_flag_none
       (lit "= request new BSS scan")
   ; Cmd (lit "scan_results") (wpa_cli_cmd_scan_results fuel) (wpa_cli_cmd_scan_results_with_results fuel)
       None cli_cmd_flag_none
       (lit "= get latest scan results")
   ; Cmd (lit "abort_scan") (wpa_cli_cmd_abort_scan fuel) default_results
       None cli_cmd_flag_none
       (lit "= request ongoing scan to be aborted")
   ; Cmd (lit "bss") (wpa_cli_cmd_bss fuel) default_results
       (Some wpa_cli_complete_bss) cli_cmd_flag_none
       (lit "<<idx> | <bssid>> = get detailed scan result info")
   ; Cmd (lit "get_capability") (wpa_cli_cmd_get_capability fuel) default_results
       (Some (wpa_cli_complete_get_capability cfg)) cli_cmd_flag_none
       (lit "<eap/pairwise/group/key_mgmt/proto/auth_alg/channels/freq/modes> = "
          ++ lit "get capabilities")
   ; Cmd (lit "reconfigure") (wpa_cli_cmd_reconfigure fuel) default_results
       None cli_cmd_flag_none
       (lit "= force wpa_supplicant to re-read its configuration file")
   ; Cmd (lit "terminate") (wpa_cli_cmd_terminate fuel) default_results
       None cli_cmd_flag_none
       (lit "= terminate wpa_supplicant")
   ; Cmd (lit "interface_add") (wpa_cli_cmd_interface_add fuel) default_results
       None cli_cmd_flag_none
       (line "<ifname> <confname> <driver> <ctrl_interface> <driver_param>"
          ++ lit "  <bridge_name> <create> <type> = adds new interface, all parameters "
          ++ line "but"
          ++ lit "  <ifname> are optional. Supported types are station ('sta') and AP "
          ++ lit "('ap')")
   ; Cmd (lit "interface_remove") (wpa_cli_cmd_interface_remove fuel) default_results
       None cli_cmd_flag_none
       (lit "<ifname> = removes the interface")
   ; Cmd (lit "interface_list") (wpa_cli_cmd_interface_list fuel) default_results
       None cli_cmd_flag_none
       (lit "= list available interfaces")
   ; Cmd (lit "ap_scan") (wpa_cli_cmd_ap_scan fuel) default_results
       None cli_cmd_flag_none
       (lit "<value> = set ap_scan parameter")
   ; Cmd (lit "scan_interval") (wpa_cli_cmd_scan_interval fuel) default_results
       None cli_cmd_flag_none
       (lit "<value> = set scan_interval parameter (in seconds)")
   ; Cmd (lit "bss_expire_age") (wpa_cli_cmd_bss_expire_age fuel) default_results
       None cli_cmd_flag_none
       (lit "<value> = set BSS expiration age parameter")
   ; Cmd (lit "bss_expire_count") (wpa_cli_cmd_bss_expire_count fuel) default_results
       None cli_cmd_flag_none
       (lit "<value> = set BSS expiration scan count parameter")
   ; Cmd (lit "bss_flush") (wpa_cli_cmd_bss_flush fuel) default_results
       None cli_cmd_flag_none
       (lit "<value> = set BSS flush age (0 by default)")
   ; Cmd (lit "stkstart") (wpa_cli_cmd_stkstart fuel) default_results
       None cli_cmd_flag_none
       (lit "<addr> = request STK negotiation with <addr>")
   ; Cmd (lit "ft_ds") (wpa_cli_cmd_ft_ds fuel) default_results
       (Some wpa_cli_complete_bss) cli_cmd_flag_none
       (lit "<addr> = request over-the-DS FT with <addr>")
   ; Cmd (lit "wps_pbc") (wpa_cli_cmd_wps_pbc fuel) default_results
       (Some wpa_cli_complete_bss) cli_cmd_flag_none
       (lit "[BSSID] = start Wi-Fi Protected Setup: Push Button Configuration")
   ; Cmd (lit "wps_pin") (wpa_cli_cmd_wps_pin fuel) default_results
       (Some wpa_cli_complete_bss) cli_cmd_flag_sensitive
       (lit "<BSSID> [PIN] = start WPS PIN method (returns PIN, if not hardcoded)")
   ; Cmd (lit "wps_check_pin") (wpa_cli_cmd_wps_check_pin fuel) default_results
       None cli_cmd_flag_sensitive
       (lit "<PIN> = verify PIN checksum")
   ; Cmd (lit "wps_cancel") (wpa_cli_cmd_wps_cancel fuel) default_results
       None cli_cmd_flag_none
       (lit "Cancels the pending WPS operation") ]
   ++ ifdef (CONFIG_WPS_NFC cfg)
   [ Cmd (lit "wps_nfc") (wpa_cli_cmd_wps_nfc fuel) default_results
       (Some wpa_cli_complete_bss) cli_cmd_flag_none
       (lit "[BSSID] = start Wi-Fi Protected Setup: NFC")
   ; Cmd (lit "wps_nfc_config_token") (wpa_cli_cmd_wps_nfc_config_token fuel) default_results
       None cli_cmd_flag_none
       (lit "<WPS|NDEF> = build configuration token")
   ; Cmd (lit "wps_nfc_token") (wpa_cli_cmd_wps_nfc_token fuel) default_results
       None cli_cmd_flag_none
       (lit "<WPS|NDEF> = create password token")
   ; Cmd (lit "wps_nfc_tag_read") (wpa_cli_cmd_wps_nfc_tag_read fuel) default_results
       None cli_cmd_flag_sensitive
       (lit "<hexdump of payload> = report read NFC tag with WPS data")
   ; Cmd (lit "nfc_get_handover_req") (wpa_cli_cmd_nfc_get_handover_req fuel) default_results
       None cli_cmd_flag_none
       (lit "<NDEF> <WPS> = create NFC handover request")
   ; Cmd (lit "nfc_get_handover_sel") (wpa_cli_cmd_nfc_get_handover_sel fuel) default_results
       None cli_cmd_flag_none
       (lit "<NDEF> <WPS> = create NFC handover select")
   ; Cmd (lit "nfc_report_handover") (wpa_cli_cmd_nfc_report_handover fuel) default_results
       None cli_cmd_flag_none
       (lit "<role> <type> <hexdump of req> <hexdump of sel> = report completed "
          ++ lit "NFC handover") ]
   ++ [ Cmd (lit "wps_reg") (wpa_cli_cmd_wps_reg fuel) default_results
       (Some wpa_cli_complete_bss) cli_cmd_flag_sensitive
       (lit "<BSSID> <AP PIN> = start WPS Registrar to configure an AP")
   ; Cmd (lit "wps_ap_pin") (wpa_cli_cmd_wps_ap_pin fuel) default_results
       None cli_cmd_flag_sensitive
       (lit "[params..] = enable/disable AP PIN")
   ; Cmd (lit "wps_er_start") (wpa_cli_cmd_wps_er_start fuel) default_results
       None cli_cmd_flag_none
       (lit "[IP address] = start Wi-Fi Protected Setup External Registrar")
   ; Cmd (lit "wps_er_stop") (wpa_cli_cmd_wps_er_stop fuel) default_results
       None cli_cmd_flag_none
       (lit "= stop Wi-Fi Protected Setup External Registrar")
   ; Cmd (lit "wps_er_pin") (wpa_cli_cmd_wps_er_pin fuel) default_results
       None cli_cmd_flag_sensitive
       (lit "<UUID> <PIN> = add an Enrollee PIN to External Registrar")
   ; Cmd (lit "wps_er_pbc") (wpa_cli_cmd_wps_er_pbc fuel) default_results
       None cli_cmd_flag_none
       (lit "<UUID> = accept an Enrollee PBC using External Registrar") ].

Definition wpa_cli_commands_3 : list cmd_entry :=
   [ Cmd (lit "wps_er_learn") (wpa_cli_cmd_wps_er_learn fuel) default_results
       None cli_cmd_flag_sensitive
       (lit "<UUID> <PIN> = learn AP configuration")
   ; Cmd (lit "wps_er_set_config") (wpa_cli_cmd_wps_er_set_config fuel) default_results
       None cli_cmd_flag_none
       (lit "<UUID> <network id> = set AP configuration for enrolling")
   ; Cmd (lit "wps_er_config") (wpa_cli_cmd_wps_er_config fuel) default_results
       None cli_cmd_flag_sensitive
       (lit "<UUID> <PIN> <SSID> <auth> <encr> <key> = configure AP") ]
   ++ ifdef (CONFIG_WPS_NFC cfg)
   [ Cmd (lit "wps_er_nfc_config_token") (wpa_cli_cmd_wps_er_nfc_config_token fuel) default_results
       None cli_cmd_flag_none
       (lit "<WPS/NDEF> <UUID> = build NFC configuration token") ]
   ++ [ Cmd (lit "ibss_rsn") (wpa_cli_cmd_ibss_rsn fuel) default_results
       None cli_cmd_flag_none
       (lit "<addr> = request RSN authentication with <addr> in IBSS") ]
   ++ ifdef (CONFIG_AP cfg)
   [ Cmd (lit "sta") (wpa_cli_cmd_sta fuel) default_results
       None cli_cmd_flag_none
       (lit "<addr> = get information about an associated station (AP)")
   ; Cmd (lit "all_sta") (wpa_cli_cmd_all_sta fuel) default_results
       None cli_cmd_flag_none
       (lit "= get information about all associated stations (AP)")
   ; Cmd (lit "deauthenticate") (wpa_cli_cmd_deauthenticate fuel) default_results
       None cli_cmd_flag_none
       (lit "<addr> = deauthenticate a station")
   ; Cmd (lit "disassociate") (wpa_cli_cmd_disassociate fuel) default_results
       None cli_cmd_flag_none
       (lit "<addr> = disassociate a station")
   ; Cmd (lit "chan_switch") (wpa_cli_cmd_chanswitch fuel) default_results
       None cli_cmd_flag_none
       (lit "<cs_count> <freq> [sec_channel_offset=] [center_freq1=] "
          ++ lit "[center_freq2=] [bandwidth=] [blocktx] [ht|vht] = CSA parameters") ]
   ++ [ Cmd (lit "suspend") (wpa_cli_cmd_suspend fuel) default_results
       None cli_cmd_flag_none
       (lit "= notification of suspend/hibernate")
   ; Cmd (lit "resume") (wpa_cli_cmd_resume fuel) default_results
       None cli_cmd_flag_none
       (lit "= notification of resume/thaw") ]
   ++ ifdef (CONFIG_TESTING_OPTIONS cfg)
   [ Cmd (lit "drop_sa") (wpa_cli_cmd_drop_sa fuel) default_results
       None cli_cmd_flag_none
       (lit "= drop SA without deauth/disassoc (test command)") ]
   ++ [ Cmd (lit "roam") (wpa_cli_cmd_roam fuel) default_results
       (Some wpa_cli_complete_bss) cli_cmd_flag_none
       (lit "<addr> = roam to the specified BSS") ]
   ++ ifdef (CONFIG_MESH cfg)
   [ Cmd (lit "mesh_interface_add") (wpa_cli_cmd_mesh_interface_add fuel) default_results
       None cli_cmd_flag_none
       (lit "[ifname] = Create a new mesh interface")
   ; Cmd (lit "mesh_group_add") (wpa_cli_cmd_mesh_group_add fuel) default_results
       None cli_cmd_flag_none
       (lit "<network id> = join a mesh network (disable others)")
   ; Cmd (lit "mesh_group_remove") (wpa_cli_cmd_mesh_group_remove fuel) default_results
       None cli_cmd_flag_none
       (lit "<ifname> = Remove mesh group interface")
   ; Cmd (lit "mesh_peer_remove") (wpa_cli_cmd_mesh_peer_remove fuel) default_results
       None cli_cmd_flag_none
       (lit "<addr> = Remove a mesh peer")
   ; Cmd (lit "mesh_peer_add") (wpa_cli_cmd_mesh_peer_add fuel) default_results
       None cli_cmd_flag_none
       (lit "<addr> [duration=<seconds>] = Add a mesh peer") ]
   ++ ifdef (CONFIG_P2P cfg)
   [ Cmd (lit "p2p_find") (wpa_cli_cmd_p2p_find fuel) default_results
       (Some wpa_cli_complete_p2p_find) cli_cmd_flag_none
       (lit "[timeout] [type=*] = find P2P Devices for up-to timeout seconds")
   ; Cmd (lit "p2p_stop_find") (wpa_cli_cmd_p2p_stop_find fuel) default_results
       None cli_cmd_flag_none
       (lit "= stop P2P Devices search")
   ; Cmd (lit "p2p_asp_provision") (wpa_cli_cmd_p2p_asp_provision fuel) default_results
       None cli_cmd_flag_none
       (lit "<addr> adv_id=<adv_id> conncap=<conncap> [info=<infodata>] = "
          ++ lit "provision with a P2P ASP Device")
   ; Cmd (lit "p2p_asp_provision_resp") (wpa_cli_cmd_p2p_asp_provision_resp fuel) default_results
       None cli_cmd_flag_none
       (lit "<addr> adv_id=<adv_id> [role<conncap>] [info=<infodata>] = provision "
          ++ lit "with a P2P ASP Device")
   ; Cmd (lit "p2p_connect") (wpa_cli_cmd_p2p_connect fuel) default_results
       (Some wpa_cli_complete_p2p_connect) cli_cmd_flag_none
       (lit "<addr> <" ++ [DQ] ++ lit "pbc" ++ [DQ]
          ++ lit "|PIN> [ht40] = connect to a P2P Device")
   ; Cmd (lit "p2p_listen") (wpa_cli_cmd_p2p_listen fuel) default_results
       None cli_cmd_flag_none
       (lit "[timeout] = listen for P2P Devices for up-to timeout seconds")
   ; Cmd (lit "p2p_group_remove") (wpa_cli_cmd_p2p_group_remove fuel) default_results
       (Some wpa_cli_complete_p2p_group_remove) cli_cmd_flag_none
       (lit "<ifname> = remove P2P group interface (terminate group if GO)")
   ; Cmd (lit "p2p_group_add") (wpa_cli_cmd_p2p_group_add fuel) default_results
       None cli_cmd_flag_none
       (lit "[ht40] = add a new P2P group (local end as GO)")
   ; Cmd (lit "p2p_group_member") (wpa_cli_cmd_p2p_group_member fuel) default_results
       None cli_cmd_flag_none
       (lit "<dev_addr> = Get peer interface address on local GO using peer "
          ++ lit "Device Address")
   ; Cmd (lit "p2p_prov_disc") (wpa_cli_cmd_p2p_prov_disc fuel) default_results
       (Some wpa_cli_complete_p2p_peer) cli_cmd_flag_none
       (lit "<addr> <method> = request provisioning discovery")
   ; Cmd (lit "p2p_get_passphrase") (wpa_cli_cmd_p2p_get_passphrase fuel) default_results
       None cli_cmd_flag_none
       (lit "= get the passphrase for a group (GO only)")
   ; Cmd (lit "p2p_serv_disc_req") (wpa_cli_cmd_p2p_serv_disc_req fuel) default_results
       (Some wpa_cli_complete_p2p_peer) cli_cmd_flag_none
       (lit "<addr> <TLVs> = schedule service discovery request")
   ; Cmd (lit "p2p_serv_disc_cancel_req") (wpa_cli_cmd_p2p_serv_disc_cancel_req fuel) default_results
       None cli_cmd_flag_none
       (lit "<id> = cancel pending service discovery request")
   ; Cmd (lit "p2p_serv_disc_resp") (wpa_cli_cmd_p2p_serv_disc_resp fuel) default_results
       None cli_cmd_flag_none
       (lit "<freq> <addr> <dialog token> <TLVs> = service discovery response")
   ; Cmd (lit "p2p_service_update") (wpa_cli_cmd_p2p_service_update fuel) default_results
       None cli_cmd_flag_none
       (lit "= indicate change in local services")
   ; Cmd (lit "p2p_serv_disc_external") (wpa_cli_cmd_p2p_serv_disc_external fuel) default_results
       None cli_cmd_flag_none
       (lit "<external> = set external processing of service discovery")
   ; Cmd (lit "p2p_service_flush") (wpa_cli_cmd_p2p_service_flush fuel) default_results
       None cli_cmd_flag_none
       (lit "= remove all stored service entries")
   ; Cmd (lit "p2p_service_add") (wpa_cli_cmd_p2p_service_add fuel) default_results
       None cli_cmd_flag_none
       (lit "<bonjour|upnp|asp> <query|version> <response|service> = add a local "
          ++ lit "service")
   ; Cmd (lit "p2p_service_rep") (wpa_cli_cmd_p2p_service_rep fuel) default_results
       None cli_cmd_flag_none
       (lit "asp <auto> <adv_id> <svc_state> <svc_string> [<svc_info>] = replace "
          ++ lit "local ASP service")
   ; Cmd (lit "p2p_service_del") (wpa_cli_cmd_p2p_service_del fuel) default_results
       None cli_cmd_flag_none
       (lit "<bonjour|upnp> <query|version> [|service] = remove a local service")
   ; Cmd (lit "p2p_reject") (wpa_cli_cmd_p2p_reject fuel) default_results
       (Some wpa_cli_complete_p2p_peer) cli_cmd_flag_none
       (lit "<addr> = reject connection attempts from a specific peer")
   ; Cmd (lit "p2p_invite") (wpa_cli_cmd_p2p_invite fuel) default_results
       None cli_cmd_flag_none
       (lit "<cmd> [peer=addr] = invite peer")
   ; Cmd (lit "p2p_peers") (wpa_cli_cmd_p2p_peers fuel) default_results
       None cli_cmd_flag_none
       (lit "[discovered] = list known (optionally, only fully discovered) P2P "
          ++ lit "peers") ].

Definition wpa_cli_commands_4 : list cmd_entry :=
   ifdef (CONFIG_P2P cfg)
   [ Cmd (lit "p2p_peer") (wpa_cli_cmd_p2p_peer fuel) default_results
       (Some wpa_cli_complete_p2p_peer) cli_cmd_flag_none
       (lit "<address> = show information about known P2P peer")
   ; Cmd (lit "p2p_set") (wpa_cli_cmd_p2p_set fuel) default_results
       (Some wpa_cli_complete_p2p_set) cli_cmd_flag_none
       (lit "<field> <value> = set a P2P parameter")
   ; Cmd (lit "p2p_flush") (wpa_cli_cmd_p2p_flush fuel) default_results
       None cli_cmd_flag_none
       (lit "= flush P2P state")
   ; Cmd (lit "p2p_cancel") (wpa_cli_cmd_p2p_cancel fuel) default_results
       None cli_cmd_flag_none
       (lit "= cancel P2P group formation")
   ; Cmd (lit "p2p_unauthorize") (wpa_cli_cmd_p2p_unauthorize fuel) default_results
       (Some wpa_cli_complete_p2p_peer) cli_cmd_flag_none
       (lit "<address> = unauthorize a peer")
   ; Cmd (lit "p2p_presence_req") (wpa_cli_cmd_p2p_presence_req fuel) default_results
       None cli_cmd_flag_none
       (lit "[<duration> <interval>] [<duration> <interval>] = request GO presence")
   ; Cmd (lit "p2p_ext_listen") (wpa_cli_cmd_p2p_ext_listen fuel) default_results
       None cli_cmd_flag_none
       (lit "[<period> <interval>] = set extended listen timing")
   ; Cmd (lit "p2p_remove_client") (wpa_cli_cmd_p2p_remove_client fuel) default_results
       (Some wpa_cli_complete_p2p_peer) cli_cmd_flag_none
       (lit "<address|iface=address> = remove a peer from all groups")
   ; Cmd (lit "vendor_elem_add") (wpa_cli_cmd_vendor_elem_add fuel) default_results
       None cli_cmd_flag_none
       (line "<frame id> <hexdump of elem(s)> = add vendor specific IEs to frame(s)"
          ++ lit "  0: Probe Req (P2P), 1: Probe Resp (P2P) , 2: Probe Resp (GO), 3: "
          ++ lit "Beacon (GO), 4: PD Req, 5: PD Resp, 6: GO Neg Req, ")
   ; Cmd (lit "vendor_elem_get") (wpa_cli_cmd_vendor_elem_get fuel) default_results
       None cli_cmd_flag_none
       (line "<frame id> = get vendor specific IE(s) to frame(s)"
          ++ lit "  0: Probe Req (P2P), 1: Probe Resp (P2P) , 2: Probe Resp (GO), 3: "
          ++ lit "Beacon (GO), 4: PD Req, 5: PD Resp, 6: GO Neg Req, ")
   ; Cmd (lit "vendor_elem_remove") (wpa_cli_cmd_vendor_elem_remove fuel) default_results
       None cli_cmd_flag_none
       (lit "<frame id> <hexdump of elem(s)> = remove vendor specific IE(s) in "
          ++ line "frame(s)"
          ++ lit "  0: Probe Req (P2P), 1: Probe Resp (P2P) , 2: Probe Resp (GO), 3: "
          ++ lit "Beacon (GO), 4: PD Req, 5: PD Resp, 6: GO Neg Req, ") ]
   ++ ifdef (CONFIG_WIFI_DISPLAY cfg)
   [ Cmd (lit "wfd_subelem_set") (wpa_cli_cmd_wfd_subelem_set fuel) default_results
       None cli_cmd_flag_none
       (lit "<subelem> [contents] = set Wi-Fi Display subelement")
   ; Cmd (lit "wfd_subelem_get") (wpa_cli_cmd_wfd_subelem_get fuel) default_results
       None cli_cmd_flag_none
       (lit "<subelem> = get Wi-Fi Display subelement") ]
   ++ ifdef (CONFIG_INTERWORKING cfg)
   [ Cmd (lit "fetch_anqp") (wpa_cli_cmd_fetch_anqp fuel) default_results
       None cli_cmd_flag_none
       (lit "= fetch ANQP information for all APs")
   ; Cmd (lit "stop_fetch_anqp") (wpa_cli_cmd_stop_fetch_anqp fuel) default_results
       None cli_cmd_flag_none
       (lit "= stop fetch_anqp operation")
   ; Cmd (lit "interworking_select") (wpa_cli_cmd_interworking_select fuel) default_results
       None cli_cmd_flag_none
       (lit "[auto] = perform Interworking network selection")
   ; Cmd (lit "interworking_connect") (wpa_cli_cmd_interworking_connect fuel) default_results
       (Some wpa_cli_complete_bss) cli_cmd_flag_none
       (lit "<BSSID> = connect using Interworking credentials")
   ; Cmd (lit "interworking_add_network") (wpa_cli_cmd_interworking_add_network fuel) default_results
       (Some wpa_cli_complete_bss) cli_cmd_flag_none
       (lit "<BSSID> = connect using Interworking credentials")
   ; Cmd (lit "anqp_get") (wpa_cli_cmd_anqp_get fuel) default_results
       (Some wpa_cli_complete_bss) cli_cmd_flag_none
       (lit "<addr> <info id>[,<info id>]... = request ANQP information")
   ; Cmd (lit "gas_request") (wpa_cli_cmd_gas_request fuel) default_results
       (Some wpa_cli_complete_bss) cli_cmd_flag_none
       (lit "<addr> <AdvProtoID> [QueryReq] = GAS request")
   ; Cmd (lit "gas_response_get") (wpa_cli_cmd_gas_response_get fuel) default_results
       (Some wpa_cli_complete_bss) cli_cmd_flag_none
       (lit "<addr> <dialog token> [start,len] = Fetch last GAS response") ]
   ++ ifdef (CONFIG_HS20 cfg)
   [ Cmd (lit "hs20_anqp_get") (wpa_cli_cmd_hs20_anqp_get fuel) default_results
       (Some wpa_cli_complete_bss) cli_cmd_flag_none
       (lit "<addr> <subtype>[,<subtype>]... = request HS 2.0 ANQP information")
   ; Cmd (lit "nai_home_realm_list") (wpa_cli_cmd_get_nai_home_realm_list fuel) default_results
       (Some wpa_cli_complete_bss) cli_cmd_flag_none
       (lit "<addr> <home realm> = get HS20 nai home realm list")
   ; Cmd (lit "hs20_icon_request") (wpa_cli_cmd_hs20_icon_request fuel) default_results
       (Some wpa_cli_complete_bss) cli_cmd_flag_none
       (lit "<addr> <icon name> = get Hotspot 2.0 OSU icon")
   ; Cmd (lit "fetch_osu") (wpa_cli_cmd_fetch_osu fuel) default_results
       None cli_cmd_flag_none
       (lit "= fetch OSU provider information from all APs")
   ; Cmd (lit "cancel_fetch_osu") (wpa_cli_cmd_cancel_fetch_osu fuel) default_results
       None cli_cmd_flag_none
       (lit "= cancel fetch_osu command") ]
   ++ [ Cmd (lit "sta_autoconnect") (wpa_cli_cmd_sta_autoconnect fuel) default_results
       None cli_cmd_flag_none
       (lit "<0/1> = disable/enable automatic reconnection")
   ; Cmd (lit "tdls_discover") (wpa_cli_cmd_tdls_discover fuel) default_results
       None cli_cmd_flag_none
       (lit "<addr> = request TDLS discovery with <addr>")
   ; Cmd (lit "tdls_setup") (wpa_cli_cmd_tdls_setup fuel) default_results
       None cli_cmd_flag_none
       (lit "<addr> = request TDLS setup with <addr>")
   ; Cmd (lit "tdls_teardown") (wpa_cli_cmd_tdls_teardown fuel) default_results
       None cli_cmd_flag_none
       (lit "<addr> = tear down TDLS with <addr>")
   ; Cmd (lit "tdls_link_status") (wpa_cli_cmd_tdls_link_status fuel) default_results
       None cli_cmd_flag_none
       (lit "<addr> = TDLS link status with <addr>")
   ; Cmd (lit "wmm_ac_addts") (wpa_cli_cmd_wmm_ac_addts fuel) default_results
       None cli_cmd_flag_none
       (lit "<uplink/downlink/bidi> <tsid=0..7> <up=0..7> [nominal_msdu_size=#] "
          ++ lit "[mean_data_rate=#] [min_phy_rate=#] [sba=#] [fixed_nominal_msdu] = "
          ++ lit "add WMM-AC traffic stream")
   ; Cmd (lit "wmm_ac_delts") (wpa_cli_cmd_wmm_ac_delts fuel) default_results
       None cli_cmd_flag_none
       (lit "<tsid> = delete WMM-AC traffic stream")
   ; Cmd (lit "wmm_ac_status") (wpa_cli_cmd_wmm_ac_status fuel) default_results
       None cli_cmd_flag_none
       (lit "= show status for Wireless Multi-Media Admission-Control")
   ; Cmd (lit "tdls_chan_switch") (wpa_cli_cmd_tdls_chan_switch fuel) default_results
       None cli_cmd_flag_none
       (lit "<addr> <oper class> <freq> [sec_channel_offset=] [center_freq1=] "
          ++ lit "[center_freq2=] [bandwidth=] [ht|vht] = enable channel switching "
          ++ lit "with TDLS peer")
   ; Cmd (lit "tdls_cancel_chan_switch") (wpa_cli_cmd_tdls_cancel_chan_switch fuel) default_results
       None cli_cmd_flag_none
       (lit "<addr> = disable channel switching with TDLS peer <addr>")
   ; Cmd (lit "signal_poll") (wpa_cli_cmd_signal_poll fuel) default_results
       None cli_cmd_flag_none
       (lit "= get signal parameters")
   ; Cmd (lit "signal_monitor") (wpa_cli_cmd_signal_monitor fuel) default_results
       None cli_cmd_flag_none
       (lit "= set signal monitor parameters")
   ; Cmd (lit "pktcnt_poll") (wpa_cli_cmd_pktcnt_poll fuel) default_results
       None cli_cmd_flag_none
       (lit "= get TX/RX packet counters")
   ; Cmd (lit "reauthenticate") (wpa_cli_cmd_reauthenticate fuel) default_results
       None cli_cmd_flag_none
       (lit "= trigger IEEE 802.1X/EAPOL reauthentication") ]
   ++ ifdef (CONFIG_AUTOSCAN cfg)
   [ Cmd (lit "autoscan") (wpa_cli_cmd_autoscan fuel) default_results
       None cli_cmd_flag_none
       (lit "[params] = Set or unset (if none) autoscan parameters") ].

Definition wpa_cli_commands_5 : list cmd_entry :=
   ifdef (CONFIG_WNM cfg)
   [ Cmd (lit "wnm_sleep") (wpa_cli_cmd_wnm_sleep fuel) default_results
       None cli_cmd_flag_none
       (lit "<enter/exit> [interval=#] = enter/exit WNM-Sleep mode")
   ; Cmd (lit "wnm_bss_query") (wpa_cli_cmd_wnm_bss_query fuel) default_results
       None cli_cmd_flag_none
       (lit "<query reason> [list] = Send BSS Transition Management Query") ]
   ++ [ Cmd (lit "raw") (wpa_cli_cmd_raw fuel) default_results
       None cli_cmd_flag_sensitive
       (lit "<params..> = Sent unprocessed command")
   ; Cmd (lit "flush") (wpa_cli_cmd_flush fuel) default_results
       None cli_cmd_flag_none
       (lit "= flush wpa_supplicant state")
   ; Cmd (lit "radio_work") (wpa_cli_cmd_radio_work fuel) default_results
       None cli_cmd_flag_none
       (lit "= radio_work <show/add/done>")
   ; Cmd (lit "vendor") (wpa_cli_cmd_vendor fuel) default_results
       None cli_cmd_flag_none
       (lit "<vendor id> <command id> [<hex formatted command argument>] = Send "
          ++ lit "vendor command")
   ; Cmd (lit "neighbor_rep_request") (wpa_cli_cmd_neighbor_rep_request fuel) default_results
       None cli_cmd_flag_none
       (lit "[ssid=<SSID>] [lci] [civic] = Trigger request to AP for neighboring "
          ++ lit "AP report (with optional given SSID in hex or enclosed in double "
          ++ lit "quotes, default: current SSID; with optional LCI and location civic "
          ++ lit "request)")
   ; Cmd (lit "erp_flush") (wpa_cli_cmd_erp_flush fuel) default_results
       None cli_cmd_flag_none
       (lit "= flush ERP keys")
   ; Cmd (lit "mac_rand_scan") (wpa_cli_cmd_mac_rand_scan fuel) default_results
       None cli_cmd_flag_none
       (lit "<scan|sched|pno|all> enable=<0/1> [addr=mac-address "
          ++ lit "mask=mac-address-mask] = scan MAC randomization")
   ; Cmd (lit "get_pref_freq_list") (wpa_cli_cmd_get_pref_freq_list fuel) default_results
       None cli_cmd_flag_none
       (lit "<interface type> = retrieve preferred freq list for the specified "
          ++ lit "interface type")
   ; Cmd (lit "p2p_lo_start") (wpa_cli_cmd_p2p_lo_start fuel) default_results
       None cli_cmd_flag_none
       (lit "<freq> <period> <interval> <count> = start P2P listen offload")
   ; Cmd (lit "p2p_lo_stop") (wpa_cli_cmd_p2p_lo_stop fuel) default_results
       None cli_cmd_flag_none
       (lit "= stop P2P listen offload") ].

Definition commands_with : list cmd_entry :=
  wpa_cli_commands_1 ++ wpa_cli_commands_2 ++ wpa_cli_commands_3 ++ wpa_cli_commands_4 ++ wpa_cli_commands_5.

End Pieces.

(** ** Help *)

Fixpoint usage_loop (usage pad : str) : M unit :=
  match usage with
  | [] => mret tt
  | c :: usage' =>
      printf [c];;
      (if c =? NL then printf pad else mret tt);;
      usage_loop usage' pad
  end.

Definition print_cmd_help (cmd : cmd_entry) (pad : str) : M unit :=
  printf (pad ++ e_cmd cmd ++ lit " ");;
  usage_loop (e_usage cmd) pad;;
  printf [NL].

Fixpoint help_loop (l : list cmd_entry) (cmd : option str) : M unit :=
  match l with
  | [] => mret tt
  | c :: l' =>
      (if match cmd with None => true | Some p => str_starts (e_cmd c) p end
       then print_cmd_help c (lit "  ") else mret tt);;
      help_loop l' cmd
  end.

(** The names and usages of the table, for the handlers that show them. *)
Definition command_names : list cmd_entry :=
  commands_with (λ _ _, mret 0) (λ _ _, mret None).

Definition print_help (cmd : option str) : M unit :=
  printf (line "commands:");; help_loop command_names cmd.

Definition usage : M unit :=
  printf (lit "wpa_cli [-p<path to ctrl sockets>] [-i<ifname>] [-hvB] [-a<action file>] " ++ [92; NL]
    ++ lit "        [-P<pid file>] [-g<global ctrl>] [-G<ping interval>] " ++ [92; NL]
    ++ line "        [-s<wpa_client_socket_file_path>] [command..]"
    ++ line "  -h = help (show this usage text)"
    ++ line "  -v = shown version information"
    ++ line "  -a = run in daemon mode executing the action file based on events from"
    ++ line "       wpa_supplicant"
    ++ line "  -B = run a daemon in the background"
    ++ lit "  default path: " ++ CONFIG_CTRL_IFACE_DIR ++ [NL]
    ++ line "  default interface: first interface found in socket path");;
  print_help None.

Definition wpa_cli_cmd_help (ctrl : option wpa_ctrl) (argv : list str) : M Z :=
  print_help (head argv);; mret 0.

(** The names, the groups and the interfaces; a list whose copying breaks off
    is followed by the next one. *)
Definition wpa_list_cmd_list : M (option (list str)) :=
  groups ← gets p2p_groups;
  ifs ← gets ifnames;
  a ← alloc ((Z.of_nat (length command_names) + 1 +
              Z.of_nat (length groups) + Z.of_nat (length ifs) + 1) * 8);
  if negb a then mret None
  else
    names ← dup_all (e_cmd <$> command_names);
    gs ← dup_all ((λ t, lit "ifname=" ++ t) <$> groups);
    is_ ← dup_all ifs;
    mret (Some (names ++ gs ++ is_)).

Definition wpa_cli_complete_help (s : str) (pos : Z) : M (option (list str)) :=
  n ← lift (get_cmd_arg_num s pos);
  if n =? 1 then wpa_list_cmd_list else mret None.

Definition wpa_cli_commands : list cmd_entry :=
  commands_with wpa_cli_cmd_help wpa_cli_complete_help.

(** ** The callbacks of the line editor *)

Definition wpa_cli_edit_filter_history_cb (cmd : str) : Z :=
  let len := match strchr cmd SP with Some i => i | None => length cmd end in
  match List.find (λ e, strncasecmp_eq cmd (e_cmd e) len && (len =? length (e_cmd e))%nat)
          wpa_cli_commands with
  | Some e => Z.land (e_flags e) cli_cmd_flag_sensitive
  | None => 0
  end.

Definition wpa_cli_cmd_completion (cmd s : str) (pos : Z) : M (option (list str)) :=
  match List.find (λ e, strcasecmp_eq (e_cmd e) cmd) wpa_cli_commands with
  | None => mret None
  | Some e =>
      match e_completion e with
      | Some complete => complete s pos
      | None =>
          sys_ EditClearLine;;
          printf ([13] ++ e_usage e ++ [NL]);;
          sys_ EditRedraw;;
          mret None
      end
  end.

Definition wpa_cli_edit_completion_cb (s : str) (pos : Z) : M (option (list str)) :=
  let '(s, pos) :=
    if (7 <? pos) && strncasecmp_eq s (lit "IFNAME=") 7 then
      match strchr s SP with
      | Some i => if Z.of_nat i <? pos then (drop (S i) s, pos - (Z.of_nat i + 1)) else (s, pos)
      | None => (s, pos)
      end
    else (s, pos) in
  match strchr s SP with
  | None => wpa_list_cmd_list
  | Some i =>
      if pos <? Z.of_nat i then wpa_list_cmd_list
      else
        a ← alloc (pos + 1);
        if negb a then mret None else wpa_cli_cmd_completion (take i s) s pos
  end.

(** ** Dispatch *)

(** The search loop: [count] and [match]. *)
Fixpoint match_loop (l : list cmd_entry) (name : str) (count : Z) (m : option cmd_entry)
    : Z * option cmd_entry :=
  match l with
  | [] => (count, m)
  | c :: l' =>
      if strncasecmp_eq (e_cmd c) name (length name) then
        if strcasecmp_eq (e_cmd c) name then (1, Some c)
        else match_loop l' name (count + 1) (Some c)
      else match_loop l' name count m
  end.

Fixpoint candidates_loop (l : list cmd_entry) (name : str) : M unit :=
  match l with
  | [] => mret tt
  | c :: l' =>
      (if strncasecmp_eq (e_cmd c) name (length name) then printf (lit " " ++ e_cmd c)
       else mret tt);;
      candidates_loop l' name
  end.

(** The part the two request functions share: set the prefix, find the
    command; the value to return, or the entry and its arguments. *)
Definition select_command (argv : list str) : M (Z + cmd_entry * list str) :=
  let '(prefix, argv) :=
    match argv with
    | a :: (_ :: _) as rest =>
        if strncasecmp_eq a (lit "IFNAME=") 7 then (Live (drop 7 a), tail argv)
        else (Null, argv)
    | _ => (Null, argv)
    end in
  put (λ c, c {{ ifname_prefix := prefix }});;
  match argv with
  | [] => mret (inl (-1))
  | name :: args =>
      let '(count, m) := match_loop wpa_cli_commands name 0 None in
      if 1 <? count then
        printf (lit "Ambiguous command '" ++ name ++ lit "'; possible commands:");;
        candidates_loop wpa_cli_commands name;;
        printf [NL];;
        mret (inl 1)
      else
        match m with
        | Some e => if count =? 0 then
                      printf (lit "Unknown command '" ++ name ++ line "'");; mret (inl 1)
                    else mret (inr (e, args))
        | None => printf (lit "Unknown command '" ++ name ++ line "'");; mret (inl 1)
        end
  end.

Definition wpa_request (ctrl : option wpa_ctrl) (argv : list str) : M Z :=
  r ← select_command argv;
  match r with
  | inl ret => mret ret
  | inr (e, args) => e_handler e ctrl args
  end.

Definition wpa_request_with_result_buf (ctrl : option wpa_ctrl) (argv : list str)
    (b : buf) (buf_len : Z) : M (Z * buf) :=
  r ← select_command argv;
  match r with
  | inl ret => mret (ret, b)
  | inr (e, args) => e_results e ctrl args b buf_len
  end.

(** [cmd] is the line in the editor's buffer. *)
Definition wpa_cli_edit_cmd_cb (cmd : buf) : M unit :=
  '(argc, argv, b) ← lift (tokenize_cmd cmd (uninit max_args));
  args ← lift (args_of argv b (Z.to_nat argc));
  if negb (argc =? 0) then ctrl ← gets ctrl_conn; wpa_request ctrl args;; mret tt
  else mret tt.

Definition wpa_cli_edit_eof_cb : M unit := sys_ EloopTerminate.

End Table.
