(* ===== verification/CliEvents.v ===== *)
(** * Events, the action mode and the interactive session
      (libwpa_cli_wrapper.c)

    [eloop_run] is the loop [eloop_run] below: the event loop, which is outside
    the model, names the callback that is due next ([EloopNext]), in any order,
    and the callback is run. *)

From S2P Require Import Prelude CString Scan Io WpaCtrl CliUtil CliCore CliLists CliTable.

Definition AP_EVENT_ENABLED : str := lit "AP-ENABLED ".
Definition AP_EVENT_DISABLED : str := lit "AP-DISABLED ".
Definition MESH_GROUP_STARTED : str := lit "MESH-GROUP-STARTED ".
Definition MESH_GROUP_REMOVED : str := lit "MESH-GROUP-REMOVED ".
Definition MESH_PEER_CONNECTED : str := lit "MESH-PEER-CONNECTED ".
Definition MESH_PEER_DISCONNECTED : str := lit "MESH-PEER-DISCONNECTED ".
Definition P2P_EVENT_CROSS_CONNECT_ENABLE : str := lit "P2P-CROSS-CONNECT-ENABLE ".
Definition P2P_EVENT_CROSS_CONNECT_DISABLE : str := lit "P2P-CROSS-CONNECT-DISABLE ".
Definition P2P_EVENT_GO_NEG_FAILURE : str := lit "P2P-GO-NEG-FAILURE ".
Definition WPS_EVENT_SUCCESS : str := lit "WPS-SUCCESS ".
Definition WPS_EVENT_FAIL : str := lit "WPS-FAIL ".
Definition AP_STA_CONNECTED : str := lit "AP-STA-CONNECTED ".
Definition AP_STA_DISCONNECTED : str := lit "AP-STA-DISCONNECTED ".
Definition ESS_DISASSOC_IMMINENT : str := lit "ESS-DISASSOC-IMMINENT ".
Definition HS20_SUBSCRIPTION_REMEDIATION : str := lit "HS20-SUBSCRIPTION-REMEDIATION ".
Definition HS20_DEAUTH_IMMINENT_NOTICE : str := lit "HS20-DEAUTH-IMMINENT-NOTICE ".

(** Events handed to the action script with the connection's own interface,
    and with the interface of the event. *)
Definition own_ifname_events : list str :=
  [AP_EVENT_ENABLED; AP_EVENT_DISABLED; MESH_GROUP_STARTED; MESH_GROUP_REMOVED;
   MESH_PEER_CONNECTED; MESH_PEER_DISCONNECTED].

Definition event_ifname_events : list str :=
  [P2P_EVENT_GROUP_STARTED; P2P_EVENT_GROUP_REMOVED; P2P_EVENT_CROSS_CONNECT_ENABLE;
   P2P_EVENT_CROSS_CONNECT_DISABLE; P2P_EVENT_GO_NEG_FAILURE; WPS_EVENT_SUCCESS;
   WPS_EVENT_FAIL; AP_STA_CONNECTED; AP_STA_DISCONNECTED; ESS_DISASSOC_IMMINENT;
   HS20_SUBSCRIPTION_REMEDIATION; HS20_DEAUTH_IMMINENT_NOTICE].

(** [if ( *pos == '<')]: behind the priority, if it ends. *)
Definition skip_priority (pos : str) : str :=
  match pos with
  | c :: _ => if c =? LT then match strchr pos GT with Some i => drop (S i) pos | None => pos end
              else pos
  | [] => pos
  end.

(** The interface an event is for, and the event behind it. *)
Definition event_ifname (msg : str) (ifname : cptr) : cptr * str :=
  if strncmp_eq msg (lit "IFNAME=") 7 then
    match strchr (drop 7 msg) SP with
    | Some i => if (7 + Z.of_nat i <? 100) then (Live (take i (drop 7 msg)), drop (7 + S i) msg)
                else (ifname, msg)
    | None => (ifname, msg)
    end
  else (ifname, msg).

Section Events.
Context {E : Type} `{OS E} (fuel : nat) (cfg : config).
Local Abbreviation M := (M E cli).

Definition wpa_cli_exec (program : option str) (arg1 : cptr) (arg2 : str) : M Z :=
  a1 ← lift (match arg1 with Null => Ret (lit "global") | p => deref p end);
  let len := strlen a1 + strlen arg2 + 2 in
  ok ← alloc len;
  if negb ok then mret (-1)
  else
    '(_, b) ← lift (snprintf (uninit len) 0 len (a1 ++ lit " " ++ arg2));
    a ← lift (buf_str b 0);
    r ← sys (Execute program a 1);
    mret (r_ret r).

(** The network id and its string from the copy of the event's tail: the
    first word, and what stands between an equals sign and a bracket behind
    it.  Without a space the pointer leaves the copy. *)
Definition parse_id (copy : str) : outcome (str * str) :=
  match strchr copy SP with
  | None => UB "read past the copy of the event"
  | Some i =>
      let rest := drop (S i) copy in
      let tail := match strchr rest EQ with Some j => drop (S j) rest | None => [] end in
      Ret (take i copy, match strchr tail RB with Some j => take j tail | None => tail end)
  end.

Definition connected_event (pos : str) (ifname : cptr) : M unit :=
  sys_ (Unsetenv (lit "WPA_ID"));;
  sys_ (Unsetenv (lit "WPA_ID_STR"));;
  sys_ (Unsetenv (lit "WPA_CTRL_DIR"));;
  copy ← match strstr pos (lit "[id=") with
         | None => mret None
         | Some i =>
             let t := drop (i + 4) pos in
             ok ← alloc (strlen t + 1); mret (if ok : bool then Some t else None)
         end;
  new_id ← match copy with
           | None => mret (-1)
           | Some copy =>
               '(id, id_str) ← lift (parse_id copy);
               sys_ (Setenv (lit "WPA_ID") id);;
               sys_ (Setenv (lit "WPA_ID_STR") id_str);;
               mret (atoi id)
           end;
  dir ← gets ctrl_iface_dir;
  sys_ (Setenv (lit "WPA_CTRL_DIR") dir);;
  connected ← gets wpa_cli_connected;
  last_id ← gets wpa_cli_last_id;
  if (connected <=? 0) || negb (new_id =? last_id) then
    put (λ c, c {{ wpa_cli_connected := 1; wpa_cli_last_id := new_id }});;
    program ← gets action_file;
    wpa_cli_exec program ifname (lit "CONNECTED");;
    mret tt
  else mret tt.

Definition wpa_cli_action_process (msg : str) : M unit :=
  terminated ← sys EloopTerminated;
  if negb (r_ret terminated =? 0) then mret tt
  else
    own ← gets ctrl_ifname;
    program ← gets action_file;
    let '(ifname, pos) := event_ifname msg own in
    let pos := skip_priority pos in
    if str_starts pos WPA_EVENT_CONNECTED then connected_event pos ifname
    else if str_starts pos WPA_EVENT_DISCONNECTED then
      connected ← gets wpa_cli_connected;
      if negb (connected =? 0) then
        put (λ c, c {{ wpa_cli_connected := 0 }});;
        wpa_cli_exec program ifname (lit "DISCONNECTED");; mret tt
      else mret tt
    else if existsb (str_starts pos) own_ifname_events then
      wpa_cli_exec program own pos;; mret tt
    else if existsb (str_starts pos) event_ifname_events then
      wpa_cli_exec program ifname pos;; mret tt
    else if str_starts pos WPA_EVENT_TERMINATING then
      printf (line "wpa_supplicant is terminating - stop monitoring");;
      put (λ c, c {{ wpa_cli_quit := 1 }})
    else mret tt.

Definition wpa_cli_action_cb (msg : buf) (len : Z) : M unit :=
  s ← lift (buf_str msg 0); wpa_cli_action_process s.

Definition wpa_cli_reconnect : M unit :=
  wpa_cli_close_connection fuel;;
  ifname ← gets ctrl_ifname;
  r ← wpa_cli_open_connection fuel ifname 1;
  if r <? 0 then mret tt
  else
    i ← gets interactive;
    if negb (i =? 0) then
      sys_ EditClearLine;;
      printf ([13] ++ line "Connection to wpa_supplicant re-established");;
      sys_ EditRedraw
    else mret tt.

Definition check_terminating (msg : str) : M Z :=
  conn ← gets ctrl_conn;
  if str_starts (skip_priority msg) WPA_EVENT_TERMINATING
     && match conn with Some _ => true | None => false end then
    sys_ EditClearLine;;
    printf ([13] ++ line "Connection to wpa_supplicant lost - trying to reconnect");;
    sys_ EditRedraw;;
    put (λ c, c {{ wpa_cli_attached := 0 }});;
    wpa_cli_close_connection fuel;;
    mret 1
  else mret 0.

(** The [while] loop: [true] when the function returns from within it. *)
Fixpoint pending_loop (n : nat) (ctrl : wpa_ctrl) (action_monitor : Z) : M bool :=
  match n with
  | O => λ _, OutOfFuel
  | S n' =>
      p ← wpa_ctrl_pending ctrl;
      if 0 <? p then
        '(r, b, len) ← wpa_ctrl_recv ctrl (uninit 4096) (4096 - 1);
        if r =? 0 then
          b' ← lift (buf_set b len 0);
          msg ← lift (buf_str b' 0);
          if negb (action_monitor =? 0) then
            wpa_cli_action_process msg;; pending_loop n' ctrl action_monitor
          else
            cli_event cfg msg;;
            (if negb (wpa_cli_show_event msg =? 0) then
               sys_ EditClearLine;; printf ([13] ++ msg ++ [NL]);; sys_ EditRedraw
             else mret tt);;
            i ← gets interactive;
            t ← (if negb (i =? 0) then check_terminating msg else mret 0);
            if 0 <? t then mret true else pending_loop n' ctrl action_monitor
        else printf (line "Could not read pending message.");; mret false
      else mret false
  end.

Definition wpa_cli_recv_pending (ctrl : option wpa_ctrl) (action_monitor : Z) : M unit :=
  conn ← gets ctrl_conn;
  match conn with
  | None => wpa_cli_reconnect
  | Some _ =>
      ct ← lift (need "NULL connection" ctrl);
      returned ← pending_loop fuel ct action_monitor;
      if (returned : bool) then mret tt
      else
        p ← wpa_ctrl_pending ct;
        if p <? 0 then
          printf (line "Connection to wpa_supplicant lost - trying to reconnect");;
          wpa_cli_reconnect
        else mret tt
  end.

Definition wpa_cli_ping : M unit :=
  conn ← gets ctrl_conn;
  match conn with
  | None => mret tt
  | Some _ =>
      prefix ← gets ifname_prefix;
      put (λ c, c {{ ifname_prefix := Null }});;
      res ← _wpa_ctrl_command fuel conn (lit "PING") 0;
      put (λ c, c {{ ifname_prefix := prefix }});;
      if negb (res =? 0) then
        printf (line "Connection to wpa_supplicant lost - trying to reconnect");;
        wpa_cli_close_connection fuel
      else mret tt
  end;;
  conn ← gets ctrl_conn;
  match conn with None => wpa_cli_reconnect | Some _ => mret tt end;;
  interval ← gets ping_interval;
  sys_ (EloopRegisterTimeout interval "wpa_cli_ping").

Definition wpa_cli_mon_receive : M unit :=
  mon ← gets mon_conn; wpa_cli_recv_pending mon 0.

Definition start_edit : M unit :=
  home ← sys (Getenv (lit "HOME"));
  (if negb (r_ret home =? 0) then
     let fname := lit ".wpa_cli_history" in
     let hfile_len := strlen (r_data home) + 1 + strlen fname + 1 in
     ok ← alloc hfile_len;
     (if ok : bool then
        '(_, b) ← lift (snprintf (uninit hfile_len) 0 hfile_len
                          (r_data home ++ lit "/" ++ fname));
        f ← lift (buf_str b 0);
        put (λ c, c {{ hfile := Some f }})
      else put (λ c, c {{ hfile := None }}))
   else mret tt);;
  f ← gets hfile;
  r ← sys (EditInit f None);
  if r_ret r <? 0 then sys_ EloopTerminate
  else
    put (λ c, c {{ edit_started := 1 }});;
    interval ← gets ping_interval;
    sys_ (EloopRegisterTimeout interval "wpa_cli_ping").

(** The directory loop of [wpa_cli_get_default_ifname]: the first socket. *)
Definition DT_UNKNOWN : Z := 0.
Definition DT_SOCK : Z := 12.

Fixpoint default_ifname_loop (n : nat) : M cptr :=
  match n with
  | O => λ _, OutOfFuel
  | S n' =>
      dent ← sys Readdir;
      if r_ret dent =? 0 then mret Null
      else if negb (r_aux dent =? DT_SOCK) && negb (r_aux dent =? DT_UNKNOWN) then
        default_ifname_loop n'
      else if (strcmp (r_data dent) (lit ".") =? 0) || (strcmp (r_data dent) (lit "..") =? 0) then
        default_ifname_loop n'
      else
        printf (lit "Selected interface '" ++ r_data dent ++ line "'");;
        ok ← alloc (strlen (r_data dent) + 1);
        mret (if ok : bool then Live (r_data dent) else Null)
  end.

Definition wpa_cli_get_default_ifname : M cptr :=
  path ← gets ctrl_iface_dir;
  dir ← sys (Opendir path);
  if r_ret dir =? 0 then mret Null
  else
    ifname ← default_ifname_loop fuel;
    sys_ Closedir;;
    mret ifname.

Definition is_null (p : cptr) : bool := match p with Null => true | _ => false end.

Definition try_connection : M unit :=
  conn ← gets ctrl_conn;
  match conn with
  | Some _ => start_edit
  | None =>
      ifname ← gets ctrl_ifname;
      (if is_null ifname then
         d ← wpa_cli_get_default_ifname; put (λ c, c {{ ctrl_ifname := d }})
       else mret tt);;
      ifname ← gets ctrl_ifname;
      r ← wpa_cli_open_connection fuel ifname 1;
      warned ← gets warning_displayed;
      if negb (r =? 0) then
        (if warned =? 0 then
           name ← lift (if is_null ifname then Ret (lit "(nil)") else deref ifname);
           printf (lit "Could not connect to wpa_supplicant: " ++ name ++ line " - re-trying");;
           put (λ c, c {{ warning_displayed := 1 }})
         else mret tt);;
        sys_ (EloopRegisterTimeout 1 "try_connection")
      else
        ctrl ← gets ctrl_conn;
        update_bssid_list fuel ctrl;;
        update_networks fuel ctrl;;
        (if negb (warned =? 0) then printf (line "Connection established.") else mret tt);;
        start_edit
  end.

Definition wpa_cli_action_ping (ctrl : wpa_ctrl) : M unit :=
  '(r, b, len) ← wpa_ctrl_request fuel ctrl (lit "PING") 4 (uninit 256) (256 - 1)
                   (Some wpa_cli_action_cb);
  pong ← (if (r <? 0) || (len <? 4) then mret false
          else
            c0 ← lift (buf_get b 0);
            c1 ← lift (buf_get b 1);
            c2 ← lift (buf_get b 2);
            c3 ← lift (buf_get b 3);
            mret (bool_decide ([c0; c1; c2; c3] = lit "PONG")));
  if negb pong then
    printf (line "wpa_supplicant did not reply to PING command - exiting");;
    sys_ EloopTerminate
  else
    interval ← gets ping_interval;
    sys_ (EloopRegisterTimeout interval "wpa_cli_action_ping").

Definition wpa_cli_action_receive (ctrl : wpa_ctrl) : M unit :=
  wpa_cli_recv_pending (Some ctrl) 1.

(** ** The event loop *)

Inductive callback :=
  | CbTryConnection
  | CbPing
  | CbMonReceive
  | CbEditCmd (typed : str)
  | CbEditEof
  | CbActionPing
  | CbActionReceive.

(** The callback an answer of the event loop names; [None] is its end. *)
Definition due (r : sysres) : option callback :=
  if r_ret r =? 1 then Some CbTryConnection
  else if r_ret r =? 2 then Some CbPing
  else if r_ret r =? 3 then Some CbMonReceive
  else if r_ret r =? 4 then Some (CbEditCmd (r_data r))
  else if r_ret r =? 5 then Some CbEditEof
  else if r_ret r =? 6 then Some CbActionPing
  else if r_ret r =? 7 then Some CbActionReceive
  else None.

(** [ctrl] is the connection the action callbacks were registered with. *)
Definition run_callback (ctrl : option wpa_ctrl) (cb : callback) : M unit :=
  match cb with
  | CbTryConnection => try_connection
  | CbPing => wpa_cli_ping
  | CbMonReceive => wpa_cli_mon_receive
  | CbEditCmd typed => wpa_cli_edit_cmd_cb fuel cfg (cells (typed ++ [0]))
  | CbEditEof => wpa_cli_edit_eof_cb
  | CbActionPing => ct ← lift (need "NULL connection" ctrl); wpa_cli_action_ping ct
  | CbActionReceive => ct ← lift (need "NULL connection" ctrl); wpa_cli_action_receive ct
  end.

Fixpoint eloop_run (n : nat) (ctrl : option wpa_ctrl) : M unit :=
  match n with
  | O => λ _, OutOfFuel
  | S n' =>
      r ← sys EloopNext;
      match due r with
      | None => mret tt
      | Some cb => run_callback ctrl cb;; eloop_run n' ctrl
      end
  end.

Definition wpa_cli_interactive : M unit :=
  printf ([NL] ++ line "Interactive mode" ++ [NL]);;
  sys_ (EloopRegisterTimeout 0 "try_connection");;
  eloop_run fuel None;;
  sys_ (EloopCancelTimeout "try_connection");;
  put (λ c, c {{ p2p_peers := []; p2p_groups := []; bsses := []; ifnames := [];
                 networks := [] }});;
  started ← gets edit_started;
  f ← gets hfile;
  (if negb (started =? 0) then sys_ (EditDeinit f) else mret tt);;
  sys_ (EloopCancelTimeout "wpa_cli_ping");;
  wpa_cli_close_connection fuel.

Definition wpa_cli_action (ctrl : wpa_ctrl) : M unit :=
  let fd := wpa_ctrl_get_fd ctrl in
  interval ← gets ping_interval;
  sys_ (EloopRegisterTimeout interval "wpa_cli_action_ping");;
  sys_ (EloopRegisterRead fd "wpa_cli_action_receive");;
  eloop_run fuel (Some ctrl);;
  sys_ (EloopCancelTimeout "wpa_cli_action_ping");;
  sys_ (EloopUnregisterRead fd).

Definition wpa_cli_cleanup : M unit :=
  wpa_cli_close_connection fuel;;
  pid ← gets pid_file;
  match pid with Some f => sys_ (Unlink f) | None => mret tt end.

Definition wpa_cli_terminate (sig : Z) : M unit := sys_ EloopTerminate.

End Events.
