(* ===== verification/CliApi.v ===== *)
(** * The library interface (libwpa_cli_wrapper.c, libwpa_cli_wrapper.h)

    [parse_line], [init_wpa_cli], [wpa_cli_execute] and [deinit_wpa_cli]. *)

From S2P Require Import Prelude CString Scan Io WpaCtrl CliUtil CliCore CliLists CliTable.
From S2P Require Import CliEvents.

Definition kMaxArgs : Z := 16.

Definition is_blank (c : Z) : bool := (c =? 32) || (c =? 9).
Definition in_arg (c : Z) : bool := negb (c =? 0) && negb (c =? 32) && negb (c =? 9).

(** [more] arguments are still free in [argv]; storing the terminating [NULL]
    is a store into [argv] like any other. *)
Fixpoint parse_loop (more : nat) (b argv : buf) (nargs line : Z) : outcome (Z * buf * buf) :=
  match more with
  | O => Ret (nargs, argv, b)
  | S more' =>
      line ← scan is_blank b line;
      c ← buf_get b line;
      if c =? 0 then argv' ← buf_set argv nargs NULLP; Ret (nargs, argv', b)
      else
        argv' ← buf_set argv nargs line;
        line2 ← scan in_arg b line;
        d ← buf_get b line2;
        if d =? 0 then argv'' ← buf_set argv' (nargs + 1) NULLP; Ret (nargs + 1, argv'', b)
        else b' ← buf_set b line2 0; parse_loop more' b' argv' (nargs + 1) (line2 + 1)
  end.

Definition parse_line (b argv : buf) : outcome (Z * buf * buf) :=
  parse_loop (Z.to_nat kMaxArgs) b argv 0 0.

Section Api.
Context {E : Type} `{OS E} (fuel : nat) (cfg : config).
Local Abbreviation M := (M E cli).

Definition init_wpa_cli : M Z :=
  initialized ← gets g_wpa__cli_initialized;
  if initialized =? 1 then
    sys_ (Eprintf (line "wpa_cli already initialized!"));; mret (-1)
  else
    ifname ← gets ctrl_ifname;
    (if is_null ifname then
       d ← wpa_cli_get_default_ifname fuel; put (λ c, c {{ ctrl_ifname := d }})
     else mret tt);;
    ifname ← gets ctrl_ifname;
    r ← wpa_cli_open_connection fuel ifname 0;
    if r <? 0 then
      name ← lift (if is_null ifname then Ret (lit "(nil)") else deref ifname);
      why ← sys (Strerror 0);
      sys_ (Eprintf (lit "Failed to connect to non-global ctrl_ifname: " ++ name
                       ++ lit "  error: " ++ r_data why ++ [NL]));;
      mret (-2)
    else
      put (λ c, c {{ g_wpa__cli_initialized := 1 }});; mret 0.

(** Pointers into the local [tmp_cmd] do not outlive the call. *)
Definition leave (c : cli) : cli :=
  match ifname_prefix c with
  | Null => c
  | _ => c {{ ifname_prefix := Dangling }}
  end.

Definition wpa_cli_execute (cmd : str) (b : buf) (buf_len : Z) : M (Z * buf) :=
  initialized ← gets g_wpa__cli_initialized;
  if initialized =? 0 then
    sys_ (Eprintf (line "wpa_cli not initialized!"));; mret (-1, b)
  else
    tmp_cmd ← lift (strcpy (zeros 1024) 0 cmd);
    '(argc, argv, tmp) ← lift (parse_line tmp_cmd (uninit kMaxArgs));
    args ← lift (args_of argv tmp (Z.to_nat argc));
    ctrl ← gets ctrl_conn;
    r ← wpa_request_with_result_buf fuel cfg ctrl args b buf_len;
    put leave;;
    mret r.

Definition deinit_wpa_cli : M Z :=
  initialized ← gets g_wpa__cli_initialized;
  if initialized =? 1 then
    put (λ c, c {{ ctrl_ifname := if is_null (ctrl_ifname c) then Null else Dangling }});;
    wpa_cli_cleanup fuel;;
    put (λ c, c {{ g_wpa__cli_initialized := 0 }});;
    mret 0
  else mret 0.

End Api.

(** ** Splitting the command line *)

Fixpoint split_on (p : Z → bool) (s : str) : list str :=
  match s with
  | [] => [[]]
  | c :: s' =>
      if p c then [] :: split_on p s'
      else match split_on p s' with
           | x :: xs => (c :: x) :: xs
           | [] => [[c]]
           end
  end.

Definition nonempty (w : str) : bool := negb (bool_decide (w = [])).

(** The words of a line: what is left of its pieces between blanks. *)
Definition words (s : str) : list str := List.filter nonempty (split_on is_blank s).

Definition ends_in_word (s : str) : bool :=
  match last s with Some c => negb (is_blank c) | None => false end.

Lemma words_blank c s : is_blank c = true → words (c :: s) = words s.
Proof. intros Hc. unfold words. simpl. by rewrite Hc. Qed.

Lemma words_blanks u s : Forall (λ c, is_blank c = true) u → words (u ++ s) = words s.
Proof. induction 1 as [|c u Hc _ IH]; [done|]. simpl. by rewrite words_blank. Qed.

Lemma split_on_word w s :
  Forall (λ c, is_blank c = false) w → (∀ c, head s = Some c → is_blank c = true) →
  split_on is_blank (w ++ s)
  = match s with [] => [w] | _ :: s' => w :: split_on is_blank s' end.
Proof.
  intros Hw Hs. induction Hw as [|c w Hc Hw IH]; simpl.
  - destruct s as [|c s]; [done|]. simpl. by rewrite (Hs c eq_refl).
  - rewrite Hc, IH. by destruct s.
Qed.

Lemma words_word w s :
  Forall (λ c, is_blank c = false) w → w ≠ [] →
  (∀ c, head s = Some c → is_blank c = true) →
  words (w ++ s) = w :: words (tail s).
Proof.
  intros Hw Hne Hs. unfold words. rewrite split_on_word by done.
  assert (nonempty w = true) as Hn by (unfold nonempty; by rewrite bool_decide_eq_false_2).
  destruct s as [|c s]; simpl; rewrite Hn; done.
Qed.

Lemma ends_in_word_app u s : s ≠ [] → ends_in_word (u ++ s) = ends_in_word s.
Proof.
  intros Hs. unfold ends_in_word. destruct s as [|c s _] using rev_ind; [done|].
  by rewrite app_assoc, !last_snoc.
Qed.

Lemma in_arg_not_blank c : in_arg c = true → is_blank c = false.
Proof.
  unfold in_arg, is_blank. destruct (c =? 0), (c =? 32), (c =? 9); done.
Qed.

Lemma not_in_arg_blank c : 0 < c → in_arg c = false → is_blank c = true.
Proof.
  unfold in_arg, is_blank. intros Hc. rewrite (proj2 (Z.eqb_neq c 0)) by lia.
  destruct (c =? 32), (c =? 9); done.
Qed.

Lemma ends_in_word_words s : ends_in_word s = true → words s ≠ [].
Proof.
  unfold ends_in_word, words. destruct s as [|c s _] using rev_ind; [done|].
  rewrite last_snoc. intros Hc E.
  assert (List.filter nonempty (split_on is_blank (s ++ [c])) ≠ []); [|done]. clear E.
  induction s as [|x s IH]; simpl.
  - by destruct (is_blank c).
  - destruct (is_blank x); [exact IH|].
    by destruct (split_on is_blank (s ++ [c])) as [|y ys].
Qed.

(** The word at the front of a line without leading blanks. *)
Lemma first_arg c s :
  cstring (c :: s) → is_blank c = false →
  ∃ w r, span in_arg (c :: s) = (w, r) ∧ c :: s = w ++ r ∧ w ≠ [] ∧
    words (c :: s) = w :: words (tail r) ∧ ends_in_word w = true ∧
    (∀ d, head r = Some d → d ≠ 0 ∧ is_blank d = true).
Proof.
  intros Hs Hc. destruct (span_spec in_arg (c :: s)) as (Hsp & Hw & Hr).
  destruct (span in_arg (c :: s)) as [w r]. cbn [fst snd] in *. exists w, r.
  assert (H0 : 0 < c < 256) by (by apply Forall_cons in Hs as [? _]).
  assert (Hne : w ≠ []).
  { intros ->. simpl in Hsp. subst r. specialize (Hr c eq_refl). unfold in_arg, is_blank in *.
    rewrite (proj2 (Z.eqb_neq c 0)) in Hr by lia. by destruct (c =? 32), (c =? 9). }
  assert (Hw' : Forall (λ c, is_blank c = false) w)
    by (eapply Forall_impl; [exact Hw|apply in_arg_not_blank]).
  assert (Hd : ∀ d, head r = Some d → d ≠ 0 ∧ is_blank d = true).
  { intros d Hdr. destruct r as [|d' r]; simplify_eq/=. rewrite Hsp in Hs.
    apply cstring_app in Hs as [_ Hs]. apply Forall_cons in Hs as [Hd _].
    split; [lia|]. apply not_in_arg_blank; [lia|by apply Hr]. }
  split_and!; [done|done|done| | |done].
  - rewrite Hsp. apply words_word; [done|done|]. intros d Hdr. by apply Hd.
  - unfold ends_in_word. destruct w as [|x w _] using rev_ind; [done|].
    rewrite last_snoc. apply Forall_app in Hw' as [_ Hx]. apply Forall_cons in Hx as [-> _]. done.
Qed.

(** Whether [n] free places are too few for the line: the last of them is
    filled by a word the line ends with. *)
Definition overflows (n : nat) (s : str) : bool :=
  (0 <? n)%nat && (length (words s) =? n)%nat && ends_in_word s.

Lemma parse_loop_spec more b argv ws pos s :
  cstring s → holds b pos s → words_at argv b ws pos →
  (length ws + more = 16)%nat → length argv = 16%nat →
  if overflows more s
  then is_ub (parse_loop more b argv (Z.of_nat (length ws)) pos) = true
  else ∃ argv' b', parse_loop more b argv (Z.of_nat (length ws)) pos
      = Ret (Z.of_nat (length (ws ++ take more (words s))), argv', b') ∧
    args_of argv' b' (length (ws ++ take more (words s))) = Ret (ws ++ take more (words s)).
Proof.
  revert b argv ws pos s. induction more as [|more IH]; intros b argv ws pos s Hs Hh Hw Hn Ha.
  { exists argv, b. rewrite take_0, app_nil_r. split; [done|by eapply words_at_args]. }
  destruct (span_spec is_blank s) as (Hsp & Hu & Hhd). cbn [parse_loop].
  rewrite (scan_span is_blank _ _ _ Hh) by done. ret_simpl.
  destruct (span is_blank s) as [u s1]. cbn [fst snd] in *. subst s.
  apply cstring_app in Hs as [_ Hs]. apply holds_step in Hh.
  unfold overflows. rewrite (words_blanks u s1 Hu).
  set (pos1 := pos + strlen u) in *.
  assert (Hp1 : pos ≤ pos1) by (unfold pos1, strlen; lia).
  destruct s1 as [|c s1].
  { rewrite (holds_nil _ _ Hh). ret_simpl. simpl.
    destruct (buf_set_defined argv (Z.of_nat (length ws)) NULLP) as [argv' Hset]; [lia|].
    rewrite Hset. ret_simpl. exists argv', b. rewrite app_nil_r. split; [done|].
    eapply words_at_args, words_at_argv_set; [done..|lia]. }
  destruct (first_arg c s1 Hs (Hhd c eq_refl)) as (w & r & Hspan & Hsplit & Hne & Hwords & He & Hr).
  pose proof (scan_span in_arg _ _ _ Hh eq_refl) as Hscan. rewrite Hspan in Hscan.
  cbn [fst] in Hscan. rewrite (holds_head _ _ _ _ Hh). ret_simpl.
  assert (Hc0 : 0 < c < 256) by (by apply Forall_cons in Hs as [? _]).
  rewrite (proj2 (Z.eqb_neq c 0)) by lia.
  rewrite Hwords, ends_in_word_app by done. rewrite Hsplit in Hs, Hh |- *.
  apply cstring_app in Hs as [Hcw Hcr].
  assert (Hargc : Z.of_nat (length ws) + 1 = Z.of_nat (S (length ws))) by lia.
  destruct r as [|d r].
  - rewrite app_nil_r in *.
    destruct (words_at_snoc argv b ws pos pos1 w Hw Hh Hcw) as (argv' & -> & Hla & Hw');
      [lia|done|]. ret_simpl. rewrite Hscan. ret_simpl.
    assert (Hnil : holds b (pos1 + strlen w) [])
      by (apply (holds_step _ _ w []); by rewrite app_nil_r).
    rewrite (holds_nil _ _ Hnil), He. ret_simpl. change (0 =? 0) with true. cbv iota.
    change (words (tail [])) with (@nil str). rewrite Hargc. destruct more as [|more]; simpl.
    + destruct (buf_set argv' _ NULLP) as [a| |] eqn:Eset; [|done|].
      * apply buf_set_Ret in Eset as [Eset _]. lia.
      * unfold buf_set, buf_write in Eset. by destruct (_ && _).
    + destruct (buf_set_defined argv' (Z.of_nat (S (length ws))) NULLP) as [a2 Hset]; [lia|].
      rewrite Hset. ret_simpl. exists a2, b. rewrite length_app, Nat.add_1_r. split; [done|].
      pose proof (words_at_argv_set _ _ _ _ _ _ _ Hw' Hset) as Hw2.
      rewrite length_app, Nat.add_1_r in Hw2. specialize (Hw2 ltac:(lia)).
      apply words_at_args in Hw2. by rewrite length_app, Nat.add_1_r in Hw2.
  - destruct (Hr d eq_refl) as [Hd0 Hdb]. cbn [tail].
    destruct (cut_spec b pos1 w d r Hh) as (b' & Hcut & Hhw & Hhr & _).
    pose proof (words_at_set _ _ _ _ _ _ _ Hw Hcut ltac:(unfold strlen; lia)) as Hwb'.
    destruct (words_at_snoc argv b' ws pos pos1 w Hwb' Hhw Hcw) as (argv' & -> & Hla & Hw');
      [lia|done|]. ret_simpl. rewrite Hscan. ret_simpl.
    pose proof (holds_step _ _ _ _ Hh) as Hsep. rewrite (holds_head _ _ _ _ Hsep).
    ret_simpl. rewrite (proj2 (Z.eqb_neq d 0)) by done. rewrite Hcut. ret_simpl.
    apply Forall_cons in Hcr as [_ Hcr].
    specialize (IH b' argv' (ws ++ [w]) (pos1 + strlen w + 1) r Hcr Hhr Hw').
    rewrite length_app, Nat.add_1_r, <- Hargc in IH.
    specialize (IH ltac:(lia) ltac:(lia)). unfold overflows in IH.
    assert (Hov : (0 <? S more)%nat && (length (w :: words r) =? S more)%nat
        && ends_in_word (w ++ d :: r)
      = (0 <? more)%nat && (length (words r) =? more)%nat && ends_in_word r).
    { rewrite ends_in_word_app by done. destruct r as [|x r].
      - unfold ends_in_word. simpl. rewrite Hdb. by rewrite !andb_false_r.
      - change (d :: x :: r) with ([d] ++ x :: r).
        rewrite (ends_in_word_app [d] (x :: r)) by done. simpl length.
        destruct more as [|more]; [|done]. simpl.
        destruct (ends_in_word (x :: r)) eqn:Ee; [|by rewrite andb_false_r].
        apply ends_in_word_words in Ee. by destruct (words (x :: r)). }
    rewrite Hov. destruct (_ && ends_in_word r); [done|].
    rewrite <- app_assoc in IH. exact IH.
Qed.

(** The words of a line are no longer than the line, and short together. *)
Lemma split_on_short p s : Forall (λ x, strlen x ≤ strlen s) (split_on p s).
Proof.
  induction s as [|c s IH]; simpl; [by repeat constructor|].
  assert (Hw : ∀ l, Forall (λ x, strlen x ≤ strlen s) l →
    Forall (λ x, strlen x ≤ strlen (c :: s)) l).
  { intros l Hl. eapply Forall_impl; [exact Hl|]. unfold strlen. simpl. lia. }
  destruct (p c); [constructor; [unfold strlen; simpl; lia|by apply Hw]|].
  destruct (split_on p s) as [|x xs]; [repeat constructor; unfold strlen; simpl; lia|].
  apply Forall_cons in IH as [Hx Hxs]. constructor; [|by apply Hw].
  unfold strlen in *. simpl. lia.
Qed.

Lemma words_short s : Forall (λ x, strlen x ≤ strlen s) (words s).
Proof.
  pose proof (split_on_short is_blank s) as Hs. unfold words.
  rewrite List.Forall_forall in *. intros x [Hx _]%filter_In. by apply Hs.
Qed.

Lemma split_on_cstring p s : cstring s → Forall cstring (split_on p s).
Proof.
  induction s as [|c s IH]; intros Hs; simpl; [by repeat constructor|].
  apply Forall_cons in Hs as [Hc Hs]. specialize (IH Hs).
  destruct (p c); [constructor; [constructor|done]|]. destruct (split_on p s) as [|x xs];
    [constructor; [by constructor|constructor]|].
  apply Forall_cons in IH as [Hx Hxs]. constructor; [by constructor|done].
Qed.

Lemma words_cstring s : cstring s → Forall cstring (words s).
Proof.
  intros Hs%(split_on_cstring is_blank). unfold words.
  rewrite List.Forall_forall in *. intros x [Hx _]%filter_In. by apply Hs.
Qed.

(** The words, each behind a separator. *)
Definition spaced (l : list str) : str := concat (map (λ a, lit " " ++ a) l).

Lemma spaced_cons x l : strlen (spaced (x :: l)) = 1 + strlen x + strlen (spaced l).
Proof.
  unfold spaced, strlen. simpl. rewrite !length_app. lia.
Qed.

Lemma split_on_spaced p s : strlen (spaced (split_on p s)) = strlen s + 1.
Proof.
  induction s as [|c s IH]; [done|]. simpl split_on. destruct (p c).
  - rewrite spaced_cons, IH. unfold strlen. simpl. lia.
  - destruct (split_on p s) as [|x xs].
    + unfold spaced, strlen in *. simpl in *. lia.
    + rewrite spaced_cons in *. unfold strlen in *. simpl. lia.
Qed.

Lemma filter_spaced f l : strlen (spaced (List.filter f l)) ≤ strlen (spaced l).
Proof.
  induction l as [|x l IH]; [done|]. simpl. rewrite spaced_cons.
  assert (0 ≤ strlen x) by (unfold strlen; lia).
  destruct (f x); [rewrite spaced_cons|]; lia.
Qed.

Lemma suffix_spaced l k : strlen (spaced k) ≤ strlen (spaced (l ++ k)).
Proof. unfold spaced, strlen. rewrite map_app, concat_app, length_app. lia. Qed.

Lemma words_spaced s : strlen (spaced (take 16 (words s))) ≤ strlen s + 1.
Proof.
  rewrite <- (split_on_spaced is_blank s).
  transitivity (strlen (spaced (words s))); [|apply filter_spaced].
  rewrite <- (take_drop 16 (words s)) at 2. unfold spaced, strlen.
  rewrite map_app, concat_app, length_app. lia.
Qed.

(** C8: On every line [parse_line] terminates. Unless the line consists of
    exactly sixteen words and ends in the last of them, it leaves in [argv], as
    terminated strings, the words of the line between spaces and tabs, at most
    sixteen of them, and returns their number; on the lines excepted it stores
    the terminating NULL behind the end of [argv]. *)
Theorem parse_line_correct b argv s :
  cstring s → holds b 0 s → length argv = 16%nat →
  if (length (words s) =? 16)%nat && ends_in_word s then is_ub (parse_line b argv) = true
  else ∃ argv' b',
    parse_line b argv = Ret (Z.of_nat (length (take 16 (words s))), argv', b') ∧
    args_of argv' b' (length (take 16 (words s))) = Ret (take 16 (words s)).
Proof.
  intros Hs Hh Ha.
  exact (parse_loop_spec 16 b argv [] 0 s Hs Hh (words_at_nil _ _ _) eq_refl Ha).
Qed.

Lemma parse_line_correct_witness :
  (∃ argv' b', parse_line (line_buf (lit " set_network 0  ssid x")) (uninit 16)
      = Ret (Z.of_nat (length (take 16 (words (lit " set_network 0  ssid x")))), argv', b') ∧
    args_of argv' b' (length (take 16 (words (lit " set_network 0  ssid x"))))
      = Ret (take 16 (words (lit " set_network 0  ssid x")))) ∧
  is_ub (parse_line (line_buf (lit "a b c d e f g h i j k l m n o p")) (uninit 16)) = true.
Proof.
  split.
  - apply (parse_line_correct _ _ (lit " set_network 0  ssid x"));
      [by apply (bool_decide_unpack _)|apply line_holds|reflexivity].
  - apply (parse_line_correct _ _ (lit "a b c d e f g h i j k l m n o p"));
      [by apply (bool_decide_unpack _)|apply line_holds|reflexivity].
Defined.

(** A line of exactly sixteen words that ends in the last of them makes
    [parse_line] store the terminating NULL behind the end of [argv]. *)
Theorem parse_line_overflows b argv s :
  cstring s → holds b 0 s → length argv = 16%nat →
  length (words s) = 16%nat → ends_in_word s = true →
  is_ub (parse_line b argv) = true.
Proof.
  intros Hs Hh Ha Hl He.
  pose proof (parse_loop_spec 16 b argv [] 0 s Hs Hh (words_at_nil _ _ _) eq_refl Ha) as Hp.
  unfold overflows in Hp. rewrite Hl, He in Hp. exact Hp.
Qed.

Lemma parse_line_overflows_witness :
  is_ub (parse_line (line_buf (lit "a b c d e f g h i j k l m n o p")) (uninit 16)) = true.
Proof.
  apply (parse_line_overflows _ _ (lit "a b c d e f g h i j k l m n o p")).
  - by apply (bool_decide_unpack _).
  - apply line_holds.
  - reflexivity.
  - reflexivity.
  - reflexivity.
Defined.

(** A call on a line that fits is the request made of its words. *)
Lemma execute_run {E} `{OS E} fuel cfg cmd b n (w : World E cli) :
  cstring cmd → strlen cmd < 1024 →
  ¬ (length (words cmd) = 16%nat ∧ ends_in_word cmd = true) →
  g_wpa__cli_initialized (w_usr w) ≠ 0 →
  wpa_cli_execute fuel cfg cmd b n w
  = (r ← wpa_request_with_result_buf fuel cfg (ctrl_conn (w_usr w)) (take 16 (words cmd)) b n;
     put leave;; mret r) w.
Proof.
  intros Hcmd Hlen Hwords Hinit.
  destruct (buf_write_defined (zeros 1024) 0 (cmd ++ [0])) as [tmp Ht]; [lia| |].
  { unfold strlen in *. rewrite length_app. change (length (zeros 1024)) with 1024%nat.
    simpl. lia. }
  assert (Hh : holds tmp 0 cmd).
  { apply buf_write_Ret in Ht as (_ & _ & ->). split; [done|]. rewrite drop_0. by eexists. }
  pose proof (parse_loop_spec 16 tmp (uninit kMaxArgs) [] 0 cmd Hcmd Hh
    (words_at_nil _ _ _) eq_refl eq_refl) as Hp.
  unfold overflows in Hp. destruct (_ && ends_in_word cmd) eqn:Eo.
  { exfalso. apply Hwords. apply andb_true_iff in Eo as [E1 E2]. split; [|done].
    apply andb_true_iff in E1 as [_ E1]. by apply Nat.eqb_eq in E1. }
  destruct Hp as (argv & tmp' & Hparse & Hargs).
  unfold wpa_cli_execute, gets, get, strcpy. rewrite !run_bind. cbn [mret M_ret].
  rewrite (proj2 (Z.eqb_neq _ 0) Hinit), run_bind. unfold lift at 1. rewrite Ht, run_bind.
  unfold lift at 1, parse_line. change (Z.to_nat kMaxArgs) with 16%nat.
  change (Z.of_nat (length (@nil str))) with 0 in Hparse. rewrite Hparse. rewrite run_bind.
  unfold lift at 1. rewrite Nat2Z.id. simpl app in Hargs. simpl app. rewrite Hargs. done.
Qed.

(** A library after [init_wpa_cli]. *)
Definition connected : cli :=
  cli_init {{ ctrl_conn := Some (WpaCtrl 3 (lit "/tmp/wpa_ctrl_1-1") []) }}
           {{ g_wpa__cli_initialized := 1 }}.
