(* ===== verification/CliDispatch.v ===== *)
(** * What the command table promises

    [resolve] is the abstract specification of the search in [wpa_request] and
    [wpa_request_with_result_buf]: an exact name wins, an abbreviation must be
    unambiguous, letter case never matters. *)

From S2P Require Import Prelude CString Scan Io WpaCtrl CliUtil CliCore CliLists.
From S2P Require Import CliCmdBasic CliCmdMore CliTable.

Lemma ifdef_Forall {A} (P : A → Prop) b l : Forall P l → Forall P (ifdef b l).
Proof. intros. by destruct b. Qed.

(** Prove a property of every entry of the table. *)
Ltac each_entry tac :=
  match goal with
  | |- Forall _ (_ ++ _) => simple apply Forall_app_2; each_entry tac
  | |- Forall _ (ifdef _ _) => simple apply ifdef_Forall; each_entry tac
  | |- Forall _ (_ :: _) => simple apply Forall_cons_2; [tac|each_entry tac]
  | |- Forall _ [] => simple apply Forall_nil_2
  end.

Section Dispatch.
Context {E : Type} `{OS E} (fuel : nat).
Local Abbreviation entry := (@cmd_entry E).

Definition exact (name : str) (e : entry) : bool := strcasecmp_eq (e_cmd e) name.
Definition abbreviates (name : str) (e : entry) : bool :=
  strncasecmp_eq (e_cmd e) name (length name).

Definition resolve (l : list entry) (name : str) : option entry :=
  match List.find (exact name) l with
  | Some e => Some e
  | None => match List.filter (abbreviates name) l with [e] => Some e | _ => None end
  end.

Lemma exact_abbreviates name e : exact name e = true → abbreviates name e = true.
Proof.
  unfold exact, abbreviates, strcasecmp_eq, strncasecmp_eq. intros He%str_eqb_eq.
  apply strn_eq_take. rewrite !fmap_take, He. done.
Qed.

Lemma match_loop_spec l name count m :
  match_loop l name count m
  = match List.find (exact name) l with
    | Some e => (1, Some e)
    | None => (count + Z.of_nat (length (List.filter (abbreviates name) l)),
               match last (List.filter (abbreviates name) l) with Some e => Some e | None => m end)
    end.
Proof.
  revert count m. induction l as [|e l IH]; intros count m; simpl.
  { f_equal. lia. }
  fold (abbreviates name e) (exact name e). destruct (exact name e) eqn:Ee.
  - by rewrite (exact_abbreviates _ _ Ee).
  - rewrite !IH. destruct (abbreviates name e) eqn:Ea; [|done].
    destruct (List.find _ l); [done|]. simpl length. f_equal; [lia|].
    rewrite last_cons. by destruct (last (List.filter (abbreviates name) l)).
Qed.

(** The prefix of the interface stripped off an argument vector. *)
Definition strip_ifname (argv : list str) : cptr * list str :=
  match argv with
  | a :: (_ :: _) as rest =>
      if strncasecmp_eq a (lit "IFNAME=") 7 then (Live (drop 7 a), tail argv)
      else (Null, argv)
  | _ => (Null, argv)
  end.

(** Calls that only produce output. *)
Definition output_only (tr : list (syscall * sysres)) : Prop :=
  Forall (λ cr, ∃ t, cr.1 = Printf t) tr.

Lemma candidates_quiet l name (w : World E cli) :
  wp (candidates_loop l name) (λ _ w', w_usr w' = w_usr w ∧ adds w w' output_only) w.
Proof.
  revert w. induction l as [|e l IH]; intros w; simpl.
  { apply wp_ret. split; [done|]. apply adds_refl. constructor. }
  apply wp_bind. destruct (strncasecmp_eq _ _ _).
  - apply wp_sys_. intros r e'. eapply wp_mono; [apply IH|]. intros [] w' [Hu Ha].
    split; [done|]. eapply (adds_from _ _ _ _ _ _ Ha); [trace_eq|].
    intros tr Htr. constructor; [by eexists|done].
  - apply wp_ret, IH.
Qed.

Lemma select_command_spec cfg argv (w : World E cli) :
  wp (select_command fuel cfg argv) (λ r w',
    w_usr w' = (w_usr w) {{ ifname_prefix := (strip_ifname argv).1 }} ∧
    r = match (strip_ifname argv).2 with
        | [] => inl (-1)
        | name :: args =>
            match resolve (wpa_cli_commands fuel cfg) name with
            | Some e => inr (e, args)
            | None => inl 1
            end
        end ∧
    adds w w' output_only) w.
Proof.
  unfold select_command. fold (strip_ifname argv).
  assert (Hnil : ∀ w' : World E cli, w_trace w' = w_trace w → adds w w' output_only).
  { intros w' Hw'. exists []. rewrite app_nil_r. by split; [|constructor]. }
  destruct (strip_ifname argv) as [prefix [|name args]] eqn:Es; cbn [fst snd].
  { apply wp_bind. apply wp_ret. split_and!; [done|done|by apply Hnil]. }
  apply wp_bind. unfold wp at 1, put, modify. rewrite match_loop_spec. unfold resolve.
  destruct (List.find (exact name) (wpa_cli_commands fuel cfg)) as [e|];
    [apply wp_ret; split_and!; [done|done|by apply Hnil]|].
  destruct (List.filter (abbreviates name) (wpa_cli_commands fuel cfg)) as [|e [|e2 l]].
  - simpl. apply wp_bind, wp_sys_. intros. apply wp_ret. split_and!; [done|done|].
    adds_run. constructor; [by eexists|constructor].
  - apply wp_ret. split_and!; [done|done|by apply Hnil].
  - rewrite (proj2 (Z.ltb_lt 1 _)) by (cbn [length]; lia).
    apply wp_bind, wp_sys_. intros r1 e1. apply wp_bind.
    eapply wp_mono; [apply candidates_quiet|]. intros [] w' [Hw' Ha].
    apply wp_bind, wp_sys_. intros r2 e3. apply wp_ret.
    split_and!; [exact Hw'|done|]. destruct Ha as (tr & Ht & HP). simpl in Ht.
    eapply adds_exactly; [simpl; rewrite Ht, <- !app_assoc; reflexivity|].
    constructor; [by eexists|]. apply Forall_app. split; [done|].
    constructor; [by eexists|constructor].
Qed.

(** A name that resolves is selected without any call. *)
Lemma select_command_found cfg argv name args e (w : World E cli) :
  (strip_ifname argv).2 = name :: args → resolve (wpa_cli_commands fuel cfg) name = Some e →
  select_command fuel cfg argv w = Ret (inr (e, args),
    mkWorld (w_env w) (w_trace w) (w_counter w)
      ((w_usr w) {{ ifname_prefix := (strip_ifname argv).1 }})).
Proof.
  intros Hs Hr. unfold select_command. fold (strip_ifname argv).
  destruct (strip_ifname argv) as [prefix l]. cbn [fst snd] in *. subst l.
  rewrite run_bind. unfold put at 1, modify at 1. rewrite match_loop_spec.
  unfold resolve in Hr. destruct (List.find (exact name) _) as [x|]; [by injection Hr as ->|].
  by destruct (List.filter (abbreviates name) _) as [|x [|y l]]; simplify_eq.
Qed.

(** C6: The search always ends; it sets the interface prefix the line gives
    or clears it, and selects exactly the command that the name resolves to;
    an unknown or ambiguous name gives 1, an empty line -1; nothing but output
    is produced and no handler runs. *)
Theorem select_command_resolves cfg argv (w : World E cli) :
  wp (select_command fuel cfg argv) (λ r w',
    w_usr w' = (w_usr w) {{ ifname_prefix := (strip_ifname argv).1 }} ∧
    r = match (strip_ifname argv).2 with
        | [] => inl (-1)
        | name :: args =>
            match resolve (wpa_cli_commands fuel cfg) name with
            | Some e => inr (e, args)
            | None => inl 1
            end
        end ∧
    adds w w' output_only) w.
Proof. apply select_command_spec. Qed.

(** ** The names *)

Definition folded (e : entry) : str := tolower <$> e_cmd e.

Definition all_on : config := Config true true true true true true true true true true true
  true true true true true true true true true true true.

Lemma ifdef_sublist {A B} (f : A → B) b (l : list A) :
  f <$> ifdef b l `sublist_of` f <$> ifdef true l.
Proof. destruct b; [done|]. simpl. apply sublist_nil_l. Qed.

Lemma app_sublist {A B} (f : A → B) (l1 l2 k1 k2 : list A) :
  f <$> l1 `sublist_of` f <$> k1 → f <$> l2 `sublist_of` f <$> k2 →
  f <$> (l1 ++ l2) `sublist_of` f <$> (k1 ++ k2).
Proof. intros. rewrite !fmap_app. by apply sublist_app. Qed.

Lemma ifdef_true {A B} (f : A → B) (l k : list A) :
  f <$> l `sublist_of` f <$> k → f <$> ifdef true l `sublist_of` f <$> ifdef true k.
Proof. done. Qed.

(** Match the pieces of two tables one by one. *)
Ltac by_pieces :=
  match goal with
  | |- (_ <$> (_ ++ _)) `sublist_of` _ => simple apply app_sublist; by_pieces
  | |- (_ <$> ifdef _ _) `sublist_of` (_ <$> ifdef _ _) =>
      etransitivity; [simple apply ifdef_sublist|simple apply ifdef_true; by_pieces]
  | |- _ => cbv [fmap list_fmap folded e_cmd]; reflexivity
  end.

Lemma commands_sublist cfg :
  folded <$> wpa_cli_commands fuel cfg `sublist_of` folded <$> wpa_cli_commands fuel all_on.
Proof.
  unfold wpa_cli_commands, commands_with, wpa_cli_commands_1, wpa_cli_commands_2,
    wpa_cli_commands_3, wpa_cli_commands_4, wpa_cli_commands_5.
  by_pieces.
Qed.

Lemma all_on_NoDup : NoDup (folded <$> wpa_cli_commands fuel all_on).
Proof. apply (bool_decide_unpack _). by vm_compute. Qed.

Lemma names_NoDup cfg : NoDup (folded <$> wpa_cli_commands fuel cfg).
Proof. eapply sublist_NoDup; [apply all_on_NoDup|apply commands_sublist]. Qed.

Lemma find_exact l name e :
  NoDup (folded <$> l) → e ∈ l → exact name e = true → List.find (exact name) l = Some e.
Proof.
  intros Hn He Hx. induction l as [|x l IH]; [by apply not_elem_of_nil in He|].
  simpl. destruct (exact name x) eqn:Ex.
  - apply elem_of_cons in He as [->|He]; [done|]. exfalso. simpl in Hn.
    apply NoDup_cons in Hn as [Hn _]. apply Hn. apply list_elem_of_fmap. exists e.
    split; [|done]. unfold exact, strcasecmp_eq in *. apply str_eqb_eq in Hx, Ex.
    unfold folded. congruence.
  - apply elem_of_cons in He as [->|He]; [congruence|]. apply IH; [|done].
    simpl in Hn. by apply NoDup_cons in Hn as [_ ?].
Qed.

(** In every build, every command of the table is reached by its own
    name, in any letter case, even where the name abbreviates others. *)
Theorem own_name_resolves cfg e name :
  e ∈ wpa_cli_commands fuel cfg → strcasecmp_eq (e_cmd e) name = true →
  resolve (wpa_cli_commands fuel cfg) name = Some e.
Proof. intros He Hx. unfold resolve. by rewrite (find_exact _ _ e (names_NoDup cfg) He Hx). Qed.

(** ** The commands with results *)

(** The commands the library interface implements. *)
Definition implemented : list str := lit <$>
  ["status"; "ifname"; "list_networks"; "select_network"; "enable_network";
   "disable_network"; "add_network"; "remove_network"; "set_network"; "save_config";
   "scan"; "scan_results"].

Definition results_ok (e : entry) : Prop :=
  e_cmd e ∈ implemented ∨ e_results e = default_results.

Lemma results_ok_all cfg : Forall results_ok (wpa_cli_commands fuel cfg).
Proof.
  unfold wpa_cli_commands, commands_with, wpa_cli_commands_1, wpa_cli_commands_2,
    wpa_cli_commands_3, wpa_cli_commands_4, wpa_cli_commands_5.
  each_entry ltac:(first [left; apply (bool_decide_unpack _); by vm_compute
                         |right; exact eq_refl]).
Qed.

Lemma resolve_elem l name e : resolve l name = Some e → e ∈ l.
Proof.
  unfold resolve. destruct (List.find _ l) as [x|] eqn:Ef.
  - intros [= <-]. apply find_some in Ef as [Hin _]. by apply list_elem_of_In.
  - destruct (List.filter _ l) as [|x [|y k]] eqn:Eg; try done. intros [= <-].
    apply list_elem_of_In. assert (In x (List.filter (abbreviates name) l)) as Hin
      by (rewrite Eg; by left). by apply filter_In in Hin as [? _].
Qed.

(** A command outside the twelve that the library implements is not
    executed: the caller's buffer keeps its contents, nothing is sent to the
    daemon and the result is [WPA_CLI_EXEC_RES_UNIMPLEMENTED]. *)
Theorem unimplemented_command cfg ctrl argv name args e b buf_len (w : World E cli) :
  (strip_ifname argv).2 = name :: args →
  resolve (wpa_cli_commands fuel cfg) name = Some e → e_cmd e ∉ implemented →
  wp (wpa_request_with_result_buf fuel cfg ctrl argv b buf_len) (λ '(r, b') w',
    r = WPA_CLI_EXEC_RES_UNIMPLEMENTED ∧ b' = b ∧ adds w w' output_only ∧
    w_usr w' = (w_usr w) {{ ifname_prefix := (strip_ifname argv).1 }}) w.
Proof.
  intros Hs Hr He. unfold wpa_request_with_result_buf. apply wp_bind.
  eapply wp_mono; [apply select_command_spec|]. intros r w' (Hu & Hsel & Ha).
  rewrite Hs, Hr in Hsel. subst r.
  pose proof (results_ok_all cfg) as Hall. rewrite List.Forall_forall in Hall.
  destruct (Hall e) as [Hin|Hdef]; [by apply list_elem_of_In, (resolve_elem _ name)|done|].
  rewrite Hdef. apply wp_bind, wp_sys_. intros r2 e2. apply wp_ret.
  split_and!; [done|done| |exact Hu]. destruct Ha as (tr & Ht & HP).
  eapply adds_exactly; [simpl; rewrite Ht, <- app_assoc; reflexivity|].
  apply Forall_app. split; [done|]. constructor; [by eexists|constructor].
Qed.

(** ** The history *)

Lemma filter_history_find cmd l :
  let len := match strchr cmd SP with Some i => i | None => length cmd end in
  List.find (λ e : entry, strncasecmp_eq cmd (e_cmd e) len && (len =? length (e_cmd e))%nat) l
  = List.find (exact (take len cmd)) l.
Proof.
  intros len. induction l as [|e l IH]; [done|]. simpl. rewrite IH.
  assert (Hlen : (len ≤ length cmd)%nat).
  { unfold len. destruct (strchr cmd SP) as [i|] eqn:Ei; [|done].
    apply strchr_Some in Ei as [Ei _]; [|done]. apply lookup_lt_Some in Ei. lia. }
  assert (strncasecmp_eq cmd (e_cmd e) len && (len =? length (e_cmd e))%nat
    = exact (take len cmd) e) as ->; [|done].
  apply eq_bool_prop_intro. rewrite !Is_true_true. unfold exact, strcasecmp_eq, strncasecmp_eq.
  rewrite andb_true_iff, strn_eq_take, str_eqb_eq, Nat.eqb_eq. split.
  - intros [He Hl]. rewrite (take_ge (e_cmd e)) in He by lia. done.
  - intros He. assert (Hl : len = length (e_cmd e)).
    { apply (f_equal length) in He. rewrite !length_fmap, length_take in He. lia. }
    split; [|done]. rewrite (take_ge (e_cmd e)) by lia. done.
Qed.

(** A line that starts with the full name of a command, in any letter
    case, is kept out of the history exactly when the command is flagged
    sensitive. *)
Theorem history_filter_by_name cfg e name args :
  e ∈ wpa_cli_commands fuel cfg → strcasecmp_eq (e_cmd e) name = true → SP ∉ name →
  wpa_cli_edit_filter_history_cb fuel cfg (name ++ SP :: args)
  = Z.land (e_flags e) cli_cmd_flag_sensitive.
Proof.
  intros He Hx Hsp. unfold wpa_cli_edit_filter_history_cb.
  rewrite (filter_history_find (name ++ SP :: args)).
  assert (strchr (name ++ SP :: args) SP = Some (length name)) as ->.
  { clear Hx. induction name as [|c name IH]; [done|]. apply not_elem_of_cons in Hsp as [Hc Hn].
    simpl. rewrite (proj2 (Z.eqb_neq c SP)) by congruence. by rewrite (IH Hn). }
  rewrite take_app_length. by rewrite (find_exact _ _ e (names_NoDup cfg) He Hx).
Qed.

End Dispatch.

(** The shipped configuration. *)
Definition shipped : config := Config true false true false false false false false false false
  false false false false false false false false false false false false.

Lemma unimplemented_command_witness :
  wp (@wpa_request_with_result_buf unit null_OS 5 shipped None [lit "ping"] (uninit 4) 4)
    (λ '(r, b') w', r = WPA_CLI_EXEC_RES_UNIMPLEMENTED ∧ b' = uninit 4 ∧
       adds (mkWorld tt [] 0 cli_init) w' output_only ∧
       w_usr w' = cli_init {{ ifname_prefix := (strip_ifname [lit "ping"]).1 }})
    (mkWorld tt [] 0 cli_init).
Proof.
  assert (Ho : ∃ e, resolve (@wpa_cli_commands unit null_OS 5 shipped) (lit "ping") = Some e ∧
    e_cmd e = lit "ping") by (eexists; split; reflexivity).
  destruct Ho as (e & Hf & Hn).
  apply (@unimplemented_command unit null_OS 5 shipped None [lit "ping"] (lit "ping") [] e).
  - reflexivity.
  - exact Hf.
  - rewrite Hn. by apply (bool_decide_unpack _).
Defined.

Lemma own_name_resolves_witness :
  ∃ e, resolve (@wpa_cli_commands unit null_OS 5 shipped) (lit "SCAN") = Some e ∧
    e_cmd e = lit "scan".
Proof.
  pose (o := List.find (exact (lit "scan")) (@wpa_cli_commands unit null_OS 5 shipped)).
  assert (Ho : ∃ e, o = Some e ∧ e_cmd e = lit "scan") by (eexists; split; reflexivity).
  destruct Ho as (e & Hf & Hn). exists e. split; [|done].
  apply (@own_name_resolves unit null_OS 5 shipped e (lit "SCAN")).
  - apply find_some in Hf as [Hin _]. by apply list_elem_of_In.
  - rewrite Hn. reflexivity.
Defined.

Lemma history_filter_by_name_witness :
  ∃ e, e_cmd e = lit "password" ∧
    wpa_cli_edit_filter_history_cb (E := unit) (H := null_OS) 5 shipped
      (lit "Password" ++ SP :: lit "0 secret")
    = Z.land (@e_flags unit e) cli_cmd_flag_sensitive.
Proof.
  pose (o := List.find (exact (lit "password")) (@wpa_cli_commands unit null_OS 5 shipped)).
  assert (Ho : ∃ e, o = Some e ∧ e_cmd e = lit "password") by (eexists; split; reflexivity).
  destruct Ho as (e & Hf & Hn). exists e. split; [done|].
  apply (@history_filter_by_name unit null_OS 5 shipped e).
  - apply find_some in Hf as [Hin _]. by apply list_elem_of_In.
  - rewrite Hn. reflexivity.
  - by apply (bool_decide_unpack _).
Defined.

(** The history filter compares whole names while the dispatch accepts
    abbreviations: the line "passw 0 secret" runs the sensitive command
    [password] and is not kept out of the history. *)
Theorem history_filter_misses_abbreviation :
  let o := resolve (@wpa_cli_commands unit null_OS 5 shipped) (lit "passw") in
  (@e_cmd unit <$> o) = Some (lit "password") ∧
  (@e_flags unit <$> o) = Some cli_cmd_flag_sensitive ∧
  wpa_cli_edit_filter_history_cb (E := unit) (H := null_OS) 5 shipped (lit "passw 0 secret") = 0.
Proof. by vm_compute. Qed.
