(* ===== verification/CliSafety.v ===== *)
(** * Memory safety of the library interface

    A call of [wpa_cli_execute] on a line that fits its local buffers has no
    undefined behaviour, whatever the daemon and the system do, provided
    the replies of the daemon stay below the 4096 bytes of the buffers that
    [update_networks] and its siblings terminate without looking. *)

From S2P Require Import Prelude CString Scan Io WpaCtrl CliUtil CliCore CliLists.
From S2P Require Import CliCmdBasic CliCmdMore CliTable CliEvents CliApi CliDispatch.

(** A string ends somewhere in the buffer. *)
Definition terminated (b : buf) : Prop := ∃ n, closed_at b n.

(** The daemon's datagrams are shorter than [n] bytes. *)
Class Datagrams (E : Type) `{OS E} (n : Z) :=
  datagram_size : ∀ e fd k, strlen (r_data (os_step (Recv fd k) e).1) < n.

Lemma holds_closed b s : holds b 0 s → closed_at b (length s).
Proof.
  intros [_ [rest Hd]]. rewrite drop_0 in Hd. subst b. unfold cells. split.
  - rewrite fmap_app, <- app_assoc. by apply written_bytes.
  - rewrite lookup_app_l by (rewrite length_fmap, length_app; simpl; lia).
    rewrite list_lookup_fmap, list_lookup_middle by done. done.
Qed.

Lemma buf_write_front_closed b t b' : buf_write b 0 (t ++ [0]) = Ret b' → closed_at b' (length t).
Proof.
  intros (_ & _ & ->)%buf_write_Ret. apply holds_closed. split; [done|].
  simpl. rewrite drop_0. by eexists.
Qed.

Lemma buf_str_terminated b : terminated b → ∃ s, buf_str b 0 = Ret s.
Proof. intros [n Hn]. destruct (buf_str_closed _ _ 0 Hn) as (s & Hs & _); [lia|eauto]. Qed.

Section Transport.
Context {E U : Type} `{OS E}.
Local Abbreviation World := (World E U).

Lemma retry_send_safe n fd data t (w : World) :
  wlp (retry_send n fd data t) (λ _ w', w_usr w' = w_usr w) w.
Proof.
  revert t w. induction n as [|n IH]; intros t w; [done|]. cbn [retry_send].
  apply wlp_bind, wlp_sys. intros r e. destruct (r_ret r <? 0); [|done].
  destruct (_ || _ || _); [|done]. destruct (t.1 =? 0).
  - apply wlp_bind, wlp_sys. intros r1 e1. apply wlp_bind, wlp_bind, wlp_sys.
    intros r2 e2. exact (IH _ _).
  - apply wlp_bind, wlp_sys. intros r1 e1. destruct (os_reltime_expired _ _ _); [done|].
    apply wlp_bind, wlp_bind, wlp_sys. intros r2 e2. exact (IH _ _).
Qed.

(** What [recv] leaves: a datagram at the front of the buffer. *)
Lemma recv_safe fd b len max (w : World) :
  Datagrams E max → 0 ≤ len ≤ Z.of_nat (length b) →
  wlp (recv fd b len) (λ '(res, b') w', w_usr w' = w_usr w ∧
    (res < 0 ∧ b' = b ∨
     ∃ d, res = strlen d ∧ strlen d ≤ len ∧ strlen d < max ∧
       b' = cells d ++ drop (length d) b)) w.
Proof.
  intros Hmax Hl. apply wlp_bind, wlp_wp, wp_sys. intros r e He. apply wlp_wp.
  destruct (r_ret r <? 0) eqn:Er; zbool; [apply wp_ret; split; [done|by left]|].
  pose proof (Hmax (w_env w) fd len) as Hd. rewrite He in Hd. cbn [fst] in Hd.
  set (d := take (Z.to_nat len) (r_data r)).
  assert (Hdl : strlen d ≤ len ∧ strlen d < max)
    by (unfold d, strlen in *; rewrite length_take; lia).
  destruct (buf_write_defined b 0 d) as [b' Hw]; [lia|lia|].
  eapply wp_lift_bind; [exact Hw|]. apply wp_ret. split; [done|]. right.
  exists d. apply buf_write_Ret in Hw as (_ & _ & ->). split_and!; [done|lia|lia|done].
Qed.

(** A callback may read the message it is given as a string. *)
Definition callback_safe (cb : buf → Z → M E U unit) : Prop :=
  ∀ b n w, terminated b → wlp (cb b n) (λ _ w', w_usr w' = w_usr w) w.

Lemma set_end_closed d b i :
  strlen d < Z.of_nat (length b) ∨ i < strlen d → 0 ≤ i ≤ strlen d →
  strlen d ≤ Z.of_nat (length b) →
  ∃ b', buf_set (cells d ++ drop (length d) b) i 0 = Ret b' ∧ terminated b' ∧
    length b' = length b.
Proof.
  unfold strlen. intros Hlt Hi Hd.
  assert (Hlen : length (cells d ++ drop (length d) b) = length b)
    by (rewrite length_app, cells_length, length_drop; lia).
  destruct (written_close (cells d ++ drop (length d) b) (Z.to_nat i)) as (b' & Hs & Hc & Hl).
  - apply written_bytes. lia.
  - rewrite Hlen. lia.
  - exists b'. rewrite Z2Nat.id in Hs by lia. split_and!; [done|by eexists|lia].
Qed.

Lemma reply_written d (b : buf) len max :
  strlen d ≤ len → strlen d < max →
  0 ≤ strlen d ≤ len ∧ strlen d < max ∧
  written (cells d ++ drop (length d) b) (Z.to_nat (strlen d)).
Proof.
  unfold strlen. intros. split_and!; [lia|done|done|]. apply written_bytes. lia.
Qed.

(** The reply loop stays inside the buffer; a reply is initialised up to the
    length reported for it, and a failure leaves a string or nothing new. *)
Lemma await_reply_safe n fd b len cb max (w : World) :
  Datagrams E max → 0 ≤ len ≤ Z.of_nat (length b) →
  (∀ f, cb = Some f → callback_safe f) →
  wlp (await_reply n fd b len cb) (λ '(r, b', len') w',
    w_usr w' = w_usr w ∧ length b' = length b ∧
    if r <? 0 then (cb ≠ None → b' = b ∨ terminated b')
    else 0 ≤ len' ≤ len ∧ len' < max ∧ written b' (Z.to_nat len')) w.
Proof.
  intros Hmax Hl Hcb. revert b Hl w. induction n as [|n IH]; intros b Hl w; [done|].
  cbn [await_reply]. apply wlp_bind, wlp_sys. intros r e.
  destruct ((r_ret r <? 0) && (r_errno r =? EINTR)); [exact (IH _ Hl _)|].
  destruct (r_ret r <? 0) eqn:Er;
    [apply wlp_ret; rewrite Er; by split_and!; [..|left]|].
  destruct (negb (r_ret r =? 0)); [|by split_and!; [..|left]].
  apply wlp_bind. eapply wlp_mono; [by apply (recv_safe fd b len max)|].
  intros [res b1] w1 [Hu [[Hneg ->]|(d & -> & Hd & Hdm & ->)]]; simpl in Hu.
  { rewrite (proj2 (Z.ltb_lt res 0)) by done. apply wlp_ret.
    rewrite (proj2 (Z.ltb_lt res 0)) by done. by split_and!; [..|left]. }
  assert (H0 : 0 ≤ strlen d) by (unfold strlen; lia).
  rewrite (proj2 (Z.ltb_ge (strlen d) 0)) by done.
  assert (Hlen : length (cells d ++ drop (length d) b) = length b)
    by (unfold strlen in *; rewrite length_app, cells_length, length_drop; lia).
  apply wlp_bind. apply (wlp_mono _ (λ c w2, w2 = w1 ∧ (c = true → 0 < strlen d))).
  { destruct d as [|c d]; [done|]. rewrite (proj2 (Z.ltb_lt 0 _)) by (unfold strlen; simpl; lia).
    apply wlp_bind. eapply wlp_lift_Ret; [by eapply first_byte|].
    split; [done|]. intros _. unfold strlen. simpl. lia. }
  intros un w2 [-> Hpos]. destruct un; [|by apply wlp_ret; split_and!; [..|apply reply_written]].
  destruct cb as [f|].
  - set (i := if strlen d =? len then len - 1 else strlen d).
    destruct (set_end_closed d b i) as (b' & Hs & Ht & Hl'); [unfold i; case_if; lia..|lia|].
    apply wlp_bind. eapply wlp_lift_Ret; [exact Hs|].
    apply wlp_bind. eapply wlp_mono; [by apply (Hcb f)|]. intros [] w2 Hu2.
    eapply wlp_mono; [apply IH; lia|]. intros [[r' b2] l'] w' (Hu' & Hl2 & Hr).
    split_and!; [congruence|congruence|]. destruct (r' <? 0); [|done].
    intros Hc. right. by destruct (Hr Hc) as [->|].
  - eapply wlp_mono; [apply IH; lia|]. intros [[r' b'] l'] w' (Hu' & Hl' & Hr).
    split_and!; [congruence|congruence|]. by destruct (r' <? 0).
Qed.
End Transport.

Section Requests.
Context {E : Type} `{OS E} (fuel : nat) (short : Datagrams E 4096).
Local Abbreviation World := (World E cli).
Local Abbreviation M := (M E cli).

Lemma wpa_ctrl_request_safe ct cmd n b len cb (w : World) :
  0 ≤ len ≤ Z.of_nat (length b) → (∀ f, cb = Some f → callback_safe f) →
  wlp (wpa_ctrl_request fuel ct cmd n b len cb) (λ '(r, b', len') w',
    w_usr w' = w_usr w ∧ length b' = length b ∧
    if r <? 0 then (cb ≠ None → b' = b ∨ terminated b')
    else 0 ≤ len' ≤ len ∧ len' < 4096 ∧ written b' (Z.to_nat len')) w.
Proof.
  intros Hl Hcb. apply wlp_bind. eapply wlp_mono; [apply retry_send_safe|].
  intros sent w1 Hu. destruct sent.
  - eapply wlp_mono; [by apply (await_reply_safe _ _ _ _ _ 4096)|].
    intros [[r b'] l'] w' (Hu' & Hl' & Hr). split_and!; [congruence|done|done].
  - apply wlp_ret. by split_and!; [..|left].
Qed.

Lemma msg_cb_safe : callback_safe (@wpa_cli_msg_cb E _).
Proof.
  intros b n w Ht. destruct (buf_str_terminated b Ht) as [m Hm].
  apply wlp_bind. eapply wlp_lift_Ret; [exact Hm|]. apply wlp_printf. by intros.
Qed.

(** The prefix of the interface is no pointer to storage that is gone. *)
Definition prefix_ok (c : cli) : Prop := ifname_prefix c ≠ Dangling.

Lemma snprintf_closed b size t :
  0 < size ≤ Z.of_nat (length b) →
  ∃ r b', snprintf b 0 size t = Ret (r, b') ∧ terminated b' ∧ length b' = length b.
Proof.
  intros Hs. unfold snprintf. rewrite (proj2 (Z.eqb_neq size 0)) by lia.
  destruct (buf_write_defined b 0 (take (Z.to_nat (size - 1)) t ++ [0])) as [b' Hw]; [lia| |].
  { unfold strlen. rewrite length_app, length_take. cbn [length]. lia. }
  rewrite Hw. ret_simpl. eexists _, b'. split_and!; [done| |by eapply buf_write_length].
  eexists. by eapply buf_write_front_closed.
Qed.

Lemma prefixed_cmd_safe cmd b size (w : World) :
  prefix_ok (w_usr w) → 0 < size ≤ Z.of_nat (length b) →
  wlp (prefixed_cmd cmd b size) (λ '(aliased, _, b') w', w' = w ∧ length b' = length b ∧
    if (aliased : bool) then terminated b' else b' = b) w.
Proof.
  intros Hp Hs. apply wlp_bind, wlp_bind, wlp_get, wlp_ret.
  assert (Hname : ∀ name, wlp (
      '(_, b1) ← lift (snprintf b 0 size (lit "IFNAME=" ++ name ++ lit " " ++ cmd));
      b2 ← lift (buf_set b1 (size - 1) 0);
      cmd' ← lift (buf_str b2 0);
      mret (true, cmd', b2)) (λ '(aliased, _, b') w', w' = w ∧ length b' = length b ∧
        if (aliased : bool) then terminated b' else b' = b) w).
  { intros name. destruct (snprintf_closed b size (lit "IFNAME=" ++ name ++ lit " " ++ cmd))
      as (r & b1 & Hsn & [k Hk] & Hl); [done|].
    apply wlp_bind. eapply wlp_lift_Ret; [exact Hsn|].
    destruct (buf_set_defined b1 (size - 1) 0) as [b2 Hb2]; [lia|].
    apply wlp_bind. eapply wlp_lift_Ret; [exact Hb2|].
    assert (Ht : terminated b2).
    { destruct (decide (size - 1 ≤ Z.of_nat k)) as [Hin|Hout].
      - exists k. by apply (closed_at_set b1 _ _ (size - 1)); [..|lia].
      - apply buf_set_Ret in Hb2 as [_ ->]. destruct Hk as [Hw H0]. exists k. split.
        + intros i Hi. rewrite list_lookup_insert_ne by lia. by apply Hw.
        + by rewrite list_lookup_insert_ne by lia. }
    destruct (buf_str_terminated b2 Ht) as [c Hc].
    apply wlp_bind. eapply wlp_lift_Ret; [exact Hc|]. apply wlp_ret. split_and!; [done| |done].
    apply buf_set_Ret in Hb2 as [_ ->]. by rewrite length_insert. }
  unfold prefix_ok in Hp. destruct (ifname_prefix (w_usr w)) as [|name|];
    [by apply wlp_ret| |done].
  apply wlp_bind. eapply wlp_lift_Ret; [reflexivity|]. apply Hname.
Qed.

(** A request: on success the reply is in the buffer and leaves room for its
    terminator; on failure the buffer is as it was or holds a string. *)
Lemma request_cmd_safe ctrl cmd b size (w : World) :
  prefix_ok (w_usr w) → ctrl ≠ None → size = Z.of_nat (length b) → 0 < size ≤ INT_MAX →
  wlp (request_cmd fuel ctrl cmd b size) (λ '(r, b', len) w',
    w_usr w' = w_usr w ∧ length b' = length b ∧
    if r <? 0 then b' = b ∨ terminated b'
    else 0 ≤ len < size ∧ written b' (Z.to_nat len)) w.
Proof.
  intros Hp Hc -> Hs. unfold request_cmd.
  assert (Hu64 : ∀ x, 0 ≤ x ≤ INT_MAX → u64 x = x)
    by (unfold u64, INT_MAX; intros; lia).
  rewrite !Hu64 by lia. apply wlp_bind.
  eapply wlp_mono; [by apply prefixed_cmd_safe; [|lia]|].
  intros [[aliased cmd'] b1] w1 (-> & Hl1 & Ha). destruct ctrl as [ct|]; [|done].
  apply wlp_bind. eapply wlp_lift_Ret; [reflexivity|]. apply wlp_bind.
  eapply wlp_mono; [apply wpa_ctrl_request_safe; [lia|intros f [= <-]; apply msg_cb_safe]|].
  intros [[r b2] len] w2 (Hu & Hl2 & Hr). destruct (r <? 0) eqn:Er.
  - specialize (Hr ltac:(done)).
    assert (Hb2 : b2 = b ∨ terminated b2).
    { destruct Hr as [->|?]; [|by right]. destruct aliased; [by right|by left]. }
    apply wlp_bind. apply (wlp_mono _ (λ _ w3, w3 = w2)).
    { destruct aliased; [|by apply wlp_ret].
      destruct (buf_str_terminated b2) as [t Ht]; [by destruct Hr as [->|?]|].
      by eapply wlp_lift_Ret. }
    intros t w3 ->. destruct (r =? -2); apply wlp_bind, wlp_printf; intros;
      (apply wlp_ret; by split_and!; [|congruence|]).
  - apply wlp_ret. destruct Hr as (Hlen & _ & Hw). split_and!; [done|congruence|].
    simpl. split; [lia|done].
Qed.

(** No session of the library is interactive. *)
Definition ready (c : cli) : Prop := prefix_ok c ∧ interactive c = 0.

Lemma print_reply_safe b len (w : World) :
  interactive (w_usr w) = 0 → terminated b →
  wlp (print_reply b len) (λ _ w', w_usr w' = w_usr w) w.
Proof.
  intros Hi Ht. destruct (buf_str_terminated b Ht) as [t Hs].
  apply wlp_bind. eapply wlp_lift_Ret; [exact Hs|].
  apply wlp_bind, wlp_printf. intros r e. apply wlp_bind, wlp_bind, wlp_get, wlp_ret.
  simpl. rewrite Hi. by apply wlp_ret.
Qed.

Lemma reply_close b len size :
  written b (Z.to_nat len) → 0 ≤ len < size → size = Z.of_nat (length b) →
  ∃ b', buf_set b len 0 = Ret b' ∧ terminated b' ∧ length b' = length b.
Proof.
  intros Hw Hl ->. destruct (written_close b (Z.to_nat len) Hw) as (b' & Hs & Hc & Hl'); [lia|].
  rewrite Z2Nat.id in Hs by lia. exists b'. split_and!; [done|by eexists|done].
Qed.

Lemma not_connected_safe (w : World) :
  wlp not_connected (λ _ w', w_usr w' = w_usr w) w.
Proof. apply wlp_bind, wlp_printf. by intros. Qed.

Lemma wpa_ctrl_command_safe cmd (w : World) :
  ready (w_usr w) →
  wlp (wpa_ctrl_command fuel (ctrl_conn (w_usr w)) cmd) (λ _ w', w_usr w' = w_usr w) w.
Proof.
  intros [Hp Hi]. apply wlp_bind, wlp_bind, wlp_get, wlp_ret.
  destruct (ctrl_conn (w_usr w)) as [ct|] eqn:Ec; [|apply not_connected_safe].
  apply wlp_bind. eapply wlp_mono; [by apply request_cmd_safe|].
  intros [[r b] len] w1 (Hu & Hl & Hr). destruct (r <? 0); [done|].
  destruct (reply_close b len 4096) as (b' & Hs & Ht & _); [by destruct Hr..|by rewrite Hl|].
  apply wlp_bind. eapply wlp_lift_Ret; [exact Hs|]. apply wlp_bind.
  eapply wlp_mono; [apply print_reply_safe; [congruence|done]|].
  intros [] w2 Hu2. apply wlp_ret. congruence.
Qed.

(** What every command promises about the caller's buffer: its size stays,
    and it either keeps its contents or holds a string; of the state of the
    wrapper only the list of networks may change. *)
Definition answers (b : buf) (m : M (Z * buf)) (w : World) : Prop :=
  wlp m (λ '(r, b') w', length b' = length b ∧ (b' = b ∨ terminated b') ∧
    w_usr w' = (w_usr w) {{ networks := networks (w_usr w') }}) w.

Lemma same_state (c c' : cli) : c' = c → c' = c {{ networks := networks c' }}.
Proof. intros ->. by destruct c. Qed.

Lemma answers_same b (m : M Z) w :
  wlp m (λ _ w', w_usr w' = w_usr w) w → answers b (r ← m; mret (r, b)) w.
Proof.
  intros Hm. apply wlp_bind. eapply wlp_mono; [exact Hm|]. intros r w' Hu.
  apply wlp_ret. split_and!; [done|by left|by apply same_state].
Qed.

Lemma answers_printf b r t w : answers b (printf t;; mret (r, b)) w.
Proof.
  apply wlp_bind, wlp_printf. intros. apply wlp_ret.
  split_and!; [done|by left|by apply same_state].
Qed.

Lemma command_answers cmd b n (w : World) :
  ready (w_usr w) → n = Z.of_nat (length b) → 0 < n ≤ INT_MAX →
  answers b (wpa_ctrl_command_with_results fuel (ctrl_conn (w_usr w)) cmd b n) w.
Proof.
  intros [Hp Hi] Hn Hb. apply wlp_bind, wlp_bind, wlp_get, wlp_ret.
  destruct (ctrl_conn (w_usr w)) as [ct|] eqn:Ec;
    [|apply answers_same, not_connected_safe].
  apply wlp_bind. eapply wlp_mono; [by apply request_cmd_safe|].
  intros [[r b1] len] w1 (Hu & Hl & Hr). destruct (r <? 0).
  { apply wlp_ret. split_and!; [done|done|by apply same_state]. }
  destruct (reply_close b1 len n) as (b2 & Hs & Ht & Hl2); [by destruct Hr..|by rewrite Hl|].
  apply wlp_bind. eapply wlp_lift_Ret; [exact Hs|]. apply wlp_bind, wlp_ret, wlp_ret.
  split_and!; [congruence|by right|by apply same_state].
Qed.

Lemma cmd_answers cmd min argv b n (w : World) :
  ready (w_usr w) → n = Z.of_nat (length b) → 0 < n ≤ INT_MAX →
  Forall (λ t, strlen t < INT_MAX) (cmd :: argv) →
  answers b (wpa_cli_cmd_with_results fuel (ctrl_conn (w_usr w)) cmd min argv b n) w.
Proof.
  intros Hr Hn Hb Ha. unfold wpa_cli_cmd_with_results.
  destruct (_ <? min); [apply answers_printf|].
  apply wlp_bind. eapply wlp_mono; [by apply wlp_wp, write_cmd_spec|].
  intros [r tm] w1. destruct (_ <? 4096).
  - intros (-> & Hh & ->). destruct (buf_str_terminated tm) as [t Ht].
    { eexists. by eapply holds_closed. }
    apply wlp_bind. eapply wlp_lift_Ret; [exact Ht|]. by apply command_answers.
  - intros (-> & o & e & ->). apply wlp_ret.
    split_and!; [done|by left|by apply same_state].
Qed.

Lemma add_word_safe l t c (w : World) :
  wlp (cli_txt_list_add_word l t c) (λ _ w', w_usr w' = w_usr w) w.
Proof.
  apply wlp_bind, wlp_alloc. intros a r e. destruct (negb a); [done|].
  unfold cli_txt_list_add. destruct (cli_txt_list_get _ _); [done|].
  apply wlp_bind, wlp_alloc. intros a2 r2 e2. destruct (negb a2); [done|].
  apply wlp_bind, wlp_alloc. intros a3 r3 e3. by destruct (negb a3).
Qed.

(** [update_networks]: the reply is terminated behind its end, within the
    buffer since it is short, and the loop stops before its end. *)
Lemma networks_loop_safe n b k pos h (w : World) :
  closed_at b k → 0 ≤ pos ≤ Z.of_nat k →
  wlp (networks_loop n b pos h) (λ _ w',
    w_usr w' = (w_usr w) {{ networks := networks (w_usr w') }}) w.
Proof.
  revert b pos h w. induction n as [|n IH]; intros b pos h w Hc Hp; [done|].
  cbn [networks_loop]. destruct (buf_str_closed b k pos Hc Hp) as (t & Ht & Hl).
  apply wlp_bind. eapply wlp_lift_Ret; [exact Ht|].
  destruct (strchr t NL) as [j|] eqn:Ej; [|by apply wlp_ret, same_state].
  apply strchr_Some in Ej as [Ej _]; [|done]. apply lookup_lt_Some in Ej.
  unfold strlen in Hl. destruct Hc as [Hw H0].
  pose proof (lookup_lt_Some _ _ _ H0) as Hk.
  destruct (buf_set_defined b (pos + Z.of_nat j) 0) as [b' Hs]; [lia|].
  apply wlp_bind. eapply wlp_lift_Ret; [exact Hs|].
  pose proof (closed_at_set b b' k _ (conj Hw H0) Hs ltac:(lia)) as Hc'.
  apply wlp_bind. apply (wlp_mono _ (λ _ w',
    w_usr w' = (w_usr w) {{ networks := networks (w_usr w') }})).
  - destruct (h =? 0); [|by apply wlp_ret, same_state].
    destruct (buf_str_closed b' k pos Hc' Hp) as (x & Hx & _).
    apply wlp_bind. eapply wlp_lift_Ret; [exact Hx|].
    apply wlp_bind, wlp_bind, wlp_get, wlp_ret, wlp_bind.
    eapply wlp_mono; [apply add_word_safe|]. intros [r l] w1 Hu.
    apply wlp_modify. simpl. by rewrite Hu.
  - intros [] w1 Hu. eapply wlp_mono; [apply (IH b' _ 0 w1 Hc'); lia|].
    intros [] w2 Hu2. rewrite Hu2, Hu. by destruct (w_usr w).
Qed.

Lemma update_networks_safe ctrl (w : World) :
  wlp (update_networks fuel ctrl) (λ _ w',
    w_usr w' = (w_usr w) {{ networks := networks (w_usr w') }}) w.
Proof.
  apply wlp_bind, wlp_modify. destruct ctrl as [ct|]; [|by apply wlp_ret].
  apply wlp_bind, wlp_bind. eapply wlp_mono; [by apply wpa_ctrl_request_safe|].
  intros [[r b] len] w1 (Hu & Hl & Hr). simpl in Hu.
  destruct (r <? 0); [by do 2 apply wlp_ret; rewrite Hu|]. destruct Hr as (Hlen & Hmax & Hw).
  destruct (written_close b (Z.to_nat len) Hw) as (b' & Hs & Hc & Hl');
    [rewrite Hl; change (length (uninit 4096)) with 4096%nat; lia|].
  rewrite Z2Nat.id in Hs by lia. apply wlp_bind. eapply wlp_lift_Ret; [exact Hs|].
  apply wlp_ret. eapply wlp_mono; [apply (networks_loop_safe _ _ _ _ _ _ Hc); lia|].
  intros [] w2 Hu2. rewrite Hu2, Hu. by destruct (w_usr w).
Qed.

(** ** The commands *)

(** A results handler may be called on any arguments of moderate length. *)
Definition results_safe (h : results_handler) : Prop :=
  ∀ argv b n w, ready (w_usr w) → n = Z.of_nat (length b) → 0 < n ≤ INT_MAX →
    Forall (λ t, strlen t < INT_MAX) argv →
    answers b (h (ctrl_conn (w_usr w)) argv b n) w.

Lemma default_safe : results_safe default_results.
Proof. intros argv b n w _ _ _ _. apply answers_printf. Qed.

Lemma simple_safe cmd :
  results_safe (λ ctrl _ b n, wpa_ctrl_command_with_results fuel ctrl cmd b n).
Proof. intros argv b n w Hr Hn Hb _. by apply command_answers. Qed.

Lemma cmd_safe cmd min :
  strlen cmd < INT_MAX →
  results_safe (λ ctrl argv b n, wpa_cli_cmd_with_results fuel ctrl cmd min argv b n).
Proof. intros Hc argv b n w Hr Hn Hb Ha. apply cmd_answers; [done..|]. by constructor. Qed.

(** A command after which the list of networks is read again. *)
Lemma then_networks_safe h :
  results_safe h →
  results_safe (λ ctrl argv b n,
    res ← h ctrl argv b n; update_networks fuel ctrl;; mret res).
Proof.
  intros Hh argv b n w Hr Hn Hb Ha. apply wlp_bind.
  eapply wlp_mono; [by apply Hh|]. intros [r b'] w1 (Hl & Ht & Hu).
  apply wlp_bind. eapply wlp_mono; [apply update_networks_safe|]. intros [] w2 Hu2.
  apply wlp_ret. split_and!; [done|done|]. rewrite Hu2, Hu. by destruct (w_usr w).
Qed.

Lemma status_safe : results_safe (wpa_cli_cmd_status_with_results fuel).
Proof.
  intros [|a argv] b n w Hr Hn Hb Ha; [by apply command_answers|].
  unfold wpa_cli_cmd_status_with_results.
  repeat case_if; [..|by apply command_answers].
  all: by apply answers_same, wpa_ctrl_command_safe.
Qed.

Lemma set_network_safe : results_safe (wpa_cli_cmd_set_network_with_results fuel).
Proof.
  intros argv b n w Hr Hn Hb Ha. unfold wpa_cli_cmd_set_network_with_results.
  case_if; [apply answers_printf|]. case_if; [apply answers_printf|].
  by apply (cmd_safe _ 3).
Qed.

Lemma ifname_safe : results_safe (wpa_cli_cmd_ifname_with_results fuel).
Proof. apply simple_safe. Qed.
Lemma scan_safe : results_safe (wpa_cli_cmd_scan_with_results fuel).
Proof. by apply cmd_safe. Qed.
Lemma scan_results_safe : results_safe (wpa_cli_cmd_scan_results_with_results fuel).
Proof. apply simple_safe. Qed.
Lemma select_network_safe : results_safe (wpa_cli_cmd_select_network_with_results fuel).
Proof. by apply cmd_safe. Qed.
Lemma add_network_safe : results_safe (wpa_cli_cmd_add_network_with_results fuel).
Proof. apply then_networks_safe, simple_safe. Qed.
Lemma list_networks_safe : results_safe (wpa_cli_cmd_list_networks_with_results fuel).
Proof. apply simple_safe. Qed.
Lemma remove_network_safe : results_safe (wpa_cli_cmd_remove_network_with_results fuel).
Proof. by apply then_networks_safe, cmd_safe. Qed.
Lemma enable_network_safe : results_safe (wpa_cli_cmd_enable_network_with_results fuel).
Proof. by apply cmd_safe. Qed.
Lemma disable_network_safe : results_safe (wpa_cli_cmd_disable_network_with_results fuel).
Proof. by apply cmd_safe. Qed.
Lemma save_config_safe : results_safe (wpa_cli_cmd_save_config_with_results fuel).
Proof. apply simple_safe. Qed.

Create HintDb safe discriminated.
#[local] Hint Resolve default_safe status_safe set_network_safe ifname_safe scan_safe
  scan_results_safe select_network_safe add_network_safe list_networks_safe
  remove_network_safe enable_network_safe disable_network_safe save_config_safe : safe.

Lemma table_safe cfg : Forall (λ e, results_safe (e_results e)) (wpa_cli_commands fuel cfg).
Proof.
  unfold wpa_cli_commands, commands_with, wpa_cli_commands_1, wpa_cli_commands_2,
    wpa_cli_commands_3, wpa_cli_commands_4, wpa_cli_commands_5.
  each_entry ltac:(cbn [e_results]; auto with safe nocore).
Qed.

(** A request fills the caller's buffer or leaves it alone. *)
Lemma request_safe cfg argv b n (w : World) :
  interactive (w_usr w) = 0 → n = Z.of_nat (length b) → 0 < n ≤ INT_MAX →
  Forall (λ t, strlen t < INT_MAX) argv →
  wlp (wpa_request_with_result_buf fuel cfg (ctrl_conn (w_usr w)) argv b n)
    (λ '(r, b') w', length b' = length b ∧ (b' = b ∨ terminated b') ∧
      w_usr w' = (w_usr w) {{ networks := networks (w_usr w') }}
                           {{ ifname_prefix := (strip_ifname argv).1 }}) w.
Proof.
  intros Hi Hn Hb Ha. apply wlp_bind.
  eapply wlp_mono; [apply wlp_wp, select_command_spec|]. intros r w1 (Hu & -> & _).
  assert (Ha' : Forall (λ t, strlen t < INT_MAX) (strip_ifname argv).2).
  { destruct argv as [|a [|a2 l]]; [done|done|]. simpl. destruct (strncasecmp_eq _ _ _); simpl;
      [by inversion Ha|done]. }
  assert (Hp : prefix_ok (w_usr w1)).
  { unfold prefix_ok. rewrite Hu. simpl. destruct argv as [|a [|a2 l]]; [done|done|].
    simpl. by destruct (strncasecmp_eq _ _ _). }
  assert (Hsame : ∀ r0 : Z, wlp (mret (r0, b)) (λ '(r, b') w', length b' = length b ∧
      (b' = b ∨ terminated b') ∧ w_usr w' = (w_usr w) {{ networks := networks (w_usr w') }}
        {{ ifname_prefix := (strip_ifname argv).1 }}) w1).
  { intros r0. apply wlp_ret. split_and!; [done|by left|]. rewrite Hu. by destruct (w_usr w). }
  destruct (strip_ifname argv).2 as [|name args]; [apply Hsame|].
  destruct (resolve _ name) as [e|] eqn:Er; [|apply Hsame].
  pose proof (table_safe cfg) as Hall. rewrite List.Forall_forall in Hall.
  specialize (Hall e). rewrite <- list_elem_of_In in Hall.
  assert (Hc : ctrl_conn (w_usr w) = ctrl_conn (w_usr w1)) by (by rewrite Hu).
  rewrite Hc. eapply wlp_mono.
  { apply Hall; [by eapply resolve_elem| |done|done|by inversion Ha'].
    split; [done|]. by rewrite Hu. }
  intros [r b'] w2 (Hl & Ht & Hu2). split_and!; [done|done|]. rewrite Hu2, Hu.
  by destruct (w_usr w).
Qed.

End Requests.

(** ** The call *)

Section Execute.
Context {E : Type} `{OS E} (fuel : nat) (short : Datagrams E 4096).
Local Abbreviation World := (World E cli).

Lemma execute_safe cfg cmd b buf_len (w : World) :
  cstring cmd → strlen cmd < 1024 →
  ¬ (length (words cmd) = 16%nat ∧ ends_in_word cmd = true) →
  buf_len = Z.of_nat (length b) → 0 < buf_len ≤ INT_MAX → interactive (w_usr w) = 0 →
  wlp (wpa_cli_execute fuel cfg cmd b buf_len) (λ '(r, b') w',
    length b' = length b ∧ (b' = b ∨ terminated b') ∧
    w_usr w' = (w_usr w) {{ networks := networks (w_usr w') }}
                         {{ ifname_prefix := ifname_prefix (w_usr w') }}) w.
Proof.
  intros Hcmd Hlen Hwords Hn Hb Hi.
  destruct (decide (g_wpa__cli_initialized (w_usr w) = 0)) as [Hz|Hz].
  { apply wlp_bind, wlp_bind, wlp_get, wlp_ret. rewrite Hz. apply wlp_bind, wlp_bind, wlp_sys.
    intros r e. apply wlp_ret. split_and!; [done|by left|]. simpl. by destruct (w_usr w). }
  unfold wlp. rewrite execute_run by done. apply wlp_bind.
  eapply wlp_mono; [apply (request_safe fuel short); [done..|]|].
  { apply Forall_take. eapply Forall_impl; [apply words_short|].
    unfold INT_MAX. intros x Hx. simpl in Hx. lia. }
  intros [r b'] w1 (Hl & Hbt & Hu). apply wlp_bind, wlp_modify, wlp_ret.
  split_and!; [done|done|]. simpl. rewrite Hu. unfold leave.
  destruct (w_usr w), (strip_ifname _).1; reflexivity.
Qed.

(** C4: Outside interactive mode, and with a daemon whose datagrams are shorter
    than 4096 bytes (a longer list of networks overflows the wrapper's buffer:
    [update_networks_overflows]), no call of [wpa_cli_execute] on a line of
    less than 1024 bytes that does not consist of exactly sixteen words up to
    its end has undefined behaviour, whatever the system calls return and these
    datagrams say: the caller's buffer keeps its size and either its contents
    or holds a string, and of the state of the wrapper only the network list
    and the interface prefix change. *)
Theorem wpa_cli_execute_safe cfg cmd b buf_len (w : World) :
  cstring cmd → strlen cmd < 1024 →
  ¬ (length (words cmd) = 16%nat ∧ ends_in_word cmd = true) →
  buf_len = Z.of_nat (length b) → 0 < buf_len ≤ INT_MAX → interactive (w_usr w) = 0 →
  wlp (wpa_cli_execute fuel cfg cmd b buf_len) (λ '(r, b') w',
    length b' = length b ∧ (b' = b ∨ terminated b') ∧
    w_usr w' = (w_usr w) {{ networks := networks (w_usr w') }}
                         {{ ifname_prefix := ifname_prefix (w_usr w') }}) w.
Proof. apply execute_safe. Qed.

End Execute.

(** A daemon that answers every request with OK. *)
Definition ok_OS : OS unit := λ c e,
  match c with Recv _ _ => (bytes "OK", e) | _ => (ok 1, e) end.

Definition ok_Datagrams : @Datagrams unit ok_OS 4096.
Proof. intros e fd k. by vm_compute. Defined.

Lemma wpa_cli_execute_safe_witness :
  wlp (@wpa_cli_execute unit ok_OS 5 shipped (lit "add_network") (uninit 8) 8)
    (λ '(r, b') w', length b' = 8%nat ∧ (b' = uninit 8 ∨ terminated b') ∧
      w_usr w' = connected {{ networks := networks (w_usr w') }}
                          {{ ifname_prefix := ifname_prefix (w_usr w') }})
    (mkWorld tt [] 0 connected).
Proof.
  apply (@wpa_cli_execute_safe unit ok_OS 5 ok_Datagrams shipped (lit "add_network")
    (uninit 8) 8).
  - by apply (bool_decide_unpack _).
  - by vm_compute.
  - intros [Hw _]. vm_compute in Hw. discriminate.
  - reflexivity.
  - by vm_compute.
  - reflexivity.
Defined.
