(* ===== verification/CliDaemon.v ===== *)
(** * What the application gets from the daemon

    Against a daemon that takes requests and answers them, a command of the
    library interface sends exactly one request, lets the messages that arrive
    before the answer be printed, and leaves the answer in the buffer of the
    caller. *)

From S2P Require Import Prelude CString Scan Io WpaCtrl CliUtil CliCore CliLists.
From S2P Require Import CliCmdBasic CliCmdMore CliTable CliEvents CliApi CliDispatch.

(** Requests are taken, and make the daemon send what [serve] says; output
    does not touch the socket. *)
Class Daemon (E : Type) `{Inbox E} := {
  serve : E → list Z → list (list Z);
  daemon_send : ∀ e fd d, 0 ≤ r_ret (os_step (Send fd d) e).1 ∧
    inbox (os_step (Send fd d) e).2 = inbox e ++ serve e d;
  daemon_printf : ∀ e t, inbox (os_step (Printf t) e).2 = inbox e;
}.

(** The text sent for a command when the interface prefix is set: formatted
    into the caller's buffer of [n] bytes, which cuts it. *)
Definition on_wire (prefix : cptr) (n : Z) (cmd : str) : str :=
  match prefix with
  | Live p => take (Z.to_nat (n - 1)) (lit "IFNAME=" ++ p ++ lit " " ++ cmd)
  | _ => cmd
  end.

Lemma cstring_take n s : cstring s → cstring (take n s).
Proof. apply Forall_take. Qed.

Lemma snprintf_holds b n t :
  0 < n ≤ Z.of_nat (length b) →
  ∃ r b', snprintf b 0 n t = Ret (r, b') ∧ holds b' 0 (take (Z.to_nat (n - 1)) t) ∧
    length b' = length b.
Proof.
  intros Hn. unfold snprintf. rewrite (proj2 (Z.eqb_neq n 0)) by lia.
  destruct (buf_write_defined b 0 (take (Z.to_nat (n - 1)) t ++ [0])) as [b' Hw]; [lia| |].
  { unfold strlen. rewrite length_app, length_take. cbn [length]. lia. }
  rewrite Hw. ret_simpl. eexists _, b'. split_and!; [done| |by eapply buf_write_length].
  apply buf_write_Ret in Hw as (_ & _ & ->). split; [done|]. rewrite drop_0. by eexists.
Qed.

Section Daemon.
Context {E : Type} `{Daemon E} (fuel : nat).
Local Abbreviation World := (World E cli).
Local Abbreviation M := (M E cli).

(** The connection is open and the daemon's answer to [text] is under way:
    [msgs] arrive before [reply], [rest] after it. *)
Record answering (w : World) (text : list Z) (n : Z) (msgs : list str) (reply : list Z)
    (rest : list (list Z)) : Prop := {
  a_conn : ctrl_conn (w_usr w) ≠ None;
  a_inbox : inbox (w_env w) ++ serve (w_env w) text = msgs ++ reply :: rest;
  a_msgs : Forall (λ m, head m = Some 60 ∧ cstring m ∧ strlen m < n - 1) msgs;
  a_reply : head reply ≠ Some 60;
  a_fuel : (length msgs < fuel)%nat;
}.

Lemma msg_cb_logs : callback_logs (λ _ u, u) (@wpa_cli_msg_cb E _).
Proof.
  intros b n m w Hb _. unfold wpa_cli_msg_cb. eapply wp_lift_bind; [exact Hb|].
  apply wp_bind, wp_sys. intros r e He. apply wp_ret. split_and!; [done| |by adds_run].
  pose proof (daemon_printf (w_env w) (m ++ [NL])) as Hp. rewrite He in Hp. exact Hp.
Qed.

Lemma foldl_id {A B} (l : list A) (u : B) : foldl (λ u _, u) u l = u.
Proof. by induction l. Qed.

Lemma request_spec ct text b n msgs reply rest (w : World) :
  answering w text (n + 1) msgs reply rest → 0 ≤ n ≤ Z.of_nat (length b) →
  let got := take (Z.to_nat n) reply in
  wp (wpa_ctrl_request fuel ct text (strlen text) b n (Some wpa_cli_msg_cb))
    (λ '(res, b', len) w', res = 0 ∧ len = strlen got ∧ (∃ t, b' = cells got ++ t) ∧
      length b' = length b ∧ w_usr w' = w_usr w ∧ inbox (w_env w') = rest ∧
      adds w w' (λ tr, sends tr = [text])) w.
Proof.
  intros [Hc Hi Hm Hr Hf] Hn got. unfold wpa_ctrl_request. apply wp_bind.
  destruct fuel as [|k] eqn:Ek; [lia|]. rewrite <- Ek.
  apply (wp_mono _ (λ b w1, b = true ∧ w_usr w1 = w_usr w ∧
    inbox (w_env w1) = msgs ++ reply :: rest ∧ adds w w1 (λ tr, sends tr = [text]))).
  { rewrite Ek. cbn [retry_send]. apply wp_bind, wp_sys. intros r e He.
    destruct (daemon_send (w_env w) (s ct) (take (Z.to_nat (strlen text)) text)) as [Hs Hin].
    unfold strlen in *. rewrite Nat2Z.id, firstn_all in *. rewrite He in *. simpl in Hs, Hin.
    rewrite (proj2 (Z.ltb_ge _ _)) by lia. apply wp_ret.
    split_and!; [done|done|simpl; congruence|by adds_run]. }
  intros sent w1 (-> & Hu & Hi1 & Ha).
  eapply wp_mono; [apply (await_reply_spec _ _ _ _ (λ _ u, u) _ msgs reply rest);
    [apply msg_cb_logs| |done|done|done|lia]|].
  { eapply Forall_impl; [exact Hm|]. intros m (? & ? & ?). split_and!; [done|done|lia]. }
  intros [[res b'] len] w2 (-> & -> & Ht & Hl & Hu2 & Hi2 & Ha2). rewrite foldl_id in Hu2.
  split_and!; [done|done|done|done|congruence|done|].
  eapply adds_trans; [exact Ha|]. intros tr1 Hs1. destruct Ha2 as (tr2 & Ht2 & Hs2).
  exists tr2. by rewrite sends_app, Hs1, Hs2.
Qed.

(** The text handed to the socket, and where it is formatted. *)
Lemma prefixed_spec cmd b n (w : World) :
  ifname_prefix (w_usr w) ≠ Dangling →
  (∀ p, ifname_prefix (w_usr w) = Live p → cstring p) → cstring cmd →
  0 < n ≤ Z.of_nat (length b) →
  wp (prefixed_cmd cmd b n) (λ '(_, text, b') w', w' = w ∧ length b' = length b ∧
    text = on_wire (ifname_prefix (w_usr w)) n cmd) w.
Proof.
  intros Hp Hcp Hc Hn. apply wp_bind, wp_bind. apply wp_ret, wp_ret. unfold on_wire.
  destruct (ifname_prefix (w_usr w)) as [|p|]; [by apply wp_ret| |done].
  specialize (Hcp p eq_refl). eapply wp_lift_bind; [reflexivity|].
  destruct (snprintf_holds b n (lit "IFNAME=" ++ p ++ lit " " ++ cmd))
    as (r & b1 & Hs & Hh & Hl); [done|].
  eapply wp_lift_bind; [exact Hs|].
  destruct (buf_set_defined b1 (n - 1) 0) as [b2 Hb2]; [lia|].
  eapply wp_lift_bind; [exact Hb2|].
  assert (Hh2 : holds b2 0 (take (Z.to_nat (n - 1)) (lit "IFNAME=" ++ p ++ lit " " ++ cmd))).
  { eapply holds_set_end; [exact Hh|exact Hb2|]. unfold strlen. rewrite length_take. lia. }
  eapply wp_lift_bind.
  { eapply holds_str; [|exact Hh2]. apply cstring_take.
    apply cstring_app; split; [by apply (bool_decide_unpack _)|].
    apply cstring_app; split; [done|].
    apply cstring_app; split; [by apply (bool_decide_unpack _)|done]. }
  apply wp_ret. split_and!; [done| |done].
  apply buf_set_Ret in Hb2 as [_ ->]. by rewrite length_insert.
Qed.

(** What a delivered answer means for the caller: 0 is returned, the buffer
    holds the answer, cut to its size, and one request was sent. *)
Definition delivered (w : World) (text : list Z) (b : buf) (n : Z) (reply : list Z)
    (rest : list (list Z)) (r : Z * buf) (w' : World) : Prop :=
  r.1 = 0 ∧ holds r.2 0 (take (Z.to_nat (n - 1)) reply) ∧ length r.2 = length b ∧
  w_usr w' = w_usr w ∧ inbox (w_env w') = rest ∧ adds w w' (λ tr, sends tr = [text]).

Lemma cells_close (d : str) t i b' :
  buf_set (cells d ++ t) i 0 = Ret b' → i = strlen d → holds b' 0 d.
Proof.
  intros [Hi ->]%buf_set_Ret ->. split; [done|]. unfold strlen in *.
  rewrite length_app, cells_length in Hi. rewrite drop_0, Nat2Z.id.
  destruct t as [|x t]; [simpl in Hi; lia|]. exists t.
  rewrite <- (Nat.add_0_r (length d)), <- (cells_length d), insert_app_r. simpl.
  unfold cells. by rewrite fmap_app, <- app_assoc.
Qed.

Lemma command_delivers cmd b n msgs reply rest (w : World) :
  ifname_prefix (w_usr w) ≠ Dangling →
  (∀ p, ifname_prefix (w_usr w) = Live p → cstring p) → cstring cmd →
  n = Z.of_nat (length b) → 0 < n ≤ INT_MAX →
  answering w (on_wire (ifname_prefix (w_usr w)) n cmd) n msgs reply rest →
  wp (wpa_ctrl_command_with_results fuel (ctrl_conn (w_usr w)) cmd b n)
    (delivered w (on_wire (ifname_prefix (w_usr w)) n cmd) b n reply rest) w.
Proof.
  intros Hp Hcp Hc Hb Hn Ha. apply wp_bind, wp_bind. apply wp_ret, wp_ret.
  destruct (ctrl_conn (w_usr w)) as [ct|] eqn:Ec; [|by destruct (a_conn _ _ _ _ _ _ Ha)].
  apply wp_bind. unfold request_cmd.
  assert (Hu64 : ∀ x, 0 ≤ x ≤ INT_MAX → u64 x = x)
    by (unfold u64, INT_MAX; intros; lia).
  rewrite !Hu64 by lia. apply wp_bind.
  eapply wp_mono; [by apply prefixed_spec; [..|lia]|].
  intros [[al text] b1] w1 (-> & Hl1 & ->). eapply wp_lift_bind; [reflexivity|].
  apply wp_bind. eapply wp_mono.
  { apply (request_spec ct _ b1 (n - 1) msgs reply rest); [by rewrite Z.sub_add|lia]. }
  intros [[res b2] len] w2 (-> & -> & [t ->] & Hl & Hu & Hi & Hs).
  change (0 <? 0) with false. cbv iota. apply wp_ret.
  change (0 <? 0) with false. cbv iota.
  set (got := take (Z.to_nat (n - 1)) reply) in *.
  destruct (buf_set_defined (cells got ++ t) (strlen got) 0) as [b3 Hb3].
  { rewrite Hl, Hl1. unfold strlen, got. rewrite length_take. lia. }
  eapply wp_lift_bind; [exact Hb3|]. apply wp_bind. change (negb (0 =? 0)) with false.
  apply wp_ret, wp_ret. split_and!; [done|by eapply cells_close| |done|done|done].
  apply buf_set_Ret in Hb3 as [_ ->]. cbn [snd]. rewrite length_insert. congruence.
Qed.

(** ** The requests of the commands *)

(** Commands that ignore their arguments, and commands that pass them on. *)
Definition plain_requests : list (str * str) :=
  [(lit "ifname", lit "IFNAME"); (lit "list_networks", lit "LIST_NETWORKS");
   (lit "save_config", lit "SAVE_CONFIG"); (lit "scan_results", lit "SCAN_RESULTS")].

Definition argument_requests : list (str * (str * nat)) :=
  [(lit "scan", (lit "SCAN", 0%nat)); (lit "select_network", (lit "SELECT_NETWORK", 1%nat));
   (lit "enable_network", (lit "ENABLE_NETWORK", 1%nat));
   (lit "disable_network", (lit "DISABLE_NETWORK", 1%nat));
   (lit "set_network", (lit "SET_NETWORK", 3%nat))].

Fixpoint assoc {A} (l : list (str * A)) (k : str) : option A :=
  match l with [] => None | (k', v) :: l' => if str_eqb k' k then Some v else assoc l' k end.

(** The request that the command [name] is to make of the daemon; the
    commands that change the list of networks make a second one and have
    none here, nor do the variants of [status] that print. *)
Definition wire (name : str) (args : list str) : option str :=
  match assoc plain_requests name, assoc argument_requests name with
  | Some cmd, _ => Some cmd
  | None, Some (cmd, k) => if (length args <? k)%nat then None else Some (cmd_text cmd args)
  | None, None => if str_eqb name (lit "status") && (length args =? 0)%nat
                  then Some (lit "STATUS") else None
  end.

Record arguments_ok (w : World) (b : buf) (n : Z) (args : list str) (text : str) : Prop := {
  p_live : ifname_prefix (w_usr w) ≠ Dangling;
  p_string : ∀ p, ifname_prefix (w_usr w) = Live p → cstring p;
  p_text : cstring text;
  p_short : strlen text < 4096;
  p_args : Forall (λ t, strlen t < INT_MAX) args;
  p_len : n = Z.of_nat (length b);
  p_pos : 0 < n ≤ INT_MAX;
}.

Definition delivers (name : str) (h : results_handler) : Prop :=
  ∀ args text b n msgs reply rest w, wire name args = Some text →
    arguments_ok w b n args text →
    answering w (on_wire (ifname_prefix (w_usr w)) n text) n msgs reply rest →
    wp (h (ctrl_conn (w_usr w)) args b n)
      (delivered w (on_wire (ifname_prefix (w_usr w)) n text) b n reply rest) w.

Lemma plain_delivers name cmd :
  (∀ args, wire name args = Some cmd) →
  delivers name (λ ctrl _ b n, wpa_ctrl_command_with_results fuel ctrl cmd b n).
Proof.
  intros Hw args text b n msgs reply rest w Ht [] Ha. rewrite Hw in Ht. injection Ht as <-.
  by apply (command_delivers _ _ _ msgs).
Qed.

Lemma argument_delivers name cmd k :
  (∀ args, wire name args = if (length args <? k)%nat then None else Some (cmd_text cmd args)) →
  strlen cmd < INT_MAX →
  delivers name (λ ctrl args b n,
    wpa_cli_cmd_with_results fuel ctrl cmd (Z.of_nat k) args b n).
Proof.
  intros Hw Hc args text b n msgs reply rest w Ht [] Ha. rewrite Hw in Ht.
  destruct (length args <? k)%nat eqn:Ek; [done|]. injection Ht as <-.
  unfold wpa_cli_cmd_with_results.
  rewrite (proj2 (Z.ltb_ge _ _)) by (apply Nat.ltb_ge in Ek; lia). apply wp_bind.
  eapply wp_mono; [apply write_cmd_spec; [done|done|by constructor]|].
  intros [r tm] w1. rewrite (proj2 (Z.ltb_lt _ _)) by done. intros (-> & Hh & ->).
  change (0 <? 0) with false. cbv iota.
  eapply wp_lift_bind; [by apply (holds_str _ _ _ p_text0 Hh)|].
  by apply (command_delivers _ _ _ msgs).
Qed.

Lemma status_delivers : delivers (lit "status") (wpa_cli_cmd_status_with_results fuel).
Proof.
  intros [|a args] text b n msgs reply rest w Ht Hok Ha; [|done].
  injection Ht as <-. destruct Hok. by apply (command_delivers _ _ _ msgs).
Qed.

Lemma set_network_delivers :
  delivers (lit "set_network") (wpa_cli_cmd_set_network_with_results fuel).
Proof.
  intros args text b n msgs reply rest w Ht Hok Ha.
  unfold wpa_cli_cmd_set_network_with_results.
  destruct args as [|a1 [|a2 [|a3 args]]]; [done..|].
  rewrite (proj2 (Z.eqb_neq _ 0)), (proj2 (Z.ltb_ge _ 3)) by (cbn [length]; lia).
  by apply (argument_delivers (lit "set_network") (lit "SET_NETWORK") 3) with (msgs := msgs).
Qed.

Lemma no_wire_delivers name h : (∀ args, wire name args = None) → delivers name h.
Proof. intros Hw args text b n msgs reply rest w Ht. by rewrite Hw in Ht. Qed.

Ltac by_plain cmd := apply (plain_delivers _ (lit cmd)); intros ?; reflexivity.
Ltac by_arguments cmd k :=
  apply (argument_delivers _ (lit cmd) k); [intros ?; reflexivity|reflexivity].

Ltac delivers_entry :=
  cbn [e_cmd e_results];
  lazymatch goal with
  | |- delivers _ (wpa_cli_cmd_status_with_results _) => exact status_delivers
  | |- delivers _ (wpa_cli_cmd_set_network_with_results _) => exact set_network_delivers
  | |- delivers _ (wpa_cli_cmd_ifname_with_results _) => by_plain "IFNAME"
  | |- delivers _ (wpa_cli_cmd_list_networks_with_results _) => by_plain "LIST_NETWORKS"
  | |- delivers _ (wpa_cli_cmd_save_config_with_results _) => by_plain "SAVE_CONFIG"
  | |- delivers _ (wpa_cli_cmd_scan_results_with_results _) => by_plain "SCAN_RESULTS"
  | |- delivers _ (wpa_cli_cmd_scan_with_results _) => by_arguments "SCAN" 0%nat
  | |- delivers _ (wpa_cli_cmd_select_network_with_results _) =>
      by_arguments "SELECT_NETWORK" 1%nat
  | |- delivers _ (wpa_cli_cmd_enable_network_with_results _) =>
      by_arguments "ENABLE_NETWORK" 1%nat
  | |- delivers _ (wpa_cli_cmd_disable_network_with_results _) =>
      by_arguments "DISABLE_NETWORK" 1%nat
  | |- _ => simple apply no_wire_delivers; intros ?; vm_compute; reflexivity
  end.

Lemma table_delivers cfg :
  Forall (λ e, delivers (e_cmd e) (e_results e)) (wpa_cli_commands fuel cfg).
Proof.
  unfold wpa_cli_commands, commands_with, wpa_cli_commands_1, wpa_cli_commands_2,
    wpa_cli_commands_3, wpa_cli_commands_4, wpa_cli_commands_5.
  each_entry delivers_entry.
Qed.

End Daemon.

Section Execute.
Context {E : Type} `{Daemon E} (fuel : nat).

Lemma strip_ifname_suffix argv : ∃ u, argv = u ++ (strip_ifname argv).2.
Proof.
  destruct argv as [|a [|a2 l]]; [by exists []|by exists []|]. simpl.
  destruct (strncasecmp_eq _ _ _); [by exists [a]|by exists []].
Qed.

Lemma strip_ifname_prefix argv p :
  (strip_ifname argv).1 = Live p → ∃ a, a ∈ argv ∧ p = drop 7 a.
Proof.
  destruct argv as [|a [|a2 l]]; [done|done|]. simpl.
  destruct (strncasecmp_eq _ _ _); [|done]. intros [= <-]. exists a. split; [left|done].
Qed.

Lemma cmd_text_spaced cmd args : strlen (cmd_text cmd args) = strlen cmd + strlen (spaced args).
Proof. unfold cmd_text, spaced, strlen. rewrite length_app. lia. Qed.

(** The text of a request: at most sixteen bytes more than the arguments. *)
Lemma wire_bounds name args text :
  wire name args = Some text → Forall cstring args →
  cstring text ∧ strlen text ≤ 16 + strlen (spaced args).
Proof.
  intros Hw Ha. assert (0 ≤ strlen (spaced args)) by (unfold strlen; lia).
  assert (Hsp : cstring (spaced args)).
  { unfold spaced. clear -Ha. induction Ha as [|x l Hx _ IH]; [constructor|]. simpl.
    constructor; [done|]. by apply cstring_app. }
  assert (Hall : Forall (λ p : str * str, cstring p.2 ∧ strlen p.2 ≤ 16) plain_requests ∧
    Forall (λ p : str * (str * nat), cstring p.2.1 ∧ strlen p.2.1 ≤ 16) argument_requests)
    by (split; apply (bool_decide_unpack _); by vm_compute).
  destruct Hall as [Hp Hq].
  assert (Hassoc : ∀ {A} (P : str * A → Prop) l v, Forall P l → assoc l name = Some v →
    ∃ k, P (k, v)).
  { intros A P l v. induction 1 as [|[k v'] l Hk _ IH]; [done|]. simpl.
    destruct (str_eqb k name); [|exact IH]. intros [= <-]. by exists k. }
  unfold wire in Hw. destruct (assoc plain_requests name) as [c|] eqn:E1.
  - injection Hw as <-. destruct (Hassoc _ _ _ _ Hp E1) as (k & Hc & Hl). simpl in *.
    split; [done|lia].
  - destruct (assoc argument_requests name) as [[c k]|] eqn:E2.
    + destruct (Hassoc _ _ _ _ Hq E2) as (k' & Hc & Hl). simpl in *.
      destruct (length args <? k)%nat; [done|]. injection Hw as <-.
      rewrite cmd_text_spaced. split; [|lia]. apply cstring_app. by split.
    + destruct (_ && _); [|done]. injection Hw as <-. split; [by apply (bool_decide_unpack _)|].
      change (strlen (lit "STATUS")) with 6. lia.
Qed.

(** The words of a line of less than 1024 bytes make arguments that fit. *)
Lemma line_arguments cmd name args n b (w : World E cli) e text :
  cstring cmd → strlen cmd < 1024 → n = Z.of_nat (length b) → 0 < n ≤ INT_MAX →
  (strip_ifname (take 16 (words cmd))).2 = name :: args → wire e args = Some text →
  ifname_prefix (w_usr w) = (strip_ifname (take 16 (words cmd))).1 →
  arguments_ok w b n args text.
Proof.
  intros Hcmd Hlen Hb Hn Hs Hw Hp.
  pose proof (words_spaced cmd) as Hsp. pose proof (words_cstring cmd Hcmd) as Hcs.
  set (argv := take 16 (words cmd)) in *.
  assert (Hcv : Forall cstring argv) by (by apply Forall_take).
  destruct (strip_ifname_suffix argv) as [u Hu]. rewrite Hs in Hu.
  assert (Hargs : Forall cstring args ∧ strlen (spaced args) ≤ strlen cmd + 1).
  { rewrite Hu in Hcv, Hsp. apply Forall_app in Hcv as [_ Hcv]. split; [by inversion Hcv|].
    etransitivity; [|exact Hsp]. change (name :: args) with ([name] ++ args).
    rewrite app_assoc. apply suffix_spaced. }
  destruct Hargs as [Hca Hla]. destruct (wire_bounds _ _ _ Hw Hca) as [Hct Hlt].
  constructor; [| |done|lia| |done|done].
  - rewrite Hp. destruct argv as [|a [|a2 l]]; [done|done|]. simpl.
    by destruct (strncasecmp_eq _ _ _).
  - intros p Hlive. rewrite Hp in Hlive. apply strip_ifname_prefix in Hlive as (a & Hin & ->).
    apply Forall_drop. by apply (Forall_forall cstring argv).
  - clear -Hla Hlen. induction args as [|x l IH]; [constructor|]. rewrite spaced_cons in Hla.
    assert (0 ≤ strlen x ∧ 0 ≤ strlen (spaced l)) by (unfold strlen; lia).
    constructor; [unfold INT_MAX; lia|]. apply IH. lia.
Qed.

Lemma execute_delivers cfg cmd b n name args e text msgs reply rest
    (w : World E cli) :
  let argv := take 16 (words cmd) in
  cstring cmd → strlen cmd < 1024 →
  ¬ (length (words cmd) = 16%nat ∧ ends_in_word cmd = true) →
  n = Z.of_nat (length b) → 0 < n ≤ INT_MAX → g_wpa__cli_initialized (w_usr w) ≠ 0 →
  (strip_ifname argv).2 = name :: args →
  resolve (wpa_cli_commands fuel cfg) name = Some e → wire (e_cmd e) args = Some text →
  let sent := on_wire (strip_ifname argv).1 n text in
  answering fuel w sent n msgs reply rest →
  wp (wpa_cli_execute fuel cfg cmd b n) (λ '(r, b') w',
    r = 0 ∧ holds b' 0 (take (Z.to_nat (n - 1)) reply) ∧ length b' = length b ∧
    adds w w' (λ tr, sends tr = [sent]) ∧ inbox (w_env w') = rest ∧
    w_usr w' = (w_usr w) {{ ifname_prefix := ifname_prefix (w_usr w') }}) w.
Proof.
  intros argv Hcmd Hlen Hwords Hb Hn Hinit Hs Hr Hw sent Ha.
  unfold wp. rewrite execute_run by done. fold argv. apply wp_bind.
  set (w1 := mkWorld (w_env w) (w_trace w) (w_counter w)
    ((w_usr w) {{ ifname_prefix := (strip_ifname argv).1 }})).
  apply wp_bind. unfold wp at 1. rewrite (select_command_found _ _ _ _ _ e _ Hs Hr). fold w1.
  pose proof (table_delivers fuel cfg) as Hall. rewrite List.Forall_forall in Hall.
  pose proof (resolve_elem _ _ _ Hr) as Hin%list_elem_of_In.
  change (ctrl_conn (w_usr w)) with (ctrl_conn (w_usr w1)).
  eapply wp_mono.
  { apply (Hall e Hin args text b n msgs reply rest w1 Hw).
    - by eapply line_arguments.
    - destruct Ha. by constructor. }
  intros [r b'] w2 (Hr0 & Hh & Hl & Hu & Hi & Hs2). cbn [fst snd] in *.
  apply wp_bind. unfold put. unfold wp at 1, modify. cbv beta iota. apply wp_ret.
  split_and!; [done|done|done|exact Hs2|exact Hi|]. simpl. rewrite Hu. unfold leave.
  by destruct (w_usr w), (strip_ifname argv).1.
Qed.

(** C1: On a connected daemon, a line of less than 1024 bytes, not of exactly
    sixteen words up to its end, whose command resolves to one of those that
    make one request, sends exactly one datagram. Without an interface it is
    the request's text; when the line names one, the text with IFNAME= and the
    interface in front, cut to one byte less than the caller's buffer, in which
    the code builds it. The daemon's answer is left, as a string cut to its
    size, in that buffer; unsolicited messages before the answer are consumed,
    what follows it is left. *)
Theorem wpa_cli_execute_delivers cfg cmd b n name args e text msgs reply rest
    (w : World E cli) :
  let argv := take 16 (words cmd) in
  cstring cmd → strlen cmd < 1024 →
  ¬ (length (words cmd) = 16%nat ∧ ends_in_word cmd = true) →
  n = Z.of_nat (length b) → 0 < n ≤ INT_MAX → g_wpa__cli_initialized (w_usr w) ≠ 0 →
  (strip_ifname argv).2 = name :: args →
  resolve (wpa_cli_commands fuel cfg) name = Some e → wire (e_cmd e) args = Some text →
  let sent := on_wire (strip_ifname argv).1 n text in
  answering fuel w sent n msgs reply rest →
  wp (wpa_cli_execute fuel cfg cmd b n) (λ '(r, b') w',
    r = 0 ∧ holds b' 0 (take (Z.to_nat (n - 1)) reply) ∧ length b' = length b ∧
    adds w w' (λ tr, sends tr = [sent]) ∧ inbox (w_env w') = rest ∧
    w_usr w' = (w_usr w) {{ ifname_prefix := ifname_prefix (w_usr w') }}) w.
Proof. intros. by eapply execute_delivers. Qed.

End Execute.

(** ** A daemon to run against *)

(** The environment is the queue of datagrams; [answers] is what a request
    adds to it. *)
Definition daemon_OS (answers : list Z → list (list Z)) : OS (list (list Z)) := λ c e,
  match c, e with
  | Send _ d, _ => (ok (strlen d), e ++ answers d)
  | Select _ _, _ => (ok (Z.of_nat (length e)), e)
  | Recv _ _, d :: ds => (Sysres (strlen d) 0 0 d, ds)
  | _, _ => (ok 1, e)
  end.

Definition daemon_Inbox answers : @Inbox _ (daemon_OS answers).
Proof.
  apply (@Build_Inbox _ (daemon_OS answers) (λ e, e)).
  - intros e fd t Hne. split; [|done]. simpl. destruct e; [done|]. cbn [length]. lia.
  - intros e fd n d ds ->. simpl. split_and!; [unfold strlen; lia|done|done].
Defined.

Definition daemon_Daemon answers : @Daemon _ (daemon_OS answers) (daemon_Inbox answers).
Proof.
  apply (@Build_Daemon _ (daemon_OS answers) (daemon_Inbox answers) (λ _ d, answers d)).
  - intros e fd d. simpl. split; [unfold strlen; lia|done].
  - intros e t. by destruct e.
Defined.

(** It selects network 0 of wlan0 and reports an event first. *)
Definition selects (d : list Z) : list (list Z) :=
  if bool_decide (d = lit "IFNAME=wlan0 SELECT_NETWORK 0")
  then [lit "<3>CTRL-EVENT-SCAN-STARTED "; line "OK"] else [line "FAIL"].

Lemma wpa_cli_execute_delivers_witness :
  wp (@wpa_cli_execute _ (daemon_OS selects) 2 shipped
        (lit "IFNAME=wlan0 select_n 0") (uninit 64) 64)
    (λ '(r, b') w', r = 0 ∧ holds b' 0 (take 63 (line "OK")) ∧ length b' = 64%nat ∧
      adds (mkWorld [] [] 0 connected) w'
        (λ tr, sends tr = [lit "IFNAME=wlan0 SELECT_NETWORK 0"]) ∧
      w_env w' = [] ∧ w_usr w' = connected {{ ifname_prefix := ifname_prefix (w_usr w') }})
    (mkWorld [] [] 0 connected).
Proof.
  pose (o := resolve (@wpa_cli_commands _ (daemon_OS selects) 2 shipped) (lit "select_n")).
  assert (Ho : ∃ e, o = Some e ∧ e_cmd e = lit "select_network") by (eexists; split; reflexivity).
  destruct Ho as (e & He & Hn).
  apply (@wpa_cli_execute_delivers _ (daemon_OS selects) (daemon_Inbox selects)
    (daemon_Daemon selects) 2 shipped (lit "IFNAME=wlan0 select_n 0") (uninit 64) 64
    (lit "select_n") [lit "0"] e (lit "SELECT_NETWORK 0")
    [lit "<3>CTRL-EVENT-SCAN-STARTED "] (line "OK") []).
  - by apply (bool_decide_unpack _).
  - by vm_compute.
  - intros [Hw _]. vm_compute in Hw. discriminate.
  - reflexivity.
  - by vm_compute.
  - done.
  - by vm_compute.
  - exact He.
  - rewrite Hn. by vm_compute.
  - constructor; [done|by vm_compute| |by vm_compute|simpl; lia].
    constructor; [|constructor]. split_and!; [done|by apply (bool_decide_unpack _)|by vm_compute].
Defined.
