(* ===== verification/CliLifecycle.v ===== *)
(** * The life of the library: init, execute, deinit

    The calls an application makes, in any order.  [lib_inv] is what holds
    of the static variables between them. *)

From S2P Require Import Prelude CString Scan Io WpaCtrl CliUtil CliCore CliLists.
From S2P Require Import CliCmdBasic CliCmdMore CliTable CliEvents CliApi CliDispatch CliSafety.

(** The library never is interactive, monitors nothing and attaches to
    nothing; while it is initialised it has a connection. *)
Record lib_inv (c : cli) : Prop := {
  li_flag : g_wpa__cli_initialized c = 0 ∨ g_wpa__cli_initialized c = 1;
  li_conn : g_wpa__cli_initialized c = 1 → ctrl_conn c ≠ None;
  li_mon : mon_conn c = None;
  li_attached : wpa_cli_attached c = 0;
  li_interactive : interactive c = 0;
  li_pid : pid_file c = None;
}.

Lemma lib_inv_init : lib_inv cli_init.
Proof. by constructor; [left|..]. Qed.

Section Connection.
Context {E : Type} `{OS E} (fuel : nat).
Local Abbreviation World := (World E cli).

Lemma bind_local_usr {U} again fd p k (w : Io.World E U) :
  wlp (bind_local again fd p k) (λ _ w', w_usr w' = w_usr w) w.
Proof.
  revert w. induction again as [|again IH]; intros w; cbn [bind_local];
    repeat run_step; try done. exact (IH _).
Qed.

Lemma open2_usr {U} path cdir (w : Io.World E U) :
  wlp (wpa_ctrl_open2 path cdir) (λ _ w', w_usr w' = w_usr w) w.
Proof.
  destruct path as [path|]; [|done]. unfold wpa_ctrl_open2.
  do 2 run_step. destruct (negb b); [done|]. do 3 run_step; [done|]. run_step.
  apply (wlp_mono _ (λ _ w1, w_usr w1 = w_usr w)); [done|]. intros k w1 Hu1.
  run_step. eapply wlp_mono; [apply bind_local_usr|]. intros l w2 Hu2.
  destruct l as [l|]; [|run_step; congruence]. run_step.
  destruct (dest_address_total path) as (d & Hd & _). eapply wlp_lift_Ret; [exact Hd|].
  destruct d as [b'|]; repeat run_step; simpl; congruence.
Qed.

Lemma ctrl_close_usr {U} ct (w : Io.World E U) :
  wp (wpa_ctrl_close ct) (λ _ w', w_usr w' = w_usr w) w.
Proof. destruct ct as [ct|]; [|done]. unfold wpa_ctrl_close. by repeat run_step. Qed.

Lemma socket_path_usr name (w : World) :
  wlp (socket_path name) (λ _ w', w_usr w' = w_usr w) w.
Proof.
  unfold socket_path. do 4 cli_step. destruct (negb b); [done|].
  set (t := ctrl_iface_dir (w_usr w) ++ lit "/" ++ name).
  set (flen := strlen (ctrl_iface_dir (w_usr w)) + strlen name + 2).
  destruct (snprintf_closed (uninit flen) flen t) as (r0 & cf & Hs & Ht & Hl).
  { unfold flen, uninit, strlen. rewrite length_replicate. lia. }
  run_step. eapply wlp_lift_Ret; [exact Hs|]. cbv beta iota. run_step; [done|].
  destruct (buf_str_terminated cf Ht) as [p Hp].
  run_step. by eapply wlp_lift_Ret.
Qed.

(** Opening the connection as the library does, without monitor. *)
Lemma open_connection_usr p (w : World) :
  mon_conn (w_usr w) = None → p ≠ Dangling →
  wlp (wpa_cli_open_connection fuel p 0) (λ r w',
    w_usr w' = (w_usr w) {{ ctrl_conn := ctrl_conn (w_usr w') }} ∧
    (r = 0 ∧ ctrl_conn (w_usr w') ≠ None ∨ r = -1)) w.
Proof.
  intros Hm Hp. unfold wpa_cli_open_connection.
  assert (Hsame : ∀ w' : World, w_usr w' = w_usr w →
    w_usr w' = (w_usr w) {{ ctrl_conn := ctrl_conn (w_usr w') }})
    by (intros w' ->; by destruct (w_usr w)).
  destruct p as [|name|]; [run_step; auto| |done].
  run_step. apply (wlp_mono _ (λ _ w1, w_usr w1 = w_usr w)).
  { unfold client_dir_missing. do 2 cli_step.
    destruct (client_socket_dir _) as [[|c d]|]; repeat run_step; done. }
  intros missing w1 Hu1. destruct missing; [run_step; auto|].
  run_step. eapply wlp_lift_Ret; [reflexivity|]. run_step.
  eapply wlp_mono; [apply socket_path_usr|]. intros [cfile|] w2 Hu2;
    [|run_step; split; [apply Hsame; congruence|by right]].
  do 2 cli_step. run_step. eapply wlp_mono; [apply open2_usr|]. intros conn w3 Hu3.
  do 2 cli_step. destruct conn as [ct|].
  - do 3 cli_step. change (negb (0 =? 0)) with false. cbn [andb]. cbv iota.
    do 4 cli_step. simpl. split; [|by left].
    rewrite Hu3, Hu2, Hu1. by destruct (w_usr w); simpl in *; subst.
  - run_step. simpl. split; [|by right]. rewrite Hu3, Hu2, Hu1. by destruct (w_usr w).
Qed.

(** Closing it. *)
Lemma close_connection_usr (w : World) :
  mon_conn (w_usr w) = None → wpa_cli_attached (w_usr w) = 0 →
  wp (wpa_cli_close_connection fuel) (λ _ w',
    w_usr w' = (w_usr w) {{ ctrl_conn := None }}) w.
Proof.
  intros Hm Ha. unfold wpa_cli_close_connection. do 2 cli_step.
  destruct (ctrl_conn (w_usr w)) as [ct|] eqn:Ec.
  - do 3 cli_step. rewrite Ha. change (negb (0 =? 0)) with false. cbv iota.
    do 2 cli_step. eapply wp_mono; [apply ctrl_close_usr|]. intros [] w1 Hu1.
    do 4 cli_step. assert (mon_conn (w_usr w1) = None) as Hm1 by (rewrite Hu1; exact Hm).
    match goal with |- context [mon_conn (w_usr ?x)] =>
      change (mon_conn (w_usr x)) with (mon_conn (w_usr w1)) end.
    rewrite Hm1. run_step. cbn [w_usr]. by rewrite Hu1.
  - run_step. destruct (w_usr w). simpl in *. by subst.
Qed.

End Connection.

Section Api.
Context {E : Type} `{OS E} (fuel : nat) (cfg : config).
Local Abbreviation World := (World E cli).
Local Abbreviation M := (M E cli).

Lemma default_ifname_usr (w : World) :
  wlp (wpa_cli_get_default_ifname fuel) (λ d w', w_usr w' = w_usr w ∧ d ≠ Dangling) w.
Proof.
  unfold wpa_cli_get_default_ifname. do 4 cli_step. run_step; [done|]. run_step.
  apply (wlp_mono _ (λ d w', w_usr w' = w_usr w ∧ d ≠ Dangling)).
  - match goal with |- wlp _ _ ?x => assert (Hu : w_usr x = w_usr w) by done; revert Hu end.
    generalize fuel. intros n.
    match goal with |- _ → wlp _ _ ?x => generalize x end.
    induction n as [|n IH]; intros w1 Hu; [done|]. cbn [default_ifname_loop].
    do 2 run_step. run_step; [done|]. run_step; [by apply IH|]. run_step; [by apply IH|].
    repeat run_step. split; [exact Hu|]. by destruct b.
  - intros d w1 [Hu Hd]. repeat run_step. done.
Qed.

(** What [init_wpa_cli] returns says what it did. *)
Lemma init_spec (w : World) :
  lib_inv (w_usr w) → ctrl_ifname (w_usr w) ≠ Dangling →
  wlp (init_wpa_cli fuel) (λ r w', lib_inv (w_usr w') ∧ ctrl_ifname (w_usr w') ≠ Dangling ∧
    (r = 0 ∧ g_wpa__cli_initialized (w_usr w) = 0 ∧ g_wpa__cli_initialized (w_usr w') = 1 ∨
     r = -1 ∧ g_wpa__cli_initialized (w_usr w) = 1 ∧ w_usr w' = w_usr w ∨
     r = -2 ∧ g_wpa__cli_initialized (w_usr w) = 0 ∧ g_wpa__cli_initialized (w_usr w') = 0)) w.
Proof.
  intros Hinv Hd. unfold init_wpa_cli. do 2 cli_step. run_step.
  { do 3 run_step. simpl. split_and!; [done|done|]. right; left. done. }
  assert (Hz : g_wpa__cli_initialized (w_usr w) = 0) by (destruct Hinv as [[|] _]; lia).
  do 2 cli_step. run_step.
  apply (wlp_mono _ (λ _ w1, w_usr w1
    = (w_usr w) {{ ctrl_ifname := ctrl_ifname (w_usr w1) }} ∧
    ctrl_ifname (w_usr w1) ≠ Dangling)).
  { destruct (is_null _); [|run_step; by destruct (w_usr w)]. run_step.
    eapply wlp_mono; [apply default_ifname_usr|]. intros d w1 [Hu Hd1]. cli_step.
    simpl. by rewrite Hu. }
  intros [] w1 [Hu1 Hd1].
  do 3 cli_step.
  eapply wlp_mono; [apply open_connection_usr; [|done]; rewrite Hu1; by destruct Hinv|].
  intros r w2 [Hu2 Hr]. assert (Hst : w_usr w2 = (w_usr w)
    {{ ctrl_ifname := ctrl_ifname (w_usr w1) }} {{ ctrl_conn := ctrl_conn (w_usr w2) }})
    by (rewrite Hu2 at 1; by rewrite Hu1).
  destruct Hr as [[-> Hc]| ->].
  - change (0 <? 0) with false. cbv iota. do 3 cli_step. cbn [w_usr].
    split_and!; [|rewrite Hst; exact Hd1|by left].
    destruct Hinv. rewrite Hst in Hc |- *. by constructor; [right|..].
  - change (-1 <? 0) with true. cbv iota.
    assert (Hend : lib_inv (w_usr w2) ∧ ctrl_ifname (w_usr w2) ≠ Dangling ∧
      g_wpa__cli_initialized (w_usr w2) = 0).
    { rewrite Hst. split_and!; [|exact Hd1|exact Hz]. destruct Hinv.
      by constructor. }
    destruct Hend as (Hi & Hd2 & Hz2). run_step.
    apply (wlp_mono _ (λ _ w3, w3 = w2)).
    { destruct (is_null _) eqn:En; [by eapply wlp_lift_Ret|].
      destruct (ctrl_ifname (w_usr w1)); [done|by eapply wlp_lift_Ret|done]. }
    intros name w3 ->. repeat run_step. cbn [after w_usr].
    split_and!; [done|done|]. right; right. done.
Qed.

(** [deinit_wpa_cli] leaves a state in which the interface name dangles. *)
Definition deinited (c : cli) : cli :=
  c {{ ctrl_ifname := if is_null (ctrl_ifname c) then Null else Dangling }}
    {{ ctrl_conn := None }} {{ g_wpa__cli_initialized := 0 }}.

Lemma deinit_spec (w : World) :
  lib_inv (w_usr w) →
  wp (deinit_wpa_cli fuel) (λ r w', r = 0 ∧
    w_usr w' = if g_wpa__cli_initialized (w_usr w) =? 1 then deinited (w_usr w)
               else w_usr w) w.
Proof.
  intros Hinv. unfold deinit_wpa_cli. do 2 cli_step.
  destruct (_ =? 1); [|by run_step]. do 2 cli_step. unfold wpa_cli_cleanup. do 2 cli_step.
  eapply wp_mono; [apply close_connection_usr; by destruct Hinv|]. intros [] w1 Hu1.
  do 2 cli_step. assert (Hp : pid_file (w_usr w1) = None) by (rewrite Hu1; by destruct Hinv).
  rewrite Hp. do 4 cli_step. cbn [w_usr]. by rewrite Hu1.
Qed.

Lemma deinited_inv c : lib_inv c → lib_inv (deinited c).
Proof. intros []. by constructor; [left|..]. Qed.

(** ** Sequences of calls *)

Inductive api_call : Type :=
  | Init
  | Execute (cmd : str) (b : buf)
  | Deinit.

Definition api_do (c : api_call) : M unit :=
  match c with
  | Init => init_wpa_cli fuel;; mret tt
  | Execute cmd b => wpa_cli_execute fuel cfg cmd b (Z.of_nat (length b));; mret tt
  | Deinit => deinit_wpa_cli fuel;; mret tt
  end.

Fixpoint api_run (cs : list api_call) : M unit :=
  match cs with [] => mret tt | c :: cs' => api_do c;; api_run cs' end.

(** A line that fits the local buffers of [wpa_cli_execute]. *)
Definition line_fits (cmd : str) : Prop :=
  cstring cmd ∧ strlen cmd < 1024 ∧
  ¬ (length (words cmd) = 16%nat ∧ ends_in_word cmd = true).

Definition call_ok (c : api_call) : Prop :=
  match c with
  | Execute cmd b => line_fits cmd ∧ 0 < Z.of_nat (length b) ≤ INT_MAX
  | _ => True
  end.

(** No [init_wpa_cli] once [deinit_wpa_cli] was called. *)
Fixpoint no_reinit (ended : bool) (cs : list api_call) : bool :=
  match cs with
  | [] => true
  | Init :: cs' => negb ended && no_reinit ended cs'
  | Execute _ _ :: cs' => no_reinit ended cs'
  | Deinit :: cs' => no_reinit true cs'
  end.

Lemma api_run_safe (short : Datagrams E 4096) ended cs (w : World) :
  lib_inv (w_usr w) → (ended = false → ctrl_ifname (w_usr w) ≠ Dangling) →
  Forall call_ok cs → no_reinit ended cs = true →
  wlp (api_run cs) (λ _ w', lib_inv (w_usr w')) w.
Proof.
  intros Hinv Hd Hok. revert ended w Hinv Hd. induction Hok as [|c cs Hc _ IH];
    intros ended w Hinv Hd Hre; [done|]. cbn [api_run]. apply wlp_bind.
  destruct c as [|cmd b|]; cbn [api_do]; apply wlp_bind; cbn [no_reinit] in Hre.
  - apply andb_true_iff in Hre as [Hne Hre]. destruct ended; [done|].
    eapply wlp_mono; [by apply init_spec; [|apply Hd]|]. intros r w1 (Hi & Hd1 & _).
    apply wlp_ret. by apply (IH false).
  - destruct Hc as [(Hcs & Hl & Hw) Hb].
    eapply wlp_mono; [apply execute_safe; [done..|by destruct Hinv]|].
    intros [r b'] w1 (_ & _ & Hu). apply wlp_ret. apply (IH ended); [|by rewrite Hu|done].
    rewrite Hu. destruct Hinv. by constructor.
  - eapply wlp_mono; [by apply wlp_wp, deinit_spec|]. intros r w1 (_ & Hu). apply wlp_ret.
    apply (IH true); [|done|done]. rewrite Hu. destruct (_ =? 1); [|done].
    by apply deinited_inv.
Qed.


(** [init_wpa_cli] says what it did: 0 when the library was not
    initialised and now is, with a connection; -1 when it was, and nothing
    changed; -2 when no connection could be made and it still is not. *)
Theorem init_outcomes (w : World) :
  lib_inv (w_usr w) → ctrl_ifname (w_usr w) ≠ Dangling →
  wlp (init_wpa_cli fuel) (λ r w', lib_inv (w_usr w') ∧ ctrl_ifname (w_usr w') ≠ Dangling ∧
    (r = 0 ∧ g_wpa__cli_initialized (w_usr w) = 0 ∧ g_wpa__cli_initialized (w_usr w') = 1 ∨
     r = -1 ∧ g_wpa__cli_initialized (w_usr w) = 1 ∧ w_usr w' = w_usr w ∨
     r = -2 ∧ g_wpa__cli_initialized (w_usr w) = 0 ∧ g_wpa__cli_initialized (w_usr w') = 0)) w.
Proof. apply init_spec. Qed.

(** Initialising the library again after [deinit_wpa_cli] uses the
    interface name that [deinit_wpa_cli] has freed. *)
Theorem reinit_uses_freed_name name (w : World) :
  lib_inv (w_usr w) → g_wpa__cli_initialized (w_usr w) = 1 →
  ctrl_ifname (w_usr w) = Live name → client_socket_dir (w_usr w) = None →
  wp (deinit_wpa_cli fuel) (λ _ w', is_ub (init_wpa_cli fuel w') = true) w.
Proof.
  intros Hinv Hg Hn Hdir. eapply wp_mono; [by apply deinit_spec|].
  intros r [e1 t1 k1 u1] [_ Hu]. rewrite Hg in Hu. cbn [w_usr] in Hu. subst u1.
  destruct w as [e t k u]. destruct u. simpl in *. subst. reflexivity.
Qed.

(** A command line of 1024 bytes or more overruns the copy that
    [wpa_cli_execute] makes of it. *)
Theorem long_line_overflows cmd b n (w : World) :
  g_wpa__cli_initialized (w_usr w) ≠ 0 → 1024 ≤ strlen cmd →
  is_ub (wpa_cli_execute fuel cfg cmd b n w) = true.
Proof.
  intros Hg Hl. unfold wpa_cli_execute, gets, get. rewrite !run_bind. cbn [mret M_ret].
  rewrite (proj2 (Z.eqb_neq _ 0) Hg), run_bind. unfold lift at 1, strcpy, buf_write.
  rewrite (proj2 (Z.leb_gt (0 + strlen (cmd ++ [0])) _)); [done|].
  unfold strlen in *. rewrite length_app. change (length (zeros 1024)) with 1024%nat.
  simpl. lia.
Qed.

(** Before [init_wpa_cli] nothing is executed: the result is -1, the
    buffer and the state keep their contents and nothing but a message is
    produced. *)
Theorem execute_uninitialised cmd b n (w : World) :
  g_wpa__cli_initialized (w_usr w) = 0 →
  wp (wpa_cli_execute fuel cfg cmd b n) (λ '(r, b') w', r = -1 ∧ b' = b ∧
    w_usr w' = w_usr w ∧
    adds w w' (λ tr, ∃ t o, tr = [(Eprintf t, o)])) w.
Proof.
  intros Hg. unfold wpa_cli_execute. do 2 cli_step. rewrite Hg.
  change (0 =? 0) with true. cbv iota. do 3 cli_step. split_and!; [done|done|done|].
  adds_run. eauto.
Qed.
End Api.

(** ** Witnesses *)

(** Six lines of an application: it finds an interface, connects, asks for the
    status and ends. *)
Definition session : list api_call :=
  [Execute (lit "status") (uninit 16); Init; Execute (lit "status") (uninit 16); Init;
   Deinit; Execute (lit "scan") (uninit 16); Deinit].


Lemma connected_inv : lib_inv connected.
Proof. by constructor; [right|..]. Qed.

Lemma init_outcomes_witness :
  wlp (@init_wpa_cli unit ok_OS 5) (λ r w', lib_inv (w_usr w') ∧
    ctrl_ifname (w_usr w') ≠ Dangling ∧
    (r = 0 ∧ 0 = 0 ∧ g_wpa__cli_initialized (w_usr w') = 1 ∨
     r = -1 ∧ 0 = 1 ∧ w_usr w' = cli_init ∨
     r = -2 ∧ 0 = 0 ∧ g_wpa__cli_initialized (w_usr w') = 0)) (mkWorld tt [] 0 cli_init).
Proof. apply (@init_outcomes unit ok_OS 5); [apply lib_inv_init|done]. Defined.

Definition on_wlan0 : cli := connected {{ ctrl_ifname := Live (lit "wlan0") }}.

Lemma on_wlan0_inv : lib_inv on_wlan0.
Proof. by constructor; [right|..]. Qed.

Lemma reinit_uses_freed_name_witness :
  wp (@deinit_wpa_cli unit ok_OS 5)
    (λ _ w', is_ub (@init_wpa_cli unit ok_OS 5 w') = true) (mkWorld tt [] 0 on_wlan0).
Proof.
  by apply (@reinit_uses_freed_name unit ok_OS 5 (lit "wlan0")); [apply on_wlan0_inv|..].
Defined.

Lemma long_line_overflows_witness :
  is_ub (@wpa_cli_execute unit ok_OS 5 shipped (replicate 1024 97) (uninit 16) 16
    (mkWorld tt [] 0 connected)) = true.
Proof. by apply (@long_line_overflows unit ok_OS 5 shipped); vm_compute. Defined.

Lemma execute_uninitialised_witness :
  wp (@wpa_cli_execute unit ok_OS 5 shipped (lit "scan") (uninit 16) 16)
    (λ '(r, b') w', r = -1 ∧ b' = uninit 16 ∧ w_usr w' = cli_init ∧
      adds (mkWorld tt [] 0 cli_init) w' (λ tr, ∃ t o, tr = [(Eprintf t, o)]))
    (mkWorld tt [] 0 cli_init).
Proof. by apply (@execute_uninitialised unit ok_OS 5 shipped). Defined.
