(* ===== verification/CliNetworks.v ===== *)
(** * The list of networks

    [update_networks] refills the list from the table the daemon prints: a
    header line, then one line per network that starts with its identifier
    and a tab.  [update_networks], [update_ifnames] and [update_bssid_list]
    offer the daemon their whole buffer and terminate the reply behind its
    end. *)

From S2P Require Import Prelude CString Scan Io WpaCtrl CliUtil CliCore CliLists.
From S2P Require Import CliCmdBasic CliCmdMore CliTable CliEvents CliApi CliDispatch CliDaemon.

(** An entry the list has not yet goes to its front. *)
Definition add_front (l : list str) (x : str) : list str :=
  if bool_decide (x ∈ l) then l else x :: l.

(** A table as the daemon prints it. *)
Definition table (rows : list str) : str := concat (map (λ r, r ++ [NL]) rows).

(** The identifiers of the networks in the order the list ends up in. *)
Definition listed (rows : list str) : list str :=
  foldl add_front [] (map (λ r, first_word r TAB) rows).

Lemma strchr_line r t : NL ∉ r → strchr (r ++ NL :: t) NL = Some (length r).
Proof.
  induction r as [|c r IH]; intros Hr; [done|]. apply not_elem_of_cons in Hr as [Hc Hr].
  simpl. rewrite (proj2 (Z.eqb_neq c NL)) by congruence. by rewrite IH.
Qed.

Section Networks.
Context {E : Type} `{Heap E}.
Local Abbreviation World := (World E cli).

Lemma add_word_spec l t c (w : World) :
  wp (cli_txt_list_add_word l t c)
    (λ '(_, l') w', l' = add_front l (first_word t c) ∧ w_usr w' = w_usr w) w.
Proof.
  apply wp_bind, alloc_ok. intros r e. unfold add_front, cli_txt_list_add. cbn [negb].
  destruct (cli_txt_list_get l (first_word t c)) as [x|] eqn:Eg.
  - apply cli_txt_list_get_Some in Eg as [_ Hin]. rewrite bool_decide_eq_true_2 by done.
    by apply wp_ret.
  - apply cli_txt_list_get_None in Eg. rewrite bool_decide_eq_false_2 by done.
    apply wp_bind, alloc_ok. intros r1 e1. apply wp_bind, alloc_ok. intros r2 e2.
    by apply wp_ret.
Qed.

(** The loop over the rows; [h] says that the header is still to come. *)
Lemma networks_loop_spec rows n b pos h (w : World) :
  Forall (λ r, cstring r ∧ NL ∉ r) rows → holds b pos (table rows) → (length rows < n)%nat →
  wp (networks_loop n b pos h) (λ _ w', w_usr w' = (w_usr w) {{ networks :=
    foldl add_front (networks (w_usr w))
      (map (λ r, first_word r TAB) (if h =? 0 then rows else tail rows)) }}) w.
Proof.
  intros Hrows. revert n b pos h w. induction Hrows as [|r rows [Hc Hr] Hrows IH];
    intros n b pos h w Hh Hn; (destruct n as [|n]; [simpl in Hn; lia|]); cbn [networks_loop].
  { eapply wp_lift_bind; [by apply (holds_str _ _ []); [constructor|]|]. simpl. apply wp_ret.
    destruct (h =? 0); by destruct (w_usr w). }
  assert (Hct : cstring (table (r :: rows))).
  { unfold table. clear -Hc Hrows. change (concat _) with ((r ++ [NL]) ++ table rows).
    apply cstring_app. split; [apply cstring_app; split; [done|by repeat constructor]|].
    induction Hrows as [|x l [Hx _] _ IH]; [constructor|].
    apply cstring_app. split; [apply cstring_app; split; [done|by repeat constructor]|done]. }
  assert (Htab : table (r :: rows) = r ++ NL :: table rows)
    by (unfold table; simpl; by rewrite <- app_assoc).
  eapply wp_lift_bind; [by apply (holds_str _ _ _ Hct)|]. rewrite Htab in Hh |- *.
  rewrite strchr_line by done.
  destruct (cut_spec b pos r NL (table rows) Hh) as (b' & Hs & Hhr & Hht & _).
  unfold strlen in Hs, Hht. eapply wp_lift_bind; [exact Hs|]. apply wp_bind.
  apply (wp_mono _ (λ _ w1, w_usr w1 = (w_usr w) {{ networks :=
    if h =? 0 then add_front (networks (w_usr w)) (first_word r TAB)
    else networks (w_usr w) }})).
  - destruct (h =? 0); [|apply wp_ret; by destruct (w_usr w)].
    eapply wp_lift_bind; [by apply (holds_str _ _ _ Hc)|].
    apply wp_bind. cli_step. apply wp_bind. eapply wp_mono; [apply add_word_spec|].
    intros [x l'] w1 [-> Hu]. apply wp_modify. simpl. by rewrite Hu.
  - intros [] w1 Hu. eapply wp_mono; [apply (IH n b' _ 0 w1 Hht); simpl in Hn; lia|].
    intros [] w2 Hu2. rewrite Hu2, Hu. destruct (h =? 0); by destruct (w_usr w).
Qed.
End Networks.

Section Update.
Context {E : Type} `{Daemon E} (k : nat).
Local Abbreviation World := (World E cli).
Local Abbreviation fuel := (S k).

(** The request behind a list: the reply is the first datagram. *)
Lemma list_reply ct cmd reply rest (w : World) :
  inbox (w_env w) ++ serve (w_env w) cmd = reply :: rest → head reply ≠ Some 60 →
  let got := take 4096 reply in
  wp (wpa_ctrl_request fuel ct cmd (strlen cmd) (uninit 4096) 4096 None)
    (λ '(res, b', len) w', res = 0 ∧ len = strlen got ∧ (∃ t, b' = cells got ++ t) ∧
      length b' = 4096%nat ∧ w_usr w' = w_usr w) w.
Proof.
  intros Hi Hr got. unfold wpa_ctrl_request. cbn [retry_send]. do 2 run_step.
  apply wp_sys. intros r e He.
  destruct (daemon_send (w_env w) (s ct) (take (Z.to_nat (strlen cmd)) cmd)) as [Hs Hin].
  unfold strlen in *. rewrite Nat2Z.id, firstn_all in *. rewrite He in *. cbn [fst snd] in *.
  rewrite (proj2 (Z.ltb_ge _ _)) by lia. run_step.
  eapply wp_mono; [apply (await_first k _ _ 4096 None reply rest); [done|done|]|].
  { simpl. congruence. }
  intros [[res b'] len] w2 (-> & -> & Ht & Hl & Hu & _). split_and!; [done|done|done|done|done].
Qed.

(** A reply that fills the buffer is terminated behind it. *)
Theorem update_networks_overflows ct reply rest (w : World) :
  inbox (w_env w) ++ serve (w_env w) (lit "LIST_NETWORKS") = reply :: rest →
  head reply ≠ Some 60 → 4096 ≤ strlen reply →
  is_ub (update_networks fuel (Some ct) w) = true.
Proof.
  intros Hi Hr Hl. unfold update_networks, put. rewrite run_bind. unfold modify at 1.
  set (w1 := mkWorld _ _ _ _). rewrite run_bind. unfold list_request.
  destruct (proj1 (wp_run _ _ _) (list_reply ct (lit "LIST_NETWORKS") reply rest w1 Hi Hr))
    as ([[res b] len] & w2 & Hrun & -> & -> & _ & Hb & _).
  rewrite run_bind. change (Z.of_nat 13) with 13 in Hrun. rewrite Hrun.
  change (0 <? 0) with false. cbv iota. rewrite run_bind. unfold lift at 1, buf_set, buf_write.
  rewrite (proj2 (Z.leb_gt (strlen (take 4096 reply) + strlen [0]) _)).
  - by rewrite andb_false_r.
  - unfold strlen in *. rewrite length_take, Hb. cbn [length]. lia.
Qed.

(** The table of the daemon becomes the list. *)
Lemma update_networks_spec (heap : Heap E) ct header rows rest (w : World) :
  Forall (λ r, cstring r ∧ NL ∉ r) (header :: rows) →
  let reply := table (header :: rows) in
  head reply ≠ Some 60 → strlen reply < 4096 →
  inbox (w_env w) ++ serve (w_env w) (lit "LIST_NETWORKS") = reply :: rest →
  wp (update_networks fuel (Some ct)) (λ _ w',
    w_usr w' = (w_usr w) {{ networks := listed rows }}) w.
Proof.
  intros Hrows reply Hr Hl Hi. unfold update_networks. do 2 cli_step.
  unfold list_request. do 2 run_step.
  set (w1 := mkWorld _ _ _ _).
  eapply wp_mono; [apply (list_reply ct (lit "LIST_NETWORKS") reply rest w1 Hi Hr)|].
  intros [[res b] len] w2 (-> & -> & [t ->] & Hb & Hu).
  change (0 <? 0) with false. cbv iota.
  rewrite take_ge in * by (unfold strlen in Hl; lia).
  destruct (buf_set_defined (cells reply ++ t) (strlen reply) 0) as [b' Hs].
  { rewrite Hb. unfold strlen in *. lia. }
  eapply wp_lift_bind; [exact Hs|]. run_step.
  pose proof (cells_close _ _ _ _ Hs eq_refl) as Hh.
  eapply wp_mono; [apply (networks_loop_spec (header :: rows)); [done|exact Hh|]|].
  - apply buf_set_Ret in Hs as [_ ->]. rewrite length_insert, Hb.
    assert (Hlen : ∀ l, (length l ≤ length (table l))%nat).
    { induction l as [|x l IH]; [done|]. unfold table in *. simpl.
      rewrite !length_app. simpl. lia. }
    specialize (Hlen (header :: rows)). fold reply in Hlen. unfold strlen in Hl. lia.
  - intros [] w3 Hu3. rewrite Hu3, Hu. by destruct (w_usr w).
Qed.

(** On a machine with enough memory, the table of networks that the
    daemon prints, up to 4095 bytes, becomes the list of networks: the
    identifier of every row but the header, each once. *)
Theorem update_networks_lists (heap : Heap E) ct header rows rest (w : World) :
  Forall (λ r, cstring r ∧ NL ∉ r) (header :: rows) →
  let reply := table (header :: rows) in
  head reply ≠ Some 60 → strlen reply < 4096 →
  inbox (w_env w) ++ serve (w_env w) (lit "LIST_NETWORKS") = reply :: rest →
  wp (update_networks fuel (Some ct)) (λ _ w',
    w_usr w' = (w_usr w) {{ networks := listed rows }}) w.
Proof. exact (update_networks_spec heap ct header rows rest w). Qed.
End Update.

(** ** A daemon with networks *)

Definition net_rows : list str :=
  [lit "0" ++ [TAB] ++ lit "home" ++ [TAB] ++ lit "any" ++ [TAB] ++ lit "[CURRENT]";
   lit "1" ++ [TAB] ++ lit "office" ++ [TAB] ++ lit "any" ++ [TAB]].

Definition net_header : str := lit "network id / ssid / bssid / flags".

Definition lists_networks (d : list Z) : list (list Z) := [table (net_header :: net_rows)].

Definition daemon_Heap answers : @Heap _ (daemon_OS answers).
Proof. intros e n. by destruct e. Defined.

Lemma update_networks_lists_witness :
  listed net_rows = [lit "1"; lit "0"] ∧
  wp (@update_networks _ (daemon_OS lists_networks) 1 (Some (WpaCtrl 3 [] [])))
    (λ _ w', w_usr w' = connected {{ networks := listed net_rows }})
    (mkWorld [] [] 0 connected).
Proof.
  split; [by vm_compute|].
  apply (@update_networks_lists _ (daemon_OS lists_networks) (daemon_Inbox lists_networks)
    (daemon_Daemon lists_networks) 0 (daemon_Heap lists_networks) (WpaCtrl 3 [] [])
    net_header net_rows []).
  - by apply (bool_decide_unpack _).
  - by vm_compute.
  - by vm_compute.
  - reflexivity.
Defined.

Definition floods (d : list Z) : list (list Z) := [replicate 4096 97].

Lemma update_networks_overflows_witness :
  is_ub (@update_networks _ (daemon_OS floods) 1 (Some (WpaCtrl 3 [] []))
    (mkWorld [] [] 0 connected)) = true.
Proof.
  apply (@update_networks_overflows _ (daemon_OS floods) (daemon_Inbox floods)
    (daemon_Daemon floods) 0 (WpaCtrl 3 [] []) (replicate 4096 97) []).
  - reflexivity.
  - by vm_compute.
  - by vm_compute.
Defined.
