(* ===== verification/CliActions.v ===== *)
(** * What the event handlers promise

    [wpa_cli_action_process] runs the action script when the link goes up or
    down; [link_step] is its abstract automaton.  [cli_event] keeps the
    completion lists current. *)

From S2P Require Import Prelude CString Scan Io WpaCtrl CliUtil CliCore CliLists.
From S2P Require Import CliCmdBasic CliCmdMore CliTable CliEvents CliApi CliDispatch.
From S2P Require Import CliDaemon CliNetworks.

(** ** The identifier of a connection event *)

Lemma strchr_split u c t : c ∉ u → strchr (u ++ c :: t) c = Some (length u).
Proof.
  induction u as [|x u IH]; intros Hu; simpl.
  - by rewrite Z.eqb_refl.
  - apply not_elem_of_cons in Hu as [Hx Hu].
    rewrite (proj2 (Z.eqb_neq x c)) by congruence. by rewrite IH.
Qed.

Lemma strchr_absent s c : c ∉ s → c ≠ 0 → strchr s c = None.
Proof.
  intros Hs Hc. destruct (strchr s c) as [i|] eqn:E; [|done].
  apply strchr_Some in E as [E _]; [|done]. apply list_elem_of_lookup_2 in E. done.
Qed.

Lemma drop_past u (c : Z) t : drop (S (length u)) (u ++ c :: t) = t.
Proof. rewrite (cons_middle c u t), app_assoc. apply drop_app_length'. rewrite length_app. simpl. lia. Qed.

(** The tail of an event behind "[id=" is read as the identifier and
    the string of the network: the word up to the space, and what stands
    between the next equals sign and the bracket.  A tail without a space is
    read past its end. *)
Theorem parse_id_reads id u id_str t :
  SP ∉ id → EQ ∉ u → RB ∉ id_str →
  parse_id (id ++ SP :: u ++ EQ :: id_str ++ RB :: t) = Ret (id, id_str) ∧
  is_ub (parse_id id) = true.
Proof.
  intros Hid Hu Hs. split.
  - unfold parse_id. rewrite strchr_split by done. rewrite drop_past, take_app_length.
    rewrite strchr_split by done. rewrite drop_past, strchr_split by done.
    by rewrite take_app_length.
  - unfold parse_id. by rewrite strchr_absent.
Qed.

Lemma parse_id_reads_witness :
  parse_id (lit "0" ++ SP :: lit "id_str" ++ EQ :: lit "home" ++ RB :: lit "")
  = Ret (lit "0", lit "home") ∧ is_ub (parse_id (lit "0")) = true.
Proof. by apply parse_id_reads; apply (bool_decide_unpack _). Defined.

(** ** The automaton of the link *)

Inductive link_event : Type :=
  | Up (id : Z)
  | Down.

(** The state is [wpa_cli_connected] and [wpa_cli_last_id]; the word is the
    argument of the script that is run. *)
Definition link_step (st : Z * Z) (ev : link_event) : (Z * Z) * option str :=
  match ev with
  | Up id => if (st.1 <=? 0) || negb (id =? st.2) then ((1, id), Some (lit "CONNECTED"))
             else (st, None)
  | Down => if negb (st.1 =? 0) then ((0, st.2), Some (lit "DISCONNECTED")) else (st, None)
  end.

Definition link_state (c : cli) : Z * Z := (wpa_cli_connected c, wpa_cli_last_id c).

(** The events that a message of the daemon carries: [id] is -1 when the
    message names none. *)
Inductive message_event (pos : str) : link_event → Prop :=
  | ev_up_anonymous :
      str_starts pos WPA_EVENT_CONNECTED = true → strstr pos (lit "[id=") = None →
      message_event pos (Up (-1))
  | ev_up i id rest :
      str_starts pos WPA_EVENT_CONNECTED = true → strstr pos (lit "[id=") = Some i →
      drop (i + 4) pos = id ++ SP :: rest → SP ∉ id →
      message_event pos (Up (atoi id))
  | ev_down :
      str_starts pos WPA_EVENT_CONNECTED = false →
      str_starts pos WPA_EVENT_DISCONNECTED = true → message_event pos Down.

(** The scripts run, by their arguments. *)
Definition scripts (tr : list (syscall * sysres)) : list str :=
  omap (λ cr, match cr.1 with Execute _ a _ => Some a | _ => None end) tr.

Definition ifname_text (p : cptr) : str :=
  match p with Live s => s | _ => lit "global" end.

Section Actions.
Context {E : Type} `{Heap E}.
Local Abbreviation World := (World E cli).

Lemma scripts_app tr1 tr2 : scripts (tr1 ++ tr2) = scripts tr1 ++ scripts tr2.
Proof. apply omap_app. Qed.

Lemma exec_spec program ifname word (w : World) :
  ifname ≠ Dangling → cstring (ifname_text ifname) → cstring word →
  wp (wpa_cli_exec program ifname word) (λ _ w', w_usr w' = w_usr w ∧
    adds w w' (λ tr, scripts tr = [ifname_text ifname ++ lit " " ++ word])) w.
Proof.
  intros Hi Hc Hw. unfold wpa_cli_exec. apply (wp_lift_bind _ (ifname_text ifname)).
  { by destruct ifname. }
  set (txt := ifname_text ifname ++ lit " " ++ word). run_step. apply alloc_ok. intros r e.
  cbn [negb]. set (len := strlen (ifname_text ifname) + strlen word + 2).
  assert (Hlen : len = strlen txt + 1).
  { unfold len, txt, strlen. rewrite !length_app. change (length (lit " ")) with 1%nat. lia. }
  destruct (snprintf_holds (uninit len) len txt) as (r1 & b & Hs & Hh & _).
  { unfold uninit, strlen in *. rewrite length_replicate. lia. }
  eapply wp_lift_bind; [exact Hs|]. cbv beta iota.
  rewrite take_ge in Hh by (unfold strlen in *; lia).
  eapply wp_lift_bind; [eapply holds_str; [|exact Hh]|].
  { apply cstring_app. split; [done|]. apply cstring_app. split; [|done].
    by apply (bool_decide_unpack _). }
  do 2 run_step. apply wp_ret. split; [done|]. by adds_run.
Qed.

(** What a step of the automaton does to the world. *)
Definition link_done (w : World) (ev : link_event) (ifname : cptr) (w' : World) : Prop :=
  let '(st, word) := link_step (link_state (w_usr w)) ev in
  w_usr w' = (w_usr w) {{ wpa_cli_connected := st.1 }} {{ wpa_cli_last_id := st.2 }} ∧
  adds w w' (λ tr, scripts tr = match word with
                                | Some word => [ifname_text ifname ++ lit " " ++ word]
                                | None => []
                                end).

Lemma no_scripts_trans (w w1 w2 : World) l :
  adds w w1 (λ tr, scripts tr = []) → adds w1 w2 (λ tr, scripts tr = l) →
  adds w w2 (λ tr, scripts tr = l).
Proof.
  intros Ha1 Ha2. eapply adds_trans; [exact Ha1|]. intros tr1 Ht1.
  destruct Ha2 as (tr2 & Ht2 & Hs2). exists tr2. by rewrite scripts_app, Ht1.
Qed.

(** The end of a connection event, when the identifier is known. *)
Lemma link_up_spec new_id ifname (w : World) :
  ifname ≠ Dangling → cstring (ifname_text ifname) →
  wp (dir ← gets ctrl_iface_dir;
      sys_ (Setenv (lit "WPA_CTRL_DIR") dir);;
      connected ← gets wpa_cli_connected;
      last_id ← gets wpa_cli_last_id;
      if (connected <=? 0) || negb (new_id =? last_id) then
        put (λ c, c {{ wpa_cli_connected := 1; wpa_cli_last_id := new_id }});;
        program ← gets action_file;
        wpa_cli_exec program ifname (lit "CONNECTED");;
        mret tt
      else mret tt) (λ _ w', link_done w (Up new_id) ifname w') w.
Proof.
  intros Hi Hc. do 8 cli_step. change (w_usr (after w _ r e)) with (w_usr w).
  unfold link_done, link_step, link_state. cbn [fst snd].
  destruct (_ || _).
  - do 4 cli_step. run_step. eapply wp_mono.
    { apply exec_spec; [done|done|by apply (bool_decide_unpack _)]. }
    intros ret w1 [Hu Ha]. run_step. split; [by rewrite Hu|].
    eapply (adds_from _ _ _ _ _ _ Ha); [trace_eq|]. by intros tr Htr.
  - run_step. change (w_usr (after w _ r e)) with (w_usr w).
    split; [by destruct (w_usr w)|]. by adds_run.
Qed.

Lemma connected_event_spec pos ev ifname (w : World) :
  message_event pos ev → str_starts pos WPA_EVENT_CONNECTED = true →
  ifname ≠ Dangling → cstring (ifname_text ifname) →
  wp (connected_event pos ifname) (λ _ w', link_done w ev ifname w') w.
Proof.
  intros Hev Hst Hi Hc. unfold connected_event. do 6 run_step.
  match goal with |- wp _ _ ?x => set (w1 := x) end.
  assert (H1 : w_usr w1 = w_usr w ∧ adds w w1 (λ tr, scripts tr = [])).
  { split; [done|]. by adds_run. }
  destruct H1 as [Hu1 Ha1].
  assert (Hdone : ∀ w2 new_id, w_usr w2 = w_usr w → adds w w2 (λ tr, scripts tr = []) → 
    ∀ w', link_done w2 (Up new_id) ifname w' → link_done w (Up new_id) ifname w').
  { intros w2 new_id Hu2 Ha2 w'. unfold link_done. rewrite Hu2.
    destruct (link_step _ _) as [st word]. intros [Hu Ha]. split; [done|].
    by eapply no_scripts_trans. }
  inversion Hev as [_ Hnone|i id rest _ Hsome Hdrop Hsp|Hno]; subst; [| |congruence].
  - rewrite Hnone. do 4 run_step. eapply wp_mono; [by apply link_up_spec|].
    intros [] w' Hd. by apply (Hdone w1).
  - rewrite Hsome, Hdrop. do 2 run_step. apply alloc_ok. intros ra ea. run_step.
    run_step. eapply wp_lift_bind.
    { unfold parse_id. rewrite strchr_split by done. rewrite take_app_length. reflexivity. }
    cbv beta iota. do 5 run_step. eapply wp_mono; [by apply link_up_spec|].
    intros [] w' Hd. eapply (Hdone _ _ _ _ w' Hd). Unshelve.
    + exact Hu1.
    + eapply no_scripts_trans; [exact Ha1|]. by adds_run.
Qed.

Lemma action_process_link msg ifname tail ev (w : World) :
  r_ret (os_step EloopTerminated (w_env w)).1 = 0 →
  event_ifname msg (ctrl_ifname (w_usr w)) = (ifname, tail) →
  message_event (skip_priority tail) ev →
  ifname ≠ Dangling → cstring (ifname_text ifname) →
  wp (wpa_cli_action_process msg) (λ _ w', link_done w ev ifname w') w.
Proof.
  intros Hloop Hif Hev Hi Hc. unfold wpa_cli_action_process. run_step.
  apply wp_sys. intros r e He. rewrite He in Hloop. cbn [fst] in Hloop. rewrite Hloop.
  change (negb (0 =? 0)) with false. cbv iota. do 4 cli_step.
  change (w_usr (after w EloopTerminated r e)) with (w_usr w). rewrite Hif.
  set (w1 := after w EloopTerminated r e).
  assert (Hdone : ∀ w', link_done w1 ev ifname w' → link_done w ev ifname w').
  { intros w'. unfold link_done. change (w_usr w1) with (w_usr w).
    destruct (link_step _ _) as [st word]. intros [Hu Ha]. split; [done|].
    eapply no_scripts_trans; [|exact Ha]. by adds_run. }
  destruct (str_starts (skip_priority tail) WPA_EVENT_CONNECTED) eqn:Hst.
  { eapply wp_mono; [by apply connected_event_spec|]. intros [] w'. apply Hdone. }
  inversion Hev as [Hup _|i id rest Hup _ _ _|_ Hdown]; subst; [congruence..|].
  rewrite Hdown. do 2 cli_step. change (w_usr w1) with (w_usr w).
  unfold link_done, link_step, link_state. cbn [fst snd]. destruct (negb _).
  - do 3 cli_step. eapply wp_mono.
    { apply exec_spec; [done|done|by apply (bool_decide_unpack _)]. }
    intros ret w2 [Hu Ha]. run_step. split.
    { rewrite Hu. cbn [w_usr]. change (w_usr w1) with (w_usr w). by destruct (w_usr w). }
    eapply (adds_from _ _ _ _ _ _ Ha); [trace_eq|]. by intros tr Htr.
  - run_step. change (w_usr w1) with (w_usr w). split; [by destruct (w_usr w)|]. by adds_run.
Qed.
End Actions.

(** The scripts of a sequence of events. *)
Fixpoint link_run (st : Z * Z) (evs : list link_event) : list str :=
  match evs with
  | [] => []
  | ev :: evs' =>
      let '(st', word) := link_step st ev in
      match word with Some x => x :: link_run st' evs' | None => link_run st' evs' end
  end.

Definition disconnected_word : str := lit "DISCONNECTED".

Fixpoint no_two_downs (l : list str) : Prop :=
  match l with
  | x :: ((y :: _) as l') => ¬ (x = disconnected_word ∧ y = disconnected_word) ∧ no_two_downs l'
  | _ => True
  end.

Lemma link_run_down st evs : st.1 = 0 → head (link_run st evs) ≠ Some disconnected_word.
Proof.
  revert st. induction evs as [|ev evs IH]; intros st Hst; [done|]. simpl.
  destruct ev as [id|]; unfold link_step; rewrite Hst; simpl.
  - done.
  - by apply IH.
Qed.

Lemma link_run_alternates st evs : no_two_downs (link_run st evs).
Proof.
  revert st. induction evs as [|ev evs IH]; intros st; [done|]. simpl.
  destruct (link_step st ev) as [st' [x|]] eqn:Es; [|apply IH].
  specialize (IH st'). simpl. destruct (link_run st' evs) as [|y l] eqn:El; [done|].
  split; [|done]. intros [-> ->].
  assert (st'.1 = 0).
  { unfold link_step in Es. destruct ev as [id|]; [by destruct (_ || _); simplify_eq/=|].
    by destruct (negb _); simplify_eq/=. }
  eapply link_run_down; [done|]. by rewrite El.
Qed.

(** [msg] is for the interface [ifname] and carries the event [ev]. *)
Definition link_message (own ifname : cptr) (msg : str) (ev : link_event) : Prop :=
  ∃ tail, event_ifname msg own = (ifname, tail) ∧ message_event (skip_priority tail) ev.

Section Sequence.
Context {E : Type} `{Heap E}.
Local Abbreviation World := (World E cli).

Fixpoint process_all (msgs : list str) : M E cli unit :=
  match msgs with
  | [] => mret tt
  | msg :: msgs' => wpa_cli_action_process msg;; process_all msgs'
  end.

(** While the event loop runs, a sequence of link messages for one
    interface makes [wpa_cli_action_process] run exactly the scripts of the
    automaton, in order; the script is never told twice in a row that the link
    is down. *)
Theorem link_scripts_alternate ifname msgs evs (w : World) :
  (∀ e, r_ret (os_step EloopTerminated e).1 = 0) →
  ifname ≠ Dangling → cstring (ifname_text ifname) →
  Forall2 (link_message (ctrl_ifname (w_usr w)) ifname) msgs evs →
  let words := link_run (link_state (w_usr w)) evs in
  no_two_downs words ∧
  wp (process_all msgs) (λ _ w', adds w w' (λ tr,
    scripts tr = map (λ word, ifname_text ifname ++ lit " " ++ word) words)) w.
Proof.
  intros Hloop Hi Hc Hm words. split; [apply link_run_alternates|]. unfold words. clear words.
  remember (ctrl_ifname (w_usr w)) as own eqn:Ho. revert w Ho.
  induction Hm as [|msg ev msgs evs (tail & Hif & Hev) _ IH]; intros w Ho;
    cbn [process_all]; [run_step; by apply adds_refl|].
  run_step. eapply wp_mono; [eapply action_process_link; [done|by rewrite <- Ho|done..]|].
  intros [] w1 Hd. unfold link_done in Hd. cbn [link_run].
  destruct (link_step (link_state (w_usr w)) ev) as [st word] eqn:Es.
  destruct Hd as [Hu Ha]. assert (Hst : link_state (w_usr w1) = st).
  { rewrite Hu. unfold link_state. simpl. by destruct st. }
  eapply wp_mono; [apply (IH w1); by rewrite Hu|]. intros [] w2 Ha2. rewrite Hst in Ha2.
  eapply adds_trans; [exact Ha|]. intros tr1 Ht1. destruct Ha2 as (tr2 & Hw2 & Ht2).
  exists tr2. split; [done|]. rewrite scripts_app, Ht1, Ht2. by destruct word.
Qed.
End Sequence.

Definition quiet_OS : OS unit := λ c e,
  match c with EloopTerminated => (ok 0, e) | _ => (ok 1, e) end.

Definition quiet_Heap : @Heap unit quiet_OS.
Proof. by intros e n. Defined.

Definition up_message : str :=
  lit "IFNAME=wlan0 <3>CTRL-EVENT-CONNECTED - Connection to 02:00:00:00:00:00 [id=7 id_str=]".


Lemma link_scripts_alternate_witness :
  let words := link_run (link_state connected) [Up 7; Up 7; Up 7] in
  no_two_downs words ∧
  wp (@process_all unit quiet_OS [up_message; up_message; up_message])
    (λ _ w', adds (mkWorld tt [] 0 connected) w' (λ tr,
      scripts tr = map (λ word, ifname_text (Live (lit "wlan0")) ++ lit " " ++ word) words))
    (mkWorld tt [] 0 connected).
Proof.
  apply (@link_scripts_alternate unit quiet_OS quiet_Heap (Live (lit "wlan0"))
    [up_message; up_message; up_message] [Up 7; Up 7; Up 7] (mkWorld tt [] 0 connected)).
  - done.
  - done.
  - by apply (bool_decide_unpack _).
  - assert (Hm : link_message Null (Live (lit "wlan0")) up_message (Up (atoi (lit "7")))).
    { exists (drop 13 up_message). split; [by vm_compute|].
      apply (ev_up _ (length (lit "CTRL-EVENT-CONNECTED - Connection to 02:00:00:00:00:00 "))
        (lit "7") (lit "id_str=]")); [by vm_compute..|by apply (bool_decide_unpack _)]. }
    assert (H7 : atoi (lit "7") = 7) by (by vm_compute). rewrite H7 in Hm.
    do 3 (apply Forall2_cons; split; [exact Hm|]). constructor.
Defined.

(** ** Hexadecimal arguments *)

(** The two digits that come out for a character: characters above 127 are
    negative and all give "ff". *)
Definition hex_pair (c : Z) : str := if c <? 128 then fmt_02x c else lit "ff".

Lemma hex_pair_spec c :
  0 ≤ c < 256 → take 2 (fmt_02x (u32 (sext8 c))) = hex_pair c ∧
    length (hex_pair c) = 2%nat ∧ cstring (hex_pair c).
Proof.
  intros Hc.
  pose (p := λ c, bool_decide (take 2 (fmt_02x (u32 (sext8 c))) = hex_pair c ∧
    length (hex_pair c) = 2%nat ∧ cstring (hex_pair c))).
  assert (p c = true) as Hp by (apply forall_byte_reflect; [by vm_compute|done]).
  unfold p in Hp. by apply bool_decide_eq_true in Hp.
Qed.

Lemma hex_loop_spec n t u b :
  Forall (λ c, 0 ≤ c < 256) t → holds b 0 u → (length u + 2 * n < length b)%nat →
  (length u mod 2 = 0)%nat → cstring u →
  ∃ b', hex_loop n (Z.of_nat (length u / 2)) t b = Ret b' ∧
    holds b' 0 (u ++ concat (map hex_pair (take n t))) ∧
    cstring (u ++ concat (map hex_pair (take n t))).
Proof.
  intros Ht. revert n u b. induction Ht as [|c t Hc _ IH]; intros n u b Hh Hl He Hu.
  { exists b. rewrite take_nil, app_nil_r. by destruct n. }
  destruct n as [|n]; [exists b; by rewrite app_nil_r|]. cbn [hex_loop].
  destruct (hex_pair_spec c Hc) as (Hp & H2 & Hcs).
  assert (Hpos : Z.of_nat (length u / 2) * 2 = strlen u).
  { unfold strlen. pose proof (Nat.div_mod (length u) 2). lia. }
  rewrite Hpos. unfold snprintf. change (3 =? 0) with false. cbv iota.
  change (Z.to_nat (3 - 1)) with 2%nat. rewrite Hp.
  destruct (buf_write_defined b (strlen u) (hex_pair c ++ [0])) as [b1 Hw];
    [unfold strlen; lia|unfold strlen; rewrite length_app, H2; simpl; lia|].
  rewrite Hw. ret_simpl.
  assert (Hh1 : holds b1 0 (u ++ hex_pair c)).
  { eapply (write_holds _ (strlen u)); [|reflexivity|exact Hw].
    unfold strlen. rewrite Nat2Z.id. by apply holds_take. }
  assert (Hlen : length (u ++ hex_pair c) = (length u + 2)%nat) by (rewrite length_app; lia).
  destruct (IH n (u ++ hex_pair c) b1 Hh1) as (b' & Hr & Hh' & Hc').
  - rewrite Hlen, (buf_write_length _ _ _ _ Hw). lia.
  - rewrite Hlen. replace (length u + 2)%nat with (length u + 1 * 2)%nat by lia.
    by rewrite Nat.Div0.mod_add.
  - by apply cstring_app.
  - rewrite Hlen in Hr. replace (length u + 2)%nat with (length u + 1 * 2)%nat in Hr by lia.
    rewrite Nat.div_add in Hr by done.
    replace (Z.of_nat (length u / 2) + 1) with (Z.of_nat (length u / 2 + 1)) by lia.
    exists b'. simpl. rewrite <- app_assoc in Hh', Hc'. done.
Qed.

(** The SSID and the key of [wps_reg] and [wps_er_config] are sent as
    the hexadecimal digits of at most [n] characters; a character above 127
    becomes "ff", whatever it is. *)
Theorem hex_text_digits n t :
  Forall (λ c, 0 ≤ c < 256) t →
  hex_text n t = Ret (concat (map hex_pair (take n t))).
Proof.
  intros Ht. unfold hex_text. set (b := uninit (2 * Z.of_nat n + 1)).
  assert (Hb : length b = (2 * n + 1)%nat)
    by (unfold b, uninit; rewrite length_replicate; lia).
  destruct (buf_set_defined b 0 0) as [b1 Hs]; [lia|]. rewrite Hs. ret_simpl.
  assert (Hh : holds b1 0 []).
  { apply buf_set_Ret in Hs as [_ ->]. split; [done|]. destruct b as [|x b2]; [simpl in Hb; lia|].
    by exists b2. }
  destruct (hex_loop_spec n t [] b1 Ht Hh) as (b' & Hr & Hh' & Hc').
  - apply buf_set_Ret in Hs as [_ ->]. rewrite length_insert, Hb. simpl. lia.
  - done.
  - constructor.
  - simpl in *. change (Z.of_nat 0) with 0 in Hr. rewrite Hr. ret_simpl. by apply holds_str.
Qed.

Lemma hex_text_digits_witness :
  hex_text 32 (lit "caf" ++ [195; 169]) = Ret (lit "636166ffff").
Proof.
  rewrite (hex_text_digits 32 (lit "caf" ++ [195; 169])); [reflexivity|].
  apply (bool_decide_unpack _). by vm_compute.
Defined.

(** ** The completion lists *)

Definition lists_ok (c : cli) : Prop :=
  NoDup (bsses c) ∧ NoDup (p2p_peers c) ∧ NoDup (p2p_groups c).

(** Only the lists that events keep have changed. *)
Definition only_lists (c c' : cli) : Prop :=
  c' = c {{ bsses := bsses c' }} {{ p2p_peers := p2p_peers c' }}
         {{ p2p_groups := p2p_groups c' }}.

Section Lists.
Context {E : Type} `{OS E}.
Local Abbreviation World := (World E cli).

Lemma only_lists_refl c : only_lists c c.
Proof. by destruct c. Qed.

Lemma add_addr_spec l t (w : World) :
  NoDup l → wp (cli_txt_list_add_addr l t) (λ '(_, l') w', w_usr w' = w_usr w ∧ NoDup l') w.
Proof.
  intros Hn. unfold cli_txt_list_add_addr. destruct (hwaddr_aton t); [|by apply wp_ret].
  eapply wp_mono; [by apply txt_list_add_spec|]. by intros [r l'] w' (? & ? & _).
Qed.

Lemma add_word_NoDup l t c (w : World) :
  NoDup l → wp (cli_txt_list_add_word l t c) (λ '(_, l') w', w_usr w' = w_usr w ∧ NoDup l') w.
Proof.
  intros Hn. unfold cli_txt_list_add_word. do 2 run_step. destruct (negb _); [by run_step|].
  eapply wp_mono; [by apply txt_list_add_spec|]. by intros [r' l'] w' (Hu & ? & _).
Qed.

Lemma del_word_NoDup l t c (w : World) :
  NoDup l → wp (cli_txt_list_del_word l t c) (λ l' w', w_usr w' = w_usr w ∧ NoDup l') w.
Proof.
  intros Hn. unfold cli_txt_list_del_word. do 2 run_step. run_step. split; [done|].
  destruct (negb _); [by apply cli_txt_list_del_NoDup|done].
Qed.

Lemma del_addr_NoDup l t : NoDup l → NoDup (cli_txt_list_del_addr l t).
Proof.
  intros Hn. unfold cli_txt_list_del_addr. destruct (hwaddr_aton t); [|done].
  by apply cli_txt_list_del_NoDup.
Qed.

(** An event of the daemon leaves the lists of networks in range, of
    peers and of groups free of duplicates and changes nothing else. *)
Theorem cli_event_keeps_sets cfg event (w : World) :
  lists_ok (w_usr w) →
  wp (cli_event cfg event) (λ _ w', lists_ok (w_usr w') ∧ only_lists (w_usr w) (w_usr w')) w.
Proof.
  intros (Hb & Hp & Hg). unfold cli_event.
  assert (Hsame : wp (mret tt) (λ _ w', lists_ok (w_usr w') ∧ only_lists (w_usr w) (w_usr w')) w)
    by (apply wp_ret; split; [done|apply only_lists_refl]).
  destruct (strchr event GT) as [i|]; [|done].
  run_step; [destruct (after_two_spaces _) as [t|]; [|done]|].
  { do 3 cli_step. eapply wp_mono; [by apply txt_list_add_spec|].
    intros [r l'] w1 (Hu & Hn & _). cli_step. cbn [w_usr]. rewrite Hu.
    split; [done|]. by destruct (w_usr w). }
  run_step; [destruct (after_two_spaces _) as [t|]; [|done]|].
  { cli_step. cbn [w_usr]. split; [|by destruct (w_usr w)].
    split_and!; [by apply del_addr_NoDup|done|done]. }
  run_step; [done|]. run_step; [destruct (after_dev_addr _) as [t|]; [|done]|].
  { do 3 cli_step. eapply wp_mono; [by apply add_addr_spec|]. intros [r l'] w1 [Hu Hn].
    cli_step. cbn [w_usr]. rewrite Hu. split; [done|]. by destruct (w_usr w). }
  run_step; [destruct (after_dev_addr _) as [t|]; [|done]|].
  { cli_step. cbn [w_usr]. split; [|by destruct (w_usr w)].
    split_and!; [done|by apply del_addr_NoDup|done]. }
  run_step; [destruct (strchr _ SP) as [j|]; [|done]|].
  { do 3 cli_step. eapply wp_mono; [by apply add_word_NoDup|]. intros [r l'] w1 [Hu Hn].
    cli_step. cbn [w_usr]. rewrite Hu. split; [done|]. by destruct (w_usr w). }
  run_step; [destruct (strchr _ SP) as [j|]; [|done]|done].
  do 3 cli_step. eapply wp_mono; [by apply del_word_NoDup|]. intros l' w1 [Hu Hn].
  cli_step. cbn [w_usr]. rewrite Hu. split; [done|]. by destruct (w_usr w).
Qed.
End Lists.

Lemma cli_event_keeps_sets_witness :
  wp (@cli_event unit null_OS all_on (lit "<3>P2P-GROUP-STARTED p2p0 GO"))
    (λ _ w', lists_ok (w_usr w') ∧ only_lists cli_init (w_usr w')) (mkWorld tt [] 0 cli_init).
Proof. apply (@cli_event_keeps_sets unit null_OS). split_and!; constructor. Defined.
