(* ===== verification/WifiOper.v ===== *)
(** * Wi-Fi operations on top of the library (wpa_cli_oper/wpa_cli_oper.c)

    The operations are written against an interface [WpaCli]: a function that
    executes a command line, which [wpa_cli_execute] implements.  Scan items
    live in a heap of their own, in the order of their allocation; the list
    holds pointers to them.  The stack arrays are buffers of the sizes of the
    source, so what they cannot hold is undefined behaviour. *)

From S2P Require Import Prelude CString Smartlist Scan Io WpaCtrl CliUtil CliCore CliLists.
From S2P Require Import CliTable CliEvents CliApi CliDispatch CliSafety CliLifecycle CliDaemon.

(** What the operations call. *)
Class WpaCli (E U : Type) := execute_cmd : str → buf → Z → M E U (Z * buf).

Record WifiScanItem := Item {
  bssid : buf;
  frequency : Z;
  signal_level : Z;
  flags : buf;
  ssid : buf;
}.

(** [password] is declared as a single character. *)
Record WifiConfig := Config_ {
  c_ssid : str;
  c_password : Z;
  c_flag : Z;
}.

(** A character passed where a string is expected. *)
Definition char_ptr (c : Z) : cptr := if c =? 0 then Null else Dangling.

Section Oper.
Context {E U : Type} `{OS E} `{WpaCli E U}.
Local Abbreviation M := (M E U).

Definition get_wifi_config (config : WifiConfig) : M Z := mret (-1).

Definition get_connected_wifi_list : M (option smartlist) := mret None.

Definition rows : list buf := replicate 5 (zeros 256).

(** [strcpy(fields[field_count], p)]: a sixth field, or one of 256 bytes,
    does not fit. *)
Definition set_field (fields : list buf) (field_count : nat) (p : str) : outcome (list buf) :=
  row ← need "write past the rows of fields" (fields !! field_count);
  row' ← strcpy row 0 p;
  Ret (<[field_count := row']> fields).

Fixpoint field_loop (n : nat) (rest : str) (fields : list buf) (field_count : nat)
    : outcome (list buf * nat) :=
  match n with
  | O => OutOfFuel
  | S n' =>
      match strtok_r [TAB] rest with
      | (None, _) => Ret (fields, field_count)
      | (Some p, rest') =>
          fields' ← set_field fields field_count p;
          field_loop n' rest' fields' (S field_count)
      end
  end.

(** The text of a row. *)
Definition field (fields : list buf) (i : nat) : outcome str :=
  row ← need "read past the rows of fields" (fields !! i); buf_str row 0.

Definition fill_item (fields : list buf) : outcome WifiScanItem :=
  f0 ← field fields 0; b ← strcpy (zeros 18) 0 f0;
  f1 ← field fields 1;
  f2 ← field fields 2;
  f3 ← field fields 3; fl ← strcpy (zeros 256) 0 f3;
  f4 ← field fields 4; s ← strcpy (zeros 256) 0 f4;
  Ret (Item b (atoi f1) (atoi f2) fl s).

Definition get_wifi_scan_item_from_line (line : str) : M (option WifiScanItem) :=
  a ← alloc (strlen line + 1);
  _ ← lift (need "memset of NULL" (if (a : bool) then Some tt else None));
  '(fields, field_count) ← lift (field_loop (S (length line)) line rows 0);
  if (field_count =? 5)%nat then
    a ← alloc 540;
    if negb a then mret None
    else item ← lift (fill_item fields); mret (Some item)
  else mret None.

(** The address of the [k]-th item. *)
Definition item_ptr (k : nat) : Z := 4096 + 540 * Z.of_nat k.

Fixpoint line_loop (n : nat) (rest : str) (items : list WifiScanItem) (scan_results : smartlist)
    : M (list WifiScanItem * smartlist) :=
  match n with
  | O => λ _, OutOfFuel
  | S n' =>
      match strtok_r [NL] rest with
      | (None, _) => mret (items, scan_results)
      | (Some p, rest') =>
          item ← get_wifi_scan_item_from_line p;
          match item with
          | Some it =>
              sl ← lift (smartlist_add scan_results (item_ptr (length items)));
              line_loop n' rest' (items ++ [it]) sl
          | None => line_loop n' rest' items scan_results
          end
      end
  end.

Definition starts_with_ok (s : str) : bool := strncasecmp_eq s (lit "OK") 2.

Definition get_wifi_scan_results : M (option (list WifiScanItem * smartlist)) :=
  '(r, b) ← execute_cmd (lit "scan") (zeros 4096) 4096;
  if r <? 0 then mret None
  else
    s ← lift (buf_str b 0);
    if negb (starts_with_ok s) then mret None
    else
      '(r, b) ← execute_cmd (lit "scan_results") (zeros 4096) 4096;
      if r <? 0 then mret None
      else
        s ← lift (buf_str b 0);
        l ← line_loop (S (length s)) s [] smartlist_new;
        mret (Some l).

Definition wpa_cli_comm_exec (cmd : str) : M Z :=
  '(r, b) ← execute_cmd cmd (zeros 256) 256;
  if r <? 0 then mret (-1)
  else
    s ← lift (buf_str b 0);
    if negb (starts_with_ok s) then mret (-1) else mret 0.

(** The result and [network_id] afterwards. *)
Definition add_network (network_id : buf) : M (Z * buf) :=
  '(r, b) ← execute_cmd (lit "add_network") (zeros 256) 256;
  if r <? 0 then mret (-1, network_id)
  else
    s ← lift (buf_str b 0);
    id ← lift (strcpy network_id 0 s);
    mret (0, id).

(** [snprintf] of a command into 256 bytes and its execution. *)
Definition run_formatted (txt : str) : M Z :=
  '(_, b) ← lift (snprintf (zeros 256) 0 256 txt);
  cmd ← lift (buf_str b 0);
  wpa_cli_comm_exec cmd.

Definition set_ssid (network_id ssid : str) : M Z :=
  run_formatted (lit "set_network " ++ network_id ++ lit " ssid " ++ ssid).

(** The format of case 1 has two conversions and one argument: the password
    is taken for the identifier. *)
Definition set_password (network_id : str) (flag : Z) (password : cptr) : M Z :=
  if flag =? 0 then
    r ← run_formatted (lit "set_network " ++ network_id ++ lit " key_mgmt NONE");
    if negb (r =? 0) then mret (-1)
    else
      p ← lift (deref password);
      run_formatted (lit "set_network " ++ network_id ++ lit " wep_key0 " ++ p)
  else if flag =? 1 then
    p ← lift (deref password);
    missing ← lift (need "conversion without an argument" (@None str));
    run_formatted (lit "set_network " ++ p ++ lit " psk " ++ missing)
  else mret (-1).

Definition enable_network (network_id : str) : M Z :=
  run_formatted (lit "enable_network " ++ network_id).
Definition disable_network (network_id : str) : M Z :=
  run_formatted (lit "disable_network " ++ network_id).
Definition remove_network (network_id : str) : M Z :=
  run_formatted (lit "remove_network " ++ network_id).

(** Behind the [do]: the network is removed again if it was added. *)
Definition undo_connect (network_id : buf) : M Z :=
  c ← lift (buf_get network_id 0);
  if negb (c =? 0) then
    id ← lift (buf_str network_id 0);
    disable_network id;; remove_network id;; mret (-1)
  else mret (-1).

Definition connect_wifi (config : WifiConfig) : M Z :=
  '(r, network_id) ← add_network (zeros 16);
  if negb (r =? 0) then undo_connect network_id
  else
    id ← lift (buf_str network_id 0);
    r ← set_ssid id (c_ssid config);
    if negb (r =? 0) then undo_connect network_id
    else
      r ← set_password id (c_flag config) (char_ptr (c_password config));
      if negb (r =? 0) then undo_connect network_id
      else
        r ← enable_network id;
        if negb (r =? 0) then undo_connect network_id else mret 0.

Definition disconnect_wifi (config : WifiConfig) : M Z := mret (-1).

Definition get_wifi_status : M Z := mret (-1).

End Oper.
