(* ===== verification/WifiSpec.v ===== *)
(** * What the Wi-Fi operations promise

    The scan parser against its specification by splitting, the scan of a
    whole neighbourhood through the library and the daemon, and the outcome of
    [connect_wifi]. *)

From S2P Require Import Prelude CString Smartlist Scan Io WpaCtrl CliUtil CliCore CliLists.
From S2P Require Import CliTable CliEvents CliApi CliDispatch CliSafety CliLifecycle CliDaemon.
From S2P Require Import CliNetworks CliActions WifiOper.

(** ** Tokens *)

Definition is_delim (d c : Z) : bool := c =? d.

(** The tokens of a text: the pieces between delimiters that are not empty. *)
Definition tokens_of (d : Z) (s : str) : list str := List.filter nonempty (split_on (is_delim d) s).

Lemma tokens_skip d s : tokens_of d (skip_delim [d] s) = tokens_of d s.
Proof.
  induction s as [|c s IH]; [done|]. simpl. unfold tokens_of, is_delim in *. simpl.
  destruct (c =? d) eqn:E; zbool.
  - subst. by rewrite bool_decide_eq_true_2 by (by left).
  - rewrite bool_decide_eq_false_2; [simpl; by rewrite (proj2 (Z.eqb_neq c d) E)|].
    rewrite list_elem_of_singleton. done.
Qed.

Lemma skip_delim_length d s : (length (skip_delim d s) ≤ length s)%nat.
Proof. induction s as [|c s IH]; simpl; [lia|]. destruct (bool_decide _); simpl; lia. Qed.

Lemma skip_delim_head d s c r : skip_delim [d] s = c :: r → c ≠ d.
Proof.
  induction s as [|x s IH]; [done|]. simpl. case_bool_decide as Hx; [exact IH|].
  intros [= -> _] ->. apply Hx. by left.
Qed.

Lemma take_token_split d s t r :
  take_token [d] s = (t, r) →
  (split_on (is_delim d) s = t :: split_on (is_delim d) r ∨
   split_on (is_delim d) s = [t] ∧ r = []) ∧ (length r ≤ length s)%nat.
Proof.
  revert t r. induction s as [|c s IH]; intros t r; cbn [take_token split_on].
  { intros [= <- <-]. split; [by right|done]. }
  change (is_delim d c) with (c =? d). case_bool_decide as Hc.
  - apply list_elem_of_singleton in Hc as ->. rewrite Z.eqb_refl. intros [= <- <-].
    split; [by left|simpl; lia].
  - rewrite (proj2 (Z.eqb_neq c d)) by (intros ->; apply Hc; by left).
    destruct (take_token [d] s) as [t' r'] eqn:Et. intros [= <- <-].
    destruct (IH _ _ eq_refl) as [Hsp Hl]. split; [|simpl; lia].
    destruct Hsp as [->|[-> ->]]; [by left|by right].
Qed.

(** [strtok_r] delivers the tokens one after the other. *)
Lemma strtok_spec d s :
  match strtok_r [d] s with
  | (None, _) => tokens_of d s = []
  | (Some t, r) => tokens_of d s = t :: tokens_of d r ∧ (length r < length s)%nat
  end.
Proof.
  unfold strtok_r. rewrite <- (tokens_skip d s).
  pose proof (skip_delim_length [d] s) as Hl.
  destruct (skip_delim [d] s) as [|c s'] eqn:Es; [done|].
  pose proof (skip_delim_head _ _ _ _ Es) as Hc. cbn [take_token].
  rewrite bool_decide_eq_false_2 by (rewrite list_elem_of_singleton; done).
  destruct (take_token [d] s') as [t r] eqn:Et.
  destruct (take_token_split d (c :: s') (c :: t) r) as [Hsp Hlr].
  { cbn [take_token]. rewrite bool_decide_eq_false_2 by (rewrite list_elem_of_singleton; done).
    by rewrite Et. }
  destruct (take_token_split d s' t r Et) as [_ Hlr'].
  split; [|simpl in Hl; lia]. unfold tokens_of.
  by destruct Hsp as [->|[-> ->]].
Qed.

(** ** A line of the scan results *)

Definition fields_of (line : str) : list str := tokens_of TAB line.

(** The first rows hold the fields read so far. *)
Definition rows_hold (rs : list buf) (fs : list str) : Prop :=
  length rs = 5%nat ∧ (∀ i f, fs !! i = Some f → ∃ r, rs !! i = Some r ∧ holds r 0 f) ∧
  Forall (λ r : buf, length r = 256%nat) rs.

Lemma set_field_spec rs fs f :
  rows_hold rs fs → (length fs < 5)%nat → strlen f < 256 →
  ∃ rs', set_field rs (length fs) f = Ret rs' ∧ rows_hold rs' (fs ++ [f]).
Proof.
  intros (Hl & Hh & Hr) Hn Hf. unfold set_field.
  destruct (lookup_lt_is_Some_2 rs (length fs) ltac:(lia)) as [row Hrow]. rewrite Hrow. ret_simpl.
  assert (Hrl : length row = 256%nat) by exact (Forall_lookup_1 _ _ _ _ Hr Hrow).
  unfold strcpy. destruct (buf_write_defined row 0 (f ++ [0])) as [row' Hw]; [lia| |].
  { unfold strlen in *. rewrite length_app, Hrl. simpl. lia. }
  rewrite Hw. ret_simpl. eexists. split; [done|]. split_and!.
  - by rewrite length_insert.
  - intros i x Hi. apply lookup_app_Some in Hi as [Hi|[Hge Hi]].
    + pose proof (lookup_lt_Some _ _ _ Hi). destruct (Hh i x Hi) as (r & Hri & Hrh).
      exists r. split; [|done]. by rewrite list_lookup_insert_ne by lia.
    + destruct (i - length fs)%nat as [|k] eqn:Ek; [|done]. injection Hi as <-.
      assert (i = length fs) as -> by lia. exists row'.
      split; [by apply list_lookup_insert_eq; lia|].
      apply buf_write_Ret in Hw as (_ & _ & ->). split; [done|]. rewrite drop_0. by eexists.
  - apply Forall_insert; [done|]. by rewrite (buf_write_length _ _ _ _ Hw).
Qed.

Lemma field_loop_spec n line rs fs :
  rows_hold rs fs → (length line < n)%nat → (length fs ≤ 5)%nat →
  Forall (λ f, strlen f < 256) (fields_of line) →
  if (length (fs ++ fields_of line) <=? 5)%nat then
    ∃ rs', field_loop n line rs (length fs) = Ret (rs', length (fs ++ fields_of line)) ∧
      rows_hold rs' (fs ++ fields_of line)
  else is_ub (field_loop n line rs (length fs)) = true.
Proof.
  revert line rs fs. induction n as [|n IH]; intros line rs fs Hr Hn Hl Hf; [lia|].
  cbn [field_loop]. pose proof (strtok_spec TAB line) as Hs. fold (fields_of line) in *.
  destruct (strtok_r [TAB] line) as [[p|] rest].
  - destruct Hs as [Hs Hlen]. fold (fields_of rest) in Hs. unfold fields_of in *.
    rewrite Hs in Hf |- *. apply Forall_cons in Hf as [Hp Hf].
    destruct (decide (length fs = 5%nat)) as [H5|H5].
    + rewrite (proj2 (Nat.leb_gt _ 5)) by (rewrite length_app; simpl; lia).
      unfold set_field. rewrite lookup_ge_None_2; [done|]. destruct Hr. lia.
    + destruct (set_field_spec rs fs p Hr) as (rs' & Hset & Hr'); [lia|done|].
      rewrite Hset. ret_simpl. specialize (IH rest rs' (fs ++ [p]) Hr' ltac:(lia)).
      rewrite length_app, Nat.add_1_r, <- app_assoc in IH. apply IH; [lia|done].
  - rewrite Hs, app_nil_r. rewrite (proj2 (Nat.leb_le _ 5)) by done. eauto.
Qed.

Definition item_of (line : str) (it : WifiScanItem) : Prop :=
  ∃ f0 f1 f2 f3 f4, fields_of line = [f0; f1; f2; f3; f4] ∧
    holds (bssid it) 0 f0 ∧ frequency it = atoi f1 ∧ signal_level it = atoi f2 ∧
    holds (flags it) 0 f3 ∧ holds (ssid it) 0 f4.

(** A line whose fields fit the arrays of the parser and of the item. *)
Record line_ok (line : str) : Prop := {
  lo_string : cstring line;
  lo_short : Forall (λ f, strlen f < 256) (fields_of line);
  lo_five : (length (fields_of line) ≤ 5)%nat;
  lo_bssid : ∀ f0, head (fields_of line) = Some f0 →
    length (fields_of line) = 5%nat → strlen f0 < 18;
}.

Lemma tokens_cstring d s : cstring s → Forall cstring (tokens_of d s).
Proof.
  intros Hs%(split_on_cstring (is_delim d)). unfold tokens_of.
  rewrite List.Forall_forall in *. intros x [Hx _]%filter_In. by apply Hs.
Qed.

Lemma field_spec rs fs i f :
  rows_hold rs fs → fs !! i = Some f → cstring f → field rs i = Ret f.
Proof.
  intros (_ & Hh & _) Hi Hf. destruct (Hh i f Hi) as (r & Hr & Hrh).
  unfold field. rewrite Hr. ret_simpl. by apply holds_str.
Qed.

Lemma strcpy_zeros n f :
  strlen f < n → ∃ b, strcpy (zeros n) 0 f = Ret b ∧ holds b 0 f.
Proof.
  intros Hf. unfold strcpy. destruct (buf_write_defined (zeros n) 0 (f ++ [0])) as [b Hw]; [lia| |].
  { unfold zeros, strlen in *. rewrite length_app, length_replicate. simpl. lia. }
  exists b. split; [done|]. apply buf_write_Ret in Hw as (_ & _ & ->). split; [done|].
  rewrite drop_0. by eexists.
Qed.

Lemma rows_empty : rows_hold rows [].
Proof. split_and!; [done|done|]. by repeat constructor. Qed.

Section Line.
Context {E U : Type} `{Heap E}.
Local Abbreviation World := (Io.World E U).

Lemma line_parsed line (w : World) :
  line_ok line →
  wp (get_wifi_scan_item_from_line line) (λ r w', w_usr w' = w_usr w ∧
    adds w w' (λ tr, sends tr = []) ∧
    match r with
    | Some it => item_of line it
    | None => length (fields_of line) ≠ 5%nat
    end) w.
Proof.
  intros [Hc Hs H5 Hb]. unfold get_wifi_scan_item_from_line. run_step.
  apply alloc_ok. intros r0 e0. eapply wp_lift_bind; [reflexivity|].
  pose proof (field_loop_spec (S (length line)) line rows [] rows_empty ltac:(lia)
    ltac:(simpl; lia) Hs) as Hloop. simpl app in Hloop. simpl (length []) in Hloop.
  rewrite (proj2 (Nat.leb_le _ 5)) in Hloop by done. destruct Hloop as (rs & Hrun & Hrows).
  eapply wp_lift_bind; [exact Hrun|]. cbv beta iota.
  destruct (length (fields_of line) =? 5)%nat eqn:E5;
    [apply Nat.eqb_eq in E5|apply Nat.eqb_neq in E5; run_step; split_and!; [done|by adds_run|done]].
  run_step. apply alloc_ok. intros r1 e1. cbn [negb].
  pose proof (tokens_cstring TAB line Hc) as Hcs. fold (fields_of line) in Hcs.
  destruct (fields_of line) as [|f0 [|f1 [|f2 [|f3 [|f4 [|]]]]]] eqn:Ef; simplify_eq/=.
  specialize (Hb f0 eq_refl eq_refl). rewrite !Forall_cons in Hs, Hcs.
  destruct Hs as (_ & _ & _ & Hs3 & Hs4 & _), Hcs as (Hc0 & Hc1 & Hc2 & Hc3 & Hc4 & _).
  destruct (strcpy_zeros 18 f0 Hb) as (b0 & Hw0 & Hh0).
  destruct (strcpy_zeros 256 f3 Hs3) as (b3 & Hw3 & Hh3).
  destruct (strcpy_zeros 256 f4 Hs4) as (b4 & Hw4 & Hh4).
  eapply wp_lift_bind.
  { unfold fill_item.
    rewrite (field_spec rs _ 0 f0 Hrows eq_refl Hc0). ret_simpl. rewrite Hw0. ret_simpl.
    rewrite (field_spec rs _ 1 f1 Hrows eq_refl Hc1). ret_simpl.
    rewrite (field_spec rs _ 2 f2 Hrows eq_refl Hc2). ret_simpl.
    rewrite (field_spec rs _ 3 f3 Hrows eq_refl Hc3). ret_simpl. rewrite Hw3. ret_simpl.
    rewrite (field_spec rs _ 4 f4 Hrows eq_refl Hc4). ret_simpl. rewrite Hw4. ret_simpl.
    reflexivity. }
  run_step. split_and!; [done|by adds_run|]. by exists f0, f1, f2, f3, f4.
Qed.

(** A line of the scan results whose fields fit is parsed into an item
    exactly when it has five fields, and the item holds them: the address, the
    frequency and the signal level as numbers, the flags and the name. *)
Theorem scan_line_parsed line (w : World) :
  line_ok line →
  wp (get_wifi_scan_item_from_line line) (λ r w', w_usr w' = w_usr w ∧
    match r with
    | Some it => item_of line it
    | None => length (fields_of line) ≠ 5%nat
    end) w.
Proof.
  intros Hok. eapply wp_mono; [by apply line_parsed|]. by intros r w' (Hu & _ & Hr).
Qed.

(** A line with a sixth field is written behind the rows of the parser. *)
Theorem scan_line_overflows line (w : World) :
  Forall (λ f, strlen f < 256) (fields_of line) → (5 < length (fields_of line))%nat →
  is_ub (get_wifi_scan_item_from_line line w) = true.
Proof.
  intros Hs H6. unfold get_wifi_scan_item_from_line. rewrite run_bind.
  destruct (proj1 (wp_run _ _ _) (alloc_ok (strlen line + 1) (λ b w1, b = true) w
    (λ _ _, eq_refl))) as (b & w1 & Hrun & ->). rewrite Hrun, run_bind. unfold lift at 1. ret_simpl.
  rewrite run_bind. unfold lift at 1.
  pose proof (field_loop_spec (S (length line)) line rows [] rows_empty ltac:(lia)
    ltac:(simpl; lia) Hs) as Hloop. simpl app in Hloop. simpl (length []) in Hloop.
  rewrite (proj2 (Nat.leb_gt _ 5)) in Hloop by done.
  by destruct (field_loop _ _ _ _).
Qed.
End Line.

(** ** A whole scan *)

Definition five_fields (l : list str) : list str :=
  List.filter (λ x, (length (fields_of x) =? 5)%nat) l.

(** The list of scan results points to the items, in their order. *)
Definition points_to (sl : smartlist) (items : list WifiScanItem) : Prop :=
  repr sl (map item_ptr (seq 0 (length items))).

Section Loop.
Context {E U : Type} `{Heap E}.
Local Abbreviation World := (Io.World E U).

Lemma line_loop_spec n rest items sl (w : World) :
  Forall line_ok (tokens_of NL rest) → (length rest < n)%nat → points_to sl items →
  Z.of_nat (length items) + strlen rest < 1073741824 →
  wp (line_loop n rest items sl) (λ '(items', sl') w', w_usr w' = w_usr w ∧
    adds w w' (λ tr, sends tr = []) ∧ points_to sl' items' ∧
    ∃ new, items' = items ++ new ∧ Forall2 item_of (five_fields (tokens_of NL rest)) new) w.
Proof.
  revert rest items sl w. induction n as [|n IH]; intros rest items sl w Hok Hn Hsl Hb; [lia|].
  cbn [line_loop]. pose proof (strtok_spec NL rest) as Hs.
  destruct (strtok_r [NL] rest) as [[p|] rest'].
  - destruct Hs as [Hs Hlen]. rewrite Hs in Hok |- *. apply Forall_cons in Hok as [Hp Hok].
    assert (Hb' : strlen rest' + 1 ≤ strlen rest) by (unfold strlen; lia).
    run_step. eapply wp_mono; [by apply line_parsed|]. intros r w1 (Hu & Ha1 & Hr).
    cbn [five_fields List.filter]. destruct r as [it|].
    + destruct (repr_add sl _ (item_ptr (length items)) Hsl) as (sl' & Ha & Hr' & _).
      { unfold strlen in *. rewrite length_map, length_seq. lia. }
      eapply wp_lift_bind; [exact Ha|].
      eapply wp_mono; [apply (IH rest' (items ++ [it]) sl'); [done|lia| |]|].
      * unfold points_to. rewrite length_app, seq_app, map_app. exact Hr'.
      * rewrite length_app. simpl. lia.
      * intros [items' sl2] w2 (Hu2 & Ha2 & Hp2 & new & -> & Hf).
        split_and!; [congruence|by eapply (no_sends_trans _ _ _ (λ l, l = []))|done|].
        exists (it :: new). rewrite <- app_assoc. split; [done|].
        destruct Hr as (f0 & f1 & f2 & f3 & f4 & He & Hrest). rewrite He. simpl.
        constructor; [|done]. by exists f0, f1, f2, f3, f4.
    + rewrite (proj2 (Nat.eqb_neq _ 5) Hr).
      eapply wp_mono; [apply (IH rest' items sl); [done|lia|done|lia]|].
      intros [items' sl2] w2 (Hu2 & Ha2 & Hp2 & Hnew).
      split_and!; [congruence|by eapply (no_sends_trans _ _ _ (λ l, l = []))|done|done].
  - rewrite Hs. run_step. split_and!; [done|by apply adds_refl|done|]. exists []. rewrite app_nil_r. by split.
Qed.
End Loop.

(** The library as the implementation of the interface. *)
Definition lib_WpaCli {E} `{OS E} (fuel : nat) (cfg : config) : WpaCli E cli :=
  wpa_cli_execute fuel cfg.

Section Scan.
Context {E : Type} `{Daemon E} `{!Heap E} (k : nat) (cfg : config).
Local Abbreviation World := (Io.World E cli).
Local Abbreviation fuel := (S k).

#[local] Instance lib : WpaCli E cli := lib_WpaCli fuel cfg.

Ltac find_entry :=
  match goal with
  | |- Exists _ (_ ++ _) => simple apply (proj2 (Exists_app _ _ _)); first [left; find_entry|right; find_entry]
  | |- Exists _ (_ :: _) => first [simple apply Exists_cons_hd; reflexivity
                                  |simple apply Exists_cons_tl; find_entry]
  end.

Lemma scan_resolves name :
  name = lit "scan" ∨ name = lit "scan_results" →
  ∃ e, resolve (wpa_cli_commands fuel cfg) name = Some e ∧ e_cmd e = name.
Proof.
  intros Hname. assert (He : Exists (λ e, e_cmd e = name) (wpa_cli_commands fuel cfg)).
  { unfold wpa_cli_commands, commands_with, wpa_cli_commands_1, wpa_cli_commands_2.
    destruct Hname as [->| ->]; find_entry. }
  apply Exists_exists in He as (e & He & Hn). exists e. split; [|done].
  unfold resolve. rewrite (find_exact _ name e (names_NoDup fuel cfg) He); [done|].
  unfold exact. rewrite Hn. unfold strcasecmp_eq. by apply str_eqb_eq.
Qed.

(** One exchange of a session without interface prefix and backlog. *)
Lemma exchange cmd name text n reply (w : World) :
  g_wpa__cli_initialized (w_usr w) ≠ 0 → ctrl_conn (w_usr w) ≠ None → inbox (w_env w) = [] →
  cstring cmd → strlen cmd < 1024 → take 16 (words cmd) = [name] →
  length (words cmd) = 1%nat → 0 < Z.of_nat n ≤ INT_MAX →
  (∃ e, resolve (wpa_cli_commands fuel cfg) name = Some e ∧ wire (e_cmd e) [] = Some text) →
  serve (w_env w) text = [reply] → head reply ≠ Some 60 →
  wp (execute_cmd cmd (zeros (Z.of_nat n)) (Z.of_nat n)) (λ '(r, b') w',
    r = 0 ∧ holds b' 0 (take (Z.to_nat (Z.of_nat n - 1)) reply) ∧
    adds w w' (λ tr, sends tr = [text]) ∧ inbox (w_env w') = [] ∧
    g_wpa__cli_initialized (w_usr w') ≠ 0 ∧ ctrl_conn (w_usr w') ≠ None) w.
Proof.
  intros Hg Hc Hi Hcs Hlen Hws Hlw Hn (e & He & Hw) Hs Hr.
  eapply wp_mono.
  { apply (execute_delivers fuel cfg cmd _ _ name [] e text [] reply []); try done.
    - rewrite Hlw. by intros [? _].
    - unfold zeros. rewrite length_replicate. lia.
    - by rewrite Hws.
    - rewrite Hws. constructor; [done| |constructor|done|simpl; lia].
      simpl. by rewrite Hi, Hs. }
  intros [r b'] w' (Hr0 & Hh & _ & Ha & Hi' & Hu). rewrite Hws in Ha. simpl in Ha.
  split_and!; [done|done|exact Ha|done|rewrite Hu; exact Hg|rewrite Hu; exact Hc].
Qed.

Lemma requests name :
  name = lit "scan" ∨ name = lit "scan_results" →
  ∃ e, resolve (wpa_cli_commands fuel cfg) name = Some e ∧
    wire (e_cmd e) [] = Some (if bool_decide (name = lit "scan") then lit "SCAN"
                              else lit "SCAN_RESULTS").
Proof.
  intros Hn. destruct (scan_resolves name Hn) as (e & He & Hc). exists e. split; [done|].
  rewrite Hc. by destruct Hn as [->| ->].
Qed.

(** Both requests of a scan and the lines of the reply. *)
Lemma scan_run reply (w : World) :
  g_wpa__cli_initialized (w_usr w) ≠ 0 → ctrl_conn (w_usr w) ≠ None → inbox (w_env w) = [] →
  (∀ e, serve e (lit "SCAN") = [line "OK"]) →
  (∀ e, serve e (lit "SCAN_RESULTS") = [reply]) →
  cstring reply → strlen reply < 4096 → head reply ≠ Some 60 →
  Forall line_ok (tokens_of NL reply) →
  wp get_wifi_scan_results (λ r w', ∃ items sl, r = Some (items, sl) ∧
    Forall2 item_of (five_fields (tokens_of NL reply)) items ∧ points_to sl items ∧
    adds w w' (λ tr, sends tr = [lit "SCAN"; lit "SCAN_RESULTS"])) w.
Proof.
  intros Hg Hc Hi Hscan Hres Hcs Hlen Hr Hok. unfold get_wifi_scan_results. run_step.
  eapply wp_mono.
  { apply (exchange (lit "scan") (lit "scan") (lit "SCAN") 4096 (line "OK"));
      [done|done|done|by apply (bool_decide_unpack _)|done|done|done|done| |apply Hscan|done].
    apply (requests (lit "scan")). by left. }
  intros [r b] w1 (-> & Hh & Ha1 & Hi1 & Hg1 & Hc1). change (0 <? 0) with false. cbv iota.
  eapply wp_lift_bind; [eapply (holds_str _ _ (line "OK")); [|exact Hh]|].
  { by apply (bool_decide_unpack _). }
  change (starts_with_ok (line "OK")) with true. cbn [negb]. cbv iota.
  run_step. eapply wp_mono.
  { apply (exchange (lit "scan_results") (lit "scan_results") (lit "SCAN_RESULTS") 4096 reply);
      [done|done|done|by apply (bool_decide_unpack _)|done|done|done|done| |apply Hres|done].
    apply (requests (lit "scan_results")). by right. }
  intros [r b2] w2 (-> & Hh2 & Ha2 & _). change (0 <? 0) with false. cbv iota.
  rewrite take_ge in Hh2 by (unfold strlen in Hlen; simpl; lia).
  eapply wp_lift_bind; [by apply (holds_str _ _ _ Hcs Hh2)|]. run_step.
  eapply wp_mono; [apply (line_loop_spec _ reply [] smartlist_new); [done|lia|apply repr_new|]|].
  { simpl. unfold strlen in *. lia. }
  intros [items sl] w3 (_ & Ha3 & Hsl & new & -> & Hf). run_step. exists new, sl.
  split_and!; [done|done|exact Hsl|].
  eapply adds_trans; [exact Ha1|]. intros tr1 Ht1.
  eapply adds_trans; [exact Ha2|]. intros tr2 Ht2. destruct Ha3 as (tr3 & Hw3 & Ht3).
  exists tr3. by rewrite !sends_app, Ht1, Ht2, Ht3.
Qed.

(** C2: A scan through the whole stack: on an initialised library with no
    message waiting, whose daemon accepts the scan and answers the request for
    its results with a table of less than 4096 bytes of text, its lines with
    fields that fit ([line_ok]), [get_wifi_scan_results] makes exactly these two requests
    and returns the list of the lines with five fields, parsed, in the order of
    the table. *)
Theorem wifi_scan_end_to_end reply (w : World) :
  g_wpa__cli_initialized (w_usr w) ≠ 0 → ctrl_conn (w_usr w) ≠ None → inbox (w_env w) = [] →
  (∀ e, serve e (lit "SCAN") = [line "OK"]) →
  (∀ e, serve e (lit "SCAN_RESULTS") = [reply]) →
  cstring reply → strlen reply < 4096 → head reply ≠ Some 60 →
  Forall line_ok (tokens_of NL reply) →
  wp get_wifi_scan_results (λ r w', ∃ items sl, r = Some (items, sl) ∧
    Forall2 item_of (five_fields (tokens_of NL reply)) items ∧ points_to sl items ∧
    adds w w' (λ tr, sends tr = [lit "SCAN"; lit "SCAN_RESULTS"])) w.
Proof. apply scan_run. Qed.
End Scan.

(** ** Connecting *)

Section Connect.
Context {E U : Type} `{OS E} `{WpaCli E U}.
Local Abbreviation World := (Io.World E U).

(** If a run returns, what it returns satisfies [P]. *)
Definition returns {A} (m : M E U A) (P : A → Prop) : Prop :=
  ∀ w a w', m w = Ret (a, w') → P a.

Lemma returns_ret {A} (a : A) (P : A → Prop) : P a → returns (mret a) P.
Proof. by intros HP w b w' [= <- _]. Qed.

Lemma returns_bind {A B} (m : M E U A) (f : A → M E U B) (P : A → Prop) Q :
  returns m P → (∀ a, P a → returns (f a) Q) → returns (m ≫= f) Q.
Proof.
  intros Hm Hf w b w'. rewrite run_bind. destruct (m w) as [[a w1]| |] eqn:Em; try done.
  intros Hr. eapply Hf; [|exact Hr]. by eapply Hm.
Qed.

Lemma returns_any {A} (m : M E U A) : returns m (λ _, True).
Proof. done. Qed.

Lemma undo_fails network_id : returns (undo_connect network_id) (λ r, r = -1).
Proof.
  unfold undo_connect. eapply returns_bind; [apply returns_any|]. intros c _.
  destruct (negb _); [|by apply returns_ret].
  do 3 (eapply returns_bind; [apply returns_any|]; intros ? _). by apply returns_ret.
Qed.

Lemma deref_char c : returns (lift (deref (char_ptr c))) (λ _, False).
Proof. intros w a w'. unfold char_ptr. by destruct (c =? 0). Qed.

Lemma set_password_fails id flag c :
  returns (set_password id flag (char_ptr c)) (λ r, r = -1).
Proof.
  unfold set_password. destruct (flag =? 0); [|destruct (flag =? 1)].
  - eapply returns_bind; [apply returns_any|]. intros r _.
    destruct (negb _); [by apply returns_ret|].
    eapply returns_bind; [apply deref_char|]. by intros ? [].
  - eapply returns_bind; [apply deref_char|]. by intros ? [].
  - by apply returns_ret.
Qed.

(** C40: [connect_wifi] never reports success: the password of a configuration
    is a single character, so its use as a string is undefined, and networks
    without password are taken for an error. *)
Theorem connect_wifi_never_succeeds config : returns (connect_wifi config) (λ r, r = -1).
Proof.
  unfold connect_wifi. eapply returns_bind; [apply returns_any|]. intros [r id] _.
  destruct (negb _); [apply undo_fails|].
  eapply returns_bind; [apply returns_any|]. intros id' _.
  eapply returns_bind; [apply returns_any|]. intros r1 _.
  destruct (negb _); [apply undo_fails|].
  eapply returns_bind; [apply set_password_fails|]. intros r2 ->.
  change (negb (-1 =? 0)) with true. cbv iota. apply undo_fails.
Qed.
End Connect.

(** ** The contract of the interface *)

(** What a client may rely on: on a line that fits, in a good state, the call
    has defined behaviour, keeps the state good and the buffer at its size, and
    leaves the buffer alone or puts a string into it. *)
Class WpaCliOk (E U : Type) `{OS E} `{WpaCli E U} (good : U → Prop) :=
  execute_ok : ∀ cmd b w, line_fits cmd → 0 < Z.of_nat (length b) ≤ INT_MAX → good (w_usr w) →
    wlp (execute_cmd cmd b (Z.of_nat (length b))) (λ '(r, b') w',
      length b' = length b ∧ (b' = b ∨ terminated b') ∧ good (w_usr w')) w.

(** The library keeps the contract. *)
#[export] Instance lib_ok {E} `{OS E} (fuel : nat) (cfg : config) (short : Datagrams E 4096) :
  @WpaCliOk E cli _ (lib_WpaCli fuel cfg) lib_inv.
Proof.
  intros cmd b w (Hc & Hl & Hw) Hb Hg.
  eapply wlp_mono; [apply execute_safe; [done..|by destruct Hg]|].
  intros [r b'] w' (Hl' & Ht & Hu). split_and!; [done|done|]. rewrite Hu.
  destruct Hg. by constructor.
Qed.

Section Client.
Context {E U : Type} `{WpaCliOk E U good}.
Local Abbreviation World := (Io.World E U).

Lemma zeros_terminated n : 0 < n → terminated (zeros n).
Proof.
  intros Hn. exists 0%nat. split; [by intros i Hi; lia|]. unfold zeros.
  destruct (Z.to_nat n) eqn:E0; [lia|done].
Qed.

Lemma run_formatted_safe txt (w : World) :
  line_fits (take 255 txt) → good (w_usr w) →
  wlp (run_formatted txt) (λ r w', (r = 0 ∨ r = -1) ∧ good (w_usr w')) w.
Proof.
  intros Hl Hg. unfold run_formatted.
  destruct (snprintf_holds (zeros 256) 256 txt) as (r & b & Hs & Hh & _); [by vm_compute|].
  run_step. eapply wlp_lift_Ret; [exact Hs|]. cbv beta iota. run_step.
  eapply wlp_lift_Ret; [eapply holds_str; [|exact Hh]; by destruct Hl|].
  unfold wpa_cli_comm_exec. run_step.
  eapply wlp_mono; [apply (execute_ok _ (zeros 256)); [done|by vm_compute|done]|].
  intros [r1 b1] w1 (_ & Ht & Hg1). run_step; [run_step; by split; [right|]|].
  destruct (buf_str_terminated b1) as [t Hb1].
  { destruct Ht as [->|?]; [by apply zeros_terminated|done]. }
  run_step. eapply wlp_lift_Ret; [exact Hb1|].
  run_step; run_step; (split; [by (left + right)|done]).
Qed.

(** The operations on an existing network have defined behaviour and
    return 0 or -1, provided the library keeps its contract and the command
    they format, cut to 255 bytes, is a line that fits. *)
Theorem network_operations_safe id (w : World) :
  good (w_usr w) →
  Forall (λ txt, line_fits (take 255 txt))
    [lit "enable_network " ++ id; lit "disable_network " ++ id; lit "remove_network " ++ id] →
  wlp (r1 ← enable_network id; r2 ← disable_network id; r3 ← remove_network id;
       mret [r1; r2; r3])
    (λ rs w', Forall (λ r, r = 0 ∨ r = -1) rs ∧ good (w_usr w')) w.
Proof.
  intros Hg Hl. rewrite !Forall_cons in Hl. destruct Hl as (H1' & H2' & H3' & _).
  run_step. eapply wlp_mono; [by apply run_formatted_safe|]. intros r1 w1 [Hr1 Hg1].
  run_step. eapply wlp_mono; [by apply run_formatted_safe|]. intros r2 w2 [Hr2 Hg2].
  run_step. eapply wlp_mono; [by apply run_formatted_safe|]. intros r3 w3 [Hr3 Hg3].
  run_step. split; [by repeat (apply Forall_cons_2; [done|])|done].
Qed.
End Client.

(** ** Witnesses *)

Definition neighbour : str :=
  lit "50:fa:84:00:30:4e" ++ [TAB] ++ lit "2462" ++ [TAB] ++ lit "-63" ++ [TAB]
  ++ lit "[WPA2-PSK-CCMP][ESS]" ++ [TAB] ++ lit "OpenWrt".

Lemma line_ok_dec line :
  bool_decide (cstring line) && forallb (λ f, strlen f <? 256) (fields_of line)
  && (length (fields_of line) <=? 5)%nat
  && match fields_of line with
     | [f0; _; _; _; _] => strlen f0 <? 18
     | _ => true
     end = true →
  line_ok line.
Proof.
  rewrite !andb_true_iff, bool_decide_eq_true, forallb_forall, Nat.leb_le.
  intros [[[Hc Hs] H5] Hb]. constructor; [done| |done|].
  - rewrite List.Forall_forall. intros f Hf. by apply Z.ltb_lt, Hs.
  - intros f0 Hf Hl. destruct (fields_of line) as [|x [|? [|? [|? [|? [|]]]]]]; simplify_eq/=.
    by apply Z.ltb_lt.
Qed.

Lemma scan_line_parsed_witness :
  wp (@get_wifi_scan_item_from_line unit cli quiet_OS neighbour) (λ r w', w_usr w' = cli_init ∧
    match r with
    | Some it => item_of neighbour it
    | None => length (fields_of neighbour) ≠ 5%nat
    end) (mkWorld tt [] 0 cli_init).
Proof.
  apply (@scan_line_parsed unit cli quiet_OS quiet_Heap). apply line_ok_dec. by vm_compute.
Defined.

Lemma scan_line_overflows_witness :
  is_ub (@get_wifi_scan_item_from_line unit cli quiet_OS (neighbour ++ [TAB] ++ lit "x")
    (mkWorld tt [] 0 cli_init)) = true.
Proof.
  apply (@scan_line_overflows unit cli quiet_OS quiet_Heap).
  - by apply (bool_decide_unpack _).
  - apply Nat.ltb_lt. by vm_compute.
Defined.

(** A daemon with one network in range. *)
Definition neighbour_table : str :=
  line "bssid / frequency / signal level / flags / ssid" ++ neighbour ++ [NL].

Definition scans (d : list Z) : list (list Z) :=
  if bool_decide (d = lit "SCAN") then [line "OK"] else [neighbour_table].

Lemma wifi_scan_end_to_end_witness :
  five_fields (tokens_of NL neighbour_table) = [neighbour] ∧
  wp (@get_wifi_scan_results _ _ (daemon_OS scans) (@lib _ (daemon_OS scans) 0 shipped))
    (λ r w', ∃ items sl, r = Some (items, sl) ∧
      Forall2 item_of (five_fields (tokens_of NL neighbour_table)) items ∧ points_to sl items ∧
      adds (mkWorld [] [] 0 connected) w'
        (λ tr, sends tr = [lit "SCAN"; lit "SCAN_RESULTS"])) (mkWorld [] [] 0 connected).
Proof.
  split; [by vm_compute|].
  apply (@wifi_scan_end_to_end _ (daemon_OS scans) (daemon_Inbox scans) (daemon_Daemon scans)
    (daemon_Heap scans) 0 shipped neighbour_table).
  - done.
  - done.
  - reflexivity.
  - intros e. by vm_compute.
  - intros e. by vm_compute.
  - by apply (bool_decide_unpack _).
  - by vm_compute.
  - by vm_compute.
  - assert (Ht : tokens_of NL neighbour_table
      = [lit "bssid / frequency / signal level / flags / ssid"; neighbour]) by (by vm_compute).
    rewrite Ht. repeat apply Forall_cons_2; [apply line_ok_dec; by vm_compute..|].
    constructor.
Defined.

Lemma network_operations_safe_witness :
  wlp (E := unit) (U := cli)
    (let _ : OS unit := ok_OS in let _ : WpaCli unit cli := @lib_WpaCli _ ok_OS 5 shipped in
     r1 ← enable_network (lit "0"); r2 ← disable_network (lit "0"); r3 ← remove_network (lit "0");
     mret [r1; r2; r3])
    (λ rs w', Forall (λ r, r = 0 ∨ r = -1) rs ∧ lib_inv (w_usr w')) (mkWorld tt [] 0 connected).
Proof.
  apply (@network_operations_safe unit cli ok_OS (@lib_WpaCli _ ok_OS 5 shipped) lib_inv
    (@lib_ok unit ok_OS 5 shipped ok_Datagrams)).
  - apply connected_inv.
  - repeat constructor; try (by vm_compute); intros [Hw _]; vm_compute in Hw; discriminate.
Defined.
