(* ===== verification/ScanE2E.v ===== *)
(** * From the air to the caller: scan results of the daemon in the wrapper

    The table that the daemon prints (CtrlScan.v) is the text that the wrapper
    parses (WifiOper.v).  With the build of the repository every line fits the
    arrays of the wrapper, so the list it returns is the table; with all
    options of the daemon a beacon can make the flags too long for them. *)

From S2P Require Import Prelude CString Scan Smartlist CliUtil CliApi Common CommonLists CommonText.
From S2P Require Import Printable Printing WpaIe WpaCommon.
From S2P Require Import WpaSpec WpaText Bss CtrlScan CtrlScanSpec.
From S2P Require Import Io WpaCtrl CliCore CliLists CliTable CliDispatch CliSafety CliLifecycle.
From S2P Require Import CliDaemon CliNetworks CliActions.
From S2P Require Import WifiOper WifiSpec.

(** ** Tokens of printable text *)

Lemma printable_free s c : printable s → c < 32 → Forall (λ x, is_delim c x = false) s.
Proof.
  intros Hs Hc. eapply Forall_impl; [exact Hs|]. intros x Hx; cbv beta in Hx. apply Z.eqb_neq. lia.
Qed.

Lemma split_on_first p t c s :
  Forall (λ x, p x = false) t → p c = true → split_on p (t ++ c :: s) = t :: split_on p s.
Proof.
  intros Ht Hc. induction Ht as [|x t Hx _ IH]; cbn [app split_on]; [by rewrite Hc|].
  by rewrite Hx, IH.
Qed.

Lemma split_on_last p t : Forall (λ x, p x = false) t → split_on p t = [t].
Proof. induction 1 as [|x t Hx _ IH]; [done|]. cbn [split_on]. by rewrite Hx, IH. Qed.

Definition token (t : str) : list str := List.filter nonempty [t].

Lemma tokens_free d t s :
  Forall (λ x, is_delim d x = false) t → tokens_of d (t ++ d :: s) = token t ++ tokens_of d s.
Proof.
  intros Ht. unfold tokens_of. rewrite split_on_first; [|done|apply Z.eqb_refl].
  unfold token. cbn [List.filter]. by destruct (nonempty t).
Qed.

Lemma tokens_first d t s : printable t → d < 32 → tokens_of d (t ++ d :: s) = token t ++ tokens_of d s.
Proof. intros Ht Hd. apply tokens_free. by apply printable_free. Qed.

Lemma tokens_last d t : printable t → d < 32 → tokens_of d t = token t.
Proof. intros Ht Hd. unfold tokens_of. by rewrite split_on_last by (by apply printable_free). Qed.

(** ** A row of the table *)

Section row.
Context (cfg : build).

Definition flags_text (bss : wpa_bss) : str := line_elems cfg bss ++ concat (line_flags cfg bss).

Definition row (bss : wpa_bss) : str :=
  macstr (bss_bssid bss) ++ TAB :: fmt_d (bss_freq bss) ++ TAB :: fmt_d (bss_level bss)
    ++ TAB :: flags_text bss ++ TAB :: escaped (bss_ssid bss).

Lemma line_text_row bss : hidden bss = false → line_text cfg bss = row bss ++ [NL].
Proof.
  intros Hh. unfold line_text, row, flags_text, line_head, TAB_STR. rewrite Hh, concat_app.
  cbn [concat]. rewrite !app_nil_r.
  do 4 (rewrite <- ?app_assoc; cbn [app concat]). reflexivity.
Qed.

Lemma names_printable c l u delim :
  printable u → printable delim → Forall (λ e : Z * str, printable (snd e)) l →
  printable (names_text u c delim l).
Proof.
  intros Hu Hd Hl. revert u Hu. induction Hl as [|[x n] l Hn _ IH]; intros u Hu; cbn [names_text]; [done|].
  destruct (has c x); [|by apply IH]. apply IH. rewrite !printable_app. split_and!; [done| |done].
  destruct (str_eqb u []); [constructor|done].
Qed.

Lemma names_length c l u delim :
  strlen (names_text u c delim l) ≤
  strlen u + foldr (λ e n, strlen delim + strlen (snd e : str) + n) 0 l.
Proof.
  revert u. induction l as [|[x n] l IH]; intros u; cbn [names_text foldr snd]; [lia|].
  pose proof (strlen_nonneg delim). pose proof (strlen_nonneg n). case_if.
  - etrans; [apply IH|]. rewrite !strlen_app. destruct (str_eqb u []); [change (strlen []) with 0|]; lia.
  - etrans; [apply IH|]. lia.
Qed.

Lemma names_in_printable x : printable (concat (separated (lit "+") (names_in (key_mgmt_names cfg) x))).
Proof.
  assert (Hall : Forall (λ e : Z * str, printable (snd e)) (key_mgmt_names cfg)).
  { unfold key_mgmt_names. destruct cfg as [[] [] ? [] [] ? ?]; by apply (bool_decide_unpack _). }
  assert (Hn : Forall printable (names_in (key_mgmt_names cfg) x)).
  { apply Forall_fmap, Forall_forall. intros e [_ He]%list_elem_of_filter.
    rewrite Forall_forall in Hall. by apply Hall. }
  apply printable_concat. unfold separated. destruct Hn as [|t l Ht Hn]; [constructor|].
  constructor; [done|]. apply Forall_fmap. eapply Forall_impl; [exact Hn|]. intros s Hs.
  apply printable_app. split; [by apply (bool_decide_unpack _)|done].
Qed.

Lemma ie_text_printable proto ie len : printable proto → printable (ie_text cfg proto ie len).
Proof.
  intros Hp. unfold ie_text. rewrite !printable_app.
  split_and!; [by apply (bool_decide_unpack _)|done|by apply (bool_decide_unpack _)|].
  destruct (wpa_parse_wpa_ie cfg ie len) as [[r d]| |]; [|constructor..].
  case_if; [by apply (bool_decide_unpack _)|]. rewrite !printable_app. split_and!.
  - apply names_in_printable.
  - by apply (bool_decide_unpack _).
  - apply names_printable; [constructor|by apply (bool_decide_unpack _)|by apply (bool_decide_unpack _)].
  - case_if; by apply (bool_decide_unpack _).
  - by apply (bool_decide_unpack _).
Qed.

Lemma elem_text_printable bss proto p : printable proto → printable (elem_text cfg bss proto p).
Proof.
  intros Hp. unfold elem_text. destruct p as [p|]; [|constructor].
  destruct (u8_at _ _); [by apply ie_text_printable|constructor..].
Qed.

Lemma flags_printable bss : printable (flags_text bss).
Proof.
  unfold flags_text, line_elems. rewrite !printable_app. split_and!.
  1-3: apply elem_text_printable; try case_if; by apply (bool_decide_unpack _).
  unfold line_flags, flag_texts, dmg_name. apply printable_concat.
  repeat apply Forall_app_2; repeat case_if; by apply (bool_decide_unpack _).
Qed.

(** ** Lengths: the build of the repository *)

Definition names_sum (l : list (Z * str)) : Z := foldr (λ e n, strlen (snd e) + 1 + n) 0 l.

Lemma names_sum_nonneg l : 0 ≤ names_sum l.
Proof.
  induction l as [|e l IH]; [done|]. cbn [names_sum foldr]. fold (names_sum l).
  pose proof (strlen_nonneg (snd e)). lia.
Qed.

Lemma strlen_joined (ts : list str) :
  strlen (concat (fmap (λ t, lit "+" ++ t) ts)) = foldr (λ t n, strlen t + 1 + n) 0 ts.
Proof.
  induction ts as [|t ts IH]; [done|]. cbn [fmap list_fmap concat foldr] in *.
  rewrite !strlen_app, IH. change (strlen (lit "+")) with 1. lia.
Qed.

Lemma names_in_length l x : strlen (concat (separated (lit "+") (names_in l x))) ≤ names_sum l.
Proof.
  assert (Hsum : foldr (λ t n, strlen t + 1 + n) 0 (names_in l x) ≤ names_sum l).
  { unfold names_in. induction l as [|e l IH]; [done|]. cbn [names_sum foldr]. fold (names_sum l).
    rewrite filter_cons. pose proof (strlen_nonneg (snd e)). case_decide.
    - rewrite fmap_cons. cbn [foldr]. lia.
    - lia. }
  etrans; [|exact Hsum]. unfold separated. destruct (names_in l x) as [|t ts]; [done|].
  cbn [concat foldr]. rewrite strlen_app, strlen_joined. lia.
Qed.
End row.

Lemma ciphers_text_length c : strlen (ciphers_text c) ≤ 38.
Proof.
  etrans; [apply (names_length c written_ciphers [] (lit "+"))|]. by apply (bool_decide_unpack _).
Qed.

Lemma ie_text_length proto ie len :
  strlen (ie_text build_default proto ie len) ≤ strlen proto + 72.
Proof.
  unfold ie_text. rewrite !strlen_app. change (strlen (lit "[")) with 1. change (strlen (lit "-")) with 1.
  destruct (wpa_parse_wpa_ie build_default ie len) as [[r d]| |];
    [|change (strlen []) with 0; pose proof (strlen_nonneg proto); lia..].
  case_if; [change (strlen (lit "?]")) with 2; lia|]. rewrite !strlen_app.
  pose proof (names_in_length (key_mgmt_names build_default) (key_mgmt d)) as Hn.
  change (names_sum (key_mgmt_names build_default)) with 22 in Hn.
  pose proof (ciphers_text_length (pairwise_cipher d)).
  change (strlen (lit "-")) with 1. change (strlen (lit "]")) with 1.
  destruct (has (capabilities d) _);
    [change (strlen (lit "-preauth")) with 8|change (strlen []) with 0]; lia.
Qed.

Lemma elem_text_length bss proto p :
  strlen (elem_text build_default bss proto p) ≤ strlen proto + 72.
Proof.
  pose proof (strlen_nonneg proto). unfold elem_text. destruct p as [p|]; [|change (strlen []) with 0; lia].
  destruct (u8_at _ _); [apply ie_text_length|change (strlen []) with 0; lia..].
Qed.

Lemma line_flags_length bss : strlen (concat (line_flags build_default bss)) ≤ 27.
Proof.
  unfold line_flags, flag_texts, dmg_name. cbn [CONFIG_HS20 CONFIG_FST build_default andb].
  destruct (_ && _), (found (ie_of _ _)), (bss_is_dmg bss), (found (p2p_of _));
    repeat (case_if; [|]); repeat case_match; by apply (bool_decide_unpack _).
Qed.

Lemma flags_length bss : strlen (flags_text build_default bss) < 256.
Proof.
  unfold flags_text, line_elems. rewrite !strlen_app.
  pose proof (elem_text_length bss (lit "WPA") (vendor_of bss WPA_IE_VENDOR_TYPE)) as H1.
  pose proof (elem_text_length bss (lit "OSEN") (vendor_of bss OSEN_IE_VENDOR_TYPE)) as H3.
  pose proof (line_flags_length bss). change (strlen (lit "WPA")) with 3 in H1.
  change (strlen (lit "OSEN")) with 4 in H3.
  set (proto := if found (ie_of bss WLAN_EID_MESH_ID) then lit "RSN" else lit "WPA2").
  assert (Hp : strlen proto ≤ 4) by (unfold proto; case_if; by apply (bool_decide_unpack _)).
  pose proof (elem_text_length bss proto (ie_of bss WLAN_EID_RSN)). lia.
Qed.

(** ** The table and its lines *)

(** Entries whose line has a value for each of its five fields. *)
Definition listed (bss : wpa_bss) : bool :=
  negb (hidden bss) && nonempty (flags_text build_default bss) && nonempty (bss_ssid bss).

(** The fields of a row, whatever they are. *)
Definition fields_text (fs : list str) (last : str) : str :=
  foldr (λ f s, f ++ TAB :: s) last fs.

Lemma row_fields_text bss :
  row build_default bss =
  fields_text [macstr (bss_bssid bss); fmt_d (bss_freq bss); fmt_d (bss_level bss);
               flags_text build_default bss] (escaped (bss_ssid bss)).
Proof. reflexivity. Qed.

Lemma row_printable bss : bss_ok bss →
  Forall printable [macstr (bss_bssid bss); fmt_d (bss_freq bss); fmt_d (bss_level bss);
                    flags_text build_default bss; escaped (bss_ssid bss)].
Proof.
  intros [_ _ [Hl Hb] [_ Hs]]. repeat constructor.
  - by apply macstr_printable.
  - apply fmt_d_printable.
  - apply fmt_d_printable.
  - apply flags_printable.
  - by apply escaped_printable.
Qed.

Lemma fields_text_chars fs last :
  Forall printable (fs ++ [last]) → Forall (λ c, c = TAB ∨ 32 ≤ c < 127) (fields_text fs last).
Proof.
  assert (Hp : ∀ s, printable s → Forall (λ c, c = TAB ∨ 32 ≤ c < 127) s).
  { intros s Hs. eapply Forall_impl; [exact Hs|]. auto. }
  induction fs as [|f fs IH]; cbn [app fields_text foldr]; intros H.
  - apply Forall_cons in H as [H _]. by apply Hp.
  - apply Forall_cons in H as [Hf H]. apply Forall_app. split; [by apply Hp|].
    constructor; [by left|by apply IH].
Qed.

Lemma fields_text_tokens fs last :
  Forall printable (fs ++ [last]) → tokens_of TAB (fields_text fs last) = List.filter nonempty (fs ++ [last]).
Proof.
  induction fs as [|f fs IH]; cbn [app fields_text foldr]; intros [Hf H]%Forall_cons.
  - by apply tokens_last.
  - rewrite tokens_first by done. fold (fields_text fs last). rewrite IH by done.
    unfold token. cbn [List.filter]. by destruct (nonempty f).
Qed.

Lemma row_chars bss : bss_ok bss → Forall (λ c, c = TAB ∨ 32 ≤ c < 127) (row build_default bss).
Proof. intros Hb. rewrite row_fields_text. apply fields_text_chars. by apply row_printable. Qed.

Lemma nonempty_length (s : str) n : strlen s = n → 0 < n → nonempty s = true.
Proof. destruct s; [|done]. unfold strlen. simpl. lia. Qed.

Lemma escaped_nonempty s : byte_list s → nonempty (escaped s) = nonempty s.
Proof.
  destruct 1 as [|c s Hc Hs]; [done|]. rewrite escaped_cons.
  cut (nonempty (encoded c) = true); [by destruct (encoded c)|].
  revert c Hc. apply (forall_byte_reflect (λ c, nonempty (encoded c))). vm_compute. reflexivity.
Qed.

Lemma row_fields bss : bss_ok bss →
  fields_of (row build_default bss) =
  [macstr (bss_bssid bss); fmt_d (bss_freq bss); fmt_d (bss_level bss)]
  ++ List.filter nonempty [flags_text build_default bss; escaped (bss_ssid bss)].
Proof.
  intros Hb. unfold fields_of. rewrite row_fields_text, fields_text_tokens by (by apply row_printable).
  destruct Hb as [_ _ [Hl Hm] _]. destruct (macstr_printable _ Hl Hm) as [_ Hlen].
  cbn [app List.filter]. rewrite (nonempty_length _ 17 Hlen) by lia.
  assert (Hd : ∀ n, nonempty (fmt_d n) = true)
    by (intros n; pose proof (fmt_d_nonempty n); by destruct (fmt_d n)).
  by rewrite !Hd.
Qed.

Lemma row_ok bss : bss_ok bss → line_ok (row build_default bss).
Proof.
  intros Hb. pose proof (row_fields bss Hb) as Hf. pose proof (row_chars bss Hb) as Hc.
  destruct Hb as [_ _ [Hl Hm] [Hs1 Hs2]]. destruct (macstr_printable _ Hl Hm) as [_ Hlen].
  split; rewrite ?Hf.
  - eapply Forall_impl; [exact Hc|]. intros c Hx; cbv beta in Hx. unfold TAB in Hx. lia.
  - assert (Hd : ∀ n, strlen (fmt_d n) < 256) by (intros n; pose proof (fmt_d_short n); lia).
    apply Forall_app. split; [repeat constructor; try apply Hd; lia|].
    rewrite List.Forall_forall. intros f [Hin _]%filter_In. destruct Hin as [<-|[<-|[]]].
    + apply flags_length.
    + pose proof (escaped_short _ Hs2). unfold SSID_MAX_LEN in Hs1. lia.
  - rewrite length_app. cbn [List.filter]. do 2 destruct (nonempty _); simpl; lia.
  - intros f0 [= <-] _. lia.
Qed.

Lemma row_nonempty bss : bss_ok bss → nonempty (row build_default bss) = true.
Proof.
  intros [_ _ [Hl Hm] _]. destruct (macstr_printable _ Hl Hm) as [_ Hlen]. unfold row.
  pose proof (nonempty_length _ 17 Hlen ltac:(lia)) as H. by destruct (macstr (bss_bssid bss)).
Qed.

Definition rows_of (l : list wpa_bss) : list str :=
  row build_default <$> List.filter (λ bss, negb (hidden bss)) l.

Definition header_text : str := lit "bssid / frequency / signal level / flags / ssid".

Lemma table_tokens l :
  Forall bss_ok l → tokens_of NL (scan_table build_default l) = header_text :: rows_of l.
Proof.
  intros Hl. unfold scan_table, scan_header. rewrite <- app_assoc. cbn [app].
  rewrite tokens_first by (done || by apply (bool_decide_unpack _)). cbn [app token List.filter].
  change (nonempty _) with true. cbv iota. cbn [app]. f_equal.
  induction Hl as [|bss l Hb _ IH]; [done|]. rewrite fmap_cons. cbn [concat].
  unfold rows_of. cbn [List.filter]. destruct (hidden bss) eqn:Eh; cbn [negb].
  - unfold line_text at 1. rewrite Eh. exact IH.
  - rewrite line_text_row, <- app_assoc by done. cbn [app]. rewrite tokens_free, IH.
    + unfold token. cbn [List.filter]. by rewrite row_nonempty.
    + eapply Forall_impl; [by apply row_chars|]. intros c Hx; cbv beta in Hx. apply Z.eqb_neq.
      unfold TAB, NL in *. lia.
Qed.

Lemma table_five_fields l :
  Forall bss_ok l →
  five_fields (tokens_of NL (scan_table build_default l)) = row build_default <$> List.filter listed l.
Proof.
  intros Hl. rewrite table_tokens by done. unfold five_fields. cbn [List.filter].
  replace (length (fields_of header_text)) with 1%nat by (by vm_compute). cbn [Nat.eqb].
  unfold rows_of, listed. induction Hl as [|bss l Hb _ IH]; [done|]. cbn [List.filter].
  destruct (hidden bss); cbn [negb andb]; [exact IH|]. rewrite !fmap_cons. cbn [List.filter].
  rewrite row_fields by done. rewrite <- (escaped_nonempty (bss_ssid bss)) by apply Hb.
  cbn [List.filter app]. do 2 destruct (nonempty _); cbn [length Nat.eqb andb]; rewrite ?fmap_cons;
    by rewrite IH.
Qed.

Lemma table_ok l : Forall bss_ok l → Forall line_ok (tokens_of NL (scan_table build_default l)).
Proof.
  intros Hl. rewrite table_tokens by done. constructor; [apply line_ok_dec; by vm_compute|].
  apply Forall_fmap. rewrite List.Forall_forall. intros bss [Hin _]%filter_In. apply row_ok.
  rewrite List.Forall_forall in Hl. by apply Hl.
Qed.

Lemma table_cstring l : Forall bss_ok l → cstring (scan_table build_default l).
Proof.
  intros Hl. unfold scan_table. apply Forall_app. split; [by apply (bool_decide_unpack _)|].
  induction Hl as [|bss l Hb _ IH]; [constructor|]. rewrite fmap_cons. cbn [concat].
  apply Forall_app. split; [|done]. destruct (hidden bss) eqn:Eh.
  - unfold line_text. rewrite Eh. constructor.
  - rewrite line_text_row by done. apply Forall_app. split; [apply row_ok, Hb|by repeat constructor].
Qed.

Lemma table_head l : head (scan_table build_default l) ≠ Some 60.
Proof. discriminate. Qed.

(** ** The scan *)

(** What the daemon sends when its table of BSS entries is [l]: it prints into
    a reply of 4096 bytes and sends what it has printed. *)
Definition scan_results_sent (l : list wpa_bss) : outcome str :=
  '(n, b) ← wpa_supplicant_ctrl_iface_scan_results build_default l (uninit 4096) 4096;
  need "uninitialised bytes sent" (mapM id (take (Z.to_nat n) b)).

Lemma table_sent l :
  Forall bss_ok l → strlen (scan_table build_default l) < 4096 →
  scan_results_sent l = Ret (scan_table build_default l).
Proof.
  intros Hl Hlen. unfold scan_results_sent.
  destruct (scan_results_spec build_default l (uninit 4096) 4096) as (v & b & -> & Hb & _ & Hv);
    [done|by apply (bool_decide_unpack _)|]. specialize (Hv Hlen) as ->. ret_simpl.
  unfold built in Hb. unfold strlen. rewrite Nat2Z.id, Hb, mapM_cells. reflexivity.
Qed.

(** What the item says about the entry. *)
Record shows (bss : wpa_bss) (it : WifiScanItem) : Prop := {
  sh_bssid : holds (bssid it) 0 (macstr (bss_bssid bss));
  sh_frequency : frequency it = bss_freq bss;
  sh_level : signal_level it = bss_level bss;
  sh_flags : holds (flags it) 0 (flags_text build_default bss);
  sh_ssid : holds (ssid it) 0 (escaped (bss_ssid bss))
}.

(** The fields of an entry that are of type [int]. *)
Definition ints_ok (bss : wpa_bss) : Prop :=
  INT_MIN ≤ bss_freq bss ≤ INT_MAX ∧ INT_MIN ≤ bss_level bss ≤ INT_MAX.

Lemma row_shown bss it :
  bss_ok bss → ints_ok bss → item_of (row build_default bss) it → shows bss it.
Proof.
  intros Hb [Hf Hl] (f0 & f1 & f2 & f3 & f4 & He & H0 & H1 & H2 & H3 & H4).
  rewrite row_fields in He by done. cbn [List.filter app] in He.
  do 2 destruct (nonempty _); simplify_eq. split; try done; rewrite ?H1, ?H2; by apply atoi_fmt_d.
Qed.

Lemma shown_all l items :
  Forall bss_ok l → Forall ints_ok l →
  Forall2 item_of (row build_default <$> List.filter listed l) items →
  Forall2 shows (List.filter listed l) items.
Proof.
  intros Hb Hi. revert items. induction Hb as [|bss l Hb _ IH]; intros items Hf; [by inversion Hf|].
  apply Forall_cons in Hi as [Hi1 Hi]. cbn [List.filter] in *. destruct (listed bss); [|by apply IH].
  rewrite fmap_cons in Hf. inversion Hf; subst. constructor; [by apply row_shown|by apply IH].
Qed.

Section scan.
Context {E : Type} `{Daemon E} `{!Heap E} (k : nat) (cfg : config).

#[local] Instance scan_lib : WpaCli E cli := lib_WpaCli (S k) cfg.

(** C12: The scan results of the daemon reach the caller of the wrapper: when no
    message is waiting, the daemon accepts the scan and sends its table, of
    well-formed entries, which has room in the reply, [get_wifi_scan_results] returns one item for each entry that is not
    hidden and has flags and a name, in the order of the daemon; the item holds
    the address, frequency, level, flags and name of the entry. *)
Theorem scan_reaches_caller l reply (w : Io.World E cli) :
  g_wpa__cli_initialized (w_usr w) ≠ 0 → ctrl_conn (w_usr w) ≠ None → inbox (w_env w) = [] →
  (∀ e, serve e (lit "SCAN") = [line "OK"]) →
  scan_results_sent l = Ret reply → (∀ e, serve e (lit "SCAN_RESULTS") = [reply]) →
  Forall bss_ok l → Forall ints_ok l → strlen (scan_table build_default l) < 4096 →
  wp get_wifi_scan_results (λ r w', ∃ items sl, r = Some (items, sl) ∧
    Forall2 shows (List.filter listed l) items ∧ points_to sl items ∧
    adds w w' (λ tr, sends tr = [lit "SCAN"; lit "SCAN_RESULTS"])) w.
Proof.
  intros Hg Hc Hi Hs Hsent Hr Hb Hints Hlen. rewrite table_sent in Hsent by done.
  injection Hsent as <-. unfold scan_lib. eapply wp_mono.
  - pose proof (table_cstring l Hb) as Hcs. pose proof (table_ok l Hb) as Hok.
    pose proof (table_head l) as Hh. exact (scan_run k cfg _ w Hg Hc Hi Hs Hr Hcs Hlen Hh Hok).
  - intros r w' (items & sl & -> & Hf & Hp & Ha). exists items, sl.
    rewrite table_five_fields in Hf by done. split_and!; [done|by apply shown_all|done|exact Ha].
Qed.
End scan.

(** A daemon with two entries, one without flags. *)
Definition plain_bss : wpa_bss :=
  Bss 1 0 0 0 [2; 0; 0; 0; 0; 2] [98] 2437 0 0 0 0 (-60) 0 (0, 0) 0 0 0 0 [].

Definition two_entries (d : list Z) : list (list Z) :=
  if bool_decide (d = lit "SCAN") then [line "OK"] else [scan_table build_default [demo_bss; plain_bss]].

Lemma scan_reaches_caller_witness :
  List.filter listed [demo_bss; plain_bss] = [demo_bss] ∧
  wp (@get_wifi_scan_results _ _ (daemon_OS two_entries) (@scan_lib _ (daemon_OS two_entries) 0 shipped))
    (λ r w', ∃ items sl, r = Some (items, sl) ∧
      Forall2 shows (List.filter listed [demo_bss; plain_bss]) items ∧ points_to sl items ∧
      adds (mkWorld [] [] 0 connected) w' (λ tr, sends tr = [lit "SCAN"; lit "SCAN_RESULTS"]))
    (mkWorld [] [] 0 connected).
Proof.
  split; [by vm_compute|].
  apply (@scan_reaches_caller _ (daemon_OS two_entries) (daemon_Inbox two_entries)
    (daemon_Daemon two_entries) (daemon_Heap two_entries) 0 shipped [demo_bss; plain_bss]
    (scan_table build_default [demo_bss; plain_bss])).
  - done.
  - done.
  - reflexivity.
  - intros e. by vm_compute.
  - by vm_compute.
  - intros e. by vm_compute.
  - repeat constructor; try apply demo_bss_ok; by apply (bool_decide_unpack _).
  - by apply (bool_decide_unpack _).
  - by vm_compute.
Defined.

(** ** What goes wrong *)

Definition rsn_ciphers (l : list Z) : list Z := concat ((λ c, [0; 15; 172; c]) <$> l).

(** What follows the header of an RSN element: every cipher, every suite. *)
Definition every_suite : list Z :=
  rsn_ciphers [4] ++ [6; 0] ++ rsn_ciphers [10; 9; 4; 8; 2; 0]
  ++ [11; 0] ++ rsn_ciphers [1; 2; 8; 3; 4; 9; 5; 6; 11; 12] ++ [80; 111; 154; 1] ++ [1; 0].

(** A beacon with all of them in its RSN and its OSEN element. *)
Definition loud_bss : wpa_bss :=
  let ies := [48; 80; 1; 0] ++ every_suite ++ [221; 82; 80; 111; 154; 18] ++ every_suite in
  Bss 1 0 0 0 [2; 0; 0; 0; 0; 3] [97] 2412 100 1 0 0 (-50) 0 (0, 0) 0 0 (strlen ies) 0 ies.

(** With all options of the daemon, a beacon can announce so many suites that
    the flags of its line do not fit the array of the wrapper. *)
Lemma long_flags_overflow :
  bss_ok loud_bss ∧ strlen (flags_text build_all loud_bss) = 285 ∧
  is_ub (@get_wifi_scan_item_from_line unit cli quiet_OS (row build_all loud_bss)
    (mkWorld tt [] 0 cli_init)) = true.
Proof.
  split_and!; [|by vm_compute|by vm_compute]. split; by apply (bool_decide_unpack _).
Qed.

(** When the ciphers of an element do not fit what is left of the reply, the
    element is printed without them and the line goes on. *)
Definition cut_bss : wpa_bss :=
  let ies := [48; 38; 1; 0] ++ rsn_ciphers [4] ++ [6; 0] ++ rsn_ciphers [10; 9; 4; 8; 2; 0]
    ++ [1; 0] ++ rsn_ciphers [2] ++ [0; 0] in
  Bss 1 0 0 0 [2; 0; 0; 0; 0; 4] [97] 2412 100 1 0 0 (-50) 0 (0, 0) 0 0 (strlen ies) 0 ies.

Definition reply_text (r : outcome (Z * buf)) : option str :=
  match r with Ret (n, b) => mapM id (take (Z.to_nat n) b) | _ => None end.

Lemma cut_flags_sent :
  reply_text (wpa_supplicant_ctrl_iface_scan_results build_default [cut_bss] (uninit 100) 100)
    = Some (scan_header ++ lit "02:00:00:00:00:04" ++ [TAB] ++ lit "2412" ++ [TAB] ++ lit "-50" ++ [TAB]
            ++ lit "[WPA2-PSK-][ESS]" ++ [TAB] ++ lit "a" ++ [NL]) ∧
  flags_text build_default cut_bss = lit "[WPA2-PSK-CCMP-256+GCMP-256+CCMP+GCMP+TKIP+NONE][ESS]".
Proof. split; by vm_compute. Qed.
