(* ===== verification/ListE2E.v ===== *)
(** * From the configuration to the wrapper: the list of networks

    What the daemon prints for LIST_NETWORKS (CtrlList.v) is the table that the
    wrapper turns into its list of network identifiers (CliNetworks.v). *)

From S2P Require Import Prelude CString Scan CliUtil Common Printable Printing.
From S2P Require Import Network CtrlScanSpec CtrlList.
From S2P Require Import Io WpaCtrl CliCore CliLists CliTable CliApi CliDispatch CliDaemon CliNetworks.

(** ** Lines as rows of a table *)

Definition list_title : str := lit "network id / ssid / bssid / flags".

(** A line without its newline. *)
Definition network_text (cur : option Z) (s : wpa_ssid) : str :=
  fmt_d (ssid_id s) ++ TAB :: ssid_escaped s ++ network_bssid s ++ network_flags cur s.

Lemma network_line_text cur s : network_line cur s = network_text cur s ++ [NL].
Proof.
  unfold network_line, network_row, network_text. cbn [concat]. rewrite app_nil_r.
  do 3 (rewrite <- ?app_assoc; cbn [app]). done.
Qed.

Lemma printed_table cur l :
  concat (list_header :: (network_line cur <$> l)) = table (list_title :: (network_text cur <$> l)).
Proof.
  unfold table. cbn [map concat]. f_equal. induction l as [|s l IH]; [done|].
  rewrite !fmap_cons. cbn [map concat]. by rewrite network_line_text, IH.
Qed.

(** Printable, or a tab. *)
Definition row_char (c : Z) : Prop := c = TAB ∨ 32 ≤ c < 127.

Lemma printable_row s : printable s → Forall row_char s.
Proof. intros Hs. eapply Forall_impl; [exact Hs|]. by right. Qed.

Lemma network_text_chars cur s : net_ok s → Forall row_char (network_text cur s).
Proof.
  intros (Hs & Hl & Hb). unfold network_text. apply Forall_app. split; [apply printable_row, fmt_d_printable|].
  constructor; [by left|]. apply Forall_app. split; [|apply Forall_app; split].
  - unfold ssid_escaped. destruct (ssid s) as [t|]; [|constructor]. destruct (Hs t eq_refl).
    by apply printable_row, escaped_printable.
  - unfold network_bssid. case_if; (constructor; [by left|]); apply printable_row.
    + by apply macstr_printable.
    + by apply (bool_decide_unpack _).
  - unfold network_flags. apply Forall_cons; split; [by left|]. cbn [app]. apply printable_row.
    rewrite !printable_app.
    repeat case_bool_decide; repeat case_if; split_and!; by apply (bool_decide_unpack _).
Qed.

Lemma row_chars_ok (r : str) : Forall row_char r → cstring r ∧ NL ∉ r.
Proof.
  intros Hr. split.
  - eapply Forall_impl; [exact Hr|]. intros c Hc; unfold row_char, TAB in Hc; lia.
  - intros Hin. rewrite Forall_forall in Hr. specialize (Hr _ Hin). unfold row_char, TAB, NL in Hr. lia.
Qed.

(** ** The identifiers in the list *)

Lemma first_field t (s : str) : TAB ∉ t → first_word (t ++ TAB :: s) TAB = t.
Proof. intros Ht. unfold first_word. by rewrite strchr_app_here, take_app_length by done. Qed.

Lemma graphic_no_tab t : graphic t → TAB ∉ t.
Proof. intros Ht Hin. unfold graphic in Ht. rewrite Forall_forall in Ht. specialize (Ht _ Hin). unfold TAB in Ht. lia. Qed.

Lemma network_first_word cur s : first_word (network_text cur s) TAB = fmt_d (ssid_id s).
Proof. apply first_field, graphic_no_tab, fmt_d_graphic. Qed.

(** Words that differ are listed, the last one first. *)
Lemma add_front_all ws l :
  NoDup ws → (∀ w, w ∈ ws → w ∉ l) → foldl add_front l ws = rev ws ++ l.
Proof.
  intros Hd. revert l. induction Hd as [|w ws Hw _ IH]; intros l Hl; [done|]. cbn [foldl rev].
  unfold add_front at 2. rewrite bool_decide_eq_false_2 by (apply Hl; by left).
  rewrite IH, <- app_assoc; [done|]. intros x Hx Hin. apply elem_of_cons in Hin as [->|Hin]; [done|].
  apply (Hl x); [by right|done].
Qed.

Lemma fmt_d_inj_ids l :
  NoDup (ssid_id <$> l) → Forall (λ s, INT_MIN ≤ ssid_id s ≤ INT_MAX) l →
  NoDup ((λ s, fmt_d (ssid_id s)) <$> l).
Proof.
  intros Hd Hi. induction Hi as [|s l Hs Hl IH]; [constructor|]. rewrite fmap_cons in *.
  apply NoDup_cons in Hd as [Hn Hd]. apply NoDup_cons. split; [|by apply IH].
  intros (x & Hx & Hin)%list_elem_of_fmap. apply Hn. rewrite Forall_forall in Hl.
  apply (f_equal atoi) in Hx. rewrite !atoi_fmt_d in Hx by auto. rewrite Hx. apply list_elem_of_fmap. eauto.
Qed.

Lemma listed_ids cur l :
  NoDup (ssid_id <$> l) → Forall (λ s, INT_MIN ≤ ssid_id s ≤ INT_MAX) l →
  listed (network_text cur <$> l) = rev ((λ s, fmt_d (ssid_id s)) <$> l).
Proof.
  intros Hd Hi. unfold listed.
  assert (Hw : map (λ r, first_word r TAB) (network_text cur <$> l) = (λ s, fmt_d (ssid_id s)) <$> l).
  { clear. induction l as [|s l IH]; [done|]. rewrite !fmap_cons. cbn [map].
    f_equal; [apply network_first_word|exact IH]. }
  transitivity (foldl add_front [] ((λ s, fmt_d (ssid_id s)) <$> l)); [f_equal; exact Hw|].
  rewrite add_front_all, app_nil_r; [done|by apply fmt_d_inj_ids|]. intros w _. apply not_elem_of_nil.
Qed.

(** ** The daemon and the wrapper *)

(** What the daemon sends for LIST_NETWORKS from a reply of 4096 bytes. *)
Definition list_networks_sent (conf : wpa_config) (cur : option Z) : outcome str :=
  '(n, b) ← wpa_supplicant_ctrl_iface_list_networks conf cur None (uninit 4096) 4096;
  need "uninitialised bytes sent" (mapM id (take (Z.to_nat n) b)).

Definition networks_table (conf : wpa_config) (cur : option Z) : str :=
  table (list_title :: (network_text cur <$> Network.networks conf)).

Lemma list_sent conf cur :
  Forall net_ok (Network.networks conf) → strlen (networks_table conf cur) < 4096 →
  list_networks_sent conf cur = Ret (networks_table conf cur).
Proof.
  intros Hn Hl. unfold list_networks_sent.
  destruct (list_networks_spec conf cur None (uninit 4096) 4096 Hn) as (b & -> & Hb & _);
    [by apply (bool_decide_unpack _)|]. cbn [requested] in *. ret_simpl.
  rewrite fitting_all, printed_table in * by (by rewrite printed_table). fold (networks_table conf cur) in *.
  unfold built in Hb. unfold strlen. rewrite Nat2Z.id, Hb, mapM_cells. reflexivity.
Qed.

Section list.
Context {E : Type} `{Daemon E} (k : nat).

(** C27: The networks of the daemon's configuration reach the completion list of
    the wrapper: when the table has room in the reply, which is the next
    datagram to arrive, [update_networks] makes
    the list of exactly the identifiers of the networks, the last one first. *)
Theorem networks_reach_caller (heap : Heap E) ct conf cur reply rest (w : Io.World E cli) :
  Forall net_ok (Network.networks conf) → networks_ok (Network.networks conf) →
  Forall (λ s, INT_MIN ≤ ssid_id s ≤ INT_MAX) (Network.networks conf) →
  strlen (networks_table conf cur) < 4096 →
  list_networks_sent conf cur = Ret reply →
  inbox (w_env w) ++ serve (w_env w) (lit "LIST_NETWORKS") = reply :: rest →
  wp (update_networks (S k) (Some ct)) (λ _ w',
    w_usr w' = (w_usr w) {{ networks := rev ((λ s, fmt_d (ssid_id s)) <$> Network.networks conf) }}) w.
Proof.
  intros Hn Hd Hi Hl Hs Hr. rewrite list_sent in Hs by done. injection Hs as <-.
  rewrite <- (listed_ids cur) by done.
  apply (update_networks_spec k heap ct list_title (network_text cur <$> Network.networks conf) rest w);
    [|discriminate|exact Hl|exact Hr].
  constructor; [by apply row_chars_ok, (bool_decide_unpack _)|]. apply Forall_fmap.
  eapply Forall_impl; [exact Hn|]. intros s Hs; cbv beta. by apply row_chars_ok, network_text_chars.
Qed.
End list.

Definition lists_demo (d : list Z) : list (list Z) := [networks_table demo_conf (Some 4)].

Lemma networks_reach_caller_witness :
  rev ((λ s, fmt_d (ssid_id s)) <$> Network.networks demo_conf) = [lit "4"; lit "0"] ∧
  wp (@update_networks _ (daemon_OS lists_demo) 1 (Some (WpaCtrl 3 [] [])))
    (λ _ w', w_usr w' = connected {{ networks := rev ((λ s, fmt_d (ssid_id s)) <$> Network.networks demo_conf) }})
    (mkWorld [] [] 0 connected).
Proof.
  split; [by vm_compute|].
  apply (@networks_reach_caller _ (daemon_OS lists_demo) (daemon_Inbox lists_demo)
    (daemon_Daemon lists_demo) 0 (daemon_Heap lists_demo) (WpaCtrl 3 [] [])
    demo_conf (Some 4) (networks_table demo_conf (Some 4)) []).
  - exact demo_conf_ok.
  - by apply (bool_decide_unpack _).
  - by apply (bool_decide_unpack _).
  - by vm_compute.
  - by vm_compute.
  - reflexivity.
Defined.
