(* ===== verification/BssE2E.v ===== *)
(** * From the table of BSS entries to the wrapper: completion of addresses

    What the daemon prints for BSS RANGE=ALL MASK=0x2 (CtrlBss.v) becomes the
    list of addresses from which the wrapper completes arguments. *)

From stdpp Require Import gmap.
From S2P Require Import Prelude CString Scan CliUtil Common CommonLists Printable Printing.
From S2P Require Import WpaIe WpaCommon WpaSpec Bss CtrlScan CtrlScanSpec Network BssTable BssTableSpec CtrlBss CtrlBssSpec.
From S2P Require Import Io WpaCtrl CliCore CliLists CliTable CliApi CliDispatch CliDaemon CliNetworks.

(** ** The wrapper *)

Definition addr_row (a : str) : str := lit "bssid=" ++ a.

Lemma addr_row_ok r : cstring r ∧ NL ∉ r → cstring (addr_row r) ∧ NL ∉ addr_row r.
Proof.
  intros [Hc Hr]. unfold addr_row. split.
  - apply cstring_app. split; [by apply (bool_decide_unpack _)|done].
  - rewrite elem_of_app. intros [Hn|Hn]; [|done]. revert Hn. by apply (bool_decide_unpack _).
Qed.

Lemma strstr_here p s : strstr (p ++ s) p = Some O.
Proof.
  assert (Hp : is_prefix p (p ++ s) = true) by (induction p as [|c p IH]; cbn; [done|by rewrite Z.eqb_refl]).
  destruct p; [by destruct s|]. cbn [app strstr]. cbn [app] in Hp. by rewrite Hp.
Qed.

Section Bssids.
Context {E : Type} `{Heap E}.
Local Abbreviation World := (World E cli).

Lemma add_spec l t (w : World) :
  wp (cli_txt_list_add l t) (λ '(_, l') w', l' = add_front l t ∧ w_usr w' = w_usr w) w.
Proof.
  unfold add_front, cli_txt_list_add. destruct (cli_txt_list_get l t) as [x|] eqn:Eg.
  - apply cli_txt_list_get_Some in Eg as [_ Hin]. rewrite bool_decide_eq_true_2 by done. by apply wp_ret.
  - apply cli_txt_list_get_None in Eg. rewrite bool_decide_eq_false_2 by done.
    apply wp_bind, alloc_ok. intros r1 e1. apply wp_bind, alloc_ok. intros r2 e2. by apply wp_ret.
Qed.

Lemma rows_cstring rows : Forall (λ r, cstring r ∧ NL ∉ r) rows → cstring (table rows).
Proof.
  induction 1 as [|x l [Hx _] _ IH]; [constructor|]. unfold table in *. cbn [map concat].
  apply cstring_app. split; [apply cstring_app; split; [done|by repeat constructor]|done].
Qed.

Lemma bssid_loop_spec rows n b pos (w : World) :
  Forall (λ r, cstring r ∧ NL ∉ r) rows → holds b pos (table (addr_row <$> rows)) → (length rows < n)%nat →
  wp (bssid_loop n b pos) (λ _ w',
    w_usr w' = (w_usr w) {{ bsses := foldl add_front (bsses (w_usr w)) rows }}) w.
Proof.
  intros Hrows. revert n b pos w. induction Hrows as [|r rows [Hc Hr] Hrows IH];
    intros n b pos w Hh Hn; (destruct n as [|n]; [simpl in Hn; lia|]); cbn [bssid_loop].
  { eapply wp_lift_bind; [by apply (holds_str _ _ []); [constructor|]|]. simpl. apply wp_ret. by destruct (w_usr w). }
  assert (Hall : Forall (λ r, cstring r ∧ NL ∉ r) (addr_row <$> r :: rows)).
  { apply Forall_fmap. constructor; [by apply addr_row_ok|]. eapply Forall_impl; [exact Hrows|]. apply addr_row_ok. }
  assert (Htab : table (addr_row <$> r :: rows) = lit "bssid=" ++ r ++ NL :: table (addr_row <$> rows)).
  { unfold table, addr_row. rewrite fmap_cons. cbn [map concat]. by rewrite <- !app_assoc. }
  eapply wp_lift_bind; [by apply (holds_str _ _ _ (rows_cstring _ Hall))|]. rewrite Htab in Hh |- *.
  rewrite strstr_here. apply holds_step in Hh. change (strlen (lit "bssid=")) with 6 in Hh.
  change (Z.of_nat 0) with 0. rewrite Z.add_0_r.
  assert (Hct : cstring (r ++ NL :: table (addr_row <$> rows))).
  { apply rows_cstring in Hall. rewrite Htab in Hall. by apply cstring_app in Hall as [_ ?]. }
  eapply wp_lift_bind; [by apply (holds_str _ _ _ Hct)|]. rewrite strchr_line by done.
  destruct (cut_spec b (pos + 6) r NL (table (addr_row <$> rows)) Hh) as (b' & Hs & Hhr & Hht & _).
  unfold strlen in Hs, Hht. eapply wp_lift_bind; [exact Hs|].
  eapply wp_lift_bind; [by apply (holds_str _ _ _ Hc)|].
  apply wp_bind. cli_step. apply wp_bind. eapply wp_mono; [apply add_spec|]. intros [x l'] w1 [-> Hu].
  apply wp_bind, wp_modify.
  eapply wp_mono; [apply (IH n b' _ _ Hht); simpl in Hn; lia|].
  intros [] w2 Hu2. rewrite Hu2. cbn [w_usr]. rewrite Hu. by destruct (w_usr w).
Qed.
End Bssids.

Section Update.
Context {E : Type} `{Daemon E} (k : nat).
Local Abbreviation World := (World E cli).

Definition bss_all : str := lit "BSS RANGE=ALL MASK=0x2".

Lemma update_bssid_list_spec (heap : Heap E) ct rows rest (w : World) :
  Forall (λ r, cstring r ∧ NL ∉ r) rows →
  let reply := table (addr_row <$> rows) in
  strlen reply < 4096 → inbox (w_env w) ++ serve (w_env w) bss_all = reply :: rest →
  wp (update_bssid_list (S k) (Some ct)) (λ _ w',
    w_usr w' = (w_usr w) {{ bsses := foldl add_front (bsses (w_usr w)) rows }}) w.
Proof.
  intros Hrows reply Hl Hi. unfold update_bssid_list. unfold list_request. do 2 run_step.
  assert (Hhead : head reply ≠ Some 60).
  { unfold reply. destruct rows as [|r rows]; [done|]. unfold table, addr_row. rewrite fmap_cons. by cbn. }
  eapply wp_mono; [apply (list_reply k ct bss_all reply rest w Hi Hhead)|].
  intros [[res b] len] w2 (-> & -> & [t ->] & Hb & Hu).
  change (0 <? 0) with false. cbv iota. rewrite take_ge in * by (unfold strlen in Hl; lia).
  destruct (buf_set_defined (cells reply ++ t) (strlen reply) 0) as [b' Hs].
  { rewrite Hb. unfold strlen in *. lia. }
  eapply wp_lift_bind; [exact Hs|]. run_step.
  pose proof (cells_close _ _ _ _ Hs eq_refl) as Hh.
  eapply wp_mono; [apply (bssid_loop_spec rows); [done|exact Hh|]|].
  - apply buf_set_Ret in Hs as [_ ->]. rewrite length_insert, Hb.
    assert (Hlen : ∀ l, (length l ≤ length (table (addr_row <$> l)))%nat).
    { induction l as [|x l IH]; [done|]. unfold table, addr_row in *. rewrite fmap_cons. cbn [map concat length].
      rewrite !length_app. change (length [NL]) with 1%nat. unfold table in IH. lia. }
    specialize (Hlen rows). fold reply in Hlen. unfold strlen in Hl. lia.
  - intros [] w3 Hu3. by rewrite Hu3, Hu.
Qed.
End Update.

(** ** The daemon *)

(** What the daemon sends for the command from a reply of 4096 bytes. *)
Definition bss_sent (t : bss_table) (now : Z → Z) : outcome str :=
  '(n, b) ← wpa_supplicant_ctrl_iface_bss build_default t now (lit "RANGE=ALL MASK=0x2") (uninit 4096) 4096;
  need "uninitialised bytes sent" (mapM id (take (Z.to_nat n) b)).

(** The addresses of the table, in the order of the identifiers. *)
Definition address_at (t : bss_table) (p : Z) : str :=
  match heap t !! p with Some b => macstr (bss_bssid b) | None => [] end.

Definition addresses (t : bss_table) : list str := address_at t <$> bss_ids t.

Lemma addr_reply t now l :
  (∀ p, p ∈ l → is_Some (heap t !! p)) →
  entries_reply build_default t 2 now l = table (addr_row <$> (address_at t <$> l)).
Proof.
  intros Hl.
  assert (He : ∀ p, p ∈ l → entry_text build_default t 2 now p = addr_row (address_at t p) ++ [NL]).
  { intros p Hp. destruct (Hl p Hp) as [b Hb]. unfold entry_text, address_at. rewrite Hb.
    unfold info_text, head_rows, tail_rows, info_head, info_tail, row.
    repeat match goal with |- context [has 2 ?f] =>
      let v := eval vm_compute in (has 2 f) in change (has 2 f) with v end.
    cbn [app concat]. by rewrite !app_nil_r. }
  induction l as [|p l IH]; [done|]. rewrite !fmap_cons. unfold table. cbn [map concat].
  rewrite <- He by (by left). destruct l as [|q l].
  - cbn [entries_reply]. unfold closed. cbn [andb]. by rewrite app_nil_r.
  - change (entries_reply build_default t 2 now (p :: q :: l)) with
      (entry_text build_default t 2 now p ++ entries_reply build_default t 2 now (q :: l)).
    f_equal. apply IH; intros x Hx; [apply Hl|apply He]; by right.
Qed.

Lemma all_sent t now :
  table_ok t → strlen (table (addr_row <$> addresses t)) < 4096 →
  bss_sent t now = Ret (table (addr_row <$> addresses t)).
Proof.
  intros Ht Hl. unfold bss_sent.
  assert (Hin : ∀ p, p ∈ bss_ids t → is_Some (heap t !! p)).
  { intros p. rewrite (tk_ids t Ht). by rewrite (tk_heap t Ht). }
  destruct (bss_reply build_default t now (lit "RANGE=ALL MASK=0x2") (uninit 4096) 4096 [] (bss_ids t) []
    (last (bss_ids t)) Ht) as (v & b & -> & Hb & _ & Hv);
    [by apply (bool_decide_unpack _)|reflexivity|by rewrite app_nil_r|..].
  { intros p Hp. by destruct (last (bss_ids t)). }
  change (bss_mask (lit "RANGE=ALL MASK=0x2")) with 2 in Hv. rewrite addr_reply in Hv by done.
  fold (addresses t) in Hv. specialize (Hv Hl) as ->. ret_simpl.
  unfold built in Hb. unfold strlen. rewrite Nat2Z.id, Hb, mapM_cells. reflexivity.
Qed.

Lemma address_row t p : table_ok t → p ∈ bss_ids t → cstring (address_at t p) ∧ NL ∉ address_at t p.
Proof.
  intros Ht Hp. rewrite (tk_ids t Ht) in Hp. destruct (deref_ok t p Ht Hp) as (b & Hb & _ & [_ _ [Hm Hm'] _]).
  unfold address_at. rewrite Hb. destruct (macstr_printable _ Hm Hm') as [Hpr _]. split.
  - eapply Forall_impl; [exact Hpr|]. cbv beta. lia.
  - intros Hn. unfold printable in Hpr. rewrite Forall_forall in Hpr. specialize (Hpr _ Hn). unfold NL in Hpr. lia.
Qed.

Section reach.
Context {E : Type} `{Daemon E} (k : nat).

(** The addresses of the daemon's table reach the completion list of the
    wrapper: when they have room in the reply, [update_bssid_list] adds the
    address of every entry, in the order of the identifiers, each once. *)
Theorem bssids_reach_caller (hp : Heap E) ct t now reply rest (w : Io.World E cli) :
  table_ok t → strlen (table (addr_row <$> addresses t)) < 4096 → bss_sent t now = Ret reply →
  inbox (w_env w) ++ serve (w_env w) bss_all = reply :: rest →
  wp (update_bssid_list (S k) (Some ct)) (λ _ w',
    w_usr w' = (w_usr w) {{ bsses := foldl add_front (bsses (w_usr w)) (addresses t) }}) w.
Proof.
  intros Ht Hl Hs Hr. rewrite all_sent in Hs by done. injection Hs as <-.
  apply (update_bssid_list_spec k hp ct (addresses t) rest w); [|exact Hl|exact Hr].
  apply Forall_fmap. rewrite Forall_forall. intros p Hp. by apply address_row.
Qed.
End reach.

Definition addresses_demo (d : list Z) : list (list Z) := [table (addr_row <$> addresses stale_table)].

Lemma bssids_reach_caller_witness :
  addresses stale_table = [lit "02:00:00:00:00:01"; lit "02:00:00:00:00:02"] ∧
  wp (@update_bssid_list _ (daemon_OS addresses_demo) 1 (Some (WpaCtrl 3 [] [])))
    (λ _ w', w_usr w' = connected {{ bsses := foldl add_front (bsses connected) (addresses stale_table) }})
    (mkWorld [] [] 0 connected).
Proof.
  split; [by vm_compute|].
  apply (@bssids_reach_caller _ (daemon_OS addresses_demo) (daemon_Inbox addresses_demo)
    (daemon_Daemon addresses_demo) 0 (daemon_Heap addresses_demo) (WpaCtrl 3 [] [])
    stale_table (λ _, 50) (table (addr_row <$> addresses stale_table)) []).
  - exact stale_ok.
  - by vm_compute.
  - by vm_compute.
  - reflexivity.
Defined.
