(* ===== verification/NetworkE2E.v ===== *)
(** * A network that is added, named and listed

    The replies to ADD_NETWORK, SET_NETWORK and LIST_NETWORKS (CtrlNetwork.v,
    CtrlList.v) one after the other: the table of the networks has a row for
    the new network with the name it was given. *)

From stdpp Require Import gmap.
From S2P Require Import Prelude CString Scan CliUtil Common Printable Printing Network CtrlList.
From S2P Require Import ConfigSsid ConfigText ConfigVars ConfigSsidSpec CtrlNetwork CtrlNetworkSpec.
From S2P Require Import CliNetworks ListE2E.

Lemma listed_ok w : conf_ok w → Forall CtrlList.net_ok (Network.networks (conf_of w)).
Proof.
  intros Hw. unfold conf_of. cbn [Network.networks]. apply Forall_fmap. pose proof (conf_vars w Hw) as Hv.
  eapply Forall_impl; [exact Hv|]. intros [i n] Hn; cbn [snd] in Hn. unfold CtrlList.net_ok. cbn.
  destruct (ok_bssid n Hn). split_and!; [|done|done]. intros t Ht.
  destruct (ok_strs n Hn _ t Ht) as (H1 & H2 & _). by split; [|apply H2].
Qed.

(** The name that SET_NETWORK gives to the new network. *)
Definition name_command (id : Z) (s : str) : str := fmt_d id ++ SP :: lit "ssid" ++ SP :: DQ :: s ++ [DQ].

Definition named_net (s : str) : net := set_str added_net (lit "ssid") (Some s).

Lemma put_snoc l id n n' : (∀ e : Z * net, e ∈ l → e.1 < id) → put_net (l ++ [(id, n)]) id n' = l ++ [(id, n')].
Proof.
  induction l as [|e l IH]; intros Hlt; cbn [app put_net fst]; [by rewrite Z.eqb_refl|].
  specialize (Hlt e ltac:(by left)) as He. rewrite (proj2 (Z.eqb_neq _ _)) by lia. f_equal. apply IH.
  intros x Hx. apply Hlt. by right.
Qed.

Section named.
Context (eap_methods : list (str * Z * Z)) (pbkdf2_sha1 : str → list Z → list Z).

Lemma name_network w id s :
  conf_ok w → find_net (conf_nets w) id = Some added_net → cstring s → strlen s ≤ SSID_MAX_LEN →
  ∃ eff, wpa_supplicant_ctrl_iface_set_network eap_methods pbkdf2_sha1 w (name_command id s)
    = Ret (0, with_net w id (named_net s), eff) ∧ conf_ok (with_net w id (named_net s)).
Proof.
  intros Hw Hf Hs Hl. assert (Hnosp : ∀ i, SP ∉ fmt_d i) by (intros i; apply graphic_no_space, fmt_d_graphic).
  assert (Hid : atoi (fmt_d id) = id).
  { pose proof (conf_ids w Hw) as Hi. rewrite Forall_forall in Hi.
    apply atoi_fmt_d, (Hi (id, added_net)). by apply find_net_elem. }
  assert (Hok : ConfigVars.net_ok (named_net s)).
  { apply set_str_ok; [exact added_net_ok| |done]. intros x [= <-]. split_and!; [by apply cstring_bytes|done|done]. }
  unfold wpa_supplicant_ctrl_iface_set_network, name_command. rewrite split_space_app by done.
  change (split_space (lit "ssid" ++ SP :: ?t)) with (Some (lit "ssid", t)). cbv iota beta zeta.
  rewrite Hid, Hf. unfold wpa_supplicant_ctrl_iface_update_network.
  assert (Hnone : get_str added_net (lit "ssid") = None) by by vm_compute.
  pose proof (quoted_ssid eap_methods added_net s) as Hq. unfold wpa_config_set_quoted in Hq.
  rewrite (proj2 (Z.ltb_ge _ _)), bool_decide_eq_false_2 in Hq by (done || by rewrite Hnone). rewrite Hq.
  ret_simpl. change (0 <? 0) with false. change (0 =? 1) with false. cbv iota.
  assert (Hcond : (str_eqb (lit "ssid") (lit "psk") && bool_decide (head (DQ :: s ++ [DQ]) = Some DQ)
      && negb (ssid_len (set_str added_net (lit "ssid") (Some s)) =? 0))
    || (str_eqb (lit "ssid") (lit "ssid")
        && bool_decide (is_Some (get_str (set_str added_net (lit "ssid") (Some s)) (lit "passphrase")))) = false).
  { change (str_eqb (lit "ssid") (lit "psk")) with false. cbn [andb orb].
    rewrite get_str_set_ne by done. by vm_compute. }
  rewrite Hcond. change (str_eqb (lit "ssid") (lit "priority")) with false. cbv iota. ret_simpl.
  fold (named_net s). destruct (found_put w id added_net (named_net s) Hf) as [-> _]. ret_simpl.
  eexists. split; [done|]. apply (with_net_ok w id added_net); [done|done|done|reflexivity].
Qed.
End named.

(** C26: A network that a client adds to a well-formed configuration and names,
    with at most 32 bytes and no NUL, is listed while it is not the current
    one: behind the rows of
    the networks that were there, LIST_NETWORKS shows the new identifier, the
    name in its printable form, no BSSID and that the network is disabled,
    when the table has room in the reply. *)
Theorem added_network_listed eap_methods pbkdf2_sha1 w s cur :
  conf_ok w → max_id (Network.networks (conf_of w)) < INT_MAX → cstring s → strlen s ≤ SSID_MAX_LEN →
  let id := max_id (Network.networks (conf_of w)) + 1 in
  let row := fmt_d id ++ TAB :: escaped s ++ TAB :: lit "any" ++ TAB :: lit "[DISABLED]" in
  let t := table (list_title :: (network_text cur <$> Network.networks (conf_of w)) ++ [row]) in
  ∃ w1 w2 eff, wpa_supplicant_add_network w = Ret (Some id, w1, [NetworkRegistered id]) ∧
    wpa_supplicant_ctrl_iface_set_network eap_methods pbkdf2_sha1 w1 (name_command id s) = Ret (0, w2, eff) ∧
    conf_ok w2 ∧
    (cur ≠ Some id → strlen t < 4096 → list_networks_sent (conf_of w2) cur = Ret t).
Proof.
  intros Hw Hm Hs Hl id row t. destruct (add_network_spec w Hw Hm) as (w1 & Hadd & Hw1 & Hn & _ & Hlt & _).
  fold id in Hadd, Hn, Hlt.
  assert (Hf : find_net (conf_nets w1) id = Some added_net).
  { rewrite Hn, find_net_snoc by done. by rewrite decide_True. }
  destruct (name_network eap_methods pbkdf2_sha1 w1 id s Hw1 Hf Hs Hl) as (eff & Hset & Hw2).
  exists w1, (with_net w1 id (named_net s)), eff. split_and!; [done|done|done|]. intros Hcur Ht.
  assert (Hrow : network_text cur (as_ssid (id, named_net s)) = row).
  { unfold network_text, row, ssid_escaped, network_bssid, network_flags. cbn [ssid_id as_ssid fst snd].
    assert (E1 : ssid (as_ssid (id, named_net s)) = Some s) by apply get_str_set. rewrite E1.
    change (bssid_set (as_ssid (id, named_net s))) with false. cbv iota.
    change (disabled (as_ssid (id, named_net s))) with 1. change (disabled_until (as_ssid (id, named_net s))) with 0.
    rewrite bool_decide_eq_false_2 by done. cbn. by rewrite ?app_nil_r. }
  assert (E : networks_table (conf_of (with_net w1 id (named_net s))) cur = t).
  { unfold networks_table, t. unfold conf_of at 1, with_net. cbn [conf_nets Network.networks]. rewrite Hn, put_snoc by done.
    rewrite fmap_app, fmap_app. by rewrite <- Hrow. }
  rewrite <- E in *. apply list_sent; [by apply listed_ok|done].
Qed.

Lemma added_network_listed_witness :
  let row := fmt_d 3 ++ TAB :: escaped (lit "caf e") ++ TAB :: lit "any" ++ TAB :: lit "[DISABLED]" in
  let t := table (list_title :: (network_text None <$> Network.networks (conf_of demo_w)) ++ [row]) in
  ∃ w1 w2 eff, wpa_supplicant_add_network demo_w = Ret (Some 3, w1, [NetworkRegistered 3]) ∧
    wpa_supplicant_ctrl_iface_set_network some_methods demo_key w1 (name_command 3 (lit "caf e")) = Ret (0, w2, eff) ∧
    conf_ok w2 ∧ (None ≠ Some 3 → strlen t < 4096 → list_networks_sent (conf_of w2) None = Ret t).
Proof.
  apply (added_network_listed some_methods demo_key demo_w (lit "caf e") None);
    [exact demo_w_ok|by vm_compute|by apply (bool_decide_unpack _)|by vm_compute].
Defined.
