(* ===== verification/Select.v ===== *)
(** * The choice of a network (wpa_supplicant/events.c, wpa_supplicant.c)

    From the BSS entries of the last scan, in their order, and the networks of
    the configuration, by priority, the daemon chooses whom to associate with.
    This file has the tests that a BSS entry and a network must pass, the loops
    over priorities, entries and networks, the temporary disabling of networks
    that failed to authenticate, and the decision to roam.

    A pointer to a network is its identifier, a pointer to a BSS entry an
    address in the heap of [BssTable].  The build is that of the repository:
    none of CONFIG_WPS, CONFIG_P2P, CONFIG_MESH, CONFIG_IEEE80211W, CONFIG_MBO
    and CONFIG_INTERWORKING.  The clock is read once for each reading of the
    source: [clock] gives the seconds of the n-th reading, and of the member
    [disabled_until] only the seconds are kept, as nothing reads the rest. *)

From stdpp Require Import gmap.
From S2P Require Import Prelude CString Common WpaIe Network Blacklist Bss BssTable.
From S2P Require Import ConfigSsid CtrlNetwork.

Definition HOSTAPD_MODE_IEEE80211G : Z := 1.

(** The parts of [struct hostapd_hw_modes] that are used. *)
Record hostapd_hw_modes : Type := HwMode {
  hw_mode : Z;
  hw_channels : list (Z * Z);   (* frequency and flag *)
  hw_rates : list Z;
  hw_mcs_set : list Z;
  hw_vht_mcs_set : list Z;
  hw_flags : Z
}.

(** What the choice reads of the rest of [struct wpa_supplicant]. *)
Record setup : Type := Setup {
  p2p_mgmt : bool;
  drv_enc : option Z;                        (* when the capabilities are known *)
  auto_interworking : bool;                  (* conf->cred, interworking and auto_interworking *)
  disallow_aps_bssid : list (list Z);
  disallow_aps_ssid : list (list Z);
  hw_modes : option (list hostapd_hw_modes);
  countermeasures : bool;
  scan_min_time : Z * Z;
  ap_scan : Z;
  drv_flags : Z;
  wpa_state : Z;
  reassociate : bool;
  clock : nat → Z
}.

(** What others are told. *)
Inductive sel_note : Type :=
  | Reenabled (id : Z)                            (* WPA_EVENT_REENABLED *)
  | TempDisabled (id failures duration : Z)       (* WPA_EVENT_TEMP_DISABLED *)
  | PassphraseNeeded (id : Z).                    (* WPA_CTRL_REQ_PSK_PASSPHRASE *)

(** What the choice changes. *)
Record selector : Type := Sel {
  sel_conf : wpa_supplicant;
  sel_blacklist : blacklist_state;
  blacklist_cleared : Z;
  sel_bss : bss_table;
  next_ssid : option Z;
  clock_reads : nat;
  sel_notes : list sel_note
}.

Definition with_conf (s : selector) (w : wpa_supplicant) : selector :=
  Sel w (sel_blacklist s) (blacklist_cleared s) (sel_bss s) (next_ssid s) (clock_reads s) (sel_notes s).
Definition with_notes (s : selector) (l : list sel_note) : selector :=
  Sel (sel_conf s) (sel_blacklist s) (blacklist_cleared s) (sel_bss s) (next_ssid s) (clock_reads s)
    (sel_notes s ++ l).
Definition with_blacklist (s : selector) (b : blacklist_state) (cleared : Z) : selector :=
  Sel (sel_conf s) b cleared (sel_bss s) (next_ssid s) (clock_reads s) (sel_notes s).
Definition with_next (s : selector) (n : option Z) : selector :=
  Sel (sel_conf s) (sel_blacklist s) (blacklist_cleared s) (sel_bss s) n (clock_reads s) (sel_notes s).

(** Following a pointer to a network. *)
Definition the_net (s : selector) (id : Z) : outcome net :=
  need "no network" (find_net (conf_nets (sel_conf s)) id).

(** ** Key management (src/common/defs.h) *)

Definition wpa_key_mgmt_wpa_ieee8021x (akm : Z) : bool :=
  has akm (Z.lor WPA_KEY_MGMT_IEEE8021X (Z.lor WPA_KEY_MGMT_FT_IEEE8021X (Z.lor WPA_KEY_MGMT_CCKM
    (Z.lor WPA_KEY_MGMT_OSEN (Z.lor WPA_KEY_MGMT_IEEE8021X_SHA256
    (Z.lor WPA_KEY_MGMT_IEEE8021X_SUITE_B WPA_KEY_MGMT_IEEE8021X_SUITE_B_192)))))).

Definition wpa_key_mgmt_wpa_psk (akm : Z) : bool :=
  has akm (Z.lor WPA_KEY_MGMT_PSK (Z.lor WPA_KEY_MGMT_FT_PSK (Z.lor WPA_KEY_MGMT_PSK_SHA256
    (Z.lor WPA_KEY_MGMT_SAE WPA_KEY_MGMT_FT_SAE)))).

Definition wpa_key_mgmt_sae (akm : Z) : bool := has akm (Z.lor WPA_KEY_MGMT_SAE WPA_KEY_MGMT_FT_SAE).

Definition wpa_key_mgmt_wpa (akm : Z) : bool :=
  wpa_key_mgmt_wpa_ieee8021x akm || wpa_key_mgmt_wpa_psk akm || wpa_key_mgmt_sae akm.

(** ** Tests on a network and a BSS entry *)

Definition km (n : net) : Z := get_int n (lit "key_mgmt").

Definition has_wep_key (n : net) : bool := existsb (λ len, negb (len =? 0)) (n_wep_key_len n).

Definition EAPOL_FLAG_REQUIRE_KEY_UNICAST : Z := BIT 0.
Definition EAPOL_FLAG_REQUIRE_KEY_BROADCAST : Z := BIT 1.

Definition wpa_supplicant_match_privacy (bss : wpa_bss) (n : net) : bool :=
  if negb (get_int n (lit "mixed_cell") =? 0) then true
  else
    let privacy :=
      has_wep_key n
      || (has (km n) WPA_KEY_MGMT_IEEE8021X_NO_WPA
          && has (get_int n (lit "eapol_flags"))
               (Z.lor EAPOL_FLAG_REQUIRE_KEY_UNICAST EAPOL_FLAG_REQUIRE_KEY_BROADCAST))
      || wpa_key_mgmt_wpa (km n) || has (km n) WPA_KEY_MGMT_OSEN in
    if has (bss_caps bss) IEEE80211_CAP_PRIVACY then privacy else negb privacy.

Definition NO_MGMT_FRAME_PROTECTION : Z := 0.

(** Without CONFIG_IEEE80211W. *)
Definition wpas_get_ssid_pmf (n : net) : Z := NO_MGMT_FRAME_PROTECTION.

(** [ssid->wep_key_len[ssid->wep_tx_keyidx]] *)
Definition tx_key_len (n : net) : outcome Z :=
  let i := get_int n (lit "wep_tx_keyidx") in
  if i <? 0 then UB "no such WEP key" else need "no such WEP key" (n_wep_key_len n !! Z.to_nat i).

(** Whether the element at [p] fits the network; [rsn] says which loop. *)
Definition element_fits (n : net) (bss : wpa_bss) (rsn wep_ok : bool) (p : Z) : outcome bool :=
  len ← u8_at (bss_ies bss) (p + 1);
  '(ret, ie) ← wpa_parse_wpa_ie build_default (drop (Z.to_nat p) (bss_ies bss)) (2 + len);
  Ret (if negb (ret =? 0) then false
       else if wep_ok && has (group_cipher ie) (Z.lor WPA_CIPHER_WEP40 WPA_CIPHER_WEP104) then true
       else if negb (has (proto ie) (get_int n (lit "proto"))) then false
       else if negb (has (pairwise_cipher ie) (get_int n (lit "pairwise_cipher"))) then false
       else if negb (has (group_cipher ie) (get_int n (lit "group_cipher"))) then false
       else if negb (has (key_mgmt ie) (km n)) then false
       else if rsn && has (capabilities ie) WPA_CAPABILITY_MFPR
               && (wpas_get_ssid_pmf n =? NO_MGMT_FRAME_PROTECTION) then false
       else true).

Definition opt_fits (n : net) (bss : wpa_bss) (rsn wep_ok : bool) (ie : option Z) : outcome bool :=
  match ie with Some p => element_fits n bss rsn wep_ok p | None => Ret false end.

Definition wpa_supplicant_ssid_bss_match (n : net) (bss : wpa_bss) : outcome bool :=
  let proto := get_int n (lit "proto") in
  wep_ok ← (if wpa_key_mgmt_wpa (km n) then Ret false
            else if has (km n) WPA_KEY_MGMT_NONE then
              len ← tx_key_len n; Ret ((0 <? len) || has (km n) WPA_KEY_MGMT_IEEE8021X_NO_WPA)
            else Ret (has (km n) WPA_KEY_MGMT_IEEE8021X_NO_WPA));
  rsn_ie ← wpa_bss_get_ie bss WLAN_EID_RSN;
  let rsn_tried := if has proto WPA_PROTO_RSN then rsn_ie else None in
  rsn_ok ← opt_fits n bss true wep_ok rsn_tried;
  if (rsn_ok : bool) then Ret true
  else
    wpa_ie ← wpa_bss_get_vendor_ie bss WPA_IE_VENDOR_TYPE;
    let wpa_tried := if has proto WPA_PROTO_WPA then wpa_ie else None in
    wpa_ok ← opt_fits n bss false wep_ok wpa_tried;
    if (wpa_ok : bool) then Ret true
    else if has (km n) WPA_KEY_MGMT_IEEE8021X_NO_WPA && bool_decide (wpa_ie = None)
            && bool_decide (rsn_ie = None) then Ret true
    else if has proto (Z.lor WPA_PROTO_WPA WPA_PROTO_RSN) && wpa_key_mgmt_wpa (km n)
            && bool_decide (rsn_tried = None) && bool_decide (wpa_tried = None) then Ret false
    else
      osen ← (if has (km n) WPA_KEY_MGMT_OSEN then wpa_bss_get_vendor_ie bss OSEN_IE_VENDOR_TYPE
              else Ret None);
      Ret (bool_decide (is_Some osen) || negb (wpa_key_mgmt_wpa (km n))).

Definition freq_allowed (freqs : option (list Z)) (freq : Z) : bool :=
  match freqs with None => true | Some l => existsb (Z.eqb freq) l end.

(** *** Rates *)

Definition HOSTAPD_MODE_FLAG_HT_INFO_KNOWN : Z := BIT 0.
Definition HOSTAPD_MODE_FLAG_VHT_INFO_KNOWN : Z := BIT 1.
Definition BSS_MEMBERSHIP_SELECTOR_VHT_PHY : Z := 126.
Definition BSS_MEMBERSHIP_SELECTOR_HT_PHY : Z := 127.

Definition ht_supported (m : hostapd_hw_modes) : bool :=
  if negb (has (hw_flags m) HOSTAPD_MODE_FLAG_HT_INFO_KNOWN) then true
  else nth 0 (hw_mcs_set m) 0 =? 0xff.

Definition vht_supported (m : hostapd_hw_modes) : bool :=
  if negb (has (hw_flags m) HOSTAPD_MODE_FLAG_VHT_INFO_KNOWN) then true
  else negb (Z.land (nth 0 (hw_vht_mcs_set m) 0) 3 =? 3).

(** The mode that the loop over the modes and their channels ends with. *)
Definition mode_of (modes : list hostapd_hw_modes) (freq : Z) : option hostapd_hw_modes :=
  foldl (λ mode m,
    if existsb (λ ch, freq =? ch.1) (hw_channels m) then
      match mode with
      | Some m' => if hw_mode m' =? HOSTAPD_MODE_IEEE80211G then mode else Some m
      | None => Some m
      end
    else mode) None modes.

(** A byte of an element of rates. *)
Definition rate_ok (mode : hostapd_hw_modes) (b : Z) : bool :=
  let flagged := has b 0x80 in
  let r := Z.land b 0x7f in
  if flagged && (r =? BSS_MEMBERSHIP_SELECTOR_HT_PHY) then ht_supported mode
  else if flagged && (r =? BSS_MEMBERSHIP_SELECTOR_VHT_PHY) then vht_supported mode
  else if negb flagged then true
  else existsb (Z.eqb (r * 5)) (hw_rates mode).

Fixpoint rates_loop (count : nat) (mode : hostapd_hw_modes) (m : list Z) (pos : Z) : outcome bool :=
  match count with
  | O => Ret true
  | S count' => b ← u8_at m pos; if rate_ok mode b then rates_loop count' mode m (pos + 1) else Ret false
  end.

Definition rate_element (mode : hostapd_hw_modes) (bss : wpa_bss) (eid : Z) : outcome bool :=
  rate_ie ← wpa_bss_get_ie bss eid;
  match rate_ie with
  | None => Ret true
  | Some p => len ← u8_at (bss_ies bss) (p + 1); rates_loop (Z.to_nat len) mode (bss_ies bss) (p + 2)
  end.

Definition bss_is_ess (bss : wpa_bss) : bool :=
  if bss_is_dmg bss then Z.land (bss_caps bss) IEEE80211_CAP_DMG_MASK =? IEEE80211_CAP_DMG_AP
  else Z.land (bss_caps bss) (Z.lor IEEE80211_CAP_ESS IEEE80211_CAP_IBSS) =? IEEE80211_CAP_ESS.

Definition match_mac_mask (addr_a addr_b mask : list Z) : bool :=
  forallb (λ i, Z.land (nth i addr_a 0) (nth i mask 0) =? Z.land (nth i addr_b 0) (nth i mask 0))
    (seq 0 6).

Definition addr_in_list (addr : list Z) (l : list (list Z * list Z)) : bool :=
  existsb (λ am, match_mac_mask am.1 addr am.2) l.

Definition addrs_of (n : net) (f : str) : list (list Z * list Z) := default [] (n_addrs n !! f).

Definition IEEE80211_MODE_IBSS : Z := 1.
Definition IEEE80211_MODE_AP : Z := 2.
Definition IEEE80211_MODE_MESH : Z := 5.

Section choice.
Context (u : setup).

Definition rate_match (bss : wpa_bss) : outcome bool :=
  if bss_freq bss =? 0 then Ret true
  else
    match hw_modes u with
    | None => Ret true
    | Some modes =>
        match mode_of modes (bss_freq bss) with
        | None => Ret false
        | Some mode =>
            a ← rate_element mode bss WLAN_EID_SUPP_RATES;
            if (a : bool) then rate_element mode bss WLAN_EID_EXT_SUPP_RATES else Ret false
        end
    end.

Definition disallowed_bssid (bssid : list Z) : bool := existsb (str_eqb bssid) (disallow_aps_bssid u).
Definition disallowed_ssid (ssid : list Z) : bool := existsb (str_eqb ssid) (disallow_aps_ssid u).

(** *** Disabled networks *)

Definition WPA_DRIVER_CAPA_ENC_WEP40 : Z := 0x00000001.
Definition WPA_DRIVER_CAPA_ENC_WEP104 : Z := 0x00000002.
Definition WPA_DRIVER_CAPA_ENC_WEP128 : Z := 0x00000010.

Definition wep_key_usable (drv : Z) (len : Z) : bool :=
  (len =? 0) || ((len =? 5) && has drv WPA_DRIVER_CAPA_ENC_WEP40)
  || ((len =? 13) && has drv WPA_DRIVER_CAPA_ENC_WEP104)
  || ((len =? 16) && has drv WPA_DRIVER_CAPA_ENC_WEP128).

(** [ssid->ext_psk] is NULL without CONFIG_EXT_PASSWORD. *)
Definition wpas_network_disabled (n : net) : bool :=
  p2p_mgmt u || negb (get_int n (lit "disabled") =? 0)
  || existsb (λ len, negb (wep_key_usable (default 4294967295 (drv_enc u)) len)) (n_wep_key_len n)
  || (wpa_key_mgmt_wpa_psk (km n) && (get_int n (lit "psk_set") =? 0)
      && (bool_decide (get_str n (lit "passphrase") = None) || negb (ssid_len n =? 0))
      && (get_int n (lit "mem_only_psk") =? 0)).

Definition wpa_supplicant_enabled_networks (s : selector) : Z :=
  if p2p_mgmt u then 0
  else Z.of_nat (length (filter (λ e, wpas_network_disabled e.2 = false) (conf_nets (sel_conf s))))
       + (if auto_interworking u then 1 else 0).

Definition wpas_clear_temp_disabled (s : selector) (id : Z) (clear_failures : bool) : outcome selector :=
  n ← the_net s id;
  let s := if negb (get_int n (lit "disabled_until") =? 0) then with_notes s [Reenabled id] else s in
  let n := set_int n (lit "disabled_until") 0 in
  let n := if clear_failures then set_int n (lit "auth_failures") 0 else n in
  Ret (with_conf s (with_net (sel_conf s) id n)).

(** [os_get_reltime] *)
Definition get_reltime (s : selector) : Z * selector :=
  (clock u (clock_reads s),
   Sel (sel_conf s) (sel_blacklist s) (blacklist_cleared s) (sel_bss s) (next_ssid s)
     (S (clock_reads s)) (sel_notes s)).

Definition wpas_temp_disabled (s : selector) (id : Z) : outcome (Z * selector) :=
  n ← the_net s id;
  let until := get_int n (lit "disabled_until") in
  if until =? 0 then Ret (0, s)
  else
    let '(now, s) := get_reltime s in
    if now <? until then Ret (to_int32 (until - now), s)
    else s ← wpas_clear_temp_disabled s id false; Ret (0, s).

(** The loop over the networks that are enabled. *)
Fixpoint reenabled_loop (s : selector) (ids : list Z) (res : Z) : outcome (Z * selector) :=
  match ids with
  | [] => Ret (res, s)
  | id :: ids' =>
      n ← the_net s id;
      if negb (get_int n (lit "disabled") =? 0) then reenabled_loop s ids' res
      else
        '(disabled_for, s) ← wpas_temp_disabled s id;
        if disabled_for =? 0 then Ret (0, s)
        else reenabled_loop s ids' (if (res =? 0) || (disabled_for <? res) then disabled_for else res)
  end.

Definition wpas_reenabled_network_time (s : selector) : outcome (Z * selector) :=
  reenabled_loop s (fst <$> conf_nets (sel_conf s)) 0.

(** [random] is what [os_random] returns. *)
Definition auth_duration (failures random : Z) (ieee8021x : bool) : Z :=
  let dur := if 50 <? failures then 300 else if 10 <? failures then 120 else if 5 <? failures then 90
             else if 3 <? failures then 60 else if 2 <? failures then 30
             else if 1 <? failures then 20 else 10 in
  if (1 <? failures) && ieee8021x then to_int32 (dur + random mod u32 (failures * 10)) else dur.

Definition wpas_auth_failed (s : selector) (random : Z) : outcome selector :=
  match current_ssid (sel_conf s) with
  | None => Ret s
  | Some id =>
      n ← the_net s id;
      if km n =? WPA_KEY_MGMT_WPS then Ret s
      else
        let failures := u32 (get_int n (lit "auth_failures") + 1) in
        let n := set_int n (lit "auth_failures") failures in
        let dur := auth_duration failures random (wpa_key_mgmt_wpa_ieee8021x (km n)) in
        let s := with_conf s (with_net (sel_conf s) id n) in
        let '(now, s) := get_reltime s in
        if now + dur <=? get_int n (lit "disabled_until") then Ret s
        else
          Ret (with_notes (with_conf s (with_net (sel_conf s) id (set_int n (lit "disabled_until") (now + dur))))
                 [TempDisabled id failures dur])
  end.

(** ** A BSS entry for a group of networks *)

(** The tests that follow those on disabled networks, in their order. *)
Definition network_fits (n : net) (bss : wpa_bss) (wpa osen : bool) : outcome bool :=
  let bssid_set := negb (get_int n (lit "bssid_set") =? 0) in
  let same_bssid := str_eqb (bss_bssid bss) (n_bssid n) in
  let check_ssid := (if wpa then true else negb (ssid_len n =? 0))
                    && negb (bssid_set && (ssid_len n =? 0) && same_bssid) in
  if check_ssid && negb (str_eqb (bss_ssid bss) (default [] (get_str n (lit "ssid")))) then Ret false
  else if bssid_set && negb same_bssid then Ret false
  else if addr_in_list (bss_bssid bss) (addrs_of n (lit "bssid_blacklist")) then Ret false
  else if bool_decide (addrs_of n (lit "bssid_whitelist") ≠ [])
          && negb (addr_in_list (bss_bssid bss) (addrs_of n (lit "bssid_whitelist"))) then Ret false
  else
    m ← wpa_supplicant_ssid_bss_match n bss;
    if negb m then Ret false
    else if negb osen && negb wpa && negb (has (km n) WPA_KEY_MGMT_NONE) && negb (has (km n) WPA_KEY_MGMT_WPS)
            && negb (has (km n) WPA_KEY_MGMT_IEEE8021X_NO_WPA) then Ret false
    else if wpa && negb (wpa_key_mgmt_wpa (km n)) && has_wep_key n then Ret false
    else if has (km n) WPA_KEY_MGMT_OSEN && negb osen then Ret false
    else if negb (wpa_supplicant_match_privacy bss n) then Ret false
    else if negb (get_int n (lit "mode") =? IEEE80211_MODE_MESH) && negb (bss_is_ess bss)
            && negb (bss_is_pbss bss) then Ret false
    else if negb (get_int n (lit "pbss") =? 2)
            && negb (get_int n (lit "pbss") =? b2z (bss_is_pbss bss)) then Ret false
    else if negb (freq_allowed (n_freqs n !! lit "freq_list") (bss_freq bss)) then Ret false
    else
      r ← rate_match bss;
      if negb r then Ret false
      else Ret (negb (os_reltime_before (last_update bss) (scan_min_time u))).

(** The networks from a head on; the first that fits. *)
Fixpoint group_loop (s : selector) (bss : wpa_bss) (wpa osen : bool) (ids : list Z)
    : outcome (option Z * selector) :=
  match ids with
  | [] => Ret (None, s)
  | id :: ids' =>
      n ← the_net s id;
      if wpas_network_disabled n then group_loop s bss wpa osen ids'
      else
        '(res, s) ← wpas_temp_disabled s id;
        if 0 <? res then group_loop s bss wpa osen ids'
        else
          n ← the_net s id;
          fits ← network_fits n bss wpa osen;
          if (fits : bool) then Ret (Some id, s) else group_loop s bss wpa osen ids'
  end.

Definition blacklisted (s : selector) (bss : wpa_bss) : bool :=
  match wpa_blacklist_get (sel_blacklist s) (Some (bss_bssid bss)) with
  | Some e => (if wpa_supplicant_enabled_networks s =? 1 then 0 else 1) <? e_count e
  | None => false
  end.

(** [ids] is the group from its head on, or its head alone for
    [only_first_ssid]. *)
Definition wpa_scan_res_match (s : selector) (bss : wpa_bss) (ids : list Z)
    : outcome (option Z * selector) :=
  ie ← wpa_bss_get_vendor_ie bss WPA_IE_VENDOR_TYPE;
  wpa_ie_len ← ie_len_at (bss_ies bss) ie;
  ie ← wpa_bss_get_ie bss WLAN_EID_RSN;
  rsn_ie_len ← ie_len_at (bss_ies bss) ie;
  ie ← wpa_bss_get_vendor_ie bss OSEN_IE_VENDOR_TYPE;
  let osen := bool_decide (is_Some ie) in
  if blacklisted s bss then Ret (None, s)
  else if strlen (bss_ssid bss) =? 0 then Ret (None, s)
  else if disallowed_bssid (bss_bssid bss) then Ret (None, s)
  else if disallowed_ssid (bss_ssid bss) then Ret (None, s)
  else group_loop s bss ((0 <? wpa_ie_len) || (0 <? rsn_ie_len)) osen ids.

(** The entry and the network. *)
Fixpoint select_loop (s : selector) (entries ids : list Z) : outcome (option (Z * Z) * selector) :=
  match entries with
  | [] => Ret (None, s)
  | p :: entries' =>
      bss ← deref (sel_bss s) p;
      '(selected, s) ← wpa_scan_res_match s bss ids;
      match selected with
      | Some id => Ret (Some (p, id), s)
      | None => select_loop s entries' ids
      end
  end.

Definition wpa_supplicant_select_bss (s : selector) (ids : list Z) : outcome (option (Z * Z) * selector) :=
  select_loop s (last_scan_res (sel_bss s)) ids.

(** ** All priorities *)

Fixpoint prio_loop (s : selector) (next : option Z) (groups : list (list Z))
    : outcome (option (Z * Z) * selector) :=
  match groups with
  | [] => Ret (None, s)
  | g :: groups' =>
      head ← need "empty list" (head g);
      h ← the_net s head;
      '(selected, s) ←
        match next with
        | Some id =>
            n ← the_net s id;
            if get_int n (lit "priority") =? get_int h (lit "priority")
            then wpa_supplicant_select_bss s [id] else Ret (None, s)
        | None => Ret (None, s)
        end;
      match selected with
      | Some r => Ret (Some r, s)
      | None =>
          '(selected, s) ← wpa_supplicant_select_bss s g;
          match selected with
          | Some r => Ret (Some r, s)
          | None => prio_loop s next groups'
          end
      end
  end.

(** The rounds, until the blacklist is empty. *)
Fixpoint pick_loop (fuel : nat) (s : selector) (next : option Z) : outcome (option (Z * Z) * selector) :=
  match fuel with
  | O => OutOfFuel
  | S fuel' =>
      '(selected, s) ← prio_loop s next (conf_pssid (sel_conf s));
      match selected with
      | Some r => Ret (Some r, s)
      | None =>
          if bool_decide (blacklist (sel_blacklist s) ≠ []) && negb (countermeasures u) then
            b ← wpa_blacklist_clear (sel_blacklist s);
            c ← int_chk (blacklist_cleared s + 1);
            pick_loop fuel' (with_blacklist s b c) next
          else Ret (None, s)
      end
  end.

(** Whether the key of the network must be asked for first. *)
Definition key_missing (n : net) : bool :=
  negb (get_int n (lit "mem_only_psk") =? 0) && (get_int n (lit "psk_set") =? 0)
  && bool_decide (get_str n (lit "passphrase") = None).

(** The entry to associate with and the network, which is also set when there
    is no entry because its key is missing. *)
Definition wpa_supplicant_pick_network (s : selector) : outcome (option Z * option Z * selector) :=
  if bool_decide (last_scan_res (sel_bss s) = []) then Ret (None, None, s)
  else
    let '(next, s) :=
      match next_ssid s with
      | Some id => (match find_net (conf_nets (sel_conf s)) id with Some _ => Some id | None => None end,
                    with_next s None)
      | None => (None, s)
      end in
    '(selected, s) ← pick_loop 2 s next;
    match selected with
    | None => Ret (None, None, s)
    | Some (p, id) =>
        n ← the_net s id;
        if key_missing n then Ret (None, Some id, with_notes s [PassphraseNeeded id])
        else Ret (Some p, Some id, s)
    end.

(** The first network that the daemon may set up itself. *)
Fixpoint new_network_loop (s : selector) (ids : list Z) : outcome (option Z) :=
  match ids with
  | [] => Ret None
  | id :: ids' =>
      n ← the_net s id;
      if wpas_network_disabled n then new_network_loop s ids'
      else
        let mode := get_int n (lit "mode") in
        if (mode =? IEEE80211_MODE_IBSS) || (mode =? IEEE80211_MODE_AP) || (mode =? IEEE80211_MODE_MESH)
        then Ret (Some id) else new_network_loop s ids'
  end.

Definition wpa_supplicant_pick_new_network (s : selector) : outcome (option Z) :=
  new_network_loop s (concat (conf_pssid (sel_conf s))).

(** ** Roaming *)

Definition WPA_ASSOCIATED : Z := 6.
Definition WPA_DRIVER_FLAGS_BSS_SELECTION : Z := 0x00040000.

Definition wpas_driver_bss_selection : bool :=
  (ap_scan u =? 2) || has (drv_flags u) WPA_DRIVER_FLAGS_BSS_SELECTION.

(** The difference in level below which it is not worth while. *)
Definition roam_min_diff (level : Z) (to_5ghz : bool) : Z :=
  let min_diff :=
    if level <? 0 then
      if level <? -85 then 1 else if level <? -80 then 2 else if level <? -75 then 3
      else if level <? -70 then 4 else 5
    else 2 in
  if to_5ghz then if 2 <? min_diff then min_diff - 2 else 0 else min_diff.

Definition roam_by_signal (current selected : wpa_bss) (n : net) : outcome bool :=
  if negb (get_int n (lit "bssid_set") =? 0) && str_eqb (bss_bssid selected) (n_bssid n) then Ret true
  else if u32 (bss_est_throughput current + 5000) <? bss_est_throughput selected then Ret true
  else
    let to_5ghz := (4000 <? bss_freq selected) && (bss_freq current <? 4000) in
    bar ← int_chk (bss_level selected + b2z to_5ghz * 2);
    if (bss_level current <? 0) && (bar <? bss_level current) then Ret false
    else
      diff ← int_chk (bss_level current - bss_level selected);
      Ret (negb (Z.abs diff <? roam_min_diff (bss_level current) to_5ghz)).

Definition wpa_supplicant_need_to_roam (s : selector) (selected id : Z) : outcome bool :=
  if reassociate u then Ret true
  else if wpa_state u <? WPA_ASSOCIATED then Ret true
  else if bool_decide (current_ssid (sel_conf s) ≠ Some id) then Ret true
  else if wpas_driver_bss_selection then Ret false
  else
    n ← the_net s id;
    let t := sel_bss s in
    cur ← match get_str n (lit "ssid") with
          | Some ssid => wpa_bss_get t (own_bssid t) ssid
          | None => Ret None
          end;
    cur ← match cur with Some c => Ret (Some c) | None => wpa_bss_get_bssid t (own_bssid t) end;
    match cur with
    | None => Ret true
    | Some c =>
        if c =? selected then Ret false
        else
          current ← deref t c;
          sel ← deref t selected;
          if last_update_idx current <? last_update_idx sel then Ret true
          else roam_by_signal current sel n
    end.
End choice.
