(* ===== verification/SelectFits.v ===== *)
(** * The choice of a network: the tests on one network and one entry

    For a well-formed BSS entry, whatever its elements, the tests of
    [Select.network_fits] end; their results, [fits], depend neither on when
    the network may be used again nor on the clock. *)

From stdpp Require Import gmap.
From S2P Require Import Prelude CString Common WpaIe WpaSpec Network Blacklist Bss BssTable.
From S2P Require Import ConfigSsid ConfigText ConfigVars CtrlNetwork Select.

(** ** Elements that were found *)

Lemma byte_list_drop l k : byte_list l → byte_list (drop k l).
Proof. apply Forall_drop. Qed.

(** A pointer that a search returned. *)
Definition ie_in (bss : wpa_bss) (p : Z) : Prop :=
  ∃ len, u8_at (bss_ies bss) (p + 1) = Ret len ∧ 0 ≤ len ∧ 0 ≤ p ∧ p + 2 + len ≤ strlen (bss_ies bss).

Lemma elem_at_in m p e bss : bss_ies bss = m → elem_at m p e → ie_in bss p.
Proof.
  intros <- (H1 & H2 & _ & H3 & _). exists (strlen (snd e)). unfold strlen in *. split_and!; [done|lia..].
Qed.

Lemma probe_located P bss p : bss_ok bss → locate P 0 (probe_elements bss) = Some p → ie_in bss p.
Proof.
  intros [Hm Hl _ _] Hp. unfold probe_elements in Hp.
  apply located in Hp as (e & He & _); [|done|lia..]. by eapply elem_at_in.
Qed.

Lemma get_ie_found bss eid : bss_ok bss →
  ∃ ie, wpa_bss_get_ie bss eid = Ret ie ∧ ∀ p, ie = Some p → ie_in bss p.
Proof. intros Hb. eexists. split; [by apply bss_get_ie|]. intros p. by apply probe_located. Qed.

Lemma get_vendor_found bss vt : bss_ok bss →
  ∃ ie, wpa_bss_get_vendor_ie bss vt = Ret ie ∧ ∀ p, ie = Some p → ie_in bss p.
Proof. intros Hb. eexists. split; [by apply bss_get_vendor_ie|]. intros p. by apply probe_located. Qed.

Lemma ie_len_found bss ie : (∀ p, ie = Some p → ie_in bss p) → ∃ l, ie_len_at (bss_ies bss) ie = Ret l.
Proof.
  intros H. destruct ie as [p|]; [|by exists 0]. destruct (H p eq_refl) as (l & Hl & _). by exists l.
Qed.

(** ** Tests that end *)

(** The index of the key to send with, which SET_NETWORK does not check. *)
Definition key_index_ok (n : net) : Prop := 0 ≤ get_int n (lit "wep_tx_keyidx") < 4.

Lemma tx_key_found n : net_ok n → key_index_ok n → ∃ len, tx_key_len n = Ret len.
Proof.
  intros Hn Hk. unfold tx_key_len. unfold key_index_ok in Hk. destruct (ok_wep_lens n Hn) as [H4 _].
  rewrite (proj2 (Z.ltb_ge _ _)) by lia.
  destruct (lookup_lt_is_Some_2 (n_wep_key_len n) (Z.to_nat (get_int n (lit "wep_tx_keyidx")))) as [l Hl]; [lia|].
  rewrite Hl. by exists l.
Qed.

Lemma element_fits_ends n bss rsn wep_ok p : bss_ok bss → ie_in bss p →
  ∃ r, element_fits n bss rsn wep_ok p = Ret r.
Proof.
  intros [Hm _ _ _] (len & Hlen & H0 & Hp & Hle). unfold element_fits. rewrite Hlen. ret_simpl.
  destruct (parse_ok (drop (Z.to_nat p) (bss_ies bss)) (byte_list_drop _ _ Hm) build_default (2 + len))
    as (ret & d & -> & _); [rewrite length_drop; unfold strlen in *; lia|]. ret_simpl. by eexists.
Qed.

Lemma opt_fits_ends n bss rsn wep_ok ie : bss_ok bss → (∀ p, ie = Some p → ie_in bss p) →
  ∃ r, opt_fits n bss rsn wep_ok ie = Ret r.
Proof. intros Hb Hi. destruct ie as [p|]; [|by exists false]. by apply element_fits_ends; [|apply Hi]. Qed.

Lemma if_found {A} (b : bool) (ie : option A) p : (if b then ie else None) = Some p → ie = Some p.
Proof. by destruct b. Qed.

Lemma ssid_bss_match_ends n bss : bss_ok bss → net_ok n → key_index_ok n →
  ∃ r, wpa_supplicant_ssid_bss_match n bss = Ret r.
Proof.
  intros Hb Hn Hk. unfold wpa_supplicant_ssid_bss_match.
  destruct (tx_key_found n Hn Hk) as [kl ->].
  assert (Hw : ∃ w, (if wpa_key_mgmt_wpa (km n) then Ret false
    else if has (km n) WPA_KEY_MGMT_NONE then
      len ← Ret kl; Ret ((0 <? len) || has (km n) WPA_KEY_MGMT_IEEE8021X_NO_WPA)
    else Ret (has (km n) WPA_KEY_MGMT_IEEE8021X_NO_WPA)) = Ret w) by (repeat case_if; by eexists).
  destruct Hw as [w ->]. ret_simpl.
  destruct (get_ie_found bss WLAN_EID_RSN Hb) as (rsn & -> & Hr). ret_simpl.
  destruct (opt_fits_ends n bss true w (if has (get_int n (lit "proto")) WPA_PROTO_RSN then rsn else None) Hb)
    as [r1 ->]; [intros p Hp; by apply Hr, (if_found _ _ _ Hp)|]. ret_simpl.
  destruct r1; [by eexists|].
  destruct (get_vendor_found bss WPA_IE_VENDOR_TYPE Hb) as (wpa & -> & Hv). ret_simpl.
  destruct (opt_fits_ends n bss false w (if has (get_int n (lit "proto")) WPA_PROTO_WPA then wpa else None) Hb)
    as [r2 ->]; [intros p Hp; by apply Hv, (if_found _ _ _ Hp)|]. ret_simpl.
  destruct r2; [by eexists|]. do 2 (case_if; [by eexists|]).
  destruct (get_vendor_found bss OSEN_IE_VENDOR_TYPE Hb) as (o & -> & _).
  case_if; ret_simpl; by eexists.
Qed.

Lemma rates_loop_ends count mode m pos :
  byte_list m → 0 ≤ pos → pos + Z.of_nat count ≤ strlen m → ∃ r, rates_loop count mode m pos = Ret r.
Proof.
  intros Hm. revert pos. induction count as [|count IH]; intros pos Hp Hl; [by exists true|]. cbn [rates_loop].
  destruct (u8_at_Ret m pos) as (b & -> & _); [unfold strlen in *; lia|]. ret_simpl.
  case_if; [apply IH; lia|by eexists].
Qed.

Lemma rate_element_ends mode bss eid : bss_ok bss → ∃ r, rate_element mode bss eid = Ret r.
Proof.
  intros Hb. unfold rate_element. destruct (get_ie_found bss eid Hb) as (ie & -> & Hi). ret_simpl.
  destruct ie as [p|]; [|by eexists]. destruct (Hi p eq_refl) as (len & -> & H0 & Hp & Hle). ret_simpl.
  apply rates_loop_ends; [by apply ok_ies|lia|lia].
Qed.

Lemma rate_match_ends u bss : bss_ok bss → ∃ r, rate_match u bss = Ret r.
Proof.
  intros Hb. unfold rate_match. case_if; [by eexists|]. destruct (hw_modes u) as [modes|]; [|by eexists].
  destruct (mode_of modes (bss_freq bss)) as [mode|]; [|by eexists].
  destruct (rate_element_ends mode bss WLAN_EID_SUPP_RATES Hb) as [a ->]. ret_simpl.
  destruct a; [by apply rate_element_ends|by eexists].
Qed.

Lemma network_fits_ends u n bss wpa osen : bss_ok bss → net_ok n → key_index_ok n →
  ∃ r, network_fits u n bss wpa osen = Ret r.
Proof.
  intros Hb Hn Hk. unfold network_fits. do 4 (case_if; [by eexists|]).
  destruct (ssid_bss_match_ends n bss Hb Hn Hk) as [m ->]. ret_simpl.
  do 8 (case_if; [by eexists|]). destruct (rate_match_ends u bss Hb) as [r ->]. ret_simpl.
  case_if; by eexists.
Qed.

(** ** What they do not depend on *)

(** The network with no time to wait for. *)
Definition frozen (n : net) : net := set_int n (lit "disabled_until") 0.

Lemma frozen_int n f : f ≠ lit "disabled_until" → get_int (frozen n) f = get_int n f.
Proof. intros H. unfold frozen. by rewrite get_set_int_ne by done. Qed.

Lemma frozen_twice n : frozen (frozen n) = frozen n.
Proof. unfold frozen, set_int. cbn [n_ints n_strs n_bssid n_addrs n_psk n_freqs n_methods n_wep_key n_wep_key_len]. by rewrite insert_insert_eq. Qed.

Lemma element_fits_frozen n bss rsn w p : element_fits (frozen n) bss rsn w p = element_fits n bss rsn w p.
Proof. unfold element_fits, km. by rewrite !frozen_int by done. Qed.

Lemma opt_fits_frozen n bss rsn w ie : opt_fits (frozen n) bss rsn w ie = opt_fits n bss rsn w ie.
Proof. destruct ie; [apply element_fits_frozen|done]. Qed.

Lemma outcome_bind_ext {A B} (m : outcome A) (f g : A → outcome B) : (∀ a, f a = g a) → m ≫= f = m ≫= g.
Proof. intros H. by destruct m; simpl. Qed.

Lemma frozen_ssid n : ssid_len (frozen n) = ssid_len n.
Proof. done. Qed.

Lemma ssid_bss_match_frozen n bss : wpa_supplicant_ssid_bss_match (frozen n) bss = wpa_supplicant_ssid_bss_match n bss.
Proof.
  unfold wpa_supplicant_ssid_bss_match, tx_key_len, km. rewrite !frozen_int by done.
  apply outcome_bind_ext; intros w. apply outcome_bind_ext; intros rsn. rewrite opt_fits_frozen.
  apply outcome_bind_ext; intros r1. destruct r1; [done|].
  apply outcome_bind_ext; intros wpa. by rewrite opt_fits_frozen.
Qed.

Lemma network_fits_frozen u n bss wpa osen : network_fits u (frozen n) bss wpa osen = network_fits u n bss wpa osen.
Proof.
  unfold network_fits, wpa_supplicant_match_privacy, km. rewrite ssid_bss_match_frozen, frozen_ssid.
  by rewrite !frozen_int by done.
Qed.

Lemma network_disabled_frozen u n : wpas_network_disabled u (frozen n) = wpas_network_disabled u n.
Proof. unfold wpas_network_disabled, km. rewrite frozen_ssid. by rewrite !frozen_int by done. Qed.

Lemma key_missing_frozen n : key_missing (frozen n) = key_missing n.
Proof. unfold key_missing. by rewrite !frozen_int by done. Qed.

(** ** The result of the tests *)

Definition is_wpa (bss : wpa_bss) : bool :=
  match wpa_bss_get_vendor_ie bss WPA_IE_VENDOR_TYPE, wpa_bss_get_ie bss WLAN_EID_RSN with
  | Ret wpa, Ret rsn =>
      match ie_len_at (bss_ies bss) wpa, ie_len_at (bss_ies bss) rsn with
      | Ret l1, Ret l2 => (0 <? l1) || (0 <? l2)
      | _, _ => false
      end
  | _, _ => false
  end.

Definition is_osen_bss (bss : wpa_bss) : bool :=
  match wpa_bss_get_vendor_ie bss OSEN_IE_VENDOR_TYPE with Ret (Some _) => true | _ => false end.

Definition fits (u : setup) (n : net) (bss : wpa_bss) : bool :=
  match network_fits u n bss (is_wpa bss) (is_osen_bss bss) with Ret b => b | _ => false end.

Lemma fits_spec u n bss : bss_ok bss → net_ok n → key_index_ok n →
  network_fits u n bss (is_wpa bss) (is_osen_bss bss) = Ret (fits u n bss).
Proof.
  intros Hb Hn Hk. unfold fits. by destruct (network_fits_ends u n bss (is_wpa bss) (is_osen_bss bss) Hb Hn Hk) as [r ->].
Qed.

Lemma fits_frozen u n n' bss : frozen n' = frozen n → fits u n' bss = fits u n bss.
Proof. intros E. unfold fits. by rewrite <- (network_fits_frozen u n'), E, network_fits_frozen. Qed.

Lemma disabled_frozen u n n' : frozen n' = frozen n → wpas_network_disabled u n' = wpas_network_disabled u n.
Proof. intros E. by rewrite <- (network_disabled_frozen u n'), E, network_disabled_frozen. Qed.

(** The part of [wpa_scan_res_match] in front of the loop. *)
Definition entry_open (u : setup) (s : selector) (bss : wpa_bss) : bool :=
  negb (blacklisted u s bss) && negb (strlen (bss_ssid bss) =? 0) &&
  negb (disallowed_bssid u (bss_bssid bss)) && negb (disallowed_ssid u (bss_ssid bss)).

Lemma scan_res_match_spec u s bss ids : bss_ok bss →
  wpa_scan_res_match u s bss ids =
    if entry_open u s bss then group_loop u s bss (is_wpa bss) (is_osen_bss bss) ids else Ret (None, s).
Proof.
  intros Hb. unfold wpa_scan_res_match, is_wpa, is_osen_bss, entry_open.
  destruct (get_vendor_found bss WPA_IE_VENDOR_TYPE Hb) as (wpa & -> & Hw). ret_simpl.
  destruct (ie_len_found bss wpa Hw) as [l1 ->]. ret_simpl.
  destruct (get_ie_found bss WLAN_EID_RSN Hb) as (rsn & -> & Hr). ret_simpl.
  destruct (ie_len_found bss rsn Hr) as [l2 ->]. ret_simpl.
  destruct (get_vendor_found bss OSEN_IE_VENDOR_TYPE Hb) as (o & -> & _). ret_simpl.
  assert (Ho : bool_decide (is_Some o) = match o with Some _ => true | None => false end) by by destruct o.
  rewrite Ho. destruct o; do 4 (case_if; [done|]); done.
Qed.
