(* ===== verification/SelectSpec.v ===== *)
(** * The choice of a network: theorems

    The loops of Select.v compared with a reference, [reference]: the first
    priority, the first entry and the first network of the priority that suit.
    The loops change the state on the way - times that have passed are cleared -
    so the comparison goes by two views of the networks that stay. *)

From stdpp Require Import gmap.
From S2P Require Import Prelude CString Common WpaIe Network Blacklist Bss BssTable BssTableSpec.
From S2P Require Import ConfigSsid ConfigText ConfigVars ConfigSsidSpec CtrlNetwork CtrlNetworkSpec.
From S2P Require Import Select SelectFits.

(** ** The first result *)

Fixpoint first_some {A B} (f : A → option B) (l : list A) : option B :=
  match l with [] => None | a :: l' => match f a with Some b => Some b | None => first_some f l' end end.

Lemma first_some_ext {A B} (f g : A → option B) l : (∀ a, a ∈ l → f a = g a) → first_some f l = first_some g l.
Proof.
  induction l as [|a l IH]; intros H; [done|]. cbn [first_some]. rewrite H by by left.
  destruct (g a); [done|]. apply IH. intros x Hx. apply H. by right.
Qed.

Lemma first_some_Some {A B} (f : A → option B) l b : first_some f l = Some b →
  ∃ l1 a l2, l = l1 ++ a :: l2 ∧ f a = Some b ∧ Forall (λ x, f x = None) l1.
Proof.
  induction l as [|a l IH]; cbn [first_some]; [done|]. destruct (f a) eqn:E.
  - intros [= ->]. by exists [], a, l.
  - intros H. destruct (IH H) as (l1 & x & l2 & -> & Hx & Hl). exists (a :: l1), x, l2. split_and!; [done..|by constructor].
Qed.

Lemma first_some_None {A B} (f : A → option B) l : first_some f l = None → Forall (λ x, f x = None) l.
Proof.
  induction l as [|a l IH]; cbn [first_some]; [by constructor|]. destruct (f a) eqn:E; [done|]. constructor; eauto.
Qed.

(** ** Views of the networks *)

(** A property of each network, by identifier. *)
Definition nets_view {A} (g : net → A) (s : selector) : list (Z * A) :=
  (λ e : Z * net, (e.1, g e.2)) <$> conf_nets (sel_conf s).

Lemma view_find {A} (g : net → A) s s' id n :
  nets_view g s' = nets_view g s → find_net (conf_nets (sel_conf s)) id = Some n →
  ∃ n', find_net (conf_nets (sel_conf s')) id = Some n' ∧ g n' = g n.
Proof.
  unfold nets_view. generalize (conf_nets (sel_conf s)), (conf_nets (sel_conf s')). intros l.
  induction l as [|[i m] l IH]; intros [|[i' m'] l'] E; try done. rewrite !fmap_cons in E.
  injection E as E1 E2 E3. cbn [fst snd] in *. subst i'. cbn [find_net fst snd].
  case_if; [intros [= <-]; eauto|by apply IH].
Qed.

Lemma view_none {A} (g : net → A) s s' id :
  nets_view g s' = nets_view g s → find_net (conf_nets (sel_conf s)) id = None →
  find_net (conf_nets (sel_conf s')) id = None.
Proof.
  intros E H. destruct (find_net (conf_nets (sel_conf s')) id) as [n'|] eqn:Ef; [|done].
  destruct (view_find g s' s id n') as (n & Hn & _); [done..|]. congruence.
Qed.

Lemma view_put {A} (g : net → A) s id n n' :
  find_net (conf_nets (sel_conf s)) id = Some n → g n' = g n →
  nets_view g (with_conf s (with_net (sel_conf s) id n')) = nets_view g s.
Proof.
  unfold nets_view. cbn [sel_conf with_conf with_net conf_nets]. generalize (conf_nets (sel_conf s)). intros l Hf Hg.
  induction l as [|[i m] l IH]; cbn [find_net put_net fst snd] in *; [done|]. case_if; zbool.
  - subst i. injection Hf as ->. rewrite !fmap_cons. cbn [fst snd]. by rewrite Hg.
  - rewrite !fmap_cons. f_equal. by apply IH.
Qed.

Lemma view_of_frozen {A} (g : net → A) s s' : (∀ n, g (frozen n) = g n) →
  nets_view frozen s' = nets_view frozen s → nets_view g s' = nets_view g s.
Proof.
  intros Hg E. assert (H : ∀ s, nets_view g s = (λ e, (e.1, g e.2)) <$> nets_view frozen s).
  { intros s0. unfold nets_view. rewrite <- list_fmap_compose. apply list_fmap_ext. intros i [j n] _. cbn. by rewrite Hg. }
  by rewrite !H, E.
Qed.

(** Whether a network must wait. *)
Definition waiting (now : Z) (n : net) : bool :=
  negb (get_int n (lit "disabled_until") =? 0) && (now <? get_int n (lit "disabled_until")).

(** ** Well-formed states *)

(** What the choice needs of the table: the entries that are linked exist. *)
Record entries_ok (t : bss_table) : Prop := EntriesOk {
  eo_lru : NoDup (bss_lru t);
  eo_heap : ∀ p, p ∈ bss_lru t → ∃ b, heap t !! p = Some b ∧ bss_ok b;
  eo_last : NoDup (last_scan_res t) ∧ ∀ p, p ∈ last_scan_res t → p ∈ bss_lru t
}.

Lemma table_entries t : table_ok t → entries_ok t.
Proof.
  intros Ht. split; [by apply tk_lru| |by destruct (tk_last t Ht) as (? & ? & _)].
  intros p Hp. destruct (deref_ok t p Ht Hp) as (b & ? & _ & ?). by exists b.
Qed.

Record sel_ok (s : selector) : Prop := SelOk {
  so_conf : conf_ok (sel_conf s);
  so_bss : entries_ok (sel_bss s);
  so_keys : Forall (λ e : Z * net, key_index_ok e.2) (conf_nets (sel_conf s))
}.

Lemma ok_net s id n : sel_ok s → find_net (conf_nets (sel_conf s)) id = Some n → net_ok n ∧ key_index_ok n.
Proof.
  intros [Hc _ Hk] Hf. apply find_net_elem in Hf. pose proof (conf_vars _ Hc) as Hv.
  rewrite Forall_forall in Hv, Hk. split; [by apply (Hv (id, n))|by apply (Hk (id, n))].
Qed.

Section loops.
Context (u : setup).

(** The clock shows one second all the time. *)
Definition still (now : Z) : Prop := 0 ≤ now ∧ ∀ k, clock u k = now.

Record keeps (s s' : selector) : Prop := Keeps {
  kp_ok : sel_ok s';
  kp_view : nets_view frozen s' = nets_view frozen s;
  kp_times : ∀ now, still now → nets_view (waiting now) s' = nets_view (waiting now) s;
  kp_pssid : conf_pssid (sel_conf s') = conf_pssid (sel_conf s);
  kp_current : current_ssid (sel_conf s') = current_ssid (sel_conf s);
  kp_bl : sel_blacklist s' = sel_blacklist s;
  kp_cleared : blacklist_cleared s' = blacklist_cleared s;
  kp_bss : sel_bss s' = sel_bss s;
  kp_next : next_ssid s' = next_ssid s
}.

Lemma keeps_refl s : sel_ok s → keeps s s.
Proof. by split. Qed.

Lemma keeps_trans s s' s'' : keeps s s' → keeps s' s'' → keeps s s''.
Proof. intros [] []. split; try congruence. intros now H. by rewrite kp_times1, kp_times0. Qed.

Lemma keeps_found s s' id n : keeps s s' → find_net (conf_nets (sel_conf s)) id = Some n →
  ∃ n', find_net (conf_nets (sel_conf s')) id = Some n' ∧ frozen n' = frozen n.
Proof. intros Hk. by apply view_find, kp_view. Qed.

Lemma keeps_is_Some s s' id : keeps s s' → is_Some (find_net (conf_nets (sel_conf s)) id) →
  is_Some (find_net (conf_nets (sel_conf s')) id).
Proof. intros Hk [n Hn]. destruct (keeps_found s s' id n Hk Hn) as (n' & -> & _). by eexists. Qed.

Lemma keeps_notes s s' l : keeps s s' → keeps s (with_notes s' l).
Proof. intros []. split; try done. by destruct kp_ok0; split. Qed.

Lemma frozen_ok n : net_ok n → net_ok (frozen n).
Proof.
  intros Hn. apply set_int_ok; [done| |done]. split; [unfold INT_MIN, INT_MAX; lia|].
  split; intros x Hx; vm_compute in Hx; discriminate.
Qed.

Lemma frozen_keeps s id n : sel_ok s → find_net (conf_nets (sel_conf s)) id = Some n →
  (∀ now, still now → waiting now n = false) →
  keeps s (with_conf s (with_net (sel_conf s) id (frozen n))).
Proof.
  intros Hs Hf Hw. destruct (ok_net s id n Hs Hf) as [Hn Hk]. split; try done.
  - split; [|exact (so_bss s Hs)|].
    + eapply with_net_ok; [exact (so_conf s Hs)|done|by apply frozen_ok|by apply frozen_int].
    + apply put_Forall; [exact (so_keys s Hs)|]. cbn [snd]. unfold key_index_ok in *. by rewrite frozen_int by done.
  - apply (view_put frozen s id n); [done|apply frozen_twice].
  - intros now Hst. apply (view_put (waiting now) s id n); [done|]. rewrite Hw by done.
    unfold waiting, frozen. by rewrite get_set_int.
Qed.

Lemma clear_temp_keeps s id n : sel_ok s → find_net (conf_nets (sel_conf s)) id = Some n →
  (∀ now, still now → waiting now n = false) →
  ∃ s', wpas_clear_temp_disabled s id false = Ret s' ∧ keeps s s'.
Proof.
  intros Hs Hf Hw. unfold wpas_clear_temp_disabled, the_net. rewrite Hf. ret_simpl. eexists. split; [done|].
  pose proof (frozen_keeps s id n Hs Hf Hw) as H. change (set_int n (lit "disabled_until") 0) with (frozen n).
  case_if; [|done]. exact (keeps_notes s _ [Reenabled id] H).
Qed.

Lemma temp_disabled_spec s id n : sel_ok s → find_net (conf_nets (sel_conf s)) id = Some n →
  ∃ res s', wpas_temp_disabled u s id = Ret (res, s') ∧ keeps s s' ∧
    ∀ now, still now → (0 <? res) = waiting now n.
Proof.
  intros Hs Hf. unfold wpas_temp_disabled, the_net. rewrite Hf. ret_simpl. unfold waiting.
  destruct (get_int n (lit "disabled_until") =? 0) eqn:E0.
  { exists 0, s. split_and!; [done|by apply keeps_refl|done]. }
  unfold get_reltime. set (s1 := Sel _ _ _ _ _ _ _). assert (H1 : keeps s s1) by (destruct Hs; by split).
  destruct (ok_net s id n Hs Hf) as [Hn _]. destruct (ok_ints n Hn (lit "disabled_until")) as [Hr _].
  case_if; zbool; cbn [negb andb].
  - eexists _, s1. split_and!; [done|done|]. intros now [H0 Hst]. specialize (Hst (clock_reads s)).
    assert (Hlt : (now <? get_int n (lit "disabled_until")) = true) by (apply Z.ltb_lt; lia). rewrite Hlt.
    apply Z.ltb_lt. unfold to_int32, INT_MIN, INT_MAX in *. lia.
  - assert (Hno : ∀ now, still now → (now <? get_int n (lit "disabled_until")) = false).
    { intros now [_ Hst]. specialize (Hst (clock_reads s)). apply Z.ltb_ge. lia. }
    destruct (clear_temp_keeps s1 id n) as (s2 & -> & H2); [by apply H1|done| |].
    { intros now Hst. unfold waiting. by rewrite Hno, andb_false_r. }
    ret_simpl. eexists 0, s2. split_and!; [done|by eapply keeps_trans|]. intros now Hst. by rewrite Hno.
Qed.

(** ** The reference *)

(** Whether the network of an identifier may be chosen for an entry. *)
Definition net_suits (now : Z) (s : selector) (bss : wpa_bss) (id : Z) : bool :=
  match find_net (conf_nets (sel_conf s)) id with
  | Some n => negb (wpas_network_disabled u n) && negb (waiting now n) && fits u n bss
  | None => false
  end.

Definition suits (now : Z) (s : selector) (p id : Z) : bool :=
  match heap (sel_bss s) !! p with
  | Some bss => entry_open u s bss && net_suits now s bss id
  | None => false
  end.

(** The first entry that suits one of the networks, with the first of them. *)
Definition choose (now : Z) (s : selector) (ids : list Z) : option (Z * Z) :=
  first_some (λ p, first_some (λ id, if suits now s p id then Some (p, id) else None) ids)
    (last_scan_res (sel_bss s)).

Definition prio_in (s : selector) (id : Z) : Z :=
  match find_net (conf_nets (sel_conf s)) id with Some n => get_int n (lit "priority") | None => 0 end.

(** A network that is to be next is tried in front of the others of its
    priority. *)
Definition choose_group (now : Z) (s : selector) (next : option Z) (g : list Z) : option (Z * Z) :=
  match match next with
        | Some id => if prio_in s id =? prio_in s (default 0 (head g)) then choose now s [id] else None
        | None => None
        end with
  | Some r => Some r
  | None => choose now s g
  end.

Definition choose_all (now : Z) (s : selector) (next : option Z) : option (Z * Z) :=
  first_some (choose_group now s next) (conf_pssid (sel_conf s)).

(** With an empty blacklist. *)
Definition forgiven (s : selector) : selector :=
  with_blacklist s (BlState [] (extra_blacklist_count (sel_blacklist s))) (blacklist_cleared s).

Definition reference (now : Z) (s : selector) (next : option Z) : option (Z * Z) :=
  match choose_all now s next with
  | Some r => Some r
  | None =>
      if bool_decide (blacklist (sel_blacklist s) ≠ []) && negb (countermeasures u)
      then choose_all now (forgiven s) next else None
  end.

(** *** It does not see the changes on the way *)

Lemma net_suits_keeps now s s' bss id : still now → keeps s s' → net_suits now s' bss id = net_suits now s bss id.
Proof.
  intros Hst Hk. unfold net_suits. destruct (find_net (conf_nets (sel_conf s)) id) as [n|] eqn:E.
  - destruct (keeps_found s s' id n Hk E) as (n' & E' & Hf). rewrite E'.
    destruct (view_find (waiting now) s s' id n (kp_times s s' Hk now Hst) E) as (n2 & E2 & Hw).
    assert (n2 = n') as -> by congruence. by rewrite Hw, (disabled_frozen u n n'), (fits_frozen u n n').
  - by rewrite (view_none frozen s s' id (kp_view s s' Hk) E).
Qed.

Lemma enabled_networks_view s s' : nets_view frozen s' = nets_view frozen s →
  wpa_supplicant_enabled_networks u s' = wpa_supplicant_enabled_networks u s.
Proof.
  intros E. unfold wpa_supplicant_enabled_networks. case_if; [done|]. f_equal. f_equal.
  apply (view_of_frozen (wpas_network_disabled u) s s') in E; [|apply network_disabled_frozen].
  revert E. unfold nets_view. generalize (conf_nets (sel_conf s)), (conf_nets (sel_conf s')). intros l.
  induction l as [|e l IH]; intros [|e' l'] E; try done. rewrite !fmap_cons in E. injection E as _ E1 E2.
  specialize (IH l' E2). destruct (decide (wpas_network_disabled u e.2 = false)) as [Hd|Hd].
  - rewrite !filter_cons_True by congruence. cbn [length]. by rewrite IH.
  - by rewrite !filter_cons_False by congruence.
Qed.

Lemma entry_open_keeps s s' bss : keeps s s' → entry_open u s' bss = entry_open u s bss.
Proof. intros []. unfold entry_open, blacklisted. by rewrite kp_bl0, (enabled_networks_view s s'). Qed.

Lemma suits_keeps now s s' p id : still now → keeps s s' → suits now s' p id = suits now s p id.
Proof.
  intros Hst Hk. unfold suits. rewrite (kp_bss s s' Hk). destruct (heap (sel_bss s) !! p) as [bss|]; [|done].
  by rewrite (entry_open_keeps s s'), (net_suits_keeps now s s').
Qed.

Lemma choose_keeps now s s' ids : still now → keeps s s' → choose now s' ids = choose now s ids.
Proof.
  intros Hst Hk. unfold choose. rewrite (kp_bss s s' Hk). apply first_some_ext; intros p _.
  apply first_some_ext; intros id _. by rewrite (suits_keeps now s s').
Qed.

Lemma prio_keeps s s' id : keeps s s' → prio_in s' id = prio_in s id.
Proof.
  intros Hk. unfold prio_in. destruct (find_net (conf_nets (sel_conf s)) id) as [n|] eqn:E.
  - destruct (keeps_found s s' id n Hk E) as (n' & -> & Hf).
    rewrite <- (frozen_int n') by done. rewrite Hf. by apply frozen_int.
  - by rewrite (view_none frozen s s' id (kp_view s s' Hk) E).
Qed.

Lemma choose_group_keeps now s s' next g : still now → keeps s s' → choose_group now s' next g = choose_group now s next g.
Proof.
  intros Hst Hk. unfold choose_group. destruct next as [id|]; rewrite ?(prio_keeps s s'), !(choose_keeps now s s') by done; done.
Qed.

(** ** The loops find what the reference finds *)

Definition all_nets (s : selector) (ids : list Z) : Prop := ∀ id, id ∈ ids → is_Some (find_net (conf_nets (sel_conf s)) id).

Lemma all_nets_keeps s s' ids : keeps s s' → all_nets s ids → all_nets s' ids.
Proof. intros Hk H id Hid. by apply (keeps_is_Some s), H. Qed.

(** Whether there is the network, and it is not disabled. *)
Definition enabled (s : selector) (id : Z) : bool :=
  match find_net (conf_nets (sel_conf s)) id with Some n => negb (wpas_network_disabled u n) | None => false end.

Lemma enabled_keeps s s' id : keeps s s' → enabled s' id = enabled s id.
Proof.
  intros Hk. unfold enabled. destruct (find_net (conf_nets (sel_conf s)) id) as [n|] eqn:E.
  - destruct (keeps_found s s' id n Hk E) as (n' & -> & Hf). by rewrite (disabled_frozen u n n' Hf).
  - by rewrite (view_none frozen s s' id (kp_view s s' Hk) E).
Qed.

Lemma group_loop_spec bss ids : bss_ok bss → ∀ s, sel_ok s → all_nets s ids →
  ∃ r s', group_loop u s bss (is_wpa bss) (is_osen_bss bss) ids = Ret (r, s') ∧ keeps s s' ∧
    (∀ id, r = Some id → id ∈ ids ∧ enabled s id = true) ∧
    ∀ now, still now → r = first_some (λ id, if net_suits now s bss id then Some id else None) ids.
Proof.
  intros Hb. induction ids as [|id ids IH]; intros s Hs Hall.
  { exists None, s. split_and!; [done|by apply keeps_refl|done|done]. }
  destruct (Hall id) as [n Hn]; [by left|]. cbn [group_loop]. unfold the_net. rewrite Hn. ret_simpl.
  assert (Hall' : all_nets s ids) by (intros x Hx; apply Hall; by right).
  assert (Hin : ∀ s0 (r : option Z), keeps s s0 → (∀ i, r = Some i → i ∈ ids ∧ enabled s0 i = true) →
    ∀ i, r = Some i → i ∈ id :: ids ∧ enabled s i = true).
  { intros s0 r Hk Hr i Hi. destruct (Hr i Hi) as [H1 H2]. split; [by right|]. by rewrite <- (enabled_keeps s s0). }
  destruct (wpas_network_disabled u n) eqn:Ed.
  { destruct (IH s Hs Hall') as (r & s' & -> & Hk & Hr & Href). exists r, s'. split_and!; [done|done|by apply (Hin s); [apply keeps_refl|]|].
    intros now Hst. assert (Hz : net_suits now s bss id = false) by (unfold net_suits; by rewrite Hn, Ed).
    cbn [first_some]. rewrite Hz. by apply Href. }
  destruct (temp_disabled_spec s id n Hs Hn) as (res & s1 & -> & Hk1 & Hres). ret_simpl.
  assert (Hlater : ∀ P : Z → bool, (∀ now, still now → P now = false) →
    (∀ now, still now → net_suits now s bss id = P now) →
    ∃ r s', group_loop u s1 bss (is_wpa bss) (is_osen_bss bss) ids = Ret (r, s') ∧ keeps s s' ∧
    (∀ i, r = Some i → i ∈ id :: ids ∧ enabled s i = true) ∧
    ∀ now, still now → r = first_some (λ i, if net_suits now s bss i then Some i else None) (id :: ids)).
  { intros P HP Hsuit. destruct (IH s1 (kp_ok s s1 Hk1) (all_nets_keeps s s1 ids Hk1 Hall')) as (r & s2 & -> & Hk2 & Hr & Href).
    exists r, s2. split_and!; [done|by eapply keeps_trans|by apply (Hin s1)|]. intros now Hst. cbn [first_some].
    assert (Hz : net_suits now s bss id = false) by (by rewrite Hsuit, HP).
    rewrite Hz, (Href now Hst). apply first_some_ext. intros i _. by rewrite (net_suits_keeps now s s1). }
  destruct (0 <? res) eqn:Er.
  { apply (Hlater (λ _, false)); [done|]. intros now Hst. specialize (Hres now Hst). unfold net_suits.
    by rewrite Hn, Ed, <- Hres. }
  destruct (keeps_found s s1 id n Hk1 Hn) as (n1 & Hn1 & Hfr). rewrite Hn1. ret_simpl.
  destruct (ok_net s1 id n1 (kp_ok s s1 Hk1) Hn1) as [Hok Hkey].
  rewrite (fits_spec u n1 bss Hb Hok Hkey), (fits_frozen u n n1 bss Hfr). ret_simpl.
  assert (Hsuit : ∀ now, still now → net_suits now s bss id = fits u n bss).
  { intros now Hst. specialize (Hres now Hst). unfold net_suits. by rewrite Hn, Ed, <- Hres. }
  destruct (fits u n bss) eqn:Ef; [|by apply (Hlater (λ _, false))].
  exists (Some id), s1. split_and!; [done|done|intros i [= <-]; split; [by left|unfold enabled; by rewrite Hn, Ed]|].
  intros now Hst. specialize (Hsuit now Hst). cbn [first_some]. by rewrite Hsuit.
Qed.

(** What is found is an entry of the scan and one of the networks. *)
Definition found_in (s : selector) (ids : list Z) (r : option (Z * Z)) : Prop :=
  ∀ p id, r = Some (p, id) → p ∈ last_scan_res (sel_bss s) ∧ id ∈ ids ∧ enabled s id = true.

Lemma choose_entry now s p bss ids : heap (sel_bss s) !! p = Some bss →
  first_some (λ id, if suits now s p id then Some (p, id) else None) ids =
  if entry_open u s bss then (λ id, (p, id)) <$> first_some (λ id, if net_suits now s bss id then Some id else None) ids
  else None.
Proof.
  intros Hp. assert (E : ∀ id, suits now s p id = entry_open u s bss && net_suits now s bss id)
    by (intros id; unfold suits; by rewrite Hp).
  induction ids as [|id ids IH]; cbn [first_some]; [by case_if|]. rewrite E, IH.
  destruct (entry_open u s bss); cbn [andb]; [|done]. by destruct (net_suits now s bss id).
Qed.

Lemma select_loop_spec entries ids : ∀ s, sel_ok s → all_nets s ids →
  (∀ p, p ∈ entries → p ∈ last_scan_res (sel_bss s)) →
  ∃ r s', select_loop u s entries ids = Ret (r, s') ∧ keeps s s' ∧ found_in s ids r ∧
    ∀ now, still now → r = first_some (λ p, first_some (λ id, if suits now s p id then Some (p, id) else None) ids) entries.
Proof.
  induction entries as [|p entries IH]; intros s Hs Hall Hin.
  { exists None, s. split_and!; [done|by apply keeps_refl|done|done]. }
  destruct (eo_heap (sel_bss s) (so_bss s Hs) p) as (bss & Hp & Hb).
  { destruct (eo_last (sel_bss s) (so_bss s Hs)) as [_ Hl]. apply Hl, Hin. by left. }
  cbn [select_loop]. unfold deref. rewrite Hp. ret_simpl. rewrite scan_res_match_spec by done.
  assert (Hrest : ∀ s1, keeps s s1 → (∀ now, still now →
    first_some (λ id, if suits now s p id then Some (p, id) else None) ids = None) →
    ∃ r s', select_loop u s1 entries ids = Ret (r, s') ∧ keeps s s' ∧ found_in s ids r ∧
    ∀ now, still now → r = first_some (λ p, first_some (λ id, if suits now s p id then Some (p, id) else None) ids) (p :: entries)).
  { intros s1 Hk Hnone. destruct (IH s1 (kp_ok s s1 Hk) (all_nets_keeps s s1 ids Hk Hall)) as (r & s2 & -> & Hk2 & Hf & Href).
    { intros q Hq. rewrite (kp_bss s s1 Hk). apply Hin. by right. }
    exists r, s2. split_and!; [done|by eapply keeps_trans| |].
    - intros q id Hr. destruct (Hf q id Hr) as (H1 & H2 & H3). by rewrite (kp_bss s s1 Hk) in H1; rewrite (enabled_keeps s s1) in H3.
    - intros now Hst. cbn [first_some]. rewrite (Hnone now Hst), (Href now Hst). apply first_some_ext; intros q _.
      apply first_some_ext; intros id _. by rewrite (suits_keeps now s s1). }
  destruct (entry_open u s bss) eqn:Eo.
  2: { ret_simpl. apply Hrest; [by apply keeps_refl|]. intros now _. by rewrite (choose_entry now s p bss), Eo. }
  destruct (group_loop_spec bss ids Hb s Hs Hall) as (r & s1 & -> & Hk & Hr & Href). ret_simpl.
  destruct r as [id|].
  - exists (Some (p, id)), s1. split_and!; [done|done| |].
    + intros q i [= <- <-]. split_and!; [apply Hin; by left|by apply Hr..].
    + intros now Hst. cbn [first_some]. by rewrite (choose_entry now s p bss), Eo, <- (Href now Hst).
  - apply Hrest; [done|]. intros now Hst. by rewrite (choose_entry now s p bss), Eo, <- (Href now Hst).
Qed.

Lemma select_bss_spec s ids : sel_ok s → all_nets s ids →
  ∃ r s', wpa_supplicant_select_bss u s ids = Ret (r, s') ∧ keeps s s' ∧ found_in s ids r ∧
    ∀ now, still now → r = choose now s ids.
Proof. intros Hs Hall. by apply select_loop_spec. Qed.

(** The networks that a search over [groups] may find. *)
Definition among (next : option Z) (groups : list (list Z)) : list Z := option_list next ++ concat groups.

Lemma try_next_spec s next h : sel_ok s → all_nets s (option_list next) → is_Some (find_net (conf_nets (sel_conf s)) h) →
  ∃ r s', (n ← the_net s h;
    match next with
    | Some id =>
        m ← the_net s id;
        if get_int m (lit "priority") =? get_int n (lit "priority")
        then wpa_supplicant_select_bss u s [id] else Ret (None, s)
    | None => Ret (None, s)
    end) = Ret (r, s') ∧ keeps s s' ∧ found_in s (option_list next) r ∧
    ∀ now, still now → r = match next with
      | Some id => if prio_in s id =? prio_in s h then choose now s [id] else None
      | None => None
      end.
Proof.
  intros Hs Hall [n Hn]. unfold the_net, prio_in. rewrite Hn. ret_simpl. destruct next as [id|].
  2: { exists None, s. split_and!; [done|by apply keeps_refl|done|done]. }
  destruct (Hall id) as [m Hm]; [by left|]. rewrite Hm. ret_simpl.
  case_if; [by apply select_bss_spec|]. exists None, s. split_and!; [done|by apply keeps_refl|done|done].
Qed.

Lemma found_sub s ids ids' r : found_in s ids r → ids ⊆ ids' → found_in s ids' r.
Proof. intros H Hi p id Hr. destruct (H p id Hr) as (? & ? & ?). split_and!; [done|by apply Hi|done]. Qed.

Lemma prio_loop_spec next groups : ∀ s, sel_ok s → all_nets s (among next groups) → Forall (λ g, g ≠ []) groups →
  ∃ r s', prio_loop u s next groups = Ret (r, s') ∧ keeps s s' ∧ found_in s (among next groups) r ∧
    ∀ now, still now → r = first_some (choose_group now s next) groups.
Proof.
  induction groups as [|g groups IH]; intros s Hs Hall Hne.
  { exists None, s. split_and!; [done|by apply keeps_refl|done|done]. }
  apply Forall_cons in Hne as [Hg Hne]. destruct g as [|h g]; [done|]. cbn [prio_loop head].
  change (need "empty list" (Some h)) with (Ret h). ret_simpl.
  assert (Hn : all_nets s (option_list next)) by (intros i Hi; apply Hall; unfold among; set_solver).
  assert (Hh : all_nets s (h :: g)) by (intros i Hi; apply Hall; unfold among; cbn [concat]; set_solver).
  assert (Hrest : all_nets s (among next groups)) by (intros i Hi; apply Hall; unfold among in *; cbn [concat]; set_solver).
  destruct (try_next_spec s next h Hs Hn) as (r1 & s1 & E1 & K1 & F1 & R1); [apply Hh; by left|].
  destruct (Hh h) as [n Hf]; [by left|]. unfold the_net in E1 |- *. rewrite Hf in E1 |- *. cbn [need] in E1. rewrite outcome_bind_ret in E1. cbv beta in E1. ret_simpl.
  rewrite E1. ret_simpl. destruct r1 as [[p id]|].
  { exists (Some (p, id)), s1. split_and!; [done|done|eapply found_sub; [done|unfold among; set_solver]|].
    intros now Hst. cbn [first_some]. unfold choose_group. change (default 0 (head (h :: g))) with h. by rewrite <- (R1 now Hst). }
  destruct (select_bss_spec s1 (h :: g)) as (r2 & s2 & E2 & K2 & F2 & R2); [by apply K1|by eapply all_nets_keeps|].
  rewrite E2. ret_simpl. pose proof (keeps_trans _ _ _ K1 K2) as K.
  assert (Hgroup : ∀ now, still now → choose_group now s next (h :: g) = r2).
  { intros now Hst. unfold choose_group. change (default 0 (head (h :: g))) with h. rewrite <- (R1 now Hst).
    by rewrite (R2 now Hst), (choose_keeps now s s1). }
  destruct r2 as [[p id]|].
  { exists (Some (p, id)), s2. split_and!; [done|done| |].
    - intros q i Hr. destruct (F2 q i Hr) as (H1 & H2 & H3). rewrite (kp_bss s s1 K1) in H1. rewrite (enabled_keeps s s1 i K1) in H3.
      split_and!; [done| |done]. unfold among. cbn [concat]. set_solver.
    - intros now Hst. cbn [first_some]. by rewrite (Hgroup now Hst). }
  destruct (IH s2 (kp_ok s s2 K)) as (r3 & s3 & E3 & K3 & F3 & R3); [by eapply all_nets_keeps|done|].
  rewrite E3. exists r3, s3. split_and!; [done|by eapply keeps_trans| |].
  - intros q i Hr. destruct (F3 q i Hr) as (H1 & H2 & H3). rewrite (kp_bss s s2 K) in H1. rewrite (enabled_keeps s s2 i K) in H3.
    split_and!; [done| |done]. unfold among in *. cbn [concat]. set_solver.
  - intros now Hst. cbn [first_some]. rewrite (Hgroup now Hst), (R3 now Hst). apply first_some_ext; intros x _.
    by apply choose_group_keeps.
Qed.
End loops.
