(* ===== verification/SelectPick.v ===== *)
(** * The choice of a network: what is chosen

    [wpa_supplicant_pick_network] chooses what [SelectSpec.reference] says: a
    network of the highest priority that any entry suits, with the first entry
    in the order of the scan.  The blacklist gives way when nothing else is
    left, and a network that failed to authenticate waits. *)

From Stdlib Require Import Sorted.
From stdpp Require Import gmap sorting.
From S2P Require Import Prelude CString Common WpaIe WpaCommon Network Blacklist Bss BssTable BssTableSpec.
From S2P Require Import ConfigSsid ConfigText ConfigVars ConfigSsidSpec CtrlNetwork CtrlNetworkSpec.
From S2P Require Import Select SelectFits SelectSpec.

(** ** The lists of one priority *)

Lemma find_net_in l id : id ∈ fst <$> l → is_Some (find_net l id).
Proof.
  induction l as [|[i n] l IH]; cbn [find_net fst snd]; [by intros ?%elem_of_nil|].
  rewrite fmap_cons. intros [->|H]%elem_of_cons; [by rewrite Z.eqb_refl|]. case_if; [by eexists|by apply IH].
Qed.

Lemma elem_find_net l id n : NoDup (fst <$> l) → (id, n) ∈ l → find_net l id = Some n.
Proof.
  induction l as [|[i m] l IH]; [by intros _ ?%elem_of_nil|]. rewrite fmap_cons, NoDup_cons. intros [Hi Hd] H.
  cbn [find_net fst snd]. apply elem_of_cons in H as [[= -> ->]|H]; [by rewrite Z.eqb_refl|].
  rewrite (proj2 (Z.eqb_neq _ _)); [by apply IH|]. intros ->. apply Hi. apply list_elem_of_fmap. by exists (i, n).
Qed.

Lemma in_with_prio w id p : conf_ok w →
  id ∈ with_prio (networks (conf_of w)) p ↔
  ∃ n, find_net (conf_nets w) id = Some n ∧ get_int n (lit "priority") = p.
Proof.
  intros Hw. unfold with_prio, conf_of. cbn [networks]. rewrite list_elem_of_fmap. split.
  - intros (x & -> & [Hp Hx]%list_elem_of_filter).
    apply list_elem_of_fmap in Hx as ([i n] & -> & Hin). exists n. split; [|done].
    apply elem_find_net; [by apply conf_unique|done].
  - intros (n & Hn & Hp). exists (as_ssid (id, n)). split; [done|]. apply list_elem_of_filter. split; [done|].
    apply list_elem_of_fmap. exists (id, n). split; [done|by apply find_net_elem].
Qed.

Lemma prio_in_use w p : (∃ s, s ∈ networks (conf_of w) ∧ priority s = p) → ∃ id, id ∈ with_prio (networks (conf_of w)) p.
Proof.
  intros (s & Hs & Hp). exists (ssid_id s). apply list_elem_of_fmap. exists s. split; [done|]. by apply list_elem_of_filter.
Qed.

Lemma groups_exist w : conf_ok w →
  Forall (λ g, g ≠ []) (conf_pssid w) ∧ ∀ id, id ∈ concat (conf_pssid w) → is_Some (find_net (conf_nets w) id).
Proof.
  intros Hw. destruct (conf_prio w Hw) as (ps & [_ Hps] & Hg). change (pssid (conf_of w)) with (conf_pssid w) in Hg.
  rewrite Hg. unfold groups_of. split.
  - apply Forall_fmap, Forall_forall. intros p Hp. cbn. apply Hps in Hp. destruct (prio_in_use w p Hp) as [id Hid].
    intros E. apply (not_elem_of_nil id). by rewrite <- E.
  - intros id Hid. apply list_elem_of_In, in_concat in Hid as (g & Hg' & Hid). apply list_elem_of_In in Hg', Hid.
    apply list_elem_of_fmap in Hg' as (p & -> & _). apply in_with_prio in Hid as (n & Hn & _); [|done]. by exists n.
Qed.

(** Every network is in the list of its priority, in front of the lists of
    lower ones. *)
Lemma group_order w l1 g l2 id n : conf_ok w → conf_pssid w = l1 ++ g :: l2 → find_net (conf_nets w) id = Some n →
  ∃ q, (∀ i, i ∈ g ↔ ∃ m, find_net (conf_nets w) i = Some m ∧ get_int m (lit "priority") = q) ∧
    (q < get_int n (lit "priority") → ∃ g', g' ∈ l1 ∧ id ∈ g').
Proof.
  intros Hw Hl Hn. destruct (conf_prio w Hw) as (ps & [Hs Hps] & Hg). change (pssid (conf_of w)) with (conf_pssid w) in Hg.
  rewrite Hg in Hl. unfold groups_of in Hl.
  apply fmap_app_inv in Hl as (ps1 & ps2' & -> & Hl2 & ->). symmetry in Hl2.
  apply fmap_cons_inv in Hl2 as (q & ps2 & -> & _ & ->). exists q. split.
  { intros i. by apply in_with_prio. }
  intros Hlt. assert (Hp : get_int n (lit "priority") ∈ ps1 ++ q :: ps2).
  { apply Hps. exists (as_ssid (id, n)). split; [|done]. apply list_elem_of_fmap. exists (id, n).
    split; [done|by apply find_net_elem]. }
  exists (with_prio (networks (conf_of w)) (get_int n (lit "priority"))). split.
  2: { apply in_with_prio; [done|]. by exists n. }
  apply list_elem_of_fmap. exists (get_int n (lit "priority")). split; [done|].
  apply elem_of_app in Hp as [Hp|Hp]; [done|]. exfalso.
  apply StronglySorted_app_1_r in Hs. apply StronglySorted_inv in Hs as [_ Hs].
  apply elem_of_cons in Hp as [Heq|Hp]; [lia|]. rewrite Forall_forall in Hs. specialize (Hs _ Hp). lia.
Qed.

(** ** The rounds *)

(** The counts of the blacklist are far from the largest [int]. *)
Definition counts_small (s : selector) : Prop :=
  INT_MIN ≤ extra_blacklist_count (sel_blacklist s) + max_count (blacklist (sel_blacklist s)) ≤ INT_MAX ∧
  INT_MIN ≤ blacklist_cleared s < INT_MAX.

(** The same networks and entries, but for times that have passed. *)
Record same_nets (s s' : selector) : Prop := SameNets {
  sn_ok : sel_ok s';
  sn_view : nets_view frozen s' = nets_view frozen s;
  sn_pssid : conf_pssid (sel_conf s') = conf_pssid (sel_conf s);
  sn_current : current_ssid (sel_conf s') = current_ssid (sel_conf s);
  sn_bss : sel_bss s' = sel_bss s
}.

(** Clearing the blacklist keeps what it knows in the sum. *)
Definition counted (s s' : selector) : Prop :=
  extra_blacklist_count (sel_blacklist s') + max_count (blacklist (sel_blacklist s')) =
    extra_blacklist_count (sel_blacklist s) + max_count (blacklist (sel_blacklist s)) ∧
  (0 ≤ extra_blacklist_count (sel_blacklist s) → 0 ≤ extra_blacklist_count (sel_blacklist s')) ∧
  blacklist_cleared s ≤ blacklist_cleared s' ≤ blacklist_cleared s + 1.

Lemma max_count_acc l : ∀ m, m ≤ foldl (λ m e, if m <? e_count e then e_count e else m) m l.
Proof.
  induction l as [|e l IH]; intros m; cbn [foldl]; [lia|]. specialize (IH (if m <? e_count e then e_count e else m)).
  revert IH. case_if; zbool; intros IH; lia.
Qed.

Section pick.
Context (u : setup).

Lemma kept_same_nets s s' : keeps u s s' → same_nets s s'.
Proof. by intros []. Qed.

Lemma prio_loop_all next s : sel_ok s → all_nets s (option_list next) →
  ∃ r s', prio_loop u s next (conf_pssid (sel_conf s)) = Ret (r, s') ∧ keeps u s s' ∧
    (∀ p id, r = Some (p, id) → p ∈ last_scan_res (sel_bss s) ∧ enabled u s id = true) ∧
    ∀ now, still u now → r = choose_all u now s next.
Proof.
  intros Hs Hn. destruct (groups_exist (sel_conf s) (so_conf s Hs)) as [Hne Hall].
  assert (Ham : all_nets s (among next (conf_pssid (sel_conf s)))).
  { intros id [H|H]%elem_of_app; [by apply Hn|by apply Hall]. }
  destruct (prio_loop_spec u next _ s Hs Ham Hne) as (r & s' & E & Hk & Hf & Href).
  exists r, s'. split_and!; [done|done| |done]. intros p id Hr. by destruct (Hf p id Hr) as (? & ? & ?).
Qed.

(** Only the entries of the blacklist count. *)
Lemma choose_all_blacklist now s next l x y c d :
  choose_all u now (with_blacklist s (BlState l x) c) next = choose_all u now (with_blacklist s (BlState l y) d) next.
Proof. reflexivity. Qed.

Lemma choose_all_keeps now s s' next : still u now → keeps u s s' → choose_all u now s' next = choose_all u now s next.
Proof.
  intros Hst Hk. unfold choose_all. rewrite (kp_pssid u s s' Hk). apply first_some_ext; intros g _.
  by apply choose_group_keeps.
Qed.

Lemma blacklist_keeps s s' b c : keeps u s s' → keeps u (with_blacklist s b c) (with_blacklist s' b c).
Proof. intros [[Hc Hb Hk] ????????]. split; try assumption; [by split|done|done]. Qed.

Lemma pick_loop_spec next s : sel_ok s → counts_small s → all_nets s (option_list next) →
  ∃ r s', pick_loop u 2 s next = Ret (r, s') ∧ same_nets s s' ∧ next_ssid s' = next_ssid s ∧
    (blacklist (sel_blacklist s') = blacklist (sel_blacklist s) ∨ blacklist (sel_blacklist s') = []) ∧
    counted s s' ∧
    (∀ p id, r = Some (p, id) → p ∈ last_scan_res (sel_bss s) ∧ enabled u s id = true) ∧
    ∀ now, still u now → r = reference u now s next.
Proof.
  intros Hs [Hx Hc] Hn. remember 1%nat as one eqn:E1. cbn [pick_loop].
  destruct (prio_loop_all next s Hs Hn) as (r & s1 & -> & Hk & Hf & Href). ret_simpl.
  assert (Hdone : ∀ r' : option (Z * Z), r' = r → (∀ now, still u now → reference u now s next = r) →
    ∃ r0 s', Ret (r', s1) = Ret (r0, s') ∧ same_nets s s' ∧ next_ssid s' = next_ssid s ∧
    (blacklist (sel_blacklist s') = blacklist (sel_blacklist s) ∨ blacklist (sel_blacklist s') = []) ∧
    counted s s' ∧
    (∀ p id, r0 = Some (p, id) → p ∈ last_scan_res (sel_bss s) ∧ enabled u s id = true) ∧
    ∀ now, still u now → r0 = reference u now s next).
  { intros r' -> Hr. exists r, s1. split_and!; [done|by apply kept_same_nets|by apply Hk| | |done|].
    - left. by rewrite (kp_bl u s s1 Hk).
    - unfold counted. rewrite (kp_bl u s s1 Hk), (kp_cleared u s s1 Hk). split_and!; [done|done|lia|lia].
    - intros now Hst. by rewrite Hr. }
  destruct r as [[p id]|].
  { apply Hdone; [done|]. intros now Hst. unfold reference. by rewrite <- (Href now Hst). }
  rewrite (kp_bl u s s1 Hk), (kp_cleared u s s1 Hk).
  destruct (bool_decide (blacklist (sel_blacklist s) ≠ []) && negb (countermeasures u)) eqn:Eb.
  2: { apply Hdone; [done|]. intros now Hst. unfold reference. by rewrite <- (Href now Hst), Eb. }
  unfold wpa_blacklist_clear. rewrite (proj2 (int_chk_Ret _ _)) by (split; [done|lia]). ret_simpl.
  rewrite (proj2 (int_chk_Ret _ _)) by (split; [done|unfold INT_MIN, INT_MAX in *; lia]). ret_simpl.
  set (b := BlState [] _). set (c := blacklist_cleared s + 1).
  subst one. cbn [pick_loop].
  assert (Hk1 : keeps u (with_blacklist s b c) (with_blacklist s1 b c)) by by apply blacklist_keeps.
  destruct (prio_loop_all next (with_blacklist s1 b c)) as (r & s2 & -> & Hk2 & Hf2 & Href2).
  { by apply Hk1. }
  { by apply (all_nets_keeps u (with_blacklist s b c)). }
  ret_simpl. pose proof (keeps_trans u _ _ _ Hk1 Hk2) as Hk3.
  assert (Hr : ∀ now, still u now → reference u now s next = r).
  { intros now Hst. unfold reference. rewrite <- (Href now Hst), Eb. rewrite (Href2 now Hst).
    rewrite (choose_all_keeps now (with_blacklist s b c) (with_blacklist s1 b c)) by done. apply choose_all_blacklist. }
  assert (Hr' : ∃ s', match r with
      | Some r => Ret (Some r, s2)
      | None => if bool_decide (blacklist (sel_blacklist s2) ≠ []) && negb (countermeasures u)
                then b0 ← wpa_blacklist_clear (sel_blacklist s2); c0 ← int_chk (blacklist_cleared s2 + 1); OutOfFuel
                else Ret (None, s2)
      end = Ret (r, s') ∧ s' = s2).
  { destruct r as [r|]; [by eexists|]. rewrite (kp_bl u _ _ Hk3). cbn. by eexists. }
  destruct Hr' as (s' & Hm & ->). cbn [pick_loop] in Hm |- *. exists r, s2. split_and!.
  - destruct r as [[p id]|]; exact Hm.
  - by destruct Hk3.
  - by rewrite (kp_next u _ _ Hk3).
  - right. by rewrite (kp_bl u _ _ Hk3).
  - unfold counted. rewrite (kp_bl u _ _ Hk3), (kp_cleared u _ _ Hk3). subst b c. cbn.
    pose proof (max_count_acc (blacklist (sel_blacklist s)) 0). unfold max_count in *. cbn. split_and!; lia.
  - intros p id Hp. destruct (Hf2 p id Hp) as [Hpl He]. split.
    { change (p ∈ last_scan_res (sel_bss s1)) in Hpl. by rewrite (kp_bss u _ _ Hk) in Hpl. }
    by rewrite <- (enabled_keeps u s s1).
  - intros now Hst. by rewrite Hr.
Qed.

(** The network that is to be next, when there still is such a network. *)
Definition valid_next (s : selector) : option Z :=
  id ← next_ssid s; match find_net (conf_nets (sel_conf s)) id with Some _ => Some id | None => None end.

(** What [wpa_supplicant_pick_network] makes of the choice. *)
Definition picked (s : selector) (r : option (Z * Z)) : option Z * option Z :=
  match r with
  | Some (p, id) =>
      match find_net (conf_nets (sel_conf s)) id with
      | Some n => if key_missing n then (None, Some id) else (Some p, Some id)
      | None => (None, None)
      end
  | None => (None, None)
  end.

Lemma with_next_ok s n : sel_ok s → sel_ok (with_next s n).
Proof. by intros []. Qed.

Lemma first_some_nil {A B} (f : A → option B) l : (∀ a, f a = None) → first_some f l = None.
Proof. intros H. induction l as [|a l IH]; cbn [first_some]; [done|]. by rewrite H. Qed.

Lemma reference_no_scan now s next : last_scan_res (sel_bss s) = [] → reference u now s next = None.
Proof.
  intros E. assert (Hc : ∀ x, last_scan_res (sel_bss x) = [] → choose_all u now x next = None).
  { intros x Ex. apply first_some_nil. intros g. unfold choose_group, choose. rewrite Ex. cbn [first_some].
    destruct next; [by case_if|done]. }
  unfold reference. rewrite Hc by done. case_if; [|done]. by apply Hc.
Qed.

Lemma pick_spec s : sel_ok s → counts_small s →
  ∃ p id s', wpa_supplicant_pick_network u s = Ret (p, id, s') ∧ same_nets s s' ∧
    (blacklist (sel_blacklist s') = blacklist (sel_blacklist s) ∨ blacklist (sel_blacklist s') = []) ∧
    counted s s' ∧
    (∀ q, p = Some q → q ∈ last_scan_res (sel_bss s)) ∧
    (∀ i, id = Some i → enabled u s i = true) ∧
    ∀ now, still u now → (p, id) = picked s (reference u now s (valid_next s)).
Proof.
  intros Hs Hc. unfold wpa_supplicant_pick_network. case_bool_decide as El.
  { exists None, None, s. split_and!; [done|by split|by left|unfold counted; lia|done|done|]. intros now _. by rewrite reference_no_scan. }
  set (s0 := match next_ssid s with Some _ => with_next s None | None => s end).
  assert (Hs0 : (match next_ssid s with
      | Some id => (match find_net (conf_nets (sel_conf s)) id with Some _ => Some id | None => None end, with_next s None)
      | None => (None, s)
      end) = (valid_next s, s0)).
  { subst s0. unfold valid_next. by destruct (next_ssid s). }
  rewrite Hs0. assert (Hn : all_nets s (option_list (valid_next s))).
  { intros id Hid. unfold valid_next in Hid. destruct (next_ssid s) as [i|]; [|by apply elem_of_nil in Hid].
    cbn in Hid. destruct (find_net (conf_nets (sel_conf s)) i) eqn:E; [|by apply elem_of_nil in Hid].
    apply list_elem_of_singleton in Hid as ->. by eexists. }
  assert (H0 : sel_ok s0 ∧ counts_small s0 ∧ all_nets s0 (option_list (valid_next s)) ∧ same_nets s s0 ∧
    blacklist (sel_blacklist s0) = blacklist (sel_blacklist s) ∧
    find_net (conf_nets (sel_conf s0)) = find_net (conf_nets (sel_conf s)) ∧
    ∀ now, reference u now s0 (valid_next s) = reference u now s (valid_next s)).
  { subst s0. destruct (next_ssid s); [|by split_and!].
    split_and!; try done; [by apply with_next_ok|]. split; try done. by apply with_next_ok. }
  destruct H0 as (H1 & H2 & H3 & H4 & H5 & H6 & H7).
  destruct (pick_loop_spec (valid_next s) s0 H1 H2 H3) as (r & s1 & -> & Hsame & _ & Hbl & Hcn & Hf & Href). ret_simpl.
  assert (Hcn' : counted s s1) by (subst s0; by destruct (next_ssid s)).
  assert (Hss : same_nets s s1) by (destruct H4, Hsame; split; congruence). rewrite H5 in Hbl.
  destruct r as [[p id]|].
  2: { exists None, None, s1. split_and!; [done..|]. intros now Hst. by rewrite <- H7, <- (Href now Hst). }
  destruct (Hf p id eq_refl) as [Hpl He]. unfold enabled in He. rewrite H6 in He.
  destruct (find_net (conf_nets (sel_conf s)) id) as [n|] eqn:Hnn; [|done].
  assert (Hbss : sel_bss s0 = sel_bss s) by (subst s0; by destruct (next_ssid s)). rewrite Hbss in Hpl.
  destruct (view_find frozen s s1 id n (sn_view s s1 Hss) Hnn) as (n' & Hn' & Hfr).
  unfold the_net. rewrite Hn'. ret_simpl.
  assert (Hkm : key_missing n' = key_missing n) by (by rewrite <- (key_missing_frozen n'), Hfr, key_missing_frozen).
  rewrite Hkm. assert (Hp : ∀ now, still u now → picked s (reference u now s (valid_next s)) =
    if key_missing n then (None, Some id) else (Some p, Some id)).
  { intros now Hst. rewrite <- H7, <- (Href now Hst). cbn. by rewrite Hnn. }
  case_if.
  - eexists _, _, _. split_and!; [done| |done|exact Hcn'|done|by intros i [= <-]; unfold enabled; rewrite Hnn|intros now Hst; by rewrite Hp].
    destruct Hss as [Hok Hv Hps Hcu Hb]. split; try done. by destruct Hok; split.
  - eexists _, _, _. split_and!; [done|done|done|done|by intros q [= <-]|by intros i [= <-]; unfold enabled; rewrite Hnn|intros now Hst; by rewrite Hp].
Qed.
End pick.

(** ** What the reference chooses *)

Section best.
Context (u : setup) (now : Z).

Definition none_suits (s : selector) : Prop :=
  ∀ p id, p ∈ last_scan_res (sel_bss s) → suits u now s p id = false.

(** Nothing of a higher priority suits any entry, and no earlier entry suits a
    network of the same priority. *)
Definition best (s : selector) (p id : Z) : Prop :=
  suits u now s p id = true ∧
  (∀ q i, q ∈ last_scan_res (sel_bss s) → suits u now s q i = true → prio_in s i ≤ prio_in s id) ∧
  ∃ before after, last_scan_res (sel_bss s) = before ++ p :: after ∧
    ∀ q i, q ∈ before → prio_in s i = prio_in s id → suits u now s q i = false.

Lemma choose_Some s ids p id : choose u now s ids = Some (p, id) →
  suits u now s p id = true ∧ id ∈ ids ∧ ∃ before after, last_scan_res (sel_bss s) = before ++ p :: after ∧
    ∀ q i, q ∈ before → i ∈ ids → suits u now s q i = false.
Proof.
  intros H. apply first_some_Some in H as (l1 & x & l2 & -> & Hx & Hl).
  apply first_some_Some in Hx as (m1 & y & m2 & -> & Hy & _).
  destruct (suits u now s x y) eqn:E; [|done]. injection Hy as <- <-. split_and!; [done|set_solver|].
  exists l1, l2. split; [done|]. intros q i Hq Hi. rewrite Forall_forall in Hl. specialize (Hl q Hq).
  apply first_some_None in Hl. rewrite Forall_forall in Hl. specialize (Hl i Hi). by destruct (suits u now s q i).
Qed.

Lemma choose_None s ids p id : choose u now s ids = None → p ∈ last_scan_res (sel_bss s) → id ∈ ids →
  suits u now s p id = false.
Proof.
  intros H Hp Hi. apply first_some_None in H. rewrite Forall_forall in H. specialize (H p Hp).
  apply first_some_None in H. rewrite Forall_forall in H. specialize (H id Hi). by destruct (suits u now s p id).
Qed.

Lemma suits_found s p id : suits u now s p id = true → ∃ n, find_net (conf_nets (sel_conf s)) id = Some n ∧
  prio_in s id = get_int n (lit "priority") ∧ waiting now n = false.
Proof.
  unfold suits, net_suits, prio_in. destruct (heap (sel_bss s) !! p) as [b|]; [|done].
  destruct (find_net (conf_nets (sel_conf s)) id) as [n|]; [|by rewrite andb_false_r].
  intros [_ [[_ H]%andb_true_iff _]%andb_true_iff]%andb_true_iff. exists n. split_and!; [done..|]. by apply negb_true_iff.
Qed.

Lemma choose_all_best s p id : sel_ok s → choose_all u now s None = Some (p, id) → best s p id.
Proof.
  intros Hs H. apply first_some_Some in H as (l1 & g & l2 & Hl & Hg & Hn).
  change (choose u now s g = Some (p, id)) in Hg. apply choose_Some in Hg as (Hsuit & Hin & before & after & Hscan & Hb).
  destruct (suits_found s p id Hsuit) as (n & Hn0 & Hp & _).
  destruct (group_order (sel_conf s) l1 g l2 id n (so_conf s Hs) Hl Hn0) as (pr & Hgr & _).
  assert (Hpr : pr = prio_in s id).
  { apply Hgr in Hin as (m & Hm & Hq). rewrite Hn0 in Hm. injection Hm as <-. by rewrite Hp. }
  split_and!; [done| |].
  - intros q i Hq Hi. destruct (suits_found s q i Hi) as (m & Hm & Hpi & _). rewrite Hpi.
    destruct (decide (get_int m (lit "priority") ≤ prio_in s id)) as [|Hgt]; [done|exfalso].
    destruct (group_order (sel_conf s) l1 g l2 i m (so_conf s Hs) Hl Hm) as (pr' & Hgr' & Hlt).
    assert (Hpr' : pr' = prio_in s id).
    { apply Hgr' in Hin as (m' & Hm' & Hq'). rewrite Hn0 in Hm'. injection Hm' as <-. by rewrite Hp. }
    destruct Hlt as (g' & Hg' & Hig); [lia|]. rewrite Forall_forall in Hn. specialize (Hn g' Hg').
    change (choose u now s g' = None) in Hn. pose proof (choose_None s g' q i Hn Hq Hig). congruence.
  - exists before, after. split; [done|]. intros q i Hq Hi. destruct (suits u now s q i) eqn:E; [|done].
    destruct (suits_found s q i E) as (m & Hm & Hpi & _). rewrite <- E. apply Hb; [done|]. apply Hgr. exists m.
    split; [done|congruence].
Qed.

Lemma choose_all_None s : sel_ok s → choose_all u now s None = None → none_suits s.
Proof.
  intros Hs H p id Hp. destruct (suits u now s p id) eqn:E; [|done].
  destruct (suits_found s p id E) as (n & Hn & _).
  apply first_some_None in H. rewrite Forall_forall in H.
  destruct (conf_prio (sel_conf s) (so_conf s Hs)) as (ps & [_ Hps] & Hg).
  change (pssid (conf_of (sel_conf s))) with (conf_pssid (sel_conf s)) in Hg.
  assert (Hin : with_prio (networks (conf_of (sel_conf s))) (get_int n (lit "priority")) ∈ conf_pssid (sel_conf s)).
  { rewrite Hg. apply list_elem_of_fmap. eexists. split; [done|]. apply Hps. exists (as_ssid (id, n)).
    split; [|done]. apply list_elem_of_fmap. exists (id, n). split; [done|by apply find_net_elem]. }
  specialize (H _ Hin). change (choose u now s (with_prio (networks (conf_of (sel_conf s))) (get_int n (lit "priority"))) = None) in H.
  rewrite <- E. eapply choose_None; [done|done|]. apply in_with_prio; [by apply so_conf|]. by exists n.
Qed.

Lemma forgiven_ok s : sel_ok s → sel_ok (forgiven s).
Proof. by intros []. Qed.
End best.

(** C20: When the transmit key index of every network is 0 to 3 (others, which
    SET_NETWORK stores, make the choice read a length out of bounds:
    [wep_index_unchecked]), the networks and entries are well formed ([sel_ok])
    and the counts on the blacklist fit an [int], the choice of a network ends
    without undefined behaviour, for any clock and whatever elements the access
    points sent: every pointer it follows is to an entry or a network that
    exists.  The networks keep their values but for times that have passed.
    When the clock shows one second all the time the choice is the one of the
    reference: by priority, then the order of the scan, then the order of the
    networks, a network that is asked for next being tried in front of its
    priority. *)
Theorem pick_network_reference u s :
  sel_ok s → counts_small s →
  ∃ p id s', wpa_supplicant_pick_network u s = Ret (p, id, s') ∧ same_nets s s' ∧
    ∀ now, still u now → (p, id) = picked s (reference u now s (valid_next s)).
Proof.
  intros Hs Hc. destruct (pick_spec u s Hs Hc) as (p & id & s' & H1 & H2 & _ & _ & _ & _ & H3). by exists p, id, s'.
Qed.

(** C21: When no network is asked for next ([next_ssid] is NULL) and the clock
    stands still during the choice, on networks and entries in order ([sel_ok],
    which has transmit key indices within 0 to 3; [counts_small]): the network
    that is chosen has the highest priority of those that suit an entry of the
    last scan, and the entry is the first that suits a network of this
    priority.  An entry on the blacklist is chosen only when nothing else
    suits.  When no network is chosen, nothing suits, not even with an empty
    blacklist unless countermeasures are on; when no entry is returned for a
    network, its key must be asked for. *)
Theorem best_network_chosen u now s :
  sel_ok s → counts_small s → still u now → next_ssid s = None →
  ∃ p id s', wpa_supplicant_pick_network u s = Ret (p, id, s') ∧ same_nets s s' ∧
    match id with
    | Some id =>
        ∃ q n, find_net (conf_nets (sel_conf s)) id = Some n ∧ p = (if key_missing n then None else Some q) ∧
          (best u now s q id ∨ none_suits u now s ∧ countermeasures u = false ∧ best u now (forgiven s) q id)
    | None => p = None ∧ none_suits u now s ∧
        (blacklist (sel_blacklist s) = [] ∨ countermeasures u = true ∨ none_suits u now (forgiven s))
    end.
Proof.
  intros Hs Hc Hst Hnext. destruct (pick_spec u s Hs Hc) as (p & id & s' & H1 & H2 & _ & _ & _ & _ & H3). exists p, id, s'.
  split_and!; [done|done|]. specialize (H3 now Hst). unfold valid_next in H3. rewrite Hnext in H3. cbn [mbind option_bind] in H3.
  unfold reference in H3. pose proof (forgiven_ok s Hs) as Hf.
  assert (Hpicked : ∀ s0 q i, suits u now s0 q i = true → sel_conf s0 = sel_conf s →
    ∃ n, find_net (conf_nets (sel_conf s)) i = Some n ∧
    picked s (Some (q, i)) = ((if key_missing n then None else Some q), Some i)).
  { intros s0 q i Hsu Hcs. destruct (suits_found u now s0 q i Hsu) as (n & Hn & _). rewrite Hcs in Hn. exists n. split; [done|].
    unfold picked. rewrite Hn. by case_if. }
  destruct (choose_all u now s None) as [[q i]|] eqn:E1.
  { pose proof (choose_all_best u now s q i Hs E1) as Hb. destruct Hb as [Hsu Hb].
    destruct (Hpicked s q i Hsu eq_refl) as (n & Hn & Hp). rewrite Hp in H3. injection H3 as -> ->.
    exists q, n. split_and!; [done|done|]. left. by split. }
  pose proof (choose_all_None u now s Hs E1) as Hnone.
  destruct (bool_decide (blacklist (sel_blacklist s) ≠ []) && negb (countermeasures u)) eqn:Eb.
  - apply andb_true_iff in Eb as [_ Ecm%negb_true_iff].
    destruct (choose_all u now (forgiven s) None) as [[q i]|] eqn:E2.
    + pose proof (choose_all_best u now _ q i Hf E2) as Hb. destruct Hb as [Hsu Hb].
      destruct (Hpicked (forgiven s) q i Hsu eq_refl) as (n & Hn & Hp). rewrite Hp in H3. injection H3 as -> ->.
      exists q, n. split_and!; [done|done|]. right. split_and!; [done|done|]. by split.
    + cbn [picked] in H3. injection H3 as -> ->. split_and!; [done|done|]. right; right. by apply choose_all_None.
  - cbn [picked] in H3. injection H3 as -> ->. split_and!; [done|done|].
    apply andb_false_iff in Eb as [Eb%bool_decide_eq_false|Eb%negb_false_iff]; [left; by apply dec_stable|by right; left].
Qed.

(** ** Networks that failed to authenticate *)

(** The least time a network waits after its n-th failure in a row. *)
Definition least_wait (failures : Z) : Z := auth_duration failures 0 false.

Lemma auth_duration_least failures random x : 0 ≤ failures ≤ 100000000 →
  least_wait failures ≤ auth_duration failures random x ≤ 300 + failures * 10 ∧ 10 ≤ least_wait failures.
Proof.
  intros Hf. unfold least_wait, auth_duration. rewrite andb_false_r. set (d := if 50 <? failures then _ else _).
  assert (Hd : 10 ≤ d ≤ 300) by (subst d; repeat case_if; lia).
  destruct ((1 <? failures) && x) eqn:E; [|lia].
  apply andb_true_iff in E as [E%Z.ltb_lt _]. unfold u32. rewrite (Z.mod_small (failures * 10)) by lia.
  pose proof (Z.mod_pos_bound random (failures * 10) ltac:(lia)) as Hm. unfold to_int32. lia.
Qed.

Lemma int_ok_plain f v : named int_ranges f = None → named flag_masks f = None → INT_MIN ≤ v ≤ INT_MAX → int_ok f v.
Proof. intros H1 H2 Hv. split; [done|]. split; intros x Hx; congruence. Qed.

(** The current network after a failure that did not come too late. *)
Lemma auth_failed_spec u s random id n :
  sel_ok s → current_ssid (sel_conf s) = Some id → find_net (conf_nets (sel_conf s)) id = Some n →
  km n ≠ WPA_KEY_MGMT_WPS → 0 ≤ get_int n (lit "auth_failures") < 100000000 →
  0 ≤ clock u (clock_reads s) ≤ 1000000000 →
  ∃ s' n', wpas_auth_failed u s random = Ret s' ∧ sel_ok s' ∧
    find_net (conf_nets (sel_conf s')) id = Some n' ∧
    (∀ j, j ≠ id → find_net (conf_nets (sel_conf s')) j = find_net (conf_nets (sel_conf s)) j) ∧
    get_int n' (lit "auth_failures") = get_int n (lit "auth_failures") + 1 ∧
    clock u (clock_reads s) + least_wait (get_int n (lit "auth_failures") + 1) ≤ get_int n' (lit "disabled_until") ∧
    sel_blacklist s' = sel_blacklist s ∧ blacklist_cleared s' = blacklist_cleared s.
Proof.
  intros Hs Hcur Hn Hw Hf Hclk. unfold wpas_auth_failed, the_net. rewrite Hcur, Hn. ret_simpl.
  rewrite (proj2 (Z.eqb_neq _ _)) by done. set (af := get_int n (lit "auth_failures")) in *.
  assert (Hu : u32 (af + 1) = af + 1) by (unfold u32; rewrite Z.mod_small; lia). rewrite Hu.
  set (x := wpa_key_mgmt_wpa_ieee8021x _).
  destruct (auth_duration_least (af + 1) random x ltac:(lia)) as [Hd H10]. cbn [get_reltime clock_reads with_conf].
  destruct (ok_net s id n Hs Hn) as [Hok Hkey].
  set (now := clock u (clock_reads s)) in *. set (dur := auth_duration (af + 1) random x) in *.
  set (n1 := set_int n (lit "auth_failures") (af + 1)).
  assert (Hok1 : net_ok n1) by (apply set_int_ok; [done|apply int_ok_plain; [done|done|unfold INT_MIN, INT_MAX; lia]|done]).
  assert (Hput : ∀ m, net_ok m → (∀ f, f ≠ lit "auth_failures" → f ≠ lit "disabled_until" → get_int m f = get_int n f) →
    sel_ok (with_conf s (with_net (sel_conf s) id m))).
  { intros m Hm Hsame. split; [|exact (so_bss s Hs)|].
    - eapply with_net_ok; [exact (so_conf s Hs)|done|done|by apply Hsame].
    - apply put_Forall; [exact (so_keys s Hs)|]. cbn [snd]. unfold key_index_ok in *. by rewrite Hsame. }
  assert (Hfind : ∀ m, find_net (put_net (conf_nets (sel_conf s)) id m) id = Some m ∧
    ∀ j, j ≠ id → find_net (put_net (conf_nets (sel_conf s)) id m) j = find_net (conf_nets (sel_conf s)) j).
  { intros m. apply (found_put (sel_conf s) id n m Hn). }
  case_if; zbool.
  - eexists _, n1. split; [done|]. split_and!; [|apply Hfind|apply Hfind|apply get_set_int|lia|done|done].
    pose proof (Hput n1 Hok1) as H. destruct H as [A B C]; [intros f H1 _; by apply get_set_int_ne|by split].
  - set (n2 := set_int n1 (lit "disabled_until") (now + dur)).
    assert (Hok2 : net_ok n2) by (apply set_int_ok; [done|apply int_ok_plain; [done|done|unfold INT_MIN, INT_MAX; lia]|done]).
    eexists _, n2. split; [done|].
    assert (Hpp : with_net (with_net (sel_conf s) id n1) id n2 = with_net (sel_conf s) id n2).
    { unfold with_net. cbn [conf_nets conf_pssid current_ssid]. f_equal. clear.
      induction (conf_nets (sel_conf s)) as [|[i m] l IH]; cbn [put_net fst]; [done|].
      destruct (id =? i) eqn:E; cbn [put_net fst]; rewrite E; [done|by f_equal]. }
    cbn [sel_conf with_notes with_conf sel_blacklist blacklist_cleared]. rewrite Hpp.
    split_and!; [|apply Hfind|apply Hfind| |unfold n2; rewrite get_set_int; lia|done|done].
    + pose proof (Hput n2 Hok2) as H. destruct H as [A B C].
      { intros f H1 H2. unfold n2, n1. by rewrite !get_set_int_ne. }
      split; [exact A|exact B|exact C].
    + unfold n2. rewrite get_set_int_ne by done. apply get_set_int.
Qed.

(** A choice at a time when the network waits. *)
Lemma waiting_not_chosen u now s id n p i s' : sel_ok s → counts_small s → still u now →
  find_net (conf_nets (sel_conf s)) id = Some n → waiting now n = true →
  wpa_supplicant_pick_network u s = Ret (p, i, s') → i ≠ Some id.
Proof.
  intros Hs Hc Hst Hn Hw Hp ->. destruct (pick_spec u s Hs Hc) as (p' & i' & s2 & E & _ & _ & _ & _ & _ & Href).
  rewrite E in Hp. injection Hp as -> -> ->. specialize (Href now Hst).
  assert (Hno : ∀ s0 next q, sel_conf s0 = sel_conf s → choose_all u now s0 next ≠ Some (q, id)).
  { intros s0 next q Hcf H. apply first_some_Some in H as (l1 & g & l2 & _ & Hg & _).
    assert (Hch : ∃ ids, choose u now s0 ids = Some (q, id)).
    { unfold choose_group in Hg. destruct next as [j|]; [|by eexists].
      destruct (prio_in s0 j =? prio_in s0 (default 0 (head g))); [|by eexists].
      destruct (choose u now s0 [j]) eqn:Ej; [|by eexists]. exists [j]. congruence. }
    destruct Hch as [ids Hch]. apply choose_Some in Hch as (Hsu & _).
    destruct (suits_found u now s0 q id Hsu) as (m & Hm & _ & Hwm). rewrite Hcf in Hm. congruence. }
  unfold reference in Href.
  assert (Hany : ∀ r, (∀ q, r ≠ Some (q, id)) → (p, Some id) = picked s r → False).
  { intros [[q j]|] Hr; cbn [picked]; [|done]. destruct (find_net (conf_nets (sel_conf s)) j) as [m|]; [|done].
    intros H. apply (Hr q). destruct (key_missing m); congruence. }
  destruct (choose_all u now s (valid_next s)) as [[q j]|] eqn:E1.
  - eapply Hany, Href. intros q'. rewrite <- E1. by apply Hno.
  - destruct (bool_decide (blacklist (sel_blacklist s) ≠ []) && negb (countermeasures u)); [|by eapply Hany, Href].
    eapply Hany, Href. intros q'. by apply Hno.
Qed.

(** From this many failures in a row on, a network waits for at least so many
    seconds. *)
Definition wait_schedule : list (Z * Z) :=
  [(1, 10); (2, 20); (3, 30); (4, 60); (6, 90); (11, 120); (51, 300)].

Lemma schedule_kept k wait failures : (k, wait) ∈ wait_schedule → k ≤ failures → wait ≤ least_wait failures.
Proof.
  unfold least_wait, auth_duration. rewrite andb_false_r. intros Hk Hf.
  apply list_elem_of_In in Hk. cbn [In wait_schedule] in Hk.
  repeat destruct Hk as [[= <- <-]|Hk]; repeat case_if; zbool; lia.
Qed.

(** C22: After an authentication failure the network is not chosen again before
    its time: it waits for at least ten seconds after the first failure in a
    row, twenty after the second, thirty after the third, a minute from the
    fourth on, ninety seconds from the sixth, two minutes from the eleventh and
    five minutes from the fifty-first on, when the clock stands still during
    the next choice, whatever the table of entries holds. The
    networks and entries are in order ([sel_ok], [counts_small]), the network
    is the current one and not one for WPS, it failed fewer than 10^8 times
    before, and the clock shows at most 10^9 seconds at the failure. *)
Theorem failed_network_waits u u2 s random id n later k wait :
  sel_ok s → counts_small s → current_ssid (sel_conf s) = Some id →
  find_net (conf_nets (sel_conf s)) id = Some n → km n ≠ WPA_KEY_MGMT_WPS →
  0 ≤ get_int n (lit "auth_failures") < 100000000 → 0 ≤ clock u (clock_reads s) ≤ 1000000000 →
  (k, wait) ∈ wait_schedule → k ≤ get_int n (lit "auth_failures") + 1 →
  still u2 later → later < clock u (clock_reads s) + wait →
  ∃ s1, wpas_auth_failed u s random = Ret s1 ∧ sel_ok s1 ∧
  ∃ p i s2, wpa_supplicant_pick_network u2 s1 = Ret (p, i, s2) ∧ i ≠ Some id.
Proof.
  intros Hs Hc Hcur Hn Hw Hf Hclk Hk Hkf Hst Hl. pose proof (schedule_kept k wait _ Hk Hkf) as Hleast.
  destruct (auth_failed_spec u s random id n Hs Hcur Hn Hw Hf Hclk) as (s1 & n1 & E & H1 & Hn1 & _ & _ & Hu & Hb & Hcl).
  exists s1. split_and!; [done|done|].
  assert (Hc1 : counts_small s1) by (unfold counts_small; by rewrite Hb, Hcl).
  destruct (pick_spec u2 s1 H1 Hc1) as (p & i & s2 & Ep & _). exists p, i, s2. split; [done|].
  eapply (waiting_not_chosen u2 later s1 id n1); [done|done|done|done| |done].
  destruct Hst as [H0 _]. unfold waiting. apply andb_true_iff. split.
  - apply negb_true_iff, Z.eqb_neq. lia.
  - apply Z.ltb_lt. lia.
Qed.

(** ** A choice *)

(** An access point of a name of [n] letters, with the elements [more]. *)
Definition ap_with (last : Z) (n : nat) (caps : Z) (more : list Z) : wpa_scan_res :=
  let ies := 0 :: Z.of_nat n :: replicate n 97 ++ more in
  ScanRes 0 [2; 0; 0; 0; 0; last] 2412 100 caps 0 0 (-40) 7 10 0 20 (strlen ies) 0 ies.

Definition rsn_psk : list Z := [48; 20; 1; 0; 0; 15; 172; 4; 1; 0; 0; 15; 172; 4; 1; 0; 0; 15; 172; 2; 0; 0].

(** An open network, a network with a key, and another one with this name. *)
Definition demo_scan : list bss_call :=
  [UpdateStart; UpdateScanRes (ap_with 3 4 1 []) (10, 0) (Oracle (Some 1000) None true);
   UpdateScanRes (ap_with 1 3 17 rsn_psk) (10, 0) (Oracle (Some 2000) None true);
   UpdateScanRes (ap_with 2 3 17 rsn_psk) (10, 0) (Oracle (Some 3000) None true); UpdateEnd None true (10, 0)].

Definition demo_table : bss_table := Eval vm_compute in
  match bss_run true (λ _, true) (empty_table 200 []) demo_scan with Ret t => t | _ => empty_table 200 [] end.

Lemma demo_table_ok : table_ok demo_table.
Proof.
  destruct (calls_run_ok true (λ _, true) (empty_table 200 []) demo_scan) as (t & E & Ht).
  - by apply empty_ok.
  - apply calls_okb_sound. by vm_compute.
  - assert (Hd : demo_table = match bss_run true (λ _, true) (empty_table 200 []) demo_scan with
      Ret t => t | _ => empty_table 200 [] end) by by vm_compute.
    by rewrite Hd, E.
Qed.

(** A network with a key that is used, and one of a higher priority with a
    name that only an open access point has. *)
Definition home_net : net := set_int (set_str with_pass (lit "ssid") (Some (lit "aaa"))) (lit "psk_set") 1.
Definition away_net : net :=
  set_int (set_int (set_str with_pass (lit "ssid") (Some (lit "aaaa"))) (lit "psk_set") 1) (lit "priority") 5.

Lemma demo_net_ok ssid : (1 <= length ssid <= 32)%nat → byte_list ssid →
  net_ok (set_int (set_str with_pass (lit "ssid") (Some ssid)) (lit "psk_set") 1).
Proof.
  intros Hl Hb. apply set_int_ok; [|by apply int_ok_plain|done].
  apply set_str_ok; [apply with_pass_ok| |done]. intros s [= <-]. split_and!; [done| |done].
  unfold strlen, SSID_MAX_LEN. lia.
Qed.

(** What nothing sets is zero. *)
Lemma defaults_skip l f : f ∉ l.*1 → ∀ n, get_int (foldl (λ n (d : str * Z), set_int n d.1 d.2) n l) f = get_int n f.
Proof.
  induction l as [|d l IH]; intros Hf n; [done|]. apply not_elem_of_cons in Hf as [Hd Hf].
  cbn [foldl]. rewrite IH by done. by rewrite get_set_int_ne.
Qed.

Lemma demo_unset f : f ∉ network_defaults.*1 → f ≠ lit "psk_set" → f ≠ lit "priority" →
  get_int home_net f = 0 ∧ get_int away_net f = 0.
Proof.
  intros Hf H1 H2. assert (H0 : get_int new_net f = 0).
  { unfold new_net, wpa_config_set_network_defaults. rewrite defaults_skip by done.
    unfold get_int. change (n_ints zalloc_net) with (∅ : gmap str Z). by rewrite lookup_empty. }
  unfold home_net, away_net. split; by rewrite !get_set_int_ne.
Qed.

Definition choice_conf : wpa_supplicant := WpaS [(0, home_net); (2, away_net)] [[2]; [0]] (Some 0).

Lemma choice_conf_ok : conf_ok choice_conf.
Proof.
  split.
  - by apply (bool_decide_unpack _).
  - by repeat constructor.
  - constructor; [by apply demo_net_ok; [vm_compute; lia|apply (bool_decide_unpack _)]|].
    constructor; [|constructor]. apply set_int_ok; [|by apply int_ok_plain|done].
    by apply demo_net_ok; [vm_compute; lia|apply (bool_decide_unpack _)].
  - exists [5; 0]. split; [split|by vm_compute].
    + repeat constructor.
    + intros p. split.
      * intros [->|[->|[]%not_elem_of_nil]%elem_of_cons]%elem_of_cons.
        -- exists (as_ssid (2, away_net)). split; [right; by left|by vm_compute].
        -- exists (as_ssid (0, home_net)). split; [by left|by vm_compute].
      * intros (s & [->|[->|[]%not_elem_of_nil]%elem_of_cons]%elem_of_cons & <-); [right; by left|by left].
Qed.

Definition demo_setup (now : Z) : setup :=
  Setup false None false [] [] None false (0, 0) 1 0 3 true (λ _, now).

(** [listed]: the BSSIDs on the blacklist, with their counts. *)
Definition demo_sel (listed : list wpa_blacklist) : selector :=
  Sel choice_conf (BlState listed 0) 0 demo_table None 0 [].

Lemma demo_sel_ok l : sel_ok (demo_sel l).
Proof.
  split; [apply choice_conf_ok|apply table_entries, demo_table_ok|].
  destruct (demo_unset (lit "wep_tx_keyidx")) as [E1 E2]; [by apply (bool_decide_unpack _)|done|done|].
  repeat constructor; cbn [snd]; by rewrite ?E1, ?E2.
Qed.

Definition choice (r : outcome (option Z * option Z * selector)) : outcome (option Z * option Z) :=
  '(p, id, _) ← r; Ret (p, id).

(** The network with the key, although the other has a higher priority; the
    second access point when the first is on the blacklist; the first again
    when both are. *)
Example home_chosen :
  choice (wpa_supplicant_pick_network (demo_setup 20) (demo_sel [])) = Ret (Some 2000, Some 0) ∧
  choice (wpa_supplicant_pick_network (demo_setup 20) (demo_sel [Entry [2; 0; 0; 0; 0; 1] 2])) = Ret (Some 3000, Some 0) ∧
  choice (wpa_supplicant_pick_network (demo_setup 20)
    (demo_sel [Entry [2; 0; 0; 0; 0; 1] 2; Entry [2; 0; 0; 0; 0; 2] 2])) = Ret (Some 2000, Some 0).
Proof. by vm_compute. Qed.

Lemma pick_network_reference_witness :
  ∃ p id s', wpa_supplicant_pick_network (demo_setup 20) (demo_sel []) = Ret (p, id, s') ∧ same_nets (demo_sel []) s' ∧
    ∀ now, still (demo_setup 20) now → (p, id) = picked (demo_sel []) (reference (demo_setup 20) now (demo_sel []) (valid_next (demo_sel []))).
Proof.
  apply (pick_network_reference (demo_setup 20) (demo_sel [])); [apply demo_sel_ok|by apply (bool_decide_unpack _)].
Defined.

Lemma best_network_chosen_witness :
  ∃ p id s', wpa_supplicant_pick_network (demo_setup 20) (demo_sel []) = Ret (p, id, s') ∧ same_nets (demo_sel []) s' ∧
    match id with
    | Some id =>
        ∃ q n, find_net (conf_nets choice_conf) id = Some n ∧ p = (if key_missing n then None else Some q) ∧
          (best (demo_setup 20) 20 (demo_sel []) q id ∨ none_suits (demo_setup 20) 20 (demo_sel []) ∧
           false = false ∧ best (demo_setup 20) 20 (forgiven (demo_sel [])) q id)
    | None => p = None ∧ none_suits (demo_setup 20) 20 (demo_sel []) ∧
        (@nil wpa_blacklist = [] ∨ false = true ∨ none_suits (demo_setup 20) 20 (forgiven (demo_sel [])))
    end.
Proof.
  apply (best_network_chosen (demo_setup 20) 20 (demo_sel []));
    [apply demo_sel_ok|by apply (bool_decide_unpack _)|by split|done].
Defined.

Lemma failed_network_waits_witness :
  ∃ s1, wpas_auth_failed (demo_setup 20) (demo_sel []) 77 = Ret s1 ∧ sel_ok s1 ∧
  ∃ p i s2, wpa_supplicant_pick_network (demo_setup 29) s1 = Ret (p, i, s2) ∧ i ≠ Some 0.
Proof.
  apply (failed_network_waits (demo_setup 20) (demo_setup 29) (demo_sel []) 77 0 home_net 29 1 10);
    [apply demo_sel_ok|by apply (bool_decide_unpack _)|done|done|by vm_compute|by vm_compute|by vm_compute
    |by left|by vm_compute|by split|by vm_compute].
Defined.

(** The index of the WEP key to send with is not checked when it is set, and
    the choice reads the length of a key that does not exist. *)
Example wep_index_unchecked :
  match n ← wpa_config_set some_methods new_net (lit "wep_tx_keyidx") (lit "100");
        wpa_config_set some_methods n.2 (lit "key_mgmt") (lit "NONE") with
  | Ret (ret, n) => ret = 0 ∧
      ∃ why, choice (wpa_supplicant_pick_network (demo_setup 20)
        (Sel (WpaS [(0, n)] [[0]] None) (BlState [] 0) 0 demo_table None 0 [])) = UB why
  | _ => False
  end.
Proof. vm_compute. split; [done|]. by eexists. Qed.
