(* ===== verification/Connect.v ===== *)
(** * Connections (wpa_supplicant/wpa_supplicant.c, events.c, sme.c)

    What the daemon does when it is told to connect, to disconnect or that it
    was disconnected: the state of the connection, deauthentication, failures,
    the choice from the last scan up to the point where an association is
    queued, and the commands that enable, disable, select and remove networks.

    The association itself runs when the radio takes up the queued work and is
    not modelled; the queued works are part of the state.  Scans, calls of the
    driver, of the EAPOL and WPA state machines and of D-Bus, timeouts and
    events for the control interface are a list of acts.  The build is that of
    the repository: CONFIG_SME, but none of CONFIG_AP, CONFIG_MESH,
    CONFIG_IBSS_RSN, CONFIG_WPS, CONFIG_P2P, CONFIG_WNM, CONFIG_BGSCAN,
    CONFIG_AUTOSCAN, PCSC_FUNCS; the tables of traffic specifications (wmm_ac)
    and the scans for overlapping BSSs are left out.  The driver has no scheduled scans
    ([sched_scan_supported] is 0), so [wpa_supplicant_req_sched_scan] fails. *)

From stdpp Require Import gmap.
From S2P Require Import Prelude CString WpaIe CommonLists Network Blacklist Bss BssTable ConfigSsid CtrlNetwork Select.
From S2P Require WpaCtrl.
From coqutil Require Import Datatypes.RecordSetters.
Import DoubleBraceUpdate.

Definition WPA_DISCONNECTED : Z := 0.
Definition WPA_INTERFACE_DISABLED : Z := 1.
Definition WPA_INACTIVE : Z := 2.
Definition WPA_SCANNING : Z := 3.
Definition WPA_AUTHENTICATING : Z := 4.
Definition WPA_ASSOCIATING : Z := 5.
Definition WPA_4WAY_HANDSHAKE : Z := 7.
Definition WPA_COMPLETED : Z := 9.

Definition NORMAL_SCAN_REQ : Z := 0.
Definition MANUAL_SCAN_REQ : Z := 2.

Definition WLAN_REASON_DEAUTH_LEAVING : Z := 3.
Definition WLAN_REASON_DISASSOC_DUE_TO_INACTIVITY : Z := 4.
Definition WLAN_REASON_CLASS2_FRAME_FROM_NONAUTH_STA : Z := 6.
Definition WLAN_REASON_CLASS3_FRAME_FROM_NONASSOC_STA : Z := 7.
Definition WLAN_REASON_IE_IN_4WAY_DIFFERS : Z := 17.
Definition WLAN_REASON_IEEE_802_1X_AUTH_FAILED : Z := 23.

Definition IEEE80211_MODE_INFRA : Z := 0.
Definition WPAS_MODE_P2P_GO : Z := 3.
Definition WPAS_MODE_P2P_GROUP_FORMATION : Z := 4.

Definition WPA_DRIVER_FLAGS_SME : Z := 0x00000020.
Definition SME_AUTH_TIMEOUT : Z := 5.
Definition HOSTAPD_CHAN_DISABLED : Z := 0x00000001.

Inductive act : Type :=
  (* events of the control interface *)
  | EvDisconnected (bssid : list Z) (reason : Z) (locally_generated : bool)
  | EvConnected (bssid : list Z) (id : Z)
  | EvWrongKey
  | EvNetworkNotFound
  (* notifications *)
  | StateChanged (state old : Z)
  | AuthChanged
  | ScanningChanged (scanning : bool)
  | EnabledChanged (id : Z)
  | NetworkChanged
  | NetworkSelected (id : Z)
  | NetworkRemoved (id : Z)
  | BssidChanged
  | DisconnectReason (reason : Z)
  (* the driver *)
  | DrvDeauthenticate (addr : list Z) (reason : Z)
  | DrvOperstate (up : bool)
  | DrvClearKey (index : Z)
  | DrvClearPairwise (addr : list Z)
  | DrvAbortScan
  | DrvSetMac (random : bool)
  (* timeouts *)
  | ScanIn (sec usec : Z)
  | ScanCancelled
  | SchedScanCancelled
  | ReenableIn (sec : Z)
  | ReenableCancelled
  | ConnectTimeoutCancelled
  | SmeAuthTimer
  (* other parts of the daemon *)
  | WorkDone                          (* radio_work_done *)
  | PmksaFlushed (id : Z)
  | EapolPortDown
  | EapolNoSuccess
  | EapolNoConfig
  | EapolInvalidated
  | SmNoConfig
  | SmDisassoc
  | PreauthResults
  (* scans *)
  | EvScanResults (id : option Z)
  | ScanResultsNotified
  | ScanDoneNotified (success : bool)
  | Randomness (bytes : list Z)       (* random_add_randomness *)
  | DrvSendAction (freq : Z) (dst : list Z) (frame : list Z).

(** A queued association. *)
Record wpa_connect_work : Type := CWork { cw_bss : option Z; cw_removed : bool; cw_ssid : Z }.

(** What does not change, and what random numbers, the allocator and the
    driver answer. *)
Record surroundings : Type := Env {
  os_random : nat → Z;
  usecs : nat → Z;                    (* of the n-th reading of the clock *)
  alloc_ok : bool;
  random_mac_ok : bool;
  set_mac_ok : bool;                  (* wpa_drv_set_mac_addr *)
  update_mac_ok : bool;               (* wpa_supplicant_update_mac_addr *)
  conf_mac_addr : Z;
  rand_addr_lifetime : Z;
  auto_reconnect_disabled : bool;
  scan_interval : Z;
  preauth_on : bool                   (* rsn_preauth_scan_results *)
}.

Record conn : Type := Conn {
  cu : setup;
  cs : selector;
  disconnected : bool;
  own_disconnect_req : bool;
  conn_key_mgmt : Z;                  (* wpa_s->key_mgmt *)
  last_ssid : option Z;
  connect_without_scan : option Z;
  new_connection : bool;
  disconnect_reason : Z;
  sched_scanning : bool;
  scanning : bool;
  scan_running : bool;                (* scan_work and own_scan_running *)
  scan_req : Z;
  scan_for_connection : bool;
  normal_scans : Z;
  manual_scan_freqs : option buf;
  next_scan_freqs : option (list Z);
  assoc_freq : Z;
  keys_cleared : Z;
  eapol_failed : bool;                (* eapol_sm_failed *)
  eap_expected_failure : bool;
  pno : bool;
  prev_bssid : option (list Z);       (* sme.prev_bssid when it is set *)
  reassoc_same_bss : bool;
  reassoc_same_ess : bool;
  reattach : bool;
  mac_addr_changed : bool;
  last_mac_addr_style : Z;
  last_mac_addr_change : Z * Z;
  started_work : bool;                (* wpa_s->connect_work *)
  pending_sme : option wpa_connect_work;
  pending_connect : option wpa_connect_work;
  random_calls : nat;
  acts : list act
}.

Definition does (c : conn) (l : list act) : conn := c {{ acts := acts c ++ l }}.

Definition state_of (c : conn) : Z := wpa_state (cu c).
Definition reassociates (c : conn) : bool := reassociate (cu c).
Definition with_state (c : conn) (s : Z) : conn := c {{ cu := (cu c) {{ wpa_state := s }} }}.
Definition with_reassociate (c : conn) (b : bool) : conn := c {{ cu := (cu c) {{ reassociate := b }} }}.
Definition with_scan_min_time (c : conn) (t : Z * Z) : conn := c {{ cu := (cu c) {{ scan_min_time := t }} }}.

Definition table_of (c : conn) : bss_table := sel_bss (cs c).
Definition with_table (c : conn) (t : bss_table) : conn := c {{ cs := (cs c) {{ sel_bss := t }} }}.

Definition conf (c : conn) : wpa_supplicant := sel_conf (cs c).

(** The table of BSS entries looks at the networks, too. *)
Definition with_sel (c : conn) (s : selector) : conn :=
  c {{ cs := s {{ sel_bss := (sel_bss s) {{ conf_networks := networks (conf_of (sel_conf s)) }} }} }}.
Definition with_config (c : conn) (w : wpa_supplicant) : conn := with_sel c (with_conf (cs c) w).
Definition change_net (c : conn) (id : Z) (n : net) : conn := with_config c (with_net (conf c) id n).
Definition net_of (c : conn) (id : Z) : outcome net := the_net (cs c) id.

Definition current (c : conn) : option Z := current_ssid (conf c).
Definition with_current (c : conn) (o : option Z) : conn := with_config c ((conf c) {{ current_ssid := o }}).

(** ** States *)

Definition wpas_connect_work_done (c : conn) : conn :=
  if started_work c then does (c {{ started_work := false }}) [WorkDone] else c.

Definition wpa_supplicant_notify_scanning (c : conn) (on : bool) : conn :=
  if Bool.eqb (scanning c) on then c else does (c {{ scanning := on }}) [ScanningChanged on].

(** The part of [wpa_supplicant_set_state] for a new connection. *)
Definition connection_completed (c : conn) : outcome conn :=
  let c := does c [EvConnected (own_bssid (table_of c)) (default (-1) (current c))] in
  c ← match current c with
      | Some id => s ← wpas_clear_temp_disabled (cs c) id true; Ret (with_sel c s)
      | None => Ret c
      end;
  b ← wpa_blacklist_clear (sel_blacklist (cs c));
  let s := with_blacklist (cs c) (BlState (blacklist b) 0) (blacklist_cleared (cs c)) in
  Ret (does ((with_sel c s) {{ new_connection := false }}) [DrvOperstate true]).

Definition wpa_supplicant_set_state (c : conn) (state : Z) : outcome conn :=
  let old_state := state_of c in
  let c := if state =? WPA_INTERFACE_DISABLED then c {{ normal_scans := 0 }} else c in
  let c := if state =? WPA_COMPLETED then (wpas_connect_work_done c) {{ normal_scans := 0 }} else c in
  let c := if negb (state =? WPA_SCANNING) then wpa_supplicant_notify_scanning c false else c in
  c ← (if (state =? WPA_COMPLETED) && new_connection c then connection_completed c
       else if (state =? WPA_DISCONNECTED) || (state =? WPA_ASSOCIATING) || (state =? WPA_ASSOCIATED)
       then Ret (does (c {{ new_connection := true }}) [DrvOperstate false])
       else Ret c);
  let c := with_state c state in
  Ret (if state =? old_state then c
       else does c (StateChanged state old_state ::
              if (state =? WPA_COMPLETED) || (old_state =? WPA_COMPLETED) then [AuthChanged] else [])).

Definition no_bssid : list Z := replicate 6 0.

Definition wpa_supplicant_mark_disassoc (c : conn) : outcome conn :=
  if state_of c =? WPA_INTERFACE_DISABLED then Ret c
  else
    c ← wpa_supplicant_set_state c WPA_DISCONNECTED;
    let bssid_changed := negb (is_zero_ether_addr (own_bssid (table_of c))) in
    let c := with_table c ((table_of c) {{ own_bssid := no_bssid }} {{ pending_bssid := no_bssid }}
                             {{ current_bss := None }}) in
    let c := c {{ prev_bssid := None }} {{ assoc_freq := 0 }} in
    let c := does c ((if bssid_changed then [BssidChanged] else []) ++ EapolPortDown ::
                     if wpa_key_mgmt_wpa_psk (conn_key_mgmt c) then [EapolNoSuccess] else []) in
    Ret (does ((with_current c None) {{ conn_key_mgmt := 0 }}) [EapolNoConfig]).

(** [addr] is what the pointer shows when the function is called. *)
Definition wpa_clear_keys (c : conn) (addr : option (list Z)) : conn :=
  let acts := flat_map (λ i, if Z.testbit (keys_cleared c) i then [] else [DrvClearKey i]) [0; 1; 2; 3] ++
    match addr with
    | Some a => if negb (Z.testbit (keys_cleared c) 0) && negb (is_zero_ether_addr a)
                then [DrvClearPairwise a] else []
    | None => []
    end in
  does (c {{ keys_cleared := 4294967295 }}) acts.

Definition wpa_supplicant_clear_connection (c : conn) (addr : option (list Z)) : outcome conn :=
  let c := wpa_clear_keys (wpas_connect_work_done c) addr in
  let old_ssid := current c in
  c ← wpa_supplicant_mark_disassoc c;
  let c := does c [SmNoConfig; EapolNoConfig] in
  let c := if bool_decide (old_ssid = current c) then c else does c [NetworkChanged] in
  Ret (does c [ConnectTimeoutCancelled]).

Definition sme_disassoc_while_authenticating (c : conn) (prev_pending_bssid : list Z) : outcome conn :=
  c ← wpa_supplicant_set_state c WPA_AUTHENTICATING;
  Ret (does (with_table c ((table_of c) {{ pending_bssid := prev_pending_bssid }})) [SmeAuthTimer]).

(** ** Scans *)

Definition wpa_supplicant_req_scan (c : conn) (sec usec : Z) : conn :=
  if p2p_mgmt (cu c) then c else does c [ScanIn sec usec].

Definition wpa_supplicant_req_new_scan (c : conn) (sec usec : Z) : outcome conn :=
  if wpa_supplicant_enabled_networks (cu c) (cs c) =? 0 then wpa_supplicant_set_state c WPA_INACTIVE
  else Ret (wpa_supplicant_req_scan (c {{ scan_for_connection := true }}) sec usec).

Definition wpa_supplicant_cancel_sched_scan (c : conn) : conn :=
  if sched_scanning c then does c [SchedScanCancelled] else c.

Definition wpas_scan_reset_sched_scan (c : conn) : conn :=
  wpa_supplicant_cancel_sched_scan (c {{ normal_scans := 0 }}).

Definition wpas_abort_ongoing_scan (c : conn) : conn :=
  if scan_running c then does c [DrvAbortScan] else c.

Section connections.
Context (env : surroundings).

(** The clock with its microseconds. *)
Definition get_time (c : conn) : (Z * Z) * conn :=
  let n := clock_reads (cs c) in
  let '(sec, s) := get_reltime (cu c) (cs c) in ((sec, usecs env n), with_sel c s).

(** ** Failures *)

Definition auth_failed (c : conn) : outcome conn :=
  s ← wpas_auth_failed (cu c) (cs c) (os_random env (random_calls c));
  Ret (with_sel (c {{ random_calls := S (random_calls c) }}) s).

Definition add_freq (freqs : list Z) (freq : Z) : list Z :=
  if existsb (Z.eqb freq) freqs then freqs else freqs ++ [freq].

(** The other entries of the network of the entry [cur], up to ten frequencies. *)
Fixpoint ess_freqs_loop (c : conn) (cur : Z) (entries freqs : list Z) : outcome (list Z) :=
  match entries with
  | [] => Ret freqs
  | p :: entries' =>
      if p =? cur then ess_freqs_loop c cur entries' freqs
      else
        bss ← deref (table_of c) p;
        cbss ← deref (table_of c) cur;
        if str_eqb (bss_ssid bss) (bss_ssid cbss)
           && bool_decide (wpa_blacklist_get (sel_blacklist (cs c)) (Some (bss_bssid bss)) = None)
        then
          let freqs := add_freq freqs (bss_freq bss) in
          if Z.of_nat (length freqs) =? 10 then Ret freqs else ess_freqs_loop c cur entries' freqs
        else ess_freqs_loop c cur entries' freqs
  end.

Definition get_bss_freqs_in_ess (c : conn) (cur : Z) : outcome (option (list Z)) :=
  if negb (alloc_ok env) then Ret None
  else
    freqs ← ess_freqs_loop c cur (bss_lru (table_of c)) [];
    Ret (match freqs with [] => None | _ => Some freqs end).

Definition blacklist_add (c : conn) (bssid : list Z) : outcome (Z * conn) :=
  '(count, b) ← wpa_blacklist_add (alloc_ok env) (sel_blacklist (cs c)) (Some bssid);
  Ret (count, with_sel c (with_blacklist (cs c) b (blacklist_cleared (cs c)))).

(** The wait in milliseconds. *)
Definition retry_timeout (count : Z) : Z :=
  if count =? 1 then 100 else if count =? 2 then 500 else if count =? 3 then 1000
  else if count =? 4 then 5000 else 10000.

Definition wpas_connection_failed (c : conn) (bssid : list Z) : outcome conn :=
  let c := does (wpas_connect_work_done c) [ConnectTimeoutCancelled] in
  if own_disconnect_req c then Ret (c {{ own_disconnect_req := false }})
  else if disconnected c then Ret c
  else
    '(count, c) ← blacklist_add c bssid;
    c ← match current_bss (table_of c) with
        | Some cur =>
            if count =? 1 then
              freqs ← get_bss_freqs_in_ess c cur;
              match freqs with
              | Some freqs => '(_, c) ← blacklist_add c bssid; Ret (c {{ next_scan_freqs := Some freqs }})
              | None => Ret c
              end
            else Ret c
        | None => Ret c
        end;
    count ← int_chk (count + extra_blacklist_count (sel_blacklist (cs c)));
    c ← (if (3 <? count) && bool_decide (is_Some (current c)) then auth_failed c else Ret c);
    let timeout := retry_timeout count in
    Ret (wpa_supplicant_req_scan c (timeout / 1000) (1000 * (timeout mod 1000))).

(** ** Associations *)

Definition wpas_update_random_addr (c : conn) (style : Z) : Z * conn :=
  let '(now, c) := get_time c in
  if (last_mac_addr_style c =? style) && negb ((last_mac_addr_change c).1 =? 0)
     && negb (WpaCtrl.os_reltime_expired now (last_mac_addr_change c) (rand_addr_lifetime env))
  then (0, c)
  else if negb (((style =? 1) || (style =? 2)) && random_mac_ok env) then (-1, c)
  else
    let c := does c [DrvSetMac true] in
    if negb (set_mac_ok env) then (-1, c)
    else
      let '(now, c) := get_time c in
      let c := c {{ last_mac_addr_change := now }} {{ mac_addr_changed := true }} {{ last_mac_addr_style := style }} in
      (if update_mac_ok env then 0 else -1, c).

(** The part of [wpa_supplicant_associate] on the address; false ends it. *)
Definition associate_mac (c : conn) (bss : option Z) (id rand_style : Z) : bool * conn :=
  let c := c {{ reassoc_same_bss := false }} {{ reassoc_same_ess := false }} in
  if bool_decide (last_ssid c = Some id) then
    let same_bss := match current_bss (table_of c) with Some b => bool_decide (bss = Some b) | None => false end in
    (true, c {{ reassoc_same_ess := true }} {{ reassoc_same_bss := same_bss }})
  else if 0 <? rand_style then
    let '(r, c) := wpas_update_random_addr c rand_style in
    if r <? 0 then (false, c) else (true, does c [PmksaFlushed id])
  else if mac_addr_changed c then
    let c := does c [DrvSetMac false] in
    if negb (set_mac_ok env) then (false, c)
    else (update_mac_ok env, c {{ mac_addr_changed := false }})
  else (true, c).

(** The queued works; the table of BSS entries keeps their pointers valid. *)
Definition with_works (c : conn) (sme other : option wpa_connect_work) : conn :=
  let work := match sme with Some _ => sme | None => other end in
  with_table (c {{ pending_sme := sme }} {{ pending_connect := other }})
    ((table_of c) {{ connect_work := (λ w, (cw_bss w, cw_removed w)) <$> work }}).

(** [radio_add_work] of a "sme-connect" or "connect" work, whose allocation
    may fail. *)
Definition queue_work (c : conn) (sme : bool) (bss : option Z) (id : Z) : outcome conn :=
  _ ← match bss with Some p => b ← deref (table_of c) p; Ret (bss_freq b) | None => Ret 0 end;
  if alloc_ok env then
    let w := Some (CWork bss false id) in
    Ret (if sme then with_works c w (pending_connect c) else with_works c (pending_sme c) w)
  else Ret c.

Definition sme_authenticate (c : conn) (bss : option Z) (id : Z) : outcome conn :=
  match bss with
  | None => Ret c
  | Some _ =>
      if started_work c then Ret c
      else queue_work (wpas_abort_ongoing_scan (with_works c None (pending_connect c))) true bss id
  end.

Definition wpa_supplicant_associate (c : conn) (bss : option Z) (id : Z) : outcome conn :=
  let c := c {{ own_disconnect_req := false }} in
  n ← net_of c id;
  let rand_style := if get_int n (lit "mac_addr") =? -1 then conf_mac_addr env else get_int n (lit "mac_addr") in
  let '(go_on, c) := associate_mac c bss id rand_style in
  if negb go_on then Ret c
  else
    let c := c {{ last_ssid := Some id }} in
    let mode := get_int n (lit "mode") in
    if (mode =? IEEE80211_MODE_AP) || (mode =? WPAS_MODE_P2P_GO) || (mode =? WPAS_MODE_P2P_GROUP_FORMATION)
       || (mode =? IEEE80211_MODE_MESH) then Ret c
    else if has (drv_flags (cu c)) WPA_DRIVER_FLAGS_SME && (mode =? IEEE80211_MODE_INFRA)
    then sme_authenticate c bss id
    else if started_work c then Ret c
    else if bool_decide (is_Some (pending_connect c)) then Ret c
    else queue_work (wpas_abort_ongoing_scan c) false bss id.

Definition wpa_supplicant_connect (c : conn) (selected id : Z) : outcome (Z * conn) :=
  bss ← deref (table_of c) selected;
  let t := table_of c in
  let no_pending := is_zero_ether_addr (pending_bssid t) in
  if reassociates c
     || (negb (str_eqb (bss_bssid bss) (own_bssid t))
         && ((negb (state_of c =? WPA_ASSOCIATING) && negb (state_of c =? WPA_AUTHENTICATING))
             || (negb no_pending && negb (str_eqb (bss_bssid bss) (pending_bssid t)))
             || (no_pending && bool_decide (current c ≠ Some id))))
  then c ← wpa_supplicant_associate c (Some selected) id; Ret (0, c)
  else Ret (0, c).

(** ** Disconnections *)

Definition disconnect_reason_recoverable (reason : Z) : bool :=
  (reason =? WLAN_REASON_DISASSOC_DUE_TO_INACTIVITY)
  || (reason =? WLAN_REASON_CLASS2_FRAME_FROM_NONAUTH_STA)
  || (reason =? WLAN_REASON_CLASS3_FRAME_FROM_NONASSOC_STA).

(** [wpa_s->bssid], or the pending one when it is zero. *)
Definition peer_bssid (c : conn) : list Z :=
  let t := table_of c in if is_zero_ether_addr (own_bssid t) then pending_bssid t else own_bssid t.

Definition wpa_supplicant_event_disassoc (c : conn) (reason : Z) (locally_generated : bool) : conn :=
  if conn_key_mgmt c =? WPA_KEY_MGMT_WPA_NONE then c
  else if negb (is_zero_ether_addr (peer_bssid c)) || (WPA_AUTHENTICATING <=? state_of c)
  then does c [EvDisconnected (peer_bssid c) reason locally_generated]
  else c.

Definition could_be_psk_mismatch (c : conn) (reason : Z) (locally_generated : bool) : bool :=
  if negb (state_of c =? WPA_4WAY_HANDSHAKE) || negb (wpa_key_mgmt_wpa_psk (conn_key_mgmt c)) then false
  else if locally_generated && (reason =? WLAN_REASON_IE_IN_4WAY_DIFFERS) then false
  else true.

Definition wpa_supplicant_dynamic_keys (c : conn) : outcome bool :=
  if (conn_key_mgmt c =? WPA_KEY_MGMT_NONE) || (conn_key_mgmt c =? WPA_KEY_MGMT_WPA_NONE) then Ret false
  else
    match current c with
    | Some id =>
        if conn_key_mgmt c =? WPA_KEY_MGMT_IEEE8021X_NO_WPA then
          n ← net_of c id;
          Ret (has (get_int n (lit "eapol_flags"))
                 (Z.lor EAPOL_FLAG_REQUIRE_KEY_UNICAST EAPOL_FLAG_REQUIRE_KEY_BROADCAST))
        else Ret true
    | None => Ret true
    end.

(** The table after a call that looks at the queued works, and what it did to the
    work it looked at. *)
Definition take_table (c : conn) (t : bss_table) : conn :=
  let updated w := match connect_work t with Some (b, r) => CWork b r (cw_ssid w) | None => w end in
  let c := with_table c t in
  match pending_sme c with
  | Some w => with_works c (Some (updated w)) (pending_connect c)
  | None => with_works c None (updated <$> pending_connect c)
  end.

(** [wpa_bss_remove] of an entry of the connection. *)
Definition remove_entry (c : conn) (p : Z) : outcome conn :=
  t ← wpa_bss_remove (table_of c) p; Ret (take_table c t).

(** Whether and how to connect again: the entry and the network to which the
    daemon connects without a scan. *)
Definition plan_reconnect (c : conn) (reason : Z) (locally_generated : bool)
    : outcome (option (Z * Z) * conn) :=
  if negb (disconnected c)
     && (negb (auto_reconnect_disabled env) || (conn_key_mgmt c =? WPA_KEY_MGMT_WPS))
  then
    infra ← match current c with
            | Some id => if state_of c =? WPA_COMPLETED then
                           n ← net_of c id; Ret (get_int n (lit "mode") =? IEEE80211_MODE_INFRA)
                         else Ret false
            | None => Ret false
            end;
    if infra && negb locally_generated && disconnect_reason_recoverable reason
    then Ret (p ← current_bss (table_of c); id ← current c; Some (p, id), c)
    else Ret (None, if WPA_ASSOCIATING <=? state_of c then wpa_supplicant_req_scan c 0 100000 else c)
  else
    let c := (with_reassociate c false) {{ disconnected := true }} in
    Ret (None, if pno c then c else wpa_supplicant_cancel_sched_scan c).

Definition try_reconnect (c : conn) (fast : option (Z * Z)) : outcome conn :=
  match fast with
  | None => Ret c
  | Some (p, id) =>
      n ← net_of c id;
      '(ok, c) ← (if wpas_network_disabled (cu c) n then Ret (false, c)
                  else
                    bss ← deref (table_of c) p;
                    if disallowed_bssid (cu c) (bss_bssid bss) || disallowed_ssid (cu c) (bss_ssid bss)
                    then Ret (false, c)
                    else '(wait, s) ← wpas_temp_disabled (cu c) (cs c) id; Ret (wait =? 0, with_sel c s));
      if (ok : bool) then
        '(r, c) ← wpa_supplicant_connect c p id;
        Ret (if r <? 0 then wpa_supplicant_req_scan c 0 100000 else c)
      else Ret (wpa_supplicant_req_scan c 0 100000)
  end.

Definition wpa_supplicant_event_disassoc_finish (c : conn) (reason : Z) (locally_generated : bool)
    : outcome conn :=
  let authenticating := state_of c =? WPA_AUTHENTICATING in
  let prev_pending_bssid := pending_bssid (table_of c) in
  if conn_key_mgmt c =? WPA_KEY_MGMT_WPA_NONE then Ret c
  else
    let curr := if negb (disconnected c) && (WPA_AUTHENTICATING <=? state_of c)
                   && (reason =? WLAN_REASON_DISASSOC_DUE_TO_INACTIVITY) && locally_generated
                then current_bss (table_of c) else None in
    c ← (if could_be_psk_mismatch c reason locally_generated then auth_failed (does c [EvWrongKey]) else Ret c);
    '(fast, c) ← plan_reconnect c reason locally_generated;
    c ← (if WPA_AUTHENTICATING <=? state_of c then wpas_connection_failed c (peer_bssid c) else Ret c);
    let reason_now := if locally_generated then - reason else reason in
    let c := does c [SmDisassoc] in
    let c := does (c {{ disconnect_reason := reason_now }}) [DisconnectReason reason_now] in
    dynamic ← wpa_supplicant_dynamic_keys c;
    let c := if (dynamic : bool) then wpa_clear_keys c (Some (own_bssid (table_of c))) else c in
    let last := current c in
    c ← wpa_supplicant_mark_disassoc c;
    c ← match curr with Some p => remove_entry c p | None => Ret c end;
    c ← (if authenticating && has (drv_flags (cu c)) WPA_DRIVER_FLAGS_SME then
           c ← sme_disassoc_while_authenticating c prev_pending_bssid; Ret (with_current c last)
         else Ret c);
    try_reconnect c fast.

Definition wpas_event_disconnect (c : conn) (reason : Z) (locally_generated : bool) : outcome conn :=
  let c := if locally_generated then c else c {{ own_disconnect_req := false }} in
  let c := wpa_supplicant_event_disassoc c reason locally_generated in
  c ← (if ((reason =? WLAN_REASON_IEEE_802_1X_AUTH_FAILED)
           || ((wpa_key_mgmt_wpa_ieee8021x (conn_key_mgmt c)
                || has (conn_key_mgmt c) WPA_KEY_MGMT_IEEE8021X_NO_WPA) && eapol_failed c))
          && negb (eap_expected_failure c)
       then auth_failed c else Ret c);
  wpa_supplicant_event_disassoc_finish c reason locally_generated.

(** [wpa_supplicant_event] of EVENT_DEAUTH, and of EVENT_DISASSOC. *)
Definition event_deauth (c : conn) (reason : Z) (locally_generated : bool) : outcome conn :=
  if state_of c =? WPA_INTERFACE_DISABLED then Ret c else wpas_event_disconnect c reason locally_generated.

Definition wpas_event_disassoc (c : conn) (reason : Z) (locally_generated : bool) : outcome conn :=
  let c := if has (drv_flags (cu c)) WPA_DRIVER_FLAGS_SME then
             match prev_bssid c with
             | Some a => does c [DrvDeauthenticate a WLAN_REASON_DEAUTH_LEAVING]
             | None => c
             end
           else c in
  wpas_event_disconnect c reason locally_generated.

Definition event_disassoc (c : conn) (reason : Z) (locally_generated : bool) : outcome conn :=
  if state_of c =? WPA_INTERFACE_DISABLED then Ret c else wpas_event_disassoc c reason locally_generated.

(** Which address the local pointer is to; what it shows changes while the
    connection is cleared. *)
Inductive addr_ptr : Type := PendingBssid | OwnBssid.

Definition at_addr (c : conn) (a : addr_ptr) : list Z :=
  match a with PendingBssid => pending_bssid (table_of c) | OwnBssid => own_bssid (table_of c) end.

Definition wpa_supplicant_deauthenticate (c : conn) (reason : Z) : outcome conn :=
  let t := table_of c in
  let '(addr, zero_addr) :=
    if negb (is_zero_ether_addr (pending_bssid t))
       && ((state_of c =? WPA_AUTHENTICATING) || (state_of c =? WPA_ASSOCIATING))
    then (Some PendingBssid, false)
    else if negb (is_zero_ether_addr (own_bssid t)) then (Some OwnBssid, false)
    else if state_of c =? WPA_ASSOCIATING then (Some OwnBssid, true)
    else (None, false) in
  c ← match addr with
      | Some a => event_deauth (does c [DrvDeauthenticate (at_addr c a) reason]) reason true
      | None => Ret c
      end;
  wpa_supplicant_clear_connection c (if zero_addr : bool then None else at_addr c <$> addr).

(** ** From the last scan to an association *)

Definition choose_network (c : conn) : outcome (option Z * option Z * conn) :=
  '(p, id, s) ← wpa_supplicant_pick_network (cu c) (cs c); Ret (p, id, with_sel c s).

(** [wpa_supplicant_rsn_preauth_scan_results] reads the name and the RSN
    element of every entry. *)
Definition rsn_preauth_scan_results (c : conn) : conn :=
  if preauth_on env then does c [PreauthResults] else c.

(** An entry was chosen. *)
Definition connect_chosen (c : conn) (new_scan : bool) (p id : Z) : outcome (Z * conn) :=
  roam ← wpa_supplicant_need_to_roam (cu c) (cs c) p id;
  if negb (roam : bool) then Ret (0, if new_scan then rsn_preauth_scan_results c else c)
  else
    c ← (if bool_decide (current c ≠ Some id) && (WPA_AUTHENTICATING <=? state_of c)
         then wpa_supplicant_deauthenticate (c {{ own_disconnect_req := true }}) WLAN_REASON_DEAUTH_LEAVING
         else Ret c);
    '(r, c) ← wpa_supplicant_connect c p id;
    if r <? 0 then Ret (-1, c) else Ret (1, if new_scan then rsn_preauth_scan_results c else c).

Definition wpas_select_network_from_last_scan (c : conn) (new_scan own_request : bool) : outcome (Z * conn) :=
  '(time_to_reenable, s) ← wpas_reenabled_network_time (cu c) (cs c);
  let c := with_sel c s in
  if 0 <? time_to_reenable then Ret (0, does c [ReenableCancelled; ReenableIn time_to_reenable])
  else if p2p_mgmt (cu c) then Ret (0, c)
  else
    '(selected, ssid, c) ← choose_network c;
    match selected, ssid with
    | Some p, Some id => connect_chosen c new_scan p id
    | _, _ =>
        new ← wpa_supplicant_pick_new_network (cu c) (cs c);
        match new with
        | Some id =>
            c ← wpa_supplicant_associate c None id;
            Ret (0, if new_scan then rsn_preauth_scan_results c else c)
        | None =>
            if own_request then
              c ← wpa_supplicant_req_new_scan c (scan_interval env) 0; Ret (0, does c [EvNetworkNotFound])
            else Ret (0, c)
        end
    end.

(** The end of [_wpa_supplicant_event_scan_results], when the results are in
    the table of BSS entries; the radio work of the scan is left out. *)
Definition use_scan_results (c : conn) (own_request : bool) : outcome (Z * conn) :=
  if ap_scan (cu c) =? 2 then Ret (0, c)
  else if disconnected c then c ← wpa_supplicant_set_state c WPA_DISCONNECTED; Ret (0, c)
  else if (WPA_AUTHENTICATING <=? state_of c) && (state_of c <? WPA_COMPLETED) then Ret (0, c)
  else wpas_select_network_from_last_scan c true own_request.

Definition wpa_supplicant_fast_associate (c : conn) : outcome (Z * conn) :=
  if bool_decide (last_scan_res (table_of c) = []) then Ret (-1, c)
  else
    let '(now, c) := get_time c in
    if WpaCtrl.os_reltime_expired now (last_scan (table_of c)) 5 then Ret (-1, c)
    else wpas_select_network_from_last_scan c false true.

Definition wpas_network_reenabled (c : conn) : outcome conn :=
  if disconnected c || negb (state_of c =? WPA_SCANNING) then Ret c
  else
    '(r, c) ← wpa_supplicant_fast_associate c;
    Ret (if r =? 1 then c else wpa_supplicant_req_scan (wpa_supplicant_cancel_sched_scan c) 0 0).

Definition wpas_request_connection (c : conn) : outcome conn :=
  let c := c {{ normal_scans := 0 }} {{ scan_req := NORMAL_SCAN_REQ }} in
  let c := with_sel c (with_blacklist (cs c) (BlState (blacklist (sel_blacklist (cs c))) 0) (blacklist_cleared (cs c))) in
  let c := with_reassociate (c {{ disconnected := false }}) true in
  '(r, c) ← wpa_supplicant_fast_associate c;
  Ret (if r =? 1 then c {{ reattach := false }} else wpa_supplicant_req_scan c 0 0).

Definition wpas_request_disconnection (c : conn) : outcome conn :=
  let c := (with_reassociate (c {{ prev_bssid := None }}) false) {{ disconnected := true }} in
  let c := does (wpa_supplicant_cancel_sched_scan c) [ScanCancelled] in
  c ← wpa_supplicant_deauthenticate c WLAN_REASON_DEAUTH_LEAVING;
  Ret (does c [ReenableCancelled]).

(** ** Enabling, disabling, selecting and removing networks *)

Definition wpa_supplicant_enable_one_network (c : conn) (id : Z) : outcome conn :=
  n ← net_of c id;
  if (get_int n (lit "disabled") =? 0) || (get_int n (lit "disabled") =? 2) then Ret c
  else
    let c := change_net c id (set_int n (lit "disabled") 0) in
    s ← wpas_clear_temp_disabled (cs c) id true;
    let c := does (with_sel c s) [EnabledChanged id] in
    Ret (if bool_decide (current c = None) && negb (disconnected c) then with_reassociate c true else c).

Fixpoint enable_all (c : conn) (ids : list Z) : outcome conn :=
  match ids with
  | [] => Ret c
  | id :: ids' => c ← wpa_supplicant_enable_one_network c id; enable_all c ids'
  end.

Definition net_ids (c : conn) : list Z := fst <$> conf_nets (conf c).

Definition wpa_supplicant_enable_network (c : conn) (ssid : option Z) : outcome conn :=
  c ← match ssid with
      | None => enable_all c (net_ids c)
      | Some id => wpa_supplicant_enable_one_network c id
      end;
  if reassociates c && negb (disconnected c)
     && (bool_decide (current c = None) || (state_of c =? WPA_DISCONNECTED) || (state_of c =? WPA_SCANNING))
  then
    '(r, c) ← wpa_supplicant_fast_associate (wpa_supplicant_cancel_sched_scan c);
    Ret (if r =? 1 then c else wpa_supplicant_req_scan (c {{ scan_req := NORMAL_SCAN_REQ }}) 0 0)
  else Ret c.

Fixpoint disable_all (c : conn) (ids : list Z) : outcome conn :=
  match ids with
  | [] => Ret c
  | id :: ids' =>
      n ← net_of c id;
      let was_disabled := get_int n (lit "disabled") in
      if was_disabled =? 2 then disable_all c ids'
      else
        let c := change_net c id (set_int n (lit "disabled") 1) in
        disable_all (if was_disabled =? 1 then c else does c [EnabledChanged id]) ids'
  end.

Definition wpa_supplicant_disable_network (c : conn) (ssid : option Z) : outcome conn :=
  match ssid with
  | None =>
      c ← disable_all (wpa_supplicant_cancel_sched_scan c) (net_ids c);
      match current c with
      | Some _ => wpa_supplicant_deauthenticate c WLAN_REASON_DEAUTH_LEAVING
      | None => Ret c
      end
  | Some id =>
      n ← net_of c id;
      if get_int n (lit "disabled") =? 2 then Ret c
      else
        c ← (if bool_decide (current c = Some id)
             then wpa_supplicant_deauthenticate c WLAN_REASON_DEAUTH_LEAVING else Ret c);
        n ← net_of c id;
        let was_disabled := get_int n (lit "disabled") in
        let c := change_net c id (set_int n (lit "disabled") 1) in
        if was_disabled =? 1 then Ret c
        else
          let c := does c [EnabledChanged id] in
          Ret (if sched_scanning c then wpa_supplicant_req_scan (wpa_supplicant_cancel_sched_scan c) 0 0 else c)
  end.

(** The loop over the other networks. *)
Fixpoint select_others (c : conn) (ssid : option Z) (ids : list Z) : outcome conn :=
  match ids with
  | [] => Ret c
  | id :: ids' =>
      n ← net_of c id;
      let was_disabled := get_int n (lit "disabled") in
      if was_disabled =? 2 then select_others c ssid ids'
      else
        let disabled := match ssid with Some s => b2z (negb (s =? id)) | None => 0 end in
        let c := change_net c id (set_int n (lit "disabled") disabled) in
        c ← (if negb (was_disabled =? 0) && (disabled =? 0)
             then s ← wpas_clear_temp_disabled (cs c) id false; Ret (with_sel c s) else Ret c);
        select_others (if was_disabled =? disabled then c else does c [EnabledChanged id]) ssid ids'
  end.

(** The end of [wpa_supplicant_select_network]. *)
Definition connect_selected (c : conn) (ssid : option Z) (was_connected : bool) : outcome conn :=
  c ← match ssid with
      | Some id =>
          let c := does (with_current c (Some id)) [EapolNoConfig] in
          n ← net_of c id;
          Ret (c {{ connect_without_scan := if get_int n (lit "mode") =? IEEE80211_MODE_MESH then Some id else None }}
                 {{ next_scan_freqs := None }})
      | None => Ret (c {{ connect_without_scan := None }})
      end;
  let c := with_reassociate (c {{ disconnected := false }}) true in
  '(r, c) ← match connect_without_scan c with
            | Some _ => Ret (0, c)
            | None => wpa_supplicant_fast_associate c
            end;
  let c := if r =? 1 then c
           else wpa_supplicant_req_scan (wpas_scan_reset_sched_scan (c {{ scan_req := NORMAL_SCAN_REQ }}))
                  0 (if was_connected then 100000 else 0) in
  Ret (match ssid with Some id => does c [NetworkSelected id] | None => c end).

Definition wpa_supplicant_select_network (c : conn) (ssid : option Z) : outcome conn :=
  let leave := match ssid, current c with Some id, Some cur => negb (id =? cur) | _, _ => false end in
  c ← (if leave then
         let c := if WPA_AUTHENTICATING <=? state_of c then c {{ own_disconnect_req := true }} else c in
         wpa_supplicant_deauthenticate c WLAN_REASON_DEAUTH_LEAVING
       else Ret c);
  c ← match ssid with
      | Some id => s ← wpas_clear_temp_disabled (cs c) id true; Ret (with_sel c s)
      | None => Ret c
      end;
  c ← select_others c ssid (net_ids c);
  if bool_decide (is_Some ssid) && bool_decide (ssid = current c) && (WPA_AUTHENTICATING <=? state_of c)
  then Ret c
  else connect_selected c ssid leave.

Fixpoint unlink_net (l : list (Z * net)) (id : Z) : list (Z * net) :=
  match l with
  | [] => []
  | e :: l' => if id =? e.1 then l' else e :: unlink_net l' id
  end.

(** [wpa_config_remove_network] on the blocks and on the lists of priorities. *)
Definition config_remove (w : wpa_supplicant) (id : Z) : outcome (Z * wpa_supplicant) :=
  '(r, cfg) ← wpa_config_remove_network (λ _, true) (conf_of w) id;
  Ret (r, if r <? 0 then w
          else WpaS (unlink_net (conf_nets w) id) (pssid cfg) (current_ssid w)).

Definition wpas_notify_network_removed (c : conn) (id : Z) : conn :=
  let c := if bool_decide (next_ssid (cs c) = Some id) then with_sel c (with_next (cs c) None) else c in
  does c [PmksaFlushed id; NetworkRemoved id].

(** The network that was used is forgotten. *)
Definition forget_last (c : conn) (id : Z) : conn :=
  if bool_decide (last_ssid c = Some id) then c {{ last_ssid := None }} else c.

Definition wpa_supplicant_remove_network (c : conn) (id : Z) : outcome (Z * conn) :=
  match find_net (conf_nets (conf c)) id with
  | None => Ret (-1, c)
  | Some _ =>
      let c := forget_last (wpas_notify_network_removed c id) id in
      let c := if bool_decide (current c = Some id) || bool_decide (current c = None)
               then does (c {{ prev_bssid := None }}) [EapolInvalidated] else c in
      c ← (if bool_decide (current c = Some id) then
             let c := does c [SmNoConfig; EapolNoConfig] in
             let c := if WPA_AUTHENTICATING <=? state_of c then c {{ own_disconnect_req := true }} else c in
             wpa_supplicant_deauthenticate c WLAN_REASON_DEAUTH_LEAVING
           else Ret c);
      n ← net_of c id;
      '(r, w) ← config_remove (conf c) id;
      let c := with_config c w in
      if r <? 0 then Ret (-2, c)
      else
        Ret (0, if (get_int n (lit "disabled") =? 0) && sched_scanning c
                then wpa_supplicant_req_scan (wpa_supplicant_cancel_sched_scan c) 0 0 else c)
  end.

(** ** Commands of the control interface (ctrl_iface.c) *)

Fixpoint channels_loop (ranges : option (list wpa_freq_range)) (chans : list (Z * Z)) (freqs : option buf)
    : outcome (option buf) :=
  match chans with
  | [] => Ret freqs
  | ch :: chans' =>
      if has ch.2 HOSTAPD_CHAN_DISABLED || negb (freq_range_list_includes ranges (u32 ch.1))
      then channels_loop ranges chans' freqs
      else freqs ← int_array_add_unique (λ _, alloc_ok env) freqs (u32 ch.1); channels_loop ranges chans' freqs
  end.

Definition freq_range_to_channel_list (c : conn) (val : str) : outcome (option buf) :=
  match hw_modes (cu c) with
  | None => Ret None
  | Some modes =>
      '(ranges, r) ← freq_range_list_parse (λ _, alloc_ok env) [] (Some val);
      if r <? 0 then Ret None else channels_loop (Some ranges) (flat_map hw_channels modes) None
  end.

(** The network that a command names by its identifier; those of persistent
    P2P groups cannot be used. *)
Definition command_network (c : conn) (cmd : str) : option (Z * net) :=
  let id := atoi cmd in
  n ← find_net (conf_nets (conf c)) id;
  if get_int n (lit "disabled") =? 2 then None else Some (id, n).

Definition wpa_supplicant_ctrl_iface_select_network (c : conn) (cmd : str) : outcome (Z * conn) :=
  let any := strncmp_eq cmd (lit "any") 3 in
  let ssid := if any then None else fst <$> command_network c cmd in
  if negb any && bool_decide (ssid = None) then Ret (-1, c)
  else
    c ← match strstr cmd (lit " freq=") with
        | Some i =>
            freqs ← freq_range_to_channel_list c (drop (i + 6) cmd);
            Ret (match freqs with
                 | Some f => c {{ scan_req := MANUAL_SCAN_REQ }} {{ manual_scan_freqs := Some f }}
                 | None => c
                 end)
        | None => Ret c
        end;
    c ← wpa_supplicant_select_network (with_scan_min_time c (0, 0)) ssid;
    Ret (0, c).

Definition wpa_supplicant_ctrl_iface_enable_network (c : conn) (cmd : str) : outcome (Z * conn) :=
  if str_eqb cmd (lit "all") then
    c ← wpa_supplicant_enable_network (with_scan_min_time c (0, 0)) None; Ret (0, c)
  else
    match command_network c cmd with
    | None => Ret (-1, c)
    | Some (id, n) =>
        if bool_decide (is_Some (strstr cmd (lit " no-connect")))
        then Ret (0, change_net c id (set_int n (lit "disabled") 0))
        else c ← wpa_supplicant_enable_network (with_scan_min_time c (0, 0)) (Some id); Ret (0, c)
    end.

Definition wpa_supplicant_ctrl_iface_disable_network (c : conn) (cmd : str) : outcome (Z * conn) :=
  if str_eqb cmd (lit "all") then c ← wpa_supplicant_disable_network c None; Ret (0, c)
  else
    match command_network c cmd with
    | None => Ret (-1, c)
    | Some (id, _) => c ← wpa_supplicant_disable_network c (Some id); Ret (0, c)
    end.

(** The loop of REMOVE_NETWORK all. *)
Fixpoint remove_all (c : conn) (ids : list Z) : outcome conn :=
  match ids with
  | [] => Ret c
  | id :: ids' =>
      let c := wpas_notify_network_removed (forget_last c id) id in
      '(_, w) ← config_remove (conf c) id;
      remove_all (with_config c w) ids'
  end.

Definition wpa_supplicant_ctrl_iface_remove_network (c : conn) (cmd : str) : outcome (Z * conn) :=
  if str_eqb cmd (lit "all") then
    let c := does (wpa_supplicant_cancel_sched_scan c) [EapolInvalidated] in
    c ← match current c with
        | Some _ =>
            let c := does (c {{ prev_bssid := None }}) [SmNoConfig; EapolNoConfig] in
            let c := if WPA_AUTHENTICATING <=? state_of c then c {{ own_disconnect_req := true }} else c in
            wpa_supplicant_deauthenticate c WLAN_REASON_DEAUTH_LEAVING
        | None => Ret c
        end;
    c ← remove_all c (net_ids c);
    Ret (0, c)
  else
    '(r, c) ← wpa_supplicant_remove_network c (atoi cmd);
    Ret (if (r =? -1) || (r =? -2) then -1 else 0, c).

(** The commands without arguments, as [wpa_supplicant_ctrl_iface_process]
    handles them. *)
Inductive plain_command : Type := Reassociate | Reattach | Reconnect | Disconnect.

Definition run_plain (c : conn) (cmd : plain_command) : outcome (Z * conn) :=
  let is_down := state_of c =? WPA_INTERFACE_DISABLED in
  match cmd with
  | Reassociate => if is_down then Ret (-1, c) else c ← wpas_request_connection c; Ret (0, c)
  | Reattach =>
      if is_down || bool_decide (current c = None) then Ret (-1, c)
      else c ← wpas_request_connection (c {{ reattach := true }}); Ret (0, c)
  | Reconnect =>
      if is_down then Ret (-1, c)
      else if disconnected c then c ← wpas_request_connection c; Ret (0, c)
      else Ret (0, c)
  | Disconnect => c ← wpas_request_disconnection c; Ret (0, c)
  end.
End connections.
