(* ===== verification/ConnectSpec.v ===== *)
(** * Connections: invariant and frame

    What every operation of Connect.v keeps: the pointers to networks and BSS
    entries are to ones that exist and the counters stay small.  [calm] says
    what an operation that only connects or disconnects leaves alone. *)

From stdpp Require Import gmap sorting.
From S2P Require Import Prelude CString WpaIe CommonLists Network Blacklist Bss BssTable BssTableSpec.
From S2P Require Import ConfigSsid ConfigText ConfigVars ConfigSsidSpec CtrlNetwork CtrlNetworkSpec.
From S2P Require Import Select SelectFits SelectSpec SelectPick Connect.
From coqutil Require Import Datatypes.RecordSetters.
Import DoubleBraceUpdate.

(** ** Invariant *)

(** Counters stay below this for as many steps as are considered. *)
Definition MANY_STEPS : Z := 10000000.

Ltac small := unfold MANY_STEPS, INT_MIN, INT_MAX in *; lia.

Definition failures (n : net) : Z := get_int n (lit "auth_failures").

Definition total_count (b : blacklist_state) : Z := extra_blacklist_count b + max_count (blacklist b).

(** [B] bounds the counters. *)
Record sys_ok (B : Z) (u : setup) (s : selector) : Prop := SysOk {
  ys_sel : sel_ok s;
  ys_current : ∀ id, current_ssid (sel_conf s) = Some id → is_Some (find_net (conf_nets (sel_conf s)) id);
  ys_bss : ∀ p, current_bss (sel_bss s) = Some p → p ∈ bss_lru (sel_bss s);
  ys_up : wpa_state u ≠ WPA_INTERFACE_DISABLED;
  ys_levels : ∀ p b, heap (sel_bss s) !! p = Some b → -1000000 ≤ bss_level b ≤ 1000000;
  ys_clock : ∀ n, 0 ≤ clock u n ≤ 1000000000;
  ys_bl : bl_ok (sel_blacklist s);
  ys_extra : 0 ≤ extra_blacklist_count (sel_blacklist s);
  ys_count : total_count (sel_blacklist s) ≤ B;
  ys_cleared : 0 ≤ blacklist_cleared s ≤ B;
  ys_auth : Forall (λ e : Z * net, 0 ≤ failures e.2 ≤ B) (conf_nets (sel_conf s));
  ys_channels : ∀ modes m ch, hw_modes u = Some modes → m ∈ modes → ch ∈ hw_channels m → u32 ch.1 ≠ 0
}.

Definition conn_ok (B : Z) (c : conn) : Prop := sys_ok B (cu c) (cs c).

Lemma sys_ok_more B B' u s : B ≤ B' → sys_ok B u s → sys_ok B' u s.
Proof.
  intros HB []. split; try done; try lia. apply (Forall_impl _ _ _ ys_auth0). intros e He. lia.
Qed.

(** Another table. *)
Lemma sys_ok_table B u s t : sys_ok B u s → entries_ok t →
  (∀ p, current_bss t = Some p → p ∈ bss_lru t) →
  (∀ p b, heap t !! p = Some b → -1000000 ≤ bss_level b ≤ 1000000) → sys_ok B u (s {{ sel_bss := t }}).
Proof. intros [[H1 H2 H3] H4 H5 H6 H7 H8 H9 H10 H11 H12 H13 H14] Ht Hc Hl. by split. Qed.

(** ** What operations leave alone *)

(** A network but for its failures. *)
Definition steady (n : net) : net := set_int (set_int n (lit "auth_failures") 0) (lit "disabled_until") 0.

Definition fixed (u : setup) : setup :=
  u {{ wpa_state := 0 }} {{ reassociate := false }} {{ scan_min_time := (0, 0) }}.

(** A queued association is an old one, or for a network of [P]. *)
Definition from_old (P : Z → Prop) (o o' : option wpa_connect_work) : Prop :=
  ∀ w', o' = Some w' → (∃ w, o = Some w ∧ cw_ssid w = cw_ssid w') ∨ P (cw_ssid w').

Section frame.

(** Whether the daemon was told to disconnect, and the networks for which an
    association may be queued. *)
Context (told : Prop) (may : Z → Prop).

(** Then nothing is started. *)
Record quiet (c c' : conn) : Prop := Quiet {
  qt_disconnected : told → disconnected c = true → disconnected c' = true;
  qt_idle : told → disconnected c = true → reassociates c = false → reassociates c' = false;
  qt_sme : told → disconnected c = true → pending_sme c = None → pending_sme c' = None;
  qt_connect : told → disconnected c = true → pending_connect c = None → pending_connect c' = None;
  qt_current : told → disconnected c = true → current c = None → current c' = None
}.

Lemma quiet_refl c : quiet c c.
Proof. by split. Qed.

Lemma quiet_trans c c' c'' : quiet c c' → quiet c' c'' → quiet c c''.
Proof. intros [] []. split; eauto. Qed.

Definition enabled_net (c : conn) (id : Z) : Prop := enabled (cu c) (cs c) id = true.

Record calm (c c' : conn) : Prop := Calm {
  cm_nets : nets_view steady (cs c') = nets_view steady (cs c);
  cm_pssid : conf_pssid (conf c') = conf_pssid (conf c);
  cm_setup : fixed (cu c') = fixed (cu c);
  cm_quiet : quiet c c';
  cm_sme : from_old may (pending_sme c) (pending_sme c');
  cm_connect : from_old may (pending_connect c) (pending_connect c')
}.

Record same_entries (c c' : conn) : Prop := SameEntries {
  se_lru : bss_lru (table_of c') = bss_lru (table_of c);
  se_heap : heap (table_of c') = heap (table_of c);
  se_last : last_scan_res (table_of c') = last_scan_res (table_of c)
}.

Lemma from_old_refl P o : from_old P o o.
Proof. intros w' Hw. left. by exists w'. Qed.

Lemma from_old_trans P o o' o'' : from_old P o o' → from_old P o' o'' → from_old P o o''.
Proof.
  intros H1 H2 w Hw. destruct (H2 w Hw) as [(w1 & Hw1 & E)|H]; [|by right].
  destruct (H1 w1 Hw1) as [(w0 & Hw0 & E0)|H]; [left; exists w0; split; [done|congruence]|right; by rewrite <- E].
Qed.

Lemma steady_int n f : f ≠ lit "auth_failures" → f ≠ lit "disabled_until" → get_int (steady n) f = get_int n f.
Proof. intros H1 H2. unfold steady. by rewrite !get_set_int_ne. Qed.

Lemma network_disabled_steady u n : wpas_network_disabled (fixed u) (steady n) = wpas_network_disabled u n.
Proof. unfold wpas_network_disabled, km, ssid_len. by rewrite !steady_int. Qed.

(** Whether a network is enabled. *)
Lemma enabled_same c c' id : nets_view steady (cs c') = nets_view steady (cs c) → fixed (cu c') = fixed (cu c) →
  enabled (cu c') (cs c') id = enabled (cu c) (cs c) id.
Proof.
  intros Hn Hu. unfold enabled. destruct (find_net (conf_nets (sel_conf (cs c))) id) as [n|] eqn:E.
  - destruct (view_find steady (cs c) (cs c') id n Hn E) as (n' & -> & Hs).
    by rewrite <- (network_disabled_steady (cu c') n'), Hu, Hs, network_disabled_steady.
  - by rewrite (view_none steady (cs c) (cs c') id).
Qed.

Lemma calm_refl c : calm c c.
Proof. split; try done; apply from_old_refl. Qed.

Lemma calm_trans c c' c'' : calm c c' → calm c' c'' → calm c c''.
Proof.
  intros [H1 H2 H3 H4 H5 H6] [G1 G2 G3 G4 G5 G6].
  split; [congruence..|by eapply quiet_trans|by eapply from_old_trans|by eapply from_old_trans].
Qed.

Lemma same_entries_refl c : same_entries c c.
Proof. by split. Qed.

Lemma same_entries_trans c c' c'' : same_entries c c' → same_entries c' c'' → same_entries c c''.
Proof. intros [] []. split; congruence. Qed.

(** The invariant holds and nothing but the connection changed. *)
Record good (B : Z) (c c' : conn) : Prop := Good {
  gd_ok : conn_ok B c';
  gd_calm : calm c c';
  gd_entries : same_entries c c'
}.

Lemma frame_refl B c : conn_ok B c → good B c c.
Proof. intros H. split; [done|apply calm_refl|apply same_entries_refl]. Qed.

Lemma frame_trans B B' c c' c'' : good B c c' → good B' c' c'' → good B' c c''.
Proof.
  intros [] []. split; [done|by eapply calm_trans|by eapply same_entries_trans].
Qed.

Lemma good_more B B' c c' : B ≤ B' → good B c c' → good B' c c'.
Proof. intros HB [H]. split; [|done..]. by eapply sys_ok_more. Qed.

(** A change of what the choice does not use. *)
Lemma frame_data B c c' : conn_ok B c → cu c' = cu c → cs c' = cs c → disconnected c' = disconnected c →
  pending_sme c' = pending_sme c → pending_connect c' = pending_connect c → good B c c'.
Proof.
  intros H E1 E2 E3 E4 E5. unfold conn_ok in H. rewrite <- E1, <- E2 in H. split; [done| |].
  - split; unfold conf, reassociates, current; rewrite ?E1, ?E2, ?E4, ?E5; try done; [|apply from_old_refl..].
    split; unfold reassociates, current, conf; rewrite ?E1, ?E2, ?E3, ?E4, ?E5; done.
  - split; unfold table_of; by rewrite E2.
Qed.

(** A change of the selector. *)
Lemma good_sel B c s : sys_ok B (cu c) s →
  nets_view steady s = nets_view steady (cs c) → conf_pssid (sel_conf s) = conf_pssid (conf c) →
  (current_ssid (sel_conf s) = current c ∨ current_ssid (sel_conf s) = None) →
  bss_lru (sel_bss s) = bss_lru (table_of c) → heap (sel_bss s) = heap (table_of c) →
  last_scan_res (sel_bss s) = last_scan_res (table_of c) → good B c (with_sel c s).
Proof.
  intros H H1 H2 H3 H4 H5 H6. split.
  - apply sys_ok_table; [done| |apply (ys_bss _ _ _ H)|apply (ys_levels _ _ _ H)].
    destruct (so_bss s (ys_sel _ _ _ H)). by split.
  - split; [done|done|done| |apply from_old_refl..]. split; try done. intros _ _ Hc.
    change (current_ssid (sel_conf s) = None). destruct H3; congruence.
  - by split.
Qed.

(** A change of the table that keeps the entries. *)
Lemma good_table B c t : conn_ok B c →
  bss_lru t = bss_lru (table_of c) → heap t = heap (table_of c) → last_scan_res t = last_scan_res (table_of c) →
  (current_bss t = current_bss (table_of c) ∨ current_bss t = None) → good B c (with_table c t).
Proof.
  intros H E1 E2 E3 E4. pose proof H as [[_ [K1 K2 K3] _] _ Hb _ Hl _ _ _ _ _ _ _]. split.
  - apply sys_ok_table; [done| | |].
    + split; rewrite ?E1, ?E2, ?E3; done.
    + intros p Hp. rewrite E1. apply Hb. destruct E4 as [E4|E4]; rewrite E4 in Hp; [done|discriminate].
    + intros p b. rewrite E2. apply Hl.
  - split; [done|done|done| |apply from_old_refl..]. by split.
  - by split.
Qed.

Lemma good_state B c st : conn_ok B c → st ≠ WPA_INTERFACE_DISABLED → good B c (with_state c st).
Proof.
  intros [] Hst. split; [by split| |by split]. split; [done|done|done| |apply from_old_refl..]. by split.
Qed.

(** ** Changes of networks *)

Lemma sys_ok_put B B' u s id n m :
  sys_ok B u s → B ≤ B' → find_net (conf_nets (sel_conf s)) id = Some n → net_ok m →
  get_int m (lit "priority") = get_int n (lit "priority") →
  get_int m (lit "wep_tx_keyidx") = get_int n (lit "wep_tx_keyidx") → 0 ≤ failures m ≤ B' →
  sys_ok B' u (with_conf s (with_net (sel_conf s) id m)).
Proof.
  intros H HB Hf Hm Hp Hk Hfl. destruct (ok_net s id n (ys_sel _ _ _ H) Hf) as [_ Hki].
  destruct (sys_ok_more B B' u s HB H) as [[H1 H2 H3] H4 H5 H6 H7 H8 H9 H10 H11 H12 H13 H14].
  split; try done.
  - split; [by eapply with_net_ok|done|]. apply put_Forall; [done|]. unfold key_index_ok in *. cbn [snd]. by rewrite Hk.
  - intros j Hj. destruct (H4 j Hj) as [x Hx]. cbn [sel_conf with_conf].
    destruct (found_put (sel_conf s) id n m Hf) as [F1 F2].
    destruct (decide (j = id)) as [->|Hne]; [by exists m|]. rewrite F2 by done. by exists x.
  - by apply put_Forall.
Qed.

(** The choice changes only times that have passed. *)
Lemma sys_ok_view B B' u s s' :
  sys_ok B u s → B ≤ B' → sel_ok s' → nets_view frozen s' = nets_view frozen s →
  current_ssid (sel_conf s') = current_ssid (sel_conf s) → sel_bss s' = sel_bss s →
  bl_ok (sel_blacklist s') → 0 ≤ extra_blacklist_count (sel_blacklist s') →
  total_count (sel_blacklist s') ≤ B' → 0 ≤ blacklist_cleared s' ≤ B' → sys_ok B' u s'.
Proof.
  clear told may.
  intros [_ G1 G2 G3 G4 G5 _ _ _ _ G6 G7] HB Hs Hv Hc Hb H1 H2 H3 H4. split; try done.
  - intros id. rewrite Hc. intros Hid. destruct (G1 id Hid) as [n Hn].
    destruct (view_find frozen s s' id n Hv Hn) as (n' & -> & _). by eexists.
  - intros p. rewrite Hb. apply G2.
  - intros p b. rewrite Hb. apply G4.
  - assert (Hf : nets_view failures s' = nets_view failures s).
    { apply view_of_frozen; [|done]. intros n. by apply frozen_int. }
    assert (Hall : Forall (λ x : Z * Z, 0 ≤ x.2 ≤ B') (nets_view failures s')).
    { rewrite Hf. apply Forall_fmap, (Forall_impl _ _ _ G6). intros e ?. cbn. lia. }
    by apply Forall_fmap in Hall.
Qed.

Lemma set_int_again n f v w : set_int (set_int n f v) f w = set_int n f w.
Proof. unfold set_int. f_equal. apply insert_insert_eq. Qed.

Lemma set_int_comm n f g v w : f ≠ g → set_int (set_int n f v) g w = set_int (set_int n g w) f v.
Proof. intros H. unfold set_int. f_equal. by apply insert_insert_ne. Qed.

Lemma steady_failures n v : steady (set_int n (lit "auth_failures") v) = steady n.
Proof. unfold steady. by rewrite set_int_again. Qed.

Lemma steady_until n v : steady (set_int n (lit "disabled_until") v) = steady n.
Proof. unfold steady. rewrite (set_int_comm n) by done. by rewrite set_int_again. Qed.

Lemma steady_frozen n : steady (frozen n) = steady n.
Proof. apply steady_until. Qed.

Lemma steady_of_frozen s s' : nets_view frozen s' = nets_view frozen s → nets_view steady s' = nets_view steady s.
Proof. apply view_of_frozen. apply steady_frozen. Qed.

Lemma good_keeps B c s : conn_ok B c → keeps (cu c) (cs c) s → good B c (with_sel c s).
Proof.
  intros H [K1 K2 K3 K4 K5 K6 K7 K8 K9]. pose proof H as [].
  assert (Hs : sys_ok B (cu c) s).
  { eapply (sys_ok_view B B (cu c) (cs c)); rewrite ?K6, ?K7; try done. }
  apply good_sel; [done|by apply steady_of_frozen|done|by left|by rewrite K8..].
Qed.

(** A change of a network that [steady] does not show. *)
Lemma good_net B B' c id n m : conn_ok B c → B ≤ B' → find_net (conf_nets (conf c)) id = Some n → net_ok m →
  steady m = steady n → 0 ≤ failures m ≤ B' → good B' c (change_net c id m).
Proof.
  intros H HB Hf Hm Hs Hfl.
  assert (Hi : ∀ f, f ≠ lit "auth_failures" → f ≠ lit "disabled_until" → get_int m f = get_int n f).
  { intros f H1 H2. by rewrite <- (steady_int m f), Hs, steady_int. }
  apply good_sel; [|by apply (view_put steady (cs c) id n)|done|by left|done..].
  eapply sys_ok_put; [exact H|done|exact Hf|done|by apply Hi..|done].
Qed.


(** ** States *)

Lemma find_current B c id : conn_ok B c → current c = Some id → ∃ n, net_of c id = Ret n ∧
  find_net (conf_nets (conf c)) id = Some n.
Proof.
  intros H Hc. destruct (ys_current _ _ _ H id Hc) as [n Hn]. exists n. split; [|done].
  unfold net_of, the_net. unfold conf in *. by rewrite Hn.
Qed.

Lemma net_failures B c id n : conn_ok B c → find_net (conf_nets (conf c)) id = Some n → 0 ≤ failures n ≤ B.
Proof.
  intros H Hn. pose proof (ys_auth _ _ _ H) as HF. rewrite Forall_forall in HF.
  by apply (HF (id, n)), find_net_elem.
Qed.

Lemma net_fine B c id n : conn_ok B c → find_net (conf_nets (conf c)) id = Some n → net_ok n.
Proof. intros H Hn. by destruct (ok_net (cs c) id n (ys_sel _ _ _ H) Hn). Qed.

Lemma sys_ok_notes B u s l : sys_ok B u s → sys_ok B u (with_notes s l).
Proof. intros [[] ]. by split. Qed.

Lemma set_until_ok n v : net_ok n → INT_MIN ≤ v ≤ INT_MAX → net_ok (set_int n (lit "disabled_until") v).
Proof. intros Hn Hv. apply set_int_ok; [done|by apply int_ok_plain|done]. Qed.

Lemma set_failures_ok n v : net_ok n → INT_MIN ≤ v ≤ INT_MAX → net_ok (set_int n (lit "auth_failures") v).
Proof. intros Hn Hv. apply set_int_ok; [done|by apply int_ok_plain|done]. Qed.

Lemma failures_set n v : failures (set_int n (lit "auth_failures") v) = v.
Proof. apply get_set_int. Qed.

Lemma failures_until n v : failures (set_int n (lit "disabled_until") v) = failures n.
Proof. by apply get_set_int_ne. Qed.

(** A note and a change of a network. *)
Lemma good_noted B B' c id n m l : conn_ok B c → B ≤ B' → find_net (conf_nets (conf c)) id = Some n → net_ok m →
  steady m = steady n → 0 ≤ failures m ≤ B' →
  good B' c (with_sel c (with_conf (with_notes (cs c) l) (with_net (conf c) id m))).
Proof.
  intros H HB Hf Hm Hs Hfl.
  assert (Hi : ∀ f, f ≠ lit "auth_failures" → f ≠ lit "disabled_until" → get_int m f = get_int n f).
  { intros f H1 H2. by rewrite <- (steady_int m f), Hs, steady_int. }
  apply good_sel; [|by apply (view_put steady (cs c) id n)|done|by left|done..].
  eapply (sys_ok_put B B' (cu c) (with_notes (cs c) l)); [by apply sys_ok_notes|done|exact Hf|done|by apply Hi..|done].
Qed.

Lemma with_notes_nil s : with_notes s [] = s.
Proof. destruct s. unfold with_notes. cbn. by rewrite app_nil_r. Qed.

Lemma clear_temp_good B c id n b : conn_ok B c → find_net (conf_nets (conf c)) id = Some n →
  ∃ s, wpas_clear_temp_disabled (cs c) id b = Ret s ∧ good B c (with_sel c s) ∧
    find_net (conf_nets (sel_conf s)) id =
      Some (let m := set_int n (lit "disabled_until") 0 in if b then set_int m (lit "auth_failures") 0 else m).
Proof.
  intros H Hn. unfold wpas_clear_temp_disabled, the_net. unfold conf in Hn. rewrite Hn. ret_simpl. eexists. split; [done|].
  pose proof (net_failures B c id n H Hn) as Hf. pose proof (net_fine B c id n H Hn) as Hok.
  set (m := if b then _ else _).
  assert (Hm : net_ok m ∧ steady m = steady n ∧ 0 ≤ failures m ≤ B).
  { subst m. destruct b; split_and!; rewrite ?steady_failures, ?steady_until, ?failures_set, ?failures_until; try done; try lia.
    - apply set_failures_ok; [|done]. by apply set_until_ok.
    - by apply set_until_ok. }
  destruct Hm as (H1 & H2 & H3).
  pose proof (good_noted B B c id n m [] H) as G. rewrite with_notes_nil in G.
  destruct (found_put (sel_conf (cs c)) id n m Hn) as [F _].
  case_if; (split; [|exact F]); [by apply (good_noted B B c id n m)|by apply G].
Qed.

Lemma get_time_good B env c : conn_ok B c → ∃ now c', get_time env c = (now, c') ∧ good B c c'.
Proof.
  intros H. unfold get_time, get_reltime. eexists _, _. split; [reflexivity|]. apply good_sel; try done; [|by left].
  destruct H as [[] ]. by split.
Qed.

Lemma with_net_twice w id n m : with_net (with_net w id n) id m = with_net w id m.
Proof.
  unfold with_net. cbn [conf_nets conf_pssid current_ssid]. f_equal.
  induction (conf_nets w) as [|[i x] l IH]; cbn [put_net fst]; [done|].
  destruct (id =? i) eqn:E; cbn [put_net fst]; rewrite E; [done|by f_equal].
Qed.

Lemma auth_failed_good B env c : conn_ok B c → 0 ≤ B ≤ 2 * MANY_STEPS →
  ∃ c', auth_failed env c = Ret c' ∧ good (B + 1) c c' ∧ current c' = current c.
Proof.
  intros H HB. unfold auth_failed, wpas_auth_failed.
  set (c0 := c {{ random_calls := _ }}).
  assert (H0 : good B c c0) by by apply frame_data.
  assert (Hsame : good (B + 1) c (with_sel c0 (cs c)) ∧ current (with_sel c0 (cs c)) = current c).
  { split; [|done]. eapply frame_trans; [exact H0|]. apply good_sel; try done; [|by left]. eapply sys_ok_more; [|done]. lia. }
  change (current_ssid (sel_conf (cs c))) with (current c).
  destruct (current c) as [id|] eqn:Ec; [|by eexists].
  destruct (find_current B c id H Ec) as (n & Hof & Hn). unfold net_of in Hof. rewrite Hof. ret_simpl.
  case_if; [by eexists|]. clear Hsame.
  pose proof (net_failures B c id n H Hn) as Hf. pose proof (net_fine B c id n H Hn) as Hok.
  assert (Hu : u32 (get_int n (lit "auth_failures") + 1) = failures n + 1).
  { unfold u32, failures in *. rewrite Z.mod_small; [done|]. unfold MANY_STEPS in *. lia. }
  rewrite Hu. set (n1 := set_int n (lit "auth_failures") (failures n + 1)).
  set (dur := auth_duration _ _ _). cbn [get_reltime].
  set (now := clock (cu c) _).
  assert (Hnow : 0 ≤ now ≤ 1000000000) by apply (ys_clock _ _ _ H).
  assert (Hd : 0 ≤ dur ≤ 2000000000 - 1000000000).
  { destruct (auth_duration_least (failures n + 1) (os_random env (random_calls c)) (wpa_key_mgmt_wpa_ieee8021x (km n1))) as [Hd Hl];
      unfold MANY_STEPS in *; [lia|]. subst dur. lia. }
  assert (Hok1 : net_ok n1) by (apply set_failures_ok; [done|unfold MANY_STEPS, INT_MIN, INT_MAX in *; lia]).
  assert (G : ∀ m l, net_ok m → steady m = steady n → failures m = failures n + 1 → ∀ s,
    s = Sel (with_net (conf c) id m) (sel_blacklist (cs c)) (blacklist_cleared (cs c)) (sel_bss (cs c)) (next_ssid (cs c))
          (S (clock_reads (cs c))) (sel_notes (cs c) ++ l) → good (B + 1) c (with_sel c0 s) ∧ current (with_sel c0 s) = current c).
  { intros m l Hm Hs Hfm s ->. split; [|done]. eapply frame_trans; [exact H0|].
    assert (Hi : ∀ f, f ≠ lit "auth_failures" → f ≠ lit "disabled_until" → get_int m f = get_int n f).
    { intros f H1 H2. by rewrite <- (steady_int m f), Hs, steady_int. }
    apply good_sel; [|by apply (view_put steady (cs c) id n)|done|by left|done..].
    assert (Hput : sys_ok (B + 1) (cu c) (with_conf (cs c) (with_net (conf c) id m))).
    { eapply sys_ok_put; [exact H|lia|exact Hn|done|by apply Hi..|lia]. }
    destruct Hput as [[] ].
    by split. }
  case_if; ret_simpl; eexists; (split; [done|]); rewrite <- Ec.
  - apply (G n1 []); [done|apply steady_failures|apply failures_set|]. unfold with_conf. cbn. by rewrite app_nil_r.
  - set (n2 := set_int n1 (lit "disabled_until") (now + dur)).
    apply (G n2 [TempDisabled id (failures n + 1) dur]);
      [apply set_until_ok; [done|unfold INT_MIN, INT_MAX; lia]|by unfold n2, n1; rewrite steady_until, steady_failures|by unfold n2, n1; rewrite failures_until, failures_set|].
    unfold with_conf, with_notes. cbn. by rewrite with_net_twice.
Qed.

(** *** Operations that return *)

(** The result's state is [π] of it. *)
Definition yields {A} (π : A → conn) (B : Z) (c : conn) (m : outcome A) : Prop :=
  ∃ a, m = Ret a ∧ good B c (π a) ∧ disconnected (π a) = disconnected c.

Notation runs := (yields id).
Notation answers := (yields snd).

Lemma yields_ret {A} (π : A → conn) B c a : good B c (π a) → disconnected (π a) = disconnected c → yields π B c (Ret a).
Proof. by exists a. Qed.

Lemma yields_bind {A A'} (π : A → conn) (π' : A' → conn) B B' c m (f : A → outcome A') :
  yields π B c m → (∀ a, good B c (π a) → disconnected (π a) = disconnected c → yields π' B' (π a) (f a)) →
  yields π' B' c (m ≫= f).
Proof.
  intros (a & -> & Hg & Hd) Hf. ret_simpl. destruct (Hf a Hg Hd) as (a' & -> & Hg' & Hd'). exists a'.
  split_and!; [done|by eapply frame_trans|congruence].
Qed.

Lemma yields_from {A} (π : A → conn) B B' c c1 m : good B c c1 → disconnected c1 = disconnected c →
  yields π B' c1 m → yields π B' c m.
Proof. intros Hg Hd (a & -> & Hg' & Hd'). exists a. split_and!; [done|by eapply frame_trans|congruence]. Qed.

Lemma yields_more {A} (π : A → conn) B B' c m : B ≤ B' → yields π B c m → yields π B' c m.
Proof. intros HB (a & -> & Hg & Hd). exists a. split_and!; [done|by eapply good_more|done]. Qed.

Lemma auth_failed_runs B env c : conn_ok B c → 0 ≤ B ≤ 2 * MANY_STEPS → runs (B + 1) c (auth_failed env c).
Proof.
  intros H HB. destruct (auth_failed_good B env c H HB) as (c' & E & Hg & _). exists c'. split_and!; [done|done|].
  unfold auth_failed in E. destruct (wpas_auth_failed _ _ _) as [s| |]; try discriminate E.
  rewrite outcome_bind_ret in E. by injection E as <-.
Qed.

Lemma good_does B c l : conn_ok B c → good B c (does c l).
Proof. intros H. by apply frame_data. Qed.

Lemma work_done_good B c : conn_ok B c → good B c (wpas_connect_work_done c) ∧
  disconnected (wpas_connect_work_done c) = disconnected c.
Proof. intros H. unfold wpas_connect_work_done. case_if; (split; [|done]); [by apply frame_data|by apply frame_refl]. Qed.

Lemma sys_ok_blacklist B u s l n : sys_ok B u s → bl_ok (BlState l n) → 0 ≤ n → total_count (BlState l n) ≤ B →
  sys_ok B u (with_blacklist s (BlState l n) (blacklist_cleared s)).
Proof. intros [[] ] H1 H2 H3. by split. Qed.

(** Another blacklist. *)
Lemma good_blacklist B B' c l n : conn_ok B c → B ≤ B' → bl_ok (BlState l n) → 0 ≤ n → total_count (BlState l n) ≤ B' →
  good B' c (with_sel c (with_blacklist (cs c) (BlState l n) (blacklist_cleared (cs c)))).
Proof.
  intros H HB H1 H2 H3. apply good_sel; try (by left); try done.
  apply sys_ok_blacklist; [by apply (sys_ok_more B)|done..].
Qed.

Lemma total_count_nonneg B c : conn_ok B c → 0 ≤ max_count (blacklist (sel_blacklist (cs c))).
Proof. intros _. apply max_count_acc. Qed.

Lemma completed_runs B c : conn_ok B c → 0 ≤ B ≤ 2 * MANY_STEPS → runs B c (connection_completed c).
Proof.
  intros H HB. unfold connection_completed.
  set (c1 := does c _). apply (yields_from id B B c c1); [by apply good_does|done|].
  assert (H1 : conn_ok B c1) by apply H.
  eapply (yields_bind id id B).
  - destruct (current c1) as [id|] eqn:Ec; [|by apply yields_ret; [apply frame_refl|]].
    destruct (find_current B c1 id H1 Ec) as (n & _ & Hn).
    destruct (clear_temp_good B c1 id n true H1 Hn) as (s & -> & Hg & _). ret_simpl. by apply yields_ret.
  - cbn beta. intros c2 [H2 _ _] _. change (id c2) with c2 in *. pose proof (total_count_nonneg B c2 H2) as Hm.
    pose proof (ys_extra _ _ _ H2) as He. pose proof (ys_count _ _ _ H2) as Ht. pose proof (ys_bl _ _ _ H2) as Hb.
    unfold total_count in Ht. unfold wpa_blacklist_clear. rewrite (proj2 (int_chk_Ret _ _)) by (split; [done|small]). ret_simpl. cbn [blacklist].
    assert (G : good B c2 (with_sel c2 (with_blacklist (cs c2) (BlState [] 0) (blacklist_cleared (cs c2))))).
    { apply (good_blacklist B B c2 [] 0); [done|lia|split; [by apply NoDup_nil|by apply Forall_nil]|lia|].
      unfold total_count. cbn. lia. }
    apply yields_ret; [|done]. eapply frame_trans; [exact G|]. apply frame_data; [apply G|done..].
Qed.

(** A change of what the choice does not use, that may be none. *)
Ltac by_data := first [apply frame_refl; assumption | apply frame_data; [assumption|reflexivity..]].

Lemma notify_scanning_good B c on : conn_ok B c → good B c (wpa_supplicant_notify_scanning c on) ∧
  disconnected (wpa_supplicant_notify_scanning c on) = disconnected c.
Proof. intros H. unfold wpa_supplicant_notify_scanning. case_if; (split; [by_data|done]). Qed.

Lemma state_runs B c st : conn_ok B c → 0 ≤ B ≤ 2 * MANY_STEPS → st ≠ WPA_INTERFACE_DISABLED →
  runs B c (wpa_supplicant_set_state c st).
Proof.
  intros H HB Hst. unfold wpa_supplicant_set_state.
  set (c1 := if st =? WPA_INTERFACE_DISABLED then _ else _).
  assert (G1 : good B c c1 ∧ disconnected c1 = disconnected c) by (subst c1; case_if; (split; [by_data|done])).
  destruct G1 as [G1 E1]. destruct (work_done_good B c1 (gd_ok _ _ _ G1)) as [G2 E2].
  set (c2 := if st =? WPA_COMPLETED then _ else _).
  assert (G3 : good B c1 c2 ∧ disconnected c2 = disconnected c1).
  { subst c2. case_if; [|by split; [apply frame_refl, G1|]]. split; [|done].
    eapply frame_trans; [exact G2|]. apply frame_data; [apply G2|done..]. }
  destruct G3 as [G3 E3]. destruct (notify_scanning_good B c2 false (gd_ok _ _ _ G3)) as [G4 E4].
  set (c3 := if negb _ then _ else _).
  assert (G5 : good B c2 c3 ∧ disconnected c3 = disconnected c2).
  { subst c3. case_if; [by split|]. split; [apply frame_refl, G3|done]. }
  destruct G5 as [G5 E5]. assert (H3 : conn_ok B c3) by apply G5.
  eapply (yields_from id B B c c3); [eapply frame_trans; [exact G1|]; by eapply frame_trans|congruence|].
  eapply (yields_bind id id B).
  - case_if; [by apply completed_runs|]. case_if; by (apply yields_ret; [by_data|]).
  - intros c4 [H4 _ _] _. change (id c4) with c4 in *. apply yields_ret; [|by case_if].
    eapply frame_trans; [by apply (good_state B c4 st)|].
    assert (H5 : conn_ok B (with_state c4 st)) by by apply (good_state B c4 st).
    change (id ?x) with x. case_if; by_data.
Qed.

(** The current network is forgotten, or one that exists. *)
Lemma good_no_current B c : conn_ok B c → good B c (with_current c None).
Proof.
  intros H. apply (good_sel B c (with_conf (cs c) ((conf c) {{ current_ssid := None }}))); try done; [|by right].
  destruct H as [[[] ] ]. by split.
Qed.

Lemma mark_disassoc_runs B c : conn_ok B c → 0 ≤ B ≤ 2 * MANY_STEPS →
  runs B c (wpa_supplicant_mark_disassoc c).
Proof.
  intros H HB. unfold wpa_supplicant_mark_disassoc.
  case_if; [by apply yields_ret; [apply frame_refl|]|].
  eapply (yields_bind id id B); [by apply state_runs|]. intros c1 [H1 _ _] _. change (id c1) with c1 in *.
  set (t := (table_of c1) {{ own_bssid := _ }} {{ pending_bssid := _ }} {{ current_bss := _ }}).
  assert (G2 : good B c1 (with_table c1 t)) by by apply good_table; try done; right.
  assert (H2 := gd_ok _ _ _ G2).
  match goal with |- context [with_current ?x None] => set (c3 := x) end.
  assert (G3 : good B (with_table c1 t) c3) by by apply frame_data.
  apply yields_ret; [|done]. eapply frame_trans; [exact G2|]. eapply frame_trans; [exact G3|].
  eapply frame_trans; [apply (good_no_current B c3), G3|].
  apply frame_data; [apply (good_no_current B c3), G3|done..].
Qed.

Lemma clear_keys_good B c a : conn_ok B c → good B c (wpa_clear_keys c a) ∧
  disconnected (wpa_clear_keys c a) = disconnected c.
Proof. intros H. unfold wpa_clear_keys. split; [by_data|done]. Qed.

Lemma clear_connection_runs B c a : conn_ok B c → 0 ≤ B ≤ 2 * MANY_STEPS →
  runs B c (wpa_supplicant_clear_connection c a).
Proof.
  intros H HB. unfold wpa_supplicant_clear_connection.
  destruct (work_done_good B c H) as [G1 E1]. destruct (clear_keys_good B _ a (gd_ok _ _ _ G1)) as [G2 E2].
  eapply (yields_from id B B c); [eapply frame_trans; [exact G1|exact G2]|congruence|].
  eapply (yields_bind id id B); [by apply mark_disassoc_runs; [apply G2|]|].
  intros c1 [H1 _ _] _. change (id c1) with c1 in *. apply yields_ret; [|by case_if].
  change (id ?x) with x. case_if; by_data.
Qed.

Lemma sme_disassoc_runs B c a : conn_ok B c → 0 ≤ B ≤ 2 * MANY_STEPS →
  runs B c (sme_disassoc_while_authenticating c a).
Proof.
  intros H HB. unfold sme_disassoc_while_authenticating.
  eapply (yields_bind id id B); [by apply state_runs|]. intros c1 [H1 _ _] _. change (id c1) with c1 in *.
  set (t := (table_of c1) {{ pending_bssid := _ }}).
  assert (G2 : good B c1 (with_table c1 t)) by by apply good_table; try done; left.
  apply yields_ret; [|done]. eapply frame_trans; [exact G2|]. apply frame_data; [apply G2|done..].
Qed.

(** *** Scans *)

Lemma req_scan_good B c sec usec : conn_ok B c → good B c (wpa_supplicant_req_scan c sec usec) ∧
  disconnected (wpa_supplicant_req_scan c sec usec) = disconnected c.
Proof. intros H. unfold wpa_supplicant_req_scan. case_if; (split; [by_data|done]). Qed.

Lemma cancel_sched_good B c : conn_ok B c → good B c (wpa_supplicant_cancel_sched_scan c) ∧
  disconnected (wpa_supplicant_cancel_sched_scan c) = disconnected c.
Proof. intros H. unfold wpa_supplicant_cancel_sched_scan. case_if; (split; [by_data|done]). Qed.

Lemma abort_scan_good B c : conn_ok B c → good B c (wpas_abort_ongoing_scan c) ∧
  disconnected (wpas_abort_ongoing_scan c) = disconnected c.
Proof. intros H. unfold wpas_abort_ongoing_scan. case_if; (split; [by_data|done]). Qed.

Lemma req_new_scan_runs B c sec usec : conn_ok B c → 0 ≤ B ≤ 2 * MANY_STEPS →
  runs B c (wpa_supplicant_req_new_scan c sec usec).
Proof.
  intros H HB. unfold wpa_supplicant_req_new_scan. case_if; [by apply state_runs|].
  set (c1 := c {{ scan_for_connection := true }}).
  destruct (req_scan_good B c1 sec usec) as [G E1]; [exact H|]. apply yields_ret; [|done].
  apply (frame_trans B B c c1); [by_data|exact G].
Qed.

(** ** Failures *)

Lemma count_max l b n l' : bl_ok (BlState l 0) → bl_ok (BlState l' 0) →
  counts l' = <[b := n + 1]> (counts l) → n = default 0 (counts l !! b) → max_count l' ≤ max_count l + 1.
Proof.
  intros [Hd Hp] [Hd' Hp'] Hc ->. destruct (max_count_spec l Hp) as [Hm _].
  destruct (max_count_spec l' Hp') as [_ [[_ ->]|(e & He & ->)]]; [pose proof (max_count_acc l 0) as H0; unfold max_count; lia|].
  assert (Hin : ∀ k e, bl_ok (BlState k 0) → e ∈ k → counts k !! e_bssid e = Some (e_count e)).
  { intros k x [Hk _] Hx. apply elem_of_list_to_map_1; [by rewrite <- list_fmap_compose|].
    apply list_elem_of_fmap. by exists x. }
  assert (Hle : ∀ a v, counts l !! a = Some v → v ≤ max_count l).
  { intros a v Hv. apply elem_of_list_to_map_2, list_elem_of_fmap in Hv as (x & [= _ ->] & Hx). by apply Hm. }
  specialize (Hin l' e (conj Hd' Hp') He). rewrite Hc in Hin.
  destruct (decide (e_bssid e = b)) as [<-|Hne].
  - rewrite lookup_insert_eq in Hin. injection Hin as <-. pose proof (max_count_acc l 0) as H0. fold (max_count l) in H0.
    destruct (counts l !! e_bssid e) as [v|] eqn:Ev; cbn [default from_option id]; [|lia]. specialize (Hle _ _ Ev). lia.
  - rewrite lookup_insert_ne in Hin by done. specialize (Hle _ _ Hin). lia.
Qed.

Lemma count_le s b : bl_ok s → default 0 (counts (blacklist s) !! b) ≤ max_count (blacklist s).
Proof.
  intros [Hd Hp]. destruct (max_count_spec _ Hp) as [Hm _]. pose proof (max_count_acc (blacklist s) 0) as H0.
  fold (max_count (blacklist s)) in H0. destruct (counts (blacklist s) !! b) as [v|] eqn:Ev; cbn [default from_option id]; [|lia].
  apply elem_of_list_to_map_2, list_elem_of_fmap in Ev as (x & [= _ ->] & Hx). by apply Hm.
Qed.

(** The count is from -1 up to what is known of the blacklist. *)
Lemma blacklist_add_answers B env c bssid : conn_ok B c → 0 ≤ B ≤ 2 * MANY_STEPS →
  ∃ n c', blacklist_add env c bssid = Ret (n, c') ∧ good (B + 1) c c' ∧ disconnected c' = disconnected c ∧
    -1 ≤ n ≤ B + 1.
Proof.
  intros H HB. pose proof (ys_extra _ _ _ H) as He. pose proof (ys_count _ _ _ H) as Ht. pose proof (ys_bl _ _ _ H) as Hb.
  unfold total_count in Ht. unfold blacklist_add. set (b := sel_blacklist (cs c)) in *.
  pose proof (count_le b bssid Hb) as Hle. pose proof (total_count_nonneg B c H) as H0. fold b in H0.
  assert (Hok : ∀ s', extra_blacklist_count s' = extra_blacklist_count b → bl_ok s' →
    max_count (blacklist s') ≤ max_count (blacklist b) + 1 →
    good (B + 1) c (with_sel c (with_blacklist (cs c) s' (blacklist_cleared (cs c))))).
  { intros [l n] E Hl Hc. cbn [extra_blacklist_count blacklist] in *. apply (good_blacklist B); [done|lia|done|lia|].
    unfold total_count. cbn [extra_blacklist_count blacklist]. lia. }
  destruct (alloc_ok env || bool_decide (is_Some (counts (blacklist b) !! bssid))) eqn:Ea.
  - destruct (blacklist_add_spec b bssid Hb) as (s' & Eadd & Hok' & Hc); [small|].
    assert (Eq : wpa_blacklist_add (alloc_ok env) b (Some bssid) = Ret (default 0 (counts (blacklist b) !! bssid) + 1, s')).
    { rewrite <- Eadd. unfold wpa_blacklist_add, wpa_blacklist_get. cbn [mbind option_bind].
      pose proof (find_entry_counts (blacklist b) bssid) as Hf.
      destruct (find_entry (blacklist b) bssid); [done|]. cbn in Hf. rewrite <- Hf in Ea.
      rewrite bool_decide_eq_false_2, orb_false_r in Ea by (intros [? ?]; discriminate). by rewrite Ea. }
    assert (Hx : extra_blacklist_count s' = extra_blacklist_count b).
    { revert Eadd. unfold wpa_blacklist_add. case_match; [|by intros [= _ <-]].
      destruct (count_up (blacklist b) bssid) as [[k l]| |]; [|discriminate..]. by intros [= _ <-]. }
    rewrite Eq. ret_simpl. eexists _, _. split_and!; [done| |done| |lia].
    + apply Hok; [done|done|]. by eapply count_max.
    + assert (0 ≤ default 0 (counts (blacklist b) !! bssid)).
      { destruct (counts (blacklist b) !! bssid) as [v|] eqn:Ev; cbn; [|lia]. destruct Hb as [_ Hp].
        apply elem_of_list_to_map_2, list_elem_of_fmap in Ev as (x & [= _ ->] & Hx').
        rewrite Forall_forall in Hp. specialize (Hp x Hx'). lia. }
      lia.
  - apply orb_false_iff in Ea as [Ea Es]. apply bool_decide_eq_false in Es.
    assert (Eq : wpa_blacklist_add (alloc_ok env) b (Some bssid) = Ret (-1, b)).
    { unfold wpa_blacklist_add, wpa_blacklist_get. cbn [mbind option_bind].
      pose proof (find_entry_counts (blacklist b) bssid) as Hf.
      destruct (find_entry (blacklist b) bssid); [by destruct Es; rewrite <- Hf; eexists|]. by rewrite Ea. }
    rewrite Eq. ret_simpl. eexists _, _. split_and!; [done| |done|lia|lia]. apply Hok; [done|done|lia].
Qed.

Lemma entry_found B c p : conn_ok B c → p ∈ bss_lru (table_of c) →
  ∃ b, deref (table_of c) p = Ret b ∧ bss_ok b ∧ heap (table_of c) !! p = Some b.
Proof.
  intros H Hp. destruct (eo_heap _ (so_bss _ (ys_sel _ _ _ H)) p Hp) as (b & Hb & Hok). exists b.
  unfold deref. change (sel_bss (cs c)) with (table_of c) in Hb. by rewrite Hb.
Qed.

Lemma ess_freqs_ends B c cur : conn_ok B c → cur ∈ bss_lru (table_of c) → ∀ entries freqs,
  (∀ p, p ∈ entries → p ∈ bss_lru (table_of c)) → ∃ l, ess_freqs_loop c cur entries freqs = Ret l.
Proof.
  intros H Hcur entries. induction entries as [|p entries IH]; intros freqs Hin; cbn [ess_freqs_loop]; [by eexists|].
  assert (Hin' : ∀ q, q ∈ entries → q ∈ bss_lru (table_of c)) by (intros q Hq; apply Hin; by right).
  case_if; [by apply IH|]. destruct (entry_found B c p H) as (b & -> & _ & _); [apply Hin; by left|].
  destruct (entry_found B c cur H Hcur) as (b' & -> & _ & _). ret_simpl.
  case_if; [|by apply IH]. case_if; [by eexists|by apply IH].
Qed.

Lemma freqs_in_ess_ends B env c cur : conn_ok B c → cur ∈ bss_lru (table_of c) →
  ∃ l, get_bss_freqs_in_ess env c cur = Ret l.
Proof.
  intros H Hcur. unfold get_bss_freqs_in_ess. case_if; [by eexists|].
  destruct (ess_freqs_ends B c cur H Hcur (bss_lru (table_of c)) []) as [l ->]; [done|]. ret_simpl. by eexists.
Qed.

Lemma connection_failed_runs B env c bssid : conn_ok B c → 0 ≤ B ≤ MANY_STEPS + 100 →
  runs (B + 3) c (wpas_connection_failed env c bssid).
Proof.
  intros H HB. unfold wpas_connection_failed.
  destruct (work_done_good B c H) as [G1 E1]. set (c1 := does (wpas_connect_work_done c) _).
  assert (G2 : good B c c1). { eapply frame_trans; [exact G1|]. apply frame_data; [apply G1|done..]. }
  assert (H1 : conn_ok B c1) by apply G2.
  eapply (yields_from id B (B + 3) c c1); [exact G2|exact E1|].
  assert (Hthree : ∀ c', good B c1 c' → good (B + 3) c1 c') by (intros c'; apply good_more; lia).
  case_if; [apply yields_ret; [apply Hthree; by_data|done]|].
  case_if; [apply yields_ret; [apply Hthree; by_data|done]|].
  destruct (blacklist_add_answers B env c1 bssid H1) as (n & c2 & -> & G3 & E3 & Hn); [small|]. ret_simpl.
  apply (yields_from id (B + 1) (B + 3) c1 c2); [done|done|]. assert (H2 := gd_ok _ _ _ G3).
  assert (Hm : runs (B + 2) c2
    match current_bss (table_of c2) with
    | Some cur =>
        if n =? 1 then
          freqs ← get_bss_freqs_in_ess env c2 cur;
          match freqs with
          | Some freqs => '(_, c) ← blacklist_add env c2 bssid; Ret (c {{ next_scan_freqs := Some freqs }})
          | None => Ret c2
          end
        else Ret c2
    | None => Ret c2
    end).
  { assert (Hstay : runs (B + 2) c2 (Ret c2)).
    { apply yields_ret; [|done]. apply frame_refl. apply (sys_ok_more (B + 1)); [lia|done]. }
    destruct (current_bss (table_of c2)) as [cur|] eqn:Ecur; [|done]. case_if; [|done].
    destruct (freqs_in_ess_ends (B + 1) env c2 cur H2) as [[l|] ->]; [by apply (ys_bss _ _ _ H2)| |by ret_simpl].
    ret_simpl. destruct (blacklist_add_answers (B + 1) env c2 bssid H2) as (m & c3 & -> & G4 & E4 & _); [small|].
    ret_simpl. apply yields_ret; [|done]. replace (B + 2) with (B + 1 + 1) by lia.
    eapply frame_trans; [exact G4|]. apply frame_data; [apply G4|done..]. }
  eapply (yields_bind id id (B + 2) (B + 3)); [exact Hm|]. intros c3 [H3 _ _] _. change (id c3) with c3 in *.
  pose proof (ys_extra _ _ _ H3) as He. pose proof (ys_count _ _ _ H3) as Ht. unfold total_count in Ht.
  pose proof (total_count_nonneg _ c3 H3) as H0.
  rewrite (proj2 (int_chk_Ret _ _)) by (split; [done|small]). ret_simpl.
  eapply (yields_bind id id (B + 3) (B + 3)).
  - case_if; [|apply yields_ret; [|done]; apply good_more with (B + 2); [lia|by apply frame_refl]].
    replace (B + 3) with (B + 2 + 1) by lia. apply auth_failed_runs; [done|small].
  - intros c4 [H4 _ _] _. change (id c4) with c4 in *.
    destruct (req_scan_good (B + 3) c4 (retry_timeout (n + extra_blacklist_count (sel_blacklist (cs c3))) / 1000)
      (1000 * (retry_timeout (n + extra_blacklist_count (sel_blacklist (cs c3))) mod 1000)) H4) as [G E4].
    by apply yields_ret.
Qed.

(** ** Associations *)

Lemma calm_enabled c c' id : calm c c' → enabled_net c id → enabled_net c' id.
Proof. intros [H1 _ H2]. unfold enabled_net. by rewrite (enabled_same c c'). Qed.

Lemma good_enabled B c c' id : good B c c' → enabled_net c id → enabled_net c' id.
Proof. intros [_ H _]. by apply calm_enabled. Qed.

Lemma enabled_found c id : enabled_net c id → ∃ n, net_of c id = Ret n ∧ find_net (conf_nets (conf c)) id = Some n.
Proof.
  unfold enabled_net, enabled, net_of, the_net, conf. destruct (find_net _ id) as [n|]; [|done].
  intros _. by exists n.
Qed.

Lemma works_good B c sme other : conn_ok B c →
  (told → disconnected c = true → pending_sme c = None → sme = None) →
  (told → disconnected c = true → pending_connect c = None → other = None) →
  from_old may (pending_sme c) sme → from_old may (pending_connect c) other →
  good B c (with_works c sme other).
Proof.
  intros H H1 H2 H3 H4. split.
  - destruct H as [[? [] ?] ]. by split.
  - split; [done|done|done| |done|done]. by split.
  - by split.
Qed.

Lemma random_addr_good B env c style : conn_ok B c → ∃ r c', wpas_update_random_addr env c style = (r, c') ∧
  good B c c' ∧ disconnected c' = disconnected c.
Proof.
  intros H. unfold wpas_update_random_addr. destruct (get_time env c) as [now c1] eqn:Et.
  destruct (get_time_good B env c H) as (now' & c1' & Eg & G1). rewrite Et in Eg. injection Eg as <- <-.
  assert (E1 : disconnected c1 = disconnected c) by by unfold get_time in Et; injection Et as _ <-.
  case_if; [by eexists _, _|]. case_if; [by eexists _, _|].
  set (c2 := does c1 _). assert (H1 := gd_ok _ _ _ G1). assert (G2 : good B c c2) by (eapply frame_trans; [exact G1|by_data]).
  case_if; [by eexists _, _|]. destruct (get_time env c2) as [now2 c3] eqn:Et2.
  destruct (get_time_good B env c2) as (now2' & c3' & Eg & G3); [apply G2|]. rewrite Et2 in Eg. injection Eg as <- <-.
  assert (E3 : disconnected c3 = disconnected c2) by by unfold get_time in Et2; injection Et2 as _ <-.
  eexists _, _. split_and!; [done| |by rewrite <- E1].
  eapply frame_trans; [exact G2|]. eapply frame_trans; [exact G3|]. apply frame_data; [apply G3|done..].
Qed.

Lemma associate_mac_good B env c bss id style : conn_ok B c → ∃ b c', associate_mac env c bss id style = (b, c') ∧
  good B c c' ∧ disconnected c' = disconnected c.
Proof.
  intros H. unfold associate_mac. set (c1 := c {{ reassoc_same_bss := _ }} {{ reassoc_same_ess := _ }}).
  assert (G1 : good B c c1) by by_data. assert (H1 : conn_ok B c1) by apply H.
  case_if; [eexists _, _; split_and!; [done|by_data|done]|]. case_if.
  - destruct (random_addr_good B env c1 style H1) as (r & c2 & -> & G2 & E2). assert (H2 := gd_ok _ _ _ G2).
    assert (G3 : good B c c2) by by eapply frame_trans. case_if; [by eexists _, _|].
    eexists _, _. split_and!; [done| |done]. eapply frame_trans; [exact G3|by_data].
  - case_if; [|by eexists _, _]. case_if; eexists _, _; (split_and!; [done|by_data|done]).
Qed.

Lemma queue_runs B env c sme bss id : conn_ok B c → (∀ p, bss = Some p → p ∈ bss_lru (table_of c)) →
  ¬ told → may id → enabled_net c id → runs B c (queue_work env c sme bss id).
Proof.
  intros H Hp Hd Hm He. unfold queue_work.
  assert (Hb : ∃ f : Z, match bss with Some p => b ← deref (table_of c) p; Ret (bss_freq b) | None => Ret 0 end = Ret f).
  { destruct bss as [p|]; [|by eexists]. destruct (entry_found B c p H) as (b & -> & _ & _); [by apply Hp|].
    ret_simpl. by eexists. }
  destruct Hb as [f ->]. ret_simpl. case_if; [|by apply yields_ret; [apply frame_refl|]].
  assert (Hnew : ∀ o, from_old may o (Some (CWork bss false id))) by (intros o w [= <-]; by right).
  destruct sme; (apply yields_ret; [|done]); (apply works_good; [done|congruence..| |]);
    first [apply Hnew|apply from_old_refl].
Qed.

Lemma same_entries_lru c c' p : same_entries c c' → p ∈ bss_lru (table_of c) → p ∈ bss_lru (table_of c').
Proof. by intros [-> _ _]. Qed.

Lemma sme_authenticate_runs B env c bss id : conn_ok B c → (∀ p, bss = Some p → p ∈ bss_lru (table_of c)) →
  ¬ told → may id → enabled_net c id → runs B c (sme_authenticate env c bss id).
Proof.
  intros H Hp Hd Hm He. unfold sme_authenticate.
  assert (Hstay : runs B c (Ret c)) by by apply yields_ret; [apply frame_refl|].
  destruct bss as [p|]; [|done]. case_if; [done|].
  assert (G1 : good B c (with_works c None (pending_connect c))) by (apply works_good; try done; apply from_old_refl).
  destruct (abort_scan_good B (with_works c None (pending_connect c)) (gd_ok _ _ _ G1)) as [G2 E2].
  assert (G3 := frame_trans _ _ _ _ _ G1 G2).
  eapply (yields_from _ B B c); [exact G3|exact E2|].
  apply queue_runs; [apply G3| |done|done|by apply (good_enabled B c)].
  intros q Hq. by apply (same_entries_lru c), Hp; [apply G3|].
Qed.

Lemma associate_runs B env c bss id : conn_ok B c → (∀ p, bss = Some p → p ∈ bss_lru (table_of c)) →
  ¬ told → may id → enabled_net c id → runs B c (wpa_supplicant_associate env c bss id).
Proof.
  intros H Hp Hd Hm He. unfold wpa_supplicant_associate. set (c1 := c {{ own_disconnect_req := false }}).
  assert (G1 : good B c c1) by by_data. destruct (enabled_found c1 id He) as (n & -> & _). ret_simpl.
  match goal with |- context [associate_mac env c1 bss id ?x] => set (style := x) end.
  destruct (associate_mac_good B env c1 bss id style H) as (b & c2 & -> & G2 & E2).
  assert (G3 := frame_trans _ _ _ _ _ G1 G2). case_if; [by apply yields_ret|].
  set (c3 := c2 {{ last_ssid := Some id }}).
  assert (G4 : good B c c3) by (eapply frame_trans; [exact G3|apply frame_data; [apply G3|done..]]).
  assert (Hstay : runs B c (Ret c3)) by by apply yields_ret.
  assert (Hin : ∀ c', good B c c' → ∀ p, bss = Some p → p ∈ bss_lru (table_of c')).
  { intros c' G p Hb. by apply (same_entries_lru c), Hp; [apply G|]. }
  case_if; [done|]. case_if.
  - eapply (yields_from _ B B c c3); [exact G4|exact E2|].
    apply sme_authenticate_runs; [apply G4|by apply Hin|done|done|by apply (good_enabled B c)].
  - case_if; [done|]. case_if; [done|]. destruct (abort_scan_good B c3 (gd_ok _ _ _ G4)) as [G5 E5].
    assert (G6 := frame_trans _ _ _ _ _ G4 G5).
    eapply (yields_from _ B B c); [exact G6|by rewrite E5|].
    apply queue_runs; [apply G6|by apply Hin|done|done|by apply (good_enabled B c)].
Qed.

Lemma connect_answers B env c p id : conn_ok B c → p ∈ bss_lru (table_of c) → ¬ told →
  may id → enabled_net c id → answers B c (wpa_supplicant_connect env c p id).
Proof.
  intros H Hp Hd Hm He. unfold wpa_supplicant_connect. destruct (entry_found B c p H Hp) as (b & -> & _ & _). ret_simpl.
  case_if; [|by apply yields_ret; [apply frame_refl|]].
  eapply (yields_bind _ _ B); [apply associate_runs; [done|by intros q [= <-]|done..]|].
  intros c1 [H1 _ _] _. by apply yields_ret; [apply frame_refl|].
Qed.

(** The networks that are enabled are among them. *)
Definition allows (c : conn) : Prop := ∀ id, enabled_net c id → may id.

Lemma calm_allows c c' : calm c c' → allows c → allows c'.
Proof. intros [H1 _ H2] Ha id He. apply Ha. unfold enabled_net in *. by rewrite <- (enabled_same c c'). Qed.

Lemma good_allows B c c' : good B c c' → allows c → allows c'.
Proof. intros [_ H _]. by apply calm_allows. Qed.
End frame.
