(* ===== verification/ConnectKeep.v ===== *)
(** * Connections: every operation keeps the invariant

    Disconnections, the choice from the last scan and the commands that
    enable, disable, select and remove networks. *)

From stdpp Require Import gmap sorting.
From S2P Require Import Prelude CString WpaIe CommonLists Network Blacklist Bss BssTable BssTableSpec.
From S2P Require Import ConfigSsid ConfigText ConfigVars ConfigSsidSpec CtrlNetwork CtrlNetworkSpec.
From S2P Require Import Select SelectFits SelectSpec SelectPick Connect ConnectSpec.
From coqutil Require Import Datatypes.RecordSetters.
Import DoubleBraceUpdate.

Ltac by_data := first [apply frame_refl; assumption | apply frame_data; [assumption|reflexivity..]].

Section keep.
Context (told : Prop) (may : Z → Prop) (env : surroundings).

Local Notation good := (good told may).
Local Notation calm := (calm told may).

(** The result's state is [π] of it. *)
Definition returns {A} (π : A → conn) (B : Z) (c : conn) (m : outcome A) : Prop :=
  ∃ a, m = Ret a ∧ good B c (π a).

Notation runs := (returns (A := conn) id).
Notation answers := (returns (A := Z * conn) snd).

Lemma conn_ret {A} (π : A → conn) B c a : good B c (π a) → returns π B c (Ret a).
Proof. by exists a. Qed.

Lemma conn_bind {A A'} (π : A → conn) (π' : A' → conn) B B' c m (f : A → outcome A') :
  returns π B c m → (∀ a, good B c (π a) → returns π' B' (π a) (f a)) → returns π' B' c (m ≫= f).
Proof.
  intros (a & -> & Hg) Hf. ret_simpl. destruct (Hf a Hg) as (a' & -> & Hg'). exists a'.
  split; [done|by eapply frame_trans].
Qed.

Lemma returns_from {A} (π : A → conn) B B' c c1 m : good B c c1 → returns π B' c1 m → returns π B' c m.
Proof. intros Hg (a & -> & Hg'). exists a. split; [done|by eapply frame_trans]. Qed.

Lemma returns_more {A} (π : A → conn) B B' c m : B ≤ B' → returns π B c m → returns π B' c m.
Proof. intros HB (a & -> & Hg). exists a. split; [done|by eapply good_more]. Qed.

Lemma yields_returns {A} (π : A → conn) B c m : yields told may π B c m → returns π B c m.
Proof. intros (a & -> & Hg & _). by exists a. Qed.

Lemma runs_stay B B' c : conn_ok B c → B ≤ B' → runs B' c (Ret c).
Proof. intros H HB. apply conn_ret. apply good_more with B; [done|by apply frame_refl]. Qed.

(** ** Disconnections *)

Lemma event_note_good B c reason local : conn_ok B c → good B c (wpa_supplicant_event_disassoc c reason local).
Proof. intros H. unfold wpa_supplicant_event_disassoc. case_if; [by_data|]. case_if; by_data. Qed.

Lemma dynamic_keys_ends B c : conn_ok B c → ∃ b, wpa_supplicant_dynamic_keys c = Ret b.
Proof.
  intros H. unfold wpa_supplicant_dynamic_keys. case_if; [by eexists|].
  destruct (current c) as [id|] eqn:E; [|by eexists]. case_if; [|by eexists].
  destruct (find_current B c id H E) as (n & -> & _). ret_simpl. by eexists.
Qed.

(** Disconnecting for good. *)
Lemma good_off B c : conn_ok B c → good B c ((with_reassociate c false) {{ disconnected := true }}).
Proof.
  intros []. split; [by split| |by split]. split; [done|done|done| |apply from_old_refl..]. by split.
Qed.

Lemma plan_spec B c reason local : conn_ok B c → (told → disconnected c = true) →
  ∃ fast c', plan_reconnect env c reason local = Ret (fast, c') ∧ good B c c' ∧
    ∀ p id, fast = Some (p, id) → ¬ told ∧ p ∈ bss_lru (table_of c) ∧
      is_Some (find_net (conf_nets (conf c)) id) ∧ local = false.
Proof.
  intros H Ht. unfold plan_reconnect. destruct (disconnected c) eqn:Ed; cbn [negb andb].
  { eexists _, _. split_and!; [done| |done]. pose proof (good_off B c H) as G.
    case_if; [exact G|]. eapply frame_trans; [exact G|]. by apply cancel_sched_good, G. }
  destruct (negb (auto_reconnect_disabled env) || (conn_key_mgmt c =? WPA_KEY_MGMT_WPS)).
  2: { eexists _, _. split_and!; [done| |done]. pose proof (good_off B c H) as G.
       case_if; [exact G|]. eapply frame_trans; [exact G|]. by apply cancel_sched_good, G. }
  assert (Hnot : ¬ told) by (intros t; by specialize (Ht t)).
  assert (Hi : ∃ b, match current c with
      | Some id => if state_of c =? WPA_COMPLETED then
                     n ← net_of c id; Ret (get_int n (lit "mode") =? IEEE80211_MODE_INFRA)
                   else Ret false
      | None => Ret false
      end = Ret b).
  { destruct (current c) as [id|] eqn:E; [|by eexists]. case_if; [|by eexists].
    destruct (find_current B c id H E) as (n & -> & _). ret_simpl. by eexists. }
  destruct Hi as [b ->]. ret_simpl. case_if.
  - eexists _, _. split_and!; [done|by apply frame_refl|]. intros p id Hf.
    destruct (current_bss (table_of c)) as [q|] eqn:Eb; [|done]. cbn in Hf.
    destruct (current c) as [i|] eqn:Ec; [|done]. cbn in Hf. injection Hf as <- <-.
    split_and!; [done|by apply (ys_bss _ _ _ H)|by apply (ys_current _ _ _ H)|by destruct local, b].
  - eexists _, _. split_and!; [done| |done]. case_if; [|by apply frame_refl]. by apply req_scan_good.
Qed.

Lemma try_reconnect_runs B c fast : conn_ok B c →
  (∀ p id, fast = Some (p, id) → ¬ told ∧ allows may c ∧ p ∈ bss_lru (table_of c) ∧ is_Some (find_net (conf_nets (conf c)) id)) →
  runs B c (try_reconnect env c fast).
Proof.
  intros H Hf. unfold try_reconnect. destruct fast as [[p id]|]; [|by apply (runs_stay B B)].
  destruct (Hf p id eq_refl) as (Hnot & Ha & Hp & [n Hn]).
  assert (He : wpas_network_disabled (cu c) n = false → enabled_net c id).
  { intros Ed. unfold enabled_net, enabled. unfold conf in Hn. by rewrite Hn, Ed. }
  assert (Hof : net_of c id = Ret n) by by unfold net_of, the_net; unfold conf in Hn; rewrite Hn.
  rewrite Hof. ret_simpl.
  assert (Hscan : ∀ c', good B c c' → runs B c (Ret (wpa_supplicant_req_scan c' 0 100000))).
  { intros c' G. apply conn_ret. eapply frame_trans; [exact G|]. by apply req_scan_good, G. }
  destruct (wpas_network_disabled (cu c) n) eqn:Edis; [ret_simpl; by apply Hscan, frame_refl|].
  destruct (entry_found B c p H Hp) as (b & -> & _ & _). ret_simpl.
  case_if; [ret_simpl; by apply Hscan, frame_refl|].
  destruct (temp_disabled_spec (cu c) (cs c) id n (ys_sel _ _ _ H) Hn) as (wait & s & -> & Hk & _). ret_simpl.
  assert (G := good_keeps told may B c s H Hk). case_if; [|by apply Hscan].
  apply (returns_from _ B B c (with_sel c s)); [exact G|].
  eapply (conn_bind snd _ B).
  - apply yields_returns, connect_answers; [apply G|by apply (same_entries_lru c); [apply G|]|done|by apply Ha, He|].
    apply (good_enabled told may B c); [exact G|by apply He].
  - intros [r c'] G'. cbn [snd] in *. apply conn_ret. case_if; [apply req_scan_good, G'|apply frame_refl, G'].
Qed.

Lemma mark_disassoc_bss c c' : state_of c ≠ WPA_INTERFACE_DISABLED → wpa_supplicant_mark_disassoc c = Ret c' →
  current_bss (table_of c') = None.
Proof.
  intros Hup. unfold wpa_supplicant_mark_disassoc. rewrite (proj2 (Z.eqb_neq _ _) Hup).
  destruct (wpa_supplicant_set_state c WPA_DISCONNECTED) as [c1| |]; [|discriminate..].
  rewrite outcome_bind_ret. by intros [= <-].
Qed.

Lemma calm_works c sme other :
  (told → disconnected c = true → pending_sme c = None → sme = None) →
  (told → disconnected c = true → pending_connect c = None → other = None) →
  from_old may (pending_sme c) sme → from_old may (pending_connect c) other →
  calm c (with_works c sme other).
Proof. intros H1 H2 H3 H4. split; [done|done|done| |done|done]. by split. Qed.

(** The queued works follow the table. *)
Lemma take_table_fine B c t : conn_ok B (with_table c t) → calm c (with_table c t) →
  conn_ok B (take_table c t) ∧ calm c (take_table c t).
Proof.
  intros H1 Hcalm. unfold take_table. set (updated := λ w : wpa_connect_work, _). cbv zeta.
  assert (Hu : ∀ w, cw_ssid (updated w) = cw_ssid w) by (intros w; subst updated; cbn; by repeat case_match).
  assert (Hold : ∀ P w, from_old P (Some w) (Some (updated w))).
  { intros P w w' [= <-]. left. exists w. by rewrite Hu. }
  change (pending_sme (with_table c t)) with (pending_sme c). change (pending_connect (with_table c t)) with (pending_connect c).
  assert (Hgo : ∀ sme other, (pending_sme c = None → sme = None) → (pending_connect c = None → other = None) →
    from_old may (pending_sme c) sme → from_old may (pending_connect c) other →
    conn_ok B (with_works (with_table c t) sme other) ∧ calm c (with_works (with_table c t) sme other)).
  { intros sme other W1 W2 W3 W4. split.
    - eapply gd_ok, (works_good told may B (with_table c t)); [exact H1|by intros _ _|by intros _ _|done|done].
    - eapply calm_trans; [exact Hcalm|]. apply calm_works; [by intros _ _|by intros _ _|done|done]. }
  destruct (pending_sme c) as [w|] eqn:Ew.
  - apply Hgo; [done|done|apply Hold|apply from_old_refl].
  - apply Hgo; [done| |apply from_old_refl|].
    + by intros ->.
    + destruct (pending_connect c) as [w|]; [apply Hold|apply from_old_refl].
Qed.

(** An entry that is not the current one is removed. *)
Lemma remove_entry_fine B c p : conn_ok B c → p ∈ bss_lru (table_of c) → current_bss (table_of c) = None →
  ∃ c', remove_entry c p = Ret c' ∧ conn_ok B c' ∧ calm c c'.
Proof.
  intros H Hp Hc. unfold remove_entry, wpa_bss_remove. destruct (entry_found B c p H Hp) as (b & -> & _ & Hb). ret_simpl.
  set (t1 := with_pointers (table_of c) _ _ _ _).
  destruct (pending_fields t1 p None) as (F1 & F2 & F3 & F4 & F5 & F6 & F7 & _).
  set (t2 := wpa_bss_update_pending_connect t1 p None) in *.
  set (t := notify _ _).
  assert (Ht : entries_ok t).
  { destruct (so_bss _ (ys_sel _ _ _ H)) as [T1 T2 [T3 T4]]. change (sel_bss (cs c)) with (table_of c) in *. split; cbn.
    - rewrite F2. by apply unlink_NoDup.
    - rewrite F1, F2. intros q [Hq Hn]%elem_unlink; [|done]. rewrite lookup_delete_ne by done. by apply T2.
    - rewrite F2, F5. split; [by apply unlink_NoDup|]. intros q [Hq Hn]%elem_unlink; [|done].
      apply elem_unlink; [done|]. split; [by apply T4|done]. }
  exists (take_table c t). split; [done|]. apply take_table_fine.
  - apply sys_ok_table; [done|done| |].
    + intros q. cbn. rewrite (sc_current _ _ F7). cbn. by rewrite Hc.
    + intros q x. cbn. rewrite F1. cbn. intros [_ Hx]%lookup_delete_Some. by apply (ys_levels _ _ _ H q).
  - split; [done|done|done| |apply from_old_refl..]. by split.
Qed.

(** Another current network. *)
Lemma current_fine B c x o : conn_ok B x → calm c x →
  (∀ id, o = Some id → is_Some (find_net (conf_nets (conf x)) id)) →
  (told → disconnected c = true → current c = None → o = None) →
  conn_ok B (with_current x o) ∧ calm c (with_current x o).
Proof.
  intros H [H1 H2 H3 [Q1 Q2 Q3 Q4 Q5] H5 H6] Ho Hq. split.
  - apply sys_ok_table; [| |apply (ys_bss _ _ _ H)|apply (ys_levels _ _ _ H)].
    + destruct H as [[[] ] ]. by split.
    + destruct (so_bss _ (ys_sel _ _ _ H)). by split.
  - split; [done|done|done| |done|done]. by split.
Qed.

(** The invariant, the frame, and the same entries unless one is removed. *)
Definition leaves (B : Z) (c c' : conn) (same : Prop) : Prop :=
  conn_ok B c' ∧ calm c c' ∧ (same → same_entries c c').

Lemma good_leaves B B' c c1 c2 same : leaves B c c1 same → good B' c1 c2 → leaves B' c c2 same.
Proof.
  intros (H1 & H2 & H3) [G1 G2 G3]. split_and!; [done|by eapply calm_trans|].
  intros Hs. eapply same_entries_trans; [by apply H3|done].
Qed.

Lemma good_leaves_1 B c c1 same : good B c c1 → leaves B c c1 same.
Proof. by intros [G1 G2 G3]. Qed.

(** The end of [wpa_supplicant_event_disassoc_finish], after the connection
    was left. *)
Lemma finish_end B c0 c (sme : bool) a last fast same : 0 ≤ B ≤ 2 * MANY_STEPS → leaves B c0 c same →
  (∀ id, last = Some id → is_Some (find_net (conf_nets (conf c)) id)) →
  (told → disconnected c0 = true → current c0 = None → last = None) →
  (∀ p id, fast = Some (p, id) → ¬ told ∧ allows may c0 ∧ same ∧ p ∈ bss_lru (table_of c0) ∧ is_Some (find_net (conf_nets (conf c)) id)) →
  ∃ c', (c ← (if sme then c ← sme_disassoc_while_authenticating c a; Ret (with_current c last) else Ret c);
         try_reconnect env c fast) = Ret c' ∧ leaves B c0 c' same.
Proof.
  intros HB Hl Hlast Hq Hf. pose proof Hl as (H1 & H2 & H3).
  assert (Hc2 : ∃ c2, (if sme then c ← sme_disassoc_while_authenticating c a; Ret (with_current c last) else Ret c) = Ret c2 ∧
    leaves B c0 c2 same ∧ ∀ id, is_Some (find_net (conf_nets (conf c)) id) → is_Some (find_net (conf_nets (conf c2)) id)).
  { destruct sme; [|by exists c]. destruct (sme_disassoc_runs told may B c a H1 HB) as (c1 & -> & G & _). ret_simpl.
    assert (Hfind : ∀ id, is_Some (find_net (conf_nets (conf c)) id) → is_Some (find_net (conf_nets (conf c1)) id)).
    { intros id [n Hn]. destruct (view_find steady (cs c) (cs c1) id n) as (n' & Hn' & _); [apply G|done|].
      exists n'. exact Hn'. }
    destruct (good_leaves _ _ _ _ _ _ Hl G) as (G1 & G2 & G3).
    destruct (current_fine B c0 c1 last G1 G2) as [F1 F2]; [intros id Hid; by apply Hfind, Hlast|done|].
    exists (with_current c1 last). split_and!; [done|split_and!; [done|done|]|exact Hfind].
    intros Hs. destruct (G3 Hs). by split. }
  destruct Hc2 as (c2 & -> & Hl2 & Hfind). ret_simpl.
  destruct (try_reconnect_runs B c2 fast) as (c3 & -> & G); [by apply Hl2| |exists c3; split; [done|by eapply good_leaves]].
  intros p id Hfp. destruct (Hf p id Hfp) as (F1 & F0 & F2 & F3 & F4). split_and!; [done|eapply calm_allows; [apply Hl2|done]| |by apply Hfind].
  apply (same_entries_lru c0); [by apply Hl2|done].
Qed.

Lemma view_kept c c' id : calm c c' → is_Some (find_net (conf_nets (conf c)) id) → is_Some (find_net (conf_nets (conf c')) id).
Proof.
  intros H [n Hn]. destruct (view_find steady (cs c) (cs c') id n) as (n' & Hn' & _); [apply H|done|]. by exists n'.
Qed.

Lemma told_kept c c' : calm c c' → (told → disconnected c = true) → told → disconnected c' = true.
Proof. intros [_ _ _ [Hd _ _ _ _]] Ht t. by apply Hd, Ht. Qed.

Lemma disassoc_finish_leaves B c reason local : conn_ok B c → 0 ≤ B ≤ MANY_STEPS + 90 → (told → disconnected c = true) → local = true ∨ allows may c →
  ∃ c', wpa_supplicant_event_disassoc_finish env c reason local = Ret c' ∧
    leaves (B + 4) c c' (reason ≠ WLAN_REASON_DISASSOC_DUE_TO_INACTIVITY ∨ local = false).
Proof.
  intros H HB Ht Ha. unfold wpa_supplicant_event_disassoc_finish.
  set (same := reason ≠ _ ∨ _). set (curr := if _ && local then _ else None).
  assert (Hcurr : ∀ p, curr = Some p → p ∈ bss_lru (table_of c) ∧ ¬ same).
  { subst curr. intros p. destruct (_ && local) eqn:E; [|done]. apply andb_prop in E as [E ->].
    apply andb_prop in E as [_ Er]. apply Z.eqb_eq in Er. intros Hp. split; [by apply (ys_bss _ _ _ H)|].
    intros [Hr|Hr]; done. }
  case_if; [exists c; split; [done|]; apply good_leaves_1, good_more with B; [lia|by apply frame_refl]|].
  assert (G1 : ∃ c1, (if could_be_psk_mismatch c reason local then auth_failed env (does c [EvWrongKey]) else Ret c) = Ret c1 ∧
    good (B + 1) c c1).
  { case_if; [|exists c; split; [done|apply good_more with B; [lia|by apply frame_refl]]].
    destruct (auth_failed_runs told may B env (does c [EvWrongKey])) as (c1 & -> & G & _); [done|small|].
    exists c1. split; [done|]. eapply frame_trans; [|exact G]. by apply (good_does told may B). }
  destruct G1 as (c1 & -> & G1). ret_simpl.
  destruct (plan_spec (B + 1) c1 reason local) as (fast & c2 & -> & G2 & Hfast); [apply G1|by apply (told_kept c), Ht; apply G1|].
  ret_simpl.
  assert (G3 : ∃ c3, (if WPA_AUTHENTICATING <=? state_of c2 then wpas_connection_failed env c2 (peer_bssid c2) else Ret c2) = Ret c3 ∧
    good (B + 4) c2 c3).
  { case_if; [|exists c2; split; [done|apply good_more with (B + 1); [lia|apply frame_refl, G2]]].
    destruct (connection_failed_runs told may (B + 1) env c2 (peer_bssid c2)) as (c3 & -> & G & _); [apply G2|small|].
    exists c3. split; [done|]. by replace (B + 4) with (B + 1 + 3) by lia. }
  destruct G3 as (c3 & -> & G3). ret_simpl.
  match goal with |- context [wpa_supplicant_dynamic_keys ?x] => set (c4 := x) end.
  assert (H3 := gd_ok _ _ _ _ _ G3). assert (G4 : good (B + 4) c3 c4) by by_data.
  destruct (dynamic_keys_ends (B + 4) c4 H3) as [dyn ->]. ret_simpl.
  set (c5 := if dyn then _ else _).
  assert (G5 : good (B + 4) c4 c5) by (subst c5; destruct dyn; [by apply clear_keys_good|by apply frame_refl]).
  destruct (mark_disassoc_runs told may (B + 4) c5) as (c6 & Em & G6 & _); [apply G5|small|]. rewrite Em. ret_simpl.
  assert (Hb6 : current_bss (table_of c6) = None).
  { apply (mark_disassoc_bss c5); [|done]. apply (ys_up _ _ _ (gd_ok _ _ _ _ _ G5)). }
  assert (G05 : good (B + 4) c c5) by (do 4 (eapply frame_trans; [eassumption|]); exact G5).
  assert (G06 : good (B + 4) c c6) by (eapply frame_trans; eassumption).
  assert (G7 : ∃ c7, match curr with Some p => remove_entry c6 p | None => Ret c6 end = Ret c7 ∧ leaves (B + 4) c c7 same ∧
    calm c6 c7).
  { destruct curr as [p|]; [|exists c6; split_and!; [done|by apply good_leaves_1|apply calm_refl]].
    destruct (Hcurr p eq_refl) as [Hp Hno].
    destruct (remove_entry_fine (B + 4) c6 p) as (c7 & -> & F1 & F2); [apply G06| |done|].
    { apply (same_entries_lru c); [apply G06|done]. }
    exists c7. split_and!; [done| |done]. split_and!; [done|eapply calm_trans; [apply G06|done]|done]. }
  destruct G7 as (c7 & -> & Hl7 & Hc7). ret_simpl.
  assert (Hnets : ∀ id, is_Some (find_net (conf_nets (conf c)) id) → is_Some (find_net (conf_nets (conf c7)) id)).
  { intros id. apply view_kept, Hl7. }
  apply finish_end; [small|done| | |].
  - intros id Hid. apply (view_kept c5); [eapply calm_trans; [apply G6|exact Hc7]|].
    apply (ys_current _ _ _ (gd_ok _ _ _ _ _ G5)), Hid.
  - apply (qt_current _ _ _ (cm_quiet _ _ _ _ (gd_calm _ _ _ _ _ G05))).
  - intros p id Hf. destruct (Hfast p id Hf) as (F1 & F2 & F3 & F4). split_and!; [done|destruct Ha; [by subst|done]|by right| |].
    + by rewrite <- (se_lru _ _ (gd_entries _ _ _ _ _ G1)).
    + apply (view_kept c1); [|done]. eapply calm_trans; [apply G2|].
      eapply calm_trans; [apply G3|]. eapply calm_trans; [apply G4|]. eapply calm_trans; [apply G5|].
      eapply calm_trans; [apply G6|exact Hc7].
Qed.

Lemma event_disconnect_leaves B c reason local : conn_ok B c → 0 ≤ B ≤ MANY_STEPS + 80 → (told → disconnected c = true) → local = true ∨ allows may c →
  ∃ c', wpas_event_disconnect env c reason local = Ret c' ∧
    leaves (B + 5) c c' (reason ≠ WLAN_REASON_DISASSOC_DUE_TO_INACTIVITY ∨ local = false).
Proof.
  intros H HB Ht Ha. unfold wpas_event_disconnect. set (c1 := if local then c else _).
  assert (G1 : good B c c1) by (subst c1; case_if; by_data).
  assert (G2 := event_note_good B c1 reason local (gd_ok _ _ _ _ _ G1)).
  set (c2 := wpa_supplicant_event_disassoc c1 reason local) in *.
  match goal with |- context [if ?b then auth_failed env c2 else Ret c2] => set (failed := b) end.
  assert (G3 : ∃ c3, (if failed then auth_failed env c2 else Ret c2) = Ret c3 ∧ good (B + 1) c c3).
  { assert (G12 : good B c c2) by by eapply frame_trans. case_if.
    - destruct (auth_failed_runs told may B env c2) as (c3 & -> & G & _); [apply G2|small|]. exists c3. split; [done|].
      by eapply frame_trans.
    - exists c2. split; [done|]. apply good_more with B; [lia|done]. }
  destruct G3 as (c3 & -> & G3). ret_simpl.
  destruct (disassoc_finish_leaves (B + 1) c3 reason local) as (c4 & -> & Hl4); [apply G3|small|by apply (told_kept c); [apply G3|]|destruct Ha; [by left|right; by eapply good_allows]|].
  exists c4. split; [done|]. destruct Hl4 as (L1 & L2 & L3). replace (B + 5) with (B + 1 + 4) by lia.
  split_and!; [done|eapply calm_trans; [apply G3|done]|]. intros Hs. eapply same_entries_trans; [apply G3|by apply L3].
Qed.

Lemma event_deauth_leaves B c reason local : conn_ok B c → 0 ≤ B ≤ MANY_STEPS + 80 → (told → disconnected c = true) → local = true ∨ allows may c →
  ∃ c', event_deauth env c reason local = Ret c' ∧
    leaves (B + 5) c c' (reason ≠ WLAN_REASON_DISASSOC_DUE_TO_INACTIVITY ∨ local = false).
Proof.
  intros H HB Ht Ha. unfold event_deauth. case_if; [|by apply event_disconnect_leaves].
  exists c. split; [done|]. apply good_leaves_1, good_more with B; [lia|by apply frame_refl].
Qed.

Lemma event_disassoc_leaves B c reason local : conn_ok B c → 0 ≤ B ≤ MANY_STEPS + 80 → (told → disconnected c = true) → local = true ∨ allows may c →
  ∃ c', event_disassoc env c reason local = Ret c' ∧
    leaves (B + 5) c c' (reason ≠ WLAN_REASON_DISASSOC_DUE_TO_INACTIVITY ∨ local = false).
Proof.
  intros H HB Ht Ha. unfold event_disassoc. case_if.
  { exists c. split; [done|]. apply good_leaves_1, good_more with B; [lia|by apply frame_refl]. }
  unfold wpas_event_disassoc. set (c1 := if has _ _ then _ else c).
  assert (G1 : good B c c1) by (subst c1; case_if; [destruct (prev_bssid c)|]; by_data).
  destruct (event_disconnect_leaves B c1 reason local) as (c2 & -> & L1 & L2 & L3); [apply G1|done|by apply (told_kept c); [apply G1|]|destruct Ha; [by left|right; by eapply good_allows]|].
  exists c2. split; [done|]. split_and!; [done|eapply calm_trans; [apply G1|done]|].
  intros Hs. eapply same_entries_trans; [apply G1|by apply L3].
Qed.

Lemma deauthenticate_runs B c reason : conn_ok B c → 0 ≤ B ≤ MANY_STEPS + 80 → (told → disconnected c = true) →
  reason ≠ WLAN_REASON_DISASSOC_DUE_TO_INACTIVITY → runs (B + 5) c (wpa_supplicant_deauthenticate env c reason).
Proof.
  intros H HB Ht Hr. unfold wpa_supplicant_deauthenticate.
  match goal with |- context [let '(_, _) := ?x in _] => destruct x as [addr zero] end.
  apply (conn_bind id id (B + 5)).
  - destruct addr as [a|]; [|apply (runs_stay B); [done|lia]].
    set (c1 := does c _). assert (G1 : good B c c1) by by_data. apply (returns_from id B (B + 5) c c1); [done|].
    destruct (event_deauth_leaves B c1 reason true) as (c2 & -> & L1 & L2 & L3); [done..|by left|]. apply conn_ret.
    split; [done|done|by apply L3; left].
  - intros c1 G1. change (id c1) with c1 in *. apply yields_returns, clear_connection_runs; [apply G1|small].
Qed.

(** ** From the last scan to an association *)

Lemma choose_spec B c : conn_ok B c → 0 ≤ B ≤ MANY_STEPS + 90 → ∃ p id c', choose_network c = Ret (p, id, c') ∧
  good (B + 1) c c' ∧ disconnected c' = disconnected c ∧
  (∀ q, p = Some q → q ∈ bss_lru (table_of c')) ∧ (∀ i, id = Some i → enabled_net c' i).
Proof.
  intros H HB. unfold choose_network.
  pose proof (ys_extra _ _ _ H) as He. pose proof (ys_count _ _ _ H) as Ht. unfold total_count in Ht.
  pose proof (total_count_nonneg _ c H) as H0. pose proof (ys_cleared _ _ _ H) as Hcl.
  destruct (pick_spec (cu c) (cs c) (ys_sel _ _ _ H)) as (p & id & s & -> & Hs & Hbl & Hcn & Hp & Hid & _).
  { split; small. }
  ret_simpl. assert (G : good (B + 1) c (with_sel c s)).
  { destruct Hs as [S1 S2 S3 S4 S5]. destruct Hcn as (C1 & C2 & C3). apply good_sel; rewrite ?S5; try done.
    - eapply (sys_ok_view B (B + 1) _ (cs c)); try done; [lia| |by apply C2|unfold total_count; lia|lia].
      destruct (ys_bl _ _ _ H) as [B1 B2]. unfold bl_ok. destruct Hbl as [-> | ->]; [done|].
      split; [by apply NoDup_nil|by apply Forall_nil].
    - by apply steady_of_frozen.
    - by left. }
  exists p, id, (with_sel c s). split_and!; [done|done|done| |].
  - intros q Hq. apply (same_entries_lru c); [apply G|].
    by apply (eo_last _ (so_bss _ (ys_sel _ _ _ H))), Hp.
  - intros i Hi. apply (good_enabled told may (B + 1) c); [done|]. by apply Hid.
Qed.

Lemma find_bss_ends B c test l : conn_ok B c → (∀ p, p ∈ l → p ∈ bss_lru (table_of c)) →
  ∃ r, find_bss (table_of c) test l = Ret r ∧ ∀ q, r = Some q → q ∈ l.
Proof.
  intros H. induction l as [|p l IH]; intros Hl; cbn [find_bss]; [by exists None|].
  destruct (entry_found B c p H) as (b & -> & _ & _); [apply Hl; by left|]. ret_simpl.
  case_if; [eexists; split; [done|]; intros q [= <-]; by left|].
  destruct IH as (r & -> & Hr); [intros q Hq; apply Hl; by right|]. exists r. split; [done|].
  intros q Hq. right. by apply Hr.
Qed.

Lemma need_to_roam_ends B c p id : conn_ok B c → p ∈ bss_lru (table_of c) → is_Some (find_net (conf_nets (conf c)) id) →
  ∃ b, wpa_supplicant_need_to_roam (cu c) (cs c) p id = Ret b.
Proof.
  intros H Hp [n Hn]. unfold wpa_supplicant_need_to_roam.
  case_if; [by eexists|]. case_if; [by eexists|]. case_bool_decide; [by eexists|]. case_if; [by eexists|].
  unfold the_net. unfold conf in Hn. rewrite Hn. ret_simpl. change (sel_bss (cs c)) with (table_of c).
  assert (Hin : ∀ r, (∀ q, r = Some q → q ∈ bss_lru (table_of c)) → ∃ b, match r with
    | Some x => if x =? p then Ret false else
        current ← deref (table_of c) x; sel ← deref (table_of c) p;
        if last_update_idx current <? last_update_idx sel then Ret true else roam_by_signal current sel n
    | None => Ret true end = Ret b).
  { intros [x|] Hx; [|by eexists]. case_if; [by eexists|].
    destruct (entry_found B c x H) as (b1 & -> & _ & H1); [by apply Hx|].
    destruct (entry_found B c p H Hp) as (b2 & -> & _ & H2). ret_simpl. case_if; [by eexists|].
    pose proof (ys_levels _ _ _ H x b1 H1) as L1. pose proof (ys_levels _ _ _ H p b2 H2) as L2.
    unfold roam_by_signal. case_if; [by eexists|]. case_if; [by eexists|].
    set (to5 := _ && _). assert (Hb : 0 ≤ b2z to5 ≤ 1) by by destruct to5.
    rewrite (proj2 (int_chk_Ret (bss_level b1 - bss_level b2) _)) by (split; [done|unfold INT_MIN, INT_MAX; lia]).
    rewrite (proj2 (int_chk_Ret _ _)) by (split; [done|unfold INT_MIN, INT_MAX; lia]). ret_simpl.
    case_if; by eexists. }
  assert (Hget : ∃ r, match get_str n (lit "ssid") with
    | Some ssid => wpa_bss_get (table_of c) (own_bssid (table_of c)) ssid | None => Ret None end = Ret r ∧
    ∀ q, r = Some q → q ∈ bss_lru (table_of c)).
  { destruct (get_str n (lit "ssid")) as [ssid|]; [|by exists None]. unfold wpa_bss_get. case_if; [by exists None|].
    by apply (find_bss_ends B). }
  destruct Hget as ([x|] & -> & Hx); ret_simpl; [by apply (Hin (Some x))|].
  unfold wpa_bss_get_bssid. case_if; [ret_simpl; by eexists|].
  match goal with |- context [find_bss _ ?test ?l] => destruct (find_bss_ends B c test l H) as (r & -> & Hr) end.
  { intros q Hq. by apply list_elem_of_In, in_rev, list_elem_of_In in Hq. }
  ret_simpl. apply (Hin r). intros q Hq. by apply list_elem_of_In, in_rev, list_elem_of_In, Hr.
Qed.

Lemma preauth_good B c : conn_ok B c → good B c (rsn_preauth_scan_results env c).
Proof. intros H. unfold rsn_preauth_scan_results. case_if; by_data. Qed.

Lemma connect_chosen_answers B c new_scan p id : conn_ok B c → 0 ≤ B ≤ MANY_STEPS + 70 → ¬ told →
  p ∈ bss_lru (table_of c) → may id → enabled_net c id → answers (B + 5) c (connect_chosen env c new_scan p id).
Proof.
  intros H HB Hnot Hp Hm He. unfold connect_chosen.
  destruct (enabled_found c id He) as (n & _ & Hn).
  destruct (need_to_roam_ends B c p id H Hp) as [roam ->]; [by eexists|]. ret_simpl.
  assert (Hend : ∀ x, conn_ok (B + 5) x → good (B + 5) x (if new_scan then rsn_preauth_scan_results env x else x)).
  { intros x Hx. case_if; [by apply preauth_good|by apply frame_refl]. }
  case_if.
  { apply conn_ret. apply good_more with B; [lia|]. cbn [snd]. case_if; [by apply preauth_good|by apply frame_refl]. }
  eapply (conn_bind (λ x, x) snd (B + 5)).
  - case_if; [|by apply (runs_stay B); [|lia]].
    apply (returns_from (λ x, x) B (B + 5) c (c {{ own_disconnect_req := true }})); [by_data|].
    by apply deauthenticate_runs; [|small|..].
  - intros c1 G1. cbv beta in *. eapply (conn_bind snd snd (B + 5)).
    + apply yields_returns, connect_answers; [apply G1|by apply (same_entries_lru c); [apply G1|]|done|done|].
      by apply (good_enabled told may (B + 5) c).
    + intros [r c2] G2. cbn [snd] in *. case_if; [by apply conn_ret, frame_refl, G2|].
      apply conn_ret. cbn [snd]. apply Hend, G2.
Qed.

Lemma reenabled_ends u ids : ∀ s res, sel_ok s → all_nets s ids →
  ∃ r s', reenabled_loop u s ids res = Ret (r, s') ∧ keeps u s s'.
Proof.
  induction ids as [|id ids IH]; intros s res Hs Hall; cbn [reenabled_loop].
  { eexists _, _. split; [done|by apply keeps_refl]. }
  destruct (Hall id) as [n Hn]; [by left|]. unfold the_net. rewrite Hn. ret_simpl.
  assert (Hall' : all_nets s ids) by (intros i Hi; apply Hall; by right).
  case_if; [by apply IH|]. destruct (temp_disabled_spec u s id n Hs Hn) as (d & s1 & -> & Hk & _). ret_simpl.
  case_if; [by eexists _, _|].
  destruct (IH s1 (if (res =? 0) || (d <? res) then d else res)) as (r & s2 & -> & Hk2);
    [apply Hk|by apply (all_nets_keeps u s)|]. eexists _, _. split; [done|by eapply keeps_trans].
Qed.

Lemma reenabled_spec B c : conn_ok B c → ∃ r s, wpas_reenabled_network_time (cu c) (cs c) = Ret (r, s) ∧
  good B c (with_sel c s).
Proof.
  intros H. destruct (reenabled_ends (cu c) (fst <$> conf_nets (sel_conf (cs c))) (cs c) 0) as (r & s & E & Hk).
  - apply (ys_sel _ _ _ H).
  - intros id. apply find_net_in.
  - exists r, s. split; [exact E|]. by apply good_keeps.
Qed.

Lemma pick_new_spec B c : conn_ok B c → ∃ o, wpa_supplicant_pick_new_network (cu c) (cs c) = Ret o ∧
  ∀ id, o = Some id → enabled_net c id.
Proof.
  intros H. unfold wpa_supplicant_pick_new_network.
  destruct (groups_exist (sel_conf (cs c)) (so_conf _ (ys_sel _ _ _ H))) as [_ Hall].
  revert Hall. generalize (concat (conf_pssid (sel_conf (cs c)))) as ids. induction ids as [|id ids IH]; intros Hall.
  { by exists None. }
  cbn [new_network_loop]. destruct (Hall id) as [n Hn]; [by left|]. unfold the_net. rewrite Hn. ret_simpl.
  assert (Hall' : ∀ i, i ∈ ids → is_Some (find_net (conf_nets (sel_conf (cs c))) i)) by (intros i Hi; apply Hall; by right).
  destruct (wpas_network_disabled (cu c) n) eqn:Ed; [by apply IH|]. case_if; [|by apply IH].
  exists (Some id). split; [done|]. intros i [= <-]. unfold enabled_net, enabled. by rewrite Hn, Ed.
Qed.

Lemma select_answers B c new_scan own : conn_ok B c → 0 ≤ B ≤ MANY_STEPS + 60 → ¬ told → allows may c →
  answers (B + 6) c (wpas_select_network_from_last_scan env c new_scan own).
Proof.
  intros H HB Hnot Ha. unfold wpas_select_network_from_last_scan.
  destruct (reenabled_spec B c H) as (time & s & -> & G1). ret_simpl. set (c1 := with_sel c s) in *.
  assert (H1 := gd_ok _ _ _ _ _ G1).
  assert (Hmore : ∀ r x, good B c1 x → answers (B + 6) c (Ret (r, x))).
  { intros r x G. apply conn_ret. cbn [snd]. apply good_more with B; [lia|]. by eapply frame_trans. }
  case_if; [apply Hmore; by_data|]. case_if; [by apply Hmore, frame_refl|].
  destruct (choose_spec B c1 H1) as (p & id & c2 & -> & G2 & _ & Hp & Hid); [small|]. ret_simpl.
  assert (Ha2 : allows may c2) by (eapply good_allows; [exact G2|by eapply good_allows]).
  assert (H2 := gd_ok _ _ _ _ _ G2). apply (returns_from _ (B + 1) (B + 6) c c2); [by eapply frame_trans|].
  assert (Hrest : answers (B + 6) c2 (new ← wpa_supplicant_pick_new_network (cu c2) (cs c2);
    match new with
    | Some id => c ← wpa_supplicant_associate env c2 None id; Ret (0, if new_scan then rsn_preauth_scan_results env c else c)
    | None => if own then c ← wpa_supplicant_req_new_scan c2 (scan_interval env) 0; Ret (0, does c [EvNetworkNotFound])
              else Ret (0, c2)
    end)).
  { apply returns_more with (B + 1); [lia|].
    destruct (pick_new_spec (B + 1) c2 H2) as ([i|] & -> & Hi); ret_simpl.
    - eapply (conn_bind (λ x, x) snd (B + 1)).
      + apply yields_returns, associate_runs; [done|done|done|by apply Ha2, Hi|by apply Hi].
      + intros c3 [H3 _ _]. cbv beta in *. apply conn_ret. cbn [snd]. case_if; [by apply preauth_good|by apply frame_refl].
    - case_if; [|by apply conn_ret, frame_refl].
      eapply (conn_bind (λ x, x) snd (B + 1)); [apply yields_returns, req_new_scan_runs; [done|small]|].
      intros c3 [H3 _ _]. cbv beta in *. apply conn_ret. cbn [snd]. by_data. }
  destruct p as [p|]; [|exact Hrest]. destruct id as [i|]; [|exact Hrest].
  replace (B + 6) with (B + 1 + 5) by lia.
  apply connect_chosen_answers; [done|small|done|by apply Hp|by apply Ha2, Hid|by apply Hid].
Qed.

Lemma scan_results_answers B c own : conn_ok B c → 0 ≤ B ≤ MANY_STEPS + 60 → (told → disconnected c = true) →
  allows may c → answers (B + 6) c (use_scan_results env c own).
Proof.
  intros H HB Ht Ha. unfold use_scan_results.
  assert (Hstay : answers (B + 6) c (Ret (0, c))).
  { apply conn_ret, good_more with B; [lia|by apply frame_refl]. }
  case_if; [done|]. destruct (disconnected c) eqn:Ed.
  - apply returns_more with B; [lia|]. eapply (conn_bind id snd B).
    + apply yields_returns, state_runs; [done|small|done].
    + intros c1 G. apply conn_ret, frame_refl, G.
  - case_if; [done|]. apply select_answers; [done|done| |done]. intros t. by specialize (Ht t).
Qed.

Lemma fast_associate_answers B c : conn_ok B c → 0 ≤ B ≤ MANY_STEPS + 60 → ¬ told → allows may c →
  answers (B + 6) c (wpa_supplicant_fast_associate env c).
Proof.
  intros H HB Hnot Ha. unfold wpa_supplicant_fast_associate.
  case_if; [apply conn_ret, good_more with B; [lia|by apply frame_refl]|].
  destruct (get_time_good told may B env c H) as (now & c1 & -> & G1). apply (returns_from _ B (B + 6) c c1); [done|].
  case_if; [apply conn_ret, good_more with B; [lia|apply frame_refl, G1]|]. apply select_answers; [apply G1|done..|by eapply good_allows].
Qed.

Lemma network_reenabled_runs B c : conn_ok B c → 0 ≤ B ≤ MANY_STEPS + 60 → (told → disconnected c = true) → allows may c →
  runs (B + 6) c (wpas_network_reenabled env c).
Proof.
  intros H HB Ht Ha. unfold wpas_network_reenabled.
  destruct (disconnected c || negb (state_of c =? WPA_SCANNING)) eqn:Ed; [by apply (runs_stay B); [|lia]|].
  apply orb_false_iff in Ed as [Ed _].
  eapply (conn_bind snd id (B + 6)); [apply fast_associate_answers; [done|done| |done]|].
  { intros t. rewrite Ht in Ed by done. done. }
  intros [r c1] [H1 _ _]. cbn [snd] in *. apply conn_ret. change (id ?x) with x. case_if; [by apply frame_refl|].
  pose proof (cancel_sched_good told may (B + 6) c1 H1) as [G _]. eapply frame_trans; [exact G|]. apply req_scan_good, G.
Qed.

(** ** Connecting and disconnecting on request *)

(** The invariant holds, and nothing is started when that was not wanted. *)
Definition stays {A} (π : A → conn) (B : Z) (c : conn) (m : outcome A) : Prop :=
  ∃ a, m = Ret a ∧ conn_ok B (π a) ∧ quiet told c (π a).

Lemma returns_stays {A} (π : A → conn) B c m : returns π B c m → stays π B c m.
Proof. intros (a & -> & [H1 [_ _ _ H2 _ _] _]). by exists a. Qed.

Lemma stays_ret {A} (π : A → conn) B c a : conn_ok B (π a) → quiet told c (π a) → stays π B c (Ret a).
Proof. by exists a. Qed.

Lemma stays_from {A} (π : A → conn) B c c1 m : quiet told c c1 → stays π B c1 m → stays π B c m.
Proof. intros Hq (a & -> & H & Hq'). exists a. split_and!; [done|done|by eapply quiet_trans]. Qed.

Lemma stays_bind {A A'} (π : A → conn) (π' : A' → conn) B B' c m (f : A → outcome A') :
  stays π B c m → (∀ a, conn_ok B (π a) → quiet told c (π a) → stays π' B' (π a) (f a)) → stays π' B' c (m ≫= f).
Proof.
  intros (a & -> & H & Hq) Hf. ret_simpl. destruct (Hf a H Hq) as (a' & -> & H' & Hq'). exists a'.
  split_and!; [done|done|by eapply quiet_trans].
Qed.

Lemma stays_more {A} (π : A → conn) B B' c m : B ≤ B' → stays π B c m → stays π B' c m.
Proof. intros HB (a & -> & H & Hq). exists a. split_and!; [done|by apply (sys_ok_more B)|done]. Qed.

Lemma good_quiet B c c' : good B c c' → quiet told c c'.
Proof. by intros [_ [_ _ _ H _ _] _]. Qed.

Lemma stays_data B B' c c' : conn_ok B c → B ≤ B' → good B c c' → stays id B' c (Ret c').
Proof. intros H HB [H1 [_ _ _ H2 _ _] _]. apply stays_ret; [by apply (sys_ok_more B)|done]. Qed.

Lemma not_told_quiet c c' : ¬ told → quiet told c c'.
Proof. intros Hn. by split. Qed.

Lemma request_connection_stays B c : conn_ok B c → 0 ≤ B ≤ MANY_STEPS + 60 → ¬ told → allows may c →
  stays id (B + 6) c (wpas_request_connection env c).
Proof.
  intros H HB Hnot Ha. unfold wpas_request_connection. set (c1 := c {{ normal_scans := 0 }} {{ scan_req := _ }}).
  set (b := BlState _ 0). pose proof (ys_extra _ _ _ H) as He. pose proof (ys_count _ _ _ H) as Ht.
  unfold total_count in Ht. pose proof (total_count_nonneg _ c H) as H0.
  match goal with |- context [wpa_supplicant_fast_associate env ?x] => set (c2 := x) end.
  assert (G1 : good B c1 (with_sel c1 (with_blacklist (cs c1) b (blacklist_cleared (cs c1))))).
  { apply (good_blacklist told may B B c1); [done|lia|exact (ys_bl _ _ _ H)|lia|]. subst b. unfold total_count.
    cbn [extra_blacklist_count blacklist]. change (cs c1) with (cs c). lia. }
  assert (H2 : conn_ok B c2) by (destruct (gd_ok _ _ _ _ _ G1); by split).
  apply (stays_from id _ c c2); [by apply not_told_quiet|]. apply returns_stays.
  eapply (conn_bind snd id (B + 6)); [by apply fast_associate_answers|].
  intros [r c3] [H3 _ _]. cbn [snd] in *. apply conn_ret. change (id ?x) with x. case_if; [by_data|].
  by apply req_scan_good.
Qed.

Lemma request_disconnection_stays B c : conn_ok B c → 0 ≤ B ≤ MANY_STEPS + 60 →
  stays id (B + 5) c (wpas_request_disconnection env c).
Proof.
  intros H HB. unfold wpas_request_disconnection.
  set (c1 := (with_reassociate (c {{ prev_bssid := None }}) false) {{ disconnected := true }}).
  assert (G1 : good B c c1).
  { assert (G0 : good B c (c {{ prev_bssid := None }})) by by_data.
    set (c0 := c {{ prev_bssid := None }}) in *. eapply frame_trans; [exact G0|]. by apply good_off. }
  destruct (cancel_sched_good told may B c1 (gd_ok _ _ _ _ _ G1)) as [G2 E2].
  set (c2 := does (wpa_supplicant_cancel_sched_scan c1) _).
  assert (G3 : good B c c2).
  { eapply frame_trans; [exact G1|]. eapply frame_trans; [exact G2|]. apply (good_does told may B), G2. }
  apply returns_stays, (returns_from id B (B + 5) c c2); [done|].
  apply (conn_bind id id (B + 5)); [apply deauthenticate_runs; [apply G3|small| |done]|].
  { intros _. change (disconnected (wpa_supplicant_cancel_sched_scan c1) = true). by rewrite E2. }
  intros c3 [H3 _ _]. change (id c3) with c3 in *. apply conn_ret. by_data.
Qed.
End keep.
