(* ===== verification/ConnectCmd.v ===== *)
(** * Connections: the network commands keep the invariant

    Enabling, disabling, selecting and removing networks, and the handlers of
    the control interface. *)

From stdpp Require Import gmap sorting.
From S2P Require Import Prelude CString WpaIe CommonLists Network Blacklist Bss BssTable BssTableSpec.
From S2P Require Import ConfigSsid ConfigText ConfigVars ConfigSsidSpec CtrlNetwork CtrlNetworkSpec.
From S2P Require Import Select SelectFits SelectSpec SelectPick Connect ConnectSpec ConnectKeep.
From coqutil Require Import Datatypes.RecordSetters.
Import DoubleBraceUpdate.

Section commands.
Context (told : Prop) (may : Z → Prop) (env : surroundings).

Local Notation good := (good told may).
Local Notation runs := (returns told may (A := conn) id).
Local Notation answers := (returns told may (A := Z * conn) snd).
Local Notation stays := (stays told).
Local Notation quiet := (quiet told).

(** ** Changes of the networks alone *)

(** The invariant holds and the connection is as it was. *)
Record settles (B : Z) (c c' : conn) : Prop := Settles {
  st_ok : conn_ok B c';
  st_ids : net_ids c' = net_ids c;
  st_current : current c' = current c;
  st_state : state_of c' = state_of c;
  st_disconnected : disconnected c' = disconnected c;
  st_reassociates : disconnected c = true → reassociates c' = reassociates c;
  st_sme : pending_sme c' = pending_sme c;
  st_connect : pending_connect c' = pending_connect c
}.

Lemma settles_refl B c : conn_ok B c → settles B c c.
Proof. by split. Qed.

Lemma settles_trans B c c' c'' : settles B c c' → settles B c' c'' → settles B c c''.
Proof.
  intros [] []. split; try congruence. intros Hd. rewrite st_reassociates1, st_reassociates0; congruence.
Qed.

Lemma settles_quiet B c c' : settles B c c' → quiet c c'.
Proof. intros []. split; intros _ Hd; try congruence. intros Hr. by rewrite st_reassociates0. Qed.

Lemma settles_data B c c' : conn_ok B c → cu c' = cu c → cs c' = cs c → disconnected c' = disconnected c →
  pending_sme c' = pending_sme c → pending_connect c' = pending_connect c → settles B c c'.
Proof.
  intros H E1 E2 E3 E4 E5. unfold conn_ok in H. rewrite <- E1, <- E2 in H.
  split; unfold net_ids, current, conf, state_of, reassociates; rewrite ?E1, ?E2; done.
Qed.

Lemma find_in_ids c id n : find_net (conf_nets (conf c)) id = Some n → id ∈ net_ids c.
Proof. intros Hn. apply list_elem_of_fmap. exists (id, n). split; [done|by apply find_net_elem]. Qed.

Lemma in_ids_find c id : id ∈ net_ids c → ∃ n, net_of c id = Ret n ∧ find_net (conf_nets (conf c)) id = Some n.
Proof.
  intros Hid. destruct (find_net_in _ _ Hid) as [n Hn]. exists n. split; [|done].
  unfold net_of, the_net. unfold conf in Hn. by rewrite Hn.
Qed.

Lemma disabled_ok n v : net_ok n → 0 ≤ v ≤ 2 → net_ok (set_int n (lit "disabled") v).
Proof.
  intros Hn Hv. apply set_int_ok; [done| |done]. split; [unfold INT_MIN, INT_MAX; lia|].
  split; intros x Hx; vm_compute in Hx; [injection Hx as <-; lia|discriminate].
Qed.

Lemma change_settles B c id n v : conn_ok B c → find_net (conf_nets (conf c)) id = Some n → 0 ≤ v ≤ 2 →
  settles B c (change_net c id (set_int n (lit "disabled") v)).
Proof.
  intros H Hn Hv. assert (Hs : sys_ok B (cu c) (with_conf (cs c) (with_net (conf c) id (set_int n (lit "disabled") v)))).
  { eapply sys_ok_put; [exact H|done|exact Hn| |by apply get_set_int_ne..|].
    - apply disabled_ok; [by apply (net_fine B c id)|done].
    - unfold failures. rewrite get_set_int_ne by done. by apply (net_failures B c id). }
  split; try done.
  - apply sys_ok_table; [done| |apply (ys_bss _ _ _ H)|apply (ys_levels _ _ _ H)].
    destruct (so_bss _ (ys_sel _ _ _ H)). by split.
  - unfold net_ids. cbn. apply put_ids.
Qed.

Lemma view_ids {A} (g : net → A) c c' : nets_view g (cs c') = nets_view g (cs c) → net_ids c' = net_ids c.
Proof.
  unfold nets_view, net_ids, conf. intros E. apply (f_equal (fmap fst)) in E. rewrite <- !list_fmap_compose in E. exact E.
Qed.

Lemma clear_settles B c id b : conn_ok B c → id ∈ net_ids c →
  ∃ s, wpas_clear_temp_disabled (cs c) id b = Ret s ∧ settles B c (with_sel c s) ∧
    nets_view (λ n, get_int n (lit "disabled")) s = nets_view (λ n, get_int n (lit "disabled")) (cs c).
Proof.
  intros H Hid. destruct (in_ids_find c id Hid) as (n & _ & Hn).
  destruct (clear_temp_good True (λ _, True) B c id n b H Hn) as (s & E & G & _). exists s. split_and!; [done| |].
  - assert (Ec : current_ssid (sel_conf s) = current c).
    { revert E. unfold wpas_clear_temp_disabled. destruct (the_net (cs c) id); [|discriminate..].
      rewrite outcome_bind_ret. cbv beta. case_if; by intros [= <-]. }
    split; try done; [apply G|]. apply (view_ids steady), G.
  - assert (Hv : nets_view steady s = nets_view steady (cs c)) by apply G.
    assert (Hd : ∀ x, nets_view (λ n, get_int n (lit "disabled")) x = (λ e : Z * net, (e.1, get_int e.2 (lit "disabled"))) <$> nets_view steady x).
    { intros x. unfold nets_view. rewrite <- list_fmap_compose. apply list_fmap_ext. intros i [j m] _. cbn.
      by rewrite steady_int. }
    by rewrite !Hd, Hv.
Qed.

(** ** Enabling *)

Lemma enable_one_settles B c id : conn_ok B c → id ∈ net_ids c →
  ∃ c', wpa_supplicant_enable_one_network c id = Ret c' ∧ settles B c c'.
Proof.
  intros H Hid. unfold wpa_supplicant_enable_one_network. destruct (in_ids_find c id Hid) as (n & -> & Hn). ret_simpl.
  case_if; [exists c; split; [done|by apply settles_refl]|].
  assert (S1 : settles B c (change_net c id (set_int n (lit "disabled") 0))) by by apply change_settles.
  set (c1 := change_net c id _) in *.
  destruct (clear_settles B c1 id true) as (s & -> & S2 & _); [apply S1|by rewrite (st_ids _ _ _ S1)|]. ret_simpl.
  eexists. split; [done|]. assert (S3 := settles_trans _ _ _ _ S1 S2). assert (H2 := st_ok _ _ _ S2).
  set (c2 := does (with_sel c1 s) _).
  assert (S4 : settles B c c2) by (eapply settles_trans; [exact S3|by apply settles_data]).
  destruct (bool_decide (current c2 = None) && negb (disconnected c2)) eqn:E; [|done].
  apply andb_prop in E as [_ E]. apply negb_true_iff in E. destruct S4 as [K1 K2 K3 K4 K5 K6 K7 K8]. split; try done.
  - destruct K1 as [[] ]. by split.
  - intros Hd. congruence.
Qed.

Lemma enable_all_settles B ids : ∀ c, conn_ok B c → ids ⊆ net_ids c → ∃ c', enable_all c ids = Ret c' ∧ settles B c c'.
Proof.
  induction ids as [|id ids IH]; intros c H Hids; cbn [enable_all]; [exists c; split; [done|by apply settles_refl]|].
  destruct (enable_one_settles B c id H) as (c1 & -> & S1); [apply Hids; by left|]. ret_simpl.
  destruct (IH c1) as (c2 & -> & S2); [apply S1|rewrite (st_ids _ _ _ S1); intros i Hi; apply Hids; by right|].
  exists c2. split; [done|by eapply settles_trans].
Qed.

Lemma stays_settles B c c' : settles B c c' → stays id B c (Ret c').
Proof. intros S. apply stays_ret; [apply S|by eapply settles_quiet]. Qed.

Lemma enable_network_stays B c ssid : conn_ok B c → 0 ≤ B ≤ MANY_STEPS + 60 → (told → disconnected c = true) →
  (∀ c', allows may c') → (∀ id, ssid = Some id → id ∈ net_ids c) →
  stays id (B + 6) c (wpa_supplicant_enable_network env c ssid).
Proof.
  intros H HB Ht Ha Hid. unfold wpa_supplicant_enable_network.
  assert (Hx : ∃ c1, match ssid with None => enable_all c (net_ids c) | Some id => wpa_supplicant_enable_one_network c id end = Ret c1 ∧
    settles B c c1).
  { destruct ssid as [id|]; [by apply enable_one_settles; [|apply Hid]|by apply enable_all_settles]. }
  destruct Hx as (c1 & -> & S1). ret_simpl. apply (stays_from told id _ c c1); [by eapply settles_quiet|].
  assert (H1 := st_ok _ _ _ S1). apply returns_stays with may.
  destruct (reassociates c1 && negb (disconnected c1) && _) eqn:E; [|by apply (runs_stay told may B); [|lia]].
  apply andb_prop in E as [E _]. apply andb_prop in E as [_ E]. apply negb_true_iff in E.
  assert (Hnot : ¬ told) by (intros t; specialize (Ht t); rewrite (st_disconnected _ _ _ S1) in E; congruence).
  destruct (cancel_sched_good told may B c1 H1) as [G1 _].
  apply (returns_from told may id B (B + 6) c1 _ _ G1).
  eapply (conn_bind told may snd id (B + 6)); [apply fast_associate_answers; [apply G1|done|done|apply Ha]|].
  intros [r c2] [H2 _ _]. cbn [snd] in *. apply conn_ret. change (id ?x) with x. case_if; [by apply frame_refl|].
  set (c3 := c2 {{ scan_req := NORMAL_SCAN_REQ }}).
  assert (G3 : good (B + 6) c2 c3) by by apply frame_data.
  eapply frame_trans; [exact G3|]. apply req_scan_good, G3.
Qed.

(** ** Disabling *)

Lemma disable_all_settles B ids : ∀ c, conn_ok B c → ids ⊆ net_ids c → ∃ c', disable_all c ids = Ret c' ∧ settles B c c'.
Proof.
  induction ids as [|id ids IH]; intros c H Hids; cbn [disable_all]; [exists c; split; [done|by apply settles_refl]|].
  destruct (in_ids_find c id) as (n & -> & Hn); [apply Hids; by left|]. ret_simpl.
  assert (Hids' : ids ⊆ net_ids c) by (intros i Hi; apply Hids; by right).
  case_if; [by apply IH|].
  assert (S1 : settles B c (change_net c id (set_int n (lit "disabled") 1))) by by apply change_settles.
  set (c1 := if _ =? 1 then _ else _).
  assert (S2 : settles B c c1).
  { subst c1. case_if; [done|]. eapply settles_trans; [exact S1|]. apply settles_data; try done. apply S1. }
  destruct (IH c1) as (c2 & -> & S3); [apply S2|by rewrite (st_ids _ _ _ S2)|].
  exists c2. split; [done|by eapply settles_trans].
Qed.

Lemma good_ids B c c' : good B c c' → net_ids c' = net_ids c.
Proof. intros G. apply (view_ids steady), G. Qed.

Lemma disable_network_stays B c ssid : conn_ok B c → 0 ≤ B ≤ MANY_STEPS + 60 → (told → disconnected c = true) →
  (∀ id, ssid = Some id → id ∈ net_ids c) → stays id (B + 6) c (wpa_supplicant_disable_network env c ssid).
Proof.
  intros H HB Ht Hid. unfold wpa_supplicant_disable_network. destruct ssid as [id|].
  - destruct (in_ids_find c id) as (n & -> & Hn); [by apply Hid|]. ret_simpl.
    assert (Hstay : stays Datatypes.id (B + 6) c (Ret c)).
    { apply returns_stays with may. by apply (runs_stay told may B); [|lia]. }
    case_if; [done|].
    assert (Hx : ∃ c1, (if bool_decide (current c = Some id) then wpa_supplicant_deauthenticate env c WLAN_REASON_DEAUTH_LEAVING else Ret c) = Ret c1 ∧
      good (B + 5) c c1).
    { case_if; [|exists c; split; [done|apply good_more with B; [lia|by apply frame_refl]]].
      destruct (deauthenticate_runs told may env B c WLAN_REASON_DEAUTH_LEAVING) as (c1 & -> & G); [done|small|done..|].
      by exists c1. }
    destruct Hx as (c1 & -> & G1). ret_simpl. assert (H1 := gd_ok _ _ _ _ _ G1).
    destruct (in_ids_find c1 id) as (n1 & -> & Hn1); [rewrite (good_ids _ _ _ G1); by apply Hid|]. ret_simpl.
    assert (S1 : settles (B + 5) c1 (change_net c1 id (set_int n1 (lit "disabled") 1))) by by apply change_settles.
    set (c2 := change_net c1 id _) in *. apply (stays_more told _ (B + 5)); [lia|].
    apply (stays_from told _ _ c c1); [by eapply good_quiet|].
    case_if; [by apply stays_settles|].
    set (c3 := does c2 _). assert (S2 : settles (B + 5) c1 c3).
    { eapply settles_trans; [exact S1|]. apply settles_data; try done. apply S1. }
    apply (stays_from told _ _ c1 c3); [by eapply settles_quiet|]. apply returns_stays with may, conn_ret.
    assert (H3 := st_ok _ _ _ S2). change (Datatypes.id ?x) with x. case_if; [|by apply frame_refl].
    destruct (cancel_sched_good told may (B + 5) c3 H3) as [G3 _].
    eapply frame_trans; [exact G3|]. apply req_scan_good, G3.
  - destruct (cancel_sched_good told may B c H) as [G1 E1]. set (c1 := wpa_supplicant_cancel_sched_scan c) in *.
    destruct (disable_all_settles B (net_ids c) c1) as (c2 & -> & S2); [apply G1|by rewrite (good_ids _ _ _ G1)|].
    ret_simpl. apply (stays_from told _ _ c c2); [eapply quiet_trans; [by eapply good_quiet|by eapply settles_quiet]|].
    apply (stays_more told _ (B + 5)); [lia|]. assert (H2 := st_ok _ _ _ S2). apply returns_stays with may.
    destruct (current c2); [|by apply (runs_stay told may B); [|lia]].
    apply deauthenticate_runs; [done|small| |done]. intros t. rewrite (st_disconnected _ _ _ S2), E1. by apply Ht.
Qed.

(** ** Selecting *)

(** The flag of a network. *)
Definition flag (c : conn) (id : Z) : option Z :=
  (λ n, get_int n (lit "disabled")) <$> find_net (conf_nets (conf c)) id.

Lemma flag_view c c' id : nets_view (λ n, get_int n (lit "disabled")) (cs c') = nets_view (λ n, get_int n (lit "disabled")) (cs c) →
  flag c' id = flag c id.
Proof.
  intros Hv. unfold flag, conf. destruct (find_net (conf_nets (sel_conf (cs c))) id) as [n|] eqn:E.
  - destruct (view_find _ (cs c) (cs c') id n Hv E) as (n' & -> & Hn). cbn in *. by rewrite Hn.
  - by rewrite (view_none _ (cs c) (cs c') id Hv E).
Qed.

Lemma flag_good B c c' id : good B c c' → flag c' id = flag c id.
Proof.
  intros G. unfold flag, conf. assert (Hv : nets_view steady (cs c') = nets_view steady (cs c)) by apply G.
  destruct (find_net (conf_nets (sel_conf (cs c))) id) as [n|] eqn:E.
  - destruct (view_find _ (cs c) (cs c') id n Hv E) as (n' & -> & Hn). cbn.
    by rewrite <- (steady_int n'), Hn, steady_int.
  - by rewrite (view_none _ (cs c) (cs c') id Hv E).
Qed.

Lemma enabled_flag c id : enabled_net c id → flag c id = Some 0.
Proof.
  unfold enabled_net, enabled, flag, conf. destruct (find_net _ id) as [n|]; [|done]. cbn [fmap option_fmap option_map].
  unfold wpas_network_disabled. destruct (get_int n (lit "disabled") =? 0) eqn:E; [apply Z.eqb_eq in E; by rewrite <- E|].
  cbn [negb]. by rewrite orb_true_r.
Qed.

(** What [wpa_supplicant_select_network] makes of a flag. *)
Definition selected_flag (ssid : option Z) (id d : Z) : Z :=
  if d =? 2 then 2 else match ssid with Some s => b2z (negb (s =? id)) | None => 0 end.

Lemma select_others_spec B ssid ids : ∀ c, conn_ok B c → ids ⊆ net_ids c → NoDup ids →
  ∃ c', select_others c ssid ids = Ret c' ∧ settles B c c' ∧
    ∀ i, flag c' i = if decide (i ∈ ids) then selected_flag ssid i <$> flag c i else flag c i.
Proof.
  induction ids as [|id ids IH]; intros c H Hids Hnd; cbn [select_others].
  { exists c. split_and!; [done|by apply settles_refl|]. intros i. by rewrite decide_False by apply not_elem_of_nil. }
  apply NoDup_cons in Hnd as [Hni Hnd].
  destruct (in_ids_find c id) as (n & -> & Hn); [apply Hids; by left|]. ret_simpl.
  assert (Hids' : ids ⊆ net_ids c) by (intros i Hi; apply Hids; by right).
  assert (Hfl : flag c id = Some (get_int n (lit "disabled"))) by by unfold flag; rewrite Hn.
  assert (Hstep : ∀ c1, settles B c c1 → (∀ i, flag c1 i = if decide (i = id) then selected_flag ssid i <$> flag c i else flag c i) →
    ∃ c', select_others c1 ssid ids = Ret c' ∧ settles B c c' ∧
      ∀ i, flag c' i = if decide (i ∈ id :: ids) then selected_flag ssid i <$> flag c i else flag c i).
  { intros c1 S1 Hf1. destruct (IH c1) as (c2 & E2 & S2 & Hf2); [apply S1|by rewrite (st_ids _ _ _ S1)|done|].
    exists c2. split_and!; [done|by eapply settles_trans|]. intros i. rewrite Hf2, Hf1.
    destruct (decide (i = id)) as [->|Hne]; [by rewrite decide_False, decide_True by (done || by left)|].
    destruct (decide (i ∈ ids)); [by rewrite decide_True by by right|]. rewrite decide_False; [done|].
    intros [?|?]%elem_of_cons; done. }
  case_if; zbool.
  { apply Hstep; [by apply settles_refl|]. intros i. case_decide as Hi; [|done]. subst i. rewrite Hfl. cbn [fmap option_fmap option_map].
    unfold selected_flag. by rewrite E. }
  set (d := match ssid with Some s => _ | None => 0 end).
  assert (Hd : 0 ≤ d ≤ 2) by (subst d; destruct ssid as [s|]; [unfold b2z; case_if; lia|lia]).
  assert (S1 : settles B c (change_net c id (set_int n (lit "disabled") d))) by by apply change_settles.
  assert (F1 : ∀ i, flag (change_net c id (set_int n (lit "disabled") d)) i = if decide (i = id) then selected_flag ssid i <$> flag c i else flag c i).
  { intros i. destruct (found_put (conf c) id n (set_int n (lit "disabled") d) Hn) as [P1 P2]. case_decide as Hi.
    - subst i. rewrite Hfl. unfold flag. change (conf (change_net c id ?m)) with (with_net (conf c) id m). rewrite P1. cbn [fmap option_fmap option_map].
      rewrite get_set_int. unfold selected_flag. by rewrite (proj2 (Z.eqb_neq _ _) E).
    - unfold flag. change (conf (change_net c id ?m)) with (with_net (conf c) id m). by rewrite P2. }
  set (c1 := change_net c id _) in *.
  assert (Hx : ∃ c2, (if negb (get_int n (lit "disabled") =? 0) && (d =? 0)
             then s ← wpas_clear_temp_disabled (cs c1) id false; Ret (with_sel c1 s) else Ret c1) = Ret c2 ∧
    settles B c c2 ∧ ∀ i, flag c2 i = flag c1 i).
  { case_if; [|by exists c1].
    destruct (clear_settles B c1 id false) as (s & -> & S2 & Hv); [apply S1|rewrite (st_ids _ _ _ S1); apply Hids; by left|].
    ret_simpl. eexists. split_and!; [done|by eapply settles_trans|]. intros i. apply flag_view, Hv. }
  destruct Hx as (c2 & -> & S2 & F2). ret_simpl. apply Hstep.
  - case_if; [done|]. eapply settles_trans; [exact S2|]. apply settles_data; try done. apply S2.
  - intros i. rewrite <- F1, <- F2. by case_if.
Qed.

Lemma connect_selected_runs B c ssid leave : conn_ok B c → 0 ≤ B ≤ MANY_STEPS + 60 → ¬ told → allows may c →
  (∀ id, ssid = Some id → id ∈ net_ids c) → runs (B + 6) c (connect_selected env c ssid leave).
Proof.
  intros H HB Hnot Ha Hid. unfold connect_selected.
  assert (Hgo : ∀ x, good B c x → allows may x → runs (B + 6) c
    (let c := with_reassociate (x {{ disconnected := false }}) true in
     '(r, c) ← match connect_without_scan c with Some _ => Ret (0, c) | None => wpa_supplicant_fast_associate env c end;
     let c := if r =? 1 then c
              else wpa_supplicant_req_scan (wpas_scan_reset_sched_scan (c {{ scan_req := NORMAL_SCAN_REQ }}))
                     0 (if leave : bool then 100000 else 0) in
     Ret (match ssid with Some id => does c [NetworkSelected id] | None => c end))).
  { intros x G Hax. cbv zeta. set (c1 := with_reassociate _ true).
    assert (H1 : conn_ok B c1) by (destruct (gd_ok _ _ _ _ _ G); by split).
    assert (G1 : good B x c1).
    { split; [done| |by split]. split; [done|done|done| |apply from_old_refl..]. by apply not_told_quiet. }
    apply (returns_from told may id B (B + 6) c c1); [by eapply frame_trans|].
    eapply (conn_bind told may snd id (B + 6)).
    - destruct (connect_without_scan c1).
      + apply conn_ret, good_more with B; [lia|by apply frame_refl].
      + apply fast_associate_answers; [done|done|done|by eapply good_allows].
    - intros [r c2] [H2 _ _]. cbn [snd] in *. apply conn_ret. change (id ?y) with y. set (c3 := if r =? 1 then _ else _).
      assert (G3 : good (B + 6) c2 c3).
      { subst c3. case_if; [by apply frame_refl|]. unfold wpas_scan_reset_sched_scan.
        set (c4 := c2 {{ scan_req := _ }} {{ normal_scans := _ }}). assert (G4 : good (B + 6) c2 c4) by by apply frame_data.
        destruct (cancel_sched_good told may (B + 6) c4) as [G5 _]; [apply G4|].
        eapply frame_trans; [exact G4|]. eapply frame_trans; [exact G5|]. apply req_scan_good, G5. }
      destruct ssid; [|done]. eapply frame_trans; [exact G3|]. apply good_does, G3. }
  destruct ssid as [id|].
  - set (c1 := does (with_current c (Some id)) _).
    destruct (in_ids_find c id) as (n & Hof & Hn); [by apply Hid|].
    assert (G1 : good B c c1).
    { destruct (current_fine told may B c c (Some id) H) as [F1 F2]; [apply calm_refl|intros i [= <-]; by exists n|done|].
      assert (G0 : good B c (with_current c (Some id))) by by split.
      eapply frame_trans; [exact G0|]. by apply good_does. }
    change (net_of c1 id) with (net_of c id). rewrite Hof. ret_simpl.
    match goal with |- context [with_reassociate (?y {{ disconnected := false }}) true] => set (c2 := y) end.
    assert (G2 : good B c1 c2) by (apply frame_data; [apply G1|done..]).
    apply Hgo; [by eapply frame_trans|]. eapply good_allows; [exact G2|]. by eapply good_allows.
  - ret_simpl. set (c1 := c {{ connect_without_scan := None }}).
    assert (G1 : good B c c1) by by apply frame_data. apply Hgo; [done|by eapply good_allows].
Qed.

Lemma flags_allow c ssid id : flag c id = selected_flag (Some ssid) id <$> flag c id → enabled_net c id → id = ssid.
Proof.
  intros Hf He. apply enabled_flag in He. rewrite He in Hf. cbn [fmap option_fmap option_map] in Hf.
  injection Hf as Hf. unfold selected_flag in Hf. cbn in Hf. unfold b2z in Hf.
  destruct (ssid =? id) eqn:E; cbn in Hf; [by apply Z.eqb_eq in E|discriminate].
Qed.

(** After the networks were enabled and disabled, associations are only queued
    for those that may be chosen. *)
Lemma select_network_spec B c ssid : conn_ok B c → 0 ≤ B ≤ MANY_STEPS + 50 → ¬ told →
  (∀ id, ssid = Some id → id ∈ net_ids c) →
  match ssid with Some id => may id | None => ∀ id, may id end →
  ∃ c', wpa_supplicant_select_network env c ssid = Ret c' ∧ conn_ok (B + 11) c' ∧
    from_old may (pending_sme c) (pending_sme c') ∧ from_old may (pending_connect c) (pending_connect c') ∧
    ∀ i, flag c' i = selected_flag ssid i <$> flag c i.
Proof.
  intros H HB Hnot Hid Hmay. unfold wpa_supplicant_select_network. cbv zeta.
  set (leave := match ssid, current c with Some id, Some cur => negb (id =? cur) | _, _ => false end).
  assert (Hx : ∃ c1, (if leave then wpa_supplicant_deauthenticate env
      (if WPA_AUTHENTICATING <=? state_of c then c {{ own_disconnect_req := true }} else c) WLAN_REASON_DEAUTH_LEAVING
      else Ret c) = Ret c1 ∧ good (B + 5) c c1).
  { case_if; [|exists c; split; [done|apply good_more with B; [lia|by apply frame_refl]]].
    set (c0 := if WPA_AUTHENTICATING <=? _ then _ else _).
    assert (G0 : good B c c0) by (subst c0; case_if; [by apply frame_data|by apply frame_refl]).
    destruct (deauthenticate_runs told may env B c0 WLAN_REASON_DEAUTH_LEAVING) as (c1 & -> & G);
      [apply G0|small|done|done|]. exists c1. split; [done|by eapply frame_trans]. }
  destruct Hx as (c1 & -> & G1). ret_simpl. assert (H1 := gd_ok _ _ _ _ _ G1).
  assert (Hx : ∃ c2, match ssid with Some id => s ← wpas_clear_temp_disabled (cs c1) id true; Ret (with_sel c1 s) | None => Ret c1 end = Ret c2 ∧
    settles (B + 5) c1 c2 ∧ ∀ i, flag c2 i = flag c1 i).
  { destruct ssid as [id|]; [|exists c1; split_and!; [done|by apply settles_refl|done]].
    destruct (clear_settles (B + 5) c1 id true H1) as (s & -> & S & Hv); [rewrite (good_ids _ _ _ G1); by apply Hid|].
    ret_simpl. eexists. split_and!; [done|done|]. intros i. apply flag_view, Hv. }
  destruct Hx as (c2 & -> & S2 & F2). ret_simpl.
  destruct (select_others_spec (B + 5) ssid (net_ids c2) c2) as (c3 & -> & S3 & F3); [apply S2|done| |].
  { apply (conf_unique _ (so_conf _ (ys_sel _ _ _ (st_ok _ _ _ S2)))). }
  ret_simpl. assert (S13 := settles_trans _ _ _ _ S2 S3). assert (H3 := st_ok _ _ _ S13).
  assert (F13 : ∀ i, flag c3 i = selected_flag ssid i <$> flag c i).
  { intros i. rewrite <- (flag_good _ _ _ i G1), <- F2. rewrite F3. case_decide as Hi; [done|].
    unfold flag. destruct (find_net (conf_nets (conf c2)) i) as [n|] eqn:E; [|done]. by destruct Hi; eapply find_in_ids. }
  assert (Hw : from_old may (pending_sme c) (pending_sme c3) ∧ from_old may (pending_connect c) (pending_connect c3)).
  { rewrite (st_sme _ _ _ S13), (st_connect _ _ _ S13). split; apply G1. }
  destruct Hw as [W1 W2]. case_if.
  { exists c3. split_and!; [done|by apply (sys_ok_more (B + 5)); [lia|]|done|done|done]. }
  destruct (connect_selected_runs (B + 5) c3 ssid leave) as (c4 & -> & G4); [done|small|done| | |].
  - intros i He. destruct ssid as [id|]; [|done].
    assert (Hi : i = id); [|by subst].
    apply (flags_allow c3); [|done]. rewrite F13. destruct (flag c i) as [d|]; [|done].
    cbn [fmap option_fmap option_map]. f_equal. unfold selected_flag. destruct (d =? 2) eqn:E2; [done|].
    unfold b2z. by destruct (id =? i).
  - intros id Hs. rewrite (st_ids _ _ _ S13), (good_ids _ _ _ G1). by apply Hid.
  - change (id c4) with c4 in *. replace (B + 11) with (B + 5 + 6) by lia. exists c4. split_and!; [done|apply G4| | |].
    + eapply from_old_trans; [exact W1|apply G4].
    + eapply from_old_trans; [exact W2|apply G4].
    + intros i. by rewrite (flag_good _ _ _ i G4).
Qed.

(** ** Removing *)

Lemma Forall_sub {A} (P : A → Prop) l k : l `sublist_of` k → Forall P k → Forall P l.
Proof.
  induction 1 as [|x l k _ IH|x l k _ IH]; intros Hk; [done| |]; apply Forall_cons in Hk as [Hx Hk].
  - constructor; [done|by apply IH].
  - by apply IH.
Qed.

Lemma unlink_net_sub l id : unlink_net l id `sublist_of` l.
Proof.
  induction l as [|e l IH]; cbn [unlink_net]; [done|]. case_if; [by apply sublist_cons|by apply sublist_skip].
Qed.

Lemma unlink_net_network l id : is_Some (find_net l id) →
  unlink_network (as_ssid <$> l) id = Some (as_ssid <$> unlink_net l id).
Proof.
  induction l as [|[i n] l IH]; [by intros [? ?]|]. rewrite fmap_cons. cbn [find_net unlink_net unlink_network as_ssid ssid_id fst].
  case_if; [done|]. intros Hl. by rewrite IH.
Qed.

Lemma find_unlink l id i : i ≠ id → find_net (unlink_net l id) i = find_net l i.
Proof.
  intros Hne. induction l as [|[j n] l IH]; [done|]. cbn [unlink_net find_net fst snd].
  destruct (id =? j) eqn:E; [apply Z.eqb_eq in E as <-; by rewrite (proj2 (Z.eqb_neq _ _) Hne)|].
  cbn [find_net fst snd]. case_if; [done|exact IH].
Qed.

Lemma config_remove_spec w id : conf_ok w → is_Some (find_net (conf_nets w) id) →
  ∃ w', config_remove w id = Ret (0, w') ∧ conf_ok w' ∧ conf_nets w' = unlink_net (conf_nets w) id ∧
    current_ssid w' = current_ssid w.
Proof.
  intros Hw Hf. unfold config_remove, wpa_config_remove_network. change (networks (conf_of w)) with (as_ssid <$> conf_nets w).
  rewrite unlink_net_network by done. pose proof (unlink_net_sub (conf_nets w) id) as Hsub.
  assert (Hnd : NoDup (fst <$> unlink_net (conf_nets w) id)).
  { eapply sublist_NoDup; [apply Hw|by apply fmap_sublist]. }
  destruct (update_prio_list_spec (λ _, true) (λ _, eq_refl) (Config (as_ssid <$> unlink_net (conf_nets w) id) (pssid (conf_of w))))
    as (cfg & -> & Hn & Hp).
  { unfold networks_ok. cbn [networks]. rewrite <- list_fmap_compose. exact Hnd. }
  ret_simpl. change (0 <? 0) with false. cbv iota. eexists. split_and!; [done| |done|done].
  split; cbn [conf_nets].
  - done.
  - eapply Forall_sub; [exact Hsub|apply Hw].
  - eapply Forall_sub; [exact Hsub|apply Hw].
  - unfold conf_of. cbn [conf_nets conf_pssid]. destruct cfg as [cn cp]. cbn [networks pssid] in *. by subst cn.
Qed.

(** A network that is not the current one is removed. *)
Lemma remove_config_ok B c id : conn_ok B c → id ∈ net_ids c → current c ≠ Some id →
  ∃ w, config_remove (conf c) id = Ret (0, w) ∧ conn_ok B (with_config c w) ∧ quiet c (with_config c w) ∧
    net_ids (with_config c w) = fst <$> unlink_net (conf_nets (conf c)) id ∧ current (with_config c w) = current c.
Proof.
  intros H Hid Hc. destruct (in_ids_find c id Hid) as (n & _ & Hn).
  destruct (config_remove_spec (conf c) id) as (w & -> & Hw & Hnets & Hcur); [apply (ys_sel _ _ _ H)|by eexists|].
  exists w. pose proof (unlink_net_sub (conf_nets (conf c)) id) as Hsub. rewrite <- Hnets in Hsub. split_and!; [done| | | |].
  - apply sys_ok_table; [|destruct (so_bss _ (ys_sel _ _ _ H)); by split|apply (ys_bss _ _ _ H)|apply (ys_levels _ _ _ H)].
    destruct H as [[K1 K2 K3] K4 K5 K6 K7 K8 K9 K10 K11 K12 K13 K14]. split; try done.
    + split; [done|done|]. by eapply Forall_sub.
    + intros i. cbn [sel_conf with_conf]. rewrite Hcur. intros Hi. rewrite Hnets, find_unlink; [by apply K4|].
      intros ->. by apply Hc.
    + by eapply Forall_sub.
  - split; try done. intros _ _ Hcu. change (current_ssid w = None). by rewrite Hcur.
  - unfold net_ids. change (conf (with_config c w)) with w. by rewrite Hnets.
  - change (current_ssid w = current c). by rewrite Hcur.
Qed.

Lemma mark_disassoc_current c c' : state_of c ≠ WPA_INTERFACE_DISABLED → wpa_supplicant_mark_disassoc c = Ret c' →
  current c' = None.
Proof.
  intros Hup. unfold wpa_supplicant_mark_disassoc. rewrite (proj2 (Z.eqb_neq _ _) Hup).
  destruct (wpa_supplicant_set_state c WPA_DISCONNECTED) as [c1| |]; [|discriminate..].
  rewrite outcome_bind_ret. by intros [= <-].
Qed.

Lemma clear_connection_current c c' a : state_of c ≠ WPA_INTERFACE_DISABLED →
  wpa_supplicant_clear_connection c a = Ret c' → current c' = None.
Proof.
  intros Hup. unfold wpa_supplicant_clear_connection. set (c1 := wpa_clear_keys (wpas_connect_work_done c) a).
  assert (E1 : state_of c1 = state_of c) by (subst c1; unfold wpas_connect_work_done; by case_if).
  destruct (wpa_supplicant_mark_disassoc c1) as [c2| |] eqn:E2; [|discriminate..].
  apply mark_disassoc_current in E2; [|by rewrite E1]. rewrite outcome_bind_ret. intros [= <-].
  case_if; exact E2.
Qed.

(** The connection is left. *)
Lemma deauthenticate_spec B c : conn_ok B c → 0 ≤ B ≤ MANY_STEPS + 80 → (told → disconnected c = true) →
  ∃ c', wpa_supplicant_deauthenticate env c WLAN_REASON_DEAUTH_LEAVING = Ret c' ∧ good (B + 5) c c' ∧ current c' = None.
Proof.
  intros H HB Ht. destruct (deauthenticate_runs told may env B c WLAN_REASON_DEAUTH_LEAVING) as (c' & E & G); [done..|].
  exists c'. split_and!; [done|done|]. revert E. unfold wpa_supplicant_deauthenticate.
  match goal with |- context [let '(_, _) := ?x in _] => destruct x as [addr zero] end.
  destruct addr as [a|].
  - set (c1 := does c _). assert (H1 : conn_ok B c1) by apply H.
    destruct (event_deauth_leaves told may env B c1 WLAN_REASON_DEAUTH_LEAVING true) as (c2 & -> & L & _); [done..|by left|].
    rewrite outcome_bind_ret. apply clear_connection_current. apply (ys_up _ _ _ L).
  - rewrite outcome_bind_ret. apply clear_connection_current. apply (ys_up _ _ _ H).
Qed.

Lemma notify_removed_settles B c id : conn_ok B c → settles B c (wpas_notify_network_removed c id) ∧
  conf (wpas_notify_network_removed c id) = conf c.
Proof.
  intros H. unfold wpas_notify_network_removed. split; [|by case_if].
  case_if; [|by apply settles_data]. set (c1 := with_sel c (with_next (cs c) None)).
  assert (H1 : conn_ok B c1).
  { apply sys_ok_table; [|destruct (so_bss _ (ys_sel _ _ _ H)); by split|apply (ys_bss _ _ _ H)|apply (ys_levels _ _ _ H)].
    destruct H as [[] ]. by split. }
  assert (S1 : settles B c c1) by by split. eapply settles_trans; [exact S1|by apply settles_data].
Qed.

Lemma forget_settles B c id : conn_ok B c → settles B c (forget_last c id) ∧ conf (forget_last c id) = conf c.
Proof.
  intros H. unfold forget_last. split; [|by case_if]. case_if; [by apply settles_data|by apply settles_refl].
Qed.

Lemma remove_network_stays B c id : conn_ok B c → 0 ≤ B ≤ MANY_STEPS + 50 → (told → disconnected c = true) →
  ConnectKeep.stays told (A := Z * conn) snd (B + 6) c (wpa_supplicant_remove_network env c id).
Proof.
  intros H HB Ht. unfold wpa_supplicant_remove_network.
  destruct (find_net (conf_nets (conf c)) id) as [n|] eqn:En.
  2: { apply (stays_more told _ B); [lia|]. apply stays_ret; [done|]. by apply quiet_refl. }
  destruct (notify_removed_settles B c id H) as [S1 E1].
  destruct (forget_settles B _ id (st_ok _ _ _ S1)) as [S2 E2]. cbv zeta. set (c2 := forget_last _ id) in *.
  assert (S3 := settles_trans _ _ _ _ S1 S2).
  set (c3 := if bool_decide (current c2 = Some id) || _ then _ else c2).
  assert (S4 : settles B c2 c3) by (subst c3; case_if; [apply settles_data; try done; apply S2|apply settles_refl, S2]).
  assert (S5 := settles_trans _ _ _ _ S3 S4). assert (H3 := st_ok _ _ _ S5).
  apply (stays_from told _ _ c c3); [by eapply settles_quiet|].
  assert (Hx : ∃ c4, (if bool_decide (current c3 = Some id) then
      wpa_supplicant_deauthenticate env
        (if WPA_AUTHENTICATING <=? state_of (does c3 [SmNoConfig; EapolNoConfig])
         then (does c3 [SmNoConfig; EapolNoConfig]) {{ own_disconnect_req := true }} else does c3 [SmNoConfig; EapolNoConfig])
        WLAN_REASON_DEAUTH_LEAVING else Ret c3) = Ret c4 ∧ good (B + 5) c3 c4 ∧ current c4 ≠ Some id).
  { case_bool_decide as Hc.
    - set (c4 := if _ <=? _ then _ else _).
      assert (G4 : good B c3 c4) by (subst c4; case_if; by apply frame_data).
      destruct (deauthenticate_spec B c4) as (c5 & -> & G5 & Ec); [apply G4|small| |].
      { apply (told_kept told may c3); [apply G4|]. intros t. rewrite (st_disconnected _ _ _ S5). by apply Ht. }
      exists c5. split_and!; [done|by eapply frame_trans|congruence].
    - exists c3. split_and!; [done|apply good_more with B; [lia|by apply frame_refl]|done]. }
  destruct Hx as (c4 & -> & G4 & Hcur). ret_simpl. assert (H4 := gd_ok _ _ _ _ _ G4).
  assert (Hin : id ∈ net_ids c4) by (rewrite (good_ids _ _ _ G4), (st_ids _ _ _ S5); by eapply find_in_ids).
  destruct (in_ids_find c4 id Hin) as (m & -> & _). ret_simpl.
  destruct (remove_config_ok (B + 5) c4 id H4 Hin Hcur) as (w & -> & H5 & Q5 & _). ret_simpl.
  change (0 <? 0) with false. cbv iota. apply (stays_from told _ _ c3 c4); [by eapply good_quiet|].
  apply (stays_from told _ _ c4 (with_config c4 w)); [done|]. apply (stays_more told _ (B + 5)); [lia|].
  apply returns_stays with may, conn_ret. cbn [snd]. case_if; [|by apply frame_refl].
  destruct (cancel_sched_good told may (B + 5) (with_config c4 w) H5) as [G6 _].
  eapply frame_trans; [exact G6|]. apply req_scan_good, G6.
Qed.

(** The loop over all networks, when none of them is current. *)
Lemma remove_all_stays B ids : ∀ c, conn_ok B c → current c = None → NoDup ids → ids ⊆ net_ids c →
  ConnectKeep.stays told (A := conn) id B c (remove_all c ids).
Proof.
  induction ids as [|i ids IH]; intros c H Hcur Hnd Hids; cbn [remove_all].
  { apply stays_ret; [done|]. by apply quiet_refl. }
  apply NoDup_cons in Hnd as [Hni Hnd].
  destruct (forget_settles B c i H) as [S1 E1].
  destruct (notify_removed_settles B _ i (st_ok _ _ _ S1)) as [S2 E2]. set (c2 := wpas_notify_network_removed _ i) in *.
  assert (S3 := settles_trans _ _ _ _ S1 S2).
  destruct (remove_config_ok B c2 i) as (w & -> & H5 & Q5 & E5 & C5);
    [apply S3|rewrite (st_ids _ _ _ S3); apply Hids; by left|by rewrite (st_current _ _ _ S3), Hcur|].
  ret_simpl. apply (stays_from told _ _ c (with_config c2 w)); [eapply quiet_trans; [by eapply settles_quiet|exact Q5]|].
  apply IH; [done|by rewrite C5, (st_current _ _ _ S3)|done|].
  rewrite E5. intros j Hj. assert (Hne : j ≠ i) by by intros ->.
  assert (Hj2 : j ∈ net_ids c2) by (rewrite (st_ids _ _ _ S3); apply Hids; by right).
  destruct (in_ids_find c2 j Hj2) as (n & _ & Hn). rewrite <- (find_unlink _ i j Hne) in Hn.
  apply list_elem_of_fmap. exists (j, n). split; [done|by apply find_net_elem].
Qed.
End commands.
