(* ===== verification/ConnectCtrl.v ===== *)
(** * Connections: the commands of the control interface, and runs

    The handlers of SELECT_NETWORK, ENABLE_NETWORK, DISABLE_NETWORK and
    REMOVE_NETWORK, the commands without arguments and the events, as one type
    of steps, and what holds after any sequence of them. *)

From stdpp Require Import gmap sorting.
From S2P Require Import Prelude CString WpaIe CommonLists Network Blacklist Bss BssTable BssTableSpec.
From S2P Require Import ConfigSsid ConfigText ConfigVars ConfigSsidSpec CtrlNetwork CtrlNetworkSpec.
From S2P Require Import Select SelectFits SelectSpec SelectPick Connect ConnectSpec ConnectKeep ConnectCmd.
From coqutil Require Import Datatypes.RecordSetters.
Import DoubleBraceUpdate.

(** ** Lists of channels *)

Lemma freq_loop_ends malloc_ok fuel : ∀ acc p, (length (default [] p) < fuel)%nat →
  ∃ r, freq_range_loop malloc_ok fuel acc p = Ret r.
Proof.
  induction fuel as [|fuel IH]; intros acc p Hf; [lia|]. cbn [freq_range_loop].
  destruct p as [[|x p]|]; [by eexists| |by eexists]. case_if; [|by eexists].
  unfold freq_range_at. apply IH. cbn [default from_option id] in Hf.
  destruct (strchr (x :: p) 44) as [k|]; cbn [mbind option_bind default from_option id]; [|cbn in *; lia].
  rewrite length_drop. cbn [length] in *. lia.
Qed.

Lemma freq_parse_ends malloc_ok res v : ∃ l r, freq_range_list_parse malloc_ok res v = Ret (l, r).
Proof.
  unfold freq_range_list_parse. destruct (freq_loop_ends malloc_ok (S (length (default [] v))) [] v) as [[l|] ->]; [lia| |];
    ret_simpl; by eexists _, _.
Qed.

(** Either all allocations work, or nothing was ever allocated. *)
Definition gathered (alloc : bool) (freqs : option buf) : Prop :=
  if alloc then ∃ xs, ints freqs xs else freqs = None.

Lemma channels_end env ranges chans : (∀ ch, ch ∈ chans → u32 ch.1 ≠ 0) → ∀ freqs, gathered (alloc_ok env) freqs →
  ∃ r, channels_loop env ranges chans freqs = Ret r.
Proof.
  induction chans as [|ch chans IH]; intros Hch freqs Hg; cbn [channels_loop]; [by eexists|].
  assert (Hch' : ∀ x, x ∈ chans → u32 x.1 ≠ 0) by (intros x Hx; apply Hch; by right).
  case_if; [by apply IH|]. revert Hg. unfold gathered. destruct (alloc_ok env) eqn:Ea.
  - intros [xs Hxs]. destruct (add_unique_spec (λ _, true) (λ _, eq_refl) freqs xs (u32 ch.1) Hxs) as (a & -> & Ha).
    { apply Hch. by left. }
    ret_simpl. apply IH; [done|]. unfold gathered. rewrite ?Ea. by eexists.
  - intros ->. cbn. apply IH; [done|]. unfold gathered. by rewrite ?Ea.
Qed.

Lemma channel_list_ends B env c val : conn_ok B c → ∃ r, freq_range_to_channel_list env c val = Ret r.
Proof.
  intros H. unfold freq_range_to_channel_list. destruct (hw_modes (cu c)) as [modes|] eqn:Em; [|by eexists].
  destruct (freq_parse_ends (λ _, alloc_ok env) [] (Some val)) as (l & r & ->). ret_simpl.
  case_if; [by eexists|]. apply channels_end.
  - intros ch Hch. apply list_elem_of_In, in_flat_map in Hch as (m & Hm & Hch).
    by apply (ys_channels _ _ _ H modes m); [|apply list_elem_of_In..].
  - unfold gathered. case_if; [|done]. exists []. split; [apply not_elem_of_nil|done].
Qed.

(** ** Steps *)

Inductive request : Type :=
  | SelectNetwork (cmd : str) | EnableNetwork (cmd : str) | DisableNetwork (cmd : str) | RemoveNetwork (cmd : str)
  | Plain (cmd : plain_command)
  | DeauthEvent (reason : Z) (local : bool) | DisassocEvent (reason : Z) (local : bool)
  | ReenableTimeout
  | ScanResults (own : bool).

Definition event (m : outcome conn) : outcome (Z * conn) := c ← m; Ret (0, c).

Definition perform (env : surroundings) (c : conn) (req : request) : outcome (Z * conn) :=
  match req with
  | SelectNetwork cmd => wpa_supplicant_ctrl_iface_select_network env c cmd
  | EnableNetwork cmd => wpa_supplicant_ctrl_iface_enable_network env c cmd
  | DisableNetwork cmd => wpa_supplicant_ctrl_iface_disable_network env c cmd
  | RemoveNetwork cmd => wpa_supplicant_ctrl_iface_remove_network env c cmd
  | Plain cmd => run_plain env c cmd
  | DeauthEvent reason local => event (event_deauth env c reason local)
  | DisassocEvent reason local => event (event_disassoc env c reason local)
  | ReenableTimeout => event (wpas_network_reenabled env c)
  | ScanResults own => use_scan_results env c own
  end.

(** Each step has its own random numbers, allocations and answers. *)
Fixpoint performs (c : conn) (reqs : list (surroundings * request)) : outcome conn :=
  match reqs with
  | [] => Ret c
  | (env, req) :: reqs' => '(_, c) ← perform env c req; performs c reqs'
  end.

(** The requests that connect. *)
Definition connecting (req : request) : bool :=
  match req with
  | SelectNetwork _ => true
  | Plain Disconnect => false
  | Plain _ => true
  | _ => false
  end.

Section keep.
Context (told : Prop) (env : surroundings).

Definition any (id : Z) : Prop := True.

Local Notation good := (good told any).
Local Notation answers := (stays told (A := Z * conn) snd).
Local Notation quiet := (quiet told).

Lemma any_allows c : allows any c.
Proof. done. Qed.

Lemma step_same B c r : conn_ok B c → answers (B + 12) c (Ret (r, c)).
Proof. intros H. apply stays_ret; [by apply (sys_ok_more B); [lia|]|by apply quiet_refl]. Qed.

(** The answer of an operation that returns nothing. *)
Lemma answers_zero B c m : stays told (A := conn) id B c m → answers B c (c ← m; Ret (0, c)).
Proof. intros (c' & -> & H & Hq). ret_simpl. by apply stays_ret. Qed.

Lemma min_time_good B c t : conn_ok B c → good B c (with_scan_min_time c t).
Proof. intros []. split; [by split| |by split]. split; [done|done|done| |apply from_old_refl..]. by split. Qed.

Lemma command_found c cmd id n : command_network c cmd = Some (id, n) →
  find_net (conf_nets (conf c)) id = Some n ∧ get_int n (lit "disabled") ≠ 2.
Proof.
  unfold command_network. destruct (find_net (conf_nets (conf c)) (atoi cmd)) as [m|] eqn:E; [|done].
  cbn [mbind option_bind]. case_if; [done|]. by intros [= <- <-].
Qed.

Lemma command_ids c cmd id n : command_network c cmd = Some (id, n) → id ∈ net_ids c.
Proof. intros H. apply command_found in H as [H _]. by eapply find_in_ids. Qed.

Lemma enable_answers B c cmd : conn_ok B c → 0 ≤ B ≤ MANY_STEPS + 40 → (told → disconnected c = true) →
  answers (B + 12) c (wpa_supplicant_ctrl_iface_enable_network env c cmd).
Proof.
  intros H HB Ht. unfold wpa_supplicant_ctrl_iface_enable_network.
  assert (G1 := min_time_good B c (0, 0) H). set (c1 := with_scan_min_time c (0, 0)) in *.
  assert (Hgo : ∀ ssid, (∀ id, ssid = Some id → id ∈ net_ids c) →
    answers (B + 12) c (c ← wpa_supplicant_enable_network env c1 ssid; Ret (0, c))).
  { intros ssid Hid. apply answers_zero, (stays_from told _ _ c c1); [by eapply good_quiet|].
    apply (stays_more told _ (B + 6)); [lia|].
    apply (enable_network_stays told any); [apply G1|small|done|by intros ?|done]. }
  case_if; [by apply Hgo|]. destruct (command_network c cmd) as [[id n]|] eqn:Ec; [|by apply step_same].
  assert (Hid := command_ids c cmd id n Ec). case_if.
  - apply command_found in Ec as [Hn _].
    assert (S : settles B c (change_net c id (set_int n (lit "disabled") 0))) by by apply change_settles.
    apply stays_ret; [apply (sys_ok_more B); [lia|apply S]|by eapply settles_quiet].
  - apply Hgo. by intros i [= <-].
Qed.

Lemma disable_answers B c cmd : conn_ok B c → 0 ≤ B ≤ MANY_STEPS + 40 → (told → disconnected c = true) →
  answers (B + 12) c (wpa_supplicant_ctrl_iface_disable_network env c cmd).
Proof.
  intros H HB Ht. unfold wpa_supplicant_ctrl_iface_disable_network.
  assert (Hgo : ∀ ssid, (∀ id, ssid = Some id → id ∈ net_ids c) →
    answers (B + 12) c (c ← wpa_supplicant_disable_network env c ssid; Ret (0, c))).
  { intros ssid Hid. apply answers_zero, (stays_more told _ (B + 6)); [lia|].
    apply (disable_network_stays told any); [done|small|done|done]. }
  case_if; [by apply Hgo|]. destruct (command_network c cmd) as [[id n]|] eqn:Ec; [|by apply step_same].
  apply Hgo. intros i [= <-]. by eapply command_ids.
Qed.

Lemma remove_answers B c cmd : conn_ok B c → 0 ≤ B ≤ MANY_STEPS + 40 → (told → disconnected c = true) →
  answers (B + 12) c (wpa_supplicant_ctrl_iface_remove_network env c cmd).
Proof.
  intros H HB Ht. unfold wpa_supplicant_ctrl_iface_remove_network. case_if.
  - destruct (cancel_sched_good told any B c H) as [G1 _]. cbv zeta. set (c1 := does _ [EapolInvalidated]).
    assert (G2 : good B c c1) by (eapply frame_trans; [exact G1|apply good_does, G1]).
    assert (H1 := gd_ok _ _ _ _ _ G2).
    assert (Hx : ∃ c2, match current c1 with
      | Some _ => wpa_supplicant_deauthenticate env
          (if WPA_AUTHENTICATING <=? state_of (does (c1 {{ prev_bssid := None }}) [SmNoConfig; EapolNoConfig])
           then (does (c1 {{ prev_bssid := None }}) [SmNoConfig; EapolNoConfig]) {{ own_disconnect_req := true }}
           else does (c1 {{ prev_bssid := None }}) [SmNoConfig; EapolNoConfig]) WLAN_REASON_DEAUTH_LEAVING
      | None => Ret c1 end = Ret c2 ∧ good (B + 5) c1 c2 ∧ current c2 = None).
    { destruct (current c1) as [cur|] eqn:Ecur.
      - set (c2 := if WPA_AUTHENTICATING <=? _ then _ else _).
        assert (G3 : good B c1 c2) by (subst c2; case_if; by apply frame_data).
        destruct (deauthenticate_spec told any env B c2) as (c3 & -> & G & Hc); [apply G3|small| |].
        { apply (told_kept told any c); [|done]. eapply calm_trans; [apply G2|apply G3]. }
        exists c3. split_and!; [done|by eapply frame_trans|done].
      - exists c1. split_and!; [done|apply good_more with B; [lia|by apply frame_refl]|done]. }
    destruct Hx as (c2 & -> & G3 & Hc). ret_simpl. assert (H2 := gd_ok _ _ _ _ _ G3).
    apply answers_zero, (stays_from told _ _ c c2).
    { eapply quiet_trans; by eapply good_quiet. }
    apply (stays_more told _ (B + 5)); [lia|]. apply remove_all_stays; [done|done| |done].
    apply (conf_unique _ (so_conf _ (ys_sel _ _ _ H2))).
  - destruct (remove_network_stays told any env B c (atoi cmd)) as ([r c1] & -> & H1 & Q1); [done|small|done|].
    ret_simpl. apply stays_ret; [|done]. by apply (sys_ok_more (B + 6)); [lia|].
Qed.
End keep.

(** ** SELECT_NETWORK *)

(** The network that SELECT_NETWORK names; the outer [None] stands for all. *)
Definition selection (c : conn) (cmd : str) : option (option Z) :=
  if strncmp_eq cmd (lit "any") 3 then Some None
  else (λ e : Z * net, Some e.1) <$> command_network c cmd.

Lemma select_command B may env c cmd : conn_ok B c → 0 ≤ B ≤ MANY_STEPS + 40 →
  match selection c cmd with
  | None => wpa_supplicant_ctrl_iface_select_network env c cmd = Ret (-1, c)
  | Some ssid =>
      match ssid with Some id => may id | None => ∀ id, may id end →
      ∃ c', wpa_supplicant_ctrl_iface_select_network env c cmd = Ret (0, c') ∧ conn_ok (B + 12) c' ∧
        from_old may (pending_sme c) (pending_sme c') ∧ from_old may (pending_connect c) (pending_connect c') ∧
        ∀ i, flag c' i = selected_flag ssid i <$> flag c i
  end.
Proof.
  intros H HB. unfold selection, wpa_supplicant_ctrl_iface_select_network.
  assert (Hgo : ∀ ssid, (∀ id, ssid = Some id → id ∈ net_ids c) →
    match ssid with Some id => may id | None => ∀ id, may id end →
    ∃ c', (c ← match strstr cmd (lit " freq=") with
        | Some i =>
            freqs ← freq_range_to_channel_list env c (drop (i + 6) cmd);
            Ret (match freqs with
                 | Some f => c {{ scan_req := MANUAL_SCAN_REQ }} {{ manual_scan_freqs := Some f }}
                 | None => c
                 end)
        | None => Ret c
        end;
      c ← wpa_supplicant_select_network env (with_scan_min_time c (0, 0)) ssid; Ret (0, c)) = Ret (0, c') ∧
      conn_ok (B + 12) c' ∧ from_old may (pending_sme c) (pending_sme c') ∧
      from_old may (pending_connect c) (pending_connect c') ∧ ∀ i, flag c' i = selected_flag ssid i <$> flag c i).
  { intros ssid Hid Hmay.
    assert (Hx : ∃ c1, match strstr cmd (lit " freq=") with
        | Some i =>
            freqs ← freq_range_to_channel_list env c (drop (i + 6) cmd);
            Ret (match freqs with
                 | Some f => c {{ scan_req := MANUAL_SCAN_REQ }} {{ manual_scan_freqs := Some f }}
                 | None => c
                 end)
        | None => Ret c end = Ret c1 ∧ ConnectSpec.good False may B c c1).
    { destruct (strstr cmd (lit " freq=")) as [i|]; [|exists c; split; [done|by apply frame_refl]].
      destruct (channel_list_ends B env c (drop (i + 6) cmd) H) as [r ->]. ret_simpl. eexists. split; [done|].
      destruct r; [by apply frame_data|by apply frame_refl]. }
    destruct Hx as (c1 & -> & G1). ret_simpl.
    assert (G2 : ConnectSpec.good False may B c1 (with_scan_min_time c1 (0, 0))).
    { destruct (gd_ok _ _ _ _ _ G1). split; [by split| |by split].
      split; [done|done|done| |apply from_old_refl..]. by split. }
    set (c2 := with_scan_min_time c1 (0, 0)) in *. assert (G := frame_trans _ _ _ _ _ _ _ G1 G2).
    destruct (select_network_spec False may env B c2 ssid) as (c3 & -> & H3 & W1 & W2 & F); [apply G|small|tauto| |done|].
    { intros id Hs. rewrite (good_ids _ _ _ _ _ G). by apply Hid. }
    ret_simpl. exists c3. split_and!; [done|by apply (sys_ok_more (B + 11)); [lia|]| | |].
    - eapply from_old_trans; [apply G|exact W1].
    - eapply from_old_trans; [apply G|exact W2].
    - intros i. by rewrite F, (flag_good _ _ _ _ _ i G). }
  destruct (strncmp_eq cmd (lit "any") 3); [by apply (Hgo None)|].
  destruct (command_network c cmd) as [[id n]|] eqn:Ec; cbn [fmap option_fmap option_map fst negb andb].
  - apply (Hgo (Some id)). intros i [= <-]. by eapply command_ids.
  - done.
Qed.

Lemma perform_stays told env B c req : conn_ok B c → 0 ≤ B ≤ MANY_STEPS + 40 → (told → disconnected c = true) →
  (told → connecting req = false) → stays told (A := Z * conn) snd (B + 12) c (perform env c req).
Proof.
  intros H HB Ht Hc.
  assert (Hevent : ∀ m, (∃ c' same, m = Ret c' ∧ leaves told any (B + 5) c c' same) → stays told (A := Z * conn) snd (B + 12) c (event m)).
  { intros m (c' & same & -> & L1 & L2 & _). unfold event. ret_simpl.
    apply stays_ret; [by apply (sys_ok_more (B + 5)); [lia|]|apply L2]. }
  assert (Hconnect : ∀ c0, ¬ told → conn_ok B c0 →
    stays told (A := Z * conn) snd (B + 12) c (c ← wpas_request_connection env c0; Ret (0, c))).
  { intros c0 Hn H0. destruct (request_connection_stays told any env B c0) as (c1 & -> & H1 & _); [done|small|done|by intros ?|].
    ret_simpl. apply stays_ret; [by apply (sys_ok_more (B + 6)); [lia|]|by apply not_told_quiet]. }
  destruct req as [cmd|cmd|cmd|cmd|cmd|reason local|reason local| |own]; cbn [perform].
  - assert (Hn : ¬ told) by (intros t; discriminate (Hc t)). pose proof (select_command B any env c cmd H HB) as Hs.
    destruct (selection c cmd) as [ssid|]; [|rewrite Hs; by apply step_same].
    destruct Hs as (c1 & -> & H1 & _); [by destruct ssid|]. apply stays_ret; [done|by apply not_told_quiet].
  - by apply enable_answers.
  - by apply disable_answers.
  - by apply remove_answers.
  - unfold run_plain. destruct cmd; cbn [connecting] in Hc.
    1-3: assert (Hn : ¬ told) by (intros t; discriminate (Hc t)).
    + case_if; [by apply step_same|by apply Hconnect].
    + case_if; [by apply step_same|]. by apply Hconnect.
    + case_if; [by apply step_same|]. case_if; [by apply Hconnect|by apply step_same].
    + destruct (request_disconnection_stays told any env B c) as (c1 & -> & H1 & Q1); [done|small|].
      ret_simpl. apply stays_ret; [by apply (sys_ok_more (B + 5)); [lia|]|done].
  - apply Hevent. destruct (event_deauth_leaves told any env B c reason local) as (c1 & -> & L); [done|small|done|by right; intros ?|].
    by eexists _, _.
  - apply Hevent. destruct (event_disassoc_leaves told any env B c reason local) as (c1 & -> & L); [done|small|done|by right; intros ?|].
    by eexists _, _.
  - unfold event. apply answers_zero, (stays_more told _ (B + 6)); [lia|]. apply returns_stays with any.
    apply network_reenabled_runs; [done|small|done|by intros ?].
  - apply (stays_more told _ (B + 6)); [lia|]. apply returns_stays with any.
    apply scan_results_answers; [done|small|done|by intros ?].
Qed.

Lemma performs_stays told reqs : ∀ B c, conn_ok B c → 0 ≤ B → B + 12 * Z.of_nat (length reqs) ≤ MANY_STEPS →
  (told → disconnected c = true) → (told → Forall (λ r : surroundings * request, connecting r.2 = false) reqs) →
  stays told (A := conn) id (B + 12 * Z.of_nat (length reqs)) c (performs c reqs).
Proof.
  induction reqs as [|[env req] reqs IH]; intros B c H H0 HB Ht Hc; cbn [performs].
  { apply stays_ret; [by apply (sys_ok_more B); [cbn [length]; lia|]|by apply quiet_refl]. }
  cbn [length] in HB. destruct (perform_stays told env B c req H) as ([r c1] & -> & H1 & Q1);
    [lia|done|intros t; specialize (Hc t); by apply Forall_cons in Hc as [? _]|].
  ret_simpl. cbn [snd] in *. apply (stays_from told _ _ c c1); [done|].
  replace (B + 12 * Z.of_nat (length ((env, req) :: reqs))) with (B + 12 + 12 * Z.of_nat (length reqs)) by (cbn [length]; lia).
  apply IH; [done|lia|lia| |].
  - intros t. by apply (qt_disconnected _ _ _ Q1), Ht.
  - intros t. specialize (Hc t). by apply Forall_cons in Hc as [_ ?].
Qed.

(** DISCONNECT leaves the connection and stops everything that starts one. *)
Lemma disconnect_spec env B c : conn_ok B c → 0 ≤ B ≤ MANY_STEPS →
  ∃ c', perform env c (Plain Disconnect) = Ret (0, c') ∧ conn_ok (B + 12) c' ∧
    disconnected c' = true ∧ reassociates c' = false ∧ current c' = None ∧
    (pending_sme c = None → pending_sme c' = None) ∧ (pending_connect c = None → pending_connect c' = None).
Proof.
  intros H HB. cbn [perform]. unfold run_plain, wpas_request_disconnection.
  set (c1 := (with_reassociate (c {{ prev_bssid := None }}) false) {{ disconnected := true }}).
  assert (H1 : conn_ok B c1) by (destruct H; by split).
  destruct (cancel_sched_good True any B c1 H1) as [G2 E2].
  set (c2 := does (wpa_supplicant_cancel_sched_scan c1) _).
  assert (G12 : good True any B c1 c2) by (eapply frame_trans; [exact G2|apply good_does, G2]).
  destruct (deauthenticate_spec True any env B c2) as (c3 & -> & G3 & Ec); [apply G12|small|done|].
  assert (G : good True any (B + 5) c1 c3) by (eapply frame_trans; [exact G12|exact G3]).
  ret_simpl. eexists. split_and!; [done| | | |exact Ec| |].
  - apply (sys_ok_more (B + 5)); [lia|]. apply (good_does True any (B + 5)), G.
  - by apply (qt_disconnected True c1 c3); [apply G| |].
  - by apply (qt_idle True c1 c3); [apply G| | |].
  - intros Hs. by apply (qt_sme True c1 c3); [apply G| | |].
  - intros Hs. by apply (qt_connect True c1 c3); [apply G| | |].
Qed.

(** Only networks that are enabled are picked. *)
Lemma pick_enabled B c : conn_ok B c → 0 ≤ B ≤ MANY_STEPS + 90 →
  ∃ p id s, wpa_supplicant_pick_network (cu c) (cs c) = Ret (p, id, s) ∧ ∀ i, id = Some i → flag c i = Some 0.
Proof.
  intros H HB. pose proof (ys_extra _ _ _ H) as He. pose proof (ys_count _ _ _ H) as Ht. unfold total_count in Ht.
  pose proof (max_count_acc (blacklist (sel_blacklist (cs c))) 0) as H0. fold (max_count (blacklist (sel_blacklist (cs c)))) in H0.
  pose proof (ys_cleared _ _ _ H) as Hcl.
  destruct (pick_spec (cu c) (cs c) (ys_sel _ _ _ H)) as (p & id & s & E & _ & _ & _ & _ & Hid & _); [split; small|].
  exists p, id, s. split; [done|]. intros i Hi. apply enabled_flag. by apply Hid.
Qed.

(** * What holds after any sequence of commands and events *)

(** ** Properties *)

(** C15: Commands and events keep the daemon safe. Start where the interface is
    not disabled (on a disabled one a removed network stays current:
    [removed_stays_current]), where the transmit key index of every network is
    0 to 3 (SET_NETWORK stores any other: [wep_index_unchecked]), and where the
    rest of [conn_ok] holds, the invariant itself. Then after any sequence of
    SELECT_NETWORK, ENABLE_NETWORK, DISABLE_NETWORK, REMOVE_NETWORK,
    REASSOCIATE, REATTACH, RECONNECT, DISCONNECT, and events of
    deauthentication, disassociation, of scan results and of the end of a
    wait, of a length that keeps the counters below [MANY_STEPS] (10^7), with
    any random numbers and failed allocations, no freed network or BSS entry
    was used and no counter overflowed, the current network and BSS entry
    exist, the lists of priorities fit the networks, and the counters grew by
    at most twelve with each step. *)
Theorem network_commands_safe B c reqs :
  conn_ok B c → 0 ≤ B → B + 12 * Z.of_nat (length reqs) ≤ MANY_STEPS →
  ∃ c', performs c reqs = Ret c' ∧ conn_ok (B + 12 * Z.of_nat (length reqs)) c'.
Proof.
  intros H H0 HB. destruct (performs_stays False reqs B c H H0 HB) as (c' & E & H' & _); [done|done|]. by exists c'.
Qed.

(** C16: SELECT_NETWORK of a network that exists is exclusive, on a daemon in order
    ([conn_ok]: the interface not disabled, transmit key indices within 0 to 3,
    counters below [MANY_STEPS]): afterwards the network is enabled and every
    other one is disabled, unless it stands for a persistent P2P group; what is
    queued to associate with was queued for the same network before, or is for
    this one; and as long as nothing is enabled, this network alone is
    picked from scan results. *)
Theorem select_network_exclusive B env c cmd id n :
  conn_ok B c → 0 ≤ B ≤ MANY_STEPS → strncmp_eq cmd (lit "any") 3 = false → command_network c cmd = Some (id, n) →
  ∃ c', perform env c (SelectNetwork cmd) = Ret (0, c') ∧
    flag c' id = Some 0 ∧
    (∀ i d, flag c i = Some d → i ≠ id → flag c' i = Some (if d =? 2 then 2 else 1)) ∧
    from_old (λ i, i = id) (pending_sme c) (pending_sme c') ∧
    from_old (λ i, i = id) (pending_connect c) (pending_connect c') ∧
    ∃ p r s, wpa_supplicant_pick_network (cu c') (cs c') = Ret (p, r, s) ∧ (r = None ∨ r = Some id).
Proof.
  intros H HB Hany Hc. pose proof (select_command B (λ i, i = id) env c cmd H) as Hs.
  unfold selection in Hs. rewrite Hany, Hc in Hs.
  destruct Hs as (c' & E & H' & W1 & W2 & F); [small|done|].
  apply command_found in Hc as [Hn Hd]. change ((id, n).1) with id in *.
  assert (Hflag : flag c id = Some (get_int n (lit "disabled"))) by (unfold flag; by rewrite Hn).
  assert (Hid : flag c' id = Some 0).
  { rewrite F, Hflag. cbn [fmap option_fmap option_map]. unfold selected_flag.
    by rewrite (proj2 (Z.eqb_neq _ _) Hd), Z.eqb_refl. }
  assert (Hother : ∀ i d, flag c i = Some d → i ≠ id → flag c' i = Some (if d =? 2 then 2 else 1)).
  { intros i d Hi Hne. rewrite F, Hi. cbn [fmap option_fmap option_map]. unfold selected_flag.
    rewrite (proj2 (Z.eqb_neq id i)) by done. done. }
  destruct (pick_enabled (B + 12) c' H') as (p & r & s & Ep & Hr); [small|].
  exists c'. split_and!; [exact E|done|done|done|done|]. exists p, r, s. split; [done|].
  destruct r as [i|]; [right|by left]. f_equal. specialize (Hr i eq_refl).
  destruct (decide (i = id)) as [|Hne]; [done|]. rewrite F in Hr.
  destruct (flag c i) as [d|]; [|discriminate]. cbn [fmap option_fmap option_map] in Hr. injection Hr as Hr.
  unfold selected_flag in Hr. destruct (d =? 2); [discriminate|]. rewrite (proj2 (Z.eqb_neq id i)) in Hr by done. discriminate.
Qed.

(** C17: DISCONNECT lasts. On a daemon in the state of [conn_ok] (the interface
    not disabled, transmit key indices within 0 to 3) with no association
    queued, it leaves the network, and through any sequence, within the
    [MANY_STEPS] of the counters, of ENABLE_NETWORK, DISABLE_NETWORK,
    REMOVE_NETWORK and DISCONNECT commands, deauthentications,
    disassociations, scan results and ends of a wait, the daemon stays
    disconnected, has no current network, and queues no association. (The
    sequence holds none of the commands that connect, SELECT_NETWORK,
    REASSOCIATE, REATTACH and RECONNECT; FLUSH, which connects again, and an
    association that the driver reports by itself are not among the steps
    modelled.) *)
Theorem disconnect_stays B env c reqs :
  conn_ok B c → 0 ≤ B → B + 12 * (1 + Z.of_nat (length reqs)) ≤ MANY_STEPS →
  pending_sme c = None → pending_connect c = None →
  Forall (λ r : surroundings * request, connecting r.2 = false) reqs →
  ∃ c', performs c ((env, Plain Disconnect) :: reqs) = Ret c' ∧ disconnected c' = true ∧
    reassociates c' = false ∧ current c' = None ∧ pending_sme c' = None ∧ pending_connect c' = None.
Proof.
  intros H H0 HB Hsme Hcon Hreqs. cbn [performs].
  destruct (disconnect_spec env B c H) as (c1 & -> & H1 & D1 & R1 & N1 & S1 & T1); [small|]. ret_simpl.
  destruct (performs_stays True reqs (B + 12) c1) as (c2 & -> & H2 & [Q1 Q2 Q3 Q4 Q5]); [done|lia|lia|done|done|].
  exists c2. split_and!; [done|by apply Q1|by apply Q2|by apply Q5|apply Q3; auto|apply Q4; auto].
Qed.

(** ** Witnesses *)

Definition demo_env : surroundings := Env (λ _, 7) (λ _, 0) true true true true 0 60 false 5 false.

(** The state of the daemon, with the scan of SelectPick. *)
Definition demo_conn (state : Z) (cur : option Z) : conn :=
  Conn (Setup false None false [] [] None false (0, 0) 1 WPA_DRIVER_FLAGS_SME state false (λ _, 12))
    (Sel (WpaS [(0, home_net); (2, away_net)] [[2]; [0]] cur) (BlState [] 0) 0 demo_table None 0 [])
    false false 0 None None false 0 false false false 0 false 0 None None 0 0 false false false None false false false
    false 0 (0, 0) false None None 0 [].

Lemma demo_conn_ok state cur : state ≠ WPA_INTERFACE_DISABLED → (cur = None ∨ cur = Some 0) → conn_ok 0 (demo_conn state cur).
Proof.
  intros Hst Hcur. split.
  - split; [|apply table_entries, demo_table_ok|exact (so_keys _ (demo_sel_ok []))].
    destruct choice_conf_ok as [K1 K2 K3 K4]. by split.
  - intros id. cbn. intros ->. destruct Hcur as [|[= ->]]; [done|]. by exists home_net.
  - assert (E : current_bss demo_table = None) by by vm_compute.
    intros p Hp. change (current_bss demo_table = Some p) in Hp. congruence.
  - done.
  - assert (Hall : map_Forall (λ _ b, -1000000 ≤ bss_level b ≤ 1000000) (heap demo_table)).
    { apply (bool_decide_unpack _). by vm_compute. }
    intros p b. apply Hall.
  - intros k. cbn. lia.
  - split; [by apply NoDup_nil|by apply Forall_nil].
  - done.
  - done.
  - done.
  - destruct (demo_unset (lit "auth_failures")) as [E1 E2]; [by apply (bool_decide_unpack _)|done|done|].
    repeat constructor; cbn [snd]; unfold failures; by rewrite ?E1, ?E2.
  - done.
Qed.

(** Select the network, lose the connection, enable all networks, remove the
    other one, disconnect, ask again. *)
Definition demo_run : list (surroundings * request) :=
  [(demo_env, SelectNetwork (lit "0")); (demo_env, DeauthEvent 3 false); (demo_env, EnableNetwork (lit "all"));
   (demo_env, RemoveNetwork (lit "2")); (demo_env, Plain Disconnect); (demo_env, Plain Reconnect);
   (demo_env, ScanResults true)].

Lemma network_commands_safe_witness :
  ∃ c', performs (demo_conn 9 (Some 0)) demo_run = Ret c' ∧ conn_ok 84 c'.
Proof.
  apply (network_commands_safe 0 (demo_conn 9 (Some 0)) demo_run); [apply demo_conn_ok; [done|by right]|done|done].
Defined.

Lemma select_network_exclusive_witness :
  ∃ c', perform demo_env (demo_conn 3 None) (SelectNetwork (lit "0")) = Ret (0, c') ∧
    flag c' 0 = Some 0 ∧
    (∀ i d, flag (demo_conn 3 None) i = Some d → i ≠ 0 → flag c' i = Some (if d =? 2 then 2 else 1)) ∧
    from_old (λ i, i = 0) (pending_sme (demo_conn 3 None)) (pending_sme c') ∧
    from_old (λ i, i = 0) (pending_connect (demo_conn 3 None)) (pending_connect c') ∧
    ∃ p r s, wpa_supplicant_pick_network (cu c') (cs c') = Ret (p, r, s) ∧ (r = None ∨ r = Some 0).
Proof.
  assert (Hc : command_network (demo_conn 3 None) (lit "0") = Some (0, home_net)) by reflexivity.
  assert (Hn : strncmp_eq (lit "0") (lit "any") 3 = false) by reflexivity.
  apply (select_network_exclusive 0 demo_env (demo_conn 3 None) (lit "0") 0 home_net);
    [apply demo_conn_ok; [done|by left]|done|exact Hn|exact Hc].
Defined.

Lemma disconnect_stays_witness :
  ∃ c', performs (demo_conn 9 (Some 0)) [(demo_env, Plain Disconnect); (demo_env, DeauthEvent 4 false);
          (demo_env, EnableNetwork (lit "all")); (demo_env, ReenableTimeout); (demo_env, ScanResults true)] = Ret c' ∧
    disconnected c' = true ∧ reassociates c' = false ∧ current c' = None ∧ pending_sme c' = None ∧ pending_connect c' = None.
Proof.
  apply (disconnect_stays 0 demo_env (demo_conn 9 (Some 0)));
    [apply demo_conn_ok; [done|by right]|done|done|done|done|by repeat constructor].
Defined.

(** The network that is selected is associated with. *)
Example selected_is_queued :
  match performs (demo_conn 3 None) [(demo_env, SelectNetwork (lit "0"))] with
  | Ret c => pending_sme c = Some (CWork (Some 2000) false 0) ∧ current c = Some 0
  | _ => False
  end.
Proof. by vm_compute. Qed.

(** DISCONNECT leaves an association that is queued, and the radio takes it up
    later. *)
Example disconnect_leaves_work :
  match performs (demo_conn 3 None) [(demo_env, SelectNetwork (lit "0")); (demo_env, Plain Disconnect)] with
  | Ret c => disconnected c = true ∧ pending_sme c = Some (CWork (Some 2000) false 0)
  | _ => False
  end.
Proof. by vm_compute. Qed.

(** While the interface is disabled, the network that SELECT_NETWORK made
    current is removed and stays current: the pointer is to freed
    memory. *)
Example removed_stays_current :
  match performs (demo_conn WPA_INTERFACE_DISABLED None)
          [(demo_env, SelectNetwork (lit "0")); (demo_env, RemoveNetwork (lit "0"))] with
  | Ret c => current c = Some 0 ∧ find_net (conf_nets (conf c)) 0 = None
  | _ => False
  end.
Proof. by vm_compute. Qed.
