(* ===== verification/Channels.v ===== *)
(** * Channels and frequencies (src/common/ieee802_11_common.c)

    From a frequency to a channel and its operating class, and from a channel
    of an operating class of a country to its frequency.  The tables of
    countries are those of the source; a country that is not given is [None]. *)

From S2P Require Import Prelude.

Inductive hostapd_hw_mode : Type :=
  | HOSTAPD_MODE_IEEE80211B | HOSTAPD_MODE_IEEE80211G | HOSTAPD_MODE_IEEE80211A | HOSTAPD_MODE_IEEE80211AD
  | HOSTAPD_MODE_IEEE80211ANY | NUM_HOSTAPD_MODES.

#[export] Instance hostapd_hw_mode_eq_dec : EqDecision hostapd_hw_mode.
Proof. solve_decision. Defined.

Definition VHT_CHANWIDTH_USE_HT : Z := 0.
Definition VHT_CHANWIDTH_80MHZ : Z := 1.
Definition VHT_CHANWIDTH_160MHZ : Z := 2.
Definition VHT_CHANWIDTH_80P80MHZ : Z := 3.

(** ** From a frequency *)

(** The mode, and what is stored in [*op_class] and [*channel]. *)
Definition channel_result : Type := hostapd_hw_mode * option (Z * Z).

Definition no_channel : channel_result := (NUM_HOSTAPD_MODES, None).

(** The class by the place of the secondary channel. *)
Definition by_sec (sec_channel above below none : Z) : Z :=
  if sec_channel =? 1 then above else if sec_channel =? -1 then below else none.

Definition by_vht (vht_opclass : Z) (other : Z) : Z := if negb (vht_opclass =? 0) then vht_opclass else other.

Definition ieee80211_freq_to_channel_ext (freq sec_channel vht : Z) : channel_result :=
  if (1 <? sec_channel) || (sec_channel <? -1) then no_channel
  else if (2412 <=? freq) && (freq <=? 2472) then
    if negb ((freq - 2407) mod 5 =? 0) then no_channel
    else if negb (vht =? 0) then no_channel
    else (HOSTAPD_MODE_IEEE80211G, Some (by_sec sec_channel 83 84 81, (freq - 2407) / 5))
  else if freq =? 2484 then
    if negb (sec_channel =? 0) || negb (vht =? 0) then no_channel
    else (HOSTAPD_MODE_IEEE80211B, Some (82, 14))
  else if (4900 <=? freq) && (freq <? 5000) then
    if negb ((freq - 4000) mod 5 =? 0) then no_channel
    else (HOSTAPD_MODE_IEEE80211A, Some (0, (freq - 4000) / 5))
  else
    let vht_opclass :=
      if vht =? VHT_CHANWIDTH_80MHZ then 128
      else if vht =? VHT_CHANWIDTH_160MHZ then 129
      else if vht =? VHT_CHANWIDTH_80P80MHZ then 130
      else 0 in
    if (5180 <=? freq) && (freq <=? 5240) then
      if negb ((freq - 5000) mod 5 =? 0) then no_channel
      else (HOSTAPD_MODE_IEEE80211A, Some (by_vht vht_opclass (by_sec sec_channel 116 117 115), (freq - 5000) / 5))
    else if (5745 <=? freq) && (freq <=? 5845) then
      if negb ((freq - 5000) mod 5 =? 0) then no_channel
      else (HOSTAPD_MODE_IEEE80211A,
            Some (by_vht vht_opclass (by_sec sec_channel 126 127 (if freq <=? 5805 then 124 else 125)),
                  (freq - 5000) / 5))
    else if (5000 <=? freq) && (freq <=? 5700) then
      if negb ((freq - 5000) mod 5 =? 0) then no_channel
      else (HOSTAPD_MODE_IEEE80211A, Some (by_vht vht_opclass (by_sec sec_channel 122 123 121), (freq - 5000) / 5))
    else if (5000 <=? freq) && (freq <? 5900) then
      if negb ((freq - 5000) mod 5 =? 0) then no_channel
      else (HOSTAPD_MODE_IEEE80211A, Some (0, (freq - 5000) / 5))
    else if (56160 + 2160 * 1 <=? freq) && (freq <=? 56160 + 2160 * 4) then
      if negb (sec_channel =? 0) || negb (vht =? 0) then no_channel
      else (HOSTAPD_MODE_IEEE80211AD, Some (180, (freq - 56160) / 2160))
    else no_channel.

(** The [int] becomes an [unsigned int]. *)
Definition ieee80211_freq_to_chan (freq : Z) : hostapd_hw_mode * option Z :=
  let '(mode, r) := ieee80211_freq_to_channel_ext (u32 freq) 0 VHT_CHANWIDTH_USE_HT in (mode, snd <$> r).

Definition ieee80211_is_dfs (freq : Z) : bool :=
  ((5260 <=? freq) && (freq <=? 5320)) || ((5500 <=? freq) && (freq <=? 5700)).

Inductive phy_type : Type :=
  | PHY_TYPE_UNSPECIFIED | PHY_TYPE_FHSS | PHY_TYPE_DSSS | PHY_TYPE_IRBASEBAND | PHY_TYPE_OFDM | PHY_TYPE_HRDSSS
  | PHY_TYPE_ERP | PHY_TYPE_HT | PHY_TYPE_DMG | PHY_TYPE_VHT.

Definition ieee80211_phy_type_by_freq (freq : Z) : phy_type :=
  match (ieee80211_freq_to_chan freq).1 with
  | HOSTAPD_MODE_IEEE80211A => PHY_TYPE_OFDM
  | HOSTAPD_MODE_IEEE80211B => PHY_TYPE_HRDSSS
  | HOSTAPD_MODE_IEEE80211G => PHY_TYPE_ERP
  | HOSTAPD_MODE_IEEE80211AD => PHY_TYPE_DMG
  | _ => PHY_TYPE_UNSPECIFIED
  end.

Definition ieee80211_get_phy_type (freq ht vht : Z) : phy_type :=
  if negb (vht =? 0) then PHY_TYPE_VHT
  else if negb (ht =? 0) then PHY_TYPE_HT
  else ieee80211_phy_type_by_freq freq.

(** ** From a channel *)

Definition us_op_class_cc : list str := map lit ["US"; "CA"]%string.
Definition eu_op_class_cc : list str := map lit
  ["AL"; "AM"; "AT"; "AZ"; "BA"; "BE"; "BG"; "BY"; "CH"; "CY"; "CZ"; "DE";
   "DK"; "EE"; "EL"; "ES"; "FI"; "FR"; "GE"; "HR"; "HU"; "IE"; "IS"; "IT";
   "LI"; "LT"; "LU"; "LV"; "MD"; "ME"; "MK"; "MT"; "NL"; "NO"; "PL"; "PT";
   "RO"; "RS"; "RU"; "SE"; "SI"; "SK"; "TR"; "UA"; "UK"]%string.
Definition jp_op_class_cc : list str := map lit ["JP"]%string.
Definition cn_op_class_cc : list str := map lit ["CN"]%string.

(** The first two letters; the NUL behind a shorter text differs from any. *)
Definition country_match (cc : list str) (country : option str) : bool :=
  match country with
  | None => false
  | Some c => existsb (λ x, (nth 0 x NUL =? nth 0 c NUL) && (nth 1 x NUL =? nth 1 c NUL)) cc
  end.

(** A group of cases that share a range of channels. *)
Definition channels (lo hi chan freq : Z) : Z := if (chan <? lo) || (hi <? chan) then -1 else freq.

Definition is_class (op_class : Z) (classes : list Z) : bool := existsb (Z.eqb op_class) classes.

Definition ieee80211_chan_to_freq_us (op_class chan : Z) : Z :=
  if is_class op_class [12; 32; 33] then channels 1 11 chan (2407 + 5 * chan)
  else if is_class op_class [1; 2; 22; 23; 27; 28] then channels 36 64 chan (5000 + 5 * chan)
  else if is_class op_class [4; 24] then channels 100 144 chan (5000 + 5 * chan)
  else if is_class op_class [3; 25; 26; 30; 31] then channels 149 161 chan (5000 + 5 * chan)
  else if is_class op_class [5] then channels 149 165 chan (5000 + 5 * chan)
  else if is_class op_class [34] then channels 1 3 chan (56160 + 2160 * chan)
  else -1.

Definition ieee80211_chan_to_freq_eu (op_class chan : Z) : Z :=
  if is_class op_class [4; 11; 12] then channels 1 13 chan (2407 + 5 * chan)
  else if is_class op_class [1; 2; 5; 6; 8; 9] then channels 36 64 chan (5000 + 5 * chan)
  else if is_class op_class [3; 7; 10; 16] then channels 100 140 chan (5000 + 5 * chan)
  else if is_class op_class [17] then channels 149 169 chan (5000 + 5 * chan)
  else if is_class op_class [18] then channels 1 4 chan (56160 + 2160 * chan)
  else -1.

Definition ieee80211_chan_to_freq_jp (op_class chan : Z) : Z :=
  if is_class op_class [30; 56; 57] then channels 1 13 chan (2407 + 5 * chan)
  else if is_class op_class [31] then channels 14 14 chan (2414 + 5 * chan)
  else if is_class op_class [1; 32; 33; 36; 37; 38; 41; 42; 43] then channels 34 64 chan (5000 + 5 * chan)
  else if is_class op_class [34; 35; 39; 40; 44; 45; 58] then channels 100 140 chan (5000 + 5 * chan)
  else if is_class op_class [59] then channels 1 3 chan (56160 + 2160 * chan)
  else -1.

Definition ieee80211_chan_to_freq_cn (op_class chan : Z) : Z :=
  if is_class op_class [7; 8; 9] then channels 1 13 chan (2407 + 5 * chan)
  else if is_class op_class [1; 2; 4; 5] then channels 36 64 chan (5000 + 5 * chan)
  else if is_class op_class [3; 6] then channels 149 165 chan (5000 + 5 * chan)
  else -1.

Definition ieee80211_chan_to_freq_global (op_class chan : Z) : Z :=
  if is_class op_class [81] then channels 1 13 chan (2407 + 5 * chan)
  else if is_class op_class [82] then channels 14 14 chan (2414 + 5 * chan)
  else if is_class op_class [83; 84] then channels 1 13 chan (2407 + 5 * chan)
  else if is_class op_class [115; 116; 117; 118; 119; 120] then channels 36 64 chan (5000 + 5 * chan)
  else if is_class op_class [121; 122; 123] then channels 100 140 chan (5000 + 5 * chan)
  else if is_class op_class [124; 126; 127] then channels 149 161 chan (5000 + 5 * chan)
  else if is_class op_class [125] then channels 149 169 chan (5000 + 5 * chan)
  else if is_class op_class [128; 130] then channels 36 161 chan (5000 + 5 * chan)
  else if is_class op_class [129] then channels 50 114 chan (5000 + 5 * chan)
  else if is_class op_class [180] then channels 1 4 chan (56160 + 2160 * chan)
  else -1.

(** The table of a country, if it knows the channel, and then the others. *)
Definition or_else (freq other : Z) : Z := if 0 <? freq then freq else other.

Definition ieee80211_chan_to_freq (country : option str) (op_class chan : Z) : Z :=
  let try cc table other := if country_match cc country then or_else (table op_class chan) other else other in
  try us_op_class_cc ieee80211_chan_to_freq_us
    (try eu_op_class_cc ieee80211_chan_to_freq_eu
      (try jp_op_class_cc ieee80211_chan_to_freq_jp
        (try cn_op_class_cc ieee80211_chan_to_freq_cn
          (ieee80211_chan_to_freq_global op_class chan)))).

(** ** There and back *)

(** The frequency of the channel in some band. *)
Definition in_band (chan freq : Z) : Prop :=
  (1 ≤ chan ≤ 13 ∧ freq = 2407 + 5 * chan) ∨ (chan = 14 ∧ freq = 2484) ∨
  (34 ≤ chan ≤ 169 ∧ freq = 5000 + 5 * chan) ∨ (1 ≤ chan ≤ 4 ∧ freq = 56160 + 2160 * chan).

Ltac table_band := repeat (case_if; [unfold channels, in_band; case_if; zbool; lia|]); by left.

Lemma us_band op chan : let f := ieee80211_chan_to_freq_us op chan in f = -1 ∨ in_band chan f.
Proof. cbv zeta. unfold ieee80211_chan_to_freq_us. table_band. Qed.
Lemma eu_band op chan : let f := ieee80211_chan_to_freq_eu op chan in f = -1 ∨ in_band chan f.
Proof. cbv zeta. unfold ieee80211_chan_to_freq_eu. table_band. Qed.
Lemma jp_band op chan : let f := ieee80211_chan_to_freq_jp op chan in f = -1 ∨ in_band chan f.
Proof. cbv zeta. unfold ieee80211_chan_to_freq_jp. table_band. Qed.
Lemma cn_band op chan : let f := ieee80211_chan_to_freq_cn op chan in f = -1 ∨ in_band chan f.
Proof. cbv zeta. unfold ieee80211_chan_to_freq_cn. table_band. Qed.
Lemma global_band op chan : let f := ieee80211_chan_to_freq_global op chan in f = -1 ∨ in_band chan f.
Proof. cbv zeta. unfold ieee80211_chan_to_freq_global. table_band. Qed.

Lemma chan_to_freq_band country op chan : let f := ieee80211_chan_to_freq country op chan in f = -1 ∨ in_band chan f.
Proof.
  cbv zeta. unfold ieee80211_chan_to_freq.
  assert (Ht : ∀ (b : bool) f g, f = -1 ∨ in_band chan f → g = -1 ∨ in_band chan g →
            (if b then or_else f g else g) = -1 ∨ in_band chan (if b then or_else f g else g)).
  { intros b f g Hf Hg. destruct b; [|done]. unfold or_else. by case_if. }
  repeat apply Ht; [apply us_band|apply eu_band|apply jp_band|apply cn_band|apply global_band].
Qed.

(** The mode of a frequency. *)
Definition band_mode (freq : Z) : hostapd_hw_mode :=
  if freq <=? 2472 then HOSTAPD_MODE_IEEE80211G else if freq <=? 2484 then HOSTAPD_MODE_IEEE80211B
  else if freq <? 5900 then HOSTAPD_MODE_IEEE80211A else HOSTAPD_MODE_IEEE80211AD.

Definition back_at (base step : Z) (l : list Z) : bool :=
  forallb (λ c, bool_decide (ieee80211_freq_to_chan (base + step * c) = (band_mode (base + step * c), Some c))) l.

Lemma back_range base step lo n c : back_at base step (seqZ lo n) = true → lo ≤ c < lo + n →
  ieee80211_freq_to_chan (base + step * c) = (band_mode (base + step * c), Some c).
Proof.
  unfold back_at. rewrite forallb_forall. intros H Hc. apply (bool_decide_eq_true _), H.
  apply list_elem_of_In, elem_of_seqZ. lia.
Qed.

(** Channels survive the way through frequencies: whatever the country and the
    operating class, where a channel has a frequency, the channel of that
    frequency is the same, and the mode is that of its band. *)
Theorem channel_roundtrip country op_class chan freq :
  ieee80211_chan_to_freq country op_class chan = freq → freq ≠ -1 →
  ieee80211_freq_to_chan freq = (band_mode freq, Some chan).
Proof.
  intros Hf Hne. destruct (chan_to_freq_band country op_class chan) as [H|H]; rewrite Hf in H; [done|].
  destruct H as [[Hc ->]|[[-> ->]|[[Hc ->]|[Hc ->]]]].
  - apply (back_range 2407 5 1 13); [by vm_compute|lia].
  - done.
  - apply (back_range 5000 5 34 136); [by vm_compute|lia].
  - apply (back_range 56160 2160 1 4); [by vm_compute|lia].
Qed.

Lemma channel_roundtrip_witness : ieee80211_freq_to_chan 5220 = (HOSTAPD_MODE_IEEE80211A, Some 44).
Proof. apply (channel_roundtrip (Some (lit "DE")) 5 44 5220); [by vm_compute|done]. Defined.

(** What the class and the channel that are found for a frequency stand for. *)
Definition class_freq (freq op_class chan : Z) : Z :=
  if (op_class =? 0) || ((op_class =? 121) && (freq <? 5500)) then -1
  else if op_class =? 180 then 56160 + 2160 * chan else freq.

Lemma mod_back x m : 0 < m → negb (x mod m =? 0) = false → m * (x / m) = x.
Proof. intros Hm H. apply negb_false_iff, Z.eqb_eq in H. pose proof (Z.div_mod x m). lia. Qed.

Ltac class_case lo hi :=
  match goal with
  | H : negb ((?f - ?b) mod 5 =? 0) = false |- _ =>
      apply mod_back in H; [|lia]; set (c := (f - b) / 5) in *;
      assert (Hc : lo ≤ c ≤ hi) by lia; unfold channels, class_freq;
      rewrite (proj2 (Z.ltb_ge c lo)), (proj2 (Z.ltb_ge hi c)) by lia
  end.

(** The way back: for 20 MHz channels the frequency is found again, but for
    classes that are not known, for the frequencies between 5000 and 5500 MHz that are
    put into the class of the channels from 100 to 140, and in the band of
    60 GHz, where what is between two channels is taken for the lower
    one. *)
Theorem frequency_back freq mode op_class chan :
  ieee80211_freq_to_channel_ext freq 0 VHT_CHANWIDTH_USE_HT = (mode, Some (op_class, chan)) →
  ieee80211_chan_to_freq None op_class chan = class_freq freq op_class chan ∧
  (op_class = 180 → 0 ≤ freq - (56160 + 2160 * chan) < 2160).
Proof.
  unfold ieee80211_freq_to_channel_ext. cbn [Z.ltb orb negb Z.eqb by_sec by_vht].
  change (1 <? 0) with false. change (0 <? -1) with false. cbn [orb].
  case_if. { case_if; [done|]. intros [= <- <- <-]. split; [|done]. zbool.
    change (ieee80211_chan_to_freq None 81 ?c) with (channels 1 13 c (2407 + 5 * c)). class_case 1 13. cbn. lia. }
  case_if. { intros [= <- <- <-]. zbool. subst. by split. }
  case_if. { case_if; [done|]. by intros [= <- <- <-]. }
  case_if. { case_if; [done|]. intros [= <- <- <-]. split; [|done]. zbool. change (by_vht 0 ?x) with x.
    change (ieee80211_chan_to_freq None 115 ?c) with (channels 36 64 c (5000 + 5 * c)). class_case 36 64. cbn. lia. }
  case_if. { case_if; [done|]. intros [= <- <- <-]. split; [|by case_if]. zbool. change (by_vht 0 ?x) with x.
    case_if; zbool.
    - change (ieee80211_chan_to_freq None 124 ?c) with (channels 149 161 c (5000 + 5 * c)). class_case 149 161. cbn. lia.
    - change (ieee80211_chan_to_freq None 125 ?c) with (channels 149 169 c (5000 + 5 * c)). class_case 149 169. cbn. lia. }
  case_if. { case_if; [done|]. intros [= <- <- <-]. split; [|done]. zbool. change (by_vht 0 ?x) with x.
    change (ieee80211_chan_to_freq None 121 ?c) with (channels 100 140 c (5000 + 5 * c)).
    destruct (freq <? 5500) eqn:Ef; zbool.
    - unfold class_freq. rewrite (proj2 (Z.ltb_lt _ 5500)) by done. cbn. apply mod_back in E4; [|lia].
      unfold channels. by rewrite (proj2 (Z.ltb_lt _ 100)) by lia.
    - class_case 100 140. rewrite (proj2 (Z.ltb_ge _ 5500)) by lia. cbn. lia. }
  case_if. { case_if; [done|]. by intros [= <- <- <-]. }
  case_if; [|done]. intros [= <- <- <-]. zbool.
  pose proof (Z.div_mod (freq - 56160) 2160) as Hd. pose proof (Z.mod_pos_bound (freq - 56160) 2160).
  set (c := (freq - 56160) / 2160) in *. assert (Hc : 1 ≤ c ≤ 4) by lia. split; [|lia].
  change (ieee80211_chan_to_freq None 180 c) with (channels 1 4 c (56160 + 2160 * c)).
  unfold channels. by rewrite (proj2 (Z.ltb_ge c 1)), (proj2 (Z.ltb_ge 4 c)) by lia.
Qed.

Lemma frequency_back_witness :
  ieee80211_chan_to_freq None 115 36 = class_freq 5180 115 36 ∧ (115 = 180 → 0 ≤ 5180 - (56160 + 2160 * 36) < 2160).
Proof. by apply (frequency_back 5180 HOSTAPD_MODE_IEEE80211A 115 36). Defined.

(** The class of the channels from 100 on is answered for a channel that it does
    not have. *)
Example class_of_channel_52 :
  ieee80211_freq_to_channel_ext 5260 0 0 = (HOSTAPD_MODE_IEEE80211A, Some (121, 52)) ∧
  ieee80211_chan_to_freq None 121 52 = -1.
Proof. by vm_compute. Qed.

(** A frequency between two channels of 60 GHz is taken for the lower one. *)
Example between_channels : ieee80211_freq_to_chan 60000 = (HOSTAPD_MODE_IEEE80211AD, Some 1).
Proof. by vm_compute. Qed.
