(* ===== verification/ScanSort.v ===== *)
(** * What is done to the results of a scan (wpa_supplicant/scan.c)

    The results that a driver delivers are filtered, given a signal-to-noise
    ratio and an estimate of the throughput, ordered and entered into the table
    of BSS entries.  A build without CONFIG_WPS, as that of the repository.

    The results are objects in a heap of their own; the array that is sorted
    holds pointers to them.  [qsort] is that of the C library, which promises
    nothing for a comparison that is not an order.

    The theorems: the estimate of the throughput ends on any elements, stays
    below 391 Mb/s and does not fall when the signal gets better.  The
    comparison of two results ends, and orders by security first; that it is no
    order in general is shown by [comparison_cycle].  Where it is one, [qsort]
    puts the results in that order and all of them go through the table. *)

From stdpp Require Import gmap sorting.
From S2P Require Import Prelude CString Common WpaIe WpaSpec Bss SmartlistOrder BssTable BssTableSpec SelectFits.
From S2P Require CtrlScan.

Definition WPA_SCAN_NOISE_INVALID : Z := BIT 1.
Definition WPA_SCAN_LEVEL_DBM : Z := BIT 3.
Definition WLAN_EID_HT_CAP : Z := 45.
Definition WLAN_EID_HT_OPERATION : Z := 61.
Definition WLAN_EID_VHT_CAP : Z := 191.
Definition WLAN_EID_VHT_OPERATION : Z := 192.
Definition HT_INFO_HT_PARAM_SECONDARY_CHNL_OFF_MASK : Z := Z.lor (BIT 0) (BIT 1).
Definition VHT_OPMODE_CHANNEL_WIDTH_MASK : Z := Z.lor (BIT 0) (BIT 1).

Inductive local_hw_capab : Type := CAPAB_NO_HT_VHT | CAPAB_HT | CAPAB_HT40 | CAPAB_VHT.

#[export] Instance local_hw_capab_eq_dec : EqDecision local_hw_capab.
Proof. solve_decision. Defined.

(** [res], [num] and the objects the array points to. *)
Record wpa_scan_results : Type := ScanResults {
  sr_heap : gmap Z wpa_scan_res;
  sr_res : list Z;
  sr_fetch_time : Z * Z
}.

Definition res_at (h : gmap Z wpa_scan_res) (p : Z) : outcome wpa_scan_res := need "freed scan result" (h !! p).

(** ** The order of the results *)

Definition GREAT_SNR : Z := 30.
Definition IS_5GHZ (n : Z) : bool := 4000 <? n.

(** An [unsigned int] that becomes an [int]. *)
Definition to_int (x : Z) : Z := u32 (x + 2147483648) - 2147483648.

(** [x && y && abs(y - x) < limit]. *)
Definition close_by (x y limit : Z) : outcome bool :=
  if (x =? 0) || (y =? 0) then Ret false
  else d ← int_chk (y - x); d ← int_chk (Z.abs d); Ret (d <? limit).

Definition uses_wpa (r : wpa_scan_res) : outcome bool :=
  v ← wpa_scan_get_vendor_ie r WPA_IE_VENDOR_TYPE;
  if CtrlScan.found v then Ret true else x ← wpa_scan_get_ie r WLAN_EID_RSN; Ret (CtrlScan.found x).

Definition privacy (r : wpa_scan_res) : bool := negb (Z.land (res_caps r) IEEE80211_CAP_PRIVACY =? 0).

Definition wpa_scan_result_compar (wa wb : wpa_scan_res) : outcome Z :=
  wpa_a ← uses_wpa wa; wpa_b ← uses_wpa wb;
  if wpa_b && negb wpa_a then Ret 1
  else if negb wpa_b && wpa_a then Ret (-1)
  else if negb (privacy wa) && privacy wb then Ret 1
  else if privacy wa && negb (privacy wb) then Ret (-1)
  else
    let dbm := negb (Z.land (Z.land (res_flags wa) (res_flags wb)) WPA_SCAN_LEVEL_DBM =? 0) in
    let snr_a_full := if dbm then res_snr wa else res_level wa in
    let snr_b_full := if dbm then res_snr wb else res_level wb in
    let snr_a := if dbm && negb (snr_a_full <? GREAT_SNR) then GREAT_SNR else snr_a_full in
    let snr_b := if dbm && negb (snr_b_full <? GREAT_SNR) then GREAT_SNR else snr_b_full in
    close ← close_by snr_a snr_b 5;
    close ← (if (close : bool) then Ret true else close_by (res_qual wa) (res_qual wb) 10);
    if close && negb (res_est_throughput wa =? res_est_throughput wb) then
      Ret (to_int (res_est_throughput wb - res_est_throughput wa))
    else if close && xorb (IS_5GHZ (res_freq wa)) (IS_5GHZ (res_freq wb)) then
      Ret (if IS_5GHZ (res_freq wa) then -1 else 1)
    else if snr_b_full =? snr_a_full then int_chk (res_qual wb - res_qual wa)
    else int_chk (snr_b_full - snr_a_full).

(** On the pointers of the array. *)
Definition compar_at (h : gmap Z wpa_scan_res) (a b : Z) : outcome Z :=
  wa ← res_at h a; wb ← res_at h b; wpa_scan_result_compar wa wb.

(** ** Filtering *)

(** The results that pass, and the heap without the others. *)
Fixpoint filter_loop (t : bss_table) (h : gmap Z wpa_scan_res) (l : list Z)
    : outcome (list Z * gmap Z wpa_scan_res) :=
  match l with
  | [] => Ret ([], h)
  | p :: l' =>
      r ← res_at h p;
      if wpa_supplicant_filter_bssid_match t (res_bssid r) then
        '(keep, h) ← filter_loop t h l'; Ret (p :: keep, h)
      else filter_loop t (delete p h) l'
  end.

Definition filter_scan_res (t : bss_table) (res : wpa_scan_results) : outcome wpa_scan_results :=
  match bssid_filter t with
  | None => Ret res
  | Some _ =>
      '(keep, h) ← filter_loop t (sr_heap res) (sr_res res);
      Ret (ScanResults h keep (sr_fetch_time res))
  end.

(** ** Signal and throughput *)

Definition DEFAULT_NOISE_FLOOR_2GHZ : Z := -89.
Definition DEFAULT_NOISE_FLOOR_5GHZ : Z := -92.

Definition with_signal (r : wpa_scan_res) (noise snr est : Z) : wpa_scan_res :=
  ScanRes (res_flags r) (res_bssid r) (res_freq r) (res_beacon_int r) (res_caps r) (res_qual r) noise
    (res_level r) (res_tsf r) (res_age r) est snr (res_ie_len r) (res_beacon_ie_len r) (res_ies r).

Definition scan_snr (r : wpa_scan_res) : outcome wpa_scan_res :=
  let noise := if negb (Z.land (res_flags r) WPA_SCAN_NOISE_INVALID =? 0)
               then if IS_5GHZ (res_freq r) then DEFAULT_NOISE_FLOOR_5GHZ else DEFAULT_NOISE_FLOOR_2GHZ
               else res_noise r in
  snr ← (if negb (Z.land (res_flags r) WPA_SCAN_LEVEL_DBM =? 0) then int_chk (res_level r - noise)
         else Ret (res_level r));
  Ret (with_signal r noise snr (res_est_throughput r)).

Definition max_ht20_rate (snr : Z) : Z :=
  if snr <? 6 then 6500
  else if snr <? 8 then 13000
  else if snr <? 13 then 19500
  else if snr <? 17 then 26000
  else if snr <? 20 then 39000
  else if snr <? 23 then 52000
  else if snr <? 24 then 58500
  else 65000.

Definition max_ht40_rate (snr : Z) : Z :=
  if snr <? 3 then 13500
  else if snr <? 6 then 27000
  else if snr <? 10 then 40500
  else if snr <? 15 then 54000
  else if snr <? 17 then 81000
  else if snr <? 22 then 108000
  else if snr <? 24 then 121500
  else 135000.

Definition max_vht80_rate (snr : Z) : Z :=
  if snr <? 1 then 0
  else if snr <? 2 then 29300
  else if snr <? 5 then 58500
  else if snr <? 9 then 87800
  else if snr <? 11 then 117000
  else if snr <? 15 then 175500
  else if snr <? 16 then 234000
  else if snr <? 18 then 263300
  else if snr <? 20 then 292500
  else if snr <? 22 then 351000
  else 390000.

(** The legacy rate that the signal allows, in units of 500 kb/s. *)
Definition limit_rate (rate snr : Z) : Z :=
  if (2 <? rate) && (snr <? 1) then 2
  else if (4 <? rate) && (snr <? 4) then 4
  else if (12 <? rate) && (snr <? 5) then 12
  else if (18 <? rate) && (snr <? 6) then 18
  else if (24 <? rate) && (snr <? 7) then 24
  else if (36 <? rate) && (snr <? 10) then 36
  else if (48 <? rate) && (snr <? 11) then 48
  else if (72 <? rate) && (snr <? 15) then 72
  else if (96 <? rate) && (snr <? 19) then 96
  else if (108 <? rate) && (snr <? 21) then 108
  else rate.

Definition raise (est tmp : Z) : Z := if est <? tmp then tmp else est.

(** Whether the element is there, has [min] bytes and a bit of the mask in the
    last of those. *)
Definition ie_has (r : wpa_scan_res) (eid min mask : Z) : outcome bool :=
  ie ← wpa_scan_get_ie r eid;
  match ie with
  | Some p =>
      l ← u8_at (res_ies r) (p + 1);
      if min <=? l then x ← u8_at (res_ies r) (p + (1 + min)); Ret (negb (Z.land x mask =? 0)) else Ret false
  | None => Ret false
  end.

Definition ie_present (r : wpa_scan_res) (eid : Z) : outcome bool :=
  ie ← wpa_scan_get_ie r eid; Ret (CtrlScan.found ie).

Definition is_ht40 (r : wpa_scan_res) : outcome bool :=
  ie_has r WLAN_EID_HT_OPERATION 2 HT_INFO_HT_PARAM_SECONDARY_CHNL_OFF_MASK.
Definition is_vht80 (r : wpa_scan_res) : outcome bool :=
  ie_has r WLAN_EID_VHT_OPERATION 1 VHT_OPMODE_CHANNEL_WIDTH_MASK.

(** [if (test) est = max(est, tmp)]. *)
Definition raise_if (use : bool) (test : outcome bool) (tmp est : Z) : outcome Z :=
  if use then b ← test; Ret (if (b : bool) then raise est tmp else est) else Ret est.

Definition scan_est_throughput (capab : local_hw_capab) (r : wpa_scan_res) : outcome wpa_scan_res :=
  let snr := res_snr r in
  if negb (res_est_throughput r =? 0) then Ret r
  else
    rate ← wpa_scan_get_max_rate r;
    est ← int_chk (limit_rate rate snr * 500);
    est ← raise_if (bool_decide (capab ≠ CAPAB_NO_HT_VHT)) (ie_present r WLAN_EID_HT_CAP) (max_ht20_rate snr) est;
    est ← raise_if (bool_decide (capab = CAPAB_HT40 ∨ capab = CAPAB_VHT)) (is_ht40 r) (max_ht40_rate snr) est;
    vht ← (if bool_decide (capab = CAPAB_VHT) then ie_present r WLAN_EID_VHT_CAP else Ret false);
    est ← (if (vht : bool) then
             let est := raise est (max_ht20_rate snr + 1) in
             est ← raise_if true (is_ht40 r) (max_ht40_rate snr + 1) est;
             raise_if true (is_vht80 r) (max_vht80_rate snr + 1) est
           else Ret est);
    Ret (with_signal r (res_noise r) snr est).

(** The loop over the results. *)
Fixpoint score_loop (capab : local_hw_capab) (h : gmap Z wpa_scan_res) (l : list Z)
    : outcome (gmap Z wpa_scan_res) :=
  match l with
  | [] => Ret h
  | p :: l' =>
      r ← res_at h p;
      r ← scan_snr r;
      r ← scan_est_throughput capab r;
      score_loop capab (<[p := r]> h) l'
  end.

(** ** The results of a scan *)

Section results.
Context `{Qsort} (CONFIG_P2P : bool) (malloc_ok : Z → bool) (capab : local_hw_capab).

(** [answer] is what the allocator does when a result is entered into a table. *)
Context (answer : bss_table → wpa_scan_res → oracle).

Fixpoint enter_loop (h : gmap Z wpa_scan_res) (fetch : Z * Z) (t : bss_table) (l : list Z) : outcome bss_table :=
  match l with
  | [] => Ret t
  | p :: l' =>
      r ← res_at h p;
      t ← wpa_bss_update_scan_res CONFIG_P2P malloc_ok t r fetch (answer t r);
      enter_loop h fetch t l'
  end.

(** [drv] is what the driver delivers; [now] and [end_now] are the times the
    clock shows when it is asked. *)
Definition wpa_supplicant_get_scan_results (t : bss_table) (drv : option wpa_scan_results)
    (info : option scan_info) (new_scan : bool) (now end_now : Z * Z)
    : outcome (option wpa_scan_results * bss_table) :=
  match drv with
  | None => Ret (None, t)
  | Some res =>
      let res := if res.(sr_fetch_time).1 =? 0 then ScanResults (sr_heap res) (sr_res res) now else res in
      res ← filter_scan_res t res;
      h ← score_loop capab (sr_heap res) (sr_res res);
      l ← qsort (compar_at h) (sr_res res);
      let t := wpa_bss_update_start t in
      t ← enter_loop h (sr_fetch_time res) t l;
      t ← wpa_bss_update_end t info new_scan end_now;
      Ret (Some (ScanResults h l (sr_fetch_time res)), t)
  end.

(** [os_free] of every result. *)
Fixpoint free_loop (h : gmap Z wpa_scan_res) (l : list Z) : outcome (gmap Z wpa_scan_res) :=
  match l with
  | [] => Ret h
  | p :: l' => _ ← res_at h p; free_loop (delete p h) l'
  end.

(** Results behind a pointer, and whether the structure and its array are still
    allocated. *)
Record scan_mem : Type := ScanMem { sm_res : wpa_scan_results; sm_live : bool }.

Definition results_of (m : scan_mem) : outcome wpa_scan_results :=
  if sm_live m then Ret (sm_res m) else UB "freed scan results".

(** What is left of the memory; NULL is [None]. *)
Definition wpa_scan_results_free (res : option scan_mem) : outcome (option scan_mem) :=
  match res with
  | None => Ret None
  | Some m =>
      res ← results_of m;
      h ← free_loop (sr_heap res) (sr_res res);
      Ret (Some (ScanMem (ScanResults h (sr_res res) (sr_fetch_time res)) false))
  end.

Definition wpa_supplicant_update_scan_results (t : bss_table) (drv : option wpa_scan_results)
    (now end_now : Z * Z) : outcome (Z * bss_table * option scan_mem) :=
  '(res, t) ← wpa_supplicant_get_scan_results t drv None false now end_now;
  match res with
  | None => Ret (-1, t, None)
  | Some res => mem ← wpa_scan_results_free (Some (ScanMem res true)); Ret (0, t, mem)
  end.
End results.

(** ** The estimate *)

(** The elements of a result are those of an entry that holds them. *)
Definition as_bss (r : wpa_scan_res) : wpa_bss :=
  Bss 0 0 0 0 (res_bssid r) [] 0 0 0 0 0 0 0 (0, 0) 0 0 (res_ie_len r) (res_beacon_ie_len r) (res_ies r).

Lemma as_bss_ok r : res_ok r → bss_ok (as_bss r).
Proof. intros []. split; try done. split; [by vm_compute|constructor]. Qed.

Lemma ie_has_ends r eid min mask : res_ok r → 1 ≤ min → ∃ b, ie_has r eid min mask = Ret b.
Proof.
  intros Hr Hmin. destruct (get_ie_found (as_bss r) eid (as_bss_ok r Hr)) as (ie & E & Hi).
  change (wpa_bss_get_ie (as_bss r) eid) with (wpa_scan_get_ie r eid) in E.
  unfold ie_has. rewrite E. ret_simpl. destruct ie as [p|]; [|by eexists].
  destruct (Hi p eq_refl) as (l & Hl & H0 & Hp & Hle). cbn in *. rewrite Hl. ret_simpl.
  case_if; [|by eexists]. zbool. destruct Hr as [_ Hlen _].
  destruct (u8_at_Ret (res_ies r) (p + (1 + min))) as (x & -> & _); [unfold strlen in *; lia|]. by eexists.
Qed.

Lemma ie_present_ends r eid : res_ok r → ∃ b, ie_present r eid = Ret b.
Proof. intros Hr. unfold ie_present. rewrite scan_get_ie by done. by eexists. Qed.

Lemma uses_wpa_ends r : res_ok r → ∃ b, uses_wpa r = Ret b.
Proof.
  intros Hr. unfold uses_wpa. rewrite scan_get_vendor_ie by done. ret_simpl.
  case_if; [by eexists|]. rewrite scan_get_ie by done. by eexists.
Qed.

Lemma max_rate_range r : res_ok r → ∃ rate, wpa_scan_get_max_rate r = Ret rate ∧ 0 ≤ rate ≤ 127.
Proof.
  intros Hr. change (wpa_scan_get_max_rate r) with (wpa_bss_get_max_rate (as_bss r)).
  rewrite max_rate_spec by (by apply as_bss_ok). eexists. split; [done|].
  assert (Hm : ∀ l a, 0 ≤ a ≤ 127 → Forall (λ x, 0 ≤ x ≤ 127) l → 0 ≤ foldl Z.max a l ≤ 127).
  { intros l. induction l as [|x l IH]; intros a Ha Hl; [done|].
    apply Forall_cons in Hl as [Hx Hl]. cbn [foldl]. apply IH; [lia|done]. }
  assert (He : ∀ eid, Forall (λ x, 0 ≤ x ≤ 127) (elem_rates eid (as_bss r))).
  { intros eid. unfold elem_rates. destruct (filter _ _) as [|e es]; [constructor|].
    unfold rates_of. apply Forall_fmap, Forall_forall. intros x _. cbn.
    change 127 with (Z.ones 7) at 1 2. rewrite (Z.land_ones x 7) by lia. change (Z.ones 7) with 127. pose proof (Z.mod_pos_bound x (2 ^ 7)). lia. }
  apply Hm; [lia|]. apply Forall_app. by split.
Qed.

(** The estimate for what the elements say. *)
Definition est_of (capab : local_hw_capab) (rate : Z) (ht ht40 vht vht80 : bool) (snr : Z) : Z :=
  let up (b : bool) tmp est := if b then raise est tmp else est in
  let est := limit_rate rate snr * 500 in
  let est := up (bool_decide (capab ≠ CAPAB_NO_HT_VHT) && ht) (max_ht20_rate snr) est in
  let est := up (bool_decide (capab = CAPAB_HT40 ∨ capab = CAPAB_VHT) && ht40) (max_ht40_rate snr) est in
  let est := up (bool_decide (capab = CAPAB_VHT) && vht) (max_ht20_rate snr + 1) est in
  let est := up (bool_decide (capab = CAPAB_VHT) && vht && ht40) (max_ht40_rate snr + 1) est in
  up (bool_decide (capab = CAPAB_VHT) && vht && vht80) (max_vht80_rate snr + 1) est.

Ltac steps := repeat match goal with |- context [if ?b then _ else _] => destruct b eqn:? end.

Lemma limit_rate_range rate snr : 0 ≤ rate ≤ 127 → 0 ≤ limit_rate rate snr ≤ rate.
Proof. intros Hr. unfold limit_rate. steps; zbool; lia. Qed.

Lemma raise_if_spec use b tmp est :
  raise_if use (Ret b) tmp est = Ret (if use && b then raise est tmp else est).
Proof. by destruct use, b. Qed.

Lemma est_spec capab r : res_ok r →
  ∃ rate ht ht40 vht vht80, 0 ≤ rate ≤ 127 ∧
    ∀ noise snr, scan_est_throughput capab (with_signal r noise snr 0) =
      Ret (with_signal r noise snr (est_of capab rate ht ht40 vht vht80 snr)).
Proof.
  intros Hr. destruct (max_rate_range r Hr) as (rate & E1 & Hrate).
  destruct (ie_present_ends r WLAN_EID_HT_CAP Hr) as [ht E2].
  destruct (ie_has_ends r WLAN_EID_HT_OPERATION 2 HT_INFO_HT_PARAM_SECONDARY_CHNL_OFF_MASK Hr) as [ht40 E3]; [lia|].
  destruct (ie_present_ends r WLAN_EID_VHT_CAP Hr) as [vht E4].
  destruct (ie_has_ends r WLAN_EID_VHT_OPERATION 1 VHT_OPMODE_CHANNEL_WIDTH_MASK Hr) as [vht80 E5]; [lia|].
  exists rate, ht, ht40, vht, vht80. split; [done|]. intros noise snr. unfold scan_est_throughput. cbn [res_est_throughput with_signal Z.eqb negb].
  change (wpa_scan_get_max_rate (with_signal r noise snr 0)) with (wpa_scan_get_max_rate r).
  change (ie_present (with_signal r noise snr 0) WLAN_EID_HT_CAP) with (ie_present r WLAN_EID_HT_CAP).
  change (ie_present (with_signal r noise snr 0) WLAN_EID_VHT_CAP) with (ie_present r WLAN_EID_VHT_CAP).
  change (is_ht40 (with_signal r noise snr 0)) with (is_ht40 r).
  change (is_vht80 (with_signal r noise snr 0)) with (is_vht80 r).
  unfold is_ht40, is_vht80. rewrite E1, E2, E3, E4, E5. cbn [res_snr with_signal]. ret_simpl.
  pose proof (limit_rate_range rate snr Hrate) as Hl.
  rewrite (proj2 (int_chk_Ret (limit_rate rate snr * 500) _)) by (split; [done|unfold INT_MAX, INT_MIN; lia]).
  ret_simpl. rewrite !raise_if_spec. ret_simpl. rewrite !raise_if_spec. ret_simpl. unfold est_of.
  destruct (bool_decide (capab = CAPAB_VHT)), vht; cbn [andb]; ret_simpl; try done.
Qed.

Lemma ht20_grows s s' : s ≤ s' → 0 ≤ max_ht20_rate s ≤ max_ht20_rate s' ∧ max_ht20_rate s' ≤ 65000.
Proof. intros Hs. unfold max_ht20_rate. steps; zbool; lia. Qed.
Lemma ht40_grows s s' : s ≤ s' → 0 ≤ max_ht40_rate s ≤ max_ht40_rate s' ∧ max_ht40_rate s' ≤ 135000.
Proof. intros Hs. unfold max_ht40_rate. steps; zbool; lia. Qed.
Lemma vht80_grows s s' : s ≤ s' → 0 ≤ max_vht80_rate s ≤ max_vht80_rate s' ∧ max_vht80_rate s' ≤ 390000.
Proof. intros Hs. unfold max_vht80_rate. steps; zbool; lia. Qed.

(** The limits, by rate. *)
Definition rate_limits : list (Z * Z) :=
  [(2, 1); (4, 4); (12, 5); (18, 6); (24, 7); (36, 10); (48, 11); (72, 15); (96, 19); (108, 21)].

Fixpoint chain (rate snr : Z) (ls : list (Z * Z)) : Z :=
  match ls with
  | (l, s) :: ls' => if (l <? rate) && (snr <? s) then l else chain rate snr ls'
  | [] => rate
  end.

Lemma limit_rate_chain rate snr : limit_rate rate snr = chain rate snr rate_limits.
Proof. reflexivity. Qed.

Lemma chain_least rate snr m ls : m ≤ rate → Forall (λ '(l, _), m ≤ l) ls → m ≤ chain rate snr ls.
Proof. intros Hm. induction 1 as [|[l s] ls Hl _ IH]; cbn [chain]; [done|]. by case_if. Qed.

Lemma chain_grows rate s s' ls : s ≤ s' → StronglySorted (λ x y, x.1 ≤ y.1) ls →
  chain rate s ls ≤ chain rate s' ls.
Proof.
  intros Hs. induction 1 as [|[l x] ls _ IH Hl]; cbn [chain]; [done|]. destruct (l <? rate) eqn:E; [|done].
  cbn [andb]. destruct (s <? x) eqn:E1, (s' <? x) eqn:E2; zbool; try lia.
  apply chain_least; [lia|]. eapply Forall_impl; [exact Hl|]. by intros [].
Qed.

Lemma limit_rate_grows rate s s' : s ≤ s' → limit_rate rate s ≤ limit_rate rate s'.
Proof. intros Hs. rewrite !limit_rate_chain. apply chain_grows; [done|]. repeat constructor; cbn; lia. Qed.

Lemma raise_grows b tmp tmp' est est' (lim : Z) :
  0 ≤ est ≤ est' ∧ est' ≤ lim → tmp ≤ tmp' ≤ lim →
  0 ≤ (if (b : bool) then raise est tmp else est) ≤ (if b then raise est' tmp' else est') ∧
  (if b then raise est' tmp' else est') ≤ lim.
Proof. unfold raise. intros [? ?] ?. destruct b; [|lia]. repeat case_if; zbool; lia. Qed.

Lemma est_of_grows capab rate ht ht40 vht vht80 s s' : 0 ≤ rate ≤ 127 → s ≤ s' →
  0 ≤ est_of capab rate ht ht40 vht vht80 s ≤ est_of capab rate ht ht40 vht vht80 s' ∧
  est_of capab rate ht ht40 vht vht80 s' ≤ 390001.
Proof.
  intros Hr Hs. pose proof (ht20_grows s s' Hs). pose proof (ht40_grows s s' Hs). pose proof (vht80_grows s s' Hs).
  pose proof (limit_rate_grows rate s s' Hs). pose proof (limit_rate_range rate s Hr).
  pose proof (limit_rate_range rate s' Hr). unfold est_of. repeat apply raise_grows; lia.
Qed.

(** For any elements and any local capability the estimate ends; it is at most
    390001 kb/s, and a better signal never makes it worse. *)
Theorem throughput_grows capab r noise noise' snr snr' : res_ok r → snr ≤ snr' →
  ∃ est est', scan_est_throughput capab (with_signal r noise snr 0) = Ret (with_signal r noise snr est) ∧
    scan_est_throughput capab (with_signal r noise' snr' 0) = Ret (with_signal r noise' snr' est') ∧
    0 ≤ est ≤ est' ∧ est' ≤ 390001.
Proof.
  intros Hr Hs. destruct (est_spec capab r Hr) as (rate & ht & ht40 & vht & vht80 & Hrate & E).
  do 2 eexists. rewrite !E. do 2 (split; [done|]). by apply est_of_grows.
Qed.

(** ** The comparison *)

Definition wpab (r : wpa_scan_res) : bool := match uses_wpa r with Ret b => b | _ => false end.

Definition closeb (x y limit : Z) : bool := negb (x =? 0) && negb (y =? 0) && (Z.abs (y - x) <? limit).

(** What a driver reports is far from the ends of [int]. *)
Record signal_ok (r : wpa_scan_res) : Prop := SignalOk {
  sg_level : Z.abs (res_level r) ≤ 2 ^ 28;
  sg_noise : Z.abs (res_noise r) ≤ 2 ^ 28;
  sg_qual : Z.abs (res_qual r) ≤ 2 ^ 28;
  sg_est : 0 ≤ res_est_throughput r < 2 ^ 31
}.

Record scored_ok (r : wpa_scan_res) : Prop := ScoredOk {
  sd_res : res_ok r;
  sd_signal : signal_ok r;
  sd_snr : Z.abs (res_snr r) ≤ 2 ^ 29
}.

Definition dbm (a b : wpa_scan_res) : bool :=
  negb (Z.land (Z.land (res_flags a) (res_flags b)) WPA_SCAN_LEVEL_DBM =? 0).
Definition full (d : bool) (r : wpa_scan_res) : Z := if d then res_snr r else res_level r.
Definition capped (d : bool) (r : wpa_scan_res) : Z := if d then Z.min (res_snr r) GREAT_SNR else res_level r.

(** The comparison when security is equal. *)
Definition cmp_signal (a b : wpa_scan_res) : Z :=
  let d := dbm a b in
  let close := closeb (capped d a) (capped d b) 5 || closeb (res_qual a) (res_qual b) 10 in
  if close && negb (res_est_throughput a =? res_est_throughput b)
  then res_est_throughput b - res_est_throughput a
  else if close && xorb (IS_5GHZ (res_freq a)) (IS_5GHZ (res_freq b)) then
    if IS_5GHZ (res_freq a) then -1 else 1
  else if full d b =? full d a then res_qual b - res_qual a else full d b - full d a.

(** WPA or RSN first, then privacy. *)
Definition rank (r : wpa_scan_res) : Z := 2 * b2z (wpab r) + b2z (privacy r).

Definition cmp (a b : wpa_scan_res) : Z :=
  if rank a <? rank b then 1 else if rank b <? rank a then -1 else cmp_signal a b.

Lemma close_by_spec x y limit : Z.abs x ≤ 2 ^ 29 → Z.abs y ≤ 2 ^ 29 → close_by x y limit = Ret (closeb x y limit).
Proof.
  intros Hx Hy. unfold close_by, closeb. destruct (x =? 0), (y =? 0); try done. cbn [orb negb andb].
  rewrite (proj2 (int_chk_Ret (y - x) _)) by (split; [done|unfold INT_MAX, INT_MIN; lia]). ret_simpl.
  by rewrite (proj2 (int_chk_Ret (Z.abs _) _)) by (split; [done|unfold INT_MAX, INT_MIN; lia]).
Qed.

Lemma capped_spec d r : (if d && negb (full d r <? GREAT_SNR) then GREAT_SNR else full d r) = capped d r.
Proof.
  unfold capped, full. destruct d; [|done]. cbn [andb].
  destruct (res_snr r <? GREAT_SNR) eqn:E; zbool; cbn [negb]; unfold GREAT_SNR in *; lia.
Qed.

Lemma capped_range d r : scored_ok r → Z.abs (capped d r) ≤ 2 ^ 29 ∧ Z.abs (full d r) ≤ 2 ^ 29.
Proof. intros [_ [] ?]. unfold capped, full, GREAT_SNR. destruct d; lia. Qed.

Lemma to_int_small x : - 2 ^ 31 ≤ x < 2 ^ 31 → to_int x = x.
Proof. intros H. unfold to_int, u32. rewrite Z.mod_small; lia. Qed.

Lemma signal_spec a b : scored_ok a → scored_ok b →
  (let d := dbm a b in
   let snr_a := if d && negb (full d a <? GREAT_SNR) then GREAT_SNR else full d a in
   let snr_b := if d && negb (full d b <? GREAT_SNR) then GREAT_SNR else full d b in
    close ← close_by snr_a snr_b 5;
    close ← (if (close : bool) then Ret true else close_by (res_qual a) (res_qual b) 10);
    if close && negb (res_est_throughput a =? res_est_throughput b) then
      Ret (to_int (res_est_throughput b - res_est_throughput a))
    else if close && xorb (IS_5GHZ (res_freq a)) (IS_5GHZ (res_freq b)) then
      Ret (if IS_5GHZ (res_freq a) then -1 else 1)
    else if full d b =? full d a then int_chk (res_qual b - res_qual a)
    else int_chk (full d b - full d a)) = Ret (cmp_signal a b).
Proof.
  intros Ha Hb. cbv zeta. rewrite !capped_spec. destruct (capped_range (dbm a b) a Ha) as [Ca Fa].
  destruct (capped_range (dbm a b) b Hb) as [Cb Fb]. destruct Ha as [_ [? ? ? ?] _], Hb as [_ [? ? ? ?] _].
  rewrite (close_by_spec (capped _ a) (capped _ b)) by assumption. ret_simpl. unfold cmp_signal.
  rewrite (close_by_spec (res_qual a) (res_qual b)) by lia.
  set (c1 := closeb _ _ 5). set (c2 := closeb _ _ 10).
  replace (if c1 then Ret true else Ret c2) with (Ret (c1 || c2)) by (by destruct c1). ret_simpl.
  case_if; [by rewrite to_int_small by lia|]. case_if; [done|].
  case_if; by apply int_chk_Ret; (split; [done|unfold INT_MAX, INT_MIN; lia]).
Qed.

Lemma compar_spec a b : scored_ok a → scored_ok b → wpa_scan_result_compar a b = Ret (cmp a b).
Proof.
  intros Ha Hb. unfold wpa_scan_result_compar, cmp, rank, wpab.
  destruct (uses_wpa_ends a) as [wa ->]; [apply Ha|]. destruct (uses_wpa_ends b) as [wb ->]; [apply Hb|]. ret_simpl.
  pose proof (signal_spec a b Ha Hb) as E. cbv zeta in E. unfold full, dbm in E.
  destruct wa, wb, (privacy a), (privacy b); cbn [negb andb b2z Z.mul Z.add Z.ltb Z.compare Pos.mul Pos.add Pos.compare Pos.compare_cont]; try done; exact E.
Qed.

Lemma closeb_sym x y limit : closeb x y limit = closeb y x limit.
Proof. unfold closeb. replace (Z.abs (y - x)) with (Z.abs (x - y)) by lia. by destruct (x =? 0), (y =? 0). Qed.

Lemma cmp_signal_total a b : cmp_signal a b ≤ 0 ∨ cmp_signal b a ≤ 0.
Proof.
  unfold cmp_signal. replace (dbm b a) with (dbm a b) by (unfold dbm; by rewrite (Z.land_comm (res_flags a))).
  rewrite (closeb_sym (capped _ b)), (closeb_sym (res_qual b)), (Z.eqb_sym (res_est_throughput b)).
  rewrite (Z.eqb_sym (full _ a)), (xorb_comm (IS_5GHZ (res_freq b))).
  case_if; [lia|]. case_if; [|case_if; lia].
  destruct (IS_5GHZ (res_freq a)), (IS_5GHZ (res_freq b)); cbn in *; try lia; by rewrite andb_false_r in *.
Qed.

Lemma cmp_total a b : cmp a b ≤ 0 ∨ cmp b a ≤ 0.
Proof.
  unfold cmp. pose proof (cmp_signal_total a b).
  destruct (rank a <? rank b) eqn:E1, (rank b <? rank a) eqn:E2; zbool; lia.
Qed.

Lemma cmp_rank a b : cmp a b ≤ 0 → rank b ≤ rank a.
Proof. unfold cmp. destruct (rank a <? rank b) eqn:E; zbool; [lia|done]. Qed.

(** ** Sorting *)

(** Whether the comparison is transitive on the results. *)
Definition before (a b : wpa_scan_res) : bool :=
  match wpa_scan_result_compar a b with Ret c => c <=? 0 | _ => false end.

Definition consistentb (rs : list wpa_scan_res) : bool :=
  forallb (λ a, forallb (λ b, forallb (λ c, implb (before a b && before b c) (before a c)) rs) rs) rs.

Lemma consistent_spec rs a b c : consistentb rs = true → Forall scored_ok rs →
  a ∈ rs → b ∈ rs → c ∈ rs → cmp a b ≤ 0 → cmp b c ≤ 0 → cmp a c ≤ 0.
Proof.
  unfold consistentb. intros H Hok Ha Hb Hc H1 H2. rewrite Forall_forall in Hok. rewrite forallb_forall in H.
  specialize (H a (proj1 (list_elem_of_In _ _) Ha)). rewrite forallb_forall in H.
  specialize (H b (proj1 (list_elem_of_In _ _) Hb)). rewrite forallb_forall in H.
  specialize (H c (proj1 (list_elem_of_In _ _) Hc)).
  unfold before in H. rewrite !compar_spec in H by auto.
  rewrite !(proj2 (Z.leb_le _ 0)) in H by done. cbn in H. by apply Z.leb_le.
Qed.

(** The results behind the pointers. *)
Definition results_at (h : gmap Z wpa_scan_res) (l : list Z) : list wpa_scan_res := omap (h !!.) l.

Lemma results_at_elem h l p r : p ∈ l → h !! p = Some r → r ∈ results_at h l.
Proof. intros Hp Hr. apply list_elem_of_omap. eauto. Qed.

Definition rank_at (h : gmap Z wpa_scan_res) (p : Z) : Z := from_option rank 0 (h !! p).

(** Better protected results come first. *)
Definition by_rank (h : gmap Z wpa_scan_res) (l : list Z) : Prop :=
  StronglySorted (λ p q, rank_at h q ≤ rank_at h p) l.

Lemma sort_spec `{QsortOk} h l :
  (∀ p, p ∈ l → ∃ r, h !! p = Some r ∧ scored_ok r) → consistentb (results_at h l) = true →
  ∃ l', qsort (compar_at h) l = Ret l' ∧ l' ≡ₚ l ∧ by_rank h l'.
Proof.
  intros Hl Hc.
  assert (Hok : Forall scored_ok (results_at h l)).
  { apply Forall_forall. intros r (p & Hp & Hr)%list_elem_of_omap. destruct (Hl p Hp) as (r' & Hr' & Hs).
    rewrite Hr in Hr'. by injection Hr' as <-. }
  set (c a b := match h !! a, h !! b with Some x, Some y => cmp x y | _, _ => 0 end).
  set (f a b := if bool_decide (a ∈ l) then if bool_decide (b ∈ l) then c a b else -1
                else if bool_decide (b ∈ l) then 1 else 0).
  destruct (qsort_sorts (compar_at h) f l) as (l' & Hq & Hp & Hs).
  - intros a b Ha Hb. unfold f, c. rewrite !bool_decide_true by done.
    destruct (Hl a Ha) as (x & Hx & Sx), (Hl b Hb) as (y & Hy & Sy). unfold compar_at, res_at.
    rewrite Hx, Hy. ret_simpl. by apply compar_spec.
  - intros a b. unfold f. do 2 case_bool_decide; try lia. unfold c.
    destruct (h !! a), (h !! b); try lia. apply cmp_total.
  - intros a b d. unfold f. repeat case_bool_decide; try lia. unfold c.
    destruct (Hl a) as (x & Hx & _), (Hl b) as (y & Hy & _), (Hl d) as (z & Hz & _); [done..|].
    rewrite Hx, Hy, Hz. eapply consistent_spec; [exact Hc|exact Hok|eauto using results_at_elem..].
  - exists l'. split_and!; [done..|]. apply Sorted_StronglySorted; [intros a b d; lia|].
    assert (Hin : ∀ p, p ∈ l' → p ∈ l) by (intros p; by rewrite Hp). clear Hp Hq.
    induction Hs as [|a l' _ IH Hh]; constructor; [apply IH; intros p Hp; apply Hin; by right|].
    destruct Hh as [|b l' Hab]; constructor. revert Hab. unfold f.
    rewrite !bool_decide_true by (apply Hin; repeat constructor).
    destruct (Hl a) as (x & Hx & _), (Hl b) as (y & Hy & _); [apply Hin; repeat constructor..|].
    unfold c, rank_at. rewrite Hx, Hy. cbn. apply cmp_rank.
Qed.

(** ** Filtering and scoring *)

Definition passes (t : bss_table) (r : wpa_scan_res) : bool := wpa_supplicant_filter_bssid_match t (res_bssid r).
Definition passes_at (t : bss_table) (h : gmap Z wpa_scan_res) (p : Z) : Prop :=
  match h !! p with Some r => passes t r = true | None => False end.

Lemma filter_loop_spec t l : ∀ h, NoDup l → (∀ p, p ∈ l → is_Some (h !! p)) →
  ∃ keep h', filter_loop t h l = Ret (keep, h') ∧ keep `sublist_of` l ∧
    (∀ p, p ∈ keep ↔ p ∈ l ∧ passes_at t h p) ∧
    (∀ p, h' !! p = if bool_decide (p ∈ keep ∨ p ∉ l) then h !! p else None).
Proof.
  induction l as [|p l IH]; intros h Hnd Hl; cbn [filter_loop].
  { exists [], h. split_and!; [done..| |]; intros p.
    - split; [intros Hp|intros [Hp _]]; by apply not_elem_of_nil in Hp.
    - by rewrite bool_decide_true by (right; apply not_elem_of_nil). }
  apply NoDup_cons in Hnd as [Hp Hnd]. destruct (Hl p) as [r Hr]; [by left|]. unfold res_at. rewrite Hr. ret_simpl.
  assert (Hpp : passes_at t h p ↔ passes t r = true) by (unfold passes_at; by rewrite Hr).
  unfold passes in Hpp. destruct (wpa_supplicant_filter_bssid_match t (res_bssid r)).
  - destruct (IH h Hnd) as (keep & h' & -> & Hs & Hk & Hh); [intros; apply Hl; by right|]. ret_simpl.
    exists (p :: keep), h'. split_and!; [done|by constructor| |].
    + intros q. rewrite !elem_of_cons, Hk. naive_solver.
    + intros q. rewrite Hh. destruct (decide (q = p)) as [->|Hne].
      * by rewrite !bool_decide_true by (rewrite ?elem_of_cons; tauto).
      * by rewrite (bool_decide_ext (q ∈ keep ∨ q ∉ l) (q ∈ p :: keep ∨ q ∉ p :: l)) by (rewrite !elem_of_cons; tauto).
  - destruct (IH (delete p h) Hnd) as (keep & h' & -> & Hs & Hk & Hh).
    { intros q Hq. rewrite lookup_delete_ne by (intros ->; done). apply Hl. by right. }
    assert (Hd : ∀ q, q ∈ l → passes_at t (delete p h) q ↔ passes_at t h q).
    { intros q Hq. unfold passes_at. rewrite lookup_delete_ne by (intros ->; done). done. }
    exists keep, h'. split_and!; [done|by constructor| |].
    + intros q. rewrite Hk, elem_of_cons. split; [intros [Hq Hpq]; by rewrite <- Hd; auto|].
      intros [[->|Hq] Hpq]; [by apply Hpp in Hpq|]. split; [done|]. by apply Hd.
    + assert (Hpk : p ∉ keep) by (by intros [? _]%Hk).
      intros q. rewrite Hh. destruct (decide (q = p)) as [->|Hne].
      * rewrite lookup_delete_eq, (bool_decide_false (_ ∨ p ∉ p :: l)); [by case_bool_decide|].
        intros [?|Hx]; [done|]. apply Hx. by left.
      * rewrite lookup_delete_ne by done.
        by rewrite (bool_decide_ext (q ∈ keep ∨ q ∉ l) (q ∈ keep ∨ q ∉ p :: l)) by (rewrite elem_of_cons; tauto).
Qed.

(** Noise floor, ratio and estimate of a result. *)
Definition scored (capab : local_hw_capab) (r r' : wpa_scan_res) : Prop :=
  ∃ r1, scan_snr r = Ret r1 ∧ scan_est_throughput capab r1 = Ret r'.

Lemma with_signal_id r : with_signal r (res_noise r) (res_snr r) (res_est_throughput r) = r.
Proof. by destruct r. Qed.

Lemma with_signal_ok r n s e : res_ok r → res_ok (with_signal r n s e).
Proof. by intros []. Qed.

Lemma score_ends capab r : res_ok r → signal_ok r →
  ∃ r', scored capab r r' ∧ scored_ok r' ∧ res_bssid r' = res_bssid r.
Proof.
  intros Hr [Hlev Hno Hq He].
  assert (Hsnr : ∃ n s, scan_snr r = Ret (with_signal r n s (res_est_throughput r)) ∧ Z.abs n ≤ 2 ^ 28 ∧ Z.abs s ≤ 2 ^ 29).
  { unfold scan_snr. set (noise := if _ : bool then _ else _).
    assert (Hn : Z.abs noise ≤ 2 ^ 28).
    { subst noise. unfold DEFAULT_NOISE_FLOOR_2GHZ, DEFAULT_NOISE_FLOOR_5GHZ. repeat case_if; lia. }
    case_if; [|exists noise, (res_level r); split_and!; [done|done|lia]].
    rewrite (proj2 (int_chk_Ret _ (res_level r - noise))) by (split; [done|unfold INT_MAX, INT_MIN; lia]).
    ret_simpl. exists noise, (res_level r - noise). split_and!; [done|done|lia]. }
  destruct Hsnr as (n & s & E & Hn & Hs). destruct (res_est_throughput r =? 0) eqn:E0; zbool.
  - rewrite E0 in E. destruct (est_spec capab r Hr) as (rate & ht & ht40 & vht & vht80 & Hrate & Hest).
    pose proof (est_of_grows capab rate ht ht40 vht vht80 s s Hrate (Z.le_refl s)) as Hb.
    eexists. split; [eexists; split; [exact E|apply Hest]|]. split; [|done].
    split; [by apply with_signal_ok| |done]. split; cbn; [done..|lia].
  - exists (with_signal r n s (res_est_throughput r)). split; [|split; [|done]].
    + eexists. split; [exact E|]. unfold scan_est_throughput. cbn [res_est_throughput with_signal].
      by rewrite (proj2 (Z.eqb_neq _ 0)).
    + split; [by apply with_signal_ok|by split|done].
Qed.

Lemma score_loop_spec capab l : ∀ h, NoDup l →
  (∀ p, p ∈ l → ∃ r, h !! p = Some r ∧ res_ok r ∧ signal_ok r) →
  ∃ h', score_loop capab h l = Ret h' ∧ (∀ p, p ∉ l → h' !! p = h !! p) ∧
    ∀ p, p ∈ l → ∃ r r', h !! p = Some r ∧ scored capab r r' ∧ h' !! p = Some r' ∧ scored_ok r' ∧
      res_bssid r' = res_bssid r.
Proof.
  induction l as [|p l IH]; intros h Hnd Hl; cbn [score_loop].
  { exists h. split_and!; [done..|]. by intros p ?%not_elem_of_nil. }
  apply NoDup_cons in Hnd as [Hp Hnd]. destruct (Hl p) as (r & Hr & Hok & Hsig); [by left|].
  unfold res_at. rewrite Hr. ret_simpl.
  destruct (score_ends capab r Hok Hsig) as (r' & (r1 & E1 & E2) & Hs & Hb). rewrite E1. ret_simpl. rewrite E2. ret_simpl.
  destruct (IH (<[p := r']> h) Hnd) as (h' & -> & Hout & Hin).
  { intros q Hq. rewrite lookup_insert_ne by (intros ->; done). apply Hl. by right. }
  exists h'. split_and!; [done| |].
  - intros q [Hqp Hq]%not_elem_of_cons. rewrite Hout by done. by apply lookup_insert_ne.
  - intros q [->|Hq]%elem_of_cons.
    + exists r, r'. rewrite Hout by done. rewrite lookup_insert_eq. split_and!; try done. by exists r1.
    + destruct (Hin q Hq) as (x & x' & Hx & H'). exists x, x'. split; [|done].
      by rewrite lookup_insert_ne in Hx by (intros ->; done).
Qed.

(** ** Through the table *)

(** The allocator answers with free addresses, or leaves a block where it is. *)
Definition allocates (p2p : bool) (answer : bss_table → wpa_scan_res → oracle) : Prop :=
  ∀ t r, table_ok t → res_ok r → passes t r = true → scan_ok p2p t r (answer t r).

Lemma enter_loop_ok p2p malloc_ok answer h fetch l : ∀ t, table_ok t → allocates p2p answer →
  (∀ p, p ∈ l → ∃ r, h !! p = Some r ∧ res_ok r ∧ passes t r = true) →
  0 ≤ bss_next_id t → bss_next_id t + Z.of_nat (length l) ≤ 2 ^ 32 - 1 →
  ∃ t', enter_loop p2p malloc_ok answer h fetch t l = Ret t' ∧ table_ok t'.
Proof.
  induction l as [|p l IH]; intros t Ht Ha Hl H0 Hn; cbn [enter_loop]; [by exists t|]. cbn [length] in Hn.
  destruct (Hl p) as (r & Hr & Hok & Hp); [by left|]. unfold res_at. rewrite Hr. ret_simpl.
  destruct (update_scan_res_ok p2p malloc_ok t r fetch (answer t r) Ht) as (t1 & -> & Ht1 & (Hf & _ & Hid) & _);
    [by apply Ha|lia|]. ret_simpl.
  apply IH; [done..| |lia|lia]. intros q Hq. destruct (Hl q) as (x & Hx & Hxo & Hxp); [by right|].
  exists x. split_and!; [done..|]. unfold passes, wpa_supplicant_filter_bssid_match in *. by rewrite Hf.
Qed.

(** What a driver delivers: distinct objects, elements of the length that is
    given, and numbers far from the ends of [int]. *)
Record delivered (res : wpa_scan_results) : Prop := Delivered {
  dl_distinct : NoDup (sr_res res);
  dl_results : ∀ p, p ∈ sr_res res → ∃ r, sr_heap res !! p = Some r ∧ res_ok r ∧ signal_ok r
}.

(** The results that are sorted: those that pass the filter, with their scores. *)
Definition scored_results (capab : local_hw_capab) (t : bss_table) (res : wpa_scan_results)
    : outcome (list wpa_scan_res) :=
  res ← filter_scan_res t res; h ← score_loop capab (sr_heap res) (sr_res res); Ret (results_at h (sr_res res)).

Lemma filter_spec t res : delivered res →
  ∃ res', filter_scan_res t res = Ret res' ∧ delivered res' ∧ sr_fetch_time res' = sr_fetch_time res ∧
    (length (sr_res res') <= length (sr_res res))%nat ∧
    ∀ p, (p ∈ sr_res res' ↔ p ∈ sr_res res ∧ passes_at t (sr_heap res) p) ∧
         sr_heap res' !! p = if bool_decide (p ∈ sr_res res' ∨ p ∉ sr_res res) then sr_heap res !! p else None.
Proof.
  intros [Hnd Hr]. unfold filter_scan_res. destruct (bssid_filter t) eqn:Ef.
  - destruct (filter_loop_spec t (sr_res res) (sr_heap res) Hnd) as (keep & h & -> & Hs & Hk & Hh).
    { intros p Hp. destruct (Hr p Hp) as (r & -> & _). by eexists. }
    ret_simpl. eexists. split; [done|]. cbn. split_and!; [split|done|by apply sublist_length|]; cbn.
    + by eapply sublist_NoDup.
    + intros p Hp. rewrite Hh, bool_decide_true by (by left). apply Hr. by apply Hk.
    + intros p. split; [apply Hk|apply Hh].
  - exists res. split_and!; [done|by split|done|done|]. intros p.
    split; [|rewrite bool_decide_true; [done|destruct (decide (p ∈ sr_res res)); tauto]].
    split; [|tauto]. intros Hp. split; [done|]. destruct (Hr p Hp) as (r & E & _).
    unfold passes_at. rewrite E. unfold passes, wpa_supplicant_filter_bssid_match. by rewrite Ef.
Qed.

Lemma filter_ignores_time t h l a b res' :
  filter_scan_res t (ScanResults h l a) = Ret res' →
  filter_scan_res t (ScanResults h l b) = Ret (ScanResults (sr_heap res') (sr_res res') b).
Proof.
  unfold filter_scan_res. cbn. destruct (bssid_filter t).
  - destruct (filter_loop t h l) as [[keep h']| |]; try done. intros E. cbn in *. by injection E as <-.
  - intros E. by injection E as <-.
Qed.

Section processed.
Context `{QsortOk} (p2p : bool) (malloc_ok : Z → bool) (capab : local_hw_capab).
Context (answer : bss_table → wpa_scan_res → oracle) (Hanswer : allocates p2p answer).

Lemma get_scan_results_ok t res info new_scan now end_now :
  table_ok t → delivered res → 0 ≤ bss_update_idx t < 2 ^ 32 - 1 →
  0 ≤ bss_next_id t → bss_next_id t + Z.of_nat (length (sr_res res)) ≤ 2 ^ 32 - 1 →
  (∀ rs, scored_results capab t res = Ret rs → consistentb rs = true) →
  ∃ out t', wpa_supplicant_get_scan_results p2p malloc_ok capab answer t (Some res) info new_scan now end_now
      = Ret (Some out, t') ∧
    table_ok t' ∧ NoDup (sr_res out) ∧ by_rank (sr_heap out) (sr_res out) ∧
    (∀ p, (p ∈ sr_res out ↔ p ∈ sr_res res ∧ passes_at t (sr_heap res) p) ∧
         (p ∈ sr_res out → ∃ r r', sr_heap res !! p = Some r ∧ scored capab r r' ∧ sr_heap out !! p = Some r')) ∧
    ∀ p, p ∉ sr_res out → sr_heap out !! p = if bool_decide (p ∈ sr_res res) then None else sr_heap res !! p.
Proof.
  intros Ht Hd Hidx Hn0 Hn Hc. destruct (filter_spec t res Hd) as (res1 & E1 & [Hnd1 Hr1] & Hft & Hlen & Hin).
  unfold wpa_supplicant_get_scan_results. set (res0 := if _ : bool then _ else res).
  assert (E0 : ∃ time, filter_scan_res t res0 = Ret (ScanResults (sr_heap res1) (sr_res res1) time)).
  { subst res0. destruct res as [hh ll tt], res1 as [h1 l1 t1]. case_if; [exists now|exists tt];
      by apply (filter_ignores_time _ _ _ tt _ (ScanResults h1 l1 t1)). }
  destruct E0 as [time ->]. ret_simpl. cbn [sr_heap sr_res sr_fetch_time].
  destruct (score_loop_spec capab (sr_res res1) (sr_heap res1) Hnd1 Hr1) as (h & Eh & Hsame & Hs). rewrite Eh. ret_simpl.
  assert (Hok : ∀ p, p ∈ sr_res res1 → ∃ r, h !! p = Some r ∧ scored_ok r).
  { intros p Hp. destruct (Hs p Hp) as (r & r' & _ & _ & ? & ? & _). eauto. }
  destruct (sort_spec h (sr_res res1) Hok) as (l & -> & Hp & Hsort).
  { apply Hc. unfold scored_results. rewrite E1. ret_simpl. by rewrite Eh. }
  ret_simpl. assert (Ht0 : table_ok (wpa_bss_update_start t)) by (apply update_start_ok; [done|lia..]).
  assert (Hpass : ∀ p, p ∈ l → ∃ r, h !! p = Some r ∧ res_ok r ∧ passes (wpa_bss_update_start t) r = true).
  { intros p. rewrite Hp. intros Hpl. destruct (Hs p Hpl) as (r & r' & Hr & _ & Hr' & Hso & Hb). exists r'.
    split_and!; [done|apply Hso|]. change (passes t r' = true). unfold passes. rewrite Hb.
    destruct (Hin p) as [Hi1 Hi2]. destruct (proj1 Hi1 Hpl) as [_ Hpa]. unfold passes_at in Hpa.
    rewrite bool_decide_true in Hi2 by (by left). by rewrite <- Hi2, Hr in Hpa. }
  destruct (enter_loop_ok p2p malloc_ok answer h time l _ Ht0 Hanswer Hpass) as (t1 & -> & Ht1).
  { done. }
  { change (bss_next_id (wpa_bss_update_start t)) with (bss_next_id t).
    assert (length l = length (sr_res res1)) by (by rewrite Hp). lia. }
  ret_simpl. destruct (update_end_ok t1 info new_scan end_now Ht1) as (t2 & -> & Ht2 & _). ret_simpl.
  eexists _, t2. split; [done|]. cbn [sr_res sr_heap]. split_and!; [done|by rewrite Hp|done| |]; intros p; rewrite Hp.
  - split; [apply Hin|]. intros Hpl.
    destruct (Hs p Hpl) as (r & r' & Hr & Hsc & Hr' & _). exists r, r'. split_and!; [|done..].
    pose proof (proj2 (Hin p)) as Hi. rewrite bool_decide_true in Hi by (by left). by rewrite <- Hi.
  - intros Hpl. rewrite Hsame by done. rewrite (proj2 (Hin p)).
    case_bool_decide as H1; case_bool_decide as H2; tauto.
Qed.
End processed.

(** C19: The results of a scan go through: whatever the elements that were heard,
    the results that a driver delivers are taken in without undefined
    behaviour, the table stays well formed, and what is returned are the
    results that pass the filter, each once and with its noise, ratio and
    estimate, those with WPA or RSN first and within these and the others
    those with privacy first.  The results delivered are distinct objects with
    elements of the length given and signals far from the ends of [int]
    ([delivered]), the allocator answers as it may, the counters do not wrap around, and the
    comparison is transitive on the results, without which [qsort] promises
    nothing; that it need not be is shown by [comparison_cycle]. *)
Theorem scan_results_processed `{QsortOk} p2p malloc_ok capab answer t res info new_scan now end_now :
  allocates p2p answer → table_ok t → delivered res → 0 ≤ bss_update_idx t < 2 ^ 32 - 1 →
  0 ≤ bss_next_id t → bss_next_id t + Z.of_nat (length (sr_res res)) ≤ 2 ^ 32 - 1 →
  (∀ rs, scored_results capab t res = Ret rs → consistentb rs = true) →
  ∃ out t', wpa_supplicant_get_scan_results p2p malloc_ok capab answer t (Some res) info new_scan now end_now
      = Ret (Some out, t') ∧
    table_ok t' ∧ NoDup (sr_res out) ∧ by_rank (sr_heap out) (sr_res out) ∧
    ∀ p, (p ∈ sr_res out ↔ p ∈ sr_res res ∧ passes_at t (sr_heap res) p) ∧
         (p ∈ sr_res out → ∃ r r', sr_heap res !! p = Some r ∧ scored capab r r' ∧ sr_heap out !! p = Some r').
Proof.
  intros. destruct (get_scan_results_ok p2p malloc_ok capab answer H1 t res info new_scan now end_now)
    as (out & t' & E & Ht & Hn & Hr & Hp & _); [done..|]. by exists out, t'.
Qed.

(** ** A scan *)

Definition heard (last caps level est : Z) (ies : list Z) : wpa_scan_res :=
  ScanRes (Z.lor WPA_SCAN_LEVEL_DBM WPA_SCAN_NOISE_INVALID) [2; 0; 0; 0; 0; last] 2412 100 caps 0 0 level 7 0 est 0
    (strlen ies) 0 ies.

(** An open network that is near, one with RSN that is far, one with WEP. *)
Definition demo_scan : wpa_scan_results :=
  ScanResults
    (<[100 := heard 1 0 (-40) 0 [0; 1; 97; 1; 1; 130; 45; 0]]>
      (<[101 := heard 2 16 (-85) 0 [0; 1; 98; 1; 2; 130; 150; 48; 2; 1; 0]]>
        (<[102 := heard 3 16 (-60) 0 [0; 1; 99; 1; 1; 108]]> ∅))) [100; 101; 102] (10, 0).

Definition demo_answer (t : bss_table) (r : wpa_scan_res) : oracle :=
  Oracle (Some (fresh (dom (heap t) : gset Z))) None true.

Lemma demo_allocates p2p : allocates p2p demo_answer.
Proof.
  intros t r _ Hr Hp. split; [done|done| |done]. intros p [= <-].
  apply not_elem_of_dom. apply is_fresh.
Qed.

Definition deliveredb (res : wpa_scan_results) : bool :=
  bool_decide (NoDup (sr_res res)) &&
  forallb (λ p, match sr_heap res !! p with
                | Some r => res_okb r && (Z.abs (res_level r) <=? 268435456) && (Z.abs (res_noise r) <=? 268435456)
                            && (Z.abs (res_qual r) <=? 268435456) && (0 <=? res_est_throughput r)
                            && (res_est_throughput r <? 2147483648)
                | None => false
                end) (sr_res res).

Lemma deliveredb_sound res : deliveredb res = true → delivered res.
Proof.
  unfold deliveredb. intros [Hnd%bool_decide_eq_true Hl]%andb_true_iff. split; [done|]. intros p Hp.
  rewrite forallb_forall in Hl. specialize (Hl p (proj1 (list_elem_of_In _ _) Hp)). cbn in Hl.
  destruct (sr_heap res !! p) as [r|]; [|done]. exists r. split; [done|].
  apply andb_true_iff in Hl as [[[[[Hr%res_okb_sound ?]%andb_true_iff ?]%andb_true_iff ?]%andb_true_iff
    ?]%andb_true_iff ?]. zbool. split; [done|]. split; lia.
Qed.

Lemma consistent_scan capab t res :
  match scored_results capab t res with Ret rs => consistentb rs | _ => false end = true →
  ∀ rs, scored_results capab t res = Ret rs → consistentb rs = true.
Proof. intros H rs E. by rewrite E in H. Qed.

Lemma scan_results_processed_witness :
  let t := empty_table 200 [] in
  ∃ out t', wpa_supplicant_get_scan_results (H := insertion_qsort) false (λ _, true) CAPAB_HT demo_answer t
      (Some demo_scan) None true (9, 0) (11, 0) = Ret (Some out, t') ∧
    table_ok t' ∧ NoDup (sr_res out) ∧ by_rank (sr_heap out) (sr_res out) ∧
    ∀ p, (p ∈ sr_res out ↔ p ∈ sr_res demo_scan ∧ passes_at t (sr_heap demo_scan) p) ∧
         (p ∈ sr_res out → ∃ r r', sr_heap demo_scan !! p = Some r ∧ scored CAPAB_HT r r' ∧ sr_heap out !! p = Some r').
Proof.
  cbn zeta. apply (scan_results_processed (H := insertion_qsort)).
  - apply demo_allocates.
  - by apply empty_ok.
  - apply deliveredb_sound. by vm_compute.
  - done.
  - done.
  - done.
  - apply consistent_scan. by vm_compute.
Defined.

(** The order and the estimates of that scan. *)
Example demo_order :
  match wpa_supplicant_get_scan_results (H := insertion_qsort) false (λ _, true) CAPAB_HT demo_answer
          (empty_table 200 []) (Some demo_scan) None true (9, 0) (11, 0) with
  | Ret (Some out, t) =>
      sr_res out = [101; 102; 100] ∧
      (λ r, (res_snr r, res_est_throughput r)) <$> results_at (sr_heap out) (sr_res out) =
        [(4, 6000); (29, 54000); (49, 65000)] ∧
      (λ b, bss_ssid b) <$> omap (heap t !!.) (bss_lru t) = [[98]; [99]; [97]]
  | _ => False
  end.
Proof. vm_compute. repeat split. Qed.

(** ** The comparison is no order *)

(** Three networks with WPA; the first is eight decibels better than the third,
    but slower than the second, which is slower than the third. *)
Definition cycle_scan : wpa_scan_results :=
  ScanResults
    (<[100 := heard 1 16 (-71) 0 [0; 1; 97; 1; 1; 2; 48; 2; 1; 0]]>
      (<[101 := heard 2 16 (-75) 0 [0; 1; 98; 1; 1; 12; 48; 2; 1; 0]]>
        (<[102 := heard 3 16 (-79) 0 [0; 1; 99; 1; 1; 108; 48; 2; 1; 0]]> ∅))) [100; 101; 102] (10, 0).

(** On what an ordinary scan delivers the comparison goes round in a circle:
    the second result comes before the first, the third before the second and
    the first before the third, each strictly.  For such a comparison the
    behaviour of [qsort] is not defined. *)
Lemma comparison_cycle :
  delivered cycle_scan ∧
  ∃ a b c, scored_results CAPAB_NO_HT_VHT (empty_table 200 []) cycle_scan = Ret [a; b; c] ∧
    wpa_scan_result_compar a b = Ret 5000 ∧ wpa_scan_result_compar b c = Ret 18000 ∧
    wpa_scan_result_compar c a = Ret 8 ∧ consistentb [a; b; c] = false.
Proof.
  split; [apply deliveredb_sound; by vm_compute|]. do 3 eexists. split; [vm_compute; reflexivity|].
  split_and!; by vm_compute.
Qed.
