(* ===== verification/Obss.v ===== *)
(** * The overlapping BSS scan (wpa_supplicant/sme.c)

    After a scan for networks that do not tolerate 40 MHz channels the channels
    of the networks without HT, or with the intolerant bit, are reported to the
    access point in a 20/40 BSS Coexistence frame. *)

From stdpp Require Import gmap.
From S2P Require Import Prelude CString Common WpaIe WpaSpec Wpabuf Bss BssTable BssTableSpec SelectFits Channels.

Definition WLAN_EID_COUNTRY : Z := 7.
Definition WLAN_EID_HT_CAP : Z := 45.
Definition WLAN_EID_20_40_BSS_COEXISTENCE : Z := 72.
Definition WLAN_EID_20_40_BSS_INTOLERANT : Z := 73.
Definition WLAN_ACTION_PUBLIC : Z := 4.
Definition WLAN_PA_20_40_BSS_COEX : Z := 0.
Definition WLAN_20_40_BSS_COEX_20MHZ_WIDTH_REQ : Z := BIT 2.
Definition HT_CAP_INFO_40MHZ_INTOLERANT : Z := BIT 14.
Definition P2P_MAX_CHANNELS : Z := 50.

(** The country element names an operating class. *)
Definition uses_op_class (b : wpa_bss) : outcome bool :=
  ie ← wpa_bss_get_ie b WLAN_EID_COUNTRY;
  match ie with
  | Some p =>
      l ← u8_at (bss_ies b) (p + 1);
      if 6 <=? l then x ← u8_at (bss_ies b) (p + 5); Ret (201 <=? x) else Ret false
  | None => Ret false
  end.

Definition ht_cap_info (b : wpa_bss) : outcome Z :=
  ie ← wpa_bss_get_ie b WLAN_EID_HT_CAP;
  match ie with
  | Some p => l ← u8_at (bss_ies b) (p + 1); if l =? 26 then WPA_GET_LE16 (bss_ies b) (p + 2) else Ret 0
  | None => Ret 0
  end.

(** The channel of an entry of the 2.4 GHz band. *)
Definition channel_24 (b : wpa_bss) : option Z :=
  match ieee80211_freq_to_chan (bss_freq b) with
  | (HOSTAPD_MODE_IEEE80211G, Some ch) | (HOSTAPD_MODE_IEEE80211B, Some ch) => Some ch
  | _ => None
  end.

(** The loop over the entries; [chans] is the part of [chan_list] in use, the
    counter of intolerant networks has eight bits. *)
Fixpoint obss_loop (t : bss_table) (l chans : list Z) (num_intol : Z) : outcome (list Z * Z) :=
  match l with
  | [] => Ret (chans, num_intol)
  | p :: l' =>
      b ← deref t p;
      match channel_24 b with
      | None => obss_loop t l' chans num_intol
      | Some channel =>
          ht_cap ← ht_cap_info b;
          let intolerant := has ht_cap HT_CAP_INFO_40MHZ_INTOLERANT in
          if (ht_cap =? 0) || intolerant then
            let num_intol := if intolerant then (num_intol + 1) mod 256 else num_intol in
            if existsb (Z.eqb channel) chans then obss_loop t l' chans num_intol
            else if strlen chans <? P2P_MAX_CHANNELS then obss_loop t l' (chans ++ [channel]) num_intol
            else UB "write past chan_list"
          else obss_loop t l' chans num_intol
      end
  end.

Section frame.
Context (malloc_ok : Z → bool).

(** The frame that is given to the driver. *)
Definition sme_send_2040_bss_coex (chan_list : list Z) (num_intol : Z) : outcome (option (list Z)) :=
  let num_channels := strlen chan_list in
  match wpabuf_alloc malloc_ok (2 + 3 + 3 + num_channels) with
  | None => Ret None
  | Some buf =>
      buf ← wpabuf_put_u8 buf WLAN_ACTION_PUBLIC;
      buf ← wpabuf_put_u8 buf WLAN_PA_20_40_BSS_COEX;
      '(bc_ie, buf) ← wpabuf_put buf 3;
      buf ← store buf bc_ie [WLAN_EID_20_40_BSS_COEXISTENCE; 1];
      buf ← (if num_intol =? 0 then Ret buf
             else x ← u8_at (mem buf) (bc_ie + 2);
                  store buf (bc_ie + 2) [Z.lor x WLAN_20_40_BSS_COEX_20MHZ_WIDTH_REQ]);
      buf ← (if 0 <? num_channels then
               '(ic, buf) ← wpabuf_put buf 3;
               buf ← store buf ic [WLAN_EID_20_40_BSS_INTOLERANT; byte (num_channels + 1); 0];
               '(pos, buf) ← wpabuf_put buf num_channels;
               store buf pos chan_list
             else Ret buf);
      Ret (Some (wpabuf_head buf))
  end.

(** Once it is known that the scan was made for this and that the connection is
    up: the frame, if one is sent. *)
Definition obss_report (t : bss_table) (current : Z) : outcome (option (list Z)) :=
  b ← deref t current;
  stop ← uses_op_class b;
  if (stop : bool) then Ret None
  else
    '(chans, num_intol) ← obss_loop t (bss_lru t) [] 0;
    sme_send_2040_bss_coex chans num_intol.
End frame.

(** ** The report *)

Lemma uses_op_class_ends b : bss_ok b → ∃ r, uses_op_class b = Ret r.
Proof.
  intros Hb. unfold uses_op_class. destruct (get_ie_found b WLAN_EID_COUNTRY Hb) as (ie & -> & Hi). ret_simpl.
  destruct ie as [p|]; [|by eexists]. destruct (Hi p eq_refl) as (l & -> & H0 & Hp & Hle). ret_simpl.
  case_if; [|by eexists].
  destruct (u8_at_Ret (bss_ies b) (p + 5)) as (x & -> & _); [unfold strlen in *; lia|]. by eexists.
Qed.

Lemma ht_cap_info_ends b : bss_ok b → ∃ r, ht_cap_info b = Ret r.
Proof.
  intros Hb. unfold ht_cap_info. destruct (get_ie_found b WLAN_EID_HT_CAP Hb) as (ie & -> & Hi). ret_simpl.
  destruct ie as [p|]; [|by eexists]. destruct (Hi p eq_refl) as (l & -> & H0 & Hp & Hle). ret_simpl.
  case_if; [|by eexists]. unfold WPA_GET_LE16.
  destruct (u8_at_Ret (bss_ies b) (p + 2)) as (x & -> & _); [unfold strlen in *; lia|]. ret_simpl.
  destruct (u8_at_Ret (bss_ies b) (p + 2 + 1)) as (y & -> & _); [unfold strlen in *; lia|]. by eexists.
Qed.

Lemma channel_24_range b ch : channel_24 b = Some ch → 1 ≤ ch ≤ 14.
Proof.
  unfold channel_24, ieee80211_freq_to_chan, ieee80211_freq_to_channel_ext. cbn [Z.ltb orb negb Z.eqb].
  change (1 <? 0) with false. change (0 <? -1) with false. cbn [orb]. set (f := u32 (bss_freq b)).
  repeat case_if; cbn; try done; intros [= <-]; [|lia].
  apply andb_true_iff in E as [? ?] || zbool. pose proof (Z.div_mod (f - 2407) 5). pose proof (Z.mod_pos_bound (f - 2407) 5). lia.
Qed.

(** What is stored over [x]. *)
Lemma store_over sz us e l1 x l2 s pos : pos = strlen l1 → length x = length s →
  store (Wpabuf sz us (l1 ++ x ++ l2) e) pos s = Ret (Wpabuf sz us (l1 ++ s ++ l2) e).
Proof.
  intros -> Hx. unfold store, os_memcpy. cbn [mem size used ext_data]. unfold strlen. rewrite !length_app.
  rewrite (proj2 (Z.leb_le 0 _)), (proj2 (Z.leb_le _ (Z.of_nat _))) by lia. ret_simpl. do 3 f_equal.
  rewrite Nat2Z.id, take_app_length. do 2 f_equal. by rewrite <- Hx, <- drop_drop, drop_app_length, drop_app_length.
Qed.

Lemma put_more sz us m e n : us + n ≤ sz → wpabuf_put (Wpabuf sz us m e) n = Ret (us, Wpabuf sz (us + n) m e).
Proof. intros H. unfold wpabuf_put. cbn. by rewrite (proj2 (Z.ltb_ge _ _)). Qed.

Lemma put_over sz us e l1 l2 v : us = strlen l1 → us + 1 ≤ sz →
  wpabuf_put_u8 (Wpabuf sz us (l1 ++ [0] ++ l2) e) v = Ret (Wpabuf sz (us + 1) (l1 ++ [byte v] ++ l2) e).
Proof. intros Hu Hs. unfold wpabuf_put_u8, put_bytes. change (strlen [byte v]) with 1. rewrite put_more by done. ret_simpl. by apply store_over. Qed.

(** The frame: the element that asks for 20 MHz if some network is intolerant,
    and the report of the channels, if there are any. *)
Definition coex_frame (chans : list Z) (num_intol : Z) : list Z :=
  [WLAN_ACTION_PUBLIC; WLAN_PA_20_40_BSS_COEX; WLAN_EID_20_40_BSS_COEXISTENCE; 1;
   if num_intol =? 0 then 0 else WLAN_20_40_BSS_COEX_20MHZ_WIDTH_REQ] ++
  (if strlen chans =? 0 then [] else [WLAN_EID_20_40_BSS_INTOLERANT; strlen chans + 1; 0] ++ chans).

Lemma coex_spec malloc_ok chans num_intol : strlen chans ≤ 50 →
  sme_send_2040_bss_coex malloc_ok chans num_intol =
  Ret (if malloc_ok (SIZEOF_WPABUF + (8 + strlen chans)) then Some (coex_frame chans num_intol) else None).
Proof.
  intros Hn. pose proof (strlen_nonneg chans) as H0. set (n := strlen chans) in *.
  unfold sme_send_2040_bss_coex. change (strlen chans) with n. unfold wpabuf_alloc.
  replace (2 + 3 + 3 + n) with (8 + n) by lia. destruct (malloc_ok (SIZEOF_WPABUF + (8 + n))); [|done].
  assert (Hz : zero_bytes (8 + n) = [0; 0; 0; 0; 0; 0; 0; 0] ++ replicate (length chans) 0).
  { unfold zero_bytes. replace (Z.to_nat (8 + n)) with (8 + length chans)%nat by (subst n; unfold strlen; lia).
    by rewrite replicate_add. }
  rewrite Hz. clear Hz. set (z := replicate _ _).
  change ([0; 0; 0; 0; 0; 0; 0; 0] ++ z) with ([] ++ [0] ++ [0; 0; 0; 0; 0; 0; 0] ++ z).
  rewrite put_over by (done || lia). ret_simpl.
  change ([] ++ [byte WLAN_ACTION_PUBLIC] ++ [0; 0; 0; 0; 0; 0; 0] ++ z) with ([4] ++ [0] ++ [0; 0; 0; 0; 0; 0] ++ z).
  rewrite put_over by (done || lia). ret_simpl. rewrite put_more by lia. ret_simpl.
  change ([4] ++ [byte WLAN_PA_20_40_BSS_COEX] ++ [0; 0; 0; 0; 0; 0] ++ z) with ([4; 0] ++ [0; 0] ++ [0; 0; 0; 0] ++ z).
  rewrite store_over by done. ret_simpl.
  set (p := if num_intol =? 0 then 0 else WLAN_20_40_BSS_COEX_20MHZ_WIDTH_REQ).
  assert (Hp : (if num_intol =? 0 then Ret (Wpabuf (8 + n) (0 + 1 + 1 + 3)
      ([4; 0] ++ [WLAN_EID_20_40_BSS_COEXISTENCE; 1] ++ [0; 0; 0; 0] ++ z) false)
    else x ← u8_at (mem (Wpabuf (8 + n) (0 + 1 + 1 + 3)
           ([4; 0] ++ [WLAN_EID_20_40_BSS_COEXISTENCE; 1] ++ [0; 0; 0; 0] ++ z) false)) (0 + 1 + 1 + 2);
         store (Wpabuf (8 + n) (0 + 1 + 1 + 3) ([4; 0] ++ [WLAN_EID_20_40_BSS_COEXISTENCE; 1] ++ [0; 0; 0; 0] ++ z) false)
           (0 + 1 + 1 + 2) [Z.lor x WLAN_20_40_BSS_COEX_20MHZ_WIDTH_REQ])
    = Ret (Wpabuf (8 + n) 5 ([4; 0; 72; 1; p] ++ [0; 0; 0] ++ z) false)).
  { subst p. case_if; [done|]. change (u8_at _ _) with (Ret 0). ret_simpl.
    change ([4; 0] ++ [WLAN_EID_20_40_BSS_COEXISTENCE; 1] ++ [0; 0; 0; 0] ++ z) with ([4; 0; 72; 1] ++ [0] ++ [0; 0; 0] ++ z).
    by rewrite store_over. }
  rewrite Hp. ret_simpl. clear Hp. unfold coex_frame. change (strlen chans) with n. fold p.
  destruct (0 <? n) eqn:E; zbool.
  - rewrite put_more by lia. ret_simpl. rewrite store_over by done. ret_simpl.
    rewrite put_more by lia. ret_simpl. unfold byte. rewrite (Z.mod_small (n + 1)) by lia.
    change ([4; 0; 72; 1; p] ++ [WLAN_EID_20_40_BSS_INTOLERANT; n + 1; 0] ++ z) with
      ([4; 0; 72; 1; p; 73; n + 1; 0] ++ z).
    replace z with (z ++ []) by apply app_nil_r.
    rewrite store_over; [|done|by subst z; rewrite length_replicate]. ret_simpl.
    rewrite (proj2 (Z.eqb_neq _ _)) by lia. unfold wpabuf_head. cbn [Wpabuf.used mem]. rewrite app_nil_r.
    do 2 f_equal. apply take_ge. rewrite !length_app. subst n. unfold strlen. cbn [length]. lia.
  - assert (Hnil : n = 0) by lia. rewrite Hnil. done.
Qed.

(** What an entry of the 2.4 GHz band adds: its channel if it is without HT or
    does not tolerate 40 MHz, and one in the latter case. *)
Definition ht_of (b : wpa_bss) : Z := match ht_cap_info b with Ret x => x | _ => 0 end.
Definition intolerant (b : wpa_bss) : bool := has (ht_of b) HT_CAP_INFO_40MHZ_INTOLERANT.
Definition objects (b : wpa_bss) : bool := bool_decide (is_Some (channel_24 b)) && intolerant b.
Definition reported (b : wpa_bss) : option Z :=
  ch ← channel_24 b; if (ht_of b =? 0) || intolerant b then Some ch else None.

Definition add_channel (chans : list Z) (o : option Z) : list Z :=
  match o with Some ch => if existsb (Z.eqb ch) chans then chans else chans ++ [ch] | None => chans end.

Lemma few_channels chans : NoDup chans → Forall (λ c, 1 ≤ c ≤ 14) chans → strlen chans ≤ 14.
Proof.
  intros Hn Hc. assert (H : chans ⊆+ seqZ 1 14).
  { apply NoDup_submseteq; [done|]. intros c Hin. apply elem_of_seqZ. rewrite Forall_forall in Hc.
    specialize (Hc c Hin). lia. }
  apply submseteq_length in H. change (length (seqZ 1 14)) with 14%nat in H. unfold strlen. lia.
Qed.

Lemma existsb_elem (c : Z) l : existsb (Z.eqb c) l = bool_decide (c ∈ l).
Proof.
  apply eq_true_iff_eq. rewrite existsb_exists, bool_decide_eq_true. split.
  - intros (x & Hx & ->%Z.eqb_eq). by apply list_elem_of_In.
  - intros Hc. exists c. split; [by apply list_elem_of_In|by apply Z.eqb_refl].
Qed.

Lemma add_channel_elem chans o c : c ∈ add_channel chans o ↔ c ∈ chans ∨ o = Some c.
Proof.
  destruct o as [x|]; cbn [add_channel]; [|naive_solver]. rewrite existsb_elem. case_bool_decide as Hx.
  - split; [by left|]. intros [?|[= ->]]; done.
  - rewrite elem_of_app, list_elem_of_singleton. naive_solver.
Qed.

Lemma add_channel_ok chans o : NoDup chans → Forall (λ c, 1 ≤ c ≤ 14) chans → (∀ c, o = Some c → 1 ≤ c ≤ 14) →
  NoDup (add_channel chans o) ∧ Forall (λ c, 1 ≤ c ≤ 14) (add_channel chans o).
Proof.
  intros Hn Hc Ho. destruct o as [x|]; cbn [add_channel]; [|done]. rewrite existsb_elem. case_bool_decide; [done|].
  split; [|apply Forall_app; split; [done|]; constructor; [by apply Ho|constructor]].
  apply NoDup_app. split_and!; [done| |apply NoDup_singleton].
  intros y Hy ->%list_elem_of_singleton. done.
Qed.

Definition objecting (bs : list wpa_bss) : Z := Z.of_nat (length (filter (λ b, objects b = true) bs)).

Definition entries_at (t : bss_table) (l : list Z) : list wpa_bss := omap (heap t !!.) l.

Definition all_channels (bs : list wpa_bss) (chans : list Z) : list Z :=
  foldl (λ acc b, add_channel acc (reported b)) chans bs.

Lemma all_channels_elem bs c : ∀ chans, c ∈ all_channels bs chans ↔ c ∈ chans ∨ ∃ b, b ∈ bs ∧ reported b = Some c.
Proof.
  unfold all_channels. induction bs as [|b bs IH]; intros chans; cbn [foldl].
  - split; [by left|]. intros [?|(b & Hb & _)]; [done|]. by apply not_elem_of_nil in Hb.
  - rewrite IH, add_channel_elem. setoid_rewrite elem_of_cons. naive_solver.
Qed.

Lemma reported_range b c : reported b = Some c → 1 ≤ c ≤ 14.
Proof.
  unfold reported. destruct (channel_24 b) as [ch|] eqn:E; [|done]. cbn [mbind option_bind].
  case_if; [|done]. intros [= <-]. by eapply channel_24_range.
Qed.

Lemma all_channels_ok bs : ∀ chans, NoDup chans → Forall (λ c, 1 ≤ c ≤ 14) chans →
  NoDup (all_channels bs chans) ∧ Forall (λ c, 1 ≤ c ≤ 14) (all_channels bs chans).
Proof.
  unfold all_channels. induction bs as [|b bs IH]; intros chans Hn Hc; cbn [foldl]; [done|].
  destruct (add_channel_ok chans (reported b) Hn Hc) as [H1 H2]; [apply reported_range|]. by apply IH.
Qed.

Lemma obss_loop_spec t l : ∀ chans n, (∀ p, p ∈ l → ∃ b, heap t !! p = Some b ∧ bss_ok b) →
  NoDup chans → Forall (λ c, 1 ≤ c ≤ 14) chans → 0 ≤ n < 256 →
  obss_loop t l chans n =
  Ret (all_channels (entries_at t l) chans, (n + objecting (entries_at t l)) mod 256).
Proof.
  induction l as [|p l IH]; intros chans n Hl Hnd Hc Hn; cbn [obss_loop].
  { cbn. rewrite Z.add_0_r, Z.mod_small by done. done. }
  destruct (Hl p) as (b & Hb & Hok); [by left|]. unfold deref. rewrite Hb. ret_simpl.
  assert (He : entries_at t (p :: l) = b :: entries_at t l) by (unfold entries_at; cbn; by rewrite Hb). rewrite He.
  assert (Hl' : ∀ q, q ∈ l → ∃ b, heap t !! q = Some b ∧ bss_ok b) by (intros q Hq; apply Hl; by right).
  change (all_channels (b :: ?x) chans) with (all_channels x (add_channel chans (reported b))).
  assert (Hskip : objects b = false → reported b = None → obss_loop t l chans n = Ret
    (all_channels (entries_at t l) (add_channel chans (reported b)),
     (n + objecting (b :: entries_at t l)) mod 256)).
  { intros Ho ->. unfold objecting at 1. rewrite filter_cons_False by congruence. by apply IH. }
  unfold reported, objects in Hskip |- *. destruct (channel_24 b) as [ch|] eqn:Ech; [|by apply Hskip].
  cbn [mbind option_bind] in Hskip |- *. destruct (ht_cap_info_ends b Hok) as [x Ex]. rewrite Ex. ret_simpl.
  replace x with (ht_of b) by (unfold ht_of; by rewrite Ex). fold (intolerant b).
  destruct ((ht_of b =? 0) || intolerant b) eqn:Er.
  2: { apply orb_false_iff in Er as [_ Ei]. apply Hskip; [|done]. by rewrite Ei, andb_false_r. }
  clear Hskip. cbn [add_channel]. set (n1 := if intolerant b then _ else n).
  assert (Hn1 : 0 ≤ n1 < 256 ∧ ∀ k, (n1 + objecting k) mod 256 =
                 (n + objecting (b :: k)) mod 256).
  { subst n1. destruct (intolerant b) eqn:Ei.
    - split; [apply Z.mod_pos_bound; lia|]. intros k.
      unfold objecting. rewrite filter_cons_True by (unfold objects; by rewrite Ech, Ei).
      rewrite Zplus_mod_idemp_l. f_equal. cbn [length]. lia.
    - split; [done|]. intros k. unfold objecting. rewrite filter_cons_False; [done|]. unfold objects. by rewrite Ei, andb_false_r. }
  destruct Hn1 as [Hn1 Hk]. pose proof (channel_24_range b ch Ech) as Hr.
  destruct (add_channel_ok chans (Some ch) Hnd Hc) as [Ha1 Ha2]; [by intros ? [= <-]|]. cbn [add_channel] in *.
  destruct (existsb (Z.eqb ch) chans); [by rewrite IH, Hk|].
  pose proof (few_channels chans Hnd Hc). rewrite (proj2 (Z.ltb_lt _ P2P_MAX_CHANNELS)) by (unfold P2P_MAX_CHANNELS; lia).
  by rewrite IH, Hk.
Qed.

(** What the report is made of. *)
Definition report_of (malloc_ok : Z → bool) (t : bss_table) (stop : bool) (chans : list Z) : option (list Z) :=
  if stop then None
  else if malloc_ok (SIZEOF_WPABUF + (8 + strlen chans))
  then Some (coex_frame chans (objecting (entries_at t (bss_lru t)) mod 256))
  else None.

Lemma obss_report_spec malloc_ok t c :
  (∀ p, p ∈ bss_lru t → ∃ b, heap t !! p = Some b ∧ bss_ok b) → c ∈ bss_lru t →
  ∃ b stop chans, heap t !! c = Some b ∧ uses_op_class b = Ret stop ∧
    obss_report malloc_ok t c = Ret (report_of malloc_ok t stop chans) ∧
    NoDup chans ∧ strlen chans ≤ 14 ∧
    ∀ ch, ch ∈ chans ↔ ∃ b, b ∈ entries_at t (bss_lru t) ∧ reported b = Some ch.
Proof.
  intros Ht Hc. destruct (Ht c Hc) as (b & Hb & Hok). unfold obss_report, deref. rewrite Hb. ret_simpl.
  destruct (uses_op_class_ends b Hok) as [stop Es]. rewrite Es. ret_simpl.
  destruct (all_channels_ok (entries_at t (bss_lru t)) []) as [H1 H2]; [apply NoDup_nil_2|done|].
  pose proof (few_channels _ H1 H2).
  exists b, stop, (all_channels (entries_at t (bss_lru t)) []). split_and!; [done|done| |done|done|].
  - unfold report_of. destruct stop; [done|].
    rewrite obss_loop_spec; [|exact Ht|apply NoDup_nil_2|done|done]. ret_simpl. by rewrite coex_spec by lia.
  - intros ch. rewrite all_channels_elem. split; [by intros [?%not_elem_of_nil|?]|by right].
Qed.

(** C28: The report on overlapping networks is safe and complete: whatever the
    entries of the table, nothing is read outside of their elements. There is
    no report when the current entry names an operating class in its Country
    element; otherwise the list of channels, which has room for fifty, gets
    each of at most fourteen channels once, and, if there is memory for it, a
    frame names exactly the channels of the 2.4 GHz entries without HT or with
    the intolerant bit, and asks for 20 MHz if the number of the latter, modulo
    256, is not zero. *)
Theorem obss_report_frame malloc_ok t c :
  table_ok t → c ∈ bss_lru t →
  ∃ b stop chans, heap t !! c = Some b ∧ uses_op_class b = Ret stop ∧
    obss_report malloc_ok t c = Ret (report_of malloc_ok t stop chans) ∧
    NoDup chans ∧ strlen chans ≤ 14 ∧
    ∀ ch, ch ∈ chans ↔ ∃ b, b ∈ entries_at t (bss_lru t) ∧ reported b = Some ch.
Proof.
  intros Ht Hc. apply obss_report_spec; [|done]. intros p Hp. destruct (deref_ok t p Ht Hp) as (b & ? & _ & ?). eauto.
Qed.

Lemma obss_report_frame_witness :
  ∃ b stop chans, heap stale_table !! 1000 = Some b ∧ uses_op_class b = Ret stop ∧
    obss_report (λ _, true) stale_table 1000 = Ret (report_of (λ _, true) stale_table stop chans) ∧
    NoDup chans ∧ strlen chans ≤ 14 ∧
    ∀ ch, ch ∈ chans ↔ ∃ b, b ∈ entries_at stale_table (bss_lru stale_table) ∧ reported b = Some ch.
Proof.
  apply (obss_report_frame (λ _, true) stale_table 1000); [apply stale_ok|].
  assert (E : existsb (Z.eqb 1000) (bss_lru stale_table) = true) by by vm_compute.
  rewrite existsb_elem in E. by apply bool_decide_eq_true in E.
Defined.

(** The entries of that table are on channel 1 and without HT. *)
Example stale_report : obss_report (λ _, true) stale_table 1000 = Ret (Some [4; 0; 72; 1; 0; 73; 2; 0; 1]).
Proof. by vm_compute. Qed.
