(* ===== verification/ScanEvent.v ===== *)
(** * The event of scan results (wpa_supplicant/events.c, scan.c)

    What the daemon does when the driver says that a scan is over: the results
    go into the table of BSS entries (ScanSort), are announced, and a network
    is chosen from them and connected to (Select, Connect), or the scan was
    made for something else: an external program, a command that only asked
    for results, or the report on overlapping networks (Obss).

    The build of the repository has no CONFIG_AP, CONFIG_WNM, CONFIG_AUTOSCAN, CONFIG_WPS,
    CONFIG_P2P and CONFIG_INTERWORKING and no module for background scans, so
    their hooks do nothing and [scan_only_handler] is the only handler there
    is.  Other interfaces on the same radio are left out.

    From a daemon in order and results that a driver may deliver, the event
    ends without undefined behaviour, leaves the daemon in order and has freed
    the results, each once; a daemon that was told to stay disconnected stays
    so. *)

From stdpp Require Import gmap sorting.
From S2P Require Import Prelude CString WpaIe WpaSpec CommonLists Network Blacklist Wpabuf Bss SmartlistOrder BssTable BssTableSpec.
From S2P Require Import ConfigSsid ConfigText ConfigVars ConfigSsidSpec CtrlNetwork CtrlNetworkSpec.
From S2P Require Import Select SelectFits SelectSpec SelectPick Connect ConnectSpec ConnectKeep ConnectCmd ConnectCtrl.
From S2P Require Import ScanSort Channels Obss.
From coqutil Require Import Datatypes.RecordSetters.
Import DoubleBraceUpdate.

(** The fields of [struct wpa_supplicant] for the scan itself. *)
Record scan_state : Type := ScanState {
  last_scan_req : Z;
  manual_scan_use_id : bool;
  manual_scan_id : Z;
  own_scan_running : bool;
  scan_work : bool;                   (* wpa_s->scan_work *)
  scan_only : bool;                   (* scan_res_handler, when it is scan_only_handler *)
  sched_obss_scan : bool;             (* sme.sched_obss_scan *)
  scan_prev_wpa_state : Z
}.

(** [data]: the scan, and whether another program asked for it. *)
Definition event_data : Type := option (scan_info * bool).

Definition external_scan (data : event_data) : bool := match data with Some (_, e) => e | None => false end.

(** [radio_work_done] of the work of the scan. *)
Definition scan_work_done (c : conn) (s : scan_state) : conn * scan_state :=
  if scan_work s then (does (c {{ scan_running := false }}) [WorkDone], s {{ scan_work := false }}) else (c, s).

Definition announce_results (c : conn) (s : scan_state) (own : bool) : conn * scan_state :=
  if (last_scan_req s =? MANUAL_SCAN_REQ) && manual_scan_use_id s && own_scan_running s && own
  then (does c [EvScanResults (Some (manual_scan_id s))], s {{ manual_scan_use_id := false }})
  else (does c [EvScanResults None], s).

(** [wpas_notify_scan_results] and [wpas_notify_scan_done]. *)
Definition notify_results (c : conn) : conn :=
  if p2p_mgmt (cu c) then c else does c [ScanResultsNotified; ScanDoneNotified true].

Definition scan_only_handler (c : conn) (s : scan_state) : outcome (conn * scan_state) :=
  let '(c, s) := announce_results c s true in
  let c := notify_results c in
  let '(c, s) := scan_work_done c s in
  c ← (if state_of c =? WPA_SCANNING then wpa_supplicant_set_state c (scan_prev_wpa_state s) else Ret c);
  Ret (c, s).

(** The bytes that the first results give to the pool of random numbers. *)
Definition random_bytes (r : wpa_scan_res) : outcome (list Z) :=
  b ← u8_at (res_bssid r) 5;
  Ret [b; byte (res_qual r); byte (res_noise r); byte (res_level r); byte (res_tsf r)].

Fixpoint feed_random (c : conn) (h : gmap Z wpa_scan_res) (l : list Z) : outcome conn :=
  match l with
  | [] => Ret c
  | p :: l' => r ← res_at h p; b ← random_bytes r; feed_random (does c [Randomness b]) h l'
  end.

(** Whether the scan was made for the report. *)
Definition sme_proc_obss_scan (malloc_ok : Z → bool) (c : conn) (s : scan_state)
    : outcome (bool * conn * scan_state) :=
  if negb (sched_obss_scan s) then Ret (false, c, s)
  else
    let s := s {{ sched_obss_scan := false }} in
    match current_bss (table_of c) with
    | Some p =>
        if negb (state_of c =? WPA_COMPLETED) then Ret (true, c, s)
        else
          f ← obss_report malloc_ok (table_of c) p;
          Ret (true, match f with
                     | Some f => does c [DrvSendAction (assoc_freq c) (own_bssid (table_of c)) f]
                     | None => c
                     end, s)
    | None => Ret (true, c, s)
    end.

Section event.
Context `{Qsort} (env : surroundings) (malloc_ok : Z → bool) (capab : local_hw_capab).
Context (answer : bss_table → wpa_scan_res → oracle).

(** The label [scan_work_done]; [res] is the memory of the results. *)
Definition end_event (ret : Z) (c : conn) (s : scan_state) (res : option scan_mem) (own_request : bool)
    : outcome (Z * conn * scan_state * option scan_mem) :=
  res ← wpa_scan_results_free res;
  let '(c, s) := if own_request then scan_work_done c s else (c, s) in
  Ret (ret, c, s, res).

(** From the results to a connection. *)
Definition use_results (c : conn) (s : scan_state) (res : option scan_mem) (own_request : bool)
    : outcome (Z * conn * scan_state * option scan_mem) :=
  '(obss, c, s) ← sme_proc_obss_scan malloc_ok c s;
  if (obss : bool) then end_event 0 c s res own_request
  else if ap_scan (cu c) =? 2 then end_event 0 c s res own_request
  else if disconnected c then
    c ← wpa_supplicant_set_state c WPA_DISCONNECTED; end_event 0 c s res own_request
  else if (WPA_AUTHENTICATING <=? state_of c) && (state_of c <? WPA_COMPLETED)
  then end_event 0 c s res own_request
  else
    '(_, c, s, res) ← end_event 0 c s res own_request;
    '(r, c) ← wpas_select_network_from_last_scan env c true own_request;
    Ret (r, c, s, res).

Definition _wpa_supplicant_event_scan_results (c : conn) (s : scan_state) (data : event_data) (own_request : bool)
    (drv : option wpa_scan_results) (now end_now : Z * Z)
    : outcome (Z * conn * scan_state * option scan_mem) :=
  let c := wpa_supplicant_notify_scanning c false in
  '(res, t) ← wpa_supplicant_get_scan_results false malloc_ok capab answer (table_of c) drv (fst <$> data) true
                now end_now;
  match res with
  | None =>
      if (ap_scan (cu c) =? 2) || scan_only s then Ret (-1, c, s, None)
      else if negb own_request then Ret (-1, c, s, None)
      else if external_scan data then Ret (-1, c, s, None)
      else c ← wpa_supplicant_req_new_scan c 1 0; end_event (-1) c s None own_request
  | Some res =>
      let mem := ScanMem res true in
      let c := take_table c t in
      res ← results_of mem;
      c ← feed_random c (sr_heap res) (take 10 (sr_res res));
      if own_request && scan_only s && negb (external_scan data) then
        '(c, s) ← scan_only_handler c (s {{ scan_only := false }});
        end_event (-2) c s (Some mem) own_request
      else
        let '(c, s) := announce_results c s (own_request && negb (external_scan data)) in
        let c := notify_results c in
        if external_scan data then res ← wpa_scan_results_free (Some mem); Ret (0, c, s, res)
        else use_results c s (Some mem) own_request
  end.
End event.

(** ** Levels in the table *)

(** Every entry's level is [P]; calls on results with such a level keep this. *)
Section levels.
Context (P : Z → Prop).

Definition levels (t : bss_table) : Prop := ∀ p b, heap t !! p = Some b → P (bss_level b).

Lemma levels_heap t t' : heap t' = heap t → levels t → levels t'.
Proof. unfold levels. by intros ->. Qed.

Lemma levels_insert t t' p b : levels t → P (bss_level b) → heap t' = <[p := b]> (heap t) → levels t'.
Proof. intros H Hb E q x. rewrite E. intros [[_ <-]|[_ Hx]]%lookup_insert_Some; [done|by eapply H]. Qed.

Lemma levels_delete t t' p : levels t → heap t' = delete p (heap t) → levels t'.
Proof. intros H E q x. rewrite E. intros [_ Hx]%lookup_delete_Some. by eapply H. Qed.

Lemma remove_levels t p t' : levels t → wpa_bss_remove t p = Ret t' → levels t'.
Proof.
  unfold wpa_bss_remove. intros H (b & _ & E)%outcome_bind_inv. injection E as <-.
  eapply levels_delete; [exact H|]. cbn [heap notify with_lists]. f_equal.
  by destruct (pending_fields (with_pointers t (unlink_ptr (last_scan_res t) p) (last_scan_res_size t)
    (current_bss t) (connect_work t)) p None) as (-> & _).
Qed.

Lemma remove_oldest_levels t r t' : levels t → wpa_bss_remove_oldest t = Ret (r, t') → levels t'.
Proof.
  unfold wpa_bss_remove_oldest, wpa_bss_remove_oldest_unknown.
  intros H ([r1 t1] & E1 & E2)%outcome_bind_inv.
  assert (H1 : levels t1).
  { apply outcome_bind_inv in E1 as ([p|] & _ & E1); [|by injection E1 as _ <-].
    apply outcome_bind_inv in E1 as (x & Ex & E1). injection E1 as _ <-. by eapply remove_levels. }
  destruct (r1 =? 0); [by injection E2 as _ <-|].
  apply outcome_bind_inv in E2 as ([p|] & _ & E2); [|by injection E2 as _ <-].
  apply outcome_bind_inv in E2 as (x & Ex & E2). injection E2 as _ <-. by eapply remove_levels.
Qed.

Lemma add_levels t ssid res fetch alloc r t' : levels t → P (res_level res) →
  wpa_bss_add t ssid res fetch alloc = Ret (r, t') → levels t'.
Proof.
  unfold wpa_bss_add. intros H Hr. destruct alloc as [p|]; [|by intros [= _ <-]].
  intros (ies & _ & E)%outcome_bind_inv. apply outcome_bind_inv in E as (t1 & E1 & E). injection E as _ <-.
  eapply (levels_insert t1); [| |reflexivity]; [|exact Hr].
  case_match; [|by injection E1 as <-].
  apply outcome_bind_inv in E1 as ([x t2] & E2 & E1). apply remove_oldest_levels in E2; [|done].
  injection E1 as <-. by destruct (negb (x =? 0)).
Qed.

Lemma update_levels p2p malloc_ok t p res fetch realloc r t' : levels t → P (res_level res) →
  wpa_bss_update p2p malloc_ok t p res fetch realloc = Ret (r, t') → levels t'.
Proof.
  unfold wpa_bss_update. intros H Hr (b & _ & E)%outcome_bind_inv. apply outcome_bind_inv in E as (ch & _ & E).
  apply outcome_bind_inv in E as ([q t1] & E1 & E). injection E as _ <-.
  set (b1 := wpa_bss_copy_res _ _ _) in E1. set (t0 := with_lists _ _ _ _ _) in E1.
  assert (Hb : P (bss_level b1)) by exact Hr. assert (H0 : levels t0) by exact H. clearbody b1 t0.
  eapply (levels_heap t1); [done|]. unfold update_ies in E1. apply outcome_bind_inv in E1 as (keep & _ & E1).
  assert (Hst : ∀ b', P (bss_level b') → levels (store_entry t0 p b')) by (intros; by eapply levels_insert).
  destruct keep; [injection E1 as _ <-; by apply Hst|].
  apply outcome_bind_inv in E1 as (ies & _ & E1). case_match; [injection E1 as _ <-; by apply Hst|].
  destruct realloc as [x|]; injection E1 as _ <-; [|by apply Hst].
  destruct (move_fields t0 p x (with_ies b1 (res_ie_len res) (res_beacon_ie_len res) ies)) as (F & _).
  intros y z. rewrite F. intros [[_ <-]|[_ [_ Hz]%lookup_delete_Some]]%lookup_insert_Some; [done|by eapply H0].
Qed.

Lemma push_levels t p ok : levels t → levels (push_scan_res t p ok).
Proof. intros H. apply (levels_heap t); [|done]. unfold push_scan_res. by repeat case_match. Qed.

Lemma update_scan_res_levels p2p malloc_ok t res fetch o t' : levels t → P (res_level res) →
  wpa_bss_update_scan_res p2p malloc_ok t res fetch o = Ret t' → levels t'.
Proof.
  unfold wpa_bss_update_scan_res. intros H Hr. case_match; [by intros [= <-]|].
  intros ([ssid|] & _ & E)%outcome_bind_inv; [|by injection E as <-].
  apply outcome_bind_inv in E as ([p|] & _ & E); apply outcome_bind_inv in E as ([q t1] & E1 & E); injection E as <-.
  - apply update_levels in E1; [|done..]. case_match; [done|by apply push_levels].
  - apply add_levels in E1; [|done..]. destruct q; [by apply push_levels|done].
Qed.

Lemma enter_loop_levels p2p malloc_ok answer h fetch l : ∀ t t', levels t →
  (∀ p r, p ∈ l → h !! p = Some r → P (res_level r)) →
  enter_loop p2p malloc_ok answer h fetch t l = Ret t' → levels t'.
Proof.
  induction l as [|p l IH]; intros t t' H Hl; cbn [enter_loop]; [by intros [= <-]|].
  intros (r & Er & E)%outcome_bind_inv. apply need_Ret in Er. apply outcome_bind_inv in E as (t1 & E1 & E).
  eapply IH; [|intros q x Hq; apply Hl; by right|exact E].
  eapply update_scan_res_levels; [exact H| |exact E1]. eapply Hl; [by left|done].
Qed.

Lemma expire_loop_levels info l : ∀ t t', levels t → expire_loop info t l = Ret t' → levels t'.
Proof.
  induction l as [|p l IH]; intros t t' H; cbn [expire_loop]; [by intros [= <-]|].
  intros (u & _ & E)%outcome_bind_inv. destruct u; [by eapply IH|].
  apply outcome_bind_inv in E as (b & Eb & E). apply need_Ret in Eb. case_match; [by eapply IH|].
  apply outcome_bind_inv in E as (t1 & E1 & E). apply IH in E; [done|].
  set (t0 := store_entry t p _) in E1.
  assert (Hlev : levels t0) by (eapply levels_insert; [exact H| |reflexivity]; exact (H p b Eb)).
  case_match; [by eapply remove_levels|by injection E1 as <-].
Qed.

Lemma update_end_levels t info new_scan now t' : levels t → wpa_bss_update_end t info new_scan now = Ret t' → levels t'.
Proof.
  unfold wpa_bss_update_end. intros H. case_match; [by intros [= <-]|]. apply expire_loop_levels. exact H.
Qed.

Lemma scored_same capab r r' : scored capab r r' → res_level r' = res_level r ∧ res_bssid r' = res_bssid r.
Proof.
  intros (r1 & E1 & E2). unfold scan_snr in E1. apply outcome_bind_inv in E1 as (snr & _ & E1). injection E1 as <-.
  unfold scan_est_throughput in E2. case_match; [by injection E2 as <-|].
  repeat (let E := fresh "E" in apply outcome_bind_inv in E2 as (? & E & E2); clear E). by injection E2 as <-.
Qed.

Lemma get_scan_results_levels `{Qsort} p2p malloc_ok capab answer t drv info new_scan now end_now out t' : levels t →
  wpa_supplicant_get_scan_results p2p malloc_ok capab answer t drv info new_scan now end_now = Ret (Some out, t') →
  (∀ p r, p ∈ sr_res out → sr_heap out !! p = Some r → P (res_level r)) → levels t'.
Proof.
  unfold wpa_supplicant_get_scan_results. intros Ht. destruct drv as [res|]; [|discriminate].
  intros (res1 & _ & E)%outcome_bind_inv. apply outcome_bind_inv in E as (h & _ & E).
  apply outcome_bind_inv in E as (l & _ & E). apply outcome_bind_inv in E as (t1 & E1 & E).
  apply outcome_bind_inv in E as (t2 & E2 & E). injection E as <- <-. cbn [sr_res sr_heap]. intros Hl.
  eapply update_end_levels; [|exact E2]. eapply enter_loop_levels; [|exact Hl|exact E1]. exact Ht.
Qed.
End levels.

(** ** Freeing *)

Lemma free_loop_ends l : ∀ h, NoDup l → (∀ p, p ∈ l → is_Some (h !! p)) →
  ∃ h', free_loop h l = Ret h' ∧ ∀ p, h' !! p = if bool_decide (p ∈ l) then None else h !! p.
Proof.
  induction l as [|p l IH]; intros h Hn Hl; cbn [free_loop]; [by exists h|]. apply NoDup_cons in Hn as [Hp Hn].
  destruct (Hl p) as [r Hr]; [by left|]. unfold res_at. rewrite Hr. ret_simpl.
  destruct (IH (delete p h) Hn) as (h' & -> & Hh).
  { intros q Hq. rewrite lookup_delete_ne by (intros ->; done). apply Hl. by right. }
  exists h'. split; [done|]. intros q. rewrite Hh. destruct (decide (q = p)) as [->|Hne].
  - rewrite lookup_delete_eq, (bool_decide_true (p ∈ p :: l)) by (by left). by case_bool_decide.
  - rewrite lookup_delete_ne by done.
    by rewrite (bool_decide_ext (q ∈ l) (q ∈ p :: l)) by (rewrite elem_of_cons; tauto).
Qed.

(** The structure of the results, its array and its objects are freed, and
    nothing else. *)
Definition freed (res : option wpa_scan_results) (mem : option scan_mem) : Prop :=
  match res, mem with
  | None, None => True
  | Some res, Some m => sm_live m = false ∧
      ∀ p, sr_heap (sm_res m) !! p = if bool_decide (p ∈ sr_res res) then None else sr_heap res !! p
  | _, _ => False
  end.

(** ** The event *)

(** Results that can be freed and looked at. *)
Record results_ok (out : wpa_scan_results) : Prop := ResultsOk {
  rs_distinct : NoDup (sr_res out);
  rs_live : ∀ p, p ∈ sr_res out → ∃ r, sr_heap out !! p = Some r ∧ (6 <= length (res_bssid r))%nat
}.

Section event.
Context (told : Prop) (env : surroundings) (malloc_ok : Z → bool).

Local Notation good := (good told any).
Local Notation quiet := (quiet told).

Lemma work_done_scan B c s : conn_ok B c → good B c (scan_work_done c s).1.
Proof. intros H. unfold scan_work_done. case_if; by_data. Qed.

Lemma announce_good B c s own : conn_ok B c → good B c (announce_results c s own).1 ∧
  scan_prev_wpa_state (announce_results c s own).2 = scan_prev_wpa_state s.
Proof. intros H. unfold announce_results. case_if; (split; [by_data|done]). Qed.

Lemma notify_good B c : conn_ok B c → good B c (notify_results c).
Proof. intros H. unfold notify_results. case_if; by_data. Qed.

Lemma feed_random_good B h l : ∀ c, conn_ok B c →
  (∀ p, p ∈ l → ∃ r, h !! p = Some r ∧ (6 <= length (res_bssid r))%nat) →
  ∃ c', feed_random c h l = Ret c' ∧ good B c c'.
Proof.
  induction l as [|p l IH]; intros c H Hl; cbn [feed_random]; [exists c; split; [done|by_data]|].
  destruct (Hl p) as (r & Hr & Hlen); [by left|]. unfold res_at. rewrite Hr. ret_simpl. unfold random_bytes.
  destruct (u8_at_Ret (res_bssid r) 5) as (b & -> & _); [lia|]. ret_simpl.
  destruct (IH (does c [Randomness [b; byte (res_qual r); byte (res_noise r); byte (res_level r); byte (res_tsf r)]]))
    as (c' & E & G); [exact H|intros q Hq; apply Hl; by right|].
  exists c'. split; [exact E|]. eapply (frame_trans _ _ B B); [|exact G]. by_data.
Qed.

(** The event's answer is [m]. *)
Definition event_ends (B : Z) (c : conn) (out : option wpa_scan_results)
    (m : outcome (Z * conn * scan_state * option scan_mem)) : Prop :=
  ∃ r c' s' mem, m = Ret (r, c', s', mem) ∧ conn_ok B c' ∧ quiet c c' ∧ freed out mem.

Lemma ends_from B B' c c1 out m : good B c c1 → event_ends B' c1 out m → event_ends B' c out m.
Proof.
  intros G (r & c' & s' & mem & -> & H & Q & F). exists r, c', s', mem. split_and!; [done..| |done].
  eapply quiet_trans; [by eapply good_quiet|exact Q].
Qed.

(** The results as they are before they are freed. *)
Definition mem_of (out : option wpa_scan_results) : option scan_mem := (λ res, ScanMem res true) <$> out.

Lemma free_ends out : (∀ res, out = Some res → results_ok res) →
  ∃ mem, wpa_scan_results_free (mem_of out) = Ret mem ∧ freed out mem.
Proof.
  destruct out as [out|]; [|by eexists]. intros Hr. destruct (Hr out eq_refl) as [Hn Hl].
  destruct (free_loop_ends (sr_res out) (sr_heap out) Hn) as (h & E & Hh).
  { intros p Hp. destruct (Hl p Hp) as (r & -> & _). by eexists. }
  cbn [mem_of fmap option_fmap option_map wpa_scan_results_free]. unfold results_of. cbn [sm_live sm_res].
  ret_simpl. rewrite E. ret_simpl. by eexists.
Qed.

Lemma end_event_spec B r c s out own : conn_ok B c → (∀ res, out = Some res → results_ok res) →
  ∃ c' s' mem, end_event r c s (mem_of out) own = Ret (r, c', s', mem) ∧ good B c c' ∧ freed out mem.
Proof.
  intros H Hr. unfold end_event. destruct (free_ends out Hr) as (mem & -> & Hm). ret_simpl.
  destruct own; [|exists c, s, mem; split_and!; [done|by_data|done]].
  pose proof (work_done_scan B c s H) as G. unfold scan_work_done in *.
  destruct (scan_work s); (do 3 eexists; split_and!; [done|exact G|done]).
Qed.

Lemma end_event_ends B B' r c s out own : B ≤ B' → conn_ok B c → (∀ res, out = Some res → results_ok res) →
  event_ends B' c out (end_event r c s (mem_of out) own).
Proof.
  intros HB H Hr. destruct (end_event_spec B r c s out own H Hr) as (c' & s' & mem & E & G & F).
  exists r, c', s', mem. split_and!; [done|by eapply sys_ok_more, gd_ok|by eapply good_quiet|done].
Qed.

Lemma obss_spec B c s : conn_ok B c → ∃ b c' s', sme_proc_obss_scan malloc_ok c s = Ret (b, c', s') ∧ good B c c'.
Proof.
  intros H. unfold sme_proc_obss_scan. case_if; [exists false, c, s; split; [done|by_data]|].
  destruct (current_bss (table_of c)) as [p|] eqn:Ep; [|exists true, c; eexists; split; [done|by_data]].
  case_if; [exists true, c; eexists; split; [done|by_data]|].
  destruct (obss_report_spec malloc_ok (table_of c) p) as (b & stop & chans & _ & _ & -> & _).
  - intros q Hq. destruct (so_bss _ (ys_sel _ _ _ H)) as [_ T _]. by apply T.
  - by apply (ys_bss _ _ _ H).
  - ret_simpl. do 3 eexists. split; [done|]. destruct (report_of _ _ _ _); by_data.
Qed.

Lemma use_results_ends B c s res own : conn_ok B c → 0 ≤ B ≤ MANY_STEPS → (told → disconnected c = true) →
  results_ok res → event_ends (B + 6) c (Some res) (use_results env malloc_ok c s (mem_of (Some res)) own).
Proof.
  intros H HB Ht Hr. unfold use_results. destruct (obss_spec B c s H) as (b & c1 & s1 & -> & G1). ret_simpl.
  apply (ends_from B _ _ c1); [done|]. assert (H1 : conn_ok B c1) by apply G1.
  assert (Hres : ∀ out, Some res = Some out → results_ok out) by (by intros ? [= <-]).
  assert (Hend : ∀ r, event_ends (B + 6) c1 (Some res) (end_event r c1 s1 (mem_of (Some res)) own)).
  { intros r. apply (end_event_ends B); [lia|done..]. }
  case_if; [done|]. case_if; [done|].
  assert (Ht1 : told → disconnected c1 = true).
  { intros t. destruct (good_quiet _ _ _ _ _ G1) as [Q _ _ _ _]. by apply Q, Ht. }
  destruct (disconnected c1) eqn:Ed.
  { destruct (state_runs told any B c1 WPA_DISCONNECTED H1) as (c2 & Es & G2 & _); [small|done|]. rewrite Es. ret_simpl.
    apply (ends_from B _ _ c2); [exact G2|]. apply (end_event_ends B); [lia|apply G2|done]. }
  case_if; [done|]. destruct (end_event_spec B 0 c1 s1 (Some res) own H1 Hres) as (c2 & s2 & mem & -> & G2 & F2). ret_simpl.
  apply (ends_from B _ _ c2); [done|].
  destruct (select_answers told any env B c2 true own) as ([r c3] & -> & G3); [apply G2|small| |by intros ?|].
  { intros t. by specialize (Ht1 t). }
  ret_simpl. exists r, c3, s2, mem. split_and!; [done|apply G3|by eapply good_quiet|done].
Qed.

Lemma scan_only_ends B c s out own : conn_ok B c → 0 ≤ B ≤ MANY_STEPS → results_ok out →
  scan_prev_wpa_state s ≠ WPA_INTERFACE_DISABLED →
  event_ends B c (Some out) ('(c, s) ← scan_only_handler c s; end_event (-2) c s (mem_of (Some out)) own).
Proof.
  intros H HB Hr Hs. unfold scan_only_handler.
  destruct (announce_good B c s true H) as [G1 E1]. destruct (announce_results c s true) as [c1 s1].
  cbn [fst snd] in *. assert (G2 := notify_good B c1 (gd_ok _ _ _ _ _ G1)).
  assert (G3 := work_done_scan B (notify_results c1) s1 (gd_ok _ _ _ _ _ G2)).
  assert (E3 : scan_prev_wpa_state (scan_work_done (notify_results c1) s1).2 = scan_prev_wpa_state s1).
  { unfold scan_work_done. by case_if. }
  destruct (scan_work_done (notify_results c1) s1) as [c3 s3]. cbn [fst snd] in *.
  apply (ends_from B _ _ c3); [eapply frame_trans; [exact G1|]; by eapply frame_trans|].
  assert (Hres : ∀ o, Some out = Some o → results_ok o) by (by intros ? [= <-]).
  assert (H3 : conn_ok B c3) by apply G3. case_if.
  - destruct (state_runs told any B c3 (scan_prev_wpa_state s3) H3) as (c4 & E4 & G4 & _); [small|congruence|].
    rewrite E4. ret_simpl. apply (ends_from B _ _ c4); [exact G4|]. apply (end_event_ends B); [lia|apply G4|done].
  - ret_simpl. by apply (end_event_ends B).
Qed.

(** What the driver may deliver: objects that are delivered, levels of a
    radio, few enough for the identifiers, and a comparison that is an order
    on what is sorted. *)
Record deliverable (capab : local_hw_capab) (t : bss_table) (res : wpa_scan_results) : Prop := Deliverable {
  dv_delivered : delivered res;
  dv_levels : ∀ p r, p ∈ sr_res res → sr_heap res !! p = Some r → -1000000 ≤ res_level r ≤ 1000000;
  dv_count : bss_next_id t + Z.of_nat (length (sr_res res)) ≤ 2 ^ 32 - 1;
  dv_order : ∀ rs, scored_results capab t res = Ret rs → consistentb rs = true
}.

Lemma event_spec `{QsortOk} capab answer B c s data own drv now end_now :
  conn_ok B c → 0 ≤ B ≤ MANY_STEPS → (told → disconnected c = true) →
  scan_prev_wpa_state s ≠ WPA_INTERFACE_DISABLED → allocates false answer →
  table_ok (table_of c) → 0 ≤ bss_update_idx (table_of c) < 2 ^ 32 - 1 → 0 ≤ bss_next_id (table_of c) →
  (∀ res, drv = Some res → deliverable capab (table_of c) res) →
  event_ends (B + 6) c drv
    (_wpa_supplicant_event_scan_results env malloc_ok capab answer c s data own drv now end_now).
Proof.
  intros Hc HB Ht Hs Hans Htab Hidx Hid Hdrv. unfold _wpa_supplicant_event_scan_results.
  destruct (notify_scanning_good told any B c false Hc) as [G1 E1].
  assert (Etab : table_of (wpa_supplicant_notify_scanning c false) = table_of c).
  { unfold wpa_supplicant_notify_scanning. by case_if. }
  set (c1 := wpa_supplicant_notify_scanning c false) in *. assert (H1 : conn_ok B c1) by apply G1.
  rewrite <- E1 in Ht. rewrite <- Etab in Htab, Hidx, Hid, Hdrv.
  apply (ends_from B _ _ c1); [exact G1|]. clear E1 Etab G1 Hc. clearbody c1.
  destruct drv as [res|].
  2: { cbn [wpa_supplicant_get_scan_results]. ret_simpl.
       assert (Hstay : event_ends (B + 6) c1 None (Ret (-1, c1, s, None))).
       { exists (-1), c1, s, None. split_and!; [done|apply (sys_ok_more B); [lia|done]|apply quiet_refl|done]. }
       case_if; [done|]. case_if; [done|]. case_if; [done|].
       destruct (req_new_scan_runs told any B c1 1 0 H1) as (c2 & Ec2 & G2 & _); [small|]. rewrite Ec2. ret_simpl.
       apply (ends_from B _ _ c2); [exact G2|]. apply (end_event_ends B _ _ _ _ None); [lia|apply G2|done]. }
  destruct (Hdrv res eq_refl) as [Hdel Hlev Hcount Horder].
  destruct (get_scan_results_ok false malloc_ok capab answer Hans (table_of c1) res (fst <$> data) true now end_now)
    as (out & t & Eget & Htok & Hnd & _ & Hout & Hrest); [done..|].
  rewrite Eget. ret_simpl.
  assert (Hr : results_ok out).
  { split; [done|]. intros p Hp. destruct (Hout p) as [H2 H3]. destruct (H3 Hp) as (r & r' & Hr & Hsc & Hr').
    exists r'. split; [done|]. destruct (scored_same _ _ _ Hsc) as [_ ->]. apply H2 in Hp as [Hp _].
    destruct (dl_results _ Hdel p Hp) as (r0 & Hr0 & [_ _ [Hb _]] & _). rewrite Hr in Hr0. injection Hr0 as <-. lia. }
  assert (Hfine : conn_ok B (take_table c1 t) ∧ ConnectSpec.calm told any c1 (take_table c1 t)).
  { apply take_table_fine.
    - apply sys_ok_table; [exact H1|by apply table_entries| |].
      + intros p Hp. destruct (tk_current t Htok p Hp) as (b & Hb & _). apply (tk_heap t Htok). by eexists.
      + apply (get_scan_results_levels (λ l, -1000000 ≤ l ≤ 1000000)) in Eget; [exact Eget|exact (ys_levels _ _ _ H1)|].
        intros p r Hp Hr1. destruct (Hout p) as [H2 H3]. destruct (H3 Hp) as (r0 & r' & Hr0 & Hsc & Hr').
        rewrite Hr1 in Hr'. injection Hr' as ->. destruct (scored_same _ _ _ Hsc) as [-> _].
        apply H2 in Hp as [Hp _]. by eapply Hlev.
    - split; [done|done|done| |apply from_old_refl..]. by split. }
  destruct Hfine as [H2 C2]. set (c2 := take_table c1 t) in *.
  assert (Q2 : quiet c1 c2) by (by destruct C2). clearbody c2.
  assert (Ht2 : told → disconnected c2 = true) by (intros tt; destruct Q2 as [Q _ _ _ _]; by apply Q, Ht).
  cut (event_ends (B + 6) c2 (Some out) (c ← feed_random c2 (sr_heap out) (take 10 (sr_res out));
    if own && scan_only s && negb (external_scan data) then
      '(c, s) ← scan_only_handler c (s {{ scan_only := false }}); end_event (-2) c s (mem_of (Some out)) own
    else let '(c, s) := announce_results c s (own && negb (external_scan data)) in
      let c := notify_results c in
      if external_scan data then res ← wpa_scan_results_free (mem_of (Some out)); Ret (0, c, s, res)
      else use_results env malloc_ok c s (mem_of (Some out)) own)).
  { intros (r & c' & s' & mem & E & H' & Q & F). exists r, c', s', mem.
    split_and!; [exact E|done|by eapply quiet_trans|]. destruct mem as [mem|]; [|done]. destruct F as [Fl Fp].
    split; [done|]. intros p. rewrite Fp. case_bool_decide as Hp; [|by apply Hrest].
    by rewrite bool_decide_true by (by apply Hout). }
  destruct (feed_random_good B (sr_heap out) (take 10 (sr_res out)) c2 H2) as (c3 & -> & G3).
  { intros p Hp. apply (rs_live _ Hr). rewrite <- (take_drop 10 (sr_res out)). apply elem_of_app. by left. }
  ret_simpl. apply (ends_from B _ _ c3); [exact G3|]. assert (H3 : conn_ok B c3) by apply G3.
  assert (Ht3 : told → disconnected c3 = true).
  { intros tt. destruct (good_quiet _ _ _ _ _ G3) as [Q _ _ _ _]. by apply Q, Ht2. }
  case_if.
  - destruct (scan_only_ends B c3 (s {{ scan_only := false }}) out own H3) as (r & c' & s' & mem & E' & H' & Q' & F'); [lia|done|done|].
    exists r, c', s', mem. split_and!; [exact E'|apply (sys_ok_more B); [lia|done]|done|done].
  - destruct (announce_good B c3 s (own && negb (external_scan data)) H3) as [G4 _].
    destruct (announce_results c3 s _) as [c4 s4]. cbn [fst snd] in *.
    assert (G5 := notify_good B c4 (gd_ok _ _ _ _ _ G4)).
    apply (ends_from B _ _ (notify_results c4)); [by eapply frame_trans|].
    assert (Ht5 : told → disconnected (notify_results c4) = true).
    { intros tt. destruct (good_quiet _ _ _ _ _ G5) as [Q _ _ _ _], (good_quiet _ _ _ _ _ G4) as [Q' _ _ _ _].
      by apply Q, Q', Ht3. }
    case_if; [|by apply use_results_ends; [apply G5| | |]].
    destruct (free_ends (Some out)) as (mem & -> & F); [by intros ? [= <-]|]. ret_simpl. do 4 eexists.
    split_and!; [done|apply (sys_ok_more B); [lia|apply G5]|apply quiet_refl|done].
Qed.
End event.

(** ** Properties *)

(** C18: The event of scan results is safe: in a daemon in order ([conn_ok]: the
    interface not disabled, transmit key indices within 0 to 3, counters below
    [MANY_STEPS]; [table_ok], with counters that do not wrap around), whatever
    an access point put into its elements, the results that the driver
    delivers are stored, announced and used - for a connection, for a command
    that only asked for them or for a report on overlapping networks - without
    undefined behaviour, and the daemon is in order afterwards. The results
    delivered, with their array and structure, those that the filter drops
    included, are freed, each exactly once and nothing else with them. What is
    delivered are distinct objects with the levels of a radio, on which the
    comparison is an order ([deliverable]), and the allocator answers with free
    addresses or not at all ([allocates]). *)
Theorem scan_event_safe `{QsortOk} env malloc_ok capab answer B c s data own drv now end_now :
  conn_ok B c → 0 ≤ B ≤ MANY_STEPS → scan_prev_wpa_state s ≠ WPA_INTERFACE_DISABLED → allocates false answer →
  table_ok (table_of c) → 0 ≤ bss_update_idx (table_of c) < 2 ^ 32 - 1 → 0 ≤ bss_next_id (table_of c) →
  (∀ res, drv = Some res → deliverable capab (table_of c) res) →
  ∃ r c' s' mem, _wpa_supplicant_event_scan_results env malloc_ok capab answer c s data own drv now end_now = Ret (r, c', s', mem) ∧
    conn_ok (B + 6) c' ∧ freed drv mem.
Proof.
  intros. destruct (event_spec False env malloc_ok capab answer B c s data own drv now end_now)
    as (r & c' & s' & mem & E & H' & _ & F); [done..|]. by exists r, c', s', mem.
Qed.

(** Scan results do not end a disconnection: while the daemon was told to stay
    disconnected, has no network and nothing queued to associate with, the
    event of scan results, whoever asked for the scan, leaves it so. *)
Theorem scan_event_stays `{QsortOk} env malloc_ok capab answer B c s data own drv now end_now :
  conn_ok B c → 0 ≤ B ≤ MANY_STEPS → scan_prev_wpa_state s ≠ WPA_INTERFACE_DISABLED → allocates false answer →
  table_ok (table_of c) → 0 ≤ bss_update_idx (table_of c) < 2 ^ 32 - 1 → 0 ≤ bss_next_id (table_of c) →
  (∀ res, drv = Some res → deliverable capab (table_of c) res) →
  disconnected c = true → current c = None → pending_sme c = None → pending_connect c = None →
  ∃ r c' s' mem, _wpa_supplicant_event_scan_results env malloc_ok capab answer c s data own drv now end_now = Ret (r, c', s', mem) ∧
    disconnected c' = true ∧ current c' = None ∧ pending_sme c' = None ∧ pending_connect c' = None.
Proof.
  intros ? ? ? ? ? ? ? ? Hd Hc Hs Hp.
  destruct (event_spec True env malloc_ok capab answer B c s data own drv now end_now) as (r & c' & s' & mem & E & H' & [Q1 Q2 Q3 Q4 Q5] & _);
    [done..|]. exists r, c', s', mem. split_and!; [exact E|by apply Q1|by apply Q5|by apply Q3|by apply Q4].
Qed.

(** ** Witnesses *)

Definition demo_state : scan_state := ScanState NORMAL_SCAN_REQ false 0 true true false false WPA_INACTIVE.

Lemma demo_deliverable state cur : deliverable CAPAB_HT (table_of (demo_conn state cur)) demo_scan.
Proof.
  change (table_of (demo_conn state cur)) with demo_table. split.
  - apply deliveredb_sound. by vm_compute.
  - assert (H : map_Forall (λ _ r, -1000000 ≤ res_level r ≤ 1000000) (sr_heap demo_scan)).
    { apply (bool_decide_unpack _). by vm_compute. }
    intros p r _. apply H.
  - by vm_compute.
  - apply consistent_scan. by vm_compute.
Qed.

Lemma scan_event_safe_witness :
  ∃ r c' s' mem, _wpa_supplicant_event_scan_results (H := insertion_qsort) demo_env (λ _, true) CAPAB_HT demo_answer
      (demo_conn WPA_SCANNING None) demo_state None true (Some demo_scan) (9, 0) (11, 0) = Ret (r, c', s', mem) ∧
    conn_ok 6 c' ∧ freed (Some demo_scan) mem.
Proof.
  apply (scan_event_safe (H := insertion_qsort) demo_env (λ _, true) CAPAB_HT demo_answer 0).
  - apply demo_conn_ok; [done|by left].
  - done.
  - done.
  - apply demo_allocates.
  - apply demo_table_ok.
  - by vm_compute.
  - by vm_compute.
  - intros res [= <-]. apply demo_deliverable.
Defined.

Lemma scan_event_stays_witness :
  let c := (demo_conn WPA_DISCONNECTED None) {{ disconnected := true }} in
  ∃ r c' s' mem, _wpa_supplicant_event_scan_results (H := insertion_qsort) demo_env (λ _, true) CAPAB_HT demo_answer
      c demo_state None true (Some demo_scan) (9, 0) (11, 0) = Ret (r, c', s', mem) ∧
    disconnected c' = true ∧ current c' = None ∧ pending_sme c' = None ∧ pending_connect c' = None.
Proof.
  cbn zeta. apply (scan_event_stays (H := insertion_qsort) demo_env (λ _, true) CAPAB_HT demo_answer 0).
  - apply (demo_conn_ok WPA_DISCONNECTED None); [done|by left].
  - done.
  - done.
  - apply demo_allocates.
  - apply demo_table_ok.
  - by vm_compute.
  - by vm_compute.
  - intros res [= <-]. apply (demo_deliverable WPA_DISCONNECTED None).
  - done.
  - done.
  - done.
  - done.
Defined.

(** *** From what was heard to an association *)

(** Two new access points of the network with the key; the driver reports the
    weaker one first. *)
Definition two_points : wpa_scan_results :=
  let point last level := heard last 17 level 0 (0 :: 3 :: replicate 3 97 ++ [1; 2; 130; 150] ++ rsn_psk) in
  ScanResults (<[100 := point 4 (-85)]> (<[101 := point 5 (-65)]> ∅)) [100; 101] (10, 0).

(** The address of the access point that is queued to associate with. *)
Definition queued_point (c : conn) : option (list Z) :=
  w ← pending_sme c; p ← cw_bss w; bss_bssid <$> heap (table_of c) !! p.

Example stronger_point_is_queued :
  match _wpa_supplicant_event_scan_results (H := insertion_qsort) demo_env (λ _, true) CAPAB_HT demo_answer
          (demo_conn WPA_SCANNING None) demo_state None true (Some two_points) (9, 0) (11, 0) with
  | Ret (r, c, s, _) => r = 1 ∧ queued_point c = Some [2; 0; 0; 0; 0; 5] ∧ scan_work s = false
  | _ => False
  end.
Proof. by vm_compute. Qed.
